(* ===== verification/_CoqProject ===== *)
-Q . S2P
Prelude.v
Machine.v
Kstring.v
Kernel.v
Spinlock.v
Kalloc.v
Vm.v
VmSpec.v
VmMap.v
VmUser.v
VmCopy.v
VmFork.v
Printf.v
Sched.v
SleepWake.v
Proc.v
Sleeplock.v
Bio.v
BioSpec.v
Log.v
Fs.v
Pipe.v
Console.v
File.v
Trap.v
ProcFs.v
FsSpec.v
VmFree.v
ProcSpec.v
ProcFree.v
ProcAlloc.v
ProcFork.v
Syscall.v
Exec.v
Sysfile.v
Dispatch.v
TrapSpec.v
LogSpec.v
LogCommit.v
FsTx.v
FsAlloc.v
FsFile.v
FsGrow.v
FsBmap.v
FsBytes.v
FsWrite.v
FsDir.v
FsTrunc.v
FileSpec.v
Demo.v
DemoZombie.v
DemoFork.v
DemoFs.v
PropsMem.v
PropsProc.v
PropsFs.v
PropsLog.v
PropsFile.v
Mkfs.v
MkfsSpec.v
MkfsMain.v
MkfsBoot.v
PropsMkfs.v
Virtio.v
VirtioSpec.v
VirtioRace.v
VirtioRw.v
PropsDisk.v
Ugrep.v
Ush.v
Ulib.v
Uprintf.v
Uprogs.v
Ucmds.v
Ushrun.v
Umalloc.v
UmallocSpec.v
PropsUser.v
Boot.v
PropsBoot.v
