(* ===== verification/Prelude.v ===== *)
(** * A verification of the xv6-riscv kernel with priority scheduling and memory limits

    The program is xv6 for RISC-V, in C, with three changes of its own: a
    priority-based scheduler (PBS) with the system calls setpriority(),
    waitx() and trace(), a limit [max_mem] on the memory of a process, and a
    Ctrl-P process dump.  This library translates the kernel (src/kernel) and
    user space (src/user: the shell, grep, the library with printf and malloc,
    and the small programs), and the program that makes the disk image
    (src/mkfs), into executable definitions and proves what makes them correct.

    ** The parts of the program and how they interact

    System calls and interrupts enter through trap.c; syscall.c dispatches to
    the handlers of sysproc.c and sysfile.c.  Those use the process table
    (proc.c), the address spaces (vm.c, on the page allocator kalloc.c), and the
    file layers: descriptors (file.c), pipes (pipe.c) and the console
    (console.c, uart.c), inodes, directories and path names (fs.c), the
    write-ahead log (log.c), the buffer cache (bio.c) and the disk driver.
    Every layer takes spinlocks (spinlock.c); buffers and inodes have sleep
    locks (sleeplock.c) whose waiters go through sleep() and wakeup() of
    proc.c, and so through the scheduler.

    ** How code is modelled

    The static variables of the kernel are the record [kernel] of Kernel.v and
    a routine is a computation of the monad [K] (the state monad [M] of this
    file on [kernel]).  It ends with a value, with the message of panic(), or
    waiting: spinning on a lock of another hart, or switched away by swtch().
    What the rest of the system does while it waits is the environment, a list
    of state transformers of which every wait consumes one; a theorem that
    quantifies over the environment quantifies over all behaviour of the other
    threads at the points where the code gives up control.  A loop that is not
    over a fixed table has fuel, and [NoFuel] is never the answer to a theorem:
    the fuel of each loop is computed from its data (pages of a range, bytes of
    a request, waits of the environment, entries of the ring) and the theorems
    show that the loop ends within it.  For user code, which is sequential, fuel is
    an argument and [None] means that it ran out; the theorems give the number
    that is enough.

    C integers are [Z] with every wrap-around written out ([u8], [u32], [u64],
    [i32]).  Physical memory is a map of bytes with little-endian words, so page
    tables, the free list of kalloc.c and user data are bytes of it; pointers to
    entries of static tables are indices.  Blocks of the disk are byte lists,
    and on-disk structures are decoded at the offsets of the C structs.

    Spinlocks make a critical section atomic for one hart.  Spinlock.v shows
    for the state transformer that under [cpu_ok] (a valid hart with consistent
    interrupt nesting) acquire() and release() cancel, which lets every later proof rewrite a locked
    section to its body; and for any number of harts, as an interleaving step
    relation, that the lock admits one holder.

    ** The files

    - Prelude: C integers, the monad with its loops and laws, hint databases.
    - Machine, Kernel: constants and address arithmetic of param.h, memlayout.h
      and riscv.h; physical memory; the structs and the kernel state.
    - Kstring: string.c.  Spinlock: spinlock.c.  Printf: printf.c.
    - Kalloc: kalloc.c, with the class [PageAllocator], the contract that vm.c
      uses, and the instance that discharges it.
    - Vm: vm.c.  VmSpec: page tables in memory ([pt_rep]).  VmMap: mappages()
      and uvmunmap().  VmUser: user address spaces ([uvm]).  VmCopy: copyin(),
      copyout(), copyinstr() against the bytes the process can access.
      VmFork: uvmcopy() with the address spaces of parent and child.  VmFree:
      freewalk() and the way of an address space back to the pool.
    - Sched, Proc, ProcFs: proc.c (scheduling and sleeping; life cycle; fork and
      exit).  SleepWake: sleep() and wakeup() as sequences of actions that any
      number of processes run at the same time.  ProcSpec: memory limit, pids, the process table.  ProcFree: freeproc()
      and wait() with a zombie child.  ProcAlloc: proc_pagetable() and allocproc().
      ProcFork: fork() as a whole.
    - Sleeplock: sleeplock.c.  Bio: bio.c over the class [BlockDevice].
      BioSpec: the cache as a view of the disk ([bcached]).
    - Log: log.c.  LogSpec: admission and absorption.  LogCommit: the commit
      protocol, crashes and recovery.
    - Fs: fs.c.  FsSpec: on-disk formats, bitmap, path elements.  FsTx: blocks
      read and written inside a transaction ([in_txn]).  FsAlloc: balloc().
      FsFile: the bytes of a file and readi().  FsGrow, FsBmap: well-formed
      files ([file_ok]) and the blocks bmap() adds to them.  FsBytes, FsWrite:
      writei() and iupdate().  FsDir: dirlookup() and dirlink().  FsTrunc:
      itrunc().
    - Pipe, Console, File: pipe.c, console.c with uart.c, file.c.  FileSpec.
    - Trap, Dispatch: trap.c, the dispatcher of syscall.c, main().  Syscall:
      argument fetching and sysproc.c.  Sysfile: sysfile.c.  Exec: exec.c.
      TrapSpec: the system calls as user programs know them, and what dispatch
      and return guarantee.
    - Virtio: virtio_disk.c on the rings shared with the device.  VirtioSpec:
      the device, the calls in progress and their invariant.  VirtioRace: the
      single stores of processes and interrupt handler interleaved with the
      device.  VirtioRw: virtio_disk_rw() as a whole, with others at its waits.
    - Demo, DemoZombie, DemoFork, DemoFs: concrete kernel states for the witnesses.
    - PropsMem, PropsProc, PropsFs, PropsLog, PropsFile, PropsDisk: the
      properties of the kernel.
    - Mkfs: mkfs/mkfs.c.  MkfsSpec: the image while files are added ([image]).
      MkfsMain: the whole run.  MkfsBoot: the image as the kernel reads it.
      PropsMkfs: its properties.
    - Boot: start.c, the timer interrupt (timervec of kernelvec.S), plic.c and
      the register writes of uartinit(), on the registers of one hart and its
      memory.  PropsBoot: its property.
    - Ulib, Uprintf, Umalloc: user/ulib.c, user/printf.c, user/umalloc.c.
      UmallocSpec: the heap as blocks.
    - Ugrep: grep.c.  Ush: the parser of sh.c.  Ushrun: runcmd() and the prompt
      loop of sh.c, as the processes, descriptors and programs they lead to.
    - Uprogs: wc.c, cat.c, ls.c and the main() of grep.  Ucmds: the small
      programs, as the system calls they make against any kernel.
    - PropsUser: the properties of user space.

    ** What the theorems show

    - Crash safety (PropsLog): a crash after any prefix of the block writes of
      end_op(), then recovery, leaves the whole transaction or none of it;
      recovery can itself be interrupted and restarted.  Below it, the buffer
      cache refines a view of the disk: bread() returns the block of the view.
    - Scheduling (PropsProc): a turn of scheduler() dispatches exactly the best
      runnable process by dynamic priority, number of runs and age, with its
      counters reset; in no interleaving of sleep() and wakeup() is a wakeup
      lost; the clock charges each process by its state and wakes exactly its
      own sleepers; fork() makes a runnable copy of the caller with memory of
      its own, or gives everything back; wait() reaps a zombie child, stores
      its status for the parent, and every page it had goes back to the
      allocator, or it fails and keeps the child.
    - Memory (PropsMem): the allocator round trip; mappages() maps exactly its
      range; growing a process is all or nothing, loses no page and succeeds when
      there are three free pages for each page asked for; copyin and copyout
      move exactly the bytes the process can access; growproc() respects max_mem.
    - Files (PropsFs): pipes are byte queues, for buffers of any length, with
      the sleeping writer of a full pipe and the sleeping reader of an empty
      one, and their errors; begin_op() reserves log space;
      log_write() absorbs; the LRU order; inode encoding; path elements.
    - The file system (PropsFile): balloc() takes the lowest free block; readi()
      returns the bytes of the file; writei() is the splice of the bytes into
      the file and leaves every other file and inode alone, within the log space
      its caller reserved; a name is found after dirlink() and every other name
      is found where it was; itrunc() frees exactly the blocks of its file.
    - The disk driver (PropsDisk): between any two stores of processes and
      interrupt handler, with the device running at the same time, the
      descriptor chains of the requests are disjoint, what the device has
      fetched is completely written, nothing panics and a completed request has
      transferred its block; and virtio_disk_rw() transfers its block.
    - The image (PropsMkfs): mkfs builds a well-formed file system in the same
      sense in which the kernel keeps it, with every source file under its name;
      fsinit() mounts it.
    - Traps (PropsProc): each system call reaches the function that serves it,
      with its result and its trace line, and the table that syscall()
      reads out of bounds.
    - User space (PropsUser): grep's matcher decides its patterns and grep
      prints the matching lines however its input is cut; the shell parses back
      what is printed, ends on every line, and runs what is typed with the
      descriptors its redirections and pipes prescribe and no pipe left open
      elsewhere; blocks from malloc() are
      apart in every sequence of calls.
    - Start-up (PropsBoot): start() hands the hart to main() with the timer
      running, and a timer interrupt is invisible to the code it interrupts.

    ** Parameters

    Addresses the linker fixes and the text of the boot image are the class
    [Symbols]; for the buffer cache the disk driver is [BlockDevice] with the
    behaviour virtio_disk_rw() has for its caller ([BlockDeviceOK]: it transfers
    the block and records the write), and for the driver the device is a step
    relation that takes available chains, transfers their data and reports them
    as used; the uart status register, the interrupt
    controller's answers, and the memory behind the table syscall_num[] are
    arguments of the definitions that read them.  In user space, sbrk() grants
    or refuses as a list says, and read() delivers given chunks; what the kernel
    answers to each call of the shell is the record [answers] and to the programs of Ucmds any
    function of the calls made so far; for mkfs the host's open() and read() are
    the data they return.  The instructions of the privileged architecture that
    Boot uses (mret, taking an interrupt, the views sie and sip) are written out
    there.

    ** Not modelled

    swtch.S, trampoline.S, entry.S and the rest of kernelvec.S save and restore
    registers; a switch hands the hart to the environment instead.  ramdisk.c is
    not linked.  The test suites usertests.c and grind.c exercise system calls
    and have nothing of their own to specify.  In the shell malloc() of a tree
    node is taken to succeed, as the code takes it; stat() of ulib.c is three
    system calls.  The memory model is sequentially consistent: __sync_synchronize()
    does nothing in it, and stores take effect in the order of the source.
    Interleaving inside a critical section is excluded by the lock theorems, not
    modelled for each routine, except for the disk driver, whose device takes no
    lock.  Between the buffer cache and the disk driver the connection is the
    contract [BlockDevice], not the driver's waits.  The stack that the
    variable-length array of syscall() takes is not modelled.  Page permissions
    are bits of the entries that walkaddr() and the copy routines test; the
    theorems on address spaces state which pages are mapped and what they hold.

    ** What could come next

    All routines of exit() and exec() are translated; what is proved of them is
    about their parts (wakeup(), the loads and copies).  Theorems about exit() and
    exec() as wholes, over the process table, the file tables and the log at once,
    are the largest that are not stated here. *)

From stdpp Require Export base gmap strings list numbers relations sorting.
From Stdlib Require Export ZArith Lia.
Global Open Scope Z_scope.
Global Set Default Goal Selector "!".

(** Arithmetic is left alone by [cbn] and [simpl]; the witnesses evaluate it. *)
Global Arguments Z.add : simpl never.
Global Arguments Z.sub : simpl never.
Global Arguments Z.mul : simpl never.
Global Arguments Z.div : simpl never.
Global Arguments Z.modulo : simpl never.
Global Arguments Z.pow : simpl never.
Global Arguments Z.testbit : simpl never.
Global Arguments Z.land : simpl never.
Global Arguments Z.lor : simpl never.
Global Arguments Z.lnot : simpl never.
Global Arguments Z.shiftl : simpl never.
Global Arguments Z.shiftr : simpl never.
Global Arguments Z.of_nat : simpl never.
Global Arguments Z.to_nat : simpl never.

Create HintDb xv6.
Create Rewrite HintDb xv6.
Declare Scope kernel_scope.
Delimit Scope kernel_scope with kernel.

(** ** C integers

    A [w]-bit unsigned value is a [Z] reduced modulo [2^w]; [i32] is the
    two's complement reading of the low 32 bits.  The casts and the wrap-around
    of C arithmetic are always written out with these functions. *)

Definition u8 (z : Z) : Z := z mod 2 ^ 8.
Definition u16 (z : Z) : Z := z mod 2 ^ 16.
Definition u32 (z : Z) : Z := z mod 2 ^ 32.
Definition u64 (z : Z) : Z := z mod 2 ^ 64.
Definition i32 (z : Z) : Z := (z + 2 ^ 31) mod 2 ^ 32 - 2 ^ 31.

Lemma u8_range z : 0 <= u8 z < 256.
Proof. unfold u8. pose proof (Z.mod_pos_bound z (2^8)). lia. Qed.
Lemma u32_range z : 0 <= u32 z < 2 ^ 32.
Proof. apply Z.mod_pos_bound. lia. Qed.
Lemma u64_range z : 0 <= u64 z < 2 ^ 64.
Proof. apply Z.mod_pos_bound. lia. Qed.
Lemma i32_range z : - 2 ^ 31 <= i32 z < 2 ^ 31.
Proof. unfold i32. pose proof (Z.mod_pos_bound (z + 2^31) (2^32)). lia. Qed.

Lemma u8_small z : 0 <= z < 256 -> u8 z = z.
Proof. intros. apply Z.mod_small. lia. Qed.
Lemma u32_small z : 0 <= z < 2 ^ 32 -> u32 z = z.
Proof. intros. by apply Z.mod_small. Qed.
Lemma u64_small z : 0 <= z < 2 ^ 64 -> u64 z = z.
Proof. intros. by apply Z.mod_small. Qed.
Lemma i32_small z : - 2 ^ 31 <= z < 2 ^ 31 -> i32 z = z.
Proof. intros. unfold i32. rewrite Z.mod_small; lia. Qed.

Lemma u8_idemp z : u8 (u8 z) = u8 z.
Proof. apply u8_small, u8_range. Qed.
Lemma u64_idemp z : u64 (u64 z) = u64 z.
Proof. apply u64_small, u64_range. Qed.
Lemma i32_idemp z : i32 (i32 z) = i32 z.
Proof. apply i32_small, i32_range. Qed.

Lemma i32_u64 z : i32 (u64 z) = i32 z.
Proof.
  unfold i32, u64. f_equal. rewrite <- (Zplus_mod_idemp_l (z mod 2 ^ 64)), <- (Zplus_mod_idemp_l z).
  f_equal. f_equal. symmetry. apply Znumtheory.Zmod_div_mod; [lia..|]. by exists (2 ^ 32).
Qed.
#[export] Hint Rewrite u8_idemp u64_idemp i32_idemp : xv6.
#[export] Hint Rewrite u8_small u32_small u64_small i32_small using lia : xv6.
#[export] Hint Resolve u8_range u32_range u64_range i32_range : xv6.

(** ** Lists updated in place *)

Lemma alter_insert {A} (f : A -> A) (l : list A) i x :
  l !! i = Some x -> alter f i l = <[i := f x]> l.
Proof.
  revert i. induction l as [|y l IH]; intros [|i] H; simplify_eq/=; [done|].
  f_equal. by apply IH.
Qed.

Lemma alter_same {A} (f : A -> A) (l : list A) i x :
  l !! i = Some x -> f x = x -> alter f i l = l.
Proof. intros H E. rewrite (alter_insert _ _ _ x), E by done. by apply list_insert_id. Qed.

(** ** The kernel monad

    A kernel routine runs on a state [S].  It returns a value, panics, or has
    to wait: it spins on a lock that another hart holds ([WSpin]) or it has
    given up its hart through [swtch] and has not been resumed ([WSwitch]).
    What the rest of the system does while the routine waits is given by the
    environment, a list of state transformers consumed one per wait; a routine
    that never waits returns its environment untouched.  [NoFuel] is the result
    of a loop whose fuel is used up. *)

Inductive wait_reason := WSpin | WSwitch.

Inductive out (S A : Type) : Type :=
| Ok (a : A) (e : list (S -> S)) (s : S)
| Panic (msg : string)
| Wait (w : wait_reason) (s : S)
| NoFuel.
Arguments Ok {S A} a e s.
Arguments Panic {S A} msg.
Arguments Wait {S A} w s.
Arguments NoFuel {S A}.

Definition M (S A : Type) : Type := list (S -> S) -> S -> out S A.

Section Monad.
Context {S : Type}.

Definition ret {A} (a : A) : M S A := fun e s => Ok a e s.
Definition bind {A B} (m : M S A) (f : A -> M S B) : M S B :=
  fun e s => match m e s with
             | Ok a e' s' => f a e' s'
             | Panic msg => Panic msg
             | Wait w s' => Wait w s'
             | NoFuel => NoFuel
             end.
Definition panic {A} (msg : string) : M S A := fun _ _ => Panic msg.
Definition gets {A} (f : S -> A) : M S A := fun e s => Ok (f s) e s.
Definition modify (f : S -> S) : M S unit := fun e s => Ok tt e (f s).
Definition skip : M S unit := ret tt.
Definition when (b : bool) (m : M S unit) : M S unit := if b then m else skip.

(** Hand the hart over to the environment until it hands it back. *)
Definition hand_over : M S unit :=
  fun e s => match e with
             | [] => Wait WSwitch s
             | f :: e' => Ok tt e' (f s)
             end.

(** [for_ l f]: the counted loops of the source. *)
Fixpoint for_ {A} (l : list A) (f : A -> M S unit) : M S unit :=
  match l with
  | [] => skip
  | a :: l' => bind (f a) (fun _ => for_ l' f)
  end.

(** Counted loop that carries the local variables of the source along. *)
Fixpoint fold_ {A B} (l : list A) (f : B -> A -> M S B) (b : B) : M S B :=
  match l with
  | [] => ret b
  | a :: l' => bind (f b a) (fun b' => fold_ l' f b')
  end.

(** Loop with early exit: the body returns [Some r] to leave the loop with
    [r] (a [return] or a [goto] out of it), [None] to go on. *)
Fixpoint first_ {A R} (l : list A) (f : A -> M S (option R)) : M S (option R) :=
  match l with
  | [] => ret None
  | a :: l' => bind (f a) (fun o => match o with
                                    | Some r => ret (Some r)
                                    | None => first_ l' f
                                    end)
  end.

(** Loop with local variables and early exit: [inl r] leaves with [r]. *)
Fixpoint scan_ {A B R} (l : list A) (f : B -> A -> M S (R + B)) (b : B) : M S (R + B) :=
  match l with
  | [] => ret (inr b)
  | a :: l' => bind (f b a) (fun o => match o with
                                      | inl r => ret (inl r)
                                      | inr b' => scan_ l' f b'
                                      end)
  end.

(** [for(;;)] loop with fuel: [inl r] leaves, [inr x] starts the next round
    with loop variables [x]. *)
Fixpoint loop_ {X R} (fuel : nat) (body : X -> M S (R + X)) (x : X) : M S R :=
  match fuel with
  | O => fun _ _ => NoFuel
  | Datatypes.S fuel' =>
      bind (body x) (fun o => match o with
                              | inl r => ret r
                              | inr x' => loop_ fuel' body x'
                              end)
  end.

Lemma bind_ret_l {A B} (a : A) (f : A -> M S B) e s : bind (ret a) f e s = f a e s.
Proof. done. Qed.
Lemma bind_assoc {A B C} (m : M S A) (f : A -> M S B) (g : B -> M S C) e s :
  bind (bind m f) g e s = bind m (fun a => bind (f a) g) e s.
Proof. unfold bind. by destruct (m e s). Qed.
Lemma bind_Ok {A B} (m : M S A) (f : A -> M S B) a e s e' s' :
  m e s = Ok a e' s' -> bind m f e s = f a e' s'.
Proof. intros H. unfold bind. by rewrite H. Qed.
Lemma bind_Wait {A B} (m : M S A) (f : A -> M S B) e s w s' :
  m e s = Wait w s' -> bind m f e s = Wait w s'.
Proof. intros H. unfold bind. by rewrite H. Qed.
(** Replacing the first or the second part of a sequence. *)
Lemma bind_from {A B} (m m' : M S A) (g : A -> M S B) e s e' s' : m e s = m' e' s' -> bind m g e s = bind m' g e' s'.
Proof. intros E. unfold bind. by rewrite E. Qed.
Lemma bind_then {A B} (m : M S A) (f g : A -> M S B) e s : (forall a e' s', f a e' s' = g a e' s') -> bind m f e s = bind m g e s.
Proof. intros E. unfold bind. destruct (m e s); [apply E|done..]. Qed.
Lemma bind_skip (m : M S unit) e s : bind m (fun _ => skip) e s = m e s.
Proof. unfold bind. by destruct (m e s) as [[] ? ?| | |]. Qed.
Lemma bind_Panic {A B} (m : M S A) (f : A -> M S B) e s msg :
  m e s = Panic msg -> bind m f e s = Panic msg.
Proof. intros H. unfold bind. by rewrite H. Qed.
Lemma bind_inv_Ok {A B} (m : M S A) (f : A -> M S B) e s b e' s' :
  bind m f e s = Ok b e' s' ->
  exists a e1 s1, m e s = Ok a e1 s1 /\ f a e1 s1 = Ok b e' s'.
Proof. unfold bind. destruct (m e s); naive_solver. Qed.

Lemma for_app {A} (l1 l2 : list A) (f : A -> M S unit) e s :
  for_ (l1 ++ l2) f e s = bind (for_ l1 f) (fun _ => for_ l2 f) e s.
Proof.
  revert e s. induction l1 as [|a l1 IH]; intros e s; [done|].
  cbn. unfold bind. destruct (f a e s) as [[] e' s'| | |]; [|done..]. apply IH.
Qed.

Lemma first_app {A R} (l1 l2 : list A) (f : A -> M S (option R)) e s :
  first_ (l1 ++ l2) f e s =
  bind (first_ l1 f) (fun o => match o with
                               | Some r => ret (Some r)
                               | None => first_ l2 f
                               end) e s.
Proof.
  revert e s. induction l1 as [|a l1 IH]; intros e s; [done|].
  cbn. unfold bind. destruct (f a e s) as [[r|] e' s'| | |]; [done| |done..]. apply IH.
Qed.

(** The invariant rule of the loop with local variables. *)
Lemma fold_inv {A B} (P : list A -> B -> S -> Prop) (l : list A) (f : B -> A -> M S B) e b s :
  P [] b s ->
  (forall done a todo b s, l = done ++ a :: todo -> P done b s ->
     exists b' s', f b a e s = Ok b' e s' /\ P (done ++ [a]) b' s') ->
  exists b' s', fold_ l f b e s = Ok b' e s' /\ P l b' s'.
Proof.
  intros H0 Hstep.
  cut (forall done todo b s, l = done ++ todo -> P done b s ->
         exists b' s', fold_ todo f b e s = Ok b' e s' /\ P l b' s').
  { intros Hcut. by apply (Hcut [] l). }
  intros done todo. revert done. induction todo as [|a todo IH]; intros done b1 s1 Hl HP.
  - exists b1, s1. rewrite app_nil_r in Hl. by subst.
  - destruct (Hstep done a todo b1 s1 Hl HP) as (b2 & s2 & Hs2 & HP2).
    destruct (IH (done ++ [a]) b2 s2) as (b3 & s3 & Hs3 & HP3).
    { by rewrite <- app_assoc. }
    { done. }
    exists b3, s3. cbn. by rewrite (bind_Ok _ _ _ _ _ _ _ Hs2).
Qed.

(** The invariant rule of the counted loop. *)
Lemma for_inv {A} (P : list A -> S -> Prop) (l : list A) (f : A -> M S unit) e s :
  P [] s ->
  (forall done a todo s, l = done ++ a :: todo -> P done s ->
     exists s', f a e s = Ok tt e s' /\ P (done ++ [a]) s') ->
  exists s', for_ l f e s = Ok tt e s' /\ P l s'.
Proof.
  intros H0 Hstep.
  cut (forall done todo s, l = done ++ todo -> P done s ->
         exists s', for_ todo f e s = Ok tt e s' /\ P l s').
  { intros Hcut. by apply (Hcut [] l). }
  intros done todo. revert done. induction todo as [|a todo IH]; intros done s1 Hl HP.
  - exists s1. rewrite app_nil_r in Hl. by subst.
  - destruct (Hstep done a todo s1 Hl HP) as (s2 & Hs2 & HP2).
    destruct (IH (done ++ [a]) s2) as (s3 & Hs3 & HP3).
    { by rewrite <- app_assoc. }
    { done. }
    exists s3. cbn. by rewrite (bind_Ok _ _ _ _ _ _ _ Hs2).
Qed.
End Monad.

Notation "x <- c1 ;; c2" := (bind c1 (fun x => c2))
  (at level 100, c1 at next level, right associativity) : kernel_scope.
Notation "c1 ;;; c2" := (bind c1 (fun _ => c2))
  (at level 100, right associativity) : kernel_scope.
Global Open Scope kernel_scope.

Arguments bind {S A B} m f e s /.
Arguments ret {S A} a e s /.
Arguments gets {S A} f e s /.
Arguments modify {S} f e s /.
Arguments skip {S} e s /.
Arguments panic {S A} msg e s /.

(** Resolve the decided conditions of the source that arithmetic or the
    hypotheses settle. *)

Ltac dec :=
  cbn; repeat (match goal with
               | |- context [@decide ?P ?H] =>
                   first [ rewrite (@decide_True _ P H) by (solve [done | lia | congruence])
                         | rewrite (@decide_False _ P H) by (solve [done | lia | congruence]) ]
               end; cbn).
