(* ===== verification/Machine.v ===== *)
(** * The machine: constants of the headers, Sv39 arithmetic, physical memory

    The parameters of param.h, the memory map of memlayout.h, the page and page
    table macros of riscv.h, and byte-addressed physical memory with
    little-endian multi-byte accesses.  The macros are translated with the
    64-bit arithmetic the compiler gives them; the lemmas turn them into
    division and remainder, the form the proofs about kalloc.c and vm.c use. *)

From S2P Require Import Prelude.

(** ** param.h *)
Definition NPROC : nat := 64.
Definition NCPU : nat := 8.
Definition NOFILE : nat := 16.
Definition NFILE : nat := 100.
Definition NINODE : nat := 50.
Definition NDEV : Z := 10.
Definition ROOTDEV : Z := 1.
Definition MAXARG : nat := 32.
Definition MAXOPBLOCKS : Z := 10.
Definition LOGSIZE : Z := MAXOPBLOCKS * 3.
Definition NBUF : nat := 30.
Definition MAXPATH : Z := 128.
(** fs.h *)
Definition BSIZE : Z := 1024.

(** ** riscv.h: page size and rounding *)
Definition PGSIZE : Z := 4096.
Definition PGSHIFT : Z := 12.
Definition PGROUNDUP (sz : Z) : Z := Z.land (u64 (sz + PGSIZE - 1)) (Z.lnot (PGSIZE - 1)).
Definition PGROUNDDOWN (a : Z) : Z := Z.land (u64 a) (Z.lnot (PGSIZE - 1)).

(** ** riscv.h: page table entries *)
Definition PTE_V : Z := Z.shiftl 1 0.
Definition PTE_R : Z := Z.shiftl 1 1.
Definition PTE_W : Z := Z.shiftl 1 2.
Definition PTE_X : Z := Z.shiftl 1 3.
Definition PTE_U : Z := Z.shiftl 1 4.
Definition PA2PTE (pa : Z) : Z := u64 (Z.shiftl (Z.shiftr pa 12) 10).
Definition PTE2PA (pte : Z) : Z := u64 (Z.shiftl (Z.shiftr pte 10) 12).
Definition PTE_FLAGS (pte : Z) : Z := Z.land pte 0x3FF.
Definition PXMASK : Z := 0x1FF.
Definition PXSHIFT (level : Z) : Z := PGSHIFT + 9 * level.
Definition PX (level va : Z) : Z := Z.land (Z.shiftr va (PXSHIFT level)) PXMASK.
Definition MAXVA : Z := Z.shiftl 1 (9 + 9 + 9 + 12 - 1).
Definition SATP_SV39 : Z := Z.shiftl 8 60.
Definition MAKE_SATP (pagetable : Z) : Z := Z.lor SATP_SV39 (Z.shiftr pagetable 12).

(** ** riscv.h: bits of sstatus *)
Definition SSTATUS_SPP : Z := Z.shiftl 1 8.
Definition SSTATUS_SPIE : Z := Z.shiftl 1 5.
Definition SSTATUS_SIE : Z := Z.shiftl 1 1.

(** ** memlayout.h *)
Definition UART0 : Z := 0x10000000.
Definition UART0_IRQ : Z := 10.
Definition VIRTIO0 : Z := 0x10001000.
Definition VIRTIO0_IRQ : Z := 1.
Definition PLIC : Z := 0x0c000000.
Definition KERNBASE : Z := 0x80000000.
Definition PHYSTOP : Z := KERNBASE + 128 * 1024 * 1024.
Definition TRAMPOLINE : Z := MAXVA - PGSIZE.
Definition KSTACK (p : Z) : Z := TRAMPOLINE - (p + 1) * 2 * PGSIZE.
Definition TRAPFRAME : Z := TRAMPOLINE - PGSIZE.

(** ** Physical memory

    One byte per address; an address never written reads as zero. *)
Abbreviation mem := (gmap Z Z).

Definition read8 (m : mem) (a : Z) : Z := u8 (default 0 (m !! a)).
Definition write8 (m : mem) (a v : Z) : mem := <[a := u8 v]> m.

Fixpoint read_le (n : nat) (m : mem) (a : Z) : Z :=
  match n with
  | O => 0
  | S n' => read8 m a + 256 * read_le n' m (a + 1)
  end.
Fixpoint write_le (n : nat) (m : mem) (a v : Z) : mem :=
  match n with
  | O => m
  | S n' => write_le n' (write8 m a v) (a + 1) (v / 256)
  end.

Definition read64 (m : mem) (a : Z) : Z := read_le 8 m a.
Definition write64 (m : mem) (a v : Z) : mem := write_le 8 m a v.

Fixpoint read_bytes (n : nat) (m : mem) (a : Z) : list Z :=
  match n with
  | O => []
  | S n' => read8 m a :: read_bytes n' m (a + 1)
  end.
Fixpoint write_bytes (m : mem) (a : Z) (l : list Z) : mem :=
  match l with
  | [] => m
  | v :: l' => write_bytes (write8 m a v) (a + 1) l'
  end.

(** ** Lemmas: rounding *)

Lemma land_lnot_pgmask a : Z.land a (Z.lnot (PGSIZE - 1)) = a - a mod PGSIZE.
Proof.
  change (PGSIZE - 1) with (Z.ones 12). rewrite <- Z.ldiff_land, Z.ldiff_ones_r by lia.
  rewrite Z.shiftr_div_pow2, Z.shiftl_mul_pow2 by lia.
  change (2 ^ 12) with PGSIZE. pose proof (Z.div_mod a PGSIZE). unfold PGSIZE in *. lia.
Qed.

Lemma PGROUNDDOWN_spec a : 0 <= a < 2 ^ 64 -> PGROUNDDOWN a = a - a mod PGSIZE.
Proof. intros. unfold PGROUNDDOWN. by rewrite land_lnot_pgmask, u64_small. Qed.

Lemma PGROUNDDOWN_aligned a : 0 <= a < 2 ^ 64 -> a mod PGSIZE = 0 -> PGROUNDDOWN a = a.
Proof. intros. rewrite PGROUNDDOWN_spec; lia. Qed.

(** [PGROUNDUP sz] is the least multiple of the page size that is not below
    [sz], as long as the addition does not wrap. *)
Lemma PGROUNDUP_spec sz :
  0 <= sz <= 2 ^ 64 - PGSIZE ->
  sz <= PGROUNDUP sz < sz + PGSIZE /\ PGROUNDUP sz mod PGSIZE = 0.
Proof.
  intros H. unfold PGROUNDUP. rewrite land_lnot_pgmask.
  unfold PGSIZE in *. rewrite u64_small by lia.
  pose proof (Z.mod_pos_bound (sz + 4096 - 1) 4096). split; [lia|].
  rewrite Zminus_mod_idemp_r, Z.sub_diag. done.
Qed.

Lemma PGROUNDUP_aligned sz :
  0 <= sz <= 2 ^ 64 - PGSIZE -> sz mod PGSIZE = 0 -> PGROUNDUP sz = sz.
Proof.
  intros H Ha. destruct (PGROUNDUP_spec sz H) as [? Hm].
  apply Z.mod_divide in Ha as [x ->]; [|done]. apply Z.mod_divide in Hm as [y Hy]; [|done].
  unfold PGSIZE in *. rewrite Hy in *. f_equal. lia.
Qed.

Lemma aligned_add a b : a mod PGSIZE = 0 -> b mod PGSIZE = 0 -> (a + b) mod PGSIZE = 0.
Proof. intros Ha Hb. by rewrite Zplus_mod, Ha, Hb. Qed.

(** Two different page-aligned addresses are at least a page apart. *)
Lemma aligned_apart a b :
  a mod PGSIZE = 0 -> b mod PGSIZE = 0 -> a <> b -> a + PGSIZE <= b \/ b + PGSIZE <= a.
Proof.
  intros Ha Hb Hne. apply Z.mod_divide in Ha as [x ->]; [|done].
  apply Z.mod_divide in Hb as [y ->]; [|done]. unfold PGSIZE in *. lia.
Qed.

Lemma aligned_le a b : a mod PGSIZE = 0 -> b mod PGSIZE = 0 -> a < b + PGSIZE -> a <= b.
Proof.
  intros Ha Hb Hlt. destruct (decide (a = b)); [lia|]. destruct (aligned_apart a b); try done; lia.
Qed.

(** ** Lemmas: page table entries and indices *)

Lemma PX_range level va : 0 <= PX level va < 512.
Proof.
  unfold PX, PXMASK. change 0x1FF with (Z.ones 9). rewrite Z.land_ones by lia.
  pose proof (Z.mod_pos_bound (Z.shiftr va (PXSHIFT level)) (2^9)). lia.
Qed.

Lemma PX_spec level va : 0 <= level -> PX level va = va / 2 ^ (12 + 9 * level) mod 512.
Proof.
  intros. unfold PX, PXMASK, PXSHIFT, PGSHIFT. change 0x1FF with (Z.ones 9).
  rewrite Z.land_ones, Z.shiftr_div_pow2 by lia. done.
Qed.

(** The three indices determine a page-aligned address below 2^39. *)
Lemma PX_decompose va :
  0 <= va < 2 ^ 39 -> va mod PGSIZE = 0 ->
  va = PX 2 va * 2 ^ 30 + PX 1 va * 2 ^ 21 + PX 0 va * 2 ^ 12.
Proof.
  intros H Ha. rewrite !PX_spec by lia. unfold PGSIZE in *.
  change (12 + 9 * 2) with 30. change (12 + 9 * 1) with 21. change (12 + 9 * 0) with 12.
  Z.div_mod_to_equations. lia.
Qed.

Lemma PX_inj va1 va2 :
  0 <= va1 < 2 ^ 39 -> 0 <= va2 < 2 ^ 39 ->
  va1 mod PGSIZE = 0 -> va2 mod PGSIZE = 0 ->
  PX 2 va1 = PX 2 va2 -> PX 1 va1 = PX 1 va2 -> PX 0 va1 = PX 0 va2 -> va1 = va2.
Proof.
  intros ? ? ? ? E2 E1 E0. rewrite (PX_decompose va1), (PX_decompose va2) by done.
  by rewrite E2, E1, E0.
Qed.

Lemma PA2PTE_spec pa :
  0 <= pa < 2 ^ 64 -> pa mod PGSIZE = 0 -> PA2PTE pa = pa / PGSIZE * 1024.
Proof.
  intros H Ha. unfold PA2PTE. rewrite Z.shiftr_div_pow2, Z.shiftl_mul_pow2 by lia.
  change (2 ^ 12) with 4096. change (2 ^ 10) with 1024. unfold PGSIZE in *.
  apply u64_small. Z.div_mod_to_equations. lia.
Qed.

Lemma lor_low_high x f n :
  0 <= n -> 0 <= f < 2 ^ n -> Z.lor (x * 2 ^ n) f = x * 2 ^ n + f.
Proof.
  intros Hn Hf. symmetry. rewrite <- Z.lxor_lor; [apply Z.add_nocarry_lxor|];
    apply Z.bits_inj'; intros i Hi; rewrite Z.land_spec, Z.bits_0;
    (destruct (decide (i < n));
     [by rewrite Z.mul_pow2_bits_low by lia
     |rewrite <- (Z.mod_small f (2 ^ n)) by lia;
      rewrite Z.mod_pow2_bits_high by lia; apply andb_false_r]).
Qed.

Lemma lor_range a b n : 0 <= n -> 0 <= a < 2 ^ n -> 0 <= b < 2 ^ n -> 0 <= Z.lor a b < 2 ^ n.
Proof.
  intros Hn Ha Hb. assert (0 <= Z.lor a b) by (apply Z.lor_nonneg; lia). split; [done|].
  destruct (decide (n = 0)) as [->|]; [assert (a = 0 /\ b = 0) as [-> ->] by lia; done|].
  destruct (decide (Z.lor a b = 0)) as [->|]; [lia|].
  apply Z.log2_lt_pow2; [lia|]. rewrite Z.log2_lor by lia.
  apply Z.max_lub_lt; (destruct (decide (a = 0)), (decide (b = 0)); subst; try (cbn; lia);
    apply Z.log2_lt_pow2; lia).
Qed.

(** A leaf built from an aligned page and ten flag bits gives both back. *)
Lemma PTE_pack pa f :
  0 <= pa < 2 ^ 64 -> pa mod PGSIZE = 0 -> 0 <= f < 1024 ->
  PTE2PA (Z.lor (PA2PTE pa) f) = pa /\ PTE_FLAGS (Z.lor (PA2PTE pa) f) = f /\
  0 <= Z.lor (PA2PTE pa) f < 2 ^ 64.
Proof.
  intros H Ha Hf. rewrite PA2PTE_spec by done.
  change 1024 with (2 ^ 10). rewrite lor_low_high by lia.
  unfold PTE2PA, PTE_FLAGS. change 0x3FF with (Z.ones 10). rewrite Z.land_ones by lia.
  rewrite Z.shiftr_div_pow2, Z.shiftl_mul_pow2 by lia.
  change (2 ^ 12) with 4096. change (2 ^ 10) with 1024 in *. unfold PGSIZE in *.
  rewrite (Z.div_add_l _ 1024 f), (Z.div_small f), Z.add_0_r by lia.
  assert (pa / 4096 * 4096 = pa) as -> by (Z.div_mod_to_equations; lia).
  rewrite u64_small by lia. repeat split; [|Z.div_mod_to_equations; lia..].
  rewrite Z.add_comm, Z_mod_plus_full. by apply Z.mod_small.
Qed.

(** ** Lemmas: memory *)

Lemma read8_range m a : 0 <= read8 m a < 256.
Proof. apply u8_range. Qed.
Lemma read8_write8 m a b v : read8 (write8 m a v) b = if decide (a = b) then u8 v else read8 m b.
Proof.
  unfold read8, write8. rewrite lookup_insert. case_decide; [|done]. cbn. apply u8_idemp.
Qed.
Lemma read8_write8_eq m a v : read8 (write8 m a v) a = u8 v.
Proof. rewrite read8_write8. by case_decide. Qed.
Lemma read8_write8_ne m a b v : a <> b -> read8 (write8 m a v) b = read8 m b.
Proof. intros. rewrite read8_write8. by case_decide. Qed.

(** Two memories that agree on a range give the same multi-byte reads there. *)
Lemma read_le_ext n m1 m2 a :
  (forall i, a <= i < a + Z.of_nat n -> read8 m1 i = read8 m2 i) ->
  read_le n m1 a = read_le n m2 a.
Proof.
  revert a. induction n as [|n IH]; intros a H; [done|]. cbn.
  rewrite H by lia. rewrite IH; [done|]. intros. apply H. lia.
Qed.

Lemma read_bytes_ext n m1 m2 a :
  (forall i, a <= i < a + Z.of_nat n -> read8 m1 i = read8 m2 i) ->
  read_bytes n m1 a = read_bytes n m2 a.
Proof.
  revert a. induction n as [|n IH]; intros a H; [done|]. cbn.
  rewrite H by lia. rewrite IH; [done|]. intros. apply H. lia.
Qed.

Lemma read_le_range n m a : 0 <= read_le n m a < 256 ^ Z.of_nat n.
Proof.
  revert a. induction n as [|n IH]; intros a; [done|]. cbn [read_le].
  specialize (IH (a + 1)). pose proof (read8_range m a).
  rewrite Nat2Z.inj_succ, Z.pow_succ_r by lia. lia.
Qed.

Lemma read8_write_le_ne n m a v b :
  b < a \/ a + Z.of_nat n <= b -> read8 (write_le n m a v) b = read8 m b.
Proof.
  revert m a v. induction n as [|n IH]; intros m a v H; [done|]. cbn.
  rewrite IH by lia. apply read8_write8_ne. lia.
Qed.

Lemma read_le_write_le_eq n m a v : read_le n (write_le n m a v) a = v mod 256 ^ Z.of_nat n.
Proof.
  revert m a v. induction n as [|n IH]; intros m a v; [by rewrite Z.mod_1_r|].
  cbn [read_le write_le]. rewrite read8_write_le_ne, read8_write8_eq, IH by lia.
  rewrite Nat2Z.inj_succ, Z.pow_succ_r by lia.
  rewrite Z.rem_mul_r by lia. done.
Qed.

Lemma read_le_write_le_ne n1 n2 m a b v :
  b + Z.of_nat n1 <= a \/ a + Z.of_nat n2 <= b ->
  read_le n1 (write_le n2 m a v) b = read_le n1 m b.
Proof. intros H. apply read_le_ext. intros i Hi. apply read8_write_le_ne. lia. Qed.

Lemma read64_write64_eq m a v : 0 <= v < 2 ^ 64 -> read64 (write64 m a v) a = v.
Proof. intros H. unfold read64, write64. rewrite read_le_write_le_eq. by apply Z.mod_small. Qed.
Lemma read64_write64_ne m a b v :
  b + 8 <= a \/ a + 8 <= b -> read64 (write64 m a v) b = read64 m b.
Proof. intros H. apply read_le_write_le_ne. lia. Qed.
Lemma read64_range m a : 0 <= read64 m a < 2 ^ 64.
Proof. apply (read_le_range 8). Qed.

Lemma read64_ext m1 m2 a :
  (forall i, a <= i < a + 8 -> read8 m1 i = read8 m2 i) -> read64 m1 a = read64 m2 a.
Proof. intros H. apply read_le_ext. intros i Hi. apply H. lia. Qed.
Lemma read8_write64_ne m a v b : b < a \/ a + 8 <= b -> read8 (write64 m a v) b = read8 m b.
Proof. intros H. apply read8_write_le_ne. lia. Qed.
Lemma read64_zero m a : (forall i, a <= i < a + 8 -> read8 m i = 0) -> read64 m a = 0.
Proof.
  intros H. transitivity (read64 ∅ a); [|done]. apply read64_ext. intros i Hi. by rewrite H.
Qed.

Lemma length_read_bytes n m a : length (read_bytes n m a) = n.
Proof. revert a. induction n; intros; cbn; auto. Qed.

Lemma read8_write_bytes_ne m a l b :
  b < a \/ a + Z.of_nat (length l) <= b -> read8 (write_bytes m a l) b = read8 m b.
Proof.
  revert m a. induction l as [|v l IH]; intros m a H; [done|]. cbn in *.
  rewrite IH by lia. apply read8_write8_ne. lia.
Qed.

Lemma read8_write_bytes_in m a l i v :
  l !! i = Some v -> read8 (write_bytes m a l) (a + Z.of_nat i) = u8 v.
Proof.
  revert m a i. induction l as [|w l IH]; intros m a i H; [done|].
  destruct i as [|i]; cbn in *; simplify_eq.
  - rewrite read8_write_bytes_ne by lia. rewrite Z.add_0_r. apply read8_write8_eq.
  - replace (a + Z.of_nat (S i)) with (a + 1 + Z.of_nat i) by lia. by apply IH.
Qed.

Lemma lookup_read_bytes n m a i :
  (i < n)%nat -> read_bytes n m a !! i = Some (read8 m (a + Z.of_nat i)).
Proof.
  revert a i. induction n as [|n IH]; intros a i H; [lia|].
  destruct i as [|i]; cbn; [by rewrite Z.add_0_r|].
  rewrite IH by lia. do 2 f_equal. lia.
Qed.

(** What was written is what is read back. *)
Lemma read_write_bytes m a l :
  Forall (fun b => 0 <= b < 256) l -> read_bytes (length l) (write_bytes m a l) a = l.
Proof.
  intros Hl. apply list_eq. intros i. destruct (decide (i < length l)%nat) as [Hi|Hi].
  - destruct (lookup_lt_is_Some_2 l i Hi) as [v Hv].
    rewrite lookup_read_bytes, (read8_write_bytes_in _ _ _ _ v), Hv by done.
    rewrite Forall_lookup in Hl. by rewrite u8_small by eauto.
  - rewrite !lookup_ge_None_2; [done|lia|rewrite length_read_bytes; lia].
Qed.

Global Arguments read_le : simpl never.
Global Arguments write_le : simpl never.
Global Arguments read64 : simpl never.
Global Arguments write64 : simpl never.
Global Arguments read8 : simpl never.
Global Arguments write8 : simpl never.
Global Arguments read_bytes : simpl never.
Global Arguments write_bytes : simpl never.
Global Opaque read64 write64 read8 write8.

#[export] Hint Resolve PX_range read8_range read64_range : xv6.
