(* ===== verification/Kstring.v ===== *)
(** * kernel/string.c

    The byte-string routines over physical memory: every routine takes the
    memory and returns the memory it leaves, with the loops of the source as
    recursion on the remaining count.  Pointers are addresses; they are assumed
    not to wrap around the 64-bit address space, which no kernel object does. *)

From S2P Require Import Prelude Machine.

(** [for(i = 0; i < n; i++) cdst[i] = c;] *)
Fixpoint memset_loop (cnt : nat) (m : mem) (cdst c i : Z) : mem :=
  match cnt with
  | O => m
  | S cnt' => memset_loop cnt' (write8 m (cdst + i) c) cdst c (i + 1)
  end.
Definition memset (m : mem) (dst c n : Z) : mem := memset_loop (Z.to_nat n) m dst c 0.

(** [while(n-- > 0)]: the difference of the first two unequal bytes. *)
Fixpoint memcmp_loop (cnt : nat) (m : mem) (s1 s2 : Z) : Z :=
  match cnt with
  | O => 0
  | S cnt' =>
      if decide (read8 m s1 <> read8 m s2) then read8 m s1 - read8 m s2
      else memcmp_loop cnt' m (s1 + 1) (s2 + 1)
  end.
Definition memcmp (m : mem) (v1 v2 n : Z) : Z := memcmp_loop (Z.to_nat n) m v1 v2.

(** [while(n-- > 0) *--d = *--s;] *)
Fixpoint memmove_down (cnt : nat) (m : mem) (d s : Z) : mem :=
  match cnt with
  | O => m
  | S cnt' => memmove_down cnt' (write8 m (d - 1) (read8 m (s - 1))) (d - 1) (s - 1)
  end.
(** [while(n-- > 0) *d++ = *s++;] *)
Fixpoint memmove_up (cnt : nat) (m : mem) (d s : Z) : mem :=
  match cnt with
  | O => m
  | S cnt' => memmove_up cnt' (write8 m d (read8 m s)) (d + 1) (s + 1)
  end.
Definition memmove (m : mem) (dst src n : Z) : mem :=
  if decide (n = 0) then m
  else if decide (src < dst /\ src + n > dst)
       then memmove_down (Z.to_nat n) m (dst + n) (src + n)
       else memmove_up (Z.to_nat n) m dst src.
Definition memcpy (m : mem) (dst src n : Z) : mem := memmove m dst src n.

(** [while(n > 0 && *p && *p == *q) n--, p++, q++;] *)
Fixpoint strncmp_loop (cnt : nat) (m : mem) (p q : Z) : Z :=
  match cnt with
  | O => 0
  | S cnt' =>
      if decide (read8 m p <> 0 /\ read8 m p = read8 m q)
      then strncmp_loop cnt' m (p + 1) (q + 1)
      else read8 m p - read8 m q
  end.
Definition strncmp (m : mem) (p q n : Z) : Z := strncmp_loop (Z.to_nat n) m p q.

(** [while(n-- > 0) *s++ = 0;] *)
Fixpoint strncpy_pad (cnt : nat) (m : mem) (s : Z) : mem :=
  match cnt with
  | O => m
  | S cnt' => strncpy_pad cnt' (write8 m s 0) (s + 1)
  end.
(** [while(n-- > 0 && ( *s++ = *t++) != 0);] and then the padding loop. *)
Fixpoint strncpy_copy (cnt : nat) (m : mem) (s t : Z) : mem :=
  match cnt with
  | O => m
  | S cnt' =>
      let c := read8 m t in
      let m' := write8 m s c in
      if decide (c <> 0) then strncpy_copy cnt' m' (s + 1) (t + 1)
      else strncpy_pad cnt' m' (s + 1)
  end.
Definition strncpy (m : mem) (s t n : Z) : mem := strncpy_copy (Z.to_nat n) m s t.

(** [while(--n > 0 && ( *s++ = *t++) != 0); *s = 0;] *)
Fixpoint safestrcpy_loop (cnt : nat) (m : mem) (s t : Z) : mem :=
  match cnt with
  | O => write8 m s 0
  | S cnt' =>
      let c := read8 m t in
      let m' := write8 m s c in
      if decide (c <> 0) then safestrcpy_loop cnt' m' (s + 1) (t + 1)
      else write8 m' (s + 1) 0
  end.
Definition safestrcpy (m : mem) (s t n : Z) : mem :=
  if decide (n <= 0) then m else safestrcpy_loop (Z.to_nat (n - 1)) m s t.

(** [for(n = 0; s[n]; n++);]: [None] when no NUL lies within the fuel. *)
Fixpoint strlen_loop (fuel : nat) (m : mem) (s n : Z) : option Z :=
  match fuel with
  | O => None
  | S fuel' => if decide (read8 m (s + n) <> 0) then strlen_loop fuel' m s (n + 1) else Some n
  end.
Definition strlen (fuel : nat) (m : mem) (s : Z) : option Z := strlen_loop fuel m s 0.

(** The same routines on character arrays that are fields of kernel structures
    (a process name, a directory entry name): the two objects are placed in an
    otherwise empty memory, apart from each other, and the routine is run. *)
Definition src_base : Z := 2 ^ 32.
Definition arrays (dst src : list Z) : mem := write_bytes (write_bytes ∅ 0 dst) src_base src.
Definition safestrcpy_arr (dst src : list Z) (n : Z) : list Z :=
  read_bytes (length dst) (safestrcpy (arrays dst src) 0 src_base n) 0.
Definition strncpy_arr (dst src : list Z) (n : Z) : list Z :=
  read_bytes (length dst) (strncpy (arrays dst src) 0 src_base n) 0.
Definition strncmp_arr (p q : list Z) (n : Z) : Z := strncmp (arrays p q) 0 src_base n.

(** ** memset *)

Lemma read8_memset_loop cnt m d c i a :
  read8 (memset_loop cnt m d c i) a =
  if decide (d + i <= a < d + i + Z.of_nat cnt) then u8 c else read8 m a.
Proof.
  revert m i. induction cnt as [|cnt IH]; intros m i; cbn [memset_loop].
  - case_decide; [lia|done].
  - rewrite IH, read8_write8. repeat case_decide; try done; lia.
Qed.

Lemma read8_memset m d c n a :
  read8 (memset m d c n) a = if decide (d <= a < d + n) then u8 c else read8 m a.
Proof.
  unfold memset. rewrite read8_memset_loop. repeat case_decide; try done; lia.
Qed.

Lemma read64_memset_zero m d n a : d <= a -> a + 8 <= d + n -> read64 (memset m d 0 n) a = 0.
Proof.
  intros. apply read64_zero.
  intros i Hi. rewrite read8_memset. by rewrite decide_True by lia.
Qed.

Lemma read64_memset_ne m d c n a :
  a + 8 <= d \/ d + n <= a -> read64 (memset m d c n) a = read64 m a.
Proof.
  intros. apply read64_ext. intros i Hi. rewrite read8_memset. case_decide; [lia|done].
Qed.

(** ** memmove *)

Lemma read8_memmove_down cnt m d s a :
  s <= d ->
  read8 (memmove_down cnt m d s) a =
  if decide (d - Z.of_nat cnt <= a < d) then read8 m (s + (a - d)) else read8 m a.
Proof.
  revert m d s. induction cnt as [|cnt IH]; intros m d s H; cbn [memmove_down].
  { case_decide; [lia|done]. }
  rewrite IH by lia. rewrite !read8_write8. rewrite u8_small by apply read8_range.
  repeat case_decide; try lia; try done; f_equal; lia.
Qed.

Lemma read8_memmove_up cnt m d s a :
  d <= s \/ s + Z.of_nat cnt <= d ->
  read8 (memmove_up cnt m d s) a =
  if decide (d <= a < d + Z.of_nat cnt) then read8 m (s + (a - d)) else read8 m a.
Proof.
  revert m d s. induction cnt as [|cnt IH]; intros m d s H; cbn [memmove_up].
  { case_decide; [lia|done]. }
  rewrite IH by lia. rewrite !read8_write8. rewrite u8_small by apply read8_range.
  repeat case_decide; try lia; try done; f_equal; lia.
Qed.

Lemma read8_memmove m dst src n a :
  0 <= n ->
  read8 (memmove m dst src n) a =
  if decide (dst <= a < dst + n) then read8 m (src + (a - dst)) else read8 m a.
Proof.
  intros Hn. unfold memmove. case_decide; [case_decide; [lia|done]|].
  case_decide.
  - rewrite read8_memmove_down by lia.
    repeat case_decide; try lia; try done. f_equal. lia.
  - rewrite read8_memmove_up by lia. repeat case_decide; try lia; done.
Qed.

Lemma read64_memmove_ne m dst src n a :
  0 <= n -> a + 8 <= dst \/ dst + n <= a -> read64 (memmove m dst src n) a = read64 m a.
Proof.
  intros. apply read64_ext. intros i Hi. rewrite read8_memmove by done.
  case_decide; [lia|done].
Qed.

(** ** memcmp *)

Lemma memcmp_loop_zero cnt m v1 v2 :
  memcmp_loop cnt m v1 v2 = 0 <->
  forall i, 0 <= i < Z.of_nat cnt -> read8 m (v1 + i) = read8 m (v2 + i).
Proof.
  revert v1 v2. induction cnt as [|cnt IH]; intros v1 v2; cbn [memcmp_loop].
  { split; [lia|done]. }
  case_decide as Hd.
  - split; [lia|]. intros H. specialize (H 0). rewrite !Z.add_0_r in H. lia.
  - rewrite IH. split; intros H i Hi.
    + destruct (decide (i = 0)) as [->|]; [rewrite !Z.add_0_r; lia|].
      specialize (H (i - 1)). rewrite <- !Z.add_assoc in H.
      replace (1 + (i - 1)) with i in H by lia. apply H. lia.
    + rewrite <- !Z.add_assoc. apply H. lia.
Qed.

(** ** strncmp *)

(** Equality of the two strings up to [n] characters, as C defines it: the
    bytes agree up to the first NUL or up to the limit. *)
Definition str_agree (m : mem) (p q n : Z) : Prop :=
  exists k, 0 <= k <= n /\
    (forall i, 0 <= i < k -> read8 m (p + i) <> 0 /\ read8 m (p + i) = read8 m (q + i)) /\
    (k < n -> read8 m (p + k) = 0 /\ read8 m (q + k) = 0).

Lemma strncmp_loop_zero cnt m p q :
  strncmp_loop cnt m p q = 0 <-> str_agree m p q (Z.of_nat cnt).
Proof.
  revert p q. induction cnt as [|cnt IH]; intros p q; cbn [strncmp_loop].
  { split; [|done]. intros _. exists 0. repeat split; lia. }
  case_decide as Hd.
  - rewrite IH. split.
    + intros (k & Hk & Heq & Hend). exists (k + 1). split; [lia|]. split.
      * intros i Hi. destruct (decide (i = 0)) as [->|]; [by rewrite !Z.add_0_r|].
        replace (p + i) with (p + 1 + (i - 1)) by lia.
        replace (q + i) with (q + 1 + (i - 1)) by lia. apply Heq. lia.
      * intros Hlt. replace (p + (k + 1)) with (p + 1 + k) by lia.
        replace (q + (k + 1)) with (q + 1 + k) by lia. apply Hend. lia.
    + intros (k & Hk & Heq & Hend). destruct (decide (k = 0)) as [->|].
      { rewrite !Z.add_0_r in Hend. destruct Hend as [? _]; [lia|]. by destruct Hd. }
      exists (k - 1). split; [lia|]. split.
      * intros i Hi. replace (p + 1 + i) with (p + (i + 1)) by lia.
        replace (q + 1 + i) with (q + (i + 1)) by lia. apply Heq. lia.
      * intros Hlt. replace (p + 1 + (k - 1)) with (p + k) by lia.
        replace (q + 1 + (k - 1)) with (q + k) by lia. apply Hend. lia.
  - split.
    + intros H. exists 0. rewrite !Z.add_0_r.
      destruct (decide (read8 m p = 0)) as [E|E]; [|destruct Hd; lia].
      repeat split; lia.
    + intros (k & Hk & Heq & Hend). destruct (decide (k = 0)) as [->|].
      * rewrite !Z.add_0_r in Hend. lia.
      * destruct Hd. specialize (Heq 0). rewrite !Z.add_0_r in Heq. apply Heq. lia.
Qed.

(** ** strncpy and safestrcpy *)

Lemma read8_strncpy_pad cnt m s a :
  read8 (strncpy_pad cnt m s) a =
  if decide (s <= a < s + Z.of_nat cnt) then 0 else read8 m a.
Proof.
  revert m s. induction cnt as [|cnt IH]; intros m s; cbn [strncpy_pad].
  - case_decide; [lia|done].
  - rewrite IH, read8_write8. repeat case_decide; try done; lia.
Qed.

(** [str_prefix m t k]: the first [k] bytes at [t] are not NUL. *)
Definition str_prefix (m : mem) (t k : Z) : Prop := forall i, 0 <= i < k -> read8 m (t + i) <> 0.

Lemma str_prefix_step m t k : read8 m t <> 0 -> str_prefix m (t + 1) (k - 1) -> str_prefix m t k.
Proof.
  intros H0 H i Hi. destruct (decide (i = 0)) as [->|]; [by rewrite Z.add_0_r|].
  replace (t + i) with (t + 1 + (i - 1)) by lia. apply H. lia.
Qed.

(** What a string copy of limit [n] leaves at [s]: [k] characters of the source,
    all different from NUL, then NULs up to offset [z]; nothing else changes. *)
Definition str_copied (m m' : mem) (s t k z : Z) : Prop :=
  str_prefix m t k /\
  (forall i, 0 <= i < k -> read8 m' (s + i) = read8 m (t + i)) /\
  (forall i, k <= i < z -> read8 m' (s + i) = 0) /\
  (forall a, a < s \/ s + z <= a -> read8 m' a = read8 m a).

Lemma str_copied_step m m' s t k z c :
  0 <= k <= z -> c = read8 m t -> c <> 0 ->
  str_copied (write8 m s c) m' (s + 1) (t + 1) k z ->
  (forall i, 0 <= i <= k -> read8 (write8 m s c) (t + i) = read8 m (t + i)) ->
  str_copied m m' s t (k + 1) (z + 1).
Proof.
  intros Hk -> Hc (Hpre & Hcp & Hz & Hfr) Hsrc. repeat split.
  - apply str_prefix_step; [done|]. intros i Hi.
    replace (t + 1 + i) with (t + (i + 1)) by lia. rewrite <- Hsrc by lia.
    replace (t + (i + 1)) with (t + 1 + i) by lia. apply Hpre. lia.
  - intros i Hi. destruct (decide (i = 0)) as [->|].
    + rewrite Z.add_0_r, Hfr by lia. rewrite read8_write8_eq, u8_small by apply read8_range.
      by rewrite Z.add_0_r.
    + replace (s + i) with (s + 1 + (i - 1)) by lia. rewrite Hcp by lia.
      replace (t + 1 + (i - 1)) with (t + i) by lia. apply Hsrc. lia.
  - intros i Hi. replace (s + i) with (s + 1 + (i - 1)) by lia. apply Hz. lia.
  - intros a Ha. rewrite Hfr by lia. apply read8_write8_ne. lia.
Qed.

Lemma strncpy_copy_spec cnt m s t :
  s + Z.of_nat cnt <= t \/ t + Z.of_nat cnt <= s ->
  exists k, 0 <= k <= Z.of_nat cnt /\
    str_copied m (strncpy_copy cnt m s t) s t k (Z.of_nat cnt) /\
    (k < Z.of_nat cnt -> read8 m (t + k) = 0).
Proof.
  revert m s t. induction cnt as [|cnt IH]; intros m s t H; cbn [strncpy_copy].
  { exists 0. split; [lia|]. split; [|lia]. repeat split; intros ?; try lia; done. }
  case_decide as Hc.
  - destruct (IH (write8 m s (read8 m t)) (s + 1) (t + 1)) as (k & Hk & Hcp & Hend); [lia|].
    assert (forall i, 0 <= i < Z.of_nat (S cnt) ->
              read8 (write8 m s (read8 m t)) (t + i) = read8 m (t + i)) as Hsrc.
    { intros i Hi. apply read8_write8_ne. lia. }
    exists (k + 1). split; [lia|]. split.
    + replace (Z.of_nat (S cnt)) with (Z.of_nat cnt + 1) by lia.
      eapply str_copied_step; [lia|done|done|done|]. intros. apply Hsrc. lia.
    + intros Hlt. rewrite <- Hsrc by lia. replace (t + (k + 1)) with (t + 1 + k) by lia.
      apply Hend. lia.
  - exists 0. rewrite Z.add_0_r. split; [lia|]. split; [|lia]. repeat split.
    + intros i ?; lia.
    + intros i ?; lia.
    + intros i Hi. rewrite read8_strncpy_pad, read8_write8.
      repeat case_decide; try done; try lia. replace (read8 m t) with 0 by lia. done.
    + intros a Ha. rewrite read8_strncpy_pad, read8_write8_ne by lia. case_decide; [lia|done].
Qed.

Lemma safestrcpy_loop_spec cnt m s t :
  s + Z.of_nat cnt < t \/ t + Z.of_nat cnt <= s ->
  exists k z, 0 <= k < z /\ z <= Z.of_nat cnt + 1 /\
    str_copied m (safestrcpy_loop cnt m s t) s t k z /\
    (k < Z.of_nat cnt -> read8 m (t + k) = 0).
Proof.
  revert m s t. induction cnt as [|cnt IH]; intros m s t H; cbn [safestrcpy_loop].
  { exists 0, 1. split; [lia|]. split; [lia|]. split; [|lia]. repeat split.
    - intros i ?; lia.
    - intros i ?; lia.
    - intros i Hi. replace i with 0 by lia. by rewrite Z.add_0_r, read8_write8_eq.
    - intros a Ha. apply read8_write8_ne. lia. }
  case_decide as Hc.
  - destruct (IH (write8 m s (read8 m t)) (s + 1) (t + 1)) as (k & z & Hk & Hz & Hcp & Hend); [lia|].
    assert (forall i, 0 <= i < Z.of_nat (S cnt) ->
              read8 (write8 m s (read8 m t)) (t + i) = read8 m (t + i)) as Hsrc.
    { intros i Hi. apply read8_write8_ne. lia. }
    exists (k + 1), (z + 1). split; [lia|]. split; [lia|]. split.
    + eapply str_copied_step; [lia|done|done|done|]. intros. apply Hsrc. lia.
    + intros Hlt. rewrite <- Hsrc by lia. replace (t + (k + 1)) with (t + 1 + k) by lia.
      apply Hend. lia.
  - exists 0, 2. rewrite Z.add_0_r. split; [lia|]. split; [lia|]. split; [|lia]. repeat split.
    + intros i ?; lia.
    + intros i ?; lia.
    + intros i Hi. rewrite !read8_write8. repeat case_decide; try done; try lia.
      replace (read8 m t) with 0 by lia. done.
    + intros a Ha. rewrite !read8_write8_ne by lia. done.
Qed.

(** ** strlen *)

Lemma strlen_loop_Some fuel m s n k :
  0 <= k -> (Z.to_nat k < fuel)%nat ->
  str_prefix m (s + n) k -> read8 m (s + n + k) = 0 ->
  strlen_loop fuel m s n = Some (n + k).
Proof.
  intros Hk. revert n k Hk. induction fuel as [|fuel IH]; intros n k Hk Hf Hpre Hnul; [lia|].
  cbn. destruct (decide (k = 0)) as [->|].
  - rewrite Z.add_0_r in Hnul. rewrite decide_False by lia. by rewrite Z.add_0_r.
  - rewrite decide_True by (rewrite <- (Z.add_0_r (s + n)); apply Hpre; lia).
    rewrite (IH (n + 1) (k - 1)); [f_equal; lia|lia|lia| |].
    + intros i Hi. replace (s + (n + 1) + i) with (s + n + (i + 1)) by lia. apply Hpre. lia.
    + by replace (s + (n + 1) + (k - 1)) with (s + n + k) by lia.
Qed.

Global Arguments memset : simpl never.
Global Arguments memmove : simpl never.
Global Opaque memset memmove.
