(* ===== verification/Kernel.v ===== *)
(** * The data model: the structures of the headers and the kernel state

    The structs of proc.h, spinlock.h, sleeplock.h, file.h, buf.h, fs.h, and of
    log.c, pipe.c and console.c as records, with one setter per field, and
    the record [kernel] that gathers the static variables of the kernel.

    Pointers into the static tables ([proc], [ftable], [itable], [bcache]) are
    indices, [None] standing for the null pointer; page addresses are integers,
    0 standing for the null pointer.  All spinlocks live in one map keyed by
    [lockid]; a lock that is not in the map is in its zero-initialised state. *)

From S2P Require Import Prelude Machine.

(** enum procstate (proc.h). *)
Inductive procstate := UNUSED | USED | SLEEPING | RUNNABLE | RUNNING | ZOMBIE.
#[export] Instance procstate_eq_dec : EqDecision procstate.
Proof. solve_decision. Defined.

(** The anonymous enum of struct file (file.h). *)
Inductive filetype := FD_NONE | FD_PIPE | FD_INODE | FD_DEVICE.
#[export] Instance filetype_eq_dec : EqDecision filetype.
Proof. solve_decision. Defined.

(** Sleep locks: one per buffer, one per in-memory inode. *)
Inductive slid := SlBuf (i : nat) | SlInode (i : nat).
#[export] Instance slid_eq_dec : EqDecision slid.
Proof. solve_decision. Defined.

(** Sleep channels: the addresses the kernel sleeps on.  Different kernel
    objects have different addresses. *)
Inductive chan :=
| ChNull | ChProc (i : nat) | ChTicks | ChSleep (l : slid) | ChLog
| ChPipeRead (pi : Z) | ChPipeWrite (pi : Z) | ChCons | ChUart.
#[export] Instance chan_eq_dec : EqDecision chan.
Proof. solve_decision. Defined.

(** The spinlocks of the kernel. *)
Inductive lockid :=
| LkKmem | LkPid | LkWait | LkProc (i : nat) | LkTicks | LkFtable | LkItable
| LkBcache | LkLog | LkCons | LkPr | LkPipe (pi : Z) | LkSleep (l : slid) | LkUart.
#[export] Instance lockid_eq_dec : EqDecision lockid.
Proof. solve_decision. Defined.

Definition lockid_code (l : lockid) : nat * (nat * Z) :=
  let c (n i : nat) := (n, (i, 0)) in
  match l with
  | LkKmem => c 0 0 | LkPid => c 1 0 | LkWait => c 2 0
  | LkProc i => c 3 i | LkTicks => c 4 0 | LkFtable => c 5 0
  | LkItable => c 6 0 | LkBcache => c 7 0 | LkLog => c 8 0
  | LkCons => c 9 0 | LkPr => c 10 0 | LkPipe pi => (11, (0, pi))
  | LkSleep (SlBuf i) => c 12 i | LkSleep (SlInode i) => c 13 i | LkUart => c 14 0
  end%nat.
Definition lockid_decode (c : nat * (nat * Z)) : option lockid :=
  let '(n, (i, z)) := c in
  match n with
  | 0 => Some LkKmem | 1 => Some LkPid | 2 => Some LkWait
  | 3 => Some (LkProc i) | 4 => Some LkTicks | 5 => Some LkFtable
  | 6 => Some LkItable | 7 => Some LkBcache | 8 => Some LkLog
  | 9 => Some LkCons | 10 => Some LkPr | 11 => Some (LkPipe z)
  | 12 => Some (LkSleep (SlBuf i)) | 13 => Some (LkSleep (SlInode i)) | 14 => Some LkUart
  | _ => None
  end%nat.
#[export] Instance lockid_countable : Countable lockid.
Proof. apply (inj_countable lockid_code lockid_decode). by intros [| | | | | | | | | | | |[]|]. Defined.

(** struct context (proc.h): the registers [swtch] saves. *)
Record context := mkContext {
  ctx_ra : Z;       (* return address *)
  ctx_sp : Z;       (* stack pointer *)
  ctx_s : list Z    (* callee-saved s0..s11 *)
}.
Definition set_ctx_ra (v : Z) (x : context) : context :=
  mkContext v (ctx_sp x) (ctx_s x).
Definition set_ctx_sp (v : Z) (x : context) : context :=
  mkContext (ctx_ra x) v (ctx_s x).
Definition set_ctx_s (v : list Z) (x : context) : context :=
  mkContext (ctx_ra x) (ctx_sp x) v.

(** struct cpu (proc.h). *)
Record cpu := mkCpu {
  c_proc : option nat;   (* process running on this cpu, or null *)
  c_context : context;   (* entered by swtch to reach scheduler() *)
  c_noff : Z;            (* depth of push_off() nesting *)
  c_intena : Z           (* were interrupts enabled before push_off()? *)
}.
Definition set_c_proc (v : option nat) (x : cpu) : cpu :=
  mkCpu v (c_context x) (c_noff x) (c_intena x).
Definition set_c_context (v : context) (x : cpu) : cpu :=
  mkCpu (c_proc x) v (c_noff x) (c_intena x).
Definition set_c_noff (v : Z) (x : cpu) : cpu :=
  mkCpu (c_proc x) (c_context x) v (c_intena x).
Definition set_c_intena (v : Z) (x : cpu) : cpu :=
  mkCpu (c_proc x) (c_context x) (c_noff x) v.

(** The control registers of the executing hart that the kernel uses (riscv.h). *)
Record csrs := mkCsrs {
  sstatus : Z;
  stvec : Z;
  sepc : Z;
  scause : Z;
  stval : Z;
  satp : Z;
  sip : Z
}.
Definition set_sstatus (v : Z) (x : csrs) : csrs :=
  mkCsrs v (stvec x) (sepc x) (scause x) (stval x) (satp x) (sip x).
Definition set_stvec (v : Z) (x : csrs) : csrs :=
  mkCsrs (sstatus x) v (sepc x) (scause x) (stval x) (satp x) (sip x).
Definition set_sepc (v : Z) (x : csrs) : csrs :=
  mkCsrs (sstatus x) (stvec x) v (scause x) (stval x) (satp x) (sip x).
Definition set_scause (v : Z) (x : csrs) : csrs :=
  mkCsrs (sstatus x) (stvec x) (sepc x) v (stval x) (satp x) (sip x).
Definition set_stval (v : Z) (x : csrs) : csrs :=
  mkCsrs (sstatus x) (stvec x) (sepc x) (scause x) v (satp x) (sip x).
Definition set_satp (v : Z) (x : csrs) : csrs :=
  mkCsrs (sstatus x) (stvec x) (sepc x) (scause x) (stval x) v (sip x).
Definition set_sip (v : Z) (x : csrs) : csrs :=
  mkCsrs (sstatus x) (stvec x) (sepc x) (scause x) (stval x) (satp x) v.

(** struct spinlock (spinlock.h); [lk_cpu] is the index of the holding cpu. *)
Record spinlock := mkSpinlock {
  lk_locked : Z;         (* is the lock held? *)
  lk_name : string;
  lk_cpu : option nat    (* the cpu holding the lock *)
}.
Definition set_lk_locked (v : Z) (x : spinlock) : spinlock :=
  mkSpinlock v (lk_name x) (lk_cpu x).
Definition set_lk_name (v : string) (x : spinlock) : spinlock :=
  mkSpinlock (lk_locked x) v (lk_cpu x).
Definition set_lk_cpu (v : option nat) (x : spinlock) : spinlock :=
  mkSpinlock (lk_locked x) (lk_name x) v.

(** struct sleeplock (sleeplock.h); its inner spinlock is [LkSleep]. *)
Record sleeplock := mkSleeplock {
  sl_locked : Z;
  sl_name : string;
  sl_pid : Z          (* process holding lock *)
}.
Definition set_sl_locked (v : Z) (x : sleeplock) : sleeplock :=
  mkSleeplock v (sl_name x) (sl_pid x).
Definition set_sl_name (v : string) (x : sleeplock) : sleeplock :=
  mkSleeplock (sl_locked x) v (sl_pid x).
Definition set_sl_pid (v : Z) (x : sleeplock) : sleeplock :=
  mkSleeplock (sl_locked x) (sl_name x) v.

(** struct proc (proc.h); its lock is [LkProc]. *)
Record proc := mkProc {
  p_state : procstate;
  p_chan : chan;                 (* if non-null, sleeping on chan *)
  p_killed : Z;
  p_xstate : Z;                  (* exit status *)
  p_pid : Z;
  p_parent : option nat;
  p_kstack : Z;
  p_sz : Z;                      (* size of process memory (bytes) *)
  p_pagetable : Z;               (* address of the root page, 0 when none *)
  p_trapframe : Z;               (* address of the trapframe page, 0 when none *)
  p_context : context;
  p_ofile : list (option nat);   (* open files, indices into ftable *)
  p_cwd : option nat;            (* index into itable *)
  p_name : list Z;               (* char name[16] *)
  p_mask : Z;                    (* tracing mask *)
  p_create_time : Z;
  p_run_time : Z;
  p_total_run_time : Z;
  p_wait_time : Z;
  p_start_time : Z;
  p_sleep_time : Z;
  p_exit_time : Z;
  p_n_runs : Z;
  p_priority : Z;
  p_max_mem : Z;                 (* memory limit *)
  p_curr_mem : Z
}.
Definition set_p_state (v : procstate) (x : proc) : proc :=
  mkProc v (p_chan x) (p_killed x) (p_xstate x) (p_pid x) (p_parent x) (p_kstack x) (p_sz x)
    (p_pagetable x) (p_trapframe x) (p_context x) (p_ofile x) (p_cwd x) (p_name x) (p_mask x)
    (p_create_time x) (p_run_time x) (p_total_run_time x) (p_wait_time x) (p_start_time x)
    (p_sleep_time x) (p_exit_time x) (p_n_runs x) (p_priority x) (p_max_mem x) (p_curr_mem x).
Definition set_p_chan (v : chan) (x : proc) : proc :=
  mkProc (p_state x) v (p_killed x) (p_xstate x) (p_pid x) (p_parent x) (p_kstack x) (p_sz x)
    (p_pagetable x) (p_trapframe x) (p_context x) (p_ofile x) (p_cwd x) (p_name x) (p_mask x)
    (p_create_time x) (p_run_time x) (p_total_run_time x) (p_wait_time x) (p_start_time x)
    (p_sleep_time x) (p_exit_time x) (p_n_runs x) (p_priority x) (p_max_mem x) (p_curr_mem x).
Definition set_p_killed (v : Z) (x : proc) : proc :=
  mkProc (p_state x) (p_chan x) v (p_xstate x) (p_pid x) (p_parent x) (p_kstack x) (p_sz x)
    (p_pagetable x) (p_trapframe x) (p_context x) (p_ofile x) (p_cwd x) (p_name x) (p_mask x)
    (p_create_time x) (p_run_time x) (p_total_run_time x) (p_wait_time x) (p_start_time x)
    (p_sleep_time x) (p_exit_time x) (p_n_runs x) (p_priority x) (p_max_mem x) (p_curr_mem x).
Definition set_p_xstate (v : Z) (x : proc) : proc :=
  mkProc (p_state x) (p_chan x) (p_killed x) v (p_pid x) (p_parent x) (p_kstack x) (p_sz x)
    (p_pagetable x) (p_trapframe x) (p_context x) (p_ofile x) (p_cwd x) (p_name x) (p_mask x)
    (p_create_time x) (p_run_time x) (p_total_run_time x) (p_wait_time x) (p_start_time x)
    (p_sleep_time x) (p_exit_time x) (p_n_runs x) (p_priority x) (p_max_mem x) (p_curr_mem x).
Definition set_p_pid (v : Z) (x : proc) : proc :=
  mkProc (p_state x) (p_chan x) (p_killed x) (p_xstate x) v (p_parent x) (p_kstack x) (p_sz x)
    (p_pagetable x) (p_trapframe x) (p_context x) (p_ofile x) (p_cwd x) (p_name x) (p_mask x)
    (p_create_time x) (p_run_time x) (p_total_run_time x) (p_wait_time x) (p_start_time x)
    (p_sleep_time x) (p_exit_time x) (p_n_runs x) (p_priority x) (p_max_mem x) (p_curr_mem x).
Definition set_p_parent (v : option nat) (x : proc) : proc :=
  mkProc (p_state x) (p_chan x) (p_killed x) (p_xstate x) (p_pid x) v (p_kstack x) (p_sz x)
    (p_pagetable x) (p_trapframe x) (p_context x) (p_ofile x) (p_cwd x) (p_name x) (p_mask x)
    (p_create_time x) (p_run_time x) (p_total_run_time x) (p_wait_time x) (p_start_time x)
    (p_sleep_time x) (p_exit_time x) (p_n_runs x) (p_priority x) (p_max_mem x) (p_curr_mem x).
Definition set_p_kstack (v : Z) (x : proc) : proc :=
  mkProc (p_state x) (p_chan x) (p_killed x) (p_xstate x) (p_pid x) (p_parent x) v (p_sz x)
    (p_pagetable x) (p_trapframe x) (p_context x) (p_ofile x) (p_cwd x) (p_name x) (p_mask x)
    (p_create_time x) (p_run_time x) (p_total_run_time x) (p_wait_time x) (p_start_time x)
    (p_sleep_time x) (p_exit_time x) (p_n_runs x) (p_priority x) (p_max_mem x) (p_curr_mem x).
Definition set_p_sz (v : Z) (x : proc) : proc :=
  mkProc (p_state x) (p_chan x) (p_killed x) (p_xstate x) (p_pid x) (p_parent x) (p_kstack x) v
    (p_pagetable x) (p_trapframe x) (p_context x) (p_ofile x) (p_cwd x) (p_name x) (p_mask x)
    (p_create_time x) (p_run_time x) (p_total_run_time x) (p_wait_time x) (p_start_time x)
    (p_sleep_time x) (p_exit_time x) (p_n_runs x) (p_priority x) (p_max_mem x) (p_curr_mem x).
Definition set_p_pagetable (v : Z) (x : proc) : proc :=
  mkProc (p_state x) (p_chan x) (p_killed x) (p_xstate x) (p_pid x) (p_parent x) (p_kstack x)
    (p_sz x) v (p_trapframe x) (p_context x) (p_ofile x) (p_cwd x) (p_name x) (p_mask x)
    (p_create_time x) (p_run_time x) (p_total_run_time x) (p_wait_time x) (p_start_time x)
    (p_sleep_time x) (p_exit_time x) (p_n_runs x) (p_priority x) (p_max_mem x) (p_curr_mem x).
Definition set_p_trapframe (v : Z) (x : proc) : proc :=
  mkProc (p_state x) (p_chan x) (p_killed x) (p_xstate x) (p_pid x) (p_parent x) (p_kstack x)
    (p_sz x) (p_pagetable x) v (p_context x) (p_ofile x) (p_cwd x) (p_name x) (p_mask x)
    (p_create_time x) (p_run_time x) (p_total_run_time x) (p_wait_time x) (p_start_time x)
    (p_sleep_time x) (p_exit_time x) (p_n_runs x) (p_priority x) (p_max_mem x) (p_curr_mem x).
Definition set_p_context (v : context) (x : proc) : proc :=
  mkProc (p_state x) (p_chan x) (p_killed x) (p_xstate x) (p_pid x) (p_parent x) (p_kstack x)
    (p_sz x) (p_pagetable x) (p_trapframe x) v (p_ofile x) (p_cwd x) (p_name x) (p_mask x)
    (p_create_time x) (p_run_time x) (p_total_run_time x) (p_wait_time x) (p_start_time x)
    (p_sleep_time x) (p_exit_time x) (p_n_runs x) (p_priority x) (p_max_mem x) (p_curr_mem x).
Definition set_p_ofile (v : list (option nat)) (x : proc) : proc :=
  mkProc (p_state x) (p_chan x) (p_killed x) (p_xstate x) (p_pid x) (p_parent x) (p_kstack x)
    (p_sz x) (p_pagetable x) (p_trapframe x) (p_context x) v (p_cwd x) (p_name x) (p_mask x)
    (p_create_time x) (p_run_time x) (p_total_run_time x) (p_wait_time x) (p_start_time x)
    (p_sleep_time x) (p_exit_time x) (p_n_runs x) (p_priority x) (p_max_mem x) (p_curr_mem x).
Definition set_p_cwd (v : option nat) (x : proc) : proc :=
  mkProc (p_state x) (p_chan x) (p_killed x) (p_xstate x) (p_pid x) (p_parent x) (p_kstack x)
    (p_sz x) (p_pagetable x) (p_trapframe x) (p_context x) (p_ofile x) v (p_name x) (p_mask x)
    (p_create_time x) (p_run_time x) (p_total_run_time x) (p_wait_time x) (p_start_time x)
    (p_sleep_time x) (p_exit_time x) (p_n_runs x) (p_priority x) (p_max_mem x) (p_curr_mem x).
Definition set_p_name (v : list Z) (x : proc) : proc :=
  mkProc (p_state x) (p_chan x) (p_killed x) (p_xstate x) (p_pid x) (p_parent x) (p_kstack x)
    (p_sz x) (p_pagetable x) (p_trapframe x) (p_context x) (p_ofile x) (p_cwd x) v (p_mask x)
    (p_create_time x) (p_run_time x) (p_total_run_time x) (p_wait_time x) (p_start_time x)
    (p_sleep_time x) (p_exit_time x) (p_n_runs x) (p_priority x) (p_max_mem x) (p_curr_mem x).
Definition set_p_mask (v : Z) (x : proc) : proc :=
  mkProc (p_state x) (p_chan x) (p_killed x) (p_xstate x) (p_pid x) (p_parent x) (p_kstack x)
    (p_sz x) (p_pagetable x) (p_trapframe x) (p_context x) (p_ofile x) (p_cwd x) (p_name x) v
    (p_create_time x) (p_run_time x) (p_total_run_time x) (p_wait_time x) (p_start_time x)
    (p_sleep_time x) (p_exit_time x) (p_n_runs x) (p_priority x) (p_max_mem x) (p_curr_mem x).
Definition set_p_create_time (v : Z) (x : proc) : proc :=
  mkProc (p_state x) (p_chan x) (p_killed x) (p_xstate x) (p_pid x) (p_parent x) (p_kstack x)
    (p_sz x) (p_pagetable x) (p_trapframe x) (p_context x) (p_ofile x) (p_cwd x) (p_name x) (p_mask
    x) v (p_run_time x) (p_total_run_time x) (p_wait_time x) (p_start_time x) (p_sleep_time x)
    (p_exit_time x) (p_n_runs x) (p_priority x) (p_max_mem x) (p_curr_mem x).
Definition set_p_run_time (v : Z) (x : proc) : proc :=
  mkProc (p_state x) (p_chan x) (p_killed x) (p_xstate x) (p_pid x) (p_parent x) (p_kstack x)
    (p_sz x) (p_pagetable x) (p_trapframe x) (p_context x) (p_ofile x) (p_cwd x) (p_name x) (p_mask
    x) (p_create_time x) v (p_total_run_time x) (p_wait_time x) (p_start_time x) (p_sleep_time x)
    (p_exit_time x) (p_n_runs x) (p_priority x) (p_max_mem x) (p_curr_mem x).
Definition set_p_total_run_time (v : Z) (x : proc) : proc :=
  mkProc (p_state x) (p_chan x) (p_killed x) (p_xstate x) (p_pid x) (p_parent x) (p_kstack x)
    (p_sz x) (p_pagetable x) (p_trapframe x) (p_context x) (p_ofile x) (p_cwd x) (p_name x) (p_mask
    x) (p_create_time x) (p_run_time x) v (p_wait_time x) (p_start_time x) (p_sleep_time x)
    (p_exit_time x) (p_n_runs x) (p_priority x) (p_max_mem x) (p_curr_mem x).
Definition set_p_wait_time (v : Z) (x : proc) : proc :=
  mkProc (p_state x) (p_chan x) (p_killed x) (p_xstate x) (p_pid x) (p_parent x) (p_kstack x)
    (p_sz x) (p_pagetable x) (p_trapframe x) (p_context x) (p_ofile x) (p_cwd x) (p_name x) (p_mask
    x) (p_create_time x) (p_run_time x) (p_total_run_time x) v (p_start_time x) (p_sleep_time x)
    (p_exit_time x) (p_n_runs x) (p_priority x) (p_max_mem x) (p_curr_mem x).
Definition set_p_start_time (v : Z) (x : proc) : proc :=
  mkProc (p_state x) (p_chan x) (p_killed x) (p_xstate x) (p_pid x) (p_parent x) (p_kstack x)
    (p_sz x) (p_pagetable x) (p_trapframe x) (p_context x) (p_ofile x) (p_cwd x) (p_name x) (p_mask
    x) (p_create_time x) (p_run_time x) (p_total_run_time x) (p_wait_time x) v (p_sleep_time x)
    (p_exit_time x) (p_n_runs x) (p_priority x) (p_max_mem x) (p_curr_mem x).
Definition set_p_sleep_time (v : Z) (x : proc) : proc :=
  mkProc (p_state x) (p_chan x) (p_killed x) (p_xstate x) (p_pid x) (p_parent x) (p_kstack x)
    (p_sz x) (p_pagetable x) (p_trapframe x) (p_context x) (p_ofile x) (p_cwd x) (p_name x) (p_mask
    x) (p_create_time x) (p_run_time x) (p_total_run_time x) (p_wait_time x) (p_start_time x) v
    (p_exit_time x) (p_n_runs x) (p_priority x) (p_max_mem x) (p_curr_mem x).
Definition set_p_exit_time (v : Z) (x : proc) : proc :=
  mkProc (p_state x) (p_chan x) (p_killed x) (p_xstate x) (p_pid x) (p_parent x) (p_kstack x)
    (p_sz x) (p_pagetable x) (p_trapframe x) (p_context x) (p_ofile x) (p_cwd x) (p_name x) (p_mask
    x) (p_create_time x) (p_run_time x) (p_total_run_time x) (p_wait_time x) (p_start_time x)
    (p_sleep_time x) v (p_n_runs x) (p_priority x) (p_max_mem x) (p_curr_mem x).
Definition set_p_n_runs (v : Z) (x : proc) : proc :=
  mkProc (p_state x) (p_chan x) (p_killed x) (p_xstate x) (p_pid x) (p_parent x) (p_kstack x)
    (p_sz x) (p_pagetable x) (p_trapframe x) (p_context x) (p_ofile x) (p_cwd x) (p_name x) (p_mask
    x) (p_create_time x) (p_run_time x) (p_total_run_time x) (p_wait_time x) (p_start_time x)
    (p_sleep_time x) (p_exit_time x) v (p_priority x) (p_max_mem x) (p_curr_mem x).
Definition set_p_priority (v : Z) (x : proc) : proc :=
  mkProc (p_state x) (p_chan x) (p_killed x) (p_xstate x) (p_pid x) (p_parent x) (p_kstack x)
    (p_sz x) (p_pagetable x) (p_trapframe x) (p_context x) (p_ofile x) (p_cwd x) (p_name x) (p_mask
    x) (p_create_time x) (p_run_time x) (p_total_run_time x) (p_wait_time x) (p_start_time x)
    (p_sleep_time x) (p_exit_time x) (p_n_runs x) v (p_max_mem x) (p_curr_mem x).
Definition set_p_max_mem (v : Z) (x : proc) : proc :=
  mkProc (p_state x) (p_chan x) (p_killed x) (p_xstate x) (p_pid x) (p_parent x) (p_kstack x)
    (p_sz x) (p_pagetable x) (p_trapframe x) (p_context x) (p_ofile x) (p_cwd x) (p_name x) (p_mask
    x) (p_create_time x) (p_run_time x) (p_total_run_time x) (p_wait_time x) (p_start_time x)
    (p_sleep_time x) (p_exit_time x) (p_n_runs x) (p_priority x) v (p_curr_mem x).
Definition set_p_curr_mem (v : Z) (x : proc) : proc :=
  mkProc (p_state x) (p_chan x) (p_killed x) (p_xstate x) (p_pid x) (p_parent x) (p_kstack x)
    (p_sz x) (p_pagetable x) (p_trapframe x) (p_context x) (p_ofile x) (p_cwd x) (p_name x) (p_mask
    x) (p_create_time x) (p_run_time x) (p_total_run_time x) (p_wait_time x) (p_start_time x)
    (p_sleep_time x) (p_exit_time x) (p_n_runs x) (p_priority x) (p_max_mem x) v.

(** struct file (file.h). *)
Record file := mkFile {
  f_type : filetype;
  f_ref : Z;
  f_readable : Z;
  f_writable : Z;
  f_pipe : Z;          (* address of the pipe page *)
  f_ip : option nat;   (* index into itable *)
  f_off : Z;
  f_major : Z
}.
Definition set_f_type (v : filetype) (x : file) : file :=
  mkFile v (f_ref x) (f_readable x) (f_writable x) (f_pipe x) (f_ip x) (f_off x) (f_major x).
Definition set_f_ref (v : Z) (x : file) : file :=
  mkFile (f_type x) v (f_readable x) (f_writable x) (f_pipe x) (f_ip x) (f_off x) (f_major x).
Definition set_f_readable (v : Z) (x : file) : file :=
  mkFile (f_type x) (f_ref x) v (f_writable x) (f_pipe x) (f_ip x) (f_off x) (f_major x).
Definition set_f_writable (v : Z) (x : file) : file :=
  mkFile (f_type x) (f_ref x) (f_readable x) v (f_pipe x) (f_ip x) (f_off x) (f_major x).
Definition set_f_pipe (v : Z) (x : file) : file :=
  mkFile (f_type x) (f_ref x) (f_readable x) (f_writable x) v (f_ip x) (f_off x) (f_major x).
Definition set_f_ip (v : option nat) (x : file) : file :=
  mkFile (f_type x) (f_ref x) (f_readable x) (f_writable x) (f_pipe x) v (f_off x) (f_major x).
Definition set_f_off (v : Z) (x : file) : file :=
  mkFile (f_type x) (f_ref x) (f_readable x) (f_writable x) (f_pipe x) (f_ip x) v (f_major x).
Definition set_f_major (v : Z) (x : file) : file :=
  mkFile (f_type x) (f_ref x) (f_readable x) (f_writable x) (f_pipe x) (f_ip x) (f_off x) v.

(** struct inode (file.h); its sleep lock is [i_lock]. *)
Record inode := mkInode {
  i_dev : Z;
  i_inum : Z;
  i_ref : Z;
  i_lock : sleeplock;
  i_valid : Z;
  i_type : Z;
  i_major : Z;
  i_minor : Z;
  i_nlink : Z;
  i_size : Z;
  i_addrs : list Z      (* NDIRECT+1 block addresses *)
}.
Definition set_i_dev (v : Z) (x : inode) : inode :=
  mkInode v (i_inum x) (i_ref x) (i_lock x) (i_valid x) (i_type x) (i_major x) (i_minor x)
    (i_nlink x) (i_size x) (i_addrs x).
Definition set_i_inum (v : Z) (x : inode) : inode :=
  mkInode (i_dev x) v (i_ref x) (i_lock x) (i_valid x) (i_type x) (i_major x) (i_minor x)
    (i_nlink x) (i_size x) (i_addrs x).
Definition set_i_ref (v : Z) (x : inode) : inode :=
  mkInode (i_dev x) (i_inum x) v (i_lock x) (i_valid x) (i_type x) (i_major x) (i_minor x)
    (i_nlink x) (i_size x) (i_addrs x).
Definition set_i_lock (v : sleeplock) (x : inode) : inode :=
  mkInode (i_dev x) (i_inum x) (i_ref x) v (i_valid x) (i_type x) (i_major x) (i_minor x)
    (i_nlink x) (i_size x) (i_addrs x).
Definition set_i_valid (v : Z) (x : inode) : inode :=
  mkInode (i_dev x) (i_inum x) (i_ref x) (i_lock x) v (i_type x) (i_major x) (i_minor x)
    (i_nlink x) (i_size x) (i_addrs x).
Definition set_i_type (v : Z) (x : inode) : inode :=
  mkInode (i_dev x) (i_inum x) (i_ref x) (i_lock x) (i_valid x) v (i_major x) (i_minor x)
    (i_nlink x) (i_size x) (i_addrs x).
Definition set_i_major (v : Z) (x : inode) : inode :=
  mkInode (i_dev x) (i_inum x) (i_ref x) (i_lock x) (i_valid x) (i_type x) v (i_minor x)
    (i_nlink x) (i_size x) (i_addrs x).
Definition set_i_minor (v : Z) (x : inode) : inode :=
  mkInode (i_dev x) (i_inum x) (i_ref x) (i_lock x) (i_valid x) (i_type x) (i_major x) v
    (i_nlink x) (i_size x) (i_addrs x).
Definition set_i_nlink (v : Z) (x : inode) : inode :=
  mkInode (i_dev x) (i_inum x) (i_ref x) (i_lock x) (i_valid x) (i_type x) (i_major x) (i_minor
    x) v (i_size x) (i_addrs x).
Definition set_i_size (v : Z) (x : inode) : inode :=
  mkInode (i_dev x) (i_inum x) (i_ref x) (i_lock x) (i_valid x) (i_type x) (i_major x) (i_minor
    x) (i_nlink x) v (i_addrs x).
Definition set_i_addrs (v : list Z) (x : inode) : inode :=
  mkInode (i_dev x) (i_inum x) (i_ref x) (i_lock x) (i_valid x) (i_type x) (i_major x) (i_minor
    x) (i_nlink x) (i_size x) v.

(** struct buf (buf.h); [prev] and [next] are indices into the cache, [NBUF] is the list head. *)
Record buf := mkBuf {
  b_valid : Z;
  b_disk : Z;
  b_dev : Z;
  b_blockno : Z;
  b_lock : sleeplock;
  b_refcnt : Z;
  b_prev : nat;
  b_next : nat;
  b_data : list Z
}.
Definition set_b_valid (v : Z) (x : buf) : buf :=
  mkBuf v (b_disk x) (b_dev x) (b_blockno x) (b_lock x) (b_refcnt x) (b_prev x) (b_next x)
    (b_data x).
Definition set_b_disk (v : Z) (x : buf) : buf :=
  mkBuf (b_valid x) v (b_dev x) (b_blockno x) (b_lock x) (b_refcnt x) (b_prev x) (b_next x)
    (b_data x).
Definition set_b_dev (v : Z) (x : buf) : buf :=
  mkBuf (b_valid x) (b_disk x) v (b_blockno x) (b_lock x) (b_refcnt x) (b_prev x) (b_next x)
    (b_data x).
Definition set_b_blockno (v : Z) (x : buf) : buf :=
  mkBuf (b_valid x) (b_disk x) (b_dev x) v (b_lock x) (b_refcnt x) (b_prev x) (b_next x) (b_data
    x).
Definition set_b_lock (v : sleeplock) (x : buf) : buf :=
  mkBuf (b_valid x) (b_disk x) (b_dev x) (b_blockno x) v (b_refcnt x) (b_prev x) (b_next x)
    (b_data x).
Definition set_b_refcnt (v : Z) (x : buf) : buf :=
  mkBuf (b_valid x) (b_disk x) (b_dev x) (b_blockno x) (b_lock x) v (b_prev x) (b_next x)
    (b_data x).
Definition set_b_prev (v : nat) (x : buf) : buf :=
  mkBuf (b_valid x) (b_disk x) (b_dev x) (b_blockno x) (b_lock x) (b_refcnt x) v (b_next x)
    (b_data x).
Definition set_b_next (v : nat) (x : buf) : buf :=
  mkBuf (b_valid x) (b_disk x) (b_dev x) (b_blockno x) (b_lock x) (b_refcnt x) (b_prev x) v
    (b_data x).
Definition set_b_data (v : list Z) (x : buf) : buf :=
  mkBuf (b_valid x) (b_disk x) (b_dev x) (b_blockno x) (b_lock x) (b_refcnt x) (b_prev x)
    (b_next x) v.

(** struct log with its struct logheader (log.c). *)
Record logstate := mkLog {
  l_start : Z;
  l_size : Z;
  l_outstanding : Z;
  l_committing : Z;
  l_dev : Z;
  lh_n : Z;
  lh_block : list Z    (* LOGSIZE block numbers *)
}.
Definition set_l_start (v : Z) (x : logstate) : logstate :=
  mkLog v (l_size x) (l_outstanding x) (l_committing x) (l_dev x) (lh_n x) (lh_block x).
Definition set_l_size (v : Z) (x : logstate) : logstate :=
  mkLog (l_start x) v (l_outstanding x) (l_committing x) (l_dev x) (lh_n x) (lh_block x).
Definition set_l_outstanding (v : Z) (x : logstate) : logstate :=
  mkLog (l_start x) (l_size x) v (l_committing x) (l_dev x) (lh_n x) (lh_block x).
Definition set_l_committing (v : Z) (x : logstate) : logstate :=
  mkLog (l_start x) (l_size x) (l_outstanding x) v (l_dev x) (lh_n x) (lh_block x).
Definition set_l_dev (v : Z) (x : logstate) : logstate :=
  mkLog (l_start x) (l_size x) (l_outstanding x) (l_committing x) v (lh_n x) (lh_block x).
Definition set_lh_n (v : Z) (x : logstate) : logstate :=
  mkLog (l_start x) (l_size x) (l_outstanding x) (l_committing x) (l_dev x) v (lh_block x).
Definition set_lh_block (v : list Z) (x : logstate) : logstate :=
  mkLog (l_start x) (l_size x) (l_outstanding x) (l_committing x) (l_dev x) (lh_n x) v.

(** struct superblock (fs.h). *)
Record superblock := mkSuperblock {
  sb_magic : Z;
  sb_size : Z;
  sb_nblocks : Z;
  sb_ninodes : Z;
  sb_nlog : Z;
  sb_logstart : Z;
  sb_inodestart : Z;
  sb_bmapstart : Z
}.
Definition set_sb_magic (v : Z) (x : superblock) : superblock :=
  mkSuperblock v (sb_size x) (sb_nblocks x) (sb_ninodes x) (sb_nlog x) (sb_logstart x)
    (sb_inodestart x) (sb_bmapstart x).
Definition set_sb_size (v : Z) (x : superblock) : superblock :=
  mkSuperblock (sb_magic x) v (sb_nblocks x) (sb_ninodes x) (sb_nlog x) (sb_logstart x)
    (sb_inodestart x) (sb_bmapstart x).
Definition set_sb_nblocks (v : Z) (x : superblock) : superblock :=
  mkSuperblock (sb_magic x) (sb_size x) v (sb_ninodes x) (sb_nlog x) (sb_logstart x)
    (sb_inodestart x) (sb_bmapstart x).
Definition set_sb_ninodes (v : Z) (x : superblock) : superblock :=
  mkSuperblock (sb_magic x) (sb_size x) (sb_nblocks x) v (sb_nlog x) (sb_logstart x)
    (sb_inodestart x) (sb_bmapstart x).
Definition set_sb_nlog (v : Z) (x : superblock) : superblock :=
  mkSuperblock (sb_magic x) (sb_size x) (sb_nblocks x) (sb_ninodes x) v (sb_logstart x)
    (sb_inodestart x) (sb_bmapstart x).
Definition set_sb_logstart (v : Z) (x : superblock) : superblock :=
  mkSuperblock (sb_magic x) (sb_size x) (sb_nblocks x) (sb_ninodes x) (sb_nlog x) v
    (sb_inodestart x) (sb_bmapstart x).
Definition set_sb_inodestart (v : Z) (x : superblock) : superblock :=
  mkSuperblock (sb_magic x) (sb_size x) (sb_nblocks x) (sb_ninodes x) (sb_nlog x) (sb_logstart
    x) v (sb_bmapstart x).
Definition set_sb_bmapstart (v : Z) (x : superblock) : superblock :=
  mkSuperblock (sb_magic x) (sb_size x) (sb_nblocks x) (sb_ninodes x) (sb_nlog x) (sb_logstart
    x) (sb_inodestart x) v.

(** struct pipe (pipe.c); its lock is [LkPipe]. *)
Record pipe := mkPipe {
  pi_data : list Z;   (* char data[PIPESIZE] *)
  pi_nread : Z;       (* number of bytes read *)
  pi_nwrite : Z;      (* number of bytes written *)
  pi_readopen : Z;
  pi_writeopen : Z
}.
Definition set_pi_data (v : list Z) (x : pipe) : pipe :=
  mkPipe v (pi_nread x) (pi_nwrite x) (pi_readopen x) (pi_writeopen x).
Definition set_pi_nread (v : Z) (x : pipe) : pipe :=
  mkPipe (pi_data x) v (pi_nwrite x) (pi_readopen x) (pi_writeopen x).
Definition set_pi_nwrite (v : Z) (x : pipe) : pipe :=
  mkPipe (pi_data x) (pi_nread x) v (pi_readopen x) (pi_writeopen x).
Definition set_pi_readopen (v : Z) (x : pipe) : pipe :=
  mkPipe (pi_data x) (pi_nread x) (pi_nwrite x) v (pi_writeopen x).
Definition set_pi_writeopen (v : Z) (x : pipe) : pipe :=
  mkPipe (pi_data x) (pi_nread x) (pi_nwrite x) (pi_readopen x) v.

(** The console input buffer cons (console.c). *)
Record console := mkConsole {
  cons_buf : list Z;   (* char buf[INPUT_BUF] *)
  cons_r : Z;          (* read index *)
  cons_w : Z;          (* write index *)
  cons_e : Z           (* edit index *)
}.
Definition set_cons_buf (v : list Z) (x : console) : console :=
  mkConsole v (cons_r x) (cons_w x) (cons_e x).
Definition set_cons_r (v : Z) (x : console) : console :=
  mkConsole (cons_buf x) v (cons_w x) (cons_e x).
Definition set_cons_w (v : Z) (x : console) : console :=
  mkConsole (cons_buf x) (cons_r x) v (cons_e x).
Definition set_cons_e (v : Z) (x : console) : console :=
  mkConsole (cons_buf x) (cons_r x) (cons_w x) v.

(** The transmit buffer of uart.c. *)
Record uarttx := mkUarttx {
  tx_buf : list Z;   (* char uart_tx_buf[UART_TX_BUF_SIZE] *)
  tx_w : Z;          (* write index *)
  tx_r : Z           (* read index *)
}.
Definition set_tx_buf (v : list Z) (x : uarttx) : uarttx :=
  mkUarttx v (tx_w x) (tx_r x).
Definition set_tx_w (v : Z) (x : uarttx) : uarttx :=
  mkUarttx (tx_buf x) v (tx_r x).
Definition set_tx_r (v : Z) (x : uarttx) : uarttx :=
  mkUarttx (tx_buf x) (tx_w x) v.

(** The kernel state: the static variables of the kernel, physical memory, the disk, the console output, and the registers of the executing hart. *)
Record kernel := mkKernel {
  k_tp : nat;                       (* register tp: the executing hart *)
  k_csr : csrs;
  k_cpus : list cpu;                (* cpus[NCPU] *)
  k_locks : gmap lockid spinlock;   (* every spinlock *)
  k_mem : mem;                      (* physical memory *)
  k_freelist : Z;                   (* kmem.freelist *)
  k_kpagetable : Z;                 (* kernel_pagetable *)
  k_procs : list proc;              (* proc[NPROC] *)
  k_initproc : option nat;          (* initproc *)
  k_nextpid : Z;                    (* nextpid *)
  k_first : Z;                      (* static first of forkret() *)
  k_ticks : Z;                      (* ticks *)
  k_ftable : list file;             (* ftable.file[NFILE] *)
  k_itable : list inode;            (* itable.inode[NINODE] *)
  k_sb : superblock;                (* sb *)
  k_bcache : list buf;              (* bcache.buf[NBUF] and bcache.head *)
  k_log : logstate;                 (* log *)
  k_pipes : gmap Z pipe;            (* the pipe in each page allocated by pipealloc() *)
  k_cons : console;                 (* cons *)
  k_disk : gmap Z (list Z);         (* block device contents *)
  k_writes : list (Z * list Z);     (* block writes the device has completed, in order *)
  k_uarttx : uarttx;                (* uart_tx_buf, uart_tx_w, uart_tx_r *)
  k_locking : Z;                    (* pr.locking of printf.c *)
  k_uart : list Z                   (* characters sent to the uart *)
}.
Definition set_k_tp (v : nat) (x : kernel) : kernel :=
  mkKernel v (k_csr x) (k_cpus x) (k_locks x) (k_mem x) (k_freelist x) (k_kpagetable x) (k_procs
    x) (k_initproc x) (k_nextpid x) (k_first x) (k_ticks x) (k_ftable x) (k_itable x) (k_sb x)
    (k_bcache x) (k_log x) (k_pipes x) (k_cons x) (k_disk x) (k_writes x) (k_uarttx x) (k_locking x)
    (k_uart x).
Definition set_k_csr (v : csrs) (x : kernel) : kernel :=
  mkKernel (k_tp x) v (k_cpus x) (k_locks x) (k_mem x) (k_freelist x) (k_kpagetable x) (k_procs
    x) (k_initproc x) (k_nextpid x) (k_first x) (k_ticks x) (k_ftable x) (k_itable x) (k_sb x)
    (k_bcache x) (k_log x) (k_pipes x) (k_cons x) (k_disk x) (k_writes x) (k_uarttx x) (k_locking x)
    (k_uart x).
Definition set_k_cpus (v : list cpu) (x : kernel) : kernel :=
  mkKernel (k_tp x) (k_csr x) v (k_locks x) (k_mem x) (k_freelist x) (k_kpagetable x) (k_procs
    x) (k_initproc x) (k_nextpid x) (k_first x) (k_ticks x) (k_ftable x) (k_itable x) (k_sb x)
    (k_bcache x) (k_log x) (k_pipes x) (k_cons x) (k_disk x) (k_writes x) (k_uarttx x) (k_locking x)
    (k_uart x).
Definition set_k_locks (v : gmap lockid spinlock) (x : kernel) : kernel :=
  mkKernel (k_tp x) (k_csr x) (k_cpus x) v (k_mem x) (k_freelist x) (k_kpagetable x) (k_procs x)
    (k_initproc x) (k_nextpid x) (k_first x) (k_ticks x) (k_ftable x) (k_itable x) (k_sb x)
    (k_bcache x) (k_log x) (k_pipes x) (k_cons x) (k_disk x) (k_writes x) (k_uarttx x) (k_locking x)
    (k_uart x).
Definition set_k_mem (v : mem) (x : kernel) : kernel :=
  mkKernel (k_tp x) (k_csr x) (k_cpus x) (k_locks x) v (k_freelist x) (k_kpagetable x) (k_procs
    x) (k_initproc x) (k_nextpid x) (k_first x) (k_ticks x) (k_ftable x) (k_itable x) (k_sb x)
    (k_bcache x) (k_log x) (k_pipes x) (k_cons x) (k_disk x) (k_writes x) (k_uarttx x) (k_locking x)
    (k_uart x).
Definition set_k_freelist (v : Z) (x : kernel) : kernel :=
  mkKernel (k_tp x) (k_csr x) (k_cpus x) (k_locks x) (k_mem x) v (k_kpagetable x) (k_procs x)
    (k_initproc x) (k_nextpid x) (k_first x) (k_ticks x) (k_ftable x) (k_itable x) (k_sb x)
    (k_bcache x) (k_log x) (k_pipes x) (k_cons x) (k_disk x) (k_writes x) (k_uarttx x) (k_locking x)
    (k_uart x).
Definition set_k_kpagetable (v : Z) (x : kernel) : kernel :=
  mkKernel (k_tp x) (k_csr x) (k_cpus x) (k_locks x) (k_mem x) (k_freelist x) v (k_procs x)
    (k_initproc x) (k_nextpid x) (k_first x) (k_ticks x) (k_ftable x) (k_itable x) (k_sb x)
    (k_bcache x) (k_log x) (k_pipes x) (k_cons x) (k_disk x) (k_writes x) (k_uarttx x) (k_locking x)
    (k_uart x).
Definition set_k_procs (v : list proc) (x : kernel) : kernel :=
  mkKernel (k_tp x) (k_csr x) (k_cpus x) (k_locks x) (k_mem x) (k_freelist x) (k_kpagetable x) v
    (k_initproc x) (k_nextpid x) (k_first x) (k_ticks x) (k_ftable x) (k_itable x) (k_sb x)
    (k_bcache x) (k_log x) (k_pipes x) (k_cons x) (k_disk x) (k_writes x) (k_uarttx x) (k_locking x)
    (k_uart x).
Definition set_k_initproc (v : option nat) (x : kernel) : kernel :=
  mkKernel (k_tp x) (k_csr x) (k_cpus x) (k_locks x) (k_mem x) (k_freelist x) (k_kpagetable x)
    (k_procs x) v (k_nextpid x) (k_first x) (k_ticks x) (k_ftable x) (k_itable x) (k_sb x) (k_bcache
    x) (k_log x) (k_pipes x) (k_cons x) (k_disk x) (k_writes x) (k_uarttx x) (k_locking x) (k_uart
    x).
Definition set_k_nextpid (v : Z) (x : kernel) : kernel :=
  mkKernel (k_tp x) (k_csr x) (k_cpus x) (k_locks x) (k_mem x) (k_freelist x) (k_kpagetable x)
    (k_procs x) (k_initproc x) v (k_first x) (k_ticks x) (k_ftable x) (k_itable x) (k_sb x)
    (k_bcache x) (k_log x) (k_pipes x) (k_cons x) (k_disk x) (k_writes x) (k_uarttx x) (k_locking x)
    (k_uart x).
Definition set_k_first (v : Z) (x : kernel) : kernel :=
  mkKernel (k_tp x) (k_csr x) (k_cpus x) (k_locks x) (k_mem x) (k_freelist x) (k_kpagetable x)
    (k_procs x) (k_initproc x) (k_nextpid x) v (k_ticks x) (k_ftable x) (k_itable x) (k_sb x)
    (k_bcache x) (k_log x) (k_pipes x) (k_cons x) (k_disk x) (k_writes x) (k_uarttx x) (k_locking x)
    (k_uart x).
Definition set_k_ticks (v : Z) (x : kernel) : kernel :=
  mkKernel (k_tp x) (k_csr x) (k_cpus x) (k_locks x) (k_mem x) (k_freelist x) (k_kpagetable x)
    (k_procs x) (k_initproc x) (k_nextpid x) (k_first x) v (k_ftable x) (k_itable x) (k_sb x)
    (k_bcache x) (k_log x) (k_pipes x) (k_cons x) (k_disk x) (k_writes x) (k_uarttx x) (k_locking x)
    (k_uart x).
Definition set_k_ftable (v : list file) (x : kernel) : kernel :=
  mkKernel (k_tp x) (k_csr x) (k_cpus x) (k_locks x) (k_mem x) (k_freelist x) (k_kpagetable x)
    (k_procs x) (k_initproc x) (k_nextpid x) (k_first x) (k_ticks x) v (k_itable x) (k_sb x)
    (k_bcache x) (k_log x) (k_pipes x) (k_cons x) (k_disk x) (k_writes x) (k_uarttx x) (k_locking x)
    (k_uart x).
Definition set_k_itable (v : list inode) (x : kernel) : kernel :=
  mkKernel (k_tp x) (k_csr x) (k_cpus x) (k_locks x) (k_mem x) (k_freelist x) (k_kpagetable x)
    (k_procs x) (k_initproc x) (k_nextpid x) (k_first x) (k_ticks x) (k_ftable x) v (k_sb x)
    (k_bcache x) (k_log x) (k_pipes x) (k_cons x) (k_disk x) (k_writes x) (k_uarttx x) (k_locking x)
    (k_uart x).
Definition set_k_sb (v : superblock) (x : kernel) : kernel :=
  mkKernel (k_tp x) (k_csr x) (k_cpus x) (k_locks x) (k_mem x) (k_freelist x) (k_kpagetable x)
    (k_procs x) (k_initproc x) (k_nextpid x) (k_first x) (k_ticks x) (k_ftable x) (k_itable x) v
    (k_bcache x) (k_log x) (k_pipes x) (k_cons x) (k_disk x) (k_writes x) (k_uarttx x) (k_locking x)
    (k_uart x).
Definition set_k_bcache (v : list buf) (x : kernel) : kernel :=
  mkKernel (k_tp x) (k_csr x) (k_cpus x) (k_locks x) (k_mem x) (k_freelist x) (k_kpagetable x)
    (k_procs x) (k_initproc x) (k_nextpid x) (k_first x) (k_ticks x) (k_ftable x) (k_itable x) (k_sb
    x) v (k_log x) (k_pipes x) (k_cons x) (k_disk x) (k_writes x) (k_uarttx x) (k_locking x) (k_uart
    x).
Definition set_k_log (v : logstate) (x : kernel) : kernel :=
  mkKernel (k_tp x) (k_csr x) (k_cpus x) (k_locks x) (k_mem x) (k_freelist x) (k_kpagetable x)
    (k_procs x) (k_initproc x) (k_nextpid x) (k_first x) (k_ticks x) (k_ftable x) (k_itable x) (k_sb
    x) (k_bcache x) v (k_pipes x) (k_cons x) (k_disk x) (k_writes x) (k_uarttx x) (k_locking x)
    (k_uart x).
Definition set_k_pipes (v : gmap Z pipe) (x : kernel) : kernel :=
  mkKernel (k_tp x) (k_csr x) (k_cpus x) (k_locks x) (k_mem x) (k_freelist x) (k_kpagetable x)
    (k_procs x) (k_initproc x) (k_nextpid x) (k_first x) (k_ticks x) (k_ftable x) (k_itable x) (k_sb
    x) (k_bcache x) (k_log x) v (k_cons x) (k_disk x) (k_writes x) (k_uarttx x) (k_locking x)
    (k_uart x).
Definition set_k_cons (v : console) (x : kernel) : kernel :=
  mkKernel (k_tp x) (k_csr x) (k_cpus x) (k_locks x) (k_mem x) (k_freelist x) (k_kpagetable x)
    (k_procs x) (k_initproc x) (k_nextpid x) (k_first x) (k_ticks x) (k_ftable x) (k_itable x) (k_sb
    x) (k_bcache x) (k_log x) (k_pipes x) v (k_disk x) (k_writes x) (k_uarttx x) (k_locking x)
    (k_uart x).
Definition set_k_disk (v : gmap Z (list Z)) (x : kernel) : kernel :=
  mkKernel (k_tp x) (k_csr x) (k_cpus x) (k_locks x) (k_mem x) (k_freelist x) (k_kpagetable x)
    (k_procs x) (k_initproc x) (k_nextpid x) (k_first x) (k_ticks x) (k_ftable x) (k_itable x) (k_sb
    x) (k_bcache x) (k_log x) (k_pipes x) (k_cons x) v (k_writes x) (k_uarttx x) (k_locking x)
    (k_uart x).
Definition set_k_writes (v : list (Z * list Z)) (x : kernel) : kernel :=
  mkKernel (k_tp x) (k_csr x) (k_cpus x) (k_locks x) (k_mem x) (k_freelist x) (k_kpagetable x)
    (k_procs x) (k_initproc x) (k_nextpid x) (k_first x) (k_ticks x) (k_ftable x) (k_itable x) (k_sb
    x) (k_bcache x) (k_log x) (k_pipes x) (k_cons x) (k_disk x) v (k_uarttx x) (k_locking x) (k_uart
    x).
Definition set_k_uarttx (v : uarttx) (x : kernel) : kernel :=
  mkKernel (k_tp x) (k_csr x) (k_cpus x) (k_locks x) (k_mem x) (k_freelist x) (k_kpagetable x)
    (k_procs x) (k_initproc x) (k_nextpid x) (k_first x) (k_ticks x) (k_ftable x) (k_itable x) (k_sb
    x) (k_bcache x) (k_log x) (k_pipes x) (k_cons x) (k_disk x) (k_writes x) v (k_locking x) (k_uart
    x).
Definition set_k_locking (v : Z) (x : kernel) : kernel :=
  mkKernel (k_tp x) (k_csr x) (k_cpus x) (k_locks x) (k_mem x) (k_freelist x) (k_kpagetable x)
    (k_procs x) (k_initproc x) (k_nextpid x) (k_first x) (k_ticks x) (k_ftable x) (k_itable x) (k_sb
    x) (k_bcache x) (k_log x) (k_pipes x) (k_cons x) (k_disk x) (k_writes x) (k_uarttx x) v (k_uart
    x).
Definition set_k_uart (v : list Z) (x : kernel) : kernel :=
  mkKernel (k_tp x) (k_csr x) (k_cpus x) (k_locks x) (k_mem x) (k_freelist x) (k_kpagetable x)
    (k_procs x) (k_initproc x) (k_nextpid x) (k_first x) (k_ticks x) (k_ftable x) (k_itable x) (k_sb
    x) (k_bcache x) (k_log x) (k_pipes x) (k_cons x) (k_disk x) (k_writes x) (k_uarttx x) (k_locking
    x) v.

(** ** Kernel routines

    [K A]: a routine of the kernel that returns an [A]. *)
Abbreviation K := (M kernel).

(** Update of one entry of a static table; indices outside it are never used
    by the routines below. *)
Definition upd_cpu (i : nat) (f : cpu -> cpu) (k : kernel) : kernel :=
  set_k_cpus (alter f i (k_cpus k)) k.
Definition upd_proc (i : nat) (f : proc -> proc) (k : kernel) : kernel :=
  set_k_procs (alter f i (k_procs k)) k.
Definition upd_file (i : nat) (f : file -> file) (k : kernel) : kernel :=
  set_k_ftable (alter f i (k_ftable k)) k.
Definition upd_inode (i : nat) (f : inode -> inode) (k : kernel) : kernel :=
  set_k_itable (alter f i (k_itable k)) k.
Definition upd_buf (i : nat) (f : buf -> buf) (k : kernel) : kernel :=
  set_k_bcache (alter f i (k_bcache k)) k.
Definition upd_log (f : logstate -> logstate) (k : kernel) : kernel :=
  set_k_log (f (k_log k)) k.
Definition upd_cons (f : console -> console) (k : kernel) : kernel :=
  set_k_cons (f (k_cons k)) k.
Definition upd_csr (f : csrs -> csrs) (k : kernel) : kernel :=
  set_k_csr (f (k_csr k)) k.
Definition upd_mem (f : mem -> mem) (k : kernel) : kernel :=
  set_k_mem (f (k_mem k)) k.

(** The zero-initialised structures of the bss segment. *)
Definition context0 : context := mkContext 0 0 (replicate 12 0).
Definition cpu0 : cpu := mkCpu None context0 0 0.
Definition spinlock0 : spinlock := mkSpinlock 0 "" None.
Definition sleeplock0 : sleeplock := mkSleeplock 0 "" 0.
Definition proc0 : proc :=
  mkProc UNUSED ChNull 0 0 0 None 0 0 0 0 context0 (replicate NOFILE None) None (replicate 16 0) 0
    0 0 0 0 0 0 0 0 0 0 0.
Definition file0 : file := mkFile FD_NONE 0 0 0 0 None 0 0.
Definition inode0 : inode := mkInode 0 0 0 sleeplock0 0 0 0 0 0 0 (replicate 13 0).
Definition buf0 : buf := mkBuf 0 0 0 0 sleeplock0 0 0 0 (replicate 1024 0).
Definition log0 : logstate := mkLog 0 0 0 0 0 0 (replicate (Z.to_nat LOGSIZE) 0).
Definition superblock0 : superblock := mkSuperblock 0 0 0 0 0 0 0 0.
Definition console0 : console := mkConsole (replicate 128 0) 0 0 0.
Definition uarttx0 : uarttx := mkUarttx (replicate 32 0) 0 0.
Definition csrs0 : csrs := mkCsrs 0 0 0 0 0 0 0.
(** The kernel as the boot loader leaves it, on hart 0. *)
Definition kernel0 : kernel :=
  mkKernel 0 csrs0 (replicate NCPU cpu0) ∅ ∅ 0 0 (replicate NPROC proc0) None 1 1 0
    (replicate NFILE file0) (replicate NINODE inode0) superblock0 (replicate (S NBUF) buf0) log0 ∅
    console0 ∅ [] uarttx0 0 [].

(** Reading the tables; an out-of-range index reads a zero-initialised entry. *)
Definition get_proc (k : kernel) (i : nat) : proc := default proc0 (k_procs k !! i).
Definition get_file (k : kernel) (i : nat) : file := default file0 (k_ftable k !! i).
Definition get_inode (k : kernel) (i : nat) : inode := default inode0 (k_itable k !! i).
Definition get_buf (k : kernel) (i : nat) : buf := default buf0 (k_bcache k !! i).
Definition get_cpu (k : kernel) (i : nat) : cpu := default cpu0 (k_cpus k !! i).
Definition get_lock (k : kernel) (l : lockid) : spinlock := default spinlock0 (k_locks k !! l).

(** ** Symbols set by the linker script kernel.ld

    Their values are fixed when the kernel is linked; the routines only rely on
    where they lie. *)
Class Symbols := {
  sym_etext : Z;        (* end of kernel text *)
  sym_end : Z;          (* first address after the kernel *)
  sym_trampoline : Z;   (* page of trampoline.S *)
  sym_uservec : Z;
  sym_userret : Z;
  sym_kernelvec : Z;
  sym_usertrap : Z;
  sym_forkret : Z
}.

(** What kernel.ld guarantees (its ALIGN and ASSERT commands): text starts at
    KERNBASE and ends on a page boundary, the trampoline is one page of it, the
    whole kernel lies in RAM. *)
Class SymbolsOK (Y : Symbols) : Prop := {
  etext_aligned : sym_etext mod PGSIZE = 0;
  trampoline_aligned : sym_trampoline mod PGSIZE = 0;
  trampoline_in_text : KERNBASE <= sym_trampoline /\ sym_trampoline + PGSIZE <= sym_etext;
  etext_before_end : sym_etext <= sym_end;
  end_in_ram : KERNBASE < sym_end < PHYSTOP
}.

(** The values of the shipped build, from kernel.sym. *)
Definition shipped_symbols : Symbols := {|
  sym_etext := 0x80008000; sym_end := 0x8002a000; sym_trampoline := 0x80007000;
  sym_uservec := 0x80007000; sym_userret := 0x80007090; sym_kernelvec := 0x80006280;
  sym_usertrap := 0x80002c18; sym_forkret := 0x80001ac0 |}.
#[export] Instance shipped_symbols_ok : SymbolsOK shipped_symbols.
Proof. by constructor. Qed.

(** ** Lemmas: table updates *)

Lemma get_proc_upd k i j f :
  (i < length (k_procs k))%nat ->
  get_proc (upd_proc i f k) j = if decide (i = j) then f (get_proc k j) else get_proc k j.
Proof.
  intros Hi. unfold get_proc, upd_proc. cbn. case_decide as E.
  - subst. rewrite list_lookup_alter_eq. destruct (lookup_lt_is_Some_2 _ _ Hi) as [p Hp]. by rewrite Hp.
  - by rewrite list_lookup_alter_ne.
Qed.

Lemma get_proc_lookup k i p : k_procs k !! i = Some p -> get_proc k i = p.
Proof. intros H. unfold get_proc. by rewrite H. Qed.
