(* ===== verification/Spinlock.v ===== *)
(** * kernel/spinlock.c, and the interrupt control of riscv.h

    [push_off]/[pop_off], [acquire]/[release], [holding] and [initlock] on the
    kernel state, as executed by the hart in register tp.  An [acquire] of a
    lock that another hart holds spins: it hands control to the environment
    until it finds the lock free.

    The algebra used by every later file: under [cpu_ok], [acquire l] takes [k]
    to [lock_taken l k], and [release l] takes [lock_taken l k] back to [k]; a
    critical section is transparent apart from what its body does.  Section
    [Interleaving] treats the atomic steps of acquire and release on several
    harts and proves mutual exclusion. *)

From S2P Require Import Prelude Machine Kernel.

(** ** riscv.h: device interrupts of the executing hart *)
Definition intr_on : K unit :=
  modify (upd_csr (fun c => set_sstatus (Z.lor (sstatus c) SSTATUS_SIE) c)).
Definition intr_off : K unit :=
  modify (upd_csr (fun c => set_sstatus (Z.land (sstatus c) (Z.lnot SSTATUS_SIE)) c)).
Definition intr_get : K Z :=
  gets (fun k => if decide (Z.land (sstatus (k_csr k)) SSTATUS_SIE <> 0) then 1 else 0).

(** proc.c: [cpuid] and [mycpu]; the cpu structure is named by its index. *)
Definition cpuid : K nat := gets k_tp.
Definition mycpu : K nat := cpuid.

(** ** spinlock.c *)
Definition initlock (l : lockid) (name : string) : K unit :=
  modify (fun k => set_k_locks (<[l := mkSpinlock 0 name None]> (k_locks k)) k).

Definition push_off : K unit :=
  old <- intr_get;;
  intr_off;;;
  c <- mycpu;;
  noff <- gets (fun k => c_noff (get_cpu k c));;
  (if decide (noff = 0) then modify (upd_cpu c (set_c_intena old)) else skip);;;
  modify (upd_cpu c (fun x => set_c_noff (c_noff x + 1) x)).

Definition pop_off : K unit :=
  c <- mycpu;;
  i <- intr_get;;
  if decide (i <> 0) then panic "pop_off - interruptible" else
  noff <- gets (fun k => c_noff (get_cpu k c));;
  if decide (noff < 1) then panic "pop_off" else
  modify (upd_cpu c (fun x => set_c_noff (c_noff x - 1) x));;;
  x <- gets (fun k => get_cpu k c);;
  if decide (c_noff x = 0 /\ c_intena x <> 0) then intr_on else skip.

Definition holding (l : lockid) : K bool :=
  c <- mycpu;;
  gets (fun k => bool_decide (lk_locked (get_lock k l) <> 0 /\ lk_cpu (get_lock k l) = Some c)).

Definition upd_lock (l : lockid) (f : spinlock -> spinlock) (k : kernel) : kernel :=
  set_k_locks (<[l := f (get_lock k l)]> (k_locks k)) k.

(** [while(__sync_lock_test_and_set(&lk->locked, 1) != 0);] *)
Fixpoint test_and_set (l : lockid) (e : list (kernel -> kernel)) (k : kernel) : out kernel unit :=
  if decide (lk_locked (get_lock k l) = 0) then Ok tt e (upd_lock l (set_lk_locked 1) k)
  else match e with
       | [] => Wait WSpin k
       | f :: e' => test_and_set l e' (f k)
       end.

Definition acquire (l : lockid) : K unit :=
  push_off;;;
  h <- holding l;;
  if h : bool then panic "acquire" else
  test_and_set l;;;
  c <- mycpu;;
  modify (upd_lock l (set_lk_cpu (Some c))).

Definition release (l : lockid) : K unit :=
  h <- holding l;;
  if negb h then panic "release" else
  modify (upd_lock l (set_lk_cpu None));;;
  modify (upd_lock l (set_lk_locked 0));;;
  pop_off.

Global Arguments intr_on : simpl never.
Global Arguments intr_off : simpl never.
Global Arguments intr_get : simpl never.
Global Arguments initlock : simpl never.
Global Arguments push_off : simpl never.
Global Arguments pop_off : simpl never.
Global Arguments holding : simpl never.
Global Arguments test_and_set : simpl never.
Global Arguments acquire : simpl never.
Global Arguments release : simpl never.

(** ** What an acquired lock looks like *)

(** Are device interrupts enabled on the executing hart? *)
Definition sie (k : kernel) : bool := Z.testbit (sstatus (k_csr k)) 1.

(** The executing hart's entry of [cpus] is consistent with its status
    register: interrupts are off inside push_off(), and outside of it [intena]
    records the current setting. *)
Definition cpu_ok (k : kernel) : Prop :=
  exists c, k_cpus k !! k_tp k = Some c /\ 0 <= c_noff c /\
    (0 < c_noff c -> sie k = false) /\
    (c_noff c = 0 -> c_intena c = if sie k then 1 else 0).

(** Initialised and held by nobody. *)
Definition lock_free (l : lockid) (k : kernel) : Prop :=
  exists name, k_locks k !! l = Some (mkSpinlock 0 name None).

Definition pushed (k : kernel) : kernel :=
  upd_cpu (k_tp k) (fun c => set_c_noff (c_noff c + 1) c)
    (upd_csr (fun c => set_sstatus (Z.land (sstatus c) (Z.lnot SSTATUS_SIE)) c) k).
Definition lock_taken (l : lockid) (k : kernel) : kernel :=
  set_k_locks (<[l := mkSpinlock 1 (lk_name (get_lock k l)) (Some (k_tp k))]> (k_locks k)) (pushed k).

(** ** The status register *)

Lemma land_SIE x : Z.land x SSTATUS_SIE = if Z.testbit x 1 then 2 else 0.
Proof.
  apply Z.bits_inj'. intros n Hn. rewrite Z.land_spec.
  change SSTATUS_SIE with (2 ^ 1). rewrite Z.pow2_bits_eqb by lia.
  destruct (Z.eqb_spec 1 n) as [<-|Hne].
  - destruct (Z.testbit x 1); done.
  - rewrite andb_false_r. destruct (Z.testbit x 1); [|by rewrite Z.bits_0].
    change 2 with (2 ^ 1). by rewrite Z.pow2_bits_false.
Qed.

Lemma SIE_clear_bit x : Z.testbit (Z.land x (Z.lnot SSTATUS_SIE)) 1 = false.
Proof. rewrite Z.land_spec, Z.lnot_spec by lia. apply andb_false_r. Qed.

Lemma SIE_clear_off x : Z.testbit x 1 = false -> Z.land x (Z.lnot SSTATUS_SIE) = x.
Proof.
  intros H. apply Z.bits_inj'. intros n Hn. rewrite Z.land_spec, Z.lnot_spec by lia.
  change SSTATUS_SIE with (2 ^ 1). rewrite Z.pow2_bits_eqb by lia.
  destruct (Z.eqb_spec 1 n) as [<-|]; [by rewrite H|apply andb_true_r].
Qed.

Lemma SIE_restore x :
  Z.testbit x 1 = true -> Z.lor (Z.land x (Z.lnot SSTATUS_SIE)) SSTATUS_SIE = x.
Proof.
  intros H. apply Z.bits_inj'. intros n Hn. rewrite Z.lor_spec, Z.land_spec, Z.lnot_spec by lia.
  change SSTATUS_SIE with (2 ^ 1). rewrite Z.pow2_bits_eqb by lia.
  destruct (Z.eqb_spec 1 n) as [<-|]; [by rewrite H|].
  by rewrite andb_true_r, orb_false_r.
Qed.

Lemma intr_get_eq e k : intr_get e k = Ok (if sie k then 1 else 0) e k.
Proof.
  unfold intr_get, sie, gets. rewrite land_SIE. by destruct (Z.testbit (sstatus (k_csr k)) 1).
Qed.

(** ** push_off and pop_off *)

Lemma push_off_ok e k : cpu_ok k -> push_off e k = Ok tt e (pushed k).
Proof.
  intros (c & Hc & Hn & Hon & Hoff). unfold push_off, intr_off, bind. rewrite intr_get_eq. cbn.
  unfold get_cpu. cbn. rewrite Hc. cbn.
  case_decide as E; [|done]. unfold pushed, upd_cpu. cbn.
  rewrite (alter_same (set_c_intena _) _ _ c); [done|done|].
  rewrite <- Hoff by done. by destruct c.
Qed.

Lemma cpu_ok_pushed k : cpu_ok k -> cpu_ok (pushed k).
Proof.
  intros (c & Hc & Hn & Hon & Hoff). exists (set_c_noff (c_noff c + 1) c). cbn.
  rewrite list_lookup_alter_eq, Hc. repeat split; cbn; try lia.
  intros _. apply SIE_clear_bit.
Qed.

Lemma pop_off_pushed e k : cpu_ok k -> pop_off e (pushed k) = Ok tt e k.
Proof.
  intros (c & Hc & Hn & Hon & Hoff). unfold pop_off, bind, mycpu, cpuid, gets.
  rewrite intr_get_eq. unfold sie. cbn. rewrite SIE_clear_bit. dec.
  unfold get_cpu. cbn. rewrite !list_lookup_alter_eq, Hc. cbn.
  dec. rewrite !list_lookup_alter_eq, Hc. cbn.
  replace (c_noff c + 1 - 1) with (c_noff c) by lia.
  assert (upd_cpu (k_tp k) (fun x => set_c_noff (c_noff x - 1) x) (pushed k) =
          upd_csr (fun c => set_sstatus (Z.land (sstatus c) (Z.lnot SSTATUS_SIE)) c) k) as ->.
  { unfold pushed, upd_cpu. cbn. rewrite list_alter_alter_eq.
    rewrite (alter_same _ _ _ c); [by destruct k|done|]. cbn.
    destruct c; unfold set_c_noff; cbn. f_equal. lia. }
  destruct k as [tp csr]. destruct csr. unfold sie in *. cbn in *.
  case_decide as E; cbn.
  - destruct E as [E1 E2]. rewrite Hoff in E2 by done.
    destruct (Z.testbit _ 1) eqn:Hs; [|done]. unfold intr_on, upd_csr, set_sstatus. cbn.
    by rewrite SIE_restore.
  - destruct (decide (c_noff c = 0)) as [E0|E0].
    + rewrite Hoff in E by done. unfold upd_csr, set_sstatus. cbn.
      destruct (Z.testbit _ 1) eqn:Hs; [naive_solver|]. by rewrite SIE_clear_off.
    + unfold upd_csr, set_sstatus. cbn. rewrite SIE_clear_off; [done|]. apply Hon. lia.
Qed.

(** ** acquire and release *)

Lemma lock_free_get l k : lock_free l k -> lk_locked (get_lock k l) = 0 /\ lk_cpu (get_lock k l) = None.
Proof. intros [name H]. unfold get_lock. by rewrite H. Qed.

Lemma test_and_set_free l e k :
  lk_locked (get_lock k l) = 0 -> test_and_set l e k = Ok tt e (upd_lock l (set_lk_locked 1) k).
Proof. intros H. destruct e; unfold test_and_set; by rewrite decide_True. Qed.

Lemma acquire_free l e k : cpu_ok k -> lock_free l k -> acquire l e k = Ok tt e (lock_taken l k).
Proof.
  intros Hc Hl. destruct (lock_free_get _ _ Hl) as [H0 Hcpu].
  unfold acquire, bind at 1. rewrite push_off_ok by done.
  unfold bind, holding, bind, mycpu, cpuid, gets. cbn.
  change (get_lock (pushed k) l) with (get_lock k l).
  rewrite bool_decide_eq_false_2 by naive_solver. cbn.
  rewrite test_and_set_free by done. cbn.
  unfold lock_taken, upd_lock, get_lock. cbn. rewrite lookup_insert_eq, insert_insert_eq. cbn.
  done.
Qed.

Lemma cpu_ok_taken l k : cpu_ok k -> cpu_ok (lock_taken l k).
Proof. intros H. apply cpu_ok_pushed in H. exact H. Qed.

Lemma cpu_ok_upd_mem f k : cpu_ok k -> cpu_ok (upd_mem f k).
Proof. exact id. Qed.
Lemma cpu_ok_upd_log f k : cpu_ok k -> cpu_ok (upd_log f k).
Proof. exact id. Qed.
Lemma lock_free_upd_log l f k : lock_free l k -> lock_free l (upd_log f k).
Proof. exact id. Qed.
Lemma get_lock_taken l k :
  get_lock (lock_taken l k) l = mkSpinlock 1 (lk_name (get_lock k l)) (Some (k_tp k)).
Proof. unfold get_lock at 1, lock_taken. cbn. by rewrite lookup_insert_eq. Qed.

Lemma holding_taken l e k : holding l e (lock_taken l k) = Ok true e (lock_taken l k).
Proof.
  unfold holding, bind, mycpu, cpuid, gets. rewrite get_lock_taken. by rewrite bool_decide_eq_true_2.
Qed.

Lemma release_taken l e k : cpu_ok k -> lock_free l k -> release l e (lock_taken l k) = Ok tt e k.
Proof.
  intros Hc [name Hl]. unfold release, bind at 1. rewrite holding_taken.
  unfold bind. cbn [negb modify].
  assert (upd_lock l (set_lk_locked 0) (upd_lock l (set_lk_cpu None) (lock_taken l k)) = pushed k) as ->.
  { unfold upd_lock. rewrite get_lock_taken. unfold get_lock. cbn. rewrite lookup_insert_eq, Hl. cbn.
    rewrite !insert_insert_eq, insert_id by done. by destruct k. }
  by apply pop_off_pushed.
Qed.

(** Acquiring a lock this hart already holds is detected, and so is releasing
    one it does not hold. *)
Lemma acquire_held l e k :
  cpu_ok k -> lk_locked (get_lock k l) <> 0 -> lk_cpu (get_lock k l) = Some (k_tp k) ->
  acquire l e k = Panic "acquire".
Proof.
  intros Hc H1 H2. unfold acquire, bind at 1. rewrite push_off_ok by done.
  unfold bind, holding, bind, mycpu, cpuid, gets. cbn.
  change (get_lock (pushed k) l) with (get_lock k l). by rewrite bool_decide_eq_true_2.
Qed.

Lemma release_not_held l e k :
  lk_locked (get_lock k l) = 0 \/ lk_cpu (get_lock k l) <> Some (k_tp k) ->
  release l e k = Panic "release".
Proof.
  intros H. unfold release, bind, holding, bind, mycpu, cpuid, gets.
  rewrite bool_decide_eq_false_2 by naive_solver. done.
Qed.

Lemma lock_free_taken_ne l1 l2 k : l1 <> l2 -> lock_free l1 k -> lock_free l1 (lock_taken l2 k).
Proof. intros Hne [name H]. exists name. cbn. by rewrite lookup_insert_ne. Qed.

(** Locks may be released in any order. *)
Lemma lock_taken_comm l1 l2 k :
  l1 <> l2 -> lock_taken l1 (lock_taken l2 k) = lock_taken l2 (lock_taken l1 k).
Proof.
  intros Hne. unfold lock_taken, get_lock. cbn. rewrite !lookup_insert_ne by done.
  rewrite insert_insert_ne by done. done.
Qed.

#[export] Hint Resolve cpu_ok_taken cpu_ok_pushed lock_free_taken_ne : xv6.

(** ** Several harts on one lock

    The atomic memory accesses of [acquire] and [release] on one spinlock, in
    any interleaving of the harts.  A hart is outside, spinning on the atomic
    swap, past the swap but not yet recorded in [lk->cpu], in its critical
    section, or in release() with [lk->cpu] cleared and the flag still set. *)
Section Interleaving.
Inductive lpc := Out | Spinning | Swapped | Critical | Leaving.

Record lconfig := mkLconfig { lc_lock : spinlock; lc_pc : list lpc }.

Definition owns (p : lpc) : Prop := p = Swapped \/ p = Critical \/ p = Leaving.

Inductive lstep : lconfig -> lconfig -> Prop :=
| step_enter h lk pc :      (* holding() is false: no panic("acquire") *)
    pc !! h = Some Out -> ~ (lk_locked lk <> 0 /\ lk_cpu lk = Some h) ->
    lstep (mkLconfig lk pc) (mkLconfig lk (<[h := Spinning]> pc))
| step_swap h lk pc :       (* the swap returned 0 *)
    pc !! h = Some Spinning -> lk_locked lk = 0 ->
    lstep (mkLconfig lk pc) (mkLconfig (set_lk_locked 1 lk) (<[h := Swapped]> pc))
| step_spin h lk pc :       (* the swap returned 1 *)
    pc !! h = Some Spinning -> lk_locked lk <> 0 ->
    lstep (mkLconfig lk pc) (mkLconfig (set_lk_locked 1 lk) pc)
| step_record h lk pc :     (* lk->cpu = mycpu() *)
    pc !! h = Some Swapped ->
    lstep (mkLconfig lk pc) (mkLconfig (set_lk_cpu (Some h) lk) (<[h := Critical]> pc))
| step_clear h lk pc :      (* release(): lk->cpu = 0 *)
    pc !! h = Some Critical -> lk_locked lk <> 0 -> lk_cpu lk = Some h ->
    lstep (mkLconfig lk pc) (mkLconfig (set_lk_cpu None lk) (<[h := Leaving]> pc))
| step_unlock h lk pc :     (* __sync_lock_release *)
    pc !! h = Some Leaving ->
    lstep (mkLconfig lk pc) (mkLconfig (set_lk_locked 0 lk) (<[h := Out]> pc)).

(** After initlock(), with every hart outside. *)
Definition linit (name : string) (n : nat) : lconfig :=
  mkLconfig (mkSpinlock 0 name None) (replicate n Out).

(** At most one hart is past the swap, the flag is set exactly when there is
    one, and [lk->cpu] names exactly the hart in its critical section. *)
Record linv (c : lconfig) : Prop := {
  linv_unique h1 h2 p1 p2 :
    lc_pc c !! h1 = Some p1 -> owns p1 -> lc_pc c !! h2 = Some p2 -> owns p2 -> h1 = h2;
  linv_free : lk_locked (lc_lock c) = 0 -> forall h p, lc_pc c !! h = Some p -> ~ owns p;
  linv_held : lk_locked (lc_lock c) <> 0 -> exists h p, lc_pc c !! h = Some p /\ owns p;
  linv_cpu h : lk_cpu (lc_lock c) = Some h <-> lc_pc c !! h = Some Critical
}.

Lemma linv_init name n : linv (linit name n).
Proof.
  constructor; cbn; intros.
  - apply lookup_replicate in H as [-> _]. by destruct H0 as [|[|]].
  - apply lookup_replicate in H0 as [-> _]. by intros [|[|]].
  - done.
  - split; [done|]. by intros [? _]%lookup_replicate.
Qed.

Lemma linv_step c c' : linv c -> lstep c c' -> linv c'.
Proof.
  intros [Hu Hf Hh Hc] Hs.
  destruct Hs as [h lk pc Hp Hn|h lk pc Hp H0|h lk pc Hp H0|h lk pc Hp|h lk pc Hp H0 Hcpu|h lk pc Hp];
    cbn in *; assert (h < length pc)%nat by (by eapply lookup_lt_Some).
  - constructor; cbn.
    + intros h1 h2 p1 p2. rewrite !list_lookup_insert. unfold owns in *.
      repeat case_decide; naive_solver.
    + intros Hz h' p'. rewrite list_lookup_insert. unfold owns in *. case_decide; naive_solver.
    + intros Hz. destruct (Hh Hz) as (h' & p' & Hp' & Ho). exists h', p'. split; [|done].
      rewrite list_lookup_insert_ne; [done|]. intros ->. unfold owns in *. naive_solver.
    + intros h'. rewrite Hc, list_lookup_insert. case_decide; naive_solver.
  - assert (forall h' p', pc !! h' = Some p' -> ~ owns p') as Hno by eauto.
    constructor; cbn; unfold owns in *.
    + intros h1 h2 p1 p2. rewrite !list_lookup_insert. repeat case_decide; naive_solver.
    + done.
    + exists h, Swapped. rewrite list_lookup_insert_eq by done. auto.
    + intros h'. rewrite Hc, list_lookup_insert. case_decide; naive_solver.
  - constructor; cbn; [eauto|done|eauto|eauto].
  - constructor; cbn.
    + intros h1 h2 p1 p2 H1 Ho1 H2 Ho2.
      apply (Hu h1 h2 (if decide (h1 = h) then Swapped else p1) (if decide (h2 = h) then Swapped else p2));
        rewrite ?list_lookup_insert in *; unfold owns in *; repeat case_decide; naive_solver.
    + intros Hz. destruct (Hf Hz h Swapped); [done|]. by left.
    + exists h, Critical. rewrite list_lookup_insert_eq by done. unfold owns. auto.
    + intros h'. destruct (decide (h = h')) as [<-|Hne]; [by rewrite list_lookup_insert_eq|].
      rewrite list_lookup_insert_ne by done. split; [congruence|].
      intros Hcr. destruct Hne. apply (Hu h h' Swapped Critical); unfold owns; auto.
  - constructor; cbn.
    + intros h1 h2 p1 p2 H1 Ho1 H2 Ho2.
      apply (Hu h1 h2 (if decide (h1 = h) then Critical else p1) (if decide (h2 = h) then Critical else p2));
        rewrite ?list_lookup_insert in *; unfold owns in *; repeat case_decide; naive_solver.
    + done.
    + exists h, Leaving. rewrite list_lookup_insert_eq by done. unfold owns. auto.
    + intros h'. destruct (decide (h = h')) as [<-|Hne]; [by rewrite list_lookup_insert_eq|].
      rewrite list_lookup_insert_ne by done. split; [done|].
      intros Hcr. destruct Hne. apply (Hu h h' Critical Critical); unfold owns; auto.
  - constructor; cbn.
    + intros h1 h2 p1 p2. rewrite !list_lookup_insert. unfold owns in *.
      repeat case_decide; naive_solver.
    + intros _ h' p'. destruct (decide (h = h')) as [<-|Hne].
      { rewrite list_lookup_insert_eq by done. unfold owns. naive_solver. }
      rewrite list_lookup_insert_ne by done.
      intros Hp' Ho. destruct Hne. apply (Hu h h' Leaving p'); unfold owns; auto.
    + done.
    + intros h'. rewrite Hc, list_lookup_insert. case_decide; naive_solver.
Qed.

Lemma linv_reachable name n c : rtc lstep (linit name n) c -> linv c.
Proof.
  intros H. remember (linit name n) as c0 eqn:E. pose proof (linv_init name n) as Hi.
  rewrite <- E in Hi. clear E. induction H; eauto using linv_step.
Qed.
End Interleaving.
