(* ===== verification/Kalloc.v ===== *)
(** * kernel/kalloc.c: the physical page allocator

    The free list is threaded through the free pages themselves, as in the
    source: [k_freelist] is the address of the first free page and the first
    eight bytes of a free page hold the address of the next one.  [kmem_inv]
    relates it to the abstract list of free pages; the class [PageAllocator]
    is the contract the virtual memory code relies on, and
    [kalloc_is_allocator] shows that kalloc() and kfree() implement it. *)

From S2P Require Import Prelude Machine Kstring Kernel Spinlock.

Section Kalloc.
Context `{Symbols}.

Definition kfree (pa : Z) : K unit :=
  if decide (pa mod PGSIZE <> 0 \/ pa < sym_end \/ pa >= PHYSTOP) then panic "kfree" else
  modify (upd_mem (fun m => memset m pa 1 PGSIZE));;;
  acquire LkKmem;;;
  freelist <- gets k_freelist;;
  modify (upd_mem (fun m => write64 m pa freelist));;;
  modify (set_k_freelist pa);;;
  release LkKmem.

Definition kalloc : K Z :=
  acquire LkKmem;;;
  r <- gets k_freelist;;
  (if decide (r <> 0) then modify (fun k => set_k_freelist (read64 (k_mem k) r) k) else skip);;;
  release LkKmem;;;
  (if decide (r <> 0) then modify (upd_mem (fun m => memset m r 5 PGSIZE)) else skip);;;
  ret r.

(** The loop visits at most one address per page of the range. *)
Definition freerange (pa_start pa_end : Z) : K unit :=
  loop_ (S (Z.to_nat ((pa_end - pa_start) / PGSIZE + 1)))
    (fun p => if decide (p + PGSIZE <= pa_end)
              then kfree p;;; ret (inr (p + PGSIZE))
              else ret (inl tt))
    (PGROUNDUP pa_start).

Definition kinit : K unit :=
  initlock LkKmem "kmem";;;
  freerange sym_end PHYSTOP.

#[global] Arguments kfree : simpl never.
#[global] Arguments kalloc : simpl never.
#[global] Arguments freerange : simpl never.

(** ** Free pages *)

Definition page_ok (p : Z) : Prop := p mod PGSIZE = 0 /\ sym_end <= p < PHYSTOP.
Definition in_page (p a : Z) : Prop := p <= a < p + PGSIZE.

(** The pages on the list that starts at [head], in order. *)
Fixpoint freelist_rep (m : mem) (head : Z) (fl : list Z) : Prop :=
  match fl with
  | [] => head = 0
  | p :: fl' => head = p /\ freelist_rep m (read64 m p) fl'
  end.

Definition kmem_inv (k : kernel) (fl : list Z) : Prop :=
  freelist_rep (k_mem k) (k_freelist k) fl /\ NoDup fl /\ Forall page_ok fl.

(** A state that differs only in physical memory and the free list head. *)
Definition only_mem (k k' : kernel) : Prop :=
  k' = set_k_freelist (k_freelist k') (set_k_mem (k_mem k') k).

(** Memory is unchanged outside the given pages. *)
Definition same_except (ps : list Z) (m m' : mem) : Prop :=
  forall a, (forall p, p ∈ ps -> ~ in_page p a) -> read8 m' a = read8 m a.
End Kalloc.

(** ** The contract of a page allocator

    [pool k fl]: the free pages of [k] are [fl], the next to be handed out first.
    A page that is handed out is no longer in the pool and only its own
    bytes change; a page that is returned joins the pool; the pool depends on no
    memory but the free pages. *)
Class PageAllocator `{Symbols} (alloc : K Z) (free : Z -> K unit) := {
  pool : kernel -> list Z -> Prop;
  pool_pages k fl : pool k fl -> NoDup fl /\ Forall page_ok fl;
  pool_frame k k' fl :
    pool k fl -> k_freelist k' = k_freelist k ->
    (forall p a, p ∈ fl -> in_page p a -> read8 (k_mem k') a = read8 (k_mem k) a) ->
    pool k' fl;
  alloc_empty e k :
    cpu_ok k -> lock_free LkKmem k -> pool k [] -> alloc e k = Ok 0 e k;
  alloc_page e k p fl :
    cpu_ok k -> lock_free LkKmem k -> pool k (p :: fl) ->
    exists k', alloc e k = Ok p e k' /\ only_mem k k' /\
      same_except [p] (k_mem k) (k_mem k') /\ pool k' fl;
  free_page e k p fl :
    cpu_ok k -> lock_free LkKmem k -> pool k fl -> page_ok p -> p ∉ fl ->
    exists k', free p e k = Ok tt e k' /\ only_mem k k' /\
      same_except [p] (k_mem k) (k_mem k') /\ pool k' (p :: fl)
}.

Section Facts.
Context `{Y : Symbols} `{OK : !SymbolsOK Y}.

Lemma page_ok_pos p : page_ok p -> 0 < p < 2 ^ 32 /\ p + PGSIZE <= PHYSTOP.
Proof.
  intros [Ha Hr]. pose proof end_in_ram. unfold KERNBASE, PHYSTOP, PGSIZE, KERNBASE in *.
  split; [lia|]. apply Z.mod_divide in Ha as [x ->]; [|done]. lia.
Qed.

Lemma only_mem_refl k : only_mem k k.
Proof. by destruct k. Qed.
Lemma only_mem_trans k1 k2 k3 : only_mem k1 k2 -> only_mem k2 k3 -> only_mem k1 k3.
Proof. unfold only_mem. intros H2 H3. rewrite H3, H2. by destruct k1. Qed.
Lemma only_mem_set m k : only_mem k (set_k_mem m k).
Proof. by destruct k. Qed.
Lemma cpu_ok_only_mem k k' : only_mem k k' -> cpu_ok k -> cpu_ok k'.
Proof. unfold only_mem. intros ->. done. Qed.
Lemma lock_free_only_mem l k k' : only_mem k k' -> lock_free l k -> lock_free l k'.
Proof. unfold only_mem. intros ->. done. Qed.

Lemma same_except_refl ps m : same_except ps m m.
Proof. done. Qed.
Lemma same_except_trans ps qs m1 m2 m3 :
  same_except ps m1 m2 -> same_except qs m2 m3 -> same_except (ps ++ qs) m1 m3.
Proof.
  intros H1 H2 a Ha. rewrite H2, H1; [done|..]; intros p Hp; apply Ha; set_solver.
Qed.
Lemma same_except_mono ps qs m m' : ps ⊆ qs -> same_except ps m m' -> same_except qs m m'.
Proof. intros Hsub Hm a Ha. apply Hm. intros p Hp. apply Ha. by apply Hsub. Qed.

(** Reads inside a page that is apart from the changed ones. *)
Lemma same_except_read8 ps m m' q a :
  same_except ps m m' -> Forall (fun p => p mod PGSIZE = 0) ps -> q mod PGSIZE = 0 -> q ∉ ps ->
  in_page q a -> read8 m' a = read8 m a.
Proof.
  intros Hm Hps Hq Hni Ha. apply Hm. intros p Hp Hpa.
  rewrite Forall_forall in Hps. destruct (aligned_apart p q) as [?|?]; [by apply Hps|done|..].
  - intros ->. done.
  - unfold in_page in *. lia.
  - unfold in_page in *. lia.
Qed.
Lemma same_except_read64 ps m m' q a :
  same_except ps m m' -> Forall (fun p => p mod PGSIZE = 0) ps -> q mod PGSIZE = 0 -> q ∉ ps ->
  q <= a -> a + 8 <= q + PGSIZE -> read64 m' a = read64 m a.
Proof.
  intros Hm Hps Hq Hni H1 H2. apply read64_ext. intros i Hi.
  eapply same_except_read8; eauto. unfold in_page. lia.
Qed.

Lemma same_except_memset m p c : same_except [p] m (memset m p c PGSIZE).
Proof.
  intros a Ha. rewrite read8_memset. rewrite decide_False; [done|].
  apply (Ha p). set_solver.
Qed.
Lemma same_except_write64 m p a v :
  p <= a -> a + 8 <= p + PGSIZE -> same_except [p] m (write64 m a v).
Proof.
  intros H1 H2 b Hb. apply read8_write64_ne.
  assert (~ in_page p b) as Hn by (apply Hb; set_solver). unfold in_page in Hn. lia.
Qed.

(** ** The free list *)

Lemma freelist_rep_ext m m' head fl :
  (forall p, p ∈ fl -> read64 m' p = read64 m p) ->
  freelist_rep m head fl -> freelist_rep m' head fl.
Proof.
  revert head. induction fl as [|p fl IH]; intros head Hm Hr; [done|].
  destruct Hr as [-> Hr]. split; [done|]. rewrite Hm by set_solver.
  apply IH; [|done]. set_solver.
Qed.

Lemma kmem_inv_frame k k' fl :
  kmem_inv k fl -> k_freelist k' = k_freelist k ->
  (forall p a, p ∈ fl -> in_page p a -> read8 (k_mem k') a = read8 (k_mem k) a) ->
  kmem_inv k' fl.
Proof.
  intros (Hr & Hnd & Hok) Hf Hm. split; [|done]. rewrite Hf.
  eapply freelist_rep_ext; [|done]. intros p Hp. apply read64_ext.
  intros i Hi. apply (Hm p); [done|]. unfold in_page, PGSIZE. lia.
Qed.

(** The pages of a duplicate-free list of pages lie apart from [p]. *)
Lemma pages_apart fl p q a :
  Forall page_ok fl -> page_ok p -> p ∉ fl -> q ∈ fl -> in_page q a -> ~ in_page p a.
Proof.
  intros Hok [Hp _] Hni Hq Ha Hpa. rewrite Forall_forall in Hok.
  destruct (Hok q Hq) as [Hqa _].
  destruct (aligned_apart p q) as [?|?]; [done|done|congruence|unfold in_page in *; lia..].
Qed.

Lemma kalloc_empty e k :
  cpu_ok k -> lock_free LkKmem k -> kmem_inv k [] -> kalloc e k = Ok 0 e k.
Proof.
  intros Hc Hl (Hr & _). cbn in Hr. unfold kalloc, bind.
  rewrite acquire_free by done. cbn. rewrite Hr. dec.
  by rewrite release_taken.
Qed.

Lemma kalloc_page e k p fl :
  cpu_ok k -> lock_free LkKmem k -> kmem_inv k (p :: fl) ->
  exists k', kalloc e k = Ok p e k' /\ only_mem k k' /\
    same_except [p] (k_mem k) (k_mem k') /\ kmem_inv k' fl.
Proof.
  intros Hc Hl ([Hh Hr] & [Hni Hnd]%NoDup_cons & [Hp Hok]%Forall_cons).
  pose proof (page_ok_pos p Hp) as [? _].
  set (k1 := set_k_freelist (read64 (k_mem k) p) k).
  exists (upd_mem (fun m => memset m p 5 PGSIZE) k1). split; [|split; [by destruct k|split]].
  - unfold kalloc, bind. rewrite acquire_free by done. cbn. rewrite Hh. dec.
    change (set_k_freelist _ (lock_taken LkKmem k)) with (lock_taken LkKmem k1).
    by rewrite release_taken.
  - apply same_except_memset.
  - apply (kmem_inv_frame k1); [done|done|].
    intros q a Hq Ha. apply same_except_memset. intros p' ->%list_elem_of_singleton.
    by eapply pages_apart.
Qed.

Lemma kfree_page e k p fl :
  cpu_ok k -> lock_free LkKmem k -> kmem_inv k fl -> page_ok p -> p ∉ fl ->
  exists k', kfree p e k = Ok tt e k' /\ only_mem k k' /\
    same_except [p] (k_mem k) (k_mem k') /\ kmem_inv k' (p :: fl).
Proof.
  intros Hc Hl Hk Hp Hni. pose proof Hk as (Hr & Hnd & Hok). pose proof Hp as [Ha Hrg].
  set (m1 := memset (k_mem k) p 1 PGSIZE). set (m2 := write64 m1 p (k_freelist k)).
  set (k2 := set_k_freelist p (set_k_mem m2 k)).
  assert (same_except [p] (k_mem k) m2) as Hsame.
  { apply (same_except_mono ([p] ++ [p])); [set_solver|]. eapply same_except_trans.
    - apply same_except_memset.
    - apply same_except_write64; unfold PGSIZE; lia. }
  exists k2. split; [|split; [by destruct k|split; [done|]]].
  - unfold kfree, bind. dec.
    change (upd_mem (fun m => memset m p 1 PGSIZE) k) with (set_k_mem m1 k).
    rewrite acquire_free by done. cbn.
    change (set_k_freelist p _) with (lock_taken LkKmem k2). by rewrite release_taken.
  - assert (kmem_inv (set_k_freelist (k_freelist k) k2) fl) as (Hr2 & _ & _).
    { apply (kmem_inv_frame k); [done|done|]. intros q a Hq Hqa. apply Hsame.
      intros p' ->%list_elem_of_singleton. by eapply pages_apart. }
    split; [|split; [by constructor|by constructor]]. split; [done|].
    replace (read64 (k_mem k2) p) with (k_freelist k); [done|]. cbn. symmetry.
    apply read64_write64_eq. destruct fl as [|q fl]; cbn in Hr; [by rewrite Hr|].
    destruct Hr as [-> _]. apply Forall_cons in Hok as [Hq _].
    pose proof (page_ok_pos q Hq). lia.
Qed.

Lemma kfree_bad_page e k p : ~ page_ok p -> kfree p e k = Panic "kfree".
Proof.
  intros Hp. unfold kfree. rewrite decide_True; [done|]. unfold page_ok in Hp.
  destruct (decide (p mod PGSIZE = 0)); [right|by left].
  destruct (decide (p < sym_end)); [by left|right]. lia.
Qed.

#[export, program] Instance kalloc_is_allocator : PageAllocator kalloc kfree := {| pool := kmem_inv |}.
Next Obligation. by intros k fl (_ & ? & ?). Qed.
Next Obligation. exact kmem_inv_frame. Qed.
Next Obligation. exact kalloc_empty. Qed.
Next Obligation. exact kalloc_page. Qed.
Next Obligation. exact kfree_page. Qed.

(** ** freerange and kinit *)

(** The pages of [n] pages from [p], the last one first: the order in which
    they are handed out after they have been freed one by one. *)
Fixpoint pages_from (p : Z) (n : nat) : list Z :=
  match n with
  | O => []
  | S n' => pages_from (p + PGSIZE) n' ++ [p]
  end.

Lemma elem_of_pages_from p n q :
  q ∈ pages_from p n <-> exists i, 0 <= i < Z.of_nat n /\ q = p + i * PGSIZE.
Proof.
  revert p. induction n as [|n IH]; intros p; cbn.
  - split; [by intros ?%elem_of_nil|intros (i & ? & _); lia].
  - rewrite elem_of_app, IH, list_elem_of_singleton. split.
    + intros [(i & Hi & ->)| ->]; [exists (i + 1)|exists 0]; lia.
    + intros (i & Hi & ->). destruct (decide (i = 0)) as [->|]; [right; lia|].
      left. exists (i - 1). lia.
Qed.

Lemma freerange_loop e n fuel k p q fl :
  (n < fuel)%nat -> cpu_ok k -> lock_free LkKmem k -> kmem_inv k fl ->
  p mod PGSIZE = 0 -> sym_end <= p -> q <= PHYSTOP ->
  p + Z.of_nat n * PGSIZE <= q < p + (Z.of_nat n + 1) * PGSIZE ->
  (forall x, x ∈ fl -> x < p) ->
  exists k', loop_ fuel (fun p => if decide (p + PGSIZE <= q)
                                  then kfree p;;; ret (inr (p + PGSIZE))
                                  else ret (inl tt)) p e k = Ok tt e k' /\
    only_mem k k' /\ kmem_inv k' (pages_from p n ++ fl).
Proof.
  revert fuel k p fl. induction n as [|n IH]; intros fuel k p fl Hf Hc Hl Hk Ha He Hq Hn Hlow;
    (destruct fuel as [|fuel]; [lia|]); cbn [loop_].
  - unfold bind at 1. rewrite decide_False by lia. exists k. cbn. auto using only_mem_refl.
  - destruct (kfree_page e k p fl) as (k1 & Hk1 & Hom & Hsame & Hinv); try done.
    { unfold page_ok, PGSIZE in *. split; [done|]. lia. }
    { intros Hin. specialize (Hlow p Hin). lia. }
    destruct (IH fuel k1 (p + PGSIZE) (p :: fl)) as (k2 & Hk2 & Hom2 & Hinv2); try done.
    { lia. }
    { by eapply cpu_ok_only_mem. }
    { by eapply lock_free_only_mem. }
    { by apply aligned_add. }
    { unfold PGSIZE in *. lia. }
    { lia. }
    { intros x [->|Hx]%elem_of_cons; [|specialize (Hlow x Hx)]; unfold PGSIZE; lia. }
    exists k2. split.
    { rewrite (bind_Ok _ _ (inr (p + PGSIZE)) e k e k1); [done|].
      rewrite decide_True by (unfold PGSIZE in *; lia). by rewrite (bind_Ok _ _ tt e k e k1). }
    split; [by eapply only_mem_trans|].
    cbn. by rewrite <- app_assoc.
Qed.
End Facts.

(** ** kinit(): every page of RAM after the kernel ends up in the pool *)
Lemma kinit_lock e k : exists k0, initlock LkKmem "kmem" e k = Ok tt e k0 /\
  (cpu_ok k -> cpu_ok k0) /\ lock_free LkKmem k0 /\ k_mem k0 = k_mem k /\ k_freelist k0 = k_freelist k.
Proof.
  eexists. split; [reflexivity|]. split; [done|]. split; [|done].
  eexists. cbn. apply lookup_insert_eq.
Qed.

Lemma kinit_range `{Y : Symbols} `{OK : !SymbolsOK Y} :
  let p := PGROUNDUP sym_end in
  p mod PGSIZE = 0 /\ sym_end <= p < sym_end + PGSIZE /\ p <= PHYSTOP.
Proof.
  destruct OK as [_ _ _ _ Hend]. assert (0 <= sym_end < 2 ^ 40) as Hb.
  { unfold KERNBASE, PHYSTOP in Hend. unfold KERNBASE in Hend. lia. }
  destruct (PGROUNDUP_spec sym_end) as ((H1 & H2) & H3); [unfold PGSIZE; lia|].
  cbn zeta. split; [done|]. split; [lia|]. apply (aligned_le _ PHYSTOP); [done|reflexivity|lia].
Qed.

Lemma kinit_ok `{Y : Symbols} `{OK : !SymbolsOK Y} e k :
  cpu_ok k -> k_freelist k = 0 ->
  exists k' fl, kinit e k = Ok tt e k' /\ kmem_inv k' fl /\ (forall p, p ∈ fl <-> page_ok p).
Proof.
  intros Hc Hf. destruct (kinit_lock e k) as (k0 & E0 & Hc0 & Hl0 & _ & Ef0).
  destruct kinit_range as (Ha & Hr & Hle). set (p := PGROUNDUP sym_end) in *.
  pose proof (Z.mod_divide (PHYSTOP - p) PGSIZE ltac:(done)) as [Hdiv _].
  destruct Hdiv as [n Hn]; [by rewrite Zminus_mod, Ha|].
  assert (0 <= n) as Hn0 by (unfold PGSIZE in *; nia).
  destruct (freerange_loop e (Z.to_nat n) (S (Z.to_nat ((PHYSTOP - sym_end) / PGSIZE + 1))) k0 p PHYSTOP [])
    as (k' & E & _ & Hinv); [|by apply Hc0|done| |done|lia|done| |by intros ? ?%elem_of_nil|].
  - enough (n <= (PHYSTOP - sym_end) / PGSIZE) by lia. apply Z.div_le_lower_bound; [done|]. unfold PGSIZE in *. lia.
  - split; [cbn; congruence|]. split; constructor.
  - rewrite Z2Nat.id by done. unfold PGSIZE in *. lia.
  - exists k', (pages_from p (Z.to_nat n)). rewrite app_nil_r in Hinv. split; [|split; [done|]].
    + unfold kinit. rewrite (bind_Ok _ _ _ _ _ _ _ E0). exact E.
    + intros q. rewrite elem_of_pages_from, Z2Nat.id by done. unfold page_ok. split.
      * intros (i & Hi & ->). split; [|unfold PGSIZE in *; nia].
        rewrite Z.add_mod, Ha, Z.mod_mul by done. done.
      * intros [Hq Hb]. assert (p <= q) as Hpq by (apply aligned_le; [done|done|lia]).
        pose proof (Z.mod_divide (q - p) PGSIZE ltac:(done)) as [Hd _].
        destruct Hd as [i Hi]; [by rewrite Zminus_mod, Ha, Hq|]. exists i. unfold PGSIZE in *. lia.
Qed.
