(* ===== verification/Vm.v ===== *)
(** * kernel/vm.c: Sv39 page tables and user memory

    The routines of vm.c over physical memory: page-table pages are pages of
    [k_mem], their entries are read and written as 64-bit words, and new pages
    come from kalloc().  Loops whose bound is computed from 64-bit addresses
    carry fuel; the fuel is the number of pages the loop can visit before its
    exit test or the check of walk() against MAXVA stops it.

    A kernel buffer that is copied to or from user memory is the list of its
    bytes. *)

From S2P Require Import Prelude Machine Kstring Kernel Spinlock Kalloc.

Section Vm.
Context `{Symbols}.

(** One turn of the loop of walk(): follow the entry of [level], allocating
    the next table when asked to; [None] is [return 0]. *)
Definition walk_level (level pagetable va : Z) (alloc : bool) : K (option Z) :=
  let ptep := pagetable + 8 * PX level va in
  pte <- gets (fun k => read64 (k_mem k) ptep);;
  if decide (Z.land pte PTE_V <> 0) then ret (Some (PTE2PA pte))
  else if negb alloc then ret None else
  p <- kalloc;;
  if decide (p = 0) then ret None else
  modify (upd_mem (fun m => memset m p 0 PGSIZE));;;
  modify (upd_mem (fun m => write64 m ptep (Z.lor (PA2PTE p) PTE_V)));;;
  ret (Some p).

Fixpoint walk_levels (levels : list Z) (pagetable va : Z) (alloc : bool) : K (option Z) :=
  match levels with
  | [] => ret (Some pagetable)
  | level :: levels' =>
      o <- walk_level level pagetable va alloc;;
      match o with
      | None => ret None
      | Some pt => walk_levels levels' pt va alloc
      end
  end.

(** The address of the level-0 entry for [va], or 0. *)
Definition walk (pagetable va : Z) (alloc : bool) : K Z :=
  if decide (va >= MAXVA) then panic "walk" else
  o <- walk_levels [2; 1] pagetable va alloc;;
  match o with
  | None => ret 0
  | Some pt => ret (pt + 8 * PX 0 va)
  end.

Definition walkaddr (pagetable va : Z) : K Z :=
  if decide (va >= MAXVA) then ret 0 else
  ptep <- walk pagetable va false;;
  if decide (ptep = 0) then ret 0 else
  pte <- gets (fun k => read64 (k_mem k) ptep);;
  if decide (Z.land pte PTE_V = 0) then ret 0 else
  if decide (Z.land pte PTE_U = 0) then ret 0 else
  ret (PTE2PA pte).

Definition mappages_fuel (a last : Z) : nat :=
  S (Z.to_nat ((if decide (a <= last) then last - a else MAXVA - a) / PGSIZE + 1)).

(** The body of the [for(;;)] of mappages(). *)
Definition mappages_body (pagetable last perm : Z) (x : Z * Z) : K (Z + Z * Z) :=
  let '(a, pa) := x in
  ptep <- walk pagetable a true;;
  if decide (ptep = 0) then ret (inl (-1)) else
  pte <- gets (fun k => read64 (k_mem k) ptep);;
  if decide (Z.land pte PTE_V <> 0) then panic "mappages: remap" else
  modify (upd_mem (fun m => write64 m ptep (Z.lor (Z.lor (PA2PTE pa) perm) PTE_V)));;;
  if decide (a = last) then ret (inl 0)
  else ret (inr (u64 (a + PGSIZE), u64 (pa + PGSIZE))).

Definition mappages (pagetable va size pa perm : Z) : K Z :=
  if decide (size = 0) then panic "mappages: size" else
  let a := PGROUNDDOWN va in
  let last := PGROUNDDOWN (u64 (va + size - 1)) in
  loop_ (mappages_fuel a last) (mappages_body pagetable last perm) (a, pa).

Definition kvmmap (kpgtbl va pa sz perm : Z) : K unit :=
  r <- mappages kpgtbl va sz pa perm;;
  if decide (r <> 0) then panic "kvmmap" else skip.

Definition uvmunmap_body (pagetable stop : Z) (do_free : bool) (a : Z) : K (unit + Z) :=
  if negb (bool_decide (a < stop)) then ret (inl tt) else
  ptep <- walk pagetable a false;;
  if decide (ptep = 0) then panic "uvmunmap: walk" else
  pte <- gets (fun k => read64 (k_mem k) ptep);;
  if decide (Z.land pte PTE_V = 0) then panic "uvmunmap: not mapped" else
  if decide (PTE_FLAGS pte = PTE_V) then panic "uvmunmap: not a leaf" else
  when do_free (kfree (PTE2PA pte));;;
  modify (upd_mem (fun m => write64 m ptep 0));;;
  ret (inr (u64 (a + PGSIZE))).

Definition uvmunmap (pagetable va npages : Z) (do_free : bool) : K unit :=
  if decide (va mod PGSIZE <> 0) then panic "uvmunmap: not aligned" else
  loop_ (S (Z.to_nat npages)) (uvmunmap_body pagetable (u64 (va + npages * PGSIZE)) do_free) va.

Definition uvmcreate : K Z :=
  pagetable <- kalloc;;
  if decide (pagetable = 0) then ret 0 else
  modify (upd_mem (fun m => memset m pagetable 0 PGSIZE));;;
  ret pagetable.

Definition uvminit (pagetable : Z) (src : list Z) : K unit :=
  if decide (Z.of_nat (length src) >= PGSIZE) then panic "inituvm: more than a page" else
  mem <- kalloc;;
  modify (upd_mem (fun m => memset m mem 0 PGSIZE));;;
  _ <- mappages pagetable 0 PGSIZE mem (Z.lor (Z.lor (Z.lor PTE_W PTE_R) PTE_X) PTE_U);;
  modify (upd_mem (fun m => write_bytes m mem src)).

Definition uvmdealloc (pagetable oldsz newsz : Z) : K Z :=
  if decide (newsz >= oldsz) then ret oldsz else
  (if decide (PGROUNDUP newsz < PGROUNDUP oldsz)
   then let npages := i32 ((PGROUNDUP oldsz - PGROUNDUP newsz) / PGSIZE) in
        uvmunmap pagetable (PGROUNDUP newsz) (u64 npages) true
   else skip);;;
  ret newsz.

Definition uvmalloc_body (pagetable oldsz newsz a : Z) : K (Z + Z) :=
  if negb (bool_decide (a < newsz)) then ret (inl newsz) else
  mem <- kalloc;;
  if decide (mem = 0) then uvmdealloc pagetable a oldsz;;; ret (inl 0) else
  modify (upd_mem (fun m => memset m mem 0 PGSIZE));;;
  r <- mappages pagetable a PGSIZE mem (Z.lor (Z.lor (Z.lor PTE_W PTE_X) PTE_R) PTE_U);;
  if decide (r <> 0)
  then kfree mem;;; uvmdealloc pagetable a oldsz;;; ret (inl 0)
  else ret (inr (u64 (a + PGSIZE))).

Definition uvmalloc (pagetable oldsz newsz : Z) : K Z :=
  if decide (newsz < oldsz) then ret oldsz else
  let oldsz := PGROUNDUP oldsz in
  loop_ (S (Z.to_nat ((newsz - oldsz) / PGSIZE + 1))) (uvmalloc_body pagetable oldsz newsz) oldsz.

(** The recursion of freewalk() follows the levels of the table; [fuel] is
    the number of levels below and including this one. *)
Fixpoint freewalk (fuel : nat) (pagetable : Z) : K unit :=
  match fuel with
  | O => fun _ _ => NoFuel
  | S fuel' =>
      for_ (seqZ 0 512) (fun i =>
        pte <- gets (fun k => read64 (k_mem k) (pagetable + 8 * i));;
        if decide (Z.land pte PTE_V <> 0 /\ Z.land pte (Z.lor (Z.lor PTE_R PTE_W) PTE_X) = 0)
        then freewalk fuel' (PTE2PA pte);;;
             modify (upd_mem (fun m => write64 m (pagetable + 8 * i) 0))
        else if decide (Z.land pte PTE_V <> 0) then panic "freewalk: leaf" else skip);;;
      kfree pagetable
  end.

(** Sv39 tables have three levels. *)
Definition PT_LEVELS : nat := 3.

Definition uvmfree (pagetable sz : Z) : K unit :=
  (if decide (sz > 0) then uvmunmap pagetable 0 (PGROUNDUP sz / PGSIZE) true else skip);;;
  freewalk PT_LEVELS pagetable.

(** [err:] free what was copied so far. *)
Definition uvmcopy_err (new i : Z) : K (Z + Z) :=
  uvmunmap new 0 (i / PGSIZE) true;;; ret (inl (-1)).

Definition uvmcopy_body (old new sz i : Z) : K (Z + Z) :=
  if negb (bool_decide (i < sz)) then ret (inl 0) else
  ptep <- walk old i false;;
  if decide (ptep = 0) then panic "uvmcopy: pte should exist" else
  pte <- gets (fun k => read64 (k_mem k) ptep);;
  if decide (Z.land pte PTE_V = 0) then panic "uvmcopy: page not present" else
  let pa := PTE2PA pte in
  let flags := PTE_FLAGS pte in
  mem <- kalloc;;
  if decide (mem = 0) then uvmcopy_err new i else
  modify (upd_mem (fun m => memmove m mem pa PGSIZE));;;
  r <- mappages new i PGSIZE mem flags;;
  if decide (r <> 0) then kfree mem;;; uvmcopy_err new i
  else ret (inr (u64 (i + PGSIZE))).

Definition uvmcopy (old new sz : Z) : K Z :=
  loop_ (S (Z.to_nat (sz / PGSIZE + 1))) (uvmcopy_body old new sz) 0.

Definition uvmclear (pagetable va : Z) : K unit :=
  ptep <- walk pagetable va false;;
  if decide (ptep = 0) then panic "uvmclear" else
  modify (upd_mem (fun m => write64 m ptep (Z.land (read64 m ptep) (Z.lnot PTE_U)))).

(** The bytes moved in one turn: up to the end of the page, at most [len]. *)
Definition chunk (va va0 len : Z) : Z := Z.min (PGSIZE - (va - va0)) len.

Definition copyout_body (pagetable : Z) (x : Z * list Z) : K (Z + Z * list Z) :=
  let '(dstva, src) := x in
  if decide (length src = 0%nat) then ret (inl 0) else
  let va0 := PGROUNDDOWN dstva in
  pa0 <- walkaddr pagetable va0;;
  if decide (pa0 = 0) then ret (inl (-1)) else
  let n := Z.to_nat (chunk dstva va0 (Z.of_nat (length src))) in
  modify (upd_mem (fun m => write_bytes m (pa0 + (dstva - va0)) (take n src)));;;
  ret (inr (u64 (va0 + PGSIZE), drop n src)).

Definition copyout (pagetable dstva : Z) (src : list Z) : K Z :=
  loop_ (S (length src)) (copyout_body pagetable) (dstva, src).

(** Result and the bytes stored at the destination, also when it fails. *)
Definition copyin_body (pagetable : Z) (x : Z * Z * list Z) : K (Z * list Z + Z * Z * list Z) :=
  let '(srcva, len, dst) := x in
  if decide (len <= 0) then ret (inl (0, dst)) else
  let va0 := PGROUNDDOWN srcva in
  pa0 <- walkaddr pagetable va0;;
  if decide (pa0 = 0) then ret (inl (-1, dst)) else
  let n := chunk srcva va0 len in
  bs <- gets (fun k => read_bytes (Z.to_nat n) (k_mem k) (pa0 + (srcva - va0)));;
  ret (inr (u64 (va0 + PGSIZE), len - n, dst ++ bs)).

Definition copyin (pagetable srcva len : Z) : K (Z * list Z) :=
  loop_ (S (Z.to_nat len)) (copyin_body pagetable) (srcva, len, []).

(** The inner loop of copyinstr(): the bytes up to a NUL, and whether one was
    found. *)
Fixpoint take_str (bs : list Z) : list Z * bool :=
  match bs with
  | [] => ([], false)
  | c :: bs' => if decide (c = 0) then ([0], true)
                else let '(l, b) := take_str bs' in (c :: l, b)
  end.

Definition copyinstr_body (pagetable : Z) (x : Z * Z * list Z) : K (Z * list Z + Z * Z * list Z) :=
  let '(srcva, max, dst) := x in
  if decide (max <= 0) then ret (inl (-1, dst)) else
  let va0 := PGROUNDDOWN srcva in
  pa0 <- walkaddr pagetable va0;;
  if decide (pa0 = 0) then ret (inl (-1, dst)) else
  let n := chunk srcva va0 max in
  bs <- gets (fun k => read_bytes (Z.to_nat n) (k_mem k) (pa0 + (srcva - va0)));;
  let '(l, got_null) := take_str bs in
  if got_null : bool then ret (inl (0, dst ++ l))
  else ret (inr (u64 (va0 + PGSIZE), max - n, dst ++ l)).

Definition copyinstr (pagetable srcva max : Z) : K (Z * list Z) :=
  loop_ (S (Z.to_nat max)) (copyinstr_body pagetable) (srcva, max, []).

(** The direct map of the kernel; the kernel stacks are added by
    proc_mapstacks() of proc.c, a loop over the process table. *)
Definition proc_mapstacks (kpgtbl : Z) : K unit :=
  for_ (seq 0 NPROC) (fun i =>
    pa <- kalloc;;
    if decide (pa = 0) then panic "kalloc" else
    kvmmap kpgtbl (KSTACK (Z.of_nat i)) pa PGSIZE (Z.lor PTE_R PTE_W)).

Definition kvmmake : K Z :=
  kpgtbl <- kalloc;;
  modify (upd_mem (fun m => memset m kpgtbl 0 PGSIZE));;;
  kvmmap kpgtbl UART0 UART0 PGSIZE (Z.lor PTE_R PTE_W);;;
  kvmmap kpgtbl VIRTIO0 VIRTIO0 PGSIZE (Z.lor PTE_R PTE_W);;;
  kvmmap kpgtbl PLIC PLIC 0x400000 (Z.lor PTE_R PTE_W);;;
  kvmmap kpgtbl KERNBASE KERNBASE (sym_etext - KERNBASE) (Z.lor PTE_R PTE_X);;;
  kvmmap kpgtbl sym_etext sym_etext (PHYSTOP - sym_etext) (Z.lor PTE_R PTE_W);;;
  kvmmap kpgtbl TRAMPOLINE sym_trampoline PGSIZE (Z.lor PTE_R PTE_X);;;
  proc_mapstacks kpgtbl;;;
  ret kpgtbl.

Definition kvminit : K unit := p <- kvmmake;; modify (set_k_kpagetable p).

Definition kvminithart : K unit :=
  modify (fun k => upd_csr (set_satp (MAKE_SATP (k_kpagetable k))) k).
#[global] Arguments walk_level : simpl never.
#[global] Arguments walk_levels : simpl never.
#[global] Arguments walk : simpl never.
#[global] Arguments walkaddr : simpl never.
#[global] Arguments mappages : simpl never.
#[global] Arguments kvmmap : simpl never.
#[global] Arguments uvmunmap : simpl never.
#[global] Arguments uvmcreate : simpl never.
#[global] Arguments uvminit : simpl never.
#[global] Arguments uvmdealloc : simpl never.
#[global] Arguments uvmalloc : simpl never.
#[global] Arguments freewalk : simpl never.
#[global] Arguments uvmfree : simpl never.
#[global] Arguments uvmcopy : simpl never.
#[global] Arguments uvmclear : simpl never.
#[global] Arguments copyout : simpl never.
#[global] Arguments copyin : simpl never.
#[global] Arguments copyinstr : simpl never.
#[global] Arguments proc_mapstacks : simpl never.
#[global] Arguments kvmmake : simpl never.
#[global] Arguments kvminit : simpl never.
End Vm.
