(* ===== verification/VmSpec.v ===== *)
(** * The page-table theory of vm.c

    [pt_rep m root t]: memory [m] holds a three-level page table with root page
    [root] whose table pages are [t], a map from index paths (innermost index
    first) to page addresses.  [vm_inv k root t fl] adds the free pages [fl] of
    the allocator, disjoint from the table.  The lemmas are proved against the
    contract [PageAllocator], not against the free list of kalloc.c. *)

From S2P Require Import Prelude Machine Kstring Kernel Spinlock Kalloc Vm.

Abbreviation ptable := (gmap (list Z) Z).

Section Rep.
Context `{Y : Symbols}.

Record pt_rep (m : mem) (root : Z) (t : ptable) : Prop := {
  pt_root : t !! [] = Some root;
  pt_entry p pg i :
    t !! p = Some pg -> (length p < 2)%nat -> 0 <= i < 512 ->
    match t !! (i :: p) with
    | Some q => read64 m (pg + 8 * i) = Z.lor (PA2PTE q) PTE_V
    | None => Z.land (read64 m (pg + 8 * i)) PTE_V = 0
    end;
  pt_closed i p q :
    t !! (i :: p) = Some q -> is_Some (t !! p) /\ 0 <= i < 512 /\ (length p < 2)%nat;
  pt_inj p1 p2 q : t !! p1 = Some q -> t !! p2 = Some q -> p1 = p2;
  pt_ok p pg : t !! p = Some pg -> page_ok pg;
  pt_low i q : t !! [i] = Some q -> i < 256
}.

(** The path of the level-0 table for [va], and the entry for [va]: 0 when
    that table does not exist. *)
Definition low_path (va : Z) : list Z := [PX 1 va; PX 2 va].
Definition pte_addr (t : ptable) (va : Z) : Z :=
  match t !! low_path va with Some q => q + 8 * PX 0 va | None => 0 end.
Definition pte_of (m : mem) (t : ptable) (va : Z) : Z :=
  match t !! low_path va with Some q => read64 m (q + 8 * PX 0 va) | None => 0 end.
End Rep.

Section Spec.
Context `{Y : Symbols} `{OK : !SymbolsOK Y}.
Context `{PA : !PageAllocator kalloc kfree}.

Record vm_inv (k : kernel) (root : Z) (t : ptable) (fl : list Z) : Prop := {
  vm_cpu : cpu_ok k;
  vm_lock : lock_free LkKmem k;
  vm_pool : pool k fl;
  vm_rep : pt_rep (k_mem k) root t;
  vm_disj p pg : t !! p = Some pg -> pg ∉ fl
}.

(** ** Entries *)

Lemma table_entry_pack q :
  page_ok q ->
  Z.land (Z.lor (PA2PTE q) PTE_V) PTE_V <> 0 /\ PTE2PA (Z.lor (PA2PTE q) PTE_V) = q /\
  0 <= Z.lor (PA2PTE q) PTE_V < 2 ^ 64.
Proof.
  intros Hq. pose proof (page_ok_pos q Hq) as [? _]. destruct Hq as [Ha _].
  destruct (PTE_pack q PTE_V) as (H1 & H2 & H3); [lia|done|done|].
  split; [|done]. intros E.
  assert (Z.testbit (Z.land (Z.lor (PA2PTE q) PTE_V) PTE_V) 0 = false) as Hb by by rewrite E, Z.bits_0.
  rewrite Z.land_spec, Z.lor_spec in Hb.
  change (Z.testbit PTE_V 0) with true in Hb. by rewrite orb_true_r in Hb.
Qed.

Lemma entry_in_page q i : 0 <= i < 512 -> q <= q + 8 * i /\ q + 8 * i + 8 <= q + PGSIZE.
Proof. unfold PGSIZE. lia. Qed.

(** An entry of a table page is not touched by a change of other pages. *)
Lemma pt_read_frame m m' root t ps p pg i :
  pt_rep m root t -> same_except ps m m' -> Forall page_ok ps ->
  t !! p = Some pg -> pg ∉ ps -> 0 <= i < 512 ->
  read64 m' (pg + 8 * i) = read64 m (pg + 8 * i).
Proof.
  intros Hr Hs Hps Hp Hni Hi. destruct (entry_in_page pg i Hi).
  eapply (same_except_read64 ps _ _ pg); try done.
  - eapply Forall_impl; [done|]. by intros q [? _].
  - by destruct (pt_ok _ _ _ Hr _ _ Hp).
Qed.

Lemma pt_rep_frame m m' root t ps :
  pt_rep m root t -> same_except ps m m' -> Forall page_ok ps ->
  (forall p pg, t !! p = Some pg -> pg ∉ ps) -> pt_rep m' root t.
Proof.
  intros Hr Hs Hps Hni. constructor; try apply Hr.
  intros p pg i Hp Hl Hi. rewrite (pt_read_frame m m' root t ps p) by eauto.
  by apply (pt_entry _ _ _ Hr).
Qed.

Lemma pte_of_frame m m' root t ps va :
  pt_rep m root t -> same_except ps m m' -> Forall page_ok ps ->
  (forall p pg, t !! p = Some pg -> pg ∉ ps) -> pte_of m' t va = pte_of m t va.
Proof.
  intros Hr Hs Hps Hni. unfold pte_of. destruct (t !! low_path va) as [q|] eqn:Hq; [|done].
  eapply pt_read_frame; eauto using PX_range.
Qed.

(** ** One level of walk() *)

Lemma walk_level_present e k root t fl p pg level va alloc q :
  vm_inv k root t fl -> t !! p = Some pg -> (length p < 2)%nat ->
  t !! (PX level va :: p) = Some q ->
  walk_level level pg va alloc e k = Ok (Some q) e k.
Proof.
  intros Hv Hp Hl Hq. pose proof (vm_rep _ _ _ _ Hv) as Hr.
  pose proof (pt_entry _ _ _ Hr p pg (PX level va) Hp Hl (PX_range _ _)) as He. rewrite Hq in He.
  destruct (table_entry_pack q (pt_ok _ _ _ Hr _ _ Hq)) as (H1 & H2 & _).
  unfold walk_level. cbn. rewrite He. rewrite decide_True by done. cbn. by rewrite H2.
Qed.

Lemma walk_level_absent e k root t fl p pg level va :
  vm_inv k root t fl -> t !! p = Some pg -> (length p < 2)%nat ->
  t !! (PX level va :: p) = None ->
  walk_level level pg va false e k = Ok None e k.
Proof.
  intros Hv Hp Hl Hq. pose proof (vm_rep _ _ _ _ Hv) as Hr.
  pose proof (pt_entry _ _ _ Hr p pg (PX level va) Hp Hl (PX_range _ _)) as He. rewrite Hq in He.
  unfold walk_level. cbn. rewrite He. by rewrite decide_False by lia.
Qed.

(** Linking a zeroed page [f] of the pool into the table at entry [i] of the
    table page [pg]: the memory, and what its table entries read. *)
Definition linked (m : mem) (f a : Z) : mem :=
  write64 (memset m f 0 PGSIZE) a (Z.lor (PA2PTE f) PTE_V).

Lemma entries_apart q1 q2 j1 j2 :
  page_ok q1 -> page_ok q2 -> q1 <> q2 -> 0 <= j1 < 512 -> 0 <= j2 < 512 ->
  q1 + 8 * j1 + 8 <= q2 + 8 * j2 \/ q2 + 8 * j2 + 8 <= q1 + 8 * j1.
Proof.
  intros [Ha1 _] [Ha2 _] Hne Hj1 Hj2.
  destruct (entry_in_page q1 j1 Hj1), (entry_in_page q2 j2 Hj2).
  destruct (aligned_apart q1 q2); try done; lia.
Qed.

Lemma path_longer (x : Z) (l : list Z) : x :: l <> l.
Proof. intros E. apply (f_equal length) in E. cbn in E. lia. Qed.

Section Link.
Context (m m' : mem) (root : Z) (t : ptable) (p : list Z) (pg i f : Z).
Context (Hr : pt_rep m root t) (Hp : t !! p = Some pg) (Hl : (length p < 2)%nat).
Context (Hi : 0 <= i < 512) (Hn : t !! (i :: p) = None) (Hf : page_ok f).
Context (Hnf : forall p' pg', t !! p' = Some pg' -> pg' <> f) (Hs : same_except [f] m m').

Lemma linked_old p' pg' j :
  t !! p' = Some pg' -> 0 <= j < 512 ->
  read64 (linked m' f (pg + 8 * i)) (pg' + 8 * j) =
  if decide (p' = p /\ j = i) then Z.lor (PA2PTE f) PTE_V else read64 m (pg' + 8 * j).
Proof using All.
  intros Hp' Hj. unfold linked. case_decide as E.
  { destruct E as [-> ->]. simplify_eq. apply read64_write64_eq. by apply table_entry_pack. }
  rewrite read64_write64_ne.
  - eapply (pt_read_frame m _ root t [f]); [done| |by apply Forall_singleton|done| |done].
    + apply (same_except_mono ([f] ++ [f])); [set_solver|].
      eapply same_except_trans; [done|apply same_except_memset].
    + specialize (Hnf _ _ Hp'). set_solver.
  - destruct (decide (pg' = pg)) as [->|Hne].
    + assert (p' = p) as -> by by eapply (pt_inj _ _ _ Hr). assert (j <> i) by naive_solver. lia.
    + apply entries_apart; eauto using pt_ok.
Qed.

Lemma linked_new j : 0 <= j < 512 -> read64 (linked m' f (pg + 8 * i)) (f + 8 * j) = 0.
Proof using All.
  intros Hj. destruct (entry_in_page f j Hj). unfold linked. rewrite read64_write64_ne.
  - by apply read64_memset_zero.
  - apply entries_apart; eauto using pt_ok. intros ->. by eapply Hnf.
Qed.

Lemma linked_rep : (p = [] -> i < 256) -> pt_rep (linked m' f (pg + 8 * i)) root (<[i :: p := f]> t).
Proof using All.
  intros Hlow. constructor.
  - rewrite lookup_insert_ne by done. apply Hr.
  - intros p' pg' j Hp' Hl' Hj. destruct (decide (p' = i :: p)) as [->|Hne].
    + rewrite lookup_insert_eq in Hp'. injection Hp' as <-.
      rewrite lookup_insert_ne by apply not_eq_sym, path_longer.
      destruct (t !! (j :: i :: p)) as [q|] eqn:Hq.
      { destruct (pt_closed _ _ _ Hr _ _ _ Hq) as ([? ?] & _ & _). congruence. }
      by rewrite linked_new.
    + rewrite lookup_insert_ne in Hp' by done. rewrite (linked_old p') by done.
      destruct (decide (p' = p /\ j = i)) as [[-> ->]|E]; [by rewrite lookup_insert_eq|].
      rewrite lookup_insert_ne by naive_solver. by apply (pt_entry _ _ _ Hr).
  - intros j p' q. destruct (decide (j :: p' = i :: p)) as [E|E].
    + simplify_eq. intros _. split; [|done].
      rewrite lookup_insert_ne by apply path_longer. by rewrite Hp.
    + rewrite lookup_insert_ne by done. intros Hq.
      destruct (pt_closed _ _ _ Hr _ _ _ Hq) as ([pg' Hpg'] & ? & ?). split; [|done].
      rewrite lookup_insert_ne by congruence. by rewrite Hpg'.
  - intros p1 p2 q. rewrite !lookup_insert.
    repeat case_decide; subst; intros ? ?; simplify_eq; try done;
      try (exfalso; by eapply Hnf). by eapply (pt_inj _ _ _ Hr).
  - intros p' pg'. rewrite lookup_insert. case_decide; intros ?; simplify_eq; [done|].
    by eapply (pt_ok _ _ _ Hr).
  - intros j q. rewrite lookup_insert. case_decide as E; [|by apply (pt_low _ _ _ Hr)]. injection E as Ei Ep. rewrite <- Ei. intros _. by apply Hlow.
Qed.

Lemma linked_ptes va :
  pte_of (linked m' f (pg + 8 * i)) (<[i :: p := f]> t) va = pte_of m t va.
Proof using All.
  unfold pte_of. rewrite lookup_insert. case_decide as E.
  - rewrite <- E, Hn. apply linked_new, PX_range.
  - destruct (t !! low_path va) as [q|] eqn:Hq; [|done].
    rewrite (linked_old (low_path va)) by eauto using PX_range. rewrite decide_False; [done|].
    intros [E2 _]. rewrite <- E2 in Hl. cbn in Hl. lia.
Qed.
End Link.

(** ** Growing a table

    [vm_ext]: the table has gained pages that were free before; no page was
    lost, and no memory outside the table and the free pages has changed. *)
Definition tpages (t : ptable) : gset Z := map_img t.
Definition vm_pages (t : ptable) (fl : list Z) : gset Z := list_to_set fl ∪ tpages t.

Record vm_ext (k : kernel) (root : Z) (t : ptable) (fl : list Z)
              (k' : kernel) (t' : ptable) (fl' : list Z) : Prop := {
  ve_only : only_mem k k';
  ve_inv : vm_inv k' root t' fl';
  ve_sub : t ⊆ t';
  ve_pages : vm_pages t' fl' = vm_pages t fl;
  ve_frame a : (forall p, p ∈ vm_pages t fl -> ~ in_page p a) ->
    read8 (k_mem k') a = read8 (k_mem k) a
}.

Lemma vm_ext_refl k root t fl : vm_inv k root t fl -> vm_ext k root t fl k t fl.
Proof. intros H. constructor; try done. apply only_mem_refl. Qed.

Lemma vm_ext_trans k1 k2 k3 root t1 t2 t3 fl1 fl2 fl3 :
  vm_ext k1 root t1 fl1 k2 t2 fl2 -> vm_ext k2 root t2 fl2 k3 t3 fl3 ->
  vm_ext k1 root t1 fl1 k3 t3 fl3.
Proof.
  intros [O1 I1 S1 P1 F1] [O2 I2 S2 P2 F2]. constructor.
  - by eapply only_mem_trans.
  - done.
  - by etrans.
  - by rewrite P2.
  - intros a Ha. rewrite F2, F1; [done|done|]. by rewrite P1.
Qed.

Lemma elem_of_tpages t pg : pg ∈ tpages t <-> exists p, t !! p = Some pg.
Proof. apply elem_of_map_img. Qed.
Lemma table_in_vm_pages t fl p pg : t !! p = Some pg -> pg ∈ vm_pages t fl.
Proof. intros. unfold vm_pages. apply elem_of_union_r, elem_of_tpages. eauto. Qed.

Lemma free_in_vm_pages t fl p : p ∈ fl -> p ∈ vm_pages t fl.
Proof. intros. unfold vm_pages. by apply elem_of_union_l, elem_of_list_to_set. Qed.
Lemma vm_pages_link t f fl p :
  t !! p = None -> vm_pages (<[p := f]> t) fl = vm_pages t (f :: fl).
Proof. intros Hn. unfold vm_pages, tpages. rewrite map_img_insert_notin_L by done. set_solver. Qed.

(** A change confined to pages of the table keeps the pool. *)
Lemma pool_table_write k root t fl m' p pg :
  vm_inv k root t fl -> t !! p = Some pg -> same_except [pg] (k_mem k) m' ->
  pool (set_k_mem m' k) fl.
Proof.
  intros Hv Hp Hs. pose proof (vm_pool _ _ _ _ Hv) as Hpool.
  apply (pool_frame k); [done|done|]. intros q a Hq Ha. apply Hs.
  intros x ->%list_elem_of_singleton. destruct (pool_pages _ _ Hpool) as [_ Hok].
  eapply pages_apart; eauto using vm_disj, pt_ok, vm_rep.
Qed.

Lemma pool_head_fresh k root t f fl :
  vm_inv k root t (f :: fl) ->
  page_ok f /\ f ∉ fl /\ (forall p pg, t !! p = Some pg -> pg <> f) /\
  (forall p pg, t !! p = Some pg -> pg ∉ fl).
Proof.
  intros Hv. destruct (pool_pages _ _ (vm_pool _ _ _ _ Hv)) as [[Hni _]%NoDup_cons [Hf _]%Forall_cons].
  repeat split; try done; try apply Hf; intros p pg Hp; pose proof (vm_disj _ _ _ _ Hv p pg Hp); set_solver.
Qed.

Lemma walk_level_alloc e k root t f fl p pg level va :
  vm_inv k root t (f :: fl) -> t !! p = Some pg -> (length p < 2)%nat ->
  t !! (PX level va :: p) = None -> (p = [] -> PX level va < 256) ->
  exists k', walk_level level pg va true e k = Ok (Some f) e k' /\
    vm_ext k root t (f :: fl) k' (<[PX level va :: p := f]> t) fl /\
    (forall va', pte_of (k_mem k') (<[PX level va :: p := f]> t) va' = pte_of (k_mem k) t va').
Proof.
  intros Hv Hp Hl Hn Hlow. pose proof (vm_rep _ _ _ _ Hv) as Hr.
  destruct (pool_head_fresh _ _ _ _ _ Hv) as (Hf & Hfl & Hnf & Htf).
  pose proof (pt_entry _ _ _ Hr p pg (PX level va) Hp Hl (PX_range _ _)) as He. rewrite Hn in He.
  destruct (alloc_page e k f fl (vm_cpu _ _ _ _ Hv) (vm_lock _ _ _ _ Hv) (vm_pool _ _ _ _ Hv))
    as (k1 & Hk1 & Ho & Hs & Hpool).
  set (a := pg + 8 * PX level va). set (k2 := set_k_mem (linked (k_mem k1) f a) k1).
  assert (only_mem k k2) as Ho2 by (eapply only_mem_trans; [done|apply only_mem_set]).
  assert (same_except ([f] ++ [pg]) (k_mem k1) (k_mem k2)) as Hs2.
  { eapply same_except_trans; [apply same_except_memset|].
    destruct (entry_in_page pg (PX level va) (PX_range _ _)). by apply same_except_write64. }
  exists k2. split; [|split; [constructor|]].
  - unfold walk_level. cbn. rewrite He. rewrite decide_False by lia. cbn. rewrite Hk1.
    pose proof (page_ok_pos f Hf). by rewrite decide_False by lia.
  - done.
  - constructor.
    + by eapply cpu_ok_only_mem, vm_cpu.
    + by eapply lock_free_only_mem, vm_lock.
    + apply (pool_frame k1); [done|done|]. intros q b Hq Hb. apply Hs2.
      destruct (pool_pages _ _ Hpool) as [_ Hok].
      intros x [->|[->|[]%elem_of_nil]%elem_of_cons]%elem_of_cons;
        eapply pages_apart; eauto using pt_ok.
    + eapply linked_rep; eauto using PX_range.
    + intros p' pg'. rewrite lookup_insert. case_decide; [by intros [= <-]|apply Htf].
  - by apply insert_subseteq.
  - by apply vm_pages_link.
  - assert (f ∈ f :: fl) by (by left).
    intros b Hb. rewrite Hs2, Hs; [done|..]; intros x Hx; apply Hb.
    + apply list_elem_of_singleton in Hx as ->. by apply free_in_vm_pages.
    + cbn in Hx. apply elem_of_cons in Hx as [->|Hx]; [by apply free_in_vm_pages|].
      apply list_elem_of_singleton in Hx as ->. by eapply table_in_vm_pages.
  - intros va'. eapply linked_ptes; eauto using PX_range.
Qed.

(** walk_level with allocation: the next table, or the pool is empty. *)
Lemma walk_level_spec e k root t fl p pg level va :
  vm_inv k root t fl -> t !! p = Some pg -> (length p < 2)%nat -> (p = [] -> PX level va < 256) ->
  exists o k' t' fl', walk_level level pg va true e k = Ok o e k' /\
    vm_ext k root t fl k' t' fl' /\
    (forall va', pte_of (k_mem k') t' va' = pte_of (k_mem k) t va') /\
    match o with
    | Some q => t' !! (PX level va :: p) = Some q /\ (length fl <= length fl' + 1)%nat
    | None => fl = [] /\ fl' = [] /\ t' !! (PX level va :: p) = None
    end.
Proof.
  intros Hv Hp Hl Hlow. destruct (t !! (PX level va :: p)) as [q|] eqn:Hq.
  { exists (Some q), k, t, fl. split_and!; eauto using walk_level_present, vm_ext_refl. lia. }
  destruct fl as [|f fl].
  - exists None, k, t, []. split; [|split_and!; eauto using vm_ext_refl].
    pose proof (pt_entry _ _ _ (vm_rep _ _ _ _ Hv) p pg (PX level va) Hp Hl (PX_range _ _)) as He.
    rewrite Hq in He. unfold walk_level. cbn. rewrite He. rewrite decide_False by lia. cbn.
    rewrite alloc_empty by apply Hv. done.
  - destruct (walk_level_alloc e k root t f fl p pg level va) as (k' & Hw & Hx & Hpt); try done.
    exists (Some f), k', (<[PX level va :: p := f]> t), fl. rewrite lookup_insert_eq. split_and!; auto. cbn. lia.
Qed.

(** Addresses below MAXVA use the lower half of the root. *)
Lemma PX_top va : 0 <= va < MAXVA -> PX 2 va < 256.
Proof.
  intros H. rewrite PX_spec by lia. change MAXVA with (2 ^ 38) in H. change (12 + 9 * 2) with 30. Z.div_mod_to_equations. lia.
Qed.

Lemma walk_alloc_spec e k root t fl va :
  vm_inv k root t fl -> 0 <= va < MAXVA ->
  exists r k' t' fl', walk root va true e k = Ok r e k' /\
    vm_ext k root t fl k' t' fl' /\
    (forall va', pte_of (k_mem k') t' va' = pte_of (k_mem k) t va') /\
    r = pte_addr t' va /\ (length fl <= length fl' + 2)%nat /\ (r = 0 -> fl' = [] /\ (length fl < 2)%nat).
Proof.
  intros Hv Hva. unfold walk. rewrite decide_False by lia. cbn [walk_levels].
  pose proof (pt_root _ _ _ (vm_rep _ _ _ _ Hv)) as Hroot.
  destruct (walk_level_spec e k root t fl [] root 2 va) as (o1 & k1 & t1 & fl1 & H1 & X1 & P1 & C1);
    [done|done|cbn; lia|intros _; by apply PX_top|].
  destruct o1 as [pt1|].
  - destruct (walk_level_spec e k1 root t1 fl1 [PX 2 va] pt1 1 va)
      as (o2 & k2 & t2 & fl2 & H2 & X2 & P2 & C2); [apply X1|apply C1|cbn; lia|done|].
    exists (match o2 with Some q => q + 8 * PX 0 va | None => 0 end), k2, t2, fl2.
    split; [|split; [by eapply vm_ext_trans|split; [intros; by rewrite P2|]]].
    + unfold bind, walk_levels, bind. rewrite H1, H2. by destruct o2.
    + unfold pte_addr, low_path. destruct o2 as [q|].
      * destruct C1 as [_ C1], C2 as [C2 C3]. rewrite C2. split; [done|]. split; [lia|]. intros E.
        pose proof (page_ok_pos q (pt_ok _ _ _ (vm_rep _ _ _ _ (ve_inv _ _ _ _ _ _ _ X2)) _ _ C2)).
        pose proof (PX_range 0 va). lia.
      * destruct C1 as [_ C1], C2 as (-> & -> & ->). cbn in *. split; [done|]. split; [lia|]. intros _. split; [done|lia].
  - exists 0, k1, t1, fl1. split; [unfold bind, walk_levels, bind; by rewrite H1|].
    split; [done|]. split; [done|]. destruct C1 as (-> & -> & C1). split; [|split; [cbn; lia|]; intros _; split; [done|cbn; lia]].
    unfold pte_addr, low_path. destruct (t1 !! [PX 1 va; PX 2 va]) as [q|] eqn:Hq; [|done].
    destruct (pt_closed _ _ _ (vm_rep _ _ _ _ (ve_inv _ _ _ _ _ _ _ X1)) _ _ _ Hq) as ([? ?] & _). congruence.
Qed.

Lemma walk_noalloc e k root t fl va :
  vm_inv k root t fl -> 0 <= va < MAXVA -> walk root va false e k = Ok (pte_addr t va) e k.
Proof.
  intros Hv Hva. unfold walk. rewrite decide_False by lia.
  pose proof (vm_rep _ _ _ _ Hv) as Hr. pose proof (pt_root _ _ _ Hr) as Hroot.
  unfold pte_addr, low_path, bind, walk_levels, bind.
  destruct (t !! [PX 2 va]) as [pt1|] eqn:H1.
  - rewrite (walk_level_present e k root t fl [] root 2 va false pt1) by (done || cbn; lia).
    destruct (t !! [PX 1 va; PX 2 va]) as [pt0|] eqn:H0.
    + rewrite (walk_level_present e k root t fl [PX 2 va] pt1 1 va false pt0) by (done || cbn; lia). done.
    + rewrite (walk_level_absent e k root t fl [PX 2 va] pt1) by (done || cbn; lia). done.
  - rewrite (walk_level_absent e k root t fl [] root) by (done || cbn; lia). cbn.
    destruct (t !! [PX 1 va; PX 2 va]) as [q|] eqn:Hq; [|done].
    destruct (pt_closed _ _ _ Hr _ _ _ Hq) as ([? ?] & _). congruence.
Qed.
End Spec.
