(* ===== verification/VmMap.v ===== *)
(** * Mapping and unmapping pages: mappages() and uvmunmap()

    How the entries of a page table change: a successful mappages() makes
    exactly the pages of the range translate to consecutive physical pages with
    the given permissions; a failing one has mapped a prefix and has used up the
    free pages.  uvmunmap() clears exactly the entries of its range and, when
    asked to, returns their pages to the allocator. *)

From S2P Require Import Prelude Machine Kstring Kernel Spinlock Kalloc Vm VmSpec.

Section Map.
Context `{Y : Symbols} `{OK : !SymbolsOK Y}.
Context `{PA : !PageAllocator kalloc kfree}.

(** A user virtual page. *)
Definition vpage (va : Z) : Prop := 0 <= va < MAXVA /\ va mod PGSIZE = 0.

(** The leaf mappages() stores. *)
Definition leaf_pte (pa perm : Z) : Z := Z.lor (Z.lor (PA2PTE pa) perm) PTE_V.

Lemma leaf_pte_facts pa perm :
  0 <= pa < 2 ^ 64 -> pa mod PGSIZE = 0 -> 0 <= perm < 1024 ->
  PTE2PA (leaf_pte pa perm) = pa /\ PTE_FLAGS (leaf_pte pa perm) = Z.lor perm PTE_V /\
  0 <= leaf_pte pa perm < 2 ^ 64 /\ Z.land (leaf_pte pa perm) PTE_V <> 0.
Proof.
  intros Hpa Ha Hp. unfold leaf_pte. rewrite <- Z.lor_assoc.
  assert (0 <= Z.lor perm PTE_V < 1024) as Hf by (apply (lor_range _ _ 10); (done || lia)).
  destruct (PTE_pack pa (Z.lor perm PTE_V)) as (H1 & H2 & H3); try done.
  split_and!; try done; try lia. intros E.
  assert (Z.testbit (Z.land (Z.lor (PA2PTE pa) (Z.lor perm PTE_V)) PTE_V) 0 = false) as Hb
    by by rewrite E, Z.bits_0.
  rewrite Z.land_spec, !Z.lor_spec in Hb. change (Z.testbit PTE_V 0) with true in Hb.
  by rewrite !orb_true_r in Hb.
Qed.

Lemma vpage_same_entry va1 va2 :
  vpage va1 -> vpage va2 -> low_path va1 = low_path va2 -> PX 0 va1 = PX 0 va2 -> va1 = va2.
Proof.
  intros [H1 A1] [H2 A2] [= E1 E2] E0. assert (MAXVA = 2 ^ 38) as HM by done.
  apply PX_inj; (done || lia).
Qed.

(** Storing [v] in the entry of [va]. *)
Definition set_pte (t : ptable) (va v : Z) (k : kernel) : kernel :=
  upd_mem (fun m => write64 m (pte_addr t va) v) k.

Lemma set_pte_spec k root t fl va v :
  vm_inv k root t fl -> vpage va -> is_Some (t !! low_path va) -> 0 <= v < 2 ^ 64 ->
  vm_ext k root t fl (set_pte t va v k) t fl /\
  (forall va', vpage va' ->
     pte_of (k_mem (set_pte t va v k)) t va' =
     if decide (va' = va) then v else pte_of (k_mem k) t va').
Proof.
  intros Hv Hva [q Hq] Hr. pose proof (vm_rep _ _ _ _ Hv) as Hrep.
  pose proof (pt_ok _ _ _ Hrep _ _ Hq) as Hqok.
  destruct (entry_in_page q (PX 0 va) (PX_range _ _)) as [Hlo Hhi].
  assert (pte_addr t va = q + 8 * PX 0 va) as Ea by (unfold pte_addr; by rewrite Hq).
  assert (same_except [q] (k_mem k) (k_mem (set_pte t va v k))) as Hs.
  { cbn. rewrite Ea. by apply same_except_write64. }
  split; [constructor; try done|].
  - constructor; try apply Hv.
    + by eapply (pool_table_write k root t fl _ (low_path va) q).
    + constructor; try apply Hrep. intros p pg i Hp Hl Hi. cbn. rewrite Ea.
      rewrite read64_write64_ne; [by apply (pt_entry _ _ _ Hrep)|].
      apply entries_apart; eauto using pt_ok, PX_range. intros ->.
      rewrite (pt_inj _ _ _ Hrep _ _ _ Hp Hq) in Hl. cbn in Hl. lia.
  - intros a Ha. apply Hs. intros p ->%list_elem_of_singleton. apply Ha. by eapply table_in_vm_pages.
  - intros va' Hva'. unfold pte_of. destruct (t !! low_path va') as [q'|] eqn:Hq'; cycle 1.
    { rewrite decide_False; [done|]. congruence. }
    cbn. rewrite Ea. destruct (decide (va' = va)) as [->|Hne].
    { simplify_eq. by apply read64_write64_eq. }
    apply read64_write64_ne. destruct (decide (q' = q)) as [->|].
    + pose proof (pt_inj _ _ _ Hrep _ _ _ Hq' Hq) as El.
      assert (PX 0 va' <> PX 0 va) by (intros E; by apply Hne, vpage_same_entry). lia.
    + apply entries_apart; eauto using pt_ok, PX_range.
Qed.

(** ** mappages *)

(** [mapped_run a j pa perm] applied to the old entries: the [j] pages from
    [a] are mapped to the pages from [pa]. *)
Definition mapped_run (a j pa perm va old : Z) : Z :=
  if decide (a <= va < a + j * PGSIZE) then leaf_pte (pa + (va - a)) perm else old.

(** The outcome of mappages() on [n] pages: all are mapped, or the pool ran
    dry after [j]. *)
Definition mappages_post (k : kernel) (root : Z) (t : ptable) (fl : list Z) (a n pa perm : Z)
    (r : Z) (k' : kernel) : Prop :=
  exists t' fl' j, vm_ext k root t fl k' t' fl' /\ 0 <= j <= n /\
    (r = 0 /\ j = n /\ Z.of_nat (length fl) <= Z.of_nat (length fl') + 2 * n \/
     r = -1 /\ j < n /\ fl' = [] /\ Z.of_nat (length fl) < 2 * n) /\
    (forall va, vpage va -> pte_of (k_mem k') t' va = mapped_run a j pa perm va (pte_of (k_mem k) t va)).

Lemma vpage_next va : vpage va -> va + PGSIZE < MAXVA -> vpage (va + PGSIZE).
Proof. intros [H A] H2. split; [unfold PGSIZE in *; lia|by apply aligned_add]. Qed.

(** The pages of the range and of its physical image, with no wrap-around. *)
Definition run_ok (a n pa perm : Z) : Prop :=
  vpage a /\ 0 < n /\ a + n * PGSIZE <= MAXVA /\ 0 <= pa /\ pa mod PGSIZE = 0 /\
  pa + n * PGSIZE < 2 ^ 64 /\ 0 <= perm < 1024.

Lemma mappages_step e k root t fl a n pa perm last :
  vm_inv k root t fl -> run_ok a n pa perm -> last = a + (n - 1) * PGSIZE ->
  Z.land (pte_of (k_mem k) t a) PTE_V = 0 ->
  exists k' t' fl', vm_ext k root t fl k' t' fl' /\
    ((mappages_body root last perm (a, pa) e k = Ok (inl (-1)) e k' /\ fl' = [] /\ (length fl < 2)%nat /\
      (forall va, pte_of (k_mem k') t' va = pte_of (k_mem k) t va)) \/
     (mappages_body root last perm (a, pa) e k =
        Ok (if decide (n = 1) then inl 0 else inr (a + PGSIZE, pa + PGSIZE)) e k' /\ (length fl <= length fl' + 2)%nat /\
      (forall va, vpage va ->
         pte_of (k_mem k') t' va = mapped_run a 1 pa perm va (pte_of (k_mem k) t va)))).
Proof.
  intros Hv (Ha & Hn & Hmax & Hpa & Hpaa & Hpam & Hperm) -> Hfree.
  assert (MAXVA = 2 ^ 38) as HM by done.
  destruct (walk_alloc_spec e k root t fl a Hv) as (r & k1 & t1 & fl1 & Hw & X1 & P1 & -> & Hcost & Hz); [apply Ha|].
  destruct (decide (pte_addr t1 a = 0)) as [E|E].
  { exists k1, t1, fl1. split; [done|]. left. destruct (Hz E). split; [|auto].
    unfold mappages_body. by rewrite (bind_Ok _ _ _ _ _ _ _ Hw), decide_True. }
  assert (is_Some (t1 !! low_path a)) as [q Hq].
  { unfold pte_addr in E. destruct (t1 !! low_path a); [done|lia]. }
  assert (read64 (k_mem k1) (pte_addr t1 a) = pte_of (k_mem k) t a) as Hrd.
  { rewrite <- (P1 a). unfold pte_addr, pte_of. by rewrite Hq. }
  destruct (leaf_pte_facts pa perm) as (_ & _ & Hlr & _); [unfold PGSIZE in *; lia|done|done|].
  destruct (set_pte_spec k1 root t1 fl1 a (leaf_pte pa perm)) as [X2 P2]; try done; [apply X1|].
  exists (set_pte t1 a (leaf_pte pa perm) k1), t1, fl1. split; [by eapply vm_ext_trans|]. right.
  split_and!; [|exact Hcost|].
  - unfold mappages_body. rewrite (bind_Ok _ _ _ _ _ _ _ Hw), decide_False by done. unfold bind. cbn [gets]. rewrite Hrd, decide_False by lia. cbn [modify].
    destruct (decide (n = 1)) as [->|].
    + by rewrite decide_True by lia.
    + rewrite decide_False by (unfold PGSIZE; lia).
      unfold PGSIZE in *. destruct Ha as [Ha _]. by rewrite !u64_small by lia.
  - intros va Hva. rewrite P2 by done. unfold mapped_run. rewrite P1.
    destruct (decide (va = a)) as [->|Hne].
    + rewrite decide_True by (unfold PGSIZE; lia). f_equal. lia.
    + rewrite decide_False; [done|]. intros Hin. destruct Ha as [_ Ha], Hva as [_ Hva].
      destruct (aligned_apart va a); try done; lia.
Qed.

Lemma mappages_loop e fuel k root t fl a n pa perm last :
  vm_inv k root t fl -> run_ok a n pa perm -> last = a + (n - 1) * PGSIZE ->
  (forall va, vpage va -> a <= va < a + n * PGSIZE -> Z.land (pte_of (k_mem k) t va) PTE_V = 0) ->
  (Z.to_nat n <= fuel)%nat ->
  exists r k', loop_ fuel (mappages_body root last perm) (a, pa) e k = Ok r e k' /\
    mappages_post k root t fl a n pa perm r k'.
Proof.
  revert k t fl a n pa. induction fuel as [|fuel IH]; intros k t fl a n pa Hv Hrun Hlast Hfree Hf.
  { destruct Hrun as (_ & ? & _). lia. }
  destruct (mappages_step e k root t fl a n pa perm last) as (k1 & t1 & fl1 & X1 & Hcase); try done.
  { apply Hfree; [apply Hrun|]. unfold PGSIZE. destruct Hrun as (_ & ? & _). lia. }
  cbn [loop_]. destruct Hcase as [(Hb & -> & Hcost & P1)|(Hb & Hcost & P1)].
  { exists (-1), k1. unfold bind. rewrite Hb. split; [done|].
    exists t1, [], 0. split_and!; try done; try (destruct Hrun as (_ & ? & _); lia).
    - right. destruct Hrun as (_ & ? & _). split_and!; (lia || done).
    - intros va _. rewrite P1. unfold mapped_run. by rewrite decide_False by lia. }
  destruct (decide (n = 1)) as [->|Hn].
  { exists 0, k1. unfold bind. rewrite Hb. split; [done|]. exists t1, fl1, 1. split_and!; try done; lia. }
  destruct Hrun as (Ha & Hpos & Hmax & Hpa & Hpaa & Hpam & Hperm).
  destruct (IH k1 t1 fl1 (a + PGSIZE) (n - 1) (pa + PGSIZE)) as (r & k2 & Hl & t2 & fl2 & j & X2 & Hj & Hr & P2).
  - apply X1.
  - split_and!; try done; try (unfold PGSIZE in *; lia).
    + apply vpage_next; [done|unfold PGSIZE in *; lia].
    + by apply aligned_add.
  - lia.
  - intros va Hva Hin. rewrite P1 by done. unfold mapped_run. rewrite decide_False by lia.
    apply Hfree; [done|]. unfold PGSIZE in *. lia.
  - lia.
  - exists r, k2. split.
    { rewrite (bind_Ok _ _ (inr (a + PGSIZE, pa + PGSIZE)) e k e k1); [done|].
      by rewrite Hb. }
    exists t2, fl2, (j + 1). split_and!; try lia; [by eapply vm_ext_trans|naive_solver lia|].
    intros va Hva. rewrite P2, P1 by done. unfold mapped_run. unfold PGSIZE in *.
    repeat case_decide; try lia; try done; f_equal; lia.
Qed.

(** The number of pages mappages() visits for [size] bytes at [va]. *)
Definition run_pages (va size : Z) : Z :=
  (PGROUNDDOWN (va + size - 1) - PGROUNDDOWN va) / PGSIZE + 1.

Lemma run_pages_spec va size :
  0 <= va -> 0 < size -> va + size <= MAXVA ->
  let a := PGROUNDDOWN va in let n := run_pages va size in
  vpage a /\ 0 < n /\ a <= va < a + PGSIZE /\
  PGROUNDDOWN (u64 (va + size - 1)) = a + (n - 1) * PGSIZE /\
  va + size <= a + n * PGSIZE <= MAXVA /\ a + (n - 1) * PGSIZE < va + size.
Proof.
  intros Hva Hsz Hmax. assert (MAXVA = 67108864 * 4096) as HM by done. unfold run_pages, vpage.
  rewrite u64_small by lia. rewrite !PGROUNDDOWN_spec by lia. unfold PGSIZE.
  set (b := va + size - 1) in *.
  assert (b - b mod 4096 = 4096 * (b / 4096)) as -> by (Z.div_mod_to_equations; lia).
  assert (va - va mod 4096 = 4096 * (va / 4096)) as -> by (Z.div_mod_to_equations; lia).
  replace ((4096 * (b / 4096) - 4096 * (va / 4096)) / 4096) with (b / 4096 - va / 4096)
    by (rewrite <- Z.mul_sub_distr_l, Z.mul_comm, Z.div_mul; lia).
  assert (b / 4096 < 67108864) by (apply Z.div_lt_upper_bound; lia).
  assert (0 <= va / 4096) by (apply Z.div_pos; lia).
  assert (va / 4096 <= b / 4096) by (apply Z.div_le_mono; lia).
  split_and!; Z.div_mod_to_equations; lia.
Qed.

Lemma mappages_ok e k root t fl va size pa perm :
  vm_inv k root t fl -> 0 <= va -> 0 < size -> va + size <= MAXVA ->
  0 <= pa -> pa mod PGSIZE = 0 -> pa + run_pages va size * PGSIZE < 2 ^ 64 -> 0 <= perm < 1024 ->
  (forall va', vpage va' -> PGROUNDDOWN va <= va' < va + size ->
     Z.land (pte_of (k_mem k) t va') PTE_V = 0) ->
  exists r k', mappages root va size pa perm e k = Ok r e k' /\
    mappages_post k root t fl (PGROUNDDOWN va) (run_pages va size) pa perm r k'.
Proof.
  intros Hv Hva Hsz Hmax Hpa Hpaa Hpam Hperm Hfree.
  destruct (run_pages_spec va size Hva Hsz Hmax) as (Ha & Hn & Hin & Hlast & Hend & Hstop).
  unfold mappages. rewrite decide_False by lia. rewrite Hlast.
  apply mappages_loop; try done.
  - split_and!; (done || lia).
  - intros va' Hva' Hr. apply Hfree; [done|]. split; [lia|].
    assert (va' <= PGROUNDDOWN va + (run_pages va size - 1) * PGSIZE); [|lia].
    apply aligned_le; [apply Hva'| |lia]. apply aligned_add; [apply Ha|]. by apply Z.mod_mul.
  - unfold mappages_fuel. rewrite decide_True by (unfold PGSIZE; lia).
    replace (PGROUNDDOWN va + (run_pages va size - 1) * PGSIZE - PGROUNDDOWN va)
      with ((run_pages va size - 1) * PGSIZE) by lia.
    rewrite Z.div_mul by done. lia.
Qed.

(** A page that is already mapped is never overwritten. *)
Lemma mappages_remap e k root t fl va size pa perm :
  vm_inv k root t fl -> 0 <= va -> 0 < size -> va + size <= MAXVA ->
  Z.land (pte_of (k_mem k) t (PGROUNDDOWN va)) PTE_V <> 0 ->
  mappages root va size pa perm e k = Panic "mappages: remap".
Proof.
  intros Hv Hva Hsz Hmax Hm. destruct (run_pages_spec va size Hva Hsz Hmax) as (Ha & Hn & Hin & _).
  unfold mappages. rewrite decide_False by lia. cbn [loop_ mappages_fuel].
  apply bind_Panic. unfold mappages_body.
  destruct (walk_alloc_spec e k root t fl (PGROUNDDOWN va) Hv) as (r & k1 & t1 & fl1 & Hw & X1 & P1 & -> & _ & Hz);
    [apply Ha|]. rewrite (bind_Ok _ _ _ _ _ _ _ Hw).
  rewrite <- P1 in Hm. unfold pte_addr, pte_of in *.
  destruct (t1 !! low_path (PGROUNDDOWN va)) as [q|] eqn:Hq; [|done].
  pose proof (page_ok_pos q (pt_ok _ _ _ (vm_rep _ _ _ _ (ve_inv _ _ _ _ _ _ _ X1)) _ _ Hq)).
  pose proof (PX_range 0 (PGROUNDDOWN va)). rewrite decide_False by lia. cbn.
  by rewrite decide_True.
Qed.

(** ** walkaddr *)

Definition user_pa (pte : Z) : Z :=
  if decide (Z.land pte PTE_V = 0 \/ Z.land pte PTE_U = 0) then 0 else PTE2PA pte.

Lemma walkaddr_ok e k root t fl va :
  vm_inv k root t fl -> 0 <= va ->
  walkaddr root va e k =
  Ok (if decide (va < MAXVA) then user_pa (pte_of (k_mem k) t va) else 0) e k.
Proof.
  intros Hv Hva. unfold walkaddr. destruct (decide (va < MAXVA)); cycle 1.
  { by rewrite decide_True by lia. }
  rewrite decide_False by lia. unfold bind. rewrite (walk_noalloc e k root t fl) by done.
  unfold pte_addr, pte_of, user_pa. destruct (t !! low_path va) as [q|] eqn:Hq.
  - pose proof (page_ok_pos q (pt_ok _ _ _ (vm_rep _ _ _ _ Hv) _ _ Hq)).
    pose proof (PX_range 0 va). rewrite decide_False by lia. cbn.
    repeat case_decide; naive_solver.
  - rewrite decide_True by done. by rewrite decide_True by (by left).
Qed.
End Map.
