(* ===== verification/VmUser.v ===== *)
(** * User memory: uvmunmap(), uvmalloc(), uvmdealloc(), copyin() and copyout()

    [uvm k root t fl us]: the page table at [root] maps the first [length us]
    virtual pages to the physical pages [us], nothing between them and the
    trapframe page, and the user pages, the table pages and the free pages are
    pairwise disjoint.  Growing and shrinking a process keep this invariant and
    conserve pages; a failing uvmalloc() leaves the user pages as they were. *)

From S2P Require Import Prelude Machine Kstring Kernel Spinlock Kalloc Vm VmSpec VmMap.

Section User.
Context `{Y : Symbols} `{OK : !SymbolsOK Y}.
Context `{PA : !PageAllocator kalloc kfree}.

(** Virtual page number [i] above [a]. *)
Definition vnth (a : Z) (i : nat) : Z := a + Z.of_nat i * PGSIZE.

(** A leaf that maps [pg]. *)
Definition maps_to (pte pg : Z) : Prop :=
  PTE2PA pte = pg /\ Z.land pte PTE_V <> 0 /\ PTE_FLAGS pte <> PTE_V.

(** The pages [us] are owned by a table: distinct pages of RAM, not free, not
    pages of the table itself. *)
Definition owned (us : list Z) (t : ptable) (fl : list Z) : Prop :=
  NoDup us /\ Forall page_ok us /\ (forall pg, pg ∈ us -> pg ∉ fl) /\
  (forall p pg, t !! p = Some pg -> pg ∉ us).

Lemma owned_nil t fl : owned [] t fl.
Proof. split_and!; [apply NoDup_nil_2|apply Forall_nil_2|intros pg Hin; by apply elem_of_nil in Hin|intros p pg _; apply not_elem_of_nil]. Qed.
(** Memory changes only in the given pages and in the table. *)
Definition frame_pages (us : list Z) (t : ptable) (m m' : mem) : Prop :=
  forall a, (forall p, p ∈ us \/ p ∈ tpages t -> ~ in_page p a) -> read8 m' a = read8 m a.

(** ** uvmunmap with the pages returned to the allocator *)

Lemma vm_inv_free e k root t fl pg :
  vm_inv k root t fl -> page_ok pg -> pg ∉ fl -> (forall p q, t !! p = Some q -> q <> pg) ->
  exists k', kfree pg e k = Ok tt e k' /\ only_mem k k' /\
    same_except [pg] (k_mem k) (k_mem k') /\ vm_inv k' root t (pg :: fl) /\
    (forall va, pte_of (k_mem k') t va = pte_of (k_mem k) t va).
Proof.
  intros Hv Hpg Hni Hnt.
  destruct (free_page e k pg fl (vm_cpu _ _ _ _ Hv) (vm_lock _ _ _ _ Hv) (vm_pool _ _ _ _ Hv))
    as (k' & Hk & Ho & Hs & Hp); [done|done|].
  assert (forall p q, t !! p = Some q -> q ∉ [pg]) as Hnt'.
  { intros p q Hq ->%list_elem_of_singleton. by eapply Hnt. }
  assert (Forall page_ok [pg]) as Hok by by apply Forall_singleton.
  exists k'. split_and!; try done.
  - constructor; [by eapply cpu_ok_only_mem, vm_cpu|by eapply lock_free_only_mem, vm_lock|done| |].
    + eapply pt_rep_frame; eauto using vm_rep.
    + intros p q Hq [->|Hin]%elem_of_cons; [by eapply Hnt|]. by eapply (vm_disj _ _ _ _ Hv).
  - intros va. eapply pte_of_frame; eauto using vm_rep.
Qed.

(** One turn of the loop of uvmunmap(). *)
Lemma unmap_step e k root t fl a stop pg :
  vm_inv k root t fl -> vpage a -> a < stop -> maps_to (pte_of (k_mem k) t a) pg ->
  page_ok pg -> pg ∉ fl -> (forall p q, t !! p = Some q -> q <> pg) ->
  exists k', uvmunmap_body root stop true a e k = Ok (inr (a + PGSIZE)) e k' /\
    only_mem k k' /\ vm_inv k' root t (pg :: fl) /\ frame_pages [pg] t (k_mem k) (k_mem k') /\
    (forall va, vpage va ->
       pte_of (k_mem k') t va = if decide (va = a) then 0 else pte_of (k_mem k) t va).
Proof.
  intros Hv Ha Hstop (Hpa & HV & HF) Hpg Hni Hnt.
  destruct (vm_inv_free e k root t fl pg) as (k1 & Hk1 & Ho1 & Hs1 & Hv1 & P1); try done.
  assert (is_Some (t !! low_path a)) as [q Hq].
  { unfold pte_of in HV. destruct (t !! low_path a); [done|]. by destruct HV. }
  assert (pte_addr t a = q + 8 * PX 0 a) as Ea by (unfold pte_addr; by rewrite Hq).
  destruct (set_pte_spec k1 root t (pg :: fl) a 0) as [X P2]; try done.
  exists (set_pte t a 0 k1). split_and!.
  - unfold uvmunmap_body. rewrite bool_decide_eq_true_2 by done. cbn [negb].
    unfold bind. rewrite (walk_noalloc e k root t fl) by (done || apply Ha).
    pose proof (page_ok_pos q (pt_ok _ _ _ (vm_rep _ _ _ _ Hv) _ _ Hq)). pose proof (PX_range 0 a).
    rewrite decide_False by lia. cbn [gets].
    assert (read64 (k_mem k) (pte_addr t a) = pte_of (k_mem k) t a) as ->.
    { unfold pte_of. by rewrite Hq, Ea. }
    rewrite decide_False, decide_False by done. rewrite Hpa. cbn [when]. rewrite Hk1. cbn.
    destruct Ha as [Ha _]. rewrite u64_small; [done|]. change MAXVA with (2 ^ 38) in *. unfold PGSIZE. lia.
  - eapply only_mem_trans; [done|]. apply X.
  - apply X.
  - intros b Hb. transitivity (read8 (k_mem k1) b).
    + cbn. apply read8_write64_ne. rewrite Ea.
      destruct (entry_in_page q (PX 0 a) (PX_range _ _)).
      assert (~ in_page q b) as Hn by (apply Hb; right; apply elem_of_tpages; eauto).
      unfold in_page in Hn. lia.
    + apply Hs1. intros p Hp. apply Hb. by left.
  - intros va Hva. rewrite P2 by done. by rewrite P1.
Qed.

Lemma frame_pages_trans us1 us2 us t m1 m2 m3 :
  us1 ⊆ us -> us2 ⊆ us -> frame_pages us1 t m1 m2 -> frame_pages us2 t m2 m3 -> frame_pages us t m1 m3.
Proof.
  intros S1 S2 H1 H2 a Ha. rewrite H2, H1; [done|..]; intros p [Hp|Hp]; apply Ha; auto.
Qed.

Lemma vnth_next a i : vnth (a + PGSIZE) i = vnth a (S i).
Proof. unfold vnth. lia. Qed.

Lemma unmap_loop e us : forall fuel k root t fl a stop,
  vm_inv k root t fl -> a mod PGSIZE = 0 -> 0 <= a -> stop = vnth a (length us) -> stop <= MAXVA ->
  (forall i pg, us !! i = Some pg -> maps_to (pte_of (k_mem k) t (vnth a i)) pg) ->
  owned us t fl -> (length us < fuel)%nat ->
  exists k', loop_ fuel (uvmunmap_body root stop true) a e k = Ok tt e k' /\
    only_mem k k' /\ vm_inv k' root t (reverse us ++ fl) /\
    frame_pages us t (k_mem k) (k_mem k') /\
    (forall va, vpage va ->
       pte_of (k_mem k') t va = if decide (a <= va < stop) then 0 else pte_of (k_mem k) t va).
Proof.
  induction us as [|pg us IH]; intros fuel k root t fl a stop Hv Ha H0 Hstop Hmax Hm Hown Hf;
    (destruct fuel as [|fuel]; [cbn in Hf; lia|]); cbn [loop_ length] in *.
  { exists k. unfold vnth in Hstop. split_and!; try done.
    - unfold bind, uvmunmap_body. by rewrite bool_decide_eq_false_2 by lia.
    - apply only_mem_refl.
    - intros va Hva. by rewrite decide_False by lia. }
  destruct Hown as ([Hni Hnd]%NoDup_cons & [Hpg Hok]%Forall_cons & Hfl & Ht).
  assert (vpage a) as Hpage by (unfold vpage, vnth, PGSIZE in *; lia).
  destruct (unmap_step e k root t fl a stop pg) as (k1 & Hb & Ho1 & Hv1 & Hf1 & P1); try done.
  { unfold vnth, PGSIZE in *. lia. }
  { specialize (Hm 0%nat pg eq_refl). unfold vnth in Hm. by rewrite Z.mul_0_l, Z.add_0_r in Hm. }
  { apply Hfl. by left. }
  { intros p q Hq ->. apply (Ht p pg Hq). by left. }
  destruct (IH fuel k1 root t (pg :: fl) (a + PGSIZE) stop) as (k2 & Hl & Ho2 & Hv2 & Hf2 & P2); try done.
  - by apply aligned_add.
  - unfold PGSIZE. lia.
  - rewrite Hstop. by rewrite vnth_next.
  - intros i q Hq. rewrite P1.
    + rewrite vnth_next. rewrite decide_False by (unfold vnth, PGSIZE; lia). by apply Hm.
    + apply lookup_lt_Some in Hq. unfold vpage. split; [unfold vnth, PGSIZE in *; lia|].
      unfold vnth. apply aligned_add; [by apply aligned_add|by apply Z.mod_mul].
  - split_and!; try done.
    + intros q Hq [->|Hin]%elem_of_cons; [done|]. apply (Hfl q); [by right|done].
    + intros p q Hq Hin. apply (Ht p q Hq). by right.
  - lia.
  - exists k2. split_and!.
    + by rewrite (bind_Ok _ _ _ _ _ _ _ Hb).
    + by eapply only_mem_trans.
    + by rewrite reverse_cons, <- app_assoc.
    + apply (frame_pages_trans [pg] us _ _ _ (k_mem k1)); [|intros x Hx; by right|done|done].
      intros x ->%list_elem_of_singleton. by left.
    + intros va Hva. rewrite P2, P1 by done.
      destruct (decide (va = a)) as [->|Hne].
      * rewrite (decide_True (P := a <= a < stop)) by (unfold vnth, PGSIZE in *; lia). by case_decide.
      * destruct (aligned_apart va a); [apply Hva|done|done|..]; repeat case_decide; try done; unfold PGSIZE in *; lia.
Qed.

Lemma uvmunmap_free e k root t fl us a :
  vm_inv k root t fl -> a mod PGSIZE = 0 -> 0 <= a -> vnth a (length us) <= MAXVA ->
  (forall i pg, us !! i = Some pg -> maps_to (pte_of (k_mem k) t (vnth a i)) pg) ->
  owned us t fl ->
  exists k', uvmunmap root a (Z.of_nat (length us)) true e k = Ok tt e k' /\
    only_mem k k' /\ vm_inv k' root t (reverse us ++ fl) /\
    frame_pages us t (k_mem k) (k_mem k') /\
    (forall va, vpage va -> pte_of (k_mem k') t va =
       if decide (a <= va < vnth a (length us)) then 0 else pte_of (k_mem k) t va).
Proof.
  intros Hv Ha H0 Hmax Hm Hown. unfold uvmunmap. rewrite decide_False by lia.
  change MAXVA with (2 ^ 38) in Hmax.
  rewrite u64_small by (unfold vnth, PGSIZE in *; lia).
  apply unmap_loop; try done. rewrite Nat2Z.id. lia.
Qed.

(** ** The user part of an address space *)

Record uvm (k : kernel) (root : Z) (t : ptable) (fl us : list Z) : Prop := {
  uv_inv : vm_inv k root t fl;
  uv_own : owned us t fl;
  uv_size : vnth 0 (length us) <= TRAPFRAME;
  uv_map i pg : us !! i = Some pg -> maps_to (pte_of (k_mem k) t (vnth 0 i)) pg;
  uv_unmapped va : vpage va -> vnth 0 (length us) <= va < TRAPFRAME ->
    Z.land (pte_of (k_mem k) t va) PTE_V = 0
}.

(** Every page the address space and the allocator account for. *)
Definition upages (us : list Z) (t : ptable) (fl : list Z) : gset Z :=
  list_to_set us ∪ vm_pages t fl.

(** A change of the user part: pages are conserved, user pages that stay keep
    their contents, and so does everything else. *)
Record uvm_upd (k : kernel) (root : Z) (t : ptable) (fl us : list Z)
               (k' : kernel) (t' : ptable) (fl' us' : list Z) : Prop := {
  uu_only : only_mem k k';
  uu_uvm : uvm k' root t' fl' us';
  uu_pages : upages us' t' fl' = upages us t fl;
  uu_keep pg a : pg ∈ us -> pg ∈ us' -> in_page pg a -> read8 (k_mem k') a = read8 (k_mem k) a;
  uu_frame a : (forall p, p ∈ upages us t fl -> ~ in_page p a) ->
    read8 (k_mem k') a = read8 (k_mem k) a;
  uu_high va : vpage va -> TRAPFRAME <= va -> pte_of (k_mem k') t' va = pte_of (k_mem k) t va
}.

Lemma uvm_upd_refl k root t fl us : uvm k root t fl us -> uvm_upd k root t fl us k t fl us.
Proof. intros H. constructor; try done. apply only_mem_refl. Qed.

Lemma uvm_upd_trans k1 k2 k3 root t1 t2 t3 fl1 fl2 fl3 us1 us2 us3 :
  (forall pg, pg ∈ us1 -> pg ∈ us3 -> pg ∈ us2) ->
  uvm_upd k1 root t1 fl1 us1 k2 t2 fl2 us2 -> uvm_upd k2 root t2 fl2 us2 k3 t3 fl3 us3 ->
  uvm_upd k1 root t1 fl1 us1 k3 t3 fl3 us3.
Proof.
  intros Hk [O1 U1 P1 K1 F1 H1] [O2 U2 P2 K2 F2 H2]. constructor.
  - by eapply only_mem_trans.
  - done.
  - by rewrite P2.
  - intros pg a I1 I3 Ha. rewrite (K2 pg a), (K1 pg a); auto.
  - intros a Ha. rewrite F2, F1; [done|done|]. by rewrite P1.
  - intros va Hva Hh. by rewrite H2, H1.
Qed.

(** Pages of user memory lie apart from the pages the allocator and the table
    account for. *)
Lemma owned_apart us t fl pg q a :
  owned us t fl -> Forall page_ok fl -> (forall p q, t !! p = Some q -> page_ok q) ->
  pg ∈ us -> q ∈ vm_pages t fl -> in_page pg a -> ~ in_page q a.
Proof.
  intros (Hnd & Hok & Hfl & Ht) Hflok Htok Hpg Hq Ha Hqa.
  assert (q <> pg) as Hne.
  { intros ->. unfold vm_pages in Hq. apply elem_of_union in Hq as [Hq|Hq].
    - apply elem_of_list_to_set in Hq. by eapply Hfl.
    - apply elem_of_tpages in Hq as [p Hp]. by eapply Ht. }
  assert (page_ok q) as [Hqo _].
  { unfold vm_pages in Hq. apply elem_of_union in Hq as [Hq|Hq].
    - apply elem_of_list_to_set in Hq. rewrite Forall_forall in Hflok. by apply Hflok.
    - apply elem_of_tpages in Hq as [p Hp]. eauto. }
  rewrite Forall_forall in Hok. destruct (Hok pg Hpg) as [Hpo _].
  destruct (aligned_apart q pg); try done; unfold in_page in *; lia.
Qed.

(** A change confined to the table and the pool keeps user pages. *)
Lemma vm_ext_keep k root t fl us k' t' fl' pg a :
  owned us t fl -> vm_inv k root t fl -> vm_ext k root t fl k' t' fl' ->
  pg ∈ us -> in_page pg a -> read8 (k_mem k') a = read8 (k_mem k) a.
Proof.
  intros Ho Hv X Hpg Ha. apply (ve_frame _ _ _ _ _ _ _ X). intros q Hq.
  eapply owned_apart; [done| | |done|done|done].
  - by eapply pool_pages, vm_pool.
  - intros p q' Hq'. eapply pt_ok; [by eapply vm_rep|done].
Qed.

(** ** uvmdealloc *)

Lemma vpage_vnth i n : (i < n)%nat -> vnth 0 n <= TRAPFRAME -> vpage (vnth 0 i).
Proof.
  intros Hi Hn. unfold vpage, vnth in *. change TRAPFRAME with (2 ^ 38 - 8192) in Hn.
  change MAXVA with (2 ^ 38). unfold PGSIZE in *. split; [lia|]. by apply Z.mod_mul.
Qed.

Lemma owned_app us1 us2 t fl :
  owned (us1 ++ us2) t fl ->
  owned us2 t fl /\ owned us1 t (reverse us2 ++ fl).
Proof.
  intros ((N1 & N12 & N2)%NoDup_app & [O1 O2]%Forall_app & Hfl & Ht). split; split_and!; try done.
  - intros pg Hpg. apply Hfl. apply elem_of_app. by right.
  - intros p pg Hp Hin. apply (Ht p pg Hp). apply elem_of_app. by right.
  - intros pg Hpg [Hin|Hin]%elem_of_app; [rewrite elem_of_reverse in Hin; by apply (N12 pg)|].
    apply (Hfl pg); [|done]. apply elem_of_app. by left.
  - intros p pg Hp Hin. apply (Ht p pg Hp). apply elem_of_app. by left.
Qed.

Lemma frame_apart us1 us2 t fl pg q a :
  owned (us1 ++ us2) t fl -> (forall p q, t !! p = Some q -> page_ok q) ->
  pg ∈ us1 -> in_page pg a -> q ∈ us2 \/ q ∈ tpages t -> ~ in_page q a.
Proof.
  intros Hown Htok Hpg Ha Hq. pose proof Hown as ((N1 & N12 & N2)%NoDup_app & [O1 O2]%Forall_app & _).
  destruct (owned_app _ _ _ _ Hown) as [_ Ho1].
  destruct Hq as [Hq|Hq].
  - rewrite Forall_forall in O1. eapply (pages_apart us1); [by apply Forall_forall| | |done|done].
    + rewrite Forall_forall in O2. by apply O2.
    + intros Hin. by apply (N12 q).
  - assert (owned us1 t []) as Ho.
    { destruct (owned_app _ _ _ _ Hown) as [_ (? & ? & _ & ?)]. split_and!; try done.
      intros ? _ ?%elem_of_nil. done. }
    eapply owned_apart; [exact Ho|done|done|done| |done]. unfold vm_pages. by apply elem_of_union_r.
Qed.

(** Unmapping the last pages [us2] of the user part. *)
Lemma unmap_suffix e k root t fl us1 us2 :
  uvm k root t fl (us1 ++ us2) ->
  exists k', uvmunmap root (vnth 0 (length us1)) (Z.of_nat (length us2)) true e k = Ok tt e k' /\
    uvm_upd k root t fl (us1 ++ us2) k' t (reverse us2 ++ fl) us1.
Proof.
  intros [Hv Hown Hsz Hmap Hun]. pose proof (owned_app _ _ _ _ Hown) as [Ho2 Ho1].
  assert (vnth (vnth 0 (length us1)) (length us2) = vnth 0 (length (us1 ++ us2))) as Eend.
  { rewrite length_app. unfold vnth. lia. }
  assert (TRAPFRAME <= MAXVA) by done.
  destruct (uvmunmap_free e k root t fl us2 (vnth 0 (length us1))) as (k' & Hk & Ho & Hv' & Hf & P); try done.
  { unfold vnth. by apply Z.mod_mul. }
  { unfold vnth, PGSIZE. lia. }
  { lia. }
  { intros i pg Hi. replace (vnth (vnth 0 (length us1)) i) with (vnth 0 (length us1 + i)) by (unfold vnth; lia).
    apply Hmap. rewrite lookup_app_r by lia. by replace (length us1 + i - length us1)%nat with i by lia. }
  rewrite Eend in P. exists k'. split; [done|]. constructor; try done.
  - constructor; try done.
    + rewrite length_app in Hsz. unfold vnth, PGSIZE in *. lia.
    + intros i pg Hi. pose proof (lookup_lt_Some _ _ _ Hi). rewrite P.
      * rewrite decide_False by (unfold vnth, PGSIZE; lia). apply Hmap. by apply lookup_app_l_Some.
      * eapply (vpage_vnth _ (length (us1 ++ us2))); [rewrite length_app; lia|done].
    + intros va Hva Hr. rewrite P by done. case_decide; [done|]. apply Hun; [done|]. lia.
  - unfold upages, vm_pages. rewrite list_to_set_app_L. rewrite list_to_set_app_L.
    replace (list_to_set (reverse us2) : gset Z) with (list_to_set us2 : gset Z); [set_solver|].
    by rewrite reverse_Permutation.
  - intros pg a _ Hpg Ha. apply Hf. intros q Hq. eapply frame_apart; try done.
    intros p q' Hq'. eapply pt_ok; [by eapply vm_rep|done].
  - intros a Ha. apply Hf. intros p Hp. apply Ha. unfold upages, vm_pages.
    rewrite list_to_set_app_L, !elem_of_union, !elem_of_list_to_set. naive_solver.
  - intros va Hva Hh. rewrite P by done. by rewrite decide_False by lia.
Qed.

Lemma uvmdealloc_ok e k root t fl us1 us2 oldsz newsz :
  uvm k root t fl (us1 ++ us2) -> 0 <= newsz < oldsz -> oldsz <= TRAPFRAME ->
  PGROUNDUP oldsz = vnth 0 (length (us1 ++ us2)) -> PGROUNDUP newsz = vnth 0 (length us1) ->
  exists k', uvmdealloc root oldsz newsz e k = Ok newsz e k' /\
    uvm_upd k root t fl (us1 ++ us2) k' t (reverse us2 ++ fl) us1.
Proof.
  intros Hu Hlt Hmax Eold Enew. pose proof (uv_size _ _ _ _ _ Hu) as Hsz.
  rewrite length_app in *. change TRAPFRAME with (2 ^ 38 - 8192) in *.
  unfold uvmdealloc. rewrite decide_False by lia. rewrite Eold, Enew.
  destruct us2 as [|pg us2].
  - exists k. rewrite app_nil_r in *. cbn [length]. rewrite decide_False by (rewrite Nat.add_0_r; lia).
    split; [done|]. by apply uvm_upd_refl.
  - rewrite decide_True by (unfold vnth, PGSIZE; cbn [length]; lia).
    replace (vnth 0 _ - vnth 0 _) with (Z.of_nat (length (pg :: us2)) * PGSIZE) by (unfold vnth; lia).
    rewrite Z.div_mul by done. unfold vnth, PGSIZE in Hsz.
    rewrite i32_small by lia. rewrite u64_small by lia.
    destruct (unmap_suffix e k root t fl us1 (pg :: us2)) as (k' & Hk & X); [done|].
    exists k'. split; [|done]. by rewrite (bind_Ok _ _ _ _ _ _ _ Hk).
Qed.

(** ** uvmalloc *)

Lemma vm_inv_write_page k root t fl pg m' :
  vm_inv k root t fl -> page_ok pg -> pg ∉ fl -> (forall p q, t !! p = Some q -> q <> pg) ->
  same_except [pg] (k_mem k) m' ->
  vm_inv (set_k_mem m' k) root t fl /\ (forall va, pte_of m' t va = pte_of (k_mem k) t va).
Proof.
  intros Hv Hpg Hni Hnt Hs.
  assert (forall p q, t !! p = Some q -> q ∉ [pg]) as Hnt'.
  { intros p q Hq ->%list_elem_of_singleton. by eapply Hnt. }
  assert (Forall page_ok [pg]) as Hok by by apply Forall_singleton. split.
  - constructor; try apply Hv.
    + apply (pool_frame k); [apply Hv|done|]. intros q a Hq Ha. apply Hs.
      intros p ->%list_elem_of_singleton.
      apply (pages_apart fl pg q a); [by eapply pool_pages, vm_pool|done..].
    + eapply pt_rep_frame; eauto using vm_rep.
  - intros va. eapply pte_of_frame; eauto using vm_rep.
Qed.

Lemma vm_inv_alloc e k root t f fl :
  vm_inv k root t (f :: fl) ->
  exists k', kalloc e k = Ok f e k' /\ only_mem k k' /\ same_except [f] (k_mem k) (k_mem k') /\
    vm_inv k' root t fl /\ (forall va, pte_of (k_mem k') t va = pte_of (k_mem k) t va).
Proof.
  intros Hv. destruct (pool_head_fresh _ _ _ _ _ Hv) as (Hf & Hni & Hnt & Htf).
  destruct (alloc_page e k f fl (vm_cpu _ _ _ _ Hv) (vm_lock _ _ _ _ Hv) (vm_pool _ _ _ _ Hv))
    as (k' & Hk & Ho & Hs & Hp).
  assert (forall p q, t !! p = Some q -> q ∉ [f]) as Hnt'.
  { intros p q Hq ->%list_elem_of_singleton. by eapply Hnt. }
  assert (Forall page_ok [f]) as Hok by by apply Forall_singleton.
  exists k'. split_and!; try done.
  - constructor; [by eapply cpu_ok_only_mem, vm_cpu|by eapply lock_free_only_mem, vm_lock|done| |done].
    eapply pt_rep_frame; eauto using vm_rep.
  - intros va. eapply pte_of_frame; eauto using vm_rep.
Qed.

(** A page taken from the pool and overwritten: a fresh page with contents
    [m'] of the caller's choice. *)
Lemma vm_inv_fresh e k root t f fl (g : mem -> mem) :
  vm_inv k root t (f :: fl) -> (forall m, same_except [f] m (g m)) ->
  exists k1, kalloc e k = Ok f e k1 /\
    let k2 := upd_mem g k1 in
    only_mem k k2 /\ same_except [f] (k_mem k) (k_mem k2) /\ vm_inv k2 root t fl /\
    (forall va, pte_of (k_mem k2) t va = pte_of (k_mem k) t va).
Proof.
  intros Hv Hg. destruct (vm_inv_alloc e k root t f fl Hv) as (k1 & Hk & Ho & Hs & Hv1 & P1).
  destruct (pool_head_fresh _ _ _ _ _ Hv) as (Hf & Hni & Hnt & Htf).
  destruct (vm_inv_write_page k1 root t fl f (g (k_mem k1))) as [Hv2 P2]; try done.
  exists k1. split; [done|]. split_and!; try done.
  - eapply only_mem_trans; [done|apply only_mem_set].
  - apply (same_except_mono ([f] ++ [f])); [set_solver|]. by eapply same_except_trans.
  - intros va. cbn. by rewrite P2.
Qed.

Definition UPERM : Z := Z.lor (Z.lor (Z.lor PTE_W PTE_X) PTE_R) PTE_U.
Lemma UPERM_leaf : 0 <= UPERM < 1024 /\ Z.lor UPERM PTE_V <> PTE_V.
Proof. done. Qed.
Definition zero_page (m : mem) (pg : Z) : Prop := forall a, in_page pg a -> read8 m a = 0.

Lemma owned_pool_split us t f fl :
  owned us t (f :: fl) -> f ∉ us /\ owned us t fl.
Proof.
  intros (Hnd & Hok & Hfl & Ht). split.
  - intros Hin. apply (Hfl f Hin). by left.
  - split_and!; try done. intros pg Hpg Hin. apply (Hfl pg Hpg). by right.
Qed.

(** The table may take pages of the pool. *)
Lemma owned_ext us t fl t' fl' :
  owned us t fl -> vm_pages t' fl' = vm_pages t fl -> owned us t' fl'.
Proof.
  intros (Hnd & Hok & Hfl & Ht) Hp.
  assert (forall pg, pg ∈ us -> pg ∉ vm_pages t' fl') as Hn.
  { intros pg Hpg. rewrite Hp. unfold vm_pages. rewrite elem_of_union, elem_of_list_to_set, elem_of_tpages.
    intros [Hin|[p Hin]]; [by apply (Hfl pg)|by apply (Ht p pg)]. }
  split_and!; try done.
  - intros pg Hpg Hin. apply (Hn pg Hpg). by apply free_in_vm_pages.
  - intros p pg Hp' Hin. apply (Hn pg Hin). by eapply table_in_vm_pages.
Qed.

(** mappages() on a single page. *)
Lemma mappages_at e k root t fl va pa perm :
  vm_inv k root t fl -> vpage va -> Z.land (pte_of (k_mem k) t va) PTE_V = 0 ->
  0 <= pa < 2 ^ 32 -> pa mod PGSIZE = 0 -> 0 <= perm < 1024 ->
  exists r k' t' fl', mappages root va PGSIZE pa perm e k = Ok r e k' /\
    vm_ext k root t fl k' t' fl' /\
    (r = 0 /\ (length fl <= length fl' + 2)%nat /\
       (forall va', vpage va' -> pte_of (k_mem k') t' va' =
                 if decide (va' = va) then leaf_pte pa perm else pte_of (k_mem k) t va') \/
     r = -1 /\ fl' = [] /\ (length fl < 2)%nat /\
     (forall va', vpage va' -> pte_of (k_mem k') t' va' = pte_of (k_mem k) t va')).
Proof.
  intros Hv Hva Hun Hpr Hpa Hperm.
  assert (MAXVA = 67108864 * 4096) as HM by done. destruct Hva as [Hr Hal].
  assert (PGROUNDDOWN va = va) as Ed by (apply PGROUNDDOWN_aligned; [lia|done]).
  assert (va + PGSIZE <= MAXVA) as Hend.
  { apply Z.mod_divide in Hal as [x ->]; [|done]. rewrite HM in *. unfold PGSIZE in *. lia. }
  assert (run_pages va PGSIZE = 1) as En.
  { unfold run_pages. rewrite Ed, PGROUNDDOWN_spec by (unfold PGSIZE in *; lia).
    unfold PGSIZE in *. Z.div_mod_to_equations. lia. }
  destruct (mappages_ok e k root t fl va PGSIZE pa perm) as (r & k' & Hm & t' & fl' & j & X & Hj & Hc & P);
    try (done || lia).
  { rewrite Ed. intros va' [Hr' Hal'] Hi. destruct (decide (va' = va)) as [->|]; [done|].
    destruct (aligned_apart va' va); try done; lia. }
  exists r, k', t', fl'. split; [done|]. split; [done|]. rewrite En, Ed in *.
  destruct Hc as [(-> & -> & Hco)|(-> & Hlt & -> & Hco)]; [left|right].
  - split; [done|]. split; [lia|]. intros va' Hva'. rewrite P by done. unfold mapped_run.
    destruct (decide (va' = va)) as [->|Hne].
    + rewrite decide_True by (unfold PGSIZE; lia). f_equal. lia.
    + rewrite decide_False; [done|]. destruct Hva' as [_ Hal']. destruct (aligned_apart va' va); try done; lia.
  - assert (j = 0) as -> by lia. split; [done|]. split; [done|]. split; [lia|].
    intros va' Hva'. rewrite P by done. unfold mapped_run. by rewrite decide_False by lia.
Qed.

Lemma mappages_one e k root t fl va pa perm :
  vm_inv k root t fl -> vpage va -> Z.land (pte_of (k_mem k) t va) PTE_V = 0 ->
  page_ok pa -> 0 <= perm < 1024 ->
  exists r k' t' fl', mappages root va PGSIZE pa perm e k = Ok r e k' /\
    vm_ext k root t fl k' t' fl' /\
    (r = 0 /\ (length fl <= length fl' + 2)%nat /\
       (forall va', vpage va' -> pte_of (k_mem k') t' va' =
                 if decide (va' = va) then leaf_pte pa perm else pte_of (k_mem k) t va') \/
     r = -1 /\ fl' = [] /\ (length fl < 2)%nat /\
     (forall va', vpage va' -> pte_of (k_mem k') t' va' = pte_of (k_mem k) t va')).
Proof.
  intros Hv Hva Hun Hpa Hperm. pose proof (page_ok_pos pa Hpa) as [Hpr _]. apply mappages_at; [done|done|done|lia|apply Hpa|done].
Qed.

(** The outcome of taking a fresh page [f], filling it and mapping it next. *)
Section Append.
Context (k k2 k3 : kernel) (root : Z) (t t3 : ptable) (f : Z) (fl fl3 us : list Z) (perm : Z).
Context (Hu : uvm k root t (f :: fl) us) (Hroom : vnth 0 (S (length us)) <= TRAPFRAME).
Context (Ho2 : only_mem k k2) (Hs2 : same_except [f] (k_mem k) (k_mem k2)).
Context (Hv2 : vm_inv k2 root t fl) (P2 : forall va, pte_of (k_mem k2) t va = pte_of (k_mem k) t va).
Context (X3 : vm_ext k2 root t fl k3 t3 fl3).
Context (Hperm : 0 <= perm < 1024) (Hleaf : Z.lor perm PTE_V <> PTE_V).

Lemma append_fresh : page_ok f /\ f ∉ us /\ owned us t3 fl3 /\ owned (us ++ [f]) t3 fl3.
Proof using OK Hu X3.
  destruct (pool_head_fresh _ _ _ _ _ (uv_inv _ _ _ _ _ Hu)) as (Hf & Hni & Hnt & _).
  destruct (owned_pool_split _ _ _ _ (uv_own _ _ _ _ _ Hu)) as [Hfu Ho].
  split_and!; try done.
  - eapply owned_ext; [done|]. by rewrite (ve_pages _ _ _ _ _ _ _ X3).
  - assert (owned (us ++ [f]) t fl) as Ho'; [|eapply owned_ext; [done|apply X3]].
    destruct Ho as (Hnd & Hok & Hfl & Ht). split_and!.
    + apply NoDup_app. split_and!; [done| |apply NoDup_singleton]. intros x Hx ->%list_elem_of_singleton. done.
    + apply Forall_app. split; [done|by apply Forall_singleton].
    + intros pg [Hpg| ->%list_elem_of_singleton]%elem_of_app; auto.
    + intros p pg Hp [Hpg| ->%list_elem_of_singleton]%elem_of_app; [by apply (Ht p pg)|by apply (Hnt p f)].
Qed.

Lemma append_page a : in_page f a -> read8 (k_mem k3) a = read8 (k_mem k2) a.
Proof using OK Hu X3 Hv2.
  intros Ha. destruct append_fresh as (Hf & _). destruct (pool_head_fresh _ _ _ _ _ (uv_inv _ _ _ _ _ Hu))
    as (_ & Hni & Hnt & _).
  eapply (vm_ext_keep k2 root t fl [f]); [| |exact X3|by left|done]; [|exact Hv2].
  split_and!; [apply NoDup_singleton|by apply Forall_singleton| |].
  - by intros pg ->%list_elem_of_singleton.
  - intros p pg Hp ->%list_elem_of_singleton. by eapply Hnt.
Qed.

Lemma append_keep pg a : pg ∈ us -> in_page pg a -> read8 (k_mem k3) a = read8 (k_mem k) a.
Proof using OK Hu X3 Hv2 Hs2.
  intros Hpg Ha. destruct append_fresh as (Hf & Hfu & _).
  destruct (owned_pool_split _ _ _ _ (uv_own _ _ _ _ _ Hu)) as [_ Ho].
  rewrite (vm_ext_keep k2 root t fl us k3 t3 fl3 pg a) by done. apply Hs2.
  intros q ->%list_elem_of_singleton. eapply pages_apart; [apply Ho|done|done|done|done].
Qed.

Lemma append_frame a :
  (forall p, p ∈ upages us t (f :: fl) -> ~ in_page p a) -> read8 (k_mem k3) a = read8 (k_mem k) a.
Proof using Hs2 X3.
  clear Hperm. intros Ha. rewrite (ve_frame _ _ _ _ _ _ _ X3).
  - apply Hs2. intros q ->%list_elem_of_singleton. apply Ha.
    unfold upages. apply elem_of_union_r, free_in_vm_pages. by left.
  - intros p Hp. apply Ha. revert Hp. unfold upages, vm_pages.
    rewrite !elem_of_union, !elem_of_list_to_set, elem_of_cons. tauto.
Qed.

Lemma append_mapped :
  (forall va, vpage va -> pte_of (k_mem k3) t3 va =
     if decide (va = vnth 0 (length us)) then leaf_pte f perm else pte_of (k_mem k2) t va) ->
  uvm_upd k root t (f :: fl) us k3 t3 fl3 (us ++ [f]).
Proof using All.
  intros P3. destruct append_fresh as (Hf & Hfu & Hown & Hown'). pose proof Hu as [Hv Ho Hmax Hmap Hun].
  assert (TRAPFRAME < MAXVA) by done. pose proof (page_ok_pos f Hf) as [Hfr _].
  constructor.
  - eapply only_mem_trans; [done|apply X3].
  - constructor; [apply X3|done|by rewrite length_app, Nat.add_1_r| |].
    + intros i pg [Hi|(Hi & Hpg)]%lookup_app_Some.
      * pose proof (lookup_lt_Some _ _ _ Hi).
        rewrite P3 by (apply (vpage_vnth _ (S (length us))); [lia|done]).
        rewrite decide_False by (unfold vnth, PGSIZE; lia). rewrite P2. by apply Hmap.
      * pose proof (lookup_lt_Some _ _ _ Hpg). cbn in *. assert (i = length us) as -> by lia.
        rewrite Nat.sub_diag in Hpg. injection Hpg as <-.
        rewrite P3 by (apply (vpage_vnth _ (S (length us))); [lia|done]). rewrite decide_True by done.
        destruct (leaf_pte_facts f perm) as (E1 & E2 & _ & E3); [lia|apply Hf|done|].
        split_and!; [done|done|by rewrite E2].
    + intros va Hva Hr. rewrite length_app, Nat.add_1_r in Hr.
      rewrite P3 by done. rewrite decide_False by (unfold vnth, PGSIZE in *; lia). rewrite P2.
      apply Hun; [done|]. unfold vnth, PGSIZE in *; lia.
  - unfold upages. rewrite (ve_pages _ _ _ _ _ _ _ X3). unfold vm_pages. rewrite list_to_set_app_L. set_solver.
  - intros pg a Hpg _. by apply append_keep.
  - apply append_frame.
  - intros va Hva Hh. rewrite P3 by done. rewrite decide_False by (unfold vnth, PGSIZE in *; lia). apply P2.
Qed.

Lemma append_failed e :
  (forall va, vpage va -> pte_of (k_mem k3) t3 va = pte_of (k_mem k2) t va) -> fl3 = [] ->
  exists k4, kfree f e k3 = Ok tt e k4 /\ uvm_upd k root t (f :: fl) us k4 t3 [f] us.
Proof using All.
  intros P3 Efl. destruct append_fresh as (Hf & Hfu & Hown & Hown').
  pose proof append_keep as Hkeep. pose proof append_frame as Hframe. subst fl3. pose proof Hu as [Hv Ho Hmax Hmap Hun].
  destruct Hown' as (_ & _ & _ & Ht3).
  assert (forall p q, t3 !! p = Some q -> q <> f) as Hnt3.
  { intros p q Hq ->. apply (Ht3 p f Hq). apply elem_of_app. right. by left. }
  assert (TRAPFRAME < MAXVA) by done.
  destruct (vm_inv_free e k3 root t3 [] f) as (k4 & Hk4 & Ho4 & Hs4 & Hv4 & P4);
    [apply X3|done|apply not_elem_of_nil|done|].
  exists k4. split; [done|]. constructor.
  - eapply only_mem_trans; [|done]. eapply only_mem_trans; [done|apply X3].
  - constructor; try done.
    + destruct Hown as (? & ? & _ & ?). split_and!; try done. intros pg Hpg ->%list_elem_of_singleton. done.
    + intros i pg Hi. pose proof (lookup_lt_Some _ _ _ Hi).
      rewrite P4, P3 by (apply (vpage_vnth _ (S (length us))); [lia|done]). rewrite P2. by apply Hmap.
    + intros va Hva Hr. rewrite P4, P3, P2 by done. by apply Hun.
  - pose proof (ve_pages _ _ _ _ _ _ _ X3) as E. unfold upages, vm_pages in *. set_solver.
  - intros pg a Hpg _ Ha. rewrite Hs4; [by apply (Hkeep pg)|].
    intros q ->%list_elem_of_singleton. destruct Hown as (_ & Hok & _).
    eapply (pages_apart us); [done|done|done|done|done].
  - intros a Ha. rewrite Hs4; [by apply Hframe|]. intros q ->%list_elem_of_singleton. apply Ha.
    unfold upages. apply elem_of_union_r, free_in_vm_pages. by left.
  - intros va Hva Hh. by rewrite P4, P3, P2.
Qed.
End Append.

(** One turn of uvmalloc(): a zeroed page is appended, or the pool is empty
    and the turn goes on to undo the previous ones. *)
Lemma grow_step e k root t fl us oldsz newsz :
  uvm k root t fl us -> vnth 0 (length us) < newsz <= TRAPFRAME ->
  (exists k' t' fl' pg,
     uvmalloc_body root oldsz newsz (vnth 0 (length us)) e k = Ok (inr (vnth 0 (S (length us)))) e k' /\
     uvm_upd k root t fl us k' t' fl' (us ++ [pg]) /\ zero_page (k_mem k') pg /\ pg ∉ us /\ (length fl <= length fl' + 3)%nat) \/
  (exists k' t' fl',
     uvmalloc_body root oldsz newsz (vnth 0 (length us)) e k =
       (uvmdealloc root (vnth 0 (length us)) oldsz;;; ret (inl 0)) e k' /\
     uvm_upd k root t fl us k' t' fl' us /\ (length fl < 3)%nat).
Proof.
  intros Hu Hsz. pose proof Hu as [Hv Hown Hmax Hmap Hun].
  assert (TRAPFRAME = 67108862 * 4096) as HT by done.
  assert (vnth 0 (S (length us)) <= TRAPFRAME) as Hroom by (unfold vnth, PGSIZE in *; lia).
  assert (vpage (vnth 0 (length us))) as Hpage by (apply (vpage_vnth _ (S (length us))); [lia|done]).
  unfold uvmalloc_body. rewrite bool_decide_eq_true_2 by lia. cbn [negb].
  destruct fl as [|f fl].
  { right. exists k, t, []. split; [|split; [by apply uvm_upd_refl|cbn; lia]].
    rewrite (bind_Ok _ _ 0 e k e k); [by rewrite decide_True|].
    apply alloc_empty; apply Hv. }
  destruct (pool_head_fresh _ _ _ _ _ Hv) as (Hf & Hni & Hnt & Htf).
  destruct (vm_inv_fresh e k root t f fl (fun m => memset m f 0 PGSIZE)) as (k1 & Hk1 & Ho2 & Hs2 & Hv2 & P2);
    [done|intros; apply same_except_memset|].
  rewrite (bind_Ok _ _ _ _ _ _ _ Hk1). pose proof (page_ok_pos f Hf) as [Hfr _].
  rewrite decide_False by lia. remember (upd_mem _ k1) as k2 eqn:Ek2.
  rewrite (bind_Ok _ _ tt e k1 e k2) by (by rewrite Ek2).
  destruct (mappages_one e k2 root t fl (vnth 0 (length us)) f UPERM)
    as (r & k3 & t3 & fl3 & Hm & X3 & Hc); [exact Hv2|exact Hpage| |exact Hf|apply UPERM_leaf|].
  { rewrite P2. apply Hun; [exact Hpage|]. unfold vnth, PGSIZE in *. lia. }
  rewrite (bind_Ok _ _ _ _ _ _ _ Hm). destruct Hc as [(-> & Hco & P3)|(-> & -> & Hco & P3)].
  - left. exists k3, t3, fl3, f. split_and!.
    + rewrite decide_False by lia. cbn. rewrite u64_small by (unfold vnth, PGSIZE in *; lia).
      unfold vnth. by replace (0 + Z.of_nat (length us) * PGSIZE + PGSIZE)
        with (0 + Z.of_nat (S (length us)) * PGSIZE) by lia.
    + destruct UPERM_leaf as [Hp Hl].
      by apply (append_mapped k k2 k3 root t t3 f fl fl3 us UPERM Hu Hroom Ho2 Hs2 Hv2 P2 X3 Hp Hl).
    + intros a Ha. rewrite (append_page k k2 k3 root t t3 f fl fl3 us) by done.
      rewrite Ek2. cbn. rewrite read8_memset, decide_True by done. done.
    + exact (proj1 (owned_pool_split _ _ _ _ Hown)).
    + cbn. lia.
  - right. destruct UPERM_leaf as [Hp Hl].
    destruct (append_failed k k2 k3 root t t3 f fl [] us UPERM Hu Hroom Ho2 Hs2 Hv2 P2 X3
                Hp Hl e P3 eq_refl) as (k4 & Hk4 & U).
    exists k4, t3, [f]. split; [|split; [done|cbn; lia]]. rewrite decide_True by lia.
    by rewrite (bind_Ok _ _ _ _ _ _ _ Hk4).
Qed.

Lemma vnth_round n : vnth 0 n <= TRAPFRAME -> PGROUNDUP (vnth 0 n) = vnth 0 n.
Proof.
  intros H. assert (TRAPFRAME = 67108862 * 4096) as HT by done.
  apply PGROUNDUP_aligned; unfold vnth, PGSIZE in *; [lia|]. by apply Z.mod_mul.
Qed.

(** Undoing the turns that appended [new]. *)
Lemma grow_undo e k0 root t0 fl0 k t fl us new :
  uvm_upd k0 root t0 fl0 us k t fl (us ++ new) ->
  exists k' fl', (uvmdealloc root (vnth 0 (length (us ++ new))) (vnth 0 (length us));;; ret (@inl Z Z 0)) e k
                 = Ok (inl 0) e k' /\ uvm_upd k0 root t0 fl0 us k' t fl' us.
Proof.
  intros U. pose proof (uu_uvm _ _ _ _ _ _ _ _ _ U) as Hu. pose proof (uv_size _ _ _ _ _ Hu) as Hsz.
  destruct new as [|pg new].
  { rewrite app_nil_r in *. exists k, fl. split; [|done]. unfold uvmdealloc. cbn.
    by rewrite decide_True by lia. }
  assert (vnth 0 (length us) <= TRAPFRAME) by (rewrite length_app in Hsz; unfold vnth, PGSIZE in *; lia).
  destruct (uvmdealloc_ok e k root t fl us (pg :: new) (vnth 0 (length (us ++ pg :: new))) (vnth 0 (length us)))
    as (k' & Hk & U2); try done.
  - rewrite length_app. cbn. unfold vnth, PGSIZE. lia.
  - by apply vnth_round.
  - by apply vnth_round.
  - exists k', (reverse (pg :: new) ++ fl). split; [by rewrite (bind_Ok _ _ _ _ _ _ _ Hk)|].
    eapply uvm_upd_trans; [|done|done]. intros p Hp _. apply elem_of_app. by left.
Qed.

(** What uvmalloc() achieves: the pages [new], all zero, are appended, or the
    user part is as it was and the pool had fewer than three pages (the page
    itself and two of the table) for each page asked for. *)
Definition grown (k : kernel) (root : Z) (t : ptable) (fl us : list Z) (newsz r : Z) (k' : kernel) : Prop :=
  exists t' fl', (r = newsz /\ exists new, PGROUNDUP newsz = vnth 0 (length (us ++ new)) /\
                   uvm_upd k root t fl us k' t' fl' (us ++ new) /\ Forall (zero_page (k_mem k')) new /\
                   (length fl <= length fl' + 3 * length new)%nat) \/
                 (r = 0 /\ uvm_upd k root t fl us k' t' fl' us /\
                   exists need, PGROUNDUP newsz = vnth 0 (length us + need) /\ (length fl < 3 * need)%nat).

Lemma round_pages x n : 0 <= x <= TRAPFRAME -> vnth 0 n - PGSIZE < x <= vnth 0 n -> PGROUNDUP x = vnth 0 n.
Proof.
  intros Hx Hr. assert (TRAPFRAME = 67108862 * 4096) as HT by done. destruct (PGROUNDUP_spec x) as [H1 H2]; [unfold PGSIZE in *; lia|].
  assert (vnth 0 n mod PGSIZE = 0) as H3 by (unfold vnth; by apply Z.mod_mul).
  destruct (decide (PGROUNDUP x = vnth 0 n)) as [|Hne]; [done|]. destruct (aligned_apart _ _ H2 H3 Hne); unfold PGSIZE in *; lia.
Qed.

Lemma zero_page_upd k root t fl us k' t' fl' us' pg :
  uvm_upd k root t fl us k' t' fl' us' -> pg ∈ us -> pg ∈ us' ->
  zero_page (k_mem k) pg -> zero_page (k_mem k') pg.
Proof. intros U H1 H2 Hz a Ha. rewrite (uu_keep _ _ _ _ _ _ _ _ _ U pg a); auto. Qed.

Lemma grow_loop e root us newsz : forall n fuel k0 t0 fl0 k t fl new,
  uvm_upd k0 root t0 fl0 us k t fl (us ++ new) -> Forall (zero_page (k_mem k)) new ->
  0 <= newsz <= TRAPFRAME -> vnth 0 (length (us ++ new)) + (Z.of_nat n - 1) * PGSIZE < newsz ->
  newsz <= vnth 0 (length (us ++ new)) + Z.of_nat n * PGSIZE ->
  (n < fuel)%nat -> (length fl0 <= length fl + 3 * length new)%nat ->
  exists r k', loop_ fuel (uvmalloc_body root (vnth 0 (length us)) newsz) (vnth 0 (length (us ++ new))) e k
               = Ok r e k' /\ grown k0 root t0 fl0 us newsz r k'.
Proof.
  assert (TRAPFRAME = 67108862 * 4096) as HT by done.
  induction n as [|n IH]; intros fuel k0 t0 fl0 k t fl new U Hz Hmax Hlo Hhi Hf Hco;
    (destruct fuel as [|fuel]; [lia|]); cbn [loop_];
    pose proof (uu_uvm _ _ _ _ _ _ _ _ _ U) as Hu; pose proof (uv_size _ _ _ _ _ Hu) as Hsz.
  - exists newsz, k. split.
    + rewrite (bind_Ok _ _ (inl newsz) e k e k); [done|]. unfold uvmalloc_body.
      by rewrite bool_decide_eq_false_2 by lia.
    + exists t, fl. left. split; [done|]. exists new. split_and!; try done. apply round_pages; [done|unfold PGSIZE in *; lia].
  - destruct (grow_step e k root t fl (us ++ new) (vnth 0 (length us)) newsz Hu)
      as [(k1 & t1 & fl1 & pg & Hb & U1 & Hz1 & Hni & Hco1)|(k1 & t1 & fl1 & Hb & U1 & Hco1)].
    + unfold PGSIZE in *. lia.
    + rewrite (bind_Ok _ _ _ _ _ _ _ Hb).
      assert (uvm_upd k0 root t0 fl0 us k1 t1 fl1 (us ++ (new ++ [pg]))) as U2.
      { rewrite app_assoc. eapply uvm_upd_trans; [|done|done]. intros p Hp _. apply elem_of_app. by left. }
      assert (S (length (us ++ new)) = length (us ++ (new ++ [pg]))) as El.
      { rewrite !length_app. cbn. lia. }
      rewrite El. apply (IH fuel k0 t0 fl0 k1 t1 fl1 (new ++ [pg])); try done.
      * apply Forall_app. split; [|by apply Forall_singleton].
        rewrite Forall_forall in Hz |- *. intros p Hp.
        apply (zero_page_upd _ _ _ _ _ _ _ _ _ p U1); [..|by apply Hz]; set_solver.
      * rewrite <- El. unfold vnth, PGSIZE in *. lia.
      * rewrite <- El. unfold vnth, PGSIZE in *. lia.
      * lia.
      * rewrite length_app. cbn. lia.
    + assert (uvm_upd k0 root t0 fl0 us k1 t1 fl1 (us ++ new)) as U2.
      { eapply uvm_upd_trans; [|done|done]. intros p Hp _. apply elem_of_app. by left. }
      destruct (grow_undo e _ _ _ _ _ _ _ _ _ U2) as (k' & fl' & Hd & U3).
      exists 0, k'. split; cycle 1.
      { exists t1, fl'. right. split_and!; [done|done|]. exists (length new + S n)%nat. split; [|lia]. apply round_pages; [done|].
        rewrite length_app in *. unfold vnth, PGSIZE in *. lia. }
      rewrite (bind_Ok _ _ (inl 0) e k e k'); [done|]. by rewrite Hb.
Qed.

Lemma uvmalloc_grow e k root t fl us oldsz newsz :
  uvm k root t fl us -> 0 <= oldsz <= newsz -> newsz <= TRAPFRAME ->
  PGROUNDUP oldsz = vnth 0 (length us) ->
  exists r k', uvmalloc root oldsz newsz e k = Ok r e k' /\ grown k root t fl us newsz r k'.
Proof.
  intros Hu Hlt Hmax Eold. assert (TRAPFRAME = 67108862 * 4096) as HT by done.
  unfold uvmalloc. rewrite decide_False by lia. rewrite Eold.
  destruct (PGROUNDUP_spec oldsz) as [Hr _]; [unfold PGSIZE in *; lia|]. rewrite Eold in Hr.
  assert (exists n, newsz <= vnth 0 (length us) + Z.of_nat n * PGSIZE /\
            vnth 0 (length us) + (Z.of_nat n - 1) * PGSIZE < newsz /\
            (n < S (Z.to_nat ((newsz - vnth 0 (length us)) / PGSIZE + 1)))%nat) as (n & H1 & H2 & H3).
  { exists (Z.to_nat ((newsz - vnth 0 (length us) + 4095) / 4096)). unfold PGSIZE in *.
    assert (-4096 < newsz - vnth 0 (length us)) by lia. Z.div_mod_to_equations. lia. }
  pose proof (fun fuel => grow_loop e root us newsz n fuel k t fl k t fl []) as L.
  rewrite app_nil_r in L. cbn zeta. apply L; try done.
  - by apply uvm_upd_refl.
  - lia.
  - cbn. lia.
Qed.
End User.
