(* ===== verification/VmCopy.v ===== *)
(** * Copying between the kernel and user memory: copyin(), copyout(), copyinstr()

    [uread m t va] is the byte a process reads at virtual address [va] under the
    page table [t]: the translation of the hardware for a user access.  The
    three routines are specified on it: copyin() returns exactly the bytes the
    process would read, copyout() makes the process read exactly the bytes
    copied, and both stop at the first address the process cannot access. *)

From S2P Require Import Prelude Machine Kstring Kernel Spinlock Kalloc Vm VmSpec VmMap VmUser.

Section Copy.
Context `{Y : Symbols} `{OK : !SymbolsOK Y}.
Context `{PA : !PageAllocator kalloc kfree}.

Definition uread (m : mem) (t : ptable) (va : Z) : option Z :=
  if decide (0 <= va < MAXVA) then
    let pa := user_pa (pte_of m t (va - va mod PGSIZE)) in
    if decide (pa = 0) then None else Some (read8 m (pa + va mod PGSIZE))
  else None.

Lemma page_split va : 0 <= va < MAXVA ->
  PGROUNDDOWN va = va - va mod PGSIZE /\ vpage (PGROUNDDOWN va) /\ 0 <= va mod PGSIZE < PGSIZE /\
  u64 (PGROUNDDOWN va + PGSIZE) = PGROUNDDOWN va + PGSIZE.
Proof.
  intros H. assert (MAXVA = 67108864 * 4096) as HM by done. rewrite HM in *.
  rewrite PGROUNDDOWN_spec by lia. unfold vpage, PGSIZE in *. rewrite HM.
  rewrite u64_small; Z.div_mod_to_equations; lia.
Qed.

(** All bytes of a page are reached through the same entry. *)
Lemma uread_page m t va i :
  0 <= va < MAXVA -> 0 <= i -> va mod PGSIZE + i < PGSIZE ->
  uread m t (va + i) =
  let pa := user_pa (pte_of m t (PGROUNDDOWN va)) in
  if decide (pa = 0) then None else Some (read8 m (pa + (va - PGROUNDDOWN va) + i)).
Proof.
  intros Hva Hi Hoff. destruct (page_split va Hva) as (Ed & _ & Hm & _).
  assert (MAXVA = 67108864 * 4096) as HM by done.
  assert ((va + i) mod PGSIZE = va mod PGSIZE + i) as Em.
  { unfold PGSIZE in *. Z.div_mod_to_equations. lia. }
  unfold uread. rewrite decide_True; [|rewrite HM in *; unfold PGSIZE in *; Z.div_mod_to_equations; lia].
  rewrite Em, Ed. replace (va + i - (va mod PGSIZE + i)) with (va - va mod PGSIZE) by lia. cbn zeta.
  case_decide; [done|]. do 2 f_equal. lia.
Qed.

(** One translation of copyin(), copyout() and copyinstr(): no page, or the
    page of [va]. *)
Lemma walkaddr_page e k root t fl va :
  vm_inv k root t fl -> 0 <= va < 2 ^ 64 ->
  exists pa, walkaddr root (PGROUNDDOWN va) e k = Ok pa e k /\
    ((pa = 0 /\ uread (k_mem k) t va = None) \/
     (pa <> 0 /\ va < MAXVA /\ user_pa (pte_of (k_mem k) t (PGROUNDDOWN va)) = pa)).
Proof.
  intros Hv Hva.
  assert (0 <= PGROUNDDOWN va) as Hd.
  { rewrite PGROUNDDOWN_spec by done. pose proof (Z.mod_le va PGSIZE). unfold PGSIZE in *. lia. }
  rewrite (walkaddr_ok e k root t fl _ Hv Hd). eexists. split; [done|].
  destruct (decide (va < MAXVA)) as [Hlt|Hge].
  - destruct (page_split va) as (Ed & Hpg & Hm & Hu); [lia|]. rewrite decide_True by apply Hpg.
    destruct (decide (user_pa (pte_of (k_mem k) t (PGROUNDDOWN va)) = 0)) as [Hz|Hnz]; [left|by right].
    split; [done|]. rewrite <- (Z.add_0_r va), uread_page by lia. cbn. by rewrite Hz.
  - left. rewrite decide_False; [split; [done|]; unfold uread; by rewrite decide_False by lia|].
    rewrite PGROUNDDOWN_spec by done. assert (MAXVA = 67108864 * 4096) by done.
    unfold PGSIZE. Z.div_mod_to_equations. lia.
Qed.

(** ** copyin *)

(** The outcome of copying [len] bytes from [va]: [bs] was read, and either
    it is all, or the byte after it is not accessible. *)
Definition copied_in (m : mem) (t : ptable) (va len r : Z) (bs : list Z) : Prop :=
  (forall i b, bs !! i = Some b -> uread m t (va + Z.of_nat i) = Some b) /\
  (r = 0 /\ Z.of_nat (length bs) = len \/
   r = -1 /\ Z.of_nat (length bs) < len /\ uread m t (va + Z.of_nat (length bs)) = None).

Lemma copied_in_app m t va len r n bs1 bs2 :
  (forall i b, bs1 !! i = Some b -> uread m t (va + Z.of_nat i) = Some b) ->
  Z.of_nat (length bs1) = n -> copied_in m t (va + n) (len - n) r bs2 ->
  copied_in m t va len r (bs1 ++ bs2).
Proof.
  intros H1 <- [H2 Hr]. split.
  - intros i b [Hi|[Hi Hb]]%lookup_app_Some; [by apply H1|].
    rewrite <- (H2 _ _ Hb). f_equal. lia.
  - rewrite length_app, Nat2Z.inj_add, Z.add_assoc. destruct Hr as [[-> Hl]|(-> & Hl & Hn)]; [left|right].
    + split; [done|lia].
    + split; [done|]. split; [lia|done].
Qed.

Lemma chunk_spec va len :
  0 <= va < MAXVA -> 0 < len ->
  let n := chunk va (PGROUNDDOWN va) len in
  0 < n <= len /\ va mod PGSIZE + n <= PGSIZE /\
  (n < len -> va + n = PGROUNDDOWN va + PGSIZE).
Proof.
  intros Hva Hl. destruct (page_split va Hva) as (Ed & _ & Hm & _). cbn. unfold chunk. rewrite Ed.
  destruct (Z.min_spec (PGSIZE - (va - (va - va mod PGSIZE))) len) as [[? ->]|[? ->]]; lia.
Qed.

Lemma chunk_read m t va len pa :
  0 <= va < MAXVA -> 0 < len -> user_pa (pte_of m t (PGROUNDDOWN va)) = pa -> pa <> 0 ->
  let n := chunk va (PGROUNDDOWN va) len in
  forall i b, read_bytes (Z.to_nat n) m (pa + (va - PGROUNDDOWN va)) !! i = Some b ->
              uread m t (va + Z.of_nat i) = Some b.
Proof.
  intros Hva Hl Hpa Hnz n i b Hb. pose proof (lookup_lt_Some _ _ _ Hb) as Hi.
  destruct (chunk_spec va len Hva Hl) as (H1 & H2 & _). fold n in H1, H2.
  rewrite length_read_bytes in Hi. rewrite lookup_read_bytes in Hb by done.
  rewrite uread_page by lia. cbn zeta. rewrite Hpa, decide_False by done. done.
Qed.

Lemma copyin_loop e k root t fl : vm_inv k root t fl ->
  forall fuel va len dst, 0 <= va < 2 ^ 64 -> 0 <= len < Z.of_nat fuel ->
  exists r bs, loop_ fuel (copyin_body root) (va, len, dst) e k = Ok (r, dst ++ bs) e k /\
    copied_in (k_mem k) t va len r bs.
Proof.
  intros Hv. induction fuel as [|fuel IH]; intros va len dst Hva Hl; [lia|]. cbn [loop_].
  unfold copyin_body at 1. destruct (decide (len <= 0)) as [Hle|Hgt].
  { exists 0, []. rewrite app_nil_r. split; [done|]. split; [done|]. left. cbn. lia. }
  rewrite bind_assoc. destruct (walkaddr_page e k root t fl va Hv Hva) as (pa & Hw & Hc).
  rewrite (bind_Ok _ _ _ _ _ _ _ Hw). destruct Hc as [[-> Hn]|(Hnz & Hlt & Hpa)].
  { exists (-1), []. rewrite app_nil_r. split; [done|]. split; [done|]. right. cbn.
    rewrite Z.add_0_r. split_and!; (done || lia). }
  rewrite (decide_False (P := pa = 0)) by done. rewrite bind_assoc. cbn [gets bind].
  destruct (chunk_spec va len) as (H1 & H2 & H3); [lia|lia|].
  pose proof (chunk_read (k_mem k) t va len pa ltac:(lia) ltac:(lia) Hpa Hnz) as Hr.
  cbn zeta in H1, H2, H3, Hr. remember (chunk va (PGROUNDDOWN va) len) as n eqn:En.
  remember (read_bytes (Z.to_nat n) (k_mem k) (pa + (va - PGROUNDDOWN va))) as bs1 eqn:Eb.
  assert (Z.of_nat (length bs1) = n) as Hlen by (rewrite Eb, length_read_bytes; lia).
  destruct (page_split va) as (_ & [Hlo _] & _ & ->); [lia|].
  destruct (IH (PGROUNDDOWN va + PGSIZE) (len - n) (dst ++ bs1)) as (r & bs & Hloop & Hc).
  { change MAXVA with (2 ^ 38) in *. unfold PGSIZE. lia. }
  { lia. }
  cbn [ret]. rewrite Hloop. exists r, (bs1 ++ bs). rewrite app_assoc. split; [done|].
  destruct (decide (n < len)) as [Hn|Hn].
  - apply (copied_in_app _ _ va len r n); [done..|]. by rewrite H3.
  - destruct Hc as [Hc1 Hc2].
    assert (bs = []) as -> by (destruct bs; [done|]; cbn in Hc2; lia).
    destruct Hc2 as [[-> _]|(_ & ? & _)]; [|cbn in *; lia].
    rewrite app_nil_r. split; [done|]. left. lia.
Qed.

(** ** copyinstr *)

(** The string at [va] within [max] bytes, terminator included, or the bytes
    before the limit or the first inaccessible address. *)
Definition copied_str (m : mem) (t : ptable) (va max r : Z) (bs : list Z) : Prop :=
  (forall i b, bs !! i = Some b -> uread m t (va + Z.of_nat i) = Some b) /\
  Z.of_nat (length bs) <= max /\
  ((r = 0 /\ exists s, bs = s ++ [0] /\ Forall (fun c => c <> 0) s) \/
   (r = -1 /\ Forall (fun c => c <> 0) bs /\
    (Z.of_nat (length bs) = max \/ uread m t (va + Z.of_nat (length bs)) = None))).

Lemma take_str_spec bs l b :
  take_str bs = (l, b) ->
  l `prefix_of` bs /\
  (if b then exists s, l = s ++ [0] /\ Forall (fun c => c <> 0) s
   else l = bs /\ Forall (fun c => c <> 0) bs).
Proof.
  revert l b. induction bs as [|c bs IH]; intros l b H; cbn in H.
  { injection H as <- <-. split; [done|]. split; [done|constructor]. }
  destruct (decide (c = 0)) as [->|Hc].
  { injection H as <- <-. split; [by exists bs|]. exists []. split; [done|constructor]. }
  destruct (take_str bs) as [l' b'] eqn:E. injection H as <- <-.
  destruct (IH l' b' eq_refl) as [Hp Hb]. split; [by apply prefix_cons|].
  destruct b'; [|destruct Hb as [-> Hb]; split; [done|by constructor]].
  destruct Hb as (s & -> & Hs). exists (c :: s). split; [done|by constructor].
Qed.

Lemma copied_str_app m t va max r n bs1 bs2 :
  (forall i b, bs1 !! i = Some b -> uread m t (va + Z.of_nat i) = Some b) ->
  Forall (fun c => c <> 0) bs1 -> Z.of_nat (length bs1) = n ->
  copied_str m t (va + n) (max - n) r bs2 -> copied_str m t va max r (bs1 ++ bs2).
Proof.
  intros H1 Hnz <- (H2 & Hl & Hr). split_and!.
  - intros i b [Hi|[Hi Hb]]%lookup_app_Some; [by apply H1|].
    rewrite <- (H2 _ _ Hb). f_equal. lia.
  - rewrite length_app. lia.
  - rewrite length_app, Nat2Z.inj_add, Z.add_assoc.
    destruct Hr as [(-> & s & -> & Hs)|(-> & Hs & Hn)]; [left|right].
    + split; [done|]. exists (bs1 ++ s). rewrite app_assoc. split; [done|]. by apply Forall_app.
    + split; [done|]. split; [by apply Forall_app|]. destruct Hn; [left; lia|by right].
Qed.

Lemma prefix_ureads m t va (l bs : list Z) :
  l `prefix_of` bs -> (forall i b, bs !! i = Some b -> uread m t (va + Z.of_nat i) = Some b) ->
  forall i b, l !! i = Some b -> uread m t (va + Z.of_nat i) = Some b.
Proof. intros Hp H i b Hi. apply H. by eapply prefix_lookup_Some. Qed.

Lemma copyinstr_loop e k root t fl : vm_inv k root t fl ->
  forall fuel va max dst, 0 <= va < 2 ^ 64 -> 0 <= max < Z.of_nat fuel ->
  exists r bs, loop_ fuel (copyinstr_body root) (va, max, dst) e k = Ok (r, dst ++ bs) e k /\
    copied_str (k_mem k) t va max r bs.
Proof.
  intros Hv. induction fuel as [|fuel IH]; intros va max dst Hva Hl; [lia|]. cbn [loop_].
  unfold copyinstr_body at 1. destruct (decide (max <= 0)) as [Hle|Hgt].
  { exists (-1), []. rewrite app_nil_r. split; [done|]. split_and!; cbn; [done|lia|right].
    split_and!; [done|constructor|left; lia]. }
  rewrite bind_assoc. destruct (walkaddr_page e k root t fl va Hv Hva) as (pa & Hw & Hc).
  rewrite (bind_Ok _ _ _ _ _ _ _ Hw). destruct Hc as [[-> Hn]|(Hnz & Hlt & Hpa)].
  { exists (-1), []. rewrite app_nil_r. split; [done|]. split_and!; cbn; [done|lia|right].
    split_and!; [done|constructor|]. right. by rewrite Z.add_0_r. }
  rewrite (decide_False (P := pa = 0)) by done. rewrite bind_assoc. cbn [gets bind].
  destruct (chunk_spec va max) as (H1 & H2 & H3); [lia|lia|].
  pose proof (chunk_read (k_mem k) t va max pa ltac:(lia) ltac:(lia) Hpa Hnz) as Hr.
  cbn zeta in H1, H2, H3, Hr. remember (chunk va (PGROUNDDOWN va) max) as n eqn:En.
  remember (read_bytes (Z.to_nat n) (k_mem k) (pa + (va - PGROUNDDOWN va))) as bs1 eqn:Eb.
  assert (Z.of_nat (length bs1) = n) as Hlen by (rewrite Eb, length_read_bytes; lia).
  destruct (take_str bs1) as [l got] eqn:Et. destruct (take_str_spec _ _ _ Et) as [Hp Hs].
  destruct got.
  - exists 0, l. split; [done|]. split_and!; [by eapply prefix_ureads| |left; auto].
    apply prefix_length in Hp. lia.
  - destruct Hs as [-> Hs]. destruct (page_split va) as (_ & [Hlo _] & _ & ->); [lia|].
    destruct (IH (PGROUNDDOWN va + PGSIZE) (max - n) (dst ++ bs1)) as (r & bs & Hloop & Hc).
    { change MAXVA with (2 ^ 38) in *. unfold PGSIZE. lia. }
    { lia. }
    cbn [ret]. rewrite Hloop. exists r, (bs1 ++ bs). rewrite app_assoc. split; [done|].
    destruct (decide (n < max)) as [Hn|Hn].
    + apply (copied_str_app _ _ va max r n); [done..|]. by rewrite H3.
    + destruct Hc as (_ & Hl0 & Hc). assert (bs = []) as -> by (destruct bs; [done|]; cbn in Hl0; lia).
      rewrite app_nil_r. destruct Hc as [(_ & s & Es & _)|(-> & _ & _)]; [by destruct s|].
      split_and!; [done|lia|right]. split_and!; [done|done|left; lia].
Qed.

(** ** copyout *)

(** Only the pages of the user part are accessible to the process. *)
Record user_space (k : kernel) (root : Z) (t : ptable) (fl us : list Z) : Prop := {
  us_uvm : uvm k root t fl us;
  us_user va : vpage va -> user_pa (pte_of (k_mem k) t va) <> 0 -> va < vnth 0 (length us)
}.

Lemma user_page k root t fl us va :
  user_space k root t fl us -> vpage va -> user_pa (pte_of (k_mem k) t va) <> 0 ->
  exists i, us !! i = Some (user_pa (pte_of (k_mem k) t va)) /\ va = vnth 0 i.
Proof.
  intros [Hu Hus] Hva Hnz. pose proof (Hus va Hva Hnz) as Hlt. destruct Hva as [Hr Hal].
  apply Z.mod_divide in Hal as [x ->]; [|done]. unfold vnth in Hlt.
  assert (0 <= x < Z.of_nat (length us)) as Hx by (unfold PGSIZE in *; lia).
  destruct (lookup_lt_is_Some_2 us (Z.to_nat x)) as [pg Hpg]; [lia|].
  exists (Z.to_nat x). assert (x * PGSIZE = vnth 0 (Z.to_nat x)) as Ex by (unfold vnth; rewrite Z2Nat.id; lia).
  split; [|done]. rewrite Ex. destruct (uv_map _ _ _ _ _ Hu _ _ Hpg) as (Epa & _ & _).
  rewrite <- Ex in *. unfold user_pa in *. case_decide; [done|]. by rewrite Epa.
Qed.

(** The process's view after bytes of one of its pages have been written. *)
Lemma user_write k root t fl us va pa bs :
  user_space k root t fl us -> 0 <= va < MAXVA ->
  user_pa (pte_of (k_mem k) t (PGROUNDDOWN va)) = pa -> pa <> 0 ->
  va mod PGSIZE + Z.of_nat (length bs) <= PGSIZE ->
  let k' := upd_mem (fun m => write_bytes m (pa + (va - PGROUNDDOWN va)) bs) k in
  user_space k' root t fl us /\ same_except us (k_mem k) (k_mem k') /\
  forall va', uread (k_mem k') t va' =
    if decide (va <= va' < va + Z.of_nat (length bs))
    then u8 <$> bs !! Z.to_nat (va' - va) else uread (k_mem k) t va'.
Proof.
  intros Hs Hva Hpa Hnz Hlen k'. destruct (page_split va Hva) as (Ed & Hpg & Hm & _).
  destruct (user_page k root t fl us (PGROUNDDOWN va) Hs Hpg) as (i & Hi & Ei); [congruence|].
  rewrite Hpa in Hi. destruct Hs as [Hu Hus]. pose proof Hu as [Hv (Hnd & Hok & Hfl & Ht) Hsz Hmap Hun].
  assert (pa ∈ us) as Hin by by eapply list_elem_of_lookup_2.
  assert (page_ok pa) as Hpo by (rewrite Forall_forall in Hok; by apply Hok).
  assert (same_except [pa] (k_mem k) (k_mem k')) as Hse.
  { intros a Ha. cbn. apply read8_write_bytes_ne. specialize (Ha pa). unfold in_page in Ha.
    assert (~ (pa <= a < pa + PGSIZE)) by (apply Ha; by left). lia. }
  destruct (vm_inv_write_page k root t fl pa (k_mem k')) as [Hv' P]; try done.
  { by apply Hfl. }
  { intros p q Hq ->. by apply (Ht p pa Hq). }
  split_and!; [|eapply same_except_mono; [|exact Hse]; by intros q ->%list_elem_of_singleton|].
  - constructor; [constructor; try done|].
    + intros j pg Hj. rewrite P. by apply Hmap.
    + intros va' Hva'. rewrite P. by apply Hun.
    + intros va' Hva'. rewrite P. by apply Hus.
  - intros va'. destruct (decide (va <= va' < va + Z.of_nat (length bs))) as [Hr|Hr].
    + destruct (lookup_lt_is_Some_2 bs (Z.to_nat (va' - va))) as [b Hb]; [lia|].
      replace va' with (va + (va' - va)) by lia. rewrite uread_page by lia. cbn zeta.
      rewrite P, Hpa, decide_False by done. cbn.
      replace (va' - va) with (Z.of_nat (Z.to_nat (va' - va))) at 1 by lia.
      rewrite (read8_write_bytes_in _ _ _ _ b) by done.
      by replace (va + (va' - va) - va) with (va' - va) by lia; rewrite Hb.
    + unfold uread. destruct (decide (0 <= va' < MAXVA)) as [Hva'|]; [|done]. rewrite P.
      destruct (page_split va' Hva') as (Ed' & Hpg' & Hm' & _). rewrite <- Ed'. cbn zeta.
      destruct (decide (user_pa (pte_of (k_mem k) t (PGROUNDDOWN va')) = 0)) as [|Hnz']; [done|].
      destruct (user_page k root t fl us _ (Build_user_space _ _ _ _ _ Hu Hus) Hpg' Hnz') as (j & Hj & Ej).
      f_equal. destruct (decide (i = j)) as [<-|Hne].
      * assert (user_pa (pte_of (k_mem k) t (PGROUNDDOWN va')) = pa) as -> by congruence.
        cbn. apply read8_write_bytes_ne. lia.
      * apply Hse. intros q ->%list_elem_of_singleton.
        remember (user_pa (pte_of (k_mem k) t (PGROUNDDOWN va'))) as pa' eqn:Epa.
        apply (pages_apart [pa'] pa pa'); [|done| |by left|unfold in_page; lia].
        -- rewrite Forall_forall in Hok. apply Forall_singleton, Hok. by eapply list_elem_of_lookup_2.
        -- intros Hq%list_elem_of_singleton. apply Hne. eapply NoDup_lookup; [done|done|]. by rewrite Hq.
Qed.

(** The process's view after [j] bytes of [src] have been copied to [dst]. *)
Definition copied_out (m m' : mem) (t : ptable) (dst : Z) (src : list Z) (j : nat) : Prop :=
  forall va, uread m' t va = if decide (dst <= va < dst + Z.of_nat j)
                             then u8 <$> src !! Z.to_nat (va - dst) else uread m t va.

Lemma copied_out_trans m1 m2 m3 t dst src n j :
  (n <= length src)%nat -> copied_out m1 m2 t dst (take n src) n ->
  copied_out m2 m3 t (dst + Z.of_nat n) (drop n src) j -> copied_out m1 m3 t dst src (n + j).
Proof.
  intros Hn H1 H2 va. rewrite H2, H1. repeat case_decide; try lia; [| |done].
  - rewrite lookup_drop. do 2 f_equal. lia.
  - by rewrite lookup_take_lt by lia.
Qed.

Definition copyout_post (k : kernel) (root : Z) (t : ptable) (fl us : list Z) (dst : Z) (src : list Z)
    (r : Z) (k' : kernel) : Prop :=
  user_space k' root t fl us /\ only_mem k k' /\ same_except us (k_mem k) (k_mem k') /\
  exists j, copied_out (k_mem k) (k_mem k') t dst src j /\
    (r = 0 /\ j = length src \/
     r = -1 /\ (j < length src)%nat /\ uread (k_mem k) t (dst + Z.of_nat j) = None).

Lemma copyout_loop e root t fl us : forall fuel k dst src,
  user_space k root t fl us -> 0 <= dst < 2 ^ 64 -> (length src < fuel)%nat ->
  exists r k', loop_ fuel (copyout_body root) (dst, src) e k = Ok r e k' /\
    copyout_post k root t fl us dst src r k'.
Proof.
  induction fuel as [|fuel IH]; intros k dst src Hs Hd Hl; [lia|]. cbn [loop_].
  unfold copyout_body at 1. destruct (decide (length src = 0%nat)) as [E|E].
  { exists 0, k. split; [done|]. split; [done|]. split; [apply only_mem_refl|]. split; [done|]. exists 0%nat.
    split; [|auto]. intros va. by rewrite decide_False by lia. }
  rewrite bind_assoc. pose proof (uv_inv _ _ _ _ _ (us_uvm _ _ _ _ _ Hs)) as Hv.
  destruct (walkaddr_page e k root t fl dst Hv Hd) as (pa & Hw & Hc).
  rewrite (bind_Ok _ _ _ _ _ _ _ Hw). destruct Hc as [[-> Hn]|(Hnz & Hlt & Hpa)].
  { exists (-1), k. split; [done|]. split; [done|]. split; [apply only_mem_refl|]. split; [done|]. exists 0%nat.
    split; [intros va; by rewrite decide_False by lia|]. right. rewrite Z.add_0_r. split_and!; (done || lia). }
  rewrite (decide_False (P := pa = 0)) by done.
  destruct (chunk_spec dst (Z.of_nat (length src))) as (H1 & H2 & H3); [lia|lia|]. cbn zeta in H1, H2, H3.
  remember (Z.to_nat (chunk dst (PGROUNDDOWN dst) (Z.of_nat (length src)))) as n eqn:En.
  rewrite <- (Z2Nat.id (chunk dst _ _)), <- En in H1, H2, H3 by lia.
  destruct (user_write k root t fl us dst pa (take n src)) as (Hs1 & Hf1 & V1); [done|lia|done|done|..].
  { rewrite length_take. lia. }
  rewrite length_take, Nat.min_l in V1 by lia.
  remember (upd_mem (fun m => write_bytes m (pa + (dst - PGROUNDDOWN dst)) (take n src)) k) as k1 eqn:Ek1.
  destruct (page_split dst) as (_ & [Hlo _] & _ & Hu64); [lia|].
  destruct (IH k1 (PGROUNDDOWN dst + PGSIZE) (drop n src)) as (r & k2 & Hloop & Hs2 & Ho2 & Hf2 & j & V2 & Hr).
  { done. }
  { change MAXVA with (2 ^ 38) in *. unfold PGSIZE. lia. }
  { rewrite length_drop. lia. }
  exists r, k2. cbn [modify bind ret]. rewrite <- Ek1, Hu64, Hloop. split; [done|]. split; [done|].
  split; [eapply only_mem_trans; [|done]; rewrite Ek1; apply only_mem_set|].
  split; [eapply (same_except_mono (us ++ us)); [intros q; rewrite elem_of_app; tauto|by eapply same_except_trans]|].
  rewrite length_drop in Hr. destruct (decide (Z.of_nat n < Z.of_nat (length src))) as [Hn|Hn].
  - rewrite <- H3 in V2, Hr by done. exists (n + j)%nat. split; [eapply copied_out_trans; [lia|done|done]|].
    destruct Hr as [[-> ->]|(-> & Hj & Hnone)]; [left; lia|right].
    split; [done|]. split; [lia|]. rewrite V1, decide_False in Hnone by lia. rewrite <- Hnone. f_equal. lia.
  - assert (n = length src) as En' by lia. destruct Hr as [[-> ->]|(_ & Hj & _)]; [|lia].
    exists n. split; [|left; done]. rewrite firstn_all2 in V1 by lia.
    intros va. rewrite V2, (decide_False (P := _ <= va < _)) by lia. apply V1.
Qed.
End Copy.
