(* ===== verification/VmFork.v ===== *)
(** * Copying an address space: uvmcopy()

    Two page tables draw on one pool: the parent's, which is only read, and the
    child's, which grows.  As long as their pages are apart, a change of the
    child's side keeps the parent's address space and its contents.  uvmcopy()
    gives the child, for every page of the parent, a page of its own with the
    same contents and the same permissions, or undoes everything. *)

From S2P Require Import Prelude Machine Kstring Kernel Spinlock Kalloc Vm VmSpec VmMap VmUser VmCopy.

Section Fork.
Context `{Y : Symbols} `{OK : !SymbolsOK Y}.
Context `{PA : !PageAllocator kalloc kfree}.

(** The pages of one address space are not among those of the other or free. *)
Definition spaces_apart (us0 : list Z) (t0 : ptable) (us : list Z) (t : ptable) (fl : list Z) : Prop :=
  forall p, p ∈ us0 \/ p ∈ tpages t0 -> p ∉ upages us t fl.

Lemma upages_ok k root t fl us p : uvm k root t fl us -> p ∈ upages us t fl -> page_ok p.
Proof.
  intros Hu. unfold upages, vm_pages. rewrite !elem_of_union, !elem_of_list_to_set, elem_of_tpages. intros [Hp|[Hp|[q Hp]]].
  - destruct (uv_own _ _ _ _ _ Hu) as (_ & Hok & _). rewrite Forall_forall in Hok. by apply Hok.
  - destruct (pool_pages _ _ (vm_pool _ _ _ _ (uv_inv _ _ _ _ _ Hu))) as [_ Hok]. rewrite Forall_forall in Hok. by apply Hok.
  - eapply pt_ok; [eapply vm_rep, uv_inv; exact Hu|exact Hp].
Qed.

Lemma uvm_upd_except k root t fl us k' t' fl' us' :
  uvm_upd k root t fl us k' t' fl' us' -> same_except (elements (upages us t fl)) (k_mem k) (k_mem k').
Proof. intros U a Ha. apply (uu_frame _ _ _ _ _ _ _ _ _ U). intros p Hp. apply Ha. by apply elem_of_elements. Qed.

(** The parent, while the child's side changes. *)
Lemma other_space_kept k old t0 us0 new t fl us k' t' fl' us' :
  uvm k old t0 fl us0 -> uvm k new t fl us -> spaces_apart us0 t0 us t fl -> uvm_upd k new t fl us k' t' fl' us' ->
  uvm k' old t0 fl' us0 /\ spaces_apart us0 t0 us' t' fl' /\
  (forall pg a, pg ∈ us0 -> in_page pg a -> read8 (k_mem k') a = read8 (k_mem k) a) /\
  (forall va, pte_of (k_mem k') t0 va = pte_of (k_mem k) t0 va).
Proof.
  intros H0 Hu Hap U. pose proof H0 as [Hv0 (Hnd & Hok0 & Hfl0 & Ht0) Hsz0 Hmap0 Hun0].
  pose proof (uvm_upd_except _ _ _ _ _ _ _ _ _ U) as Hs.
  assert (Forall page_ok (elements (upages us t fl))) as Hps.
  { apply Forall_forall. intros p Hp%elem_of_elements. by eapply upages_ok. }
  assert (forall p pg, t0 !! p = Some pg -> pg ∉ elements (upages us t fl)) as Hnt.
  { intros p pg Hp Hin%elem_of_elements. eapply Hap; [|exact Hin]. right. apply elem_of_tpages. by exists p. }
  assert (spaces_apart us0 t0 us' t' fl') as Hap' by (intros p Hp; rewrite (uu_pages _ _ _ _ _ _ _ _ _ U); by apply Hap).
  assert (forall va, pte_of (k_mem k') t0 va = pte_of (k_mem k) t0 va) as Hpte.
  { intros va. eapply pte_of_frame; [eapply vm_rep; exact Hv0|exact Hs|exact Hps|exact Hnt]. }
  assert (forall p, p ∈ us0 \/ p ∈ tpages t0 -> p ∉ fl') as Hnfl.
  { intros p Hp Hin. apply (Hap' p Hp). unfold upages. by apply elem_of_union_r, free_in_vm_pages. }
  split_and!; [|done| |done].
  - pose proof (uu_uvm _ _ _ _ _ _ _ _ _ U) as Hu'. constructor.
    + constructor; [apply Hu'|apply Hu'|apply Hu'| |].
      * eapply pt_rep_frame; [eapply vm_rep; exact Hv0|exact Hs|exact Hps|exact Hnt].
      * intros p pg Hp. apply Hnfl. right. apply elem_of_tpages. by exists p.
    + split_and!; try done. intros pg Hpg. apply Hnfl. by left.
    + done.
    + intros i pg Hi. rewrite Hpte. by apply Hmap0.
    + intros va Hva Hr. rewrite Hpte. by apply Hun0.
  - intros pg a Hpg Ha. eapply same_except_read8; [exact Hs| | |..|exact Ha].
    + eapply Forall_impl; [exact Hps|]. by intros q [? _].
    + rewrite Forall_forall in Hok0. by apply Hok0.
    + intros Hin%elem_of_elements. eapply Hap; [|exact Hin]. by left.
Qed.

(** ** One page *)
Definition same_page (m : mem) (pg : Z) (m' : mem) (pg' : Z) : Prop := forall o, 0 <= o < PGSIZE -> read8 m' (pg' + o) = read8 m (pg + o).

Lemma flags_leaf pte pa :
  maps_to pte pa -> 0 <= PTE_FLAGS pte < 1024 /\ Z.lor (PTE_FLAGS pte) PTE_V = PTE_FLAGS pte.
Proof.
  intros (_ & Hv & _). unfold PTE_FLAGS. split.
  - change 0x3FF with (Z.ones 10). rewrite Z.land_ones by lia. apply Z.mod_pos_bound. lia.
  - assert (Z.testbit pte 0 = true) as Hb.
    { destruct (Z.testbit pte 0) eqn:E; [done|]. destruct Hv. unfold PTE_V. change (Z.shiftl 1 0) with (Z.ones 1). rewrite Z.land_ones by lia.
      change (2 ^ 1) with 2. rewrite Zmod_odd, <- Z.bit0_odd, E. done. }
    apply Z.bits_inj'. intros i Hi. rewrite Z.lor_spec, Z.land_spec. unfold PTE_V. rewrite Z.shiftl_1_l, Z.pow2_bits_eqb by lia.
    destruct (decide (i = 0)) as [->|Hne]; [by rewrite Hb|]. replace (0 =? i) with false by lia. by rewrite orb_false_r.
Qed.

Lemma copy_step e k old t0 us0 new t fl us sz pa :
  uvm k old t0 fl us0 -> uvm k new t fl us -> spaces_apart us0 t0 us t fl ->
  vnth 0 (length us) < sz -> us0 !! length us = Some pa ->
  let flags := PTE_FLAGS (pte_of (k_mem k) t0 (vnth 0 (length us))) in
  (exists k' t' fl' pg,
     uvmcopy_body old new sz (vnth 0 (length us)) e k = Ok (inr (vnth 0 (S (length us)))) e k' /\
     uvm_upd k new t fl us k' t' fl' (us ++ [pg]) /\ same_page (k_mem k) pa (k_mem k') pg /\ (length fl <= length fl' + 3)%nat /\
     (forall va, vpage va -> pte_of (k_mem k') t' va = if decide (va = vnth 0 (length us)) then leaf_pte pg flags else pte_of (k_mem k) t va)) \/
  (exists k' t' fl',
     uvmcopy_body old new sz (vnth 0 (length us)) e k = uvmcopy_err new (vnth 0 (length us)) e k' /\ uvm_upd k new t fl us k' t' fl' us /\ (length fl < 3)%nat).
Proof.
  intros H0 Hu Hap Hsz Hpa flags. pose proof Hu as [Hv Hown Hmax Hmap Hun].
  assert (TRAPFRAME = 67108862 * 4096) as HT by done.
  pose proof (lookup_lt_Some _ _ _ Hpa) as Hlt. pose proof (uv_size _ _ _ _ _ H0) as Hmax0.
  assert (vnth 0 (S (length us)) <= TRAPFRAME) as Hroom by (unfold vnth, PGSIZE in *; lia).
  assert (vpage (vnth 0 (length us))) as Hpage by (apply (vpage_vnth _ (S (length us))); [lia|done]).
  pose proof (uv_map _ _ _ _ _ H0 _ _ Hpa) as Hm0. destruct (flags_leaf _ _ Hm0) as [Hfr Hfl]. fold flags in Hfr, Hfl.
  assert (Z.lor flags PTE_V <> PTE_V) as Hleaf by (rewrite Hfl; apply Hm0).
  unfold uvmcopy_body. rewrite bool_decide_eq_true_2 by lia. cbn [negb].
  rewrite (bind_Ok _ _ _ _ _ _ _ (walk_noalloc e k old t0 fl _ (uv_inv _ _ _ _ _ H0) (proj1 Hpage))).
  assert (exists q, t0 !! low_path (vnth 0 (length us)) = Some q) as [q Hq].
  { destruct (t0 !! low_path (vnth 0 (length us))) as [q|] eqn:Eq; [by exists q|]. destruct Hm0 as (_ & Hb & _). unfold pte_of in Hb. by rewrite Eq in Hb. }
  assert (pte_addr t0 (vnth 0 (length us)) <> 0 /\ read64 (k_mem k) (pte_addr t0 (vnth 0 (length us))) = pte_of (k_mem k) t0 (vnth 0 (length us))) as [Hne Hrd].
  { unfold pte_addr, pte_of. rewrite Hq. split; [|done]. pose proof (pt_ok _ _ _ (vm_rep _ _ _ _ (uv_inv _ _ _ _ _ H0)) _ _ Hq) as Hpo.
    pose proof (page_ok_pos _ Hpo). pose proof (PX_range 0 (vnth 0 (length us))). lia. }
  rewrite decide_False by done. rewrite (bind_Ok _ _ (pte_of (k_mem k) t0 (vnth 0 (length us))) e k e k) by (unfold gets; by rewrite Hrd).
  rewrite decide_False by apply Hm0. cbv zeta. fold flags. destruct Hm0 as (Epa & Hm0). rewrite Epa.
  destruct fl as [|f fl].
  { right. exists k, t, []. split; [|split; [by apply uvm_upd_refl|cbn; lia]]. rewrite (bind_Ok _ _ 0 e k e k); [by rewrite decide_True|]. apply alloc_empty; apply Hv. }
  destruct (pool_head_fresh _ _ _ _ _ Hv) as (Hf & Hni & Hnt & Htf). pose proof (page_ok_pos f Hf) as [Hfpos _].
  assert (forall m, same_except [f] m (memmove m f pa PGSIZE)) as Hmv.
  { intros m a Ha. rewrite read8_memmove by done. rewrite decide_False; [done|]. apply (Ha f). by left. }
  destruct (vm_inv_fresh e k new t f fl (fun m => memmove m f pa PGSIZE) Hv Hmv) as (k1 & Hk1 & Ho2 & Hs2 & Hv2 & P2).
  destruct (vm_inv_alloc e k new t f fl Hv) as (k1' & Hk1' & _ & Hs1 & _). rewrite Hk1 in Hk1'. injection Hk1' as <-.
  rewrite (bind_Ok _ _ _ _ _ _ _ Hk1). rewrite decide_False by lia. remember (upd_mem _ k1) as k2 eqn:Ek2.
  rewrite (bind_Ok _ _ tt e k1 e k2) by (by rewrite Ek2).
  destruct (mappages_one e k2 new t fl (vnth 0 (length us)) f flags) as (r & k3 & t3 & fl3 & Hm & X3 & Hc); [exact Hv2|exact Hpage| |exact Hf|exact Hfr|].
  { rewrite P2. apply Hun; [exact Hpage|]. unfold vnth, PGSIZE in *. lia. }
  rewrite (bind_Ok _ _ _ _ _ _ _ Hm). destruct Hc as [(-> & Hco & P3)|(-> & -> & Hco & P3)].
  - left. exists k3, t3, fl3, f. split_and!.
    + rewrite decide_False by lia. cbn. rewrite u64_small by (unfold vnth, PGSIZE in *; lia).
      unfold vnth. by replace (0 + Z.of_nat (length us) * PGSIZE + PGSIZE) with (0 + Z.of_nat (S (length us)) * PGSIZE) by lia.
    + by apply (append_mapped k k2 k3 new t t3 f fl fl3 us flags Hu Hroom Ho2 Hs2 Hv2 P2 X3 Hfr Hleaf).
    + intros o Hoo. assert (in_page f (f + o)) as Hin by (unfold in_page; lia).
      rewrite (append_page k k2 k3 new t t3 f fl fl3 us Hu Hv2 X3 _ Hin), Ek2. cbn. rewrite read8_memmove by done.
      rewrite decide_True by (unfold in_page in Hin; lia). replace (pa + (f + o - f)) with (pa + o) by lia.
      apply Hs1. intros p ->%list_elem_of_singleton. destruct (uv_own _ _ _ _ _ H0) as (_ & Hok0 & Hfl0 & _).
      eapply (pages_apart us0); [exact Hok0|exact Hf| |by eapply list_elem_of_lookup_2|unfold in_page; lia].
      intros Hin0. apply (Hfl0 f Hin0). by left.
    + cbn. lia.
    + intros va Hva. rewrite P3 by done. case_decide; [done|apply P2].
  - right. destruct (append_failed k k2 k3 new t t3 f fl [] us flags Hu Hroom Ho2 Hs2 Hv2 P2 X3 Hfr Hleaf e P3 eq_refl) as (k4 & Hk4 & U).
    exists k4, t3, [f]. split; [|split; [done|cbn; lia]]. rewrite decide_True by lia. by rewrite (bind_Ok _ _ _ _ _ _ _ Hk4).
Qed.

(** ** The whole loop *)
Definition copied_pages (m0 : mem) (t0 : ptable) (us0 : list Z) (m : mem) (t : ptable) (us : list Z) : Prop :=
  forall i f, us !! i = Some f -> exists pa, us0 !! i = Some pa /\ same_page m0 pa m f /\
    PTE_FLAGS (pte_of m t (vnth 0 i)) = PTE_FLAGS (pte_of m0 t0 (vnth 0 i)).

(** The state after some pages: the child has [us], the parent is as it was. *)
Record copying (old : Z) (t0 : ptable) (us0 : list Z) (new : Z) (k0 : kernel) (tn : ptable) (fl0 : list Z)
               (k : kernel) (t : ptable) (fl us : list Z) : Prop := {
  cp_child : uvm_upd k0 new tn fl0 [] k t fl us;
  cp_parent : uvm k old t0 fl us0;
  cp_apart : spaces_apart us0 t0 us t fl;
  cp_bytes pg a : pg ∈ us0 -> in_page pg a -> read8 (k_mem k) a = read8 (k_mem k0) a;
  cp_ptes va : pte_of (k_mem k) t0 va = pte_of (k_mem k0) t0 va;
  cp_copied : copied_pages (k_mem k0) t0 us0 (k_mem k) t us
}.

Lemma copying_upd old t0 us0 new k0 tn fl0 k t fl us k' t' fl' us' :
  copying old t0 us0 new k0 tn fl0 k t fl us -> uvm_upd k new t fl us k' t' fl' us' ->
  copied_pages (k_mem k0) t0 us0 (k_mem k') t' us' -> copying old t0 us0 new k0 tn fl0 k' t' fl' us'.
Proof.
  intros [C1 C2 C3 C4 C5 C6] U Hc.
  destruct (other_space_kept k old t0 us0 new t fl us k' t' fl' us' C2 (uu_uvm _ _ _ _ _ _ _ _ _ C1) C3 U) as (P1 & P2 & P3 & P4).
  constructor; [|done|done| | |done].
  - eapply uvm_upd_trans; [|done|done]. by intros pg ?%elem_of_nil.
  - intros pg a Hpg Ha. rewrite (P3 pg a) by done. by apply (C4 pg).
  - intros va. by rewrite P4.
Qed.

Lemma copied_more m0 t0 us0 k root t fl us k' t' fl' pg pa flags :
  copied_pages m0 t0 us0 (k_mem k) t us -> uvm_upd k root t fl us k' t' fl' (us ++ [pg]) ->
  us0 !! length us = Some pa -> same_page m0 pa (k_mem k') pg ->
  flags = PTE_FLAGS (pte_of m0 t0 (vnth 0 (length us))) -> 0 <= flags < 1024 -> Z.lor flags PTE_V = flags ->
  (forall va, vpage va -> pte_of (k_mem k') t' va = if decide (va = vnth 0 (length us)) then leaf_pte pg flags else pte_of (k_mem k) t va) ->
  copied_pages m0 t0 us0 (k_mem k') t' (us ++ [pg]).
Proof.
  intros Hc U Hpa Hsp Ef Hfr Hfl P. pose proof (uu_uvm _ _ _ _ _ _ _ _ _ U) as Hu'. pose proof (uv_size _ _ _ _ _ Hu') as Hsz. destruct (uv_own _ _ _ _ _ Hu') as (_ & Hok & _).
  intros i f Hi. pose proof (lookup_lt_Some _ _ _ Hi) as Hlt. rewrite P by (eapply vpage_vnth; [exact Hlt|exact Hsz]).
  rewrite length_app in Hlt. cbn in Hlt. apply lookup_app_Some in Hi as [Hi|[Hge Hi]].
  - pose proof (lookup_lt_Some _ _ _ Hi). rewrite decide_False by (unfold vnth, PGSIZE; lia). destruct (Hc i f Hi) as (q & E1 & E2 & E3).
    exists q. split_and!; [done| |done]. intros o Ho. rewrite <- E2 by done.
    apply (uu_keep _ _ _ _ _ _ _ _ _ U f); [by eapply list_elem_of_lookup_2|apply elem_of_app; left; by eapply list_elem_of_lookup_2|unfold in_page; lia].
  - assert (i = length us) as -> by lia. rewrite Nat.sub_diag in Hi. injection Hi as <-. rewrite decide_True by done. exists pa. split_and!; [done|done|].
    apply Forall_app in Hok as [_ Hok]. apply Forall_cons_1 in Hok as [Hok _]. pose proof (page_ok_pos pg Hok) as [? _].
    destruct (leaf_pte_facts pg flags) as (_ & -> & _); [lia|apply Hok|done|]. by rewrite Hfl.
Qed.

Lemma copy_undo e k new t fl us :
  uvm k new t fl us ->
  exists k' fl', uvmcopy_err new (vnth 0 (length us)) e k = Ok (inl (-1)) e k' /\ uvm_upd k new t fl us k' t fl' [].
Proof.
  intros Hu. destruct (unmap_suffix e k new t fl [] us Hu) as (k' & Hk & U). exists k', (reverse us ++ fl). split; [|exact U].
  unfold uvmcopy_err. replace (vnth 0 (length us) / PGSIZE) with (Z.of_nat (length us)) by (unfold vnth; rewrite Z.add_0_l, Z.div_mul; done).
  by rewrite (bind_Ok _ _ _ _ _ _ _ Hk).
Qed.

(** The copy succeeds, or there were fewer than three pages for each page of the
    parent. *)
Definition forked (old : Z) (t0 : ptable) (us0 : list Z) (new : Z) (k0 : kernel) (tn : ptable) (fl0 : list Z) (r : Z) (k' : kernel) : Prop :=
  exists t' fl' us', copying old t0 us0 new k0 tn fl0 k' t' fl' us' /\
    (r = 0 /\ length us' = length us0 /\ (length fl0 <= length fl' + 3 * length us0)%nat \/
     r = -1 /\ us' = [] /\ (length fl0 < 3 * length us0)%nat).

Lemma copied_none m0 t0 us0 m t : copied_pages m0 t0 us0 m t [].
Proof. intros i f Hi. by rewrite lookup_nil in Hi. Qed.

Lemma copy_loop e old t0 us0 new k0 tn fl0 sz : PGROUNDUP sz = vnth 0 (length us0) -> 0 <= sz <= TRAPFRAME -> forall n fuel k t fl us,
  copying old t0 us0 new k0 tn fl0 k t fl us -> length us0 = (length us + n)%nat -> (n < fuel)%nat -> (length fl0 <= length fl + 3 * length us)%nat ->
  exists r k', loop_ fuel (uvmcopy_body old new sz) (vnth 0 (length us)) e k = Ok r e k' /\ forked old t0 us0 new k0 tn fl0 r k'.
Proof.
  intros Esz Hsz. assert (TRAPFRAME = 67108862 * 4096) as HT by done. destruct (PGROUNDUP_spec sz) as [Hr _]; [unfold PGSIZE in *; lia|]. rewrite Esz in Hr.
  induction n as [|n IH]; intros fuel k t fl us C Hn Hf Hco; (destruct fuel as [|fuel]; [lia|]); cbn [loop_].
  - exists 0, k. split; [|exists t, fl, us; split; [done|left; split_and!; [done|lia|lia]]].
    rewrite (bind_Ok _ _ (inl 0) e k e k); [done|]. unfold uvmcopy_body. rewrite bool_decide_eq_false_2; [done|].
    rewrite Hn, Nat.add_0_r in Hr. lia.
  - destruct (lookup_lt_is_Some_2 us0 (length us)) as [pa Hpa]; [lia|]. pose proof C as [C1 C2 C3 C4 C5 C6].
    destruct (copy_step e k old t0 us0 new t fl us sz pa C2 (uu_uvm _ _ _ _ _ _ _ _ _ C1) C3) as [(k' & t' & fl' & pg & Hb & U & Hsp & Hco1 & P)|(k' & t' & fl' & Hb & U & Hco1)];
      [rewrite Hn in Hr; unfold vnth, PGSIZE in *; lia|done| |].
    + rewrite (bind_Ok _ _ _ _ _ _ _ Hb). assert (S (length us) = length (us ++ [pg])) as El by (rewrite length_app; cbn; lia). rewrite El.
      apply (IH fuel k' t' fl' (us ++ [pg])); [|lia|lia|lia]. apply (copying_upd _ _ _ _ _ _ _ k t fl us); [done|done|].
      destruct (flags_leaf _ _ (uv_map _ _ _ _ _ C2 _ _ Hpa)) as [Hfr Hfl].
      eapply copied_more; [exact C6|exact U|exact Hpa| | |exact Hfr|exact Hfl|exact P]; [|by rewrite C5].
      intros o Ho. rewrite Hsp by done. apply (C4 pa); [by eapply list_elem_of_lookup_2|unfold in_page; lia].
    + destruct (copy_undo e k' new t' fl' us (uu_uvm _ _ _ _ _ _ _ _ _ U)) as (k2 & fl2 & Hd & U2).
      exists (-1), k2. rewrite (bind_Ok _ _ (inl (-1)) e k e k2) by (by rewrite Hb). split; [done|].
      exists t', fl2, []. split; [|right; split_and!; [done|done|lia]]. apply (copying_upd _ _ _ _ _ _ _ k t fl us); [done| |apply copied_none].
      eapply uvm_upd_trans; [|done|done]. by intros pg _ ?%elem_of_nil.
Qed.

Lemma uvmcopy_forks e k old t0 us0 new t fl sz :
  uvm k old t0 fl us0 -> uvm k new t fl [] -> spaces_apart us0 t0 [] t fl -> PGROUNDUP sz = vnth 0 (length us0) -> 0 <= sz <= TRAPFRAME ->
  exists r k', uvmcopy old new sz e k = Ok r e k' /\ forked old t0 us0 new k t fl r k'.
Proof.
  intros H0 Hu Hap Esz Hsz. unfold uvmcopy. change 0 with (vnth 0 (length (@nil Z))). apply (copy_loop e old t0 us0 new k t fl sz Esz Hsz (length us0) _ k t fl []).
  - constructor; try done. by apply uvm_upd_refl.
  - done.
  - assert (TRAPFRAME = 67108862 * 4096) as HT by done. destruct (PGROUNDUP_spec sz) as [Hr _]; [unfold PGSIZE in *; lia|]. rewrite Esz in Hr.
    unfold vnth, PGSIZE in *. Z.div_mod_to_equations. lia.
  - cbn. lia.
Qed.

(** ** What the two processes read *)
Lemma user_bit pte : Z.land (PTE_FLAGS pte) PTE_U = Z.land pte PTE_U.
Proof. unfold PTE_FLAGS. by rewrite <- Z.land_assoc. Qed.

Lemma uread_nth m t (us : list Z) i pg o :
  us !! i = Some pg -> maps_to (pte_of m t (vnth 0 i)) pg -> pg <> 0 -> vpage (vnth 0 i) -> 0 <= o < PGSIZE ->
  uread m t (vnth 0 i + o) = if decide (Z.land (PTE_FLAGS (pte_of m t (vnth 0 i))) PTE_U = 0) then None else Some (read8 m (pg + o)).
Proof.
  intros Hi (Epa & Hv & _) Hne [Hr Hal] Ho. assert (MAXVA = 67108864 * 4096) as HM by done.
  assert ((vnth 0 i + o) mod PGSIZE = o) as Em by (rewrite <- Zplus_mod_idemp_l, Hal, Z.add_0_l; by apply Z.mod_small).
  unfold uread. rewrite decide_True; [|rewrite HM in *; apply Z.mod_divide in Hal as [x Hx]; [|done]; unfold PGSIZE in *; lia].
  rewrite Em. replace (vnth 0 i + o - o) with (vnth 0 i) by lia. cbv zeta. unfold user_pa. rewrite user_bit, Epa.
  destruct (decide (Z.land (pte_of m t (vnth 0 i)) PTE_U = 0)) as [Hu|Hu].
  - rewrite (decide_True (P := _ \/ _)) by (by right). by rewrite decide_True.
  - rewrite !(decide_False (P := _ \/ _)) by tauto. by rewrite decide_False.
Qed.

(** The child reads what the parent read. *)
Lemma forked_reads old t0 us0 new k0 tn fl0 k t fl us va :
  uvm k0 old t0 fl0 us0 -> copying old t0 us0 new k0 tn fl0 k t fl us -> 0 <= va < vnth 0 (length us) ->
  uread (k_mem k) t va = uread (k_mem k0) t0 va.
Proof.
  intros H0 [C1 C2 C3 C4 C5 C6] Hva. pose proof (uu_uvm _ _ _ _ _ _ _ _ _ C1) as Hu. pose proof (uv_size _ _ _ _ _ Hu) as Hsz.
  assert (va = vnth 0 (Z.to_nat (va / PGSIZE)) + va mod PGSIZE /\ (Z.to_nat (va / PGSIZE) < length us)%nat /\ 0 <= va mod PGSIZE < PGSIZE) as (Eva & Hlt & Ho).
  { unfold vnth, PGSIZE in *. split_and!; Z.div_mod_to_equations; lia. }
  rewrite Eva. destruct (lookup_lt_is_Some_2 _ _ Hlt) as [f Hf]. destruct (C6 _ _ Hf) as (pa & Hpa & Hsp & Hfl).
  destruct (uv_own _ _ _ _ _ Hu) as (_ & Hok & _). destruct (uv_own _ _ _ _ _ H0) as (_ & Hok0 & _). rewrite Forall_forall in Hok, Hok0.
  pose proof (page_ok_pos _ (Hok f ltac:(by eapply list_elem_of_lookup_2))) as [? _]. pose proof (page_ok_pos _ (Hok0 pa ltac:(by eapply list_elem_of_lookup_2))) as [? _].
  assert (vpage (vnth 0 (Z.to_nat (va / PGSIZE)))) as Hp by (eapply vpage_vnth; [exact Hlt|exact Hsz]).
  rewrite (uread_nth _ t us _ f), (uread_nth _ t0 us0 _ pa); [|done|by eapply uv_map|lia|done|done|done|by eapply uv_map|lia|done|done].
  rewrite Hfl. case_decide; [done|]. f_equal. by apply Hsp.
Qed.
(** The parent reads what it read. *)
Lemma forked_parent old t0 us0 new k0 tn fl0 k t fl us va :
  uvm k0 old t0 fl0 us0 -> copying old t0 us0 new k0 tn fl0 k t fl us -> 0 <= va < vnth 0 (length us0) ->
  uread (k_mem k) t0 va = uread (k_mem k0) t0 va.
Proof.
  intros H0 [C1 C2 C3 C4 C5 C6] Hva. pose proof (uv_size _ _ _ _ _ H0) as Hsz.
  assert (va = vnth 0 (Z.to_nat (va / PGSIZE)) + va mod PGSIZE /\ (Z.to_nat (va / PGSIZE) < length us0)%nat /\ 0 <= va mod PGSIZE < PGSIZE) as (Eva & Hlt & Ho).
  { unfold vnth, PGSIZE in *. split_and!; Z.div_mod_to_equations; lia. }
  rewrite Eva. destruct (lookup_lt_is_Some_2 _ _ Hlt) as [pa Hpa]. assert (pa ∈ us0) as Hin by by eapply list_elem_of_lookup_2.
  destruct (uv_own _ _ _ _ _ H0) as (_ & Hok0 & _). rewrite Forall_forall in Hok0. pose proof (page_ok_pos _ (Hok0 pa Hin)) as [? _].
  assert (vpage (vnth 0 (Z.to_nat (va / PGSIZE)))) as Hp by (eapply vpage_vnth; [exact Hlt|exact Hsz]).
  rewrite (uread_nth _ t0 us0 _ pa), (uread_nth _ t0 us0 _ pa); [|done|by eapply uv_map|lia|done|done|done|by eapply uv_map|lia|done|done].
  rewrite C5. case_decide; [done|]. f_equal. apply (C4 pa); [done|unfold in_page; lia].
Qed.

(** ** A fresh address space *)
Definition root_only (f : Z) : ptable := {[ [] := f ]}.
Lemma root_only_lookup f p q : root_only f !! p = Some q -> p = [] /\ q = f.
Proof. unfold root_only. intros E. apply lookup_singleton_Some in E as [E1 E2]. split; congruence. Qed.
Lemma root_only_low f m va : pte_of m (root_only f) va = 0.
Proof. unfold pte_of, root_only, low_path. by rewrite lookup_singleton_ne. Qed.
Lemma fresh_apart us t f fl :
  owned us t fl -> f ∉ us -> (forall p q, t !! p = Some q -> q <> f) -> (forall p q, t !! p = Some q -> q ∉ fl) ->
  spaces_apart us t [] (root_only f) fl.
Proof.
  intros Hown Hfu Hnt Hd p Hp. unfold upages, vm_pages. rewrite !elem_of_union, !elem_of_list_to_set, elem_of_tpages.
  intros [Hin|[Hin|[q Hq]]]; [by apply elem_of_nil in Hin| |].
  - destruct Hp as [Hp|[q Hq]%elem_of_tpages]; [destruct Hown as (_ & _ & Hfl & _); exact (Hfl p Hp Hin)|exact (Hd _ _ Hq Hin)].
  - apply root_only_lookup in Hq as [_ ->]. destruct Hp as [Hp|[q' Hq]%elem_of_tpages]; [done|by eapply Hnt].
Qed.
Lemma uvmcreate_space e k root t f fl us :
  uvm k root t (f :: fl) us ->
  exists k', uvmcreate e k = Ok f e k' /\ only_mem k k' /\ uvm k' root t fl us /\ uvm k' f (root_only f) fl [] /\
    spaces_apart us t [] (root_only f) fl.
Proof.
  intros Hu. pose proof Hu as [Hv Hown Hsz Hmap Hun]. destruct (pool_head_fresh _ _ _ _ _ Hv) as (Hf & Hni & Hnt & _).
  pose proof (page_ok_pos f Hf) as [Hpos _]. destruct (owned_pool_split _ _ _ _ Hown) as [Hfu Hown'].
  destruct (vm_inv_fresh e k root t f fl (fun m => memset m f 0 PGSIZE) Hv (fun m => same_except_memset m f 0)) as (k1 & Hk1 & Ho & Hs & Hv2 & P2).
  exists (upd_mem (fun m => memset m f 0 PGSIZE) k1). cbv zeta in *.
  pose proof (root_only_lookup f) as Hroot.
  split_and!.
  - unfold uvmcreate. rewrite (bind_Ok _ _ _ _ _ _ _ Hk1). rewrite decide_False by lia. done.
  - done.
  - constructor; [done|done|done| |]; intros *; rewrite P2; [apply Hmap|apply Hun].
  - constructor.
    + constructor; [apply Hv2|apply Hv2|apply Hv2| |].
      * constructor.
        -- apply lookup_singleton_eq.
        -- intros p pg i Hp _ Hi. apply Hroot in Hp as [-> ->]. unfold root_only. rewrite lookup_singleton_ne by done.
           cbn. rewrite read64_memset_zero by (unfold PGSIZE; lia). done.
        -- intros i p q Hp. by apply Hroot in Hp as [? _].
        -- intros p1 p2 q [-> _]%Hroot [-> _]%Hroot. done.
        -- intros p pg [_ ->]%Hroot. done.
        -- intros i q [? _]%Hroot. done.
      * intros p pg [_ ->]%Hroot. done.
    + apply owned_nil.
    + done.
    + intros i pg Hi. by rewrite lookup_nil in Hi.
    + intros va _ _. by rewrite root_only_low.
  - apply fresh_apart; [exact Hown'|exact Hfu|exact Hnt|exact (vm_disj _ _ _ _ Hv2)].
Qed.
End Fork.
