(* ===== verification/Printf.v ===== *)
(** * kernel/printf.c: formatted console output

    Characters leave through consputc() (console.c) and uartputc_sync() (uart.c):
    the transmitted bytes are appended to [k_uart].  The wait for the transmit
    register to become empty is the device's business and takes no step here.
    [pr.locking] is 1 from printfinit() on; only panic() clears it, and a panic
    ends the run.

    A variadic argument is tagged with the type it is passed at; fetching one at
    another type is undefined in C and stops the model.  [printint_value] shows
    that the digits printed denote the argument. *)

From S2P Require Import Prelude Machine Kernel Spinlock.
From Stdlib Require Import Ascii.

Definition uart_send (c : Z) (k : kernel) : kernel := set_k_uart (k_uart k ++ [u8 c]) k.

Definition uartputc_sync (c : Z) : K unit :=
  push_off;;;
  modify (uart_send c);;;
  pop_off.

Definition BACKSPACE : Z := 0x100.

Definition consputc (c : Z) : K unit :=
  if decide (c = BACKSPACE)
  then uartputc_sync 8;;; uartputc_sync 32;;; uartputc_sync 8
  else uartputc_sync c.

Definition code (c : ascii) : Z := Z.of_nat (nat_of_ascii c).
Fixpoint codes (s : string) : list Z :=
  match s with
  | EmptyString => []
  | String c s' => code c :: codes s'
  end.

(** digits[] *)
Definition digit (d : Z) : Z := nth (Z.to_nat d) (codes "0123456789abcdef") 0.

(** The do-while of printint(): the characters of buf[], least significant
    first; buf[] has room for 16. *)
Fixpoint printint_buf (room : nat) (x base : Z) : list Z :=
  match room with
  | O => []
  | S room' => digit (x mod base) ::
               (if decide (x / base <> 0) then printint_buf room' (x / base) base else [])
  end.

Definition printint (xx base sign : Z) : K unit :=
  let neg := bool_decide (sign <> 0 /\ xx < 0) in
  let x := if neg then u32 (- xx) else u32 xx in
  let buf := printint_buf 16 x base ++ (if neg then codes "-" else []) in
  for_ (reverse buf) consputc.

Definition printptr (x : Z) : K unit :=
  consputc (code "0");;;
  consputc (code "x");;;
  for_ (seqZ 0 16) (fun i => consputc (digit (Z.shiftr (u64 (Z.shiftl x (4 * i))) 60))).

Inductive varg := AInt (v : Z) | APtr (v : Z) | AStr (s : option (list Z)).

(** The loop over fmt with the argument pointer. *)
Fixpoint printf_loop (fmt : list Z) (ap : list varg) : K unit :=
  match fmt with
  | [] => skip
  | c :: fmt' =>
      if decide (c <> code "%") then consputc c;;; printf_loop fmt' ap
      else match fmt' with
           | [] => skip
           | c :: fmt'' =>
               if decide (c = code "d") then
                 match ap with
                 | AInt v :: ap' => printint (i32 v) 10 1;;; printf_loop fmt'' ap'
                 | _ => panic "va_arg"
                 end
               else if decide (c = code "x") then
                 match ap with
                 | AInt v :: ap' => printint (i32 v) 16 1;;; printf_loop fmt'' ap'
                 | _ => panic "va_arg"
                 end
               else if decide (c = code "p") then
                 match ap with
                 | APtr v :: ap' => printptr v;;; printf_loop fmt'' ap'
                 | _ => panic "va_arg"
                 end
               else if decide (c = code "s") then
                 match ap with
                 | AStr s :: ap' => for_ (default (codes "(null)") s) consputc;;; printf_loop fmt'' ap'
                 | _ => panic "va_arg"
                 end
               else if decide (c = code "%") then consputc (code "%");;; printf_loop fmt'' ap
               else consputc (code "%");;; consputc c;;; printf_loop fmt'' ap
           end
  end.

Definition printf (fmt : list Z) (ap : list varg) : K unit :=
  locking <- gets k_locking;;
  when (bool_decide (locking <> 0)) (acquire LkPr);;;
  printf_loop fmt ap;;;
  when (bool_decide (locking <> 0)) (release LkPr).

Definition printfinit : K unit := initlock LkPr "pr";;; modify (set_k_locking 1).

Global Arguments uartputc_sync : simpl never.
Global Arguments consputc : simpl never.
Global Arguments printint : simpl never.
Global Arguments printptr : simpl never.
Global Arguments printf : simpl never.

(** ** What is printed *)

Definition sent (l : list Z) (k : kernel) : kernel := set_k_uart (k_uart k ++ l) k.

Lemma uartputc_sync_ok c e k : cpu_ok k -> uartputc_sync c e k = Ok tt e (sent [u8 c] k).
Proof.
  intros Hc. unfold uartputc_sync. rewrite (bind_Ok _ _ _ _ _ _ _ (push_off_ok e k Hc)). cbn [bind modify].
  change (uart_send c (pushed k)) with (pushed (sent [u8 c] k)). by apply pop_off_pushed.
Qed.

Lemma sent_sent l1 l2 k : sent l2 (sent l1 k) = sent (l1 ++ l2) k.
Proof. unfold sent. cbn. by rewrite app_assoc. Qed.
Lemma sent_nil k : sent [] k = k.
Proof. unfold sent. rewrite app_nil_r. by destruct k. Qed.
Lemma sent_cpu_ok l k : cpu_ok k -> cpu_ok (sent l k).
Proof. done. Qed.

(** The bytes consputc() transmits for [c]. *)
Definition echo (c : Z) : list Z := if decide (c = BACKSPACE) then [8; 32; 8] else [u8 c].

Lemma consputc_ok c e k : cpu_ok k -> consputc c e k = Ok tt e (sent (echo c) k).
Proof.
  intros Hc. unfold consputc, echo. case_decide.
  - unfold bind. rewrite !uartputc_sync_ok by done. by rewrite !sent_sent.
  - by apply uartputc_sync_ok.
Qed.

Lemma puts_ok l e k : cpu_ok k -> for_ l consputc e k = Ok tt e (sent (l ≫= echo) k).
Proof.
  revert k. induction l as [|c l IH]; intros k Hc; cbn [for_ mbind list_bind].
  - by rewrite sent_nil.
  - rewrite (bind_Ok _ _ _ _ _ _ _ (consputc_ok c e k Hc)). rewrite IH by done. by rewrite sent_sent.
Qed.

(** ** The digits denote the number *)

(** The value of a digit character and of a digit string, most significant
    first. *)
Definition digit_val (c : Z) : Z := if decide (c < 58) then c - 48 else c - 87.
Definition value (base : Z) (l : list Z) : Z := foldl (fun v c => v * base + digit_val c) 0 l.

Lemma digit_val_digit d : 0 <= d < 16 -> digit_val (digit d) = d /\ echo (digit d) = [digit d].
Proof.
  intros Hd. assert (d ∈ seqZ 0 16) as Hin by (apply elem_of_seqZ; lia). revert Hin.
  cut (Forall (fun d => digit_val (digit d) = d /\ echo (digit d) = [digit d]) (seqZ 0 16)).
  { intros H ?. rewrite Forall_forall in H. by apply H. }
  repeat constructor.
Qed.

Lemma printint_buf_value room x base :
  2 <= base <= 16 -> 0 <= x < base ^ Z.of_nat room ->
  value base (reverse (printint_buf room x base)) = x.
Proof.
  intros Hb. revert x. induction room as [|room IH]; intros x Hx.
  - cbn. change (Z.of_nat 0) with 0 in Hx. rewrite Z.pow_0_r in Hx. lia.
  - cbn [printint_buf]. rewrite reverse_cons. unfold value. rewrite foldl_app. cbn [foldl].
    pose proof (Z.mod_pos_bound x base ltac:(lia)). pose proof (Z.div_mod x base ltac:(lia)) as Hdm.
    destruct (digit_val_digit (x mod base)) as [-> _]; [lia|].
    case_decide as Hz.
    + change (foldl _ 0 _) with (value base (reverse (printint_buf room (x / base) base))).
      rewrite IH; [lia|]. rewrite Nat2Z.inj_succ, Z.pow_succ_r in Hx by lia.
      split; [apply Z.div_pos; lia|]. apply Z.div_lt_upper_bound; lia.
    + cbn. lia.
Qed.

Lemma printint_buf_echo room x base :
  2 <= base <= 16 -> Forall (fun c => echo c = [c]) (printint_buf room x base).
Proof.
  intros Hb. revert x. induction room as [|room IH]; intros x; cbn; [constructor|].
  constructor.
  - apply digit_val_digit. pose proof (Z.mod_pos_bound x base). lia.
  - case_decide; [apply IH|constructor].
Qed.

Lemma echo_id l : Forall (fun c => echo c = [c]) l -> l ≫= echo = l.
Proof. induction 1 as [|c l Hc _ IH]; [done|]. cbn. by rewrite Hc, IH. Qed.

Lemma printint_ok xx base sign e k :
  cpu_ok k -> 2 <= base <= 16 ->
  let neg := bool_decide (sign <> 0 /\ xx < 0) in
  let x := if neg then u32 (- xx) else u32 xx in
  printint xx base sign e k =
  Ok tt e (sent ((if neg then [45] else []) ++ reverse (printint_buf 16 x base)) k).
Proof.
  intros Hc Hb neg x. unfold printint. fold neg x. rewrite puts_ok by done. do 2 f_equal.
  rewrite echo_id.
  - rewrite reverse_app. by destruct neg.
  - apply Forall_reverse, Forall_app. split; [by apply printint_buf_echo|]. destruct neg; repeat constructor.
Qed.

(** ** The text printf() produces *)

Definition int_text (v base : Z) : list Z :=
  (if decide (v < 0) then [45] else []) ++
  reverse (printint_buf 16 (if decide (v < 0) then u32 (- v) else u32 v) base).
Definition ptr_text (x : Z) : list Z :=
  codes "0x" ++ map (fun i => digit (Z.shiftr (u64 (Z.shiftl x (4 * i))) 60)) (seqZ 0 16).

(** The output for a format and its arguments; [None] when an argument is
    missing or of another type. *)
Fixpoint format (fmt : list Z) (ap : list varg) : option (list Z) :=
  match fmt with
  | [] => Some []
  | c :: fmt' =>
      if decide (c <> code "%") then app (echo c) <$> format fmt' ap
      else match fmt' with
           | [] => Some []
           | c :: fmt'' =>
               if decide (c = code "d") then
                 match ap with AInt v :: ap' => app (int_text (i32 v) 10) <$> format fmt'' ap' | _ => None end
               else if decide (c = code "x") then
                 match ap with AInt v :: ap' => app (int_text (i32 v) 16) <$> format fmt'' ap' | _ => None end
               else if decide (c = code "p") then
                 match ap with APtr v :: ap' => app (ptr_text v) <$> format fmt'' ap' | _ => None end
               else if decide (c = code "s") then
                 match ap with
                 | AStr s :: ap' => app (default (codes "(null)") s ≫= echo) <$> format fmt'' ap'
                 | _ => None
                 end
               else if decide (c = code "%") then app (codes "%") <$> format fmt'' ap
               else (fun r => codes "%" ++ echo c ++ r) <$> format fmt'' ap
           end
  end.

Lemma printint_text v base e k :
  cpu_ok k -> 2 <= base <= 16 -> printint v base 1 e k = Ok tt e (sent (int_text v base) k).
Proof.
  intros Hc Hb. rewrite printint_ok by done. cbn zeta. unfold int_text.
  destruct (decide (v < 0)); [rewrite bool_decide_eq_true_2 by lia|rewrite bool_decide_eq_false_2 by lia]; done.
Qed.

Lemma echo_digit x : 0 <= x < 2 ^ 64 -> echo (digit (Z.shiftr x 60)) = [digit (Z.shiftr x 60)].
Proof.
  intros Hx. apply digit_val_digit. rewrite Z.shiftr_div_pow2 by lia.
  split; [apply Z.div_pos; lia|]. apply Z.div_lt_upper_bound; lia.
Qed.

Lemma printptr_text x e k : cpu_ok k -> printptr x e k = Ok tt e (sent (ptr_text x) k).
Proof.
  intros Hc. unfold printptr. rewrite (bind_Ok _ _ _ _ _ _ _ (consputc_ok _ e k Hc)).
  rewrite (bind_Ok _ _ _ _ _ _ _ (consputc_ok _ e _ (sent_cpu_ok _ k Hc))). rewrite sent_sent.
  assert (forall (l : list Z) k, cpu_ok k ->
     for_ l (fun i => consputc (digit (Z.shiftr (u64 (Z.shiftl x (4 * i))) 60))) e k =
     Ok tt e (sent (map (fun i => digit (Z.shiftr (u64 (Z.shiftl x (4 * i))) 60)) l) k)) as Hl.
  { induction l as [|i l IH]; intros k0 Hc0; cbn [for_ map]; [by rewrite sent_nil|].
    rewrite (bind_Ok _ _ _ _ _ _ _ (consputc_ok _ e k0 Hc0)), IH by done.
    by rewrite sent_sent, echo_digit by apply u64_range. }
  rewrite Hl by done. by rewrite sent_sent.
Qed.

Lemma printf_loop_ok out : forall fmt ap e k, (length fmt <= out)%nat ->
  forall text, cpu_ok k -> format fmt ap = Some text -> printf_loop fmt ap e k = Ok tt e (sent text k).
Proof.
  (* Each conversion consumes one or two characters of the format. *)
  induction out as [|n IH]; intros fmt ap e k Hn text Hc Hf; destruct fmt as [|c fmt]; cbn [format] in Hf;
    try (injection Hf as <-; by rewrite sent_nil); [cbn in Hn; lia|].
  cbn [printf_loop]. cbn in Hn.
  assert (forall (m : K unit) text1 fmt2 ap2 text2, m e k = Ok tt e (sent text1 k) -> (length fmt2 <= n)%nat ->
            format fmt2 ap2 = Some text2 -> text = text1 ++ text2 ->
            (m;;; printf_loop fmt2 ap2) e k = Ok tt e (sent text k)) as step.
  { intros m t1 f2 a2 t2 Hm Hl2 Hf2 ->. rewrite (bind_Ok _ _ _ _ _ _ _ Hm).
    rewrite (IH f2 a2 e (sent t1 k) Hl2 t2) by done. by rewrite sent_sent. }
  destruct (decide (c <> code "%")).
  { destruct (format fmt ap) as [t2|] eqn:E; [|done]. injection Hf as <-.
    eapply step; [by apply consputc_ok|lia|done|done]. }
  destruct fmt as [|c2 fmt]; [injection Hf as <-; by rewrite sent_nil|]. cbn in Hn.
  destruct (decide (c2 = code "d")).
  { destruct ap as [|[v| |] ap]; try discriminate. destruct (format fmt ap) as [t2|] eqn:E; [|discriminate].
    injection Hf as <-. eapply step; [by apply printint_text|lia|exact E|reflexivity]. }
  destruct (decide (c2 = code "x")).
  { destruct ap as [|[v| |] ap]; try discriminate. destruct (format fmt ap) as [t2|] eqn:E; [|discriminate].
    injection Hf as <-. eapply step; [by apply printint_text|lia|exact E|reflexivity]. }
  destruct (decide (c2 = code "p")).
  { destruct ap as [|[ | |] ap]; try discriminate. destruct (format fmt ap) as [t2|] eqn:E; [|discriminate].
    injection Hf as <-. eapply step; [by apply printptr_text|lia|exact E|reflexivity]. }
  destruct (decide (c2 = code "s")).
  { destruct ap as [|[ | |] ap]; try discriminate. destruct (format fmt ap) as [t2|] eqn:E; [|discriminate].
    injection Hf as <-. eapply step; [by apply puts_ok|lia|exact E|reflexivity]. }
  destruct (format fmt ap) as [t2|] eqn:E; [|by destruct (decide (c2 = code "%"))].
  destruct (decide (c2 = code "%")); injection Hf as <-.
  { eapply step; [by apply consputc_ok|lia|exact E|reflexivity]. }
  rewrite (bind_Ok _ _ _ _ _ _ _ (consputc_ok _ e k Hc)).
  rewrite (bind_Ok _ _ _ _ _ _ _ (consputc_ok _ e _ (sent_cpu_ok _ k Hc))).
  rewrite (IH fmt _ e _ ltac:(lia) t2) by done. by rewrite !sent_sent.
Qed.

Lemma printf_ok fmt ap text e k :
  cpu_ok k -> lock_free LkPr k -> format fmt ap = Some text -> printf fmt ap e k = Ok tt e (sent text k).
Proof.
  intros Hc Hl Hf. unfold printf. rewrite (bind_Ok (gets k_locking) _ _ e k _ _ eq_refl).
  destruct (bool_decide (k_locking k <> 0)); unfold when.
  - rewrite (bind_Ok _ _ _ _ _ _ _ (acquire_free _ e k Hc Hl)).
    rewrite (bind_Ok _ _ _ _ _ _ _ (printf_loop_ok _ fmt ap e _ ltac:(done) text (cpu_ok_taken _ _ Hc) Hf)).
    change (sent text (lock_taken LkPr k)) with (lock_taken LkPr (sent text k)). by apply release_taken.
  - rewrite (bind_Ok skip _ _ e k _ _ eq_refl).
    by rewrite (bind_Ok _ _ _ _ _ _ _ (printf_loop_ok _ fmt ap e _ ltac:(done) text Hc Hf)).
Qed.
