(* ===== verification/Sched.v ===== *)
(** * kernel/proc.c, first part: scheduling, sleeping and waking

    The routines of proc.c that move processes between their states: the PBS
    scheduler, sched() and yield(), sleep() and wakeup(), kill(), update_time()
    and setpriority(), with the copy routines that depend on the current process.

    swtch() hands the hart over ([hand_over]): what the other kernel threads do
    until this one is switched back in is the next element of the environment.
    The callee-saved registers it exchanges are those of the suspended
    computation itself and are not part of the state. *)

From S2P Require Import Prelude Machine Kstring Kernel Spinlock Kalloc Vm.

Definition myproc : K (option nat) :=
  push_off;;;
  c <- mycpu;;
  p <- gets (fun k => c_proc (get_cpu k c));;
  pop_off;;;
  ret p.

(** Following a process pointer: page 0 is not mapped in the kernel, so a null
    pointer ends in kerneltrap(). *)
Definition deref (o : option nat) : K nat :=
  match o with Some i => ret i | None => panic "kerneltrap" end.
Definition cur : K nat := o <- myproc;; deref o.

(** The address of a process as a sleep channel. *)
Definition chan_of (o : option nat) : chan :=
  match o with Some i => ChProc i | None => ChNull end.

(** swtch.S, seen from the thread that calls it. *)
Definition swtch : K unit := hand_over.

Definition sched : K unit :=
  p <- cur;;
  h <- holding (LkProc p);;
  if negb h then panic "sched p->lock" else
  c <- mycpu;;
  noff <- gets (fun k => c_noff (get_cpu k c));;
  if decide (noff <> 1) then panic "sched locks" else
  st <- gets (fun k => p_state (get_proc k p));;
  if decide (st = RUNNING) then panic "sched running" else
  i <- intr_get;;
  if decide (i <> 0) then panic "sched interruptible" else
  intena <- gets (fun k => c_intena (get_cpu k c));;
  swtch;;;
  c' <- mycpu;;
  modify (upd_cpu c' (set_c_intena intena)).

Definition yield : K unit :=
  p <- cur;;
  acquire (LkProc p);;;
  modify (upd_proc p (set_p_state RUNNABLE));;;
  sched;;;
  release (LkProc p).

Definition sleep (ch : chan) (lk : lockid) : K unit :=
  p <- cur;;
  acquire (LkProc p);;;
  release lk;;;
  modify (upd_proc p (set_p_chan ch));;;
  modify (upd_proc p (set_p_state SLEEPING));;;
  sched;;;
  modify (upd_proc p (set_p_chan ChNull));;;
  release (LkProc p);;;
  acquire lk.

(** The part of wakeup() under [p->lock]. *)
Definition wake_one (ch : chan) (p : proc) : proc :=
  if decide (p_state p = SLEEPING /\ p_chan p = ch) then set_p_state RUNNABLE p else p.

Definition wakeup (ch : chan) : K unit :=
  for_ (seq 0 NPROC) (fun i =>
    o <- myproc;;
    if decide (Some i <> o) then
      acquire (LkProc i);;;
      modify (upd_proc i (wake_one ch));;;
      release (LkProc i)
    else skip).

Definition kill (pid : Z) : K Z :=
  r <- first_ (seq 0 NPROC) (fun i =>
    acquire (LkProc i);;;
    p <- gets (fun k => get_proc k i);;
    if decide (p_pid p = pid) then
      modify (upd_proc i (set_p_killed 1));;;
      (if decide (p_state p = SLEEPING) then modify (upd_proc i (set_p_state RUNNABLE)) else skip);;;
      release (LkProc i);;;
      ret (Some 0)
    else
      release (LkProc i);;;
      ret None);;
  ret (default (-1) r).

(** The part of update_time() under [p->lock]. *)
Definition tick_one (p : proc) : proc :=
  match p_state p with
  | RUNNING => set_p_total_run_time (u64 (p_total_run_time p + 1))
                 (set_p_run_time (u64 (p_run_time p + 1)) p)
  | SLEEPING => set_p_sleep_time (u64 (p_sleep_time p + 1)) p
  | _ => p
  end.

Definition update_time : K unit :=
  for_ (seq 0 NPROC) (fun i =>
    acquire (LkProc i);;;
    modify (upd_proc i tick_one);;;
    release (LkProc i)).

Definition setpriority (new_priority pid : Z) : K Z :=
  r <- first_ (seq 0 NPROC) (fun i =>
    acquire (LkProc i);;;
    p <- gets (fun k => get_proc k i);;
    if decide (p_pid p = pid) then
      let prev_priority := i32 (p_priority p) in
      modify (upd_proc i (set_p_priority (u64 new_priority)));;;
      modify (upd_proc i (set_p_sleep_time 0));;;
      modify (upd_proc i (set_p_run_time 0));;;
      let reschedule := bool_decide (new_priority < prev_priority) in
      release (LkProc i);;;
      when reschedule yield;;;
      ret (Some prev_priority)
    else
      release (LkProc i);;;
      ret None);;
  ret (default 0 r).

(** ** The scheduler *)

(** int nice: the share of sleeping time since the process was last scheduled,
    out of ten. *)
Definition nice (p : proc) : Z :=
  if decide (u64 (p_run_time p + p_sleep_time p) > 0)
  then i32 (u64 (p_sleep_time p * 10) / u64 (p_run_time p + p_sleep_time p))
  else 5.

(** int dp: the dynamic priority, clamped. *)
Definition dp (p : proc) : Z :=
  let dp := i32 (u64 (p_priority p - nice p + 5)) in
  let dp := if decide (dp < 0) then 0 else dp in
  if decide (dp > 100) then 100 else dp.

(** int elegir: is [p] preferred to the best process so far? *)
Definition elegir (p : proc) (best : option proc) (best_dp : Z) : bool :=
  if decide (dp p < best_dp) then true
  else match best with
       | None => false
       | Some b =>
           if decide (dp p = best_dp /\ p_n_runs p < p_n_runs b) then true
           else bool_decide (dp p = best_dp /\ p_n_runs p = p_n_runs b /\
                             p_create_time p < p_create_time b)
       end.

(** One turn of the selection loop, with [best] and [best_dp]. *)
Definition select_one (x : option nat * Z) (i : nat) : K (option nat * Z) :=
  let '(best, best_dp) := x in
  acquire (LkProc i);;;
  p <- gets (fun k => get_proc k i);;
  if decide (p_state p <> RUNNABLE) then release (LkProc i);;; ret (best, best_dp) else
  b <- gets (fun k => get_proc k <$> best);;
  if elegir p b best_dp then
    match best with Some j => release (LkProc j) | None => skip end;;;
    ret (Some i, dp p)
  else
    release (LkProc i);;;
    ret (best, best_dp).

Definition select : K (option nat * Z) :=
  fold_ (seq 0 NPROC) select_one (None, 999999).

(** What the scheduler stores in the process it is about to run. *)
Definition dispatch (ticks : Z) (p : proc) : proc :=
  set_p_n_runs (u64 (p_n_runs p + 1))
    (set_p_sleep_time 0 (set_p_run_time 0 (set_p_start_time ticks (set_p_state RUNNING p)))).

(** if(best != 0): run the chosen process. *)
Definition run_best (c : nat) (best : option nat) : K unit :=
  match best with
  | None => skip
  | Some best =>
      t <- gets k_ticks;;
      modify (upd_proc best (dispatch t));;;
      modify (upd_cpu c (set_c_proc (Some best)));;;
      swtch;;;
      modify (upd_cpu c (set_c_proc None));;;
      release (LkProc best)
  end.

(** One turn of the [for(;;)] of scheduler(). *)
Definition scheduler_turn (c : nat) : K unit :=
  intr_on;;;
  x <- select;;
  run_best c (fst x).

(** The scheduler never returns; [n] turns of it. *)
Definition scheduler (n : nat) : K unit :=
  c <- mycpu;;
  modify (upd_cpu c (set_c_proc None));;;
  for_ (seq 0 n) (fun _ => scheduler_turn c).

(** ** Copying to or from user or kernel memory *)
Definition either_copyout (user_dst : Z) (dst : Z) (src : list Z) : K Z :=
  o <- myproc;;
  if decide (user_dst <> 0) then
    p <- deref o;;
    pt <- gets (fun k => p_pagetable (get_proc k p));;
    copyout pt dst src
  else modify (upd_mem (fun m => write_bytes m dst src));;; ret 0.

Definition either_copyin (user_src : Z) (src len : Z) : K (Z * list Z) :=
  o <- myproc;;
  if decide (user_src <> 0) then
    p <- deref o;;
    pt <- gets (fun k => p_pagetable (get_proc k p));;
    copyin pt src len
  else
    bs <- gets (fun k => read_bytes (Z.to_nat len) (k_mem k) src);;
    ret (0, bs).

Global Arguments myproc : simpl never.
Global Arguments cur : simpl never.
Global Arguments swtch : simpl never.
Global Arguments sched : simpl never.
Global Arguments yield : simpl never.
Global Arguments sleep : simpl never.
Global Arguments wakeup : simpl never.
Global Arguments kill : simpl never.
Global Arguments update_time : simpl never.
Global Arguments setpriority : simpl never.
Global Arguments select_one : simpl never.
Global Arguments select : simpl never.
Global Arguments scheduler_turn : simpl never.
Global Arguments either_copyout : simpl never.
Global Arguments either_copyin : simpl never.
Global Arguments hand_over : simpl never.

(** ** The process table at rest

    No process lock is held and the executing hart is consistent. *)
Record quiet (k : kernel) : Prop := {
  q_cpu : cpu_ok k;
  q_len : length (k_procs k) = NPROC;
  q_lock i : (i < NPROC)%nat -> lock_free (LkProc i) k
}.

(** The process running on the executing hart. *)
Definition running (k : kernel) : option nat := c_proc (get_cpu k (k_tp k)).

Lemma myproc_ok e k : cpu_ok k -> myproc e k = Ok (running k) e k.
Proof.
  intros Hc. unfold myproc. rewrite (bind_Ok _ _ _ _ _ _ _ (push_off_ok e k Hc)). cbn.
  rewrite pop_off_pushed by done. do 2 f_equal. unfold running, get_cpu. cbn.
  rewrite list_lookup_alter_eq. by destruct (k_cpus k !! k_tp k).
Qed.

Lemma cur_ok e k p : cpu_ok k -> running k = Some p -> cur e k = Ok p e k.
Proof. intros Hc Hr. unfold cur. rewrite (bind_Ok _ _ _ _ _ _ _ (myproc_ok e k Hc)). by rewrite Hr. Qed.

(** A critical section on one process lock that updates the process. *)
Lemma locked_upd_proc {A} e k i g (rest : unit -> K A) :
  cpu_ok k -> lock_free (LkProc i) k ->
  (acquire (LkProc i);;; modify (upd_proc i g);;; x <- release (LkProc i);; rest x) e k
  = rest tt e (upd_proc i g k).
Proof.
  intros Hc Hl. unfold bind. rewrite acquire_free by done. cbn.
  change (upd_proc i g (lock_taken (LkProc i) k)) with (lock_taken (LkProc i) (upd_proc i g k)).
  by rewrite release_taken.
Qed.

Lemma quiet_procs k ps : quiet k -> length ps = NPROC -> quiet (set_k_procs ps k).
Proof. intros [Hc _ Hl] Hn. by constructor. Qed.

Lemma set_procs_twice ps1 ps2 k : set_k_procs ps2 (set_k_procs ps1 k) = set_k_procs ps2 k.
Proof. done. Qed.
Lemma set_procs_same k : set_k_procs (k_procs k) k = k.
Proof. by destruct k. Qed.

(** A loop over the process table whose turn [i] updates process [i]. *)
Lemma for_procs (f : nat -> K unit) (g : nat -> proc -> proc) e k :
  length (k_procs k) = NPROC ->
  (forall i ps, (i < NPROC)%nat -> length ps = NPROC ->
     f i e (set_k_procs ps k) = Ok tt e (upd_proc i (g i) (set_k_procs ps k))) ->
  for_ (seq 0 NPROC) f e k = Ok tt e (set_k_procs (imap g (k_procs k)) k).
Proof.
  intros Hlen Hf.
  destruct (for_inv (fun done s => s = set_k_procs
              (imap (fun i p => if decide (i < length done)%nat then g i p else p) (k_procs k)) k)
              (seq 0 NPROC) f e k) as (s' & Hs & ->).
  - cbn. rewrite <- (set_procs_same k) at 1. f_equal. apply list_eq. intros i.
    rewrite list_lookup_imap. by destruct (k_procs k !! i).
  - intros d i todo s Hd ->.
    assert (i = length d /\ (i < NPROC)%nat) as [-> Hi].
    { assert (seq 0 NPROC !! length d = Some i) as E by (rewrite Hd; by apply list_lookup_middle).
      apply lookup_seq in E. lia. }
    eexists. split.
    { rewrite Hf; [done|done|]. by rewrite length_imap. }
    unfold upd_proc. rewrite set_procs_twice. f_equal. apply list_eq. intros j.
    rewrite length_app. cbn. rewrite list_lookup_alter, !list_lookup_imap.
    destruct (decide (length d = j)) as [<-|Hne]; destruct (k_procs k !! _) as [p|]; cbn; try done;
      repeat case_decide; try done; lia.
  - rewrite Hs. do 2 f_equal. apply list_eq. intros i. rewrite !list_lookup_imap.
    destruct (k_procs k !! i) as [p|] eqn:Ei; cbn; [|done].
    rewrite decide_True; [done|]. apply lookup_lt_Some in Ei. by rewrite Hlen in Ei.
Qed.

Lemma update_time_ok e k :
  quiet k -> update_time e k = Ok tt e (set_k_procs (tick_one <$> k_procs k) k).
Proof.
  intros Hq. unfold update_time. rewrite (for_procs _ (fun _ => tick_one)).
  - do 2 f_equal. apply list_eq. intros i. by rewrite list_lookup_imap, list_lookup_fmap.
  - apply Hq.
  - intros i ps Hi Hps. destruct (quiet_procs k ps Hq Hps) as [Hc _ Hl].
    unfold bind. rewrite acquire_free by auto. cbn.
    change (upd_proc i ?g (lock_taken ?l ?s)) with (lock_taken l (upd_proc i g s)).
    by rewrite release_taken by (done || by apply Hl).
Qed.

Lemma wakeup_ok ch e k :
  quiet k ->
  wakeup ch e k = Ok tt e (set_k_procs
    (imap (fun i p => if decide (Some i = running k) then p else wake_one ch p) (k_procs k)) k).
Proof.
  intros Hq. unfold wakeup. apply for_procs; [apply Hq|].
  intros i ps Hi Hps. destruct (quiet_procs k ps Hq Hps) as [Hc _ Hl].
  rewrite (bind_Ok _ _ _ _ _ _ _ (myproc_ok e _ Hc)).
  change (running (set_k_procs ps k)) with (running k).
  destruct (decide (Some i = running k)) as [E|E].
  - rewrite (decide_False (P := Some i <> running k)) by auto. cbn. do 2 f_equal.
    unfold upd_proc. cbn. by rewrite list_alter_id.
  - rewrite (decide_True (P := Some i <> running k)) by auto.
    unfold bind. rewrite acquire_free by auto. cbn.
    change (upd_proc i ?g (lock_taken ?l ?s)) with (lock_taken l (upd_proc i g s)).
    by rewrite release_taken by (done || by apply Hl).
Qed.

(** ** Selection

    [key_lt p q]: [p] is strictly preferred to [q]: lower dynamic priority
    value, then fewer runs, then older. *)
Definition key_lt (p q : proc) : Prop :=
  dp p < dp q \/ dp p = dp q /\
    (p_n_runs p < p_n_runs q \/ p_n_runs p = p_n_runs q /\ p_create_time p < p_create_time q).

(** Process [i] is the choice of the policy: runnable, no runnable process is
    preferred to it, and it is preferred to those before it in the table. *)
Definition best_of (ps : list proc) (i : nat) : Prop :=
  exists p, ps !! i = Some p /\ p_state p = RUNNABLE /\
    forall j q, ps !! j = Some q -> p_state q = RUNNABLE ->
      ~ key_lt q p /\ ((j < i)%nat -> key_lt p q).
Definition none_runnable (ps : list proc) : Prop :=
  forall j q, ps !! j = Some q -> p_state q <> RUNNABLE.

Lemma dp_bounds p : 0 <= dp p <= 100.
Proof. unfold dp. repeat case_decide; lia. Qed.

Lemma elegir_first p : elegir p None 999999 = true.
Proof. unfold elegir. rewrite decide_True; [done|]. pose proof (dp_bounds p). lia. Qed.

Lemma elegir_key p b : elegir p (Some b) (dp b) = true <-> key_lt p b.
Proof.
  unfold elegir, key_lt. destruct (decide (dp p < dp b)) as [H1|H1]; [split; [by left|done]|].
  destruct (decide (dp p = dp b /\ p_n_runs p < p_n_runs b)) as [H2|H2]; [split; [lia|done]|].
  rewrite bool_decide_eq_true. lia.
Qed.

Lemma key_lt_irrefl p : ~ key_lt p p.
Proof. unfold key_lt. lia. Qed.
Lemma key_lt_trans p q r : key_lt p q -> key_lt q r -> key_lt p r.
Proof. unfold key_lt. lia. Qed.
Lemma key_not_lt_trans p q r : ~ key_lt q p -> key_lt r p -> key_lt r q.
Proof. unfold key_lt. lia. Qed.
Lemma key_lt_dec_trans p q r : key_lt p q -> ~ key_lt r q -> key_lt p r.
Proof. unfold key_lt. lia. Qed.

(** Extending the scanned part of the table by one process. *)
Lemma none_runnable_snoc ps p : none_runnable ps -> p_state p <> RUNNABLE -> none_runnable (ps ++ [p]).
Proof. intros H Hp j q [Hj|[_ [_ ->]%list_lookup_singleton_Some]]%lookup_app_Some; [by eapply H|done]. Qed.

Lemma best_of_snoc_keep ps i p b :
  ps !! i = Some b -> best_of ps i -> (p_state p = RUNNABLE -> ~ key_lt p b) -> best_of (ps ++ [p]) i.
Proof.
  intros Hi (b' & Hb & Hr & Hall) Hp. simplify_eq. exists b. split; [by apply lookup_app_l_Some|].
  split; [done|]. intros j q [Hj|[Hj [_ ->]%list_lookup_singleton_Some]]%lookup_app_Some Hq; [by apply Hall|].
  split; [by apply Hp|]. apply lookup_lt_Some in Hi. lia.
Qed.

Lemma best_of_snoc_new ps p :
  p_state p = RUNNABLE ->
  (none_runnable ps \/ exists i b, ps !! i = Some b /\ best_of ps i /\ key_lt p b) ->
  best_of (ps ++ [p]) (length ps).
Proof.
  intros Hr Hc. exists p. split; [by rewrite list_lookup_middle|]. split; [done|].
  intros j q [Hj|[Hj [_ ->]%list_lookup_singleton_Some]]%lookup_app_Some Hq.
  - destruct Hc as [Hn|(i & b & Hi & (b' & Hb & _ & Hall) & Hk)]; [by destruct (Hn j q Hj)|].
    simplify_eq. destruct (Hall j q Hj Hq) as [Hnk _].
    assert (key_lt p q) as Hpq by by eapply key_lt_dec_trans.
    split; [|done]. intros Hqp. apply (key_lt_irrefl p). by eapply key_lt_trans.
  - split; [apply key_lt_irrefl|lia].
Qed.

(** The selection loop after it has scanned [ps]: what it has chosen, and that
    the lock of the choice is the only one it holds. *)
Definition selected (k : kernel) (ps : list proc) (x : option nat * Z) (s : kernel) : Prop :=
  match x with
  | (None, d) => d = 999999 /\ none_runnable ps /\ s = k
  | (Some i, d) => exists b, ps !! i = Some b /\ d = dp b /\ best_of ps i /\ s = lock_taken (LkProc i) k
  end.

Lemma get_proc_taken l k i : get_proc (lock_taken l k) i = get_proc k i.
Proof. done. Qed.

(** The state in which a turn starts, and after its acquire. *)
Lemma selected_cpu k ps x s : cpu_ok k -> selected k ps x s -> cpu_ok s.
Proof. intros Hc Hs. destruct x as [[i|] d]; [destruct Hs as (b & _ & _ & _ & ->)|destruct Hs as (_ & _ & ->)]; auto with xv6. Qed.

Lemma selected_lock k ps x s i :
  selected k ps x s -> length ps = i -> lock_free (LkProc i) k -> lock_free (LkProc i) s.
Proof.
  intros Hs Hn Hl. destruct x as [[j|] d]; [destruct Hs as (b & Hj & _ & _ & ->)|destruct Hs as (_ & _ & ->)]; [|done].
  apply lock_free_taken_ne; [|done]. intros [= ->]. apply lookup_lt_Some in Hj. lia.
Qed.

Lemma selected_proc k ps x s j : selected k ps x s -> get_proc s j = get_proc k j.
Proof. intros Hs. destruct x as [[i|] d]; [destruct Hs as (b & _ & _ & _ & ->)|destruct Hs as (_ & _ & ->)]; done. Qed.

Lemma snoc_lookup {A} (l : list A) i x : length l = i -> (l ++ [x]) !! i = Some x.
Proof. intros <-. by apply list_lookup_middle. Qed.

Lemma select_step e k ps i p x s :
  quiet k -> k_procs k !! i = Some p -> ps = take i (k_procs k) -> selected k ps x s ->
  exists x' s', select_one x i e s = Ok x' e s' /\ selected k (ps ++ [p]) x' s'.
Proof.
  intros Hq Hp -> Hs. pose proof (lookup_lt_Some _ _ _ Hp) as Hi. pose proof (q_len k Hq) as Hlen.
  assert (length (take i (k_procs k)) = i) as Ei by (rewrite length_take; lia).
  assert (lock_free (LkProc i) k) as Hl by (apply Hq; lia).
  pose proof (selected_cpu _ _ _ _ (q_cpu k Hq) Hs) as Hc.
  pose proof (selected_lock _ _ _ _ _ Hs Ei Hl) as Hls.
  unfold select_one. destruct x as [best d]. rewrite (bind_Ok _ _ _ _ _ _ _ (acquire_free _ e s Hc Hls)).
  cbn [bind gets]. rewrite get_proc_taken, (selected_proc _ _ _ _ _ Hs), (get_proc_lookup _ _ _ Hp).
  destruct (decide (p_state p <> RUNNABLE)) as [Hnr|Hr].
  { exists (best, d), s. split; [by rewrite (bind_Ok _ _ _ _ _ _ _ (release_taken _ e s Hc Hls))|].
    destruct best as [j|].
    - destruct Hs as (b & Hj & -> & Hb & ->). exists b. split_and!; try done; [by apply lookup_app_l_Some|].
      by apply (best_of_snoc_keep _ _ _ b).
    - destruct Hs as (-> & Hn & ->). split_and!; try done. by apply none_runnable_snoc. }
  apply dec_stable in Hr. destruct best as [j|].
  - destruct Hs as (b & Hj & -> & Hb & ->). pose proof (lookup_lt_Some _ _ _ Hj) as Hji.
    assert (get_proc k j = b) as Ej.
    { apply get_proc_lookup. rewrite lookup_take_Some in Hj. by destruct Hj. }
    cbn [bind gets fmap option_fmap option_map]. rewrite !get_proc_taken, Ej.
    destruct (elegir p (Some b) (dp b)) eqn:Ee.
    + apply elegir_key in Ee. exists (Some i, dp p), (lock_taken (LkProc i) k). split.
      * rewrite lock_taken_comm by (intros [= ->]; lia).
        by rewrite (bind_Ok _ _ _ _ _ _ _ (release_taken (LkProc j) e (lock_taken (LkProc i) k)
             ltac:(apply cpu_ok_taken, Hq) ltac:(apply lock_free_taken_ne; [intros [= ->]; lia|apply Hq; lia]))).
      * exists p. split_and!; try done; [by apply snoc_lookup|].
        pose proof (best_of_snoc_new (take i (k_procs k)) p) as Hnew. rewrite Ei in Hnew.
        apply Hnew; [done|]. right. by exists j, b.
    + exists (Some j, dp b), (lock_taken (LkProc j) k). split.
      * by rewrite (bind_Ok _ _ _ _ _ _ _ (release_taken _ e _ Hc Hls)).
      * exists b. split_and!; try done; [by apply lookup_app_l_Some|]. apply (best_of_snoc_keep _ _ _ b); try done.
        intros _ Hk. apply elegir_key in Hk. congruence.
  - destruct Hs as (-> & Hn & ->). cbn [bind gets fmap option_fmap option_map]. rewrite elegir_first.
    exists (Some i, dp p), (lock_taken (LkProc i) k). split; [done|].
    exists p. split_and!; try done; [by apply snoc_lookup|].
    pose proof (best_of_snoc_new (take i (k_procs k)) p) as Hnew. rewrite Ei in Hnew.
    apply Hnew; [done|by left].
Qed.

Lemma select_ok e k :
  quiet k -> exists x s, select e k = Ok x e s /\ selected k (k_procs k) x s.
Proof.
  intros Hq. pose proof (q_len k Hq) as Hlen.
  destruct (fold_inv (fun done x s => selected k (take (length done) (k_procs k)) x s)
              (seq 0 NPROC) select_one e (None, 999999) k) as (x & s & Hs & Hsel).
  - by split.
  - intros d i todo x s Hd Hsel.
    assert (i = length d /\ (i < NPROC)%nat) as [-> Hi].
    { assert (seq 0 NPROC !! length d = Some i) as E by (rewrite Hd; by apply list_lookup_middle).
      apply lookup_seq in E. lia. }
    destruct (lookup_lt_is_Some_2 (k_procs k) (length d)) as [p Hp]; [lia|].
    destruct (select_step e k _ (length d) p x s Hq Hp eq_refl Hsel) as (x' & s' & Hx & Hsel').
    exists x', s'. split; [done|]. rewrite length_app. cbn. rewrite Nat.add_1_r.
    by rewrite (take_S_r _ _ p).
  - exists x, s. split; [done|]. by rewrite length_seq, firstn_all2 in Hsel by lia.
Qed.

(** ** One turn of the scheduler

    The scheduler runs outside every push_off() section; after its intr_on() and
    the first acquire() the hart is in the state [enabled k]. *)
Definition idle_hart (k : kernel) : Prop :=
  exists c, k_cpus k !! k_tp k = Some c /\ c_noff c = 0.

Definition enabled (k : kernel) : kernel :=
  upd_cpu (k_tp k) (set_c_intena 1)
    (upd_csr (fun c => set_sstatus (Z.lor (sstatus c) SSTATUS_SIE) c) k).

Definition dispatched (i : nat) (k : kernel) : kernel :=
  upd_cpu (k_tp k) (set_c_proc (Some i))
    (upd_proc i (dispatch (k_ticks k)) (lock_taken (LkProc i) k)).

Lemma sie_set x : Z.testbit (Z.lor x SSTATUS_SIE) 1 = true.
Proof. rewrite Z.lor_spec. apply orb_true_r. Qed.

Lemma enabled_cpu_ok k : idle_hart k -> cpu_ok (enabled k).
Proof.
  intros (c & Hc & Hn). exists (set_c_intena 1 c). cbn. rewrite list_lookup_alter_eq, Hc.
  unfold sie. cbn. rewrite sie_set. repeat split; cbn; lia.
Qed.

Lemma push_off_enabled e k :
  idle_hart k ->
  push_off e (upd_csr (fun c => set_sstatus (Z.lor (sstatus c) SSTATUS_SIE) c) k) = push_off e (enabled k).
Proof.
  intros Hi. rewrite (push_off_ok e (enabled k)) by by apply enabled_cpu_ok.
  destruct Hi as (c & Hc & Hn).
  unfold push_off, intr_off. unfold bind. rewrite intr_get_eq. unfold sie. cbn. rewrite sie_set.
  unfold get_cpu. cbn. rewrite Hc. cbn. rewrite decide_True by done. done.
Qed.

Lemma acquire_enabled l e k :
  idle_hart k ->
  acquire l e (upd_csr (fun c => set_sstatus (Z.lor (sstatus c) SSTATUS_SIE) c) k) = acquire l e (enabled k).
Proof. intros Hi. unfold acquire, bind at 1. rewrite push_off_enabled by done. done. Qed.

Lemma select_enabled e k :
  idle_hart k ->
  select e (upd_csr (fun c => set_sstatus (Z.lor (sstatus c) SSTATUS_SIE) c) k) = select e (enabled k).
Proof.
  intros Hi. unfold select. cbn [seq NPROC fold_ select_one]. unfold bind, select_one, bind.
  by rewrite acquire_enabled.
Qed.

Lemma enabled_quiet k :
  idle_hart k -> length (k_procs k) = NPROC -> (forall i, (i < NPROC)%nat -> lock_free (LkProc i) k) ->
  quiet (enabled k).
Proof. intros Hi Hn Hl. constructor; [by apply enabled_cpu_ok|done|done]. Qed.

Lemma scheduler_turn_ok e k :
  idle_hart k -> length (k_procs k) = NPROC -> (forall i, (i < NPROC)%nat -> lock_free (LkProc i) k) ->
  (none_runnable (k_procs k) /\ scheduler_turn (k_tp k) e k = Ok tt e (enabled k)) \/
  (exists i, best_of (k_procs k) i /\
     scheduler_turn (k_tp k) e k =
       (swtch;;; modify (upd_cpu (k_tp k) (set_c_proc None));;; release (LkProc i)) e
         (dispatched i (enabled k))).
Proof.
  intros Hi Hn Hl. destruct (select_ok e (enabled k)) as (x & s & Hs & Hsel); [by apply enabled_quiet|].
  assert (scheduler_turn (k_tp k) e k = run_best (k_tp k) (fst x) e s) as ->.
  { unfold scheduler_turn, intr_on. unfold bind at 1. cbn [modify].
    rewrite (bind_Ok _ _ x e _ e s); [done|]. by rewrite select_enabled. }
  destruct x as [[i|] d].
  - right. destruct Hsel as (b & Hb & _ & Hbest & ->). by exists i.
  - left. by destruct Hsel as (_ & Hnone & ->).
Qed.

(** ** Searching the table for a pid: kill() and setpriority() *)

Section Search.
Context {R : Type} (test : proc -> Prop) `{!forall p, Decision (test p)}.
Context (found : nat -> proc -> K (option R)).

Definition search_body (i : nat) : K (option R) :=
  acquire (LkProc i);;;
  p <- gets (fun k => get_proc k i);;
  if decide (test p) then found i p
  else release (LkProc i);;; ret None.

Lemma search_skip e k i p :
  quiet k -> k_procs k !! i = Some p -> ~ test p -> search_body i e k = Ok None e k.
Proof.
  intros Hq Hp Ht. assert (lock_free (LkProc i) k) as Hl.
  { apply Hq. rewrite <- (q_len k Hq). by eapply lookup_lt_Some. }
  unfold search_body. rewrite (bind_Ok _ _ _ _ _ _ _ (acquire_free _ e k (q_cpu k Hq) Hl)).
  cbn [bind gets]. rewrite get_proc_taken, (get_proc_lookup _ _ _ Hp), decide_False by done.
  by rewrite (bind_Ok _ _ _ _ _ _ _ (release_taken _ e k (q_cpu k Hq) Hl)).
Qed.

Lemma search_prefix e k a n :
  quiet k -> (a + n <= NPROC)%nat ->
  (forall j p, (a <= j < a + n)%nat -> k_procs k !! j = Some p -> ~ test p) ->
  first_ (seq a n) search_body e k = Ok None e k.
Proof.
  intros Hq. revert a. induction n as [|n IH]; intros a Hn Hno; [done|]. cbn [seq first_].
  destruct (lookup_lt_is_Some_2 (k_procs k) a) as [p Hp]; [rewrite (q_len k Hq); lia|].
  rewrite (bind_Ok _ _ _ _ _ _ _ (search_skip e k a p Hq Hp ltac:(eapply Hno; [|done]; lia))).
  apply IH; [lia|]. intros j q Hj. apply Hno. lia.
Qed.

(** The routine applied to the first process that passes the test. *)
Lemma search_ok e k :
  quiet k ->
  first_ (seq 0 NPROC) search_body e k =
  match list_find test (k_procs k) with
  | None => Ok None e k
  | Some (i, p) =>
      (o <- found i p;;
       match o with
       | Some r => ret (Some r)
       | None => first_ (seq (S i) (NPROC - S i)) search_body
       end) e (lock_taken (LkProc i) k)
  end.
Proof.
  intros Hq. pose proof (q_len k Hq) as Hlen.
  destruct (list_find test (k_procs k)) as [[i p]|] eqn:Hf.
  - apply list_find_Some in Hf as (Hp & Ht & Hbefore). pose proof (lookup_lt_Some _ _ _ Hp) as Hi.
    rewrite Hlen in Hi. replace NPROC with (i + S (NPROC - S i))%nat at 1 by lia.
    rewrite seq_app, first_app. cbn [seq Nat.add].
    rewrite (bind_Ok _ _ None e k e k) by (apply search_prefix; [done|lia|]; intros j q Hj Hq'; eapply Hbefore; [done|lia]).
    cbn [first_].
    assert (search_body i e k = found i p e (lock_taken (LkProc i) k)) as E.
    { unfold search_body.
      rewrite (bind_Ok _ _ _ _ _ _ _ (acquire_free _ e k (q_cpu k Hq) (q_lock k Hq i Hi))).
      cbn [bind gets]. rewrite get_proc_taken, (get_proc_lookup _ _ _ Hp). by rewrite decide_True. }
    unfold bind at 1. rewrite E. done.
  - apply list_find_None in Hf. rewrite Forall_lookup in Hf. apply search_prefix; [done|lia|].
    intros j q _ Hj. by eapply Hf.
Qed.
End Search.

(** The effect of kill() on the process it finds. *)
Definition kill_one (p : proc) : proc :=
  (if decide (p_state p = SLEEPING) then set_p_state RUNNABLE else id) (set_p_killed 1 p).

Lemma upd_proc_twice i f g k : upd_proc i f (upd_proc i g k) = upd_proc i (fun p => f (g p)) k.
Proof. unfold upd_proc. cbn. by rewrite list_alter_alter_eq. Qed.

Lemma upd_proc_ext i f g k p : k_procs k !! i = Some p -> f p = g p -> upd_proc i f k = upd_proc i g k.
Proof. intros Hp E. unfold upd_proc. by rewrite !(alter_insert _ _ _ p), E by done. Qed.

Lemma kill_ok pid e k :
  quiet k ->
  kill pid e k = match list_find (fun p => p_pid p = pid) (k_procs k) with
                 | None => Ok (-1) e k
                 | Some (i, _) => Ok 0 e (upd_proc i kill_one k)
                 end.
Proof.
  intros Hq. unfold kill.
  pose proof (search_ok (fun p => p_pid p = pid) (fun i p =>
      modify (upd_proc i (set_p_killed 1));;;
      (if decide (p_state p = SLEEPING) then modify (upd_proc i (set_p_state RUNNABLE)) else skip);;;
      release (LkProc i);;; ret (Some 0)) e k Hq) as Hs.
  unfold bind at 1. unfold search_body in Hs. rewrite Hs. clear Hs.
  destruct (list_find _ _) as [[i p]|] eqn:Hf; [|done].
  apply list_find_Some in Hf as (Hp & Ht & _).
  assert (i < NPROC)%nat as Hi by (rewrite <- (q_len k Hq); by eapply lookup_lt_Some).
  pose proof (release_taken (LkProc i) e (upd_proc i kill_one k) (q_cpu k Hq) (q_lock k Hq i Hi)) as Hrel.
  rewrite (upd_proc_ext i kill_one (fun q => (if decide (p_state p = SLEEPING) then set_p_state RUNNABLE else id)
     (set_p_killed 1 q)) k p Hp) in * by done.
  destruct (decide (p_state p = SLEEPING)); cbn.
  - rewrite upd_proc_twice. change (upd_proc i ?g (lock_taken ?l ?s)) with (lock_taken l (upd_proc i g s)).
    by rewrite Hrel.
  - change (upd_proc i ?g (lock_taken ?l ?s)) with (lock_taken l (upd_proc i g s)).
    by rewrite (release_taken (LkProc i) e (upd_proc i (set_p_killed 1) k) (q_cpu k Hq) (q_lock k Hq i Hi)).
Qed.

(** The effect of setpriority() on the process it finds. *)
Definition reprioritised (new_priority : Z) (p : proc) : proc :=
  set_p_run_time 0 (set_p_sleep_time 0 (set_p_priority (u64 new_priority) p)).

Lemma setpriority_ok new_priority pid e k :
  quiet k ->
  setpriority new_priority pid e k =
  match list_find (fun p => p_pid p = pid) (k_procs k) with
  | None => Ok 0 e k
  | Some (i, p) =>
      (when (bool_decide (new_priority < i32 (p_priority p))) yield;;; ret (i32 (p_priority p))) e
        (upd_proc i (reprioritised new_priority) k)
  end.
Proof.
  intros Hq. unfold setpriority.
  pose proof (search_ok (fun p => p_pid p = pid) (fun i p =>
      let prev_priority := i32 (p_priority p) in
      modify (upd_proc i (set_p_priority (u64 new_priority)));;;
      modify (upd_proc i (set_p_sleep_time 0));;;
      modify (upd_proc i (set_p_run_time 0));;;
      let reschedule := bool_decide (new_priority < prev_priority) in
      release (LkProc i);;;
      when reschedule yield;;;
      ret (Some prev_priority)) e k Hq) as Hs.
  unfold bind at 1. unfold search_body in Hs. rewrite Hs. clear Hs.
  destruct (list_find _ _) as [[i p]|] eqn:Hf; [|done].
  apply list_find_Some in Hf as (Hp & Ht & _).
  assert (i < NPROC)%nat as Hi by (rewrite <- (q_len k Hq); by eapply lookup_lt_Some).
  pose proof (release_taken (LkProc i) e (upd_proc i (reprioritised new_priority) k) (q_cpu k Hq)
                (q_lock k Hq i Hi)) as Hrel.
  cbn zeta. cbn [bind modify]. rewrite !upd_proc_twice.
  change (upd_proc i _ (lock_taken ?l ?s)) with (lock_taken l (upd_proc i (reprioritised new_priority) s)).
  rewrite Hrel. unfold when. case_bool_decide; [|done]. by destruct (yield e _).
Qed.

(** ** Giving up the hart *)

(** The locks and interrupt state with which sched() may be entered: the process
    lock is the only lock held. *)
Lemma sched_ok e k p :
  cpu_ok k -> idle_hart k -> lock_free (LkProc p) k -> running k = Some p ->
  p_state (get_proc k p) <> RUNNING ->
  sched e (lock_taken (LkProc p) k) =
  (swtch;;; c <- mycpu;; modify (upd_cpu c (set_c_intena (if sie k then 1 else 0)))) e
    (lock_taken (LkProc p) k).
Proof.
  intros Hc (c & Hcpu & Hn) [name Hl] Hr Hst. unfold sched.
  assert (running (lock_taken (LkProc p) k) = Some p) as Hr'.
  { revert Hr. unfold running, get_cpu. cbn. rewrite list_lookup_alter_eq. by destruct (k_cpus k !! k_tp k). }
  rewrite (bind_Ok _ _ _ _ _ _ _ (cur_ok e _ p (cpu_ok_taken _ _ Hc) Hr')).
  rewrite (bind_Ok _ _ _ _ _ _ _ (holding_taken (LkProc p) e k)). cbn [negb].
  assert (get_cpu (lock_taken (LkProc p) k) (k_tp k) = set_c_noff (c_noff c + 1) c) as Hg.
  { unfold get_cpu. cbn. by rewrite list_lookup_alter_eq, Hcpu. }
  assert (intr_get e (lock_taken (LkProc p) k) = Ok 0 e (lock_taken (LkProc p) k)) as Hi.
  { rewrite intr_get_eq. do 2 f_equal. unfold sie. cbn. by rewrite SIE_clear_bit. }
  cbn [bind gets]. unfold mycpu at 1, cpuid at 1. cbn [bind gets k_tp lock_taken].
  change (k_tp (lock_taken (LkProc p) k)) with (k_tp k). rewrite Hg. cbn [c_noff set_c_noff].
  rewrite decide_False by lia. cbn [bind gets]. rewrite get_proc_taken, decide_False by done.
  rewrite (bind_Ok _ _ _ _ _ _ _ Hi). rewrite decide_False by lia. cbn [bind gets].
  rewrite Hg. cbn [c_intena set_c_noff].
  destruct Hc as (c' & Hc' & _ & _ & Hint). rewrite Hcpu in Hc'. injection Hc' as <-.
  by rewrite Hint.
Qed.

Lemma running_taken l k : running (lock_taken l k) = running k.
Proof.
  unfold running, get_cpu. cbn. rewrite list_lookup_alter_eq. by destruct (k_cpus k !! k_tp k).
Qed.

Definition asleep (p : nat) (ch : chan) (k : kernel) : kernel :=
  upd_proc p (fun q => set_p_state SLEEPING (set_p_chan ch q)) k.

Lemma asleep_state p ch k :
  (p < length (k_procs k))%nat ->
  p_state (get_proc (asleep p ch k) p) = SLEEPING /\ p_chan (get_proc (asleep p ch k) p) = ch.
Proof. intros Hp. unfold asleep. rewrite get_proc_upd by done. by rewrite decide_True. Qed.

Lemma sched_swtch e k p :
  cpu_ok k -> idle_hart k -> lock_free (LkProc p) k -> running k = Some p ->
  p_state (get_proc k p) <> RUNNING ->
  sched e (lock_taken (LkProc p) k) =
  match swtch e (lock_taken (LkProc p) k) with
  | Ok _ e' s => Ok tt e' (upd_cpu (k_tp s) (set_c_intena (if sie k then 1 else 0)) s)
  | Panic msg => Panic msg
  | Wait w s => Wait w s
  | NoFuel => NoFuel
  end.
Proof. intros. by rewrite (sched_ok e k p). Qed.

(** sleep() gives up the lock it was called with only once the process lock is
    held, and hands the hart over asleep on [ch] with the process lock as its
    only lock: no wakeup() can fall between the two. *)
Lemma sleep_blocks ch lk e k p :
  cpu_ok k -> idle_hart k -> lock_free lk k -> lock_free (LkProc p) k -> lk <> LkProc p ->
  running k = Some p -> (p < length (k_procs k))%nat ->
  sleep ch lk e (lock_taken lk k) =
  (sched;;; modify (upd_proc p (set_p_chan ChNull));;; release (LkProc p);;; acquire lk) e
    (lock_taken (LkProc p) (asleep p ch k)).
Proof.
  intros Hc Hi Hlk Hp Hne Hr Hlen. unfold sleep.
  rewrite (bind_Ok _ _ _ _ _ _ _ (cur_ok e _ p (cpu_ok_taken lk k Hc) ltac:(by rewrite running_taken))).
  rewrite (bind_Ok _ _ _ _ _ _ _ (acquire_free (LkProc p) e _ (cpu_ok_taken lk k Hc)
    ltac:(by apply lock_free_taken_ne))).
  rewrite lock_taken_comm by done.
  rewrite (bind_Ok _ _ _ _ _ _ _ (release_taken lk e _ (cpu_ok_taken (LkProc p) k Hc)
    ltac:(by apply lock_free_taken_ne))).
  cbn [bind modify]. by rewrite upd_proc_twice.
Qed.

(** The hart a thread is resumed on: it holds the process lock and nothing else. *)
Definition resumed (p : nat) (k1 : kernel) : Prop :=
  cpu_ok k1 /\ idle_hart k1 /\ lock_free (LkProc p) k1.

Lemma intena_same k : cpu_ok k -> idle_hart k ->
  upd_cpu (k_tp k) (set_c_intena (if sie k then 1 else 0)) k = k.
Proof.
  intros (c & Hc & _ & _ & Hint) (c' & Hc' & Hn). simplify_eq. unfold upd_cpu.
  rewrite (alter_same _ _ _ c); [by destruct k|done|]. rewrite <- Hint by done. by destruct c.
Qed.

Lemma intena_taken l k : cpu_ok k -> idle_hart k ->
  upd_cpu (k_tp k) (set_c_intena (if sie k then 1 else 0)) (lock_taken l k) = lock_taken l k.
Proof.
  intros (c & Hc & _ & _ & Hint) (c' & Hc' & Hn). simplify_eq. unfold upd_cpu.
  rewrite (alter_same _ _ _ (set_c_noff (c_noff c + 1) c)); [done| |].
  - cbn. by rewrite list_lookup_alter_eq, Hc.
  - rewrite <- Hint by done. done.
Qed.

Lemma sched_resumes f e k p k1 :
  cpu_ok k -> idle_hart k -> lock_free (LkProc p) k -> running k = Some p ->
  p_state (get_proc k p) <> RUNNING -> resumed p k1 -> sie k1 = sie k ->
  f (lock_taken (LkProc p) k) = lock_taken (LkProc p) k1 ->
  sched (f :: e) (lock_taken (LkProc p) k) = Ok tt e (lock_taken (LkProc p) k1).
Proof.
  intros Hc Hi Hl Hr Hst (Hc1 & Hi1 & Hl1) Hs Hf. rewrite sched_swtch by done.
  unfold swtch, hand_over. rewrite Hf. change (k_tp (lock_taken (LkProc p) k1)) with (k_tp k1).
  rewrite <- Hs. by rewrite intena_taken.
Qed.

Lemma sleep_resumes ch lk f e k p k1 :
  cpu_ok k -> idle_hart k -> lock_free lk k -> lock_free (LkProc p) k -> lk <> LkProc p ->
  running k = Some p -> (p < length (k_procs k))%nat ->
  resumed p k1 -> sie k1 = sie k -> lock_free lk k1 ->
  f (lock_taken (LkProc p) (asleep p ch k)) = lock_taken (LkProc p) k1 ->
  sleep ch lk (f :: e) (lock_taken lk k) = Ok tt e (lock_taken lk (upd_proc p (set_p_chan ChNull) k1)).
Proof.
  intros Hc Hi Hlk Hp Hne Hr Hlen Hres Hs Hlk1 Hf. rewrite (sleep_blocks ch lk _ k p) by done.
  assert (sched (f :: e) (lock_taken (LkProc p) (asleep p ch k)) = Ok tt e (lock_taken (LkProc p) k1)) as Hsch.
  { apply sched_resumes; try done. by rewrite (proj1 (asleep_state p ch k Hlen)). }
  rewrite (bind_Ok _ _ _ _ _ _ _ Hsch). destruct Hres as (Hc1 & Hi1 & Hl1). cbn [bind modify].
  change (upd_proc p ?g (lock_taken ?l ?s)) with (lock_taken l (upd_proc p g s)).
  rewrite release_taken by done. by rewrite acquire_free.
Qed.

Lemma yield_blocks e k p :
  cpu_ok k -> lock_free (LkProc p) k -> running k = Some p ->
  yield e k = (sched;;; release (LkProc p)) e (lock_taken (LkProc p) (upd_proc p (set_p_state RUNNABLE) k)).
Proof.
  intros Hc Hl Hr. unfold yield. rewrite (bind_Ok _ _ _ _ _ _ _ (cur_ok e _ p Hc Hr)).
  by rewrite (bind_Ok _ _ _ _ _ _ _ (acquire_free _ e k Hc Hl)).
Qed.

Lemma yield_resumes f e k p k1 :
  cpu_ok k -> idle_hart k -> lock_free (LkProc p) k -> running k = Some p -> (p < length (k_procs k))%nat ->
  resumed p k1 -> sie k1 = sie k ->
  f (lock_taken (LkProc p) (upd_proc p (set_p_state RUNNABLE) k)) = lock_taken (LkProc p) k1 ->
  yield (f :: e) k = Ok tt e k1.
Proof.
  intros Hc Hi Hl Hr Hlen Hres Hs Hf. rewrite (yield_blocks _ k p) by done.
  assert (sched (f :: e) (lock_taken (LkProc p) (upd_proc p (set_p_state RUNNABLE) k))
          = Ok tt e (lock_taken (LkProc p) k1)) as Hsch.
  { apply sched_resumes; try done. rewrite get_proc_upd, decide_True by done. done. }
  rewrite (bind_Ok _ _ _ _ _ _ _ Hsch). destruct Hres as (Hc1 & Hi1 & Hl1). by apply release_taken.
Qed.

(** With nothing else scheduled, sleep() stops at the switch: the process is
    asleep on the channel and only its own lock is held. *)
Lemma sleep_waits ch lk k p :
  cpu_ok k -> idle_hart k -> lock_free lk k -> lock_free (LkProc p) k -> lk <> LkProc p ->
  running k = Some p -> (p < length (k_procs k))%nat ->
  sleep ch lk [] (lock_taken lk k) = Wait WSwitch (lock_taken (LkProc p) (asleep p ch k)).
Proof.
  intros Hc Hi Hlk Hp Hne Hr Hlen. rewrite (sleep_blocks ch lk [] k p) by done.
  apply bind_Wait. rewrite (sched_swtch [] (asleep p ch k) p); try done.
  by rewrite (proj1 (asleep_state p ch k Hlen)).
Qed.
