(* ===== verification/SleepWake.v ===== *)
(** * sleep() and wakeup() in every interleaving

    kernel/proc.c keeps wakeups from being lost by taking [p->lock] before it
    gives up the condition lock.  Here sleep() and the part of wakeup() for one
    process are sequences of actions, each of them atomic, and any number of
    processes run them at the same time: those that wait for a condition,
    [while(!condition) sleep(chan, lk)] under [lk], and those that establish it,
    condition = 1 and wakeup(chan) under [lk].  [sleep_runs] and [wakeup_runs]
    show that the functions of Sched.v are these sequences.

    The switch of sched() hands [p->lock] to the scheduler, which releases it;
    the process goes on once it is RUNNABLE and the scheduler has taken the lock
    again.  A lock is taken when it is free (Spinlock.v treats the accesses
    inside acquire() and release()).

    [no_sleeper_forgotten]: whoever sleeps while the condition holds is on the
    list of somebody who is still going to wake it.  [nobody_stuck]: when no
    process can go on, all are done. *)

From S2P Require Import Prelude Machine Kernel Spinlock Sched.

Inductive act :=
| Acquire (l : lockid)
| Release (l : lockid)
| SetChan (p : nat) (ch : chan)
| SetState (p : nat) (st : procstate)
| Switch (p : nat)
| WakeOne (p : nat) (ch : chan).
#[export] Instance act_eq_dec : EqDecision act.
Proof. solve_decision. Defined.

Definition perform (a : act) : K unit :=
  match a with
  | Acquire l => acquire l
  | Release l => release l
  | SetChan p ch => modify (upd_proc p (set_p_chan ch))
  | SetState p st => modify (upd_proc p (set_p_state st))
  | Switch _ => sched
  | WakeOne p ch => modify (upd_proc p (wake_one ch))
  end.

Definition sleep_actions (p : nat) (ch : chan) (lk : lockid) : list act :=
  [Acquire (LkProc p); Release lk; SetChan p ch; SetState p SLEEPING; Switch p; SetChan p ChNull; Release (LkProc p); Acquire lk].
Definition wake_actions (p : nat) (ch : chan) : list act := [Acquire (LkProc p); WakeOne p ch; Release (LkProc p)].

(** sleep() and wakeup() are their actions, one after the other. *)
Lemma sleep_runs ch lk e k : sleep ch lk e k = (p <- cur;; for_ (sleep_actions p ch lk) perform) e k.
Proof. unfold sleep. apply bind_then. intros p e1 k1. cbn [for_ sleep_actions perform]. do 7 (apply bind_then; intros [] ? ?). symmetry. apply bind_skip. Qed.
Lemma wakeup_runs ch e k :
  wakeup ch e k = for_ (seq 0 NPROC) (fun i => o <- myproc;; if decide (Some i <> o) then for_ (wake_actions i ch) perform else skip) e k.
Proof.
  unfold wakeup. generalize (seq 0 NPROC). intros l. revert e k. induction l as [|i l IH]; intros e k; [done|]. cbn [for_].
  etransitivity; [apply bind_then; intros a e1 k1; apply IH|]. apply bind_from. apply bind_then. intros o e1 k1. case_decide; [|done]. cbn [for_ wake_actions perform].
  do 2 (apply bind_then; intros [] ? ?). symmetry. apply bind_skip.
Qed.

(** ** Processes that wait and processes that wake *)
Section Race.
Context (lk : lockid) (ch : chan).

(** What a process has still to do: an action, the test of the condition, the
    statement that establishes it, or waiting to be switched to again. *)
Inductive item := Do (a : act) | Test | Establish | Resume (p : nat).
Record shared := mkShared { sh_owner : gmap lockid nat; sh_procs : list proc; sh_cond : bool }.
Definition set_owner (o : gmap lockid nat) (s : shared) : shared := mkShared o (sh_procs s) (sh_cond s).
Definition upd_one (p : nat) (f : proc -> proc) (s : shared) : shared := mkShared (sh_owner s) (alter f p (sh_procs s)) (sh_cond s).

(** One action of process [i], before [r]. *)
Inductive item_step (i : nat) (s : shared) (r : list item) : item -> shared -> list item -> Prop :=
| do_acquire l : sh_owner s !! l = None -> item_step i s r (Do (Acquire l)) (set_owner (<[l := i]> (sh_owner s)) s) r
| do_release l : sh_owner s !! l = Some i -> item_step i s r (Do (Release l)) (set_owner (delete l (sh_owner s)) s) r
| do_chan p c : item_step i s r (Do (SetChan p c)) (upd_one p (set_p_chan c) s) r
| do_state p st : item_step i s r (Do (SetState p st)) (upd_one p (set_p_state st) s) r
| do_wake p c : item_step i s r (Do (WakeOne p c)) (upd_one p (wake_one c) s) r
| do_switch p : sh_owner s !! LkProc p = Some i ->
    item_step i s r (Do (Switch p)) (set_owner (delete (LkProc p) (sh_owner s)) s) (Resume p :: r)
| do_resume p x : sh_owner s !! LkProc p = None -> sh_procs s !! p = Some x -> p_state x = RUNNABLE ->
    item_step i s r (Resume p) (upd_one p (set_p_state RUNNING) (set_owner (<[LkProc p := i]> (sh_owner s)) s)) r
| do_pass : sh_cond s = true -> item_step i s r Test s r
| do_wait : sh_cond s = false -> item_step i s r Test s ((Do <$> sleep_actions i ch lk) ++ Test :: r)
| do_establish : item_step i s r Establish (mkShared (sh_owner s) (sh_procs s) true) r.

Inductive race_step : shared * list (list item) -> shared * list (list item) -> Prop :=
| race_one i s ts a r s' t : ts !! i = Some (a :: r) -> item_step i s r a s' t -> race_step (s, ts) (s', <[i := t]> ts).

(** acquire(lk); while(!condition) sleep(ch, lk); release(lk) *)
Definition waiter : list item := [Do (Acquire lk); Test; Do (Release lk)].
(** acquire(lk); condition = 1; wakeup(ch); release(lk) *)
Definition wake_rest (js : list nat) : list item := concat ((fun j => Do <$> wake_actions j ch) <$> js) ++ [Do (Release lk)].
Definition others (n i : nat) : list nat := filter (fun j => j <> i) (seq 0 n).
Definition waker (n i : nat) : list item := Do (Acquire lk) :: Establish :: wake_rest (others n i).

Inductive role := Waits | Wakes | Bystander.
Definition begins (n i : nat) (r : role) : list item := match r with Waits => waiter | Wakes => waker n i | Bystander => [] end.
Definition race_init (rs : list role) (ps : list proc) : shared * list (list item) :=
  (mkShared ∅ ps false, imap (begins (length rs)) rs).

(** ** What holds throughout *)
(** The process holds [l]: what it does next with [l] is to give it up. *)
Fixpoint needs (l : lockid) (t : list item) : bool :=
  match t with
  | [] => false
  | Do (Acquire l') :: r => if decide (l' = l) then false else needs l r
  | Do (Release l') :: r => if decide (l' = l) then true else needs l r
  | Do (Switch p) :: r => if decide (LkProc p = l) then true else needs l r
  | Resume p :: r => if decide (LkProc p = l) then false else needs l r
  | _ :: r => needs l r
  end.
(** Somebody is still going to wake [j]. *)
Definition pending (ts : list (list item)) (j : nat) : Prop := exists w t, ts !! w = Some t /\ Do (WakeOne j ch) ∈ t.

Notation rest_of n i := (drop n (Do <$> sleep_actions i ch lk) ++ [Test; Do (Release lk)]).
Inductive waits_at (i : nat) (x : proc) (cond : bool) (pend : Prop) : list item -> Prop :=
| wa_start : waits_at i x cond pend waiter
| wa_test : waits_at i x cond pend [Test; Do (Release lk)]
| wa_sleep0 : cond = false -> waits_at i x cond pend (rest_of 0 i)
| wa_sleep1 : cond = false -> waits_at i x cond pend (rest_of 1 i)
| wa_sleep2 : (cond = true -> pend) -> waits_at i x cond pend (rest_of 2 i)
| wa_sleep3 : p_chan x = ch -> (cond = true -> pend) -> waits_at i x cond pend (rest_of 3 i)
| wa_sleep4 : p_chan x = ch -> p_state x = SLEEPING -> (cond = true -> pend) -> waits_at i x cond pend (rest_of 4 i)
| wa_asleep : p_chan x = ch -> p_state x = SLEEPING /\ (cond = true -> pend) \/ p_state x = RUNNABLE -> waits_at i x cond pend (Resume i :: rest_of 5 i)
| wa_sleep5 : waits_at i x cond pend (rest_of 5 i)
| wa_sleep6 : waits_at i x cond pend (rest_of 6 i)
| wa_leave : waits_at i x cond pend [Do (Release lk)]
| wa_done : waits_at i x cond pend [].
Inductive wakes_at (n i : nat) (cond : bool) : list item -> Prop :=
| ka_start : wakes_at n i cond (waker n i)
| ka_establish : wakes_at n i cond (Establish :: wake_rest (others n i))
| ka_next js : cond = true -> i ∉ js -> wakes_at n i cond (wake_rest js)
| ka_wake j js : cond = true -> i ∉ j :: js -> wakes_at n i cond (Do (WakeOne j ch) :: Do (Release (LkProc j)) :: wake_rest js)
| ka_unlock j js : cond = true -> i ∉ j :: js -> wakes_at n i cond (Do (Release (LkProc j)) :: wake_rest js)
| ka_done : cond = true -> wakes_at n i cond [].
Definition at_role (n i : nat) (r : role) (x : proc) (cond : bool) (pend : Prop) (t : list item) : Prop :=
  match r with Waits => waits_at i x cond pend t | Wakes => wakes_at n i cond t | Bystander => t = [] end.

Record race_inv (rs : list role) (c : shared * list (list item)) : Prop := {
  ri_len : length (c.2) = length rs;
  ri_owner i l : sh_owner (c.1) !! l = Some i <-> exists t, c.2 !! i = Some t /\ needs l t = true;
  ri_at i r : rs !! i = Some r -> exists t x, c.2 !! i = Some t /\ sh_procs (c.1) !! i = Some x /\ at_role (length rs) i r x (sh_cond (c.1)) (pending (c.2) i) t
}.

Context (Hlk : forall i, lk <> LkProc i).

Lemma needs_wake l js : needs l (wake_rest js) = bool_decide (l = lk).
Proof.
  unfold wake_rest. induction js as [|j js IH]; [cbn; by repeat case_decide; try case_bool_decide; try congruence|].
  cbn [fmap list_fmap concat wake_actions app needs]. destruct (decide (LkProc j = l)) as [<-|E]; [|exact IH].
  rewrite bool_decide_eq_false_2; [done|]. intros E. symmetry in E. by apply Hlk in E.
Qed.
Ltac locks := cbn [needs drop fmap list_fmap sleep_actions app]; repeat case_decide; try done; try (exfalso; by eapply Hlk); try congruence.

(** What the next action needs of the rest. *)
Definition ready (a : item) (r : list item) : Prop :=
  match a with
  | Do (Acquire l) => needs l r = true
  | Do (Release l) => needs l r = false
  | Resume p => needs (LkProc p) r = true
  | Test => r = [Do (Release lk)]
  | _ => True
  end.
(** What the next action of process [i] may be. *)
Definition allowed (n i : nat) (a : item) (r : list item) : Prop :=
  match a with
  | Do (SetChan p _) | Do (SetState p _) | Do (Switch p) | Resume p => p = i
  | Do (WakeOne p c) => c = ch /\ p <> i /\ needs (LkProc p) r = true
  | Establish => needs lk r = true /\ forall j, (j < n)%nat -> j <> i -> Do (WakeOne j ch) ∈ r
  | _ => True
  end.

Lemma wake_rest_elem j js : j ∈ js -> Do (WakeOne j ch) ∈ wake_rest js.
Proof.
  intros Hj. unfold wake_rest. apply elem_of_app. left. apply list_elem_of_In, in_concat. exists (Do <$> wake_actions j ch).
  split; apply list_elem_of_In; [apply list_elem_of_fmap; by exists j|]. cbn. by right; left.
Qed.
Lemma others_elem n i j : j ∈ others n i <-> (j < n)%nat /\ j <> i.
Proof. unfold others. rewrite list_elem_of_filter, elem_of_seq. split; intros; split; try lia; tauto. Qed.

Lemma at_role_next n i r x cond pend a rest :
  at_role n i r x cond pend (a :: rest) -> ready a rest /\ allowed n i a rest.
Proof.
  destruct r; cbn [at_role]; [| |done].
  - intros H. inversion H; subst; cbn [ready allowed]; (split; [try done; try reflexivity; locks|try done; try reflexivity; locks]).
  - intros H. inversion H as [E|E|js Hc Hi E|j js Hc Hi E|j js Hc Hi E|]; subst; cbn [ready allowed].
    + split; [|done]. cbn. rewrite needs_wake. by apply bool_decide_eq_true_2.
    + split; [done|]. split; [rewrite needs_wake; by apply bool_decide_eq_true_2|]. intros j Hj Hne. apply wake_rest_elem, others_elem. done.
    + destruct js as [|j js]; injection E as <- <-; cbn [ready allowed]; [done|]. split; [|done]. locks.
    + split; [done|]. apply not_elem_of_cons in Hi as [Hne _]. split_and!; [done|done|]. locks.
    + split; [|done]. rewrite needs_wake. apply bool_decide_eq_false_2. intros E. symmetry in E. by apply Hlk in E.
Qed.

Lemma needs_sleep i l : needs l ((Do <$> sleep_actions i ch lk) ++ [Test; Do (Release lk)]) = needs l [Test; Do (Release lk)].
Proof. locks. Qed.

Lemma owner_step i s a rest s' t :
  ready a rest -> item_step i s rest a s' t -> (forall l, sh_owner s !! l = Some i <-> needs l (a :: rest) = true) ->
  (forall l, sh_owner s' !! l = Some i <-> needs l t = true) /\ (forall j l, j <> i -> sh_owner s' !! l = Some j <-> sh_owner s !! l = Some j).
Proof.
  intros Hr Hs Hown. destruct Hs as [l0 Hf|l0 Ho|p c|p st|p c|p Ho|p x Hf Hx Hst|Hc|Hc|]; cbn [ready sh_owner set_owner upd_one] in *;
    (split; [intros l; specialize (Hown l); revert Hown; cbn [needs]|intros j l Hne]); try tauto.
  - rewrite lookup_insert. destruct (decide (l0 = l)) as [->|E]; [intros _; by split|]. tauto.
  - rewrite lookup_insert. destruct (decide (l0 = l)) as [->|E]; [|tauto]. rewrite Hf. split; [intros [= ->]; done|done].
  - rewrite lookup_delete. destruct (decide (l0 = l)) as [->|E]; [intros _; rewrite Hr; by split|]. tauto.
  - rewrite lookup_delete. destruct (decide (l0 = l)) as [->|E]; [|tauto]. rewrite Ho. split; [done|intros [= ->]; done].
  - rewrite lookup_delete. destruct (decide (LkProc p = l)) as [<-|E]; [intros _; by split|]. tauto.
  - rewrite lookup_delete. destruct (decide (LkProc p = l)) as [<-|E]; [|tauto]. rewrite Ho. split; [done|intros [= ->]; done].
  - rewrite lookup_insert. destruct (decide (LkProc p = l)) as [<-|E]; [intros _; by split|]. tauto.
  - rewrite lookup_insert. destruct (decide (LkProc p = l)) as [<-|E]; [|tauto]. rewrite Hf. split; [intros [= ->]; done|done].
  - subst rest. rewrite needs_sleep. done.
Qed.

(** Threads that are not the one that moves. *)
Lemma at_role_mono n i r x cond (p q : Prop) t : at_role n i r x cond p t -> (p -> q) -> at_role n i r x cond q t.
Proof. destruct r; cbn; [|done|done]. intros H Hpq. destruct H; constructor; try done; try tauto. Qed.
Lemma at_role_established n i r x cond p (q : Prop) t : at_role n i r x cond p t -> needs lk t = false -> q -> at_role n i r x true q t.
Proof.
  destruct r; cbn; [| |done].
  - intros H Hn Hq. destruct H; try (constructor; try done; try tauto); revert Hn; locks.
  - intros H _ _. destruct H; by constructor.
Qed.
Lemma at_role_woken n i r x cond p (q : Prop) t : at_role n i r x cond p t -> needs (LkProc i) t = false -> at_role n i r (wake_one ch x) cond q t.
Proof.
  destruct r; cbn; [|done|done]. intros H Hn. destruct H; try (by constructor); try (revert Hn; locks).
  constructor; unfold wake_one; case_decide as E; try done; [by right|]. tauto.
Qed.

Lemma pending_step ts i a rest t j :
  ts !! i = Some (a :: rest) -> rest ⊆ t -> a <> Do (WakeOne j ch) -> pending ts j -> pending (<[i := t]> ts) j.
Proof.
  intros Hi Hsub Ha (w & u & Hw & Hin). destruct (decide (w = i)) as [->|Hne].
  - exists i, t. rewrite list_lookup_insert_eq by (by eapply lookup_lt_Some). split; [done|]. apply Hsub. rewrite Hi in Hw. injection Hw as <-.
    apply elem_of_cons in Hin as [E|?]; [congruence|done].
  - exists w, u. by rewrite list_lookup_insert_ne.
Qed.
Lemma item_step_rest i s a rest s' t : item_step i s rest a s' t -> rest ⊆ t.
Proof. intros []; try done; intros y Hy; [by right|]. apply elem_of_app. right. by right. Qed.

(** The one that moves. *)
Lemma at_role_step n i r s x a rest s' t p (q : Prop) :
  at_role n i r x (sh_cond s) p (a :: rest) -> item_step i s rest a s' t -> sh_procs s !! i = Some x -> (p -> q) ->
  exists x', sh_procs s' !! i = Some x' /\ at_role n i r x' (sh_cond s') q t.
Proof.
  intros H Hs Hx Hpq. destruct (at_role_next _ _ _ _ _ _ _ _ H) as [_ Hal]. destruct r; cbn [at_role] in *; [| |done].
  - inversion H; subst; inversion Hs; subst; cbn [sh_procs sh_cond set_owner upd_one] in *; rewrite ?list_lookup_alter_eq, ?Hx; eexists; (split; [reflexivity|]);
      try (constructor; cbn; try done; try tauto; fail).
    apply wa_sleep2. congruence.
  - assert (sh_procs s' !! i = Some x) as Hx'.
    { destruct Hs; cbn [sh_procs set_owner upd_one allowed] in *; try done; try (exfalso; inversion H as [E|E|js ? ? E|j js ? ? E|j js ? ? E|]; destruct js; discriminate).
      destruct Hal as (_ & Hne & _). by rewrite list_lookup_alter_ne. }
    exists x. split; [done|]. inversion H as [E|E|js Hc Hi E|j js Hc Hi E|j js Hc Hi E|]; [..|]; [| |destruct js as [|j js]; cbn in E| | ]; simplify_eq;
      inversion Hs; subst; cbn [sh_cond set_owner upd_one]; try (by constructor).
    + apply ka_next; [done|]. intros [_ Hne]%others_elem. done.
    + apply ka_next; [done|]. by apply not_elem_of_cons in Hi as [_ ?].
Qed.

Lemma race_inv_step rs c c' : race_inv rs c -> race_step c c' -> race_inv rs c'.
Proof.
  intros [Hlen Hown Hat] Hs. destruct Hs as [i s ts a rest s' t Hi Hstep]. cbn [fst snd] in *.
  assert (i < length ts)%nat as Hil by (by eapply lookup_lt_Some). destruct (lookup_lt_is_Some_2 rs i) as [r Hr]; [lia|].
  destruct (Hat i r Hr) as (t0 & x & Et & Hx & Ha). rewrite Hi in Et. injection Et as <-. destruct (at_role_next _ _ _ _ _ _ _ _ Ha) as [Hready Hal].
  assert (forall l, sh_owner s !! l = Some i <-> needs l (a :: rest) = true) as Hown_i.
  { intros l. rewrite Hown. split; [intros (u & Hu & Hn); rewrite Hi in Hu; by injection Hu as <-|by exists (a :: rest)]. }
  destruct (owner_step i s a rest s' t Hready Hstep Hown_i) as [Ho Hoj]. constructor; cbn [fst snd].
  - by rewrite length_insert.
  - intros j l. destruct (decide (j = i)) as [->|Hne].
    + rewrite Ho. rewrite list_lookup_insert_eq by done. split; [by exists t|]. by intros (u & [= <-] & ?).
    + rewrite Hoj, Hown by done. by rewrite list_lookup_insert_ne.
  - intros j rj Hj. destruct (decide (j = i)) as [->|Hne].
    + rewrite Hr in Hj. injection Hj as <-. exists t.
      destruct (at_role_step (length rs) i r s x a rest s' t (pending ts i) (pending (<[i := t]> ts) i) Ha Hstep Hx) as (x' & Hx' & Ha').
      { eapply pending_step; [done|by eapply item_step_rest|]. intros ->. cbn in Hal. tauto. }
      exists x'. by rewrite list_lookup_insert_eq.
    + destruct (Hat j rj Hj) as (tj & xj & Etj & Hxj & Haj). exists tj. rewrite list_lookup_insert_ne by done.
      assert (forall l, needs l (a :: rest) = true -> needs l tj = false) as Hex.
      { intros l Hl. destruct (needs l tj) eqn:E; [|done]. assert (sh_owner s !! l = Some j) as H1 by (apply Hown; by exists tj). apply Hown_i in Hl. congruence. }
      assert (a <> Do (WakeOne j ch) -> pending ts j -> pending (<[i := t]> ts) j) as Hpend.
      { intros. eapply pending_step; [done|by eapply item_step_rest|done|done]. }
      assert (j < length rs)%nat as Hjl by (by eapply lookup_lt_Some).
      assert (forall p f, p <> j -> alter f p (sh_procs s) !! j = Some xj) as Hsame by (intros p f Hp; by rewrite list_lookup_alter_ne).
      destruct Hstep as [l0 Hf|l0 Hf|p c|p st|p c|p Hf|p y Hf Hy Hst|Hc|Hc|]; cbn [allowed ready] in Hal, Hready;
        try (exists xj; split_and!; [done|done|eapply at_role_mono; [exact Haj|apply Hpend; discriminate]]; fail).
      * subst p. exists xj. split_and!; [done|apply Hsame; congruence|eapply at_role_mono; [exact Haj|apply Hpend]; discriminate].
      * subst p. exists xj. split_and!; [done|apply Hsame; congruence|eapply at_role_mono; [exact Haj|apply Hpend]; discriminate].
      * destruct Hal as (-> & Hpi & Hn). destruct (decide (p = j)) as [->|Hpj].
        -- exists (wake_one ch xj). cbn [sh_procs sh_cond upd_one]. rewrite list_lookup_alter_eq, Hxj. split_and!; [done|done|]. eapply at_role_woken; [exact Haj|by apply Hex].
        -- exists xj. split_and!; [done|by apply Hsame|eapply at_role_mono; [exact Haj|apply Hpend]; congruence].
      * subst p. exists xj. split_and!; [done|apply Hsame; congruence|eapply at_role_mono; [exact Haj|apply Hpend]; discriminate].
      * destruct Hal as [Hn Hall]. exists xj. split_and!; [done|done|]. eapply at_role_established; [exact Haj|by apply Hex|].
        exists i, rest. rewrite list_lookup_insert_eq by done. split; [done|]. by apply Hall.
Qed.

Lemma race_inv_init rs ps : length ps = length rs -> race_inv rs (race_init rs ps).
Proof.
  intros Hl. constructor; cbn [fst snd race_init sh_owner sh_procs sh_cond].
  - apply length_imap.
  - intros i l. rewrite lookup_empty. split; [done|]. intros (t & Ht & Hn). apply list_lookup_imap_Some in Ht as (r & Hr & ->). destruct r; cbn [begins] in Hn; [| |done].
    + revert Hn. unfold waiter. locks.
    + revert Hn. unfold waker. cbn [needs]. case_decide; [done|]. rewrite needs_wake. rewrite bool_decide_eq_false_2 by congruence. done.
  - intros i r Hr. destruct (lookup_lt_is_Some_2 ps i) as [x Hx]; [rewrite Hl; by eapply lookup_lt_Some|].
    exists (begins (length rs) i r), x. rewrite list_lookup_imap, Hr. split_and!; [done|done|]. destruct r; by constructor.
Qed.
Lemma race_inv_reachable rs ps c : length ps = length rs -> rtc race_step (race_init rs ps) c -> race_inv rs c.
Proof.
  intros Hl H. remember (race_init rs ps) as c0 eqn:E. pose proof (race_inv_init rs ps Hl) as Hi. rewrite <- E in Hi. clear E. induction H; eauto using race_inv_step.
Qed.

(** ** What follows *)
(** A process that sleeps on the channel, at its switch or after it. *)
Definition asleep_at (c : shared * list (list item)) (i : nat) : Prop :=
  exists r x, c.2 !! i = Some (Resume i :: r) /\ sh_procs (c.1) !! i = Some x /\ p_state x = SLEEPING.
Lemma no_sleeper_forgotten rs ps c i :
  length ps = length rs -> rtc race_step (race_init rs ps) c -> asleep_at c i -> sh_cond (c.1) = true ->
  exists w t, c.2 !! w = Some t /\ Do (WakeOne i ch) ∈ t.
Proof.
  intros Hl Hc (r0 & x & Ht & Hx & Hst) Hcond. destruct (race_inv_reachable rs ps c Hl Hc) as [Hlen _ Hat].
  destruct (lookup_lt_is_Some_2 rs i) as [r Hr]; [rewrite <- Hlen; by eapply lookup_lt_Some|]. destruct (Hat i r Hr) as (t & y & Et & Hy & Ha).
  rewrite Ht in Et. injection Et as <-. rewrite Hx in Hy. injection Hy as <-. destruct r; cbn [at_role] in Ha; [| |done].
  - inversion Ha as [| | | | | | |Hch Hor| | | |]; subst. destruct Hor as [[_ Hp]|E]; [by apply Hp|congruence].
  - inversion Ha as [| |js Hc' Hi E| | |]; destruct js; discriminate.
Qed.

(** In a state in which nobody can move, a process with something left to do
    waits for a lock or to be switched to. *)
Definition stuck (c : shared * list (list item)) : Prop := forall c', ~ race_step c c'.
Lemma stuck_head rs s ts i a rest :
  race_inv rs (s, ts) -> stuck (s, ts) -> ts !! i = Some (a :: rest) ->
  (exists l, a = Do (Acquire l) /\ sh_owner s !! l <> None) \/ (exists p, a = Resume p).
Proof.
  intros [Hlen Hown Hat] Hst Hi. assert (forall s' t, ~ item_step i s rest a s' t) as Hno by (intros s' t H; eapply Hst; econstructor; eauto). cbn [fst snd] in *.
  assert (forall l, needs l (a :: rest) = true -> sh_owner s !! l = Some i) as Ho by (intros l Hn; apply Hown; by exists (a :: rest)).
  destruct a as [[l|l|p c|p st|p|p c]| | |p]; [left|exfalso..|by right; exists p].
  - exists l. split; [done|]. intros E. eapply Hno. by constructor.
  - eapply Hno. constructor. apply Ho. cbn. by rewrite decide_True.
  - eapply Hno. by constructor.
  - eapply Hno. by constructor.
  - eapply Hno. constructor. apply Ho. cbn. by rewrite decide_True.
  - eapply Hno. by constructor.
  - destruct (sh_cond s) eqn:E; eapply Hno; by constructor.
  - eapply Hno. by constructor.
Qed.
(** Such a process holds no process lock, and the condition lock only if it waits
    for a process lock. *)
Lemma blocked_holds n i r x cond pend a rest :
  at_role n i r x cond pend (a :: rest) -> ((exists l, a = Do (Acquire l)) \/ (exists p, a = Resume p)) ->
  (forall p, needs (LkProc p) (a :: rest) = false) /\
  ((exists p, a = Do (Acquire (LkProc p))) \/ needs lk (a :: rest) = false /\ (a = Do (Acquire lk) \/ a = Resume i /\ r = Waits)).
Proof.
  intros H Ha. destruct r; cbn [at_role] in H; [| |done].
  - inversion H; subst; destruct Ha as [[l0 E]|[p0 E]]; try discriminate E; (split; [intros p; locks|]);
      first [by left; eexists|right; split; [locks|by auto]].
  - inversion H as [E|E|js Hc Hi E|j js Hc Hi E|j js Hc Hi E|]; subst; try (destruct Ha as [[l0 E]|[p0 E]]; discriminate E).
    + split; [intros p; cbn [needs]; case_decide; [done|]; rewrite needs_wake; apply bool_decide_eq_false_2; intros E; symmetry in E; by apply Hlk in E|].
      right. split; [cbn [needs]; by rewrite decide_True|by left].
    + destruct js as [|j js]; cbn in E; simplify_eq; [destruct Ha as [[l0 E]|[p0 E]]; discriminate E|].
      change (Do (Acquire (LkProc j)) :: _) with (wake_rest (j :: js)). split; [|left; by eexists].
      intros p. rewrite needs_wake. apply bool_decide_eq_false_2. intros E. symmetry in E. by apply Hlk in E.
Qed.
Lemma stuck_free rs s ts : race_inv rs (s, ts) -> stuck (s, ts) -> (forall p, sh_owner s !! LkProc p = None) /\ sh_owner s !! lk = None.
Proof.
  intros Hinv Hst. pose proof Hinv as [Hlen Hown Hat]. cbn [fst snd] in *.
  assert (forall l i, sh_owner s !! l = Some i -> exists r x a rest, ts !! i = Some (a :: rest) /\ needs l (a :: rest) = true /\ at_role (length rs) i r x (sh_cond s) (pending ts i) (a :: rest)) as Hget.
  { intros l i Ho. apply Hown in Ho as (t & Ht & Hn). destruct (lookup_lt_is_Some_2 rs i) as [r Hr]; [rewrite <- Hlen; by eapply lookup_lt_Some|].
    destruct (Hat i r Hr) as (t' & x & Ht' & _ & Ha). rewrite Ht in Ht'. injection Ht' as <-. destruct t as [|a rest]; [done|]. by exists r, x, a, rest. }
  assert (forall a rest i, ts !! i = Some (a :: rest) -> (exists l, a = Do (Acquire l)) \/ (exists p, a = Resume p)) as Hhead.
  { intros a rest i Hi. destruct (stuck_head rs s ts i a rest Hinv Hst Hi) as [(l & -> & _)|[p ->]]; eauto. }
  assert (forall p, sh_owner s !! LkProc p = None) as HP.
  { intros p. destruct (sh_owner s !! LkProc p) as [i|] eqn:E; [|done]. destruct (Hget _ _ E) as (r & x & a & rest & Hi & Hn & Ha).
    destruct (blocked_holds _ _ _ _ _ _ _ _ Ha (Hhead _ _ _ Hi)) as [Hno _]. by rewrite Hno in Hn. }
  split; [done|]. destruct (sh_owner s !! lk) as [i|] eqn:E; [|done]. destruct (Hget _ _ E) as (r & x & a & rest & Hi & Hn & Ha).
  destruct (blocked_holds _ _ _ _ _ _ _ _ Ha (Hhead _ _ _ Hi)) as [_ [[p ->]|[Hno _]]]; [|by rewrite Hno in Hn].
  destruct (stuck_head rs s ts i _ rest Hinv Hst Hi) as [(l & [= <-] & Hl)|[q E']]; [|discriminate E']. by rewrite HP in Hl.
Qed.
(** So only sleepers can be left. *)
Lemma stuck_sleeper rs s ts i r a rest :
  race_inv rs (s, ts) -> stuck (s, ts) -> rs !! i = Some r -> ts !! i = Some (a :: rest) -> a = Resume i /\ r = Waits.
Proof.
  intros Hinv Hst Hr Hi. destruct (stuck_free rs s ts Hinv Hst) as [HP HL]. destruct (ri_at _ _ Hinv i r Hr) as (t & x & Ht & _ & Ha). cbn [fst snd] in *.
  rewrite Hi in Ht. injection Ht as <-. pose proof (stuck_head rs s ts i a rest Hinv Hst Hi) as Hh.
  destruct (blocked_holds _ _ _ _ _ _ _ _ Ha) as [_ [[p ->]|[_ [->|?]]]]; [destruct Hh as [(l & -> & _)|[p ->]]; eauto|..|done].
  - destruct Hh as [(l & [= <-] & Hl)|[q E]]; [|discriminate E]. by rewrite HP in Hl.
  - destruct Hh as [(l & [= <-] & Hl)|[q E]]; [|discriminate E]. by rewrite HL in Hl.
Qed.

Lemma nobody_stuck rs ps c :
  length ps = length rs -> Wakes ∈ rs -> rtc race_step (race_init rs ps) c -> stuck c -> Forall (fun t => t = []) (c.2).
Proof.
  intros Hl Hw Hc Hst. pose proof (race_inv_reachable rs ps c Hl Hc) as Hinv. destruct c as [s ts]. pose proof Hinv as [Hlen Hown Hat]. cbn [fst snd] in *.
  assert (forall i t, rs !! i = Some Wakes -> ts !! i = Some t -> t = []) as Hdone.
  { intros i t Hr Hi. destruct t as [|a rest]; [done|]. by destruct (stuck_sleeper rs s ts i Wakes a rest Hinv Hst Hr Hi). }
  assert (sh_cond s = true) as Hcond.
  { apply list_elem_of_lookup in Hw as [w Hr]. destruct (Hat w Wakes Hr) as (t & x & Ht & _ & Ha). rewrite (Hdone w t Hr Ht) in Ha. cbn in Ha.
    inversion Ha as [| |js Hc' Hi E| | |]; done. }
  apply Forall_lookup. intros i t Hi. destruct t as [|a rest]; [done|]. exfalso. destruct (lookup_lt_is_Some_2 rs i) as [r Hr]; [rewrite <- Hlen; by eapply lookup_lt_Some|].
  destruct (stuck_sleeper rs s ts i r a rest Hinv Hst Hr Hi) as [-> ->]. destruct (Hat i Waits Hr) as (t & x & Ht & Hx & Ha). rewrite Hi in Ht. injection Ht as <-.
  destruct (stuck_free rs s ts Hinv Hst) as [HP _]. cbn [at_role] in Ha. inversion Ha as [| | | | | | |Hch Hor| | | |]; subst. destruct Hor as [[Hs Hp]|Hrun].
  - destruct (Hp Hcond) as (w & u & Hu & Hin). destruct u as [|b u]; [by apply elem_of_nil in Hin|]. destruct (lookup_lt_is_Some_2 rs w) as [rw Hrw]; [rewrite <- Hlen; by eapply lookup_lt_Some|].
    destruct (stuck_sleeper rs s ts w rw b u Hinv Hst Hrw Hu) as [-> ->]. destruct (Hat w Waits Hrw) as (t & y & Ht & _ & Ha'). rewrite Hu in Ht. injection Ht as <-. cbn [at_role] in Ha'.
    inversion Ha'; subst. cbn in Hin. revert Hin. rewrite !elem_of_cons, elem_of_nil. intros Hin. destruct_or! Hin; discriminate.
  - eapply Hst. econstructor; [exact Hi|]. eapply do_resume; [apply HP|exact Hx|exact Hrun].
Qed.
End Race.
