(* ===== verification/Proc.v ===== *)
(** * kernel/proc.c, second part: the life of a process

    Allocation and release of process structures and their page tables, growth
    of user memory under the limit [max_mem], and wait()/waitx().  fork(), exit(),
    userinit() and forkret(), which also use the file system, are in ProcFs.

    The body of wait() runs once per wakeup; a turn that finds no exited child
    sleeps and so consumes one element of the environment, which bounds the
    turns by the length of the environment plus one. *)

From S2P Require Import Prelude Machine Kstring Kernel Spinlock Kalloc Vm Printf Sched.

Section Proc.
Context `{Symbols}.

Definition procinit : K unit :=
  initlock LkPid "nextpid";;;
  initlock LkWait "wait_lock";;;
  for_ (seq 0 NPROC) (fun i =>
    initlock (LkProc i) "proc";;;
    modify (upd_proc i (set_p_kstack (KSTACK (Z.of_nat i))))).

Definition allocpid : K Z :=
  acquire LkPid;;;
  pid <- gets k_nextpid;;
  modify (fun k => set_k_nextpid (i32 (k_nextpid k + 1)) k);;;
  release LkPid;;;
  ret pid.

Definition proc_pagetable (p : nat) : K Z :=
  pagetable <- uvmcreate;;
  if decide (pagetable = 0) then ret 0 else
  r <- mappages pagetable TRAMPOLINE PGSIZE sym_trampoline (Z.lor PTE_R PTE_X);;
  if decide (r < 0) then uvmfree pagetable 0;;; ret 0 else
  tf <- gets (fun k => p_trapframe (get_proc k p));;
  r <- mappages pagetable TRAPFRAME PGSIZE tf (Z.lor PTE_R PTE_W);;
  if decide (r < 0) then
    uvmunmap pagetable TRAMPOLINE 1 false;;;
    uvmfree pagetable 0;;;
    ret 0
  else ret pagetable.

Definition proc_freepagetable (pagetable sz : Z) : K unit :=
  uvmunmap pagetable TRAMPOLINE 1 false;;;
  uvmunmap pagetable TRAPFRAME 1 false;;;
  uvmfree pagetable sz.

(** The fields freeproc() clears once the pages are gone. *)
Definition cleared (p : proc) : proc :=
  set_p_state UNUSED (set_p_xstate 0 (set_p_killed 0 (set_p_chan ChNull
    (set_p_name (<[0%nat := 0]> (p_name p)) (set_p_parent None (set_p_pid 0 (set_p_sz 0
      (set_p_pagetable 0 p)))))))).

Definition freeproc (p : nat) : K unit :=
  tf <- gets (fun k => p_trapframe (get_proc k p));;
  (if decide (tf <> 0) then kfree tf else skip);;;
  modify (upd_proc p (set_p_trapframe 0));;;
  x <- gets (fun k => get_proc k p);;
  (if decide (p_pagetable x <> 0) then proc_freepagetable (p_pagetable x) (p_sz x) else skip);;;
  modify (upd_proc p cleared).

(** The counters and the priority of a new process; the memory limit follows
    from the priority. *)
Definition fresh_stats (ticks : Z) (p : proc) : proc :=
  set_p_priority 60 (set_p_n_runs 0 (set_p_exit_time 0 (set_p_total_run_time 0 (set_p_sleep_time 0
    (set_p_start_time 0 (set_p_run_time 0 (set_p_create_time ticks p))))))).
Definition mem_limit (p : proc) : proc :=
  set_p_max_mem (if decide (p_priority p < 40) then 512 * 1024
                 else if decide (p_priority p < 60) then 256 * 1024
                 else 128 * 1024) p.
Definition first_context (p : proc) : proc :=
  set_p_context (mkContext sym_forkret (u64 (p_kstack p + PGSIZE)) (replicate 12 0)) p.

(** The part of allocproc() after the label found. *)
Definition allocproc_found (p : nat) : K (option nat) :=
  pid <- allocpid;;
  modify (upd_proc p (set_p_pid pid));;;
  modify (upd_proc p (set_p_state USED));;;
  t <- gets k_ticks;;
  modify (upd_proc p (fresh_stats t));;;
  modify (upd_proc p mem_limit);;;
  tf <- kalloc;;
  modify (upd_proc p (set_p_trapframe tf));;;
  if decide (tf = 0) then freeproc p;;; release (LkProc p);;; ret None else
  pt <- proc_pagetable p;;
  modify (upd_proc p (set_p_pagetable pt));;;
  if decide (pt = 0) then freeproc p;;; release (LkProc p);;; ret None else
  modify (upd_proc p first_context);;;
  ret (Some p).

Definition allocproc : K (option nat) :=
  r <- first_ (seq 0 NPROC) (search_body (fun p => p_state p = UNUSED)
         (fun i _ => r <- allocproc_found i;; ret (Some r)));;
  ret (default None r).

(** sbrk(): the size is kept in a 32-bit variable, and so are the sums with
    [n]. *)
Definition growproc (n : Z) : K Z :=
  p <- cur;;
  x <- gets (fun k => get_proc k p);;
  let sz := u32 (p_sz x) in
  if decide (n > 0) then
    let new_sz := u32 (sz + n) in
    if decide (new_sz > p_max_mem x) then
      printf (codes "Proceso %d excedio su limite de memoria (%d bytes)" ++ [10])
             [AInt (p_pid x); AInt (p_max_mem x)];;;
      ret (-1)
    else
      r <- uvmalloc (p_pagetable x) sz new_sz;;
      if decide (u32 r = 0) then ret (-1) else
      modify (upd_proc p (set_p_sz (u32 r)));;; ret 0
  else if decide (n < 0) then
    r <- uvmdealloc (p_pagetable x) sz (u32 (sz + n));;
    modify (upd_proc p (set_p_sz (u32 r)));;; ret 0
  else
    modify (upd_proc p (set_p_sz sz));;; ret 0.

(** The four bytes of an int. *)
Definition int_bytes (v : Z) : list Z :=
  [u8 v; u8 (v / 2 ^ 8); u8 (v / 2 ^ 16); u8 (v / 2 ^ 24)].

(** One child of the scan of wait() and waitx(): [stats] is what the routine
    stores of the child's times. *)
Definition wait_child {X} (p : nat) (addr : Z) (stats : proc -> X) (x : bool * option X) (np : nat) :
    K ((Z * option X) + bool * option X) :=
  let '(havekids, st) := x in
  parent <- gets (fun k => p_parent (get_proc k np));;
  if decide (parent <> Some p) then ret (inr (havekids, st)) else
  acquire (LkProc np);;;
  c <- gets (fun k => get_proc k np);;
  if decide (p_state c <> ZOMBIE) then release (LkProc np);;; ret (inr (true, st)) else
  let pid := p_pid c in
  let st := Some (stats c) in
  r <- (if decide (addr <> 0) then
          pt <- gets (fun k => p_pagetable (get_proc k p));;
          copyout pt addr (int_bytes (p_xstate c))
        else ret 0);;
  if decide (r < 0) then release (LkProc np);;; release LkWait;;; ret (inl (-1, st)) else
  freeproc np;;;
  release (LkProc np);;;
  release LkWait;;;
  ret (inl (pid, st)).

(** One turn of the [for(;;)]. *)
Definition wait_turn {X} (p : nat) (addr : Z) (stats : proc -> X) (st : option X) :
    K ((Z * option X) + option X) :=
  r <- scan_ (seq 0 NPROC) (wait_child p addr stats) (false, st);;
  match r with
  | inl res => ret (inl res)
  | inr (havekids, st) =>
      killed <- gets (fun k => p_killed (get_proc k p));;
      if decide (havekids = false \/ killed <> 0) then release LkWait;;; ret (inl (-1, st))
      else sleep (ChProc p) LkWait;;; ret (inr st)
  end.

Definition wait_loop {X} (addr : Z) (stats : proc -> X) : K (Z * option X) :=
  p <- cur;;
  acquire LkWait;;;
  fun e k => loop_ (S (length e)) (wait_turn p addr stats) None e k.

Definition wait (addr : Z) : K Z :=
  r <- wait_loop addr (fun _ => tt);; ret (fst r).

(** The two times waitx() stores, when a child was found. *)
Definition child_times (c : proc) : Z * Z :=
  (u32 (p_run_time c), u32 (p_exit_time c - p_create_time c - p_run_time c)).

Definition waitx (addr : Z) : K (Z * option (Z * Z)) := wait_loop addr child_times.

(** procdump() as it is built: PBS is not defined, so each process in use
    contributes a newline. *)
Definition procdump : K unit :=
  printf [10] [];;;
  for_ (seq 0 NPROC) (fun i =>
    p <- gets (fun k => get_proc k i);;
    if decide (p_state p = UNUSED) then skip else printf [10] []).

#[global] Arguments procinit : simpl never.
#[global] Arguments allocpid : simpl never.
#[global] Arguments proc_pagetable : simpl never.
#[global] Arguments proc_freepagetable : simpl never.
#[global] Arguments freeproc : simpl never.
#[global] Arguments allocproc_found : simpl never.
#[global] Arguments allocproc : simpl never.
#[global] Arguments growproc : simpl never.
#[global] Arguments wait_child : simpl never.
#[global] Arguments wait_turn : simpl never.
#[global] Arguments wait_loop : simpl never.
#[global] Arguments wait : simpl never.
#[global] Arguments waitx : simpl never.
#[global] Arguments procdump : simpl never.
End Proc.
