(* ===== verification/Sleeplock.v ===== *)
(** * kernel/sleeplock.c: locks whose waiters sleep

    A sleep lock lives in its buffer or its in-memory inode; its spinlock is
    [LkSleep l] and its waiters sleep on [ChSleep l].  The wait loop of
    acquiresleep() sleeps once per turn, so it makes at most one turn per element
    of the environment. *)

From S2P Require Import Prelude Machine Kstring Kernel Spinlock Kalloc Vm Sched.

Definition get_sl (k : kernel) (l : slid) : sleeplock :=
  match l with
  | SlBuf i => b_lock (get_buf k i)
  | SlInode i => i_lock (get_inode k i)
  end.
Definition upd_sl (l : slid) (f : sleeplock -> sleeplock) (k : kernel) : kernel :=
  match l with
  | SlBuf i => upd_buf i (fun b => set_b_lock (f (b_lock b)) b) k
  | SlInode i => upd_inode i (fun x => set_i_lock (f (i_lock x)) x) k
  end.

Definition initsleeplock (l : slid) (name : string) : K unit :=
  initlock (LkSleep l) "sleep lock";;;
  modify (upd_sl l (set_sl_name name));;;
  modify (upd_sl l (set_sl_locked 0));;;
  modify (upd_sl l (set_sl_pid 0)).

(** One test of [while (lk->locked) sleep(lk, &lk->lk)]. *)
Definition sleeplock_turn (l : slid) (_ : unit) : K (unit + unit) :=
  locked <- gets (fun k => sl_locked (get_sl k l));;
  if decide (locked <> 0) then sleep (ChSleep l) (LkSleep l);;; ret (inr tt)
  else ret (inl tt).

Definition acquiresleep (l : slid) : K unit :=
  acquire (LkSleep l);;;
  (fun e k => loop_ (S (length e)) (sleeplock_turn l) tt e k);;;
  modify (upd_sl l (set_sl_locked 1));;;
  p <- cur;;
  pid <- gets (fun k => p_pid (get_proc k p));;
  modify (upd_sl l (set_sl_pid pid));;;
  release (LkSleep l).

Definition releasesleep (l : slid) : K unit :=
  acquire (LkSleep l);;;
  modify (upd_sl l (set_sl_locked 0));;;
  modify (upd_sl l (set_sl_pid 0));;;
  wakeup (ChSleep l);;;
  release (LkSleep l).

Definition holdingsleep (l : slid) : K bool :=
  acquire (LkSleep l);;;
  x <- gets (fun k => get_sl k l);;
  r <- (if decide (sl_locked x <> 0) then
          p <- cur;;
          pid <- gets (fun k => p_pid (get_proc k p));;
          ret (bool_decide (sl_pid x = pid))
        else ret false);;
  release (LkSleep l);;;
  ret r.

Global Arguments initsleeplock : simpl never.
Global Arguments sleeplock_turn : simpl never.
Global Arguments acquiresleep : simpl never.
Global Arguments releasesleep : simpl never.
Global Arguments holdingsleep : simpl never.

(** ** Taking and releasing a sleep lock *)

Definition sl_taken (l : slid) (pid : Z) (k : kernel) : kernel :=
  upd_sl l (fun x => set_sl_pid pid (set_sl_locked 1 x)) k.
Definition sl_freed (l : slid) (k : kernel) : kernel :=
  upd_sl l (fun x => set_sl_pid 0 (set_sl_locked 0 x)) k.

Lemma upd_sl_twice l f g k : upd_sl l f (upd_sl l g k) = upd_sl l (fun x => f (g x)) k.
Proof.
  destruct l; unfold upd_sl, upd_buf, upd_inode; cbn; rewrite list_alter_alter_eq; done.
Qed.

Lemma upd_sl_taken l f l' k : upd_sl l f (lock_taken l' k) = lock_taken l' (upd_sl l f k).
Proof. by destruct l. Qed.

Lemma get_sl_taken l l' k : get_sl (lock_taken l' k) l = get_sl k l.
Proof. by destruct l. Qed.

Lemma upd_sl_cpu_ok l f k : cpu_ok k -> cpu_ok (upd_sl l f k).
Proof. by destruct l. Qed.
Lemma upd_sl_lock_free l f l' k : lock_free l' k -> lock_free l' (upd_sl l f k).
Proof. by destruct l. Qed.
Lemma upd_sl_running l f k : running (upd_sl l f k) = running k.
Proof. by destruct l. Qed.
Lemma upd_sl_proc l f k i : get_proc (upd_sl l f k) i = get_proc k i.
Proof. by destruct l. Qed.
#[export] Hint Resolve upd_sl_cpu_ok upd_sl_lock_free : xv6.

(** An uncontended acquiresleep() does not wait. *)
Lemma acquiresleep_free l e k p :
  cpu_ok k -> lock_free (LkSleep l) k -> sl_locked (get_sl k l) = 0 -> running k = Some p ->
  acquiresleep l e k = Ok tt e (sl_taken l (p_pid (get_proc k p)) k).
Proof.
  intros Hc Hl Hs Hr. unfold acquiresleep.
  rewrite (bind_Ok _ _ _ _ _ _ _ (acquire_free _ e k Hc Hl)).
  assert (loop_ (S (length e)) (sleeplock_turn l) tt e (lock_taken (LkSleep l) k)
          = Ok tt e (lock_taken (LkSleep l) k)) as Hloop.
  { cbn [loop_]. unfold sleeplock_turn at 1. unfold bind. cbn. rewrite get_sl_taken, Hs. done. }
  rewrite (bind_Ok _ _ tt e _ e (lock_taken (LkSleep l) k)) by done. cbn [bind modify].
  rewrite upd_sl_taken.
  set (k1 := upd_sl l (set_sl_locked 1) k).
  assert (cpu_ok k1) as Hc1 by (subst k1; auto with xv6).
  assert (running (lock_taken (LkSleep l) k1) = Some p) as Hr1.
  { rewrite running_taken. subst k1. by rewrite upd_sl_running. }
  rewrite (cur_ok e _ p (cpu_ok_taken _ _ Hc1) Hr1). cbn [gets].
  rewrite get_proc_taken. subst k1. rewrite upd_sl_proc, upd_sl_taken, upd_sl_twice.
  rewrite release_taken by auto with xv6. done.
Qed.

Lemma get_sl_upd l f k :
  match l with SlBuf i => (i < length (k_bcache k))%nat | SlInode i => (i < length (k_itable k))%nat end ->
  get_sl (upd_sl l f k) l = f (get_sl k l).
Proof.
  destruct l as [i|i]; intros Hi; cbn; unfold get_buf, get_inode; cbn;
    rewrite list_lookup_alter_eq;
    [destruct (lookup_lt_is_Some_2 (k_bcache k) i Hi) as [x Hx]
    |destruct (lookup_lt_is_Some_2 (k_itable k) i Hi) as [x Hx]]; by rewrite Hx.
Qed.

Lemma holdingsleep_ok l e k p :
  cpu_ok k -> lock_free (LkSleep l) k -> running k = Some p ->
  holdingsleep l e k =
  Ok (bool_decide (sl_locked (get_sl k l) <> 0 /\ sl_pid (get_sl k l) = p_pid (get_proc k p))) e k.
Proof.
  intros Hc Hl Hr. unfold holdingsleep. rewrite (bind_Ok _ _ _ _ _ _ _ (acquire_free _ e k Hc Hl)).
  cbn [bind gets]. rewrite get_sl_taken.
  destruct (decide (sl_locked (get_sl k l) <> 0)) as [Hs|Hs]; cbn [bind gets ret].
  - rewrite (cur_ok e _ p (cpu_ok_taken _ _ Hc)) by by rewrite running_taken.
    rewrite get_proc_taken, release_taken by done. f_equal.
    apply bool_decide_ext. tauto.
  - rewrite release_taken by done. f_equal. symmetry. apply bool_decide_eq_false_2. tauto.
Qed.

Lemma quiet_taken l k : (forall i, l <> LkProc i) -> quiet k -> quiet (lock_taken l k).
Proof.
  intros Hl [Hc Hn Hf]. constructor; [by apply cpu_ok_taken|done|].
  intros i Hi. apply lock_free_taken_ne; [|by apply Hf]. intros E. by apply (Hl i).
Qed.

Lemma quiet_upd_sl l f k : quiet k -> quiet (upd_sl l f k).
Proof. intros [Hc Hn Hf]. destruct l; by constructor. Qed.

(** The table after wakeup([ch]) by the executing hart. *)
Definition woken (ch : chan) (k : kernel) : kernel :=
  set_k_procs (imap (fun i p => if decide (Some i = running k) then p
                                else if decide (p_state p = SLEEPING /\ p_chan p = ch) then set_p_state RUNNABLE p else p) (k_procs k)) k.

Lemma woken_cpu_ok ch k : cpu_ok k -> cpu_ok (woken ch k).
Proof. done. Qed.
Lemma woken_lock_free ch l k : lock_free l k -> lock_free l (woken ch k).
Proof. done. Qed.
Lemma woken_quiet ch k : quiet k -> quiet (woken ch k).
Proof. intros [Hc Hn Hf]. constructor; try done. unfold woken. cbn. by rewrite length_imap. Qed.

Lemma woken_taken ch l k : woken ch (lock_taken l k) = lock_taken l (woken ch k).
Proof. unfold woken. by rewrite running_taken. Qed.

Lemma wakeup_taken ch l e k :
  (forall i, l <> LkProc i) -> quiet k ->
  wakeup ch e (lock_taken l k) = Ok tt e (lock_taken l (woken ch k)).
Proof.
  intros Hl Hq. rewrite wakeup_ok by by apply quiet_taken. rewrite <- woken_taken. reflexivity.
Qed.

Lemma woken_running ch k p : running k = Some p -> get_proc (woken ch k) p = get_proc k p.
Proof.
  intros Hr. unfold woken, get_proc. cbn. rewrite list_lookup_imap, Hr.
  destruct (k_procs k !! p); [|done]. cbn. by rewrite decide_True.
Qed.

Lemma releasesleep_ok l e k :
  quiet k -> lock_free (LkSleep l) k -> releasesleep l e k = Ok tt e (woken (ChSleep l) (sl_freed l k)).
Proof.
  intros Hq Hl. unfold releasesleep. rewrite (bind_Ok _ _ _ _ _ _ _ (acquire_free _ e k (q_cpu k Hq) Hl)).
  cbn [bind modify]. rewrite upd_sl_twice, upd_sl_taken. fold (sl_freed l k).
  assert (quiet (sl_freed l k)) as Hq' by by apply quiet_upd_sl.
  rewrite wakeup_taken by done.
  rewrite release_taken; [done|..]; [apply woken_cpu_ok, Hq'|]. by apply woken_lock_free, upd_sl_lock_free.
Qed.
