(* ===== verification/Bio.v ===== *)
(** * kernel/bio.c: the buffer cache

    Buffers are entries of [k_bcache]; the entry [HEAD] is bcache.head, and the
    LRU list is threaded through [b_next] and [b_prev] as in the source.  The
    scans of bget() follow the links; their fuel is the number of entries, which
    a scan of a well-formed list cannot use up.

    The disk driver (virtio_disk.c) is used through the class [BlockDevice]: a
    call of virtio_disk_rw() returns when the transfer between the buffer and its
    block has been made.  [cache_inv] ties the links to the abstract recency list
    and states that a block has at most one buffer. *)

From S2P Require Import Prelude Machine Kstring Kernel Spinlock Kalloc Vm Sched Sleeplock.

Definition HEAD : nat := NBUF.

(** Contents of a block of the device. *)
Definition disk_block (k : kernel) (b : Z) : list Z :=
  default (replicate (Z.to_nat BSIZE) 0) (k_disk k !! b).

(** The effect of a completed transfer. *)
Definition disk_read (i : nat) (k : kernel) : kernel :=
  upd_buf i (set_b_data (disk_block k (b_blockno (get_buf k i)))) k.
Definition block_write (b : Z) (data : list Z) (k : kernel) : kernel :=
  set_k_writes (k_writes k ++ [(b, data)]) (set_k_disk (<[b := data]> (k_disk k)) k).
Definition disk_write (i : nat) (k : kernel) : kernel :=
  block_write (b_blockno (get_buf k i)) (b_data (get_buf k i)) k.

(** The driver: [virtio_disk_rw i write]. *)
Class BlockDevice := virtio_disk_rw : nat -> Z -> K unit.
Class BlockDeviceOK (D : BlockDevice) : Prop := {
  rw_read i e k : cpu_ok k -> (i < HEAD)%nat -> virtio_disk_rw i 0 e k = Ok tt e (disk_read i k);
  rw_write i e k : cpu_ok k -> (i < HEAD)%nat -> virtio_disk_rw i 1 e k = Ok tt e (disk_write i k)
}.

(** A device that makes every transfer at once. *)
Definition sync_disk : BlockDevice :=
  fun i write => if decide (write <> 0) then modify (disk_write i) else modify (disk_read i).
#[export] Instance sync_disk_ok : BlockDeviceOK sync_disk.
Proof. by constructor. Qed.

(** ** The LRU links *)
Definition b_link (f : buf -> buf) (i : nat) : K unit := modify (upd_buf i f).
Definition nxt (k : kernel) (i : nat) : nat := b_next (get_buf k i).
Definition prv (k : kernel) (i : nat) : nat := b_prev (get_buf k i).

(** b->next = head.next; b->prev = &head; head.next->prev = b; head.next = b; *)
Definition push_front (b : nat) (k : kernel) : kernel :=
  let k := upd_buf b (set_b_next (nxt k HEAD)) k in
  let k := upd_buf b (set_b_prev HEAD) k in
  let k := upd_buf (nxt k HEAD) (set_b_prev b) k in
  upd_buf HEAD (set_b_next b) k.

(** b->next->prev = b->prev; b->prev->next = b->next; *)
Definition unlink (b : nat) (k : kernel) : kernel :=
  let k := upd_buf (nxt k b) (set_b_prev (prv k b)) k in
  upd_buf (prv k b) (set_b_next (nxt k b)) k.

(** The turn of binit() for one buffer: the sleep lock is initialised between
    the stores to the links. *)
Definition binit_one (b : nat) : K unit :=
  modify (fun k => upd_buf b (set_b_next (nxt k HEAD)) k);;;
  modify (upd_buf b (set_b_prev HEAD));;;
  initsleeplock (SlBuf b) "buffer";;;
  modify (fun k => upd_buf (nxt k HEAD) (set_b_prev b) k);;;
  modify (upd_buf HEAD (set_b_next b)).

Definition binit : K unit :=
  initlock LkBcache "bcache";;;
  modify (upd_buf HEAD (set_b_prev HEAD));;;
  modify (upd_buf HEAD (set_b_next HEAD));;;
  for_ (seq 0 NBUF) binit_one.

(** ** bget *)
Definition claim_refcnt (b : buf) : buf := set_b_refcnt (u32 (b_refcnt b + 1)) b.
Definition recycle (dev blockno : Z) (b : buf) : buf :=
  set_b_refcnt 1 (set_b_valid 0 (set_b_blockno blockno (set_b_dev dev b))).

(** Is the block already cached?  From the most recently used. *)
Definition hit_turn (dev blockno : Z) (b : nat) : K (option nat + nat) :=
  if decide (b = HEAD) then ret (inl None) else
  x <- gets (fun k => get_buf k b);;
  if decide (b_dev x = dev /\ b_blockno x = blockno) then
    modify (upd_buf b claim_refcnt);;;
    release LkBcache;;;
    acquiresleep (SlBuf b);;;
    ret (inl (Some b))
  else ret (inr (b_next x)).

(** Not cached: recycle the least recently used unused buffer. *)
Definition miss_turn (dev blockno : Z) (b : nat) : K (option nat + nat) :=
  if decide (b = HEAD) then ret (inl None) else
  x <- gets (fun k => get_buf k b);;
  if decide (b_refcnt x = 0) then
    modify (upd_buf b (recycle dev blockno));;;
    release LkBcache;;;
    acquiresleep (SlBuf b);;;
    ret (inl (Some b))
  else ret (inr (b_prev x)).

Definition bget (dev blockno : Z) : K nat :=
  acquire LkBcache;;;
  first <- gets (fun k => nxt k HEAD);;
  r <- loop_ (S (S NBUF)) (hit_turn dev blockno) first;;
  match r with
  | Some b => ret b
  | None =>
      last <- gets (fun k => prv k HEAD);;
      r <- loop_ (S (S NBUF)) (miss_turn dev blockno) last;;
      match r with
      | Some b => ret b
      | None => panic "bget: no buffers"
      end
  end.

Section Device.
Context `{D : BlockDevice}.

Definition bread (dev blockno : Z) : K nat :=
  b <- bget dev blockno;;
  valid <- gets (fun k => b_valid (get_buf k b));;
  (if decide (valid = 0)
   then virtio_disk_rw b 0;;; modify (upd_buf b (set_b_valid 1))
   else skip);;;
  ret b.

Definition bwrite (b : nat) : K unit :=
  h <- holdingsleep (SlBuf b);;
  if negb h then panic "bwrite" else
  virtio_disk_rw b 1.
End Device.

Definition brelse (b : nat) : K unit :=
  h <- holdingsleep (SlBuf b);;
  if negb h then panic "brelse" else
  releasesleep (SlBuf b);;;
  acquire LkBcache;;;
  modify (upd_buf b (fun x => set_b_refcnt (u32 (b_refcnt x - 1)) x));;;
  r <- gets (fun k => b_refcnt (get_buf k b));;
  (if decide (r = 0) then modify (unlink b);;; modify (push_front b) else skip);;;
  release LkBcache.

Definition bpin (b : nat) : K unit :=
  acquire LkBcache;;;
  modify (upd_buf b claim_refcnt);;;
  release LkBcache.

Definition bunpin (b : nat) : K unit :=
  acquire LkBcache;;;
  modify (upd_buf b (fun x => set_b_refcnt (u32 (b_refcnt x - 1)) x));;;
  release LkBcache.

Global Arguments binit_one : simpl never.
Global Arguments hit_turn : simpl never.
Global Arguments miss_turn : simpl never.
Global Arguments bget : simpl never.
Global Arguments bread : simpl never.
Global Arguments bwrite : simpl never.
Global Arguments brelse : simpl never.
Global Arguments bpin : simpl never.
Global Arguments bunpin : simpl never.
Global Arguments unlink : simpl never.
Global Arguments push_front : simpl never.

(** ** Reading an updated table *)

Lemma get_buf_upd k i j f :
  (i < length (k_bcache k))%nat ->
  get_buf (upd_buf i f k) j = if decide (i = j) then f (get_buf k j) else get_buf k j.
Proof.
  intros Hi. unfold get_buf, upd_buf. cbn. case_decide as E.
  - subst. rewrite list_lookup_alter_eq. destruct (lookup_lt_is_Some_2 _ _ Hi) as [p Hp]. by rewrite Hp.
  - by rewrite list_lookup_alter_ne.
Qed.

(** The doubly linked segment from [a] through [l] to [b]. *)
Fixpoint dll (k : kernel) (a : nat) (l : list nat) (b : nat) : Prop :=
  match l with
  | [] => nxt k a = b /\ prv k b = a
  | x :: l' => nxt k a = x /\ prv k x = a /\ dll k x l' b
  end.

Lemma dll_app k a l1 x l2 b : dll k a (l1 ++ x :: l2) b <-> dll k a l1 x /\ dll k x l2 b.
Proof. revert a. induction l1 as [|y l1 IH]; intros a; cbn; [tauto|]. rewrite IH. tauto. Qed.

(** Only the [next] of [a :: l] and the [prev] of [l ++ [b]] matter. *)
Lemma dll_frame k k' a l b :
  (forall x, x ∈ a :: l -> nxt k' x = nxt k x) -> (forall x, x ∈ l ++ [b] -> prv k' x = prv k x) ->
  dll k a l b -> dll k' a l b.
Proof.
  revert a. induction l as [|y l IH]; intros a Hn Hp; cbn.
  - intros [H1 H2]. rewrite (Hn a), (Hp b) by (by left). done.
  - intros (H1 & H2 & Hd). rewrite (Hn a), (Hp y) by (by left). split_and!; try done.
    apply IH; [| |done]; intros x Hx; [apply Hn|apply Hp]; by right.
Qed.

Lemma nxt_upd_next k i v x :
  (i < length (k_bcache k))%nat -> nxt (upd_buf i (set_b_next v) k) x = if decide (i = x) then v else nxt k x.
Proof. intros Hi. unfold nxt. rewrite get_buf_upd by done. by case_decide. Qed.
Lemma nxt_upd_prev k i v x :
  (i < length (k_bcache k))%nat -> nxt (upd_buf i (set_b_prev v) k) x = nxt k x.
Proof. intros Hi. unfold nxt. rewrite get_buf_upd by done. by case_decide. Qed.
Lemma prv_upd_prev k i v x :
  (i < length (k_bcache k))%nat -> prv (upd_buf i (set_b_prev v) k) x = if decide (i = x) then v else prv k x.
Proof. intros Hi. unfold prv. rewrite get_buf_upd by done. by case_decide. Qed.
Lemma prv_upd_next k i v x :
  (i < length (k_bcache k))%nat -> prv (upd_buf i (set_b_next v) k) x = prv k x.
Proof. intros Hi. unfold prv. rewrite get_buf_upd by done. by case_decide. Qed.
Lemma length_upd_buf i f k : length (k_bcache (upd_buf i f k)) = length (k_bcache k).
Proof. apply length_alter. Qed.

(** Unlinking a node, and linking one at the front. *)
Lemma dll_prv_in k a l i : dll k a l i -> prv k i ∈ a :: l.
Proof.
  revert a. induction l as [|x l IH]; intros a; cbn.
  - intros [_ ->]. by left.
  - intros (_ & _ & Hd). right. by apply IH.
Qed.
Lemma dll_nxt_in k i l b : dll k i l b -> nxt k i ∈ l ++ [b].
Proof. destruct l; cbn; [intros [-> _]|intros [-> _]]; by left. Qed.

Lemma dll_join k k' i l2 b :
  (forall x, nxt k' x = if decide (x = prv k i) then nxt k i else nxt k x) ->
  (forall x, prv k' x = if decide (x = nxt k i) then prv k i else prv k x) ->
  dll k i l2 b -> forall l1 a, dll k a l1 i -> NoDup (a :: l1 ++ i :: l2) -> b ∉ l1 ++ i :: l2 ->
  dll k' a (l1 ++ l2) b.
Proof.
  intros Hn Hp H2. induction l1 as [|x l1 IH]; intros a H1 Hnd Hb; cbn [app] in *.
  - destruct H1 as [_ Hpi]. apply NoDup_cons in Hnd as [Ha [Hi Hnd]%NoDup_cons].
    destruct l2 as [|y l2]; cbn in *.
    + destruct H2 as [Hni _]. rewrite Hn, Hp, Hpi, Hni. by rewrite !decide_True.
    + destruct H2 as (Hni & _ & Hd). rewrite Hn, Hp, Hpi, Hni, !decide_True by done. split_and!; try done.
      apply NoDup_cons in Hnd as [Hy Hnd]. apply (dll_frame k); [| |done]; intros z Hz; rewrite ?Hn, ?Hp, decide_False; try done.
      * rewrite Hpi. intros ->. apply Ha. by right.
      * rewrite Hni. intros ->. apply elem_of_app in Hz as [Hz| ->%list_elem_of_singleton]; [done|].
        apply Hb. right. by left.
  - destruct H1 as (H1 & H3 & H4). apply NoDup_cons in Hnd as [Ha Hnd]. cbn.
    pose proof (dll_prv_in _ _ _ _ H4) as Hpin. pose proof (dll_nxt_in _ _ _ _ H2) as Hnin.
    rewrite Hn, Hp, !decide_False.
    + split_and!; try done. apply IH; try done. intros Hin. apply Hb. by right.
    + intros ->. apply elem_of_app in Hnin as [Hnin|Hnin%list_elem_of_singleton].
      * apply NoDup_cons in Hnd as [Hx _]. apply Hx. apply elem_of_app. right. by right.
      * rewrite Hnin in Hb. apply Hb. by left.
    + intros ->. apply Ha. apply elem_of_cons in Hpin as [->|Hpin]; [by left|].
      right. apply elem_of_app. by left.
Qed.

Lemma unlink_dll k a l1 i l2 :
  NoDup (a :: l1 ++ i :: l2) -> (forall x, x ∈ a :: l1 ++ i :: l2 -> (x < length (k_bcache k))%nat) ->
  dll k a (l1 ++ i :: l2) a -> dll (unlink i k) a (l1 ++ l2) a.
Proof.
  intros Hnd Hlt [H1 H2]%dll_app.
  pose proof (dll_prv_in _ _ _ _ H1) as Hpin. pose proof (dll_nxt_in _ _ _ _ H2) as Hnin.
  assert (prv k i < length (k_bcache k))%nat as Hpl.
  { apply Hlt. apply elem_of_cons in Hpin as [->|Hpin]; [by left|]. right. apply elem_of_app. by left. }
  assert (nxt k i < length (k_bcache k))%nat as Hnl.
  { apply Hlt. apply elem_of_app in Hnin as [Hnin| ->%list_elem_of_singleton]; [|by left].
    right. apply elem_of_app. right. by right. }
  assert (nxt k i <> i) as Hne.
  { intros E. rewrite E in Hnin. apply NoDup_cons in Hnd as [Ha Hnd].
    apply NoDup_app in Hnd as (_ & _ & [Hi _]%NoDup_cons).
    apply elem_of_app in Hnin as [Hnin| ->%list_elem_of_singleton]; [done|].
    apply Ha. apply elem_of_app. right. by left. }
  unfold unlink. eapply (dll_join k _ i l2 a).
  - intros x. rewrite prv_upd_prev by done. rewrite (decide_False (P := nxt k i = i)) by done.
    rewrite nxt_upd_next by by rewrite length_upd_buf. rewrite !nxt_upd_prev by done.
    by repeat case_decide.
  - intros x. rewrite prv_upd_next by (rewrite length_upd_buf, prv_upd_prev, decide_False by done; done).
    rewrite prv_upd_prev by done. by repeat case_decide.
  - done.
  - done.
  - done.
  - by apply NoDup_cons in Hnd as [? _].
Qed.

Lemma push_front_dll k i l :
  dll k HEAD l HEAD -> i ∉ HEAD :: l -> NoDup (HEAD :: l) ->
  (forall x, x ∈ i :: HEAD :: l -> (x < length (k_bcache k))%nat) ->
  dll (push_front i k) HEAD (i :: l) HEAD.
Proof.
  intros Hd Hi Hnd Hlt. assert (i <> HEAD) as Hih by (intros ->; apply Hi; by left).
  assert (i < length (k_bcache k))%nat as Hil by (apply Hlt; by left).
  assert (HEAD < length (k_bcache k))%nat as Hhl by (apply Hlt; right; by left).
  pose proof (dll_nxt_in _ _ _ _ Hd) as Hnin.
  assert (nxt k HEAD < length (k_bcache k))%nat as Hnl.
  { apply Hlt. apply elem_of_app in Hnin as [Hnin| ->%list_elem_of_singleton]; right; [by right|by left]. }
  assert (nxt k HEAD <> i) as Hne.
  { intros E. rewrite E in Hnin. apply Hi. apply elem_of_app in Hnin as [Hnin|Hnin%list_elem_of_singleton]; [by right|done]. }
  unfold push_front. cbn zeta.
  set (k2 := upd_buf i (set_b_prev HEAD) (upd_buf i (set_b_next (nxt k HEAD)) k)).
  assert (nxt k2 HEAD = nxt k HEAD) as E2.
  { subst k2. rewrite nxt_upd_prev by by rewrite length_upd_buf. rewrite nxt_upd_next by done. by rewrite decide_False. }
  rewrite E2.
  assert (length (k_bcache k2) = length (k_bcache k)) as El by (subst k2; by rewrite !length_upd_buf).
  assert (forall x, nxt k2 x = if decide (i = x) then nxt k HEAD else nxt k x) as N2.
  { intros x. subst k2. rewrite nxt_upd_prev by by rewrite length_upd_buf. by rewrite nxt_upd_next. }
  assert (forall x, prv k2 x = if decide (i = x) then HEAD else prv k x) as P2.
  { intros x. subst k2. rewrite prv_upd_prev by by rewrite length_upd_buf. by rewrite prv_upd_next. }
  clearbody k2.
  assert (forall x, nxt (upd_buf HEAD (set_b_next i) (upd_buf (nxt k HEAD) (set_b_prev i) k2)) x =
            if decide (HEAD = x) then i else nxt k2 x) as N4.
  { intros x. rewrite nxt_upd_next by (by rewrite length_upd_buf, El). by rewrite nxt_upd_prev by by rewrite El. }
  assert (forall x, prv (upd_buf HEAD (set_b_next i) (upd_buf (nxt k HEAD) (set_b_prev i) k2)) x =
            if decide (nxt k HEAD = x) then i else prv k2 x) as P4.
  { intros x. rewrite prv_upd_next by (by rewrite length_upd_buf, El). by rewrite prv_upd_prev by by rewrite El. }
  set (k4 := upd_buf HEAD _ _) in *. clearbody k4.
  cbn [dll]. rewrite N4, P4, P2, decide_True, decide_False, decide_True by done. split_and!; [done|done|].
  destruct l as [|y l]; cbn in *.
  - destruct Hd as [Hd _]. rewrite N4, P4, N2, Hd. by rewrite decide_False, !decide_True by done.
  - destruct Hd as (Hy & _ & Hd). rewrite N4, P4, N2, Hy. rewrite decide_False, !decide_True by done.
    split_and!; try done. apply NoDup_cons in Hnd as [Hhn [Hyn Hnd]%NoDup_cons].
    apply (dll_frame k); [| |done]; intros z Hz.
    + rewrite N4, N2. rewrite !decide_False; [done|..]; intros <-.
      * apply Hi. by right.
      * done.
    + rewrite P4, P2, Hy. rewrite !decide_False; [done|..]; intros <-.
      * apply elem_of_app in Hz as [Hz|Hz%list_elem_of_singleton]; [|done]. apply Hi. right. by right.
      * apply elem_of_app in Hz as [Hz|Hz%list_elem_of_singleton]; [done|]. apply Hhn. rewrite <- Hz. by left.
Qed.

(** ** The invariant of the cache *)

(** [l] lists the buffers from the most to the least recently used.  A block of
    a real device (device 0 marks a buffer never used) has at most one buffer. *)
Record cache_inv (k : kernel) (l : list nat) : Prop := {
  ci_len : length (k_bcache k) = S NBUF;
  ci_perm : l ≡ₚ seq 0 NBUF;
  ci_links : dll k HEAD l HEAD;
  ci_unique i j : (i < NBUF)%nat -> (j < NBUF)%nat -> b_dev (get_buf k i) <> 0 ->
    b_dev (get_buf k i) = b_dev (get_buf k j) -> b_blockno (get_buf k i) = b_blockno (get_buf k j) -> i = j
}.

Definition caches (k : kernel) (dev blockno : Z) (i : nat) : Prop :=
  b_dev (get_buf k i) = dev /\ b_blockno (get_buf k i) = blockno.

Lemma ci_elem k l i : cache_inv k l -> i ∈ l <-> (i < NBUF)%nat.
Proof. intros H. rewrite (ci_perm k l H), elem_of_seq. lia. Qed.
Lemma ci_nodup k l : cache_inv k l -> NoDup (HEAD :: l).
Proof.
  intros H. apply NoDup_cons. split.
  - rewrite (ci_elem k l HEAD H). unfold HEAD. lia.
  - rewrite (ci_perm k l H). apply NoDup_seq.
Qed.
Lemma ci_length k l : cache_inv k l -> length l = NBUF.
Proof. intros H. by rewrite (ci_perm k l H), length_seq. Qed.

Lemma dll_ext k k' a l b :
  (forall i, nxt k' i = nxt k i) -> (forall i, prv k' i = prv k i) -> dll k a l b -> dll k' a l b.
Proof. intros Hn Hp. by apply dll_frame. Qed.

(** A change of one buffer that keeps its links and its block. *)
Lemma cache_inv_upd k l i f :
  cache_inv k l -> (forall b, b_next (f b) = b_next b /\ b_prev (f b) = b_prev b /\
                              b_dev (f b) = b_dev b /\ b_blockno (f b) = b_blockno b) ->
  cache_inv (upd_buf i f k) l.
Proof.
  intros [Hl Hp Hd Hu] Hf.
  assert (forall j, b_next (get_buf (upd_buf i f k) j) = b_next (get_buf k j) /\
                    b_prev (get_buf (upd_buf i f k) j) = b_prev (get_buf k j) /\
                    b_dev (get_buf (upd_buf i f k) j) = b_dev (get_buf k j) /\
                    b_blockno (get_buf (upd_buf i f k) j) = b_blockno (get_buf k j)) as E.
  { intros j. destruct (decide (i < length (k_bcache k))%nat) as [Hi|Hi].
    - rewrite get_buf_upd by done. case_decide; [apply Hf|done].
    - unfold get_buf, upd_buf. cbn. rewrite list_lookup_alter. case_decide; [subst|done].
      by rewrite lookup_ge_None_2 by lia. }
  constructor; [by rewrite length_upd_buf|done| |].
  - apply (dll_ext k); [..|done]; intros j; apply (E j).
  - intros j1 j2 H1 H2. destruct (E j1) as (_ & _ & -> & ->), (E j2) as (_ & _ & -> & ->). by apply Hu.
Qed.

(** ** The scans of bget *)

Lemma hit_none e s dev bno : forall l a fuel,
  dll s a l HEAD -> (forall x, x ∈ l -> x <> HEAD /\ ~ caches s dev bno x) -> (length l < fuel)%nat ->
  loop_ fuel (hit_turn dev bno) (nxt s a) e s = Ok None e s.
Proof.
  induction l as [|x l IH]; intros a fuel Hd Hno Hf; (destruct fuel as [|fuel]; [cbn in Hf; lia|]);
    cbn [loop_ dll length] in *.
  - destruct Hd as [-> _]. unfold bind, hit_turn. by rewrite decide_True.
  - destruct Hd as (-> & _ & Hd). destruct (Hno x) as [Hx Hc]; [by left|].
    unfold bind, hit_turn at 1. rewrite decide_False by done. cbn. rewrite decide_False by done. cbn.
    apply IH; [done| |lia]. intros y Hy. apply Hno. by right.
Qed.

Lemma hit_found e s dev bno i l2 : forall l1 a fuel,
  dll s a (l1 ++ i :: l2) HEAD -> (forall x, x ∈ l1 -> x <> HEAD /\ ~ caches s dev bno x) ->
  i <> HEAD -> caches s dev bno i -> (length l1 < fuel)%nat ->
  loop_ fuel (hit_turn dev bno) (nxt s a) e s =
  (modify (upd_buf i claim_refcnt);;; release LkBcache;;; acquiresleep (SlBuf i);;; ret (Some i)) e s.
Proof.
  induction l1 as [|x l1 IH]; intros a fuel Hd Hno Hi Hc Hf; (destruct fuel as [|fuel]; [cbn in Hf; lia|]);
    cbn [loop_ dll length app] in *.
  - destruct Hd as (-> & _ & _). unfold bind at 1, hit_turn at 1. rewrite decide_False by done. cbn.
    rewrite decide_True by done. cbn. destruct (release _ _ _) as [[] e1 s1| | |]; [|done..].
    by destruct (acquiresleep _ _ _) as [[] e2 s2| | |].
  - destruct Hd as (-> & _ & Hd). destruct (Hno x) as [Hx Hcx]; [by left|].
    unfold bind at 1, hit_turn at 1. rewrite decide_False by done. cbn. rewrite decide_False by done. cbn.
    apply IH; [done| |done|done|lia]. intros y Hy. apply Hno. by right.
Qed.

Lemma miss_none e s dev bno a : forall l b fuel,
  dll s a l b -> a = HEAD -> (forall x, x ∈ l -> x <> HEAD /\ b_refcnt (get_buf s x) <> 0) -> (length l < fuel)%nat ->
  loop_ fuel (miss_turn dev bno) (prv s b) e s = Ok None e s.
Proof.
  induction l as [|x l IH] using rev_ind; intros b fuel Hd -> Hno Hf; (destruct fuel as [|fuel]; [lia|]);
    cbn [loop_].
  - destruct Hd as [_ ->]. unfold bind, miss_turn. by rewrite decide_True.
  - apply dll_app in Hd as [Hd [_ ->]]. destruct (Hno x) as [Hx Hr]; [apply elem_of_app; right; by left|].
    unfold bind, miss_turn at 1. rewrite decide_False by done. cbn. rewrite decide_False by done. cbn.
    rewrite length_app in Hf. cbn in Hf.
    apply IH; [done|done| |lia]. intros y Hy. apply Hno. apply elem_of_app. by left.
Qed.

Lemma miss_found e s dev bno a l1 i : forall l2 b fuel,
  dll s a (l1 ++ i :: l2) b -> (forall x, x ∈ l2 -> x <> HEAD /\ b_refcnt (get_buf s x) <> 0) ->
  i <> HEAD -> b_refcnt (get_buf s i) = 0 -> (length l2 < fuel)%nat ->
  loop_ fuel (miss_turn dev bno) (prv s b) e s =
  (modify (upd_buf i (recycle dev bno));;; release LkBcache;;; acquiresleep (SlBuf i);;; ret (Some i)) e s.
Proof.
  induction l2 as [|x l2 IH] using rev_ind; intros b fuel Hd Hno Hi Hc Hf; (destruct fuel as [|fuel]; [lia|]);
    cbn [loop_].
  - apply dll_app in Hd as [_ [_ ->]]. unfold bind at 1, miss_turn at 1. rewrite decide_False by done. cbn.
    rewrite decide_True by done. cbn. destruct (release _ _ _) as [[] e1 s1| | |]; [|done..].
    by destruct (acquiresleep _ _ _) as [[] e2 s2| | |].
  - rewrite app_comm_cons, app_assoc in Hd. apply dll_app in Hd as [Hd [_ ->]].
    destruct (Hno x) as [Hx Hcx]; [apply elem_of_app; right; by left|].
    unfold bind at 1, miss_turn at 1. rewrite decide_False by done. cbn. rewrite decide_False by done. cbn.
    rewrite length_app in Hf. cbn in Hf.
    apply IH; [done| |done|done|lia]. intros y Hy. apply Hno. apply elem_of_app. by left.
Qed.

(** ** bget, bread, bwrite and brelse by a process that need not wait *)

Record io_ready (k : kernel) (p : nat) : Prop := {
  io_quiet : quiet k;
  io_bcache : lock_free LkBcache k;
  io_sleep i : (i < NBUF)%nat -> lock_free (LkSleep (SlBuf i)) k;
  io_running : running k = Some p
}.

Lemma io_ready_upd_buf k p i f : io_ready k p -> io_ready (upd_buf i f k) p.
Proof. intros [[Hc Hn Hl] Hb Hs Hr]. by repeat constructor. Qed.
Lemma io_ready_sl k p i f : io_ready k p -> io_ready (upd_sl (SlBuf i) f k) p.
Proof. apply io_ready_upd_buf. Qed.

(** Releasing the cache lock and locking the buffer. *)
Lemma lock_buffer e k p i f :
  io_ready k p -> (i < NBUF)%nat -> sl_locked (get_sl (upd_buf i f k) (SlBuf i)) = 0 ->
  (modify (upd_buf i f);;; release LkBcache;;; acquiresleep (SlBuf i);;; ret (Some i)) e
    (lock_taken LkBcache k) =
  Ok (Some i) e (sl_taken (SlBuf i) (p_pid (get_proc k p)) (upd_buf i f k)).
Proof.
  intros Hio Hi Hs. cbn [bind modify].
  change (upd_buf i f (lock_taken LkBcache k)) with (lock_taken LkBcache (upd_buf i f k)).
  destruct (io_ready_upd_buf k p i f Hio) as [Hq Hb Hsl Hr].
  rewrite release_taken by (done || apply Hq).
  rewrite (acquiresleep_free (SlBuf i) e (upd_buf i f k) p); [done|apply Hq|auto|done|done].
Qed.

Lemma list_split {A} (P : A -> Prop) `{!forall x, Decision (P x)} (l : list A) :
  (forall x, x ∈ l -> ~ P x) \/ exists l1 i l2, l = l1 ++ i :: l2 /\ P i /\ forall x, x ∈ l1 -> ~ P x.
Proof.
  induction l as [|x l IH]; [left; by intros ? ?%elem_of_nil|].
  destruct (decide (P x)) as [Hx|Hx].
  - right. exists [], x, l. split_and!; try done. by intros ? ?%elem_of_nil.
  - destruct IH as [IH|(l1 & i & l2 & -> & Hi & Hno)].
    + left. intros y [->|Hy]%elem_of_cons; auto.
    + right. exists (x :: l1), i, l2. split_and!; try done. intros y [->|Hy]%elem_of_cons; auto.
Qed.

Lemma ci_taken k l lk : cache_inv k l -> dll (lock_taken lk k) HEAD l HEAD.
Proof. intros H. apply (dll_ext k); [done..|]. apply H. Qed.

Lemma bget_hit e k p l dev bno i :
  io_ready k p -> cache_inv k l -> (i < NBUF)%nat -> dev <> 0 -> caches k dev bno i ->
  sl_locked (b_lock (get_buf k i)) = 0 ->
  bget dev bno e k = Ok i e (sl_taken (SlBuf i) (p_pid (get_proc k p)) (upd_buf i claim_refcnt k)).
Proof.
  intros Hio Hci Hi Hdev Hc Hs. unfold bget.
  rewrite (bind_Ok _ _ _ _ _ _ _ (acquire_free _ e k (q_cpu _ (io_quiet _ _ Hio)) (io_bcache _ _ Hio))).
  cbn [bind gets].
  apply (ci_elem k l i Hci) in Hi as Hin. apply list_elem_of_split in Hin as (l1 & l2 & El).
  pose proof (ci_nodup k l Hci) as Hnd. pose proof (ci_length k l Hci) as Hlen. rewrite El in Hnd, Hlen.
  assert (forall x, x ∈ l1 -> x <> HEAD /\ ~ caches (lock_taken LkBcache k) dev bno x) as Hno.
  { intros x Hx. apply NoDup_cons in Hnd as [Hh Hnd]. split.
    - intros ->. apply Hh. apply elem_of_app. by left.
    - intros [Hcx1 Hcx2]. destruct Hc as [Hc1 Hc2].
      change (b_dev (get_buf k x) = dev) in Hcx1. change (b_blockno (get_buf k x) = bno) in Hcx2.
      assert (x = i) as ->.
      { apply (ci_unique k l Hci); [|done|congruence..].
        apply (ci_elem k l x Hci). rewrite El. apply elem_of_app. by left. }
      apply NoDup_app in Hnd as (_ & Hd & _). apply (Hd i Hx). by left. }
  unfold bind at 1. rewrite (hit_found e _ dev bno i l2 l1 HEAD).
  - rewrite (lock_buffer e k p i claim_refcnt Hio Hi); [done|].
    cbn. rewrite get_buf_upd by (rewrite (ci_len k l Hci); lia). by rewrite decide_True.
  - rewrite <- El. by apply ci_taken.
  - done.
  - unfold HEAD. lia.
  - done.
  - rewrite length_app in Hlen. lia.
Qed.

(** No buffer of [k] caches the block. *)
Definition uncached (k : kernel) (dev bno : Z) : Prop :=
  forall i, (i < NBUF)%nat -> ~ caches k dev bno i.

Lemma bget_uncached e k p l dev bno :
  io_ready k p -> cache_inv k l -> uncached k dev bno ->
  bget dev bno e k =
  (r <- loop_ (S (S NBUF)) (miss_turn dev bno) (prv k HEAD);;
   match r with Some b => ret b | None => panic "bget: no buffers" end) e (lock_taken LkBcache k).
Proof.
  intros Hio Hci Hun. unfold bget.
  rewrite (bind_Ok _ _ _ _ _ _ _ (acquire_free _ e k (q_cpu _ (io_quiet _ _ Hio)) (io_bcache _ _ Hio))).
  cbn [bind gets]. unfold bind at 1. rewrite (hit_none e _ dev bno l HEAD); [done|by apply ci_taken| |].
  - intros x Hx. apply (ci_elem k l x Hci) in Hx. split; [unfold HEAD; lia|]. by apply Hun.
  - rewrite (ci_length k l Hci). lia.
Qed.

Lemma ci_not_head k l x : cache_inv k l -> x ∈ l -> x <> HEAD.
Proof. intros Hci Hx. apply (ci_elem k l x Hci) in Hx. unfold HEAD. lia. Qed.

(** The least recently used buffer with no references is recycled. *)
Lemma bget_miss e k p l1 l2 dev bno i :
  io_ready k p -> cache_inv k (l1 ++ i :: l2) -> uncached k dev bno ->
  b_refcnt (get_buf k i) = 0 -> (forall x, x ∈ l2 -> b_refcnt (get_buf k x) <> 0) ->
  sl_locked (b_lock (get_buf k i)) = 0 ->
  bget dev bno e k = Ok i e (sl_taken (SlBuf i) (p_pid (get_proc k p)) (upd_buf i (recycle dev bno) k)).
Proof.
  intros Hio Hci Hun Hr Hbusy Hs. rewrite (bget_uncached e k p _ dev bno Hio Hci Hun).
  assert (i ∈ l1 ++ i :: l2) as Hin by (apply elem_of_app; right; by left).
  apply (ci_elem _ _ _ Hci) in Hin as Hi. pose proof (ci_length _ _ Hci) as Hlen. rewrite length_app in Hlen.
  unfold bind at 1. change (prv k HEAD) with (prv (lock_taken LkBcache k) HEAD).
  rewrite (miss_found e _ dev bno HEAD l1 i l2 HEAD).
  - rewrite (lock_buffer e k p i (recycle dev bno) Hio Hi); [done|].
    cbn. rewrite get_buf_upd by (rewrite (ci_len _ _ Hci); lia). by rewrite decide_True.
  - by apply ci_taken.
  - intros x Hx. split; [|by apply Hbusy]. eapply ci_not_head; [done|]. apply elem_of_app. right. by right.
  - by eapply ci_not_head.
  - done.
  - cbn in Hlen. lia.
Qed.

Lemma bget_full e k p l dev bno :
  io_ready k p -> cache_inv k l -> uncached k dev bno ->
  (forall i, (i < NBUF)%nat -> b_refcnt (get_buf k i) <> 0) ->
  bget dev bno e k = Panic "bget: no buffers".
Proof.
  intros Hio Hci Hun Hbusy. rewrite (bget_uncached e k p _ dev bno Hio Hci Hun).
  unfold bind at 1. change (prv k HEAD) with (prv (lock_taken LkBcache k) HEAD).
  rewrite (miss_none e _ dev bno HEAD l HEAD); [done|by apply ci_taken|done| |].
  - intros x Hx. split; [by eapply ci_not_head|]. apply Hbusy. by apply (ci_elem _ _ _ Hci).
  - rewrite (ci_length _ _ Hci). lia.
Qed.

Lemma sl_taken_buf i pid k : sl_taken (SlBuf i) pid k =
  upd_buf i (fun b => set_b_lock (set_sl_pid pid (set_sl_locked 1 (b_lock b))) b) k.
Proof. done. Qed.

(** The invariant survives bget(). *)
Lemma cache_inv_claim k l i pid : cache_inv k l -> cache_inv (sl_taken (SlBuf i) pid (upd_buf i claim_refcnt k)) l.
Proof. intros H. rewrite sl_taken_buf. by do 2 (apply cache_inv_upd; [|done]). Qed.

Lemma cache_inv_recycle k l i pid dev bno :
  cache_inv k l -> (i < NBUF)%nat -> uncached k dev bno ->
  cache_inv (sl_taken (SlBuf i) pid (upd_buf i (recycle dev bno) k)) l.
Proof.
  intros Hci Hi Hun. rewrite sl_taken_buf. apply cache_inv_upd; [|done].
  assert (i < length (k_bcache k))%nat as Hl by (rewrite (ci_len _ _ Hci); lia).
  constructor; [by rewrite length_upd_buf; apply Hci|apply Hci| |].
  - apply (dll_ext k); [..|apply Hci]; intros j; unfold nxt, prv; rewrite get_buf_upd by done; by case_decide.
  - intros j1 j2 H1 H2. rewrite !get_buf_upd by done. repeat case_decide; subst; cbn; try done.
    + intros _ E1 E2. destruct (Hun j2 H2). by split.
    + intros _ E1 E2. destruct (Hun j1 H1). by split.
    + by apply (ci_unique k l Hci).
Qed.

(** Everything of a buffer but its links. *)
Definition same_contents (k k' : kernel) : Prop :=
  forall j, exists n q, get_buf k' j = set_b_prev q (set_b_next n (get_buf k j)).

Lemma get_buf_upd_any k i f j :
  get_buf (upd_buf i f k) j = get_buf k j \/ get_buf (upd_buf i f k) j = f (get_buf k j).
Proof.
  destruct (decide (i < length (k_bcache k))%nat) as [Hi|Hi].
  - rewrite get_buf_upd by done. case_decide; auto.
  - left. unfold get_buf, upd_buf. cbn. rewrite list_lookup_alter. case_decide; [subst|done].
    by rewrite lookup_ge_None_2 by lia.
Qed.

Lemma same_contents_next k k' i v : same_contents k k' -> same_contents k (upd_buf i (set_b_next v) k').
Proof.
  intros H j. destruct (H j) as (n & q & E). destruct (get_buf_upd_any k' i (set_b_next v) j) as [->| ->].
  - by exists n, q.
  - exists v, q. by rewrite E.
Qed.
Lemma same_contents_prev k k' i v : same_contents k k' -> same_contents k (upd_buf i (set_b_prev v) k').
Proof.
  intros H j. destruct (H j) as (n & q & E). destruct (get_buf_upd_any k' i (set_b_prev v) j) as [->| ->].
  - by exists n, q.
  - exists n, v. by rewrite E.
Qed.
Lemma same_contents_refl k : same_contents k k.
Proof. intros j. exists (b_next (get_buf k j)), (b_prev (get_buf k j)). by destruct (get_buf k j). Qed.
#[local] Hint Resolve same_contents_refl same_contents_next same_contents_prev : xv6.

Lemma same_contents_move i k : same_contents k (push_front i (unlink i k)).
Proof. unfold push_front, unlink. auto 20 with xv6. Qed.

Lemma length_move i k : length (k_bcache (push_front i (unlink i k))) = length (k_bcache k).
Proof. unfold push_front, unlink. cbn zeta. by rewrite !length_upd_buf. Qed.
Lemma length_unlink i k : length (k_bcache (unlink i k)) = length (k_bcache k).
Proof. unfold unlink. cbn zeta. by rewrite !length_upd_buf. Qed.

(** Moving a buffer to the front of the list. *)
Lemma cache_inv_move k l1 i l2 :
  cache_inv k (l1 ++ i :: l2) -> cache_inv (push_front i (unlink i k)) (i :: l1 ++ l2).
Proof.
  intros Hci. pose proof (ci_nodup _ _ Hci) as Hnd.
  assert (forall x, x ∈ HEAD :: l1 ++ i :: l2 -> (x < length (k_bcache k))%nat) as Hlt.
  { intros x Hx. rewrite (ci_len _ _ Hci). apply elem_of_cons in Hx as [->|Hx]; [unfold HEAD; lia|].
    apply (ci_elem _ _ _ Hci) in Hx. lia. }
  assert (HEAD :: l1 ++ i :: l2 ≡ₚ i :: HEAD :: l1 ++ l2) as Hp.
  { rewrite <- Permutation_middle. apply Permutation_swap. }
  assert (NoDup (i :: HEAD :: l1 ++ l2)) as Hnd' by by rewrite <- Hp.
  constructor.
  - rewrite length_move. apply Hci.
  - rewrite <- (ci_perm _ _ Hci). apply Permutation_middle.
  - apply NoDup_cons in Hnd' as [Hi Hnd']. apply push_front_dll; try done.
    + apply unlink_dll; try done. apply Hci.
    + intros x Hx. rewrite length_unlink. apply Hlt. by rewrite Hp.
  - intros x y Hx Hy.
    destruct (same_contents_move i k x) as (n & q & ->), (same_contents_move i k y) as (n' & q' & ->).
    by apply (ci_unique _ _ Hci).
Qed.

Lemma cache_inv_ext k k' l : k_bcache k' = k_bcache k -> cache_inv k l -> cache_inv k' l.
Proof.
  intros E Hci. assert (forall j, get_buf k' j = get_buf k j) as G by (intros j; unfold get_buf; by rewrite E).
  constructor.
  - rewrite E. apply Hci.
  - apply Hci.
  - apply (dll_ext k); [..|apply Hci]; intros j; unfold nxt, prv; by rewrite G.
  - intros i j. rewrite !G. apply Hci.
Qed.

(** The state after a buffer has been given back, before the list is adjusted. *)
Definition buf_freed (i : nat) (k : kernel) : kernel :=
  upd_buf i (fun x => set_b_refcnt (u32 (b_refcnt x - 1)) x)
    (woken (ChSleep (SlBuf i)) (sl_freed (SlBuf i) k)).

Lemma get_buf_freed k l i :
  cache_inv k l -> (i < NBUF)%nat ->
  get_buf (buf_freed i k) i =
  set_b_refcnt (u32 (b_refcnt (get_buf k i) - 1))
    (set_b_lock (set_sl_pid 0 (set_sl_locked 0 (b_lock (get_buf k i)))) (get_buf k i)).
Proof.
  intros Hci Hi. assert (i < length (k_bcache k))%nat as Hl by (rewrite (ci_len _ _ Hci); lia).
  unfold buf_freed. rewrite get_buf_upd.
  - rewrite decide_True by done. change (get_buf (woken ?c ?s) i) with (get_buf s i).
    unfold sl_freed. cbn [upd_sl]. rewrite get_buf_upd by done. by rewrite decide_True.
  - change (k_bcache (woken ?c ?s)) with (k_bcache s). unfold sl_freed. cbn [upd_sl]. by rewrite length_upd_buf.
Qed.

Lemma brelse_ok e k p l i :
  io_ready k p -> cache_inv k l -> (i < NBUF)%nat ->
  sl_locked (b_lock (get_buf k i)) <> 0 -> sl_pid (b_lock (get_buf k i)) = p_pid (get_proc k p) ->
  brelse i e k =
  Ok tt e (if decide (u32 (b_refcnt (get_buf k i) - 1) = 0)
           then push_front i (unlink i (buf_freed i k)) else buf_freed i k).
Proof.
  intros Hio Hci Hi Hs Hpid. pose proof Hio as [Hq Hb Hsl Hr]. unfold brelse.
  rewrite (bind_Ok _ _ _ _ _ _ _ (holdingsleep_ok (SlBuf i) e k p (q_cpu _ Hq) (Hsl i Hi) Hr)).
  rewrite bool_decide_eq_true_2 by done. cbn [negb].
  rewrite (bind_Ok _ _ _ _ _ _ _ (releasesleep_ok (SlBuf i) e k Hq (Hsl i Hi))).
  set (k1 := woken (ChSleep (SlBuf i)) (sl_freed (SlBuf i) k)).
  assert (cpu_ok k1 /\ lock_free LkBcache k1) as [Hc1 Hb1] by (split; [apply Hq|apply Hb]).
  rewrite (bind_Ok _ _ _ _ _ _ _ (acquire_free LkBcache e k1 Hc1 Hb1)). cbn [bind modify gets].
  change (upd_buf i _ (lock_taken LkBcache k1)) with (lock_taken LkBcache (buf_freed i k)).
  change (get_buf (lock_taken LkBcache (buf_freed i k)) i) with (get_buf (buf_freed i k) i).
  rewrite (get_buf_freed k l i Hci Hi). cbn [b_refcnt set_b_refcnt].
  assert (cpu_ok (buf_freed i k) /\ lock_free LkBcache (buf_freed i k)) as [Hc2 Hb2] by done.
  case_decide; cbn [bind modify skip ret].
  - change (push_front i (unlink i (lock_taken LkBcache (buf_freed i k))))
      with (lock_taken LkBcache (push_front i (unlink i (buf_freed i k)))).
    by rewrite release_taken.
  - by rewrite release_taken.
Qed.

Lemma cache_inv_freed k l i : cache_inv k l -> cache_inv (buf_freed i k) l.
Proof.
  intros Hci. unfold buf_freed. apply cache_inv_upd; [|done].
  apply (cache_inv_ext (sl_freed (SlBuf i) k)); [done|]. unfold sl_freed. cbn [upd_sl].
  by apply cache_inv_upd.
Qed.
