(* ===== verification/BioSpec.v ===== *)
(** * The buffer cache as a view of the disk

    [bcached k p dev c pin held]: the cache of [k] presents to process [p] the
    blocks [c] of device [dev]; block [b] is pinned [pin b] times and the process
    holds the locked buffers [held].  A block whose cached contents differ from
    the disk is pinned or held, so it is never recycled.  The operations of bio.c
    are specified against this view: bread() does not change it, a store through
    a held buffer changes one block of it, bwrite() makes the disk agree with it,
    and brelse() may be called once the block is clean or pinned. *)

From S2P Require Import Prelude Machine Kstring Kernel Spinlock Kalloc Vm Sched Sleeplock Bio.

(** Replace the value of a function at one point. *)
Definition fupd {A} (b : Z) (v : A) (f : Z -> A) : Z -> A := fun x => if decide (x = b) then v else f x.

Lemma fupd_eq {A} b (v : A) f : fupd b v f b = v.
Proof. unfold fupd. by rewrite decide_True. Qed.
Lemma fupd_ne {A} b (v : A) f x : x <> b -> fupd b v f x = f x.
Proof. intros. unfold fupd. by rewrite decide_False. Qed.

(** Everything but the buffer cache and the process table, in which a released
    buffer wakes up its waiters. *)
Definition io_frame (k k' : kernel) : Prop :=
  set_k_bcache [] (set_k_procs [] k') = set_k_bcache [] (set_k_procs [] k).

#[export] Instance io_frame_equiv : Equivalence io_frame.
Proof. split; unfold io_frame; [done|by intros k k' ->|by intros k1 k2 k3 -> ->]. Qed.

Lemma frame_log k k' : io_frame k k' -> k_log k' = k_log k.
Proof. intros H. by apply (f_equal k_log) in H. Qed.
Lemma frame_disk k k' : io_frame k k' -> k_disk k' = k_disk k.
Proof. intros H. by apply (f_equal k_disk) in H. Qed.
Lemma frame_writes k k' : io_frame k k' -> k_writes k' = k_writes k.
Proof. intros H. by apply (f_equal k_writes) in H. Qed.
Lemma frame_block k k' b : io_frame k k' -> disk_block k' b = disk_block k b.
Proof. intros H. unfold disk_block. by rewrite (frame_disk _ _ H). Qed.
Lemma frame_upd_buf i f k : io_frame k (upd_buf i f k).
Proof. done. Qed.
Lemma frame_woken ch k : io_frame k (woken ch k).
Proof. done. Qed.
#[export] Hint Resolve frame_upd_buf frame_woken : xv6.

Section Cached.
Context (p : nat) (dev : Z).

(** What the cache holds in buffer [i]: nothing yet, or a block of the view. *)
Definition buf_idle (k : kernel) (i : nat) : Prop :=
  b_dev (get_buf k i) = 0 /\ b_refcnt (get_buf k i) = 0 /\ sl_locked (b_lock (get_buf k i)) = 0.

Record buf_holds (k : kernel) (c : Z -> list Z) (pin : Z -> Z) (held : gmap Z nat) (i : nat) (b : Z) : Prop := {
  bh_block : caches k dev b i;
  bh_valid : b_valid (get_buf k i) <> 0;
  bh_data : b_data (get_buf k i) = c b;
  bh_refcnt : b_refcnt (get_buf k i) = pin b + if decide (held !! b = Some i) then 1 else 0;
  bh_lock : if decide (held !! b = Some i)
            then sl_locked (b_lock (get_buf k i)) <> 0 /\ sl_pid (b_lock (get_buf k i)) = p_pid (get_proc k p)
            else sl_locked (b_lock (get_buf k i)) = 0
}.

Record bcached (k : kernel) (c : Z -> list Z) (pin : Z -> Z) (held : gmap Z nat) : Prop := {
  bc_io : io_ready k p;
  bc_list : exists l, cache_inv k l;
  bc_dev : dev <> 0;
  bc_buf i : (i < NBUF)%nat -> buf_idle k i \/ exists b, buf_holds k c pin held i b;
  bc_held b i : held !! b = Some i -> (i < NBUF)%nat /\ caches k dev b i;
  bc_pin b : 0 <= pin b < 2 ^ 31 /\ (pin b <> 0 -> exists i, (i < NBUF)%nat /\ caches k dev b i);
  bc_clean b : c b = disk_block k b \/ pin b <> 0 \/ is_Some (held !! b);
  bc_len b : length (c b) = Z.to_nat BSIZE
}.

(** Fewer blocks are in use than there are buffers. *)
Definition bc_room (pin : Z -> Z) (held : gmap Z nat) : Prop :=
  exists s : list Z, (length s < NBUF)%nat /\ forall b, pin b <> 0 \/ is_Some (held !! b) -> b ∈ s.

Section Facts.
Context (k : kernel) (c : Z -> list Z) (pin : Z -> Z) (held : gmap Z nat).
Context (H : bcached k c pin held).

Lemma bc_length : length (k_bcache k) = S NBUF.
Proof. destruct (bc_list _ _ _ _ H) as [l Hl]. apply Hl. Qed.

Lemma bc_unique i j b : (i < NBUF)%nat -> (j < NBUF)%nat -> caches k dev b i -> caches k dev b j -> i = j.
Proof.
  intros Hi Hj [Hd1 Hb1] [Hd2 Hb2]. destruct (bc_list _ _ _ _ H) as [l Hl].
  pose proof (bc_dev _ _ _ _ H). apply (ci_unique k l Hl); congruence.
Qed.

Lemma bc_at i b : (i < NBUF)%nat -> caches k dev b i -> buf_holds k c pin held i b.
Proof.
  intros Hi Hc. pose proof (bc_dev _ _ _ _ H) as Hd. destruct (bc_buf _ _ _ _ H i Hi) as [(H0 & _)|[b' Hb']].
  - destruct Hc. congruence.
  - assert (b' = b) as -> by (destruct Hc, (bh_block _ _ _ _ _ _ Hb'); congruence). done.
Qed.

Lemma bc_held_at i b : held !! b = Some i -> (i < NBUF)%nat /\ buf_holds k c pin held i b.
Proof. intros Hh. destruct (bc_held _ _ _ _ H b i Hh). split; [done|]. by apply bc_at. Qed.

(** A buffer whose count is zero is unlocked, unpinned and not held. *)
Lemma bc_unused i :
  (i < NBUF)%nat -> b_refcnt (get_buf k i) = 0 ->
  sl_locked (b_lock (get_buf k i)) = 0 /\ forall b, caches k dev b i -> pin b = 0 /\ held !! b = None.
Proof.
  intros Hi Hr. split.
  - destruct (bc_buf _ _ _ _ H i Hi) as [(_ & _ & ?)|[b [_ _ _ Hr' Hl]]]; [done|].
    destruct (bc_pin _ _ _ _ H b). case_decide; [lia|done].
  - intros b Hc. destruct (bc_at i b Hi Hc) as [_ _ _ Hr' Hl]. destruct (bc_pin _ _ _ _ H b).
    case_decide as Hd; [lia|]. split; [lia|]. destruct (held !! b) as [j|] eqn:E; [|done].
    destruct (bc_held _ _ _ _ H b j E) as [Hj Hcj]. by rewrite (bc_unique i j b) in Hd.
Qed.

(** With room, some buffer is unused: otherwise the cached blocks would be
    more than the blocks in use. *)
Lemma bc_has_free : bc_room pin held -> exists i, (i < NBUF)%nat /\ b_refcnt (get_buf k i) = 0.
Proof.
  intros (s & Hs & Hin).
  destruct (list_split (fun i => b_refcnt (get_buf k i) = 0) (seq 0 NBUF)) as [Hall|(l1 & i & l2 & E & Hi & _)].
  2: { exists i. split; [|done]. assert (i ∈ seq 0 NBUF) as Hx%elem_of_seq; [|lia].
       rewrite E. apply elem_of_app. right. left. }
  exfalso. assert (forall i, (i < NBUF)%nat -> exists b, buf_holds k c pin held i b) as Hb.
  { intros i Hi. destruct (bc_buf _ _ _ _ H i Hi) as [(_ & Hr & _)|Hb]; [|done].
    destruct (Hall i); [apply elem_of_seq; lia|done]. }
  assert (NoDup (map (fun i => b_blockno (get_buf k i)) (seq 0 NBUF))) as Hnd.
  { apply (NoDup_fmap_2_strong _ (seq 0 NBUF)); [|apply NoDup_seq].
    intros i j Hi%elem_of_seq Hj%elem_of_seq E.
    destruct (Hb i) as [b1 [[Hd1 Hc1] _ _ _ _]]; [lia|]. destruct (Hb j) as [b2 [[Hd2 Hc2] _ _ _ _]]; [lia|].
    apply (bc_unique i j b1); [lia|lia|by split|split; congruence]. }
  assert (map (fun i => b_blockno (get_buf k i)) (seq 0 NBUF) ⊆+ s) as Hsub%submseteq_length.
  { apply NoDup_submseteq; [done|]. intros b Hx. apply list_elem_of_In, in_map_iff in Hx as (i & <- & Hi%in_seq).
    destruct (Hb i) as [b [[Hd1 Hc1] _ _ Hr _]]; [lia|]. rewrite Hc1. apply Hin.
    assert (b_refcnt (get_buf k i) <> 0) as Hnz by (apply Hall, elem_of_seq; lia).
    case_decide as Eh; [right; by eexists|left; lia]. }
  rewrite length_map, length_seq in Hsub. lia.
Qed.
End Facts.

(** ** Changing one buffer *)

(** A buffer without its list links. *)
Definition buf_core (b : buf) : buf := set_b_prev 0%nat (set_b_next 0%nat b).

Lemma core_fields x y :
  buf_core x = buf_core y ->
  b_valid x = b_valid y /\ b_dev x = b_dev y /\ b_blockno x = b_blockno y /\ b_lock x = b_lock y /\
  b_refcnt x = b_refcnt y /\ b_data x = b_data y.
Proof. intros E. by inversion E. Qed.

Lemma core_caches k k' i b :
  buf_core (get_buf k' i) = buf_core (get_buf k i) -> caches k dev b i -> caches k' dev b i.
Proof. intros (_ & Ed & Eb & _)%core_fields [Hd Hb]. split; congruence. Qed.

Lemma buf_holds_core k k' c c' pin pin' held held' i b :
  buf_core (get_buf k' i) = buf_core (get_buf k i) -> p_pid (get_proc k' p) = p_pid (get_proc k p) ->
  c' b = c b -> pin' b = pin b -> held' !! b = held !! b ->
  buf_holds k c pin held i b -> buf_holds k' c' pin' held' i b.
Proof.
  intros E Ep Ec Epin Eh [Hc Hv Hd Hr Hl]. pose proof (core_fields _ _ E) as (Ev & Edv & Eb & El & Er & Ed).
  constructor; rewrite ?Ev, ?Er, ?Ed, ?El, ?Ep, ?Ec, ?Epin, ?Eh; try done. by apply (core_caches k).
Qed.

(** The invariant after a change of buffer [i], which then holds block [b]. *)
Lemma bcached_change k k' c c' pin pin' held held' i b :
  bcached k c pin held -> (i < NBUF)%nat ->
  io_ready k' p -> (exists l, cache_inv k' l) -> p_pid (get_proc k' p) = p_pid (get_proc k p) ->
  (forall j, (j < NBUF)%nat -> j <> i -> buf_core (get_buf k' j) = buf_core (get_buf k j)) ->
  (forall x, x <> b -> c' x = c x /\ pin' x = pin x /\ held' !! x = held !! x /\ disk_block k' x = disk_block k x) ->
  (forall x, caches k dev x i -> x = b \/ pin x = 0 /\ held !! x = None) ->
  buf_holds k' c' pin' held' i b -> held' !! b = None \/ held' !! b = Some i ->
  0 <= pin' b < 2 ^ 31 -> (c' b = disk_block k' b \/ pin' b <> 0 \/ is_Some (held' !! b)) ->
  length (c' b) = Z.to_nat BSIZE -> bcached k' c' pin' held'.
Proof.
  intros H Hi Hio [l Hci] Hpid Hcore Hother Hwas Hb Hheld Hpin Hclean Hlen.
  assert (forall j x, (j < NBUF)%nat -> x <> b -> caches k dev x j -> (pin x <> 0 \/ held !! x <> None) ->
            caches k' dev x j) as Hkeep.
  { intros j x Hj Hx Hc Hu. apply (core_caches k); [|done]. apply Hcore; [done|]. intros ->.
    destruct (Hwas x Hc) as [?|[? ?]]; [done|naive_solver]. }
  constructor; [done|by exists l|apply H|..].
  - intros j Hj. destruct (decide (j = i)) as [->|Hne]; [right; by exists b|].
    pose proof (Hcore j Hj Hne) as Ecore.
    destruct (bc_buf _ _ _ _ H j Hj) as [(H1 & H2 & H3)|[x Hx]].
    + left. unfold buf_idle. destruct (core_fields _ _ Ecore) as (_ & -> & _ & -> & -> & _). done.
    + right. exists x. assert (x <> b) as Hxb.
      { intros ->. pose proof (core_caches _ _ _ _ Ecore (bh_block _ _ _ _ _ _ Hx)) as [Hd1 Hb1].
        destruct (bh_block _ _ _ _ _ _ Hb) as [Hd2 Hb2]. pose proof (bc_dev _ _ _ _ H).
        apply Hne, (ci_unique k' l Hci); congruence. }
      destruct (Hother x Hxb) as (E1 & E2 & E3 & _). by apply (buf_holds_core k k' c c' pin pin' held held').
  - intros x j Hx. destruct (decide (x = b)) as [->|Hne].
    + assert (j = i) as -> by naive_solver. split; [done|]. apply Hb.
    + destruct (Hother x Hne) as (_ & _ & E3 & _). rewrite E3 in Hx.
      destruct (bc_held _ _ _ _ H x j Hx) as [Hj Hc]. split; [done|]. apply Hkeep; [done|done|done|right; congruence].
  - intros x. destruct (decide (x = b)) as [->|Hne]; [split; [done|]; intros _; exists i; split; [done|apply Hb]|].
    destruct (Hother x Hne) as (_ & -> & _). destruct (bc_pin _ _ _ _ H x) as [Hp Hq]. split; [done|].
    intros Hnz. destruct (Hq Hnz) as (j & Hj & Hc). exists j. auto.
  - intros x. destruct (decide (x = b)) as [->|Hne]; [done|].
    destruct (Hother x Hne) as (-> & -> & -> & ->). apply H.
  - intros x. destruct (decide (x = b)) as [->|Hne]; [done|]. destruct (Hother x Hne) as (-> & _). apply H.
Qed.

Lemma upd_buf_twice i f g k : upd_buf i f (upd_buf i g k) = upd_buf i (fun x => f (g x)) k.
Proof. unfold upd_buf. cbn. by rewrite list_alter_alter_eq. Qed.

(** The same for a change of the fields of one buffer, links apart. *)
Lemma bcached_upd k c c' pin pin' held held' i b f :
  bcached k c pin held -> (i < NBUF)%nat -> (exists l, cache_inv (upd_buf i f k) l) ->
  (forall x, x <> b -> c' x = c x /\ pin' x = pin x /\ held' !! x = held !! x) ->
  (forall x, caches k dev x i -> x = b \/ pin x = 0 /\ held !! x = None) ->
  buf_holds (upd_buf i f k) c' pin' held' i b -> held' !! b = None \/ held' !! b = Some i ->
  0 <= pin' b < 2 ^ 31 -> (c' b = disk_block k b \/ pin' b <> 0 \/ is_Some (held' !! b)) ->
  length (c' b) = Z.to_nat BSIZE -> bcached (upd_buf i f k) c' pin' held'.
Proof.
  intros H Hi Hci Hother Hwas Hb Hheld Hpin Hclean Hlen.
  apply (bcached_change k _ c c' pin pin' held held' i b); try done.
  - apply io_ready_upd_buf, H.
  - intros j Hj Hne. rewrite get_buf_upd by (rewrite (bc_length _ _ _ _ H); lia). by rewrite decide_False.
  - intros x Hx. destruct (Hother x Hx) as (? & ? & ?). done.
Qed.

Lemma get_buf_self k c pin held i f :
  bcached k c pin held -> (i < NBUF)%nat -> get_buf (upd_buf i f k) i = f (get_buf k i).
Proof. intros H Hi. rewrite get_buf_upd by (rewrite (bc_length _ _ _ _ H); lia). by rewrite decide_True. Qed.

(** ** bread *)

Definition claimed (pid : Z) (x : buf) : buf :=
  set_b_lock (set_sl_pid pid (set_sl_locked 1 (b_lock x))) (claim_refcnt x).
Definition fetched (pid b : Z) (data : list Z) (x : buf) : buf :=
  set_b_valid 1 (set_b_data data (set_b_lock (set_sl_pid pid (set_sl_locked 1 (b_lock x))) (recycle dev b x))).

Section Ops.
Context {D : BlockDevice} {DOK : BlockDeviceOK D}.
Context (e : list (kernel -> kernel)) (k : kernel) (c : Z -> list Z) (pin : Z -> Z) (held : gmap Z nat).
Context (H : bcached k c pin held).

Lemma bread_hit i b :
  (i < NBUF)%nat -> caches k dev b i -> held !! b = None ->
  exists k', bread dev b e k = Ok i e k' /\ bcached k' c pin (<[b := i]> held) /\ io_frame k k'.
Proof.
  intros Hi Hc Hn. pose proof (bc_at _ _ _ _ H i b Hi Hc) as [_ Hv Hd Hr Hl].
  rewrite decide_False in Hl by congruence. rewrite decide_False in Hr by congruence.
  destruct (bc_list _ _ _ _ H) as [l Hci]. destruct (bc_pin _ _ _ _ H b) as [Hp _].
  set (pid := p_pid (get_proc k p)).
  assert (sl_taken (SlBuf i) pid (upd_buf i claim_refcnt k) = upd_buf i (claimed pid) k) as E.
  { by rewrite sl_taken_buf, upd_buf_twice. }
  pose proof (cache_inv_claim k l i pid Hci) as Hci'. rewrite E in Hci'.
  exists (upd_buf i (claimed pid) k). split; [|split; [|done]].
  - unfold bread. rewrite (bind_Ok _ _ _ _ _ _ _ (bget_hit e k p l dev b i (bc_io _ _ _ _ H) Hci Hi (bc_dev _ _ _ _ H) Hc Hl)).
    fold pid. rewrite E. cbn [bind gets]. rewrite (get_buf_self k c pin held) by done.
    rewrite decide_False by done. done.
  - apply (bcached_upd k c c pin pin held _ i b); try done.
    + by exists l.
    + intros x Hx. split_and!; try done. by rewrite lookup_insert_ne.
    + intros x Hx. left. destruct Hx, Hc; congruence.
    + constructor; unfold caches; rewrite ?(get_buf_self k c pin held) by done; try done.
      * cbn. rewrite lookup_insert_eq, decide_True by done. rewrite Hr, Z.add_0_r. apply u32_small. lia.
      * rewrite lookup_insert_eq, decide_True by done. done.
    + right. by rewrite lookup_insert_eq.
    + right. right. rewrite lookup_insert_eq. by eexists.
    + apply H.
Qed.

(** The last buffer in list order that is not in use. *)
Lemma bc_last_free l :
  cache_inv k l -> bc_room pin held ->
  exists l1 i l2, l = l1 ++ i :: l2 /\ (i < NBUF)%nat /\ b_refcnt (get_buf k i) = 0 /\
    forall x, x ∈ l2 -> b_refcnt (get_buf k x) <> 0.
Proof.
  intros Hci Hroom. destruct (bc_has_free _ _ _ _ H Hroom) as (j & Hj & Hrj).
  destruct (list_split (fun i => b_refcnt (get_buf k i) = 0) (reverse l)) as [Hno|(l1 & i & l2 & E & Hi & Hno)].
  - destruct (Hno j); [|done]. by apply elem_of_reverse, (ci_elem k l j Hci).
  - apply (f_equal reverse) in E. rewrite reverse_involutive, reverse_app, reverse_cons, <- app_assoc in E.
    exists (reverse l2), i, (reverse l1). split_and!; [done| |done|].
    + apply (ci_elem k l i Hci). rewrite E. apply elem_of_app. right. left.
    + intros x Hx Hz. by apply (Hno x); [apply elem_of_reverse|].
Qed.

Lemma bread_miss b :
  uncached k dev b -> held !! b = None -> bc_room pin held ->
  exists i k', (i < NBUF)%nat /\ bread dev b e k = Ok i e k' /\ bcached k' c pin (<[b := i]> held) /\ io_frame k k'.
Proof.
  intros Hun Hn Hroom. destruct (bc_list _ _ _ _ H) as [l Hci].
  destruct (bc_last_free l Hci Hroom) as (l1 & i & l2 & El & Hi & Hr & Hbusy).
  destruct (bc_unused _ _ _ _ H i Hi Hr) as [Hl Hfree].
  assert (pin b = 0) as Hpin.
  { destruct (bc_pin _ _ _ _ H b) as [_ Hp]. destruct (decide (pin b = 0)) as [|Hnz]; [done|].
    destruct (Hp Hnz) as (j & Hj & Hcj). by destruct (Hun j Hj). }
  assert (c b = disk_block k b) as Ecb.
  { destruct (bc_clean _ _ _ _ H b) as [?|[?|[? ?]]]; [done|congruence..]. }
  set (pid := p_pid (get_proc k p)).
  assert (get_buf (sl_taken (SlBuf i) pid (upd_buf i (recycle dev b) k)) i =
          set_b_lock (set_sl_pid pid (set_sl_locked 1 (b_lock (get_buf k i)))) (recycle dev b (get_buf k i))) as Eg.
  { rewrite sl_taken_buf, upd_buf_twice. by rewrite (get_buf_self k c pin held) by done. }
  assert (upd_buf i (set_b_valid 1) (disk_read i (sl_taken (SlBuf i) pid (upd_buf i (recycle dev b) k))) =
          upd_buf i (fetched pid b (disk_block k b)) k) as E.
  { unfold disk_read. rewrite Eg, sl_taken_buf, !upd_buf_twice. done. }
  exists i, (upd_buf i (fetched pid b (disk_block k b)) k). split_and!; [done| | |done].
  - unfold bread. rewrite El in Hci.
    rewrite (bind_Ok _ _ _ _ _ _ _ (bget_miss e k p l1 l2 dev b i (bc_io _ _ _ _ H) Hci Hun Hr Hbusy Hl)).
    fold pid. cbn [bind gets]. rewrite Eg. cbn [b_valid set_b_lock recycle set_b_refcnt set_b_valid].
    rewrite decide_True by done. cbn [bind].
    rewrite rw_read; [|by apply upd_sl_cpu_ok, H|unfold HEAD; lia].
    cbn [modify ret]. by rewrite E.
  - rewrite <- E. pose proof (cache_inv_recycle k l i pid dev b Hci Hi Hun) as Hci'.
    apply (bcached_change k _ c c pin pin held _ i b); try done.
    + do 4 apply io_ready_upd_buf. apply H.
    + exists l. unfold disk_read. by do 2 (apply cache_inv_upd; [|done]).
    + intros j Hj Hne. rewrite E. rewrite get_buf_upd by (rewrite (bc_length _ _ _ _ H); lia). by rewrite decide_False.
    + intros x Hx. split_and!; try done. by rewrite lookup_insert_ne.
    + intros x Hx. right. by apply Hfree.
    + rewrite E. constructor; unfold caches; rewrite ?(get_buf_self k c pin held) by done; try done.
      * cbn. by rewrite lookup_insert_eq, Hpin, decide_True.
      * rewrite lookup_insert_eq, decide_True by done. done.
    + right. by rewrite lookup_insert_eq.
    + rewrite Hpin. lia.
    + right. right. rewrite lookup_insert_eq. by eexists.
    + apply H.
Qed.

(** bread() returns a locked buffer with the contents of the block. *)
Lemma bread_view b :
  held !! b = None -> bc_room pin held \/ pin b <> 0 ->
  exists i k', bread dev b e k = Ok i e k' /\ bcached k' c pin (<[b := i]> held) /\ io_frame k k'.
Proof.
  intros Hn Hroom.
  destruct (list_split (fun i => b_dev (get_buf k i) = dev /\ b_blockno (get_buf k i) = b) (seq 0 NBUF))
    as [Hno|(l1 & i & l2 & E & Hc & _)].
  - assert (uncached k dev b) as Hun by (intros i Hi; apply Hno, elem_of_seq; lia).
    assert (bc_room pin held) as Hroom'.
    { destruct Hroom as [|Hp]; [done|]. destruct (bc_pin _ _ _ _ H b) as [_ Hq].
      destruct (Hq Hp) as (i & Hi & Hc). by destruct (Hun i Hi). }
    destruct (bread_miss b Hun Hn Hroom') as (i & k' & _ & ?). eauto.
  - assert (i < NBUF)%nat as Hi. { assert (i ∈ seq 0 NBUF) as Hx%elem_of_seq; [|lia]. rewrite E. apply elem_of_app. right. left. }
    destruct (bread_hit i b Hi Hc Hn) as (k' & ?). eauto.
Qed.

(** ** Stores through a held buffer, and bwrite *)

Lemma store_view b i d :
  held !! b = Some i -> length d = Z.to_nat BSIZE ->
  bcached (upd_buf i (set_b_data d) k) (fupd b d c) pin held.
Proof.
  intros Hh Hlen. destruct (bc_held_at _ _ _ _ H i b Hh) as [Hi [Hc Hv Hd Hr Hl]].
  destruct (bc_list _ _ _ _ H) as [l Hci]. destruct (bc_pin _ _ _ _ H b) as [Hp _].
  apply (bcached_upd k c _ pin pin held held i b); try done.
  - exists l. by apply cache_inv_upd.
  - intros x Hx. by rewrite fupd_ne.
  - intros x Hx. left. destruct Hx, Hc; congruence.
  - constructor; unfold caches; rewrite ?(get_buf_self k c pin held) by done; try done. by rewrite fupd_eq.
  - by right.
  - right. right. by eexists.
  - by rewrite fupd_eq.
Qed.

Lemma block_write_disk b d x : disk_block (block_write b d k) x = fupd b d (disk_block k) x.
Proof.
  unfold disk_block, block_write, fupd. cbn. case_decide as E.
  - subst. by rewrite lookup_insert_eq.
  - by rewrite lookup_insert_ne.
Qed.

Lemma bwrite_view b i :
  held !! b = Some i ->
  bwrite i e k = Ok tt e (block_write b (c b) k) /\ bcached (block_write b (c b) k) c pin held.
Proof.
  intros Hh. destruct (bc_held_at _ _ _ _ H i b Hh) as [Hi Hb]. pose proof Hb as [Hc Hv Hd Hr Hl].
  rewrite decide_True in Hl by done. destruct (bc_io _ _ _ _ H) as [Hq Hbl Hsl Hrun].
  split.
  - unfold bwrite. rewrite (bind_Ok _ _ _ _ _ _ _ (holdingsleep_ok (SlBuf i) e k p (q_cpu _ Hq) (Hsl i Hi) Hrun)).
    rewrite bool_decide_eq_true_2 by done. cbn [negb].
    rewrite rw_write; [|apply Hq|unfold HEAD; lia]. unfold disk_write. rewrite Hd.
    by destruct Hc as [_ ->].
  - destruct (bc_list _ _ _ _ H) as [l Hci].
    apply (bcached_change k _ c c pin pin held held i b); try done.
    + by repeat constructor; try apply Hq.
    + exists l. by apply (cache_inv_ext k).
    + intros x Hx. split_and!; try done. by rewrite block_write_disk, fupd_ne.
    + intros x Hx. left. destruct Hx, Hc; congruence.
    + by destruct Hb; constructor.
    + by right.
    + apply H.
    + right. right. by eexists.
    + apply H.
Qed.

(** ** brelse *)
Lemma same_core k1 k2 j : same_contents k1 k2 -> buf_core (get_buf k2 j) = buf_core (get_buf k1 j).
Proof. intros Hs. destruct (Hs j) as (n & q & ->). done. Qed.

Lemma pid_running ch (k1 : kernel) : running k1 = Some p -> get_proc (woken ch k1) p = get_proc k1 p.
Proof. apply woken_running. Qed.

Lemma io_ready_freed i : (i < NBUF)%nat -> io_ready (buf_freed i k) p.
Proof.
  intros Hi. apply io_ready_upd_buf. destruct (bc_io _ _ _ _ H) as [Hq Hb Hs Hr].
  constructor; try done. apply woken_quiet. by apply quiet_upd_sl.
Qed.

Lemma freed_core i j :
  j <> i -> buf_core (get_buf (buf_freed i k) j) = buf_core (get_buf k j).
Proof.
  intros Hne. unfold buf_freed, get_buf, upd_buf, sl_freed, upd_sl, woken; cbn; by rewrite !list_lookup_alter_ne.
Qed.

(** A buffer is given back once its block is clean or pinned. *)
Lemma brelse_view b i :
  held !! b = Some i -> c b = disk_block k b \/ pin b <> 0 ->
  exists k', brelse i e k = Ok tt e k' /\ bcached k' c pin (delete b held) /\ io_frame k k'.
Proof.
  intros Hh Hclean. destruct (bc_held_at _ _ _ _ H i b Hh) as [Hi [Hc Hv Hd Hr Hl]].
  rewrite decide_True in Hl by done. rewrite decide_True in Hr by done. destruct Hl as [Hl1 Hl2].
  destruct (bc_list _ _ _ _ H) as [l Hci]. destruct (bc_pin _ _ _ _ H b) as [Hp _].
  assert (u32 (b_refcnt (get_buf k i) - 1) = pin b) as Hu by (rewrite Hr, u32_small; lia).
  set (k1 := buf_freed i k).
  set (k' := if decide (u32 (b_refcnt (get_buf k i) - 1) = 0) then push_front i (unlink i k1) else k1).
  pose proof (get_buf_freed k l i Hci Hi) as Eg. fold k1 in Eg. rewrite Hu in Eg.
  assert (forall j, buf_core (get_buf k' j) = buf_core (get_buf k1 j)) as Hcore.
  { intros j. subst k'. case_decide; [|done]. by apply same_core, same_contents_move. }
  assert (io_frame k k' /\ k_procs k' = k_procs k1 /\ io_ready k' p) as (Hf & Ep & Hio').
  { pose proof (io_ready_freed i Hi) as Hio. subst k'. case_decide; [|done].
    split_and!; try done. unfold push_front, unlink. do 6 apply io_ready_upd_buf. done. }
  exists k'. split; [|split; [|done]].
  { rewrite (brelse_ok e k p l i (bc_io _ _ _ _ H) Hci Hi Hl1 Hl2). subst k'. by case_decide. }
  apply (bcached_change k k' c c pin pin held _ i b); try done.
  - subst k'. pose proof (cache_inv_freed k l i Hci) as Hf'. case_decide; [|by exists l].
    apply (ci_elem k l i Hci) in Hi as Hin. apply list_elem_of_split in Hin as (l1 & l2 & ->).
    exists (i :: l1 ++ l2). by apply cache_inv_move.
  - unfold get_proc at 1. rewrite Ep. fold (get_proc k1 p). f_equal.
    apply (pid_running (ChSleep (SlBuf i)) (sl_freed (SlBuf i) k)), H.
  - intros j Hj Hne. rewrite Hcore. by apply freed_core.
  - intros x Hx. split_and!; try done; [by rewrite lookup_delete_ne|]. by apply frame_block.
  - intros x Hx. left. destruct Hx, Hc; congruence.
  - pose proof (Hcore i) as Ei. rewrite Eg in Ei. apply core_fields in Ei as (Ev & Edv & Eb & El & Er & Ed).
    cbn in Ev, Edv, Eb, El, Er, Ed.
    constructor; unfold caches; rewrite ?Ev, ?Edv, ?Eb, ?El, ?Er, ?Ed; try done.
    + rewrite lookup_delete_eq, decide_False by done. lia.
    + by rewrite lookup_delete_eq, decide_False.
  - left. by rewrite lookup_delete_eq.
  - rewrite (frame_block _ _ _ Hf). tauto.
  - apply H.
Qed.

(** ** bpin and bunpin *)
Lemma recount_view b i f :
  held !! b = Some i -> 0 <= pin b + f < 2 ^ 31 ->
  bcached (upd_buf i (fun x => set_b_refcnt (u32 (b_refcnt x + f)) x) k) c (fupd b (pin b + f) pin) held.
Proof.
  intros Hh Hf. destruct (bc_held_at _ _ _ _ H i b Hh) as [Hi [Hc Hv Hd Hr Hl]].
  destruct (bc_list _ _ _ _ H) as [l Hci]. rewrite decide_True in Hr by done.
  apply (bcached_upd k c _ pin _ held held i b); try done.
  - exists l. by apply cache_inv_upd.
  - intros x Hx. by rewrite fupd_ne.
  - intros x Hx. left. destruct Hx, Hc; congruence.
  - constructor; unfold caches; rewrite ?(get_buf_self k c pin held) by done; try done.
    cbn. rewrite decide_True, fupd_eq, Hr, u32_small by (done || lia). lia.
  - by right.
  - by rewrite fupd_eq.
  - right. right. by eexists.
  - apply H.
Qed.

Lemma bpin_view b i :
  held !! b = Some i -> pin b < 2 ^ 31 - 1 ->
  exists k', bpin i e k = Ok tt e k' /\ bcached k' c (fupd b (pin b + 1) pin) held /\ io_frame k k'.
Proof.
  intros Hh Hp. destruct (bc_pin _ _ _ _ H b) as [Hp' _].
  exists (upd_buf i claim_refcnt k). split; [|split; [apply (recount_view b i 1); [done|lia]|done]].
  destruct (bc_io _ _ _ _ H) as [Hq Hb Hs Hr]. unfold bpin.
  rewrite (bind_Ok _ _ _ _ _ _ _ (acquire_free LkBcache e k (q_cpu _ Hq) Hb)).
  rewrite (bind_Ok (modify _) _ tt e (lock_taken LkBcache k) e (lock_taken LkBcache (upd_buf i claim_refcnt k)) eq_refl).
  apply release_taken; [apply Hq|done].
Qed.

Lemma bunpin_view b i :
  held !! b = Some i -> pin b <> 0 ->
  exists k', bunpin i e k = Ok tt e k' /\ bcached k' c (fupd b (pin b - 1) pin) held /\ io_frame k k'.
Proof.
  intros Hh Hp. destruct (bc_pin _ _ _ _ H b) as [Hp' _].
  set (f := fun x => set_b_refcnt (u32 (b_refcnt x - 1)) x).
  exists (upd_buf i f k). split; [|split; [apply (recount_view b i (-1)); [done|lia]|done]].
  destruct (bc_io _ _ _ _ H) as [Hq Hb Hs Hr]. unfold bunpin.
  rewrite (bind_Ok _ _ _ _ _ _ _ (acquire_free LkBcache e k (q_cpu _ Hq) Hb)).
  rewrite (bind_Ok (modify _) _ tt e (lock_taken LkBcache k) e (lock_taken LkBcache (upd_buf i f k)) eq_refl).
  apply release_taken; [apply Hq|done].
Qed.
End Ops.
End Cached.

(** The view and the pin counts matter pointwise. *)
Lemma bcached_ext p dev k c c' pin pin' held :
  (forall b, c b = c' b) -> (forall b, pin b = pin' b) ->
  bcached p dev k c pin held -> bcached p dev k c' pin' held.
Proof.
  intros Ec Ep [H1 H2 H3 H4 H5 H6 H7 H8]. constructor; try done.
  - intros i Hi. destruct (H4 i Hi) as [?|[b [B1 B2 B3 B4 B5]]]; [by left|]. right. exists b.
    constructor; try done; [by rewrite <- Ec|by rewrite <- Ep].
  - intros b. rewrite <- Ep. apply H6.
  - intros b. rewrite <- Ec, <- Ep. apply H7.
  - intros b. by rewrite <- Ec.
Qed.

(** The cache does not depend on the in-memory log. *)
Lemma bcached_upd_log p dev k c pin held f :
  bcached p dev k c pin held -> bcached p dev (upd_log f k) c pin held.
Proof.
  intros [[[Hc Hn Hl] Hb Hs Hr] [l [? ? ? ?]] ? H4 ? ? ? ?].
  assert (quiet (upd_log f k)) as Hq by (constructor; assumption).
  assert (io_ready (upd_log f k) p) as Hio by (constructor; assumption).
  constructor; try assumption.
  - exists l. constructor; try done. by apply (dll_ext k).
  - intros i Hi. destruct (H4 i Hi) as [?|[b [B1 B2 B3 B4 B5]]]; [by left|]. right. exists b. by constructor.
Qed.

Lemma bcached_set_sb p dev k c pin held sb : bcached p dev k c pin held -> bcached p dev (set_k_sb sb k) c pin held.
Proof.
  intros [[[Hc Hn Hl] Hb Hs Hr] [l [? ? ? ?]] ? H4 ? ? ? ?].
  assert (quiet (set_k_sb sb k)) as Hq by (constructor; assumption).
  assert (io_ready (set_k_sb sb k) p) as Hio by (constructor; assumption).
  constructor; try assumption.
  - exists l. constructor; try done. by apply (dll_ext k).
  - intros j Hj. destruct (H4 j Hj) as [?|[b [B1 B2 B3 B4 B5]]]; [by left|]. right. exists b. by constructor.
Qed.

Lemma upd_buf_data i g k :
  upd_buf i (fun b => set_b_data (g (b_data b)) b) k = upd_buf i (set_b_data (g (b_data (get_buf k i)))) k.
Proof.
  unfold upd_buf. f_equal. apply list_alter_ext; [|done]. intros x Hx. unfold get_buf. by rewrite Hx.
Qed.
