(* ===== verification/Log.v ===== *)
(** * kernel/log.c: the write-ahead log

    The in-memory log is [k_log]; the on-disk header and the logged blocks go
    through the buffer cache.  Block numbers and the count are 32-bit little-endian
    words of the header block.  begin_op() sleeps once per turn, which bounds its
    turns by the environment. *)

From S2P Require Import Prelude Machine Kstring Kernel Spinlock Kalloc Vm Sched Sleeplock Bio.

(** ** Words of a block *)
Definition byte_at (l : list Z) (off : Z) : Z := nth (Z.to_nat off) l 0.
Definition get16 (l : list Z) (off : Z) : Z := byte_at l off + 2 ^ 8 * byte_at l (off + 1).
Definition get32 (l : list Z) (off : Z) : Z := get16 l off + 2 ^ 16 * get16 l (off + 2).
Definition put8 (l : list Z) (off v : Z) : list Z := <[Z.to_nat off := u8 v]> l.
Definition put16 (l : list Z) (off v : Z) : list Z := put8 (put8 l off v) (off + 1) (v / 2 ^ 8).
Definition put32 (l : list Z) (off v : Z) : list Z := put16 (put16 l off v) (off + 2) (v / 2 ^ 16).

(** The word of a logheader that holds block[i]; word 0 is n. *)
Definition lh_word (i : Z) : Z := 4 * (i + 1).

Section Log.
Context `{D : BlockDevice}.

(** int block[i]. *)
Definition lh_get (k : kernel) (i : Z) : Z := nth (Z.to_nat i) (lh_block (k_log k)) 0.

(** One turn of install_trans(). *)
Definition install_one (recovering : Z) (tail : Z) : K unit :=
  lg <- gets k_log;;
  lbuf <- bread (l_dev lg) (l_start lg + tail + 1);;
  dst <- gets (fun k => lh_get k tail);;
  dbuf <- bread (l_dev lg) dst;;
  modify (fun k => upd_buf dbuf (set_b_data (b_data (get_buf k lbuf))) k);;;
  bwrite dbuf;;;
  (if decide (recovering = 0) then bunpin dbuf else skip);;;
  brelse lbuf;;;
  brelse dbuf.

Definition install_trans (recovering : Z) : K unit :=
  n <- gets (fun k => lh_n (k_log k));;
  for_ (seqZ 0 n) (install_one recovering).

Definition read_head : K unit :=
  lg <- gets k_log;;
  buf <- bread (l_dev lg) (l_start lg);;
  lh <- gets (fun k => b_data (get_buf k buf));;
  modify (upd_log (set_lh_n (i32 (get32 lh 0))));;;
  n <- gets (fun k => lh_n (k_log k));;
  for_ (seqZ 0 n) (fun i =>
    modify (upd_log (fun x => set_lh_block (<[Z.to_nat i := i32 (get32 lh (lh_word i))]> (lh_block x)) x)));;;
  brelse buf.

Definition write_head : K unit :=
  lg <- gets k_log;;
  buf <- bread (l_dev lg) (l_start lg);;
  modify (upd_buf buf (fun b => set_b_data (put32 (b_data b) 0 (lh_n lg)) b));;;
  for_ (seqZ 0 (lh_n lg)) (fun i =>
    v <- gets (fun k => lh_get k i);;
    modify (upd_buf buf (fun b => set_b_data (put32 (b_data b) (lh_word i) v) b)));;;
  bwrite buf;;;
  brelse buf.

Definition recover_from_log : K unit :=
  read_head;;;
  install_trans 1;;;
  modify (upd_log (set_lh_n 0));;;
  write_head.

Definition initlog (dev : Z) : K unit :=
  initlock LkLog "log";;;
  sb <- gets k_sb;;
  modify (upd_log (set_l_start (i32 (sb_logstart sb))));;;
  modify (upd_log (set_l_size (i32 (sb_nlog sb))));;;
  modify (upd_log (set_l_dev dev));;;
  recover_from_log.

(** One turn of the loop of begin_op(). *)
Definition begin_turn (_ : unit) : K (unit + unit) :=
  lg <- gets k_log;;
  if decide (l_committing lg <> 0) then sleep ChLog LkLog;;; ret (inr tt)
  else if decide (lh_n lg + (l_outstanding lg + 1) * MAXOPBLOCKS > LOGSIZE)
       then sleep ChLog LkLog;;; ret (inr tt)
  else
    modify (upd_log (fun x => set_l_outstanding (l_outstanding x + 1) x));;;
    release LkLog;;;
    ret (inl tt).

Definition begin_op : K unit :=
  acquire LkLog;;;
  fun e k => loop_ (S (length e)) begin_turn tt e k.

(** One turn of write_log(). *)
Definition write_log_one (tail : Z) : K unit :=
  lg <- gets k_log;;
  to <- bread (l_dev lg) (l_start lg + tail + 1);;
  src <- gets (fun k => lh_get k tail);;
  from <- bread (l_dev lg) src;;
  modify (fun k => upd_buf to (set_b_data (b_data (get_buf k from))) k);;;
  bwrite to;;;
  brelse from;;;
  brelse to.

Definition write_log : K unit :=
  n <- gets (fun k => lh_n (k_log k));;
  for_ (seqZ 0 n) write_log_one.

Definition commit : K unit :=
  n <- gets (fun k => lh_n (k_log k));;
  if decide (n > 0) then
    write_log;;;
    write_head;;;
    install_trans 0;;;
    modify (upd_log (set_lh_n 0));;;
    write_head
  else skip.

Definition end_op : K unit :=
  acquire LkLog;;;
  modify (upd_log (fun x => set_l_outstanding (l_outstanding x - 1) x));;;
  lg <- gets k_log;;
  if decide (l_committing lg <> 0) then panic "log.committing" else
  let do_commit := bool_decide (l_outstanding lg = 0) in
  (if do_commit then modify (upd_log (set_l_committing 1)) else wakeup ChLog);;;
  release LkLog;;;
  when do_commit
    (commit;;;
     acquire LkLog;;;
     modify (upd_log (set_l_committing 0));;;
     wakeup ChLog;;;
     release LkLog).

(** The slot log_write() uses: that of an earlier write of the block in this
    transaction (absorption), or the first free one. *)
Definition log_slot (lg : logstate) (blockno : Z) : nat :=
  match list_find (fun b => b = blockno) (take (Z.to_nat (lh_n lg)) (lh_block lg)) with
  | Some (i, _) => i
  | None => Z.to_nat (lh_n lg)
  end.

Definition log_write (b : nat) : K unit :=
  acquire LkLog;;;
  lg <- gets k_log;;
  if decide (lh_n lg >= LOGSIZE \/ lh_n lg >= l_size lg - 1) then panic "too big a transaction" else
  if decide (l_outstanding lg < 1) then panic "log_write outside of trans" else
  blockno <- gets (fun k => b_blockno (get_buf k b));;
  let i := log_slot lg blockno in
  modify (upd_log (fun x => set_lh_block (<[i := blockno]> (lh_block x)) x));;;
  (if decide (Z.of_nat i = lh_n lg) then
     bpin b;;; modify (upd_log (fun x => set_lh_n (lh_n x + 1) x))
   else skip);;;
  release LkLog.

#[global] Arguments install_one : simpl never.
#[global] Arguments install_trans : simpl never.
#[global] Arguments read_head : simpl never.
#[global] Arguments write_head : simpl never.
#[global] Arguments recover_from_log : simpl never.
#[global] Arguments initlog : simpl never.
#[global] Arguments begin_turn : simpl never.
#[global] Arguments begin_op : simpl never.
#[global] Arguments write_log_one : simpl never.
#[global] Arguments write_log : simpl never.
#[global] Arguments commit : simpl never.
#[global] Arguments end_op : simpl never.
#[global] Arguments log_write : simpl never.
End Log.
