(* ===== verification/Fs.v ===== *)
(** * kernel/fs.c: blocks, inodes, directories and path names

    Buffers hold their block as a list of bytes; on-disk structures (superblock,
    dinode, dirent, the bitmap) are decoded from and stored into it at the
    offsets the C structs have.  Inodes are indices into [k_itable].

    readi() and writei() move data between a block and either user memory, a
    physical page, or a local variable of the caller; a local destination
    receives the bytes as part of the result.  A path is the list of its
    characters, and a path element is the 14-byte array name[DIRSIZ].

    readi() and writei() move at least one byte per turn, namex() consumes at
    least one character per turn; their fuel follows. *)

From S2P Require Import Prelude Machine Kstring Kernel Spinlock Kalloc Vm Sched Sleeplock Bio Log.

(** ** fs.h, stat.h, file.h *)
Definition ROOTINO : Z := 1.
Definition FSMAGIC : Z := 0x10203040.
Definition NDIRECT : Z := 12.
Definition NINDIRECT : Z := BSIZE / 4.
Definition MAXFILE : Z := NDIRECT + NINDIRECT.
Definition DINODE_SIZE : Z := 64.
Definition IPB : Z := BSIZE / DINODE_SIZE.
Definition BPB : Z := BSIZE * 8.
Definition IBLOCK (i : Z) (sb : superblock) : Z := u32 (i / IPB + sb_inodestart sb).
Definition BBLOCK (b : Z) (sb : superblock) : Z := u32 (b / BPB + sb_bmapstart sb).
Definition DIRSIZ : nat := 14.
Definition DIRENT_SIZE : Z := 16.
Definition T_DIR : Z := 1.
Definition T_FILE : Z := 2.
Definition T_DEVICE : Z := 3.
Definition CONSOLE : Z := 1.

Record stat := mkStat { st_dev : Z; st_ino : Z; st_type : Z; st_nlink : Z; st_size : Z }.

(** A short. *)
Definition i16 (z : Z) : Z := (z + 2 ^ 15) mod 2 ^ 16 - 2 ^ 15.

(** Overwrite the bytes of [l] from [off] with [bs]. *)
Definition splice (l : list Z) (off : Z) (bs : list Z) : list Z :=
  take (Z.to_nat off) l ++ bs ++ drop (Z.to_nat off + length bs) l.
Definition slice (l : list Z) (off n : Z) : list Z := take (Z.to_nat n) (drop (Z.to_nat off) l).

(** struct superblock in its block. *)
Definition decode_sb (d : list Z) : superblock :=
  mkSuperblock (get32 d 0) (get32 d 4) (get32 d 8) (get32 d 12) (get32 d 16) (get32 d 20)
    (get32 d 24) (get32 d 28).

(** The on-disk inode at offset [o]: type, major, minor, nlink, size, addrs. *)
Definition load_dinode (d : list Z) (o : Z) (ip : inode) : inode :=
  set_i_addrs (map (fun j => get32 d (o + 12 + 4 * j)) (seqZ 0 (NDIRECT + 1)))
    (set_i_size (get32 d (o + 8)) (set_i_nlink (i16 (get16 d (o + 6)))
      (set_i_minor (i16 (get16 d (o + 4))) (set_i_major (i16 (get16 d (o + 2)))
        (set_i_type (i16 (get16 d o)) ip))))).
Definition store_dinode (d : list Z) (o : Z) (ip : inode) : list Z :=
  let d := put16 d o (i_type ip) in
  let d := put16 d (o + 2) (i_major ip) in
  let d := put16 d (o + 4) (i_minor ip) in
  let d := put16 d (o + 6) (i_nlink ip) in
  let d := put32 d (o + 8) (i_size ip) in
  foldl (fun d j => put32 d (o + 12 + 4 * j) (nth (Z.to_nat j) (i_addrs ip) 0)) d (seqZ 0 (NDIRECT + 1)).
Definition dinode_off (inum : Z) : Z := (inum mod IPB) * DINODE_SIZE.

(** The bitmap bit of a block within its bitmap block. *)
Definition bit_mask (bi : Z) : Z := Z.shiftl 1 (bi mod 8).
Definition bit_free (d : list Z) (bi : Z) : Prop := Z.land (byte_at d (bi / 8)) (bit_mask bi) = 0.
#[export] Instance bit_free_dec d bi : Decision (bit_free d bi) := decide (_ = _).
Definition bit_set (d : list Z) (bi : Z) : list Z := put8 d (bi / 8) (Z.lor (byte_at d (bi / 8)) (bit_mask bi)).
Definition bit_clear (d : list Z) (bi : Z) : list Z :=
  put8 d (bi / 8) (Z.land (byte_at d (bi / 8)) (Z.lnot (bit_mask bi))).

(** skipelem(): the rest of the path and the new contents of name[]. *)
Fixpoint skip_slashes (path : list Z) : list Z :=
  match path with
  | c :: path' => if decide (c = 47) then skip_slashes path' else path
  | [] => []
  end.
Fixpoint span_elem (path : list Z) : list Z * list Z :=
  match path with
  | c :: path' => if decide (c = 47) then ([], path)
                  else let '(s, r) := span_elem path' in (c :: s, r)
  | [] => ([], [])
  end.
Definition store_name (s name : list Z) : list Z :=
  if decide (DIRSIZ <= length s)%nat then take DIRSIZ s
  else s ++ 0 :: drop (S (length s)) name.
Definition skipelem (path name : list Z) : option (list Z * list Z) :=
  match skip_slashes path with
  | [] => None
  | path => let '(s, rest) := span_elem path in Some (skip_slashes rest, store_name s name)
  end.

(** A directory entry. *)
Record dirent := mkDirent { de_inum : Z; de_name : list Z }.
Definition decode_dirent (bs : list Z) : dirent := mkDirent (get16 bs 0) (drop 2 bs).
Definition encode_dirent (de : dirent) : list Z := [u8 (de_inum de); u8 (de_inum de / 2 ^ 8)] ++ de_name de.

Definition namecmp (s t : list Z) : Z := strncmp_arr s t (Z.of_nat DIRSIZ).

(** Where readi() puts the data and writei() takes it from. *)
Inductive dest := ToUser (va : Z) | ToPage (pa : Z) | ToLocal.
Inductive source := FromUser (va : Z) | FromLocal (bs : list Z).

Section Fs.
Context `{Symbols} `{D : BlockDevice}.

Definition readsb (dev : Z) : K unit :=
  bp <- bread dev 1;;
  modify (fun k => set_k_sb (decode_sb (b_data (get_buf k bp))) k);;;
  brelse bp.

Definition fsinit (dev : Z) : K unit :=
  readsb dev;;;
  sb <- gets k_sb;;
  if decide (sb_magic sb <> FSMAGIC) then panic "invalid file system" else
  initlog dev.

Definition bzero (dev bno : Z) : K unit :=
  bp <- bread dev bno;;
  modify (upd_buf bp (set_b_data (replicate (Z.to_nat BSIZE) 0)));;;
  log_write bp;;;
  brelse bp.

(** The scan of one bitmap block, for blocks [b], [b + 1], ... *)
Definition balloc_in (dev b : Z) : K (option Z) :=
  sb <- gets k_sb;;
  bp <- bread dev (BBLOCK b sb);;
  d <- gets (fun k => b_data (get_buf k bp));;
  match list_find (bit_free d) (seqZ 0 (Z.min BPB (sb_size sb - b))) with
  | Some (_, bi) =>
      modify (upd_buf bp (fun x => set_b_data (bit_set (b_data x) bi) x));;;
      log_write bp;;;
      brelse bp;;;
      bzero dev (b + bi);;;
      ret (Some (b + bi))
  | None => brelse bp;;; ret None
  end.

Definition balloc (dev : Z) : K Z :=
  sb <- gets k_sb;;
  r <- first_ (map (fun i => i * BPB) (seqZ 0 ((sb_size sb + BPB - 1) / BPB))) (balloc_in dev);;
  match r with
  | Some b => ret b
  | None => panic "balloc: out of blocks"
  end.

Definition bfree (dev b : Z) : K unit :=
  sb <- gets k_sb;;
  bp <- bread dev (BBLOCK b sb);;
  let bi := b mod BPB in
  d <- gets (fun k => b_data (get_buf k bp));;
  if decide (bit_free d bi) then panic "freeing free block" else
  modify (upd_buf bp (fun x => set_b_data (bit_clear (b_data x) bi) x));;;
  log_write bp;;;
  brelse bp.

Definition iinit : K unit :=
  initlock LkItable "itable";;;
  for_ (seq 0 NINODE) (fun i => initsleeplock (SlInode i) "inode").

(** One entry of the scan of iget(): found, or the first empty entry so far. *)
Definition iget_one (dev inum : Z) (empty : option nat) (ip : nat) : K (nat + option nat) :=
  x <- gets (fun k => get_inode k ip);;
  if decide (i_ref x > 0 /\ i_dev x = dev /\ i_inum x = inum) then
    modify (upd_inode ip (fun x => set_i_ref (i_ref x + 1) x));;;
    release LkItable;;;
    ret (inl ip)
  else ret (inr (if decide (empty = None /\ i_ref x = 0) then Some ip else empty)).

Definition iget (dev inum : Z) : K nat :=
  acquire LkItable;;;
  r <- scan_ (seq 0 NINODE) (iget_one dev inum) None;;
  match r with
  | inl ip => ret ip
  | inr None => panic "iget: no inodes"
  | inr (Some ip) =>
      modify (upd_inode ip (fun x => set_i_valid 0 (set_i_ref 1 (set_i_inum inum (set_i_dev dev x)))));;;
      release LkItable;;;
      ret ip
  end.

Definition ialloc (dev type : Z) : K nat :=
  sb <- gets k_sb;;
  r <- first_ (seqZ 1 (sb_ninodes sb - 1)) (fun inum =>
    bp <- bread dev (IBLOCK inum sb);;
    d <- gets (fun k => b_data (get_buf k bp));;
    if decide (get16 d (dinode_off inum) = 0) then
      modify (upd_buf bp (fun x => set_b_data
        (put16 (splice (b_data x) (dinode_off inum) (replicate (Z.to_nat DINODE_SIZE) 0))
               (dinode_off inum) type) x));;;
      log_write bp;;;
      brelse bp;;;
      ip <- iget dev inum;;
      ret (Some ip)
    else brelse bp;;; ret None);;
  match r with
  | Some ip => ret ip
  | None => panic "ialloc: no inodes"
  end.

Definition iupdate (ip : nat) : K unit :=
  x <- gets (fun k => get_inode k ip);;
  sb <- gets k_sb;;
  bp <- bread (i_dev x) (IBLOCK (i_inum x) sb);;
  modify (upd_buf bp (fun b => set_b_data (store_dinode (b_data b) (dinode_off (i_inum x)) x) b));;;
  log_write bp;;;
  brelse bp.

Definition idup (ip : nat) : K nat :=
  acquire LkItable;;;
  modify (upd_inode ip (fun x => set_i_ref (i_ref x + 1) x));;;
  release LkItable;;;
  ret ip.

Definition ilock (o : option nat) : K unit :=
  match o with
  | None => panic "ilock"
  | Some ip =>
      x <- gets (fun k => get_inode k ip);;
      if decide (i_ref x < 1) then panic "ilock" else
      acquiresleep (SlInode ip);;;
      x <- gets (fun k => get_inode k ip);;
      if decide (i_valid x = 0) then
        sb <- gets k_sb;;
        bp <- bread (i_dev x) (IBLOCK (i_inum x) sb);;
        d <- gets (fun k => b_data (get_buf k bp));;
        modify (upd_inode ip (load_dinode d (dinode_off (i_inum x))));;;
        brelse bp;;;
        modify (upd_inode ip (set_i_valid 1));;;
        t <- gets (fun k => i_type (get_inode k ip));;
        if decide (t = 0) then panic "ilock: no type" else skip
      else skip
  end.

Definition iunlock (o : option nat) : K unit :=
  match o with
  | None => panic "iunlock"
  | Some ip =>
      h <- holdingsleep (SlInode ip);;
      r <- gets (fun k => i_ref (get_inode k ip));;
      if decide (h = false \/ r < 1) then panic "iunlock" else
      releasesleep (SlInode ip)
  end.

(** ** Contents *)
Definition addr_of (x : inode) (i : Z) : Z := nth (Z.to_nat i) (i_addrs x) 0.
Definition set_addr (i v : Z) (x : inode) : inode := set_i_addrs (<[Z.to_nat i := v]> (i_addrs x)) x.

(** ip->addrs[i], allocated when it is zero. *)
Definition addr_alloc (ip : nat) (i : Z) : K Z :=
  x <- gets (fun k => get_inode k ip);;
  if decide (addr_of x i = 0) then
    addr <- balloc (i_dev x);;
    modify (upd_inode ip (set_addr i addr));;;
    ret addr
  else ret (addr_of x i).

Definition bmap (ip : nat) (bn : Z) : K Z :=
  if decide (bn < NDIRECT) then addr_alloc ip bn else
  let bn := bn - NDIRECT in
  if decide (bn < NINDIRECT) then
    addr <- addr_alloc ip NDIRECT;;
    dev <- gets (fun k => i_dev (get_inode k ip));;
    bp <- bread dev addr;;
    a <- gets (fun k => get32 (b_data (get_buf k bp)) (4 * bn));;
    addr <- (if decide (a = 0) then
               addr <- balloc dev;;
               modify (upd_buf bp (fun b => set_b_data (put32 (b_data b) (4 * bn) addr) b));;;
               log_write bp;;;
               ret addr
             else ret a);;
    brelse bp;;;
    ret addr
  else panic "bmap: out of range".

Definition itrunc (ip : nat) : K unit :=
  for_ (seqZ 0 NDIRECT) (fun i =>
    x <- gets (fun k => get_inode k ip);;
    if decide (addr_of x i <> 0) then
      bfree (i_dev x) (addr_of x i);;;
      modify (upd_inode ip (set_addr i 0))
    else skip);;;
  x <- gets (fun k => get_inode k ip);;
  (if decide (addr_of x NDIRECT <> 0) then
     bp <- bread (i_dev x) (addr_of x NDIRECT);;
     for_ (seqZ 0 NINDIRECT) (fun j =>
       a <- gets (fun k => get32 (b_data (get_buf k bp)) (4 * j));;
       if decide (a <> 0) then bfree (i_dev x) a else skip);;;
     brelse bp;;;
     bfree (i_dev x) (addr_of x NDIRECT);;;
     modify (upd_inode ip (set_addr NDIRECT 0))
   else skip);;;
  modify (upd_inode ip (set_i_size 0));;;
  iupdate ip.

Definition iput (ip : nat) : K unit :=
  acquire LkItable;;;
  x <- gets (fun k => get_inode k ip);;
  (if decide (i_ref x = 1 /\ i_valid x <> 0 /\ i_nlink x = 0) then
     acquiresleep (SlInode ip);;;
     release LkItable;;;
     itrunc ip;;;
     modify (upd_inode ip (set_i_type 0));;;
     iupdate ip;;;
     modify (upd_inode ip (set_i_valid 0));;;
     releasesleep (SlInode ip);;;
     acquire LkItable
   else skip);;;
  modify (upd_inode ip (fun x => set_i_ref (i_ref x - 1) x));;;
  release LkItable.

Definition iunlockput (ip : nat) : K unit := iunlock (Some ip);;; iput ip.

Definition stati (x : inode) : stat := mkStat (i_dev x) (i_inum x) (i_type x) (i_nlink x) (i_size x).

(** either_copyout() to the destination advanced by [tot]. *)
Definition copy_to (d : dest) (tot : Z) (bs : list Z) : K Z :=
  match d with
  | ToUser va => either_copyout 1 (u64 (va + tot)) bs
  | ToPage pa => either_copyout 0 (pa + tot) bs
  | ToLocal => ret 0
  end.
(** either_copyin() of [m] bytes from the source advanced by [tot]. *)
Definition copy_from (s : source) (tot m : Z) : K (Z * list Z) :=
  match s with
  | FromUser va => either_copyin 1 (u64 (va + tot)) m
  | FromLocal bs => ret (0, slice bs tot m)
  end.

(** One turn of readi(): [tot] and the bytes read so far. *)
Definition readi_turn (ip : nat) (d : dest) (off n : Z) (x : Z * list Z) : K (Z * list Z + Z * list Z) :=
  let '(tot, acc) := x in
  if decide (tot >= n) then ret (inl (tot, acc)) else
  dev <- gets (fun k => i_dev (get_inode k ip));;
  addr <- bmap ip ((off + tot) / BSIZE);;
  bp <- bread dev addr;;
  let m := Z.min (n - tot) (BSIZE - (off + tot) mod BSIZE) in
  bs <- gets (fun k => slice (b_data (get_buf k bp)) ((off + tot) mod BSIZE) m);;
  r <- copy_to d tot bs;;
  brelse bp;;;
  if decide (r = -1) then ret (inl (-1, acc)) else ret (inr (tot + m, acc ++ bs)).

Definition readi (ip : nat) (d : dest) (off n : Z) : K (Z * list Z) :=
  sz <- gets (fun k => i_size (get_inode k ip));;
  if decide (off > sz \/ u32 (off + n) < off) then ret (0, []) else
  let n := if decide (u32 (off + n) > sz) then sz - off else n in
  loop_ (S (Z.to_nat n)) (readi_turn ip d off n) (0, []).

(** One turn of writei(). *)
Definition writei_turn (ip : nat) (s : source) (off n : Z) (tot : Z) : K (Z + Z) :=
  if decide (tot >= n) then ret (inl tot) else
  dev <- gets (fun k => i_dev (get_inode k ip));;
  addr <- bmap ip ((off + tot) / BSIZE);;
  bp <- bread dev addr;;
  let o := (off + tot) mod BSIZE in
  let m := Z.min (n - tot) (BSIZE - o) in
  r <- copy_from s tot m;;
  modify (upd_buf bp (fun b => set_b_data (splice (b_data b) o (snd r)) b));;;
  if decide (fst r = -1) then brelse bp;;; ret (inl tot) else
  log_write bp;;;
  brelse bp;;;
  ret (inr (tot + m)).

Definition writei (ip : nat) (s : source) (off n : Z) : K Z :=
  sz <- gets (fun k => i_size (get_inode k ip));;
  if decide (off > sz \/ u32 (off + n) < off) then ret (-1) else
  if decide (u32 (off + n) > MAXFILE * BSIZE) then ret (-1) else
  tot <- loop_ (S (Z.to_nat n)) (writei_turn ip s off n) 0;;
  sz <- gets (fun k => i_size (get_inode k ip));;
  (if decide (off + tot > sz) then modify (upd_inode ip (set_i_size (off + tot))) else skip);;;
  iupdate ip;;;
  ret tot.

(** ** Directories *)

(** The offsets of the entries of a directory of [size] bytes. *)
Definition dirent_offs (size : Z) : list Z :=
  map (fun i => i * DIRENT_SIZE) (seqZ 0 ((size + DIRENT_SIZE - 1) / DIRENT_SIZE)).

Definition read_dirent (dp : nat) (off : Z) (msg : string) : K dirent :=
  r <- readi dp ToLocal off DIRENT_SIZE;;
  if decide (fst r <> DIRENT_SIZE) then panic msg else ret (decode_dirent (snd r)).

(** The inode and the offset of the entry. *)
Definition dirlookup (dp : nat) (name : list Z) : K (option (nat * Z)) :=
  x <- gets (fun k => get_inode k dp);;
  if decide (i_type x <> T_DIR) then panic "dirlookup not DIR" else
  first_ (dirent_offs (i_size x)) (fun off =>
    de <- read_dirent dp off "dirlookup read";;
    if decide (de_inum de = 0) then ret None else
    if decide (namecmp name (de_name de) = 0) then
      ip <- iget (i_dev x) (de_inum de);;
      ret (Some (ip, off))
    else ret None).

Definition dirlink (dp : nat) (name : list Z) (inum : Z) : K Z :=
  r <- dirlookup dp name;;
  match r with
  | Some (ip, _) => iput ip;;; ret (-1)
  | None =>
      x <- gets (fun k => get_inode k dp);;
      o <- first_ (dirent_offs (i_size x)) (fun off =>
             de <- read_dirent dp off "dirlink read";;
             if decide (de_inum de = 0) then ret (Some off) else ret None);;
      let off := default ((i_size x + DIRENT_SIZE - 1) / DIRENT_SIZE * DIRENT_SIZE) o in
      let de := mkDirent (u16 inum) (strncpy_arr (replicate DIRSIZ 0) name (Z.of_nat DIRSIZ)) in
      r <- writei dp (FromLocal (encode_dirent de)) off DIRENT_SIZE;;
      if decide (r <> DIRENT_SIZE) then panic "dirlink" else ret 0
  end.

(** ** Paths *)
Definition namex_turn (nameiparent : bool) (x : nat * list Z * list Z) :
    K ((option nat * list Z) + nat * list Z * list Z) :=
  let '(ip, path, name) := x in
  match skipelem path name with
  | None =>
      if nameiparent then iput ip;;; ret (inl (None, name))
      else ret (inl (Some ip, name))
  | Some (path, name) =>
      ilock (Some ip);;;
      t <- gets (fun k => i_type (get_inode k ip));;
      if decide (t <> T_DIR) then iunlockput ip;;; ret (inl (None, name)) else
      if nameiparent && bool_decide (path = []) then iunlock (Some ip);;; ret (inl (Some ip, name)) else
      next <- dirlookup ip name;;
      match next with
      | None => iunlockput ip;;; ret (inl (None, name))
      | Some (next, _) => iunlockput ip;;; ret (inr (next, path, name))
      end
  end.

Definition namex (path : list Z) (nameiparent : bool) (name : list Z) : K (option nat * list Z) :=
  ip <- (if decide (head path = Some 47) then iget ROOTDEV ROOTINO
         else p <- cur;;
              cwd <- gets (fun k => p_cwd (get_proc k p));;
              match cwd with Some c => idup c | None => panic "kerneltrap" end);;
  loop_ (S (length path)) (namex_turn nameiparent) (ip, path, name).

Definition namei (path : list Z) : K (option nat) :=
  r <- namex path false (replicate DIRSIZ 0);; ret (fst r).
Definition nameiparent (path : list Z) : K (option nat * list Z) :=
  namex path true (replicate DIRSIZ 0).
End Fs.
