(* ===== verification/Pipe.v ===== *)
(** * kernel/pipe.c: pipes

    The struct pipe in an allocated page is the entry of [k_pipes] at the page's
    address.  A turn of pipewrite() stores a byte or sleeps, a turn of the first
    loop of piperead() sleeps, which gives their fuel.

    [pipe_bytes] is the abstract queue: pipewrite() appends to it and piperead()
    takes from its front, with the ring buffer and its wrapping counters
    underneath. *)

From S2P Require Import Prelude Machine Kstring Kernel Spinlock Kalloc Vm VmSpec VmMap VmUser VmCopy Sched Sleeplock.

Definition PIPESIZE : Z := 512.
Definition pipe0 : pipe := mkPipe (replicate (Z.to_nat PIPESIZE) 0) 0 0 0 0.
Definition get_pipe (k : kernel) (pi : Z) : pipe := default pipe0 (k_pipes k !! pi).
Definition upd_pipe (pi : Z) (f : pipe -> pipe) (k : kernel) : kernel :=
  set_k_pipes (<[pi := f (get_pipe k pi)]> (k_pipes k)) k.

(** pi->data[pi->nwrite++ % PIPESIZE] = ch *)
Definition pipe_put (ch : Z) (x : pipe) : pipe :=
  set_pi_nwrite (u32 (pi_nwrite x + 1))
    (set_pi_data (<[Z.to_nat (pi_nwrite x mod PIPESIZE) := ch]> (pi_data x)) x).
(** pi->data[pi->nread % PIPESIZE], and nread++ *)
Definition pipe_front (x : pipe) : Z := nth (Z.to_nat (pi_nread x mod PIPESIZE)) (pi_data x) 0.
Definition pipe_get (x : pipe) : pipe := set_pi_nread (u32 (pi_nread x + 1)) x.
Definition pipe_full (x : pipe) : Prop := pi_nwrite x = u32 (pi_nread x + PIPESIZE).
#[export] Instance pipe_full_dec x : Decision (pipe_full x) := decide (_ = _).

Section Pipe.
Context `{Symbols}.

Definition pipeclose (pi writable : Z) : K unit :=
  acquire (LkPipe pi);;;
  (if decide (writable <> 0)
   then modify (upd_pipe pi (set_pi_writeopen 0));;; wakeup (ChPipeRead pi)
   else modify (upd_pipe pi (set_pi_readopen 0));;; wakeup (ChPipeWrite pi));;;
  x <- gets (fun k => get_pipe k pi);;
  if decide (pi_readopen x = 0 /\ pi_writeopen x = 0)
  then release (LkPipe pi);;; kfree pi
  else release (LkPipe pi).

(** One turn of the loop of pipewrite(); [inl (r, false)] is a return that has
    released the lock, [inl (i, true)] leaves the loop. *)
Definition pipewrite_turn (pr : nat) (pi addr n : Z) (i : Z) : K (Z * bool + Z) :=
  if decide (i >= n) then ret (inl (i, true)) else
  x <- gets (fun k => get_pipe k pi);;
  killed <- gets (fun k => p_killed (get_proc k pr));;
  if decide (pi_readopen x = 0 \/ killed <> 0) then release (LkPipe pi);;; ret (inl (-1, false)) else
  if decide (pipe_full x) then
    wakeup (ChPipeRead pi);;;
    sleep (ChPipeWrite pi) (LkPipe pi);;;
    ret (inr i)
  else
    pt <- gets (fun k => p_pagetable (get_proc k pr));;
    r <- copyin pt (u64 (addr + i)) 1;;
    if decide (fst r = -1) then ret (inl (i, true)) else
    modify (upd_pipe pi (pipe_put (nth 0 (snd r) 0)));;;
    ret (inr (i + 1)).

Definition pipewrite (pi addr n : Z) : K Z :=
  pr <- cur;;
  acquire (LkPipe pi);;;
  r <- (fun e k => loop_ (S (Z.to_nat n + length e)) (pipewrite_turn pr pi addr n) 0 e k);;
  if snd r : bool then
    wakeup (ChPipeRead pi);;;
    release (LkPipe pi);;;
    ret (fst r)
  else ret (fst r).

(** The wait for data; [inl true] is the return of -1, the lock released. *)
Definition piperead_wait (pr : nat) (pi : Z) (_ : unit) : K (bool + unit) :=
  x <- gets (fun k => get_pipe k pi);;
  if decide (pi_nread x = pi_nwrite x /\ pi_writeopen x <> 0) then
    killed <- gets (fun k => p_killed (get_proc k pr));;
    if decide (killed <> 0) then release (LkPipe pi);;; ret (inl true)
    else sleep (ChPipeRead pi) (LkPipe pi);;; ret (inr tt)
  else ret (inl false).

(** One turn of the copy loop. *)
Definition piperead_turn (pr : nat) (pi addr n : Z) (i : Z) : K (Z + Z) :=
  if decide (i >= n) then ret (inl i) else
  x <- gets (fun k => get_pipe k pi);;
  if decide (pi_nread x = pi_nwrite x) then ret (inl i) else
  let ch := pipe_front x in
  modify (upd_pipe pi pipe_get);;;
  pt <- gets (fun k => p_pagetable (get_proc k pr));;
  r <- copyout pt (u64 (addr + i)) [ch];;
  if decide (r = -1) then ret (inl i) else ret (inr (i + 1)).

Definition piperead (pi addr n : Z) : K Z :=
  pr <- cur;;
  acquire (LkPipe pi);;;
  gone <- (fun e k => loop_ (S (length e)) (piperead_wait pr pi) tt e k);;
  if gone : bool then ret (-1) else
  i <- loop_ (S (Z.to_nat n)) (piperead_turn pr pi addr n) 0;;
  wakeup (ChPipeWrite pi);;;
  release (LkPipe pi);;;
  ret i.

#[global] Arguments pipeclose : simpl never.
#[global] Arguments pipewrite_turn : simpl never.
#[global] Arguments pipewrite : simpl never.
#[global] Arguments piperead_wait : simpl never.
#[global] Arguments piperead_turn : simpl never.
#[global] Arguments piperead : simpl never.
End Pipe.

(** ** The queue *)

(** The counters never run more than PIPESIZE apart, modulo their wrap-around. *)
Record pipe_inv (x : pipe) : Prop := {
  pv_len : length (pi_data x) = Z.to_nat PIPESIZE;
  pv_r : 0 <= pi_nread x < 2 ^ 32;
  pv_w : 0 <= pi_nwrite x < 2 ^ 32;
  pv_count : u32 (pi_nwrite x - pi_nread x) <= PIPESIZE
}.

(** How many bytes are in the pipe, and which. *)
Definition pipe_count (x : pipe) : Z := u32 (pi_nwrite x - pi_nread x).
Definition pipe_at (x : pipe) (i : Z) : Z := nth (Z.to_nat ((pi_nread x + i) mod PIPESIZE)) (pi_data x) 0.
Definition pipe_bytes (x : pipe) : list Z := map (pipe_at x) (seqZ 0 (pipe_count x)).

(** The ring index depends on the counter only through its residue, which the
    wrap-around of 32-bit counters keeps because PIPESIZE divides [2^32]. *)
Lemma u32_mod_pipesize z : u32 z mod PIPESIZE = z mod PIPESIZE.
Proof. unfold u32, PIPESIZE. Z.div_mod_to_equations. lia. Qed.

Lemma u32_add_mod a b : (u32 a + b) mod PIPESIZE = (a + b) mod PIPESIZE.
Proof. by rewrite <- Zplus_mod_idemp_l, u32_mod_pipesize, Zplus_mod_idemp_l. Qed.

Lemma pipe_count_range x : 0 <= pipe_count x.
Proof. apply u32_range. Qed.

(** Arithmetic of the counters. *)
Ltac ring_arith :=
  unfold pipe_full, pipe_count, u32, PIPESIZE in *; cbn in *;
  change (2 ^ 32) with 4294967296 in *; Z.div_mod_to_equations; lia.

Lemma u32_step a b : u32 (a - b) <= PIPESIZE -> u32 (u32 (a + 1) - b) = u32 (a - b) + 1.
Proof.
  intros Hc. unfold u32 in *. rewrite Zminus_mod_idemp_l. replace (a + 1 - b) with (a - b + 1) by lia.
  rewrite Zplus_mod, (Z.mod_small 1) by done. apply Z.mod_small.
  pose proof (Z.mod_pos_bound (a - b) (2 ^ 32)). unfold PIPESIZE in Hc. lia.
Qed.
Lemma u32_back a b : 0 < u32 (a - b) -> u32 (a - u32 (b + 1)) = u32 (a - b) - 1.
Proof.
  intros Hc. unfold u32 in *. rewrite Zminus_mod_idemp_r. replace (a - (b + 1)) with (a - b - 1) by lia.
  rewrite Zminus_mod, (Z.mod_small 1) by done. apply Z.mod_small.
  pose proof (Z.mod_pos_bound (a - b) (2 ^ 32)). lia.
Qed.

Lemma pipe_full_count x : pipe_inv x -> pipe_full x <-> pipe_count x = PIPESIZE.
Proof. intros [_ Hr Hw Hc]. split; intros; ring_arith. Qed.
Lemma pipe_empty_count x : pipe_inv x -> pi_nread x = pi_nwrite x <-> pipe_count x = 0.
Proof. intros [_ Hr Hw Hc]. split; intros; ring_arith. Qed.

Lemma length_pipe_bytes x : length (pipe_bytes x) = Z.to_nat (pipe_count x).
Proof. unfold pipe_bytes. by rewrite length_map, length_seqZ. Qed.

Lemma pipe_put_inv ch x : pipe_inv x -> ~ pipe_full x ->
  pipe_inv (pipe_put ch x) /\ pipe_bytes (pipe_put ch x) = pipe_bytes x ++ [ch].
Proof.
  intros Hi Hf. pose proof (pipe_full_count x Hi) as Hfc. pose proof Hi as [Hl Hr Hw Hc].
  assert (pipe_count (pipe_put ch x) = pipe_count x + 1) as Ec.
  { by apply u32_step. }
  assert (pipe_count x < PIPESIZE) as Hlt by (assert (pipe_count x <> PIPESIZE) by tauto; unfold pipe_count in *; lia).
  pose proof (pipe_count_range x) as H0. split.
  - constructor; cbn; [by rewrite length_insert|done|apply u32_range|]. unfold pipe_count in *. cbn in *. lia.
  - unfold pipe_bytes. rewrite Ec. rewrite seqZ_app by lia. rewrite map_app. cbn [map seqZ].
    assert ((pi_nread x + pipe_count x) mod PIPESIZE = pi_nwrite x mod PIPESIZE) as Em.
    { unfold pipe_count. rewrite <- (u32_mod_pipesize (pi_nread x + _)). unfold u32.
      rewrite Zplus_mod_idemp_r. replace (pi_nread x + (pi_nwrite x - pi_nread x)) with (pi_nwrite x) by lia.
      apply (u32_mod_pipesize (pi_nwrite x)). }
    assert (0 <= pi_nwrite x mod PIPESIZE < PIPESIZE) as Hm by (apply Z.mod_pos_bound; done).
    f_equal.
    + apply list_fmap_ext. intros j i Hi'. apply lookup_seqZ in Hi' as [-> Hj].
      unfold pipe_at. cbn. rewrite !nth_lookup. rewrite list_lookup_insert_ne; [done|].
      intros E. apply Z2Nat.inj in E; [|lia|apply Z.mod_pos_bound; done].
      rewrite <- Em in E. clear -E Hj Hlt H0. unfold PIPESIZE in *. Z.div_mod_to_equations. lia.
    + change (seqZ (0 + pipe_count x) 1) with [0 + pipe_count x] || idtac.
      cbn. unfold pipe_at. cbn. rewrite Z.add_0_l, Em, nth_lookup, list_lookup_insert_eq; [done|].
      rewrite Hl. apply Z2Nat.inj_lt; lia.
Qed.

Lemma pipe_get_inv x : pipe_inv x -> pi_nread x <> pi_nwrite x ->
  pipe_inv (pipe_get x) /\ pipe_bytes x = pipe_front x :: pipe_bytes (pipe_get x).
Proof.
  intros Hi Hne. pose proof (pipe_empty_count x Hi) as He. pose proof Hi as [Hl Hr Hw Hc].
  pose proof (pipe_count_range x) as H0. assert (0 < pipe_count x) as Hpos by (assert (pipe_count x <> 0) by tauto; lia).
  assert (pipe_count (pipe_get x) = pipe_count x - 1) as Ec by by apply u32_back. split.
  - constructor; cbn; [done|apply u32_range|done|]. unfold pipe_count in *. cbn in *. lia.
  - unfold pipe_bytes. rewrite Ec. rewrite (seqZ_cons 0 (pipe_count x)) by lia. cbn [map]. f_equal.
    + unfold pipe_at, pipe_front. by rewrite Z.add_0_r.
    + apply list_eq. intros j. rewrite !list_lookup_fmap.
      destruct (decide (Z.of_nat j < pipe_count x - 1)) as [Hj|Hj].
      * rewrite !lookup_seqZ_lt by lia. cbn. f_equal. unfold pipe_at. cbn. rewrite u32_add_mod.
        do 3 f_equal. lia.
      * rewrite !lookup_seqZ_ge by lia. done.
Qed.

(** ** Writing and reading without waiting *)

Section PipeSpec.
Context `{Y : Symbols} `{OK : !SymbolsOK Y}.
Context `{PA : !PageAllocator kalloc kfree}.

Lemma vm_inv_same k k' root t fl :
  vm_inv k root t fl -> cpu_ok k' -> lock_free LkKmem k' ->
  k_mem k' = k_mem k -> k_freelist k' = k_freelist k -> vm_inv k' root t fl.
Proof.
  intros [Hc Hl Hp Hr Hd] Hc' Hl' Em Ef. constructor; try done.
  - apply (pool_frame k); [done|done|]. by rewrite Em.
  - by rewrite Em.
Qed.

Lemma copyin_byte e k root t fl va b :
  vm_inv k root t fl -> uread (k_mem k) t va = Some b -> copyin root va 1 e k = Ok (0, [b]) e k.
Proof.
  intros Hv Hb. assert (0 <= va < 2 ^ 64) as Hva.
  { unfold uread in Hb. case_decide as Hr; [|done]. change MAXVA with (2 ^ 38) in Hr. lia. }
  unfold copyin. destruct (copyin_loop e k root t fl Hv (S (Z.to_nat 1)) va 1 [] Hva) as (r & bs & -> & Hbs & Hr).
  { lia. }
  destruct bs as [|c bs]; cbn in Hr.
  - destruct Hr as [[_ ?]|(_ & _ & Hn)]; [lia|]. rewrite Z.add_0_r in Hn. congruence.
  - assert (bs = []) as -> by (destruct bs; [done|cbn in Hr; lia]).
    specialize (Hbs 0%nat c eq_refl). rewrite Z.add_0_r in Hbs.
    destruct Hr as [[-> _]|(_ & ? & _)]; [|cbn in *; lia]. cbn. by replace c with b by congruence.
Qed.

(** A writer: it is the running process and its page table is [root]. *)
Record writer (k : kernel) (pr : nat) (root : Z) (t : ptable) (fl : list Z) (pi : Z) : Prop := {
  wr_quiet : quiet k;
  wr_lock : lock_free (LkPipe pi) k;
  wr_running : running k = Some pr;
  wr_pt : p_pagetable (get_proc k pr) = root;
  wr_vm : vm_inv k root t fl;
  wr_pipe : is_Some (k_pipes k !! pi)
}.

Definition put_all (bs : list Z) (x : pipe) : pipe := foldl (fun x b => pipe_put b x) x bs.

Lemma get_pipe_upd pi f k : get_pipe (upd_pipe pi f k) pi = f (get_pipe k pi).
Proof. unfold get_pipe at 1, upd_pipe. cbn. by rewrite lookup_insert_eq. Qed.
Lemma upd_pipe_twice pi f g k : upd_pipe pi f (upd_pipe pi g k) = upd_pipe pi (fun x => f (g x)) k.
Proof.
  unfold upd_pipe at 1. rewrite get_pipe_upd. unfold upd_pipe. cbn. by rewrite insert_insert_eq.
Qed.

Lemma upd_pipe_id pi k : is_Some (k_pipes k !! pi) -> upd_pipe pi id k = k.
Proof.
  intros [x Hx]. unfold upd_pipe, get_pipe. rewrite Hx. cbn. rewrite insert_id by done. by destruct k.
Qed.

(** The bytes a process would read at [va], [va + 1], ... *)
Definition ureads (m : mem) (t : ptable) (va : Z) (bs : list Z) : Prop :=
  forall i b, bs !! i = Some b -> uread m t (va + Z.of_nat i) = Some b.

Lemma writer_taken k pr root t fl pi f :
  writer k pr root t fl pi -> vm_inv (lock_taken (LkPipe pi) (upd_pipe pi f k)) root t fl.
Proof.
  intros [Hq Hl Hr Hp Hv _]. apply (vm_inv_same k); try done.
  - by apply cpu_ok_taken, Hq.
  - apply lock_free_taken_ne; [done|]. apply Hv.
Qed.

(** The bytes at [va], [va + 1], ... up to [n] of them, or up to the first address
    the process cannot access. *)
Definition readable (m : mem) (t : ptable) (va n : Z) (bs : list Z) : Prop :=
  ureads m t va bs /\ Z.of_nat (length bs) <= n /\ (Z.of_nat (length bs) < n -> uread m t (va + Z.of_nat (length bs)) = None).

Lemma copyin_none e k root t fl va :
  vm_inv k root t fl -> 0 <= va < 2 ^ 64 -> uread (k_mem k) t va = None -> exists bs, copyin root va 1 e k = Ok (-1, bs) e k.
Proof.
  intros Hv Hva Hn. unfold copyin. destruct (copyin_loop e k root t fl Hv (S (Z.to_nat 1)) va 1 [] Hva) as (r & bs & -> & Hbs & Hr); [lia|].
  exists ([] ++ bs). destruct Hr as [[_ Hl]|[-> _]]; [|done]. destruct bs as [|c bs]; [cbn in Hl; lia|].
  specialize (Hbs 0%nat c eq_refl). rewrite Z.add_0_r in Hbs. congruence.
Qed.

(** Turns that store a byte. *)
Lemma pipewrite_steps e k pr root t fl pi addr n : forall bs i f fuel,
  writer k pr root t fl pi -> p_killed (get_proc k pr) = 0 -> 0 <= i -> i + Z.of_nat (length bs) <= n ->
  ureads (k_mem k) t (addr + i) bs ->
  pi_readopen (f (get_pipe k pi)) <> 0 -> pipe_inv (f (get_pipe k pi)) ->
  pipe_count (f (get_pipe k pi)) + Z.of_nat (length bs) <= PIPESIZE ->
  loop_ (length bs + fuel) (pipewrite_turn pr pi addr n) i e (lock_taken (LkPipe pi) (upd_pipe pi f k)) =
  loop_ fuel (pipewrite_turn pr pi addr n) (i + Z.of_nat (length bs)) e (lock_taken (LkPipe pi) (upd_pipe pi (fun x => put_all bs (f x)) k)).
Proof.
  induction bs as [|b bs IH]; intros i f fuel Hw Hk Hi Hn Hu Hro Hpi Hcnt; cbn [Nat.add loop_ length] in *.
  - by rewrite Z.add_0_r.
  - set (s := lock_taken (LkPipe pi) (upd_pipe pi f k)).
    assert (get_pipe s pi = f (get_pipe k pi)) as Eg by apply get_pipe_upd.
    assert (~ pipe_full (get_pipe s pi)) as Hnf by (rewrite Eg, pipe_full_count by done; lia).
    assert (uread (k_mem s) t (addr + i) = Some b) as Hb.
    { specialize (Hu 0%nat b eq_refl). by rewrite Z.add_0_r in Hu. }
    assert (u64 (addr + i) = addr + i) as E64.
    { apply u64_small. unfold uread in Hb. case_decide as Hr; [|done]. change MAXVA with (2 ^ 38) in Hr. lia. }
    pose proof (copyin_byte e s root t fl _ b (writer_taken _ _ _ _ _ _ f Hw) Hb) as Hcp.
    assert (pipewrite_turn pr pi addr n i e s =
            Ok (inr (i + 1)) e (lock_taken (LkPipe pi) (upd_pipe pi (fun x => pipe_put b (f x)) k))) as Ht.
    { unfold pipewrite_turn. rewrite decide_False by lia. cbn [bind gets].
      change (p_killed (get_proc s pr)) with (p_killed (get_proc k pr)). rewrite Hk.
      rewrite decide_False by (rewrite Eg; tauto). rewrite decide_False by done. cbn [bind gets].
      change (p_pagetable (get_proc s pr)) with (p_pagetable (get_proc k pr)). rewrite (wr_pt _ _ _ _ _ _ Hw).
      rewrite E64, Hcp. cbn [fst snd nth].
      rewrite decide_False by lia. cbn [bind modify ret]. subst s.
      change (upd_pipe pi ?g (lock_taken ?l ?x)) with (lock_taken l (upd_pipe pi g x)).
      by rewrite upd_pipe_twice. }
    rewrite (bind_Ok _ _ _ _ _ _ _ Ht). rewrite Eg in Hnf.
    destruct (pipe_put_inv b (f (get_pipe k pi)) Hpi Hnf) as [Hpi' Hbytes].
    rewrite (IH (i + 1) (fun x => pipe_put b (f x)) fuel); try done; try lia.
    + by replace (i + 1 + Z.of_nat (length bs)) with (i + Z.of_nat (S (length bs))) by lia.
    + intros j c Hj. specialize (Hu (S j) c Hj). by replace (addr + (i + 1) + Z.of_nat j) with (addr + i + Z.of_nat (S j)) by lia.
    + pose proof (length_pipe_bytes (pipe_put b (f (get_pipe k pi)))) as El.
      rewrite Hbytes, length_app, length_pipe_bytes in El. cbn in El.
      pose proof (pipe_count_range (f (get_pipe k pi))).
      pose proof (pipe_count_range (pipe_put b (f (get_pipe k pi)))). lia.
Qed.

Lemma put_all_bytes bs x :
  pipe_inv x -> pipe_count x + Z.of_nat (length bs) <= PIPESIZE ->
  pipe_inv (put_all bs x) /\ pipe_bytes (put_all bs x) = pipe_bytes x ++ bs.
Proof.
  revert x. induction bs as [|b bs IH]; intros x Hpi Hc; cbn [length] in Hc.
  - split; [done|]. by rewrite app_nil_r.
  - change (put_all (b :: bs) x) with (put_all bs (pipe_put b x)). assert (~ pipe_full x) as Hnf by (rewrite pipe_full_count by done; lia).
    destruct (pipe_put_inv b x Hpi Hnf) as [Hpi' Hb].
    pose proof (length_pipe_bytes (pipe_put b x)) as El. rewrite Hb, length_app, length_pipe_bytes in El.
    cbn in El. pose proof (pipe_count_range x). pose proof (pipe_count_range (pipe_put b x)).
    destruct (IH (pipe_put b x) Hpi') as [IH1 IH2]; [lia|]. split; [done|]. by rewrite IH2, Hb, <- app_assoc.
Qed.
(** The other fields of the pipe are as they were. *)
Lemma put_all_ends bs : forall x,
  pi_nread (put_all bs x) = pi_nread x /\ pi_readopen (put_all bs x) = pi_readopen x /\ pi_writeopen (put_all bs x) = pi_writeopen x.
Proof. induction bs as [|b bs IH]; intros x; [done|]. change (put_all (b :: bs) x) with (put_all bs (pipe_put b x)). by destruct (IH (pipe_put b x)) as (-> & -> & ->). Qed.

(** The turn that ends the loop: all bytes are stored, or the next address cannot
    be read. *)
Lemma pipewrite_stops e k pr root t fl pi addr n i f :
  writer k pr root t fl pi -> p_killed (get_proc k pr) = 0 -> pi_readopen (f (get_pipe k pi)) <> 0 ->
  (n <= i \/ i < n /\ ~ pipe_full (f (get_pipe k pi)) /\ 0 <= addr + i < 2 ^ 64 /\ uread (k_mem k) t (addr + i) = None) ->
  let s := lock_taken (LkPipe pi) (upd_pipe pi f k) in
  pipewrite_turn pr pi addr n i e s = Ok (inl (i, true)) e s.
Proof.
  intros Hw Hk Hro Hor s. unfold pipewrite_turn. destruct Hor as [Hle|(Hlt & Hnf & Ha & Hnone)]; [by rewrite decide_True by lia|].
  assert (get_pipe s pi = f (get_pipe k pi)) as Eg by apply get_pipe_upd. rewrite decide_False by lia. cbn [bind gets].
  change (p_killed (get_proc s pr)) with (p_killed (get_proc k pr)). rewrite Hk, Eg. rewrite decide_False by tauto. rewrite decide_False by done. cbn [bind gets].
  change (p_pagetable (get_proc s pr)) with (p_pagetable (get_proc k pr)). rewrite (wr_pt _ _ _ _ _ _ Hw), u64_small by done.
  destruct (copyin_none e s root t fl (addr + i) (writer_taken _ _ _ _ _ _ f Hw) Ha Hnone) as [bs ->]. cbn [fst]. by rewrite decide_True.
Qed.

(** After the loop. *)
Lemma pipewrite_finish e k pi f (i : Z) :
  quiet k -> lock_free (LkPipe pi) k ->
  (wakeup (ChPipeRead pi);;; release (LkPipe pi);;; ret i) e (lock_taken (LkPipe pi) (upd_pipe pi f k)) = Ok i e (woken (ChPipeRead pi) (upd_pipe pi f k)).
Proof.
  intros Hq Hl. assert (quiet (upd_pipe pi f k)) as Hq' by (constructor; apply Hq).
  rewrite (bind_Ok _ _ _ _ _ _ _ (wakeup_taken (ChPipeRead pi) (LkPipe pi) e _ ltac:(done) Hq')).
  by rewrite (bind_Ok _ _ _ _ _ _ _ (release_taken _ e _ (woken_cpu_ok _ _ (q_cpu _ Hq')) Hl)).
Qed.

(** The bytes fit, or the readable ones do with room left: they are appended
    and the readers are woken. *)
Lemma pipewrite_fits e k pr root t fl pi addr n bs :
  writer k pr root t fl pi -> p_killed (get_proc k pr) = 0 -> pi_readopen (get_pipe k pi) <> 0 -> pipe_inv (get_pipe k pi) ->
  0 <= addr -> addr + n <= 2 ^ 64 -> readable (k_mem k) t addr n bs ->
  pipe_count (get_pipe k pi) + Z.of_nat (length bs) <= PIPESIZE ->
  (Z.of_nat (length bs) < n -> pipe_count (get_pipe k pi) + Z.of_nat (length bs) < PIPESIZE) ->
  pipewrite pi addr n e k = Ok (Z.of_nat (length bs)) e (woken (ChPipeRead pi) (upd_pipe pi (put_all bs) k)).
Proof.
  intros Hw Hk Hro Hpi Ha Han (Hu & Hle & Hnone) Hc Hlt. pose proof Hw as [Hq Hl Hr Hp Hv Hpp]. unfold pipewrite.
  rewrite (bind_Ok _ _ _ _ _ _ _ (cur_ok e k pr (q_cpu k Hq) Hr)).
  rewrite (bind_Ok _ _ _ _ _ _ _ (acquire_free _ e k (q_cpu k Hq) Hl)).
  pose proof (pipewrite_steps e k pr root t fl pi addr n bs 0 id (S (Z.to_nat n - length bs + length e)) Hw Hk) as Hs.
  rewrite !Z.add_0_l, Z.add_0_r, (upd_pipe_id pi k Hpp) in Hs. specialize (Hs ltac:(lia) Hle Hu Hro Hpi Hc).
  replace (length bs + S (Z.to_nat n - length bs + length e))%nat with (S (Z.to_nat n + length e)) in Hs by lia.
  change (fun x => put_all bs (id x)) with (put_all bs) in Hs. destruct (put_all_bytes bs _ Hpi Hc) as [Hpi' Hb'].
  assert (pi_readopen (put_all bs (get_pipe k pi)) <> 0) as Hro' by (by rewrite (proj1 (proj2 (put_all_ends bs _)))).
  erewrite bind_Ok; [|rewrite Hs; cbn [loop_]; erewrite bind_Ok; [|apply (pipewrite_stops e k pr root t fl pi addr n _ (put_all bs) Hw Hk Hro')]; [reflexivity|]].
  { exact (pipewrite_finish e k pi (put_all bs) _ Hq Hl). }
  destruct (decide (Z.of_nat (length bs) < n)) as [Hs'|Hs']; [right|left; lia]. split_and!; [done| |lia|lia|by apply Hnone].
  rewrite pipe_full_count by done. pose proof (length_pipe_bytes (put_all bs (get_pipe k pi))) as El. rewrite Hb', length_app, length_pipe_bytes in El.
  specialize (Hlt Hs'). pose proof (pipe_count_range (get_pipe k pi)). lia.
Qed.

(** *** A full pipe *)
Definition pipe_room (x : pipe) : nat := Z.to_nat (PIPESIZE - pipe_count x).
Lemma pipewrite_full_turn e k pr pi addr n i f :
  quiet k -> p_killed (get_proc k pr) = 0 -> pi_readopen (f (get_pipe k pi)) <> 0 -> i < n -> pipe_full (f (get_pipe k pi)) ->
  pipewrite_turn pr pi addr n i e (lock_taken (LkPipe pi) (upd_pipe pi f k)) =
  (sleep (ChPipeWrite pi) (LkPipe pi);;; ret (inr i)) e (lock_taken (LkPipe pi) (woken (ChPipeRead pi) (upd_pipe pi f k))).
Proof.
  intros Hq Hk Hro Hlt Hfull. set (s := lock_taken (LkPipe pi) (upd_pipe pi f k)). unfold pipewrite_turn. rewrite decide_False by lia. cbn [bind gets].
  assert (get_pipe s pi = f (get_pipe k pi)) as Eg by apply get_pipe_upd.
  change (p_killed (get_proc s pr)) with (p_killed (get_proc k pr)). rewrite Hk, Eg. rewrite decide_False by tauto. rewrite decide_True by done.
  assert (quiet (upd_pipe pi f k)) as Hq' by (constructor; apply Hq).
  by rewrite (bind_Ok _ _ _ _ _ _ _ (wakeup_taken (ChPipeRead pi) (LkPipe pi) e _ ltac:(done) Hq')).
Qed.

(** A write that is under way is the write of the rest of the buffer. *)
Definition shift_turn (i0 : Z) (o : Z * bool + Z) : Z * bool + Z :=
  match o with inl (r, true) => inl (i0 + r, true) | inl (r, false) => inl (r, false) | inr i => inr (i0 + i) end.
Definition shift_end (i0 : Z) (o : Z * bool) : Z * bool := if snd o then (i0 + fst o, true) else o.
Lemma pipewrite_turn_shift pr pi addr n i0 i e s :
  pipewrite_turn pr pi addr n (i0 + i) e s = (o <- pipewrite_turn pr pi (addr + i0) (n - i0) i;; ret (shift_turn i0 o)) e s.
Proof.
  unfold pipewrite_turn. replace (addr + i0 + i) with (addr + (i0 + i)) by lia. destruct (decide (i0 + i >= n)) as [Hge|Hlt].
  { by rewrite (decide_True (P := i >= n - i0)) by lia. }
  rewrite (decide_False (P := i >= n - i0)) by lia. cbn [bind gets]. case_decide; [by unfold bind; destruct (release _ _ _)|].
  case_decide; [by unfold bind; destruct (wakeup _ _ _) as [? e1 s1| | |]; [destruct (sleep _ _ e1 s1)|..]|].
  cbn [bind gets]. unfold bind. destruct (copyin _ _ _ _ _) as [r e1 s1| | |]; [|done..]. case_decide; [done|]. cbn. do 2 f_equal. lia.
Qed.
Lemma pipewrite_loop_shift pr pi addr n i0 fuel : forall i e s,
  loop_ fuel (pipewrite_turn pr pi addr n) (i0 + i) e s = (o <- loop_ fuel (pipewrite_turn pr pi (addr + i0) (n - i0)) i;; ret (shift_end i0 o)) e s.
Proof.
  induction fuel as [|fuel IH]; intros i e s; [done|]. cbn [loop_]. unfold bind at 1. rewrite pipewrite_turn_shift. unfold bind.
  destruct (pipewrite_turn pr pi (addr + i0) (n - i0) i e s) as [[[r []]|i'] e1 s1| | |]; cbn; [done|done| |done..]. rewrite IH. reflexivity.
Qed.
(** What the turns and the loop answer: a count, or -1 with the lock released. *)
Lemma pipewrite_turn_result pr pi addr n i e s o e' s' :
  0 <= i -> pipewrite_turn pr pi addr n i e s = Ok o e' s' ->
  match o with inl (r, true) => 0 <= r | inl (r, false) => r = -1 | inr i' => 0 <= i' end.
Proof.
  intros Hi. unfold pipewrite_turn. case_decide; [intros [= <- _ _]; done|]. cbn [bind gets]. case_decide.
  { unfold bind. destruct (release _ _ _); [intros [= <- _ _]; done|done..]. }
  case_decide.
  { unfold bind. destruct (wakeup _ _ _) as [? e1 s1| | |]; [destruct (sleep _ _ e1 s1); [intros [= <- _ _]; done|done..]|done..]. }
  cbn [bind gets]. unfold bind. destruct (copyin _ _ _ _ _); [|done..]. case_decide; [intros [= <- _ _]; done|]. cbn. intros [= <- _ _]. lia.
Qed.
Lemma pipewrite_loop_result pr pi addr n fuel : forall i e s o e' s',
  0 <= i -> loop_ fuel (pipewrite_turn pr pi addr n) i e s = Ok o e' s' -> if snd o then 0 <= fst o else fst o = -1.
Proof.
  induction fuel as [|fuel IH]; intros i e s o e' s' Hi; [done|]. cbn [loop_]. unfold bind.
  destruct (pipewrite_turn pr pi addr n i e s) as [o1 e1 s1| | |] eqn:E; [|done..]. pose proof (pipewrite_turn_result _ _ _ _ _ _ _ _ _ _ Hi E) as Hr.
  destruct o1 as [[r b]|i']; [intros [= <- _ _]; by destruct b|by apply IH].
Qed.
(** pipewrite() once the lock is held and [i0] bytes are stored. *)
Lemma pipewrite_rest pr pi addr n i0 e k :
  cpu_ok k -> lock_free (LkPipe pi) k -> running k = Some pr ->
  (r <- loop_ (S (Z.to_nat (n - i0) + length e)) (pipewrite_turn pr pi addr n) i0;;
   if snd r : bool then wakeup (ChPipeRead pi);;; release (LkPipe pi);;; ret (fst r) else ret (fst r)) e (lock_taken (LkPipe pi) k) =
  (r <- pipewrite pi (addr + i0) (n - i0);; ret (if decide (r = -1) then -1 else i0 + r)) e k.
Proof.
  intros Hc Hl Hr. unfold pipewrite. rewrite bind_assoc. rewrite (bind_Ok _ _ _ _ _ _ _ (cur_ok e k pr Hc Hr)).
  rewrite bind_assoc. rewrite (bind_Ok _ _ _ _ _ _ _ (acquire_free _ e k Hc Hl)). rewrite bind_assoc.
  unfold bind at 1. pose proof (pipewrite_loop_shift pr pi addr n i0 (S (Z.to_nat (n - i0) + length e)) 0 e (lock_taken (LkPipe pi) k)) as Hs.
  rewrite Z.add_0_r in Hs. rewrite Hs. unfold bind at 1 4.
  destruct (loop_ _ _ 0 e _) as [o e1 s1| | |] eqn:E; [|done..]. apply pipewrite_loop_result in E; [|lia]. destruct o as [r []]; cbn in *.
  - unfold bind. destruct (wakeup _ _ _) as [? e2 s2| | |]; [|done..]. destruct (release _ e2 s2); [|done..]. cbn. by rewrite decide_False by lia.
  - subst r. done.
Qed.

(** The bytes do not fit: as many as there is room for are appended, the readers
    are woken and the writer sleeps; once it runs again it writes the rest. *)
Lemma pipewrite_full k pr root t fl pi addr n bs :
  writer k pr root t fl pi -> idle_hart k -> (pr < length (k_procs k))%nat -> p_killed (get_proc k pr) = 0 ->
  pi_readopen (get_pipe k pi) <> 0 -> pipe_inv (get_pipe k pi) -> ureads (k_mem k) t addr bs ->
  length bs = pipe_room (get_pipe k pi) -> Z.of_nat (length bs) < n ->
  let ks := asleep pr (ChPipeWrite pi) (woken (ChPipeRead pi) (upd_pipe pi (put_all bs) k)) in
  pipewrite pi addr n [] k = Wait WSwitch (lock_taken (LkProc pr) ks) /\
  forall f e k1, f (lock_taken (LkProc pr) ks) = lock_taken (LkProc pr) k1 -> resumed pr k1 -> sie k1 = sie k -> running k1 = Some pr -> lock_free (LkPipe pi) k1 ->
    pipewrite pi addr n (f :: e) k =
    (r <- pipewrite pi (addr + Z.of_nat (length bs)) (n - Z.of_nat (length bs));; ret (if decide (r = -1) then -1 else Z.of_nat (length bs) + r)) e
      (upd_proc pr (set_p_chan ChNull) k1).
Proof.
  intros Hw Hidle Hpr Hk Hro Hpi Hu Hlen Hlt ks. pose proof Hw as [Hq Hl Hr Hp Hv Hpp].
  pose proof (pv_count _ Hpi) as Hcnt. fold (pipe_count (get_pipe k pi)) in Hcnt. pose proof (pipe_count_range (get_pipe k pi)) as H0. unfold pipe_room in Hlen.
  set (kw := woken (ChPipeRead pi) (upd_pipe pi (put_all bs) k)). assert (quiet (upd_pipe pi (put_all bs) k)) as Hq' by (constructor; apply Hq).
  assert (quiet kw) as Hqw by (by apply woken_quiet). assert (pr < length (k_procs kw))%nat as Hpw by (rewrite (q_len _ Hqw), <- (q_len _ Hq); exact Hpr).
  assert (lock_free (LkProc pr) kw) as Hlp by (apply (q_lock _ Hqw); by rewrite <- (q_len _ Hqw)).
  assert (running kw = Some pr) as Hrw by exact Hr. assert (lock_free (LkPipe pi) kw) as Hlw by exact Hl. assert (idle_hart kw) as Hiw by exact Hidle.
  assert (pipe_count (get_pipe k pi) + Z.of_nat (length bs) <= PIPESIZE) as Hfit by lia. destruct (put_all_bytes bs _ Hpi Hfit) as [Hpi' Hb'].
  assert (pipe_full (put_all bs (get_pipe k pi))) as Hfull.
  { apply pipe_full_count; [done|]. pose proof (length_pipe_bytes (put_all bs (get_pipe k pi))) as El. rewrite Hb', length_app, length_pipe_bytes in El.
    pose proof (pipe_count_range (put_all bs (get_pipe k pi))). lia. }
  assert (pi_readopen (put_all bs (get_pipe k pi)) <> 0) as Hro' by (by rewrite (proj1 (proj2 (put_all_ends bs _)))).
  assert (forall e, pipewrite pi addr n e k =
    (r <- (o <- (sleep (ChPipeWrite pi) (LkPipe pi);;; ret (inr (Z.of_nat (length bs))));;
           match o with inl r => ret r | inr x' => loop_ (Z.to_nat n - length bs + length e) (pipewrite_turn pr pi addr n) x' end);;
     if snd r : bool then wakeup (ChPipeRead pi);;; release (LkPipe pi);;; ret (fst r) else ret (fst r)) e (lock_taken (LkPipe pi) kw)) as Hgo.
  { intros e. unfold pipewrite. rewrite (bind_Ok _ _ _ _ _ _ _ (cur_ok e k pr (q_cpu k Hq) Hr)).
    rewrite (bind_Ok _ _ _ _ _ _ _ (acquire_free _ e k (q_cpu k Hq) Hl)).
    pose proof (pipewrite_steps e k pr root t fl pi addr n bs 0 id (S (Z.to_nat n - length bs + length e)) Hw Hk) as Hs.
    rewrite !Z.add_0_l, Z.add_0_r, (upd_pipe_id pi k Hpp) in Hs. specialize (Hs ltac:(lia) ltac:(lia) Hu Hro Hpi Hfit).
    replace (length bs + S (Z.to_nat n - length bs + length e))%nat with (S (Z.to_nat n + length e)) in Hs by lia.
    change (fun x => put_all bs (id x)) with (put_all bs) in Hs. apply bind_from. etransitivity; [exact Hs|]. cbn [loop_]. apply bind_from.
    exact (pipewrite_full_turn e k pr pi addr n _ (put_all bs) Hq Hk Hro' Hlt Hfull). }
  split.
  - rewrite Hgo. apply bind_Wait, bind_Wait, bind_Wait. exact (sleep_waits (ChPipeWrite pi) (LkPipe pi) kw pr (q_cpu _ Hqw) Hiw Hlw Hlp ltac:(done) Hrw Hpw).
  - intros f e k1 Hf Hres Hsie Hr1 Hl1. rewrite Hgo. pose proof Hres as (Hc1 & _ & _).
    pose proof (sleep_resumes (ChPipeWrite pi) (LkPipe pi) f e kw pr k1 (q_cpu _ Hqw) Hiw Hlw Hlp ltac:(done) Hrw Hpw Hres Hsie Hl1 Hf) as Hsl.
    rewrite !bind_assoc. rewrite (bind_Ok _ _ _ _ _ _ _ Hsl). set (k2 := upd_proc pr (set_p_chan ChNull) k1).
    rewrite (bind_Ok (ret _) _ (inr (Z.of_nat (length bs))) e (lock_taken (LkPipe pi) k2) e (lock_taken (LkPipe pi) k2) eq_refl).
    rewrite <- (pipewrite_rest pr pi addr n (Z.of_nat (length bs)) e k2 Hc1 Hl1 Hr1).
    replace (Z.to_nat n - length bs + length (f :: e))%nat with (S (Z.to_nat (n - Z.of_nat (length bs)) + length e)) by (cbn [length]; lia). reflexivity.
Qed.

(** No reader is left, or the writer has been killed. *)
Lemma pipewrite_refused e k pr pi addr n :
  quiet k -> lock_free (LkPipe pi) k -> running k = Some pr -> 0 < n -> (pi_readopen (get_pipe k pi) = 0 \/ p_killed (get_proc k pr) <> 0) ->
  pipewrite pi addr n e k = Ok (-1) e k.
Proof.
  intros Hq Hl Hr Hn Hor. unfold pipewrite. rewrite (bind_Ok _ _ _ _ _ _ _ (cur_ok e k pr (q_cpu k Hq) Hr)).
  rewrite (bind_Ok _ _ _ _ _ _ _ (acquire_free _ e k (q_cpu k Hq) Hl)). rewrite (bind_Ok _ _ (-1, false) e (lock_taken (LkPipe pi) k) e k); [done|].
  cbn [loop_]. rewrite (bind_Ok _ _ (inl (-1, false)) e (lock_taken (LkPipe pi) k) e k); [done|]. unfold pipewrite_turn.
  rewrite decide_False by lia. rewrite (bind_Ok (gets _) _ (get_pipe k pi) e _ e (lock_taken (LkPipe pi) k) eq_refl).
  rewrite (bind_Ok (gets _) _ (p_killed (get_proc k pr)) e _ e (lock_taken (LkPipe pi) k) eq_refl). rewrite decide_True by done.
  by rewrite (bind_Ok _ _ _ _ _ _ _ (release_taken _ e k (q_cpu k Hq) Hl)).
Qed.

(** ** Reading *)

Lemma user_space_same k k' root t fl us :
  user_space k root t fl us -> cpu_ok k' -> lock_free LkKmem k' ->
  k_mem k' = k_mem k -> k_freelist k' = k_freelist k -> user_space k' root t fl us.
Proof.
  intros [[Hv Ho Hs Hm Hu] Hus] Hc Hl Em Ef. constructor; [constructor; try done|]; rewrite ?Em; try done.
  by apply (vm_inv_same k).
Qed.

(** copyout() of one accessible byte. *)
Lemma copyout_byte e k root t fl us va b c :
  user_space k root t fl us -> 0 <= b < 256 -> uread (k_mem k) t va = Some c ->
  exists m fr, let k' := set_k_freelist fr (set_k_mem m k) in
    copyout root va [b] e k = Ok 0 e k' /\ user_space k' root t fl us /\
    forall va', uread m t va' = if decide (va' = va) then Some b else uread (k_mem k) t va'.
Proof.
  intros Hs Hb Hc. assert (0 <= va < 2 ^ 64) as Hva.
  { unfold uread in Hc. case_decide as Hr; [|done]. change MAXVA with (2 ^ 38) in Hr. lia. }
  unfold copyout. destruct (copyout_loop e root t fl us (S (length [b])) k va [b] Hs Hva) as (r & k' & -> & Hs' & Ho & _ & j & V & Hr).
  { cbn. lia. }
  destruct Hr as [[-> ->]|(_ & Hj & Hn)].
  - unfold only_mem in Ho. exists (k_mem k'), (k_freelist k'). cbn zeta. rewrite <- Ho. split_and!; try done.
    intros va'. rewrite V. cbn [length]. destruct (decide (va' = va)) as [->|Hne].
    + rewrite decide_True by lia. rewrite Z.sub_diag.
      change (u8 <$> [b] !! Z.to_nat 0) with (Some (u8 b)). by rewrite u8_small.
    + by rewrite decide_False by lia.
  - cbn in Hj. assert (j = 0%nat) as -> by lia. rewrite Z.add_0_r in Hn. congruence.
Qed.

Record reader (k : kernel) (pr : nat) (root : Z) (t : ptable) (fl us : list Z) (pi : Z) : Prop := {
  rd_quiet : quiet k;
  rd_lock : lock_free (LkPipe pi) k;
  rd_running : running k = Some pr;
  rd_pt : p_pagetable (get_proc k pr) = root;
  rd_space : user_space k root t fl us;
  rd_pipe : is_Some (k_pipes k !! pi)
}.

Lemma reader_taken k pr root t fl us pi f :
  reader k pr root t fl us pi -> user_space (lock_taken (LkPipe pi) (upd_pipe pi f k)) root t fl us.
Proof.
  intros [Hq Hl Hr Hp Hs _]. apply (user_space_same k); try done.
  - by apply cpu_ok_taken, Hq.
  - apply lock_free_taken_ne; [done|]. apply Hs.
Qed.

(** The bytes of a pipe are bytes. *)
Definition bytes_ok (l : list Z) : Prop := Forall (fun b => 0 <= b < 256) l.

Fixpoint take_all (j : nat) (x : pipe) : pipe :=
  match j with O => x | S j' => take_all j' (pipe_get x) end.

Lemma pipe_front_bytes x b l : pipe_inv x -> pipe_bytes x = b :: l ->
  pi_nread x <> pi_nwrite x /\ pipe_front x = b /\ pipe_inv (pipe_get x) /\ pipe_bytes (pipe_get x) = l.
Proof.
  intros Hpi Hb. assert (pi_nread x <> pi_nwrite x) as Hne.
  { rewrite pipe_empty_count by done. pose proof (length_pipe_bytes x) as El. rewrite Hb in El. cbn in El. lia. }
  destruct (pipe_get_inv x Hpi Hne) as [Hpi' E]. rewrite Hb in E. by injection E as -> ->.
Qed.

(** Turns that deliver a byte. *)
Lemma piperead_steps e pr root t fl us pi addr n : forall bs rest i k f fuel,
  reader k pr root t fl us pi -> 0 <= i -> i + Z.of_nat (length bs) <= n ->
  pipe_inv (f (get_pipe k pi)) -> pipe_bytes (f (get_pipe k pi)) = bs ++ rest -> bytes_ok bs ->
  (forall j, i <= j < i + Z.of_nat (length bs) -> is_Some (uread (k_mem k) t (addr + j))) ->
  exists m fr, let k' := set_k_freelist fr (set_k_mem m k) in
    loop_ (length bs + fuel) (piperead_turn pr pi addr n) i e (lock_taken (LkPipe pi) (upd_pipe pi f k)) =
      loop_ fuel (piperead_turn pr pi addr n) (i + Z.of_nat (length bs)) e (lock_taken (LkPipe pi) (upd_pipe pi (fun x => take_all (length bs) (f x)) k')) /\
    reader k' pr root t fl us pi /\
    forall va, uread m t va = if decide (addr + i <= va < addr + i + Z.of_nat (length bs))
                              then bs !! Z.to_nat (va - (addr + i)) else uread (k_mem k) t va.
Proof.
  induction bs as [|b bs IH]; intros rest i k f fuel Hrd Hi Hn Hpi Hb Hok Hacc; cbn [Nat.add loop_ length] in *.
  - exists (k_mem k), (k_freelist k). assert (set_k_freelist (k_freelist k) (set_k_mem (k_mem k) k) = k) as -> by by destruct k.
    split_and!; [by rewrite Z.add_0_r|done|].
    intros va. by rewrite decide_False by lia.
  - set (s := lock_taken (LkPipe pi) (upd_pipe pi pipe_get (upd_pipe pi f k))).
    destruct (pipe_front_bytes _ _ _ Hpi Hb) as (Hne & Hfr & Hpi' & Hb').
    apply Forall_cons in Hok as [Hb0 Hok]. destruct (Hacc i) as [c Hc]; [lia|].
    assert (u64 (addr + i) = addr + i) as E64.
    { apply u64_small. unfold uread in Hc. case_decide as Hr; [|done]. change MAXVA with (2 ^ 38) in Hr. lia. }
    assert (user_space s root t fl us) as Hs.
    { subst s. rewrite upd_pipe_twice. by eapply reader_taken. }
    destruct (copyout_byte e s root t fl us (addr + i) b c Hs Hb0 Hc) as (m1 & fr1 & Hcp & Hs1 & V1).
    set (k1 := set_k_freelist fr1 (set_k_mem m1 k)).
    assert (reader k1 pr root t fl us pi) as Hrd1.
    { destruct Hrd as [Hq Hl Hr Hp Hsp Hpp]. constructor; try done; [constructor; apply Hq|].
      apply (user_space_same _ k1) in Hs1; try done; [apply Hq|apply Hsp]. }
    assert (piperead_turn pr pi addr n i e (lock_taken (LkPipe pi) (upd_pipe pi f k)) =
            Ok (inr (i + 1)) e (lock_taken (LkPipe pi) (upd_pipe pi (fun x => pipe_get (f x)) k1))) as Ht.
    { unfold piperead_turn. rewrite decide_False by lia. cbn [bind gets].
      change (get_pipe (lock_taken (LkPipe pi) ?x) pi) with (get_pipe x pi). rewrite get_pipe_upd.
      rewrite decide_False by done. rewrite Hfr. cbn [bind gets modify].
      change (upd_pipe pi pipe_get (lock_taken (LkPipe pi) (upd_pipe pi f k))) with s.
      change (p_pagetable (get_proc s pr)) with (p_pagetable (get_proc k pr)). rewrite (rd_pt _ _ _ _ _ _ _ Hrd).
      rewrite E64, Hcp. rewrite decide_False by lia. cbn [ret]. subst s. by rewrite upd_pipe_twice. }
    rewrite (bind_Ok _ _ _ _ _ _ _ Ht).
    destruct (IH rest (i + 1) k1 (fun x => pipe_get (f x)) fuel) as (m2 & fr2 & Hl2 & Hrd2 & V2); try done; try lia.
    { intros j Hj. cbn. rewrite V1. case_decide; [done|]. apply Hacc. lia. }
    exists m2, fr2. split_and!; [by replace (i + Z.of_nat (S (length bs))) with (i + 1 + Z.of_nat (length bs)) by lia|done|].
    intros va. rewrite V2. subst k1. cbn [k_mem set_k_freelist set_k_mem]. rewrite V1.
    destruct (decide (va = addr + i)) as [->|Hva].
    + rewrite decide_False by lia. rewrite decide_True by lia. by rewrite Z.sub_diag.
    + destruct (decide (addr + (i + 1) <= va < addr + (i + 1) + Z.of_nat (length bs))) as [Hin|Hout].
      * rewrite decide_True by lia.
        replace (Z.to_nat (va - (addr + i))) with (S (Z.to_nat (va - (addr + (i + 1))))) by lia. done.
      * by rewrite decide_False by lia.
Qed.

Lemma take_all_bytes bs rest : forall x, pipe_inv x -> pipe_bytes x = bs ++ rest ->
  pipe_inv (take_all (length bs) x) /\ pipe_bytes (take_all (length bs) x) = rest.
Proof.
  induction bs as [|b bs IH]; intros x Hpi Hb; [done|]. cbn [length take_all].
  destruct (pipe_front_bytes _ _ _ Hpi Hb) as (_ & _ & Hpi' & Hb'). by apply IH.
Qed.

(** How the copy loop ends: all is delivered, the pipe is empty, or the byte
    taken last cannot be stored and is lost. *)
Lemma piperead_stops e k pr pi addr n i f :
  let s := lock_taken (LkPipe pi) (upd_pipe pi f k) in
  n <= i \/ pi_nread (f (get_pipe k pi)) = pi_nwrite (f (get_pipe k pi)) -> piperead_turn pr pi addr n i e s = Ok (inl i) e s.
Proof.
  intros s Hor. unfold piperead_turn. destruct (decide (i >= n)) as [|Hlt]; [done|]. destruct Hor as [?|He]; [lia|]. cbn [bind gets].
  assert (get_pipe s pi = f (get_pipe k pi)) as -> by apply get_pipe_upd. by rewrite decide_True.
Qed.
Lemma copyout_none e k root t fl us va b :
  user_space k root t fl us -> 0 <= va < 2 ^ 64 -> uread (k_mem k) t va = None -> copyout root va [b] e k = Ok (-1) e k.
Proof.
  intros Hs Hva Hn. unfold copyout. cbn [length loop_]. unfold copyout_body at 1. rewrite decide_False by done. rewrite bind_assoc.
  destruct (walkaddr_page e k root t fl va (uv_inv _ _ _ _ _ (us_uvm _ _ _ _ _ Hs)) Hva) as (pa & Hw & Hc). rewrite (bind_Ok _ _ _ _ _ _ _ Hw).
  destruct Hc as [[-> _]|(Hnz & Hlt & Hpa)]; [done|]. exfalso. destruct (page_split va) as (Ed & _); [lia|]. rewrite Ed in Hpa.
  unfold uread in Hn. rewrite decide_True in Hn by lia. cbv zeta in Hn. rewrite Hpa in Hn. by rewrite decide_False in Hn.
Qed.
Lemma piperead_loses e k pr root t fl us pi addr n i f :
  reader k pr root t fl us pi -> i < n -> pi_nread (f (get_pipe k pi)) <> pi_nwrite (f (get_pipe k pi)) -> 0 <= addr + i < 2 ^ 64 -> uread (k_mem k) t (addr + i) = None ->
  piperead_turn pr pi addr n i e (lock_taken (LkPipe pi) (upd_pipe pi f k)) = Ok (inl i) e (lock_taken (LkPipe pi) (upd_pipe pi (fun x => pipe_get (f x)) k)).
Proof.
  intros Hrd Hlt Hne Ha Hnone. set (s := lock_taken (LkPipe pi) (upd_pipe pi pipe_get (upd_pipe pi f k))).
  assert (user_space s root t fl us) as Hs by (subst s; rewrite upd_pipe_twice; by eapply reader_taken).
  unfold piperead_turn. rewrite decide_False by lia. cbn [bind gets].
  change (get_pipe (lock_taken (LkPipe pi) ?x) pi) with (get_pipe x pi). rewrite get_pipe_upd. rewrite decide_False by done. cbn [bind gets modify].
  change (upd_pipe pi pipe_get (lock_taken (LkPipe pi) (upd_pipe pi f k))) with s.
  change (p_pagetable (get_proc s pr)) with (p_pagetable (get_proc k pr)). rewrite (rd_pt _ _ _ _ _ _ _ Hrd), u64_small by done.
  rewrite (copyout_none e s root t fl us _ _ Hs Ha Hnone). rewrite decide_True by done. subst s. by rewrite upd_pipe_twice.
Qed.

(** The bytes a read of [n] bytes finds, and how many of them the reader's memory
    takes. *)
Definition pipe_avail (x : pipe) (n : Z) : nat := Nat.min (Z.to_nat n) (length (pipe_bytes x)).
Definition writable (m : mem) (t : ptable) (va : Z) (want acc : nat) : Prop :=
  (acc <= want)%nat /\ (forall j, 0 <= j < Z.of_nat acc -> is_Some (uread m t (va + j))) /\ ((acc < want)%nat -> uread m t (va + Z.of_nat acc) = None).

Lemma take_all_S j : forall x, take_all (S j) x = pipe_get (take_all j x).
Proof. induction j as [|j IH]; intros x; [done|]. change (take_all (S (S j)) x) with (take_all (S j) (pipe_get x)). by rewrite IH. Qed.

Lemma piperead_loop e k pr root t fl us pi addr n acc :
  let q := pipe_bytes (get_pipe k pi) in let want := pipe_avail (get_pipe k pi) n in
  reader k pr root t fl us pi -> pipe_inv (get_pipe k pi) -> bytes_ok q -> 0 <= n -> 0 <= addr -> addr + n <= 2 ^ 64 -> writable (k_mem k) t addr want acc ->
  exists m fr, let k' := set_k_freelist fr (set_k_mem m k) in
    loop_ (S (Z.to_nat n)) (piperead_turn pr pi addr n) 0 e (lock_taken (LkPipe pi) k) =
      Ok (Z.of_nat acc) e (lock_taken (LkPipe pi) (upd_pipe pi (take_all (if decide (acc < want)%nat then S acc else acc)) k')) /\
    forall va, uread m t va = if decide (addr <= va < addr + Z.of_nat acc) then q !! Z.to_nat (va - addr) else uread (k_mem k) t va.
Proof.
  intros q want Hrd Hpi Hok Hn Ha Han (Hacc & Hall & Hnone). assert (want = Nat.min (Z.to_nat n) (length q)) as Ew by reflexivity. clearbody want.
  assert (length (take acc q) = acc) as El by (rewrite length_take; lia).
  destruct (piperead_steps e pr root t fl us pi addr n (take acc q) (drop acc q) 0 k id (S (Z.to_nat n - acc)) Hrd) as (m & fr & Hs & Hrd' & V); [lia|lia|exact Hpi|unfold q; symmetry; apply take_drop| | |].
  { by apply Forall_take. } { rewrite El, Z.add_0_l. exact Hall. }
  rewrite El, Z.add_0_l, (upd_pipe_id pi k (rd_pipe _ _ _ _ _ _ _ Hrd)) in Hs. rewrite El, Z.add_0_r in V. change (fun x => take_all acc (id x)) with (take_all acc) in Hs.
  replace (acc + S (Z.to_nat n - acc))%nat with (S (Z.to_nat n)) in Hs by lia. exists m, fr. cbv zeta. set (k' := set_k_freelist fr (set_k_mem m k)) in *. split.
  - rewrite Hs. cbn [loop_]. destruct (take_all_bytes (take acc q) (drop acc q) (get_pipe k pi) Hpi ltac:(unfold q; by rewrite take_drop)) as [Hpi' Hb']. rewrite El in Hpi', Hb'.
    pose proof (pipe_empty_count _ Hpi') as He. pose proof (length_pipe_bytes (take_all acc (get_pipe k pi))) as Elr. rewrite Hb', length_drop in Elr. pose proof (pipe_count_range (take_all acc (get_pipe k pi))).
    case_decide as Hd.
    + rewrite (bind_Ok _ _ _ _ _ _ _ (piperead_loses e k' pr root t fl us pi addr n (Z.of_nat acc) (take_all acc) Hrd' ltac:(lia) ltac:(change (get_pipe k' pi) with (get_pipe k pi); rewrite He; lia) ltac:(lia)
        ltac:(change (k_mem k') with m; rewrite V, decide_False by lia; by apply Hnone))).
      assert (upd_pipe pi (take_all (S acc)) k' = upd_pipe pi (fun x => pipe_get (take_all acc x)) k') as -> by (unfold upd_pipe; by rewrite take_all_S). done.
    + rewrite (bind_Ok _ _ _ _ _ _ _ (piperead_stops e k' pr pi addr n (Z.of_nat acc) (take_all acc) ltac:(change (get_pipe k' pi) with (get_pipe k pi); rewrite He; lia))). done.
  - intros va. rewrite V. case_decide as Hr; [|done]. rewrite lookup_take_lt by lia. done.
Qed.

(** There are bytes, or no writer is left: the reader gets what there is. *)
Lemma piperead_takes e k pr root t fl us pi addr n acc :
  let q := pipe_bytes (get_pipe k pi) in let want := pipe_avail (get_pipe k pi) n in
  reader k pr root t fl us pi -> pipe_inv (get_pipe k pi) -> bytes_ok q -> 0 <= n -> 0 <= addr -> addr + n <= 2 ^ 64 -> writable (k_mem k) t addr want acc ->
  q <> [] \/ pi_writeopen (get_pipe k pi) = 0 ->
  exists m fr, let k' := set_k_freelist fr (set_k_mem m k) in
    piperead pi addr n e k = Ok (Z.of_nat acc) e (woken (ChPipeWrite pi) (upd_pipe pi (take_all (if decide (acc < want)%nat then S acc else acc)) k')) /\
    forall va, uread m t va = if decide (addr <= va < addr + Z.of_nat acc) then q !! Z.to_nat (va - addr) else uread (k_mem k) t va.
Proof.
  intros q want Hrd Hpi Hok Hn Ha Han Hwr Hor. pose proof Hrd as [Hq Hl Hr Hp Hs Hpp].
  destruct (piperead_loop e k pr root t fl us pi addr n acc Hrd Hpi Hok Hn Ha Han Hwr) as (m & fr & Hloop & V). exists m, fr. cbv zeta in *. split; [|exact V].
  fold want in Hloop. set (j := if decide (acc < want)%nat then S acc else acc) in *. set (k' := set_k_freelist fr (set_k_mem m k)) in *. unfold piperead.
  rewrite (bind_Ok _ _ _ _ _ _ _ (cur_ok e k pr (q_cpu k Hq) Hr)).
  rewrite (bind_Ok _ _ _ _ _ _ _ (acquire_free _ e k (q_cpu k Hq) Hl)).
  rewrite (bind_Ok _ _ false e _ e (lock_taken (LkPipe pi) k)); cycle 1.
  { cbn [loop_]. unfold piperead_wait at 1. cbn [bind gets]. change (get_pipe (lock_taken ?l k) pi) with (get_pipe k pi).
    rewrite decide_False; [reflexivity|]. intros [He Hwo]. destruct Hor as [Hne|?]; [|done]. apply Hne. apply length_zero_iff_nil. unfold q. rewrite length_pipe_bytes, (proj1 (pipe_empty_count _ Hpi) He). done. }
  cbv iota. rewrite (bind_Ok _ _ _ _ _ _ _ Hloop).
  assert (quiet (upd_pipe pi (take_all j) k')) as Hq' by (constructor; apply Hq).
  rewrite (bind_Ok _ _ _ _ _ _ _ (wakeup_taken (ChPipeWrite pi) (LkPipe pi) e _ ltac:(done) Hq')).
  by rewrite (bind_Ok _ _ _ _ _ _ _ (release_taken _ e _ (woken_cpu_ok _ _ (q_cpu _ Hq')) Hl)).
Qed.

(** *** An empty pipe *)
Lemma piperead_refused e k pr pi addr n :
  quiet k -> lock_free (LkPipe pi) k -> running k = Some pr -> pi_nread (get_pipe k pi) = pi_nwrite (get_pipe k pi) -> pi_writeopen (get_pipe k pi) <> 0 ->
  p_killed (get_proc k pr) <> 0 -> piperead pi addr n e k = Ok (-1) e k.
Proof.
  intros Hq Hl Hr He Hwo Hk. unfold piperead. rewrite (bind_Ok _ _ _ _ _ _ _ (cur_ok e k pr (q_cpu k Hq) Hr)).
  rewrite (bind_Ok _ _ _ _ _ _ _ (acquire_free _ e k (q_cpu k Hq) Hl)). rewrite (bind_Ok _ _ true e (lock_taken (LkPipe pi) k) e k); [done|].
  cbn [loop_]. rewrite (bind_Ok _ _ (inl true) e (lock_taken (LkPipe pi) k) e k); [done|]. unfold piperead_wait.
  rewrite (bind_Ok (gets _) _ (get_pipe k pi) e _ e (lock_taken (LkPipe pi) k) eq_refl). rewrite decide_True by done.
  rewrite (bind_Ok (gets _) _ (p_killed (get_proc k pr)) e _ e (lock_taken (LkPipe pi) k) eq_refl). rewrite decide_True by done.
  by rewrite (bind_Ok _ _ _ _ _ _ _ (release_taken _ e k (q_cpu k Hq) Hl)).
Qed.
Lemma piperead_sleeps k pr pi addr n :
  quiet k -> idle_hart k -> lock_free (LkPipe pi) k -> running k = Some pr -> (pr < length (k_procs k))%nat ->
  pi_nread (get_pipe k pi) = pi_nwrite (get_pipe k pi) -> pi_writeopen (get_pipe k pi) <> 0 -> p_killed (get_proc k pr) = 0 ->
  let ks := asleep pr (ChPipeRead pi) k in
  piperead pi addr n [] k = Wait WSwitch (lock_taken (LkProc pr) ks) /\
  forall f e k1, f (lock_taken (LkProc pr) ks) = lock_taken (LkProc pr) k1 -> resumed pr k1 -> sie k1 = sie k -> running k1 = Some pr -> lock_free (LkPipe pi) k1 ->
    piperead pi addr n (f :: e) k = piperead pi addr n e (upd_proc pr (set_p_chan ChNull) k1).
Proof.
  intros Hq Hidle Hl Hr Hpr He Hwo Hk ks.
  assert (lock_free (LkProc pr) k) as Hlp by (apply (q_lock _ Hq); by rewrite <- (q_len _ Hq)).
  assert (forall e, piperead_wait pr pi tt e (lock_taken (LkPipe pi) k) = (sleep (ChPipeRead pi) (LkPipe pi);;; ret (inr tt)) e (lock_taken (LkPipe pi) k)) as Hw.
  { intros e. unfold piperead_wait. rewrite (bind_Ok (gets _) _ (get_pipe k pi) e _ e (lock_taken (LkPipe pi) k) eq_refl). rewrite decide_True by done.
    rewrite (bind_Ok (gets _) _ (p_killed (get_proc k pr)) e _ e (lock_taken (LkPipe pi) k) eq_refl). by rewrite decide_False by (rewrite Hk; tauto). }
  split.
  - unfold piperead. rewrite (bind_Ok _ _ _ _ _ _ _ (cur_ok [] k pr (q_cpu k Hq) Hr)). rewrite (bind_Ok _ _ _ _ _ _ _ (acquire_free _ [] k (q_cpu k Hq) Hl)).
    apply bind_Wait. cbn [loop_]. apply bind_Wait. rewrite Hw. apply bind_Wait. exact (sleep_waits (ChPipeRead pi) (LkPipe pi) k pr (q_cpu _ Hq) Hidle Hl Hlp ltac:(done) Hr Hpr).
  - intros f e k1 Hf Hres Hsie Hr1 Hl1. pose proof Hres as (Hc1 & _ & _). set (k2 := upd_proc pr (set_p_chan ChNull) k1).
    pose proof (sleep_resumes (ChPipeRead pi) (LkPipe pi) f e k pr k1 (q_cpu _ Hq) Hidle Hl Hlp ltac:(done) Hr Hpr Hres Hsie Hl1 Hf) as Hsl.
    unfold piperead. rewrite (bind_Ok _ _ _ _ _ _ _ (cur_ok (f :: e) k pr (q_cpu k Hq) Hr)). rewrite (bind_Ok _ _ _ _ _ _ _ (acquire_free _ (f :: e) k (q_cpu k Hq) Hl)).
    rewrite (bind_Ok _ _ _ _ _ _ _ (cur_ok e k2 pr Hc1 Hr1)). rewrite (bind_Ok _ _ _ _ _ _ _ (acquire_free _ e k2 Hc1 Hl1)).
    apply bind_from. change (length (f :: e)) with (S (length e)). cbn [loop_]. rewrite (bind_Ok (piperead_wait pr pi tt) _ (inr tt) (f :: e) (lock_taken (LkPipe pi) k) e (lock_taken (LkPipe pi) k2)); [done|].
    rewrite Hw. by rewrite (bind_Ok _ _ _ _ _ _ _ Hsl).
Qed.
(** *** The outcomes, in terms of the queue *)
(** The pipe holds the bytes [l] after what it held. *)
Definition appended (x x' : pipe) (l : list Z) : Prop :=
  pipe_inv x' /\ pipe_bytes x' = pipe_bytes x ++ l /\ pi_nread x' = pi_nread x /\ pi_readopen x' = pi_readopen x /\ pi_writeopen x' = pi_writeopen x.
Lemma put_all_appended bs x : pipe_inv x -> pipe_count x + Z.of_nat (length bs) <= PIPESIZE -> appended x (put_all bs x) bs.
Proof. intros Hpi Hc. destruct (put_all_bytes bs x Hpi Hc). pose proof (put_all_ends bs x). done. Qed.
(** The pipe holds what it held without its first [j] bytes. *)
Definition dropped (x x' : pipe) (j : nat) : Prop :=
  pipe_inv x' /\ pipe_bytes x' = drop j (pipe_bytes x) /\ pi_nwrite x' = pi_nwrite x /\ pi_readopen x' = pi_readopen x /\ pi_writeopen x' = pi_writeopen x.
Lemma take_all_dropped j x : pipe_inv x -> (j <= length (pipe_bytes x))%nat -> dropped x (take_all j x) j.
Proof.
  intros Hpi Hj. destruct (take_all_bytes (take j (pipe_bytes x)) (drop j (pipe_bytes x)) x Hpi) as [H1 H2]; [by rewrite take_drop|].
  rewrite length_take, Nat.min_l in H1, H2 by lia. split_and!; [done|done|clear..]; revert x; induction j as [|j IH]; intros x; [done|exact (IH (pipe_get x))|done|exact (IH (pipe_get x))|done|exact (IH (pipe_get x))].
Qed.
Lemma pipe_count_length x : pipe_count x = Z.of_nat (length (pipe_bytes x)).
Proof. rewrite length_pipe_bytes. pose proof (pipe_count_range x). lia. Qed.

(** The invariants do not depend on what is in the pipe. *)
Lemma writer_upd k pr root t fl pi f : writer k pr root t fl pi -> writer (upd_pipe pi f k) pr root t fl pi.
Proof.
  intros [Hq Hl Hr Hp Hv _]. constructor; [constructor; apply Hq|done|done|done|apply (vm_inv_same k); [done|apply Hv|apply Hv|done|done]|]. unfold upd_pipe. cbn. rewrite lookup_insert_eq. by eexists.
Qed.
Lemma reader_upd k pr root t fl us pi f : reader k pr root t fl us pi -> reader (upd_pipe pi f k) pr root t fl us pi.
Proof.
  intros [Hq Hl Hr Hp Hs _]. constructor; [constructor; apply Hq|done|done|done|apply (user_space_same k); [done|apply Hs|apply Hs|done|done]|]. unfold upd_pipe. cbn. rewrite lookup_insert_eq. by eexists.
Qed.
End PipeSpec.
