(* ===== verification/Console.v ===== *)
(** * kernel/console.c and kernel/uart.c: the console

    The transmit buffer of uart.c is [k_uarttx] and the input buffer of
    console.c is [k_cons].  Whether the transmit register is idle is read from
    the device: [tx_idle] is that reading, a parameter.  The characters a uart
    interrupt delivers are the argument of uartintr().

    The loops that wait sleep once per turn; uartstart() sends one buffered
    character per turn and consoleintr() erases one character per turn of ^U. *)

From S2P Require Import Prelude Machine Kstring Kernel Spinlock Kalloc Vm Printf Sched Proc Sleeplock.

Definition UART_TX_BUF_SIZE : Z := 32.
Definition INPUT_BUF : Z := 128.
Definition upd_tx (f : uarttx -> uarttx) (k : kernel) : kernel := set_k_uarttx (f (k_uarttx k)) k.
Definition tx_push (c : Z) (x : uarttx) : uarttx :=
  set_tx_w (u64 (tx_w x + 1))
    (set_tx_buf (<[Z.to_nat (tx_w x mod UART_TX_BUF_SIZE) := u8 c]> (tx_buf x)) x).
Definition tx_front (x : uarttx) : Z := nth (Z.to_nat (tx_r x mod UART_TX_BUF_SIZE)) (tx_buf x) 0.

Section Console.
Context `{Symbols} (tx_idle : kernel -> bool).

(** One turn of uartstart(). *)
Definition uartstart_turn (_ : unit) : K (unit + unit) :=
  x <- gets k_uarttx;;
  if decide (tx_w x = tx_r x) then ret (inl tt) else
  idle <- gets tx_idle;;
  if negb idle then ret (inl tt) else
  modify (upd_tx (fun x => set_tx_r (u64 (tx_r x + 1)) x));;;
  wakeup ChUart;;;
  modify (uart_send (tx_front x));;;
  ret (inr tt).

Definition uartstart : K unit :=
  x <- gets k_uarttx;;
  loop_ (S (Z.to_nat (u64 (tx_w x - tx_r x)))) uartstart_turn tt.

(** One turn of the loop of uartputc(). *)
Definition uartputc_turn (c : Z) (_ : unit) : K (unit + unit) :=
  x <- gets k_uarttx;;
  if decide (tx_w x = u64 (tx_r x + UART_TX_BUF_SIZE)) then
    sleep ChUart LkUart;;; ret (inr tt)
  else
    modify (upd_tx (tx_push c));;;
    uartstart;;;
    release LkUart;;;
    ret (inl tt).

Definition uartputc (c : Z) : K unit :=
  acquire LkUart;;;
  fun e k => loop_ (S (length e)) (uartputc_turn c) tt e k.

Definition uartinit : K unit := initlock LkUart "uart".

(** ** console.c *)
Definition consolewrite_turn (user_src src n : Z) (i : Z) : K (Z + Z) :=
  if decide (i >= n) then ret (inl i) else
  r <- either_copyin user_src (u64 (src + i)) 1;;
  if decide (fst r = -1) then ret (inl i) else
  uartputc (nth 0 (snd r) 0);;;
  ret (inr (i + 1)).

Definition consolewrite (user_src src n : Z) : K Z :=
  loop_ (S (Z.to_nat n)) (consolewrite_turn user_src src n) 0.

(** The wait for input; [inl true] is the return of -1 by a killed process. *)
Definition consoleread_wait (_ : unit) : K (bool + unit) :=
  x <- gets k_cons;;
  if decide (cons_r x = cons_w x) then
    p <- cur;;
    killed <- gets (fun k => p_killed (get_proc k p));;
    if decide (killed <> 0) then release LkCons;;; ret (inl true)
    else sleep ChCons LkCons;;; ret (inr tt)
  else ret (inl false).

(** One turn of the outer loop: the count of bytes still wanted, and whether
    the lock has already been released by the early return. *)
Definition consoleread_turn (user_dst dst target : Z) (n : Z) : K (option Z + Z) :=
  if decide (n <= 0) then ret (inl (Some n)) else
  gone <- (fun e k => loop_ (S (length e)) consoleread_wait tt e k);;
  if gone : bool then ret (inl None) else
  x <- gets k_cons;;
  let c := nth (Z.to_nat (cons_r x mod INPUT_BUF)) (cons_buf x) 0 in
  modify (upd_cons (fun x => set_cons_r (u32 (cons_r x + 1)) x));;;
  if decide (c = 4) then
    (if decide (n < target) then modify (upd_cons (fun x => set_cons_r (u32 (cons_r x - 1)) x)) else skip);;;
    ret (inl (Some n))
  else
    r <- either_copyout user_dst (u64 (dst + (target - n))) [c];;
    if decide (r = -1) then ret (inl (Some n)) else
    if decide (c = 10) then ret (inl (Some (n - 1))) else ret (inr (n - 1)).

Definition consoleread (user_dst dst n : Z) : K Z :=
  let target := n in
  acquire LkCons;;;
  r <- loop_ (S (Z.to_nat n)) (consoleread_turn user_dst dst target) n;;
  match r with
  | None => ret (-1)
  | Some n => release LkCons;;; ret (target - n)
  end.

(** ^U: erase one character of the line being edited. *)
Definition kill_turn (_ : unit) : K (unit + unit) :=
  x <- gets k_cons;;
  if decide (cons_e x <> cons_w x /\
             nth (Z.to_nat (u32 (cons_e x - 1) mod INPUT_BUF)) (cons_buf x) 0 <> 10) then
    modify (upd_cons (fun x => set_cons_e (u32 (cons_e x - 1)) x));;;
    consputc BACKSPACE;;;
    ret (inr tt)
  else ret (inl tt).

Definition store_char (c : Z) (x : console) : console :=
  set_cons_e (u32 (cons_e x + 1))
    (set_cons_buf (<[Z.to_nat (cons_e x mod INPUT_BUF) := u8 c]> (cons_buf x)) x).

Definition consoleintr (c : Z) : K unit :=
  acquire LkCons;;;
  (if decide (c = 16) then procdump
   else if decide (c = 21) then
     x <- gets k_cons;;
     loop_ (S (Z.to_nat (u32 (cons_e x - cons_w x)))) kill_turn tt
   else if decide (c = 8 \/ c = 127) then
     x <- gets k_cons;;
     if decide (cons_e x <> cons_w x) then
       modify (upd_cons (fun x => set_cons_e (u32 (cons_e x - 1)) x));;;
       consputc BACKSPACE
     else skip
   else
     x <- gets k_cons;;
     if decide (c <> 0 /\ u32 (cons_e x - cons_r x) < INPUT_BUF) then
       let c := if decide (c = 13) then 10 else c in
       consputc c;;;
       modify (upd_cons (store_char c));;;
       x <- gets k_cons;;
       if decide (c = 10 \/ c = 4 \/ cons_e x = u32 (cons_r x + INPUT_BUF)) then
         modify (upd_cons (fun x => set_cons_w (cons_e x) x));;;
         wakeup ChCons
       else skip
     else skip);;;
  release LkCons.

Definition uartintr (input : list Z) : K unit :=
  for_ input consoleintr;;;
  acquire LkUart;;;
  uartstart;;;
  release LkUart.

Definition consoleinit : K unit := initlock LkCons "cons";;; uartinit.

#[global] Arguments uartstart : simpl never.
#[global] Arguments uartputc : simpl never.
#[global] Arguments consolewrite : simpl never.
#[global] Arguments consoleread : simpl never.
#[global] Arguments consoleintr : simpl never.
End Console.
