(* ===== verification/File.v ===== *)
(** * kernel/file.c and pipealloc() of kernel/pipe.c: open files

    Files are indices into [k_ftable].  The device switch has one entry, the
    console, installed by consoleinit().  A write to an inode is cut into
    transactions of at most three blocks; each turn of its loop writes at least one
    byte or leaves, which bounds the turns by the request. *)

From S2P Require Import Prelude Machine Kstring Kernel Spinlock Kalloc Vm Printf Sched Proc Sleeplock Bio Log Fs Pipe Console.

Section File.
Context `{Symbols} `{D : BlockDevice} (tx_idle : kernel -> bool).

Definition fileinit : K unit := initlock LkFtable "ftable".

Definition filealloc : K (option nat) :=
  acquire LkFtable;;;
  r <- first_ (seq 0 NFILE) (fun f =>
    ref <- gets (fun k => f_ref (get_file k f));;
    if decide (ref = 0) then
      modify (upd_file f (set_f_ref 1));;;
      release LkFtable;;;
      ret (Some f)
    else ret None);;
  match r with
  | Some f => ret (Some f)
  | None => release LkFtable;;; ret None
  end.

Definition filedup (f : nat) : K nat :=
  acquire LkFtable;;;
  ref <- gets (fun k => f_ref (get_file k f));;
  if decide (ref < 1) then panic "filedup" else
  modify (upd_file f (fun x => set_f_ref (f_ref x + 1) x));;;
  release LkFtable;;;
  ret f.

Definition fileclose (f : nat) : K unit :=
  acquire LkFtable;;;
  x <- gets (fun k => get_file k f);;
  if decide (f_ref x < 1) then panic "fileclose" else
  modify (upd_file f (fun x => set_f_ref (f_ref x - 1) x));;;
  ff <- gets (fun k => get_file k f);;
  if decide (f_ref ff > 0) then release LkFtable else
  modify (upd_file f (fun x => set_f_type FD_NONE (set_f_ref 0 x)));;;
  release LkFtable;;;
  match f_type ff with
  | FD_PIPE => pipeclose (f_pipe ff) (f_writable ff)
  | FD_INODE | FD_DEVICE =>
      begin_op;;;
      ip <- deref (f_ip ff);;
      iput ip;;;
      end_op
  | FD_NONE => skip
  end.

(** struct stat as it is copied out: dev, ino, type, nlink, size. *)
Definition le_bytes (n : nat) (v : Z) : list Z := map (fun i => u8 (Z.shiftr v (8 * i))) (seqZ 0 (Z.of_nat n)).
Definition encode_stat (st : stat) : list Z :=
  le_bytes 4 (st_dev st) ++ le_bytes 4 (st_ino st) ++ le_bytes 2 (st_type st) ++
  le_bytes 2 (st_nlink st) ++ le_bytes 4 0 ++ le_bytes 8 (st_size st).

Definition filestat (f : nat) (addr : Z) : K Z :=
  o <- myproc;;
  x <- gets (fun k => get_file k f);;
  match f_type x with
  | FD_INODE | FD_DEVICE =>
      ilock (f_ip x);;;
      ip <- deref (f_ip x);;
      st <- gets (fun k => stati (get_inode k ip));;
      iunlock (f_ip x);;;
      p <- deref o;;
      pt <- gets (fun k => p_pagetable (get_proc k p));;
      r <- copyout pt addr (encode_stat st);;
      ret (if decide (r < 0) then -1 else 0)
  | _ => ret (-1)
  end.

(** devsw[major].read and .write *)
Definition dev_read (major : Z) : option (Z -> Z -> Z -> K Z) :=
  if decide (major = CONSOLE) then Some consoleread else None.
Definition dev_write (major : Z) : option (Z -> Z -> Z -> K Z) :=
  if decide (major = CONSOLE) then Some (consolewrite tx_idle) else None.

Definition fileread (f : nat) (addr n : Z) : K Z :=
  x <- gets (fun k => get_file k f);;
  if decide (f_readable x = 0) then ret (-1) else
  match f_type x with
  | FD_PIPE => piperead (f_pipe x) addr n
  | FD_DEVICE =>
      if decide (f_major x < 0 \/ f_major x >= NDEV) then ret (-1) else
      match dev_read (f_major x) with
      | None => ret (-1)
      | Some rd => rd 1 addr n
      end
  | FD_INODE =>
      ilock (f_ip x);;;
      ip <- deref (f_ip x);;
      off <- gets (fun k => f_off (get_file k f));;
      r <- readi ip (ToUser addr) off (u32 n);;
      let r := i32 (fst r) in
      (if decide (r > 0) then modify (upd_file f (fun x => set_f_off (u32 (f_off x + r)) x)) else skip);;;
      iunlock (f_ip x);;;
      ret r
  | FD_NONE => panic "fileread"
  end.

(** The bytes one transaction may write. *)
Definition write_max : Z := (MAXOPBLOCKS - 1 - 1 - 2) / 2 * BSIZE.

Definition filewrite_turn (f : nat) (addr n : Z) (i : Z) : K (Z + Z) :=
  if decide (i >= n) then ret (inl i) else
  let n1 := Z.min (n - i) write_max in
  begin_op;;;
  x <- gets (fun k => get_file k f);;
  ilock (f_ip x);;;
  ip <- deref (f_ip x);;
  off <- gets (fun k => f_off (get_file k f));;
  r <- writei ip (FromUser (u64 (addr + i))) off n1;;
  (if decide (r > 0) then modify (upd_file f (fun x => set_f_off (u32 (f_off x + r)) x)) else skip);;;
  iunlock (f_ip x);;;
  end_op;;;
  if decide (r <> n1) then ret (inl i) else ret (inr (i + r)).

Definition filewrite (f : nat) (addr n : Z) : K Z :=
  x <- gets (fun k => get_file k f);;
  if decide (f_writable x = 0) then ret (-1) else
  match f_type x with
  | FD_PIPE => pipewrite (f_pipe x) addr n
  | FD_DEVICE =>
      if decide (f_major x < 0 \/ f_major x >= NDEV) then ret (-1) else
      match dev_write (f_major x) with
      | None => ret (-1)
      | Some wr => wr 1 addr n
      end
  | FD_INODE =>
      i <- loop_ (S (Z.to_nat n)) (filewrite_turn f addr n) 0;;
      ret (if decide (i = n) then n else -1)
  | FD_NONE => panic "filewrite"
  end.

(** ** pipealloc *)

(** The label bad: close what was allocated. *)
Definition pipealloc_bad (f0 f1 : option nat) : K (option (nat * nat)) :=
  match f0 with Some f => fileclose f | None => skip end;;;
  match f1 with Some f => fileclose f | None => skip end;;;
  ret None.

Definition pipe_end (pi readable writable : Z) (x : file) : file :=
  set_f_pipe pi (set_f_writable writable (set_f_readable readable (set_f_type FD_PIPE x))).

(** The two files, or [None] for the result -1. *)
Definition pipealloc : K (option (nat * nat)) :=
  f0 <- filealloc;;
  match f0 with
  | None => pipealloc_bad None None
  | Some a =>
      f1 <- filealloc;;
      match f1 with
      | None => pipealloc_bad (Some a) None
      | Some b =>
          pi <- kalloc;;
          if decide (pi = 0) then pipealloc_bad (Some a) (Some b) else
          modify (upd_pipe pi (fun x => set_pi_nread 0 (set_pi_nwrite 0
                    (set_pi_writeopen 1 (set_pi_readopen 1 x)))));;;
          initlock (LkPipe pi) "pipe";;;
          modify (upd_file a (pipe_end pi 1 0));;;
          modify (upd_file b (pipe_end pi 0 1));;;
          ret (Some (a, b))
      end
  end.
#[global] Arguments filealloc : simpl never.
#[global] Arguments filedup : simpl never.
#[global] Arguments fileclose : simpl never.
#[global] Arguments fileread : simpl never.
#[global] Arguments filewrite : simpl never.
#[global] Arguments pipealloc : simpl never.
End File.
