(* ===== verification/Trap.v ===== *)
(** * kernel/trap.c: the clock and the way back to user space

    clockintr() and usertrapret() with the trap initialisation.  usertrapret()
    ends in the jump to userret of trampoline.S; its result is the pair of
    arguments of that jump, the trapframe's address and the value for satp. *)

From S2P Require Import Prelude Machine Kstring Kernel Spinlock Kalloc Vm Sched Sleeplock.

(** Offsets of struct trapframe (proc.h). *)
Definition TF_KERNEL_SATP : Z := 0.
Definition TF_KERNEL_SP : Z := 8.
Definition TF_KERNEL_TRAP : Z := 16.
Definition TF_EPC : Z := 24.
Definition TF_KERNEL_HARTID : Z := 32.
Definition TF_SP : Z := 48.
Definition TF_A0 : Z := 112.
Definition TF_SIZE : Z := 288.

Section Trap.
Context `{Symbols}.

(** p->trapframe->field = v *)
Definition set_tf (p : nat) (field v : Z) : K unit :=
  modify (fun k => upd_mem (fun m => write64 m (p_trapframe (get_proc k p) + field) v) k).
Definition get_tf (k : kernel) (p : nat) (field : Z) : Z :=
  read64 (k_mem k) (p_trapframe (get_proc k p) + field).

Definition trapinit : K unit := initlock LkTicks "time".

Definition trapinithart : K unit := modify (upd_csr (set_stvec sym_kernelvec)).

Definition usertrapret : K (Z * Z) :=
  p <- cur;;
  intr_off;;;
  modify (upd_csr (set_stvec (TRAMPOLINE + (sym_uservec - sym_trampoline))));;;
  satp <- gets (fun k => satp (k_csr k));;
  set_tf p TF_KERNEL_SATP satp;;;
  kstack <- gets (fun k => p_kstack (get_proc k p));;
  set_tf p TF_KERNEL_SP (u64 (kstack + PGSIZE));;;
  set_tf p TF_KERNEL_TRAP sym_usertrap;;;
  tp <- gets (fun k => Z.of_nat (k_tp k));;
  set_tf p TF_KERNEL_HARTID tp;;;
  modify (upd_csr (fun c => set_sstatus
    (Z.lor (Z.land (sstatus c) (Z.lnot SSTATUS_SPP)) SSTATUS_SPIE) c));;;
  epc <- gets (fun k => get_tf k p TF_EPC);;
  modify (upd_csr (set_sepc epc));;;
  pt <- gets (fun k => p_pagetable (get_proc k p));;
  ret (TRAPFRAME, MAKE_SATP pt).

Definition clockintr : K unit :=
  acquire LkTicks;;;
  modify (fun k => set_k_ticks (u32 (k_ticks k + 1)) k);;;
  update_time;;;
  wakeup ChTicks;;;
  release LkTicks.

#[global] Arguments usertrapret : simpl never.
#[global] Arguments clockintr : simpl never.
End Trap.

(** A clock tick: the tick count, the accounting of every process, and the
    sleepers on the clock. *)
Lemma clockintr_ok e k :
  quiet k -> lock_free LkTicks k ->
  clockintr e k =
  Ok tt e (woken ChTicks (set_k_procs (tick_one <$> k_procs k) (set_k_ticks (u32 (k_ticks k + 1)) k))).
Proof.
  intros Hq Hl. unfold clockintr.
  rewrite (bind_Ok _ _ _ _ _ _ _ (acquire_free _ e k (q_cpu k Hq) Hl)). cbn [bind modify].
  change (set_k_ticks ?v (lock_taken ?l k)) with (lock_taken l (set_k_ticks v k)).
  set (k1 := set_k_ticks _ k). assert (quiet k1) as Hq1 by (constructor; apply Hq).
  rewrite (update_time_ok e _ (quiet_taken LkTicks k1 ltac:(done) Hq1)).
  change (set_k_procs ?p (lock_taken ?l k1)) with (lock_taken l (set_k_procs p k1)).
  set (k2 := set_k_procs _ k1).
  assert (quiet k2) as Hq2.
  { apply quiet_procs; [done|]. cbn. rewrite length_fmap. apply Hq. }
  rewrite (wakeup_taken ChTicks LkTicks e k2 ltac:(done) Hq2).
  rewrite release_taken; [done|apply Hq2|done].
Qed.
