(* ===== verification/ProcFs.v ===== *)
(** * kernel/proc.c, third part: fork(), exit(), userinit() and forkret()

    The routines of proc.c that also use open files, inodes and the log. *)

From S2P Require Import Prelude Machine Kstring Kernel Spinlock Kalloc Vm Printf Sched Proc Sleeplock Bio Log Fs Pipe Console File Trap.

(** initcode: the first user program. *)
Definition initcode : list Z :=
  [0x17; 0x05; 0x00; 0x00; 0x13; 0x05; 0x45; 0x02; 0x97; 0x05; 0x00; 0x00; 0x93; 0x85; 0x35; 0x02;
   0x93; 0x08; 0x70; 0x00; 0x73; 0x00; 0x00; 0x00; 0x93; 0x08; 0x20; 0x00; 0x73; 0x00; 0x00; 0x00;
   0xef; 0xf0; 0x9f; 0xff; 0x2f; 0x69; 0x6e; 0x69; 0x74; 0x00; 0x00; 0x24; 0x00; 0x00; 0x00; 0x00;
   0x00; 0x00; 0x00; 0x00].

Section ProcFs.
Context `{Symbols} `{D : BlockDevice}.

Definition userinit : K unit :=
  o <- allocproc;;
  modify (set_k_initproc o);;;
  p <- deref o;;
  pt <- gets (fun k => p_pagetable (get_proc k p));;
  uvminit pt initcode;;;
  modify (upd_proc p (set_p_sz PGSIZE));;;
  set_tf p TF_EPC 0;;;
  set_tf p TF_SP PGSIZE;;;
  modify (upd_proc p (fun x => set_p_name (safestrcpy_arr (p_name x) (codes "initcode" ++ [0]) 16) x));;;
  cwd <- namei (codes "/");;
  modify (upd_proc p (set_p_cwd cwd));;;
  modify (upd_proc p (set_p_state RUNNABLE));;;
  release (LkProc p).

(** if(p->ofile[i]) np->ofile[i] = filedup(p->ofile[i]); *)
Definition fork_file (p np i : nat) : K unit :=
  o <- gets (fun k => p_ofile (get_proc k p) !! i);;
  match o with
  | Some (Some f) =>
      f' <- filedup f;;
      modify (upd_proc np (fun x => set_p_ofile (<[i := Some f']> (p_ofile x)) x))
  | _ => skip
  end.

(** The part of fork() after the memory is copied. *)
Definition fork_rest (p np : nat) (x : proc) : K Z :=
  modify (upd_proc np (set_p_sz (p_sz x)));;;
  modify (fun k => upd_mem (fun m =>
    write_bytes m (p_trapframe (get_proc k np))
      (read_bytes (Z.to_nat TF_SIZE) m (p_trapframe (get_proc k p)))) k);;;
  set_tf np TF_A0 0;;;
  for_ (seq 0 NOFILE) (fork_file p np);;;
  cwd <- gets (fun k => p_cwd (get_proc k p));;
  c <- deref cwd;;
  c' <- idup c;;
  modify (upd_proc np (set_p_cwd (Some c')));;;
  name <- gets (fun k => p_name (get_proc k p));;
  modify (upd_proc np (fun y => set_p_name (safestrcpy_arr (p_name y) name 16) y));;;
  pid <- gets (fun k => p_pid (get_proc k np));;
  release (LkProc np);;;
  acquire LkWait;;;
  modify (upd_proc np (set_p_parent (Some p)));;;
  release LkWait;;;
  acquire (LkProc np);;;
  modify (upd_proc np (set_p_state RUNNABLE));;;
  release (LkProc np);;;
  ret pid.

Definition fork : K Z :=
  p <- cur;;
  o <- allocproc;;
  match o with
  | None => ret (-1)
  | Some np =>
      x <- gets (fun k => get_proc k p);;
      modify (upd_proc np (set_p_mask (p_mask x)));;;
      new <- gets (fun k => p_pagetable (get_proc k np));;
      r <- uvmcopy (p_pagetable x) new (p_sz x);;
      if decide (r < 0) then freeproc np;;; release (LkProc np);;; ret (-1) else
      fork_rest p np x
  end.

Definition reparent (p : nat) : K unit :=
  for_ (seq 0 NPROC) (fun i =>
    parent <- gets (fun k => p_parent (get_proc k i));;
    if decide (parent = Some p) then
      init <- gets k_initproc;;
      modify (upd_proc i (set_p_parent init));;;
      wakeup (chan_of init)
    else skip).

Definition exit_file (p fd : nat) : K unit :=
  o <- gets (fun k => p_ofile (get_proc k p) !! fd);;
  match o with
  | Some (Some f) =>
      fileclose f;;;
      modify (upd_proc p (fun x => set_p_ofile (<[fd := None]> (p_ofile x)) x))
  | _ => skip
  end.

Definition exit (status : Z) : K unit :=
  o <- myproc;;
  init <- gets k_initproc;;
  if decide (o = init) then panic "init exiting" else
  p <- deref o;;
  for_ (seq 0 NOFILE) (exit_file p);;;
  begin_op;;;
  cwd <- gets (fun k => p_cwd (get_proc k p));;
  c <- deref cwd;;
  iput c;;;
  end_op;;;
  modify (upd_proc p (set_p_cwd None));;;
  acquire LkWait;;;
  reparent p;;;
  parent <- gets (fun k => p_parent (get_proc k p));;
  wakeup (chan_of parent);;;
  acquire (LkProc p);;;
  modify (upd_proc p (set_p_xstate status));;;
  modify (upd_proc p (set_p_state ZOMBIE));;;
  t <- gets k_ticks;;
  modify (upd_proc p (set_p_exit_time t));;;
  release LkWait;;;
  sched;;;
  panic "zombie exit".

Definition forkret : K (Z * Z) :=
  p <- cur;;
  release (LkProc p);;;
  first <- gets k_first;;
  (if decide (first <> 0) then modify (set_k_first 0);;; fsinit ROOTDEV else skip);;;
  usertrapret.

#[global] Arguments userinit : simpl never.
#[global] Arguments fork_rest : simpl never.
#[global] Arguments fork : simpl never.
#[global] Arguments exit : simpl never.
#[global] Arguments reparent : simpl never.
#[global] Arguments forkret : simpl never.
End ProcFs.
