(* ===== verification/FsSpec.v ===== *)
(** * Properties of the on-disk formats and of path parsing (fs.c)

    Words stored in a block are read back and leave the rest of the block alone;
    an inode written by iupdate() is the one ilock() reads; the bitmap operations
    of balloc() and bfree() change exactly one bit; skipelem() takes exactly one
    path element off the path and always makes progress. *)

From S2P Require Import Prelude Machine Kstring Kernel Spinlock Kalloc Vm Sched Sleeplock Bio Log Fs.

(** ** Bytes and words of a block *)

Definition inside (l : list Z) (off n : Z) : Prop := 0 <= off /\ off + n <= Z.of_nat (length l).

Lemma byte_at_put8 l off v o :
  inside l off 1 -> 0 <= o -> byte_at (put8 l off v) o = if decide (o = off) then u8 v else byte_at l o.
Proof.
  intros [H0 H1] Ho. unfold byte_at, put8. rewrite !nth_lookup. case_decide as E.
  - subst. by rewrite list_lookup_insert_eq by lia.
  - by rewrite list_lookup_insert_ne by lia.
Qed.
Lemma length_put8 l off v : length (put8 l off v) = length l.
Proof. apply length_insert. Qed.
Lemma length_put16 l off v : length (put16 l off v) = length l.
Proof. unfold put16. by rewrite !length_put8. Qed.
Lemma length_put32 l off v : length (put32 l off v) = length l.
Proof. unfold put32. by rewrite !length_put16. Qed.

Lemma byte_at_put16 l off v o :
  inside l off 2 -> 0 <= o ->
  byte_at (put16 l off v) o =
  if decide (o = off) then u8 v else if decide (o = off + 1) then u8 (v / 2 ^ 8) else byte_at l o.
Proof.
  intros [H0 H1] Ho. unfold put16.
  rewrite byte_at_put8 by (unfold inside; rewrite ?length_put8; lia).
  destruct (decide (o = off + 1)) as [->|Hne].
  - by rewrite (decide_False (P := off + 1 = off)) by lia.
  - rewrite byte_at_put8 by (unfold inside; lia). by case_decide.
Qed.

Lemma byte_at_put16_ne l off v o :
  inside l off 2 -> 0 <= o -> o < off \/ off + 2 <= o -> byte_at (put16 l off v) o = byte_at l o.
Proof. intros Hi Ho Hne. rewrite byte_at_put16 by done. by rewrite !decide_False by lia. Qed.

Lemma byte_at_put32_ne l off v o :
  inside l off 4 -> 0 <= o -> o < off \/ off + 4 <= o -> byte_at (put32 l off v) o = byte_at l o.
Proof.
  intros [H0 H1] Ho Hne. unfold put32.
  rewrite byte_at_put16_ne by (unfold inside; rewrite ?length_put16; lia).
  by rewrite byte_at_put16_ne by (unfold inside; lia).
Qed.

Lemma get16_ext l l' off :
  byte_at l' off = byte_at l off -> byte_at l' (off + 1) = byte_at l (off + 1) -> get16 l' off = get16 l off.
Proof. intros E1 E2. unfold get16. by rewrite E1, E2. Qed.
Lemma get32_ext l l' off :
  (forall i, 0 <= i < 4 -> byte_at l' (off + i) = byte_at l (off + i)) -> get32 l' off = get32 l off.
Proof.
  intros E. unfold get32. f_equal.
  - apply get16_ext; [rewrite <- (Z.add_0_r off)|]; apply E; lia.
  - f_equal. apply get16_ext; [|rewrite <- Z.add_assoc]; apply E; lia.
Qed.

Lemma get16_put16 l off v : inside l off 2 -> get16 (put16 l off v) off = u16 v.
Proof.
  intros Hi. pose proof Hi as [H0 H1]. unfold get16.
  rewrite !byte_at_put16 by (done || lia).
  rewrite decide_True by done. rewrite decide_False, decide_True by lia.
  unfold u8, u16. change (2 ^ 16) with (2 ^ 8 * 2 ^ 8). rewrite Z.rem_mul_r by done. lia.
Qed.

Lemma get16_put16_ne l off v o :
  inside l off 2 -> 0 <= o -> o + 2 <= off \/ off + 2 <= o -> get16 (put16 l off v) o = get16 l o.
Proof. intros Hi Ho Hne. apply get16_ext; apply byte_at_put16_ne; (done || lia). Qed.

Lemma get32_put32 l off v : inside l off 4 -> get32 (put32 l off v) off = u32 v.
Proof.
  intros [H0 H1]. unfold get32, put32.
  assert (inside (put16 l off v) (off + 2) 2) as Hi by (unfold inside; rewrite length_put16; lia).
  rewrite get16_put16_ne by (done || lia). rewrite !get16_put16 by (done || (unfold inside; lia)).
  unfold u16, u32. change (2 ^ 32) with (2 ^ 16 * 2 ^ 16). rewrite Z.rem_mul_r by done. lia.
Qed.

Lemma get32_put32_ne l off v o :
  inside l off 4 -> 0 <= o -> o + 4 <= off \/ off + 4 <= o -> get32 (put32 l off v) o = get32 l o.
Proof. intros Hi Ho Hne. apply get32_ext. intros i Hr. apply byte_at_put32_ne; (done || lia). Qed.
Lemma get32_put16_ne l off v o :
  inside l off 2 -> 0 <= o -> o + 4 <= off \/ off + 2 <= o -> get32 (put16 l off v) o = get32 l o.
Proof. intros Hi Ho Hne. apply get32_ext. intros i Hr. apply byte_at_put16_ne; (done || lia). Qed.
Lemma get16_put32_ne l off v o :
  inside l off 4 -> 0 <= o -> o + 2 <= off \/ off + 4 <= o -> get16 (put32 l off v) o = get16 l o.
Proof. intros Hi Ho Hne. apply get16_ext; apply byte_at_put32_ne; (done || lia). Qed.

(** ** The bitmap *)

Lemma land_bit_mask x bi : 0 <= bi -> Z.land x (bit_mask bi) = 0 <-> Z.testbit x (bi mod 8) = false.
Proof.
  intros Hb. unfold bit_mask. rewrite Z.shiftl_1_l. pose proof (Z.mod_pos_bound bi 8 ltac:(lia)).
  split.
  - intros E. assert (Z.testbit (Z.land x (2 ^ (bi mod 8))) (bi mod 8) = false) as Ht by by rewrite E, Z.bits_0.
    rewrite Z.land_spec, Z.pow2_bits_true in Ht by lia. by rewrite andb_true_r in Ht.
  - intros E. apply Z.bits_inj'. intros n Hn. rewrite Z.land_spec, Z.bits_0, Z.pow2_bits_eqb by lia.
    destruct (Z.eqb_spec (bi mod 8) n) as [<-|]; [by rewrite E|by rewrite andb_false_r].
Qed.

Lemma u8_testbit x i : 0 <= i < 8 -> Z.testbit (u8 x) i = Z.testbit x i.
Proof. intros Hi. unfold u8. by rewrite Z.mod_pow2_bits_low by lia. Qed.

(** The bit of block [bi'] after that of [bi] has been stored as [v]. *)
Lemma bit_free_put d bi bi' x :
  0 <= bi -> 0 <= bi' -> bi / 8 < Z.of_nat (length d) ->
  (forall i, 0 <= i < 8 -> i <> bi mod 8 -> Z.testbit x i = Z.testbit (byte_at d (bi / 8)) i) ->
  bit_free (put8 d (bi / 8) x) bi' <->
  (if decide (bi' = bi) then Z.testbit x (bi mod 8) = false else bit_free d bi').
Proof.
  intros Hb Hb' Hl Hx. unfold bit_free. rewrite !land_bit_mask by done.
  assert (0 <= bi / 8) by (apply Z.div_pos; lia). assert (0 <= bi' / 8) by (apply Z.div_pos; lia).
  rewrite byte_at_put8 by (unfold inside; lia). pose proof (Z.mod_pos_bound bi' 8 ltac:(lia)).
  destruct (decide (bi' = bi)) as [->|Hne].
  - rewrite decide_True by done. by rewrite u8_testbit.
  - rewrite land_bit_mask by done. destruct (decide (bi' / 8 = bi / 8)) as [E|E]; [|done].
    rewrite u8_testbit by done. rewrite Hx; [by rewrite E|done|]. intros E2. apply Hne.
    rewrite (Z.div_mod bi' 8), (Z.div_mod bi 8) by lia. congruence.
Qed.

Lemma bit_mask_bits bi i : 0 <= bi -> 0 <= i -> Z.testbit (bit_mask bi) i = bool_decide (i = bi mod 8).
Proof.
  intros Hb Hi. unfold bit_mask. pose proof (Z.mod_pos_bound bi 8 ltac:(lia)).
  rewrite Z.shiftl_1_l, Z.pow2_bits_eqb by lia. destruct (Z.eqb_spec (bi mod 8) i) as [->|Hne].
  - by rewrite bool_decide_eq_true_2.
  - rewrite bool_decide_eq_false_2; [done|]. congruence.
Qed.

Lemma bit_free_set d bi bi' :
  0 <= bi -> 0 <= bi' -> bi / 8 < Z.of_nat (length d) ->
  bit_free (bit_set d bi) bi' <-> bi' <> bi /\ bit_free d bi'.
Proof.
  intros Hb Hb' Hl. unfold bit_set. rewrite bit_free_put; try done.
  - case_decide as E; [|tauto]. subst. rewrite Z.lor_spec, bit_mask_bits by (done || apply Z.mod_pos_bound; lia).
    rewrite bool_decide_eq_true_2, orb_true_r by done. split; [done|tauto].
  - intros i Hi Hne. rewrite Z.lor_spec, bit_mask_bits by lia.
    by rewrite bool_decide_eq_false_2, orb_false_r by done.
Qed.

Lemma bit_free_clear d bi bi' :
  0 <= bi -> 0 <= bi' -> bi / 8 < Z.of_nat (length d) ->
  bit_free (bit_clear d bi) bi' <-> bi' = bi \/ bit_free d bi'.
Proof.
  intros Hb Hb' Hl. unfold bit_clear. rewrite bit_free_put; try done.
  - pose proof (Z.mod_pos_bound bi 8 ltac:(lia)).
    case_decide as E; [|tauto]. subst. rewrite Z.land_spec, Z.lnot_spec, bit_mask_bits by lia.
    rewrite bool_decide_eq_true_2 by done. cbn. rewrite andb_false_r. tauto.
  - intros i Hi Hne. rewrite Z.land_spec, Z.lnot_spec, bit_mask_bits by lia.
    rewrite bool_decide_eq_false_2 by done. apply andb_true_r.
Qed.

(** ** On-disk inodes *)

(** The fields of an in-memory inode that fit their C types. *)
Definition inode_fits (x : inode) : Prop :=
  - 2 ^ 15 <= i_type x < 2 ^ 15 /\ - 2 ^ 15 <= i_major x < 2 ^ 15 /\ - 2 ^ 15 <= i_minor x < 2 ^ 15 /\
  - 2 ^ 15 <= i_nlink x < 2 ^ 15 /\ 0 <= i_size x < 2 ^ 32 /\
  length (i_addrs x) = 13%nat /\ Forall (fun a => 0 <= a < 2 ^ 32) (i_addrs x).

(** [y] with the on-disk fields of [x]. *)
Definition with_dinode (x y : inode) : inode :=
  set_i_addrs (i_addrs x) (set_i_size (i_size x) (set_i_nlink (i_nlink x)
    (set_i_minor (i_minor x) (set_i_major (i_major x) (set_i_type (i_type x) y))))).

Lemma i16_u16 z : - 2 ^ 15 <= z < 2 ^ 15 -> i16 (u16 z) = z.
Proof. intros H. unfold i16, u16. rewrite Zplus_mod_idemp_l, Z.mod_small; lia. Qed.

(** Storing the addresses one by one. *)
Definition store_addrs (d : list Z) (o : Z) (addrs : list Z) (js : list Z) : list Z :=
  foldl (fun d j => put32 d (o + 12 + 4 * j) (nth (Z.to_nat j) addrs 0)) d js.

Lemma length_store_addrs d o addrs js : length (store_addrs d o addrs js) = length d.
Proof.
  unfold store_addrs. revert d. induction js as [|j js IH]; intros d; cbn; [done|].
  by rewrite IH, length_put32.
Qed.

Lemma byte_at_store_addrs d o addrs js b :
  0 <= o -> o + 64 <= Z.of_nat (length d) -> Forall (fun j => 0 <= j < 13) js -> 0 <= b ->
  b < o + 12 \/ o + 64 <= b -> byte_at (store_addrs d o addrs js) b = byte_at d b.
Proof.
  intros Ho Hd Hjs Hb Hne. unfold store_addrs. revert d Hd. induction Hjs as [|j js Hj _ IH]; intros d Hd; cbn [foldl]; [done|].
  rewrite IH by by rewrite length_put32. apply byte_at_put32_ne; [unfold inside; lia|done|lia].
Qed.

Lemma get32_store_addrs d o addrs js j :
  0 <= o -> o + 64 <= Z.of_nat (length d) -> Forall (fun j => 0 <= j < 13) js -> j ∈ js ->
  get32 (store_addrs d o addrs js) (o + 12 + 4 * j) = u32 (nth (Z.to_nat j) addrs 0).
Proof.
  intros Ho Hd Hjs. unfold store_addrs. induction js as [|i js IH] using rev_ind; [by intros ?%elem_of_nil|].
  apply Forall_app in Hjs as [Hjs [Hi _]%Forall_cons]. intros Hin. rewrite foldl_app. cbn [foldl].
  fold (store_addrs d o addrs js) in *. pose proof (length_store_addrs d o addrs js) as El.
  destruct (decide (j = i)) as [->|Hne].
  - rewrite get32_put32; [done|]. unfold inside. lia.
  - apply elem_of_app in Hin as [Hin|Hin%list_elem_of_singleton]; [|done].
    assert (0 <= j < 13) by (rewrite Forall_forall in Hjs; by apply Hjs).
    rewrite get32_put32_ne; [by apply IH|unfold inside; lia|lia|lia].
Qed.

Lemma seqZ_13 : Forall (fun j => 0 <= j < 13) (seqZ 0 (NDIRECT + 1)).
Proof. apply Forall_forall. intros j Hj%elem_of_seqZ. unfold NDIRECT in Hj. lia. Qed.

Section Dinode.
Context (d : list Z) (o : Z) (x : inode).
Context (Ho : 0 <= o) (Hd : o + 64 <= Z.of_nat (length d)) (Hx : inode_fits x).

(** The block before the addresses are stored. *)
Definition store_head : list Z :=
  put32 (put16 (put16 (put16 (put16 d o (i_type x)) (o + 2) (i_major x)) (o + 4) (i_minor x))
           (o + 6) (i_nlink x)) (o + 8) (i_size x).

Lemma store_dinode_eq : store_dinode d o x = store_addrs store_head o (i_addrs x) (seqZ 0 (NDIRECT + 1)).
Proof. done. Qed.

Lemma length_store_head : length store_head = length d.
Proof. unfold store_head. by rewrite length_put32, !length_put16. Qed.

Ltac inside := unfold inside; rewrite ?length_put16, ?length_put32; lia.

(** The head fields survive the stores of the addresses. *)
Lemma store_dinode_get16 f : 0 <= f <= 6 -> get16 (store_dinode d o x) (o + f) = get16 store_head (o + f).
Proof using Hd Ho.
  intros Hf. rewrite store_dinode_eq.
  apply get16_ext; (apply byte_at_store_addrs; [done|by rewrite length_store_head|apply seqZ_13|lia|lia]).
Qed.
Lemma store_dinode_size : get32 (store_dinode d o x) (o + 8) = get32 store_head (o + 8).
Proof using Hd Ho.
  rewrite store_dinode_eq. apply get32_ext. intros i Hi.
  apply byte_at_store_addrs; [done|by rewrite length_store_head|apply seqZ_13|lia|lia].
Qed.

Lemma store_head_fields :
  get16 store_head o = u16 (i_type x) /\ get16 store_head (o + 2) = u16 (i_major x) /\
  get16 store_head (o + 4) = u16 (i_minor x) /\ get16 store_head (o + 6) = u16 (i_nlink x) /\
  get32 store_head (o + 8) = u32 (i_size x).
Proof using Hd Ho.
  unfold store_head. split_and!; rewrite ?get16_put32_ne by (inside || lia);
    repeat (rewrite get16_put16_ne by (inside || lia)); rewrite ?get16_put16, ?get32_put32 by inside; done.
Qed.

Lemma load_store_dinode y : load_dinode (store_dinode d o x) o y = with_dinode x y.
Proof using Hd Ho Hx.
  destruct Hx as (Ht & Hmj & Hmn & Hnl & Hsz & Hlen & Ha). unfold load_dinode, with_dinode.
  destruct store_head_fields as (E0 & E2 & E4 & E6 & E8).
  pose proof (store_dinode_get16 0 ltac:(lia)) as G0. rewrite Z.add_0_r in G0.
  rewrite G0, (store_dinode_get16 2), (store_dinode_get16 4), (store_dinode_get16 6), store_dinode_size by lia.
  rewrite E0, E2, E4, E6, E8, !i16_u16, u32_small by done. f_equal.
  apply list_eq. intros j. rewrite list_lookup_fmap. rewrite store_dinode_eq.
  destruct (decide (j < 13)%nat) as [Hj|Hj].
  - rewrite lookup_seqZ_lt by (unfold NDIRECT; lia). cbn [fmap option_fmap option_map].
    destruct (lookup_lt_is_Some_2 (i_addrs x) j) as [a Hja]; [lia|].
    rewrite get32_store_addrs.
    + rewrite Z.add_0_l, Nat2Z.id, nth_lookup, Hja. cbn. f_equal. apply u32_small.
      rewrite Forall_lookup in Ha. by eapply Ha.
    + done.
    + by rewrite length_store_head.
    + apply seqZ_13.
    + apply elem_of_seqZ. unfold NDIRECT. lia.
  - rewrite lookup_seqZ_ge by (unfold NDIRECT; lia). cbn. by rewrite lookup_ge_None_2 by lia.
Qed.

(** Other inodes of the block are untouched. *)
Lemma store_dinode_frame b : 0 <= b -> b < o \/ o + 64 <= b -> byte_at (store_dinode d o x) b = byte_at d b.
Proof using Hd Ho.
  intros Hb Hne. rewrite store_dinode_eq.
  rewrite byte_at_store_addrs; [|done|by rewrite length_store_head|apply seqZ_13|lia|lia].
  unfold store_head. rewrite byte_at_put32_ne by (inside || lia).
  by repeat rewrite byte_at_put16_ne by (inside || lia).
Qed.
End Dinode.

(** ** Directory entries *)

Lemma decode_encode_dirent de :
  0 <= de_inum de < 2 ^ 16 -> decode_dirent (encode_dirent de) = de.
Proof.
  intros H. destruct de as [i n]. unfold decode_dirent, encode_dirent. cbn in *. f_equal.
  unfold get16, byte_at. change (Z.to_nat 0) with 0%nat. change (Z.to_nat (0 + 1)) with 1%nat. cbn [nth].
  unfold u8. rewrite (Z.mod_small (i / 2 ^ 8)).
  - rewrite Z.add_comm. symmetry. by apply Z.div_mod.
  - split; [apply Z.div_pos; lia|apply Z.div_lt_upper_bound; lia].
Qed.

(** ** Path elements *)

Definition SLASH : Z := 47.

Lemma skip_slashes_spec p :
  exists s, p = s ++ skip_slashes p /\ Forall (eq SLASH) s /\ head (skip_slashes p) <> Some SLASH.
Proof.
  induction p as [|c p IH]; cbn; [by exists []|]. case_decide as E.
  - subst c. destruct IH as (s & E & Hs & Hh). exists (SLASH :: s). split_and!; [cbn; by rewrite <- E|by constructor|done].
  - exists []. split_and!; [done|constructor|]. cbn. intros [= ->]. done.
Qed.

Lemma span_elem_spec p s r :
  span_elem p = (s, r) -> p = s ++ r /\ Forall (fun c => c <> SLASH) s /\ (r = [] \/ head r = Some SLASH).
Proof.
  revert s r. induction p as [|c p IH]; intros s r H; cbn in H.
  - injection H as <- <-. split_and!; [done|constructor|by left].
  - case_decide as E.
    + injection H as <- <-. split_and!; [done|constructor|]. right. cbn. by rewrite E.
    + destruct (span_elem p) as [s' r'] eqn:Es. injection H as <- <-.
      destruct (IH s' r' eq_refl) as (-> & Hs & Hr). split_and!; [done|by constructor|done].
Qed.

(** skipelem(): slashes, one element without slashes, slashes, and the rest. *)
Lemma skipelem_Some path name rest name' :
  skipelem path name = Some (rest, name') ->
  exists s1 el s2, path = s1 ++ el ++ s2 ++ rest /\ Forall (eq SLASH) s1 /\ Forall (eq SLASH) s2 /\
    el <> [] /\ Forall (fun c => c <> SLASH) el /\ head rest <> Some SLASH /\
    (s2 = [] -> rest = []) /\ name' = store_name el name.
Proof.
  unfold skipelem. destruct (skip_slashes_spec path) as (s1 & E1 & Hs1 & Hh1).
  destruct (skip_slashes path) as [|c p] eqn:Ep; [done|].
  destruct (span_elem (c :: p)) as [el r] eqn:Es. intros [= <- <-].
  destruct (span_elem_spec _ _ _ Es) as (E2 & Hel & Hr).
  destruct (skip_slashes_spec r) as (s2 & E3 & Hs2 & Hh2).
  exists s1, el, s2. split_and!; try done.
  - by rewrite E1, E2, <- E3.
  - intros ->. cbn in E2. rewrite <- E2 in Hr. destruct Hr as [?|Hr]; [done|by apply Hh1].
  - intros ->. cbn in E3. rewrite <- E3 in *. destruct Hr as [->|Hr]; [done|]. by destruct Hh2.
Qed.

Lemma skipelem_None path name : skipelem path name = None <-> Forall (eq SLASH) path.
Proof.
  unfold skipelem. destruct (skip_slashes_spec path) as (s & E & Hs & Hh).
  destruct (skip_slashes path) as [|c p] eqn:Ep.
  - split; [|done]. intros _. rewrite E, app_nil_r. done.
  - destruct (span_elem (c :: p)). split; [done|]. rewrite E. intros [_ [Hc _]%Forall_cons]%Forall_app.
    destruct Hh. cbn. by rewrite Hc.
Qed.

(** Each step of a path lookup consumes at least one character. *)
Lemma skipelem_shorter path name rest name' :
  skipelem path name = Some (rest, name') -> (length rest < length path)%nat.
Proof.
  intros (s1 & el & s2 & -> & _ & _ & Hel & _)%skipelem_Some. rewrite !length_app.
  destruct el; [done|]. cbn. lia.
Qed.
