(* ===== verification/VmFree.v ===== *)
(** * Giving an address space back: freewalk(), uvmfree(), proc_freepagetable()

    A page table that maps nothing is a tree of pages: freewalk() returns every
    page of it to the allocator, children before their parent.  The tree is read
    off memory ([tree_pages]); for a table in the sense of [pt_rep] it consists
    of exactly the pages of the table.  Together with uvmunmap(), which returns
    the user pages, the whole address space of a process goes back to the pool. *)

From S2P Require Import Prelude Machine Kstring Kernel Spinlock Kalloc Vm VmSpec VmMap VmUser Sched Proc.

Section Free.
Context `{Y : Symbols} `{OK : !SymbolsOK Y}.
Context `{PA : !PageAllocator kalloc kfree}.

(** ** The tree below a table page *)
Definition is_table (pte : Z) : Prop := Z.land pte PTE_V <> 0 /\ Z.land pte (Z.lor (Z.lor PTE_R PTE_W) PTE_X) = 0.
Definition entry (m : mem) (pg i : Z) : Z := read64 m (pg + 8 * i).

Fixpoint tree_pages (n : nat) (m : mem) (pg : Z) : list Z :=
  match n with
  | O => []
  | S n' => (seqZ 0 512 ≫= fun i => if decide (is_table (entry m pg i)) then tree_pages n' m (PTE2PA (entry m pg i)) else []) ++ [pg]
  end.
Fixpoint tree_ok (n : nat) (m : mem) (pg : Z) : Prop :=
  match n with
  | O => False
  | S n' => page_ok pg /\ forall i, 0 <= i < 512 ->
      if decide (is_table (entry m pg i)) then tree_ok n' m (PTE2PA (entry m pg i)) else Z.land (entry m pg i) PTE_V = 0
  end.
Definition kid_pages (n : nat) (m : mem) (pg i : Z) : list Z :=
  if decide (is_table (entry m pg i)) then tree_pages n m (PTE2PA (entry m pg i)) else [].

Lemma tree_pages_ok n m : forall pg q, tree_ok n m pg -> q ∈ tree_pages n m pg -> page_ok q.
Proof.
  induction n as [|n IH]; intros pg q; cbn [tree_ok tree_pages]; [done|]. intros [Hp Hk] [Hq|Hq]%elem_of_app; [|by apply list_elem_of_singleton in Hq as ->].
  apply list_elem_of_bind in Hq as (i & Hq & Hi%elem_of_seqZ). specialize (Hk i ltac:(lia)). case_decide; [by eapply IH|by apply elem_of_nil in Hq].
Qed.

(** The tree depends on no memory but its own pages. *)
Lemma entry_frame m m' ps pg i : same_except ps m m' -> Forall page_ok ps -> page_ok pg -> pg ∉ ps -> 0 <= i < 512 -> entry m' pg i = entry m pg i.
Proof.
  intros Hs Hps [Hp _] Hni Hi. unfold entry. destruct (entry_in_page pg i Hi).
  eapply (same_except_read64 ps _ _ pg); [done| |done|done|done|done]. eapply Forall_impl; [exact Hps|]. by intros q [? _].
Qed.
Lemma tree_frame n m m' ps : same_except ps m m' -> Forall page_ok ps -> forall pg,
  tree_ok n m pg -> (forall q, q ∈ tree_pages n m pg -> q ∉ ps) -> tree_ok n m' pg /\ tree_pages n m' pg = tree_pages n m pg.
Proof.
  intros Hs Hps. induction n as [|n IH]; intros pg; cbn [tree_ok tree_pages]; [done|]. intros [Hp Hk] Hni.
  assert (forall i, 0 <= i < 512 -> entry m' pg i = entry m pg i) as He.
  { intros i Hi. eapply entry_frame; try done. apply Hni. apply elem_of_app. right. by left. }
  assert (forall i, 0 <= i < 512 -> is_table (entry m pg i) -> tree_ok n m' (PTE2PA (entry m pg i)) /\ tree_pages n m' (PTE2PA (entry m pg i)) = tree_pages n m (PTE2PA (entry m pg i))) as Hkid.
  { intros i Hi Ht. specialize (Hk i Hi). rewrite decide_True in Hk by done. apply IH; [done|]. intros q Hq. apply Hni. apply elem_of_app. left.
    apply list_elem_of_bind. exists i. rewrite decide_True by done. split; [done|]. apply elem_of_seqZ. lia. }
  split.
  - split; [done|]. intros i Hi. rewrite He by done. specialize (Hk i Hi). destruct (decide (is_table (entry m pg i))) as [Ht|]; [by apply Hkid|done].
  - f_equal. apply Forall_bind_ext, Forall_forall. intros i Hi%elem_of_seqZ. rewrite He by lia. destruct (decide (is_table (entry m pg i))) as [Ht|]; [|done].
    apply Hkid; [lia|done].
Qed.

(** ** freewalk *)
(** [held k fl]: a state in which the allocator can be called. *)
Definition held (k : kernel) (fl : list Z) : Prop := cpu_ok k /\ lock_free LkKmem k /\ pool k fl.
Definition freed (k : kernel) (fl ps changed : list Z) (k' : kernel) : Prop :=
  only_mem k k' /\ held k' (reverse ps ++ fl) /\ same_except changed (k_mem k) (k_mem k').

Lemma held_write k fl pg m' : held k fl -> page_ok pg -> pg ∉ fl -> same_except [pg] (k_mem k) m' -> held (set_k_mem m' k) fl.
Proof.
  intros (Hc & Hl & Hp) Hok Hni Hs. split_and!; [done|done|]. apply (pool_frame k); [done|done|]. intros q a Hq Ha. apply Hs.
  intros p ->%list_elem_of_singleton. eapply pages_apart; [eapply pool_pages; exact Hp|done|done|done|done].
Qed.

Section Level.
Context (n : nat) (pg : Z) (Hpg : page_ok pg).
Context (IH : forall e k fl c, held k fl -> tree_ok n (k_mem k) c -> NoDup (tree_pages n (k_mem k) c) -> (forall q, q ∈ tree_pages n (k_mem k) c -> q ∉ fl) ->
  exists k', freewalk n c e k = Ok tt e k' /\ freed k fl (tree_pages n (k_mem k) c) (tree_pages n (k_mem k) c) k').

Definition freewalk_turn (i : Z) : K unit :=
  pte <- gets (fun k => read64 (k_mem k) (pg + 8 * i));;
  if decide (Z.land pte PTE_V <> 0 /\ Z.land pte (Z.lor (Z.lor PTE_R PTE_W) PTE_X) = 0)
  then freewalk n (PTE2PA pte);;;
       modify (upd_mem (fun m => write64 m (pg + 8 * i) 0))
  else if decide (Z.land pte PTE_V <> 0) then panic "freewalk: leaf" else skip.

(** The kids still to be visited. *)
Definition kids_ok (m : mem) (l : list Z) (fl : list Z) : Prop :=
  (forall i, i ∈ l -> 0 <= i < 512 /\ (if decide (is_table (entry m pg i)) then tree_ok n m (PTE2PA (entry m pg i)) else Z.land (entry m pg i) PTE_V = 0)) /\
  NoDup l /\ NoDup (pg :: (l ≫= kid_pages n m pg)) /\ (forall q, q ∈ pg :: (l ≫= kid_pages n m pg) -> q ∉ fl).

Lemma kids_frame m m' i l fl fl' :
  kids_ok m (i :: l) fl -> same_except (kid_pages n m pg i ++ [pg]) m m' -> (forall q, q ∈ fl' -> q ∈ fl \/ q ∈ kid_pages n m pg i) ->
  (forall j, j ∈ l -> entry m' pg j = entry m pg j) ->
  kids_ok m' l fl' /\ (l ≫= kid_pages n m' pg) = (l ≫= kid_pages n m pg).
Proof.
  intros (Hr & Hnd & Hnp & Hfl) Hs Hfl' He. cbn [mbind list_bind] in Hnp, Hfl.
  assert (forall j, j ∈ l -> is_table (entry m pg j) -> tree_ok n m (PTE2PA (entry m pg j)) ->
    tree_ok n m' (PTE2PA (entry m pg j)) /\ tree_pages n m' (PTE2PA (entry m pg j)) = tree_pages n m (PTE2PA (entry m pg j))) as Hkid.
  { intros j Hj Ht Hok. eapply (tree_frame n m m' (kid_pages n m pg i ++ [pg])); [done| |done|].
    - apply Forall_app. split; [|by apply Forall_singleton]. apply Forall_forall. intros q Hq. destruct (Hr i ltac:(by left)) as [Hi Hoki].
      unfold kid_pages in Hq. case_decide; [by eapply tree_pages_ok|by apply elem_of_nil in Hq].
    - intros q Hq Hin. assert (q ∈ l ≫= kid_pages n m pg) as Hql.
      { apply list_elem_of_bind. exists j. unfold kid_pages. rewrite decide_True by done. done. }
      apply NoDup_cons in Hnp as [Hpn Hnp]. apply NoDup_app in Hnp as (_ & Hd & _).
      apply elem_of_app in Hin as [Hin|Hin%list_elem_of_singleton]; [by apply (Hd q)|]. subst q. apply Hpn. apply elem_of_app. by right. }
  assert ((l ≫= kid_pages n m' pg) = (l ≫= kid_pages n m pg)) as El.
  { apply Forall_bind_ext, Forall_forall. intros j Hj. unfold kid_pages. rewrite He by done. destruct (Hr j ltac:(by right)) as [Hjr Hok].
    destruct (decide (is_table (entry m pg j))); [by apply Hkid|done]. }
  split; [|done]. split_and!.
  - intros j Hj. destruct (Hr j ltac:(by right)) as [Hjr Hok]. split; [done|]. rewrite He by done. destruct (decide (is_table (entry m pg j))); [by apply Hkid|done].
  - by apply NoDup_cons in Hnd as [_ ?].
  - rewrite El. apply NoDup_cons in Hnp as [Hpn Hnp]. apply NoDup_app in Hnp as (_ & _ & Hnp). apply NoDup_cons. split; [|done].
    intros Hin. apply Hpn. apply elem_of_app. by right.
  - rewrite El. intros q Hq Hin. apply Hfl' in Hin as [Hin|Hin].
    + apply (Hfl q); [|done]. apply elem_of_cons in Hq as [->|Hq]; [by left|]. right. apply elem_of_app. by right.
    + apply NoDup_cons in Hnp as [Hpn Hnp]. apply NoDup_app in Hnp as (_ & Hd & _).
      apply elem_of_cons in Hq as [->|Hq]; [apply Hpn; apply elem_of_app; by left|by apply (Hd q)].
Qed.

(** One kid: nothing, or its tree goes to the pool and the entry is cleared. *)
Lemma freewalk_turn_ok e k fl i l :
  held k fl -> kids_ok (k_mem k) (i :: l) fl ->
  exists k', freewalk_turn i e k = Ok tt e k' /\ freed k fl (kid_pages n (k_mem k) pg i) (kid_pages n (k_mem k) pg i ++ [pg]) k' /\
    (forall j, j ∈ l -> entry (k_mem k') pg j = entry (k_mem k) pg j).
Proof.
  intros Hh (Hr & Hnd & Hnp & Hfl). destruct (Hr i ltac:(by left)) as [Hi Hok]. cbn [mbind list_bind] in Hnp, Hfl.
  unfold freewalk_turn. rewrite (bind_Ok _ _ (entry (k_mem k) pg i) e k e k) by done. change (Z.land (entry (k_mem k) pg i) PTE_V <> 0 /\ _) with (is_table (entry (k_mem k) pg i)).
  unfold kid_pages in *. destruct (decide (is_table (entry (k_mem k) pg i))) as [Ht|Ht].
  - apply NoDup_cons in Hnp as [Hpn Hnp]. pose proof Hnp as (Hnk & _ & _)%NoDup_app.
    destruct (IH e k fl (PTE2PA (entry (k_mem k) pg i)) Hh Hok Hnk) as (k1 & E1 & Ho & Hh1 & Hs1).
    { intros q Hq. apply Hfl. right. apply elem_of_app. by left. }
    assert (pg ∉ tree_pages n (k_mem k) (PTE2PA (entry (k_mem k) pg i))) as Hpt by (intros Hin; apply Hpn; apply elem_of_app; by left).
    assert (Forall page_ok (tree_pages n (k_mem k) (PTE2PA (entry (k_mem k) pg i)))) as Hpo.
    { apply Forall_forall. intros q Hq. by eapply tree_pages_ok. }
    destruct (entry_in_page pg i Hi) as [Hlo Hhi].
    assert (same_except [pg] (k_mem k1) (write64 (k_mem k1) (pg + 8 * i) 0)) as Hs2 by (by apply same_except_write64).
    exists (set_k_mem (write64 (k_mem k1) (pg + 8 * i) 0) k1). split_and!; [| |].
    + by rewrite (bind_Ok _ _ _ _ _ _ _ E1).
    + split_and!; [eapply only_mem_trans; [done|apply only_mem_set]| |by eapply same_except_trans].
      apply (held_write _ _ pg); [done|done| |done]. rewrite elem_of_app, elem_of_reverse. intros [Hin|Hin]; [done|]. apply (Hfl pg); [by left|done].
    + intros j Hj. destruct (Hr j ltac:(by right)) as [Hjr _]. unfold entry. cbn. rewrite read64_write64_ne; [by eapply entry_frame|].
      assert (i <> j) by (intros ->; by apply NoDup_cons in Hnd as [? _]). lia.
  - rewrite decide_False by tauto. exists k. split; [done|]. split; [|done]. split_and!; [apply only_mem_refl|done|done].
Qed.

Lemma freewalk_kids e l : forall k fl, held k fl -> kids_ok (k_mem k) l fl ->
  exists k', for_ l freewalk_turn e k = Ok tt e k' /\ freed k fl (l ≫= kid_pages n (k_mem k) pg) (pg :: (l ≫= kid_pages n (k_mem k) pg)) k'.
Proof.
  induction l as [|i l IHl]; intros k fl Hh Hk; cbn [for_ mbind list_bind].
  - exists k. split; [done|]. split_and!; [apply only_mem_refl|done|done].
  - destruct (freewalk_turn_ok e k fl i l Hh Hk) as (k1 & E1 & (Ho1 & Hh1 & Hs1) & He).
    destruct (kids_frame (k_mem k) (k_mem k1) i l fl (reverse (kid_pages n (k_mem k) pg i) ++ fl) Hk Hs1) as [Hk1 El]; [|done|].
    { intros q. rewrite elem_of_app, elem_of_reverse. tauto. }
    destruct (IHl k1 _ Hh1 Hk1) as (k2 & E2 & Ho2 & Hh2 & Hs2). rewrite El in *.
    exists k2. rewrite (bind_Ok _ _ _ _ _ _ _ E1). split; [done|]. split_and!.
    + by eapply only_mem_trans.
    + by rewrite reverse_app, <- app_assoc.
    + eapply same_except_mono; [|eapply same_except_trans; [exact Hs1|exact Hs2]]. intros q. rewrite !elem_of_app, !elem_of_cons, !elem_of_app, elem_of_nil. tauto.
Qed.
End Level.

Lemma freewalk_frees n : forall e k fl pg,
  held k fl -> tree_ok n (k_mem k) pg -> NoDup (tree_pages n (k_mem k) pg) -> (forall q, q ∈ tree_pages n (k_mem k) pg -> q ∉ fl) ->
  exists k', freewalk n pg e k = Ok tt e k' /\ freed k fl (tree_pages n (k_mem k) pg) (tree_pages n (k_mem k) pg) k'.
Proof.
  induction n as [|n IH]; intros e k fl pg Hh Hok Hnd Hfl; [done|]. destruct Hok as [Hpg Hk]. cbn [tree_pages] in *.
  apply NoDup_app in Hnd as (Hnk & Hd & _).
  assert (pg ∉ (seqZ 0 512 ≫= kid_pages n (k_mem k) pg)) as Hpn by (intros Hin; apply (Hd pg Hin); by left).
  assert (kids_ok n pg (k_mem k) (seqZ 0 512) fl) as Hkids.
  { split_and!; [|apply NoDup_seqZ| |].
    - intros i Hi%elem_of_seqZ. split; [lia|]. apply Hk. lia.
    - by apply NoDup_cons.
    - intros q [->|Hq]%elem_of_cons; apply Hfl; apply elem_of_app; [right; by left|by left]. }
  destruct (freewalk_kids n pg Hpg IH e (seqZ 0 512) k fl Hh Hkids) as (k1 & E1 & Ho1 & (Hc1 & Hl1 & Hp1) & Hs1).
  destruct (free_page e k1 pg _ Hc1 Hl1 Hp1 Hpg) as (k2 & E2 & Ho2 & Hs2 & Hp2).
  { rewrite elem_of_app, elem_of_reverse. intros [Hin|Hin]; [done|]. apply (Hfl pg); [apply elem_of_app; right; by left|done]. }
  exists k2. split.
  - change (freewalk (S n) pg e k) with ((for_ (seqZ 0 512) (freewalk_turn n pg);;; kfree pg) e k). erewrite bind_Ok; [exact E2|exact E1].
  - split_and!; [by eapply only_mem_trans| |].
    + rewrite reverse_app. split_and!; [by eapply cpu_ok_only_mem|by eapply lock_free_only_mem|exact Hp2].
    + eapply same_except_mono; [|eapply same_except_trans; [exact Hs1|exact Hs2]]. change (kid_pages n (k_mem k) pg) with (fun i => kid_pages n (k_mem k) pg i).
      intros q. rewrite !elem_of_app, !elem_of_cons. unfold kid_pages. tauto.
Qed.

(** ** The tree of a page table *)
Section Table.
Context (m : mem) (root : Z) (t : ptable) (Hrep : pt_rep m root t).
Context (Hleaf : forall p q i, t !! p = Some q -> length p = 2%nat -> 0 <= i < 512 -> Z.land (entry m q i) PTE_V = 0).

Lemma link_is_table q : page_ok q -> is_table (Z.lor (PA2PTE q) PTE_V) /\ PTE2PA (Z.lor (PA2PTE q) PTE_V) = q.
Proof.
  intros Hq. destruct (table_entry_pack q Hq) as (H1 & H2 & _). pose proof (page_ok_pos q Hq) as [Hr _].
  destruct (PTE_pack q PTE_V) as (_ & H3 & _); [lia|apply Hq|done|]. split; [|done]. split; [done|].
  unfold PTE_FLAGS in H3. transitivity (Z.land (Z.land (Z.lor (PA2PTE q) PTE_V) 0x3FF) (Z.lor (Z.lor PTE_R PTE_W) PTE_X)); [by rewrite <- Z.land_assoc|]. by rewrite H3.
Qed.
Lemma entry_cases p pg i :
  t !! p = Some pg -> 0 <= i < 512 ->
  match t !! (i :: p) with
  | Some q => is_table (entry m pg i) /\ PTE2PA (entry m pg i) = q
  | None => ~ is_table (entry m pg i) /\ Z.land (entry m pg i) PTE_V = 0
  end.
Proof.
  intros Hp Hi. destruct (decide (length p < 2)%nat) as [Hl|Hl].
  - pose proof (pt_entry _ _ _ Hrep p pg i Hp Hl Hi) as He. fold (entry m pg i) in He. destruct (t !! (i :: p)) as [q|] eqn:Eq.
    + rewrite He. apply link_is_table. by eapply pt_ok.
    + split; [|done]. by intros [Hv _].
  - destruct (t !! (i :: p)) as [q|] eqn:Eq; [destruct (pt_closed _ _ _ Hrep _ _ _ Eq) as (_ & _ & ?); lia|].
    assert (length p = 2%nat) as H2.
    { destruct p as [|j p]; [cbn in Hl; lia|]. destruct (pt_closed _ _ _ Hrep _ _ _ Hp) as (_ & _ & ?). cbn in *. lia. }
    pose proof (Hleaf p pg i Hp H2 Hi) as Hv. split; [|done]. by intros [? _].
Qed.
Lemma path_closed s p : is_Some (t !! (s ++ p)) -> is_Some (t !! p).
Proof.
  induction s as [|i s IH]; [done|]. intros [q Hq]. apply IH. by destruct (pt_closed _ _ _ Hrep _ _ _ Hq).
Qed.
Lemma path_index i p : is_Some (t !! (i :: p)) -> 0 <= i < 512.
Proof. intros [q Hq]. by destruct (pt_closed _ _ _ Hrep _ _ _ Hq) as (_ & ? & _). Qed.

Lemma table_tree n : forall p pg, t !! p = Some pg -> (length p + n = 3)%nat -> (0 < n)%nat ->
  tree_ok n m pg /\ forall q, q ∈ tree_pages n m pg <-> exists s, t !! (s ++ p) = Some q.
Proof.
  induction n as [|n IH]; intros p pg Hp Hl Hn; [lia|]. cbn [tree_ok tree_pages].
  assert (forall i q, 0 <= i < 512 -> t !! (i :: p) = Some q -> tree_ok n m q /\ forall q', q' ∈ tree_pages n m q <-> exists s, t !! (s ++ i :: p) = Some q') as Hkid.
  { intros i q Hi Hq. apply IH; [done|cbn; lia|]. destruct (pt_closed _ _ _ Hrep _ _ _ Hq) as (_ & _ & ?). lia. }
  split; [split; [by eapply pt_ok|]|].
  - intros i Hi. pose proof (entry_cases p pg i Hp Hi) as Hc. destruct (t !! (i :: p)) as [q|] eqn:Eq; destruct Hc as [Ht He].
    + rewrite decide_True, He by done. by apply (Hkid i q).
    + by rewrite decide_False.
  - intros q. rewrite elem_of_app, list_elem_of_bind, list_elem_of_singleton. split.
    + intros [(i & Hq & Hi%elem_of_seqZ)| ->]; [|by exists []]. pose proof (entry_cases p pg i Hp ltac:(lia)) as Hc.
      destruct (t !! (i :: p)) as [q'|] eqn:Eq; destruct Hc as [Ht He]; [|rewrite decide_False in Hq by done; by apply elem_of_nil in Hq].
      rewrite decide_True, He in Hq by done. apply (Hkid i q' ltac:(lia) Eq) in Hq as [s Hs]. exists (s ++ [i]). by rewrite <- app_assoc.
    + intros [s Hs]. destruct s as [|i s _] using rev_ind; [right; cbn in Hs; congruence|]. rewrite <- app_assoc in Hs. cbn [app] in Hs. left.
      destruct (path_closed s (i :: p)) as [q' Hq']; [by exists q|]. pose proof (path_index i p ltac:(by exists q')) as Hi.
      exists i. split; [|apply elem_of_seqZ; lia]. pose proof (entry_cases p pg i Hp Hi) as Hc. rewrite Hq' in Hc. destruct Hc as [Ht He].
      rewrite decide_True, He by done. apply (Hkid i q' Hi Hq'). by exists s.
Qed.

Lemma table_nodup n : forall p pg, t !! p = Some pg -> (length p + n = 3)%nat -> (0 < n)%nat -> NoDup (tree_pages n m pg).
Proof.
  induction n as [|n IH]; intros p pg Hp Hl Hn; [lia|]. cbn [tree_pages].
  assert (forall i q, 0 <= i < 512 -> q ∈ kid_pages n m pg i -> exists s, t !! (s ++ i :: p) = Some q) as Hkid.
  { intros i q Hi. unfold kid_pages. pose proof (entry_cases p pg i Hp Hi) as Hc. destruct (t !! (i :: p)) as [q'|] eqn:Eq; destruct Hc as [Ht He].
    - rewrite decide_True, He by done. destruct (pt_closed _ _ _ Hrep _ _ _ Eq) as (_ & _ & ?). apply (table_tree n (i :: p) q' Eq); [cbn; lia|lia].
    - rewrite decide_False by done. by intros ?%elem_of_nil. }
  apply NoDup_app. split_and!; [| |apply NoDup_singleton].
  - apply NoDup_bind; [| |apply NoDup_seqZ].
    + intros i j q Hi%elem_of_seqZ Hj%elem_of_seqZ Hqi Hqj. destruct (Hkid i q ltac:(lia) Hqi) as [s1 E1]. destruct (Hkid j q ltac:(lia) Hqj) as [s2 E2].
      pose proof (pt_inj _ _ _ Hrep _ _ _ E1 E2) as E. pose proof (f_equal length E) as El. rewrite !length_app in El. cbn in El.
      apply app_inj_1 in E as [_ E]; [congruence|lia].
    + intros i Hi%elem_of_seqZ. pose proof (entry_cases p pg i Hp ltac:(lia)) as Hc. destruct (t !! (i :: p)) as [q'|] eqn:Eq; destruct Hc as [Ht He].
      * rewrite decide_True, He by done. destruct (pt_closed _ _ _ Hrep _ _ _ Eq) as (_ & _ & ?). apply (IH (i :: p) q' Eq); [cbn; lia|lia].
      * rewrite decide_False by done. apply NoDup_nil_2.
  - intros q Hq Hpg. apply list_elem_of_singleton in Hpg as ->. apply list_elem_of_bind in Hq as (i & Hq & Hi%elem_of_seqZ).
    destruct (Hkid i pg ltac:(lia) Hq) as [s1 E1]. pose proof (pt_inj _ _ _ Hrep _ _ _ E1 Hp) as E. apply (f_equal length) in E. rewrite length_app in E. cbn in E. lia.
Qed.

(** From the root: exactly the pages of the table, each once. *)
Lemma table_tree_root : tree_ok PT_LEVELS m root /\ NoDup (tree_pages PT_LEVELS m root) /\ (forall q, q ∈ tree_pages PT_LEVELS m root <-> q ∈ tpages t).
Proof.
  pose proof (pt_root _ _ _ Hrep) as Hr. destruct (table_tree 3 [] root Hr) as [Hok Hel]; [done|lia|]. split_and!; [done|apply (table_nodup 3 [] root Hr); [done|lia]|].
  intros q. unfold PT_LEVELS. rewrite Hel, elem_of_tpages. split; intros [s Hs]; exists s; [by rewrite app_nil_r in Hs|by rewrite app_nil_r].
Qed.
End Table.

(** ** The whole address space *)
Lemma leaves_unmapped m root t :
  pt_rep m root t -> (forall va, vpage va -> Z.land (pte_of m t va) PTE_V = 0) ->
  forall p q i, t !! p = Some q -> length p = 2%nat -> 0 <= i < 512 -> Z.land (entry m q i) PTE_V = 0.
Proof.
  intros Hr Hun p q i0 Hq Hl Hi. destruct p as [|i1 [|i2 [|]]]; try done.
  pose proof (path_index m root t Hr i1 [i2] ltac:(by exists q)) as H1.
  pose proof (path_index m root t Hr i2 [] ltac:(apply (path_closed m root t Hr [i1]); by exists q)) as H2. destruct (path_closed m root t Hr [i1] [i2]) as [q2 Hq2]; [by exists q|]. pose proof (pt_low _ _ _ Hr i2 q2 Hq2) as H256.
  set (va := i2 * 2 ^ 30 + i1 * 2 ^ 21 + i0 * 2 ^ 12).
  assert (PX 0 va = i0 /\ PX 1 va = i1 /\ PX 2 va = i2) as (E0 & E1 & E2).
  { rewrite !PX_spec by lia. change (12 + 9 * 2) with 30. change (12 + 9 * 1) with 21. change (12 + 9 * 0) with 12. subst va. split_and!; Z.div_mod_to_equations; lia. }
  assert (vpage va) as Hva.
  { split; [change MAXVA with (2 ^ 38); subst va; lia|]. subst va. unfold PGSIZE. Z.div_mod_to_equations. lia. }
  pose proof (Hun va Hva) as Hz. unfold pte_of, low_path in Hz. rewrite E0, E1, E2, Hq in Hz. exact Hz.
Qed.

(** Unmapping one page and keeping it: the trampoline and the trapframe. *)
Lemma unmap_one e k root t fl a pg :
  vm_inv k root t fl -> vpage a -> maps_to (pte_of (k_mem k) t a) pg ->
  let k' := set_pte t a 0 k in
  uvmunmap root a 1 false e k = Ok tt e k' /\ vm_ext k root t fl k' t fl /\
    (forall va, vpage va -> pte_of (k_mem k') t va = if decide (va = a) then 0 else pte_of (k_mem k) t va).
Proof.
  intros Hv Ha (Hpa & HV & HF) k'. assert (is_Some (t !! low_path a)) as [q Hq].
  { unfold pte_of in HV. destruct (t !! low_path a); [done|]. by destruct HV. }
  destruct (set_pte_spec k root t fl a 0 Hv Ha ltac:(by exists q) ltac:(done)) as [X P].
  split; [|done]. assert (MAXVA = 2 ^ 38) as HM by done. assert (0 <= a < MAXVA) as Har by apply Ha.
  unfold uvmunmap. rewrite decide_False by (destruct Ha as [_ Hal]; rewrite Hal; tauto). change (S (Z.to_nat 1)) with 2%nat. cbn [loop_].
  rewrite (u64_small (a + 1 * PGSIZE)) by (unfold PGSIZE; lia).
  rewrite (bind_Ok _ _ (inr (a + 1 * PGSIZE)) e k e k'); [rewrite (bind_Ok _ _ (inl tt) e k' e k'); [done|]|].
  - unfold uvmunmap_body. by rewrite bool_decide_eq_false_2 by lia.
  - unfold uvmunmap_body. rewrite bool_decide_eq_true_2 by (unfold PGSIZE; lia). cbn [negb]. unfold bind. rewrite (walk_noalloc e k root t fl) by done.
    pose proof (page_ok_pos q (pt_ok _ _ _ (vm_rep _ _ _ _ Hv) _ _ Hq)). pose proof (PX_range 0 a).
    assert (pte_addr t a = q + 8 * PX 0 a) as Ea by (unfold pte_addr; by rewrite Hq). rewrite decide_False by lia. cbn [gets].
    assert (read64 (k_mem k) (pte_addr t a) = pte_of (k_mem k) t a) as -> by (unfold pte_of; by rewrite Hq, Ea).
    rewrite decide_False, decide_False by done. cbn. rewrite u64_small by (unfold PGSIZE; lia). by replace (a + PGSIZE) with (a + 1 * PGSIZE) by lia.
Qed.

(** The two pages above the user part. *)
Lemma high_pages : vpage TRAMPOLINE /\ vpage TRAPFRAME /\ TRAPFRAME <= TRAMPOLINE /\ TRAPFRAME <> TRAMPOLINE.
Proof. by vm_compute. Qed.
(** The same, for a page above the user part. *)
Lemma unmap_high e k root t fl us a pg :
  uvm k root t fl us -> vpage a -> TRAPFRAME <= a -> maps_to (pte_of (k_mem k) t a) pg ->
  exists k', uvmunmap root a 1 false e k = Ok tt e k' /\ only_mem k k' /\ uvm k' root t fl us /\
    same_except (elements (tpages t)) (k_mem k) (k_mem k') /\
    (forall va, vpage va -> pte_of (k_mem k') t va = if decide (va = a) then 0 else pte_of (k_mem k) t va).
Proof.
  intros [Hv Hown Hsz Hmap Hun] Ha Hhi Hm. destruct (unmap_one e k root t fl a pg Hv Ha Hm) as (E & X & P). remember (set_pte t a 0 k) as k' eqn:Ek. exists k'.
  assert (only_mem k k') as Ho by apply X. assert (is_Some (t !! low_path a)) as [q Hq].
  { destruct Hm as (_ & HV & _). unfold pte_of in HV. destruct (t !! low_path a); [done|]. by destruct HV. }
  split_and!; [done|done| | |done].
  - constructor; [apply X|done|done| |].
    + intros i pg' Hi. rewrite P by (eapply vpage_vnth; [by eapply lookup_lt_Some|done]). rewrite decide_False; [by apply Hmap|].
      apply lookup_lt_Some in Hi. unfold vnth, PGSIZE in *. lia.
    + intros va Hva Hr. rewrite P by done. rewrite decide_False by lia. by apply Hun.
  - subst k'. intros b Hb. cbn. apply read8_write64_ne. unfold pte_addr. rewrite Hq. destruct (entry_in_page q (PX 0 a) (PX_range _ _)).
    assert (~ in_page q b) as Hn by (apply Hb; apply elem_of_elements, elem_of_tpages; eauto). unfold in_page in Hn. lia.
Qed.

(** Every page of the address space is back in the pool, and nothing else has
    changed. *)
Definition space_freed (k : kernel) (t : ptable) (fl us : list Z) (k' : kernel) (fl' : list Z) : Prop :=
  only_mem k k' /\ held k' fl' /\ NoDup fl' /\ (list_to_set fl' : gset Z) = upages us t fl /\ same_except (elements (upages us t fl)) (k_mem k) (k_mem k').

(** freewalk() once nothing is mapped any more. *)
Lemma freewalk_space e k root t fl :
  vm_inv k root t fl -> (forall va, vpage va -> Z.land (pte_of (k_mem k) t va) PTE_V = 0) ->
  exists k' fl', freewalk PT_LEVELS root e k = Ok tt e k' /\ space_freed k t fl [] k' fl'.
Proof.
  intros Hv Hun. pose proof (vm_rep _ _ _ _ Hv) as Hr.
  destruct (table_tree_root (k_mem k) root t Hr (leaves_unmapped _ _ _ Hr Hun)) as (Hok & Hnd & Hel).
  destruct (freewalk_frees PT_LEVELS e k fl root) as (k' & E & Ho & Hh & Hs); [split_and!; apply Hv|done|done| |].
  { intros q [p Hp]%Hel%elem_of_tpages. by eapply (vm_disj _ _ _ _ Hv). }
  exists k', (reverse (tree_pages PT_LEVELS (k_mem k) root) ++ fl). split; [done|]. split_and!; [done|done| | |].
  - destruct Hh as (_ & _ & Hp). by apply pool_pages in Hp as [? _].
  - apply set_eq. intros q. unfold upages, vm_pages. rewrite elem_of_list_to_set, elem_of_app, elem_of_reverse, Hel, !elem_of_union, !elem_of_list_to_set, elem_of_nil. tauto.
  - eapply same_except_mono; [|exact Hs]. intros q Hq%Hel. apply elem_of_elements. unfold upages, vm_pages. rewrite !elem_of_union. by right; right.
Qed.

(** uvmfree() with the user pages still mapped and nothing above them. *)
Lemma uvmfree_space e k root t fl us sz :
  uvm k root t fl us -> 0 <= sz <= TRAPFRAME -> PGROUNDUP sz = vnth 0 (length us) ->
  (forall va, vpage va -> TRAPFRAME <= va -> Z.land (pte_of (k_mem k) t va) PTE_V = 0) ->
  exists k' fl', uvmfree root sz e k = Ok tt e k' /\ space_freed k t fl us k' fl'.
Proof.
  intros Hu Hsz Esz Hhigh. assert (TRAPFRAME = 67108862 * 4096) as HT by done.
  assert (exists k1, (if decide (sz > 0) then uvmunmap root 0 (PGROUNDUP sz / PGSIZE) true else skip) e k = Ok tt e k1 /\ uvm_upd k root t fl us k1 t (reverse us ++ fl) []) as (k1 & E1 & U).
  { destruct (PGROUNDUP_spec sz) as [Hr _]; [unfold PGSIZE in *; lia|]. case_decide as Hpos.
    - destruct (unmap_suffix e k root t fl [] us Hu) as (k1 & E1 & U). exists k1. split; [|exact U]. rewrite Esz.
      replace (vnth 0 (length us) / PGSIZE) with (Z.of_nat (length us)) by (unfold vnth; rewrite Z.add_0_l, Z.div_mul; done). exact E1.
    - assert (us = []) as ->; [|exists k; split; [done|by apply uvm_upd_refl]]. rewrite Esz in Hr. destruct us; [done|]. unfold vnth, PGSIZE in Hr. cbn [length] in Hr. lia. }
  pose proof (uu_uvm _ _ _ _ _ _ _ _ _ U) as Hu1.
  destruct (freewalk_space e k1 root t (reverse us ++ fl) (uv_inv _ _ _ _ _ Hu1)) as (k' & fl' & E2 & Ho & Hh & Hnd & Hset & Hs).
  { intros va Hva. destruct (decide (va < TRAPFRAME)).
    - apply (uv_unmapped _ _ _ _ _ Hu1); [done|]. unfold vnth. cbn. destruct Hva. lia.
    - rewrite (uu_high _ _ _ _ _ _ _ _ _ U) by (done || lia). apply Hhigh; [done|lia]. }
  exists k', fl'. split; [unfold uvmfree; by rewrite (bind_Ok _ _ _ _ _ _ _ E1)|].
  rewrite (uu_pages _ _ _ _ _ _ _ _ _ U) in Hset, Hs. split_and!; [eapply only_mem_trans; [apply U|exact Ho]|done|done|done|].
  intros a Ha. rewrite Hs by done. apply (uu_frame _ _ _ _ _ _ _ _ _ U). intros p Hp. apply Ha. by apply elem_of_elements.
Qed.

(** proc_freepagetable(): the address space of a process, with its trampoline
    and trapframe mapped, whatever pages those are. *)
Lemma proc_freepagetable_space e k root t fl us sz pg1 pg2 :
  uvm k root t fl us -> 0 <= sz <= TRAPFRAME -> PGROUNDUP sz = vnth 0 (length us) ->
  maps_to (pte_of (k_mem k) t TRAMPOLINE) pg1 -> maps_to (pte_of (k_mem k) t TRAPFRAME) pg2 ->
  exists k' fl', proc_freepagetable root sz e k = Ok tt e k' /\ space_freed k t fl us k' fl'.
Proof.
  intros Hu Hsz Esz Hm1 Hm2.
  destruct high_pages as (V1 & V2 & L1 & L2).
  destruct (unmap_high e k root t fl us TRAMPOLINE pg1 Hu V1 L1 Hm1) as (k1 & E1 & Ho1 & Hu1 & Hs1 & P1).
  assert (maps_to (pte_of (k_mem k1) t TRAPFRAME) pg2) as Hm2' by (rewrite P1, decide_False by done; done).
  destruct (unmap_high e k1 root t fl us TRAPFRAME pg2 Hu1 V2 ltac:(done) Hm2') as (k2 & E2 & Ho2 & Hu2 & Hs2 & P2).
  destruct (uvmfree_space e k2 root t fl us sz Hu2 Hsz Esz) as (k' & fl' & E3 & Ho & Hh & Hnd & Hset & Hs).
  { intros va Hva Hge. rewrite P2, P1 by done. case_decide; [done|]. case_decide; [done|].
    destruct Hva as [Hr Hal]. destruct V2 as [_ A2]. destruct (aligned_apart va TRAPFRAME Hal A2); [done| |]; change MAXVA with (67108864 * 4096) in *;
      change TRAPFRAME with (67108862 * 4096) in *; change TRAMPOLINE with (67108863 * 4096) in *; unfold PGSIZE in *; apply Z.mod_divide in Hal as [x Hx]; lia. }
  exists k', fl'. split; [unfold proc_freepagetable; by rewrite (bind_Ok _ _ _ _ _ _ _ E1), (bind_Ok _ _ _ _ _ _ _ E2)|].
  split_and!; [eapply only_mem_trans; [|exact Ho]; by eapply only_mem_trans|done|done|done|].
  assert (elements (tpages t) ⊆ elements (upages us t fl)) as Hsub.
  { intros q. rewrite !elem_of_elements. unfold upages, vm_pages. rewrite !elem_of_union. tauto. }
  eapply same_except_mono; [|eapply same_except_trans; [eapply same_except_trans; [exact Hs1|exact Hs2]|exact Hs]]. intros q. rewrite !elem_of_app. naive_solver.
Qed.
End Free.
