(* ===== verification/ProcSpec.v ===== *)
(** * Process memory limits, pid allocation and wait(): what proc.c guarantees

    growproc() against the user address space of VmUser, allocpid(), the
    failing searches of allocproc() and wait(), and what Ctrl-P prints. *)

From S2P Require Import Prelude Machine Kstring Kernel Spinlock Kalloc Vm VmSpec VmMap VmUser Printf Sched Proc.

Section Grow.
Context `{Y : Symbols} `{OK : !SymbolsOK Y}.
Context `{PA : !PageAllocator kalloc kfree}.

(** Process [p] runs on this hart and its user pages are [us]: the size
    [p_sz], rounded up to a page, is what the page table maps. *)
Record user_proc (k : kernel) (p : nat) (t : ptable) (fl us : list Z) : Prop := {
  up_run : running k = Some p;
  up_uvm : uvm k (p_pagetable (get_proc k p)) t fl us;
  up_sz : 0 <= p_sz (get_proc k p) <= TRAPFRAME;
  up_round : PGROUNDUP (p_sz (get_proc k p)) = vnth 0 (length us)
}.

(** What growproc() prints when it refuses. *)
Definition limit_text (pid max_mem : Z) : list Z :=
  codes "Proceso " ++ int_text (i32 pid) 10 ++ codes " excedio su limite de memoria (" ++
  int_text (i32 max_mem) 10 ++ codes " bytes)" ++ [10].

Lemma limit_format pid max_mem :
  format (codes "Proceso %d excedio su limite de memoria (%d bytes)" ++ [10]) [AInt pid; AInt max_mem]
  = Some (limit_text pid max_mem).
Proof. reflexivity. Qed.

(** growproc() after it has found the current process. *)
Lemma growproc_cur n e k p :
  cpu_ok k -> running k = Some p ->
  growproc n e k =
  (let x := get_proc k p in
   let sz := u32 (p_sz x) in
   if decide (n > 0) then
     if decide (u32 (sz + n) > p_max_mem x) then
       (printf (codes "Proceso %d excedio su limite de memoria (%d bytes)" ++ [10])
          [AInt (p_pid x); AInt (p_max_mem x)];;; ret (-1)) e k
     else
       (r <- uvmalloc (p_pagetable x) sz (u32 (sz + n));;
        if decide (u32 r = 0) then ret (-1) else
        modify (upd_proc p (set_p_sz (u32 r)));;; ret 0) e k
   else if decide (n < 0) then
     (r <- uvmdealloc (p_pagetable x) sz (u32 (sz + n));;
      modify (upd_proc p (set_p_sz (u32 r)));;; ret 0) e k
   else Ok 0 e (upd_proc p (set_p_sz sz) k)).
Proof.
  intros Hc Hr. unfold growproc. rewrite (bind_Ok _ _ _ _ _ _ _ (cur_ok e k p Hc Hr)).
  rewrite (bind_Ok (gets (fun k => get_proc k p)) _ (get_proc k p) e k e k eq_refl). cbn zeta.
  repeat case_decide; reflexivity.
Qed.

Lemma growproc_refuses n e k p :
  cpu_ok k -> lock_free LkPr k -> running k = Some p -> 0 < n ->
  p_max_mem (get_proc k p) < u32 (u32 (p_sz (get_proc k p)) + n) ->
  growproc n e k = Ok (-1) e (sent (limit_text (p_pid (get_proc k p)) (p_max_mem (get_proc k p))) k).
Proof.
  intros Hc Hl Hr Hn Hm. rewrite (growproc_cur n e k p Hc Hr). cbn zeta.
  rewrite (decide_True (P := n > 0)), (decide_True (P := _ > p_max_mem _)) by lia.
  by rewrite (bind_Ok _ _ _ _ _ _ _ (printf_ok _ _ _ e k Hc Hl (limit_format _ _))).
Qed.

(** The outcome of a growth to [newsz]: the new pages are mapped and zeroed
    and the size recorded, or nothing changes for the process. *)
Definition grow_result (k : kernel) (p : nat) (t : ptable) (fl us : list Z) (newsz r : Z) (k' : kernel) : Prop :=
  exists k1, grown k (p_pagetable (get_proc k p)) t fl us newsz (if decide (r = 0) then newsz else 0) k1 /\
    ((r = 0 /\ k' = upd_proc p (set_p_sz newsz) k1) \/ (r = -1 /\ k' = k1)).

Lemma growproc_grows n e k p t fl us :
  user_proc k p t fl us -> 0 < n ->
  p_sz (get_proc k p) + n <= p_max_mem (get_proc k p) -> p_max_mem (get_proc k p) < 2 ^ 32 ->
  exists r k', growproc n e k = Ok r e k' /\
    grow_result k p t fl us (p_sz (get_proc k p) + n) r k'.
Proof.
  intros [Hr Hu Hsz Hrd] Hn Hm Hb. set (x := get_proc k p) in *.
  rewrite (growproc_cur n e k p (vm_cpu _ _ _ _ (uv_inv _ _ _ _ _ Hu)) Hr). cbn zeta. fold x.
  rewrite (u32_small (p_sz x)), (u32_small (p_sz x + n)) by lia.
  rewrite (decide_True (P := n > 0)), (decide_False (P := _ > p_max_mem x)) by lia.
  destruct (uvmalloc_grow e k (p_pagetable x) t fl us (p_sz x) (p_sz x + n)) as (r & k1 & E & G);
    [done|lia| |done|].
  { assert (2 ^ 32 < TRAPFRAME) by done. lia. }
  rewrite (bind_Ok _ _ _ _ _ _ _ E).
  pose proof G as (t' & fl' & [[-> _]|[-> _]]).
  - rewrite (u32_small (p_sz x + n)), decide_False by lia. eexists 0, _. split; [reflexivity|].
    exists k1. split; [done|]. by left.
  - rewrite decide_True by done. eexists (-1), _. split; [reflexivity|]. exists k1. split; [done|]. by right.
Qed.

Lemma growproc_shrinks n e k p t fl us1 us2 :
  user_proc k p t fl (us1 ++ us2) -> n < 0 -> 0 <= p_sz (get_proc k p) + n ->
  p_sz (get_proc k p) < 2 ^ 32 -> PGROUNDUP (p_sz (get_proc k p) + n) = vnth 0 (length us1) ->
  exists k1, growproc n e k = Ok 0 e (upd_proc p (set_p_sz (p_sz (get_proc k p) + n)) k1) /\
    uvm_upd k (p_pagetable (get_proc k p)) t fl (us1 ++ us2) k1 t (reverse us2 ++ fl) us1.
Proof.
  intros [Hr Hu Hsz Hrd] Hn H0 Hb Hrd1. set (x := get_proc k p) in *.
  rewrite (growproc_cur n e k p (vm_cpu _ _ _ _ (uv_inv _ _ _ _ _ Hu)) Hr). cbn zeta. fold x.
  rewrite (u32_small (p_sz x)), (u32_small (p_sz x + n)) by lia.
  rewrite (decide_False (P := n > 0)), (decide_True (P := n < 0)) by lia.
  destruct (uvmdealloc_ok e k (p_pagetable x) t fl us1 us2 (p_sz x) (p_sz x + n)) as (k1 & E & G);
    [done|lia|lia|done|done|].
  rewrite (bind_Ok _ _ _ _ _ _ _ E), u32_small by lia. by exists k1.
Qed.
End Grow.

Section Lifecycle.
Context `{Y : Symbols}.

Lemma allocpid_ok e k :
  cpu_ok k -> lock_free LkPid k ->
  allocpid e k = Ok (k_nextpid k) e (set_k_nextpid (i32 (k_nextpid k + 1)) k).
Proof.
  intros Hc Hl. unfold allocpid. rewrite (bind_Ok _ _ _ _ _ _ _ (acquire_free _ e k Hc Hl)).
  rewrite (bind_Ok (gets k_nextpid) _ (k_nextpid k) e (lock_taken LkPid k) e (lock_taken LkPid k) eq_refl).
  rewrite (bind_Ok (modify _) _ tt e (lock_taken LkPid k) e
             (lock_taken LkPid (set_k_nextpid (i32 (k_nextpid k + 1)) k)) eq_refl).
  by rewrite (bind_Ok _ _ _ _ _ _ _ (release_taken LkPid e (set_k_nextpid _ k) Hc Hl)).
Qed.

Lemma allocproc_full e k :
  quiet k -> Forall (fun p => p_state p <> UNUSED) (k_procs k) -> allocproc e k = Ok None e k.
Proof.
  intros Hq Hf. unfold allocproc. unfold bind. rewrite (search_ok _ _ e k Hq).
  assert (list_find (fun p => p_state p = UNUSED) (k_procs k) = None) as ->; [|done].
  apply list_find_None. exact Hf.
Qed.

(** No process has [p] as parent. *)
Definition childless (p : nat) (k : kernel) : Prop :=
  forall i, (i < NPROC)%nat -> p_parent (get_proc k i) <> Some p.

Lemma scan_childless {X} p addr (stats : proc -> X) st e k :
  forall l, (forall i, i ∈ l -> p_parent (get_proc k i) <> Some p) ->
  scan_ l (wait_child p addr stats) (false, st) e k = Ok (inr (false, st)) e k.
Proof.
  induction l as [|i l IH]; intros Hl; cbn [scan_]; [done|].
  assert (wait_child p addr stats (false, st) i e k = Ok (inr (false, st)) e k) as E.
  { unfold wait_child. rewrite (bind_Ok (gets _) _ (p_parent (get_proc k i)) e k e k eq_refl).
    rewrite decide_True; [done|]. apply Hl. left. }
  rewrite (bind_Ok _ _ _ _ _ _ _ E). apply IH. intros j Hj. apply Hl. by right.
Qed.

Lemma wait_childless {X} addr (stats : proc -> X) e k p :
  cpu_ok k -> lock_free LkWait k -> running k = Some p -> childless p k ->
  wait_loop addr stats e k = Ok (-1, None) e k.
Proof.
  intros Hc Hl Hr Hch. unfold wait_loop. rewrite (bind_Ok _ _ _ _ _ _ _ (cur_ok e k p Hc Hr)).
  rewrite (bind_Ok _ _ _ _ _ _ _ (acquire_free _ e k Hc Hl)). cbn [loop_].
  assert (wait_turn p addr stats None e (lock_taken LkWait k) = Ok (inl (-1, None)) e k) as E.
  { unfold wait_turn. erewrite bind_Ok; [|apply scan_childless; intros i Hi].
    - cbn beta iota. rewrite (bind_Ok (gets _) _ _ e (lock_taken LkWait k) e (lock_taken LkWait k) eq_refl).
      rewrite decide_True by (by left). by rewrite (bind_Ok _ _ _ _ _ _ _ (release_taken LkWait e k Hc Hl)).
    - rewrite get_proc_taken. apply Hch. apply elem_of_seq in Hi. lia. }
  by rewrite (bind_Ok _ _ _ _ _ _ _ E).
Qed.

(** Ctrl-P: a newline, and one more for every process in use. *)
Lemma procdump_newlines e k :
  cpu_ok k -> lock_free LkPr k -> length (k_procs k) = NPROC ->
  procdump e k = Ok tt e (sent (replicate (S (length (filter (fun p => p_state p <> UNUSED) (k_procs k)))) 10) k).
Proof.
  intros Hc Hl Hn. unfold procdump.
  rewrite (bind_Ok _ _ _ _ _ _ _ (printf_ok [10] [] [10] e k Hc Hl eq_refl)).
  assert (forall n a k0, cpu_ok k0 -> lock_free LkPr k0 -> (a + n <= NPROC)%nat -> k_procs k0 = k_procs k ->
    for_ (seq a n) (fun i => p <- gets (fun k => get_proc k i);;
                    if decide (p_state p = UNUSED) then skip else printf [10] []) e k0 =
    Ok tt e (sent (replicate (length (filter (fun p => p_state p <> UNUSED) (take n (drop a (k_procs k))))) 10) k0))
    as Hloop.
  { induction n as [|n IH]; intros a k0 Hc0 Hl0 Ha Hp0; cbn [seq for_]; [by rewrite sent_nil|].
    destruct (lookup_lt_is_Some_2 (k_procs k) a) as [p Hp]; [rewrite Hn; lia|].
    rewrite (drop_S _ _ _ Hp). cbn [take]. rewrite filter_cons.
    assert (get_proc k0 a = p) as Eg by (apply get_proc_lookup; by rewrite Hp0).
    match goal with |- bind ?m _ _ _ = _ => assert (m e k0 = Ok tt e
      (sent (if decide (p_state p = UNUSED) then [] else [10]) k0)) as E end.
    { rewrite (bind_Ok (gets _) _ p e k0 e k0) by (unfold gets; by rewrite Eg).
      case_decide; [by rewrite sent_nil|]. exact (printf_ok [10] [] [10] e k0 Hc0 Hl0 eq_refl). }
    rewrite (bind_Ok _ _ _ _ _ _ _ E), IH by (lia || done). rewrite sent_sent.
    destruct (decide (p_state p = UNUSED)) as [E1|E1].
    - by rewrite decide_False by tauto.
    - by rewrite decide_True by done. }
  rewrite Hloop by done. by rewrite drop_0, <- Hn, take_ge, sent_sent by done.
Qed.
End Lifecycle.
