(* ===== verification/ProcFree.v ===== *)
(** * Reaping a process: freeproc() and wait()

    When a parent finds a zombie child, wait() returns its pid and freeproc()
    takes the process apart: the slot is free again and every page the process
    had, the trapframe, the user pages and the pages of its page table, is back
    in the pool. *)

From S2P Require Import Prelude Machine Kstring Kernel Spinlock Kalloc Vm VmSpec VmMap VmUser VmCopy VmFork VmFree Sched Proc ProcSpec.

Section Reap.
Context `{Y : Symbols} `{OK : !SymbolsOK Y}.
Context `{PA : !PageAllocator kalloc kfree}.

(** ** What the invariants depend on *)
(** Same harts, locks, memory and free list. *)
Definition same_machine (k k' : kernel) : Prop :=
  k_cpus k' = k_cpus k /\ k_tp k' = k_tp k /\ k_csr k' = k_csr k /\ k_locks k' = k_locks k /\ k_mem k' = k_mem k /\ k_freelist k' = k_freelist k.
Lemma held_same k k' fl : same_machine k k' -> held k fl -> held k' fl.
Proof.
  intros (E1 & E2 & E3 & E4 & E5 & E6) (Hc & Hl & Hp). split_and!.
  - unfold cpu_ok, sie in *. rewrite E1, E2, E3. exact Hc.
  - unfold lock_free in *. by rewrite E4.
  - apply (pool_frame k); [done|done|]. intros. by rewrite E5.
Qed.
Lemma uvm_same k k' root t fl us : same_machine k k' -> uvm k root t fl us -> uvm k' root t fl us.
Proof.
  intros Hs [Hv Hown Hsz Hmap Hun]. destruct (held_same k k' fl Hs) as (Hc & Hl & Hp); [split_and!; apply Hv|].
  destruct Hs as (_ & _ & _ & _ & E5 & _). constructor; [|done|done|by rewrite E5|by rewrite E5].
  constructor; [done|done|done|rewrite E5; apply Hv|apply Hv].
Qed.

(** ** freeproc *)
(** The child at slot [c]: its address space and its trapframe. *)
Record proc_space (k : kernel) (x : proc) (t : ptable) (fl us : list Z) : Prop := {
  ps_uvm : uvm k (p_pagetable x) t fl us;
  ps_size : 0 <= p_sz x <= TRAPFRAME /\ PGROUNDUP (p_sz x) = vnth 0 (length us);
  ps_tramp : exists pg, maps_to (pte_of (k_mem k) t TRAMPOLINE) pg;
  ps_frame : maps_to (pte_of (k_mem k) t TRAPFRAME) (p_trapframe x);
  ps_page : page_ok (p_trapframe x) /\ p_trapframe x ∉ upages us t fl
}.
Definition reaped (x : proc) : proc := cleared (set_p_trapframe 0 x).

Lemma uvm_free_page e k root t fl us pg :
  uvm k root t fl us -> page_ok pg -> pg ∉ upages us t fl ->
  exists k', kfree pg e k = Ok tt e k' /\ only_mem k k' /\ uvm k' root t (pg :: fl) us /\ same_except [pg] (k_mem k) (k_mem k') /\
    (forall va, pte_of (k_mem k') t va = pte_of (k_mem k) t va).
Proof.
  intros [Hv (Hnd & Hok & Hfl & Ht) Hsz Hmap Hun] Hpg Hni. unfold upages, vm_pages in Hni. rewrite !not_elem_of_union, !not_elem_of_list_to_set in Hni.
  destruct Hni as (Hnu & Hnf & Hnt). assert (forall p q, t !! p = Some q -> q <> pg) as Hnt'.
  { intros p q Hq ->. apply Hnt. apply elem_of_tpages. by exists p. }
  destruct (vm_inv_free e k root t fl pg Hv Hpg Hnf Hnt') as (k' & E & Ho & Hs & Hv' & P). exists k'. split_and!; [done|done| |done|done].
  constructor; [done| |done| |].
  - split_and!; [done|done| |done]. intros q Hq [->|Hin]%elem_of_cons; [done|by apply (Hfl q)].
  - intros i q Hi. rewrite P. by apply Hmap.
  - intros va Hva Hr. rewrite P. by apply Hun.
Qed.

Lemma reaped_state k k1 k3 c :
  only_mem k k1 -> only_mem (upd_proc c (set_p_trapframe 0) k1) k3 ->
  upd_proc c cleared k3 = upd_proc c reaped (set_k_freelist (k_freelist k3) (set_k_mem (k_mem k3) k)).
Proof.
  unfold only_mem. intros E1 E3. transitivity (upd_proc c cleared (set_k_freelist (k_freelist k3) (set_k_mem (k_mem k3) (upd_proc c (set_p_trapframe 0) k1)))); [by rewrite <- E3|].
  rewrite E1. change (set_k_freelist (k_freelist k3) (set_k_mem (k_mem k3) (upd_proc c ?f (set_k_freelist ?a (set_k_mem ?b k))))) with
    (upd_proc c f (set_k_freelist (k_freelist k3) (set_k_mem (k_mem k3) k))). by rewrite upd_proc_twice.
Qed.

Lemma freeproc_frees e k c t fl us :
  (c < length (k_procs k))%nat -> proc_space k (get_proc k c) t fl us ->
  exists m' f' fl', let k' := set_k_freelist f' (set_k_mem m' k) in
    freeproc c e k = Ok tt e (upd_proc c reaped k') /\ held k' fl' /\ NoDup fl' /\
    (list_to_set fl' : gset Z) = {[p_trapframe (get_proc k c)]} ∪ upages us t fl /\
    same_except (p_trapframe (get_proc k c) :: elements (upages us t fl)) (k_mem k) m'.
Proof.
  intros Hc [Hu [Hsz Esz] [pg1 Hm1] Hm2 [Hpo Hni]]. set (x := get_proc k c) in *.
  destruct (uvm_free_page e k (p_pagetable x) t fl us (p_trapframe x) Hu Hpo Hni) as (k1 & E1 & Ho1 & Hu1 & Hs1 & P1).
  set (k2 := upd_proc c (set_p_trapframe 0) k1).
  assert (same_machine k1 k2) as Hsm by done. pose proof (uvm_same k1 k2 _ _ _ _ Hsm Hu1) as Hu2.
  assert (k_procs k1 = k_procs k) as Epr by (by rewrite Ho1).
  assert (get_proc k2 c = set_p_trapframe 0 x) as Ex.
  { unfold k2. rewrite get_proc_upd by (by rewrite Epr). rewrite decide_True by done. unfold get_proc. by rewrite Epr. }
  destruct (proc_freepagetable_space e k2 (p_pagetable x) t (p_trapframe x :: fl) us (p_sz x) pg1 (p_trapframe x) Hu2 Hsz Esz) as (k3 & fl' & E3 & Ho3 & Hh3 & Hnd & Hset & Hs3).
  { change (k_mem k2) with (k_mem k1). by rewrite P1. }
  { change (k_mem k2) with (k_mem k1). by rewrite P1. }
  pose proof (page_ok_pos _ Hpo) as [Htf _].
  assert (page_ok (p_pagetable x)) as Hroot by (eapply pt_ok; [eapply vm_rep, uv_inv; exact Hu|eapply pt_root, vm_rep, uv_inv; exact Hu]). pose proof (page_ok_pos _ Hroot) as [Hrt _].
  exists (k_mem k3), (k_freelist k3), fl'. cbv zeta. split_and!.
  - unfold freeproc. rewrite (bind_Ok _ _ (p_trapframe x) e k e k) by done.
    rewrite (bind_Ok _ _ tt e k e k1) by (rewrite decide_True by lia; exact E1). rewrite (bind_Ok _ _ tt e k1 e k2) by done.
    rewrite (bind_Ok _ _ (set_p_trapframe 0 x) e k2 e k2) by (unfold gets; by rewrite Ex).
    rewrite (bind_Ok _ _ tt e k2 e k3) by (rewrite decide_True by (cbn; lia); exact E3). unfold modify. f_equal. exact (reaped_state k k1 k3 c Ho1 Ho3).
  - eapply held_same; [|exact Hh3]. rewrite Ho3. unfold k2. rewrite Ho1. done.
  - done.
  - rewrite Hset. unfold upages, vm_pages. cbn [list_to_set foldr]. set_solver.
  - eapply same_except_mono; [|eapply same_except_trans; [exact Hs1|exact Hs3]]. intros q. rewrite !elem_of_app, !elem_of_cons, elem_of_nil, !elem_of_elements.
    unfold upages, vm_pages. cbn [list_to_set foldr]. set_solver.
Qed.

(** ** Address spaces while other pages change *)
(** The pages of an address space are not among [ps]. *)
Definition clear_of (us : list Z) (t : ptable) (ps : list Z) : Prop := forall q, q ∈ us \/ q ∈ tpages t -> q ∉ ps.
Lemma uvm_frame k k' root t fl us fl' ps :
  uvm k root t fl us -> held k' fl' -> same_except ps (k_mem k) (k_mem k') -> Forall page_ok ps -> clear_of us t ps -> clear_of us t fl' ->
  uvm k' root t fl' us /\ (forall pg a, pg ∈ us -> in_page pg a -> read8 (k_mem k') a = read8 (k_mem k) a) /\
  (forall va, pte_of (k_mem k') t va = pte_of (k_mem k) t va).
Proof.
  intros [Hv (Hnd & Hok & Hfl & Ht) Hsz Hmap Hun] (Hc & Hl & Hp) Hs Hps Hap Hap'.
  assert (forall p pg, t !! p = Some pg -> pg ∉ ps) as Hnt by (intros p pg Hpg; apply Hap; right; apply elem_of_tpages; by exists p).
  assert (forall va, pte_of (k_mem k') t va = pte_of (k_mem k) t va) as Hpte.
  { intros va. eapply pte_of_frame; [eapply vm_rep; exact Hv|exact Hs|exact Hps|exact Hnt]. }
  split_and!; [|intros pg a Hpg Ha|exact Hpte].
  - constructor; [constructor; [done|done|done| |]| |done| |].
    + eapply pt_rep_frame; [eapply vm_rep; exact Hv|exact Hs|exact Hps|exact Hnt].
    + intros p pg Hpg. apply Hap'. right. apply elem_of_tpages. by exists p.
    + split_and!; [done|done| |done]. intros pg Hpg. apply Hap'. by left.
    + intros i pg Hi. rewrite Hpte. by apply Hmap.
    + intros va Hva Hr. rewrite Hpte. by apply Hun.
  - eapply same_except_read8; [exact Hs| | |apply Hap; by left|exact Ha].
    + eapply Forall_impl; [exact Hps|]. by intros q [? _].
    + rewrite Forall_forall in Hok. by apply Hok.
Qed.
(** What the process reads, when its pages and entries are as they were. *)
Lemma uread_same k root t fl us m' :
  user_space k root t fl us -> (forall a, pte_of m' t a = pte_of (k_mem k) t a) -> (forall q a, q ∈ us -> in_page q a -> read8 m' a = read8 (k_mem k) a) ->
  forall va, uread m' t va = uread (k_mem k) t va.
Proof.
  intros Hs P B va. unfold uread. case_decide as Hva; [|done]. cbv zeta. rewrite P. case_decide as Hnz; [done|]. f_equal.
  destruct (page_split va Hva) as (Ed & Hpg & Hm & _). rewrite Ed in Hpg. destruct (user_page k root t fl us _ Hs Hpg Hnz) as (i & Hi & _).
  apply (B (user_pa (pte_of (k_mem k) t (va - va mod PGSIZE)))); [by eapply list_elem_of_lookup_2|unfold in_page; lia].
Qed.
Lemma proc_space_frame k k' x t fl us fl' ps :
  proc_space k x t fl us -> held k' fl' -> same_except ps (k_mem k) (k_mem k') -> Forall page_ok ps -> clear_of us t ps -> clear_of us t fl' -> p_trapframe x ∉ fl' ->
  proc_space k' x t fl' us.
Proof.
  intros [Hu Hsz [pg1 Hm1] Hm2 [Hpo Hni]] Hh Hs Hps Hap Hap' Hnf. destruct (uvm_frame k k' _ t fl us fl' ps Hu Hh Hs Hps Hap Hap') as (Hu' & _ & P).
  constructor; [done|done|exists pg1; by rewrite P|by rewrite P|]. split; [done|]. revert Hni. unfold upages, vm_pages. rewrite !elem_of_union, !elem_of_list_to_set. tauto.
Qed.

(** ** wait *)
Lemma proc_space_taken l k x t fl us : l <> LkKmem -> proc_space k x t fl us -> proc_space (lock_taken l k) x t fl us.
Proof.
  intros Hl [[Hv Hown Hsz Hmap Hun] H3 H4 H5 H6]. constructor; [|done..]. constructor; [|done..]. destruct Hv as [Hc Hk Hp Hr Hd].
  constructor; [by apply cpu_ok_taken|by apply lock_free_taken_ne|by apply (pool_frame k)|done|done].
Qed.

(** A slot of the scan that is not a zombie child is left alone. *)
Lemma wait_child_skip {X} p addr (stats : proc -> X) b st i e k :
  cpu_ok k -> lock_free (LkProc i) k -> (p_parent (get_proc k i) = Some p -> p_state (get_proc k i) <> ZOMBIE) ->
  exists b', wait_child p addr stats (b, st) i e k = Ok (inr (b', st)) e k.
Proof.
  intros Hc Hl Hz. unfold wait_child. rewrite (bind_Ok (gets _) _ (p_parent (get_proc k i)) e k e k eq_refl). case_decide as Hp; [by exists b|].
  exists true. rewrite (bind_Ok _ _ _ _ _ _ _ (acquire_free _ e k Hc Hl)). rewrite (bind_Ok (gets _) _ (get_proc k i) e _ e (lock_taken (LkProc i) k)) by done.
  rewrite decide_True by (apply Hz; by destruct (decide (p_parent (get_proc k i) = Some p))). by rewrite (bind_Ok _ _ _ _ _ _ _ (release_taken _ e k Hc Hl)).
Qed.
Lemma scan_skip {X} p addr (stats : proc -> X) e k : forall l l2 b st,
  cpu_ok k -> (forall i, i ∈ l -> lock_free (LkProc i) k /\ (p_parent (get_proc k i) = Some p -> p_state (get_proc k i) <> ZOMBIE)) ->
  exists b', scan_ (l ++ l2) (wait_child p addr stats) (b, st) e k = scan_ l2 (wait_child p addr stats) (b', st) e k.
Proof.
  induction l as [|i l IH]; intros l2 b st Hc Hl; [by exists b|]. destruct (Hl i ltac:(by left)) as [Hf Hz].
  destruct (wait_child_skip p addr stats b st i e k Hc Hf Hz) as [b1 E]. cbn [app scan_]. rewrite (bind_Ok _ _ _ _ _ _ _ E).
  apply IH; [done|]. intros j Hj. apply Hl. by right.
Qed.

(** The parent of the child: its address space [up], [tp] and the page of the
    child's trapframe and the child's pages are apart. *)
Record parent_space (k : kernel) (root : Z) (x : proc) (t : ptable) (fl us : list Z) (tp : ptable) (up : list Z) : Prop := {
  pp_user : user_space k root tp fl up;
  pp_apart : spaces_apart up tp us t fl;
  pp_frame q : q ∈ up \/ q ∈ tpages tp -> q <> p_trapframe x
}.
(** The status of the child in the memory of its parent, little endian. *)
Definition status_stored (m m' : mem) (tp : ptable) (addr status : Z) (n : Z) : Prop :=
  forall va, uread m' tp va = if decide (addr <= va < addr + n) then Some (status / 2 ^ (8 * (va - addr)) mod 256) else uread m tp va.
Lemma copied_status m m' tp addr v j :
  (j <= 4)%nat -> copied_out m m' tp addr (int_bytes v) j -> status_stored m m' tp addr v (Z.of_nat j).
Proof.
  intros Hj H va. rewrite H. case_decide as Hr; [|done]. assert (va - addr = 0 \/ va - addr = 1 \/ va - addr = 2 \/ va - addr = 3) as Hd by lia.
  destruct Hd as [E|[E|[E|E]]]; rewrite E;
    [change (Some (u8 (u8 v)) = Some (v / 1 mod 256))|change (Some (u8 (u8 (v / 2 ^ 8))) = Some ((v / 2 ^ 8) mod 256))
    |change (Some (u8 (u8 (v / 2 ^ 16))) = Some ((v / 2 ^ 16) mod 256))|change (Some (u8 (u8 (v / 2 ^ 24))) = Some ((v / 2 ^ 24) mod 256))];
    rewrite u8_idemp; [by rewrite Z.div_1_r|done..].
Qed.

(** if(addr != 0 && copyout(...) < 0): the parent's memory has the status, or
    some bytes of it before an address it cannot access. *)
Lemma wait_copies addr e k c root t fl us tp up :
  let x := get_proc k c in
  proc_space k x t fl us -> 0 <= addr < 2 ^ 64 -> (addr <> 0 -> parent_space k root x t fl us tp up) ->
  exists r k', (if decide (addr <> 0) then copyout root addr (int_bytes (p_xstate x)) else ret 0) e k = Ok r e k' /\
    only_mem k k' /\ proc_space k' x t fl us /\ (addr = 0 -> k_mem k' = k_mem k) /\
    (addr <> 0 -> parent_space k' root x t fl us tp up /\ same_except up (k_mem k) (k_mem k')) /\
    (r = 0 /\ (addr <> 0 -> status_stored (k_mem k) (k_mem k') tp addr (p_xstate x) 4) \/
     r = -1 /\ addr <> 0 /\ exists n, 0 <= n < 4 /\ status_stored (k_mem k) (k_mem k') tp addr (p_xstate x) n /\ uread (k_mem k) tp (addr + n) = None).
Proof.
  intros x Hsp Ha Hpar. destruct (decide (addr <> 0)) as [Hne|He].
  2:{ exists 0, k. split_and!; [done|apply only_mem_refl|done|done|done|]. left. split; [done|]. tauto. }
  destruct (Hpar Hne) as [Hus Hap Hfr]. unfold copyout.
  destruct (copyout_loop e root tp fl up (S (length (int_bytes (p_xstate x)))) k addr (int_bytes (p_xstate x)) Hus Ha ltac:(lia)) as (r & k' & E & Hus' & Ho & Hs & j & V & Hr).
  exists r, k'. pose proof (uv_inv _ _ _ _ _ (us_uvm _ _ _ _ _ Hus')) as Hv'. destruct (uv_own _ _ _ _ _ (us_uvm _ _ _ _ _ Hus)) as (_ & Hok & _).
  change (length (int_bytes (p_xstate x))) with 4%nat in Hr.
  assert (clear_of us t up) as Hcl. { intros q Hq Hin. apply (Hap q); [by left|]. unfold upages, vm_pages. rewrite !elem_of_union, elem_of_list_to_set. tauto. }
  pose proof (uv_inv _ _ _ _ _ (ps_uvm _ _ _ _ _ Hsp)) as Hv.
  split_and!; [exact E|exact Ho| |done|intros _; split; [by constructor|exact Hs]|].
  - eapply proc_space_frame; [exact Hsp|split_and!; apply Hv'|exact Hs|exact Hok|exact Hcl| |].
    + intros q [Hq|[p Hp]%elem_of_tpages] Hin; [destruct (uv_own _ _ _ _ _ (ps_uvm _ _ _ _ _ Hsp)) as (_ & _ & Hf & _); exact (Hf q Hq Hin)|exact (vm_disj _ _ _ _ Hv _ _ Hp Hin)].
    + intros Hin. apply (proj2 (ps_page _ _ _ _ _ Hsp)). unfold upages. by apply elem_of_union_r, free_in_vm_pages.
  - destruct Hr as [[-> ->]|(-> & Hj & Hn)]; [left|right].
    + split; [done|]. intros _. apply (copied_status _ _ _ _ _ 4%nat); [lia|exact V].
    + split; [done|]. split; [done|]. exists (Z.of_nat j). split_and!; [lia|lia|apply copied_status; [lia|exact V]|exact Hn].
Qed.

(** A slot that is free again. *)
Definition slot_free (x : proc) : Prop :=
  p_state x = UNUSED /\ p_pid x = 0 /\ p_parent x = None /\ p_pagetable x = 0 /\ p_sz x = 0 /\ p_trapframe x = 0 /\
  p_chan x = ChNull /\ p_killed x = 0 /\ p_xstate x = 0.

(** The outcome of wait(addr) for a zombie child at slot [c]. *)
Definition wait_reaped (addr : Z) (k : kernel) (p c : nat) (t : ptable) (fl us : list Z) (tp : ptable) (up : list Z) (r : Z) (k' : kernel) : Prop :=
  let x := get_proc k c in
  (r = p_pid x /\ exists x' m' f' fl', k' = set_k_procs (<[c := x']> (k_procs k)) (set_k_freelist f' (set_k_mem m' k)) /\ slot_free x' /\
     pool k' fl' /\ NoDup fl' /\ (list_to_set fl' : gset Z) = {[p_trapframe x]} ∪ upages us t fl /\
     (addr = 0 -> same_except (p_trapframe x :: elements (upages us t fl)) (k_mem k) m') /\
     (addr <> 0 -> same_except (up ++ p_trapframe x :: elements (upages us t fl)) (k_mem k) m' /\ status_stored (k_mem k) m' tp addr (p_xstate x) 4)) \/
  (r = -1 /\ addr <> 0 /\ exists m' f', k' = set_k_freelist f' (set_k_mem m' k) /\ proc_space k' x t fl us /\ same_except up (k_mem k) m' /\
     exists n, 0 <= n < 4 /\ status_stored (k_mem k) m' tp addr (p_xstate x) n /\ uread (k_mem k) tp (addr + n) = None).

Lemma parent_space_taken l k root x t fl us tp up : l <> LkKmem -> parent_space k root x t fl us tp up -> parent_space (lock_taken l k) root x t fl us tp up.
Proof.
  intros Hl [[[Hv Hown Hsz Hmap Hun] Hus] H2 H3]. constructor; [|done|done]. constructor; [|done]. constructor; [|done..]. destruct Hv as [Hc Hk Hp Hr Hd].
  constructor; [by apply cpu_ok_taken|by apply lock_free_taken_ne|by apply (pool_frame k)|done|done].
Qed.

(** Taking the child apart keeps what the parent reads. *)
Lemma status_kept k root x t fl us tp up m' f' fl' :
  parent_space k root x t fl us tp up -> proc_space k x t fl us -> pool (set_k_freelist f' (set_k_mem m' k)) fl' ->
  (list_to_set fl' : gset Z) = {[p_trapframe x]} ∪ upages us t fl -> same_except (p_trapframe x :: elements (upages us t fl)) (k_mem k) m' ->
  forall va, uread m' tp va = uread (k_mem k) tp va.
Proof.
  intros [Hus Hap Hfr] Hsp Hpool Hset Hs. pose proof (ps_page _ _ _ _ _ Hsp) as [Hpo _].
  assert (Forall page_ok (p_trapframe x :: elements (upages us t fl))) as Hok.
  { constructor; [done|]. apply Forall_forall. intros q Hq%elem_of_elements. eapply upages_ok; [exact (ps_uvm _ _ _ _ _ Hsp)|done]. }
  assert (clear_of up tp (p_trapframe x :: elements (upages us t fl))) as Hcl.
  { intros q Hq. rewrite elem_of_cons, elem_of_elements. intros [->|Hin]; [by eapply Hfr|by eapply Hap]. }
  assert (clear_of up tp fl') as Hcl'.
  { intros q Hq Hin. apply (elem_of_list_to_set (C := gset Z)) in Hin. rewrite Hset in Hin. apply elem_of_union in Hin as [->%elem_of_singleton|Hin]; [by eapply Hfr|by eapply Hap]. }
  pose proof (uv_inv _ _ _ _ _ (us_uvm _ _ _ _ _ Hus)) as Hv.
  destruct (uvm_frame k (set_k_freelist f' (set_k_mem m' k)) root tp fl up fl' _ (us_uvm _ _ _ _ _ Hus) (conj (vm_cpu _ _ _ _ Hv) (conj (vm_lock _ _ _ _ Hv) Hpool)) Hs Hok Hcl Hcl') as (_ & B & P).
  exact (uread_same k root tp fl up m' Hus P B).
Qed.

(** The zombie itself: pid and statistics are returned, both locks are free
    again, and the process is gone; or the status cannot be stored. *)
Lemma wait_child_reaps {X} p addr (stats : proc -> X) b st c e k t fl us tp up :
  quiet k -> lock_free LkWait k -> (c < NPROC)%nat -> 0 <= addr < 2 ^ 64 ->
  p_parent (get_proc k c) = Some p -> p_state (get_proc k c) = ZOMBIE -> proc_space k (get_proc k c) t fl us ->
  (addr <> 0 -> parent_space k (p_pagetable (get_proc k p)) (get_proc k c) t fl us tp up) ->
  exists r k', wait_child p addr stats (b, st) c e (lock_taken LkWait k) = Ok (inl (r, Some (stats (get_proc k c)))) e k' /\
    wait_reaped addr k p c t fl us tp up r k'.
Proof.
  intros [Hc Hlen Hlock] Hw Hlt Ha Hp Hz Hsp Hpar. set (x := get_proc k c) in *. set (k1 := lock_taken LkWait k). set (k2 := lock_taken (LkProc c) k1).
  assert (lock_free (LkProc c) k1) as Hlc by (apply lock_free_taken_ne; [done|by apply Hlock]).
  assert (proc_space k2 (get_proc k2 c) t fl us) as Hsp2 by (apply proc_space_taken; [done|]; by apply proc_space_taken).
  assert (addr <> 0 -> parent_space k2 (p_pagetable (get_proc k p)) (get_proc k2 c) t fl us tp up) as Hpar2.
  { intros Hne. apply parent_space_taken; [done|]. apply parent_space_taken; [done|]. exact (Hpar Hne). }
  destruct (wait_copies addr e k2 c (p_pagetable (get_proc k p)) t fl us tp up Hsp2 Ha Hpar2) as (r & k3 & E & Ho & Hsp3 & Hm0 & Hp3 & Hr).
  change (get_proc k2 c) with x in *. change (k_mem k2) with (k_mem k) in *.
  assert (exists m3 f3, k3 = lock_taken (LkProc c) (lock_taken LkWait (set_k_freelist f3 (set_k_mem m3 k)))) as (m3 & f3 & E3).
  { exists (k_mem k3), (k_freelist k3). unfold only_mem in Ho. rewrite Ho at 1. reflexivity. }
  assert (forall kf, cpu_ok kf -> lock_free LkWait kf -> lock_free (LkProc c) kf -> forall res : (Z * option X) + bool * option X,
    (release (LkProc c);;; release LkWait;;; ret res) e (lock_taken (LkProc c) (lock_taken LkWait kf)) = Ok res e kf) as Hrel.
  { intros kf Hcf Hwf Hpf res. rewrite (bind_Ok _ _ _ _ _ _ _ (release_taken (LkProc c) e (lock_taken LkWait kf) (cpu_ok_taken _ _ Hcf) ltac:(by apply lock_free_taken_ne))).
    by rewrite (bind_Ok _ _ _ _ _ _ _ (release_taken _ e kf Hcf Hwf)). }
  assert (wait_child p addr stats (b, st) c e k1 =
    (if decide (r < 0) then release (LkProc c);;; release LkWait;;; ret (inl (-1, Some (stats x))) else
     freeproc c;;; release (LkProc c);;; release LkWait;;; ret (inl (p_pid x, Some (stats x)))) e k3) as Ew.
  { unfold wait_child. rewrite (bind_Ok (gets _) _ (p_parent x) e k1 e k1 eq_refl). rewrite decide_False by (rewrite Hp; tauto).
    rewrite (bind_Ok _ _ _ _ _ _ _ (acquire_free _ e k1 (cpu_ok_taken _ _ Hc) Hlc)). rewrite (bind_Ok (gets _) _ x e k2 e k2 eq_refl).
    rewrite decide_False by (rewrite Hz; tauto). cbv zeta. rewrite (bind_Ok _ _ r e k2 e k3); [done|].
    destruct (decide (addr <> 0)); [|exact E]. rewrite (bind_Ok (gets _) _ (p_pagetable (get_proc k p)) e k2 e k2 eq_refl). exact E. }
  fold k1. rewrite Ew. destruct Hr as [[-> Hst]|(-> & Hne & n & Hn & Hst & Hnone)].
  - rewrite decide_False by lia. assert (get_proc k3 c = x) as Ex3 by (by rewrite E3).
    rewrite <- Ex3 in Hsp3. destruct (freeproc_frees e k3 c t fl us ltac:(rewrite E3; change (k_procs _) with (k_procs k); lia) Hsp3) as (m' & f' & fl' & Ef & (_ & _ & Hpool) & Hnd & Hset & Hs).
    rewrite Ex3 in Hset, Hs. set (kf := upd_proc c reaped (set_k_freelist f' (set_k_mem m' k))).
    assert (upd_proc c reaped (set_k_freelist f' (set_k_mem m' k3)) = lock_taken (LkProc c) (lock_taken LkWait kf)) as Ek by (by rewrite E3).
    exists (p_pid x), kf. split; [rewrite (bind_Ok _ _ _ _ _ _ _ Ef), Ek; apply Hrel; [exact Hc|exact Hw|exact (Hlock c Hlt)]|].
    left. split; [done|]. destruct (lookup_lt_is_Some_2 (k_procs k) c) as [y Hy]; [lia|].
    exists (reaped y), m', f', fl'. split_and!; [unfold kf, upd_proc; by rewrite (alter_insert _ _ _ y)|done|by apply (pool_frame (set_k_freelist f' (set_k_mem m' k3)))|done|done| |].
    + intros H0. by rewrite <- (Hm0 H0).
    + intros Hne. destruct (Hp3 Hne) as [[Hus3 Hap3 Hfr3] Hsu]. split; [by eapply same_except_trans|].
      rewrite Ex3 in Hsp3. intros va. transitivity (uread (k_mem k3) tp va); [|exact (Hst Hne va)].
      exact (status_kept k3 _ x t fl us tp up m' f' fl' (Build_parent_space _ _ _ _ _ _ _ _ Hus3 Hap3 Hfr3) Hsp3 Hpool Hset Hs va).
  - rewrite decide_True by lia. set (kf := set_k_freelist f3 (set_k_mem m3 k)) in *. exists (-1), kf. rewrite E3.
    split; [apply Hrel; [exact Hc|exact Hw|exact (Hlock c Hlt)]|]. right. split_and!; [done|done|]. exists m3, f3.
    assert (k_mem k3 = m3) as Em by (by rewrite E3). rewrite Em in *. destruct (Hp3 Hne) as [_ Hsu]. split_and!; [done| |done|by exists n].
    destruct Hsp3 as [Hu3 R2 R3 R4 R5]. rewrite Em in R3, R4. constructor; [|done|done|done|done].
    destruct Hu3 as [Hv3 Hown3 Hsz3 Hmap3 Hun3]. rewrite Em in Hmap3, Hun3. constructor; [|done..]. destruct Hv3 as [V1 V2 V3 V4 V5]. rewrite Em in V4.
    constructor; [exact Hc| |apply (pool_frame k3); [done|by rewrite E3|intros; by rewrite Em]|done|done].
    pose proof (vm_lock _ _ _ _ (uv_inv _ _ _ _ _ (ps_uvm _ _ _ _ _ Hsp))) as Hlk. exact Hlk.
Qed.

Lemma wait_loop_reaps {X} addr (stats : proc -> X) c e k p t fl us tp up :
  quiet k -> lock_free LkWait k -> running k = Some p -> (c < NPROC)%nat -> 0 <= addr < 2 ^ 64 ->
  p_parent (get_proc k c) = Some p -> p_state (get_proc k c) = ZOMBIE ->
  (forall i, (i < c)%nat -> p_parent (get_proc k i) = Some p -> p_state (get_proc k i) <> ZOMBIE) -> proc_space k (get_proc k c) t fl us ->
  (addr <> 0 -> parent_space k (p_pagetable (get_proc k p)) (get_proc k c) t fl us tp up) ->
  exists r k', wait_loop addr stats e k = Ok (r, Some (stats (get_proc k c))) e k' /\ wait_reaped addr k p c t fl us tp up r k'.
Proof.
  intros Hq Hw Hr Hlt Ha Hp Hz Hfirst Hsp Hpar. pose proof Hq as [Hc Hlen Hlock].
  assert (exists l2, seq 0 NPROC = seq 0 c ++ c :: l2) as [l2 El].
  { exists (seq (S c) (NPROC - S c)). change (c :: seq (S c) (NPROC - S c)) with (seq (0 + c) (S (NPROC - S c))). rewrite <- seq_app. f_equal. lia. }
  destruct (scan_skip p addr stats e (lock_taken LkWait k) (seq 0 c) (c :: l2) false None) as [b Escan].
  { by apply cpu_ok_taken. }
  { intros i Hi%elem_of_seq. split; [apply lock_free_taken_ne; [done|apply Hlock; lia]|]. rewrite get_proc_taken. apply Hfirst. lia. }
  destruct (wait_child_reaps p addr stats b None c e k t fl us tp up Hq Hw Hlt Ha Hp Hz Hsp Hpar) as (r & k' & E & Hrest).
  exists r, k'. split; [|exact Hrest].
  unfold wait_loop. rewrite (bind_Ok _ _ _ _ _ _ _ (cur_ok e k p Hc Hr)). rewrite (bind_Ok _ _ _ _ _ _ _ (acquire_free _ e k Hc Hw)). cbn [loop_].
  rewrite (bind_Ok _ _ (inl (r, Some (stats (get_proc k c)))) e (lock_taken LkWait k) e k'); [done|].
  unfold wait_turn. rewrite El. erewrite bind_Ok; [|rewrite Escan; cbn [scan_]; rewrite (bind_Ok _ _ _ _ _ _ _ E); reflexivity]. done.
Qed.
End Reap.
