(* ===== verification/ProcAlloc.v ===== *)
(** * Making a process: proc_pagetable() and allocproc()

    A new process gets a trapframe page and a page table that maps the
    trampoline and the trapframe and nothing else, all from the pool; when the
    pool runs dry on the way, everything taken is given back and the slot is as
    free as it was. *)

From S2P Require Import Prelude Machine Kstring Kernel Spinlock Kalloc Vm VmSpec VmMap VmUser VmFork VmFree Sched Proc ProcSpec ProcFree.

Section Make.
Context `{Y : Symbols} `{OK : !SymbolsOK Y}.
Context `{PA : !PageAllocator kalloc kfree}.

(** ** Other address spaces while pages are taken from the pool *)
Lemma space_kept k k' root t fl us fl' :
  uvm k root t fl us -> held k' fl' -> same_except fl (k_mem k) (k_mem k') -> (forall q, q ∈ fl' -> q ∈ fl) ->
  uvm k' root t fl' us /\ (forall pg a, pg ∈ us -> in_page pg a -> read8 (k_mem k') a = read8 (k_mem k) a) /\
  (forall va, pte_of (k_mem k') t va = pte_of (k_mem k) t va).
Proof.
  intros Hu Hh Hs Hsub. pose proof (uv_inv _ _ _ _ _ Hu) as Hv.
  assert (clear_of us t fl) as Hcl.
  { intros q [Hq|[p Hp]%elem_of_tpages]; [destruct (uv_own _ _ _ _ _ Hu) as (_ & _ & Hf & _); by apply Hf|exact (vm_disj _ _ _ _ Hv _ _ Hp)]. }
  apply (uvm_frame k k' root t fl us fl' fl Hu Hh Hs); [eapply pool_pages, vm_pool; exact Hv|exact Hcl|].
  intros q Hq Hin. by apply (Hcl q Hq), Hsub.
Qed.

(** ** proc_pagetable *)
Lemma held_alloc e k f fl :
  held k (f :: fl) -> exists k', kalloc e k = Ok f e k' /\ only_mem k k' /\ same_except [f] (k_mem k) (k_mem k') /\ held k' fl.
Proof.
  intros (Hc & Hl & Hp). destruct (alloc_page e k f fl Hc Hl Hp) as (k' & E & Ho & Hs & Hp'). exists k'. split_and!; [done|done|done|].
  split_and!; [by eapply cpu_ok_only_mem|by eapply lock_free_only_mem|done].
Qed.
Lemma root_space k f fl : held k fl -> page_ok f -> f ∉ fl -> (forall i, 0 <= i < 512 -> read64 (k_mem k) (f + 8 * i) = 0) -> uvm k f (root_only f) fl [].
Proof.
  intros (Hc & Hl & Hp) Hf Hni Hz. pose proof (root_only_lookup f) as Hroot. constructor; [constructor; [done|done|done|constructor|]|apply owned_nil|done| |].
  - apply lookup_singleton_eq.
  - intros p pg i Hpg _ Hi. apply Hroot in Hpg as [-> ->]. unfold root_only. rewrite lookup_singleton_ne by done. by rewrite Hz.
  - intros i p q Hpq. by apply Hroot in Hpq as [? _].
  - intros p1 p2 q H1 H2. apply Hroot in H1 as [-> _], H2 as [-> _]. done.
  - intros p pg Hpg. by apply Hroot in Hpg as [_ ->].
  - intros i q Hpq. by apply Hroot in Hpq as [? _].
  - intros p pg Hpg. by apply Hroot in Hpg as [_ ->].
  - intros i pg Hi. by rewrite lookup_nil in Hi.
  - intros va _ _. by rewrite root_only_low.
Qed.
Lemma uvmcreate_root e k f fl :
  held k (f :: fl) -> exists k', uvmcreate e k = Ok f e k' /\ only_mem k k' /\ same_except [f] (k_mem k) (k_mem k') /\ uvm k' f (root_only f) fl [].
Proof.
  intros Hh. pose proof Hh as (_ & _ & Hp). destruct (pool_pages _ _ Hp) as [[Hni _]%NoDup_cons [Hf _]%Forall_cons]. pose proof (page_ok_pos f Hf) as [Hpos _].
  destruct (held_alloc e k f fl Hh) as (k1 & E & Ho & Hs & Hh1). exists (set_k_mem (memset (k_mem k1) f 0 PGSIZE) k1). split_and!.
  - unfold uvmcreate. rewrite (bind_Ok _ _ _ _ _ _ _ E). rewrite decide_False by lia. done.
  - eapply only_mem_trans; [done|apply only_mem_set].
  - apply (same_except_mono ([f] ++ [f])); [set_solver|]. eapply same_except_trans; [done|apply same_except_memset].
  - apply root_space; [|done|done|].
    + apply (held_write _ _ f); [done|done|done|apply same_except_memset].
    + intros i Hi. cbn. apply read64_memset_zero; unfold PGSIZE; lia.
Qed.

(** One more page mapped above the user part. *)
Lemma map_high e k root t fl va pa perm :
  uvm k root t fl [] -> vpage va -> TRAPFRAME <= va -> Z.land (pte_of (k_mem k) t va) PTE_V = 0 ->
  0 <= pa < 2 ^ 32 -> pa mod PGSIZE = 0 -> 0 <= perm < 1024 ->
  exists r k' t' fl', mappages root va PGSIZE pa perm e k = Ok r e k' /\ uvm k' root t' fl' [] /\ only_mem k k' /\
    upages [] t' fl' = upages [] t fl /\ same_except (elements (upages [] t fl)) (k_mem k) (k_mem k') /\
    (r = 0 /\ (length fl <= length fl' + 2)%nat /\ (forall va', vpage va' -> pte_of (k_mem k') t' va' = if decide (va' = va) then leaf_pte pa perm else pte_of (k_mem k) t va') \/
     r = -1 /\ (length fl < 2)%nat /\ (forall va', vpage va' -> pte_of (k_mem k') t' va' = pte_of (k_mem k) t va')).
Proof.
  intros [Hv Hown Hsz Hmap Hun] Hva Hge Hz Hpa Hal Hperm. destruct (mappages_at e k root t fl va pa perm Hv Hva Hz Hpa Hal Hperm) as (r & k' & t' & fl' & E & X & Hc).
  exists r, k', t', fl'. assert (upages [] t' fl' = upages [] t fl) as Hup by (unfold upages; by rewrite (ve_pages _ _ _ _ _ _ _ X)). split_and!; [done| |apply X|done| |].
  - constructor; [apply X|apply owned_nil|done|intros i pg Hi; by rewrite lookup_nil in Hi|]. intros va' Hva' Hr. destruct Hc as [(_ & _ & P)|(_ & _ & _ & P)]; rewrite P by done; [|by apply Hun].
    rewrite decide_False by lia. by apply Hun.
  - intros a Ha. apply (ve_frame _ _ _ _ _ _ _ X). intros q Hq. apply Ha. apply elem_of_elements. unfold upages. by apply elem_of_union_r.
  - destruct Hc as [Hc|(-> & _ & Hco & P)]; [by left|by right].
Qed.

(** What proc_pagetable() achieves: a table with the two pages mapped, which
    takes at most five pages, or everything back in the pool. *)
Definition pagetable_made (k : kernel) (fl : list Z) (tf r : Z) (k' : kernel) : Prop :=
  only_mem k k' /\ same_except fl (k_mem k) (k_mem k') /\
  ((r <> 0 /\ exists t fl', uvm k' r t fl' [] /\ upages [] t fl' = list_to_set fl /\ (length fl <= length fl' + 5)%nat /\
      (exists pg, maps_to (pte_of (k_mem k') t TRAMPOLINE) pg) /\ maps_to (pte_of (k_mem k') t TRAPFRAME) tf) \/
   (r = 0 /\ (length fl < 5)%nat /\ exists fl', held k' fl' /\ (list_to_set fl' : gset Z) = list_to_set fl)).

Lemma leaf_maps pa perm : 0 <= pa < 2 ^ 64 -> pa mod PGSIZE = 0 -> 0 <= perm < 1024 -> Z.lor perm PTE_V <> PTE_V -> maps_to (leaf_pte pa perm) pa.
Proof. intros Hpa Hal Hp Hl. destruct (leaf_pte_facts pa perm Hpa Hal Hp) as (E1 & E2 & _ & E3). split_and!; [done|done|by rewrite E2]. Qed.
Lemma upages_root f fl : upages [] (root_only f) fl = list_to_set (f :: fl).
Proof. unfold upages, vm_pages, tpages, root_only. rewrite map_img_singleton_L. cbn [list_to_set foldr]. set_solver. Qed.
Lemma except_pages (ps : gset Z) fl m m' : ps = list_to_set fl -> same_except (elements ps) m m' -> same_except fl m m'.
Proof. intros ->. apply same_except_mono. intros q. by rewrite elem_of_elements, elem_of_list_to_set. Qed.
Lemma except_trans fl m1 m2 m3 : same_except fl m1 m2 -> same_except fl m2 m3 -> same_except fl m1 m3.
Proof. intros H1 H2. apply (same_except_mono (fl ++ fl)); [set_solver|]. by eapply same_except_trans. Qed.

(** uvmfree() of a table that maps nothing. *)
Lemma uvmfree_empty e k root t fl0 fl :
  uvm k root t fl [] -> upages [] t fl = list_to_set fl0 -> (forall va, vpage va -> TRAPFRAME <= va -> Z.land (pte_of (k_mem k) t va) PTE_V = 0) ->
  exists k' fl', uvmfree root 0 e k = Ok tt e k' /\ only_mem k k' /\ same_except fl0 (k_mem k) (k_mem k') /\ held k' fl' /\ (list_to_set fl' : gset Z) = list_to_set fl0.
Proof.
  intros Hu Hup Hz. destruct (uvmfree_space e k root t fl [] 0 Hu ltac:(done) ltac:(done) Hz) as (k' & fl' & E & Ho & Hh & _ & Hset & Hs).
  exists k', fl'. split_and!; [done|done|by apply (except_pages (upages [] t fl))|done|by rewrite Hset].
Qed.

Lemma proc_pagetable_ok e k p fl :
  held k fl -> page_ok (p_trapframe (get_proc k p)) ->
  exists r k', proc_pagetable p e k = Ok r e k' /\ pagetable_made k fl (p_trapframe (get_proc k p)) r k'.
Proof.
  intros Hh Htf. set (tf := p_trapframe (get_proc k p)) in *. pose proof (page_ok_pos tf Htf) as [Htfr _].
  destruct high_pages as (V1 & V2 & L1 & L2).
  destruct fl as [|f fl].
  { exists 0, k. assert (uvmcreate e k = Ok 0 e k) as E.
    { unfold uvmcreate. rewrite (bind_Ok _ _ 0 e k e k); [done|]. destruct Hh as (? & ? & ?). by apply alloc_empty. }
    split; [unfold proc_pagetable; by rewrite (bind_Ok _ _ _ _ _ _ _ E), decide_True|]. split_and!; [apply only_mem_refl|done|]. right. split_and!; [done|cbn; lia|]. by exists []. }
  pose proof Hh as (_ & _ & Hp). destruct (pool_pages _ _ Hp) as [_ [Hf _]%Forall_cons]. pose proof (page_ok_pos f Hf) as [Hfr _].
  destruct (uvmcreate_root e k f fl Hh) as (k1 & E1 & Ho1 & Hs1 & Hu1).
  assert (same_except (f :: fl) (k_mem k) (k_mem k1)) as Hf1 by (eapply same_except_mono; [|exact Hs1]; set_solver).
  destruct trampoline_in_text as [T1 T2]. pose proof etext_before_end. pose proof end_in_ram. unfold KERNBASE, PHYSTOP, PGSIZE, KERNBASE in *.
  destruct (map_high e k1 f (root_only f) fl TRAMPOLINE sym_trampoline (Z.lor PTE_R PTE_X) Hu1 V1 L1) as (r1 & k2 & t2 & fl2 & E2 & Hu2 & Ho2 & Hup2 & Hs2 & Hc2);
    [by rewrite root_only_low|lia|apply trampoline_aligned|done|].
  rewrite upages_root in Hup2, Hs2. apply (except_pages _ _ _ _ eq_refl) in Hs2. pose proof (except_trans _ _ _ _ Hf1 Hs2) as Hf2.
  unfold proc_pagetable. rewrite (bind_Ok _ _ _ _ _ _ _ E1). rewrite decide_False by lia. rewrite (bind_Ok _ _ _ _ _ _ _ E2).
  destruct Hc2 as [(-> & Hco2 & P2)|(-> & Hco2 & P2)]; [rewrite decide_False by lia|rewrite decide_True by lia].
  2:{ destruct (uvmfree_empty e k2 f t2 (f :: fl) fl2 Hu2 Hup2) as (k3 & fl3 & E3 & Ho3 & Hs3 & Hh3 & Hset3); [intros va Hva _; by rewrite P2, root_only_low|].
      exists 0, k3. rewrite (bind_Ok _ _ _ _ _ _ _ E3). split; [done|]. split_and!; [eapply only_mem_trans; [|done]; by eapply only_mem_trans|by eapply except_trans|].
      right. split_and!; [done|cbn; lia|]. by exists fl3. }
  assert (p_trapframe (get_proc k2 p) = tf) as Etf by (unfold tf, get_proc; by rewrite Ho2, Ho1).
  rewrite (bind_Ok _ _ tf e k2 e k2) by (unfold gets; by rewrite Etf).
  destruct (map_high e k2 f t2 fl2 TRAPFRAME tf (Z.lor PTE_R PTE_W) Hu2 V2 ltac:(done)) as (r3 & k3 & t3 & fl3 & E3 & Hu3 & Ho3 & Hup3 & Hs3 & Hc3);
    [rewrite P2 by done; rewrite decide_False by done; by rewrite root_only_low|lia|apply Htf|done|].
  rewrite Hup2 in Hup3, Hs3. apply (except_pages _ _ _ _ eq_refl) in Hs3. pose proof (except_trans _ _ _ _ Hf2 Hs3) as Hf3.
  assert (only_mem k k3) as Ho13 by (eapply only_mem_trans; [|exact Ho3]; by eapply only_mem_trans).
  rewrite (bind_Ok _ _ _ _ _ _ _ E3).
  assert (maps_to (leaf_pte sym_trampoline (Z.lor PTE_R PTE_X)) sym_trampoline) as Hleaf by (apply leaf_maps; [lia|apply trampoline_aligned|done|done]).
  destruct Hc3 as [(-> & Hco3 & P3)|(-> & Hco3 & P3)]; [rewrite decide_False by lia|rewrite decide_True by lia].
  - exists f, k3. split; [done|]. split_and!; [done|done|]. left. split; [lia|]. exists t3, fl3. split_and!; [done|done|cbn; lia| |].
    + exists sym_trampoline. rewrite P3, P2 by done. rewrite decide_False by done. by rewrite decide_True.
    + rewrite P3, decide_True by done. apply leaf_maps; [lia|apply Htf|done|done].
  - destruct (unmap_high e k3 f t3 fl3 [] TRAMPOLINE sym_trampoline Hu3 V1 L1) as (k4 & E4 & Ho4 & Hu4 & Hs4 & P4).
    { rewrite P3, P2, decide_True by done. done. }
    destruct (uvmfree_empty e k4 f t3 (f :: fl) fl3 Hu4 Hup3) as (k5 & fl5 & E5 & Ho5 & Hs5 & Hh5 & Hset5).
    { intros va Hva _. rewrite P4 by done. case_decide; [done|]. rewrite P3, P2 by done. rewrite decide_False by done. by rewrite root_only_low. }
    exists 0, k5. rewrite (bind_Ok _ _ _ _ _ _ _ E4), (bind_Ok _ _ _ _ _ _ _ E5). split; [done|]. split_and!.
    + eapply only_mem_trans; [|exact Ho5]. by eapply only_mem_trans.
    + eapply except_trans; [exact Hf3|]. eapply except_trans; [|exact Hs5]. eapply same_except_mono; [|exact Hs4]. intros q Hq%elem_of_elements.
      apply (elem_of_list_to_set (C := gset Z)). rewrite <- Hup3. unfold upages, vm_pages. rewrite !elem_of_union. tauto.
    + right. split_and!; [done|cbn; lia|]. by exists fl5.
Qed.

(** ** allocproc *)
(** The kernel [base] with the process of slot [c] and the memory replaced, and
    the lock of the slot held. *)
Definition with_proc (c : nat) (x : proc) (m : mem) (f : Z) (base : kernel) : kernel :=
  upd_proc c (fun _ => x) (set_k_freelist f (set_k_mem m base)).
Definition under (c : nat) (x : proc) (m : mem) (f : Z) (base : kernel) : kernel := lock_taken (LkProc c) (with_proc c x m f base).

Lemma under_upd c h x m f base : upd_proc c h (under c x m f base) = under c (h x) m f base.
Proof. unfold under. change (upd_proc c h (lock_taken ?l ?k)) with (lock_taken l (upd_proc c h k)). unfold with_proc. by rewrite upd_proc_twice. Qed.
Lemma under_proc c x m f base : (c < length (k_procs base))%nat -> get_proc (under c x m f base) c = x.
Proof. intros Hc. unfold under. rewrite get_proc_taken. unfold with_proc. rewrite get_proc_upd by done. by rewrite decide_True. Qed.
Lemma under_only c x m f base k' : only_mem (under c x m f base) k' -> k' = under c x (k_mem k') (k_freelist k') base.
Proof. unfold only_mem. intros E. rewrite E at 1. done. Qed.
Lemma under_base c base y : k_procs base !! c = Some y -> under c y (k_mem base) (k_freelist base) base = lock_taken (LkProc c) base.
Proof.
  intros Hy. unfold under, with_proc. f_equal. transitivity (upd_proc c (fun _ => y) base); [by destruct base|].
  rewrite (upd_proc_ext c (fun _ => y) id base y) by done. unfold upd_proc. rewrite (alter_same id _ _ y) by done. by destruct base.
Qed.
Lemma under_same c x x' m f base : same_machine (under c x m f base) (under c x' m f base).
Proof. split_and!; reflexivity. Qed.
Lemma under_held c x m f base fl : held (under c x m f base) fl -> forall x', held (under c x' m f base) fl.
Proof. intros Hh x'. exact (held_same _ _ _ (under_same _ _ _ _ _ _) Hh). Qed.
Lemma release_under c x m f base e : cpu_ok base -> lock_free (LkProc c) base -> release (LkProc c) e (under c x m f base) = Ok tt e (with_proc c x m f base).
Proof. intros Hc Hl. apply release_taken; [exact Hc|exact Hl]. Qed.

(** The process as allocproc() fills it in, and as a failure leaves it. *)
Definition born (k : kernel) (y : proc) : proc := mem_limit (fresh_stats (k_ticks k) (set_p_state USED (set_p_pid (k_nextpid k) y))).
Definition newborn (k : kernel) (y : proc) (tf root : Z) : proc := first_context (set_p_pagetable root (set_p_trapframe tf (born k y))).
Definition next_pid (k : kernel) : kernel := set_k_nextpid (i32 (k_nextpid k + 1)) k.

(** The outcome: a process with its own table, for at most six pages, or
    nothing taken. *)
Definition made (k : kernel) (c : nat) (y : proc) (fl : list Z) (o : option nat) (k' : kernel) : Prop :=
  (o = Some c /\ exists tf root t fl' m' f',
     k' = under c (newborn k y tf root) m' f' (next_pid k) /\ uvm k' root t fl' [] /\ page_ok tf /\ tf ∉ upages [] t fl' /\
     {[tf]} ∪ upages [] t fl' = list_to_set fl /\ (length fl <= length fl' + 6)%nat /\ same_except fl (k_mem k) m' /\
     (exists pg, maps_to (pte_of m' t TRAMPOLINE) pg) /\ maps_to (pte_of m' t TRAPFRAME) tf) \/
  (o = None /\ (length fl < 6)%nat /\ exists x fl' m' f',
     k' = with_proc c x m' f' (next_pid k) /\ p_state x = UNUSED /\ p_pagetable x = 0 /\ p_sz x = 0 /\ p_ofile x = p_ofile y /\ pool k' fl' /\ (list_to_set fl' : gset Z) = list_to_set fl /\ same_except fl (k_mem k) m').

(** freeproc() of a process that has no page table. *)
Lemma freeproc_bare e c x m f base fl :
  (c < length (k_procs base))%nat -> held (under c x m f base) fl -> p_pagetable x = 0 -> (p_trapframe x = 0 \/ page_ok (p_trapframe x) /\ p_trapframe x ∉ fl) ->
  exists m' f' fl', freeproc c e (under c x m f base) = Ok tt e (under c (reaped x) m' f' base) /\ held (under c (reaped x) m' f' base) fl' /\
    fl' = (if decide (p_trapframe x = 0) then fl else p_trapframe x :: fl) /\ same_except (if decide (p_trapframe x = 0) then [] else [p_trapframe x]) m m'.
Proof.
  intros Hc Hh Hpt Htf. unfold freeproc. rewrite (bind_Ok _ _ (p_trapframe x) e _ e (under c x m f base)) by (unfold gets; by rewrite under_proc).
  assert (exists m' f' fl', (if decide (p_trapframe x <> 0) then kfree (p_trapframe x) else skip) e (under c x m f base) = Ok tt e (under c x m' f' base) /\
    held (under c x m' f' base) fl' /\ fl' = (if decide (p_trapframe x = 0) then fl else p_trapframe x :: fl) /\ same_except (if decide (p_trapframe x = 0) then [] else [p_trapframe x]) m m') as (m' & f' & fl' & E & Hh' & Efl & Hs).
  { destruct (decide (p_trapframe x = 0)) as [E0|E0].
    - rewrite decide_False by tauto. by exists m, f, fl.
    - rewrite decide_True by done. destruct Htf as [?|[Hpo Hni]]; [done|]. destruct Hh as (Hcp & Hl & Hp). destruct (free_page e _ (p_trapframe x) fl Hcp Hl Hp Hpo Hni) as (k' & E & Ho & Hs & Hp').
      pose proof (under_only _ _ _ _ _ _ Ho) as Ek. exists (k_mem k'), (k_freelist k'), (p_trapframe x :: fl). rewrite <- Ek. split_and!; [done| |done|exact Hs].
      split_and!; [by eapply cpu_ok_only_mem|by eapply lock_free_only_mem|done]. }
  exists m', f', fl'. rewrite (bind_Ok _ _ _ _ _ _ _ E). rewrite (bind_Ok (modify _) _ tt e _ e (under c (set_p_trapframe 0 x) m' f' base)) by (unfold modify; by rewrite under_upd).
  rewrite (bind_Ok _ _ (set_p_trapframe 0 x) e _ e (under c (set_p_trapframe 0 x) m' f' base)) by (unfold gets; by rewrite under_proc).
  rewrite (bind_Ok _ _ tt e _ e (under c (set_p_trapframe 0 x) m' f' base)) by (rewrite decide_False by (cbn; lia); done).
  unfold modify. rewrite under_upd. split_and!; [done|by eapply under_held|done|done].
Qed.

Lemma modify_under {B} c h x m f base (K1 : unit -> K B) e : bind (modify (upd_proc c h)) K1 e (under c x m f base) = K1 tt e (under c (h x) m f base).
Proof. rewrite (bind_Ok (modify _) _ tt e _ e (under c (h x) m f base)); [done|]. unfold modify. by rewrite under_upd. Qed.
Lemma held_under c y k fl : k_procs k !! c = Some y -> cpu_ok k -> lock_free LkKmem k -> pool k fl -> held (under c y (k_mem k) (k_freelist k) k) fl.
Proof.
  intros Hy Hc Hl Hp. rewrite under_base by done. split_and!; [by apply cpu_ok_taken|by apply lock_free_taken_ne|by apply (pool_frame k)].
Qed.
Lemma born_bare k y : p_pagetable (born k y) = p_pagetable y.
Proof. done. Qed.

(** Giving up: the slot is released as freeproc() leaves it. *)
Lemma undo_alloc e c x m f base fl fl0 m0 :
  (c < length (k_procs base))%nat -> cpu_ok base -> lock_free (LkProc c) base -> held (under c x m f base) fl -> p_pagetable x = 0 ->
  (p_trapframe x = 0 /\ (list_to_set fl : gset Z) = list_to_set fl0 \/ page_ok (p_trapframe x) /\ p_trapframe x ∉ fl /\ {[p_trapframe x]} ∪ list_to_set fl = (list_to_set fl0 : gset Z)) ->
  same_except fl0 m0 m ->
  exists m' f' fl', (freeproc c;;; release (LkProc c);;; ret (@None nat)) e (under c x m f base) = Ok None e (with_proc c (reaped x) m' f' base) /\
    pool (with_proc c (reaped x) m' f' base) fl' /\ (list_to_set fl' : gset Z) = list_to_set fl0 /\ same_except fl0 m0 m'.
Proof.
  intros Hc Hcp Hl Hh Hpt Htf Hs. destruct (freeproc_bare e c x m f base fl Hc Hh Hpt) as (m' & f' & fl' & E & (_ & _ & Hp) & Efl & Hs').
  { destruct Htf as [[? _]|(? & ? & _)]; [by left|by right]. }
  exists m', f', fl'. rewrite (bind_Ok _ _ _ _ _ _ _ E), (bind_Ok _ _ _ _ _ _ _ (release_under c _ m' f' base e Hcp Hl)). split_and!; [done|by apply (pool_frame (under c (reaped x) m' f' base))| |].
  - rewrite Efl. destruct Htf as [[Ez Hset]|(Hpo & Hni & Hset)]; [by rewrite decide_True|]. pose proof (page_ok_pos _ Hpo) as [? _]. rewrite decide_False by lia. exact Hset.
  - destruct Htf as [[Ez _]|(Hpo & Hni & Hset)].
    + rewrite decide_True in Hs' by done. eapply except_trans; [exact Hs|]. eapply same_except_mono; [|exact Hs']. set_solver.
    + pose proof (page_ok_pos _ Hpo) as [? _]. rewrite decide_False in Hs' by lia. eapply except_trans; [exact Hs|]. eapply same_except_mono; [|exact Hs']. intros q ->%list_elem_of_singleton. apply (elem_of_list_to_set (C := gset Z)). rewrite <- Hset. set_solver.
Qed.

Lemma allocproc_found_made e k c y fl :
  cpu_ok k -> lock_free LkPid k -> lock_free LkKmem k -> lock_free (LkProc c) k -> k_procs k !! c = Some y -> p_pagetable y = 0 -> pool k fl ->
  exists o k', allocproc_found c e (lock_taken (LkProc c) k) = Ok o e k' /\ made k c y fl o k'.
Proof.
  intros Hc Hlp Hlk Hlc Hy Hpt Hp. pose proof (lookup_lt_Some _ _ _ Hy) as Hlt.
  pose proof (allocpid_ok e (lock_taken (LkProc c) k) (cpu_ok_taken _ _ Hc) ltac:(by apply lock_free_taken_ne)) as Epid.
  change (set_k_nextpid _ (lock_taken (LkProc c) k)) with (lock_taken (LkProc c) (next_pid k)) in Epid. change (k_nextpid (lock_taken (LkProc c) k)) with (k_nextpid k) in Epid.
  rewrite <- (under_base c (next_pid k) y) in Epid by done. cbn [next_pid k_mem k_freelist] in Epid. change (k_mem (next_pid k)) with (k_mem k) in Epid.
  change (k_freelist (next_pid k)) with (k_freelist k) in Epid. set (b := next_pid k) in *.
  assert (held (under c y (k_mem k) (k_freelist k) b) fl) as Hh by (apply (held_under c y b fl); [done|done|done|by apply (pool_frame k)]).
  unfold allocproc_found. rewrite (bind_Ok _ _ _ _ _ _ _ Epid). rewrite !modify_under.
  rewrite (bind_Ok (gets _) _ (k_ticks k) e (under c (set_p_state USED (set_p_pid (k_nextpid k) y)) (k_mem k) (k_freelist k) b) e (under c (set_p_state USED (set_p_pid (k_nextpid k) y)) (k_mem k) (k_freelist k) b) eq_refl). rewrite !modify_under.
  fold (born k y). pose proof (under_held _ _ _ _ _ _ Hh (born k y)) as Hhb.
  destruct fl as [|tf fl].
  - (* no page for the trapframe *)
    rewrite (bind_Ok _ _ 0 e _ e (under c (born k y) (k_mem k) (k_freelist k) b)) by (destruct Hhb as (? & ? & ?); by apply alloc_empty). rewrite modify_under, decide_True by done.
    destruct (undo_alloc e c (set_p_trapframe 0 (born k y)) (k_mem k) (k_freelist k) b [] [] (k_mem k)) as (m' & f' & fl' & E & Hp' & Hset & Hs);
      [done|done|done|by eapply under_held|done|by left|done|].
    exists None, (with_proc c (reaped (set_p_trapframe 0 (born k y))) m' f' b). rewrite E. split; [done|]. right. split_and!; [done|cbn; lia|]. by eexists _, fl', m', f'.
  - destruct (held_alloc e _ tf fl Hhb) as (k1 & E1 & Ho1 & Hs1 & Hh1). rewrite (under_only _ _ _ _ _ _ Ho1) in *. set (m1 := k_mem k1) in *. set (f1 := k_freelist k1) in *. clearbody m1 f1. clear Ho1 k1.
    change (k_mem (under c (born k y) m1 f1 b)) with m1 in Hs1. change (k_mem (under c (born k y) (k_mem k) (k_freelist k) b)) with (k_mem k) in Hs1.
    destruct (pool_pages _ _ Hp) as [[Hni Hnd]%NoDup_cons [Htf Hok]%Forall_cons]. pose proof (page_ok_pos tf Htf) as [Htfr _].
    rewrite (bind_Ok _ _ _ _ _ _ _ E1), modify_under, decide_False by lia. pose proof (under_held _ _ _ _ _ _ Hh1 (set_p_trapframe tf (born k y))) as Hh2.
    destruct (proc_pagetable_ok e _ c fl Hh2) as (r & k2 & E2 & Ho2 & Hs2 & Hcase); [by rewrite under_proc|]. rewrite under_proc in Hcase by done.
    rewrite (bind_Ok _ _ _ _ _ _ _ E2). rewrite (under_only _ _ _ _ _ _ Ho2) in *. set (m2 := k_mem k2) in *. set (f2 := k_freelist k2) in *. clearbody m2 f2. clear Ho2 k2 E2.
    change (k_mem (under c (set_p_trapframe tf (born k y)) m2 f2 b)) with m2 in Hs2, Hcase. change (k_mem (under c (set_p_trapframe tf (born k y)) m1 f1 b)) with m1 in Hs2.
    assert (same_except (tf :: fl) (k_mem k) m2) as Hsm.
    { eapply same_except_mono; [|eapply same_except_trans; [exact Hs1|exact Hs2]]. set_solver. }
    rewrite modify_under. destruct Hcase as [(Hr & t & fl' & Hu & Hup & Hco & Htr & Htm)|(-> & Hco & fl' & Hhf & Hset)].
    + rewrite decide_False by done. rewrite modify_under. exists (Some c), (under c (newborn k y tf r) m2 f2 b). split; [reflexivity|]. left. split; [reflexivity|].
      exists tf, r, t, fl', m2, f2. assert (tf ∉ upages [] t fl') as Htu by (rewrite Hup, elem_of_list_to_set; done).
      split_and!; [reflexivity| |exact Htf|exact Htu|rewrite Hup; reflexivity|cbn; lia|exact Hsm|exact Htr|exact Htm].
      exact (uvm_same _ _ _ _ _ _ (under_same _ _ _ _ _ _) Hu).
    + rewrite decide_True by done. destruct (undo_alloc e c (set_p_pagetable 0 (set_p_trapframe tf (born k y))) m2 f2 b fl' (tf :: fl) (k_mem k)) as (m' & f' & fl'' & E & Hp' & Hset' & Hs');
        [done|done|done|by eapply under_held|done| |done|].
      { right. change (p_trapframe (set_p_pagetable 0 (set_p_trapframe tf (born k y)))) with tf. split_and!; [done| |rewrite Hset; reflexivity].
        intros Hin. apply Hni. apply (elem_of_list_to_set (C := gset Z)). rewrite <- Hset. by apply elem_of_list_to_set. }
      exists None, (with_proc c (reaped (set_p_pagetable 0 (set_p_trapframe tf (born k y)))) m' f' b). rewrite E. split; [reflexivity|]. right. split_and!; [reflexivity|cbn; lia|]. by eexists _, fl'', m', f'.
Qed.

(** allocproc(): the first unused slot. *)
Lemma allocproc_made e k c y fl :
  quiet k -> lock_free LkPid k -> lock_free LkKmem k -> list_find (fun p => p_state p = UNUSED) (k_procs k) = Some (c, y) -> p_pagetable y = 0 -> pool k fl ->
  exists o k', allocproc e k = Ok o e k' /\ made k c y fl o k'.
Proof.
  intros Hq Hlp Hlk Hf Hpt Hp. pose proof Hf as (Hy & _)%list_find_Some. assert (c < NPROC)%nat as Hc by (rewrite <- (q_len k Hq); by eapply lookup_lt_Some).
  destruct (allocproc_found_made e k c y fl (q_cpu k Hq) Hlp Hlk (q_lock k Hq c Hc) Hy Hpt Hp) as (o & k' & E & Hm). exists o, k'. split; [|done].
  unfold allocproc. erewrite bind_Ok; [|rewrite (search_ok _ _ e k Hq), Hf; unfold bind at 1; unfold bind at 1; rewrite E; reflexivity]. done.
Qed.
End Make.
