(* ===== verification/ProcFork.v ===== *)
(** * Making a child: fork() as a whole

    fork() either gives the parent a child that is its copy, runnable, with
    its own pages and trapframe and the parent's open files and directory, or
    returns -1 with everything given back; the parent's memory is as it was. *)

From S2P Require Import Prelude Machine Kstring Kernel Spinlock Kalloc Vm VmSpec VmMap VmUser VmCopy VmFork VmFree Sched Proc ProcSpec Sleeplock Bio Log Fs Pipe Console File Trap ProcFs ProcFree ProcAlloc.

(** ** Open files *)
(** The counts of the files a list of descriptors names go up by one each. *)
Definition dup_file (o : option nat) (k : kernel) : kernel :=
  match o with Some f => upd_file f (fun x => set_f_ref (f_ref x + 1) x) k | None => k end.
Fixpoint dup_files (l : list (option nat)) (k : kernel) : kernel :=
  match l with [] => k | o :: l' => dup_files l' (dup_file o k) end.

Lemma upd_file_ref k i f : f_ref (get_file k f) <= f_ref (get_file (upd_file i (fun x => set_f_ref (f_ref x + 1) x) k) f).
Proof.
  unfold get_file, upd_file. cbn. rewrite list_lookup_alter. case_decide as E; [subst i|done].
  destruct (k_ftable k !! f) as [x|]; cbn; lia.
Qed.
Lemma dup_file_ref k o f : f_ref (get_file k f) <= f_ref (get_file (dup_file o k) f).
Proof. destruct o; [apply upd_file_ref|cbn; lia]. Qed.

Section Dup.
Context `{Symbols}.
Lemma filedup_counts f e k :
  cpu_ok k -> lock_free LkFtable k -> 1 <= f_ref (get_file k f) -> filedup f e k = Ok f e (dup_file (Some f) k).
Proof.
  intros Hc Hl Hr. unfold filedup. rewrite (bind_Ok _ _ _ _ _ _ _ (acquire_free _ e k Hc Hl)).
  rewrite (bind_Ok (gets _) _ (f_ref (get_file k f)) e (lock_taken LkFtable k) e (lock_taken LkFtable k) eq_refl).
  rewrite decide_False by lia. set (k1 := dup_file (Some f) k).
  rewrite (bind_Ok (modify _) _ tt e (lock_taken LkFtable k) e (lock_taken LkFtable k1) eq_refl).
  by rewrite (bind_Ok _ _ _ _ _ _ _ (release_taken LkFtable e k1 Hc Hl)).
Qed.
Lemma idup_counts ip e k :
  cpu_ok k -> lock_free LkItable k -> idup ip e k = Ok ip e (upd_inode ip (fun x => set_i_ref (i_ref x + 1) x) k).
Proof.
  intros Hc Hl. unfold idup. rewrite (bind_Ok _ _ _ _ _ _ _ (acquire_free _ e k Hc Hl)). set (k1 := upd_inode _ _ _).
  rewrite (bind_Ok (modify _) _ tt e (lock_taken LkItable k) e (lock_taken LkItable k1) eq_refl).
  by rewrite (bind_Ok _ _ _ _ _ _ _ (release_taken LkItable e k1 Hc Hl)).
Qed.
End Dup.

Section Child.
Context `{Y : Symbols} `{OK : !SymbolsOK Y}.
Context `{PA : !PageAllocator kalloc kfree}.

Lemma under_other c x m f base j : j <> c -> get_proc (under c x m f base) j = get_proc base j.
Proof. intros Hj. unfold under. rewrite get_proc_taken. unfold with_proc, get_proc, upd_proc. cbn. by rewrite list_lookup_alter_ne. Qed.
Lemma under_length c x m f base : length (k_procs (under c x m f base)) = length (k_procs base).
Proof. unfold under, with_proc, upd_proc. cbn. apply length_alter. Qed.
Lemma under_dup c x m f base o : dup_file o (under c x m f base) = under c x m f (dup_file o base).
Proof. by destruct o. Qed.
Lemma dup_file_rest o k : cpu_ok k -> cpu_ok (dup_file o k).
Proof. by destruct o. Qed.

(** The loop over the descriptors. *)
Lemma fork_files_from e c p m f : p <> c -> forall l a x base,
  cpu_ok base -> lock_free LkFtable base -> (c < length (k_procs base))%nat -> drop a (p_ofile (get_proc base p)) = l ->
  p_ofile x = take a (p_ofile (get_proc base p)) ++ replicate (length l) None -> (a <= length (p_ofile (get_proc base p)))%nat ->
  (forall g, Some g ∈ l -> 1 <= f_ref (get_file base g)) ->
  for_ (seq a (length l)) (fork_file p c) e (under c x m f base) = Ok tt e (under c (set_p_ofile (p_ofile (get_proc base p)) x) m f (dup_files l base)).
Proof.
  intros Hpc. induction l as [|o l IH]; intros a x base Hc Hl Hlt Hd Hx Ha Hr; cbn [length seq for_ dup_files].
  - f_equal. f_equal. rewrite <- (take_drop a (p_ofile (get_proc base p))), Hd. cbn [length replicate] in Hx. rewrite <- Hx. by destruct x.
  - assert (p_ofile (get_proc base p) !! a = Some o) as Ho by (rewrite <- (Nat.add_0_r a), <- lookup_drop, Hd; done).
    assert (a < length (p_ofile (get_proc base p)))%nat as Halt by (by eapply lookup_lt_Some).
    set (x' := set_p_ofile (<[a := o]> (p_ofile x)) x).
    assert (fork_file p c a e (under c x m f base) = Ok tt e (under c x' m f (dup_file o base))) as E.
    { unfold fork_file. rewrite (bind_Ok (gets _) _ (Some o) e _ e (under c x m f base)) by (unfold gets; by rewrite under_other, Ho).
      destruct o as [g|].
      - rewrite (bind_Ok _ _ _ _ _ _ _ (filedup_counts g e (under c x m f base) ltac:(by apply cpu_ok_taken) ltac:(by apply lock_free_taken_ne) (Hr g ltac:(by left)))).
        unfold modify. by rewrite under_dup, under_upd.
      - unfold skip, ret. cbn [dup_file]. f_equal. f_equal. unfold x'. rewrite list_insert_id; [by destruct x|].
        rewrite Hx, lookup_app_r by (rewrite length_take; lia). rewrite length_take, Nat.min_l, Nat.sub_diag by lia. done. }
    rewrite (bind_Ok _ _ _ _ _ _ _ E). assert (get_proc (dup_file o base) p = get_proc base p) as Ep by by destruct o.
    rewrite (IH (S a) x' (dup_file o base)); [by rewrite Ep| | | | | | |].
    + by destruct o.
    + by destruct o.
    + by destruct o.
    + rewrite Ep. by rewrite <- Nat.add_1_r, <- drop_drop, Hd.
    + rewrite Ep. cbn [x' p_ofile set_p_ofile]. rewrite Hx. erewrite (take_S_r _ a) by exact Ho. rewrite <- app_assoc.
      rewrite insert_app_r_alt by (rewrite length_take; lia). rewrite length_take, Nat.min_l, Nat.sub_diag by lia. done.
    + rewrite Ep. lia.
    + intros g Hg. etrans; [apply Hr; by right|apply dup_file_ref].
Qed.

(** ** The trapframe *)
(** *(np->trapframe) = *(p->trapframe); np->trapframe->a0 = 0; *)
Definition frame_mem (m : mem) (src dst : Z) : mem := write64 (write_bytes m dst (read_bytes (Z.to_nat TF_SIZE) m src)) (dst + TF_A0) 0.
Definition child_frame (m0 m : mem) (src dst : Z) : Prop :=
  (forall o, 0 <= o < TF_SIZE -> o < TF_A0 \/ TF_A0 + 8 <= o -> read8 m (dst + o) = read8 m0 (src + o)) /\ read64 m (dst + TF_A0) = 0.

Lemma frame_mem_except m src dst : same_except [dst] m (frame_mem m src dst).
Proof.
  intros a Ha. assert (~ in_page dst a) as Hn by (apply Ha; by left). unfold in_page, PGSIZE in Hn. unfold frame_mem.
  rewrite read8_write64_ne, read8_write_bytes_ne; [done| |]; rewrite ?length_read_bytes; unfold TF_A0, TF_SIZE; lia.
Qed.
Lemma frame_mem_child m src dst : child_frame m (frame_mem m src dst) src dst.
Proof.
  unfold frame_mem. split; [|by apply read64_write64_eq]. intros o Ho Hne. rewrite read8_write64_ne by lia.
  replace (dst + o) with (dst + Z.of_nat (Z.to_nat o)) by lia. erewrite read8_write_bytes_in; [|apply lookup_read_bytes; lia].
  rewrite Z2Nat.id by lia. apply u8_small, read8_range.
Qed.
Lemma child_frame_from m0 m1 m src dst :
  (forall a, src <= a < src + TF_SIZE -> read8 m1 a = read8 m0 a) -> child_frame m1 m src dst -> child_frame m0 m src dst.
Proof. intros Hs [H1 H2]. split; [|done]. intros o Ho Hne. rewrite H1 by done. apply Hs. lia. Qed.

(** ** Address spaces while other things change *)
Lemma uvm_move k k' root t fl us :
  uvm k root t fl us -> cpu_ok k' -> lock_free LkKmem k' -> k_mem k' = k_mem k -> k_freelist k' = k_freelist k -> uvm k' root t fl us.
Proof.
  intros [Hv Hown Hsz Hmap Hun] Hc Hl Em Ef. constructor; [|done|done|by rewrite Em|by rewrite Em].
  constructor; [done|done| |rewrite Em; apply Hv|apply Hv]. apply (pool_frame k); [apply Hv|done|]. intros. by rewrite Em.
Qed.
Lemma uvm_foreign_write k root t fl us pg m' :
  uvm k root t fl us -> page_ok pg -> pg ∉ upages us t fl -> same_except [pg] (k_mem k) m' ->
  uvm (set_k_mem m' k) root t fl us /\ (forall va, pte_of m' t va = pte_of (k_mem k) t va) /\
  (forall q a, q ∈ us -> in_page q a -> read8 m' a = read8 (k_mem k) a).
Proof.
  intros [Hv Hown Hsz Hmap Hun] Hpg Hni Hs. unfold upages, vm_pages in Hni. rewrite !not_elem_of_union, !not_elem_of_list_to_set in Hni.
  destruct Hni as (Hnu & Hnf & Hnt). assert (forall p q, t !! p = Some q -> q <> pg) as Hnt'.
  { intros p q Hq ->. apply Hnt. apply elem_of_tpages. by exists p. }
  destruct (vm_inv_write_page k root t fl pg m' Hv Hpg Hnf Hnt' Hs) as [Hv' P]. split_and!; [|done|].
  - constructor; [done|done|done| |]; intros *; cbn; rewrite P; [apply Hmap|apply Hun].
  - intros q a Hq Ha. apply Hs. intros x ->%list_elem_of_singleton. destruct Hown as (_ & Hok & _). by eapply (pages_apart us).
Qed.
Lemma uread_kept k root t fl us m' va :
  uvm k root t fl us -> (forall a, pte_of m' t a = pte_of (k_mem k) t a) -> (forall q a, q ∈ us -> in_page q a -> read8 m' a = read8 (k_mem k) a) ->
  0 <= va < vnth 0 (length us) -> uread m' t va = uread (k_mem k) t va.
Proof.
  intros [Hv Hown Hsz Hmap Hun] P B Hva. unfold uread. case_decide as Hm; [|done]. rewrite P. set (pte := pte_of _ _ _). unfold user_pa.
  destruct (decide (Z.land pte PTE_V = 0 \/ Z.land pte PTE_U = 0)); [done|]. cbv zeta. case_decide; [done|]. f_equal.
  assert (Z.to_nat (va / PGSIZE) < length us)%nat as Hlt by (unfold vnth, PGSIZE in *; Z.div_mod_to_equations; lia).
  destruct (lookup_lt_is_Some_2 _ _ Hlt) as [pg Hpg]. destruct (Hmap _ _ Hpg) as (Epa & _).
  assert (vnth 0 (Z.to_nat (va / PGSIZE)) = va - va mod PGSIZE) as Ev by (unfold vnth, PGSIZE in *; Z.div_mod_to_equations; lia).
  rewrite Ev in Epa. fold pte in Epa. rewrite Epa. apply (B pg); [by eapply list_elem_of_lookup_2|].
  unfold in_page, PGSIZE. pose proof (Z.mod_pos_bound va 4096). lia.
Qed.

(** The pages of another process, while pages of the pool are used. *)
Lemma spare_disjoint us t fl p : owned us t fl -> (forall q pg, t !! q = Some pg -> pg ∉ fl) -> p ∈ us \/ p ∈ tpages t -> p ∉ fl.
Proof. intros (_ & _ & Hfl & _) Hd [Hp|[q Hq]%elem_of_tpages]; [by apply Hfl|by eapply Hd]. Qed.
Lemma page_kept fl m m' pg : Forall page_ok fl -> page_ok pg -> pg ∉ fl -> same_except fl m m' -> forall a, in_page pg a -> read8 m' a = read8 m a.
Proof. intros Hf Hpg Hni Hs a Ha. eapply same_except_read8; [exact Hs| |apply Hpg|exact Hni|exact Ha]. eapply Forall_impl; [exact Hf|]. by intros q [? _]. Qed.

(** The parent after fork(), whatever came of it. *)
Definition parent_kept (k : kernel) (x : proc) (t : ptable) (us : list Z) (k' : kernel) (fl' : list Z) : Prop :=
  proc_space k' x t fl' us /\ (forall va, 0 <= va < vnth 0 (length us) -> uread (k_mem k') t va = uread (k_mem k) t va) /\
  (forall a, in_page (p_trapframe x) a -> read8 (k_mem k') a = read8 (k_mem k) a).
Lemma parent_keeps k x t fl us k' fl' :
  proc_space k x t fl us -> held k' fl' -> same_except fl (k_mem k) (k_mem k') -> (forall q, q ∈ fl' -> q ∈ fl) -> parent_kept k x t us k' fl'.
Proof.
  intros [Hu Hsz [pg1 Hm1] Hm2 [Hpo Hni]] Hh Hs Hsub. destruct (space_kept k k' _ t fl us fl' Hu Hh Hs Hsub) as (Hu' & HB & HP).
  assert (p_trapframe x ∉ fl) as Hnf. { intros Hin. apply Hni. unfold upages. by apply elem_of_union_r, free_in_vm_pages. }
  split_and!; [|intros va Hva; by eapply uread_kept|].
  - constructor; [done|done|exists pg1; by rewrite HP|by rewrite HP|]. split; [done|]. intros Hin. apply Hni. revert Hin. unfold upages, vm_pages.
    rewrite !elem_of_union, !elem_of_list_to_set. naive_solver.
  - eapply page_kept; [eapply pool_pages, vm_pool, uv_inv; exact Hu|done|done|done].
Qed.

(** ** fork *)
(** Process [p] runs and may fork: slot [c] is the first unused one and clean,
    the pages of [p] are [us], its files are open and its directory is [d]. *)
Record forkable (k : kernel) (p c : nat) (y : proc) (d : nat) (t : ptable) (fl us : list Z) : Prop := {
  fk_quiet : quiet k;
  fk_run : running k = Some p;
  fk_lock l : l ∈ [LkPid; LkWait; LkFtable; LkItable] -> lock_free l k;
  fk_slot : list_find (fun x => p_state x = UNUSED) (k_procs k) = Some (c, y);
  fk_clean : p_pagetable y = 0 /\ p_sz y = 0 /\ p_ofile y = replicate NOFILE None;
  fk_space : proc_space k (get_proc k p) t fl us;
  fk_files : length (p_ofile (get_proc k p)) = NOFILE;
  fk_open f : Some f ∈ p_ofile (get_proc k p) -> 1 <= f_ref (get_file k f);
  fk_cwd : p_cwd (get_proc k p) = Some d
}.

(** The child's process structure, and the counts that go up. *)
Definition child (k : kernel) (p : nat) (y : proc) (d : nat) (tf root : Z) : proc :=
  let x := get_proc k p in
  set_p_state RUNNABLE (set_p_parent (Some p) (set_p_name (safestrcpy_arr (p_name y) (p_name x) 16) (set_p_cwd (Some d)
    (set_p_ofile (p_ofile x) (set_p_sz (p_sz x) (set_p_mask (p_mask x) (newborn k y tf root))))))).
Definition more_refs (l : list (option nat)) (d : nat) (k : kernel) : kernel :=
  upd_inode d (fun x => set_i_ref (i_ref x + 1) x) (dup_files l k).

Lemma dup_files_rest l : forall k, cpu_ok k -> (forall j, lock_free j k -> lock_free j (dup_files l k)) /\ cpu_ok (dup_files l k) /\ k_procs (dup_files l k) = k_procs k.
Proof.
  induction l as [|o l IH]; intros k Hc; [done|]. cbn [dup_files]. destruct (IH (dup_file o k)) as (H1 & H2 & H3); [by destruct o|].
  split_and!; [|done|rewrite H3; by destruct o]. intros j Hj. apply H1. by destruct o.
Qed.
Lemma with_proc_upd c h x m f base : upd_proc c h (with_proc c x m f base) = with_proc c (h x) m f base.
Proof. unfold with_proc. by rewrite upd_proc_twice. Qed.

Lemma under_mem c x m f base g : upd_mem g (under c x m f base) = under c x (g m) f base.
Proof. reflexivity. Qed.
Lemma under_cpu c x m f base : cpu_ok base -> cpu_ok (under c x m f base).
Proof. intros Hc. apply cpu_ok_taken. exact Hc. Qed.
Lemma under_lock c x m f base l : l <> LkProc c -> lock_free l base -> lock_free l (under c x m f base).
Proof. intros Hl Hf. apply lock_free_taken_ne; [exact Hl|exact Hf]. Qed.
Lemma inode_procs d g k : k_procs (upd_inode d g k) = k_procs k.
Proof. reflexivity. Qed.
Lemma under_inode c x m f base d g : upd_inode d g (under c x m f base) = under c x m f (upd_inode d g base).
Proof. reflexivity. Qed.
Lemma inode_cpu d g k : cpu_ok k -> cpu_ok (upd_inode d g k).
Proof. done. Qed.
Lemma inode_lock l d g k : lock_free l k -> lock_free l (upd_inode d g k).
Proof. done. Qed.

(** The child is released, gets its parent and becomes runnable. *)
Lemma fork_publish {B} e p c x m f base (r : B) :
  cpu_ok base -> lock_free (LkProc c) base -> lock_free LkWait base ->
  (release (LkProc c);;; acquire LkWait;;; modify (upd_proc c (set_p_parent (Some p)));;; release LkWait;;;
   acquire (LkProc c);;; modify (upd_proc c (set_p_state RUNNABLE));;; release (LkProc c);;; ret r) e (under c x m f base) =
  Ok r e (with_proc c (set_p_state RUNNABLE (set_p_parent (Some p) x)) m f base).
Proof.
  intros Cp Lc Lw. rewrite (bind_Ok _ _ _ _ _ _ _ (release_under c x m f base e Cp Lc)).
  rewrite (bind_Ok _ _ _ _ _ _ _ (acquire_free LkWait e (with_proc c x m f base) Cp Lw)). set (x4 := set_p_parent (Some p) x).
  rewrite (bind_Ok (modify _) _ tt e _ e (lock_taken LkWait (with_proc c x4 m f base))).
  2:{ unfold modify. change (upd_proc c ?h (lock_taken ?l ?k0)) with (lock_taken l (upd_proc c h k0)). by rewrite with_proc_upd. }
  rewrite (bind_Ok _ _ _ _ _ _ _ (release_taken LkWait e (with_proc c x4 m f base) Cp Lw)).
  rewrite (bind_Ok _ _ _ _ _ _ _ (acquire_free (LkProc c) e (with_proc c x4 m f base) Cp Lc)).
  change (lock_taken (LkProc c) (with_proc c x4 m f base)) with (under c x4 m f base). rewrite modify_under.
  by rewrite (bind_Ok _ _ _ _ _ _ _ (release_under c _ m f base e Cp Lc)).
Qed.

Lemma under_frame {B} c p x m f base e (K1 : unit -> K B) : p <> c -> (c < length (k_procs base))%nat ->
  bind (modify (fun k => upd_mem (fun m => write_bytes m (p_trapframe (get_proc k c)) (read_bytes (Z.to_nat TF_SIZE) m (p_trapframe (get_proc k p)))) k))
    (fun _ => bind (set_tf c TF_A0 0) K1) e (under c x m f base) = K1 tt e (under c x (frame_mem m (p_trapframe (get_proc base p)) (p_trapframe x)) f base).
Proof.
  intros Hpc Hc. set (m1 := write_bytes m (p_trapframe x) (read_bytes (Z.to_nat TF_SIZE) m (p_trapframe (get_proc base p)))).
  rewrite (bind_Ok (modify _) _ tt e _ e (under c x m1 f base)) by (unfold modify; by rewrite under_proc, under_other, under_mem by done).
  rewrite (bind_Ok (set_tf _ _ _) _ tt e _ e (under c x (write64 m1 (p_trapframe x + TF_A0) 0) f base)) by (unfold set_tf, modify; by rewrite under_proc, under_mem by done).
  unfold frame_mem. fold m1. reflexivity.
Qed.


Lemma under_files {B} c p x m f base e (K1 : unit -> K B) :
  p <> c -> (c < length (k_procs base))%nat -> cpu_ok base -> lock_free LkFtable base -> length (p_ofile (get_proc base p)) = NOFILE ->
  (forall g, Some g ∈ p_ofile (get_proc base p) -> 1 <= f_ref (get_file base g)) -> p_ofile x = replicate NOFILE None ->
  bind (for_ (seq 0 NOFILE) (fork_file p c)) K1 e (under c x m f base) =
  K1 tt e (under c (set_p_ofile (p_ofile (get_proc base p)) x) m f (dup_files (p_ofile (get_proc base p)) base)).
Proof.
  intros Hpc Hc Hcp Hl Hn Hr Hx. pose proof (fork_files_from e c p m f Hpc (p_ofile (get_proc base p)) 0 x base Hcp Hl Hc eq_refl) as E.
  rewrite Hn in E. by rewrite (bind_Ok _ _ _ _ _ _ _ (E Hx ltac:(lia) Hr)).
Qed.
Lemma under_cwd {B} c p d x m f base e (K1 : nat -> K B) :
  p <> c -> cpu_ok base -> lock_free LkItable base -> p_cwd (get_proc base p) = Some d ->
  bind (gets (fun k => p_cwd (get_proc k p))) (fun cwd => bind (deref cwd) (fun c1 => bind (idup c1) K1)) e (under c x m f base) =
  K1 d e (under c x m f (upd_inode d (fun x => set_i_ref (i_ref x + 1) x) base)).
Proof.
  intros Hpc Hcp Hl Hd. rewrite (bind_Ok (gets _) _ (Some d) e (under c x m f base) e (under c x m f base)) by (unfold gets; by rewrite under_other, Hd).
  rewrite (bind_Ok (deref (Some d)) _ d e (under c x m f base) e (under c x m f base) eq_refl).
  by rewrite (bind_Ok _ _ _ _ _ _ _ (idup_counts d e (under c x m f base) (under_cpu _ _ _ _ _ Hcp) (under_lock c x m f base LkItable ltac:(discriminate) Hl))).
Qed.
Lemma under_name {B} c p x m f base e (K1 : Z -> K B) :
  p <> c -> (c < length (k_procs base))%nat ->
  let x' := set_p_name (safestrcpy_arr (p_name x) (p_name (get_proc base p)) 16) x in
  bind (gets (fun k => p_name (get_proc k p))) (fun name => bind (modify (upd_proc c (fun y => set_p_name (safestrcpy_arr (p_name y) name 16) y)))
    (fun _ => bind (gets (fun k => p_pid (get_proc k c))) K1)) e (under c x m f base) = K1 (p_pid x) e (under c x' m f base).
Proof.
  intros Hpc Hc x'. rewrite (bind_Ok (gets _) _ (p_name (get_proc base p)) e (under c x m f base) e (under c x m f base)) by (unfold gets; by rewrite under_other).
  rewrite modify_under. fold x'. by rewrite (bind_Ok (gets _) _ (p_pid x') e (under c x' m f base) e (under c x' m f base)) by (unfold gets; by rewrite under_proc).
Qed.

(** The rest of fork(), once the memory is copied. *)
Lemma fork_rest_ok e p c d q x m f base :
  p <> c -> (c < length (k_procs base))%nat -> cpu_ok base -> (forall l, l ∈ [LkWait; LkFtable; LkItable; LkProc c] -> lock_free l base) ->
  get_proc base p = q -> length (p_ofile q) = NOFILE -> (forall g, Some g ∈ p_ofile q -> 1 <= f_ref (get_file base g)) ->
  p_cwd q = Some d -> p_ofile x = replicate NOFILE None ->
  fork_rest p c q e (under c x m f base) =
  Ok (p_pid x) e (with_proc c (set_p_state RUNNABLE (set_p_parent (Some p) (set_p_name (safestrcpy_arr (p_name x) (p_name q) 16) (set_p_cwd (Some d)
    (set_p_ofile (p_ofile q) (set_p_sz (p_sz q) x)))))) (frame_mem m (p_trapframe q) (p_trapframe x)) f (more_refs (p_ofile q) d base)).
Proof.
  intros Hpc Hc Hcp Hl Ep Hn Hr Hd Hx. unfold fork_rest. rewrite modify_under, (under_frame c p _ m f base e _ Hpc Hc), Ep.
  change (p_trapframe (set_p_sz (p_sz q) x)) with (p_trapframe x). generalize (frame_mem m (p_trapframe q) (p_trapframe x)) as m'. intros m'.
  rewrite under_files; [|done|done|done|apply Hl; set_solver|by rewrite Ep|by rewrite Ep|done]. rewrite Ep.
  destruct (dup_files_rest (p_ofile q) base Hcp) as (L1 & C1 & P1). unfold more_refs. generalize dependent (dup_files (p_ofile q) base). intros base1 L1 C1 P1.
  assert (get_proc base1 p = q) as Ep1 by (unfold get_proc in *; by rewrite P1).
  rewrite (under_cwd c p d _ m' f base1 e _ Hpc C1); [|apply L1, Hl; set_solver|by rewrite Ep1].
  rewrite modify_under, under_name; [|done|by rewrite inode_procs, P1].
  replace (get_proc (upd_inode d _ base1) p) with q by (rewrite <- Ep1; reflexivity).
  rewrite fork_publish; [reflexivity|exact (inode_cpu d _ base1 C1)| |]; apply inode_lock, L1, Hl; set_solver.
Qed.

(** What fork() achieves. *)
Record fork_made (k : kernel) (p c : nat) (y : proc) (d : nat) (t : ptable) (fl us : list Z)
                 (tf root : Z) (t' : ptable) (fl' us' : list Z) (m' : mem) (f' : Z) (k' : kernel) : Prop := {
  fm_state : k' = with_proc c (child k p y d tf root) m' f' (more_refs (p_ofile (get_proc k p)) d (next_pid k));
  fm_child : proc_space k' (child k p y d tf root) t' fl' us';
  fm_reads va : 0 <= va < vnth 0 (length us) -> uread (k_mem k') t' va = uread (k_mem k) t va;
  fm_frame : child_frame (k_mem k) (k_mem k') (p_trapframe (get_proc k p)) tf;
  fm_parent : parent_kept k (get_proc k p) t us k' fl';
  fm_apart : spaces_apart us t us' t' fl';
  fm_pages : {[tf]} ∪ upages us' t' fl' = list_to_set fl;
  fm_used : (length fl <= length fl' + (6 + 3 * length us))%nat
}.
Record fork_failed (k : kernel) (p c : nat) (t : ptable) (fl us : list Z) (x : proc) (m' : mem) (f' : Z) (fl' : list Z) (k' : kernel) : Prop := {
  ff_state : k' = with_proc c x m' f' (next_pid k);
  ff_slot : p_state x = UNUSED /\ p_pagetable x = 0 /\ p_sz x = 0 /\ p_ofile x = replicate NOFILE None;
  ff_parent : parent_kept k (get_proc k p) t us k' fl';
  ff_pages : (list_to_set fl' : gset Z) = list_to_set fl;
  ff_short : (length fl < 6 + 3 * length us)%nat
}.
Definition fork_post (k : kernel) (p c : nat) (y : proc) (d : nat) (t : ptable) (fl us : list Z) (r : Z) (k' : kernel) : Prop :=
  (r = k_nextpid k /\ exists tf root t' fl' us' m' f', fork_made k p c y d t fl us tf root t' fl' us' m' f' k') \/
  (r = -1 /\ exists x m' f' fl', fork_failed k p c t fl us x m' f' fl' k').

(** The slot that fork() takes is not the parent's. *)
Lemma forkable_ne k p c y d t fl us : forkable k p c y d t fl us -> p <> c /\ k_procs k !! c = Some y /\ (c < NPROC)%nat.
Proof.
  intros H. pose proof (fk_slot _ _ _ _ _ _ _ _ H) as (Hy & _)%list_find_Some. split_and!; [|done|rewrite <- (q_len k (fk_quiet _ _ _ _ _ _ _ _ H)); by eapply lookup_lt_Some].
  intros ->. pose proof (ps_uvm _ _ _ _ _ (fk_space _ _ _ _ _ _ _ _ H)) as Hu. rewrite (get_proc_lookup k c y Hy) in Hu.
  destruct (fk_clean _ _ _ _ _ _ _ _ H) as (E & _). rewrite E in Hu. pose proof (pt_ok _ _ _ (vm_rep _ _ _ _ (uv_inv _ _ _ _ _ Hu)) _ _ (pt_root _ _ _ (vm_rep _ _ _ _ (uv_inv _ _ _ _ _ Hu)))) as Hp.
  pose proof (page_ok_pos _ Hp). lia.
Qed.
Lemma upages_sub (x : gset Z) us t fl (fl0 : list Z) : x ∪ upages us t fl = list_to_set fl0 -> forall q, q ∈ upages us t fl -> q ∈ fl0.
Proof. intros E q Hq. apply (elem_of_list_to_set (C := gset Z)). rewrite <- E. by apply elem_of_union_r. Qed.
Lemma free_upages us t fl q : q ∈ fl -> q ∈ upages us t fl.
Proof. intros Hq. unfold upages. by apply elem_of_union_r, free_in_vm_pages. Qed.
Lemma held_uvm k root t fl us : uvm k root t fl us -> held k fl.
Proof. intros Hu. split_and!; apply Hu. Qed.

(** The copy, started in the state allocproc() leaves. *)
Section Copy.
Context (k : kernel) (p c : nat) (y : proc) (d : nat) (t : ptable) (fl us : list Z) (HF : forkable k p c y d t fl us).
Context (tf root f1 : Z) (tn : ptable) (fl1 : list Z) (m1 : mem) (x1 : proc).
Let k1 : kernel := under c x1 m1 f1 (next_pid k).
Context (Hu1 : uvm k1 root tn fl1 []) (Htf : page_ok tf) (Htn : tf ∉ upages [] tn fl1) (Hpg : {[tf]} ∪ upages [] tn fl1 = list_to_set fl).
Context (Hco : (length fl <= length fl1 + 6)%nat) (Hs1 : same_except fl (k_mem k) m1).
Context (Htr : exists pg, maps_to (pte_of m1 tn TRAMPOLINE) pg) (Htm : maps_to (pte_of m1 tn TRAPFRAME) tf).

Lemma copy_parent : uvm k1 (p_pagetable (get_proc k p)) t fl1 us /\ (forall pg a, pg ∈ us -> in_page pg a -> read8 m1 a = read8 (k_mem k) a) /\
  (forall va, pte_of m1 t va = pte_of (k_mem k) t va).
Proof using All.
  apply (space_kept k k1 _ t fl us fl1); [apply HF|by eapply held_uvm|done|]. intros q Hq. eapply upages_sub; [exact Hpg|by apply free_upages].
Qed.
Lemma copy_apart : spaces_apart us t [] tn fl1.
Proof using All.
  pose proof (ps_uvm _ _ _ _ _ (fk_space _ _ _ _ _ _ _ _ HF)) as [Hv Hown _ _ _]. intros q Hq Hin.
  eapply spare_disjoint; [exact Hown|exact (vm_disj _ _ _ _ Hv)|exact Hq|]. by eapply upages_sub.
Qed.
Lemma copy_run e :
  exists r m2 f2, uvmcopy (p_pagetable (get_proc k p)) root (p_sz (get_proc k p)) e k1 = Ok r e (under c x1 m2 f2 (next_pid k)) /\
    forked (p_pagetable (get_proc k p)) t us root k1 tn fl1 r (under c x1 m2 f2 (next_pid k)).
Proof using All.
  destruct copy_parent as (Hp & _ & _). destruct (ps_size _ _ _ _ _ (fk_space _ _ _ _ _ _ _ _ HF)) as [Hsz Er].
  destruct (uvmcopy_forks e k1 _ t us root tn fl1 _ Hp Hu1 copy_apart Er Hsz) as (r & k2 & E & Hk). exists r, (k_mem k2), (k_freelist k2).
  pose proof Hk as (t' & fl' & us' & C & _). pose proof (under_only _ _ _ _ _ _ (uu_only _ _ _ _ _ _ _ _ _ (cp_child _ _ _ _ _ _ _ _ _ _ _ C))) as E2. by rewrite <- E2.
Qed.

(** The state in which the copy ends. *)
Context (Hx1 : p_pagetable x1 = root /\ p_trapframe x1 = tf /\ p_sz x1 = 0 /\ p_ofile x1 = replicate NOFILE None).
Context (m2 : mem) (f2 : Z) (t2 : ptable) (fl2 us2 : list Z).
Let k2 : kernel := under c x1 m2 f2 (next_pid k).
Context (C : copying (p_pagetable (get_proc k p)) t us root k1 tn fl1 k2 t2 fl2 us2).

Lemma copy_base : (c < length (k_procs (next_pid k)))%nat /\ cpu_ok (next_pid k) /\ lock_free LkKmem (next_pid k) /\ lock_free (LkProc c) (next_pid k).
Proof using OK HF.
  destruct (forkable_ne _ _ _ _ _ _ _ _ HF) as (_ & Hy & Hc). pose proof (fk_quiet _ _ _ _ _ _ _ _ HF) as [Hcp Hlen Hl].
  split_and!; [by eapply lookup_lt_Some|exact Hcp|exact (vm_lock _ _ _ _ (uv_inv _ _ _ _ _ (ps_uvm _ _ _ _ _ (fk_space _ _ _ _ _ _ _ _ HF))))|exact (Hl c Hc)].
Qed.
Lemma copy_except : same_except fl (k_mem k) m2.
Proof using All.
  eapply except_trans; [exact Hs1|]. pose proof (uvm_upd_except _ _ _ _ _ _ _ _ _ (cp_child _ _ _ _ _ _ _ _ _ _ _ C)) as Hs.
  eapply same_except_mono; [|exact Hs]. intros q Hq%elem_of_elements. by eapply upages_sub.
Qed.
Lemma copy_pages : {[tf]} ∪ upages us2 t2 fl2 = list_to_set fl /\ tf ∉ upages us2 t2 fl2 /\ tf ∈ fl.
Proof using All.
  pose proof (uu_pages _ _ _ _ _ _ _ _ _ (cp_child _ _ _ _ _ _ _ _ _ _ _ C)) as E. rewrite E. split_and!; [done|done|].
  apply (elem_of_list_to_set (C := gset Z)). rewrite <- Hpg. by apply elem_of_union_l, elem_of_singleton.
Qed.
Lemma copy_high va pg : TRAPFRAME <= va -> vpage va -> maps_to (pte_of m1 tn va) pg -> maps_to (pte_of m2 t2 va) pg.
Proof using C. intros H1 H2 H3. pose proof (uu_high _ _ _ _ _ _ _ _ _ (cp_child _ _ _ _ _ _ _ _ _ _ _ C) va H2 H1) as E. cbn in E. by rewrite E. Qed.

(** The child's address space in a state that keeps its pages. *)
Lemma copy_space k3 x3 :
  uvm k3 root t2 fl2 us2 -> (forall va, pte_of (k_mem k3) t2 va = pte_of m2 t2 va) ->
  p_pagetable x3 = root -> p_trapframe x3 = tf -> 0 <= p_sz x3 <= TRAPFRAME /\ PGROUNDUP (p_sz x3) = vnth 0 (length us2) -> proc_space k3 x3 t2 fl2 us2.
Proof using All.
  intros Hu P Er Et Hsz. destruct high_pages as (V1 & V2 & L1 & _).
  destruct Htr as [pg1 Hm1]. constructor; [by rewrite Er|done|exists pg1; rewrite P; by apply copy_high|rewrite P, Et; by apply copy_high|]. rewrite Et. split; [done|apply copy_pages].
Qed.

Lemma copy_gives_up e : us2 = [] -> (length fl1 < 3 * length us)%nat ->
  exists k', (freeproc c;;; release (LkProc c);;; ret (-1)) e k2 = Ok (-1) e k' /\ exists x m' f' fl', fork_failed k p c t fl us x m' f' fl' k'.
Proof using All.
  intros E0 Hshort. destruct copy_base as (Hc & Hcp & Hlk & Hlc). destruct copy_pages as (Hset & Htf2 & Hin). destruct Hx1 as (Er & Et & Ez & Eo).
  assert (get_proc k2 c = x1) as Ex by (by apply under_proc).
  assert (proc_space k2 (get_proc k2 c) t2 fl2 us2) as Hsp.
  { rewrite Ex. apply copy_space; [exact (uu_uvm _ _ _ _ _ _ _ _ _ (cp_child _ _ _ _ _ _ _ _ _ _ _ C))|done|done|done|]. rewrite Ez, E0. by vm_compute. }
  destruct (freeproc_frees e k2 c t2 fl2 us2 ltac:(unfold k2; by rewrite under_length) Hsp) as (m' & f' & fl' & E & (_ & _ & Hp) & _ & Hset' & Hs'). rewrite Ex, Et in Hset', Hs'.
  set (k' := with_proc c (reaped x1) m' f' (next_pid k)). exists k'. split.
  { rewrite (bind_Ok _ _ _ _ _ _ _ E). change (set_k_freelist f' (set_k_mem m' k2)) with (under c x1 m' f' (next_pid k)). rewrite under_upd.
    by rewrite (bind_Ok _ _ _ _ _ _ _ (release_under c _ m' f' _ e Hcp Hlc)). }
  exists (reaped x1), m', f', fl'. rewrite Hset in Hset'. constructor; [done|done| |done|lia].
  apply (parent_keeps k _ t fl us k' fl'); [apply HF| | |].
  - split_and!; [exact Hcp|exact Hlk|]. by apply (pool_frame (set_k_freelist f' (set_k_mem m' k2))).
  - eapply except_trans; [exact copy_except|]. eapply same_except_mono; [|exact Hs']. intros q [->|Hq%elem_of_elements]%elem_of_cons; [done|by eapply upages_sub].
  - intros q Hq. apply (elem_of_list_to_set (C := gset Z)). rewrite <- Hset'. by apply elem_of_list_to_set.
Qed.

(** The final memory of a successful fork(). *)
Let m3 : mem := frame_mem m2 (p_trapframe (get_proc k p)) tf.
Lemma copy_frame : child_frame (k_mem k) m3 (p_trapframe (get_proc k p)) tf.
Proof using All.
  apply (child_frame_from _ m2); [|apply frame_mem_child]. intros a Ha. pose proof (fk_space _ _ _ _ _ _ _ _ HF) as [Hu _ _ _ [Hpo Hni]].
  eapply page_kept; [eapply pool_pages, vm_pool, uv_inv; exact Hu|exact Hpo| |exact copy_except|unfold in_page, TF_SIZE, PGSIZE in *; lia].
  intros Hin. apply Hni. by apply free_upages.
Qed.
Lemma copy_final k3 x3 :
  cpu_ok k3 -> lock_free LkKmem k3 -> k_mem k3 = m3 -> k_freelist k3 = f2 -> length us2 = length us ->
  p_pagetable x3 = root -> p_trapframe x3 = tf -> p_sz x3 = p_sz (get_proc k p) ->
  proc_space k3 x3 t2 fl2 us2 /\ (forall va, 0 <= va < vnth 0 (length us) -> uread m3 t2 va = uread (k_mem k) t va) /\ parent_kept k (get_proc k p) t us k3 fl2.
Proof using All.
  intros Hc Hl Em Ef El Er Et Ez. pose proof (uu_uvm _ _ _ _ _ _ _ _ _ (cp_child _ _ _ _ _ _ _ _ _ _ _ C)) as Hu2. destruct copy_pages as (Hset & Htf2 & Hin).
  destruct (uvm_foreign_write k2 root t2 fl2 us2 tf m3 Hu2 Htf Htf2 (frame_mem_except m2 _ tf)) as (Hu3 & P3 & B3).
  assert (uvm k3 root t2 fl2 us2) as Hu by (by apply (uvm_move (set_k_mem m3 k2))).
  split_and!.
  - apply copy_space; [done|intros va; by rewrite Em, P3|done|done|]. rewrite Ez, El. apply (ps_size _ _ _ _ _ (fk_space _ _ _ _ _ _ _ _ HF)).
  - intros va Hva. rewrite (uread_kept k2 root t2 fl2 us2 m3 va Hu2 P3 B3) by (by rewrite El).
    destruct copy_parent as (Hp & HB & HP). rewrite (forked_reads _ t us root k1 tn fl1 k2 t2 fl2 us2 va Hp C) by (by rewrite El).
    exact (uread_kept k _ t fl us m1 va (ps_uvm _ _ _ _ _ (fk_space _ _ _ _ _ _ _ _ HF)) HP HB Hva).
  - apply (parent_keeps k _ t fl us k3 fl2); [apply HF|by eapply held_uvm| |].
    + rewrite Em. eapply except_trans; [exact copy_except|]. eapply same_except_mono; [|apply frame_mem_except]. by intros q ->%list_elem_of_singleton.
    + intros q Hq. eapply upages_sub; [exact Hset|by apply free_upages].
Qed.
End Copy.

Lemma with_proc_get c x m f base : (c < length (k_procs base))%nat -> get_proc (with_proc c x m f base) c = x.
Proof. intros Hc. unfold with_proc. rewrite get_proc_upd by done. by rewrite decide_True. Qed.
Lemma next_pid_procs k : k_procs (next_pid k) = k_procs k.
Proof. reflexivity. Qed.
Lemma more_refs_procs l d k : k_procs (more_refs l d k) = k_procs k.
Proof. revert k. induction l as [|o l IH]; intros k; [reflexivity|]. unfold more_refs in *. cbn [dup_files]. rewrite IH. by destruct o. Qed.
Lemma more_refs_rest l d k : cpu_ok k -> (forall j, lock_free j k -> lock_free j (more_refs l d k)) /\ cpu_ok (more_refs l d k).
Proof. intros Hc. destruct (dup_files_rest l k Hc) as (H1 & H2 & _). split; [|exact H2]. exact H1. Qed.

Lemma child_state k p c y d tf root m f e :
  let q := get_proc k p in let x := set_p_mask (p_mask q) (newborn k y tf root) in
  Ok (p_pid x) e (with_proc c (set_p_state RUNNABLE (set_p_parent (Some p) (set_p_name (safestrcpy_arr (p_name x) (p_name q) 16) (set_p_cwd (Some d)
    (set_p_ofile (p_ofile q) (set_p_sz (p_sz q) x)))))) (frame_mem m (p_trapframe q) (p_trapframe x)) f (more_refs (p_ofile q) d (next_pid k))) =
  Ok (k_nextpid k) e (with_proc c (child k p y d tf root) (frame_mem m (p_trapframe q) tf) f (more_refs (p_ofile q) d (next_pid k))).
Proof.
  cbv zeta. change (p_pid (set_p_mask ?a (newborn k y tf root))) with (k_nextpid k). change (p_trapframe (set_p_mask ?a (newborn k y tf root))) with tf.
  change (p_name (set_p_mask ?a (newborn k y tf root))) with (p_name y). fold (child k p y d tf root). reflexivity.
Qed.

Lemma fork_ok e k p c y d t fl us :
  forkable k p c y d t fl us -> exists r k', fork e k = Ok r e k' /\ fork_post k p c y d t fl us r k'.
Proof.
  intros HF. pose proof HF as [Hq Hrun Hlock Hslot (Epg & Esz & Eof) Hsp Hfn Hfo Hcwd]. destruct (forkable_ne _ _ _ _ _ _ _ _ HF) as (Hpc & Hy & Hc).
  destruct (copy_base k p c y d t fl us HF) as (Hlt & Hcp & Hlk & Hlc). pose proof (uv_inv _ _ _ _ _ (ps_uvm _ _ _ _ _ Hsp)) as Hv.
  destruct (allocproc_made e k c y fl Hq (Hlock LkPid ltac:(set_solver)) (vm_lock _ _ _ _ Hv) Hslot Epg (vm_pool _ _ _ _ Hv)) as (o & k1 & E & Hm).
  unfold fork. rewrite (bind_Ok _ _ _ _ _ _ _ (cur_ok e k p (q_cpu k Hq) Hrun)), (bind_Ok _ _ _ _ _ _ _ E).
  destruct Hm as [(-> & tf & root & tn & fl1 & m1 & f1 & -> & Hu1 & Htf & Htn & Hset & Hco & Hs1 & Htr & Htm)|(-> & Hshort & x & fl' & m' & f' & -> & Hst & Hp & Hz & Ho & Hpool & Hset & Hs)].
  2:{ exists (-1), (with_proc c x m' f' (next_pid k)). split; [done|]. right. split; [done|]. exists x, m', f', fl'. constructor; [done|by rewrite Ho| |done|lia].
      apply (parent_keeps k _ t fl us _ fl'); [done|by split_and!|done|]. intros q Hq'. apply (elem_of_list_to_set (C := gset Z)). rewrite <- Hset. by apply elem_of_list_to_set. }
  set (q := get_proc k p) in *. set (b := next_pid k) in *. assert (get_proc b p = q) as Eq by done.
  rewrite (bind_Ok (gets _) _ q e _ e (under c (newborn k y tf root) m1 f1 b)) by (unfold gets; rewrite under_other by exact Hpc; reflexivity).
  rewrite modify_under. set (x1 := set_p_mask (p_mask q) (newborn k y tf root)).
  rewrite (bind_Ok (gets _) _ root e _ e (under c x1 m1 f1 b)) by (unfold gets; rewrite under_proc by exact Hlt; reflexivity).
  assert (uvm (under c x1 m1 f1 b) root tn fl1 []) as Hu1' by exact (uvm_same _ _ _ _ _ _ (under_same _ _ _ _ _ _) Hu1).
  assert (p_pagetable x1 = root /\ p_trapframe x1 = tf /\ p_sz x1 = 0 /\ p_ofile x1 = replicate NOFILE None) as Hx1 by (split_and!; [reflexivity|reflexivity|exact Esz|exact Eof]).
  destruct (copy_run k p c y d t fl us HF tf root f1 tn fl1 m1 x1 Hu1' Htf Htn Hset Hco Hs1 Htr Htm e) as (r & m2 & f2 & Ec & t2 & fl2 & us2 & C & Hr). fold q b in Ec.
  rewrite (bind_Ok _ _ _ _ _ _ _ Ec). destruct Hr as [(-> & El & Hcost)|(-> & E0 & Hshort)].
  - rewrite decide_False by lia. set (k3 := with_proc c (child k p y d tf root) (frame_mem m2 (p_trapframe q) tf) f2 (more_refs (p_ofile q) d b)).
    assert (fork_rest p c q e (under c x1 m2 f2 b) = Ok (k_nextpid k) e k3) as E3.
    { rewrite (fork_rest_ok e p c d q x1 m2 f2 b Hpc Hlt Hcp); [exact (child_state k p c y d tf root m2 f2 e)|intros l Hl|exact Eq|exact Hfn|exact Hfo|exact Hcwd|exact Eof].
      rewrite !elem_of_cons, elem_of_nil in Hl. destruct Hl as [->|[->|[->|[->|[]]]]]; [apply Hlock; set_solver..|exact Hlc]. }
    exists (k_nextpid k), k3. split; [exact E3|]. left. split; [reflexivity|]. exists tf, root, t2, fl2, us2, (frame_mem m2 (p_trapframe q) tf), f2.
    destruct (more_refs_rest (p_ofile q) d b Hcp) as [L3 C3].
    destruct (copy_final k p c y d t fl us HF tf root f1 tn fl1 m1 x1 Hu1' Htf Htn Hset Hco Hs1 Htr Htm Hx1 m2 f2 t2 fl2 us2 C k3 (child k p y d tf root)) as (R1 & R2 & R3);
      [exact C3|exact (L3 _ Hlk)|reflexivity|reflexivity|exact El|reflexivity|reflexivity|reflexivity|].
    constructor; [reflexivity|exact R1|exact R2| |exact R3|exact (cp_apart _ _ _ _ _ _ _ _ _ _ _ C)| |lia].
    + exact (copy_frame k p c y d t fl us HF tf root f1 tn fl1 m1 x1 Hu1' Htf Htn Hset Hco Hs1 Htr Htm Hx1 m2 f2 t2 fl2 us2 C).
    + exact (proj1 (copy_pages k p c y d t fl us HF tf root f1 tn fl1 m1 x1 Hu1' Htf Htn Hset Hco Hs1 Htr Htm Hx1 m2 f2 t2 fl2 us2 C)).
  - rewrite decide_True by lia. destruct (copy_gives_up k p c y d t fl us HF tf root f1 tn fl1 m1 x1 Hu1' Htf Htn Hset Hco Hs1 Htr Htm Hx1 m2 f2 t2 fl2 us2 C e E0 Hshort) as (k' & Ek & Hf).
    exists (-1), k'. split; [exact Ek|]. by right.
Qed.
End Child.
