(* ===== verification/Syscall.v ===== *)
(** * kernel/syscall.c and kernel/sysproc.c: arguments and process system calls

    Arguments are read from the trapframe page of the current process.  A
    routine that fills a caller's buffer returns its contents: fetchstr() and
    argstr() return the length or -1 together with the string without its NUL.
    The dispatcher syscall() is in Dispatch. *)

From S2P Require Import Prelude Machine Kstring Kernel Spinlock Kalloc Vm Printf Sched Proc Sleeplock Bio Log Fs Pipe Console File Trap ProcFs.

Definition TF_A1 : Z := 120.
Definition TF_A7 : Z := 168.

(** The uint64 whose little-endian bytes are [bs]. *)
Definition word_of (bs : list Z) : Z := foldr (fun b v => b + 2 ^ 8 * v) 0 bs.

Section Syscall.
Context `{Symbols} `{D : BlockDevice} (tx_idle : kernel -> bool).

(** 0 and the word, or -1. *)
Definition fetchaddr (addr : Z) : K (Z * Z) :=
  p <- cur;;
  x <- gets (fun k => get_proc k p);;
  if decide (addr >= p_sz x \/ u64 (addr + 8) > p_sz x) then ret (-1, 0) else
  r <- copyin (p_pagetable x) addr 8;;
  if decide (fst r <> 0) then ret (-1, 0) else ret (0, word_of (snd r)).

(** [copyinstr] returns the NUL with the string; strlen() stops before it. *)
Definition fetchstr (addr max : Z) : K (Z * list Z) :=
  p <- cur;;
  pt <- gets (fun k => p_pagetable (get_proc k p));;
  r <- copyinstr pt addr max;;
  if decide (fst r < 0) then ret r
  else ret (Z.of_nat (length (snd r)) - 1, take (length (snd r) - 1) (snd r)).

Definition argraw (n : Z) : K Z :=
  p <- cur;;
  if decide (0 <= n <= 5) then gets (fun k => get_tf k p (TF_A0 + 8 * n))
  else panic "argraw".

Definition argint (n : Z) : K Z := v <- argraw n;; ret (i32 v).
Definition argaddr (n : Z) : K Z := argraw n.
Definition argstr (n max : Z) : K (Z * list Z) :=
  addr <- argaddr n;;
  fetchstr addr max.

(** ** sysproc.c *)
Definition sys_exit : K Z :=
  n <- argint 0;;
  exit n;;;
  ret 0.

Definition sys_getpid : K Z :=
  p <- cur;;
  gets (fun k => p_pid (get_proc k p)).

Definition sys_fork : K Z := fork.

Definition sys_wait : K Z :=
  p <- argaddr 0;;
  wait p.

Definition sys_sbrk : K Z :=
  n <- argint 0;;
  p <- cur;;
  addr <- gets (fun k => i32 (p_sz (get_proc k p)));;
  r <- growproc n;;
  if decide (r < 0) then ret (-1) else ret addr.

(** One test of the loop of sys_sleep(); the comparison is unsigned. *)
Definition sleep_turn (n ticks0 : Z) (_ : unit) : K (Z + unit) :=
  ticks <- gets k_ticks;;
  if decide (u32 (ticks - ticks0) < u32 n) then
    p <- cur;;
    killed <- gets (fun k => p_killed (get_proc k p));;
    if decide (killed <> 0) then release LkTicks;;; ret (inl (-1))
    else sleep ChTicks LkTicks;;; ret (inr tt)
  else release LkTicks;;; ret (inl 0).

Definition sys_sleep : K Z :=
  n <- argint 0;;
  acquire LkTicks;;;
  ticks0 <- gets k_ticks;;
  fun e k => loop_ (S (length e)) (sleep_turn n ticks0) tt e k.

Definition sys_kill : K Z :=
  pid <- argint 0;;
  kill pid.

Definition sys_uptime : K Z :=
  acquire LkTicks;;;
  xticks <- gets k_ticks;;
  release LkTicks;;;
  ret xticks.

Definition sys_trace : K Z :=
  mask <- argint 0;;
  p <- cur;;
  modify (upd_proc p (set_p_mask mask));;;
  ret 0.

Definition sys_setpriority : K Z :=
  priority <- argint 0;;
  pid <- argint 1;;
  setpriority priority pid.

Definition sys_waitx : K Z :=
  p <- argaddr 0;;
  rt <- argaddr 1;;
  wt <- argaddr 2;;
  r <- waitx p;;
  let pid := fst r in
  if decide (pid < 0) then ret (-1) else
  let '(rtime, wtime) := default (0, 0) (snd r) in
  me <- cur;;
  pt <- gets (fun k => p_pagetable (get_proc k me));;
  c <- copyout pt rt (int_bytes rtime);;
  if decide (c < 0) then ret (-1) else
  me <- cur;;
  pt <- gets (fun k => p_pagetable (get_proc k me));;
  c <- copyout pt wt (int_bytes wtime);;
  if decide (c < 0) then ret (-1) else ret pid.

(** Defined in syscall.c but not in the table. *)
Definition sys_setmemlimit : K Z :=
  lim <- argint 0;;
  p <- cur;;
  modify (upd_proc p (set_p_max_mem (u64 lim)));;;
  ret 0.

#[global] Arguments fetchaddr : simpl never.
#[global] Arguments fetchstr : simpl never.
#[global] Arguments argraw : simpl never.
#[global] Arguments argint : simpl never.
#[global] Arguments argstr : simpl never.
End Syscall.
