(* ===== verification/Exec.v ===== *)
(** * kernel/exec.c: loading a program

    The ELF header and the program headers are read from the inode and decoded
    from their little-endian bytes.  The arguments are the pages that hold the
    strings, as sys_exec() passes them.  Every [goto bad] carries the page table
    and the size built so far to [exec_bad]. *)

From S2P Require Import Prelude Machine Kstring Kernel Spinlock Kalloc Vm Printf Sched Proc Sleeplock Bio Log Fs Pipe Console File Trap ProcFs Syscall.

Definition ELF_MAGIC : Z := 0x464C457F.
Definition ELF_PROG_LOAD : Z := 1.
Definition ELFHDR_SIZE : Z := 64.
Definition PROGHDR_SIZE : Z := 56.

Definition get64 (l : list Z) (off : Z) : Z := get32 l off + 2 ^ 32 * get32 l (off + 4).

(** The fields of struct elfhdr that exec() uses. *)
Record elfhdr := mkElfhdr { eh_magic : Z; eh_entry : Z; eh_phoff : Z; eh_phnum : Z }.
Definition decode_elf (l : list Z) : elfhdr := mkElfhdr (get32 l 0) (get64 l 24) (get64 l 32) (get16 l 56).

(** The fields of struct proghdr that exec() uses. *)
Record proghdr := mkProghdr { ph_type : Z; ph_off : Z; ph_vaddr : Z; ph_filesz : Z; ph_memsz : Z }.
Definition decode_ph (l : list Z) : proghdr :=
  mkProghdr (get32 l 0) (get64 l 8) (get64 l 16) (get64 l 32) (get64 l 40).

(** The bytes of an array of uint64. *)
Definition words_bytes (ws : list Z) : list Z := ws ≫= le_bytes 8.

(** The part of a path after its last slash. *)
Fixpoint last_elem (last s : list Z) : list Z :=
  match s with
  | [] => last
  | c :: s' => last_elem (if decide (c = 47) then s' else last) s'
  end.

Section Exec.
Context `{Symbols} `{D : BlockDevice}.

(** One page of a segment; [inl] is the return of loadseg(). *)
Definition loadseg_turn (pagetable va : Z) (ip : nat) (offset sz : Z) (i : Z) : K (Z + Z) :=
  if decide (i >= sz) then ret (inl 0) else
  pa <- walkaddr pagetable (u64 (va + i));;
  if decide (pa = 0) then panic "loadseg: address should exist" else
  let n := if decide (sz - i < PGSIZE) then sz - i else PGSIZE in
  r <- readi ip (ToPage pa) (u32 (offset + i)) n;;
  if decide (fst r <> n) then ret (inl (-1)) else ret (inr (u32 (i + PGSIZE))).

Definition loadseg (pagetable va : Z) (ip : nat) (offset sz : Z) : K Z :=
  loop_ (S (Z.to_nat (sz / PGSIZE + 1))) (loadseg_turn pagetable va ip offset sz) 0.

(** The label bad. *)
Definition exec_bad (pagetable sz : Z) (ip : option nat) : K Z :=
  (if decide (pagetable <> 0) then proc_freepagetable pagetable sz else skip);;;
  match ip with
  | Some ip => iunlockput ip;;; end_op
  | None => skip
  end;;;
  ret (-1).

(** One program header: [inl sz] is a [goto bad] with the size so far. *)
Definition exec_segment (pagetable : Z) (ip : nat) (phoff : Z) (sz i : Z) : K (Z + Z) :=
  r <- readi ip ToLocal (u32 (phoff + i * PROGHDR_SIZE)) PROGHDR_SIZE;;
  if decide (fst r <> PROGHDR_SIZE) then ret (inl sz) else
  let ph := decode_ph (snd r) in
  if decide (ph_type ph <> ELF_PROG_LOAD) then ret (inr sz) else
  if decide (ph_memsz ph < ph_filesz ph) then ret (inl sz) else
  if decide (u64 (ph_vaddr ph + ph_memsz ph) < ph_vaddr ph) then ret (inl sz) else
  sz1 <- uvmalloc pagetable sz (u64 (ph_vaddr ph + ph_memsz ph));;
  if decide (sz1 = 0) then ret (inl sz) else
  if decide (ph_vaddr ph mod PGSIZE <> 0) then ret (inl sz1) else
  r <- loadseg pagetable (ph_vaddr ph) ip (u32 (ph_off ph)) (u32 (ph_filesz ph));;
  if decide (r < 0) then ret (inl sz1) else ret (inr sz1).

(** strlen() of the string in a page. *)
Definition page_strlen (s : Z) : K Z :=
  o <- gets (fun k => strlen (S (Z.to_nat PGSIZE)) (k_mem k) s);;
  match o with Some n => ret n | None => fun _ _ => NoFuel end.

(** Push one argument string: the stack pointer and ustack[] so far; [inl]
    is a [goto bad]. *)
Definition exec_arg (pagetable stackbase : Z) (x : Z * list Z) (arg : Z) : K (unit + Z * list Z) :=
  let '(sp, ustack) := x in
  if decide (MAXARG <= length ustack)%nat then ret (inl tt) else
  n <- page_strlen arg;;
  let sp := u64 (sp - (n + 1)) in
  let sp := sp - sp mod 16 in
  if decide (sp < stackbase) then ret (inl tt) else
  str <- gets (fun k => read_bytes (Z.to_nat (n + 1)) (k_mem k) arg);;
  r <- copyout pagetable sp str;;
  if decide (r < 0) then ret (inl tt) else ret (inr (sp, ustack ++ [sp])).

(** Commit to the new image: registers, name, page table and size. *)
Definition exec_commit (path : list Z) (elf : elfhdr) (pagetable sz sp : Z) : K unit :=
  p <- cur;;
  set_tf p TF_A1 sp;;;
  modify (upd_proc p (fun x => set_p_name (safestrcpy_arr (p_name x) (last_elem path path ++ [0]) 16) x));;;
  old <- gets (fun k => get_proc k p);;
  modify (upd_proc p (set_p_pagetable pagetable));;;
  modify (upd_proc p (set_p_sz sz));;;
  set_tf p TF_EPC (eh_entry elf);;;
  set_tf p TF_SP sp;;;
  proc_freepagetable (p_pagetable old) (p_sz old).

(** From the allocation of the stack to the end. *)
Definition exec_stack (path : list Z) (argv : list Z) (elf : elfhdr) (pagetable sz : Z) : K Z :=
  let sz := PGROUNDUP sz in
  sz1 <- uvmalloc pagetable sz (u64 (sz + 2 * PGSIZE));;
  if decide (sz1 = 0) then exec_bad pagetable sz None else
  let sz := sz1 in
  uvmclear pagetable (u64 (sz - 2 * PGSIZE));;;
  let stackbase := u64 (sz - PGSIZE) in
  r <- scan_ argv (exec_arg pagetable stackbase) (sz, []);;
  match r with
  | inl _ => exec_bad pagetable sz None
  | inr (sp, ustack) =>
      let argc := Z.of_nat (length ustack) in
      let sp := u64 (sp - (argc + 1) * 8) in
      let sp := sp - sp mod 16 in
      if decide (sp < stackbase) then exec_bad pagetable sz None else
      r <- copyout pagetable sp (words_bytes (ustack ++ [0]));;
      if decide (r < 0) then exec_bad pagetable sz None else
      exec_commit path elf pagetable sz sp;;;
      ret argc
  end.

Definition exec (path : list Z) (argv : list Z) : K Z :=
  p <- cur;;
  begin_op;;;
  o <- namei path;;
  match o with
  | None => end_op;;; ret (-1)
  | Some ip =>
      ilock (Some ip);;;
      r <- readi ip ToLocal 0 ELFHDR_SIZE;;
      if decide (fst r <> ELFHDR_SIZE) then exec_bad 0 0 (Some ip) else
      let elf := decode_elf (snd r) in
      if decide (eh_magic elf <> ELF_MAGIC) then exec_bad 0 0 (Some ip) else
      pagetable <- proc_pagetable p;;
      if decide (pagetable = 0) then exec_bad 0 0 (Some ip) else
      r <- scan_ (seqZ 0 (eh_phnum elf)) (exec_segment pagetable ip (i32 (eh_phoff elf))) 0;;
      match r with
      | inl sz => exec_bad pagetable sz (Some ip)
      | inr sz =>
          iunlockput ip;;;
          end_op;;;
          exec_stack path argv elf pagetable sz
      end
  end.
#[global] Arguments exec : simpl never.
End Exec.
