(* ===== verification/Sysfile.v ===== *)
(** * kernel/sysfile.c: the file system calls

    Descriptors are indices of [p_ofile]; paths and names are character lists
    without their NUL, as argstr() returns them. *)

From S2P Require Import Prelude Machine Kstring Kernel Spinlock Kalloc Vm Printf Sched Proc Sleeplock Bio Log Fs Pipe Console File Trap ProcFs Syscall Exec.

Definition O_RDONLY : Z := 0x000.
Definition O_WRONLY : Z := 0x001.
Definition O_RDWR : Z := 0x002.
Definition O_CREATE : Z := 0x200.
Definition O_TRUNC : Z := 0x400.

Definition flag (omode bit : Z) : bool := bool_decide (Z.land omode bit <> 0).

Section Sysfile.
Context `{Symbols} `{D : BlockDevice} (tx_idle : kernel -> bool).

(** The descriptor and its file, or [None] for -1. *)
Definition argfd (n : Z) : K (option (nat * nat)) :=
  fd <- argint n;;
  if decide (fd < 0 \/ fd >= Z.of_nat NOFILE) then ret None else
  p <- cur;;
  o <- gets (fun k => p_ofile (get_proc k p) !! Z.to_nat fd);;
  match o with
  | Some (Some f) => ret (Some (Z.to_nat fd, f))
  | _ => ret None
  end.

Definition set_ofile (p fd : nat) (o : option nat) : K unit :=
  modify (upd_proc p (fun x => set_p_ofile (<[fd := o]> (p_ofile x)) x)).

Definition fdalloc (f : nat) : K Z :=
  p <- cur;;
  r <- first_ (seq 0 NOFILE) (fun fd =>
    o <- gets (fun k => p_ofile (get_proc k p) !! fd);;
    match o with
    | Some None => set_ofile p fd (Some f);;; ret (Some (Z.of_nat fd))
    | _ => ret None
    end);;
  ret (default (-1) r).

Definition sys_dup : K Z :=
  a <- argfd 0;;
  match a with
  | None => ret (-1)
  | Some (_, f) =>
      fd <- fdalloc f;;
      if decide (fd < 0) then ret (-1) else
      filedup f;;;
      ret fd
  end.

Definition sys_read : K Z :=
  a <- argfd 0;;
  match a with
  | None => ret (-1)
  | Some (_, f) =>
      n <- argint 2;;
      p <- argaddr 1;;
      fileread f p n
  end.

Definition sys_write : K Z :=
  a <- argfd 0;;
  match a with
  | None => ret (-1)
  | Some (_, f) =>
      n <- argint 2;;
      p <- argaddr 1;;
      filewrite tx_idle f p n
  end.

Definition sys_close : K Z :=
  a <- argfd 0;;
  match a with
  | None => ret (-1)
  | Some (fd, f) =>
      p <- cur;;
      set_ofile p fd None;;;
      fileclose f;;;
      ret 0
  end.

Definition sys_fstat : K Z :=
  a <- argfd 0;;
  match a with
  | None => ret (-1)
  | Some (_, f) =>
      st <- argaddr 1;;
      filestat f st
  end.

(** ** Links *)
Definition add_nlink (ip : nat) (d : Z) : K unit :=
  modify (upd_inode ip (fun x => set_i_nlink (i16 (i_nlink x + d)) x)).

(** The label bad of sys_link(). *)
Definition link_bad (ip : nat) : K Z :=
  ilock (Some ip);;;
  add_nlink ip (-1);;;
  iupdate ip;;;
  iunlockput ip;;;
  end_op;;;
  ret (-1).

Definition sys_link : K Z :=
  a <- argstr 0 MAXPATH;;
  if decide (fst a < 0) then ret (-1) else
  b <- argstr 1 MAXPATH;;
  if decide (fst b < 0) then ret (-1) else
  begin_op;;;
  o <- namei (snd a);;
  match o with
  | None => end_op;;; ret (-1)
  | Some ip =>
      ilock (Some ip);;;
      t <- gets (fun k => i_type (get_inode k ip));;
      if decide (t = T_DIR) then iunlockput ip;;; end_op;;; ret (-1) else
      add_nlink ip 1;;;
      iupdate ip;;;
      iunlock (Some ip);;;
      d <- nameiparent (snd b);;
      match d with
      | (None, _) => link_bad ip
      | (Some dp, name) =>
          ilock (Some dp);;;
          same <- gets (fun k => bool_decide (i_dev (get_inode k dp) = i_dev (get_inode k ip)));;
          r <- (if same : bool then
                  inum <- gets (fun k => i_inum (get_inode k ip));;
                  dirlink dp name inum
                else ret (-1));;
          if decide (r < 0) then iunlockput dp;;; link_bad ip else
          iunlockput dp;;;
          iput ip;;;
          end_op;;;
          ret 0
      end
  end.

Definition isdirempty (dp : nat) : K bool :=
  size <- gets (fun k => i_size (get_inode k dp));;
  r <- first_ (drop 2 (dirent_offs size)) (fun off =>
    de <- read_dirent dp off "isdirempty: readi";;
    if decide (de_inum de <> 0) then ret (Some tt) else ret None);;
  ret (match r with Some _ => false | None => true end).

(** The label bad of sys_unlink(). *)
Definition unlink_bad (dp : nat) : K Z := iunlockput dp;;; end_op;;; ret (-1).

Definition sys_unlink : K Z :=
  a <- argstr 0 MAXPATH;;
  if decide (fst a < 0) then ret (-1) else
  begin_op;;;
  d <- nameiparent (snd a);;
  match d with
  | (None, _) => end_op;;; ret (-1)
  | (Some dp, name) =>
      ilock (Some dp);;;
      if decide (namecmp name (codes "." ++ [0]) = 0 \/ namecmp name (codes ".." ++ [0]) = 0)
      then unlink_bad dp else
      o <- dirlookup dp name;;
      match o with
      | None => unlink_bad dp
      | Some (ip, off) =>
          ilock (Some ip);;;
          x <- gets (fun k => get_inode k ip);;
          if decide (i_nlink x < 1) then panic "unlink: nlink < 1" else
          busy <- (if decide (i_type x = T_DIR) then b <- isdirempty ip;; ret (negb b) else ret false);;
          if busy : bool then iunlockput ip;;; unlink_bad dp else
          r <- writei dp (FromLocal (replicate (Z.to_nat DIRENT_SIZE) 0)) off DIRENT_SIZE;;
          if decide (r <> DIRENT_SIZE) then panic "unlink: writei" else
          (if decide (i_type x = T_DIR) then add_nlink dp (-1);;; iupdate dp else skip);;;
          iunlockput dp;;;
          add_nlink ip (-1);;;
          iupdate ip;;;
          iunlockput ip;;;
          end_op;;;
          ret 0
      end
  end.

(** ** Creation *)

(** The inode, locked, or [None]. *)
Definition create (path : list Z) (type major minor : Z) : K (option nat) :=
  d <- nameiparent path;;
  match d with
  | (None, _) => ret None
  | (Some dp, name) =>
      ilock (Some dp);;;
      o <- dirlookup dp name;;
      match o with
      | Some (ip, _) =>
          iunlockput dp;;;
          ilock (Some ip);;;
          t <- gets (fun k => i_type (get_inode k ip));;
          if decide (type = T_FILE /\ (t = T_FILE \/ t = T_DEVICE)) then ret (Some ip)
          else iunlockput ip;;; ret None
      | None =>
          dev <- gets (fun k => i_dev (get_inode k dp));;
          ip <- ialloc dev type;;
          ilock (Some ip);;;
          modify (upd_inode ip (fun x => set_i_nlink 1 (set_i_minor minor (set_i_major major x))));;;
          iupdate ip;;;
          inum <- gets (fun k => i_inum (get_inode k ip));;
          (if decide (type = T_DIR) then
             add_nlink dp 1;;;
             iupdate dp;;;
             r <- dirlink ip (codes "." ++ [0]) inum;;
             if decide (r < 0) then panic "create dots" else
             pinum <- gets (fun k => i_inum (get_inode k dp));;
             r <- dirlink ip (codes ".." ++ [0]) pinum;;
             if decide (r < 0) then panic "create dots" else skip
           else skip);;;
          r <- dirlink dp name inum;;
          if decide (r < 0) then panic "create: dirlink" else
          iunlockput dp;;;
          ret (Some ip)
      end
  end.

(** The inode sys_open() opens, locked; [None] after the transaction ended. *)
Definition open_inode (path : list Z) (omode : Z) : K (option nat) :=
  if flag omode O_CREATE then
    o <- create path T_FILE 0 0;;
    match o with
    | None => end_op;;; ret None
    | Some ip => ret (Some ip)
    end
  else
    o <- namei path;;
    match o with
    | None => end_op;;; ret None
    | Some ip =>
        ilock (Some ip);;;
        t <- gets (fun k => i_type (get_inode k ip));;
        if decide (t = T_DIR /\ omode <> O_RDONLY) then iunlockput ip;;; end_op;;; ret None
        else ret (Some ip)
    end.

(** The fields of the new file. *)
Definition opened (ip : nat) (x : inode) (omode : Z) (f : file) : file :=
  set_f_writable (if flag omode O_WRONLY || flag omode O_RDWR then 1 else 0)
    (set_f_readable (if flag omode O_WRONLY then 0 else 1)
      (set_f_ip (Some ip)
        (if decide (i_type x = T_DEVICE) then set_f_major (i_major x) (set_f_type FD_DEVICE f)
         else set_f_off 0 (set_f_type FD_INODE f)))).

Definition sys_open : K Z :=
  a <- argstr 0 MAXPATH;;
  if decide (fst a < 0) then ret (-1) else
  omode <- argint 1;;
  begin_op;;;
  o <- open_inode (snd a) omode;;
  match o with
  | None => ret (-1)
  | Some ip =>
      x <- gets (fun k => get_inode k ip);;
      if decide (i_type x = T_DEVICE /\ (i_major x < 0 \/ i_major x >= NDEV)) then
        iunlockput ip;;; end_op;;; ret (-1)
      else
      fo <- filealloc;;
      match fo with
      | None => iunlockput ip;;; end_op;;; ret (-1)
      | Some f =>
          fd <- fdalloc f;;
          if decide (fd < 0) then fileclose f;;; iunlockput ip;;; end_op;;; ret (-1) else
          modify (upd_file f (opened ip x omode));;;
          (if flag omode O_TRUNC && bool_decide (i_type x = T_FILE) then itrunc ip else skip);;;
          iunlock (Some ip);;;
          end_op;;;
          ret fd
      end
  end.

Definition sys_mkdir : K Z :=
  begin_op;;;
  a <- argstr 0 MAXPATH;;
  o <- (if decide (fst a < 0) then ret None else create (snd a) T_DIR 0 0);;
  match o with
  | None => end_op;;; ret (-1)
  | Some ip => iunlockput ip;;; end_op;;; ret 0
  end.

Definition sys_mknod : K Z :=
  begin_op;;;
  a <- argstr 0 MAXPATH;;
  o <- (if decide (fst a < 0) then ret None else
        major <- argint 1;;
        minor <- argint 2;;
        create (snd a) T_DEVICE (i16 major) (i16 minor));;
  match o with
  | None => end_op;;; ret (-1)
  | Some ip => iunlockput ip;;; end_op;;; ret 0
  end.

Definition sys_chdir : K Z :=
  p <- cur;;
  begin_op;;;
  a <- argstr 0 MAXPATH;;
  o <- (if decide (fst a < 0) then ret None else namei (snd a));;
  match o with
  | None => end_op;;; ret (-1)
  | Some ip =>
      ilock (Some ip);;;
      t <- gets (fun k => i_type (get_inode k ip));;
      if decide (t <> T_DIR) then iunlockput ip;;; end_op;;; ret (-1) else
      iunlock (Some ip);;;
      cwd <- gets (fun k => p_cwd (get_proc k p));;
      c <- deref cwd;;
      iput c;;;
      end_op;;;
      modify (upd_proc p (set_p_cwd (Some ip)));;;
      ret 0
  end.

(** ** exec and pipe *)

(** One argument of sys_exec(): [inl] leaves the loop with the pages
    allocated so far, [true] when the array was complete. *)
Definition fetch_arg (uargv : Z) (argv : list Z) (i : Z) : K ((bool * list Z) + list Z) :=
  a <- fetchaddr (u64 (uargv + 8 * i));;
  if decide (fst a < 0) then ret (inl (false, argv)) else
  let uarg := snd a in
  if decide (uarg = 0) then ret (inl (true, argv)) else
  page <- kalloc;;
  if decide (page = 0) then ret (inl (false, argv)) else
  p <- cur;;
  pt <- gets (fun k => p_pagetable (get_proc k p));;
  r <- copyinstr pt uarg PGSIZE;;
  modify (upd_mem (fun m => write_bytes m page (snd r)));;;
  if decide (fst r < 0) then ret (inl (false, argv ++ [page])) else ret (inr (argv ++ [page])).

Definition sys_exec : K Z :=
  a <- argstr 0 MAXPATH;;
  if decide (fst a < 0) then ret (-1) else
  uargv <- argaddr 1;;
  r <- scan_ (seqZ 0 (Z.of_nat MAXARG)) (fetch_arg uargv) [];;
  let '(complete, argv) := match r with inl x => x | inr argv => (false, argv) end in
  result <- (if complete : bool then exec (snd a) argv else ret (-1));;
  for_ argv kfree;;;
  ret result.

Definition sys_pipe : K Z :=
  p <- cur;;
  fdarray <- argaddr 0;;
  o <- pipealloc;;
  match o with
  | None => ret (-1)
  | Some (rf, wf) =>
      fd0 <- fdalloc rf;;
      fd1 <- (if decide (fd0 < 0) then ret (-1) else fdalloc wf);;
      if decide (fd0 < 0 \/ fd1 < 0) then
        (if decide (fd0 >= 0) then set_ofile p (Z.to_nat fd0) None else skip);;;
        fileclose rf;;;
        fileclose wf;;;
        ret (-1)
      else
      pt <- gets (fun k => p_pagetable (get_proc k p));;
      r0 <- copyout pt fdarray (int_bytes fd0);;
      r1 <- (if decide (r0 < 0) then ret (-1) else copyout pt (u64 (fdarray + 4)) (int_bytes fd1));;
      if decide (r1 < 0) then
        set_ofile p (Z.to_nat fd0) None;;;
        set_ofile p (Z.to_nat fd1) None;;;
        fileclose rf;;;
        fileclose wf;;;
        ret (-1)
      else ret 0
  end.
End Sysfile.
