(* ===== verification/Dispatch.v ===== *)
(** * The dispatcher of kernel/syscall.c, the traps of kernel/trap.c, and main()

    The tables of syscall.c are functions of the system call number.  Reading
    [syscall_num] outside its 25 entries is reading the memory next to it:
    [beside] is what is found there, a parameter.  The interrupt controller and
    the disk driver are parameters too: what plic_claim() returns, the handler
    of the disk interrupt, and the characters waiting in the uart. *)

From S2P Require Import Prelude Machine Kstring Kernel Spinlock Kalloc Vm Printf Sched Proc Sleeplock Bio Log Fs Pipe Console File Trap ProcFs Syscall Exec Sysfile.

Definition SYS_fork : Z := 1.
Definition SYS_exit : Z := 2.
Definition SYS_wait : Z := 3.
Definition SYS_pipe : Z := 4.
Definition SYS_read : Z := 5.
Definition SYS_kill : Z := 6.
Definition SYS_exec : Z := 7.
Definition SYS_fstat : Z := 8.
Definition SYS_chdir : Z := 9.
Definition SYS_dup : Z := 10.
Definition SYS_getpid : Z := 11.
Definition SYS_sbrk : Z := 12.
Definition SYS_sleep : Z := 13.
Definition SYS_uptime : Z := 14.
Definition SYS_open : Z := 15.
Definition SYS_write : Z := 16.
Definition SYS_mknod : Z := 17.
Definition SYS_unlink : Z := 18.
Definition SYS_link : Z := 19.
Definition SYS_mkdir : Z := 20.
Definition SYS_close : Z := 21.
Definition SYS_trace : Z := 22.
Definition SYS_setpriority : Z := 23.
Definition SYS_waitx : Z := 24.

(** NELEM(syscalls). *)
Definition NSYSCALLS : Z := 25.

Definition syscall_names (num : Z) : option string :=
  ["fork"; "exit"; "wait"; "pipe"; "read"; "kill"; "exec"; "fstat"; "chdir"; "dup"; "getpid"; "sbrk";
   "sleep"; "uptime"; "open"; "write"; "mknod"; "unlink"; "link"; "mkdir"; "close"; "trace";
   "setpriority"; "waitx"] !! Z.to_nat (num - 1).

(** The entries of [syscall_num]; entry 0 is not given and so is zero. *)
Definition syscall_args : list Z :=
  [0; 0; 1; 1; 1; 3; 1; 2; 2; 1; 1; 0; 1; 1; 0; 2; 3; 3; 1; 2; 1; 1; 1; 2; 3].

(** The characters of an array up to its NUL. *)
Definition cstr (l : list Z) : list Z := removelast (fst (take_str (l ++ [0]))).

Section Dispatch.
Context `{Symbols} `{D : BlockDevice} (tx_idle : kernel -> bool).
Context (beside : Z -> Z).

Definition syscall_num (num : Z) : Z :=
  if decide (0 <= num < NSYSCALLS) then nth (Z.to_nat num) syscall_args 0 else beside num.

Definition syscalls (num : Z) : option (K Z) :=
  [sys_fork; sys_exit; sys_wait; sys_pipe; sys_read; sys_kill; sys_exec; sys_fstat; sys_chdir;
   sys_dup; sys_getpid; sys_sbrk; sys_sleep; sys_uptime; sys_open; sys_write tx_idle; sys_mknod;
   sys_unlink; sys_link; sys_mkdir; sys_close; sys_trace; sys_setpriority; sys_waitx]
    !! Z.to_nat (num - 1).

(** The loop that saves the arguments. *)
Definition save_args (num_args : Z) : K (list Z) :=
  fold_ (seqZ 0 num_args) (fun arr i => v <- argraw i;; ret (arr ++ [i32 v])) [].

(** The trace line printed after a traced call. *)
Definition trace_line (p : nat) (num : Z) (arr : list Z) : K unit :=
  x <- gets (fun k => get_proc k p);;
  printf (codes "%d: syscall %s (") [AInt (p_pid x); AStr (codes <$> syscall_names num)];;;
  for_ arr (fun a => printf (codes "%d ") [AInt a]);;;
  printf [8] [];;;
  a0 <- argraw 0;;
  printf (codes ") -> %d") [AInt a0];;;
  printf [10] [].

Definition syscall : K unit :=
  p <- cur;;
  num <- gets (fun k => i32 (get_tf k p TF_A7));;
  arr <- save_args (syscall_num num);;
  match (if decide (0 < num < NSYSCALLS) then syscalls num else None) with
  | Some f =>
      r <- f;;
      set_tf p TF_A0 (u64 r);;;
      mask <- gets (fun k => p_mask (get_proc k p));;
      when (Z.testbit mask num) (trace_line p num arr)
  | None =>
      x <- gets (fun k => get_proc k p);;
      printf (codes "%d %s: unknown sys call %d" ++ [10])
        [AInt (p_pid x); AStr (Some (cstr (p_name x))); AInt num];;;
      set_tf p TF_A0 (u64 (-1))
  end.

(** ** trap.c *)
Context (plic_claim : K Z) (plic_complete : Z -> K unit) (virtio_disk_intr : K unit).
Context (uart_input : kernel -> list Z).

Definition devintr : K Z :=
  cause <- gets (fun k => scause (k_csr k));;
  if decide (Z.testbit cause 63 = true /\ Z.land cause 0xff = 9) then
    irq <- plic_claim;;
    (if decide (irq = UART0_IRQ) then
       input <- gets uart_input;;
       uartintr tx_idle input
     else if decide (irq = VIRTIO0_IRQ) then virtio_disk_intr
     else if decide (irq <> 0) then printf (codes "unexpected interrupt irq=%d" ++ [10]) [AInt irq]
     else skip);;;
    (if decide (irq <> 0) then plic_complete irq else skip);;;
    ret 1
  else if decide (cause = 2 ^ 63 + 1) then
    hart <- cpuid;;
    (if decide (hart = 0%nat) then clockintr else skip);;;
    modify (upd_csr (fun c => set_sip (Z.land (sip c) (Z.lnot 2)) c));;;
    ret 2
  else ret 0.

(** The report of an unexpected trap from user space. *)
Definition bad_usertrap (p : nat) : K unit :=
  c <- gets k_csr;;
  pid <- gets (fun k => p_pid (get_proc k p));;
  printf (codes "usertrap(): unexpected scause %p pid=%d" ++ [10]) [APtr (scause c); AInt pid];;;
  printf (codes "            sepc=%p stval=%p" ++ [10]) [APtr (sepc c); APtr (stval c)];;;
  modify (upd_proc p (set_p_killed 1)).

(** if(p->killed) exit(-1) *)
Definition exit_if_killed (p : nat) : K unit :=
  killed <- gets (fun k => p_killed (get_proc k p));;
  if decide (killed <> 0) then exit (-1) else skip.

(** RR and MLFQ are not defined: a clock interrupt does not yield(). *)
Definition usertrap : K (Z * Z) :=
  c <- gets k_csr;;
  if decide (Z.land (sstatus c) SSTATUS_SPP <> 0) then panic "usertrap: not from user mode" else
  modify (upd_csr (set_stvec sym_kernelvec));;;
  p <- cur;;
  set_tf p TF_EPC (sepc c);;;
  (if decide (scause c = 8) then
     exit_if_killed p;;;
     epc <- gets (fun k => get_tf k p TF_EPC);;
     set_tf p TF_EPC (u64 (epc + 4));;;
     intr_on;;;
     syscall
   else
     which_dev <- devintr;;
     if decide (which_dev <> 0) then skip else bad_usertrap p);;;
  exit_if_killed p;;;
  usertrapret.

Definition kerneltrap : K unit :=
  c <- gets k_csr;;
  if decide (Z.land (sstatus c) SSTATUS_SPP = 0) then panic "kerneltrap: not from supervisor mode" else
  i <- intr_get;;
  if decide (i <> 0) then panic "kerneltrap: interrupts enabled" else
  which_dev <- devintr;;
  if decide (which_dev = 0) then
    printf (codes "scause %p" ++ [10]) [APtr (scause c)];;;
    c' <- gets k_csr;;
    printf (codes "sepc=%p stval=%p" ++ [10]) [APtr (sepc c'); APtr (stval c')];;;
    panic "kerneltrap"
  else
    modify (upd_csr (set_sepc (sepc c)));;;
    modify (upd_csr (set_sstatus (sstatus c))).

(** ** main.c *)
Context (plicinit plicinithart virtio_disk_init : K unit).

(** main() of the boot hart, before it enters the scheduler. *)
Definition main_boot : K unit :=
  consoleinit;;;
  printfinit;;;
  printf [10] [];;;
  printf (codes "xv6 kernel is booting" ++ [10]) [];;;
  printf [10] [];;;
  kinit;;;
  kvminit;;;
  kvminithart;;;
  procinit;;;
  trapinit;;;
  trapinithart;;;
  plicinit;;;
  plicinithart;;;
  binit;;;
  iinit;;;
  fileinit;;;
  virtio_disk_init;;;
  userinit.

(** main() of another hart, once the boot hart has set [started]. *)
Definition main_other : K unit :=
  hart <- cpuid;;
  printf (codes "hart %d starting" ++ [10]) [AInt (Z.of_nat hart)];;;
  kvminithart;;;
  trapinithart;;;
  plicinithart.
End Dispatch.
