(* ===== verification/TrapSpec.v ===== *)
(** * System call dispatch and the return to user space: what is guaranteed *)

From S2P Require Import Prelude Machine Kstring Kernel Spinlock Kalloc Vm Printf Sched Proc Sleeplock Bio Log Fs Pipe Console File Trap ProcFs Syscall Exec Sysfile Dispatch.

Section Args.
Context `{Symbols}.

Lemma argraw_ok n e k p :
  cpu_ok k -> running k = Some p -> 0 <= n <= 5 ->
  argraw n e k = Ok (get_tf k p (TF_A0 + 8 * n)) e k.
Proof.
  intros Hc Hr Hn. unfold argraw. rewrite (bind_Ok _ _ _ _ _ _ _ (cur_ok e k p Hc Hr)).
  by rewrite decide_True.
Qed.

Lemma argraw_panics n e k p :
  cpu_ok k -> running k = Some p -> 5 < n -> argraw n e k = Panic "argraw".
Proof.
  intros Hc Hr Hn. unfold argraw. rewrite (bind_Ok _ _ _ _ _ _ _ (cur_ok e k p Hc Hr)).
  by rewrite decide_False by lia.
Qed.

(** The arguments as the dispatcher keeps them. *)
Definition int_args (k : kernel) (p : nat) (n : Z) : list Z :=
  map (fun i => i32 (get_tf k p (TF_A0 + 8 * i))) (seqZ 0 n).

Lemma save_args_from e k p a m acc :
  cpu_ok k -> running k = Some p -> 0 <= a -> a + Z.of_nat m <= 6 ->
  fold_ (seqZ a (Z.of_nat m)) (fun arr i => v <- argraw i;; ret (arr ++ [i32 v])) acc e k =
  Ok (acc ++ map (fun i => i32 (get_tf k p (TF_A0 + 8 * i))) (seqZ a (Z.of_nat m))) e k.
Proof.
  intros Hc Hr. revert a acc. induction m as [|m IH]; intros a acc Ha Hm.
  - rewrite seqZ_nil by lia. cbn. by rewrite app_nil_r.
  - rewrite seqZ_cons by lia. cbn [fold_ map].
    rewrite (bind_Ok _ _ (acc ++ [i32 (get_tf k p (TF_A0 + 8 * a))]) e k e k).
    + replace (Z.pred (Z.of_nat (S m))) with (Z.of_nat m) by lia.
      rewrite IH by lia. by rewrite <- app_assoc.
    + by rewrite (bind_Ok _ _ _ _ _ _ _ (argraw_ok a e k p Hc Hr ltac:(lia))).
Qed.

Lemma save_args_ok n e k p :
  cpu_ok k -> running k = Some p -> 0 <= n <= 6 -> save_args n e k = Ok (int_args k p n) e k.
Proof.
  intros Hc Hr Hn. unfold save_args, int_args. rewrite <- (Z2Nat.id n) by lia.
  apply (save_args_from e k p 0 (Z.to_nat n) [] Hc Hr); lia.
Qed.

Lemma fold_app {A B} (l1 l2 : list A) (f : B -> A -> K B) b e k b' e' k' :
  fold_ l1 f b e k = Ok b' e' k' -> fold_ (l1 ++ l2) f b e k = fold_ l2 f b' e' k'.
Proof.
  revert b e k. induction l1 as [|x l1 IH]; intros b e k; cbn [fold_ app].
  - by intros [= -> -> ->].
  - unfold bind. destruct (f b x e k); try discriminate. apply IH.
Qed.

Lemma save_args_panics n e k p :
  cpu_ok k -> running k = Some p -> 6 < n -> save_args n e k = Panic "argraw".
Proof.
  intros Hc Hr Hn. unfold save_args. replace n with (Z.of_nat 6 + (1 + (n - 7))) by lia.
  rewrite seqZ_app by lia.
  rewrite (fold_app _ _ _ _ _ _ _ _ _ (save_args_from e k p 0 6 [] Hc Hr ltac:(lia) ltac:(lia))).
  rewrite seqZ_cons by lia. cbn [fold_].
  apply bind_Panic, bind_Panic. by apply (argraw_panics _ e k p).
Qed.
End Args.

(** ** The dispatcher *)
Section Dispatcher.
Context `{Symbols} `{D : BlockDevice} (tx_idle : kernel -> bool) (beside : Z -> Z).

(** The number in a7. *)
Definition call_num (k : kernel) (p : nat) : Z := i32 (get_tf k p TF_A7).

(** The state with the result in a0. *)
Definition with_a0 (p : nat) (r : Z) (k : kernel) : kernel :=
  upd_mem (fun m => write64 m (p_trapframe (get_proc k p) + TF_A0) (u64 r)) k.

Lemma syscall_num_known num : 0 < num < NSYSCALLS -> 0 <= syscall_num beside num <= 6.
Proof.
  intros Hn. unfold syscall_num. rewrite decide_True by lia.
  assert (Forall (fun z => 0 <= z <= 6) syscall_args) as HF by (repeat constructor; done).
  rewrite Forall_forall in HF. apply HF. apply list_elem_of_In, nth_In. unfold NSYSCALLS in Hn. cbn. lia.
Qed.

Lemma syscalls_known num : 0 < num < NSYSCALLS -> is_Some (syscalls tx_idle num).
Proof. intros Hn. apply lookup_lt_is_Some. unfold NSYSCALLS in Hn. cbn. lia. Qed.

Lemma syscall_known e k p f :
  cpu_ok k -> running k = Some p -> 0 < call_num k p < NSYSCALLS ->
  syscalls tx_idle (call_num k p) = Some f ->
  syscall tx_idle beside e k =
  (r <- f;;
   set_tf p TF_A0 (u64 r);;;
   mask <- gets (fun k => p_mask (get_proc k p));;
   when (Z.testbit mask (call_num k p))
     (trace_line p (call_num k p) (int_args k p (syscall_num beside (call_num k p))))) e k.
Proof.
  intros Hc Hr Hn Hf. unfold syscall. rewrite (bind_Ok _ _ _ _ _ _ _ (cur_ok e k p Hc Hr)).
  rewrite (bind_Ok (gets _) _ (call_num k p) e k e k eq_refl).
  rewrite (bind_Ok _ _ _ _ _ _ _ (save_args_ok _ e k p Hc Hr (syscall_num_known _ Hn))).
  by rewrite decide_True, Hf by done.
Qed.

(** What user programs expect of a call number: the name of kernel/syscall.h, the
    number of arguments of the prototype in user/user.h, and the function that
    serves the call. *)
Record user_call := mkCall { uc_num : Z; uc_name : string; uc_args : Z; uc_serve : K Z }.
Definition user_calls : list user_call :=
  [mkCall SYS_fork "fork" 0 sys_fork; mkCall SYS_exit "exit" 1 sys_exit; mkCall SYS_wait "wait" 1 sys_wait;
   mkCall SYS_waitx "waitx" 3 sys_waitx; mkCall SYS_pipe "pipe" 1 sys_pipe; mkCall SYS_write "write" 3 (sys_write tx_idle);
   mkCall SYS_read "read" 3 sys_read; mkCall SYS_close "close" 1 sys_close; mkCall SYS_kill "kill" 1 sys_kill;
   mkCall SYS_exec "exec" 2 sys_exec; mkCall SYS_open "open" 2 sys_open; mkCall SYS_mknod "mknod" 3 sys_mknod;
   mkCall SYS_unlink "unlink" 1 sys_unlink; mkCall SYS_fstat "fstat" 2 sys_fstat; mkCall SYS_link "link" 2 sys_link;
   mkCall SYS_mkdir "mkdir" 1 sys_mkdir; mkCall SYS_chdir "chdir" 1 sys_chdir; mkCall SYS_dup "dup" 1 sys_dup;
   mkCall SYS_getpid "getpid" 0 sys_getpid; mkCall SYS_sbrk "sbrk" 1 sys_sbrk; mkCall SYS_sleep "sleep" 1 sys_sleep;
   mkCall SYS_uptime "uptime" 0 sys_uptime; mkCall SYS_trace "trace" 1 sys_trace; mkCall SYS_setpriority "setpriority" 2 sys_setpriority].

(** The tables of syscall.c agree with it, and have no other entry. *)
Lemma user_calls_served c : c ∈ user_calls ->
  0 < uc_num c < NSYSCALLS /\ syscalls tx_idle (uc_num c) = Some (uc_serve c) /\
  syscall_names (uc_num c) = Some (uc_name c) /\ syscall_num beside (uc_num c) = uc_args c.
Proof.
  cut (Forall (fun c => 0 < uc_num c < NSYSCALLS /\ syscalls tx_idle (uc_num c) = Some (uc_serve c) /\
    syscall_names (uc_num c) = Some (uc_name c) /\ syscall_num beside (uc_num c) = uc_args c) user_calls); [rewrite Forall_forall; auto|].
  unfold user_calls. repeat (apply Forall_cons; split; [split; [split; reflexivity|split; [reflexivity|split; reflexivity]]|]). apply Forall_nil. exact I.
Qed.
Lemma user_calls_complete num f : 0 < num < NSYSCALLS -> syscalls tx_idle num = Some f -> exists c, c ∈ user_calls /\ uc_num c = num.
Proof.
  intros Hn _. assert (num ∈ uc_num <$> user_calls) as Hin; [|apply list_elem_of_fmap in Hin as (c & -> & Hc); by exists c].
  unfold NSYSCALLS in Hn. cut (Forall (fun z => z ∈ uc_num <$> user_calls) (seqZ 1 24)); [rewrite Forall_forall; intros HF; apply HF, elem_of_seqZ; lia|].
  cbn [fmap list_fmap user_calls uc_num]. by apply (bool_decide_unpack _).
Qed.

(** The line a traced call prints: the process, the call with the arguments as
    they were before it, and its result as an int. *)
Definition trace_text (pid : Z) (name : string) (args : list Z) (r : Z) : list Z :=
  int_text (i32 pid) 10 ++ codes ": syscall " ++ codes name ++ codes " (" ++
  concat (map (fun a => int_text a 10 ++ codes " ") args) ++ [8] ++ codes ") -> " ++ int_text (i32 r) 10 ++ [10].

Lemma print_args args : forall e k, cpu_ok k -> lock_free LkPr k -> Forall (fun a => i32 a = a) args ->
  for_ args (fun a => printf (codes "%d ") [AInt a]) e k = Ok tt e (sent (concat (map (fun a => int_text a 10 ++ codes " ") args)) k).
Proof.
  induction args as [|a args IH]; intros e k Hc Hl HF; [cbn; by rewrite sent_nil|]. apply Forall_cons in HF as [Ha HF]. cbn [for_ map concat].
  rewrite (bind_Ok _ _ _ _ _ _ _ (printf_ok (codes "%d ") [AInt a] (int_text (i32 a) 10 ++ codes " ") e k Hc Hl eq_refl)), Ha.
  rewrite IH by done. by rewrite sent_sent.
Qed.
Lemma name_echo c : c ∈ user_calls -> codes (uc_name c) ≫= echo = codes (uc_name c).
Proof.
  cut (Forall (fun c => codes (uc_name c) ≫= echo = codes (uc_name c)) user_calls); [rewrite Forall_forall; auto|].
  unfold user_calls. repeat (apply Forall_cons; split; [reflexivity|]). apply Forall_nil. exact I.
Qed.
Lemma trace_line_text e k p c args r :
  cpu_ok k -> running k = Some p -> lock_free LkPr k -> c ∈ user_calls -> get_tf k p TF_A0 = u64 r -> Forall (fun a => i32 a = a) args ->
  trace_line p (uc_num c) args e k = Ok tt e (sent (trace_text (p_pid (get_proc k p)) (uc_name c) args r) k).
Proof.
  intros Hc Hr Hl Hin Ha0 HF. destruct (user_calls_served c Hin) as (_ & _ & Hname & _). unfold trace_line.
  rewrite (bind_Ok (gets _) _ (get_proc k p) e k e k eq_refl), Hname.
  assert (format (codes "%d: syscall %s (") [AInt (p_pid (get_proc k p)); AStr (codes <$> Some (uc_name c))] =
    Some (int_text (i32 (p_pid (get_proc k p))) 10 ++ codes ": syscall " ++ codes (uc_name c) ++ codes " (")) as Ef.
  { rewrite <- (name_echo c Hin) at 1. reflexivity. }
  rewrite (bind_Ok _ _ _ _ _ _ _ (printf_ok _ _ _ e k Hc Hl Ef)). set (t1 := _ ++ codes ": syscall " ++ _).
  rewrite (bind_Ok _ _ _ _ _ _ _ (print_args args e (sent t1 k) Hc Hl HF)), sent_sent. set (t2 := t1 ++ _).
  rewrite (bind_Ok _ _ _ _ _ _ _ (printf_ok [8] [] [8] e (sent t2 k) Hc Hl eq_refl)), sent_sent. set (t3 := t2 ++ _).
  rewrite (bind_Ok _ _ _ _ _ _ _ (argraw_ok 0 e (sent t3 k) p Hc Hr ltac:(lia))). change (get_tf (sent t3 k) p (TF_A0 + 8 * 0)) with (get_tf k p TF_A0). rewrite Ha0.
  rewrite (bind_Ok _ _ _ _ _ _ _ (printf_ok (codes ") -> %d") [AInt (u64 r)] (codes ") -> " ++ int_text (i32 (u64 r)) 10) e (sent t3 k) Hc Hl ltac:(by rewrite <- (app_nil_r (int_text _ _))))).
  rewrite sent_sent. set (t4 := t3 ++ _). rewrite (printf_ok [10] [] [10] e (sent t4 k) Hc Hl eq_refl), sent_sent. do 2 f_equal. unfold trace_text, t4, t3, t2, t1. rewrite i32_u64. by rewrite <- !app_assoc.
Qed.

Lemma int_args_int k p n : Forall (fun a => i32 a = a) (int_args k p n).
Proof. unfold int_args. apply Forall_map, Forall_true. intros i. apply i32_idemp. Qed.

(** A call that returns: its result is in a0, and the line is printed when the
    bit of the mask, as it is after the call, is set. *)
Lemma syscall_returns e k p c r e' k' :
  cpu_ok k -> running k = Some p -> c ∈ user_calls -> call_num k p = uc_num c -> uc_serve c e k = Ok r e' k' ->
  cpu_ok k' -> running k' = Some p -> lock_free LkPr k' ->
  syscall tx_idle beside e k = Ok tt e'
    (if Z.testbit (p_mask (get_proc k' p)) (uc_num c)
     then sent (trace_text (p_pid (get_proc k' p)) (uc_name c) (int_args k p (uc_args c)) r) (with_a0 p r k') else with_a0 p r k').
Proof.
  intros Hc Hr Hin Hnum E Hc' Hr' Hl'. destruct (user_calls_served c Hin) as (Hn & Hf & _ & Ha).
  rewrite (syscall_known e k p (uc_serve c) Hc Hr) by (by rewrite Hnum). rewrite (bind_Ok _ _ _ _ _ _ _ E).
  rewrite (bind_Ok (set_tf p TF_A0 (u64 r)) _ tt e' k' e' (with_a0 p r k') eq_refl).
  rewrite (bind_Ok (gets _) _ (p_mask (get_proc k' p)) e' (with_a0 p r k') e' (with_a0 p r k') eq_refl). rewrite Hnum, Ha.
  destruct (Z.testbit _ _); [|done]. unfold when.
  assert (get_tf (with_a0 p r k') p TF_A0 = u64 r) as Ha0 by (apply read64_write64_eq, u64_range).
  exact (trace_line_text e' (with_a0 p r k') p c _ r Hc' Hr' Hl' Hin Ha0 (int_args_int k p (uc_args c))).
Qed.
(** A call that waits or panics. *)
Lemma syscall_stops e k p c :
  cpu_ok k -> running k = Some p -> c ∈ user_calls -> call_num k p = uc_num c ->
  (forall w k', uc_serve c e k = Wait w k' -> syscall tx_idle beside e k = Wait w k') /\
  (forall msg, uc_serve c e k = Panic msg -> syscall tx_idle beside e k = Panic msg).
Proof.
  intros Hc Hr Hin Hnum. destruct (user_calls_served c Hin) as (Hn & Hf & _).
  rewrite (syscall_known e k p (uc_serve c) Hc Hr) by (by rewrite Hnum). split; intros; [by apply bind_Wait|by apply bind_Panic].
Qed.

Lemma syscall_beside e k p :
  cpu_ok k -> running k = Some p -> ~ (0 <= call_num k p < NSYSCALLS) -> 6 < beside (call_num k p) ->
  syscall tx_idle beside e k = Panic "argraw".
Proof.
  intros Hc Hr Hn Hb. unfold syscall. rewrite (bind_Ok _ _ _ _ _ _ _ (cur_ok e k p Hc Hr)).
  rewrite (bind_Ok (gets _) _ (call_num k p) e k e k eq_refl).
  apply bind_Panic. apply (save_args_panics _ e k p Hc Hr). unfold syscall_num. by rewrite decide_False.
Qed.
End Dispatcher.

(** ** The return to user space *)
Section Return.
Context `{Symbols}.

(** sstatus for sret: user mode, interrupts on after it, off before it. *)
Definition user_sstatus (x : Z) : Z :=
  Z.lor (Z.land (Z.land x (Z.lnot SSTATUS_SIE)) (Z.lnot SSTATUS_SPP)) SSTATUS_SPIE.

Lemma user_sstatus_bits x :
  Z.testbit (user_sstatus x) 8 = false /\ Z.testbit (user_sstatus x) 5 = true /\
  Z.testbit (user_sstatus x) 1 = false /\
  (forall n, 0 <= n -> n <> 8 -> n <> 5 -> n <> 1 -> Z.testbit (user_sstatus x) n = Z.testbit x n).
Proof.
  unfold user_sstatus. split; [|split; [|split]].
  - by rewrite Z.lor_spec, Z.land_spec, Z.lnot_spec, andb_false_r by lia.
  - by rewrite Z.lor_spec, orb_true_r.
  - by rewrite Z.lor_spec, !Z.land_spec, !Z.lnot_spec, !andb_false_r by lia.
  - intros n Hn H8 H5 H1. rewrite Z.lor_spec, !Z.land_spec, !Z.lnot_spec by lia.
    change SSTATUS_SPIE with (2 ^ 5). change SSTATUS_SPP with (2 ^ 8). change SSTATUS_SIE with (2 ^ 1).
    rewrite !Z.pow2_bits_false by lia. by rewrite !andb_true_r, orb_false_r.
Qed.

(** The trapframe of the current process after usertrapret(). *)
Definition trapframe_set (tf : Z) (k : kernel) (kstack : Z) (m : mem) : mem :=
  write64 (write64 (write64 (write64 m
    (tf + TF_KERNEL_SATP) (satp (k_csr k))) (tf + TF_KERNEL_SP) (u64 (kstack + PGSIZE)))
    (tf + TF_KERNEL_TRAP) sym_usertrap) (tf + TF_KERNEL_HARTID) (Z.of_nat (k_tp k)).

Definition returning (p : nat) (k : kernel) : kernel :=
  let x := get_proc k p in
  upd_csr (fun c => set_sepc (get_tf k p TF_EPC) (set_sstatus (user_sstatus (sstatus c))
                      (set_stvec (TRAMPOLINE + (sym_uservec - sym_trampoline)) c)))
    (upd_mem (trapframe_set (p_trapframe x) k (p_kstack x)) k).

Lemma trapframe_set_epc tf k kstack m :
  read64 (trapframe_set tf k kstack m) (tf + TF_EPC) = read64 m (tf + TF_EPC).
Proof.
  unfold trapframe_set, TF_KERNEL_SATP, TF_KERNEL_SP, TF_KERNEL_TRAP, TF_KERNEL_HARTID, TF_EPC.
  by rewrite !read64_write64_ne by lia.
Qed.

Lemma usertrapret_ok e k p :
  cpu_ok k -> running k = Some p ->
  usertrapret e k = Ok (TRAPFRAME, MAKE_SATP (p_pagetable (get_proc k p))) e (returning p k).
Proof.
  intros Hc Hr. unfold usertrapret. rewrite (bind_Ok _ _ _ _ _ _ _ (cur_ok e k p Hc Hr)).
  cbn -[write64 read64 TRAMPOLINE TRAPFRAME Z.land Z.lor Z.lnot Z.add MAKE_SATP get_proc].
  unfold returning, get_tf.
  rewrite <- (trapframe_set_epc (p_trapframe (get_proc k p)) k (p_kstack (get_proc k p)) (k_mem k)).
  reflexivity.
Qed.
End Return.
