(* ===== verification/LogSpec.v ===== *)
(** * The log's admission control and absorption

    begin_op() and end_op() around a transaction, and log_write() on each of its
    branches. *)

From S2P Require Import Prelude Machine Kstring Kernel Spinlock Kalloc Vm Sched Sleeplock Bio Log.

(** The reservation begin_op() keeps: the blocks already logged and ten for
    every operation in progress fit in the log. *)
Definition log_reserved (lg : logstate) : Z := lh_n lg + l_outstanding lg * MAXOPBLOCKS.
Definition log_admits (lg : logstate) : Prop :=
  l_committing lg = 0 /\ log_reserved lg + MAXOPBLOCKS <= LOGSIZE.

Definition op_begun (lg : logstate) : logstate := set_l_outstanding (l_outstanding lg + 1) lg.
Definition op_ended (lg : logstate) : logstate := set_l_outstanding (l_outstanding lg - 1) lg.

Lemma begin_op_admitted e k :
  cpu_ok k -> lock_free LkLog k -> log_admits (k_log k) ->
  begin_op e k = Ok tt e (upd_log op_begun k).
Proof.
  intros Hc Hl [Hcm Hroom]. unfold log_reserved in Hroom. unfold begin_op.
  rewrite (bind_Ok _ _ _ _ _ _ _ (acquire_free _ e k Hc Hl)). cbn [loop_].
  rewrite (bind_Ok _ _ (inl tt) e (lock_taken LkLog k) e (upd_log op_begun k)); [done|].
  unfold begin_turn. rewrite (bind_Ok (gets k_log) _ (k_log k) e (lock_taken LkLog k) e (lock_taken LkLog k) eq_refl).
  rewrite (decide_False (P := l_committing _ <> 0)), (decide_False (P := _ > LOGSIZE)) by lia.
  rewrite (bind_Ok (modify _) _ tt e (lock_taken LkLog k) e (lock_taken LkLog (upd_log op_begun k)) eq_refl).
  by rewrite (bind_Ok _ _ _ _ _ _ _ (release_taken LkLog e (upd_log op_begun k) Hc Hl)).
Qed.

Lemma begin_op_sleeps k p :
  cpu_ok k -> idle_hart k -> lock_free LkLog k -> lock_free (LkProc p) k -> running k = Some p ->
  (p < length (k_procs k))%nat -> ~ log_admits (k_log k) ->
  begin_op [] k = Wait WSwitch (lock_taken (LkProc p) (asleep p ChLog k)).
Proof.
  intros Hc Hi Hl Hlp Hr Hp Hn. unfold begin_op.
  rewrite (bind_Ok _ _ _ _ _ _ _ (acquire_free _ [] k Hc Hl)). cbn [loop_].
  pose proof (sleep_waits ChLog LkLog k p Hc Hi Hl Hlp ltac:(done) Hr Hp) as Es.
  apply bind_Wait. unfold begin_turn.
  rewrite (bind_Ok (gets k_log) _ (k_log k) [] (lock_taken LkLog k) [] (lock_taken LkLog k) eq_refl).
  unfold log_admits, log_reserved in Hn. destruct (decide (l_committing (k_log k) <> 0)).
  - by apply bind_Wait.
  - rewrite decide_True by lia. by apply bind_Wait.
Qed.

(** ** end_op() *)
Lemma end_op_not_last `{D : BlockDevice} e k :
  quiet k -> lock_free LkLog k -> l_committing (k_log k) = 0 -> l_outstanding (k_log k) <> 1 ->
  end_op e k = Ok tt e (woken ChLog (upd_log op_ended k)).
Proof.
  intros Hq Hl Hc Ho. unfold end_op.
  rewrite (bind_Ok _ _ _ _ _ _ _ (acquire_free _ e k (q_cpu k Hq) Hl)).
  rewrite (bind_Ok (modify _) _ tt e (lock_taken LkLog k) e (lock_taken LkLog (upd_log op_ended k)) eq_refl).
  rewrite (bind_Ok (gets k_log) _ (op_ended (k_log k)) e (lock_taken LkLog (upd_log op_ended k)) e
             (lock_taken LkLog (upd_log op_ended k)) eq_refl).
  rewrite (decide_False (P := l_committing _ <> 0)) by (cbn; lia). cbn zeta.
  rewrite bool_decide_eq_false_2 by (cbn; lia).
  assert (quiet (upd_log op_ended k)) as Hq1 by (constructor; apply Hq).
  rewrite (bind_Ok _ _ _ _ _ _ _ (wakeup_taken ChLog LkLog e _ ltac:(done) Hq1)).
  rewrite (bind_Ok _ _ _ _ _ _ _ (release_taken LkLog e (woken ChLog (upd_log op_ended k))
             (q_cpu _ (woken_quiet _ _ Hq1)) Hl)). done.
Qed.

(** ** log_write() *)
Lemma log_write_full b e k :
  cpu_ok k -> lock_free LkLog k ->
  lh_n (k_log k) >= LOGSIZE \/ lh_n (k_log k) >= l_size (k_log k) - 1 ->
  log_write b e k = Panic "too big a transaction".
Proof.
  intros Hc Hl Hf. unfold log_write. rewrite (bind_Ok _ _ _ _ _ _ _ (acquire_free _ e k Hc Hl)).
  rewrite (bind_Ok (gets k_log) _ (k_log k) e (lock_taken LkLog k) e (lock_taken LkLog k) eq_refl).
  by rewrite decide_True.
Qed.

Lemma log_write_outside b e k :
  cpu_ok k -> lock_free LkLog k -> lh_n (k_log k) < LOGSIZE -> lh_n (k_log k) < l_size (k_log k) - 1 ->
  l_outstanding (k_log k) < 1 -> log_write b e k = Panic "log_write outside of trans".
Proof.
  intros Hc Hl H1 H2 Ho. unfold log_write. rewrite (bind_Ok _ _ _ _ _ _ _ (acquire_free _ e k Hc Hl)).
  rewrite (bind_Ok (gets k_log) _ (k_log k) e (lock_taken LkLog k) e (lock_taken LkLog k) eq_refl).
  rewrite decide_False by lia. by rewrite decide_True.
Qed.

(** The state of a log that a transaction may write to. *)
Record log_open (k : kernel) : Prop := {
  lo_cpu : cpu_ok k;
  lo_lock : lock_free LkLog k;
  lo_bcache : lock_free LkBcache k;
  lo_room : 0 <= lh_n (k_log k) < LOGSIZE /\ lh_n (k_log k) < l_size (k_log k) - 1;
  lo_len : length (lh_block (k_log k)) = Z.to_nat LOGSIZE;
  lo_op : 1 <= l_outstanding (k_log k)
}.

Definition logged (k : kernel) : list Z := take (Z.to_nat (lh_n (k_log k))) (lh_block (k_log k)).

Lemma log_write_body b e k :
  log_open k ->
  log_write b e k =
  (let blockno := b_blockno (get_buf k b) in
   let i := log_slot (k_log k) blockno in
   modify (upd_log (fun x => set_lh_block (<[i := blockno]> (lh_block x)) x));;;
   (if decide (Z.of_nat i = lh_n (k_log k)) then
      bpin b;;; modify (upd_log (fun x => set_lh_n (lh_n x + 1) x))
    else skip);;;
   release LkLog) e (lock_taken LkLog k).
Proof.
  intros [Hc Hl Hb Hr Hlen Ho]. unfold log_write.
  rewrite (bind_Ok _ _ _ _ _ _ _ (acquire_free _ e k Hc Hl)).
  rewrite (bind_Ok (gets k_log) _ (k_log k) e (lock_taken LkLog k) e (lock_taken LkLog k) eq_refl).
  rewrite decide_False by lia. by rewrite decide_False by lia.
Qed.

(** Absorption: a block already in the transaction costs nothing. *)
Lemma log_write_absorbs b e k :
  log_open k -> b_blockno (get_buf k b) ∈ logged k -> log_write b e k = Ok tt e k.
Proof.
  intros Ho Hin. rewrite (log_write_body b e k Ho). destruct Ho as [Hc Hl Hb Hr Hlen Ho]. cbn zeta.
  unfold log_slot. fold (logged k).
  destruct (list_find_elem_of (fun x => x = b_blockno (get_buf k b)) (logged k) _ Hin eq_refl) as [[i x] Ei].
  rewrite Ei. apply list_find_Some in Ei as (Hi & -> & _).
  assert (lh_block (k_log k) !! i = Some (b_blockno (get_buf k b)) /\ (i < Z.to_nat (lh_n (k_log k)))%nat) as [Hi2 Hlt].
  { unfold logged in Hi. apply lookup_take_Some in Hi. tauto. }
  rewrite decide_False by lia.
  rewrite (bind_Ok (modify _) _ tt e (lock_taken LkLog k) e (lock_taken LkLog k)).
  - rewrite (bind_Ok skip _ tt e (lock_taken LkLog k) e (lock_taken LkLog k) eq_refl). by apply release_taken.
  - unfold modify. do 2 f_equal. unfold upd_log. cbn. rewrite (list_insert_id _ _ _ Hi2). by destruct k as [? ? ? ? ? ? ? ? ? ? ? ? ? ? ? ? []].
Qed.

Definition log_appended (blockno : Z) (lg : logstate) : logstate :=
  set_lh_n (lh_n lg + 1) (set_lh_block (<[Z.to_nat (lh_n lg) := blockno]> (lh_block lg)) lg).

(** A new block takes the next slot and its buffer is pinned. *)
Lemma log_write_appends b e k :
  log_open k -> b_blockno (get_buf k b) ∉ logged k ->
  log_write b e k = Ok tt e (upd_log (log_appended (b_blockno (get_buf k b))) (upd_buf b claim_refcnt k)).
Proof.
  intros Ho Hin. rewrite (log_write_body b e k Ho). destruct Ho as [Hc Hl Hb Hr Hlen Ho]. cbn zeta.
  unfold log_slot. fold (logged k).
  assert (list_find (fun x => x = b_blockno (get_buf k b)) (logged k) = None) as ->.
  { apply list_find_None. rewrite Forall_forall. intros x Hx ->. done. }
  rewrite decide_True by lia. set (blockno := b_blockno (get_buf k b)). set (n := Z.to_nat _).
  set (k1 := upd_log (fun x => set_lh_block (<[n := blockno]> (lh_block x)) x) k).
  rewrite (bind_Ok (modify _) _ tt e (lock_taken LkLog k) e (lock_taken LkLog k1) eq_refl).
  assert (bpin b e (lock_taken LkLog k1) = Ok tt e (lock_taken LkLog (upd_buf b claim_refcnt k1))) as Ep.
  { unfold bpin. rewrite (bind_Ok _ _ _ _ _ _ _ (acquire_free LkBcache e (lock_taken LkLog k1)
      (cpu_ok_taken LkLog k1 Hc) ltac:(by apply lock_free_taken_ne))).
    rewrite (bind_Ok (modify (upd_buf b claim_refcnt)) _ tt e (lock_taken LkBcache (lock_taken LkLog k1)) e
               (lock_taken LkBcache (lock_taken LkLog (upd_buf b claim_refcnt k1))) eq_refl).
    apply release_taken; [by apply cpu_ok_taken|by apply lock_free_taken_ne]. }
  rewrite (bind_Ok _ _ tt e (lock_taken LkLog k1) e
             (lock_taken LkLog (upd_log (log_appended blockno) (upd_buf b claim_refcnt k)))).
  - by apply release_taken.
  - rewrite (bind_Ok _ _ _ _ _ _ _ Ep). reflexivity.
Qed.
