(* ===== verification/LogCommit.v ===== *)
(** * The commit protocol of the log

    The exact sequence of block writes of commit() and of recovery, against the
    view of the disk that the buffer cache presents, and what a crash between
    any two of those writes leaves for recovery. *)

From S2P Require Import Prelude Machine Kstring Kernel Spinlock Kalloc Vm Sched Sleeplock Bio BioSpec Log Fs FsSpec LogSpec.

(** ** Sequences of block writes *)
Abbreviation blockwrites := (list (Z * list Z)).

Definition apply_writes (ws : blockwrites) (d : gmap Z (list Z)) : gmap Z (list Z) :=
  foldl (fun d w => <[w.1 := w.2]> d) d ws.
(** The same on a view of the disk. *)
Definition view_writes (ws : blockwrites) (c : Z -> list Z) : Z -> list Z :=
  foldl (fun c w => fupd w.1 w.2 c) c ws.

Lemma view_writes_app ws1 ws2 c : view_writes (ws1 ++ ws2) c = view_writes ws2 (view_writes ws1 c).
Proof. apply foldl_app. Qed.
Lemma apply_writes_app ws1 ws2 d : apply_writes (ws1 ++ ws2) d = apply_writes ws2 (apply_writes ws1 d).
Proof. apply foldl_app. Qed.

Lemma view_writes_cons w ws c : view_writes (w :: ws) c = view_writes ws (fupd w.1 w.2 c).
Proof. done. Qed.

Lemma view_writes_other ws c b : b ∉ ws.*1 -> view_writes ws c b = c b.
Proof.
  revert c. induction ws as [|[x d] ws IH]; intros c Hb; [done|]. rewrite view_writes_cons. cbn in Hb.
  apply not_elem_of_cons in Hb as [Hx Hb]. rewrite IH by done. by apply fupd_ne.
Qed.

(** A block written once, or always with the same data. *)
Lemma view_writes_in ws c b d :
  (b, d) ∈ ws -> (forall d', (b, d') ∈ ws -> d' = d) -> view_writes ws c b = d.
Proof.
  induction ws as [|[x y] ws IH] using rev_ind; [by intros ?%elem_of_nil|]. intros Hin Hall.
  rewrite view_writes_app. cbn [view_writes foldl fst snd]. destruct (decide (b = x)) as [->|Hne].
  - rewrite fupd_eq. apply Hall. apply elem_of_app. right. left.
  - rewrite fupd_ne by done. apply IH.
    + apply elem_of_app in Hin as [Hin|Hin%list_elem_of_singleton]; [done|congruence].
    + intros d' Hd'. apply Hall. apply elem_of_app. by left.
Qed.

Lemma view_writes_ext ws c c' b : c b = c' b -> view_writes ws c b = view_writes ws c' b.
Proof.
  revert c c'. induction ws as [|[x d] ws IH]; intros c c' E; [done|]. apply IH. cbn.
  unfold fupd. by case_decide.
Qed.

Lemma view_writes_len n ws c :
  Forall (fun w => length w.2 = n) ws -> (forall b, length (c b) = n) -> forall b, length (view_writes ws c b) = n.
Proof.
  intros Hws. revert c. induction Hws as [|w ws Hw _ IH]; intros c Hc b; [apply Hc|].
  apply (IH (fupd w.1 w.2 c)). intros x. unfold fupd. by case_decide.
Qed.

(** A disk as a view. *)
Definition disk_view (d : gmap Z (list Z)) (b : Z) : list Z := default (replicate (Z.to_nat BSIZE) 0) (d !! b).

Lemma disk_view_writes ws d b : disk_view (apply_writes ws d) b = view_writes ws (disk_view d) b.
Proof.
  revert d. induction ws as [|[x y] ws IH]; intros d; [done|].
  change (disk_view (apply_writes ws (<[x := y]> d)) b = view_writes ws (fupd x y (disk_view d)) b).
  rewrite IH. apply view_writes_ext.
  unfold disk_view, fupd. case_decide as E; [subst; by rewrite lookup_insert_eq|by rewrite lookup_insert_ne].
Qed.

(** [k'] is [k] after the block writes [ws], up to the cache and wakeups. *)
Definition wrote (ws : blockwrites) (k : kernel) : kernel :=
  set_k_writes (k_writes k ++ ws) (set_k_disk (apply_writes ws (k_disk k)) k).
Definition io_wrote (ws : blockwrites) (k k' : kernel) : Prop := io_frame (wrote ws k) k'.

Lemma wrote_app ws1 ws2 k : wrote (ws1 ++ ws2) k = wrote ws2 (wrote ws1 k).
Proof. unfold wrote. cbn. by rewrite apply_writes_app, app_assoc. Qed.

#[export] Instance wrote_proper ws : Proper (io_frame ==> io_frame) (wrote ws).
Proof.
  intros k k' H. unfold io_frame, wrote in *.
  rewrite (frame_writes k k' H), (frame_disk k k' H).
  by apply (f_equal (set_k_writes (k_writes k ++ ws))), (f_equal (set_k_disk (apply_writes ws (k_disk k)))) in H.
Qed.

Lemma io_wrote_nil k k' : io_frame k k' -> io_wrote [] k k'.
Proof. intros H. unfold io_wrote. rewrite <- H. unfold wrote. cbn. rewrite app_nil_r. by destruct k. Qed.
Lemma io_wrote_trans ws1 ws2 k1 k2 k3 : io_wrote ws1 k1 k2 -> io_wrote ws2 k2 k3 -> io_wrote (ws1 ++ ws2) k1 k3.
Proof. unfold io_wrote. intros H1 H2. by rewrite wrote_app, H1. Qed.
Lemma io_wrote_frame ws k1 k2 k3 : io_wrote ws k1 k2 -> io_frame k2 k3 -> io_wrote ws k1 k3.
Proof. unfold io_wrote. intros H1 H2. by rewrite H1. Qed.
Lemma io_frame_wrote ws k1 k2 k3 : io_frame k1 k2 -> io_wrote ws k2 k3 -> io_wrote ws k1 k3.
Proof. unfold io_wrote. intros H1 H2. by rewrite H1. Qed.

Lemma wrote_log ws k k' : io_wrote ws k k' -> k_log k' = k_log k.
Proof. intros H. by apply frame_log in H. Qed.
Lemma wrote_disk ws k k' b : io_wrote ws k k' -> disk_block k' b = view_writes ws (disk_block k) b.
Proof.
  intros H. apply (frame_block _ _ b) in H as ->. change (disk_block ?k) with (disk_view (k_disk k)).
  by rewrite <- disk_view_writes.
Qed.
Lemma io_wrote_upd_log ws f k k' : io_wrote ws k k' -> io_wrote ws (upd_log f k) (upd_log f k').
Proof.
  intros H. pose proof (wrote_log _ _ _ H) as E. unfold io_wrote, io_frame, upd_log in *. rewrite E.
  by apply (f_equal (set_k_log (f (k_log k)))) in H.
Qed.
Lemma block_write_wrote b d k : block_write b d k = wrote [(b, d)] k.
Proof. done. Qed.

(** ** The header block *)
Definition head_words (d : list Z) (bl : list Z) (js : list Z) : list Z :=
  foldl (fun d i => put32 d (lh_word i) (nth (Z.to_nat i) bl 0)) d js.
(** What write_head() makes of the old contents [d] of the header block. *)
Definition head_image (d : list Z) (n : Z) (bl : list Z) : list Z := head_words (put32 d 0 n) bl (seqZ 0 n).
(** What read_head() reads. *)
Definition head_n (d : list Z) : Z := i32 (get32 d 0).
Definition head_block (d : list Z) (i : Z) : Z := i32 (get32 d (lh_word i)).

Lemma length_head_words d bl js : length (head_words d bl js) = length d.
Proof.
  unfold head_words. revert d. induction js as [|i js IH]; intros d; cbn; [done|]. by rewrite IH, length_put32.
Qed.
Lemma length_head_image d n bl : length (head_image d n bl) = length d.
Proof. unfold head_image. by rewrite length_head_words, length_put32. Qed.

Lemma i32_u32 z : i32 (u32 z) = i32 z.
Proof. unfold i32, u32. by rewrite Zplus_mod_idemp_l. Qed.

Lemma head_words_get d bl js o :
  0 <= o -> Forall (fun i => 0 <= i < LOGSIZE) js -> (4 * (LOGSIZE + 1) <= Z.of_nat (length d)) ->
  (forall i, i ∈ js -> o + 4 <= lh_word i \/ lh_word i + 4 <= o) ->
  get32 (head_words d bl js) o = get32 d o.
Proof.
  intros Ho His Hd Hne. unfold head_words. revert d Hd. induction His as [|i js Hi _ IH]; intros d Hd; [done|].
  cbn [foldl]. rewrite IH; [|intros j Hj; apply Hne; by right|by rewrite length_put32].
  apply get32_put32_ne; [unfold inside, lh_word; lia|done|]. destruct (Hne i) as [?|?]; [left|lia..].
Qed.

Lemma head_image_n d n bl :
  0 <= n <= LOGSIZE -> length d = Z.to_nat BSIZE -> head_n (head_image d n bl) = n.
Proof.
  intros Hn Hd. unfold head_n, head_image. change LOGSIZE with 30 in *. unfold BSIZE in *.
  rewrite head_words_get.
  - rewrite get32_put32 by (unfold inside; lia). by rewrite i32_u32, i32_small by lia.
  - done.
  - apply Forall_forall. intros i Hi%elem_of_seqZ. change LOGSIZE with 30. lia.
  - rewrite length_put32. change LOGSIZE with 30. lia.
  - intros i Hi%elem_of_seqZ. unfold lh_word. lia.
Qed.

Lemma head_image_block d n bl i :
  0 <= i < n -> n <= LOGSIZE -> length d = Z.to_nat BSIZE -> 0 <= nth (Z.to_nat i) bl 0 < 2 ^ 31 ->
  head_block (head_image d n bl) i = nth (Z.to_nat i) bl 0.
Proof.
  intros Hi Hn Hd Hb. unfold head_block, head_image. change LOGSIZE with 30 in *. unfold BSIZE in *.
  assert (seqZ 0 n = seqZ 0 i ++ i :: seqZ (i + 1) (n - i - 1)) as ->.
  { replace n with (i + (n - i)) at 1 by lia. rewrite seqZ_app by lia. f_equal.
    rewrite seqZ_cons by lia. do 2 f_equal; lia. }
  unfold head_words. rewrite foldl_app. cbn [foldl]. fold (head_words (put32 d 0 n) bl (seqZ 0 i)).
  set (d1 := head_words _ _ _). assert (length d1 = 1024%nat) as E1.
  { unfold d1. by rewrite length_head_words, length_put32. }
  fold (head_words (put32 d1 (lh_word i) (nth (Z.to_nat i) bl 0)) bl (seqZ (i + 1) (n - i - 1))).
  rewrite head_words_get.
  - rewrite get32_put32 by (unfold inside, lh_word; lia). by rewrite i32_u32, i32_small by lia.
  - unfold lh_word. lia.
  - apply Forall_forall. intros j Hj%elem_of_seqZ. change LOGSIZE with 30. lia.
  - rewrite length_put32. change LOGSIZE with 30. lia.
  - intros j Hj%elem_of_seqZ. unfold lh_word. lia.
Qed.

(** ** A transaction *)

(** The log [lg] of device [dev] records the blocks [bs], which lie outside the
    log area and leave a buffer of the cache for the log itself. *)
Record txn (dev start : Z) (bs : list Z) (lg : logstate) : Prop := {
  tx_dev : l_dev lg = dev;
  tx_start : l_start lg = start;
  tx_n : lh_n lg = Z.of_nat (length bs);
  tx_blocks : take (length bs) (lh_block lg) = bs
}.
(** The blocks a log may record. *)
Record loggable (start : Z) (bs : list Z) : Prop := {
  tb_size : (length bs < NBUF)%nat;
  tb_nodup : NoDup bs;
  tb_home b : b ∈ bs -> 0 <= b < 2 ^ 31 /\ (b < start \/ start + LOGSIZE <= b)
}.

(** The [i]-th block of a list. *)
Definition nthZ (bs : list Z) (i : Z) : Z := nth (Z.to_nat i) bs 0.

Lemma nthZ_in bs i : 0 <= i < Z.of_nat (length bs) -> nthZ bs i ∈ bs.
Proof. intros Hi. unfold nthZ. apply list_elem_of_In, nth_In. lia. Qed.

Lemma nthZ_inj bs i j :
  NoDup bs -> 0 <= i < Z.of_nat (length bs) -> 0 <= j < Z.of_nat (length bs) ->
  nthZ bs i = nthZ bs j -> i = j.
Proof.
  intros Hnd%NoDup_ListNoDup Hi Hj E. unfold nthZ in E.
  pose proof (proj1 (NoDup_nth bs 0) Hnd (Z.to_nat i) (Z.to_nat j)) as H. lia.
Qed.

Lemma in_nthZ bs b : b ∈ bs -> exists i, 0 <= i < Z.of_nat (length bs) /\ nthZ bs i = b.
Proof.
  intros Hb%list_elem_of_In. destruct (In_nth bs b 0 Hb) as (n & Hn & E).
  exists (Z.of_nat n). unfold nthZ. rewrite Nat2Z.id. split; [lia|done].
Qed.

(** The blocks of the three phases. *)
Definition log_copy (start : Z) (bs : list Z) (c : Z -> list Z) : blockwrites :=
  map (fun i => (start + i + 1, c (nthZ bs i))) (seqZ 0 (Z.of_nat (length bs))).
Definition home_copy (start : Z) (bs : list Z) (c : Z -> list Z) : blockwrites :=
  map (fun i => (nthZ bs i, c (start + i + 1))) (seqZ 0 (Z.of_nat (length bs))).

Section Protocol.
Context {D : BlockDevice} {DOK : BlockDeviceOK D}.
Context (p : nat) (dev start : Z) (bs : list Z) (lg : logstate).
Context (Htx : txn dev start bs lg) (Hlb : loggable start bs).
Context (e : list (kernel -> kernel)).

Lemma tx_nth i : 0 <= i < Z.of_nat (length bs) -> nth (Z.to_nat i) (lh_block lg) 0 = nthZ bs i.
Proof.
  intros Hi. unfold nthZ. rewrite <- (tx_blocks _ _ _ _ Htx) at 1.
  rewrite !nth_lookup. rewrite lookup_take_lt; [done|lia].
Qed.

Lemma home_not_log i j :
  0 <= i < Z.of_nat (length bs) -> -1 <= j < Z.of_nat (length bs) -> nthZ bs i <> start + j + 1.
Proof.
  intros Hi Hj. pose proof (tb_home _ _ Hlb _ (nthZ_in bs i Hi)) as [_ Hh].
  pose proof (tb_size _ _ Hlb) as Hs. change NBUF with 30%nat in Hs. change LOGSIZE with 30 in Hh. lia.
Qed.

(** One block of write_log(). *)
Lemma write_log_one_view k c pin i :
  bcached p dev k c pin ∅ -> k_log k = lg -> bc_room pin ∅ -> 0 <= i < Z.of_nat (length bs) ->
  pin (nthZ bs i) <> 0 ->
  let w := (start + i + 1, c (nthZ bs i)) in
  exists k', write_log_one i e k = Ok tt e k' /\ bcached p dev k' (view_writes [w] c) pin ∅ /\ io_wrote [w] k k'.
Proof.
  intros H Hlg Hroom Hi Hpin w. set (L := start + i + 1) in *. set (b := nthZ bs i) in *.
  assert (b <> L) as Hne by (apply home_not_log; lia).
  unfold write_log_one. rewrite (bind_Ok (gets k_log) _ lg e k e k) by (cbn; by rewrite Hlg).
  rewrite (tx_dev _ _ _ _ Htx), (tx_start _ _ _ _ Htx). fold L.
  destruct (bread_view p dev e k c pin ∅ H L) as (to & k1 & E1 & H1 & F1); [done|by left|].
  rewrite (bind_Ok _ _ _ _ _ _ _ E1).
  assert (lh_get k1 i = b) as Eb by (unfold lh_get; rewrite (frame_log _ _ F1), Hlg; by apply tx_nth).
  rewrite (bind_Ok (gets _) _ b e k1 e k1) by (cbn; by rewrite Eb).
  destruct (bread_view p dev e k1 c pin _ H1 b) as (from & k2 & E2 & H2 & F2);
    [by rewrite lookup_insert_ne|by right|].
  rewrite (bind_Ok _ _ _ _ _ _ _ E2).
  destruct (bc_held_at p dev k2 c pin _ H2 from b) as [_ Hfrom]; [by rewrite lookup_insert_eq|].
  rewrite (bind_Ok (modify _) _ tt e k2 e (upd_buf to (set_b_data (c b)) k2))
    by (cbn; by rewrite (bh_data _ _ _ _ _ _ _ _ Hfrom)).
  assert (<[b := from]> (<[L := to]> (∅ : gmap Z nat)) !! L = Some to) as Hto.
  { rewrite lookup_insert_ne by done. by rewrite lookup_insert_eq. }
  pose proof (store_view p dev k2 c pin _ H2 L to (c b) Hto (bc_len _ _ _ _ _ _ H b)) as H3.
  destruct (bwrite_view p dev e _ _ _ _ H3 L to Hto) as [E4 H4]. rewrite fupd_eq in E4, H4.
  rewrite (bind_Ok _ _ _ _ _ _ _ E4).
  destruct (brelse_view p dev e _ _ _ _ H4 b from) as (k5 & E5 & H5 & F5);
    [by rewrite lookup_insert_eq|by right|].
  rewrite (bind_Ok _ _ _ _ _ _ _ E5).
  destruct (brelse_view p dev e _ _ _ _ H5 L to) as (k6 & E6 & H6 & F6).
  { by rewrite lookup_delete_ne. }
  { left. rewrite fupd_eq, (frame_block _ _ _ F5), block_write_disk. by rewrite fupd_eq. }
  exists k6. split; [done|]. split.
  - by rewrite delete_insert_id, delete_insert_id in H6 by (by rewrite ?lookup_insert_ne).
  - unfold io_wrote. rewrite F1, F2. rewrite (frame_upd_buf to (set_b_data (c b)) k2).
    change (io_frame (block_write L (c b) (upd_buf to (set_b_data (c b)) k2)) k6). by rewrite F5.
Qed.

(** A loop each of whose turns writes one block. *)
Lemma for_writes (f : Z -> K unit) (w : Z -> Z * list Z) (pins : list Z -> Z -> Z) (n : Z) k c :
  bcached p dev k c (pins []) ∅ -> k_log k = lg ->
  (forall done i todo k1, seqZ 0 n = done ++ i :: todo -> k_log k1 = lg ->
     bcached p dev k1 (view_writes (map w done) c) (pins done) ∅ ->
     exists k', f i e k1 = Ok tt e k' /\
       bcached p dev k' (view_writes [w i] (view_writes (map w done) c)) (pins (done ++ [i])) ∅ /\
       io_wrote [w i] k1 k') ->
  exists k', for_ (seqZ 0 n) f e k = Ok tt e k' /\
    bcached p dev k' (view_writes (map w (seqZ 0 n)) c) (pins (seqZ 0 n)) ∅ /\
    io_wrote (map w (seqZ 0 n)) k k'.
Proof.
  intros H Hlg Hstep.
  apply (for_inv (fun done s => bcached p dev s (view_writes (map w done) c) (pins done) ∅ /\
                                io_wrote (map w done) k s)).
  - split; [done|]. by apply io_wrote_nil.
  - intros done i todo s El [Hs Hw].
    destruct (Hstep done i todo s El) as (k' & E & Hb & Hw'); [by rewrite (wrote_log _ _ _ Hw)|done|].
    exists k'. split; [done|]. rewrite map_app, view_writes_app. split; [done|]. by eapply io_wrote_trans.
Qed.

Lemma seqZ_split n (done : list Z) i todo :
  seqZ 0 n = done ++ i :: todo -> 0 <= i < n /\ i ∉ done /\ forall j, j ∈ done -> 0 <= j < n.
Proof.
  intros E. pose proof (NoDup_seqZ 0 n) as Hnd. rewrite E in Hnd. apply NoDup_app in Hnd as (_ & Hd & _).
  assert (forall j, j ∈ done ++ i :: todo -> 0 <= j < n) as Hr by (intros j; rewrite <- E, elem_of_seqZ; lia).
  split_and!; [apply Hr, elem_of_app; right; left..| |].
  - intros Hi. apply (Hd i Hi). left.
  - intros j Hj. apply Hr, elem_of_app. by left.
Qed.

(** write_log() copies the cached blocks to the log. *)
Lemma write_log_view k c pin :
  bcached p dev k c pin ∅ -> k_log k = lg -> bc_room pin ∅ -> (forall b, b ∈ bs -> pin b <> 0) ->
  exists k', write_log e k = Ok tt e k' /\ bcached p dev k' (view_writes (log_copy start bs c) c) pin ∅ /\
    io_wrote (log_copy start bs c) k k'.
Proof.
  intros H Hlg Hroom Hpin. unfold write_log.
  rewrite (bind_Ok (gets _) _ (Z.of_nat (length bs)) e k e k) by (cbn; by rewrite Hlg, (tx_n _ _ _ _ Htx)).
  apply (for_writes write_log_one _ (fun _ => pin)); [done|done|].
  intros done i todo k1 (Hi & Hni & Hdone)%seqZ_split Hlg1 H1.
  destruct (write_log_one_view k1 _ pin i H1 Hlg1 Hroom Hi) as (k' & E & H2 & Hw); [by apply Hpin, nthZ_in|].
  rewrite view_writes_other in H2, Hw; [by exists k'|..].
  all: intros Hin; apply list_elem_of_fmap in Hin as ([b d] & Hb & Hin);
    apply list_elem_of_In, in_map_iff in Hin as (j & Ej & Hj%list_elem_of_In%Hdone); simplify_eq/=;
    by apply (home_not_log i j); try lia.
Qed.

(** ** install_trans() *)
Definition unpin_done (recovering : Z) (pin : Z -> Z) (done : list Z) : Z -> Z :=
  if decide (recovering = 0) then fun b => if decide (b ∈ map (nthZ bs) done) then 0 else pin b else pin.

Lemma install_one_view recovering k c pin i :
  bcached p dev k c pin ∅ -> k_log k = lg -> bc_room pin ∅ -> 0 <= i < Z.of_nat (length bs) ->
  (if decide (recovering = 0) then pin (nthZ bs i) = 1 else forall b, pin b = 0) ->
  let w := (nthZ bs i, c (start + i + 1)) in
  exists k', install_one recovering i e k = Ok tt e k' /\
    bcached p dev k' (view_writes [w] c)
      (if decide (recovering = 0) then fupd (nthZ bs i) 0 pin else pin) ∅ /\
    io_wrote [w] k k'.
Proof.
  intros H Hlg Hroom Hi Hpin w. set (L := start + i + 1) in *. set (b := nthZ bs i) in *.
  assert (b <> L) as Hne by (apply home_not_log; lia).
  unfold install_one. rewrite (bind_Ok (gets k_log) _ lg e k e k) by (cbn; by rewrite Hlg).
  rewrite (tx_dev _ _ _ _ Htx), (tx_start _ _ _ _ Htx). fold L.
  destruct (bread_view p dev e k c pin ∅ H L) as (lbuf & k1 & E1 & H1 & F1); [done|by left|].
  rewrite (bind_Ok _ _ _ _ _ _ _ E1).
  assert (lh_get k1 i = b) as Eb by (unfold lh_get; rewrite (frame_log _ _ F1), Hlg; by apply tx_nth).
  rewrite (bind_Ok (gets _) _ b e k1 e k1) by (cbn; by rewrite Eb).
  destruct (bread_view p dev e k1 c pin _ H1 b) as (dbuf & k2 & E2 & H2 & F2); [by rewrite lookup_insert_ne| |].
  { case_decide; [right; lia|]. left. exists [L]. split; [by apply Nat.ltb_lt|].
    intros x [Hx|[? Hx]]; [by rewrite Hpin in Hx|].
    apply lookup_insert_Some in Hx as [[-> _]|[_ Hx]]; [left|by rewrite lookup_empty in Hx]. }
  rewrite (bind_Ok _ _ _ _ _ _ _ E2).
  assert (<[b := dbuf]> (<[L := lbuf]> (∅ : gmap Z nat)) !! L = Some lbuf) as HL.
  { rewrite lookup_insert_ne by done. by rewrite lookup_insert_eq. }
  assert (<[b := dbuf]> (<[L := lbuf]> (∅ : gmap Z nat)) !! b = Some dbuf) as Hb by by rewrite lookup_insert_eq.
  destruct (bc_held_at p dev k2 c pin _ H2 lbuf L HL) as [_ Hfrom].
  rewrite (bind_Ok (modify _) _ tt e k2 e (upd_buf dbuf (set_b_data (c L)) k2))
    by (cbn; by rewrite (bh_data _ _ _ _ _ _ _ _ Hfrom)).
  pose proof (store_view p dev k2 c pin _ H2 b dbuf (c L) Hb (bc_len _ _ _ _ _ _ H L)) as H3.
  destruct (bwrite_view p dev e _ _ _ _ H3 b dbuf Hb) as [E4 H4]. rewrite fupd_eq in E4, H4.
  rewrite (bind_Ok _ _ _ _ _ _ _ E4). set (k4 := block_write b (c L) _) in *.
  set (pin' := if decide (recovering = 0) then fupd b 0 pin else pin).
  assert (exists k5, (if decide (recovering = 0) then bunpin dbuf else skip) e k4 = Ok tt e k5 /\
            bcached p dev k5 (fupd b (c L) c) pin' (<[b := dbuf]> (<[L := lbuf]> ∅)) /\ io_frame k4 k5)
    as (k5 & E5 & H5 & F5).
  { subst pin'. case_decide; [|by exists k4].
    destruct (bunpin_view p dev e k4 _ _ _ H4 b dbuf Hb) as (k5 & E5 & H5 & F5); [lia|].
    exists k5. by rewrite Hpin in H5. }
  rewrite (bind_Ok _ _ _ _ _ _ _ E5).
  assert (fupd b (c L) c L = disk_block k5 L \/ pin' L <> 0) as HcL.
  { rewrite (frame_block _ _ _ F5). subst k4. rewrite block_write_disk, !fupd_ne by done.
    change (disk_block (upd_buf ?i ?f ?s)) with (disk_block s).
    rewrite (frame_block _ _ _ F2), (frame_block _ _ _ F1).
    destruct (bc_clean _ _ _ _ _ _ H L) as [Hc|[Hx|[? Hx]]]; [by left| |by rewrite lookup_empty in Hx].
    right. subst pin'. case_decide; [by rewrite fupd_ne|done]. }
  destruct (brelse_view p dev e k5 _ _ _ H5 L lbuf HL HcL) as (k6 & E6 & H6 & F6).
  rewrite (bind_Ok _ _ _ _ _ _ _ E6).
  destruct (brelse_view p dev e k6 _ _ _ H6 b dbuf) as (k7 & E7 & H7 & F7).
  { by rewrite lookup_delete_ne. }
  { left. rewrite (frame_block _ _ _ F6), (frame_block _ _ _ F5). subst k4. by rewrite block_write_disk, !fupd_eq. }
  exists k7. split; [done|]. split.
  - rewrite delete_insert_ne, !delete_insert_eq, !delete_empty in H7 by congruence. done.
  - unfold io_wrote. rewrite F1, F2. rewrite (frame_upd_buf dbuf (set_b_data (c L)) k2).
    change (io_frame k4 k7). by rewrite F5, F6.
Qed.

(** install_trans() copies the logged blocks to their home locations. *)
Lemma install_trans_view recovering k c pin :
  bcached p dev k c pin ∅ -> k_log k = lg -> bc_room pin ∅ ->
  (if decide (recovering = 0) then forall b, b ∈ bs -> pin b = 1 else forall b, pin b = 0) ->
  let ws := home_copy start bs c in
  exists k', install_trans recovering e k = Ok tt e k' /\
    bcached p dev k' (view_writes ws c)
      (unpin_done recovering pin (seqZ 0 (Z.of_nat (length bs)))) ∅ /\
    io_wrote ws k k'.
Proof.
  intros H Hlg Hroom Hpin ws. unfold install_trans.
  rewrite (bind_Ok (gets _) _ (Z.of_nat (length bs)) e k e k) by (cbn; by rewrite Hlg, (tx_n _ _ _ _ Htx)).
  apply (for_writes (install_one recovering) (fun i => (nthZ bs i, c (start + i + 1))) (unpin_done recovering pin)); [|done|].
  { apply (bcached_ext _ _ _ c c pin); [done| |done]. intros b. unfold unpin_done. by case_decide. }
  intros done i todo k1 (Hi & Hni & Hdone)%seqZ_split Hlg1 H1.
  assert (nthZ bs i ∉ map (nthZ bs) done) as Hnb.
  { intros (j & Ej & Hj)%list_elem_of_In%in_map_iff. apply list_elem_of_In in Hj as Hj'.
    assert (j = i) as -> by (apply (nthZ_inj bs); [apply Hlb|by apply Hdone|done|done]). done. }
  destruct (install_one_view recovering k1 _ _ i H1 Hlg1) as (k' & E & H2 & Hw); [|done| |].
  { destruct Hroom as (s & Hs & Hin). exists s. split; [done|]. intros b [Hb|Hb]; apply Hin; [left|by right].
    unfold unpin_done in Hb. repeat case_decide; done. }
  { unfold unpin_done. case_decide; [|done]. rewrite decide_False by done. by apply Hpin, nthZ_in. }
  rewrite (view_writes_other _ c (start + i + 1)) in H2, Hw.
  2,3: intros Hin; apply list_elem_of_fmap in Hin as ([b d] & Hb & Hin);
    apply list_elem_of_In, in_map_iff in Hin as (j & Ej & Hj%list_elem_of_In%Hdone); simplify_eq/=;
    by apply (home_not_log j i); try lia.
  exists k'. split; [done|]. split; [|done]. eapply bcached_ext; [done| |done]. intros b. cbn beta.
  unfold unpin_done. case_decide; [|done]. unfold fupd. rewrite map_app. cbn [map].
  destruct (decide (b = nthZ bs i)) as [->|Hne].
  - rewrite decide_True; [done|]. apply elem_of_app. right. left.
  - apply decide_ext. rewrite elem_of_app, list_elem_of_singleton. tauto.
Qed.
End Protocol.

Section Header.
Context {D : BlockDevice} {DOK : BlockDeviceOK D}.
Context (p : nat) (dev start : Z) (e : list (kernel -> kernel)).

(** write_head() writes the image of the in-memory header. *)
Lemma write_head_view k c pin :
  bcached p dev k c pin ∅ -> l_dev (k_log k) = dev -> l_start (k_log k) = start -> bc_room pin ∅ ->
  let w := (start, head_image (c start) (lh_n (k_log k)) (lh_block (k_log k))) in
  exists k', write_head e k = Ok tt e k' /\ bcached p dev k' (view_writes [w] c) pin ∅ /\ io_wrote [w] k k'.
Proof.
  intros H Hdev Hst Hroom w. set (n := lh_n (k_log k)) in *. set (bl := lh_block (k_log k)) in *.
  unfold write_head. rewrite (bind_Ok (gets k_log) _ (k_log k) e k e k eq_refl). rewrite Hdev, Hst. fold n.
  destruct (bread_view p dev e k c pin ∅ H start) as (i & k1 & E1 & H1 & F1); [done|by left|].
  rewrite (bind_Ok _ _ _ _ _ _ _ E1).
  assert (<[start := i]> (∅ : gmap Z nat) !! start = Some i) as Hh by by rewrite lookup_insert_eq.
  assert (forall s c' g, bcached p dev s c' pin (<[start := i]> ∅) ->
            length (g (c' start)) = length (c' start) ->
            bcached p dev (upd_buf i (fun b => set_b_data (g (b_data b)) b) s) (fupd start (g (c' start)) c')
              pin (<[start := i]> ∅)) as Hstore.
  { intros s c' g Hs Hlen. rewrite upd_buf_data.
    destruct (bc_held_at p dev s c' pin _ Hs i start Hh) as [_ Hb]. rewrite (bh_data _ _ _ _ _ _ _ _ Hb).
    apply (store_view p dev s c' pin _ Hs start i); [done|]. rewrite Hlen. apply Hs. }
  rewrite (bind_Ok (modify _) _ tt e k1 e (upd_buf i (fun b => set_b_data (put32 (b_data b) 0 n) b) k1) eq_refl).
  set (k2 := upd_buf i _ k1).
  pose proof (Hstore k1 c (fun d => put32 d 0 n) H1 (length_put32 _ _ _)) as H2. fold k2 in H2. cbn beta in H2.
  destruct (for_inv (fun done s => bcached p dev s (fupd start (head_words (put32 (c start) 0 n) bl done) c) pin
                                     (<[start := i]> ∅) /\ io_frame k2 s)
              (seqZ 0 n) (fun j => v <- gets (fun s => lh_get s j);;
                modify (upd_buf i (fun b => set_b_data (put32 (b_data b) (lh_word j) v) b))) e k2)
    as (k3 & E3 & H3 & F3).
  - done.
  - intros done j todo s _ [Hs Fs]. eexists. split; [reflexivity|]. split; [|by rewrite Fs].
    assert (lh_get s j = nth (Z.to_nat j) bl 0) as ->.
    { unfold lh_get. rewrite (frame_log _ _ Fs). change (k_log k2) with (k_log k1). by rewrite (frame_log _ _ F1). }
    eapply bcached_ext; [| |apply (Hstore s _ (fun d => put32 d (lh_word j) (nth (Z.to_nat j) bl 0)) Hs (length_put32 _ _ _))]; [|done].
    intros b. unfold head_words. rewrite foldl_app. unfold fupd. by repeat case_decide.
  - rewrite (bind_Ok _ _ _ _ _ _ _ E3).
    destruct (bwrite_view p dev e k3 _ _ _ H3 start i Hh) as [E4 H4]. rewrite fupd_eq in E4, H4.
    rewrite (bind_Ok _ _ _ _ _ _ _ E4).
    destruct (brelse_view p dev e _ _ _ _ H4 start i Hh) as (k5 & E5 & H5 & F5).
    { left. by rewrite block_write_disk, !fupd_eq. }
    exists k5. split; [done|]. rewrite delete_insert_eq, delete_empty in H5. split; [done|].
    unfold io_wrote. rewrite F1. rewrite (frame_upd_buf i (fun b => set_b_data (put32 (b_data b) 0 n) b) k1 : io_frame k1 k2).
    by rewrite F3.
Qed.
End Header.

(** ** commit() *)

(** The writes of a commit of the blocks [bs] with the view [c]: the log, the
    header, the home locations, the cleared header. *)
Definition commit_header (start : Z) (c : Z -> list Z) (n : Z) (bl : list Z) : Z * list Z :=
  (start, head_image (c start) n bl).
Definition commit_clear (start : Z) (c : Z -> list Z) (n : Z) (bl : list Z) : Z * list Z :=
  (start, put32 (head_image (c start) n bl) 0 0).
Definition commit_writes (start : Z) (bs bl : list Z) (c : Z -> list Z) : blockwrites :=
  log_copy start bs c ++ [commit_header start c (Z.of_nat (length bs)) bl] ++
  map (fun b => (b, c b)) bs ++ [commit_clear start c (Z.of_nat (length bs)) bl].

Lemma map_nthZ bs {A} (f : Z -> A) : map (fun i => f (nthZ bs i)) (seqZ 0 (Z.of_nat (length bs))) = map f bs.
Proof.
  apply list_eq. intros j. rewrite !list_lookup_fmap. destruct (decide (j < length bs)%nat) as [Hj|Hj].
  - rewrite (lookup_seqZ_lt 0 _ j) by lia. destruct (lookup_lt_is_Some_2 bs j Hj) as [b Hb]. rewrite Hb. cbn.
    unfold nthZ. replace (Z.to_nat (0 + Z.of_nat j)) with j by lia. by rewrite (nth_lookup_Some bs j 0 b Hb).
  - rewrite (lookup_ge_None_2 bs) by lia. rewrite lookup_seqZ_ge by lia. done.
Qed.

Lemma log_copy_blocks start bs c b :
  b ∈ (log_copy start bs c).*1 -> start < b <= start + Z.of_nat (length bs).
Proof.
  intros ([x d] & -> & Hin)%list_elem_of_fmap. apply list_elem_of_In, in_map_iff in Hin as (j & Ej & Hj).
  apply list_elem_of_In, elem_of_seqZ in Hj. simplify_eq/=. lia.
Qed.

(** The log holds the copies. *)
Lemma log_copy_at start bs c c' i :
  0 <= i < Z.of_nat (length bs) -> view_writes (log_copy start bs c) c' (start + i + 1) = c (nthZ bs i).
Proof.
  intros Hi. apply view_writes_in.
  - apply list_elem_of_In, in_map_iff. exists i. split; [done|]. apply list_elem_of_In, elem_of_seqZ. lia.
  - intros d (j & Ej & Hj)%list_elem_of_In%in_map_iff. simplify_eq/=. by replace j with i by lia.
Qed.

Section Commit.
Context {D : BlockDevice} {DOK : BlockDeviceOK D}.
Context (p : nat) (dev start : Z) (bs : list Z) (e : list (kernel -> kernel)).
Context (Hlb : loggable start bs).

Definition pinned (bs : list Z) (b : Z) : Z := if decide (b ∈ bs) then 1 else 0.

Lemma pinned_room : bc_room (pinned bs) ∅.
Proof.
  exists bs. split; [apply Hlb|]. intros b [Hb|[? Hb]]; [|by rewrite lookup_empty in Hb].
  unfold pinned in Hb. by case_decide.
Qed.

(** The home writes of a commit carry the committed view. *)
Lemma commit_home c w :
  w.1 = start -> home_copy start bs (view_writes [w] (view_writes (log_copy start bs c) c)) = map (fun b => (b, c b)) bs.
Proof.
  intros Hw. rewrite <- (map_nthZ bs (fun b => (b, c b))). apply map_ext_in.
  intros i Hi%list_elem_of_In%elem_of_seqZ. f_equal.
  cbn. rewrite fupd_ne by lia. apply log_copy_at. lia.
Qed.

Lemma commit_ok k c :
  bcached p dev k c (pinned bs) ∅ -> txn dev start bs (k_log k) -> bs <> [] ->
  let ws := commit_writes start bs (lh_block (k_log k)) c in
  exists k', commit e k = Ok tt e k' /\ bcached p dev k' (view_writes ws c) (fun _ => 0) ∅ /\
    io_wrote ws (upd_log (set_lh_n 0) k) k'.
Proof.
  intros H Htx Hne ws. pose proof pinned_room as Hroom. unfold commit.
  rewrite (bind_Ok (gets _) _ (Z.of_nat (length bs)) e k e k) by (cbn; by rewrite (tx_n _ _ _ _ Htx)).
  rewrite decide_True by (destruct bs; [done|cbn; lia]).
  set (lc := log_copy start bs c). set (n := Z.of_nat (length bs)). set (bl := lh_block (k_log k)).
  destruct (write_log_view p dev start bs _ Htx Hlb e k c _ H eq_refl Hroom) as (k1 & E1 & H1 & W1).
  { intros b Hb. unfold pinned. by rewrite decide_True. }
  rewrite (bind_Ok _ _ _ _ _ _ _ E1). pose proof (wrote_log _ _ _ W1) as L1. fold lc in W1, H1.
  destruct (write_head_view p dev start e k1 _ _ H1) as (k2 & E2 & H2 & W2);
    [rewrite L1; apply Htx|rewrite L1; apply Htx|done|].
  rewrite (bind_Ok _ _ _ _ _ _ _ E2). pose proof (wrote_log _ _ _ W2) as L2. rewrite L1 in L2, W2, H2.
  assert (view_writes lc c start = c start) as Es.
  { apply view_writes_other. intros Hin%log_copy_blocks. lia. }
  rewrite Es, (tx_n _ _ _ _ Htx) in W2, H2. fold n bl in W2, H2. fold (commit_header start c n bl) in W2, H2.
  destruct (install_trans_view p dev start bs _ Htx Hlb e 0 k2 _ _ H2 L2 Hroom) as (k3 & E3 & H3 & W3).
  { rewrite decide_True by done. intros b Hb. unfold pinned. by rewrite decide_True. }
  rewrite (bind_Ok _ _ _ _ _ _ _ E3). pose proof (wrote_log _ _ _ W3) as L3. rewrite L2 in L3.
  pose proof (commit_home c (commit_header start c n bl) eq_refl) as Ehome. fold lc in Ehome.
  rewrite Ehome in W3, H3.
  rewrite (bind_Ok (modify _) _ tt e k3 e (upd_log (set_lh_n 0) k3) eq_refl).
  apply (bcached_ext _ _ _ _ _ _ (fun _ => 0) _ (fun _ => eq_refl)) in H3.
  2: { intros b. unfold unpin_done, pinned. rewrite decide_True by done. repeat case_decide; try done.
       match goal with Hn : b ∉ map _ _ |- _ => destruct Hn end.
       assert (map (nthZ bs) (seqZ 0 (Z.of_nat (length bs))) = bs) as ->; [|done].
       etrans; [exact (map_nthZ bs (fun x => x))|apply map_id]. }
  apply (bcached_upd_log _ _ _ _ _ _ (set_lh_n 0)) in H3.
  destruct (write_head_view p dev start e _ _ _ H3) as (k4 & E4 & H4 & W4).
  { cbn. rewrite L3. apply Htx. }
  { cbn. rewrite L3. apply Htx. }
  { exists []. split; [by apply Nat.ltb_lt|]. intros b [?|[? Hb]]; [done|by rewrite lookup_empty in Hb]. }
  assert (view_writes (map (fun b => (b, c b)) bs) (view_writes [commit_header start c n bl] (view_writes lc c)) start =
          head_image (c start) n bl) as Eh.
  { rewrite view_writes_other; [cbn; by rewrite fupd_eq|]. intros Hin.
    apply list_elem_of_fmap in Hin as ([b d] & -> & Hb). apply list_elem_of_In, in_map_iff in Hb as (x & Ex & Hx%list_elem_of_In).
    simplify_eq/=. destruct (tb_home _ _ Hlb _ Hx) as [_ Hh]. change LOGSIZE with 30 in Hh. lia. }
  rewrite Eh in H4, W4. change (lh_n (k_log (upd_log (set_lh_n 0) k3))) with 0 in H4, W4.
  fold (commit_clear start c n bl) in *.
  exists k4. split; [done|]. unfold ws, commit_writes. fold lc n bl.
  rewrite !view_writes_app. split; [done|].
  do 3 (eapply io_wrote_trans; [apply io_wrote_upd_log; eassumption|]). done.
Qed.
End Commit.

(** ** Recovery *)

(** The transaction that a header block records. *)
Definition head_list (d : list Z) : list Z := map (head_block d) (seqZ 0 (head_n d)).
Definition log_read (d : list Z) (lg : logstate) : logstate :=
  set_lh_block (foldl (fun l i => <[Z.to_nat i := head_block d i]> l) (lh_block lg) (seqZ 0 (head_n d)))
    (set_lh_n (head_n d) lg).

Lemma length_head_list d : 0 <= head_n d -> Z.of_nat (length (head_list d)) = head_n d.
Proof. intros H. unfold head_list. rewrite length_map, length_seqZ. lia. Qed.

Lemma foldl_inserts (f : Z -> Z) (m : nat) (l : list Z) :
  (m <= length l)%nat ->
  let l' := foldl (fun l i => <[Z.to_nat i := f i]> l) l (seqZ 0 (Z.of_nat m)) in
  length l' = length l /\ take m l' = map f (seqZ 0 (Z.of_nat m)).
Proof.
  induction m as [|m IH]; intros Hm; [done|].
  replace (Z.of_nat (S m)) with (Z.of_nat m + 1) by lia. rewrite seqZ_app by lia. cbn zeta in *.
  assert (seqZ (0 + Z.of_nat m) 1 = [Z.of_nat m]) as -> by (rewrite seqZ_cons by lia; f_equal; lia).
  rewrite foldl_app, map_app. cbn [foldl map].
  destruct IH as [IH1 IH2]; [lia|]. set (l1 := foldl _ _ _) in *.
  rewrite Nat2Z.id. split; [by rewrite length_insert|].
  rewrite (take_S_r _ m (f (Z.of_nat m))) by (apply list_lookup_insert_eq; lia).
  rewrite take_insert_ge by lia. by rewrite IH2.
Qed.

Lemma log_read_txn dev d lg :
  l_dev lg = dev -> 0 <= head_n d -> head_n d <= Z.of_nat (length (lh_block lg)) ->
  txn dev (l_start lg) (head_list d) (log_read d lg).
Proof.
  intros Hd H0 Hn. pose proof (length_head_list d H0) as El. constructor; [done|done|cbn; lia|].
  cbn. destruct (foldl_inserts (head_block d) (length (head_list d)) (lh_block lg)) as [_ E]; [lia|].
  by rewrite El in E.
Qed.

Section Recovery.
Context {D : BlockDevice} {DOK : BlockDeviceOK D}.
Context (p : nat) (dev : Z) (e : list (kernel -> kernel)).

Lemma read_head_view k c pin :
  bcached p dev k c pin ∅ -> l_dev (k_log k) = dev -> bc_room pin ∅ ->
  exists k', read_head e k = Ok tt e k' /\ bcached p dev k' c pin ∅ /\
    io_frame (upd_log (log_read (c (l_start (k_log k)))) k) k'.
Proof.
  intros H Hdev Hroom. set (start := l_start (k_log k)) in *. set (d := c start).
  unfold read_head. rewrite (bind_Ok (gets k_log) _ (k_log k) e k e k eq_refl). rewrite Hdev. fold start.
  destruct (bread_view p dev e k c pin ∅ H start) as (i & k1 & E1 & H1 & F1); [done|by left|].
  rewrite (bind_Ok _ _ _ _ _ _ _ E1).
  assert (<[start := i]> (∅ : gmap Z nat) !! start = Some i) as Hh by by rewrite lookup_insert_eq.
  destruct (bc_held_at p dev k1 c pin _ H1 i start Hh) as [_ Hb].
  rewrite (bind_Ok (gets _) _ d e k1 e k1) by (cbn; by rewrite (bh_data _ _ _ _ _ _ _ _ Hb)).
  fold (head_n d). rewrite (bind_Ok (modify _) _ tt e k1 e (upd_log (set_lh_n (head_n d)) k1) eq_refl).
  rewrite (bind_Ok (gets _) _ (head_n d) e _ e (upd_log (set_lh_n (head_n d)) k1) eq_refl).
  set (fill := fun js lg => set_lh_block (foldl (fun l i => <[Z.to_nat i := head_block d i]> l) (lh_block lg) js)
                              (set_lh_n (head_n d) lg)).
  destruct (for_inv (fun done s => s = upd_log (fill done) k1) (seqZ 0 (head_n d))
    (fun i => modify (upd_log (fun x => set_lh_block (<[Z.to_nat i := i32 (get32 d (lh_word i))]> (lh_block x)) x)))
    e (upd_log (set_lh_n (head_n d)) k1)) as (s & E2 & ->).
  - unfold fill, upd_log. cbn. by destruct (k_log k1).
  - intros done j todo s _ ->. eexists. split; [reflexivity|]. unfold fill, upd_log. cbn. by rewrite foldl_app.
  - rewrite (bind_Ok _ _ _ _ _ _ _ E2).
    apply (bcached_upd_log _ _ _ _ _ _ (fill (seqZ 0 (head_n d)))) in H1 as H2.
    destruct (brelse_view p dev e _ _ _ _ H2 start i Hh) as (k3 & E3 & H3 & F3).
    { destruct (bc_clean _ _ _ _ _ _ H start) as [Hc|[Hc|[? Hx]]]; [|by right|by rewrite lookup_empty in Hx].
      left. rewrite Hc. symmetry. change (disk_block (upd_log ?f ?s)) with (disk_block s). by apply frame_block. }
    exists k3. split; [done|]. rewrite delete_insert_eq, delete_empty in H3. split; [done|].
    rewrite <- F3. change (fill (seqZ 0 (head_n d))) with (log_read d).
    unfold io_frame, upd_log in *. rewrite (frame_log _ _ F1).
    by apply (f_equal (set_k_log (log_read d (k_log k)))) in F1.
Qed.

(** The writes of recovery from the disk [c]. *)
Definition recover_writes (start : Z) (c : Z -> list Z) : blockwrites :=
  home_copy start (head_list (c start)) c ++ [(start, put32 (c start) 0 0)].

Lemma no_pins : bc_room (fun _ => 0) ∅.
Proof. exists []. split; [by apply Nat.ltb_lt|]. intros b [?|[? Hb]]; [done|by rewrite lookup_empty in Hb]. Qed.

Lemma home_copy_blocks start bs c b : b ∈ (home_copy start bs c).*1 -> b ∈ bs.
Proof.
  intros ([x d] & -> & Hin)%list_elem_of_fmap. apply list_elem_of_In, in_map_iff in Hin as (j & Ej & Hj).
  apply list_elem_of_In, elem_of_seqZ in Hj. simplify_eq/=. apply nthZ_in. lia.
Qed.

Lemma recover_ok k c :
  let start := l_start (k_log k) in
  bcached p dev k c (fun _ => 0) ∅ -> l_dev (k_log k) = dev ->
  0 <= head_n (c start) -> head_n (c start) <= Z.of_nat (length (lh_block (k_log k))) ->
  loggable start (head_list (c start)) ->
  let ws := recover_writes start c in
  exists k', recover_from_log e k = Ok tt e k' /\ bcached p dev k' (view_writes ws c) (fun _ => 0) ∅ /\
    io_wrote ws (upd_log (fun lg => set_lh_n 0 (log_read (c start) lg)) k) k'.
Proof.
  intros start H Hdev H0 Hn Hlb ws. unfold recover_from_log.
  destruct (read_head_view k c _ H Hdev no_pins) as (k1 & E1 & H1 & F1). fold start in F1.
  rewrite (bind_Ok _ _ _ _ _ _ _ E1). pose proof (frame_log _ _ F1) as L1.
  pose proof (log_read_txn dev (c start) (k_log k) Hdev H0 Hn) as Htx. fold start in Htx.
  change (k_log (upd_log ?f ?s)) with (f (k_log s)) in L1. rewrite <- L1 in Htx.
  destruct (install_trans_view p dev start _ _ Htx Hlb e 1 k1 c _ H1 eq_refl no_pins) as (k2 & E2 & H2 & W2); [done|].
  rewrite (bind_Ok _ _ _ _ _ _ _ E2). pose proof (wrote_log _ _ _ W2) as L2.
  change (unpin_done _ 1 (fun _ => 0) _) with (fun _ : Z => 0) in H2.
  rewrite (bind_Ok (modify _) _ tt e k2 e (upd_log (set_lh_n 0) k2) eq_refl).
  apply (bcached_upd_log _ _ _ _ _ _ (set_lh_n 0)) in H2.
  destruct (write_head_view p dev start e _ _ _ H2) as (k3 & E3 & H3 & W3);
    [cbn; rewrite L2; apply Htx|cbn; rewrite L2; apply Htx|apply no_pins|].
  change (lh_n (k_log (upd_log (set_lh_n 0) k2))) with 0 in H3, W3.
  assert (view_writes (home_copy start (head_list (c start)) c) c start = c start) as Es.
  { apply view_writes_other. intros Hin%home_copy_blocks%(tb_home _ _ Hlb). change LOGSIZE with 30 in Hin. lia. }
  rewrite Es in H3, W3. change (head_image (c start) 0 _) with (put32 (c start) 0 0) in H3, W3.
  exists k3. split; [done|]. unfold ws, recover_writes. rewrite view_writes_app. split; [done|].
  eapply io_wrote_trans; [|exact W3].
  eapply io_frame_wrote; [|apply io_wrote_upd_log; exact W2].
  unfold io_frame, upd_log in *. rewrite L1. by apply (f_equal (set_k_log (set_lh_n 0 (log_read (c start) (k_log k))))) in F1.
Qed.
End Recovery.

(** ** Crashes *)

(** The block numbers outside the log area. *)
Definition home (start b : Z) : Prop := b < start \/ start + LOGSIZE <= b.

(** What recovery makes of the disk [c]. *)
Definition recovered (start : Z) (c : Z -> list Z) : Z -> list Z := view_writes (recover_writes start c) c.

(** A header block that recovery can act on. *)
Definition valid_head (start : Z) (d : list Z) : Prop := 0 <= head_n d /\ loggable start (head_list d).

Lemma head_list_nil d : head_n d = 0 -> head_list d = [].
Proof. intros E. unfold head_list. by rewrite E. Qed.

Lemma loggable_nil start : loggable start [].
Proof. constructor; [by apply Nat.ltb_lt|constructor|by intros b ?%elem_of_nil]. Qed.
Lemma valid_head_clear start d : head_n d = 0 -> valid_head start d.
Proof. intros E. split; [lia|]. rewrite head_list_nil by done. apply loggable_nil. Qed.

Lemma recovered_clear start c : length (c start) = Z.to_nat BSIZE -> head_n (recovered start c start) = 0.
Proof.
  intros Hl. unfold recovered, recover_writes. rewrite view_writes_app. cbn. rewrite fupd_eq.
  apply (head_image_n (c start) 0 []); [|done]. change LOGSIZE with 30. lia.
Qed.

Lemma recovered_nothing start c b : head_n (c start) = 0 -> b <> start -> recovered start c b = c b.
Proof.
  intros Hn Hb. unfold recovered, recover_writes. rewrite (head_list_nil _ Hn). cbn. by apply fupd_ne.
Qed.

(** Recovery copies the log of the recorded transaction and nothing else. *)
Lemma recovered_home start c i bs :
  head_list (c start) = bs -> loggable start bs -> 0 <= i < Z.of_nat (length bs) ->
  recovered start c (nthZ bs i) = c (start + i + 1).
Proof.
  intros Eb Hlb Hi. unfold recovered, recover_writes. rewrite Eb, view_writes_app. clear Eb. cbn.
  pose proof (tb_home _ _ Hlb _ (nthZ_in bs i Hi)) as [_ Hh]. change LOGSIZE with 30 in Hh.
  rewrite fupd_ne by lia. apply view_writes_in.
  - apply list_elem_of_In, in_map_iff. exists i. split; [done|]. apply list_elem_of_In, elem_of_seqZ. lia.
  - intros d Hd. apply list_elem_of_In, in_map_iff in Hd as (j & Ej & Hj).
    apply list_elem_of_In, elem_of_seqZ in Hj. simplify_eq/=.
    by rewrite (nthZ_inj bs j i (tb_nodup _ _ Hlb)) by (done || lia).
Qed.

Lemma recovered_other start c b :
  home start b -> b ∉ head_list (c start) -> recovered start c b = c b.
Proof.
  intros Hh Hb. unfold recovered, recover_writes. rewrite view_writes_app. cbn.
  unfold home in Hh. change LOGSIZE with 30 in Hh. rewrite fupd_ne by lia.
  apply view_writes_other. intros Hin. by apply home_copy_blocks in Hin.
Qed.

(** Recovery depends on the contents of the disk only. *)
Lemma recovered_ext start c c' : (forall b, c b = c' b) -> forall b, recovered start c b = recovered start c' b.
Proof.
  intros E b. unfold recovered.
  assert (recover_writes start c = recover_writes start c') as ->.
  { unfold recover_writes, home_copy. rewrite (E start). f_equal. apply map_ext. intros i. by rewrite E. }
  apply view_writes_ext, E.
Qed.

Section Crash.
Context (start : Z) (bs bl : list Z) (c d : Z -> list Z).
Context (Hlb : loggable start bs) (Hbl : take (length bs) bl = bs).
Context (Hclean : forall b, b ∉ bs -> c b = d b).
Context (Hlen : length (c start) = Z.to_nat BSIZE) (Hidle : head_n (d start) = 0).

Lemma start_not_home : start ∉ bs.
Proof. intros Hin%(tb_home _ _ Hlb). change LOGSIZE with 30 in Hin. lia. Qed.

Lemma log_size_bound : Z.of_nat (length bs) < LOGSIZE.
Proof. pose proof (tb_size _ _ Hlb) as Hs. change NBUF with 30%nat in Hs. change LOGSIZE with 30. lia. Qed.

Lemma bl_nth i : 0 <= i < Z.of_nat (length bs) -> nth (Z.to_nat i) bl 0 = nthZ bs i.
Proof.
  intros Hi. unfold nthZ. rewrite <- Hbl at 1. rewrite !nth_lookup. by rewrite lookup_take_lt by lia.
Qed.

(** The header of the transaction reads back as the transaction. *)
Lemma commit_head_list : head_list (head_image (c start) (Z.of_nat (length bs)) bl) = bs.
Proof.
  pose proof log_size_bound as Hs. unfold head_list. rewrite head_image_n by (done || lia).
  etrans; [|apply map_id]. rewrite <- (map_nthZ bs (fun x => x)). apply map_ext_in.
  intros i Hi%list_elem_of_In%elem_of_seqZ.
  pose proof (proj1 (tb_home _ _ Hlb _ (nthZ_in bs i ltac:(lia)))) as Hr.
  rewrite head_image_block; rewrite ?bl_nth; (done || lia).
Qed.

(** The home blocks after some of the home writes. *)
Lemma home_write_cases h1 h2 c' b :
  map (fun b => (b, c b)) bs = h1 ++ h2 ->
  view_writes h1 c' b = c' b /\ b ∉ h1.*1 \/ b ∈ bs /\ view_writes h1 c' b = c b.
Proof.
  intros E. destruct (decide (b ∈ h1.*1)) as [Hin|Hn]; [right|left; split; [by apply view_writes_other|done]].
  assert (forall x y, (x, y) ∈ h1 -> x ∈ bs /\ y = c x) as Hh.
  { intros x y Hx. assert ((x, y) ∈ map (fun b => (b, c b)) bs) as Hm by (rewrite E; apply elem_of_app; by left).
    apply list_elem_of_In, in_map_iff in Hm as (z & Ez & Hz%list_elem_of_In). by simplify_eq/=. }
  apply list_elem_of_fmap in Hin as ([x y] & -> & Hx). destruct (Hh x y Hx) as [Hb ->]. split; [done|]. cbn.
  apply view_writes_in; [done|]. intros z Hz. by apply Hh in Hz as [_ ?].
Qed.

Let lc := log_copy start bs c.
Let hd := commit_header start c (Z.of_nat (length bs)) bl.

(** Before the header is written: the old contents. *)
Lemma crash_before l1 l2 :
  lc = l1 ++ l2 ->
  let x := view_writes l1 d in
  valid_head start (x start) /\ forall b, home start b -> recovered start x b = d b.
Proof.
  intros E x. assert (forall b, b ∈ l1.*1 -> start < b <= start + Z.of_nat (length bs)) as Hl1.
  { intros b Hb. apply (log_copy_blocks _ _ c). fold lc. rewrite E, fmap_app. apply elem_of_app. by left. }
  assert (x start = d start) as Es by (apply view_writes_other; intros Hb%Hl1; lia).
  split; [rewrite Es; by apply valid_head_clear|]. intros b Hb. pose proof log_size_bound. unfold home in Hb.
  rewrite recovered_nothing; [|by rewrite Es|change LOGSIZE with 30 in *; lia].
  apply view_writes_other. intros Hx%Hl1. lia.
Qed.

(** From the header to the last home write: the new contents. *)
Lemma crash_after h1 h2 :
  map (fun b => (b, c b)) bs = h1 ++ h2 ->
  let x := view_writes (lc ++ [hd] ++ h1) d in
  valid_head start (x start) /\ forall b, home start b -> recovered start x b = c b.
Proof.
  intros E x. pose proof log_size_bound as Hs.
  assert (forall b, home start b -> b ∉ bs -> x b = c b) as Hother.
  { intros b Hb Hn. unfold x. rewrite !view_writes_app. destruct (home_write_cases h1 h2 (view_writes [hd] (view_writes lc d)) b E) as [[-> _]|[? _]]; [|done].
    cbn. unfold home in Hb. change LOGSIZE with 30 in *. rewrite fupd_ne by lia.
    rewrite view_writes_other; [by rewrite Hclean|]. intros Hin%log_copy_blocks. lia. }
  assert (forall b, ~ home start b -> view_writes h1 (view_writes [hd] (view_writes lc d)) b = view_writes [hd] (view_writes lc d) b) as Hlog.
  { intros b Hb. destruct (home_write_cases h1 h2 (view_writes [hd] (view_writes lc d)) b E) as [[-> _]|[Hin _]]; [done|].
    by apply (tb_home _ _ Hlb) in Hin as [_ ?]. }
  assert (x start = head_image (c start) (Z.of_nat (length bs)) bl) as Es.
  { unfold x. rewrite !view_writes_app, Hlog by (unfold home; change LOGSIZE with 30; lia). cbn. by rewrite fupd_eq. }
  assert (head_list (x start) = bs) as Ehl by (rewrite Es; apply commit_head_list).
  split. { split; [rewrite Es, head_image_n by (done || lia); lia|by rewrite Ehl]. }
  intros b Hb. destruct (decide (b ∈ bs)) as [Hin|Hn].
  - destruct (in_nthZ bs b Hin) as (i & Hi & <-). rewrite (recovered_home start x i bs Ehl Hlb Hi).
    unfold x. rewrite !view_writes_app, Hlog by (unfold home; change LOGSIZE with 30 in *; lia).
    cbn. rewrite fupd_ne by lia. by apply log_copy_at.
  - rewrite recovered_other; [by apply Hother|done|by rewrite Ehl].
Qed.

(** After the header has been cleared: the new contents. *)
Lemma crash_done :
  let x := view_writes (commit_writes start bs bl c) d in
  valid_head start (x start) /\ forall b, home start b -> x b = c b /\ recovered start x b = c b.
Proof.
  intros x. pose proof log_size_bound as Hs. assert (head_n (x start) = 0) as Hn.
  { unfold x, commit_writes. rewrite !view_writes_app. cbn. rewrite fupd_eq.
    apply (head_image_n (head_image (c start) _ bl) 0 []); [change LOGSIZE with 30; lia|by rewrite length_head_image]. }
  split; [by apply valid_head_clear|]. intros b Hb.
  assert (x b = c b) as E; [|split; [done|]; rewrite recovered_nothing; [done..|unfold home in Hb; change LOGSIZE with 30 in *; lia]].
  unfold x, commit_writes. rewrite !view_writes_app. cbn. unfold home in Hb. change LOGSIZE with 30 in *. rewrite fupd_ne by lia.
  destruct (home_write_cases _ [] (view_writes [hd] (view_writes lc d)) b (eq_sym (app_nil_r _))) as [[E Hni]|[_ E]].
  - etrans; [exact E|]. cbn. rewrite fupd_ne by lia. rewrite view_writes_other; [|intros Hin%log_copy_blocks; lia].
    rewrite Hclean; [done|]. intros Hin. apply Hni. apply list_elem_of_In, in_map_iff. exists (b, c b).
    split; [done|]. apply in_map_iff. exists b. split; [done|]. by apply list_elem_of_In.
  - exact E.
Qed.

(** A crash after any number of the writes of a commit. *)
Lemma crash_atomic ws1 ws2 :
  commit_writes start bs bl c = ws1 ++ ws2 ->
  let x := view_writes ws1 d in
  valid_head start (x start) /\
  ((forall b, home start b -> recovered start x b = d b) \/ (forall b, home start b -> recovered start x b = c b)).
Proof.
  intros E x. unfold commit_writes in E. fold lc in E.
  apply app_eq_app in E as [l [[El Er]|[-> Er]]].
  { destruct (crash_before ws1 l El) as [? ?]. tauto. }
  destruct l as [|w l].
  { destruct (crash_before lc []) as [? ?]; [by rewrite app_nil_r|]. unfold x. rewrite app_nil_r. tauto. }
  cbn in Er. injection Er as <- Er. apply app_eq_app in Er as [l' [[El Er]|[-> Er]]].
  { destruct (crash_after l l' El) as [? ?]. split; [done|by right]. }
  destruct l' as [|w l'].
  { destruct (crash_after (map (fun b => (b, c b)) bs) []) as [? ?]; [by rewrite app_nil_r|].
    unfold x. rewrite app_nil_r. split; [done|by right]. }
  injection Er as <- Er. symmetry in Er. apply app_eq_nil in Er as [-> _]. destruct crash_done as [? Hd].
  split; [done|]. right. intros b Hb. by apply Hd.
Qed.
End Crash.

(** The same for recovery: while it copies, the header and the log stay as they
    are, so recovering again repeats the same copies. *)
Lemma recovery_repeats start d ws1 ws2 :
  valid_head start (d start) -> home_copy start (head_list (d start)) d = ws1 ++ ws2 ->
  let x := view_writes ws1 d in
  valid_head start (x start) /\ forall b, home start b -> recovered start x b = recovered start d b.
Proof.
  intros Hv El x. pose proof Hv as [_ Hlb]. set (bs := head_list (d start)) in *.
  assert (forall b, b ∈ ws1.*1 -> b ∈ bs) as Hin.
  { intros b Hb. apply (home_copy_blocks start bs d). rewrite El, fmap_app. apply elem_of_app. by left. }
  assert (forall b, ~ home start b -> x b = d b) as Hlog.
  { intros b Hb. apply view_writes_other. intros Hw%Hin%(tb_home _ _ Hlb). by destruct Hw. }
  assert (x start = d start) as Es by (apply Hlog; unfold home; change LOGSIZE with 30; lia).
  split; [by rewrite Es|]. intros b Hb. destruct (decide (b ∈ bs)) as [Hbb|Hnb].
  - destruct (in_nthZ bs b Hbb) as (i & Hi & <-). pose proof (tb_size _ _ Hlb) as Hs. change NBUF with 30%nat in Hs.
    rewrite (recovered_home start x i bs), (recovered_home start d i bs) by (done || by rewrite Es).
    apply Hlog. unfold home. change LOGSIZE with 30. lia.
  - rewrite !recovered_other by (done || by rewrite Es).
    apply view_writes_other. by intros Hw%Hin.
Qed.

(** A crash after any number of the writes of recovery. *)
Lemma recovery_restarts start d ws1 ws2 :
  valid_head start (d start) -> length (d start) = Z.to_nat BSIZE ->
  recover_writes start d = ws1 ++ ws2 ->
  let x := view_writes ws1 d in
  valid_head start (x start) /\
  forall b, home start b -> recovered start x b = recovered start d b.
Proof.
  intros Hlb Hlen E x. unfold recover_writes in E. apply app_eq_app in E as [l [[El Er]|[-> Er]]].
  - destruct (recovery_repeats start d ws1 l Hlb El) as [? ?]. auto.
  - destruct l as [|w l].
    + destruct (recovery_repeats start d _ [] Hlb (eq_sym (app_nil_r _))) as [? ?].
      unfold x. rewrite app_nil_r. auto.
    + injection Er as <- Er. symmetry in Er. apply app_eq_nil in Er as [-> _].
      change x with (recovered start d).
      pose proof (recovered_clear start d Hlen) as Hn. split; [by apply valid_head_clear|].
      intros b Hb. apply recovered_nothing; [done|]. unfold home in Hb. change LOGSIZE with 30 in Hb. lia.
Qed.

(** ** initlog() *)
Lemma bcached_locks p dev k c pin held lk :
  bcached p dev k c pin held -> bcached p dev (set_k_locks (<[LkLog := lk]> (k_locks k)) k) c pin held.
Proof.
  intros [[[Hc Hn Hl] Hb Hs Hr] [l [? ? ? ?]] ? H4 ? ? ? ?].
  assert (forall l', l' <> LkLog -> lock_free l' k -> lock_free l' (set_k_locks (<[LkLog := lk]> (k_locks k)) k)) as Hf.
  { intros l' Hne [name E]. exists name. cbn. by rewrite lookup_insert_ne. }
  assert (quiet (set_k_locks (<[LkLog := lk]> (k_locks k)) k)) as Hq by (constructor; auto).
  assert (io_ready (set_k_locks (<[LkLog := lk]> (k_locks k)) k) p) as Hio by (constructor; auto).
  constructor; try assumption.
  - exists l. constructor; try done. by apply (dll_ext k).
  - intros i Hi. destruct (H4 i Hi) as [?|[b [B1 B2 B3 B4 B5]]]; [by left|]. right. exists b. by constructor.
Qed.

(** The state of the file system right after boot: nothing of the disk is
    cached with other contents. *)
Record cold_boot (p : nat) (dev start : Z) (k : kernel) : Prop := {
  cb_cache : bcached p dev k (disk_block k) (fun _ => 0) ∅;
  cb_start : i32 (sb_logstart (k_sb k)) = start;
  cb_header : length (lh_block (k_log k)) = Z.to_nat LOGSIZE
}.

Lemma initlog_view {D : BlockDevice} {DOK : BlockDeviceOK D} p dev start e k :
  cold_boot p dev start k -> valid_head start (disk_block k start) ->
  exists k', initlog dev e k = Ok tt e k' /\
    k_writes k' = k_writes k ++ recover_writes start (disk_block k) /\
    (forall b, disk_block k' b = recovered start (disk_block k) b) /\
    k_sb k' = k_sb k /\ bcached p dev k' (recovered start (disk_block k)) (fun _ => 0) ∅.
Proof.
  intros [Hb Hs Hl] [H0 Hlb]. unfold initlog. set (lk := mkSpinlock 0 "log" None).
  set (k1 := set_k_locks (<[LkLog := lk]> (k_locks k)) k).
  set (f := fun lg => set_l_dev dev (set_l_size (i32 (sb_nlog (k_sb k))) (set_l_start start lg))).
  set (k2 := upd_log f k1).
  assert (bcached p dev k2 (disk_block k2) (fun _ => 0) ∅) as H2 by by apply bcached_upd_log, bcached_locks.
  assert (l_start (k_log k2) = start) as E2 by done.
  destruct (recover_ok p dev e k2 (disk_block k2) H2 eq_refl) as (k' & Er & H' & W').
  { by rewrite E2. }
  { rewrite E2. change (disk_block k2) with (disk_block k). rewrite <- (length_head_list _ H0).
    change (length (lh_block (k_log k2))) with (length (lh_block (k_log k))). rewrite Hl. pose proof (tb_size _ _ Hlb) as Hn. change NBUF with 30%nat in Hn. change LOGSIZE with 30. lia. }
  { by rewrite E2. }
  rewrite E2 in W'. exists k'. split_and!.
  - rewrite (bind_Ok (initlock LkLog "log") _ tt e k e k1 eq_refl).
    rewrite (bind_Ok (gets k_sb) _ (k_sb k) e k1 e k1 eq_refl).
    rewrite Hs. exact Er.
  - by apply frame_writes in W'.
  - intros b. rewrite (wrote_disk _ _ _ b W'). done.
  - exact (f_equal k_sb W').
  - rewrite E2 in H'. exact H'.
Qed.
Lemma initlog_ok {D : BlockDevice} {DOK : BlockDeviceOK D} p dev start e k :
  cold_boot p dev start k -> valid_head start (disk_block k start) ->
  exists k', initlog dev e k = Ok tt e k' /\
    k_writes k' = k_writes k ++ recover_writes start (disk_block k) /\
    (forall b, disk_block k' b = recovered start (disk_block k) b).
Proof. intros Hb Hv. destruct (initlog_view p dev start e k Hb Hv) as (k' & E & Hw & Hd & _). by exists k'. Qed.

(** ** The last end_op() of a transaction *)
Lemma end_op_last {D : BlockDevice} {DOK : BlockDeviceOK D} p dev start bs e k c :
  bcached p dev k c (pinned bs) ∅ -> txn dev start bs (k_log k) -> loggable start bs -> bs <> [] ->
  lock_free LkLog k -> l_committing (k_log k) = 0 -> l_outstanding (k_log k) = 1 ->
  let ws := commit_writes start bs (lh_block (k_log k)) c in
  exists k', end_op e k = Ok tt e k' /\ k_writes k' = k_writes k ++ ws /\
    (forall b, disk_block k' b = view_writes ws (disk_block k) b) /\
    k_log k' = set_lh_n 0 (set_l_outstanding 0 (k_log k)).
Proof.
  intros H Htx Hlb Hne Hl Hc Ho ws. pose proof (bc_io _ _ _ _ _ _ H) as [Hq _ _ _]. unfold end_op.
  rewrite (bind_Ok _ _ _ _ _ _ _ (acquire_free _ e k (q_cpu k Hq) Hl)).
  rewrite (bind_Ok (modify _) _ tt e (lock_taken LkLog k) e (lock_taken LkLog (upd_log op_ended k)) eq_refl).
  rewrite (bind_Ok (gets k_log) _ (op_ended (k_log k)) e (lock_taken LkLog (upd_log op_ended k)) e
             (lock_taken LkLog (upd_log op_ended k)) eq_refl).
  rewrite (decide_False (P := l_committing _ <> 0)) by (cbn; lia). cbn zeta.
  rewrite bool_decide_eq_true_2 by (cbn; lia).
  set (f := fun lg => set_l_committing 1 (op_ended lg)).
  rewrite (bind_Ok (modify (upd_log (set_l_committing 1))) _ tt e (lock_taken LkLog (upd_log op_ended k)) e
             (lock_taken LkLog (upd_log f k)) eq_refl).
  rewrite (bind_Ok _ _ _ _ _ _ _ (release_taken LkLog e (upd_log f k) (q_cpu k Hq) Hl)). cbn [when].
  destruct (commit_ok p dev start bs e Hlb (upd_log f k) c) as (k1 & E1 & H1 & W1);
    [by apply bcached_upd_log|by destruct Htx; constructor|done|].
  rewrite (bind_Ok _ _ _ _ _ _ _ E1).
  assert (lock_free LkLog k1) as Hl1.
  { destruct Hl as [name En]. exists name. rewrite <- En.
    by pose proof (f_equal k_locks W1 : k_locks k1 = k_locks k) as ->. }
  pose proof (bc_io _ _ _ _ _ _ H1) as [Hq1 _ _ _].
  rewrite (bind_Ok _ _ _ _ _ _ _ (acquire_free _ e k1 (q_cpu k1 Hq1) Hl1)).
  set (k2 := upd_log (set_l_committing 0) k1).
  rewrite (bind_Ok (modify (upd_log (set_l_committing 0))) _ tt e (lock_taken LkLog k1) e (lock_taken LkLog k2) eq_refl).
  assert (quiet k2) as Hq2 by (constructor; apply Hq1).
  rewrite (bind_Ok _ _ _ _ _ _ _ (wakeup_taken ChLog LkLog e k2 ltac:(done) Hq2)).
  exists (woken ChLog k2). split_and!.
  - apply release_taken; [apply woken_cpu_ok, Hq2|done].
  - change (k_writes (woken ChLog k2)) with (k_writes k1). by apply frame_writes in W1.
  - intros b. change (disk_block (woken ChLog k2) b) with (disk_block k1 b). by rewrite (wrote_disk _ _ _ b W1).
  - change (k_log (woken ChLog k2)) with (set_l_committing 0 (k_log k1)). rewrite (wrote_log _ _ _ W1). cbn.
    destruct (k_log k) eqn:El. cbn in *. subst. done.
Qed.
