(* ===== verification/FsTx.v ===== *)
(** * Transactions over the view of the disk

    [in_txn k c bs held]: process [p] is inside a transaction of the log; the
    blocks of the device, as the cache presents them, are [c]; the transaction
    has recorded the blocks [bs]; the process holds the buffers [held].  Every
    block that differs from the disk is recorded, so what end_op() commits is
    exactly the view.  The routines of fs.c read blocks and write them through
    log_write(); both are specified once here. *)

From S2P Require Import Prelude Machine Kstring Kernel Spinlock Kalloc Vm Sched Sleeplock Bio BioSpec Log LogSpec LogCommit.

(** Recording a block, with absorption. *)
Definition absorb (bs : list Z) (b : Z) : list Z := if decide (b ∈ bs) then bs else bs ++ [b].

Lemma absorb_len bs b : (length (absorb bs b) <= S (length bs))%nat.
Proof. unfold absorb. case_decide; rewrite ?length_app; cbn; lia. Qed.
Lemma absorb_in bs b : b ∈ absorb bs b.
Proof. unfold absorb. case_decide; [done|]. apply elem_of_app. right. left. Qed.
Lemma absorb_mono bs b x : x ∈ bs -> x ∈ absorb bs b.
Proof. unfold absorb. case_decide; [done|]. rewrite elem_of_app. tauto. Qed.
Lemma absorb_elem bs b x : x ∈ absorb bs b <-> x ∈ bs \/ x = b.
Proof. unfold absorb. case_decide; [naive_solver|]. rewrite elem_of_app, list_elem_of_singleton. done. Qed.
Lemma absorb_NoDup bs b : NoDup bs -> NoDup (absorb bs b).
Proof.
  intros H. unfold absorb. case_decide as Hb; [done|]. apply NoDup_app. split_and!; [done| |apply NoDup_singleton].
  intros x Hx ->%list_elem_of_singleton. done.
Qed.
#[export] Hint Resolve absorb_in absorb_mono absorb_NoDup : xv6.

(** The log without the record of the transaction. *)
Definition log_static (lg : logstate) : logstate := set_lh_n 0 (set_lh_block [] lg).
Definition fs_frame (k k' : kernel) : Prop := io_frame (upd_log log_static k) (upd_log log_static k').
#[export] Instance fs_frame_equiv : Equivalence fs_frame.
Proof. split; unfold fs_frame; [done|by intros k k' ->|by intros k1 k2 k3 -> ->]. Qed.
Lemma io_fs_frame k k' : io_frame k k' -> fs_frame k k'.
Proof.
  unfold fs_frame, io_frame. intros H. apply (f_equal (upd_log log_static)) in H. exact H.
Qed.
Lemma fs_frame_inode k k' i : fs_frame k k' -> get_inode k' i = get_inode k i.
Proof. intros H. apply (f_equal k_itable) in H. unfold get_inode. cbn in H. by rewrite H. Qed.
Lemma fs_frame_itable k k' : fs_frame k k' -> k_itable k' = k_itable k.
Proof. intros H. by apply (f_equal k_itable) in H. Qed.
Lemma fs_frame_sb k k' : fs_frame k k' -> k_sb k' = k_sb k.
Proof. intros H. by apply (f_equal k_sb) in H. Qed.
Lemma fs_frame_disk k k' b : fs_frame k k' -> disk_block k' b = disk_block k b.
Proof. intros H. apply (f_equal k_disk) in H. unfold disk_block. cbn in H. by rewrite H. Qed.
Lemma fs_frame_log k k' : fs_frame k k' -> log_static (k_log k') = log_static (k_log k).
Proof. intros H. by apply (f_equal k_log) in H. Qed.

Section Tx.
Context (p : nat) (dev : Z).

Record in_txn (k : kernel) (c : Z -> list Z) (bs : list Z) (held : gmap Z nat) : Prop := mkInTxn {
  it_cached : bcached p dev k c (pinned bs) held;
  it_n : lh_n (k_log k) = Z.of_nat (length bs);
  it_blocks : take (length bs) (lh_block (k_log k)) = bs;
  it_len : length (lh_block (k_log k)) = Z.to_nat LOGSIZE;
  it_lock : lock_free LkLog k;
  it_op : 1 <= l_outstanding (k_log k);
  it_size : LOGSIZE <= l_size (k_log k);
  it_nodup : NoDup bs;
  it_clean b : c b = disk_block k b \/ b ∈ bs
}.

Lemma in_txn_ext k c c' bs held : (forall b, c b = c' b) -> in_txn k c bs held -> in_txn k c' bs held.
Proof.
  intros E [H1 H2 H3 H4 H5 H6 H7 H8 H9]. constructor; try done.
  - by apply (bcached_ext p dev k c c' (pinned bs) (pinned bs)).
  - intros b. by rewrite <- E.
Qed.

Lemma txn_room (bs : list Z) (held : gmap Z nat) : (length bs + size held < NBUF)%nat -> bc_room (pinned bs) held.
Proof.
  intros Hs. exists (bs ++ (map_to_list held).*1). rewrite length_app, length_fmap, length_map_to_list. split; [done|].
  intros b [Hb|[i Hb]]; apply elem_of_app; [left|right].
  - unfold pinned in Hb. by case_decide.
  - apply list_elem_of_fmap. exists (b, i). split; [done|]. by apply elem_of_map_to_list.
Qed.

Section Ops.
Context {D : BlockDevice} {DOK : BlockDeviceOK D}.
Context (e : list (kernel -> kernel)) (k : kernel) (c : Z -> list Z) (bs : list Z) (held : gmap Z nat).
Context (H : in_txn k c bs held).

Lemma in_txn_open : Z.of_nat (length bs) < LOGSIZE - 1 -> log_open k.
Proof.
  intros Hb. destruct H as [H1 H2 H3 H4 H5 H6 H7 H8 H9]. destruct (bc_io _ _ _ _ _ _ H1) as [Hq Hbl Hsl Hrun].
  constructor; [apply Hq|done|done|lia|done|done].
Qed.
Lemma in_txn_frame k' held' : bcached p dev k' c (pinned bs) held' -> io_frame k k' -> in_txn k' c bs held'.
Proof.
  intros Hc Hf. destruct H as [H1 H2 H3 H4 H5 H6 H7 H8 H9]. pose proof (frame_log _ _ Hf) as El.
  constructor; rewrite ?El; try done.
  - unfold lock_free, get_lock in *. apply (f_equal k_locks) in Hf. cbn in Hf. by rewrite Hf.
  - intros b. rewrite (frame_block _ _ b Hf). done.
Qed.

(** bread() of a block the process does not hold. *)
Lemma tx_bread b :
  held !! b = None -> (length bs + size held < NBUF)%nat ->
  exists i k', bread dev b e k = Ok i e k' /\ in_txn k' c bs (<[b := i]> held) /\ b_data (get_buf k' i) = c b /\ fs_frame k k'.
Proof.
  intros Hn Hs. destruct (bread_view p dev e k c (pinned bs) held (it_cached _ _ _ _ H) b Hn) as (i & k' & E & Hc & Hf);
    [left; by apply txn_room|].
  exists i, k'. split_and!; [done| | |by apply io_fs_frame].
  - by apply in_txn_frame.
  - destruct (bc_held_at p dev k' c (pinned bs) (<[b := i]> held) Hc i b) as [_ Hb]; [by rewrite lookup_insert_eq|]. apply Hb.
Qed.

(** brelse() of a held buffer. *)
Lemma tx_brelse b i :
  held !! b = Some i -> exists k', brelse i e k = Ok tt e k' /\ in_txn k' c bs (delete b held) /\ fs_frame k k'.
Proof.
  intros Hh. destruct (brelse_view p dev e k c (pinned bs) held (it_cached _ _ _ _ H) b i Hh) as (k' & E & Hc & Hf).
  { destruct (it_clean _ _ _ _ H b) as [?|Hb]; [by left|]. right. unfold pinned. by rewrite decide_True. }
  exists k'. split_and!; [done|by apply in_txn_frame|by apply io_fs_frame].
Qed.

(** A store to a held buffer followed by log_write(). *)
Lemma tx_store b i d :
  held !! b = Some i -> length d = Z.to_nat BSIZE -> Z.of_nat (length bs) < LOGSIZE - 1 ->
  exists k', log_write i e (upd_buf i (set_b_data d) k) = Ok tt e k' /\
    in_txn k' (fupd b d c) (absorb bs b) held /\ fs_frame k k'.
Proof.
  intros Hh Hd Hb. pose proof (in_txn_open Hb) as [L1 L2 L3 L4 L5 L6]. set (k1 := upd_buf i (set_b_data d) k).
  assert (log_open k1) as Ho by by constructor.
  pose proof (store_view p dev k c (pinned bs) held (it_cached _ _ _ _ H) b i d Hh Hd) as Hs. fold k1 in Hs.
  destruct (bc_held_at p dev k c (pinned bs) held (it_cached _ _ _ _ H) i b Hh) as [Hi [[_ Hbn] _ _ _ _]].
  assert (b_blockno (get_buf k1 i) = b) as Hbn1. { unfold k1. by rewrite (get_buf_self p dev k c (pinned bs) held i _ (it_cached _ _ _ _ H) Hi). }
  assert (logged k1 = bs) as Hlg. { unfold logged. cbn. rewrite (it_n _ _ _ _ H), Nat2Z.id. apply H. }
  destruct H as [H1 H2 H3 H4 H5 H6 H7 H8 H9]. destruct (decide (b ∈ bs)) as [Hin|Hin].
  - exists k1. rewrite (log_write_absorbs i e k1 Ho) by by rewrite Hbn1, Hlg. split; [done|]. split; [|done].
    assert (absorb bs b = bs) as -> by (unfold absorb; by rewrite decide_True).
    constructor; try done. intros x. unfold fupd. case_decide as Ex; [right; by subst|apply H9].
  - rewrite (log_write_appends i e k1 Ho) by by rewrite Hbn1, Hlg. rewrite Hbn1. eexists. split; [done|].
    assert (absorb bs b = bs ++ [b]) as -> by (unfold absorb; by rewrite decide_False). split; [|done].
    assert (pinned bs b = 0) as Hp0 by (unfold pinned; by rewrite decide_False).
    pose proof (recount_view p dev k1 (fupd b d c) (pinned bs) held Hs b i 1 Hh ltac:(lia)) as Hrc.
    assert (Z.of_nat (length bs) < Z.of_nat (length (lh_block (k_log k)))) as Hlt by (rewrite H4; unfold LOGSIZE, MAXOPBLOCKS in *; lia).
    constructor.
    + apply bcached_upd_log. apply (bcached_ext p dev _ (fupd b d c) _ (fupd b (pinned bs b + 1) (pinned bs))); [done| |exact Hrc].
      intros x. unfold fupd, pinned. repeat case_decide; subst; set_solver.
    + cbn. rewrite H2, length_app. cbn. lia.
    + cbn. rewrite H2, length_app, Nat2Z.id. cbn. rewrite Nat.add_1_r.
      rewrite (take_S_r _ _ b) by (apply list_lookup_insert_eq; lia). by rewrite take_insert_ge, H3.
    + cbn. by rewrite length_insert.
    + done.
    + done.
    + done.
    + apply NoDup_app. split_and!; [done| |apply NoDup_singleton]. by intros x Hx ->%list_elem_of_singleton.
    + intros x. rewrite elem_of_app, list_elem_of_singleton. unfold fupd. case_decide as Ex; [by right; right|].
      destruct (H9 x); [by left|right; by left].
Qed.
End Ops.

(** Read a block, rewrite it, record it and release it. *)
Lemma tx_update {D : BlockDevice} {DOK : BlockDeviceOK D} e k c bs held b g :
  in_txn k c bs held -> held !! b = None -> (length bs + size held + 2 <= NBUF)%nat -> length (g (c b)) = Z.to_nat BSIZE ->
  exists k', (bp <- bread dev b;;
              modify (upd_buf bp (fun x => set_b_data (g (b_data x)) x));;;
              log_write bp;;;
              brelse bp) e k = Ok tt e k' /\
    in_txn k' (fupd b (g (c b)) c) (absorb bs b) held /\ fs_frame k k'.
Proof.
  intros H Hn Hs Hg. destruct (tx_bread e k c bs held H b Hn ltac:(lia)) as (i & k1 & E1 & H1 & Hd1 & F1).
  rewrite (bind_Ok _ _ _ _ _ _ _ E1). cbn [bind modify]. rewrite upd_buf_data, Hd1.
  destruct (tx_store e k1 c bs _ H1 b i (g (c b))) as (k2 & E2 & H2 & F2); [by rewrite lookup_insert_eq|done| |].
  { unfold NBUF, LOGSIZE, MAXOPBLOCKS in *. lia. }
  rewrite E2. destruct (tx_brelse e k2 _ _ _ H2 b i) as (k3 & E3 & H3 & F3); [by rewrite lookup_insert_eq|].
  exists k3. split; [done|]. split; [|by rewrite F1, F2]. rewrite delete_insert_id in H3; done.
Qed.
End Tx.
