(* ===== verification/FsAlloc.v ===== *)
(** * Block allocation: balloc(), bfree() and bzero()

    Block [b] is free in the view [c] when its bit in the bitmap is clear.
    balloc() takes the lowest free block, marks it and clears its contents;
    bfree() gives a block back.  Both change the bitmap at that block only. *)

From S2P Require Import Prelude Machine Kstring Kernel Spinlock Kalloc Vm Sched Sleeplock Bio BioSpec Log LogSpec LogCommit Fs FsSpec FsTx.

Definition zeros : list Z := replicate (Z.to_nat BSIZE) 0.
Lemma length_zeros : length zeros = Z.to_nat BSIZE.
Proof. apply length_replicate. Qed.

(** The geometry of the bitmap: block numbers do not wrap. *)
Record geometry (sb : superblock) : Prop := mkGeometry {
  g_size : 0 < sb_size sb < 2 ^ 31;
  g_bmap : 0 <= sb_bmapstart sb < 2 ^ 31
}.
Definition block_free (c : Z -> list Z) (sb : superblock) (b : Z) : Prop := bit_free (c (BBLOCK b sb)) (b mod BPB).
#[export] Instance block_free_dec c sb b : Decision (block_free c sb b) := bit_free_dec _ _.
(** [x] is a block of the bitmap. *)
Definition bitmap_block (sb : superblock) (x : Z) : Prop := exists b, 0 <= b < sb_size sb /\ x = BBLOCK b sb.
(** The blocks before the data (boot block, superblock, log, inodes, bitmap)
    are marked as used. *)
Definition data_start (sb : superblock) : Z := sb_bmapstart sb + sb_size sb / BPB + 1.
Definition bitmap_ok (c : Z -> list Z) (sb : superblock) : Prop :=
  forall b, 0 <= b < sb_size sb -> block_free c sb b -> data_start sb <= b.

Definition mark_used (sb : superblock) (b : Z) (c : Z -> list Z) : Z -> list Z :=
  fupd (BBLOCK b sb) (bit_set (c (BBLOCK b sb)) (b mod BPB)) c.
Definition mark_free (sb : superblock) (b : Z) (c : Z -> list Z) : Z -> list Z :=
  fupd (BBLOCK b sb) (bit_clear (c (BBLOCK b sb)) (b mod BPB)) c.
(** The view after balloc() has returned [b]. *)
Definition allocated (sb : superblock) (b : Z) (c : Z -> list Z) : Z -> list Z := fupd b zeros (mark_used sb b c).

Lemma BPB_eq : BPB = 8192.
Proof. done. Qed.
Lemma BBLOCK_eq sb b : geometry sb -> 0 <= b < sb_size sb -> BBLOCK b sb = b / BPB + sb_bmapstart sb.
Proof. intros [G1 G2] Hb. unfold BBLOCK. apply u32_small. rewrite BPB_eq. Z.to_euclidean_division_equations. lia. Qed.
Lemma BBLOCK_div sb b b' : b / BPB = b' / BPB -> BBLOCK b sb = BBLOCK b' sb.
Proof. intros E. unfold BBLOCK. by rewrite E. Qed.
Lemma bit_in_block b : 0 <= b mod BPB /\ b mod BPB / 8 < BSIZE.
Proof. rewrite BPB_eq. unfold BSIZE. Z.to_euclidean_division_equations. lia. Qed.

(** Marking a block changes the bit of that block only. *)
Lemma block_free_mark sb b b' c :
  geometry sb -> 0 <= b < sb_size sb -> 0 <= b' < sb_size sb -> length (c (BBLOCK b sb)) = Z.to_nat BSIZE ->
  (block_free (mark_used sb b c) sb b' <-> b' <> b /\ block_free c sb b') /\
  (block_free (mark_free sb b c) sb b' <-> b' = b \/ block_free c sb b').
Proof.
  intros G Hb Hb' Hl. destruct (bit_in_block b) as [B1 B2]. destruct (bit_in_block b') as [B3 B4].
  unfold block_free, mark_used, mark_free, fupd. rewrite !(BBLOCK_eq sb) in * by done.
  pose proof (Z.div_mod b BPB ltac:(done)) as E1. pose proof (Z.div_mod b' BPB ltac:(done)) as E2.
  case_decide as E; [|split; split; intros; try tauto; [split; [by intros ->|done]|destruct H as [->|?]; [by destruct E|done]]].
  assert (b' / BPB = b / BPB) as Ed by lia. rewrite Ed. rewrite bit_free_set, bit_free_clear by (rewrite ?Hl; unfold BSIZE in *; lia).
  assert (b' mod BPB = b mod BPB <-> b' = b) as Em by (split; [lia|by intros ->]). rewrite Em. done.
Qed.

Lemma bitmap_below sb x : geometry sb -> bitmap_block sb x -> 0 <= x < data_start sb.
Proof.
  intros G (b & Hb & ->). rewrite BBLOCK_eq by done. destruct G. unfold data_start. rewrite BPB_eq.
  Z.to_euclidean_division_equations. lia.
Qed.

(** What balloc() does to the blocks and to the bitmap. *)
Section Allocated.
Context (sb : superblock) (c : Z -> list Z) (b : Z) (G : geometry sb) (Hb : 0 <= b < sb_size sb) (Hd : data_start sb <= b).
Context (Hlen : forall x, length (c x) = Z.to_nat BSIZE).

Lemma allocated_self : allocated sb b c b = zeros.
Proof. apply fupd_eq. Qed.
Lemma allocated_data a : data_start sb <= a -> a <> b -> allocated sb b c a = c a.
Proof.
  intros Ha Hne. unfold allocated, mark_used. rewrite fupd_ne by done. apply fupd_ne.
  intros ->. pose proof (bitmap_below sb (BBLOCK b sb) G ltac:(by exists b)). lia.
Qed.
Lemma allocated_bitmap b' : 0 <= b' < sb_size sb -> block_free (allocated sb b c) sb b' <-> b' <> b /\ block_free c sb b'.
Proof.
  intros Hb'. rewrite <- (proj1 (block_free_mark sb b b' c G Hb Hb' (Hlen _))). unfold block_free, allocated.
  rewrite fupd_ne; [done|]. pose proof (bitmap_below sb (BBLOCK b' sb) G ltac:(by exists b')). lia.
Qed.
Lemma allocated_bitmap_ok : bitmap_ok c sb -> bitmap_ok (allocated sb b c) sb.
Proof. intros Hok b' Hb' Hf. apply allocated_bitmap in Hf as [_ Hf]; [|done]. by apply Hok. Qed.
Lemma allocated_len x : length (allocated sb b c x) = Z.to_nat BSIZE.
Proof.
  unfold allocated, mark_used, fupd. repeat case_decide; [apply length_zeros|unfold bit_set; by rewrite length_put8|done].
Qed.
End Allocated.

Section Alloc.
Context `{Symbols} {D : BlockDevice} {DOK : BlockDeviceOK D} (p : nat) (dev : Z).

Lemma bzero_ok e k c bs held b :
  in_txn p dev k c bs held -> held !! b = None -> (length bs + size held + 2 <= NBUF)%nat ->
  exists k', bzero dev b e k = Ok tt e k' /\ in_txn p dev k' (fupd b zeros c) (absorb bs b) held /\ fs_frame k k'.
Proof.
  intros Hk Hn Hs. apply (tx_update p dev e k c bs held b (fun _ => zeros) Hk Hn Hs length_zeros).
Qed.

Lemma bfree_ok e k c bs held b :
  in_txn p dev k c bs held -> held !! BBLOCK b (k_sb k) = None -> (length bs + size held + 2 <= NBUF)%nat ->
  ~ block_free c (k_sb k) b ->
  exists k', bfree dev b e k = Ok tt e k' /\
    in_txn p dev k' (mark_free (k_sb k) b c) (absorb bs (BBLOCK b (k_sb k))) held /\ fs_frame k k'.
Proof.
  intros Hk Hn Hs Hu. unfold bfree. cbn [bind gets]. set (bb := BBLOCK b (k_sb k)) in *.
  destruct (tx_bread p dev e k c bs held Hk bb Hn ltac:(lia)) as (i & k1 & E1 & H1 & Hd1 & F1). rewrite E1. cbn [bind gets].
  rewrite Hd1. rewrite decide_False by done. cbn [bind modify].
  rewrite (upd_buf_data i (fun d => bit_clear d (b mod BPB))), Hd1.
  destruct (tx_store p dev e k1 c bs _ H1 bb i (bit_clear (c bb) (b mod BPB))) as (k2 & E2 & H2 & F2).
  { by rewrite lookup_insert_eq. }
  { unfold bit_clear. rewrite length_put8. apply (bc_len _ _ _ _ _ _ (it_cached _ _ _ _ _ _ Hk)). }
  { unfold NBUF, LOGSIZE, MAXOPBLOCKS in *. lia. }
  rewrite E2. destruct (tx_brelse p dev e k2 _ _ _ H2 bb i) as (k3 & E3 & H3 & F3); [by rewrite lookup_insert_eq|].
  exists k3. split; [done|]. split; [|by rewrite F1, F2]. rewrite delete_insert_id in H3; done.
Qed.
Lemma bfree_twice e k c bs held b :
  in_txn p dev k c bs held -> held !! BBLOCK b (k_sb k) = None -> (length bs + size held < NBUF)%nat ->
  block_free c (k_sb k) b -> bfree dev b e k = Panic "freeing free block".
Proof.
  intros Hk Hn Hs Hu. unfold bfree. cbn [bind gets].
  destruct (tx_bread p dev e k c bs held Hk _ Hn Hs) as (i & k1 & E1 & H1 & Hd1 & F1). rewrite E1. cbn [bind gets].
  rewrite Hd1. by rewrite decide_True.
Qed.

Lemma in_bitmap b0 bi : b0 mod BPB = 0 -> 0 <= bi < BPB -> forall sb, BBLOCK (b0 + bi) sb = BBLOCK b0 sb /\ (b0 + bi) mod BPB = bi.
Proof.
  intros H0 Hbi sb. rewrite BPB_eq in *. split; [apply BBLOCK_div; rewrite BPB_eq|]; Z.to_euclidean_division_equations; lia.
Qed.

(** One bitmap block: its first free block is taken, or it has none. *)
Lemma balloc_in_ok e k c bs held b0 :
  let sb := k_sb k in
  in_txn p dev k c bs held -> geometry sb ->
  0 <= b0 < sb_size sb -> b0 mod BPB = 0 -> held !! BBLOCK b0 sb = None ->
  (forall b, 0 <= b < sb_size sb -> block_free c sb b -> held !! b = None) ->
  (length bs + size held + 3 <= NBUF)%nat ->
  (exists b k', balloc_in dev b0 e k = Ok (Some b) e k' /\ b0 <= b < sb_size sb /\ b / BPB = b0 / BPB /\ block_free c sb b /\
     (forall b', b0 <= b' < b -> ~ block_free c sb b') /\
     in_txn p dev k' (allocated sb b c) (absorb (absorb bs (BBLOCK b sb)) b) held /\ fs_frame k k') \/
  (exists k', balloc_in dev b0 e k = Ok None e k' /\ in_txn p dev k' c bs held /\ fs_frame k k' /\
     forall b, b0 <= b < b0 + BPB -> b < sb_size sb -> ~ block_free c sb b).
Proof.
  intros sb Hk G Hb0 Hm Hn Hfree Hs. unfold balloc_in. cbn [bind gets]. fold sb. set (bb := BBLOCK b0 sb) in *.
  destruct (tx_bread p dev e k c bs held Hk bb Hn) as (i & k1 & E1 & H1 & Hd1 & F1); [lia|]. rewrite E1. cbn [bind gets]. rewrite Hd1.
  pose proof (bc_len _ _ _ _ _ _ (it_cached _ _ _ _ _ _ Hk) bb) as Hlen.
  assert (forall b, b0 <= b < b0 + BPB -> block_free c sb b <-> bit_free (c bb) (b - b0)) as Hbit.
  { intros b Hb. destruct (in_bitmap b0 (b - b0) Hm ltac:(lia) sb) as [Ea Eb]. replace (b0 + (b - b0)) with b in Ea, Eb by lia.
    unfold block_free. by rewrite Ea, Eb. }
  destruct (list_find (bit_free (c bb)) (seqZ 0 (Z.min BPB (sb_size sb - b0)))) as [[n bi]|] eqn:Ef.
  - left. apply list_find_Some in Ef as (Hbi & Hfr & Hfirst). apply lookup_seqZ in Hbi as [Ebi Hbi]. rewrite Z.add_0_l in Ebi.
    assert (0 <= bi < BPB /\ b0 + bi < sb_size sb) as [Hb1 Hb2] by lia.
    assert (block_free c sb (b0 + bi)) as Hbf. { apply Hbit; [lia|]. by replace (b0 + bi - b0) with bi by lia. }
    destruct (in_bitmap b0 bi Hm Hb1 sb) as [Ea Eb]. fold bb in Ea.
    cbn [bind modify]. rewrite (upd_buf_data i (fun d => bit_set d bi)), Hd1.
    destruct (tx_store p dev e k1 c bs _ H1 bb i (bit_set (c bb) bi)) as (k2 & E2 & H2 & F2).
    { by rewrite lookup_insert_eq. }
    { unfold bit_set. by rewrite length_put8. }
    { unfold NBUF, LOGSIZE, MAXOPBLOCKS in *. lia. }
    rewrite E2. destruct (tx_brelse p dev e k2 _ _ _ H2 bb i) as (k3 & E3 & H3 & F3); [by rewrite lookup_insert_eq|].
    rewrite E3. rewrite delete_insert_id in H3 by done.
    destruct (bzero_ok e k3 _ _ _ (b0 + bi) H3) as (k4 & E4 & H4 & F4).
    { apply Hfree; [lia|done]. } { pose proof (absorb_len bs bb). lia. }
    rewrite E4. exists (b0 + bi), k4. split_and!; [done|lia|lia| |done| | |by rewrite F1, F2, F3].
    + rewrite BPB_eq in *. Z.to_euclidean_division_equations. lia.
    + intros b' Hb' Hbf'. apply Hbit in Hbf'; [|lia]. destruct (Hfirst (Z.to_nat (b' - b0)) (b' - b0)); [|lia|done].
      apply lookup_seqZ. lia.
    + rewrite Ea. apply (in_txn_ext p dev k4 (fupd (b0 + bi) zeros (fupd bb (bit_set (c bb) bi) c))); [|done].
      intros x. unfold allocated, mark_used. by rewrite Ea, Eb.
  - right. destruct (tx_brelse p dev e k1 _ _ _ H1 bb i) as (k2 & E2 & H2 & F2); [by rewrite lookup_insert_eq|].
    cbn [bind]. rewrite E2. exists k2. rewrite delete_insert_id in H2 by done. split_and!; [done|done|by rewrite F1|].
    intros b Hb1 Hb2 Hbf. apply Hbit in Hbf; [|lia]. apply list_find_None in Ef. rewrite Forall_forall in Ef.
    apply (Ef (b - b0)); [|done]. apply elem_of_seqZ. lia.
Qed.

Section Balloc.
Context (held : gmap Z nat) (sb : superblock) (c : Z -> list Z) (bs : list Z) (G : geometry sb).
Context (Hbm : forall x, bitmap_block sb x -> held !! x = None).
Context (Hfree : forall b, 0 <= b < sb_size sb -> block_free c sb b -> held !! b = None).
Context (Hs : (length bs + size held + 3 <= NBUF)%nat).

Lemma balloc_scan e n : forall k a,
  in_txn p dev k c bs held -> k_sb k = sb -> 0 <= a -> a + Z.of_nat n <= (sb_size sb + BPB - 1) / BPB ->
  (exists b k', first_ (map (fun i => i * BPB) (seqZ a (Z.of_nat n))) (balloc_in dev) e k = Ok (Some b) e k' /\
     0 <= b < sb_size sb /\ block_free c sb b /\ (forall b', a * BPB <= b' < b -> ~ block_free c sb b') /\
     in_txn p dev k' (allocated sb b c) (absorb (absorb bs (BBLOCK b sb)) b) held /\ fs_frame k k') \/
  (exists k', first_ (map (fun i => i * BPB) (seqZ a (Z.of_nat n))) (balloc_in dev) e k = Ok None e k' /\
     forall b, a * BPB <= b < (a + Z.of_nat n) * BPB -> b < sb_size sb -> ~ block_free c sb b).
Proof.
  induction n as [|n IH]; intros k a Hk Esb Ha Hn.
  - right. exists k. split; [done|]. intros b Hb. rewrite BPB_eq in Hb. lia.
  - rewrite seqZ_cons by lia. cbn [map first_ bind]. replace (Z.pred (Z.of_nat (S n))) with (Z.of_nat n) by lia.
    assert (0 <= a * BPB < sb_size sb) as Hb0. { rewrite BPB_eq in *. Z.to_euclidean_division_equations. lia. }
    pose proof (balloc_in_ok e k c bs held (a * BPB)) as Hin. rewrite Esb in Hin. cbn zeta in Hin.
    destruct Hin as [(b & k' & E & B1 & B2 & B3 & B4 & B5 & B6)|(k' & E & B1 & B2 & B3)]; try done.
    { by rewrite Z.mod_mul. } { apply Hbm. exists (a * BPB). done. }
    + rewrite E. left. exists b, k'. split_and!; try done; lia.
    + rewrite E. destruct (IH k' (Z.succ a) B1) as [(b & k2 & E2 & C1 & C2 & C3 & C4 & C5)|(k2 & E2 & C1)].
      { by rewrite (fs_frame_sb _ _ B2). } { lia. } { lia. }
      * rewrite E2. left. exists b, k2. split_and!; try done; [lia|lia| |by rewrite B2].
        intros b' Hb' Hf. destruct (decide (b' < a * BPB + BPB)); [by apply (B3 b'); [lia|lia|]|]. apply (C3 b'); [rewrite BPB_eq in *; lia|done].
      * rewrite E2. right. exists k2. split; [done|]. intros b Hb Hlt Hf.
        destruct (decide (b < a * BPB + BPB)); [by apply (B3 b); [lia|lia|]|]. apply (C1 b); [rewrite BPB_eq in *; lia|done|done].
Qed.

Lemma balloc_ok e k : in_txn p dev k c bs held -> k_sb k = sb ->
  (exists b k', balloc dev e k = Ok b e k' /\ 0 <= b < sb_size sb /\ block_free c sb b /\ (forall b', 0 <= b' < b -> ~ block_free c sb b') /\
     in_txn p dev k' (allocated sb b c) (absorb (absorb bs (BBLOCK b sb)) b) held /\ fs_frame k k') \/
  (balloc dev e k = Panic "balloc: out of blocks" /\ forall b, 0 <= b < sb_size sb -> ~ block_free c sb b).
Proof.
  intros Hk Esb. unfold balloc. cbn [bind gets]. rewrite Esb. pose proof (g_size _ G) as Gs.
  assert (0 <= (sb_size sb + BPB - 1) / BPB) as Hnn. { rewrite BPB_eq. Z.to_euclidean_division_equations. lia. }
  destruct (balloc_scan e (Z.to_nat ((sb_size sb + BPB - 1) / BPB)) k 0 Hk Esb ltac:(lia) ltac:(lia)) as
    [(b & k' & E & B1 & B2 & B3 & B4 & B5)|(k' & E & B)]; rewrite Z2Nat.id in * by lia; rewrite E.
  - left. exists b, k'. split_and!; try done; try lia.
  - right. split; [done|]. intros b Hb. apply B; [|lia]. rewrite BPB_eq in *. Z.to_euclidean_division_equations. lia.
Qed.
End Balloc.
End Alloc.
