(* ===== verification/FsFile.v ===== *)
(** * Files: bmap() and readi()

    The blocks of a file are given by its inode and its indirect block
    ([faddr]); its bytes ([fbytes]) are those of the view at these blocks.
    readi() returns them. *)

From S2P Require Import Prelude Machine Kstring Kernel Spinlock Kalloc Vm Sched Sleeplock Bio BioSpec Log LogSpec LogCommit Fs FsSpec FsTx FsAlloc.

(** The disk block of block [bn] of the file, 0 when there is none. *)
Definition faddr (c : Z -> list Z) (x : inode) (bn : Z) : Z :=
  if decide (bn < NDIRECT) then addr_of x bn
  else if decide (addr_of x NDIRECT = 0) then 0
  else get32 (c (addr_of x NDIRECT)) (4 * (bn - NDIRECT)).
(** The byte at offset [o] and the [n] bytes from [off]. *)
Definition fbyte (c : Z -> list Z) (x : inode) (o : Z) : Z := byte_at (c (faddr c x (o / BSIZE))) (o mod BSIZE).
Definition fbytes (c : Z -> list Z) (x : inode) (off n : Z) : list Z := map (fun i => fbyte c x (off + i)) (seqZ 0 n).

Lemma fbytes_app c x off n m : 0 <= n -> 0 <= m -> fbytes c x off (n + m) = fbytes c x off n ++ fbytes c x (off + n) m.
Proof.
  intros Hn Hm. unfold fbytes. rewrite seqZ_app, map_app by lia. f_equal. rewrite Z.add_0_l.
  rewrite <- (Z.add_0_r n) at 1. rewrite <- fmap_add_seqZ. rewrite map_map. apply map_ext. intros i. f_equal. lia.
Qed.
Lemma length_fbytes c x off n : length (fbytes c x off n) = Z.to_nat n.
Proof. unfold fbytes. by rewrite length_map, length_seqZ. Qed.

Lemma BSIZE_eq : BSIZE = 1024.
Proof. done. Qed.
Lemma NINDIRECT_eq : NINDIRECT = 256.
Proof. done. Qed.

Lemma slice_bytes d o m : 0 <= o -> 0 <= m -> o + m <= Z.of_nat (length d) -> slice d o m = map (fun i => byte_at d (o + i)) (seqZ 0 m).
Proof.
  intros Ho Hm Hd. unfold slice. apply list_eq. intros i. rewrite list_lookup_fmap. destruct (decide (i < Z.to_nat m)%nat) as [Hi|Hi].
  - rewrite lookup_take, decide_True, lookup_drop by done. rewrite lookup_seqZ_lt by lia. cbn. unfold byte_at.
    rewrite nth_lookup. replace (Z.to_nat (o + (0 + Z.of_nat i))) with (Z.to_nat o + i)%nat by lia.
    destruct (lookup_lt_is_Some_2 d (Z.to_nat o + i)) as [v ->]; [lia|done].
  - rewrite lookup_take, decide_False by done. by rewrite lookup_seqZ_ge by lia.
Qed.
(** A run of bytes inside one block. *)
Lemma slice_fbytes c x off m :
  0 <= off -> 0 <= m -> off mod BSIZE + m <= BSIZE -> length (c (faddr c x (off / BSIZE))) = Z.to_nat BSIZE ->
  slice (c (faddr c x (off / BSIZE))) (off mod BSIZE) m = fbytes c x off m.
Proof.
  intros Ho Hm Hle Hl. rewrite BSIZE_eq in *. rewrite slice_bytes by (rewrite ?Hl; Z.to_euclidean_division_equations; lia).
  unfold fbytes. apply map_ext_in. intros i Hi. apply list_elem_of_In, elem_of_seqZ in Hi. unfold fbyte. rewrite BSIZE_eq.
  replace ((off + i) / 1024) with (off / 1024) by (Z.to_euclidean_division_equations; lia).
  f_equal. Z.to_euclidean_division_equations. lia.
Qed.

Section File.
Context `{Symbols} {D : BlockDevice} {DOK : BlockDeviceOK D} (p : nat) (dev : Z).

(** bmap() of a block that exists. *)
Lemma bmap_mapped e k c bs held ip bn :
  in_txn p dev k c bs held -> i_dev (get_inode k ip) = dev -> (length bs + size held < NBUF)%nat ->
  0 <= bn < MAXFILE -> faddr c (get_inode k ip) bn <> 0 ->
  (NDIRECT <= bn -> held !! addr_of (get_inode k ip) NDIRECT = None) ->
  exists k', bmap ip bn e k = Ok (faddr c (get_inode k ip) bn) e k' /\ in_txn p dev k' c bs held /\ fs_frame k k'.
Proof.
  intros Hk Hd Hs Hbn Hne Hh. unfold bmap, faddr in *. case_decide as Hdir.
  - unfold addr_alloc. cbn [bind gets]. rewrite decide_False by done. by exists k.
  - rewrite decide_True by (unfold MAXFILE in Hbn; lia). case_decide as Hz; [done|].
    unfold addr_alloc. cbn [bind gets]. rewrite decide_False by done. cbn [bind gets ret]. rewrite Hd.
    destruct (tx_bread p dev e k c bs held Hk (addr_of (get_inode k ip) NDIRECT)) as (i & k1 & E1 & H1 & Hd1 & F1); [apply Hh; lia|done|].
    rewrite E1. cbn [bind gets]. rewrite Hd1. rewrite decide_False by done. cbn [bind ret].
    destruct (tx_brelse p dev e k1 _ _ _ H1 _ i (lookup_insert_eq _ _ _)) as (k2 & E2 & H2 & F2). rewrite E2.
    exists k2. rewrite delete_insert_id in H2 by (apply Hh; lia). split_and!; [done|done|by rewrite F1].
Qed.

(** All blocks below the size exist. *)
Definition mapped (c : Z -> list Z) (x : inode) : Prop :=
  0 <= i_size x <= MAXFILE * BSIZE /\ forall bn, 0 <= bn -> bn * BSIZE < i_size x -> faddr c x bn <> 0.

Section Readi.
Context (e : list (kernel -> kernel)) (c : Z -> list Z) (bs : list Z) (ip : nat) (x : inode).
Context (Hd : i_dev x = dev) (Hmap : mapped c x) (Hs : (length bs < NBUF)%nat).
Context (off n : Z) (Hoff : 0 <= off) (Hn : 0 <= n) (Hend : off + n <= i_size x).

Lemma readi_turn_ok k tot :
  in_txn p dev k c bs ∅ -> get_inode k ip = x -> 0 <= tot < n ->
  exists k' m, 0 < m <= n - tot /\
    readi_turn ip ToLocal off n (tot, fbytes c x off tot) e k = Ok (inr (tot + m, fbytes c x off (tot + m))) e k' /\
    in_txn p dev k' c bs ∅ /\ fs_frame k k'.
Proof.
  intros Hk Hx Ht. unfold readi_turn. rewrite decide_False by lia. cbn [bind gets]. rewrite Hx, Hd.
  set (bn := (off + tot) / BSIZE). set (m := Z.min (n - tot) (BSIZE - (off + tot) mod BSIZE)).
  assert (0 <= bn < MAXFILE /\ bn * BSIZE < i_size x) as [Hbn Hlt].
  { destruct Hmap as [Hsz _]. unfold bn, MAXFILE, NDIRECT in *. rewrite NINDIRECT_eq, BSIZE_eq in *. Z.to_euclidean_division_equations. lia. }
  assert (0 < m <= n - tot /\ (off + tot) mod BSIZE + m <= BSIZE) as [Hm1 Hm2].
  { unfold m. rewrite BSIZE_eq. Z.to_euclidean_division_equations. lia. }
  assert (faddr c x bn <> 0) as Hne by (apply Hmap; lia).
  assert (length bs + size (∅ : gmap Z nat) < NBUF)%nat as Hs0 by (rewrite map_size_empty; lia).
  destruct (bmap_mapped e k c bs ∅ ip bn) as (k1 & E1 & H1 & F1); rewrite ?Hx; try done.
  rewrite Hx in E1. rewrite E1.
  destruct (tx_bread p dev e k1 c bs ∅ H1 (faddr c x bn)) as (i & k2 & E2 & H2 & Hd2 & F2); [done|done|].
  rewrite E2. cbn [bind gets copy_to ret]. rewrite Hd2.
  destruct (tx_brelse p dev e k2 _ _ _ H2 _ i (lookup_insert_eq _ _ _)) as (k3 & E3 & H3 & F3). rewrite E3. cbn [bind].
  rewrite decide_False by done. exists k3, m. rewrite delete_insert_id in H3 by done. split_and!; [lia|lia| |done|by rewrite F1, F2].
  cbn [ret]. do 4 f_equal. rewrite fbytes_app by lia. f_equal. unfold bn. apply slice_fbytes; [lia|lia|done|].
  apply (bc_len _ _ _ _ _ _ (it_cached _ _ _ _ _ _ Hk)).
Qed.

Lemma readi_loop fuel : forall k tot,
  in_txn p dev k c bs ∅ -> get_inode k ip = x -> 0 <= tot <= n -> (Z.to_nat (n - tot) < fuel)%nat ->
  exists k', loop_ fuel (readi_turn ip ToLocal off n) (tot, fbytes c x off tot) e k = Ok (n, fbytes c x off n) e k' /\
    in_txn p dev k' c bs ∅ /\ fs_frame k k'.
Proof.
  induction fuel as [|fuel IH]; intros k tot Hk Hx Ht Hf; [lia|]. cbn [loop_ bind]. destruct (decide (tot = n)) as [->|Hne].
  - unfold readi_turn. rewrite decide_True by lia. by exists k.
  - destruct (readi_turn_ok k tot Hk Hx ltac:(lia)) as (k1 & m & Hm & -> & H1 & F1).
    destruct (IH k1 (tot + m) H1) as (k2 & E2 & H2 & F2); [by rewrite (fs_frame_inode _ _ _ F1)|lia|lia|].
    exists k2. split_and!; [done|done|by rewrite F1].
Qed.
End Readi.

(** What readi() may return: nothing beyond the end, and no more than is left. *)
Definition read_count (x : inode) (off n : Z) : Z := if decide (off > i_size x) then 0 else Z.min n (i_size x - off).

Lemma readi_ok e k c bs ip x off n :
  get_inode k ip = x -> in_txn p dev k c bs ∅ -> i_dev x = dev -> mapped c x -> (length bs < NBUF)%nat -> 0 <= off < 2 ^ 31 -> 0 <= n < 2 ^ 31 ->
  exists k', readi ip ToLocal off n e k = Ok (read_count x off n, fbytes c x off (read_count x off n)) e k' /\
    in_txn p dev k' c bs ∅ /\ fs_frame k k'.
Proof.
  intros Hx Hk Hd Hm Hs Ho Hn. unfold readi. cbn [bind gets]. rewrite Hx. rewrite !u32_small by lia. unfold read_count.
  destruct Hm as [Hsz Hm]. destruct (decide (off > i_size x)) as [Hc|Hc].
  - rewrite decide_True by lia. by exists k.
  - rewrite decide_False by lia. set (n' := if decide (off + n > i_size x) then i_size x - off else n).
    assert (n' = Z.min n (i_size x - off)) as En by (unfold n'; case_decide; lia). rewrite En.
    apply (readi_loop e c bs ip x Hd (conj Hsz Hm) Hs off (Z.min n (i_size x - off))) with (tot := 0); [lia|lia|done|done|lia|lia].
Qed.
End File.
