(* ===== verification/FsGrow.v ===== *)
(** * Well-formed files and how they grow

    [file_ok]: the blocks of a file are distinct data blocks that the bitmap
    marks as used.  A file grows by a direct block, by an indirect block or by
    an entry of its indirect block; each way keeps this, takes the block from
    the free ones and leaves the other blocks as they were ([grew]).  What one
    file does leaves the others alone ([other_file]). *)

From S2P Require Import Prelude Machine Kstring Kernel Spinlock Kalloc Vm Sched Sleeplock Bio BioSpec Log LogSpec LogCommit Fs FsSpec FsTx FsAlloc FsFile.

(** ** Well-formed files *)
Definition in_file (c : Z -> list Z) (x : inode) (a : Z) : Prop :=
  a <> 0 /\ (a = addr_of x NDIRECT \/ exists bn, 0 <= bn < MAXFILE /\ faddr c x bn = a).
Record file_ok (sb : superblock) (c : Z -> list Z) (x : inode) : Prop := mkFileOk {
  fo_len : length (i_addrs x) = 13%nat;
  fo_own a : in_file c x a -> data_start sb <= a < sb_size sb /\ ~ block_free c sb a;
  fo_inj bn bn' : 0 <= bn < MAXFILE -> 0 <= bn' < MAXFILE -> faddr c x bn = faddr c x bn' -> faddr c x bn <> 0 -> bn = bn';
  fo_ind bn : 0 <= bn < MAXFILE -> addr_of x NDIRECT <> 0 -> faddr c x bn <> addr_of x NDIRECT
}.

Lemma addr_of_set x i v j : length (i_addrs x) = 13%nat -> 0 <= i <= NDIRECT -> 0 <= j <= NDIRECT ->
  addr_of (set_addr i v x) j = if decide (j = i) then v else addr_of x j.
Proof.
  intros Hl Hi Hj. unfold addr_of, set_addr, NDIRECT in *. cbn. rewrite !nth_lookup. case_decide as E.
  - subst. by rewrite list_lookup_insert_eq by lia.
  - by rewrite list_lookup_insert_ne by lia.
Qed.
Lemma faddr_in c x bn : 0 <= bn < MAXFILE -> faddr c x bn <> 0 -> in_file c x (faddr c x bn).
Proof. intros Hb Hn. split; [done|]. right. by exists bn. Qed.
Lemma ind_in c x : addr_of x NDIRECT <> 0 -> in_file c x (addr_of x NDIRECT).
Proof. intros Hn. split; [done|by left]. Qed.
Lemma free_not_in sb c x b : file_ok sb c x -> block_free c sb b -> ~ in_file c x b.
Proof. intros Hf Hb Hin. by destruct (fo_own _ _ _ Hf b Hin). Qed.

(** The file [c'], [x'] extends the file [c], [x]: its blocks stay where they
    are, blocks it gains were free, and outside the bitmap and the file's own
    blocks nothing has changed. *)
Record grown (sb : superblock) (c : Z -> list Z) (x : inode) (c' : Z -> list Z) (x' : inode) : Prop := mkGrown {
  gr_old bn : 0 <= bn < MAXFILE -> faddr c x bn <> 0 -> faddr c' x' bn = faddr c x bn;
  gr_ind : addr_of x NDIRECT <> 0 -> addr_of x' NDIRECT = addr_of x NDIRECT;
  gr_frame a : ~ bitmap_block sb a -> ~ in_file c' x' a -> c' a = c a;
  gr_new a : in_file c' x' a -> in_file c x a \/ block_free c sb a;
  gr_free a : 0 <= a < sb_size sb -> block_free c' sb a -> block_free c sb a;
  gr_meta : set_i_addrs [] x' = set_i_addrs [] x
}.
Lemma grown_refl sb c x : grown sb c x c x.
Proof. constructor; try done. tauto. Qed.
Lemma grown_in sb c x c' x' a : grown sb c x c' x' -> in_file c x a -> in_file c' x' a.
Proof.
  intros Hg [Hn [E|(bn & Hbn & E)]]; (split; [done|]).
  - left. rewrite (gr_ind _ _ _ _ _ Hg); congruence.
  - right. exists bn. split; [done|]. rewrite (gr_old _ _ _ _ _ Hg); congruence.
Qed.
Lemma grown_trans sb c1 x1 c2 x2 c3 x3 :
  file_ok sb c2 x2 -> file_ok sb c3 x3 -> 0 <= data_start sb -> grown sb c1 x1 c2 x2 -> grown sb c2 x2 c3 x3 -> grown sb c1 x1 c3 x3.
Proof.
  intros F2 F3 Hds G1 G2. constructor.
  - intros bn Hb Hn. rewrite (gr_old _ _ _ _ _ G2); [|done|]; rewrite (gr_old _ _ _ _ _ G1); done.
  - intros Hn. rewrite (gr_ind _ _ _ _ _ G2); rewrite (gr_ind _ _ _ _ _ G1); done.
  - intros a Hb Ha. rewrite (gr_frame _ _ _ _ _ G2) by done. apply (gr_frame _ _ _ _ _ G1); [done|].
    intros Hin. by apply Ha, (grown_in _ _ _ _ _ _ G2).
  - intros a Ha. pose proof (fo_own _ _ _ F3 a Ha) as [? _]. destruct (gr_new _ _ _ _ _ G2 a Ha) as [Hin|Hf].
    + by apply (gr_new _ _ _ _ _ G1).
    + right. apply (gr_free _ _ _ _ _ G1); [lia|done].
  - intros a Ha Hf. by apply (gr_free _ _ _ _ _ G1), (gr_free _ _ _ _ _ G2).
  - by rewrite (gr_meta _ _ _ _ _ G2), (gr_meta _ _ _ _ _ G1).
Qed.

Section Grow.
Context (sb : superblock) (c c' : Z -> list Z) (x x' : inode) (b : Z).
Context (G : geometry sb) (Hf : file_ok sb c x) (Hb : data_start sb <= b < sb_size sb) (Hfree : block_free c sb b).
Context (Hlen : length (i_addrs x') = 13%nat).
Context (Hbit : forall b', 0 <= b' < sb_size sb -> block_free c' sb b' <-> b' <> b /\ block_free c sb b').

Lemma grow_nonzero : 0 < b.
Proof. unfold data_start in Hb. destruct G. rewrite BPB_eq in Hb. pose proof (Z.div_pos (sb_size sb) 8192). lia. Qed.
Lemma grow_own a : data_start sb <= a < sb_size sb -> a = b \/ ~ block_free c sb a -> ~ block_free c' sb a.
Proof.
  intros Ha Hor. rewrite Hbit; [tauto|]. pose proof grow_nonzero. unfold data_start in *. destruct G. rewrite BPB_eq in *.
  pose proof (Z.div_pos (sb_size sb) 8192). lia.
Qed.

Lemma data_start_pos : 0 <= data_start sb.
Proof. unfold data_start in *. destruct G. rewrite BPB_eq in *. pose proof (Z.div_pos (sb_size sb) 8192). lia. Qed.
Lemma grow_free a : 0 <= a < sb_size sb -> block_free c' sb a -> block_free c sb a.
Proof. intros Ha Hfr. by apply Hbit in Hfr as [_ ?]. Qed.

(** A block [bn] is added. *)
Lemma file_ok_block bn :
  0 <= bn < MAXFILE -> faddr c x bn = 0 -> addr_of x' NDIRECT = addr_of x NDIRECT ->
  (forall bn', 0 <= bn' < MAXFILE -> faddr c' x' bn' = if decide (bn' = bn) then b else faddr c x bn') -> file_ok sb c' x'.
Proof.
  intros Hbn Hz Hi Ha. pose proof (free_not_in _ _ _ _ Hf Hfree) as Hnb. constructor; [done|..].
  - intros a [Hn [E|(bn' & Hbn' & E)]].
    + rewrite Hi in E. destruct (fo_own _ _ _ Hf a) as [H1 H2]; [split; [done|by left]|]. split; [done|]. apply grow_own; tauto.
    + rewrite Ha in E by done. case_decide as Eb.
      * subst a. split; [done|]. apply grow_own; tauto.
      * destruct (fo_own _ _ _ Hf a) as [H1 H2]; [split; [done|right; by exists bn']|]. split; [done|]. apply grow_own; tauto.
  - intros bn1 bn2 H1 H2. rewrite !Ha by done. repeat case_decide; subst; try done.
    + intros E Hn. destruct Hnb. rewrite E. apply faddr_in; [done|congruence].
    + intros E Hn. destruct Hnb. rewrite <- E. by apply faddr_in.
    + by apply Hf.
  - intros bn' Hbn'. rewrite Hi, Ha by done. intros Hn. case_decide; [|by apply Hf]. intros ->. by apply Hnb, ind_in.
Qed.
Lemma grown_block bn :
  0 <= bn < MAXFILE -> faddr c x bn = 0 -> addr_of x' NDIRECT = addr_of x NDIRECT -> set_i_addrs [] x' = set_i_addrs [] x ->
  (forall bn', 0 <= bn' < MAXFILE -> faddr c' x' bn' = if decide (bn' = bn) then b else faddr c x bn') ->
  (forall a, ~ bitmap_block sb a -> a <> b -> a <> addr_of x NDIRECT \/ a = 0 -> c' a = c a) -> grown sb c x c' x'.
Proof.
  intros Hbn Hz Hi Hm Ha Hc. pose proof grow_nonzero. constructor; try done.
  - intros bn' Hb' Hn. rewrite Ha by done. case_decide; [by subst|done].
  - intros a Hbm Hin. apply Hc; [done| |].
    + intros ->. apply Hin. split; [lia|]. right. exists bn. split; [done|]. rewrite Ha by done. by rewrite decide_True.
    + destruct (decide (a = 0)) as [->|Hn]; [by right|]. left. intros ->. apply Hin. split; [done|by left].
  - intros a [Hn [E|(bn' & Hbn' & E)]].
    + left. split; [done|]. left. congruence.
    + rewrite Ha in E by done. case_decide; [right; by subst a|]. left. split; [done|]. right. by exists bn'.
  - apply grow_free.
Qed.
(** The indirect block is added. *)
Lemma file_ok_indirect :
  addr_of x NDIRECT = 0 -> addr_of x' NDIRECT = b -> (forall bn', 0 <= bn' < MAXFILE -> faddr c' x' bn' = faddr c x bn') -> file_ok sb c' x'.
Proof.
  intros Hz Hi Ha. pose proof (free_not_in _ _ _ _ Hf Hfree) as Hnb. constructor; [done|..].
  - intros a [Hn [E|(bn' & Hbn' & E)]].
    + rewrite Hi in E. subst a. split; [done|]. apply grow_own; tauto.
    + rewrite Ha in E by done. destruct (fo_own _ _ _ Hf a) as [H1 H2]; [split; [done|right; by exists bn']|]. split; [done|]. apply grow_own; tauto.
  - intros bn1 bn2 H1 H2. rewrite !Ha by done. by apply Hf.
  - intros bn' Hbn'. rewrite Hi, Ha by done. intros Hn E. apply Hnb. rewrite <- E. apply faddr_in; [done|]. rewrite E. pose proof grow_nonzero. lia.
Qed.
Lemma grown_indirect :
  addr_of x NDIRECT = 0 -> addr_of x' NDIRECT = b -> set_i_addrs [] x' = set_i_addrs [] x ->
  (forall bn', 0 <= bn' < MAXFILE -> faddr c' x' bn' = faddr c x bn') ->
  (forall a, ~ bitmap_block sb a -> a <> b -> c' a = c a) -> grown sb c x c' x'.
Proof.
  intros Hz Hi Hm Ha Hc. pose proof grow_nonzero. constructor; try done.
  - intros bn' Hb' _. by apply Ha.
  - intros a Hbm Hin. apply Hc; [done|]. intros ->. apply Hin. split; [lia|by left].
  - intros a [Hn [E|(bn' & Hbn' & E)]]; [right; congruence|]. left. split; [done|]. right. exists bn'. split; [done|]. by rewrite <- Ha.
  - apply grow_free.
Qed.
End Grow.

(** The free blocks. *)
Definition free_list (sb : superblock) (c : Z -> list Z) : list Z := filter (block_free c sb) (seqZ 0 (sb_size sb)).
Lemma elem_of_free_list sb c b : b ∈ free_list sb c <-> block_free c sb b /\ 0 <= b < sb_size sb.
Proof. unfold free_list. rewrite list_elem_of_filter, elem_of_seqZ. by rewrite Z.add_0_l. Qed.
Lemma NoDup_free_list sb c : NoDup (free_list sb c).
Proof. apply NoDup_filter, NoDup_seqZ. Qed.
Lemma free_list_take sb c c' b :
  0 <= b < sb_size sb -> block_free c sb b ->
  (forall b', 0 <= b' < sb_size sb -> block_free c' sb b' <-> b' <> b /\ block_free c sb b') ->
  length (free_list sb c) = S (length (free_list sb c')).
Proof.
  intros Hb Hf Hbit. change (length (free_list sb c) = length (b :: free_list sb c')). apply Permutation_length, NoDup_Permutation.
  - apply NoDup_free_list.
  - apply NoDup_cons. split; [|apply NoDup_free_list]. rewrite elem_of_free_list. intros [H _]. apply Hbit in H; [tauto|done].
  - intros a. rewrite elem_of_cons, !elem_of_free_list. destruct (decide (a = b)) as [->|Hne]; [tauto|]. split.
    + intros [Ha1 Ha2]. right. split; [|done]. by apply Hbit.
    + intros [?|[Ha1 Ha2]]; [done|]. apply Hbit in Ha1; tauto.
Qed.

Lemma data_start_nonneg sb : geometry sb -> 0 <= data_start sb.
Proof. intros G. unfold data_start. destruct G. rewrite BPB_eq. pose proof (Z.div_pos (sb_size sb) 8192). lia. Qed.

(** The file has gained block [bn], or had it: it is [b], zero when it is new,
    and the blocks that were there keep their contents. *)
Record grew (sb : superblock) (c c' : Z -> list Z) (x x' : inode) (bn b : Z) : Prop := mkGrew {
  gw_file : file_ok sb c' x';
  gw_bitmap : bitmap_ok c' sb;
  gw_grown : grown sb c x c' x';
  gw_at : faddr c' x' bn = b;
  gw_pos : b <> 0;
  gw_old bn' : 0 <= bn' < MAXFILE -> faddr c x bn' <> 0 -> c' (faddr c x bn') = c (faddr c x bn');
  gw_new : faddr c x bn = 0 -> c' b = zeros
}.
Lemma grew_refl sb c x bn : file_ok sb c x -> bitmap_ok c sb -> faddr c x bn <> 0 -> grew sb c c x x bn (faddr c x bn).
Proof. intros Hf Hb Hn. constructor; try done. apply grown_refl. Qed.

(** ** What a transaction on a file records *)
(** [a] is a bitmap block, the indirect block or one of the blocks
    [lo] .. [hi - 1] of the file. *)
Definition touched (sb : superblock) (c : Z -> list Z) (x : inode) (lo hi a : Z) : Prop :=
  bitmap_block sb a \/ a <> 0 /\ (a = addr_of x NDIRECT \/ exists bn, 0 <= bn < MAXFILE /\ lo <= bn < hi /\ faddr c x bn = a).
Lemma touched_grown sb c x c' x' lo hi lo' hi' a :
  grown sb c x c' x' -> lo' <= lo -> hi <= hi' -> touched sb c x lo hi a -> touched sb c' x' lo' hi' a.
Proof.
  intros Hg Hl Hh [Hb|[Hn [E|(bn & Hbn & Hr & E)]]]; [by left|right; split; [done|]..].
  - left. rewrite (gr_ind _ _ _ _ _ Hg); congruence.
  - right. exists bn. split_and!; [lia..|]. rewrite (gr_old _ _ _ _ _ Hg); congruence.
Qed.

(** ** The three ways a file grows *)
Lemma byte_at_zeros o : byte_at zeros o = 0.
Proof.
  unfold byte_at, zeros. rewrite nth_lookup. destruct (replicate _ _ !! _) as [v|] eqn:E; [|done].
  by apply lookup_replicate in E as [-> _].
Qed.
Lemma get32_zeros o : get32 zeros o = 0.
Proof. unfold get32, get16. by rewrite !byte_at_zeros. Qed.

Section Ways.
Context (sb : superblock) (c : Z -> list Z) (x : inode) (b : Z) (G : geometry sb).
Context (Hf : file_ok sb c x) (Hb : data_start sb <= b < sb_size sb) (Hfree : block_free c sb b).
Context (Hlen : forall a, length (c a) = Z.to_nat BSIZE).

Lemma ways_pos : 0 < b.
Proof. unfold data_start in Hb. destruct G. rewrite BPB_eq in Hb. pose proof (Z.div_pos (sb_size sb) 8192). lia. Qed.
Lemma in_file_at a : in_file c x a -> data_start sb <= a /\ a <> b.
Proof. intros Ha. destruct (fo_own _ _ _ Hf a Ha) as [? Hn]. split; [lia|]. by intros ->. Qed.
Lemma allocated_own a : in_file c x a -> allocated sb b c a = c a.
Proof. intros Ha. destruct (in_file_at a Ha). pose proof ways_pos. apply allocated_data; [done|lia|done|done]. Qed.
Lemma allocated_other a : ~ bitmap_block sb a -> a <> b -> allocated sb b c a = c a.
Proof.
  intros Ha Hn. pose proof ways_pos. unfold allocated, mark_used. rewrite !fupd_ne; [done| |done]. intros ->. apply Ha. exists b. split; [lia|done].
Qed.
Lemma set_addr_len i v : length (i_addrs (set_addr i v x)) = 13%nat.
Proof. cbn. rewrite length_insert. apply Hf. Qed.
Lemma allocated_bit b' : 0 <= b' < sb_size sb -> block_free (allocated sb b c) sb b' <-> b' <> b /\ block_free c sb b'.
Proof. intros Hb'. pose proof ways_pos. apply allocated_bitmap; [done|lia|lia|done|done]. Qed.

(** A direct block. *)
Lemma faddr_direct i bn' :
  0 <= i < NDIRECT -> 0 <= bn' < MAXFILE ->
  faddr (allocated sb b c) (set_addr i b x) bn' = if decide (bn' = i) then b else faddr c x bn'.
Proof.
  intros Hi Hb'. unfold faddr. rewrite (addr_of_set x i b NDIRECT) by (apply Hf || lia). rewrite (decide_False (P := NDIRECT = i)) by lia.
  destruct (decide (bn' < NDIRECT)) as [Hlt|Hge].
  - by rewrite addr_of_set by (apply Hf || lia).
  - rewrite (decide_False (P := bn' = i)) by lia. case_decide as Hz; [done|]. by rewrite allocated_own by by apply ind_in.
Qed.
Lemma direct_ok i : 0 <= i < NDIRECT -> addr_of x i = 0 ->
  file_ok sb (allocated sb b c) (set_addr i b x) /\ grown sb c x (allocated sb b c) (set_addr i b x).
Proof.
  intros Hi Hz. assert (0 <= i < MAXFILE) as Hi' by (unfold MAXFILE; rewrite NINDIRECT_eq; lia).
  assert (faddr c x i = 0) as Hfz by (unfold faddr; rewrite decide_True; [done|lia]).
  assert (addr_of (set_addr i b x) NDIRECT = addr_of x NDIRECT) as Hn.
  { rewrite addr_of_set by (apply Hf || lia). by rewrite decide_False by lia. }
  split.
  - apply (file_ok_block sb c _ x _ b G Hf Hb Hfree) with (bn := i); try done; [by apply set_addr_len|apply allocated_bit|]. intros bn' Hb'. by apply faddr_direct.
  - apply (grown_block sb c _ x _ b G Hb Hfree) with (bn := i); try done; [apply set_addr_len|apply allocated_bit|intros bn' Hb'; by apply faddr_direct|].
    intros a Ha Hne _. by apply allocated_other.
Qed.

(** The indirect block. *)
Lemma faddr_indirect bn' :
  addr_of x NDIRECT = 0 -> 0 <= bn' < MAXFILE -> faddr (allocated sb b c) (set_addr NDIRECT b x) bn' = faddr c x bn'.
Proof.
  intros Hz Hb'. pose proof ways_pos. unfold faddr. rewrite (addr_of_set x NDIRECT b NDIRECT) by (apply Hf || done). rewrite (decide_True (P := NDIRECT = NDIRECT)) by done.
  destruct (decide (bn' < NDIRECT)) as [Hlt|Hge].
  - rewrite addr_of_set by (apply Hf || lia || done). by rewrite decide_False by lia.
  - rewrite Hz. rewrite decide_False by lia. rewrite (decide_True (P := 0 = 0)) by done. by rewrite allocated_self, get32_zeros.
Qed.
Lemma indirect_ok : addr_of x NDIRECT = 0 ->
  file_ok sb (allocated sb b c) (set_addr NDIRECT b x) /\ grown sb c x (allocated sb b c) (set_addr NDIRECT b x).
Proof.
  intros Hz. assert (addr_of (set_addr NDIRECT b x) NDIRECT = b) as Hn.
  { rewrite addr_of_set by (apply Hf || done). by rewrite decide_True. }
  split.
  - apply (file_ok_indirect sb c _ x _ b G Hf Hb Hfree); try done; [by apply set_addr_len|apply allocated_bit|]. intros bn' Hb'. by apply faddr_indirect.
  - apply (grown_indirect sb c _ x _ b G Hb Hfree); try done; [apply set_addr_len|apply allocated_bit|intros bn' Hb'; by apply faddr_indirect|]. apply allocated_other.
Qed.

(** An entry of the indirect block. *)
Definition with_entry (bn : Z) : Z -> list Z :=
  let ind := addr_of x NDIRECT in
  fupd ind (put32 (allocated sb b c ind) (4 * (bn - NDIRECT)) b) (allocated sb b c).
Lemma faddr_entry bn bn' :
  NDIRECT <= bn < MAXFILE -> addr_of x NDIRECT <> 0 -> 0 <= bn' < MAXFILE ->
  faddr (with_entry bn) x bn' = if decide (bn' = bn) then b else faddr c x bn'.
Proof.
  intros Hbn Hi Hb'. unfold faddr. destruct (decide (bn' < NDIRECT)) as [Hlt|Hge]; [by rewrite decide_False by lia|].
  rewrite !(decide_False (P := addr_of x NDIRECT = 0)) by done. unfold with_entry. rewrite fupd_eq, allocated_own by by apply ind_in.
  unfold MAXFILE in *. rewrite NINDIRECT_eq in *. pose proof ways_pos. destruct (g_size _ G).
  assert (forall j, NDIRECT <= j < NDIRECT + 256 -> inside (c (addr_of x NDIRECT)) (4 * (j - NDIRECT)) 4) as Hin.
  { intros j Hj. unfold inside. rewrite Hlen, BSIZE_eq. lia. }
  case_decide as E.
  - subst bn'. rewrite get32_put32 by (apply Hin; lia). apply u32_small. lia.
  - apply get32_put32_ne; [by apply Hin|lia|lia].
Qed.
Lemma entry_bit bn b' : addr_of x NDIRECT <> 0 -> 0 <= b' < sb_size sb -> block_free (with_entry bn) sb b' <-> b' <> b /\ block_free c sb b'.
Proof.
  intros Hi Hb'. rewrite <- allocated_bit by done. unfold block_free, with_entry. rewrite fupd_ne; [done|].
  destruct (in_file_at _ (ind_in c x Hi)). pose proof (bitmap_below sb (BBLOCK b' sb) G ltac:(by exists b')). lia.
Qed.
Lemma entry_ok bn : NDIRECT <= bn < MAXFILE -> addr_of x NDIRECT <> 0 -> faddr c x bn = 0 ->
  file_ok sb (with_entry bn) x /\ grown sb c x (with_entry bn) x.
Proof.
  intros Hbn Hi Hz. assert (0 <= bn < MAXFILE) as Hbn' by (unfold NDIRECT in *; lia). split.
  - apply (file_ok_block sb c _ x _ b G Hf Hb Hfree) with (bn := bn); try done; [apply Hf|intros; by apply entry_bit|]. intros bn' Hb'. by apply faddr_entry.
  - apply (grown_block sb c _ x _ b G Hb Hfree) with (bn := bn); try done; [apply Hf|intros; by apply entry_bit|intros bn' Hb'; by apply faddr_entry|].
    intros a Ha Hne [Ho|Ho].
    + unfold with_entry. rewrite fupd_ne by done. by apply allocated_other.
    + unfold with_entry. rewrite fupd_ne by congruence. by apply allocated_other.
Qed.

(** The same with the contents. *)
Context (Hbm : bitmap_ok c sb).
Lemma ways_bitmap : bitmap_ok (allocated sb b c) sb.
Proof. intros a Ha Hfr. apply allocated_bit in Hfr as [_ Hfr]; [by apply Hbm|done]. Qed.
Lemma allocated_contents bn' : 0 <= bn' < MAXFILE -> faddr c x bn' <> 0 -> allocated sb b c (faddr c x bn') = c (faddr c x bn').
Proof. intros Hb' Hn. apply allocated_own. by apply faddr_in. Qed.

Lemma grew_direct i : 0 <= i < NDIRECT -> addr_of x i = 0 -> grew sb c (allocated sb b c) x (set_addr i b x) i b.
Proof.
  intros Hi Hz. destruct (direct_ok i Hi Hz) as [Hf' Hg']. pose proof ways_pos. constructor; try done.
  - apply ways_bitmap.
  - rewrite faddr_direct by (done || unfold MAXFILE; rewrite NINDIRECT_eq; lia). by rewrite decide_True.
  - lia.
  - apply allocated_contents.
  - intros _. apply allocated_self.
Qed.
Lemma grew_entry bn : NDIRECT <= bn < MAXFILE -> addr_of x NDIRECT <> 0 -> faddr c x bn = 0 -> grew sb c (with_entry bn) x x bn b.
Proof.
  intros Hbn Hi Hz. destruct (entry_ok bn Hbn Hi Hz) as [Hf' Hg']. pose proof ways_pos. constructor; try done.
  - intros a Ha Hfr. apply entry_bit in Hfr as [_ Hfr]; [by apply Hbm|done|done].
  - rewrite faddr_entry by (done || unfold NDIRECT in *; lia). by rewrite decide_True.
  - lia.
  - intros bn' Hb' Hn. unfold with_entry. rewrite fupd_ne by by apply Hf. by apply allocated_contents.
  - intros _. unfold with_entry. rewrite fupd_ne; [apply allocated_self|]. intros E. apply (free_not_in _ _ _ _ Hf Hfree). rewrite E. by apply ind_in.
Qed.
Lemma grew_indirect bn c2 x2 b2 :
  addr_of x NDIRECT = 0 -> 0 <= bn < MAXFILE -> faddr c x bn = 0 ->
  grew sb (allocated sb b c) c2 (set_addr NDIRECT b x) x2 bn b2 -> grew sb c c2 x x2 bn b2.
Proof.
  intros Hz Hbn Hfz [P1 P2 P3 P4 P5 P6 P7]. destruct (indirect_ok Hz) as [Hf1 Hg1]. constructor; try done.
  - apply (grown_trans sb c x (allocated sb b c) (set_addr NDIRECT b x)); try done. by apply data_start_nonneg.
  - intros bn' Hb' Hn. pose proof (faddr_indirect bn' Hz Hb') as Ea. rewrite <- Ea. rewrite P6 by congruence. rewrite Ea. by apply allocated_contents.
  - intros _. apply P7. by rewrite faddr_indirect.
Qed.
End Ways.

(** ** Other files *)
Definition disjoint_files (c : Z -> list Z) (x y : inode) : Prop := forall a, in_file c x a -> in_file c y a -> False.
Section Other.
Context (sb : superblock) (c c' : Z -> list Z) (x x' y : inode) (G : geometry sb).
Context (Hg : grown sb c x c' x') (Hy : file_ok sb c y) (Hdis : disjoint_files c x y).

Lemma other_not_in a : in_file c y a -> ~ in_file c' x' a.
Proof. intros Ha Hin. destruct (gr_new _ _ _ _ _ Hg a Hin) as [Hx|Hf]; [by apply (Hdis a)|]. by apply (free_not_in _ _ _ _ Hy Hf). Qed.
Lemma other_same a : in_file c y a -> c' a = c a.
Proof.
  intros Ha. apply (gr_frame _ _ _ _ _ Hg); [|by apply other_not_in]. intros Hb. destruct (fo_own _ _ _ Hy a Ha).
  pose proof (bitmap_below sb a G Hb). lia.
Qed.
Lemma other_faddr bn : faddr c' y bn = faddr c y bn.
Proof. unfold faddr. case_decide; [done|]. case_decide as Hi; [done|]. by rewrite other_same by by apply ind_in. Qed.
Lemma other_in a : in_file c' y a <-> in_file c y a.
Proof. unfold in_file. by setoid_rewrite other_faddr. Qed.
Lemma other_file : file_ok sb c' y /\ disjoint_files c' x' y /\ (forall bn, faddr c' y bn = faddr c y bn) /\
  (forall bn, 0 <= bn < MAXFILE -> faddr c y bn <> 0 -> c' (faddr c y bn) = c (faddr c y bn)).
Proof.
  split_and!; [|..].
  - constructor.
    + apply Hy.
    + intros a Ha%other_in. destruct (fo_own _ _ _ Hy a Ha) as [Hr Hn]. split; [done|]. intros Hfr. apply Hn.
      apply (gr_free _ _ _ _ _ Hg); [|done]. pose proof (data_start_nonneg sb G). lia.
    + intros bn bn'. rewrite !other_faddr. apply Hy.
    + intros bn. rewrite other_faddr. apply Hy.
  - intros a Hx Ha%other_in. by apply (other_not_in a).
  - apply other_faddr.
  - intros bn Hb Hn. apply other_same. by apply faddr_in.
Qed.
End Other.
