(* ===== verification/FsBmap.v ===== *)
(** * bmap() with allocation

    [wfile]: a well-formed file of the current transaction.  bmap() returns the
    block of the file, adding it when it is missing; it panics only when no
    block is free. *)

From S2P Require Import Prelude Machine Kstring Kernel Spinlock Kalloc Vm Sched Sleeplock Bio BioSpec Log LogSpec LogCommit Fs FsSpec FsTx FsAlloc FsFile FsGrow.

(** ** Changing an in-memory inode *)
Lemma bcached_upd_inode p dev k c pin held i f :
  bcached p dev k c pin held -> bcached p dev (upd_inode i f k) c pin held.
Proof.
  intros [[[Hc Hn Hl] Hb Hs Hr] [l [? ? ? ?]] ? H4 ? ? ? ?].
  assert (quiet (upd_inode i f k)) as Hq by (constructor; assumption).
  assert (io_ready (upd_inode i f k) p) as Hio by (constructor; assumption).
  constructor; try assumption.
  - exists l. constructor; try done. by apply (dll_ext k).
  - intros j Hj. destruct (H4 j Hj) as [?|[b [B1 B2 B3 B4 B5]]]; [by left|]. right. exists b. by constructor.
Qed.
Lemma in_txn_upd_inode p dev k c bs held i f : in_txn p dev k c bs held -> in_txn p dev (upd_inode i f k) c bs held.
Proof. intros [H1 H2 H3 H4 H5 H6 H7 H8 H9]. constructor; try done. by apply bcached_upd_inode. Qed.

(** Everything but inode [ip], the cache and the record of the transaction. *)
Definition ino_frame (ip : nat) (k k' : kernel) : Prop :=
  fs_frame (upd_inode ip (fun _ => inode0) k) (upd_inode ip (fun _ => inode0) k').
#[export] Instance ino_frame_equiv ip : Equivalence (ino_frame ip).
Proof. split; unfold ino_frame; [done|by intros k k' ->|by intros k1 k2 k3 -> ->]. Qed.
Lemma fs_ino_frame ip k k' : fs_frame k k' -> ino_frame ip k k'.
Proof. unfold ino_frame, fs_frame, io_frame. intros H. apply (f_equal (upd_inode ip (fun _ => inode0))) in H. exact H. Qed.
Lemma ino_frame_upd ip f k : ino_frame ip k (upd_inode ip f k).
Proof. unfold ino_frame, fs_frame, io_frame, upd_inode. cbn. by rewrite list_alter_alter_eq. Qed.
Lemma ino_frame_sb ip k k' : ino_frame ip k k' -> k_sb k' = k_sb k.
Proof. intros H. apply (fs_frame_sb _ _ H). Qed.
Lemma ino_frame_len ip k k' : ino_frame ip k k' -> length (k_itable k') = length (k_itable k).
Proof. intros H. apply fs_frame_itable, (f_equal length) in H. cbn in H. by rewrite !length_alter in H. Qed.
Lemma get_upd_inode ip f k : (ip < length (k_itable k))%nat -> get_inode (upd_inode ip f k) ip = f (get_inode k ip).
Proof.
  intros Hi. unfold get_inode. cbn [upd_inode set_k_itable k_itable]. rewrite list_lookup_alter_eq.
  destruct (lookup_lt_is_Some_2 _ _ Hi) as [x ->]. done.
Qed.

(** ** bmap() *)
Section Bmap.
Context `{Symbols} {D : BlockDevice} {DOK : BlockDeviceOK D} (p : nat) (dev : Z) (sb : superblock) (G : geometry sb).

(** A file of the current transaction: the state of inode [ip] and of the disk. *)
Record wfile (k : kernel) (c : Z -> list Z) (bs : list Z) (held : gmap Z nat) (ip : nat) (x : inode) : Prop := mkWfile {
  wf_txn : in_txn p dev k c bs held;
  wf_sb : k_sb k = sb;
  wf_ip : (ip < length (k_itable k))%nat;
  wf_inode : get_inode k ip = x;
  wf_dev : i_dev x = dev;
  wf_file : file_ok sb c x;
  wf_bitmap : bitmap_ok c sb
}.
Lemma wf_len k c bs held ip x a : wfile k c bs held ip x -> length (c a) = Z.to_nat BSIZE.
Proof. intros Hw. apply (bc_len _ _ _ _ _ _ (it_cached _ _ _ _ _ _ (wf_txn _ _ _ _ _ _ Hw))). Qed.
(** Steps that leave the files alone. *)
Lemma wfile_frame k k' c bs held held' ip x :
  wfile k c bs held ip x -> in_txn p dev k' c bs held' -> fs_frame k k' -> wfile k' c bs held' ip x.
Proof.
  intros [W1 W2 W3 W4 W5 W6 W7] Hk F.
  constructor; try done; [by rewrite (fs_frame_sb _ _ F)|by rewrite (fs_frame_itable _ _ F)|by rewrite (fs_frame_inode _ _ _ F)].
Qed.
Lemma meta_dev x x' : set_i_addrs [] x' = set_i_addrs [] x -> i_dev x' = i_dev x.
Proof. intros E. by apply (f_equal i_dev) in E. Qed.

(** balloc() for the file: a fresh data block. *)
Lemma balloc_file e k c bs held ip x :
  wfile k c bs held ip x -> (forall a i, held !! a = Some i -> in_file c x a) -> (length bs + size held + 3 <= NBUF)%nat ->
  (exists b k', balloc dev e k = Ok b e k' /\ data_start sb <= b < sb_size sb /\ block_free c sb b /\
     in_txn p dev k' (allocated sb b c) (absorb (absorb bs (BBLOCK b sb)) b) held /\ fs_frame k k') \/
  balloc dev e k = Panic "balloc: out of blocks" /\ free_list sb c = [].
Proof.
  intros Hw Hh Hs. pose proof (wf_file _ _ _ _ _ _ Hw) as Hf.
  assert (forall a, ~ (data_start sb <= a < sb_size sb /\ ~ block_free c sb a) -> held !! a = None) as Hnone.
  { intros a Ha. destruct (held !! a) as [i|] eqn:E; [|done]. destruct Ha. by apply Hf, (Hh a i). }
  destruct (balloc_ok p dev held sb c bs G) with (e := e) (k := k) as [(b & k' & E & B1 & B2 & _ & B3 & B4)|[E Hnf]]; [| |done|apply Hw|apply Hw| |right; split; [done|]].
  - intros a Ha. apply Hnone. pose proof (bitmap_below sb a G Ha). lia.
  - intros a _ Ha. apply Hnone. tauto.
  - left. exists b, k'. split_and!; try done; [|lia]. by apply (wf_bitmap _ _ _ _ _ _ Hw).
  - apply elem_of_nil_inv. intros a. rewrite elem_of_free_list. intros [Ha Hr]. by apply (Hnf a).
Qed.
Lemma free_list_alloc k c bs held ip x b :
  wfile k c bs held ip x -> data_start sb <= b < sb_size sb -> block_free c sb b ->
  length (free_list sb c) = S (length (free_list sb (allocated sb b c))).
Proof.
  intros Hw Hb Hfr. pose proof (ways_pos sb b G Hb). apply (free_list_take sb c _ b); [lia|done|].
  intros b' Hb'. apply allocated_bitmap; [done|lia|lia|intros; by apply (wf_len _ _ _ _ _ _ _ Hw)|done].
Qed.

Lemma absorb2_len bs a b : (length (absorb (absorb bs a) b) <= length bs + 2)%nat.
Proof. pose proof (absorb_len bs a). pose proof (absorb_len (absorb bs a) b). lia. Qed.

Lemma alloc_bitmap_ok k c bs held ip x b :
  wfile k c bs held ip x -> data_start sb <= b < sb_size sb -> block_free c sb b -> bitmap_ok (allocated sb b c) sb.
Proof.
  intros Hw Hb Hfr. pose proof (ways_pos sb b G Hb).
  apply allocated_bitmap_ok; [done|lia|lia|intros; by apply (wf_len _ _ _ _ _ _ _ Hw)|apply Hw].
Qed.

(** ip->addrs[i] is filled in. *)
Lemma addr_alloc_ok e k c bs ip x i :
  wfile k c bs ∅ ip x -> 0 <= i <= NDIRECT -> addr_of x i = 0 -> (length bs + 3 <= NBUF)%nat ->
  (exists b k' bs', addr_alloc ip i e k = Ok b e k' /\ data_start sb <= b < sb_size sb /\ block_free c sb b /\
     wfile k' (allocated sb b c) bs' ∅ ip (set_addr i b x) /\ grown sb c x (allocated sb b c) (set_addr i b x) /\
     (length bs' <= length bs + 2)%nat /\ (forall a, a ∈ bs' -> a ∈ bs \/ bitmap_block sb a \/ a = b) /\ ino_frame ip k k') \/
  addr_alloc ip i e k = Panic "balloc: out of blocks" /\ free_list sb c = [].
Proof.
  intros Hw Hi Hz Hs. pose proof Hw as [W1 W2 W3 W4 W5 W6 W7]. unfold addr_alloc. cbn [bind gets]. rewrite W4, decide_True, W5 by done. cbn [bind].
  destruct (balloc_file e k c bs ∅ ip x Hw) as [(b & k1 & E1 & B1 & B2 & B3 & B4)|E]; [set_solver|rewrite map_size_empty; lia| |destruct E as [E ?]; rewrite E; by right].
  rewrite E1. cbn [bind modify ret]. left. exists b. eexists _, _. split; [done|]. split; [done|]. split; [done|].
  assert (file_ok sb (allocated sb b c) (set_addr i b x) /\ grown sb c x (allocated sb b c) (set_addr i b x)) as [Hf' Hg'].
  { pose proof (fun a => wf_len _ _ _ _ _ _ a Hw) as Hlen. destruct (decide (i = NDIRECT)) as [->|Hne]; [by apply indirect_ok|apply direct_ok; try done; lia]. }
  assert (get_inode k1 ip = x) as Ex by by rewrite (fs_frame_inode _ _ _ B4).
  assert (ip < length (k_itable k1))%nat as Hip by by rewrite (fs_frame_itable _ _ B4).
  split_and!; [constructor|done|apply absorb2_len| |].
  - by apply in_txn_upd_inode.
  - cbn. by rewrite (fs_frame_sb _ _ B4).
  - cbn. by rewrite length_alter.
  - rewrite get_upd_inode by done. by rewrite Ex.
  - done.
  - done.
  - by apply (alloc_bitmap_ok _ _ _ _ _ _ _ Hw).
  - intros a. rewrite !absorb_elem. intros [[?| ->]|?]; [by left| |by right; right]. right. left. exists b. pose proof (ways_pos sb b G B1). split; [lia|done].
  - transitivity k1; [by apply fs_ino_frame|apply ino_frame_upd].
Qed.

(** The part of bmap() that uses the indirect block [ind]. *)
Definition bmap_entry (ip : nat) (bn ind : Z) : K Z :=
  d <- gets (fun k => i_dev (get_inode k ip));;
  bp <- bread d ind;;
  a <- gets (fun k => get32 (b_data (get_buf k bp)) (4 * (bn - NDIRECT)));;
  addr <- (if decide (a = 0) then
             addr <- balloc d;;
             modify (upd_buf bp (fun b => set_b_data (put32 (b_data b) (4 * (bn - NDIRECT)) addr) b));;;
             log_write bp;;;
             ret addr
           else ret a);;
  brelse bp;;;
  ret addr.
Lemma bmap_indirect ip bn : NDIRECT <= bn < MAXFILE -> bmap ip bn = bind (addr_alloc ip NDIRECT) (bmap_entry ip bn).
Proof. intros Hb. unfold bmap. rewrite decide_False by lia. by rewrite decide_True by (unfold MAXFILE in Hb; lia). Qed.

(** What bmap() promises: the file has block [bn], new blocks are zero, old
    blocks and their contents are as they were. *)
Definition bmap_post (k k' : kernel) (c c' : Z -> list Z) (bs bs' : list Z) (ip : nat) (x x' : inode) (bn b : Z) : Prop :=
  wfile k' c' bs' ∅ ip x' /\ grew sb c c' x x' bn b /\ (forall a, a ∈ bs' -> a ∈ bs \/ touched sb c' x' bn (bn + 1) a) /\
  (length (free_list sb c) <= length (free_list sb c') + 2)%nat /\ ino_frame ip k k'.

Lemma bmap_entry_ok e k c bs ip x bn :
  wfile k c bs ∅ ip x -> NDIRECT <= bn < MAXFILE -> addr_of x NDIRECT <> 0 -> faddr c x bn = 0 -> (length bs + 4 <= NBUF)%nat ->
  (exists b k' c' bs', bmap_entry ip bn (addr_of x NDIRECT) e k = Ok b e k' /\ bmap_post k k' c c' bs bs' ip x x bn b /\
     length (free_list sb c) = S (length (free_list sb c'))) \/
  bmap_entry ip bn (addr_of x NDIRECT) e k = Panic "balloc: out of blocks" /\ free_list sb c = [].
Proof.
  intros Hw Hbn Hi Hz Hs. pose proof Hw as [W1 W2 W3 W4 W5 W6 W7]. pose proof (fun a => wf_len _ _ _ _ _ _ a Hw) as Hlen.
  unfold bmap_entry. cbn [bind gets]. rewrite W4, W5. set (ind := addr_of x NDIRECT) in *.
  destruct (tx_bread p dev e k c bs ∅ W1 ind) as (i & k1 & E1 & H1 & Hd1 & F1); [done|rewrite map_size_empty; lia|].
  rewrite E1. cbn [bind gets]. rewrite Hd1.
  assert (get32 (c ind) (4 * (bn - NDIRECT)) = 0) as Hent.
  { unfold faddr in Hz. rewrite decide_False in Hz by lia. rewrite decide_False in Hz by done. done. }
  rewrite (decide_True (P := get32 _ _ = 0)) by done. cbn [bind].
  assert (wfile k1 c bs (<[ind := i]> ∅) ip x) as Hw1.
  { by apply (wfile_frame k k1 c bs ∅). }
  destruct (balloc_file e k1 c bs _ ip x Hw1) as [(b & k2 & E2 & B1 & B2 & H2 & F2)|E].
  { intros a j Ha. apply lookup_insert_Some in Ha as [[<- _]|[_ Ha]]; [by apply ind_in|done]. }
  { rewrite map_size_insert_None, map_size_empty by done. lia. }
  2: { destruct E as [E ?]. rewrite E. by right. }
  rewrite E2. cbn [bind modify]. left. set (c1 := allocated sb b c) in *.
  assert (b_data (get_buf k2 i) = c1 ind) as Hd2.
  { destruct (bc_held_at p dev k2 c1 _ _ (it_cached _ _ _ _ _ _ H2) i ind) as [_ Hb]; [by rewrite lookup_insert_eq|]. apply Hb. }
  rewrite (upd_buf_data i (fun d => put32 d (4 * (bn - NDIRECT)) b)), Hd2.
  destruct (tx_store p dev e k2 c1 _ _ H2 ind i (put32 (c1 ind) (4 * (bn - NDIRECT)) b)) as (k3 & E3 & H3 & F3).
  { by rewrite lookup_insert_eq. } { rewrite length_put32. apply (bc_len _ _ _ _ _ _ (it_cached _ _ _ _ _ _ H2)). }
  { pose proof (absorb2_len bs (BBLOCK b sb) b). unfold NBUF, LOGSIZE, MAXOPBLOCKS in *. lia. }
  rewrite E3. cbn [bind ret].
  destruct (tx_brelse p dev e k3 _ _ _ H3 ind i) as (k4 & E4 & H4 & F4); [by rewrite lookup_insert_eq|].
  rewrite E4. cbn [bind ret]. rewrite delete_insert_id in H4 by done.
  assert (fs_frame k k4) as F by by rewrite F1, F2, F3.
  exists b, k4, (with_entry sb c x b bn). eexists _. split; [done|]. pose proof (ways_pos sb b G B1).
  assert (length (free_list sb c) = S (length (free_list sb (with_entry sb c x b bn)))) as Efl.
  { apply (free_list_take sb c _ b); [lia|done|]. intros b' Hb'. by apply entry_bit. }
  split; [|done]. assert (0 <= bn < MAXFILE) as Hbn' by (unfold NDIRECT in *; lia).
  pose proof (grew_entry sb c x b G W6 B1 B2 Hlen W7 bn Hbn Hi Hz) as Hgw.
  unfold bmap_post. split_and!; [|done| |lia|by apply fs_ino_frame].
  - constructor; [exact H4|by rewrite (fs_frame_sb _ _ F)|by rewrite (fs_frame_itable _ _ F)|by rewrite (fs_frame_inode _ _ _ F)|done|apply Hgw|apply Hgw].
  - intros a. rewrite !absorb_elem. intros [[[?| ->]| ->]| ->]; [by left|right..].
    + left. exists b. split; [lia|done].
    + right. split; [lia|]. right. exists bn. split_and!; [lia..|apply (gw_at _ _ _ _ _ _ _ Hgw)].
    + right. split; [done|by left].
Qed.

Lemma bmap_post_mapped k k' c bs ip x bn :
  wfile k c bs ∅ ip x -> in_txn p dev k' c bs ∅ -> fs_frame k k' -> faddr c x bn <> 0 -> bmap_post k k' c c bs bs ip x x bn (faddr c x bn).
Proof.
  intros Hw Hk F Hn. split_and!; [by apply (wfile_frame k k' c bs ∅)|apply grew_refl; [apply Hw|apply Hw|done]|by left|lia|by apply fs_ino_frame].
Qed.
Lemma bmap_direct_ok e k c bs ip x bn :
  wfile k c bs ∅ ip x -> 0 <= bn < NDIRECT -> addr_of x bn = 0 -> (length bs + 6 <= NBUF)%nat ->
  (exists b k' c' bs' x', bmap ip bn e k = Ok b e k' /\ bmap_post k k' c c' bs bs' ip x x' bn b) \/
  bmap ip bn e k = Panic "balloc: out of blocks" /\ (length (free_list sb c) <= 1)%nat.
Proof.
  intros Hw Hbn Hz Hs. pose proof (fun a => wf_len _ _ _ _ _ _ a Hw) as Hlen. unfold bmap. rewrite decide_True by lia.
  destruct (addr_alloc_ok e k c bs ip x bn Hw) as [(b & k' & bs' & E & Hb & Hfr & Hw' & Hg & L & R & F)|[E Hfl]]; [lia|done|lia| |right; rewrite Hfl; cbn; split; [done|lia]].
  left. exists b, k', (allocated sb b c), bs', (set_addr bn b x). split; [done|].
  pose proof (wf_file _ _ _ _ _ _ Hw) as Hf. pose proof (ways_pos sb b G Hb).
  pose proof (grew_direct sb c x b G Hf Hb Hfr Hlen (wf_bitmap _ _ _ _ _ _ Hw) bn Hbn Hz) as Hgw.
  unfold bmap_post. split_and!; [done|done| | |done].
  - intros a Ha. destruct (R a Ha) as [?|[?| ->]]; [by left|by right; left|]. right. right. split; [lia|]. right. exists bn. unfold MAXFILE. rewrite NINDIRECT_eq. split_and!; [lia..|apply (gw_at _ _ _ _ _ _ _ Hgw)].
  - rewrite (free_list_alloc _ _ _ _ _ _ _ Hw Hb Hfr). lia.
Qed.

Lemma bmap_ok e k c bs ip x bn :
  wfile k c bs ∅ ip x -> 0 <= bn < MAXFILE -> (length bs + 6 <= NBUF)%nat ->
  (exists b k' c' bs' x', bmap ip bn e k = Ok b e k' /\ bmap_post k k' c c' bs bs' ip x x' bn b) \/
  bmap ip bn e k = Panic "balloc: out of blocks" /\ (length (free_list sb c) <= 1)%nat.
Proof.
  intros Hw Hbn Hs. pose proof Hw as [W1 W2 W3 W4 W5 W6 W7]. destruct (decide (faddr c x bn = 0)) as [Hz|Hn].
  2: { destruct (bmap_mapped p dev e k c bs ∅ ip bn W1) as (k' & E & H' & F); rewrite ?W4, ?map_size_empty; try done; [lia|].
    rewrite W4 in E. left. exists (faddr c x bn), k', c, bs, x. split; [done|]. by apply bmap_post_mapped. }
  destruct (decide (bn < NDIRECT)) as [Hd|Hd].
  { apply bmap_direct_ok; [done|lia| |done]. unfold faddr in Hz. by rewrite decide_True in Hz. }
  rewrite bmap_indirect by lia. destruct (decide (addr_of x NDIRECT = 0)) as [Hi|Hi].
  - destruct (addr_alloc_ok e k c bs ip x NDIRECT Hw) as [(b & k1 & bs1 & E1 & Hb & Hfr & Hw1 & Hg1 & L1 & R1 & F1)|[E Hfl]]; [done|done|lia| |right; cbn [bind]; rewrite E, Hfl; cbn; split; [done|lia]].
    cbn [bind]. rewrite E1. set (x1 := set_addr NDIRECT b x) in *. set (c1 := allocated sb b c) in *.
    pose proof (fun a => wf_len _ _ _ _ _ _ a Hw) as Hlen. pose proof (ways_pos sb b G Hb).
    assert (addr_of x1 NDIRECT = b) as Ei. { unfold x1. rewrite addr_of_set by (apply W6 || done). by rewrite decide_True. }
    assert (faddr c1 x1 bn = 0) as Hz1 by by rewrite (faddr_indirect sb c x b G W6 Hb).
    destruct (bmap_entry_ok e k1 c1 bs1 ip x1 bn Hw1) as [(b2 & k2 & c2 & bs2 & E2 & (P1 & P2 & P7 & _ & P8) & L2)|E];
      rewrite ?Ei in *; try done; [lia|lia|lia| |right; destruct E as [E Hfl]; rewrite (free_list_alloc _ _ _ _ _ _ _ Hw Hb Hfr); fold c1; rewrite Hfl; cbn; split; [done|lia]].
    left. exists b2, k2, c2, bs2, x1. split; [done|]. unfold bmap_post. split_and!; [done| | | |by rewrite F1].
    + by apply (grew_indirect sb c x b G W6 Hb Hfr Hlen).
    + intros a Ha. destruct (P7 a Ha) as [Ha1|?]; [|by right]. destruct (R1 a Ha1) as [?|[?| ->]]; [by left|by right; left|]. right. right. split; [lia|]. by left.
    + rewrite (free_list_alloc _ _ _ _ _ _ _ Hw Hb Hfr). fold c1. lia.
  - cbn [bind]. unfold addr_alloc. cbn [bind gets]. rewrite W4. rewrite (decide_False (P := addr_of x NDIRECT = 0)) by done. cbn [ret].
    destruct (bmap_entry_ok e k c bs ip x bn Hw) as [(b & k' & c' & bs' & E & P & _)|[E Hfl]]; try done; [lia|lia| |right; rewrite Hfl; cbn; split; [done|lia]].
    left. by exists b, k', c', bs', x.
Qed.
End Bmap.
