(* ===== verification/FsBytes.v ===== *)
(** * The bytes of files under stores

    Stores to the blocks of a file and to the blocks of the inodes, as updates of
    the view of the disk: which bytes of the file change and that it stays
    well formed. *)

From S2P Require Import Prelude Machine Kstring Kernel Spinlock Kalloc Vm Sched Sleeplock Bio BioSpec Log LogSpec LogCommit Fs FsSpec FsTx FsAlloc FsFile FsGrow.

(** ** Bytes of a block *)
Lemma length_splice l o s : 0 <= o <= Z.of_nat (length l) -> length (splice l o s) = (length l `max` (Z.to_nat o + length s))%nat.
Proof. intros Ho. unfold splice. rewrite !length_app, length_take, length_drop. lia. Qed.
Lemma byte_at_splice l o s j :
  0 <= o <= Z.of_nat (length l) -> 0 <= j ->
  byte_at (splice l o s) j = if decide (o <= j < o + Z.of_nat (length s)) then byte_at s (j - o) else byte_at l j.
Proof.
  intros Ho Hj. unfold byte_at, splice. rewrite !nth_lookup. case_decide as E.
  - rewrite lookup_app_r by (rewrite length_take; lia). rewrite lookup_app_l by (rewrite length_take; lia).
    rewrite length_take. by replace (Z.to_nat j - Z.to_nat o `min` length l)%nat with (Z.to_nat (j - o)) by lia.
  - destruct (decide (j < o)).
    + rewrite lookup_app_l by (rewrite length_take; lia). by rewrite lookup_take_lt by lia.
    + rewrite lookup_app_r by (rewrite length_take; lia). rewrite lookup_app_r by (rewrite length_take; lia).
      rewrite length_take, lookup_drop. do 2 f_equal. lia.
Qed.
Lemma length_slice d o m : 0 <= o -> 0 <= m -> o + m <= Z.of_nat (length d) -> length (slice d o m) = Z.to_nat m.
Proof. intros Ho Hm Hd. unfold slice. rewrite length_take, length_drop. lia. Qed.
Lemma byte_at_slice d o m i : 0 <= o -> 0 <= i < m -> byte_at (slice d o m) i = byte_at d (o + i).
Proof.
  intros Ho Hi. unfold byte_at, slice. rewrite !nth_lookup. rewrite lookup_take_lt, lookup_drop by lia. do 2 f_equal. lia.
Qed.

Lemma block_of_q q : 0 <= q < MAXFILE * BSIZE -> 0 <= q / BSIZE < MAXFILE.
Proof. intros Hq. rewrite BSIZE_eq in *. Z.to_euclidean_division_equations. lia. Qed.

(** ** A store to a block of the file *)
Section Store.
Context (sb : superblock) (c : Z -> list Z) (x : inode) (bn : Z) (d : list Z).
Context (G : geometry sb) (Hf : file_ok sb c x) (Hbn : 0 <= bn < MAXFILE) (Ha : faddr c x bn <> 0).
Definition stored : Z -> list Z := fupd (faddr c x bn) d c.

Lemma stored_faddr bn' : 0 <= bn' < MAXFILE -> faddr stored x bn' = faddr c x bn'.
Proof.
  intros Hb'. unfold faddr. case_decide; [done|]. case_decide as Hi; [done|]. unfold stored. rewrite fupd_ne; [done|].
  intros E. by apply (fo_ind _ _ _ Hf bn Hbn Hi).
Qed.
Lemma stored_free b : 0 <= b < sb_size sb -> block_free stored sb b <-> block_free c sb b.
Proof.
  intros Hb. unfold block_free, stored. rewrite fupd_ne; [done|].
  pose proof (bitmap_below sb (BBLOCK b sb) G ltac:(by exists b)). destruct (fo_own _ _ _ Hf _ (faddr_in c x bn Hbn Ha)). lia.
Qed.
Lemma stored_in a : in_file stored x a <-> in_file c x a.
Proof.
  unfold in_file. split; (intros [Hn [E|(bn' & Hb' & E)]]; (split; [done|]); [by left|right]); exists bn'; (split; [done|]).
  - by rewrite <- stored_faddr.
  - by rewrite stored_faddr.
Qed.
Lemma stored_ok : file_ok sb stored x.
Proof.
  constructor.
  - apply Hf.
  - intros a Hin%stored_in. destruct (fo_own _ _ _ Hf a Hin) as [Hr Hn]. split; [done|]. rewrite stored_free; [done|].
    pose proof (data_start_nonneg sb G). lia.
  - intros bn1 bn2 H1 H2. rewrite !stored_faddr by done. by apply Hf.
  - intros bn1 H1. rewrite stored_faddr by done. by apply Hf.
Qed.
Lemma stored_grown : grown sb c x stored x.
Proof.
  constructor; try done.
  - intros b Hb _. by apply stored_faddr.
  - intros a _ Hin. unfold stored. apply fupd_ne. intros ->. apply Hin, stored_in. by apply faddr_in.
  - intros a Hin%stored_in. by left.
  - intros a Hr. by apply stored_free.
Qed.
Lemma stored_bitmap : bitmap_ok c sb -> bitmap_ok stored sb.
Proof. intros Hb b Hr Hfr. apply Hb; [done|]. by apply stored_free. Qed.
Lemma stored_free_list : length (free_list sb stored) = length (free_list sb c).
Proof.
  apply Permutation_length, NoDup_Permutation; [apply NoDup_free_list..|]. intros b. rewrite !elem_of_free_list.
  split; intros [H1 H2]; (split; [|done]); by apply stored_free.
Qed.
Lemma stored_fbyte q :
  0 <= q < MAXFILE * BSIZE -> faddr c x (q / BSIZE) <> 0 ->
  fbyte stored x q = if decide (q / BSIZE = bn) then byte_at d (q mod BSIZE) else fbyte c x q.
Proof.
  intros Hq Hn. assert (0 <= q / BSIZE < MAXFILE) as Hr. { rewrite BSIZE_eq in *. Z.to_euclidean_division_equations. lia. }
  unfold fbyte. rewrite stored_faddr by done. unfold stored. case_decide as E; [by rewrite E, fupd_eq|].
  rewrite fupd_ne; [done|]. intros Ee. apply E. by apply Hf.
Qed.
End Store.

(** ** Runs of bytes over blocks *)
(** The number of blocks that the first [tot] bytes from [off] lie in. *)
Definition span (off tot : Z) : Z := if decide (tot <= 0) then 0 else (off + tot - 1) / BSIZE + 1 - off / BSIZE.
Lemma span_step off n tot m :
  0 <= off -> off + n <= MAXFILE * BSIZE -> 0 <= tot < n -> m = Z.min (n - tot) (BSIZE - (off + tot) mod BSIZE) -> tot = 0 \/ tot = n \/ (off + tot) mod BSIZE = 0 ->
  0 < m /\ (off + tot) mod BSIZE + m <= BSIZE /\ 0 <= (off + tot) / BSIZE < MAXFILE /\ span off (tot + m) = span off tot + 1 /\ span off tot + 1 <= span off n /\
  off / BSIZE <= (off + tot) / BSIZE < off / BSIZE + span off n /\ (tot + m = 0 \/ tot + m = n \/ (off + (tot + m)) mod BSIZE = 0).
Proof.
  intros Hoff Hmax Ht Em Hal. unfold span. rewrite BSIZE_eq in *. repeat case_decide; Z.to_euclidean_division_equations; lia.
Qed.
Lemma block_of off q tot m :
  0 <= tot -> 0 <= off -> (off + tot) mod BSIZE + m <= BSIZE -> 0 < m -> 0 <= q ->
  off + tot <= q < off + (tot + m) <-> q / BSIZE = (off + tot) / BSIZE /\ (off + tot) mod BSIZE <= q mod BSIZE < (off + tot) mod BSIZE + m.
Proof. intros H1 H2 H3 H4 H5. rewrite BSIZE_eq in *. Z.to_euclidean_division_equations. lia. Qed.

(** The file [c], [x] after the first [tot] bytes of [data] have gone to [off]
    in the file [c0], [x0]. *)
Record bytes_at (sb : superblock) (c0 : Z -> list Z) (x0 : inode) (off : Z) (data : list Z) (c : Z -> list Z) (x : inode) (tot : Z) : Prop := mkBytesAt {
  ba_grown : grown sb c0 x0 c x;
  ba_new q : off <= q < off + tot -> faddr c x (q / BSIZE) <> 0 /\ fbyte c x q = byte_at data (q - off);
  ba_old q : 0 <= q < MAXFILE * BSIZE -> ~ (off <= q < off + tot) -> faddr c0 x0 (q / BSIZE) <> 0 -> fbyte c x q = fbyte c0 x0 q
}.
Lemma bytes_at_start sb c x off data : bytes_at sb c x off data c x 0.
Proof. constructor; [apply grown_refl|intros; lia|done]. Qed.

(** A block that has grown keeps its bytes. *)
Lemma grew_fbyte sb c c' x x' bn b q :
  grew sb c c' x x' bn b -> 0 <= q < MAXFILE * BSIZE -> faddr c x (q / BSIZE) <> 0 -> fbyte c' x' q = fbyte c x q.
Proof.
  intros [_ _ P2 _ _ P5 _] Hq Hn. pose proof (block_of_q q Hq) as Hr. unfold fbyte.
  rewrite (gr_old _ _ _ _ _ P2) by done. by rewrite P5.
Qed.

Section Step.
Context (sb : superblock) (G : geometry sb) (c0 : Z -> list Z) (x0 : inode) (off n : Z) (data : list Z).
Context (Hoff : 0 <= off) (Hmax : off + n <= MAXFILE * BSIZE) (Hdata : Z.of_nat (length data) = n).
Context (c c1 : Z -> list Z) (x x1 : inode) (tot m b : Z).
Notation bn := ((off + tot) / BSIZE).
Notation o := ((off + tot) mod BSIZE).
Context (Hw : bytes_at sb c0 x0 off data c x tot) (Hgw : grew sb c c1 x x1 bn b) (Ht : 0 <= tot) (Hm : 0 < m) (Hle : tot + m <= n).
Context (Ho : o + m <= BSIZE) (Hbn : 0 <= bn < MAXFILE) (Hlb : length (c1 b) = Z.to_nat BSIZE).
Notation c2 := (stored c1 x1 bn (splice (c1 b) o (slice data tot m))).

Lemma step_fbyte q : 0 <= q < MAXFILE * BSIZE -> faddr c1 x1 (q / BSIZE) <> 0 ->
  fbyte c2 x1 q = if decide (off + tot <= q < off + (tot + m)) then byte_at data (q - off) else fbyte c1 x1 q.
Proof.
  destruct Hgw as [P1 P1' P2 P3 P4 _ _]. intros Hq Hn. assert (length (slice data tot m) = Z.to_nat m) as Hsl by (apply length_slice; lia).
  assert (0 <= o) as Ho' by (apply Z.mod_pos_bound; done). rewrite (stored_fbyte sb) by (done || by rewrite P3).
  pose proof (block_of off q tot m Ht Hoff Ho Hm ltac:(lia)) as Hbk.
  destruct (decide (q / BSIZE = bn)) as [Eb|Eb]; [|rewrite decide_False by tauto; done].
  rewrite byte_at_splice by (rewrite ?Hlb; try lia; apply Z.mod_pos_bound; done). rewrite Hsl, Z2Nat.id by lia.
  destruct (decide (o <= q mod BSIZE < o + m)) as [Ei|Ei]; [rewrite decide_True by tauto|rewrite decide_False by tauto].
  - rewrite byte_at_slice by lia. f_equal. clear - Eb Ei Hq Ht. rewrite BSIZE_eq in *. pose proof (Z.div_mod q 1024). pose proof (Z.div_mod (off + tot) 1024). lia.
  - unfold fbyte. by rewrite Eb, P3.
Qed.
Lemma step_ok : file_ok sb c2 x1 /\ bitmap_ok c2 sb /\ grown sb c x c2 x1 /\ length (free_list sb c2) = length (free_list sb c1).
Proof.
  destruct Hgw as [P1 P1' P2 P3 P4 _ _]. assert (faddr c1 x1 bn <> 0) as Hn by by rewrite P3.
  assert (file_ok sb c2 x1) as Hf2 by by apply stored_ok.
  split_and!; [done|by apply stored_bitmap| |by apply (stored_free_list sb)].
  apply (grown_trans sb c x c1 x1); try done; [by apply data_start_nonneg|by apply stored_grown].
Qed.
Lemma bytes_step (Hf0 : file_ok sb c x) : bytes_at sb c0 x0 off data c2 x1 (tot + m).
Proof.
  destruct step_ok as (F2 & _ & G2 & _). destruct Hgw as [P1 P1' P2 P3 P4 _ _].
  assert (forall bn', 0 <= bn' < MAXFILE -> faddr c2 x1 bn' = faddr c1 x1 bn') as Hfa by (intros; apply (stored_faddr sb); done || by rewrite P3).
  constructor.
  - apply (grown_trans sb c0 x0 c x); try done; [by apply data_start_nonneg|apply Hw].
  - intros q Hq. assert (0 <= q < MAXFILE * BSIZE) as Hq' by lia. rewrite Hfa by by apply block_of_q.
    destruct (decide (off + tot <= q < off + (tot + m))) as [Hin|Hout].
    + assert (faddr c1 x1 (q / BSIZE) <> 0) as Hn. { apply (block_of off q tot m Ht Hoff Ho Hm) in Hin as [-> _]; [by rewrite P3|lia]. }
      split; [done|]. rewrite step_fbyte by done. by rewrite decide_True.
    + destruct (ba_new _ _ _ _ _ _ _ _ Hw q ltac:(lia)) as [Hn Hd].
      assert (faddr c1 x1 (q / BSIZE) <> 0) as Hn1. { rewrite (gr_old _ _ _ _ _ P2); [done|by apply block_of_q|done]. }
      split; [done|]. rewrite step_fbyte, decide_False by done. by rewrite (grew_fbyte _ _ _ _ _ _ _ q Hgw).
  - intros q Hq Hout Hn0. assert (faddr c x (q / BSIZE) <> 0) as Hn.
    { rewrite (gr_old _ _ _ _ _ (ba_grown _ _ _ _ _ _ _ _ Hw)); [done|by apply block_of_q|done]. }
    assert (faddr c1 x1 (q / BSIZE) <> 0) as Hn1. { rewrite (gr_old _ _ _ _ _ P2); [done|by apply block_of_q|done]. }
    rewrite step_fbyte, decide_False by (done || lia). rewrite (grew_fbyte _ _ _ _ _ _ _ q Hgw) by done. apply (ba_old _ _ _ _ _ _ _ _ Hw); [done|lia|done].
Qed.
End Step.

(** ** The inode on the disk *)
(** A store to a block of the inodes changes neither the file nor the bitmap. *)
Section Meta.
Context (sb : superblock) (c : Z -> list Z) (x : inode) (ib : Z) (d : list Z).
Context (G : geometry sb) (Hf : file_ok sb c x) (Hib : ib < sb_bmapstart sb).
Notation c' := (fupd ib d c).

Lemma meta_not_in a : in_file c x a -> a <> ib.
Proof.
  intros Ha. destruct (fo_own _ _ _ Hf a Ha) as [Hr _]. unfold data_start in Hr. destruct G. rewrite BPB_eq in Hr.
  pose proof (Z.div_pos (sb_size sb) 8192). lia.
Qed.
Lemma meta_faddr bn : faddr c' x bn = faddr c x bn.
Proof.
  unfold faddr. case_decide; [done|]. case_decide as Hi; [done|]. rewrite fupd_ne; [done|]. apply meta_not_in. by apply ind_in.
Qed.
Lemma meta_free b : 0 <= b < sb_size sb -> block_free c' sb b <-> block_free c sb b.
Proof.
  intros Hb. unfold block_free. rewrite fupd_ne; [done|]. rewrite BBLOCK_eq by done. rewrite BPB_eq. pose proof (Z.div_pos b 8192). lia.
Qed.
Lemma meta_in a : in_file c' x a <-> in_file c x a.
Proof. unfold in_file. by setoid_rewrite meta_faddr. Qed.
Lemma meta_ok : file_ok sb c' x.
Proof.
  constructor.
  - apply Hf.
  - intros a Ha%meta_in. destruct (fo_own _ _ _ Hf a Ha) as [Hr Hn]. split; [done|]. rewrite meta_free; [done|]. pose proof (data_start_nonneg sb G). lia.
  - intros bn bn'. rewrite !meta_faddr. apply Hf.
  - intros bn. rewrite meta_faddr. apply Hf.
Qed.
Lemma meta_bitmap : bitmap_ok c sb -> bitmap_ok c' sb.
Proof. intros Hb b Hr Hfr. apply Hb; [done|]. by apply meta_free. Qed.
Lemma meta_fbyte q : 0 <= q < MAXFILE * BSIZE -> faddr c x (q / BSIZE) <> 0 -> fbyte c' x q = fbyte c x q.
Proof.
  intros Hq Hn. unfold fbyte. rewrite meta_faddr, fupd_ne; [done|]. apply meta_not_in. apply faddr_in; [|done]. by apply block_of_q.
Qed.
End Meta.

Lemma length_store_dinode d o x : length (store_dinode d o x) = length d.
Proof. by rewrite store_dinode_eq, length_store_addrs, length_store_head. Qed.


Lemma dinode_off_in i : 0 <= dinode_off i /\ dinode_off i + 64 <= 1024.
Proof. unfold dinode_off. change IPB with 16. change DINODE_SIZE with 64. Z.to_euclidean_division_equations. lia. Qed.
Lemma file_addrs sb c x : geometry sb -> file_ok sb c x -> Forall (fun a => 0 <= a < 2 ^ 32) (i_addrs x).
Proof.
  intros G Hf. apply Forall_lookup. intros i a Hi. pose proof (lookup_lt_Some _ _ _ Hi) as Hlt. rewrite (fo_len _ _ _ Hf) in Hlt.
  assert (addr_of x (Z.of_nat i) = a) as Ea by (unfold addr_of; rewrite Nat2Z.id, nth_lookup, Hi; done).
  destruct (decide (a = 0)) as [->|Hn]; [lia|]. destruct (fo_own _ _ _ Hf a) as [Hr _].
  - split; [done|]. destruct (decide (i = 12%nat)) as [->|Hne]; [left; by rewrite <- Ea|right]. exists (Z.of_nat i).
    split; [unfold MAXFILE, NDIRECT; rewrite NINDIRECT_eq; lia|]. unfold faddr. by rewrite decide_True by (unfold NDIRECT; lia).
  - destruct (g_size _ G). pose proof (data_start_nonneg sb G). lia.
Qed.

(** ** The bytes of a file *)
Lemma byte_at_fbytes c x n j : 0 <= j < n -> byte_at (fbytes c x 0 n) j = fbyte c x j.
Proof.
  intros Hj. unfold byte_at, fbytes. rewrite nth_lookup, list_lookup_fmap, lookup_seqZ_lt by lia. cbn. f_equal. lia.
Qed.
(** A file is the spliced file when its bytes are. *)
Lemma fbytes_splice c c' x x' off data sz :
  0 <= off <= sz ->
  (forall q, off <= q < off + Z.of_nat (length data) -> fbyte c' x' q = byte_at data (q - off)) ->
  (forall q, 0 <= q < sz -> ~ (off <= q < off + Z.of_nat (length data)) -> fbyte c' x' q = fbyte c x q) ->
  fbytes c' x' 0 (Z.max sz (off + Z.of_nat (length data))) = splice (fbytes c x 0 sz) off data.
Proof.
  intros Ho Hnew Hold. apply (nth_ext _ _ 0 0).
  { rewrite length_splice; rewrite ?length_fbytes; lia. }
  intros j Hj. rewrite length_fbytes in Hj. pose proof (byte_at_splice (fbytes c x 0 sz) off data (Z.of_nat j)) as Hs.
  pose proof (byte_at_fbytes c' x' (Z.max sz (off + Z.of_nat (length data))) (Z.of_nat j) ltac:(lia)) as Hb. unfold byte_at at 1 in Hs. unfold byte_at at 1 in Hb.
  rewrite Nat2Z.id in Hs, Hb. rewrite Hb, Hs; [|rewrite length_fbytes; lia|lia]. case_decide as E; [by apply Hnew|].
  rewrite byte_at_fbytes by lia. apply Hold; lia.
Qed.

(** An inode depends on its 64 bytes only. *)
Lemma load_dinode_ext d d' o z : 0 <= o -> (forall i, 0 <= i < 64 -> byte_at d (o + i) = byte_at d' (o + i)) -> load_dinode d o z = load_dinode d' o z.
Proof.
  intros Ho Hb. assert (forall i, 0 <= i < 63 -> get16 d (o + i) = get16 d' (o + i)) as H16.
  { intros i Hi. unfold get16. replace (o + i + 1) with (o + (i + 1)) by lia. by rewrite !Hb by lia. }
  assert (forall i, 0 <= i < 61 -> get32 d (o + i) = get32 d' (o + i)) as H32.
  { intros i Hi. unfold get32. replace (o + i + 2) with (o + (i + 2)) by lia. by rewrite !H16 by lia. }
  unfold load_dinode. rewrite (H16 2), (H16 4), (H16 6), (H32 8) by lia. pose proof (H16 0 ltac:(lia)) as H0. rewrite Z.add_0_r in H0. rewrite H0.
  f_equal. apply map_ext_in. intros j Hj. apply list_elem_of_In, elem_of_seqZ in Hj. unfold NDIRECT in Hj.
  replace (o + 12 + 4 * j) with (o + (12 + 4 * j)) by lia. apply H32. lia.
Qed.

(** Storing an inode leaves every other one alone. *)
Lemma dinode_other sb c i j x z :
  0 <= i < 2 ^ 31 -> 0 <= j < 2 ^ 31 -> 0 <= sb_inodestart sb < 2 ^ 31 -> j <> i -> length (c (IBLOCK i sb)) = Z.to_nat BSIZE ->
  load_dinode (fupd (IBLOCK i sb) (store_dinode (c (IBLOCK i sb)) (dinode_off i) x) c (IBLOCK j sb)) (dinode_off j) z =
  load_dinode (c (IBLOCK j sb)) (dinode_off j) z.
Proof.
  intros Hi Hj Hs Hne Hlen. unfold fupd. case_decide as E; [|done]. rewrite E. unfold IBLOCK in E.
  rewrite !u32_small in E by (change IPB with 16; Z.to_euclidean_division_equations; lia).
  pose proof (dinode_off_in i). pose proof (dinode_off_in j).
  assert (dinode_off j + 64 <= dinode_off i \/ dinode_off i + 64 <= dinode_off j) as Hap.
  { unfold dinode_off. change IPB with 16 in *. change DINODE_SIZE with 64. Z.to_euclidean_division_equations. lia. }
  apply load_dinode_ext; [lia|]. intros o Ho. rewrite BSIZE_eq in Hlen. apply store_dinode_frame; lia.
Qed.
