(* ===== verification/FsWrite.v ===== *)
(** * Writing files: writei()

    writei() puts the bytes it is given at the offset it is given, extends the
    file when they reach past its end, and changes no other byte of the file
    and no block of another file.  The transaction records the inode block, the
    bitmap, the indirect block and the blocks written, nothing else. *)

From S2P Require Import Prelude Machine Kstring Kernel Spinlock Kalloc Vm Sched Sleeplock Bio BioSpec Log LogSpec LogCommit Fs FsSpec FsTx FsAlloc FsFile FsGrow FsBmap FsBytes.

(** ** writei() *)
Section Writei.
Context `{Symbols} {D : BlockDevice} {DOK : BlockDeviceOK D} (p : nat) (dev : Z) (sb : superblock) (G : geometry sb).
(** The bitmap is one block, as mkfs makes it for FSSIZE blocks. *)
Context (Hone : sb_size sb <= BPB).
Context (k0 : kernel) (c0 : Z -> list Z) (bs0 : list Z) (ip : nat) (x0 : inode) (off n : Z) (data : list Z).
Context (Hoff : 0 <= off) (Hmax : off + n <= MAXFILE * BSIZE) (Hdata : Z.of_nat (length data) = n).

Context (Hroom : Z.of_nat (length bs0) + span off n + 8 <= Z.of_nat NBUF).

(** The state after [tot] bytes. *)
Record wrote (k : kernel) (c : Z -> list Z) (bs : list Z) (x : inode) (tot : Z) : Prop := mkWrote {
  wr_file : wfile p dev sb k c bs ∅ ip x;
  wr_bytes : bytes_at sb c0 x0 off data c x tot;
  wr_rec a : a ∈ bs -> a ∈ bs0 \/ touched sb c x (off / BSIZE) (off / BSIZE + span off n) a;
  wr_free : Z.of_nat (length (free_list sb c0)) <= Z.of_nat (length (free_list sb c)) + 2 * span off tot;
  wr_aligned : tot = 0 \/ tot = n \/ (off + tot) mod BSIZE = 0;
  wr_frame : ino_frame ip k0 k
}.

Lemma one_bitmap a : bitmap_block sb a -> a = BBLOCK 0 sb.
Proof using Hone. clear - Hone. intros (b & Hb & ->). apply BBLOCK_div. rewrite !Z.div_small; [done|rewrite BPB_eq; lia|lia]. Qed.

(** What is recorded fits the transaction. *)
Lemma rec_len c bs x :
  NoDup bs -> (forall a, a ∈ bs -> a ∈ bs0 \/ touched sb c x (off / BSIZE) (off / BSIZE + span off n) a) ->
  Z.of_nat (length bs) <= Z.of_nat (length bs0) + 2 + span off n.
Proof using Hone.
  intros Hnd Hrec. clear - Hone Hnd Hrec.
  assert (0 <= span off n) as Hsp. { unfold span. case_decide; [done|]. rewrite BSIZE_eq. Z.to_euclidean_division_equations. lia. }
  assert (bs ⊆+ bs0 ++ BBLOCK 0 sb :: addr_of x NDIRECT :: map (faddr c x) (seqZ (off / BSIZE) (span off n))) as Hsub.
  { apply NoDup_submseteq; [done|]. intros a Ha. rewrite elem_of_app, !elem_of_cons. destruct (Hrec a Ha) as [?|[Hb|[Hn [->|(bn & Hb1 & Hb2 & <-)]]]].
    - by left.
    - right. left. by apply one_bitmap.
    - by right; right; left.
    - right; right; right. apply list_elem_of_fmap. exists bn. split; [done|]. apply elem_of_seqZ. lia. }
  apply submseteq_length in Hsub. rewrite length_app in Hsub. cbn [length] in Hsub. rewrite length_map, length_seqZ in Hsub. lia.
Qed.

(** The state after a turn. *)
Lemma wrote_step k k1 k2 c c1 bs bs1 x x1 tot m b :
  let bn := (off + tot) / BSIZE in let o := (off + tot) mod BSIZE in let c2 := stored c1 x1 bn (splice (c1 b) o (slice data tot m)) in
  wrote k c bs x tot -> bmap_post p dev sb k k1 c c1 bs bs1 ip x x1 bn b -> 0 <= tot < n -> m = Z.min (n - tot) (BSIZE - o) ->
  in_txn p dev k2 c2 (absorb bs1 b) ∅ -> fs_frame k1 k2 -> wrote k2 c2 (absorb bs1 b) x1 (tot + m).
Proof.
  intros bn o c2 Hw P Ht Em H2 F2. destruct (span_step off n tot m Hoff Hmax Ht Em (wr_aligned _ _ _ _ _ Hw)) as (S1 & S2 & S3 & S4 & S5 & S6 & S7).
  fold bn o in S2, S3, S6. pose proof P as (P1 & P2 & P7 & P8 & P9). pose proof P1 as [W1 W2 W3 W4 W5 W6 W7].
  pose proof (wf_len _ _ _ _ _ _ _ _ _ b P1) as Hlb. pose proof (wf_file _ _ _ _ _ _ _ _ _ (wr_file _ _ _ _ _ Hw)) as Hf0.
  destruct (step_ok sb G off data c c1 x x1 tot m b P2) as (Hf2 & Hb2 & G3 & Hfl2); [done..|].
  constructor; try done.
  - constructor; try done; [by rewrite (fs_frame_sb _ _ F2)|by rewrite (fs_frame_itable _ _ F2)|by rewrite (fs_frame_inode _ _ _ F2)].
  - apply (bytes_step sb G c0 x0 off n data Hoff Hmax Hdata c c1 x x1); try (done || lia). apply Hw.
  - intros a. rewrite absorb_elem. intros [Ha| ->].
    + destruct (P7 a Ha) as [Ha'|Ha'].
      * destruct (wr_rec _ _ _ _ _ Hw a Ha') as [?|Hto]; [by left|]. right. revert Hto. apply touched_grown; [done|lia..].
      * right. revert Ha'. apply touched_grown; [apply stored_grown; try done; by rewrite (gw_at _ _ _ _ _ _ _ P2); apply P2|lia..].
    + right. right. split; [apply P2|]. right. exists bn. split_and!; [lia..|]. rewrite <- (gw_at _ _ _ _ _ _ _ P2). by apply (stored_faddr sb).
  - pose proof (wr_free _ _ _ _ _ Hw). change (length (free_list sb c2) = length (free_list sb c1)) in Hfl2. rewrite Hfl2. lia.
  - transitivity k1; [|by apply fs_ino_frame]. transitivity k; [apply Hw|done].
Qed.

Lemma writei_turn_ok e k c bs x tot :
  wrote k c bs x tot -> 0 <= tot < n ->
  (exists k' c' bs' x' m, 0 < m <= n - tot /\ writei_turn ip (FromLocal data) off n tot e k = Ok (inr (tot + m)) e k' /\ wrote k' c' bs' x' (tot + m)) \/
  writei_turn ip (FromLocal data) off n tot e k = Panic "balloc: out of blocks" /\ Z.of_nat (length (free_list sb c0)) < 2 * span off n.
Proof.
  intros Hw Ht. pose proof (wr_file _ _ _ _ _ Hw) as Hwf.
  assert (Z.of_nat (length bs) <= Z.of_nat (length bs0) + 2 + span off n) as Hlen by (apply (rec_len c bs x); [apply Hwf|apply Hw]).
  set (m := Z.min (n - tot) (BSIZE - (off + tot) mod BSIZE)).
  destruct (span_step off n tot m Hoff Hmax Ht eq_refl (wr_aligned _ _ _ _ _ Hw)) as (S1 & S2 & S3 & S4 & S5 & S6 & S7).
  unfold writei_turn. rewrite decide_False by lia. cbn [bind gets]. rewrite (wf_inode _ _ _ _ _ _ _ _ _ Hwf), (wf_dev _ _ _ _ _ _ _ _ _ Hwf).
  set (bn := (off + tot) / BSIZE) in *. set (o := (off + tot) mod BSIZE) in *. fold m.
  destruct (bmap_ok p dev sb G e k c bs ip x bn Hwf S3) as [(b & k1 & c1 & bs1 & x1 & E1 & P)|[E Hfl]]; [lia| |].
  2: { right. rewrite E. split; [done|]. pose proof (wr_free _ _ _ _ _ Hw). lia. }
  left. rewrite E1. pose proof P as (P1 & P2 & P7 & P8 & P9). pose proof (wf_txn _ _ _ _ _ _ _ _ _ P1) as H1.
  assert (Z.of_nat (length bs1) <= Z.of_nat (length bs0) + 2 + span off n) as Hlen1.
  { apply (rec_len c1 bs1 x1); [apply H1|]. intros a Ha. destruct (P7 a Ha) as [Ha'|Hto].
    - destruct (wr_rec _ _ _ _ _ Hw a Ha') as [?|Hto]; [by left|right]. revert Hto. apply touched_grown; [apply P2|lia..].
    - right. revert Hto. apply touched_grown; [apply grown_refl|lia..]. }
  destruct (tx_bread p dev e k1 c1 bs1 ∅ H1 b) as (i & k2 & E2 & H2 & Hd2 & F2); [done|rewrite map_size_empty; lia|].
  rewrite E2. cbn [bind gets copy_from ret modify fst snd]. rewrite (decide_False (P := 0 = -1)) by done.
  rewrite (upd_buf_data i (fun d => splice d o (slice data tot m))), Hd2.
  assert (length (slice data tot m) = Z.to_nat m) as Hsl by (apply length_slice; lia).
  destruct (tx_store p dev e k2 c1 bs1 _ H2 b i (splice (c1 b) o (slice data tot m))) as (k3 & E3 & H3 & F3).
  { by rewrite lookup_insert_eq. }
  { pose proof (Z.mod_pos_bound (off + tot) BSIZE ltac:(done)). rewrite length_splice; rewrite ?(wf_len _ _ _ _ _ _ _ _ _ b P1), ?Hsl; unfold o in *; lia. }
  { unfold NBUF, LOGSIZE, MAXOPBLOCKS in *. lia. }
  cbn [bind]. rewrite E3. destruct (tx_brelse p dev e k3 _ _ _ H3 b i) as (k4 & E4 & H4 & F4); [by rewrite lookup_insert_eq|].
  cbn [bind]. rewrite E4. cbn [ret]. rewrite delete_insert_id in H4 by done.
  exists k4, (stored c1 x1 bn (splice (c1 b) o (slice data tot m))), (absorb bs1 b), x1, m. split; [lia|]. split; [done|].
  apply (wrote_step k k1 k4 c c1 bs bs1 x x1 tot m b); try done; [|by rewrite F2, F3].
  unfold stored. fold bn. by rewrite (gw_at _ _ _ _ _ _ _ P2).
Qed.

Lemma writei_loop e fuel : forall k c bs x tot,
  wrote k c bs x tot -> 0 <= tot <= n -> (Z.to_nat (n - tot) < fuel)%nat ->
  (exists k' c' bs' x', loop_ fuel (writei_turn ip (FromLocal data) off n) tot e k = Ok n e k' /\ wrote k' c' bs' x' n) \/
  loop_ fuel (writei_turn ip (FromLocal data) off n) tot e k = Panic "balloc: out of blocks" /\ Z.of_nat (length (free_list sb c0)) < 2 * span off n.
Proof.
  induction fuel as [|fuel IH]; intros k c bs x tot Hw Ht Hfu; [lia|]. cbn [loop_ bind]. destruct (decide (tot = n)) as [->|Hne].
  - left. unfold writei_turn. rewrite decide_True by lia. by exists k, c, bs, x.
  - destruct (writei_turn_ok e k c bs x tot Hw ltac:(lia)) as [(k1 & c1 & bs1 & x1 & m & Hm & E1 & H1)|[E Hfl]].
    + rewrite E1. apply (IH k1 c1 bs1 x1 (tot + m) H1); lia.
    + right. by rewrite E.
Qed.
End Writei.

Section Iupdate.
Context `{Symbols} {D : BlockDevice} {DOK : BlockDeviceOK D} (p : nat) (dev : Z) (sb : superblock) (G : geometry sb).

Lemma iupdate_ok e k c bs ip x :
  let ib := IBLOCK (i_inum x) sb in
  wfile p dev sb k c bs ∅ ip x -> ib < sb_bmapstart sb -> (length bs + 2 <= NBUF)%nat ->
  exists k', iupdate ip e k = Ok tt e k' /\
    wfile p dev sb k' (fupd ib (store_dinode (c ib) (dinode_off (i_inum x)) x) c) (absorb bs ib) ∅ ip x /\ fs_frame k k'.
Proof.
  intros ib Hw Hib Hs. pose proof Hw as [W1 W2 W3 W4 W5 W6 W7]. unfold iupdate. cbn [bind gets]. rewrite W4, W2, W5. fold ib.
  destruct (tx_update p dev e k c bs ∅ ib (fun d => store_dinode d (dinode_off (i_inum x)) x) W1) as (k' & E & H' & F).
  { done. } { rewrite map_size_empty. lia. } { rewrite length_store_dinode. apply (wf_len _ _ _ _ _ _ _ _ _ _ Hw). }
  exists k'. split; [exact E|]. split; [|done]. constructor; try done.
  - by rewrite (fs_frame_sb _ _ F).
  - by rewrite (fs_frame_itable _ _ F).
  - by rewrite (fs_frame_inode _ _ _ F).
  - by apply meta_ok.
  - by apply meta_bitmap.
Qed.
End Iupdate.

(** ** The whole of writei() *)
Section Whole.
Context `{Symbols} {D : BlockDevice} {DOK : BlockDeviceOK D} (p : nat) (dev : Z) (sb : superblock) (G : geometry sb).
Context (Hone : sb_size sb <= BPB).

(** What writei() promises. *)
Record written (k k' : kernel) (c c' : Z -> list Z) (bs bs' : list Z) (ip : nat) (x x' : inode) (off : Z) (data : list Z) : Prop := mkWritten {
  wn_file : wfile p dev sb k' c' bs' ∅ ip x';
  wn_mapped : mapped c' x';
  wn_inode : set_i_addrs [] x' = set_i_addrs [] (set_i_size (Z.max (i_size x) (off + Z.of_nat (length data))) x);
  wn_bytes : fbytes c' x' 0 (i_size x') = splice (fbytes c x 0 (i_size x)) off data;
  wn_disk : inode_fits x -> load_dinode (c' (IBLOCK (i_inum x) sb)) (dinode_off (i_inum x)) x' = x';
  wn_iblock : c' (IBLOCK (i_inum x) sb) = store_dinode (c (IBLOCK (i_inum x) sb)) (dinode_off (i_inum x)) x';
  wn_grown : exists c1 x1, grown sb c x c1 x1 /\ i_addrs x' = i_addrs x1 /\ c' = fupd (IBLOCK (i_inum x) sb) (c' (IBLOCK (i_inum x) sb)) c1;
  wn_other a : ~ bitmap_block sb a -> a <> IBLOCK (i_inum x) sb -> ~ in_file c' x' a -> c' a = c a;
  wn_new a : in_file c' x' a -> in_file c x a \/ block_free c sb a;
  wn_len : Z.of_nat (length bs') <= Z.of_nat (length bs) + 3 + span off (Z.of_nat (length data));
  wn_frame : ino_frame ip k k'
}.

Lemma written_fbyte k k' c c' bs bs' ip x x' off data q :
  written k k' c c' bs bs' ip x x' off data -> 0 <= off <= i_size x -> 0 <= q < i_size x' ->
  fbyte c' x' q = if decide (off <= q < off + Z.of_nat (length data)) then byte_at data (q - off) else fbyte c x q.
Proof.
  intros Hw Ho Hq. assert (i_size x' = Z.max (i_size x) (off + Z.of_nat (length data))) as Esz by apply (f_equal i_size (wn_inode _ _ _ _ _ _ _ _ _ _ _ Hw)).
  rewrite <- (byte_at_fbytes c' x' (i_size x')) by done. rewrite (wn_bytes _ _ _ _ _ _ _ _ _ _ _ Hw).
  rewrite byte_at_splice by (rewrite ?length_fbytes; lia). case_decide; [done|]. apply byte_at_fbytes. lia.
Qed.

Lemma wrote_start k c bs ip x off n data : wfile p dev sb k c bs ∅ ip x -> wrote p dev sb k c bs ip x off n data k c bs x 0.
Proof.
  intros Hw. constructor; try done; [apply bytes_at_start|by left|unfold span; rewrite decide_True by done; lia|by left].
Qed.

(** The state when the loop is done and the size is set. *)
Definition resized (x x1 : inode) (off n : Z) : inode := set_i_size (Z.max (i_size x) (off + n)) x1.

Lemma resized_fits c x x1 off n :
  set_i_addrs [] x1 = set_i_addrs [] x -> file_ok sb c x1 -> 0 <= i_size x -> 0 <= off -> i_size x <= MAXFILE * BSIZE -> off + n <= MAXFILE * BSIZE ->
  inode_fits x -> inode_fits (resized x x1 off n).
Proof.
  intros Em Hf Hsz Ho H1 H2 (F1 & F2 & F3 & F4 & F5 & F6 & F7). change (MAXFILE * BSIZE) with 274432 in *.
  pose proof (f_equal i_type Em) as M1. pose proof (f_equal i_major Em) as M2. pose proof (f_equal i_minor Em) as M3. pose proof (f_equal i_nlink Em) as M4.
  cbn in M1, M2, M3, M4. unfold inode_fits, resized. cbn. rewrite M1, M2, M3, M4. split_and!; try (done || lia); [apply Hf|by apply (file_addrs sb c)].
Qed.

(** What the parts of writei() amount to. *)
Lemma written_end k k1 k' c c1 bs bs1 ip x x1 off data :
  let n := Z.of_nat (length data) in let ib := IBLOCK (i_inum x) sb in let x2 := resized x x1 off n in
  let c2 := fupd ib (store_dinode (c1 ib) (dinode_off (i_inum x)) x2) c1 in
  wrote p dev sb k c bs ip x off n data k1 c1 bs1 x1 n -> mapped c x -> ib < sb_bmapstart sb -> 0 <= off <= i_size x -> off + n <= MAXFILE * BSIZE ->
  Z.of_nat (length bs1) <= Z.of_nat (length bs) + 2 + span off n ->
  wfile p dev sb k' c2 (absorb bs1 ib) ∅ ip x2 -> ino_frame ip k1 k' -> written k k' c c2 bs (absorb bs1 ib) ip x x2 off data.
Proof.
  intros n ib x2 c2 Hw [Hsz Hm] Hib Ho Hmax Hl Hw2 F. pose proof (wr_file _ _ _ _ _ _ _ _ _ _ _ _ _ _ _ _ Hw) as Hwf. pose proof Hwf as [W1 W2 W3 W4 W5 W6 W7].
  pose proof (wr_bytes _ _ _ _ _ _ _ _ _ _ _ _ _ _ _ _ Hw) as Hba. pose proof (ba_grown _ _ _ _ _ _ _ _ Hba) as Hg. pose proof (gr_meta _ _ _ _ _ Hg) as Em.
  assert (forall bn, faddr c2 x2 bn = faddr c1 x1 bn) as Efa by (intros bn; apply (meta_faddr sb c1 x1 ib); done).
  assert (forall q, 0 <= q < MAXFILE * BSIZE -> faddr c1 x1 (q / BSIZE) <> 0 -> fbyte c2 x2 q = fbyte c1 x1 q) as Eby.
  { intros q Hq Hn. by apply (meta_fbyte sb c1 x1 ib). }
  assert (forall bn, 0 <= bn < MAXFILE -> bn * BSIZE < Z.max (i_size x) (off + n) -> faddr c1 x1 bn <> 0) as Hmap.
  { intros bn Hb Hlt. destruct (decide (bn * BSIZE < i_size x)) as [Hin|Hout].
    - rewrite (gr_old _ _ _ _ _ Hg); [apply Hm; lia|done|apply Hm; lia].
    - destruct (ba_new _ _ _ _ _ _ _ _ Hba (bn * BSIZE)) as [Hn _]; [lia|]. by rewrite Z.div_mul in Hn by done. }
  constructor; try done.
  - split; [cbn; lia|]. intros bn Hb Hlt. rewrite Efa. apply Hmap; [|done]. cbn in Hlt. rewrite BSIZE_eq in *. lia.
  - exact (f_equal (set_i_size (Z.max (i_size x) (off + n))) Em).
  - apply fbytes_splice; [done|..].
    + intros q Hq. destruct (ba_new _ _ _ _ _ _ _ _ Hba q Hq) as [Hn Hd]. rewrite Eby; [done|lia|done].
    + intros q Hq Hout. assert (0 <= q < MAXFILE * BSIZE) as Hq' by lia. pose proof (block_of_q q Hq') as Hbq.
      assert (q / BSIZE * BSIZE <= q) as Hle by (rewrite BSIZE_eq; Z.to_euclidean_division_equations; lia).
      rewrite Eby; [|done|apply Hmap; [done|lia]]. apply (ba_old _ _ _ _ _ _ _ _ Hba); [done|done|apply Hm; lia].
  - intros Hfit. unfold c2. rewrite fupd_eq. destruct (dinode_off_in (i_inum x)) as [D1 D2].
    rewrite load_store_dinode; [by destruct x1|done|rewrite (wf_len _ _ _ _ _ _ _ _ _ _ Hwf), BSIZE_eq; lia|]. by apply (resized_fits c1); try lia.
  - unfold c2. rewrite fupd_eq. f_equal. apply (gr_frame _ _ _ _ _ Hg).
    + intros (b & Hb & E). rewrite BBLOCK_eq in E by done. rewrite BPB_eq in E. pose proof (Z.div_pos b 8192). lia.
    + intros Hin. by apply (meta_not_in sb c1 x1 ib G W6 Hib ib).
  - exists c1, x1. split_and!; try done. unfold c2 at 1. f_equal. unfold c2. by rewrite fupd_eq.
  - intros a Hb Hne Hin. unfold c2. rewrite fupd_ne by done. apply (gr_frame _ _ _ _ _ Hg); [done|]. intros Hin1. apply Hin.
    by apply (meta_in sb c1 x1 ib).
  - intros a Hin. apply (gr_new _ _ _ _ _ Hg). by apply (meta_in sb c1 x1 ib) in Hin.
  - pose proof (absorb_len bs1 ib). fold n. lia.
  - transitivity k1; [apply Hw|done].
Qed.

(** The last part of writei(). *)
Lemma writei_end e k k1 c c1 bs bs1 ip x x1 off data :
  let n := Z.of_nat (length data) in let ib := IBLOCK (i_inum x) sb in
  wrote p dev sb k c bs ip x off n data k1 c1 bs1 x1 n -> mapped c x -> ib < sb_bmapstart sb -> 0 <= off <= i_size x -> off + n <= MAXFILE * BSIZE ->
  Z.of_nat (length bs) + span off n + 8 <= Z.of_nat NBUF ->
  exists k' c' bs' x',
    (sz <- gets (fun k => i_size (get_inode k ip));;
     (if decide (off + n > sz) then modify (upd_inode ip (set_i_size (off + n))) else skip);;;
     iupdate ip;;;
     ret n) e k1 = Ok n e k' /\ written k k' c c' bs bs' ip x x' off data.
Proof.
  intros n ib Hw Hm Hib Ho Hmax Hroom. pose proof (wr_file _ _ _ _ _ _ _ _ _ _ _ _ _ _ _ _ Hw) as Hwf. pose proof Hwf as [W1 W2 W3 W4 W5 W6 W7].
  pose proof (wr_bytes _ _ _ _ _ _ _ _ _ _ _ _ _ _ _ _ Hw) as Hba. pose proof (ba_grown _ _ _ _ _ _ _ _ Hba) as Hg. pose proof (gr_meta _ _ _ _ _ Hg) as Em.
  assert (i_size x1 = i_size x) as Esz by (by apply (f_equal i_size) in Em). assert (i_inum x1 = i_inum x) as Einum by (by apply (f_equal i_inum) in Em).
  set (x2 := resized x x1 off n). set (k2 := if decide (off + n > i_size x) then upd_inode ip (set_i_size (off + n)) k1 else k1).
  assert (wfile p dev sb k2 c1 bs1 ∅ ip x2 /\ ino_frame ip k1 k2) as [Hw2 F2].
  { unfold k2, x2, resized. case_decide as Eb.
    - rewrite Z.max_r by lia. split; [|apply ino_frame_upd]. constructor; try done; [by apply in_txn_upd_inode|cbn; by rewrite length_alter|rewrite get_upd_inode by done; by rewrite W4|].
      destruct W6; by constructor.
    - rewrite Z.max_l by lia. rewrite <- Esz. split; [|done]. destruct x1. by constructor. }
  assert (Z.of_nat (length bs1) <= Z.of_nat (length bs) + 2 + span off n) as Hl1.
  { apply (rec_len sb Hone bs off n c1 bs1 x1); [apply W1|apply Hw]. }
  destruct (iupdate_ok p dev sb G e k2 c1 bs1 ip x2 Hw2) as (k3 & E3 & Hw3 & F3); [by cbn; rewrite Einum|lia|].
  change (i_inum x2) with (i_inum x1) in E3, Hw3. rewrite Einum in Hw3. fold ib in Hw3.
  eexists k3, _, _, x2. split.
  - cbn [bind gets]. rewrite W4, Esz. unfold k2 in E3. destruct (decide (off + n > i_size x)); cbn [bind modify skip ret]; by rewrite E3.
  - apply (written_end k k1 k3 c c1 bs bs1 ip x x1 off data); try done. transitivity k2; [done|by apply fs_ino_frame].
Qed.

Lemma writei_ok e k c bs ip x off data :
  let n := Z.of_nat (length data) in
  wfile p dev sb k c bs ∅ ip x -> mapped c x -> IBLOCK (i_inum x) sb < sb_bmapstart sb ->
  0 <= off <= i_size x -> off + n <= MAXFILE * BSIZE -> Z.of_nat (length bs) + span off n + 8 <= Z.of_nat NBUF ->
  (exists k' c' bs' x', writei ip (FromLocal data) off n e k = Ok n e k' /\ written k k' c c' bs bs' ip x x' off data) \/
  writei ip (FromLocal data) off n e k = Panic "balloc: out of blocks" /\ Z.of_nat (length (free_list sb c)) < 2 * span off n.
Proof.
  intros n Hw Hm Hib Ho Hmax Hroom. unfold writei. cbn [bind gets]. rewrite (wf_inode _ _ _ _ _ _ _ _ _ Hw).
  rewrite u32_small by (change (MAXFILE * BSIZE) with 274432 in *; lia). rewrite !decide_False by lia.
  destruct (writei_loop p dev sb G Hone k c bs ip x off n data) with (e := e) (fuel := S (Z.to_nat n)) (k := k) (c := c) (bs := bs) (x := x) (tot := 0)
    as [(k1 & c1 & bs1 & x1 & E1 & H1)|[E Hfl]]; try (done || lia); [by apply wrote_start| |].
  - cbn [bind]. rewrite E1. left. by apply (writei_end e k k1 c c1 bs bs1 ip x x1 off data).
  - right. cbn [bind]. by rewrite E.
Qed.

(** Refused requests change nothing. *)
Lemma writei_refused e k ip off n data :
  0 <= off -> 0 <= n -> off + n < 2 ^ 32 -> i_size (get_inode k ip) < off \/ MAXFILE * BSIZE < off + n -> writei ip (FromLocal data) off n e k = Ok (-1) e k.
Proof.
  intros Ho Hn Hu Hc. unfold writei. cbn [bind gets]. rewrite u32_small by lia.
  case_decide; [done|]. by rewrite decide_True by lia.
Qed.
End Whole.

(** ** Other files *)
Lemma faddr_addrs c x y bn : i_addrs x = i_addrs y -> faddr c x bn = faddr c y bn.
Proof. intros E. unfold faddr, addr_of. by rewrite E. Qed.
Lemma in_file_addrs c x y a : i_addrs x = i_addrs y -> in_file c x a <-> in_file c y a.
Proof. intros E. unfold in_file, addr_of. setoid_rewrite (faddr_addrs c x y _ E). by rewrite E. Qed.

Section Isolation.
Context (p : nat) (dev : Z) (sb : superblock) (G : geometry sb).
Context (k k' : kernel) (c c' : Z -> list Z) (bs bs' : list Z) (ip : nat) (x x' : inode) (off : Z) (data : list Z).
Context (Hib : IBLOCK (i_inum x) sb < sb_bmapstart sb).
Context (Hw : written p dev sb k k' c c' bs bs' ip x x' off data).

(** A file with other blocks is as it was. *)
Lemma written_other y :
  file_ok sb c y -> disjoint_files c x y -> mapped c y ->
  file_ok sb c' y /\ disjoint_files c' x' y /\ fbytes c' y 0 (i_size y) = fbytes c y 0 (i_size y).
Proof.
  intros Hy Hdis [Hsz Hm]. destruct (wn_grown _ _ _ _ _ _ _ _ _ _ _ _ _ _ Hw) as (c1 & x1 & Hg & Ea & Ec).
  destruct (other_file sb c c1 x x1 y G Hg Hy Hdis) as (O1 & O2 & O3 & O4). set (ib := IBLOCK (i_inum x) sb) in *. rewrite Ec.
  split_and!; [by apply meta_ok| |].
  - pose proof (wf_file _ _ _ _ _ _ _ _ _ (wn_file _ _ _ _ _ _ _ _ _ _ _ _ _ _ Hw)) as Hf'. rewrite Ec in Hf'.
    intros a Hx Hya. apply (meta_in sb) in Hya; [|done..]. apply (O2 a); [|done]. apply (in_file_addrs c1 x' x1 a Ea).
    revert Hx. unfold in_file. intros [Hn [E|(bn & Hb & E)]]; (split; [done|]); [by left|right]. exists bn. split; [done|]. rewrite <- E.
    unfold faddr. case_decide; [done|]. case_decide as Hi; [done|]. rewrite fupd_ne; [done|]. apply (meta_not_in sb _ x' ib G Hf' Hib). by apply ind_in.
  - unfold fbytes. apply map_ext_in. intros q Hq. apply list_elem_of_In, elem_of_seqZ in Hq. rewrite Z.add_0_l.
    assert (0 <= q < MAXFILE * BSIZE) as Hq' by lia. pose proof (block_of_q q Hq') as Hbq.
    assert (faddr c y (q / BSIZE) <> 0) as Hn. { apply Hm; [lia|]. rewrite BSIZE_eq in *. Z.to_euclidean_division_equations. lia. }
    rewrite (meta_fbyte sb) by (done || by rewrite O3). unfold fbyte. by rewrite O3, O4.
Qed.

(** So is every other inode on the disk. *)
Lemma written_dinode j z :
  0 <= i_inum x < 2 ^ 31 -> 0 <= j < 2 ^ 31 -> 0 <= sb_inodestart sb < 2 ^ 31 -> j <> i_inum x -> IBLOCK j sb < sb_bmapstart sb -> (length (c (IBLOCK (i_inum x) sb)) = 1024)%nat ->
  load_dinode (c' (IBLOCK j sb)) (dinode_off j) z = load_dinode (c (IBLOCK j sb)) (dinode_off j) z.
Proof.
  intros Hi Hj Hs Hne Hjb Hlen. rewrite <- (dinode_other sb c (i_inum x) j x' z Hi Hj Hs Hne Hlen).
  destruct (decide (IBLOCK j sb = IBLOCK (i_inum x) sb)) as [E|E].
  - rewrite E, fupd_eq. by rewrite (wn_iblock _ _ _ _ _ _ _ _ _ _ _ _ _ _ Hw).
  - rewrite fupd_ne by done. rewrite (wn_other _ _ _ _ _ _ _ _ _ _ _ _ _ _ Hw); [done| |done|].
    + intros (b & Hb & Eb). rewrite BBLOCK_eq in Eb by done. rewrite BPB_eq in Eb. pose proof (Z.div_pos b 8192). lia.
    + intros Hin. by apply (meta_not_in sb c' x' (IBLOCK j sb) G (wf_file _ _ _ _ _ _ _ _ _ (wn_file _ _ _ _ _ _ _ _ _ _ _ _ _ _ Hw)) Hjb (IBLOCK j sb)).
Qed.
End Isolation.
