(* ===== verification/FsDir.v ===== *)
(** * Directories: dirlookup() and dirlink()

    A directory is a file of 16-byte entries.  dirlookup() returns the first
    entry in use that has the name; dirlink() puts a new entry into the first
    unused one, or at the end.  After it the name is found, and every other
    name is found where it was. *)

From S2P Require Import Prelude Machine Kstring Kernel Spinlock Kalloc Vm Sched Sleeplock Bio BioSpec Log LogSpec LogCommit Fs FsSpec FsTx FsAlloc FsFile FsGrow FsBmap FsBytes FsWrite.

(** ** Names *)
Lemma read8_dst p q i : 0 <= i < src_base -> Z.of_nat (length p) <= src_base -> read8 (arrays p q) i = u8 (byte_at p i).
Proof.
  intros Hi Hp. unfold arrays. rewrite read8_write_bytes_ne by lia. unfold byte_at. rewrite nth_lookup.
  destruct (p !! Z.to_nat i) as [v|] eqn:E; cbn.
  - replace i with (0 + Z.of_nat (Z.to_nat i)) at 1 by lia. by apply read8_write_bytes_in.
  - apply lookup_ge_None in E. by rewrite read8_write_bytes_ne by lia.
Qed.
Lemma read8_src p q i : 0 <= i -> Z.of_nat (length p) <= src_base -> read8 (arrays p q) (src_base + i) = u8 (byte_at q i).
Proof.
  intros Hi Hp. unfold arrays, byte_at. rewrite nth_lookup. destruct (q !! Z.to_nat i) as [v|] eqn:E; cbn.
  - replace i with (Z.of_nat (Z.to_nat i)) at 1 by lia. by apply read8_write_bytes_in.
  - apply lookup_ge_None in E. rewrite read8_write_bytes_ne by lia. by rewrite read8_write_bytes_ne by lia.
Qed.

(** The name of a new entry. *)
Definition link_name (name : list Z) : list Z := strncpy_arr (replicate DIRSIZ 0) name (Z.of_nat DIRSIZ).
Lemma length_link_name name : length (link_name name) = DIRSIZ.
Proof. unfold link_name, strncpy_arr. by rewrite length_read_bytes, length_replicate. Qed.
Lemma namecmp_link name : Z.of_nat (length name) <= src_base -> namecmp name (link_name name) = 0.
Proof.
  intros Hl. unfold namecmp, strncmp_arr, strncmp. apply strncmp_loop_zero.
  set (m := arrays (replicate DIRSIZ 0) name).
  destruct (strncpy_copy_spec DIRSIZ m 0 src_base) as (k & Hk & (C1 & C2 & C3 & _) & Hend); [left; done|].
  assert (forall i, 0 <= i < 14 -> read8 (arrays name (link_name name)) i = read8 m (src_base + i)) as Hn.
  { intros i Hi. unfold m. rewrite read8_src by (done || lia). apply read8_dst; [unfold src_base; lia|done]. }
  assert (forall i, 0 <= i < 14 -> read8 (arrays name (link_name name)) (src_base + i) = read8 (strncpy_copy DIRSIZ m 0 src_base) i) as Hq.
  { intros i Hi. rewrite read8_src by (done || lia). unfold byte_at, link_name, strncpy_arr. rewrite nth_lookup, length_replicate, lookup_read_bytes by (unfold DIRSIZ; lia).
    cbn [default from_option]. rewrite u8_small by apply read8_range. rewrite Z2Nat.id by lia. done. }
  rewrite Nat2Z.id. change (Z.of_nat DIRSIZ) with 14 in *. exists k. split; [done|]. split.
  - intros i Hi. rewrite Z.add_0_l, Hn, Hq by lia. split; [by apply C1|]. symmetry. by apply (C2 i).
  - intros Hlt. rewrite Z.add_0_l, Hn, Hq by lia. split; [by apply Hend|]. apply (C3 k). lia.
Qed.

(** ** Entries *)
Definition entry_at (c : Z -> list Z) (x : inode) (off : Z) : dirent := decode_dirent (fbytes c x off DIRENT_SIZE).
Definition entry_is (c : Z -> list Z) (x : inode) (name : list Z) (off : Z) : Prop :=
  de_inum (entry_at c x off) <> 0 /\ namecmp name (de_name (entry_at c x off)) = 0.
#[export] Instance entry_is_dec c x name off : Decision (entry_is c x name off) := and_dec _ _.
(** The entry a name stands for. *)
Definition find_entry (c : Z -> list Z) (x : inode) (name : list Z) : option Z :=
  snd <$> list_find (entry_is c x name) (dirent_offs (i_size x)).
(** The first unused entry, or the end of the directory. *)
Definition free_entry (c : Z -> list Z) (x : inode) : Z :=
  default (i_size x) (snd <$> list_find (fun off => de_inum (entry_at c x off) = 0) (dirent_offs (i_size x))).

Record dir_ok (c : Z -> list Z) (x : inode) : Prop := mkDirOk {
  do_type : i_type x = T_DIR;
  do_mapped : mapped c x;
  do_size : i_size x mod DIRENT_SIZE = 0
}.

Lemma elem_of_dirent_offs sz off : sz mod DIRENT_SIZE = 0 -> 0 <= sz -> off ∈ dirent_offs sz <-> 0 <= off /\ off + DIRENT_SIZE <= sz /\ off mod DIRENT_SIZE = 0.
Proof.
  intros Hs H0. unfold dirent_offs. rewrite list_elem_of_fmap. setoid_rewrite elem_of_seqZ. unfold DIRENT_SIZE in *. split.
  - intros (i & -> & Hi). Z.to_euclidean_division_equations. lia.
  - intros Ho. exists (off / 16). Z.to_euclidean_division_equations. lia.
Qed.

Section Dir.
Context `{Symbols} {D : BlockDevice} {DOK : BlockDeviceOK D} (p : nat) (dev : Z).

Section Lookup.
Context (c : Z -> list Z) (bs : list Z) (dp : nat) (x : inode) (Hd : i_dev x = dev) (Hdir : dir_ok c x) (Hs : (length bs < NBUF)%nat).

Lemma read_dirent_ok e k off msg :
  in_txn p dev k c bs ∅ -> get_inode k dp = x -> off ∈ dirent_offs (i_size x) ->
  exists k', read_dirent dp off msg e k = Ok (entry_at c x off) e k' /\ in_txn p dev k' c bs ∅ /\ fs_frame k k'.
Proof.
  intros Hk Hx Hoff. destruct Hdir as [D1 D2 D3]. pose proof D2 as [Hsz _]. apply elem_of_dirent_offs in Hoff as (O1 & O2 & O3); [|done|lia].
  change (MAXFILE * BSIZE) with 274432 in Hsz. unfold DIRENT_SIZE in *.
  destruct (readi_ok p dev e k c bs dp x off 16 Hx Hk Hd D2 Hs) as (k' & E & H' & F); [lia|lia|].
  assert (read_count x off 16 = 16) as Er by (unfold read_count; rewrite decide_False by lia; lia). rewrite Er in E.
  exists k'. split; [|done]. unfold read_dirent, DIRENT_SIZE. cbn [bind]. rewrite E. cbn [fst snd]. by rewrite decide_False by lia.
Qed.

(** A scan of the entries for the first one with a property. *)
Lemma scan_entries {R} e (P : Z -> Prop) `{!forall off, Decision (P off)} (f : Z -> K (option R)) (g : Z -> K (option R)) offs :
  (forall k off, in_txn p dev k c bs ∅ -> get_inode k dp = x -> off ∈ offs ->
     exists k', f off e k = (if decide (P off) then g off else ret None) e k' /\ in_txn p dev k' c bs ∅ /\ fs_frame k k') ->
  (forall k off o e' k', g off e k = Ok o e' k' -> o <> None) ->
  forall k, in_txn p dev k c bs ∅ -> get_inode k dp = x ->
  exists k', first_ offs f e k = match list_find P offs with Some (_, off) => g off e k' | None => Ok None e k' end /\
    in_txn p dev k' c bs ∅ /\ fs_frame k k'.
Proof.
  intros Hf Hg. induction offs as [|off offs IH]; intros k Hk Hx; [by exists k|]. cbn [first_ list_find bind].
  destruct (Hf k off Hk Hx) as (k1 & E1 & H1 & F1); [by left|]. rewrite E1. case_decide as HP.
  - exists k1. split; [|done]. destruct (g off e k1) as [[r|] e' k'| | |] eqn:Eg; try done. by apply Hg in Eg.
  - cbn [ret]. destruct (IH) with (k := k1) as (k2 & E2 & H2 & F2); [intros; apply Hf; [done|done|by right]|done|by rewrite (fs_frame_inode _ _ _ F1)|].
    exists k2. rewrite E2. split; [|split; [done|by rewrite F1]]. destruct (list_find P offs) as [[i o]|]; done.
Qed.

Lemma dirlookup_ok e k name :
  in_txn p dev k c bs ∅ -> get_inode k dp = x ->
  exists k', dirlookup dp name e k =
    match find_entry c x name with
    | Some off => (ip <- iget dev (de_inum (entry_at c x off));; ret (Some (ip, off))) e k'
    | None => Ok None e k'
    end /\ in_txn p dev k' c bs ∅ /\ fs_frame k k'.
Proof.
  intros Hk Hx. unfold dirlookup. cbn [bind gets]. rewrite Hx. rewrite decide_False by (destruct Hdir; congruence). rewrite Hd.
  destruct (scan_entries e (entry_is c x name) (fun off =>
      de <- read_dirent dp off "dirlookup read";;
      if decide (de_inum de = 0) then ret None else
      if decide (namecmp name (de_name de) = 0) then ip <- iget dev (de_inum de);; ret (Some (ip, off)) else ret None)
    (fun off => ip <- iget dev (de_inum (entry_at c x off));; ret (Some (ip, off))) (dirent_offs (i_size x))) with (k := k) as (k' & E & H' & F); try done.
  - intros k1 off H1 Hx1 Hoff. destruct (read_dirent_ok e k1 off "dirlookup read" H1 Hx1 Hoff) as (k2 & E2 & H2 & F2).
    exists k2. split; [|done]. cbn [bind]. rewrite E2. unfold entry_is. destruct (decide (de_inum _ = 0)) as [Ez|Ez]; [by rewrite decide_False by tauto|].
    destruct (decide (namecmp _ _ = 0)) as [En|En]; [by rewrite decide_True|by rewrite decide_False by tauto].
  - intros k1 off o e' k2. cbn [bind]. destruct (iget _ _ _ _); cbn; congruence.
  - exists k'. split; [|done]. rewrite E. unfold find_entry. by destruct (list_find _ _) as [[i off]|].
Qed.
End Lookup.

(** ** dirlink() *)
Definition link_entry (name : list Z) (inum : Z) : dirent := mkDirent (u16 inum) (link_name name).
Lemma length_link_entry name inum : length (encode_dirent (link_entry name inum)) = 16%nat.
Proof. unfold encode_dirent, link_entry. cbn [de_name]. rewrite length_app, length_link_name. done. Qed.
Lemma free_entry_in c x : dir_ok c x -> 0 <= free_entry c x <= i_size x /\ free_entry c x mod DIRENT_SIZE = 0 /\
  (free_entry c x ∈ dirent_offs (i_size x) /\ de_inum (entry_at c x (free_entry c x)) = 0 \/ free_entry c x = i_size x).
Proof.
  intros [D1 [Hsz _] D3]. unfold free_entry. destruct (list_find _ _) as [[i off]|] eqn:E; cbn.
  - apply list_find_Some in E as (E1 & E2 & _). apply list_elem_of_lookup_2 in E1. pose proof E1 as E1'.
    apply elem_of_dirent_offs in E1' as (O1 & O2 & O3); [|done|lia]. unfold DIRENT_SIZE in *. split_and!; [lia|lia|done|]. by left.
  - split_and!; [lia|lia|done|by right].
Qed.
(** An entry lies in one block. *)
Lemma span_entry off : 0 <= off -> off mod DIRENT_SIZE = 0 -> span off 16 = 1.
Proof. intros H0 Hm. unfold span. rewrite decide_False by lia. unfold DIRENT_SIZE in Hm. rewrite BSIZE_eq. Z.to_euclidean_division_equations. lia. Qed.

Lemma dirlink_ok sb e k c bs dp x name inum :
  geometry sb -> sb_size sb <= BPB -> wfile p dev sb k c bs ∅ dp x -> dir_ok c x -> i_size x + DIRENT_SIZE <= MAXFILE * BSIZE ->
  IBLOCK (i_inum x) sb < sb_bmapstart sb -> Z.of_nat (length bs) + 9 <= Z.of_nat NBUF -> find_entry c x name = None ->
  (exists k' c' bs' x', dirlink dp name inum e k = Ok 0 e k' /\
     written p dev sb k k' c c' bs bs' dp x x' (free_entry c x) (encode_dirent (link_entry name inum))) \/
  dirlink dp name inum e k = Panic "balloc: out of blocks" /\ (length (free_list sb c) < 2)%nat.
Proof.
  intros G Hone Hw Hdir Hsz Hib Hroom Hnone. pose proof Hw as [W1 W2 W3 W4 W5 W6 W7]. assert (length bs < NBUF)%nat as Hs by lia.
  unfold dirlink. cbn [bind]. destruct (dirlookup_ok c bs dp x W5 Hdir Hs e k name W1 W4) as (k1 & E1 & H1 & F1). rewrite E1, Hnone. cbn [bind gets].
  assert (get_inode k1 dp = x) as Hx1 by by rewrite (fs_frame_inode _ _ _ F1). rewrite Hx1.
  destruct (scan_entries c bs dp x e (fun off => de_inum (entry_at c x off) = 0) (fun off =>
      de <- read_dirent dp off "dirlink read";; if decide (de_inum de = 0) then ret (Some off) else ret None)
    (fun off => ret (Some off)) (dirent_offs (i_size x))) with (k := k1) as (k2 & E2 & H2 & F2); try done.
  { intros k2 off H2 Hx2 Hoff. destruct (read_dirent_ok c bs dp x W5 Hdir Hs e k2 off "dirlink read" H2 Hx2 Hoff) as (k3 & E3 & H3 & F3).
    exists k3. split; [|done]. cbn [bind]. rewrite E3. by case_decide. }
  { by intros k2 off o e' k3 [= <- _ _]. }
  destruct (free_entry_in c x Hdir) as (O1 & O2 & _). pose proof (do_size _ _ Hdir) as Hmod. set (off := free_entry c x) in *.
  assert (exists o, first_ (dirent_offs (i_size x)) (fun off => de <- read_dirent dp off "dirlink read";; if decide (de_inum de = 0) then ret (Some off) else ret None) e k1 = Ok o e k2 /\
    default ((i_size x + DIRENT_SIZE - 1) / DIRENT_SIZE * DIRENT_SIZE) o = off) as (o & E2' & Eo).
  { rewrite E2. unfold off, free_entry. destruct (list_find _ _) as [[i o]|]; eexists; (split; [done|]); [done|]. cbn. unfold DIRENT_SIZE in *.
    Z.to_euclidean_division_equations. lia. }
  cbn [bind] in E2'. rewrite E2', Eo. fold (link_name name). fold (link_entry name inum). rewrite <- (F1 : fs_frame k k1) in F2.
  pose proof (length_link_entry name inum) as Hle. change DIRENT_SIZE with (Z.of_nat 16). rewrite <- Hle.
  destruct (writei_ok p dev sb G Hone e k2 c bs dp x off (encode_dirent (link_entry name inum))) as [(k3 & c3 & bs3 & x3 & E3 & H3)|[E Hfl]].
  { by apply (wfile_frame p dev sb k k2 c bs ∅). } { apply Hdir. } { done. } { done. } { rewrite Hle. unfold DIRENT_SIZE in *. lia. }
  { rewrite Hle. change (Z.of_nat 16) with 16. rewrite span_entry by (done || lia). lia. }
  - left. exists k3, c3, bs3, x3. rewrite E3. rewrite decide_False by lia. split; [done|].
    destruct H3. constructor; try done. transitivity k2; [by apply fs_ino_frame|done].
  - right. rewrite E. split; [done|]. rewrite Hle in Hfl. change (Z.of_nat 16) with 16 in Hfl. rewrite span_entry in Hfl by (done || lia). lia.
Qed.

(** ** What a link does to lookups *)
Lemma find_agree (P Q : Z -> Prop) `{!forall o, Decision (P o)} `{!forall o, Decision (Q o)} l l2 :
  (forall o, o ∈ l -> P o <-> Q o) -> (forall o, o ∈ l2 -> ~ P o) -> snd <$> list_find P (l ++ l2) = snd <$> list_find Q l.
Proof.
  intros Hl H2. induction l as [|o l IH]; cbn.
  - rewrite (proj2 (list_find_None _ _)); [done|]. by apply Forall_forall.
  - pose proof (Hl o ltac:(by left)) as Ho. destruct (decide (P o)), (decide (Q o)); try tauto. rewrite <- !option_fmap_compose.
    assert (snd <$> list_find P (l ++ l2) = snd <$> list_find Q l) as E by (apply IH; intros; apply Hl; by right).
    destruct (list_find P (l ++ l2)) as [[? ?]|], (list_find Q l) as [[? ?]|]; by simplify_eq/=.
Qed.
Lemma find_only (P : Z -> Prop) `{!forall o, Decision (P o)} l off :
  off ∈ l -> P off -> (forall o, o ∈ l -> P o -> o = off) -> snd <$> list_find P l = Some off.
Proof.
  intros Hin HP Huniq. destruct (list_find_elem_of P l off Hin HP) as [[i o] E]. rewrite E. cbn. f_equal.
  apply list_find_Some in E as (E1 & E2 & _). apply Huniq; [|done]. by apply list_elem_of_lookup_2 in E1.
Qed.
Lemma bytes_of d : map (byte_at d) (seqZ 0 (Z.of_nat (length d))) = d.
Proof.
  transitivity (slice d 0 (Z.of_nat (length d))); [by rewrite slice_bytes by lia|].
  unfold slice. rewrite drop_0, Nat2Z.id. apply firstn_all.
Qed.
Lemma dirent_offs_end sz : sz mod DIRENT_SIZE = 0 -> 0 <= sz -> dirent_offs (sz + DIRENT_SIZE) = dirent_offs sz ++ [sz].
Proof.
  intros Hm Hs. unfold dirent_offs, DIRENT_SIZE in *. replace ((sz + 16 + 16 - 1) / 16) with (sz / 16 + 1) by (Z.to_euclidean_division_equations; lia).
  replace ((sz + 16 - 1) / 16) with (sz / 16) by (Z.to_euclidean_division_equations; lia).
  rewrite seqZ_app by (Z.to_euclidean_division_equations; lia). rewrite map_app. f_equal. rewrite seqZ_cons by lia. cbn. f_equal. Z.to_euclidean_division_equations. lia.
Qed.

Section Linked.
Context (sb : superblock) (k k' : kernel) (c c' : Z -> list Z) (bs bs' : list Z) (dp : nat) (x x' : inode) (name : list Z) (inum : Z).
Context (Hdir : dir_ok c x).
Context (Hw : written p dev sb k k' c c' bs bs' dp x x' (free_entry c x) (encode_dirent (link_entry name inum))).
Notation off := (free_entry c x).

Lemma linked_size : i_size x' = Z.max (i_size x) (off + 16).
Proof. pose proof (f_equal i_size (wn_inode _ _ _ _ _ _ _ _ _ _ _ _ _ _ Hw)) as E. by rewrite length_link_entry in E. Qed.
Lemma linked_fbyte q : 0 <= q < i_size x' ->
  fbyte c' x' q = if decide (off <= q < off + 16) then byte_at (encode_dirent (link_entry name inum)) (q - off) else fbyte c x q.
Proof.
  intros Hq. destruct (free_entry_in c x Hdir) as (O1 & _ & _). rewrite (written_fbyte _ _ _ _ _ _ _ _ _ _ _ _ _ _ q Hw O1 Hq). by rewrite length_link_entry.
Qed.
Lemma linked_entry : entry_at c' x' off = link_entry name inum.
Proof.
  destruct (free_entry_in c x Hdir) as (O1 & _ & _). pose proof linked_size as Es. unfold entry_at.
  transitivity (decode_dirent (encode_dirent (link_entry name inum))).
  - f_equal. rewrite <- (bytes_of (encode_dirent (link_entry name inum))) at 1. rewrite length_link_entry. unfold fbytes, DIRENT_SIZE.
    apply map_ext_in. intros i Hi. apply list_elem_of_In, elem_of_seqZ in Hi. rewrite linked_fbyte by lia. rewrite decide_True by lia. f_equal. lia.
  - apply decode_encode_dirent. unfold link_entry, u16. cbn. by apply Z.mod_pos_bound.
Qed.
Lemma linked_other o : o ∈ dirent_offs (i_size x) -> o <> off -> entry_at c' x' o = entry_at c x o.
Proof.
  destruct Hdir as [D1 [Hsz _] D3]. intros Ho Hne. apply elem_of_dirent_offs in Ho as (H1 & H2 & H3); [|done|lia].
  destruct (free_entry_in c x Hdir) as (O1 & O2 & _). pose proof linked_size as Es. unfold entry_at. f_equal. unfold fbytes, DIRENT_SIZE in *.
  apply map_ext_in. intros i Hi. apply list_elem_of_In, elem_of_seqZ in Hi. rewrite linked_fbyte by lia. rewrite decide_False; [done|].
  Z.to_euclidean_division_equations. lia.
Qed.
Lemma linked_dir : dir_ok c' x'.
Proof.
  pose proof linked_size as Es. destruct (free_entry_in c x Hdir) as (O1 & O2 & _). destruct Hdir as [D1 D2 D3].
  pose proof (f_equal i_type (wn_inode _ _ _ _ _ _ _ _ _ _ _ _ _ _ Hw)) as Et. cbn in Et.
  constructor; [congruence|apply Hw|]. rewrite Es. unfold DIRENT_SIZE in *. Z.to_euclidean_division_equations. lia.
Qed.
Lemma linked_offs : exists l2, dirent_offs (i_size x') = dirent_offs (i_size x) ++ l2 /\
  (off ∈ dirent_offs (i_size x) /\ de_inum (entry_at c x off) = 0 /\ l2 = [] \/ off = i_size x /\ l2 = [off]).
Proof.
  pose proof linked_size as Es. destruct (free_entry_in c x Hdir) as (O1 & O2 & [[O3 O4]|O3]).
  - exists []. rewrite app_nil_r. split; [|by left]. destruct Hdir as [_ [? _] ?]. apply elem_of_dirent_offs in O3 as (? & ? & ?); [|done|lia].
    rewrite Es, Z.max_l by (unfold DIRENT_SIZE in *; lia). done.
  - exists [off]. split; [|by right]. rewrite Es, O3, Z.max_r by lia. destruct Hdir as [_ [? _] ?]. apply dirent_offs_end; [done|lia].
Qed.

Lemma linked_found : Z.of_nat (length name) <= src_base -> u16 inum <> 0 -> find_entry c x name = None -> find_entry c' x' name = Some off.
Proof.
  intros Hn Hi Hnone. assert (forall o, o ∈ dirent_offs (i_size x) -> ~ entry_is c x name o) as Hno.
  { unfold find_entry in Hnone. destruct (list_find _ _) eqn:E; [done|]. apply list_find_None in E. by rewrite Forall_forall in E. }
  destruct linked_offs as (l2 & El & Hor). unfold find_entry. rewrite El. apply find_only.
  - apply elem_of_app. destruct Hor as [(? & _)|(_ & ->)]; [by left|right; by left].
  - unfold entry_is. rewrite linked_entry. cbn. split; [done|by apply namecmp_link].
  - intros o [Ho|Ho]%elem_of_app Hent.
    + destruct (decide (o = off)) as [|Hne]; [done|]. destruct (Hno o Ho). unfold entry_is in *. by rewrite linked_other in Hent.
    + destruct Hor as [(_ & _ & ->)|(_ & ->)]; [by apply elem_of_nil in Ho|by apply list_elem_of_singleton in Ho].
Qed.
Lemma linked_others name' : namecmp name' (link_name name) <> 0 -> find_entry c' x' name' = find_entry c x name'.
Proof.
  intros Hne. assert (~ entry_is c' x' name' off) as Hnot by (unfold entry_is; rewrite linked_entry; cbn; tauto).
  destruct linked_offs as (l2 & El & Hor). unfold find_entry. rewrite El. apply find_agree.
  - intros o Ho. destruct (decide (o = off)) as [->|Hno].
    + destruct Hor as [(_ & Hz & _)|(Eo & _)]; [unfold entry_is at 2; tauto|]. destruct Hdir as [_ [? _] ?].
      apply elem_of_dirent_offs in Ho as (? & ? & ?); [unfold DIRENT_SIZE in *; lia|done|lia].
    + unfold entry_is. by rewrite linked_other.
  - intros o Ho. destruct Hor as [(_ & _ & ->)|(_ & ->)]; [by apply elem_of_nil in Ho|]. by apply list_elem_of_singleton in Ho as ->.
Qed.
End Linked.
End Dir.
