(* ===== verification/FsTrunc.v ===== *)
(** * itrunc(): giving the blocks of a file back

    itrunc() frees exactly the blocks of the file, its indirect block included,
    and leaves an empty file; of the disk it changes the bitmap and the inode
    of the file, so every other file stays as it is. *)

From S2P Require Import Prelude Machine Kstring Kernel Spinlock Kalloc Vm Sched Sleeplock Bio BioSpec Log LogSpec LogCommit Fs FsSpec FsTx FsAlloc FsFile FsGrow FsBmap FsBytes FsWrite.

Lemma absorb_twice bs b : absorb (absorb bs b) b = absorb bs b.
Proof. unfold absorb. destruct (decide (b ∈ bs)) as [Hb|Hb]; [by rewrite decide_True|]. rewrite decide_True; [done|]. set_solver. Qed.

(** The inode of an empty file. *)
Definition emptied (x : inode) : inode := set_i_size 0 (set_i_addrs (replicate 13 0) x).
Lemma emptied_addr x i : addr_of (emptied x) i = 0.
Proof.
  unfold addr_of. cbn [i_addrs emptied set_i_size set_i_addrs]. rewrite nth_lookup. destruct (replicate 13 0 !! _) as [v|] eqn:E; [|done].
  by apply lookup_replicate in E as [-> _].
Qed.
Lemma emptied_faddr c x bn : faddr c (emptied x) bn = 0.
Proof. unfold faddr. rewrite !emptied_addr. case_decide; [done|]. by rewrite decide_True. Qed.
Lemma emptied_in c x a : ~ in_file c (emptied x) a.
Proof. intros [Hn [E|(bn & _ & E)]]; [by rewrite emptied_addr in E|by rewrite emptied_faddr in E]. Qed.
Lemma emptied_ok sb c x : file_ok sb c (emptied x).
Proof. constructor; [done|intros a Ha; by apply emptied_in in Ha|intros bn bn' _ _ _; by rewrite emptied_faddr|intros bn _; by rewrite emptied_addr]. Qed.

Lemma emptied_fits x : inode_fits x -> inode_fits (emptied x).
Proof.
  intros (T1 & T2 & T3 & T4 & T5 & T6 & T7). unfold inode_fits. cbn. split_and!; try (done || lia). apply (Forall_replicate (fun a => 0 <= a < 2 ^ 32) 13 0). lia.
Qed.

(** [x'] is [x] with the addresses [js] cleared. *)
Record unlinked (x x' : inode) (js : list Z) : Prop := mkUnlinked {
  ul_meta : set_i_addrs [] x' = set_i_addrs [] x;
  ul_len : length (i_addrs x') = 13%nat;
  ul_addr j : 0 <= j <= NDIRECT -> addr_of x' j = if decide (j ∈ js) then 0 else addr_of x j
}.
Lemma unlinked_refl x : length (i_addrs x) = 13%nat -> unlinked x x [].
Proof. intros Hl. constructor; [done|done|]. intros j _. rewrite decide_False; [done|]. apply not_elem_of_nil. Qed.
Lemma unlinked_set x x' js i : unlinked x x' js -> 0 <= i <= NDIRECT -> unlinked x (set_addr i 0 x') (js ++ [i]).
Proof.
  intros [U1 U2 U3] Hi. constructor; [done|cbn; by rewrite length_insert|]. intros j Hj. rewrite addr_of_set by done. rewrite U3 by done.
  destruct (decide (j = i)) as [->|Hne]; [by rewrite decide_True by set_solver|]. destruct (decide (j ∈ js)); [by rewrite decide_True by set_solver|by rewrite decide_False by set_solver].
Qed.
Lemma unlinked_skip x x' js i : unlinked x x' js -> 0 <= i <= NDIRECT -> addr_of x' i = 0 -> unlinked x x' (js ++ [i]).
Proof.
  intros [U1 U2 U3] Hi Hz. constructor; [done|done|]. intros j Hj. rewrite U3 by done.
  destruct (decide (j = i)) as [->|Hne]; [rewrite (decide_True (P := _ ∈ _ ++ _)) by set_solver; by rewrite <- U3|].
  destruct (decide (j ∈ js)); [by rewrite decide_True by set_solver|by rewrite decide_False by set_solver].
Qed.
Lemma unlinked_all x x' js : unlinked x x' js -> (forall j, 0 <= j <= NDIRECT -> j ∈ js) -> set_i_size 0 x' = emptied x.
Proof.
  intros [U1 U2 U3] Hall. assert (i_addrs x' = replicate 13 0) as Ea.
  { apply list_eq_same_length with 13%nat; [apply length_replicate|done|]. intros i u v Hi Hu Hv. apply lookup_replicate in Hv as [-> _].
    pose proof (U3 (Z.of_nat i) ltac:(unfold NDIRECT; lia)) as E. rewrite decide_True in E by (apply Hall; unfold NDIRECT; lia).
    unfold addr_of in E. rewrite Nat2Z.id, nth_lookup, Hu in E. done. }
  unfold emptied. apply (f_equal (fun y => set_i_size 0 (set_i_addrs (replicate 13 0) y))) in U1. change (set_i_addrs (replicate 13 0) (set_i_addrs [] ?y)) with (set_i_addrs (replicate 13 0) y) in U1.
  rewrite <- U1, <- Ea. by destruct x'.
Qed.

Section Trunc.
Context `{Symbols} {D : BlockDevice} {DOK : BlockDeviceOK D} (p : nat) (dev : Z) (sb : superblock) (G : geometry sb) (Hone : sb_size sb <= BPB).

Definition the_bitmap : Z := BBLOCK 0 sb.
Lemma single_bitmap b : 0 <= b < sb_size sb -> BBLOCK b sb = the_bitmap.
Proof using G Hone. intros Hb. apply BBLOCK_div. rewrite BPB_eq in *. Z.to_euclidean_division_equations. lia. Qed.
Lemma the_bitmap_low : 0 <= the_bitmap < data_start sb.
Proof using G. apply bitmap_below; [done|]. exists 0. destruct G. split; [lia|done]. Qed.

(** The state while blocks are freed: [fr] are the blocks freed so far. *)
Record freeing (ip : nat) (k : kernel) (c : Z -> list Z) (bs : list Z) (held : gmap Z nat) (fr : Z -> Prop)
  (x' : inode) (k' : kernel) (c' : Z -> list Z) (bs' : list Z) : Prop := mkFreeing {
  fr_txn : in_txn p dev k' c' bs' held;
  fr_frame : ino_frame ip k k';
  fr_inode : get_inode k' ip = x';
  fr_bit b : 0 <= b < sb_size sb -> block_free c' sb b <-> fr b \/ block_free c sb b;
  fr_other a : a <> the_bitmap -> c' a = c a;
  fr_log : bs' = bs \/ bs' = absorb bs the_bitmap
}.
Lemma freeing_iff ip k c bs held fr fr' x' k' c' bs' : (forall b, fr b <-> fr' b) -> freeing ip k c bs held fr x' k' c' bs' -> freeing ip k c bs held fr' x' k' c' bs'.
Proof. intros Hiff [F1 F2 F3 F4 F5 F6]. constructor; try done. intros b Hb. rewrite <- Hiff. by apply F4. Qed.
Lemma freeing_len ip k c bs held fr x' k' c' bs' : freeing ip k c bs held fr x' k' c' bs' -> (length bs' <= S (length bs))%nat.
Proof. intros [_ _ _ _ _ [-> | ->]]; [lia|]. apply absorb_len. Qed.

Lemma free_one e ip k c bs held fr x' k' c' bs' a :
  freeing ip k c bs held fr x' k' c' bs' -> k_sb k = sb -> held !! the_bitmap = None -> (length bs + size held + 3 <= NBUF)%nat ->
  0 <= a < sb_size sb -> ~ fr a -> ~ block_free c sb a ->
  exists k2 c2 bs2, bfree dev a e k' = Ok tt e k2 /\ freeing ip k c bs held (fun b => b = a \/ fr b) x' k2 c2 bs2.
Proof using G Hone DOK.
  intros Hf Hsb Hh Hs Ha Hfr Hu. pose proof Hf as [F1 F2 F3 F4 F5 F6]. pose proof (freeing_len _ _ _ _ _ _ _ _ _ _ Hf) as Hl.
  assert (k_sb k' = sb) as Es by (rewrite (ino_frame_sb _ _ _ F2); done). pose proof (single_bitmap a Ha) as Eb.
  destruct (bfree_ok p dev e k' c' bs' held a F1) as (k2 & E & H2 & Fr); [by rewrite Es, Eb|lia|rewrite Es, F4 by done; tauto|].
  rewrite Es in H2. rewrite Eb in H2. exists k2, (mark_free sb a c'), (absorb bs' the_bitmap). split; [done|]. constructor.
  - done.
  - etrans; [exact F2|]. by apply fs_ino_frame.
  - by rewrite (fs_frame_inode _ _ _ Fr).
  - intros b Hb. rewrite (proj2 (block_free_mark sb a b c' G Ha Hb (bc_len _ _ _ _ _ _ (it_cached _ _ _ _ _ _ F1) _))), F4 by done. tauto.
  - intros b Hb. unfold mark_free. rewrite Eb, fupd_ne by done. by apply F5.
  - right. destruct F6 as [-> | ->]; [done|apply absorb_twice].
Qed.

Section File.
Context (e : list (kernel -> kernel)) (ip : nat) (k : kernel) (c : Z -> list Z) (bs : list Z) (x : inode).
Context (Hw : wfile p dev sb k c bs ∅ ip x).

Lemma file_block_ok a : in_file c x a -> 0 <= a < sb_size sb /\ ~ block_free c sb a /\ a <> the_bitmap.
Proof using Hw G.
  clear Hone.
  intros Ha. destruct (fo_own _ _ _ (wf_file _ _ _ _ _ _ _ _ _ Hw) a Ha) as [Hr Hn]. pose proof the_bitmap_low. pose proof (data_start_nonneg sb G). split_and!; [lia|lia|done|lia].
Qed.
Lemma freeing_start : freeing ip k c bs ∅ (fun _ => False) x k c bs.
Proof using Hw. destruct Hw. constructor; try done; [tauto|by left]. Qed.

Context (Hroom : (length bs + 5 <= NBUF)%nat).
(** The direct blocks. *)
Definition direct_freed (js : list Z) (b : Z) : Prop := b <> 0 /\ exists j, j ∈ js /\ b = addr_of x j.
Lemma free_direct : exists k1 c1 bs1 x1,
  for_ (seqZ 0 NDIRECT) (fun i =>
    y <- gets (fun k => get_inode k ip);;
    if decide (addr_of y i <> 0) then bfree (i_dev y) (addr_of y i);;; modify (upd_inode ip (set_addr i 0)) else skip) e k = Ok tt e k1 /\
  freeing ip k c bs ∅ (direct_freed (seqZ 0 NDIRECT)) x1 k1 c1 bs1 /\ unlinked x x1 (seqZ 0 NDIRECT).
Proof using Hw Hroom G Hone DOK.
  pose proof Hw as [W1 W2 W3 W4 W5 W6 W7].
  destruct (for_inv (fun js s => exists c1 bs1 x1, freeing ip k c bs ∅ (direct_freed js) x1 s c1 bs1 /\ unlinked x x1 js) (seqZ 0 NDIRECT)
    (fun i => y <- gets (fun k => get_inode k ip);;
      if decide (addr_of y i <> 0) then bfree (i_dev y) (addr_of y i);;; modify (upd_inode ip (set_addr i 0)) else skip) e k) as (k1 & E & c1 & bs1 & x1 & R).
  - exists c, bs, x. split; [|apply unlinked_refl, W6]. apply (freeing_iff _ _ _ _ _ (fun _ => False)); [|apply freeing_start].
    intros b. split; [done|]. intros (_ & j & Hj & _). by apply elem_of_nil in Hj.
  - intros js i todo s Ejs (c1 & bs1 & x1 & Hf & Hu). assert (i ∈ seqZ 0 NDIRECT) as Hi by (rewrite Ejs; set_solver). apply elem_of_seqZ in Hi.
    assert (i ∉ js) as Hnj. { pose proof (NoDup_seqZ 0 NDIRECT) as Hnd. rewrite Ejs in Hnd. apply NoDup_app in Hnd as (_ & Hnd & _). intros Hin. apply (Hnd i Hin). by left. }
    assert (addr_of x1 i = addr_of x i) as Ea by (rewrite (ul_addr _ _ _ Hu) by lia; by rewrite decide_False).
    assert (i_dev x1 = dev) as Edv by (rewrite <- W5; exact (f_equal i_dev (ul_meta _ _ _ Hu))).
    cbn [bind gets]. rewrite (fr_inode _ _ _ _ _ _ _ _ _ _ Hf), Ea, Edv. case_decide as Hz.
    + assert (in_file c x (addr_of x i)) as Hin.
      { split; [done|]. right. exists i. split; [unfold MAXFILE; rewrite NINDIRECT_eq; lia|]. unfold faddr. by rewrite decide_True by lia. }
      destruct (file_block_ok _ Hin) as (Hr & Hnf & _).
      destruct (free_one e ip k c bs ∅ _ x1 s c1 bs1 (addr_of x i) Hf W2) as (k2 & c2 & bs2 & E2 & Hf2); [done|rewrite map_size_empty; lia|done| |done|].
      { intros (_ & j & Hj & Ej). assert (j ∈ seqZ 0 NDIRECT) as Hj' by (rewrite Ejs; set_solver). apply elem_of_seqZ in Hj'.
        assert (i = j); [|by subst]. apply (fo_inj _ _ _ W6); rewrite ?NINDIRECT_eq; unfold MAXFILE, faddr in *; rewrite ?NINDIRECT_eq; try lia; rewrite !decide_True by lia; done. }
      cbn [bind]. rewrite E2. cbn [modify]. eexists. split; [done|]. exists c2, bs2, (set_addr i 0 x1). split; [|apply unlinked_set; [done|unfold NDIRECT in *; lia]].
      destruct Hf2 as [F1 F2 F3 F4 F5 F6]. constructor; try done.
      * by apply in_txn_upd_inode.
      * etrans; [exact F2|apply ino_frame_upd].
      * rewrite get_upd_inode; [by rewrite F3|]. by rewrite (ino_frame_len _ _ _ F2).
      * intros b Hb. rewrite F4 by done. apply or_iff_compat_r. unfold direct_freed. split.
        -- intros [->|(Hn & j & Hj & Ej)]; [split; [done|exists i; set_solver]|]. split; [done|]. exists j. set_solver.
        -- intros (Hn & j & Hj & Ej). apply elem_of_app in Hj as [Hj|Hj]; [right; split; [done|by exists j]|]. left. by apply list_elem_of_singleton in Hj as ->.
    + exists s. split; [done|]. exists c1, bs1, x1. assert (addr_of x i = 0) as Hz' by (destruct (decide (addr_of x i = 0)); tauto). split; [|apply unlinked_skip; [done|unfold NDIRECT in *; lia|by rewrite Ea]].
      apply (freeing_iff _ _ _ _ _ (direct_freed js)); [|done]. intros b. unfold direct_freed. split.
      * intros (Hn & j & Hj & Ej). split; [done|]. exists j. set_solver.
      * intros (Hn & j & Hj & Ej). split; [done|]. exists j. apply elem_of_app in Hj as [Hj|Hj]; [done|]. apply list_elem_of_singleton in Hj as ->. congruence.
  - exists k1, c1, bs1, x1. done.
Qed.

(** The blocks of the indirect block. *)
Definition entry_freed (js : list Z) (b : Z) : Prop := b <> 0 /\ exists j, j ∈ js /\ b = faddr c x (NDIRECT + j).
Lemma entry_addr j : addr_of x NDIRECT <> 0 -> 0 <= j -> faddr c x (NDIRECT + j) = get32 (c (addr_of x NDIRECT)) (4 * j).
Proof.
  intros Hn Hj. unfold faddr. rewrite decide_False by (unfold NDIRECT; lia). rewrite decide_False by done. do 2 f_equal. lia.
Qed.
Lemma free_entries i x1 k1 c1 bs1 :
  let ind := addr_of x NDIRECT in let held := <[ind := i]> (∅ : gmap Z nat) in
  ind <> 0 -> freeing ip k c bs held (direct_freed (seqZ 0 NDIRECT)) x1 k1 c1 bs1 ->
  exists k2 c2 bs2,
    for_ (seqZ 0 NINDIRECT) (fun j =>
      a <- gets (fun k => get32 (b_data (get_buf k i)) (4 * j));;
      if decide (a <> 0) then bfree dev a else skip) e k1 = Ok tt e k2 /\
    freeing ip k c bs held (fun b => direct_freed (seqZ 0 NDIRECT) b \/ entry_freed (seqZ 0 NINDIRECT) b) x1 k2 c2 bs2.
Proof.
  intros ind held Hn Hf1. pose proof Hw as [W1 W2 W3 W4 W5 W6 W7]. destruct (file_block_ok _ (ind_in c x Hn)) as (_ & _ & Hib). fold ind in Hib.
  assert (held !! the_bitmap = None) as Hhb by (unfold held; by rewrite lookup_insert_ne, lookup_empty by done).
  assert (size held = 1%nat) as Hsz by (unfold held; rewrite map_size_insert_None by done; by rewrite map_size_empty).
  destruct (for_inv (fun js s => exists c2 bs2, freeing ip k c bs held (fun b => direct_freed (seqZ 0 NDIRECT) b \/ entry_freed js b) x1 s c2 bs2) (seqZ 0 NINDIRECT)
    (fun j => a <- gets (fun k => get32 (b_data (get_buf k i)) (4 * j));; if decide (a <> 0) then bfree dev a else skip) e k1) as (k2 & E & c2 & bs2 & R); [| |by exists k2, c2, bs2].
  - exists c1, bs1. apply (freeing_iff _ _ _ _ _ (direct_freed (seqZ 0 NDIRECT))); [|done]. intros b. split; [by left|]. intros [?|(_ & j & Hj & _)]; [done|by apply elem_of_nil in Hj].
  - intros js j todo s Ejs (c2 & bs2 & Hf). assert (j ∈ seqZ 0 NINDIRECT) as Hj by (rewrite Ejs; set_solver). apply elem_of_seqZ in Hj. rewrite NINDIRECT_eq in Hj.
    assert (j ∉ js) as Hnj. { pose proof (NoDup_seqZ 0 NINDIRECT) as Hnd. rewrite Ejs in Hnd. apply NoDup_app in Hnd as (_ & Hnd & _). intros Hin. apply (Hnd j Hin). by left. }
    destruct (bc_held_at _ _ _ _ _ _ (it_cached _ _ _ _ _ _ (fr_txn _ _ _ _ _ _ _ _ _ _ Hf)) i ind) as [_ Hbuf]; [apply lookup_insert_eq|].
    assert (b_data (get_buf s i) = c ind) as Ed by (rewrite <- (fr_other _ _ _ _ _ _ _ _ _ _ Hf ind Hib); apply Hbuf).
    cbn [bind gets]. rewrite Ed. unfold ind. rewrite <- entry_addr by (done || lia).
    assert (0 <= NDIRECT + j < MAXFILE) as Hbn by (unfold MAXFILE, NDIRECT; rewrite NINDIRECT_eq; lia).
    assert (forall b, (b = faddr c x (NDIRECT + j) /\ b <> 0) \/ direct_freed (seqZ 0 NDIRECT) b \/ entry_freed js b <-> direct_freed (seqZ 0 NDIRECT) b \/ entry_freed (js ++ [j]) b) as Hiff.
    { intros b. unfold entry_freed. split.
      - intros [[-> Hb]|[?|(Hb & j' & Hj' & Ej')]]; [right; split; [done|exists j; set_solver]|by left|right; split; [done|exists j'; set_solver]].
      - intros [?|(Hb & j' & Hj' & Ej')]; [by right; left|]. apply elem_of_app in Hj' as [Hj'|Hj']; [right; right; split; [done|by exists j']|]. apply list_elem_of_singleton in Hj' as ->. by left. }
    case_decide as Hz.
    + destruct (file_block_ok _ (faddr_in c x _ Hbn Hz)) as (Hr & Hnf & _).
      destruct (free_one e ip k c bs held _ x1 s c2 bs2 (faddr c x (NDIRECT + j)) Hf W2 Hhb) as (k3 & c3 & bs3 & E3 & Hf3); [lia|done| |done|].
      { intros [(_ & j' & Hj' & Ej')|(_ & j' & Hj' & Ej')].
        - apply elem_of_seqZ in Hj'. assert (NDIRECT + j = j'); [|lia]. apply (fo_inj _ _ _ W6); [done|unfold MAXFILE; rewrite NINDIRECT_eq; lia| |done].
          rewrite Ej'. unfold faddr at 1. by rewrite decide_True by lia.
        - assert (j' ∈ seqZ 0 NINDIRECT) as Hjr by (rewrite Ejs; set_solver). apply elem_of_seqZ in Hjr. rewrite NINDIRECT_eq in Hjr.
          assert (NDIRECT + j = NDIRECT + j') as Eq; [|assert (j = j') by lia; by subst]. apply (fo_inj _ _ _ W6); [done|unfold MAXFILE, NDIRECT; rewrite NINDIRECT_eq; lia|done|done]. }
      exists k3. split; [done|]. exists c3, bs3. apply (freeing_iff _ _ _ _ _ _ _) with (2 := Hf3). intros b. rewrite <- Hiff. split; [intros [->|?]; [by left|by right]|intros [[-> _]|?]; [by left|by right]].
    + exists s. split; [done|]. exists c2, bs2. apply (freeing_iff _ _ _ _ _ _ _) with (2 := Hf). intros b. rewrite <- Hiff. split; [by right|]. intros [[-> Hb]|?]; [tauto|done].
Qed.

(** The indirect block with the blocks it lists. *)
Lemma file_blocks_split b : in_file c x b <->
  direct_freed (seqZ 0 NDIRECT) b \/ (addr_of x NDIRECT <> 0 /\ (entry_freed (seqZ 0 NINDIRECT) b \/ b = addr_of x NDIRECT)).
Proof.
  unfold direct_freed, entry_freed. assert (MAXFILE = NDIRECT + NINDIRECT) as Em by done. pose proof NINDIRECT_eq. split.
  - intros [Hn [->|(bn & Hbn & <-)]]; [right; split; [done|by right]|]. destruct (decide (bn < NDIRECT)) as [Hd|Hd].
    + left. split; [done|]. exists bn. split; [apply elem_of_seqZ; lia|]. unfold faddr. by rewrite decide_True.
    + right. split; [intros Hz; apply Hn; unfold faddr; rewrite decide_False by done; by rewrite decide_True|]. left. split; [done|].
      exists (bn - NDIRECT). split; [apply elem_of_seqZ; lia|]. f_equal. lia.
  - intros [(Hn & j & Hj & ->)|[Hi [(Hn & j & Hj & ->)| ->]]].
    + apply elem_of_seqZ in Hj. split; [done|]. right. exists j. split; [unfold NDIRECT in *; lia|]. unfold faddr. by rewrite decide_True by lia.
    + apply elem_of_seqZ in Hj. split; [done|]. right. exists (NDIRECT + j). split; [unfold NDIRECT in *; lia|done].
    + by apply ind_in.
Qed.
Lemma free_indirect x1 k1 c1 bs1 :
  freeing ip k c bs ∅ (direct_freed (seqZ 0 NDIRECT)) x1 k1 c1 bs1 -> unlinked x x1 (seqZ 0 NDIRECT) ->
  exists k2 c2 bs2 x2,
    (y <- gets (fun k => get_inode k ip);;
     (if decide (addr_of y NDIRECT <> 0) then
        bp <- bread (i_dev y) (addr_of y NDIRECT);;
        for_ (seqZ 0 NINDIRECT) (fun j =>
          a <- gets (fun k => get32 (b_data (get_buf k bp)) (4 * j));;
          if decide (a <> 0) then bfree (i_dev y) a else skip);;;
        brelse bp;;;
        bfree (i_dev y) (addr_of y NDIRECT);;;
        modify (upd_inode ip (set_addr NDIRECT 0))
      else skip)) e k1 = Ok tt e k2 /\
    freeing ip k c bs ∅ (in_file c x) x2 k2 c2 bs2 /\ set_i_size 0 x2 = emptied x.
Proof.
  intros Hf Hu. pose proof Hw as [W1 W2 W3 W4 W5 W6 W7]. cbn [bind gets]. rewrite (fr_inode _ _ _ _ _ _ _ _ _ _ Hf).
  assert (addr_of x1 NDIRECT = addr_of x NDIRECT) as Ea. { rewrite (ul_addr _ _ _ Hu) by (unfold NDIRECT; lia). rewrite decide_False; [done|]. rewrite elem_of_seqZ. lia. }
  assert (i_dev x1 = dev) as Edv by (rewrite <- W5; exact (f_equal i_dev (ul_meta _ _ _ Hu))). rewrite Ea, Edv. set (ind := addr_of x NDIRECT).
  assert (forall j, 0 <= j <= NDIRECT -> j ∈ seqZ 0 NDIRECT ++ [NDIRECT]) as Hall.
  { intros j Hj. rewrite elem_of_app, elem_of_seqZ, list_elem_of_singleton. lia. }
  case_decide as Hz.
  2: { assert (ind = 0) as Hi by (destruct (decide (ind = 0)); tauto). exists k1, c1, bs1, x1. split; [done|]. split.
    - apply (freeing_iff _ _ _ _ _ _ _) with (2 := Hf). intros b. rewrite file_blocks_split. fold ind. tauto.
    - apply (unlinked_all x x1 (seqZ 0 NDIRECT ++ [NDIRECT])); [|done]. apply unlinked_skip; [done|unfold NDIRECT; lia|by rewrite Ea]. }
  pose proof (freeing_len _ _ _ _ _ _ _ _ _ _ Hf) as Hl. pose proof Hf as [F1 F2 F3 F4 F5 F6]. destruct (file_block_ok _ (ind_in c x Hz)) as (Hir & Hif & Hib). fold ind in Hir, Hif, Hib.
  destruct (tx_bread p dev e k1 c1 bs1 ∅ F1 ind) as (i & k2 & E2 & H2 & _ & Fr2); [done|rewrite map_size_empty; lia|]. cbn [bind]. rewrite E2.
  assert (freeing ip k c bs (<[ind := i]> ∅) (direct_freed (seqZ 0 NDIRECT)) x1 k2 c1 bs1) as Hf2.
  { constructor; try done; [etrans; [exact F2|by apply fs_ino_frame]|by rewrite (fs_frame_inode _ _ _ Fr2)]. }
  destruct (free_entries i x1 k2 c1 bs1 Hz Hf2) as (k3 & c3 & bs3 & E3 & Hf3). rewrite E3. pose proof Hf3 as [T1 T2 T3 T4 T5 T6].
  destruct (tx_brelse p dev e k3 c3 bs3 _ T1 ind i) as (k4 & E4 & H4 & Fr4); [apply lookup_insert_eq|]. rewrite E4. rewrite delete_insert_id in H4 by done.
  assert (freeing ip k c bs ∅ (fun b => direct_freed (seqZ 0 NDIRECT) b \/ entry_freed (seqZ 0 NINDIRECT) b) x1 k4 c3 bs3) as Hf4.
  { constructor; try done; [etrans; [exact T2|by apply fs_ino_frame]|by rewrite (fs_frame_inode _ _ _ Fr4)]. }
  destruct (free_one e ip k c bs ∅ _ x1 k4 c3 bs3 ind Hf4 W2) as (k5 & c5 & bs5 & E5 & Hf5); [done|rewrite map_size_empty; lia|done| |done|].
  { intros [(_ & j & Hj & Ej)|(_ & j & Hj & Ej)]; apply elem_of_seqZ in Hj; rewrite ?NINDIRECT_eq in Hj.
    - apply (fo_ind _ _ _ W6 j); [unfold MAXFILE, NDIRECT in *; rewrite NINDIRECT_eq; lia|done|]. unfold faddr. rewrite decide_True by lia. done.
    - apply (fo_ind _ _ _ W6 (NDIRECT + j)); [unfold MAXFILE, NDIRECT; rewrite NINDIRECT_eq; lia|done|done]. }
  rewrite E5. cbn [modify]. destruct Hf5 as [V1 V2 V3 V4 V5 V6]. eexists _, c5, bs5, (set_addr NDIRECT 0 x1). split; [done|]. split.
  - constructor; try done.
    + by apply in_txn_upd_inode.
    + etrans; [exact V2|apply ino_frame_upd].
    + rewrite get_upd_inode; [by rewrite V3|]. by rewrite (ino_frame_len _ _ _ V2).
    + intros b Hb. rewrite V4 by done. rewrite file_blocks_split. fold ind. tauto.
  - apply (unlinked_all x _ (seqZ 0 NDIRECT ++ [NDIRECT])); [|done]. apply unlinked_set; [done|unfold NDIRECT; lia].
Qed.

(** itrunc() of a well-formed file. *)
Record truncated (k' : kernel) (c' : Z -> list Z) (bs' : list Z) : Prop := mkTruncated {
  tr_file : wfile p dev sb k' c' bs' ∅ ip (emptied x);
  tr_bits b : 0 <= b < sb_size sb -> block_free c' sb b <-> in_file c x b \/ block_free c sb b;
  tr_inode : c' (IBLOCK (i_inum x) sb) = store_dinode (c (IBLOCK (i_inum x) sb)) (dinode_off (i_inum x)) (emptied x);
  tr_other a : a <> the_bitmap -> a <> IBLOCK (i_inum x) sb -> c' a = c a;
  tr_log : (length bs' <= length bs + 2)%nat;
  tr_frame : ino_frame ip k k'
}.
Lemma itrunc_ok : IBLOCK (i_inum x) sb < sb_bmapstart sb -> exists k' c' bs', itrunc ip e k = Ok tt e k' /\ truncated k' c' bs'.
Proof.
  intros Hib. pose proof Hw as [W1 W2 W3 W4 W5 W6 W7]. destruct free_direct as (k1 & c1 & bs1 & x1 & E1 & Hf1 & Hu1).
  destruct (free_indirect x1 k1 c1 bs1 Hf1 Hu1) as (k2 & c2 & bs2 & x2 & E2 & Hf2 & Ex2). pose proof (freeing_len _ _ _ _ _ _ _ _ _ _ Hf2) as Hl2.
  destruct Hf2 as [F1 F2 F3 F4 F5 F6]. set (k3 := upd_inode ip (set_i_size 0) k2). set (ib := IBLOCK (i_inum x) sb) in *.
  assert (ib <> the_bitmap) as Hne. { unfold the_bitmap. rewrite BBLOCK_eq by (done || (destruct G; lia)). rewrite BPB_eq. rewrite Z.div_0_l by done. lia. }
  assert (wfile p dev sb k3 c2 bs2 ∅ ip (emptied x)) as Hw3.
  { constructor.
    - by apply in_txn_upd_inode.
    - change (k_sb k3) with (k_sb k2). by rewrite (ino_frame_sb _ _ _ F2).
    - cbn. rewrite length_alter. by rewrite (ino_frame_len _ _ _ F2).
    - unfold k3. rewrite get_upd_inode by by rewrite (ino_frame_len _ _ _ F2). rewrite F3. exact Ex2.
    - done.
    - apply emptied_ok.
    - intros b Hb Hfr. apply F4 in Hfr as [Hin|Hfr]; [|by apply W7|done]. destruct (fo_own _ _ _ W6 b Hin) as [Hrg _]. apply Hrg. }
  destruct (iupdate_ok p dev sb G e k3 c2 bs2 ip (emptied x) Hw3) as (k4 & E4 & Hw4 & Fr4); [exact Hib|lia|].
  change (i_inum (emptied x)) with (i_inum x) in *. fold ib in Hw4. eexists k4, _, _. split.
  { unfold itrunc. rewrite (bind_Ok _ _ _ _ _ _ _ E1). rewrite <- bind_assoc. rewrite (bind_Ok _ _ _ _ _ _ _ E2). rewrite (bind_Ok (modify (upd_inode ip (set_i_size 0))) _ tt e k2 e k3 eq_refl). exact E4. }
  constructor.
  - exact Hw4.
  - intros b Hb. rewrite (meta_free sb c2 ib); [by apply F4|done|exact Hib|done].
  - fold ib. rewrite fupd_eq. by rewrite F5.
  - intros a Ha Hai. fold ib in Hai. rewrite fupd_ne by done. by apply F5.
  - pose proof (absorb_len bs2 ib). lia.
  - etrans; [exact F2|]. etrans; [apply (ino_frame_upd ip (set_i_size 0))|]. by apply fs_ino_frame.
Qed.

(** Every other file and inode. *)
Section Kept.
Context (k' : kernel) (c' : Z -> list Z) (bs' : list Z) (Ht : truncated k' c' bs') (Hib : IBLOCK (i_inum x) sb < sb_bmapstart sb).
Context (y : inode) (Hy : file_ok sb c y) (Hdis : disjoint_files c x y).
Lemma kept_block a : in_file c y a -> c' a = c a.
Proof.
  intros Ha. destruct (fo_own _ _ _ Hy a Ha) as [Hr _]. pose proof the_bitmap_low. assert (sb_bmapstart sb <= data_start sb).
  { unfold data_start. destruct G. rewrite BPB_eq. pose proof (Z.div_pos (sb_size sb) 8192). lia. }
  apply (tr_other _ _ _ Ht); lia.
Qed.
Lemma kept_faddr bn : faddr c' y bn = faddr c y bn.
Proof. unfold faddr. case_decide; [done|]. case_decide as Hi; [done|]. by rewrite kept_block by by apply ind_in. Qed.
Lemma kept_file : file_ok sb c' y /\ (mapped c y -> mapped c' y /\ fbytes c' y 0 (i_size y) = fbytes c y 0 (i_size y)).
Proof.
  assert (forall a, in_file c' y a <-> in_file c y a) as Hin by (intros a; unfold in_file; by setoid_rewrite kept_faddr). split.
  - constructor; [apply Hy| |intros bn bn'; rewrite !kept_faddr; apply Hy|intros bn; rewrite kept_faddr; apply Hy].
    intros a Ha%Hin. destruct (fo_own _ _ _ Hy a Ha) as [Hr Hn]. split; [done|]. pose proof (data_start_nonneg sb G).
    rewrite (tr_bits _ _ _ Ht) by lia. intros [Hx|?]; [by apply (Hdis a)|done].
  - intros [Hsz Hm]. split; [split; [done|]; intros bn Hb Hlt; rewrite kept_faddr; by apply Hm|].
    unfold fbytes. apply map_ext_in. intros q Hq. apply list_elem_of_In, elem_of_seqZ in Hq. rewrite Z.add_0_l. unfold fbyte. rewrite kept_faddr.
    rewrite kept_block; [done|]. apply faddr_in; [rewrite BSIZE_eq in *; unfold MAXFILE in *; Z.to_euclidean_division_equations; lia|].
    apply Hm; rewrite BSIZE_eq in *; Z.to_euclidean_division_equations; lia.
Qed.
Lemma kept_dinode j z :
  0 <= i_inum x < 2 ^ 31 -> 0 <= j < 2 ^ 31 -> 0 <= sb_inodestart sb < 2 ^ 31 -> j <> i_inum x -> IBLOCK j sb < sb_bmapstart sb ->
  load_dinode (c' (IBLOCK j sb)) (dinode_off j) z = load_dinode (c (IBLOCK j sb)) (dinode_off j) z.
Proof.
  intros Hi Hj Hs Hne Hjb. rewrite <- (dinode_other sb c (i_inum x) j (emptied x) z Hi Hj Hs Hne); [|apply (wf_len _ _ _ _ _ _ _ _ _ _ Hw)].
  destruct (decide (IBLOCK j sb = IBLOCK (i_inum x) sb)) as [E|E].
  - rewrite E, fupd_eq. by rewrite (tr_inode _ _ _ Ht).
  - rewrite fupd_ne by done. rewrite (tr_other _ _ _ Ht); [done| |done]. unfold the_bitmap. rewrite BBLOCK_eq by (done || (destruct G; lia)). rewrite BPB_eq, Z.div_0_l by done. lia.
Qed.
End Kept.
End File.
End Trunc.
