(* ===== verification/FileSpec.v ===== *)
(** * The file table: allocation and reference counts *)

From S2P Require Import Prelude Machine Kstring Kernel Spinlock Kalloc Vm Printf Sched Proc Sleeplock Bio Log Fs Pipe Console File.

(** A linear search whose failing steps change nothing. *)
Lemma first_find {X R} (P : X -> Prop) `{!forall x, Decision (P x)} (tbl : list X)
    (f : nat -> K (option R)) e k : forall a,
  (forall i x, tbl !! i = Some x -> ~ P x -> f (a + i)%nat e k = Ok None e k) ->
  first_ (seq a (length tbl)) f e k =
  match list_find P tbl with
  | None => Ok None e k
  | Some (i, _) =>
      (o <- f (a + i)%nat;;
       match o with
       | Some r => ret (Some r)
       | None => first_ (seq (S (a + i)) (length tbl - S i)) f
       end) e k
  end.
Proof.
  induction tbl as [|x tbl IH]; intros a Hf; cbn [length seq first_ list_find]; [done|].
  destruct (decide (P x)) as [Hx|Hx].
  - cbn. by rewrite Nat.add_0_r, Nat.sub_0_r.
  - rewrite (bind_Ok _ _ None e k e k).
    2: { rewrite <- (Hf 0%nat x eq_refl Hx). by rewrite Nat.add_0_r. }
    rewrite IH.
    + destruct (list_find P tbl) as [[i y]|]; [|done]. cbn. by rewrite Nat.add_succ_r.
    + intros i y Hy Hn. rewrite <- (Hf (S i) y Hy Hn). f_equal. lia.
Qed.

Section Refs.
Context `{Symbols} `{D : BlockDevice}.

Lemma get_file_lookup k i f : k_ftable k !! i = Some f -> get_file k i = f.
Proof. intros E. unfold get_file. by rewrite E. Qed.

(** filealloc() takes the first free entry and sets its count to one. *)
Lemma filealloc_ok e k :
  cpu_ok k -> lock_free LkFtable k -> length (k_ftable k) = NFILE ->
  filealloc e k =
  match list_find (fun f => f_ref f = 0) (k_ftable k) with
  | Some (i, _) => Ok (Some i) e (upd_file i (set_f_ref 1) k)
  | None => Ok None e k
  end.
Proof.
  intros Hc Hl Hn. unfold filealloc. rewrite (bind_Ok _ _ _ _ _ _ _ (acquire_free _ e k Hc Hl)).
  set (body := fun f : nat => _). unfold bind at 1. rewrite <- Hn.
  rewrite (first_find (fun f => f_ref f = 0) (k_ftable k) body e (lock_taken LkFtable k) 0).
  - destruct (list_find _ _) as [[i x]|] eqn:E.
    + apply list_find_Some in E as (Hi & Hx & _).
      rewrite (bind_Ok _ _ (Some i) e (lock_taken LkFtable k) e (upd_file i (set_f_ref 1) k)); [done|].
      unfold body. rewrite (bind_Ok (gets _) _ (f_ref x) e (lock_taken LkFtable k) e (lock_taken LkFtable k)).
      2: { unfold gets. change (get_file (lock_taken LkFtable k) (0 + i)) with (get_file k i).
           by rewrite (get_file_lookup k i x Hi). }
      rewrite decide_True by done.
      rewrite (bind_Ok (modify _) _ tt e (lock_taken LkFtable k) e
                 (lock_taken LkFtable (upd_file i (set_f_ref 1) k)) eq_refl).
      by rewrite (bind_Ok _ _ _ _ _ _ _ (release_taken LkFtable e (upd_file i (set_f_ref 1) k) Hc Hl)).
    + by rewrite (bind_Ok _ _ _ _ _ _ _ (release_taken LkFtable e k Hc Hl)).
  - intros i x Hi Hx. unfold body.
    rewrite (bind_Ok (gets _) _ (f_ref x) e (lock_taken LkFtable k) e (lock_taken LkFtable k)).
    + by rewrite decide_False.
    + unfold gets. change (get_file (lock_taken LkFtable k) (0 + i)) with (get_file k i).
      by rewrite (get_file_lookup k i x Hi).
Qed.

Definition add_ref (d : Z) (x : file) : file := set_f_ref (f_ref x + d) x.

Lemma filedup_ok f e k :
  cpu_ok k -> lock_free LkFtable k ->
  filedup f e k = if decide (f_ref (get_file k f) < 1) then Panic "filedup"
                  else Ok f e (upd_file f (add_ref 1) k).
Proof.
  intros Hc Hl. unfold filedup. rewrite (bind_Ok _ _ _ _ _ _ _ (acquire_free _ e k Hc Hl)).
  rewrite (bind_Ok (gets _) _ (f_ref (get_file k f)) e (lock_taken LkFtable k) e (lock_taken LkFtable k) eq_refl).
  case_decide; [done|].
  rewrite (bind_Ok (modify _) _ tt e (lock_taken LkFtable k) e
             (lock_taken LkFtable (upd_file f (add_ref 1) k)) eq_refl).
  by rewrite (bind_Ok _ _ _ _ _ _ _ (release_taken LkFtable e (upd_file f (add_ref 1) k) Hc Hl)).
Qed.

Lemma get_file_upd k i g :
  (i < length (k_ftable k))%nat -> get_file (upd_file i g k) i = g (get_file k i).
Proof.
  intros Hi. unfold get_file, upd_file. cbn. rewrite list_lookup_alter_eq.
  destruct (lookup_lt_is_Some_2 _ _ Hi) as [x Hx]. by rewrite Hx.
Qed.

(** Closing a file that is open elsewhere only drops the count. *)
Lemma fileclose_shared f e k :
  cpu_ok k -> lock_free LkFtable k -> (f < length (k_ftable k))%nat -> 1 < f_ref (get_file k f) ->
  fileclose f e k = Ok tt e (upd_file f (add_ref (-1)) k).
Proof.
  intros Hc Hl Hf Hr. unfold fileclose. rewrite (bind_Ok _ _ _ _ _ _ _ (acquire_free _ e k Hc Hl)).
  rewrite (bind_Ok (gets _) _ (get_file k f) e (lock_taken LkFtable k) e (lock_taken LkFtable k) eq_refl).
  rewrite decide_False by lia.
  rewrite (bind_Ok (modify _) _ tt e (lock_taken LkFtable k) e
             (lock_taken LkFtable (upd_file f (add_ref (-1)) k)) eq_refl).
  rewrite (bind_Ok (gets _) _ (get_file (upd_file f (add_ref (-1)) k) f) e
             (lock_taken LkFtable (upd_file f (add_ref (-1)) k)) e
             (lock_taken LkFtable (upd_file f (add_ref (-1)) k)) eq_refl).
  rewrite (get_file_upd k f _ Hf). rewrite decide_True by (cbn; lia). by apply release_taken.
Qed.

Lemma fileclose_closed f e k :
  cpu_ok k -> lock_free LkFtable k -> f_ref (get_file k f) < 1 -> fileclose f e k = Panic "fileclose".
Proof.
  intros Hc Hl Hr. unfold fileclose. rewrite (bind_Ok _ _ _ _ _ _ _ (acquire_free _ e k Hc Hl)).
  rewrite (bind_Ok (gets _) _ (get_file k f) e (lock_taken LkFtable k) e (lock_taken LkFtable k) eq_refl).
  by rewrite decide_True.
Qed.
End Refs.
