(* ===== verification/Demo.v ===== *)
(** * A concrete machine state

    A small kernel on hart 0 in which the hypotheses of the theorems hold: all
    locks free, process 0 running with one user page and a three-level page
    table, two free pages, a buffer cache as binit() links it, a log with one
    transaction open, an open file and a pipe. *)

From S2P Require Import Prelude Machine Kstring Kernel Spinlock Kalloc Vm VmSpec VmMap VmUser VmCopy Printf Sched Proc Sleeplock Bio BioSpec Log Fs FsSpec LogSpec LogCommit Pipe.

#[export] Existing Instance shipped_symbols.

(** ** Physical memory *)
Definition DR : Z := 0x80100000.    (* root page table *)
Definition DT1 : Z := 0x80101000.   (* level 1 *)
Definition DT0 : Z := 0x80102000.   (* level 0 *)
Definition DU : Z := 0x80103000.    (* the user page *)
Definition DF1 : Z := 0x80104000.   (* free pages *)
Definition DF2 : Z := 0x80105000.
Definition DPI : Z := 0x80106000.   (* the pipe *)
Definition DTF : Z := 0x80107000.   (* the trapframe *)

Definition demo_text : list Z := codes "hi" ++ [0].
Definition demo_mem : mem :=
  write64 (write64 (write64 (write64 (write64 (write_bytes ∅ DU demo_text)
    DR (Z.lor (PA2PTE DT1) PTE_V)) DT1 (Z.lor (PA2PTE DT0) PTE_V)) DT0 (leaf_pte DU UPERM))
    DF1 DF2) (DTF + 168) 11.
Definition demo_table : ptable := {[ [] := DR; [0] := DT1; [0; 0] := DT0 ]}.
Definition demo_free : list Z := [DF1; DF2].

(** ** The other tables *)
Definition demo_lock_ids : list lockid :=
  [LkKmem; LkPid; LkWait; LkTicks; LkFtable; LkItable; LkBcache; LkLog; LkCons; LkPr; LkUart; LkPipe DPI] ++
  map LkProc (seq 0 NPROC) ++ map (fun i => LkSleep (SlBuf i)) (seq 0 NBUF) ++
  map (fun i => LkSleep (SlInode i)) (seq 0 NINODE).
Definition demo_locks : gmap lockid spinlock :=
  foldr (fun l m => <[l := mkSpinlock 0 "lock" None]> m) ∅ demo_lock_ids.

Definition demo_proc (st : procstate) (pid prio : Z) (p : proc) : proc :=
  set_p_max_mem (128 * 1024) (set_p_priority prio (set_p_pid pid (set_p_state st p))).
Definition demo_procs : list proc :=
  set_p_trapframe DTF (set_p_sz 4096 (set_p_pagetable DR (demo_proc RUNNING 1 60 proc0))) ::
  demo_proc RUNNABLE 2 60 proc0 ::
  demo_proc RUNNABLE 3 50 proc0 ::
  set_p_chan ChTicks (demo_proc SLEEPING 4 60 proc0) ::
  replicate 60 proc0.

Definition demo_buf (i : nat) : buf :=
  let b := set_b_next (if decide (i = 0)%nat then HEAD else pred i)
             (set_b_prev (if decide (i = pred NBUF)%nat then HEAD else S i) buf0) in
  if decide (i = 3)%nat then set_b_valid 1 (set_b_blockno 7 (set_b_dev 1 b)) else b.
Definition demo_bcache : list buf :=
  map demo_buf (seq 0 NBUF) ++ [set_b_next (pred NBUF) (set_b_prev 0%nat buf0)].

Definition demo_log : logstate := mkLog 2 30 1 0 1 1 (<[0%nat := 9]> (replicate 30 0)).
Definition demo_ftable : list file :=
  set_f_ref 2 (set_f_type FD_INODE file0) :: replicate 99 file0.
Definition demo_pipe : pipe := mkPipe (<[0%nat := 65]> (replicate 512 0)) 0 1 1 1.

Definition demo : kernel :=
  set_k_cpus (set_c_proc (Some 0%nat) cpu0 :: replicate 7 cpu0)
  (set_k_locks demo_locks (set_k_mem demo_mem (set_k_freelist DF1 (set_k_procs demo_procs
  (set_k_bcache demo_bcache (set_k_log demo_log (set_k_ftable demo_ftable
  (set_k_pipes {[ DPI := demo_pipe ]} kernel0)))))))).

(** The same hart in the scheduler: no process is running on it. *)
Definition demo_idle : kernel := upd_cpu 0 (set_c_proc None) (upd_proc 0 (set_p_state SLEEPING) demo).

(** ** Its facts *)
Lemma demo_cpu_ok : cpu_ok demo.
Proof. exists (set_c_proc (Some 0%nat) cpu0). split; [done|]. split; [done|]. split; done. Qed.

Lemma demo_idle_hart : idle_hart demo.
Proof. exists (set_c_proc (Some 0%nat) cpu0). done. Qed.

Lemma demo_locks_lookup l : l ∈ demo_lock_ids -> demo_locks !! l = Some (mkSpinlock 0 "lock" None).
Proof.
  unfold demo_locks. induction demo_lock_ids as [|l' ids IH]; [by intros ?%elem_of_nil|].
  intros Hin. cbn [foldr]. destruct (decide (l' = l)) as [->|Hne].
  - by rewrite lookup_insert_eq.
  - rewrite lookup_insert_ne by done. apply IH. by apply elem_of_cons in Hin as [->|?].
Qed.

Lemma demo_lock_free l : l ∈ demo_lock_ids -> lock_free l demo.
Proof. intros Hl. exists "lock"%string. by apply demo_locks_lookup. Qed.

Lemma demo_proc_lock i : (i < NPROC)%nat -> LkProc i ∈ demo_lock_ids.
Proof.
  intros Hi. unfold demo_lock_ids. rewrite !elem_of_app. right. left.
  apply list_elem_of_In, in_map, in_seq. lia.
Qed.

Lemma demo_buf_lock i : (i < NBUF)%nat -> LkSleep (SlBuf i) ∈ demo_lock_ids.
Proof.
  intros Hi. unfold demo_lock_ids. rewrite !elem_of_app. do 2 right. left.
  apply list_elem_of_In, (in_map (fun i => LkSleep (SlBuf i))), in_seq. lia.
Qed.

Lemma demo_quiet : quiet demo.
Proof.
  split; [apply demo_cpu_ok|reflexivity|]. intros i Hi. by apply demo_lock_free, demo_proc_lock.
Qed.

Ltac demo_lock := apply demo_lock_free; unfold demo_lock_ids; cbn [app]; repeat (apply list_elem_of_here || apply list_elem_of_further).

(** *** Memory *)
Lemma demo_page_ok : Forall page_ok [DR; DT1; DT0; DU; DF1; DF2; DPI; DTF].
Proof. repeat (constructor; [split; [reflexivity|split; [discriminate|reflexivity]]|]). constructor. Qed.

Lemma demo_text_zero a :
  a + 8 <= DU \/ DU + 8 <= a -> read64 (write_bytes ∅ DU demo_text) a = 0.
Proof.
  intros Ha. apply read64_zero. intros i Hi. rewrite read8_write_bytes_ne; [done|].
  change (Z.of_nat (length demo_text)) with 3. lia.
Qed.

(** The words of the page tables and of the free list. *)
Lemma demo_word a :
  a mod 8 = 0 -> ~ in_page DU a ->
  read64 demo_mem a =
  if decide (a = DR) then Z.lor (PA2PTE DT1) PTE_V else
  if decide (a = DT1) then Z.lor (PA2PTE DT0) PTE_V else
  if decide (a = DT0) then leaf_pte DU UPERM else
  if decide (a = DF1) then DF2 else
  if decide (a = DTF + 168) then 11 else 0.
Proof.
  intros Ha Hu. unfold demo_mem, in_page, DR, DT1, DT0, DF1, DF2, DTF, DU, PGSIZE in *.
  repeat case_decide; subst; try reflexivity.
  pose proof (Z.div_mod a 8 ltac:(lia)) as Hdm. rewrite Ha in Hdm.
  rewrite !read64_write64_ne by lia. apply demo_text_zero. unfold DU. lia.
Qed.

Lemma demo_entry pg i :
  pg ∈ [DR; DT1; DT0] -> 0 <= i < 512 ->
  read64 demo_mem (pg + 8 * i) =
  if decide (i = 0) then (if decide (pg = DR) then Z.lor (PA2PTE DT1) PTE_V else
                          if decide (pg = DT1) then Z.lor (PA2PTE DT0) PTE_V else leaf_pte DU UPERM)
  else 0.
Proof.
  intros Hpg Hi. rewrite demo_word.
  - repeat (apply elem_of_cons in Hpg as [->|Hpg]); [..|by apply elem_of_nil in Hpg];
      unfold DR, DT1, DT0, DF1, DTF; repeat case_decide; (lia || done).
  - repeat (apply elem_of_cons in Hpg as [->|Hpg]); [..|by apply elem_of_nil in Hpg];
      rewrite Z.add_mod by lia; rewrite (Z.mul_comm 8), Z.mod_mul by lia; reflexivity.
  - repeat (apply elem_of_cons in Hpg as [->|Hpg]); [..|by apply elem_of_nil in Hpg];
      unfold in_page, DR, DT1, DT0, DU, PGSIZE; lia.
Qed.

Lemma demo_table_cases p pg :
  demo_table !! p = Some pg -> p = [] /\ pg = DR \/ p = [0] /\ pg = DT1 \/ p = [0; 0] /\ pg = DT0.
Proof.
  unfold demo_table. rewrite !lookup_insert_Some, lookup_singleton_Some. naive_solver.
Qed.

Lemma demo_pt_rep : pt_rep demo_mem DR demo_table.
Proof.
  split.
  - reflexivity.
  - intros p pg i Hp Hl Hi.
    destruct (demo_table_cases p pg Hp) as [[-> ->]|[[-> ->]|[-> ->]]]; [..|cbn in Hl; lia].
    + rewrite demo_entry by (set_solver || done). destruct (decide (i = 0)) as [->|Hne]; [done|].
      replace (demo_table !! [i]) with (@None Z); [done|]. symmetry.
      unfold demo_table. rewrite !lookup_insert_ne by congruence. by apply lookup_singleton_ne.
    + rewrite demo_entry by (set_solver || done). destruct (decide (i = 0)) as [->|Hne]; [done|].
      replace (demo_table !! [i; 0]) with (@None Z); [done|]. symmetry.
      unfold demo_table. rewrite !lookup_insert_ne by congruence. by apply lookup_singleton_ne; congruence.
  - intros i p q Hq. destruct (demo_table_cases _ _ Hq) as [[? ?]|[[E ->]|[E ->]]]; [done|..];
      injection E as -> ->; (split; [by eexists|]); split; cbn; lia.
  - intros p1 p2 q H1 H2.
    destruct (demo_table_cases _ _ H1) as [[-> ->]|[[-> ->]|[-> ->]]];
      destruct (demo_table_cases _ _ H2) as [[-> E]|[[-> E]|[-> E]]]; try done; discriminate E.
  - intros p pg Hp. pose proof demo_page_ok as HF. rewrite Forall_forall in HF. apply HF.
    destruct (demo_table_cases _ _ Hp) as [[_ ->]|[[_ ->]|[_ ->]]]; set_solver.
  - intros i q Hq. destruct (demo_table_cases _ _ Hq) as [[? _]|[[E _]|[? _]]]; [done| |done]. injection E as ->. lia.
Qed.

Lemma demo_kmem : kmem_inv demo demo_free.
Proof.
  split; [|split].
  - cbn. split; [done|]. change (k_mem demo) with demo_mem.
    rewrite !demo_word; [|reflexivity|unfold in_page, DF2, DU, PGSIZE; lia|reflexivity|unfold in_page, DF1, DU, PGSIZE; lia].
    done.
  - by apply (bool_decide_unpack _).
  - pose proof demo_page_ok as HF. rewrite !Forall_cons in HF. unfold demo_free. rewrite !Forall_cons.
    split_and!; tauto.
Qed.

Lemma demo_vm_inv : vm_inv demo DR demo_table demo_free.
Proof.
  split; [apply demo_cpu_ok|demo_lock|apply demo_kmem|apply demo_pt_rep|].
  intros p pg Hp. destruct (demo_table_cases _ _ Hp) as [[_ ->]|[[_ ->]|[_ ->]]]; by apply (bool_decide_unpack _).
Qed.

Lemma demo_pte va :
  vpage va -> pte_of demo_mem demo_table va = if decide (va = 0) then leaf_pte DU UPERM else 0.
Proof.
  intros Hva. unfold pte_of. destruct (decide (va = 0)) as [->|Hne]; [reflexivity|].
  destruct (demo_table !! low_path va) as [q|] eqn:E; [|done].
  destruct (demo_table_cases _ _ E) as [[? _]|[[? _]|[El ->]]]; [done..|].
  rewrite demo_entry by (set_solver || apply PX_range). rewrite decide_False; [done|].
  intros E0. apply Hne. apply (vpage_same_entry va 0 Hva); [by split; [split|]|done|done].
Qed.

Lemma demo_uvm : uvm demo DR demo_table demo_free [DU].
Proof.
  split; [apply demo_vm_inv|..].
  - split_and!.
    + by apply (bool_decide_unpack _).
    + pose proof demo_page_ok as HF. rewrite !Forall_cons in HF. rewrite Forall_cons. split; [tauto|constructor].
    + intros pg ->%list_elem_of_singleton. by apply (bool_decide_unpack _).
    + intros p pg Hp. destruct (demo_table_cases _ _ Hp) as [[_ ->]|[[_ ->]|[_ ->]]]; by apply (bool_decide_unpack _).
  - done.
  - intros [|i] pg Hi; [|by destruct i]. injection Hi as <-. split_and!; (done || discriminate).
  - intros va Hva [H1 H2]. change (k_mem demo) with demo_mem. rewrite demo_pte by done.
    rewrite decide_False; [done|]. intros ->. unfold vnth, PGSIZE in H1. cbn in H1. lia.
Qed.

Lemma demo_user_space : user_space demo DR demo_table demo_free [DU].
Proof.
  split; [apply demo_uvm|]. intros va Hva. change (k_mem demo) with demo_mem. rewrite demo_pte by done.
  case_decide as E; [by subst|]. done.
Qed.

(** *** Buffer cache, log, pipe *)
Definition demo_lru : list nat := reverse (seq 0 NBUF).

Lemma demo_dev i : (i < NBUF)%nat -> b_dev (get_buf demo i) <> 0 -> i = 3%nat.
Proof.
  intros Hi. assert (Forall (fun i => b_dev (get_buf demo i) = 0 \/ i = 3%nat) (seq 0 NBUF)) as HF.
  { repeat (constructor; [by (left; reflexivity) || (right; reflexivity)|]). constructor. }
  rewrite Forall_forall in HF. intros Hd. destruct (HF i) as [?|?]; [|done..]. apply elem_of_seq. lia.
Qed.

Lemma demo_cache_inv : cache_inv demo demo_lru.
Proof.
  split.
  - reflexivity.
  - apply reverse_Permutation.
  - vm_compute. repeat split.
  - intros i j Hi Hj Hd Ed _. rewrite (demo_dev i Hi Hd). rewrite Ed in Hd. by rewrite (demo_dev j Hj Hd).
Qed.

Lemma demo_io_ready : io_ready demo 0.
Proof.
  split; [apply demo_quiet|demo_lock| |reflexivity]. intros i Hi. by apply demo_lock_free, demo_buf_lock.
Qed.

Lemma demo_ureads : ureads demo_mem demo_table 0 demo_text.
Proof.
  intros i b Hi. destruct i as [|[|[|i]]]; cbn in Hi; simplify_eq; reflexivity.
Qed.

Lemma demo_writer : writer demo 0 DR demo_table demo_free DPI.
Proof.
  split; [apply demo_quiet|demo_lock|reflexivity..|apply demo_vm_inv|by eexists].
Qed.

Lemma demo_reader : reader demo 0 DR demo_table demo_free [DU] DPI.
Proof.
  split; [apply demo_quiet|demo_lock|reflexivity..|apply demo_user_space|by eexists].
Qed.

(** *** The disk and the log

    A state with other contents of buffer 3, the only one in use, another disk
    and another log; the log area starts at block 2. *)
Definition with_buf3 (k0 : kernel) (f : buf -> buf) (d : gmap Z (list Z)) (lg : logstate) : kernel :=
  set_k_disk d (set_k_sb (set_sb_logstart 2 superblock0) (set_k_log lg (upd_buf 3 f k0))).

Lemma with_buf3_lock k0 f d lg l : lock_free l k0 -> lock_free l (with_buf3 k0 f d lg).
Proof. done. Qed.

Section WithBuf3.
Context (k0 : kernel) (l : list nat) (Hci : cache_inv k0 l) (Hio : io_ready k0 0).
Context (Hidle : forall i, (i < NBUF)%nat -> i <> 3%nat -> buf_idle k0 i).
Context (Hl3 : sl_locked (b_lock (get_buf k0 3)) = 0).
Context (f : buf -> buf) (d : gmap Z (list Z)) (lg : logstate) (b : Z) (c : Z -> list Z) (pin : Z -> Z).
Context (Hlinks : forall x, b_next (f x) = b_next x /\ b_prev (f x) = b_prev x).
Context (Hbuf : forall x, b_dev (f x) = 1 /\ b_blockno (f x) = b /\ b_valid (f x) <> 0 /\ b_data (f x) = c b /\
                          b_refcnt (f x) = pin b /\ b_lock (f x) = b_lock x).

Lemma buf3_upd i : get_buf (with_buf3 k0 f d lg) i = if decide (3%nat = i) then f (get_buf k0 i) else get_buf k0 i.
Proof. apply (get_buf_upd k0 3 i f). rewrite (ci_len _ _ Hci). apply Nat.ltb_lt. reflexivity. Qed.

Lemma buf3_used i : (i < NBUF)%nat -> b_dev (get_buf (with_buf3 k0 f d lg) i) <> 0 -> i = 3%nat.
Proof.
  intros Hi. rewrite buf3_upd. case_decide as E; [done|]. intros Hd.
  destruct (Hidle i Hi) as (? & _); [congruence|done].
Qed.

Lemma buf3_cache : cache_inv (with_buf3 k0 f d lg) l.
Proof.
  destruct Hci as [H1 H2 H3 H4]. constructor.
  - cbn. by rewrite length_alter.
  - done.
  - apply (dll_ext k0); [..|done]; intros i; unfold nxt, prv; rewrite buf3_upd; case_decide; (done || apply Hlinks).
  - intros i j Hi Hj Hd E _. rewrite (buf3_used i Hi Hd). rewrite E in Hd. by rewrite (buf3_used j Hj Hd).
Qed.

Lemma buf3_cached :
  (forall x, 0 <= pin x < 2 ^ 31 /\ (pin x <> 0 -> x = b)) ->
  (forall x, c x = disk_view d x \/ pin x <> 0) -> (forall x, length (c x) = Z.to_nat BSIZE) ->
  bcached 0 1 (with_buf3 k0 f d lg) c pin ∅.
Proof.
  intros Hpin Hclean Hlen. destruct Hio as [[Hq1 Hq2 Hq3] Hb Hs Hr].
  assert (quiet (with_buf3 k0 f d lg)) as Hq by by constructor.
  assert ((3 < NBUF)%nat) as H3 by by apply Nat.ltb_lt.
  assert (get_buf (with_buf3 k0 f d lg) 3 = f (get_buf k0 3)) as E3 by (rewrite buf3_upd; by rewrite decide_True).
  assert (caches (with_buf3 k0 f d lg) 1 b 3) as Hc3.
  { unfold caches. rewrite E3.
    destruct (Hbuf (get_buf k0 3)) as (? & ? & _). done. }
  constructor; try done.
  - exists l. apply buf3_cache.
  - intros i Hi. destruct (decide (i = 3%nat)) as [->|Hne].
    + right. exists b. destruct (Hbuf (get_buf k0 3)) as (B1 & B2 & B3 & B4 & B5 & B6).
      constructor; [done|rewrite E3..].
      * done.
      * done.
      * rewrite decide_False by done. lia.
      * rewrite decide_False by done. by rewrite B6.
    + left. unfold buf_idle. rewrite buf3_upd, (decide_False (P := 3%nat = i)) by congruence. by apply Hidle.
  - intros x. split; [apply Hpin|]. intros Hx. apply Hpin in Hx as ->. by exists 3%nat.
  - intros x. destruct (Hclean x); [by left|right; by left].
Qed.
End WithBuf3.

Definition demo_with (f : buf -> buf) (d : gmap Z (list Z)) (lg : logstate) : kernel := with_buf3 demo f d lg.

Lemma demo_idle_bufs i : (i < NBUF)%nat -> i <> 3%nat -> buf_idle demo i.
Proof.
  intros Hi Hne. assert (Forall (fun i => i = 3%nat \/ b_dev (get_buf demo i) = 0 /\ b_refcnt (get_buf demo i) = 0 /\
    sl_locked (b_lock (get_buf demo i)) = 0) (seq 0 NBUF)) as HF.
  { repeat (constructor; [by (left; reflexivity) || (right; repeat split; reflexivity)|]). constructor. }
  rewrite Forall_forall in HF. destruct (HF i) as [?|?]; [apply elem_of_seq; lia|done|assumption].
Qed.

Lemma demo_with_cached f d lg b c pin :
  (forall x, b_next (f x) = b_next x /\ b_prev (f x) = b_prev x) ->
  (forall x, b_dev (f x) = 1 /\ b_blockno (f x) = b /\ b_valid (f x) <> 0 /\ b_data (f x) = c b /\
             b_refcnt (f x) = pin b /\ b_lock (f x) = b_lock x) ->
  (forall x, 0 <= pin x < 2 ^ 31 /\ (pin x <> 0 -> x = b)) ->
  (forall x, c x = disk_view d x \/ pin x <> 0) -> (forall x, length (c x) = Z.to_nat BSIZE) ->
  bcached 0 1 (demo_with f d lg) c pin ∅.
Proof.
  intros H1 H2 H3 H4 H5.
  exact (buf3_cached demo demo_lru demo_cache_inv demo_io_ready demo_idle_bufs eq_refl f d lg b c pin H1 H2 H3 H4 H5).
Qed.

Definition demo_block (v : Z) : list Z := replicate 1024 v.

(** A transaction that has changed block 40, still only in the cache. *)
Definition demo_txn_log : logstate := mkLog 2 30 1 0 1 1 (<[0%nat := 40]> (replicate 30 0)).
Definition demo_dirty (x : buf) : buf :=
  set_b_data (demo_block 7) (set_b_refcnt 1 (set_b_valid 1 (set_b_blockno 40 (set_b_dev 1 x)))).
Definition demo_txn : kernel := demo_with demo_dirty ∅ demo_txn_log.
Definition demo_txn_view : Z -> list Z := fupd 40 (demo_block 7) (disk_view ∅).

Lemma demo_txn_cached : bcached 0 1 demo_txn demo_txn_view (pinned [40]) ∅.
Proof.
  apply (demo_with_cached demo_dirty ∅ demo_txn_log 40 demo_txn_view (pinned [40])); [by intros x| | | |].
  - intros x. by split_and!.
  - intros x. unfold pinned. case_decide as Hx; [|done]. apply list_elem_of_singleton in Hx. done.
  - intros x. unfold demo_txn_view, fupd, pinned. case_decide; [subst; right|by left].
    rewrite decide_True; [done|]. left.
  - intros x. unfold demo_txn_view, fupd. by case_decide.
Qed.

Lemma demo_loggable : loggable 2 [40].
Proof.
  constructor; [by apply Nat.ltb_lt|apply NoDup_singleton|]. intros b ->%list_elem_of_singleton.
  change LOGSIZE with 30. lia.
Qed.

Lemma demo_txn_txn : txn 1 2 [40] (k_log demo_txn).
Proof. by constructor. Qed.

(** The machine after a crash that left the disk [d]; block 7 is cached. *)
Definition demo_clean (d : gmap Z (list Z)) (x : buf) : buf :=
  set_b_data (disk_view d 7) (set_b_refcnt 0 (set_b_valid 1 (set_b_blockno 7 (set_b_dev 1 x)))).
Definition demo_boot (d : gmap Z (list Z)) : kernel := demo_with (demo_clean d) d log0.

Lemma demo_boot_cold d : (forall b, length (disk_view d b) = 1024%nat) -> cold_boot 0 1 2 (demo_boot d).
Proof.
  intros Hd. constructor; [|reflexivity|reflexivity].
  apply (demo_with_cached (demo_clean d) d log0 7 (disk_view d) (fun _ => 0)); [by intros x|by intros x|by intros x|by left|done].
Qed.

Lemma demo_log_lock : LkLog ∈ demo_lock_ids.
Proof. unfold demo_lock_ids. cbn [app]. repeat (apply list_elem_of_here || apply list_elem_of_further). Qed.

Lemma demo_txn_lock : lock_free LkLog demo_txn.
Proof. exact (with_buf3_lock demo demo_dirty ∅ demo_txn_log LkLog (demo_lock_free LkLog demo_log_lock)). Qed.

(** The disk of a crash between the header and the home writes of [demo_txn]. *)
Definition demo_crash : gmap Z (list Z) :=
  apply_writes (log_copy 2 [40] demo_txn_view ++ [commit_header 2 demo_txn_view 1 [40]]) ∅.

Lemma demo_crash_len b : length (disk_view demo_crash b) = 1024%nat.
Proof.
  unfold demo_crash. rewrite disk_view_writes. apply view_writes_len; [|done].
  by repeat constructor.
Qed.

Lemma demo_crash_head : valid_head 2 (disk_view demo_crash 2).
Proof.
  assert (disk_view demo_crash 2 = head_image (demo_txn_view 2) 1 [40]) as ->.
  { unfold demo_crash. rewrite disk_view_writes, view_writes_app. apply fupd_eq. }
  split.
  - rewrite head_image_n; [lia|change LOGSIZE with 30; lia|done].
  - pose proof (commit_head_list 2 [40] [40] demo_txn_view demo_loggable eq_refl eq_refl) as E.
    change (Z.of_nat (length [40])) with 1 in E. rewrite E. apply demo_loggable.
Qed.
