(* ===== verification/DemoZombie.v ===== *)
(** * A kernel with a zombie

    Process 0 runs; its child, process 1, has exited.  The child has no user
    pages left but its trapframe and a page table of three pages that maps the
    trampoline and the trapframe.  No page is free. *)

From S2P Require Import Prelude Machine Kstring Kernel Spinlock Kalloc Vm VmSpec VmMap VmUser VmCopy VmFork VmFree Sched Proc ProcFree Demo.

Definition ZR : Z := 0x80200000.
Definition ZT1 : Z := 0x80201000.
Definition ZT0 : Z := 0x80202000.
Definition ZTF : Z := 0x80203000.
Definition zombie_mem : mem :=
  write64 (write64 (write64 (write64 ∅ (ZR + 8 * 255) (Z.lor (PA2PTE ZT1) PTE_V)) (ZT1 + 8 * 511) (Z.lor (PA2PTE ZT0) PTE_V))
    (ZT0 + 8 * 510) (leaf_pte ZTF (Z.lor PTE_R PTE_W))) (ZT0 + 8 * 511) (leaf_pte 0x80007000 (Z.lor PTE_R PTE_X)).
Definition zombie_table : ptable := {[ [] := ZR; [255] := ZT1; [511; 255] := ZT0 ]}.
Definition zombie_child : proc :=
  set_p_xstate 3 (set_p_parent (Some 0%nat) (set_p_trapframe ZTF (set_p_sz 0 (set_p_pagetable ZR (demo_proc ZOMBIE 7 60 proc0))))).
Definition zombie_kernel : kernel :=
  set_k_cpus (set_c_proc (Some 0%nat) cpu0 :: replicate 7 cpu0)
    (set_k_locks demo_locks (set_k_mem zombie_mem (set_k_freelist 0 (set_k_procs (demo_proc RUNNING 1 60 proc0 :: zombie_child :: replicate 62 proc0) kernel0)))).

Lemma zombie_cpu_ok : cpu_ok zombie_kernel.
Proof. exists (set_c_proc (Some 0%nat) cpu0). split; [done|]. split; [done|]. split; done. Qed.
Lemma zombie_lock_free l : l ∈ demo_lock_ids -> lock_free l zombie_kernel.
Proof. intros Hl. exists "lock"%string. by apply demo_locks_lookup. Qed.
Lemma zombie_quiet : quiet zombie_kernel.
Proof. split; [apply zombie_cpu_ok|reflexivity|]. intros i Hi. by apply zombie_lock_free, demo_proc_lock. Qed.

Lemma zombie_page_ok : Forall page_ok [ZR; ZT1; ZT0; ZTF].
Proof. repeat (constructor; [split; [reflexivity|split; [discriminate|reflexivity]]|]). constructor. Qed.

Lemma zombie_entry pg i :
  pg ∈ [ZR; ZT1; ZT0] -> 0 <= i < 512 ->
  read64 zombie_mem (pg + 8 * i) =
  if decide (pg = ZR) then (if decide (i = 255) then Z.lor (PA2PTE ZT1) PTE_V else 0)
  else if decide (pg = ZT1) then (if decide (i = 511) then Z.lor (PA2PTE ZT0) PTE_V else 0)
  else if decide (i = 510) then leaf_pte ZTF (Z.lor PTE_R PTE_W) else if decide (i = 511) then leaf_pte 0x80007000 (Z.lor PTE_R PTE_X) else 0.
Proof.
  intros Hpg Hi. unfold zombie_mem. repeat (apply elem_of_cons in Hpg as [->|Hpg]); [..|by apply elem_of_nil in Hpg];
    unfold ZR, ZT1, ZT0 in *; repeat case_decide; try lia; subst; try reflexivity;
    rewrite !read64_write64_ne by lia; by apply read64_zero.
Qed.

Lemma zombie_table_cases p pg :
  zombie_table !! p = Some pg -> p = [] /\ pg = ZR \/ p = [255] /\ pg = ZT1 \/ p = [511; 255] /\ pg = ZT0.
Proof. unfold zombie_table. rewrite !lookup_insert_Some, lookup_singleton_Some. naive_solver. Qed.

Lemma zombie_pt_rep : pt_rep zombie_mem ZR zombie_table.
Proof.
  split.
  - reflexivity.
  - intros p pg i Hp Hl Hi. destruct (zombie_table_cases p pg Hp) as [[-> ->]|[[-> ->]|[-> ->]]]; [..|cbn in Hl; lia].
    + rewrite zombie_entry by (set_solver || done). rewrite decide_True by done. destruct (decide (i = 255)) as [->|Hne]; [done|].
      replace (zombie_table !! [i]) with (@None Z); [done|]. symmetry. unfold zombie_table. rewrite !lookup_insert_ne by congruence. by apply lookup_singleton_ne.
    + rewrite zombie_entry by (set_solver || done). rewrite decide_False, decide_True by done. destruct (decide (i = 511)) as [->|Hne]; [done|].
      replace (zombie_table !! [i; 255]) with (@None Z); [done|]. symmetry. unfold zombie_table. rewrite !lookup_insert_ne by congruence. by apply lookup_singleton_ne; congruence.
  - intros i p q Hq. destruct (zombie_table_cases _ _ Hq) as [[? ?]|[[E ->]|[E ->]]]; [done|..]; injection E as -> ->; (split; [by eexists|]); split; cbn; lia.
  - intros p1 p2 q H1 H2. destruct (zombie_table_cases _ _ H1) as [[-> ->]|[[-> ->]|[-> ->]]];
      destruct (zombie_table_cases _ _ H2) as [[-> E]|[[-> E]|[-> E]]]; try done; discriminate E.
  - intros p pg Hp. pose proof zombie_page_ok as HF. rewrite Forall_forall in HF. apply HF. destruct (zombie_table_cases _ _ Hp) as [[_ ->]|[[_ ->]|[_ ->]]]; set_solver.
  - intros i q Hq. destruct (zombie_table_cases _ _ Hq) as [[? _]|[[E _]|[? _]]]; [done| |done]. injection E as ->. lia.
Qed.

Lemma zombie_vm_inv : vm_inv zombie_kernel ZR zombie_table [].
Proof.
  split; [apply zombie_cpu_ok|apply zombie_lock_free; left| |apply zombie_pt_rep|intros p pg _; apply not_elem_of_nil].
  split_and!; [done|apply NoDup_nil_2|apply Forall_nil_2].
Qed.

Lemma zombie_high va : vpage va -> va < TRAPFRAME -> pte_of zombie_mem zombie_table va = 0.
Proof.
  intros Hva Hlt. unfold pte_of. destruct (zombie_table !! low_path va) as [q|] eqn:E; [|done].
  destruct (zombie_table_cases _ _ E) as [[? _]|[[? _]|[El ->]]]; [done..|]. rewrite zombie_entry by (set_solver || apply PX_range).
  rewrite !(decide_False (P := ZT0 = _)) by done. destruct Hva as [Hr Hal]. injection El as E1 E2.
  pose proof (PX_decompose va ltac:(change MAXVA with (2 ^ 38) in Hr; lia) Hal) as Hd. rewrite E1, E2 in Hd. change TRAPFRAME with (2 ^ 38 - 8192) in Hlt.
  rewrite !decide_False by lia. done.
Qed.

Lemma zombie_space : proc_space zombie_kernel zombie_child zombie_table [] [].
Proof.
  split.
  - split; [apply zombie_vm_inv|apply owned_nil|done|intros i pg Hi; by rewrite lookup_nil in Hi|]. intros va Hva [_ Hr]. change (k_mem zombie_kernel) with zombie_mem. by rewrite zombie_high.
  - split; [split; discriminate|reflexivity].
  - exists 0x80007000. split_and!; [reflexivity|discriminate|discriminate].
  - split_and!; [reflexivity|discriminate|discriminate].
  - split; [pose proof zombie_page_ok as HF; rewrite !Forall_cons in HF; tauto|]. unfold upages, vm_pages. cbn [list_to_set foldr]. rewrite !elem_of_union, elem_of_tpages.
    intros [Hin|[Hin|[p Hp]]]; [by apply elem_of_empty in Hin|by apply elem_of_empty in Hin|].
    destruct (zombie_table_cases _ _ Hp) as [[_ E]|[[_ E]|[_ E]]]; discriminate E.
Qed.

(** ** A parent that waits for the status

    The process of [demo], with its user page, is the parent of the zombie. *)
Definition with_zombie (m : mem) : mem :=
  write64 (write64 (write64 (write64 m (ZR + 8 * 255) (Z.lor (PA2PTE ZT1) PTE_V)) (ZT1 + 8 * 511) (Z.lor (PA2PTE ZT0) PTE_V))
    (ZT0 + 8 * 510) (leaf_pte ZTF (Z.lor PTE_R PTE_W))) (ZT0 + 8 * 511) (leaf_pte 0x80007000 (Z.lor PTE_R PTE_X)).
Definition waiting_kernel : kernel :=
  set_k_mem (with_zombie demo_mem) (set_k_procs (get_proc demo 0 :: zombie_child :: replicate 62 proc0) demo).

Lemma waiting_cpu_ok : cpu_ok waiting_kernel.
Proof. exists (set_c_proc (Some 0%nat) cpu0). split; [reflexivity|]. split; [reflexivity|]. split; reflexivity. Qed.
Lemma waiting_lock_free l : l ∈ demo_lock_ids -> lock_free l waiting_kernel.
Proof. intros Hl. exists "lock"%string. exact (demo_locks_lookup l Hl). Qed.
Lemma waiting_quiet : quiet waiting_kernel.
Proof. split; [apply waiting_cpu_ok|reflexivity|]. intros i Hi. apply waiting_lock_free, demo_proc_lock, Hi. Qed.

Lemma write_le_congr n : forall m1 m2 a v b, read8 m1 b = read8 m2 b -> read8 (write_le n m1 a v) b = read8 (write_le n m2 a v) b.
Proof.
  induction n as [|n IH]; intros m1 m2 a v b E; [done|]. cbn [write_le]. apply IH. rewrite !read8_write8. by case_decide.
Qed.
Lemma write64_congr m1 m2 a v b : read8 m1 b = read8 m2 b -> read8 (write64 m1 a v) b = read8 (write64 m2 a v) b.
Proof. exact (write_le_congr 8 m1 m2 a v b). Qed.
Lemma with_zombie_congr ps m : same_except ps ∅ m -> same_except ps zombie_mem (with_zombie m).
Proof. intros H a Ha. unfold with_zombie, zombie_mem. do 4 apply write64_congr. by apply H. Qed.
Lemma with_zombie_except m : same_except [ZR; ZT1; ZT0] m (with_zombie m).
Proof.
  intros a Ha. unfold with_zombie. pose proof (Ha ZR ltac:(set_solver)). pose proof (Ha ZT1 ltac:(set_solver)). pose proof (Ha ZT0 ltac:(set_solver)).
  unfold in_page, ZR, ZT1, ZT0, PGSIZE in *. by rewrite !read8_write64_ne by lia.
Qed.
Definition demo_used : list Z := [DU; DR; DT1; DT0; DF1; DTF].
Lemma demo_mem_except : same_except demo_used ∅ demo_mem.
Proof.
  intros a Ha. pose proof (Ha DU ltac:(set_solver)). pose proof (Ha DR ltac:(set_solver)). pose proof (Ha DT1 ltac:(set_solver)).
  pose proof (Ha DT0 ltac:(set_solver)). pose proof (Ha DF1 ltac:(set_solver)). pose proof (Ha DTF ltac:(set_solver)). unfold demo_mem.
  unfold in_page, DU, DR, DT1, DT0, DF1, DF2, DTF, PGSIZE in *. rewrite !read8_write64_ne by lia. apply read8_write_bytes_ne. change (Z.of_nat (length demo_text)) with 3. lia.
Qed.
Lemma demo_used_ok : Forall page_ok demo_used.
Proof. pose proof demo_page_ok as HF. rewrite !Forall_cons in HF. repeat (constructor; [tauto|]). constructor. Qed.
Lemma zombie_clear ps : Forall (fun q => q < ZR) ps -> clear_of [] zombie_table ps.
Proof.
  rewrite Forall_forall. intros HF q [Hq|[p Hp]%elem_of_tpages] Hin; [by apply elem_of_nil in Hq|]. specialize (HF q Hin). cbn beta in HF.
  unfold ZR in HF. destruct (zombie_table_cases p q Hp) as [[_ ->]|[[_ ->]|[_ ->]]]; unfold ZR, ZT1, ZT0 in HF; lia.
Qed.
Lemma demo_below : Forall (fun q => q < ZR) demo_used /\ Forall (fun q => q < ZR) demo_free.
Proof. split; repeat (constructor; [reflexivity|]); constructor. Qed.
Lemma demo_pages_below q : q ∈ [DU] \/ q ∈ tpages demo_table -> q < ZR.
Proof.
  intros [->%list_elem_of_singleton|[p Hp]%elem_of_tpages]; [reflexivity|]. destruct (demo_table_cases p q Hp) as [[_ ->]|[[_ ->]|[_ ->]]]; reflexivity.
Qed.
Lemma demo_not_free q : q ∈ [DU] \/ q ∈ tpages demo_table -> q ∉ demo_free.
Proof.
  destruct demo_uvm as [Hv (_ & _ & Hf & _) _ _ _]. intros [Hq|[p Hp]%elem_of_tpages] Hin; [exact (Hf q Hq Hin)|exact (vm_disj _ _ _ _ Hv p q Hp Hin)].
Qed.

Lemma demo_free_kept pg a : pg ∈ demo_free -> in_page pg a -> read8 (with_zombie demo_mem) a = read8 demo_mem a.
Proof.
  intros Hpg Ha. apply with_zombie_except. destruct demo_below as [_ HF]. rewrite Forall_forall in HF. specialize (HF pg Hpg). cbn beta in HF.
  assert (pg <= DF2) as Hle by (revert Hpg; unfold demo_free; rewrite !elem_of_cons, elem_of_nil; intros [->|[->|[]]]; discriminate).
  intros q Hq. unfold in_page, DF2, PGSIZE in *. revert Hq. rewrite !elem_of_cons, elem_of_nil. unfold ZR, ZT1, ZT0. intros [->|[->|[->|[]]]]; lia.
Qed.
Lemma waiting_held : held waiting_kernel demo_free.
Proof.
  split; [apply waiting_cpu_ok|]. split; [apply waiting_lock_free; left|].
  apply (pool_frame demo waiting_kernel demo_free (vm_pool _ _ _ _ (uv_inv _ _ _ _ _ demo_uvm))); [transitivity DF1; reflexivity|].
  change (k_mem waiting_kernel) with (with_zombie demo_mem). change (k_mem demo) with demo_mem. exact demo_free_kept.
Qed.
Lemma waiting_child : proc_space waiting_kernel zombie_child zombie_table demo_free [].
Proof.
  eapply (proc_space_frame zombie_kernel waiting_kernel zombie_child zombie_table [] [] demo_free demo_used);
    [apply zombie_space|apply waiting_held|exact (with_zombie_congr _ _ demo_mem_except)|apply demo_used_ok|apply zombie_clear, demo_below|apply zombie_clear, demo_below|].
  change (ZTF ∉ demo_free). by apply (bool_decide_unpack _).
Qed.
Lemma waiting_parent : parent_space waiting_kernel DR zombie_child zombie_table demo_free [] demo_table [DU].
Proof.
  destruct (uvm_frame demo waiting_kernel DR demo_table demo_free [DU] demo_free [ZR; ZT1; ZT0]) as (Hu & _ & P);
    [apply demo_uvm|apply waiting_held|exact (with_zombie_except demo_mem)| | |exact demo_not_free|].
  - pose proof zombie_page_ok as HF. rewrite !Forall_cons in HF. repeat (constructor; [tauto|]). constructor.
  - intros q Hq%demo_pages_below. unfold ZR, ZT1, ZT0 in *. rewrite !elem_of_cons, elem_of_nil. intros [->|[->|[->|[]]]]; lia.
  - split; [split; [exact Hu|]| |].
    + intros va Hva. rewrite P. exact (us_user _ _ _ _ _ demo_user_space va Hva).
    + intros q Hq. unfold upages, vm_pages. cbn [list_to_set foldr]. rewrite !elem_of_union, elem_of_tpages. intros [H|[H|[p Hp]]].
      * by apply elem_of_empty in H.
      * apply (demo_not_free q Hq). revert H. unfold demo_free. set_solver.
      * apply demo_pages_below in Hq. unfold ZR in Hq. destruct (zombie_table_cases p q Hp) as [[_ ->]|[[_ ->]|[_ ->]]]; unfold ZR, ZT1, ZT0 in *; lia.
    + intros q Hq%demo_pages_below. unfold ZR in Hq. change (p_trapframe zombie_child) with ZTF. unfold ZTF. lia.
Qed.
(** The first bytes of the parent's page can be accessed. *)
Lemma waiting_read va : 0 <= va < PGSIZE -> uread (k_mem waiting_kernel) demo_table va <> None.
Proof.
  intros Hva. unfold uread. rewrite decide_True by (unfold PGSIZE in Hva; change MAXVA with (2 ^ 38); lia). cbv zeta.
  replace (va - va mod PGSIZE) with 0 by (rewrite Z.mod_small by lia; lia). by rewrite decide_False by (vm_compute; discriminate).
Qed.
