(* ===== verification/DemoFork.v ===== *)
(** * A kernel whose process can fork

    Process 0 runs with an open file and a working directory; its page table
    maps the trampoline and the trapframe.  Slot 1 is unused and twelve pages are
    free.  uvmalloc() gives the process its first page. *)

From S2P Require Import Prelude Machine Kstring Kernel Spinlock Kalloc Vm VmSpec VmMap VmUser VmCopy VmFork VmFree Sched Proc ProcFree ProcAlloc ProcFork Demo DemoZombie.

(** Each page of the list points to the next. *)
Fixpoint chained (a : Z) (l : list Z) (m : mem) : mem :=
  match l with [] => m | b :: l' => chained b l' (write64 m a b) end.
Definition fork_free : list Z := (fun i => 0x80210000 + 4096 * i) <$> seqZ 0 12.
Definition fork_mem : mem := chained (hd 0 fork_free) (tail fork_free) zombie_mem.
Definition fork_parent : proc :=
  set_p_cwd (Some 0%nat) (set_p_ofile (<[0%nat := Some 0%nat]> (replicate NOFILE None))
    (set_p_trapframe ZTF (set_p_sz 0 (set_p_pagetable ZR (demo_proc RUNNING 1 60 proc0))))).
Definition fork_kernel : kernel :=
  set_k_ftable demo_ftable (set_k_mem fork_mem (set_k_freelist 0x80210000 (set_k_procs (fork_parent :: replicate 63 proc0) zombie_kernel))).

Lemma chained_except l : forall a m, Forall (fun p => p mod PGSIZE = 0) (a :: l) -> same_except (a :: l) m (chained a l m).
Proof.
  induction l as [|b l IH]; intros a m HF; [done|]. apply Forall_cons in HF as [Ha HF]. cbn [chained].
  eapply same_except_mono; [|eapply same_except_trans; [apply (same_except_write64 m a a b); unfold PGSIZE; lia|exact (IH b (write64 m a b) HF)]].
  intros q. rewrite elem_of_app, list_elem_of_singleton, !elem_of_cons. tauto.
Qed.
Lemma fork_pages_ok : Forall page_ok fork_free.
Proof. repeat (constructor; [split; [reflexivity|split; [discriminate|reflexivity]]|]). constructor. Qed.
Lemma fork_kmem : kmem_inv fork_kernel fork_free.
Proof. split; [vm_compute; repeat split|]. split; [by apply (bool_decide_unpack _)|exact fork_pages_ok]. Qed.
Lemma fork_except : same_except fork_free zombie_mem fork_mem.
Proof. apply (chained_except (tail fork_free)). eapply Forall_impl; [exact fork_pages_ok|]. by intros q [? _]. Qed.
Lemma fork_apart p pg : zombie_table !! p = Some pg -> pg ∉ fork_free.
Proof. intros Hp. destruct (zombie_table_cases p pg Hp) as [[_ ->]|[[_ ->]|[_ ->]]]; by apply (bool_decide_unpack _). Qed.
Lemma fork_held : held fork_kernel fork_free.
Proof. split_and!; [exact zombie_cpu_ok|apply zombie_lock_free; left|exact fork_kmem]. Qed.
Lemma fork_quiet : quiet fork_kernel.
Proof. split; [exact zombie_cpu_ok|reflexivity|]. intros i Hi. by apply zombie_lock_free, demo_proc_lock. Qed.
Lemma fork_pte va : pte_of fork_mem zombie_table va = pte_of zombie_mem zombie_table va.
Proof. eapply pte_of_frame; [exact zombie_pt_rep|exact fork_except|exact fork_pages_ok|exact fork_apart]. Qed.
Lemma fork_uvm : uvm fork_kernel ZR zombie_table fork_free [].
Proof.
  destruct fork_held as (Hc & Hl & Hp). split; [split; [exact Hc|exact Hl|exact Hp| |exact fork_apart]|apply owned_nil|done|intros i pg Hi; by rewrite lookup_nil in Hi|].
  - eapply pt_rep_frame; [exact zombie_pt_rep|exact fork_except|exact fork_pages_ok|exact fork_apart].
  - intros va Hva [_ Hr]. change (k_mem fork_kernel) with fork_mem. rewrite fork_pte. by rewrite zombie_high.
Qed.
Lemma fork_frame_page : page_ok ZTF /\ ZTF ∉ upages [] zombie_table fork_free.
Proof.
  split; [pose proof zombie_page_ok as HF; rewrite !Forall_cons in HF; tauto|]. unfold upages, vm_pages. rewrite !elem_of_union, !elem_of_list_to_set, elem_of_tpages.
  intros [Hin|[Hin|[p Hp]]]; [by apply elem_of_nil in Hin|by revert Hin; apply (bool_decide_unpack (ZTF ∉ fork_free))|].
  destruct (zombie_table_cases _ _ Hp) as [[_ E]|[[_ E]|[_ E]]]; discriminate E.
Qed.

Lemma one_page : 0 <= p_sz (set_p_sz 4096 fork_parent) <= TRAPFRAME /\ PGROUNDUP (p_sz (set_p_sz 4096 fork_parent)) = vnth 0 1.
Proof. by vm_compute. Qed.

(** The process with its first page. *)
Lemma fork_ready :
  exists k1 t fl us, uvmalloc ZR 0 4096 [] fork_kernel = Ok 4096 [] k1 /\ (9 <= length fl)%nat /\ length us = 1%nat /\ k_nextpid k1 = 1 /\
    forkable (upd_proc 0 (set_p_sz 4096) k1) 0 1 proc0 0 t fl us.
Proof.
  destruct (uvmalloc_grow [] fork_kernel ZR zombie_table fork_free [] 0 4096 fork_uvm) as (r & k1 & E & t & fl & Hg); [by vm_compute|by vm_compute|reflexivity|].
  assert (PGROUNDUP 4096 = 4096) as Er by reflexivity. rewrite Er in Hg. assert (length fork_free = 12%nat) as Ef by reflexivity.
  destruct Hg as [(-> & us & El & U & _ & Hco)|(_ & _ & need & El & Hco)]; rewrite Ef in Hco; cbn [app length] in El; unfold vnth, PGSIZE in El; [|lia]. exists k1, t, fl, us. assert (length us = 1%nat) as E1 by lia.
  pose proof (uu_only _ _ _ _ _ _ _ _ _ U) as Ho. unfold only_mem in Ho. pose proof (uu_uvm _ _ _ _ _ _ _ _ _ U) as Hu. cbn [app] in *.
  split_and!; [exact E|lia|exact E1|by rewrite Ho|]. set (k2 := upd_proc 0 (set_p_sz 4096) k1). assert (same_machine k1 k2) as Hsm by (split_and!; reflexivity).
  assert (get_proc k2 0 = set_p_sz 4096 fork_parent) as Ep by (unfold k2; rewrite Ho; reflexivity).
  assert (forall l, lock_free l fork_kernel -> lock_free l k2) as HL by (intros l Hl; unfold k2; rewrite Ho; exact Hl).
  split.
  - split; [unfold k2; rewrite Ho; exact zombie_cpu_ok|unfold k2; rewrite Ho; reflexivity|]. intros i Hi. apply HL. by apply fork_quiet.
  - unfold k2. rewrite Ho. reflexivity.
  - intros l Hl. apply HL, zombie_lock_free. unfold demo_lock_ids. apply elem_of_app. left. revert Hl. rewrite !elem_of_cons. tauto.
  - unfold k2. rewrite Ho. reflexivity.
  - split_and!; reflexivity.
  - rewrite Ep. destruct high_pages as (V1 & V2 & L1 & _).
    split; [exact (uvm_same k1 k2 _ _ _ _ Hsm Hu)|rewrite E1; exact one_page| | |].
    + exists 0x80007000. change (k_mem k2) with (k_mem k1). rewrite (uu_high _ _ _ _ _ _ _ _ _ U TRAMPOLINE V1 L1). split_and!; [reflexivity|discriminate|discriminate].
    + change (k_mem k2) with (k_mem k1). rewrite (uu_high _ _ _ _ _ _ _ _ _ U TRAPFRAME V2 ltac:(done)). split_and!; [reflexivity|discriminate|discriminate].
    + rewrite (uu_pages _ _ _ _ _ _ _ _ _ U). exact fork_frame_page.
  - rewrite Ep. reflexivity.
  - rewrite Ep. intros f Hf. assert (f = 0%nat) as -> by (revert Hf; cbn; rewrite !elem_of_cons, elem_of_nil; intros Hf; destruct_or! Hf; congruence).
    unfold k2. rewrite Ho. by vm_compute.
  - rewrite Ep. reflexivity.
Qed.
