(* ===== verification/DemoFs.v ===== *)
(** * A concrete file system

    A disk of 200 blocks as mkfs lays it out (log at 2, inodes at 32, bitmap at
    45, data from 46) with a directory, inode 3 in entry 5 of the inode table:
    one block, two entries, the second unused; and with a file, inode 4, of one
    block.  A transaction is open that has recorded nothing yet. *)

From S2P Require Import Prelude Machine Kstring Kernel Spinlock Kalloc Vm Sched Sleeplock Bio BioSpec Log LogSpec LogCommit Fs FsSpec FsTx FsAlloc FsFile FsGrow FsBmap FsBytes FsWrite FsDir Demo.

Definition fs_sb : superblock := mkSuperblock FSMAGIC 200 154 200 30 2 32 45.
(** Blocks 0 to 47 are used. *)
Definition fs_bitmap : list Z := replicate 6 255 ++ replicate 1018 0.
(** "." at offset 0. *)
Definition fs_dirblock : list Z := 3 :: 0 :: 46 :: replicate 1021 0.
Definition fs_disk : gmap Z (list Z) := <[45 := fs_bitmap]> (<[46 := fs_dirblock]> ∅).
Definition fs_view : Z -> list Z := disk_view fs_disk.
Definition fs_log : logstate := mkLog 2 30 1 0 1 0 (replicate 30 0).
Definition one_block (inum type size a : Z) : inode := mkInode 1 inum 1 sleeplock0 1 type 0 0 1 size (a :: replicate 12 0).
Definition fs_inode : inode := one_block 3 T_DIR 32 46.
Definition fs_other : inode := one_block 4 T_FILE 10 47.
Definition fs_demo : kernel := set_k_sb fs_sb (upd_inode 5 (fun _ => fs_inode) (demo_with (demo_clean fs_disk) fs_disk fs_log)).

Lemma fs_view_len b : length (fs_view b) = 1024%nat.
Proof.
  unfold fs_view, disk_view, fs_disk. destruct (decide (b = 45)) as [->|]; [by rewrite lookup_insert_eq|].
  rewrite lookup_insert_ne by done. destruct (decide (b = 46)) as [->|]; [by rewrite lookup_insert_eq|]. by rewrite lookup_insert_ne.
Qed.
Lemma fs_demo_cached : bcached 0 1 fs_demo fs_view (pinned []) ∅.
Proof.
  apply bcached_set_sb, bcached_upd_inode.
  apply (demo_with_cached (demo_clean fs_disk) fs_disk fs_log 7 fs_view (pinned [])); [by intros x|by intros x| |by left|].
  - intros x. unfold pinned. rewrite decide_False by by apply not_elem_of_nil. done.
  - apply fs_view_len.
Qed.
Lemma lock_free_fs l k sb i f : lock_free l k -> lock_free l (set_k_sb sb (upd_inode i f k)).
Proof. done. Qed.
Lemma fs_demo_txn : in_txn 0 1 fs_demo fs_view [] ∅.
Proof.
  constructor; try reflexivity; try done.
  - apply fs_demo_cached.
  - exact (lock_free_fs _ _ _ _ _ (with_buf3_lock demo (demo_clean fs_disk) fs_disk fs_log LkLog (demo_lock_free LkLog demo_log_lock))).
  - apply NoDup_nil_2.
  - by left.
Qed.
Lemma fs_geometry : geometry fs_sb.
Proof. constructor; cbn; lia. Qed.
Lemma fs_free_from b : 0 <= b < 200 -> block_free fs_view fs_sb b <-> 48 <= b.
Proof.
  intros Hb. assert (forallb (fun b => Bool.eqb (bool_decide (block_free fs_view fs_sb b)) (bool_decide (48 <= b))) (seqZ 0 200) = true) as HB by by vm_compute.
  rewrite forallb_forall in HB. specialize (HB b ltac:(apply list_elem_of_In, elem_of_seqZ; lia)). apply Bool.eqb_prop in HB.
  split; intros H.
  - apply (bool_decide_eq_true (48 <= b)). rewrite <- HB. by apply bool_decide_eq_true.
  - apply (bool_decide_eq_true (block_free fs_view fs_sb b)). rewrite HB. by apply bool_decide_eq_true.
Qed.
Lemma one_addr inum t sz a i : 0 <= i <= 12 -> addr_of (one_block inum t sz a) i = if decide (i = 0) then a else 0.
Proof.
  intros Hi. unfold addr_of, one_block. cbn [i_addrs]. case_decide; [by subst|]. rewrite nth_lookup.
  destruct (Z.to_nat i) as [|j] eqn:E; [lia|]. cbn [lookup list_lookup]. destruct (replicate 12 0 !! j) as [v|] eqn:Ev; [|done].
  by apply lookup_replicate in Ev as [-> _].
Qed.
Lemma one_faddr inum t sz a bn : 0 <= bn -> faddr fs_view (one_block inum t sz a) bn = if decide (bn = 0) then a else 0.
Proof.
  intros Hb. unfold faddr, NDIRECT. destruct (decide (bn < 12)); [apply one_addr; lia|].
  rewrite (decide_True (P := addr_of _ _ = 0)) by done. by rewrite decide_False by lia.
Qed.
Lemma one_in inum t sz a b : in_file fs_view (one_block inum t sz a) b -> b = a.
Proof.
  intros [Hn [E|(bn & Hbn & E)]]; [by rewrite one_addr in E by done|]. rewrite one_faddr in E by lia. case_decide; congruence.
Qed.
Lemma one_file_ok inum t sz a : a = 46 \/ a = 47 -> file_ok fs_sb fs_view (one_block inum t sz a).
Proof.
  intros Ha. constructor.
  - done.
  - intros b ->%one_in. change (data_start fs_sb) with 46. cbn [sb_size fs_sb]. split; [lia|]. rewrite fs_free_from by lia. lia.
  - intros bn bn' Hb Hb'. rewrite !one_faddr by lia. repeat case_decide; congruence.
  - done.
Qed.
Lemma one_mapped inum t sz a : a = 46 \/ a = 47 -> 0 <= sz <= 1024 -> mapped fs_view (one_block inum t sz a).
Proof.
  intros Ha Hs. split; [change (MAXFILE * BSIZE) with 274432; cbn; lia|]. intros bn Hb Hlt. cbn in Hlt. rewrite one_faddr by done.
  rewrite decide_True; [lia|]. rewrite BSIZE_eq in Hlt. lia.
Qed.
Lemma fs_disjoint : disjoint_files fs_view fs_inode fs_other.
Proof. intros a ->%one_in E%one_in. discriminate E. Qed.
Lemma fs_bitmap_ok : bitmap_ok fs_view fs_sb.
Proof. intros b Hb Hf. apply fs_free_from in Hf; [|done]. change (data_start fs_sb) with 46. lia. Qed.
Lemma fs_wfile : wfile 0 1 fs_sb fs_demo fs_view [] ∅ 5 fs_inode.
Proof.
  constructor; [apply fs_demo_txn|reflexivity| |reflexivity|reflexivity|apply one_file_ok; by left|apply fs_bitmap_ok].
  apply Nat.ltb_lt. reflexivity.
Qed.
Lemma fs_dir_ok : dir_ok fs_view fs_inode.
Proof.
  constructor; [reflexivity| |reflexivity]. apply one_mapped; [by left|lia].
Qed.
Lemma fs_free_len : (8 <= length (free_list fs_sb fs_view))%nat.
Proof. apply Nat.leb_le. by vm_compute. Qed.
Lemma fs_iblock : IBLOCK (i_inum fs_inode) fs_sb < sb_bmapstart fs_sb.
Proof. reflexivity. Qed.
(** The name "a". *)
Lemma fs_no_a : find_entry fs_view fs_inode [97] = None.
Proof. by vm_compute. Qed.
