(* ===== verification/PropsMem.v ===== *)
(** * Properties: physical memory, page tables and user memory *)

From S2P Require Import Prelude Machine Kstring Kernel Spinlock Kalloc Vm VmSpec VmMap VmUser VmCopy VmFork Printf Sched Proc Sleeplock Bio Log Fs Pipe Demo.


(** ** The page allocator *)

(** A page given back by kfree() is the page kalloc() hands out next; the
    pair leaves every other byte of memory, the rest of the pool and the rest
    of the kernel as they were. *)
Lemma kfree_kalloc_roundtrip `{Y : Symbols} `{OK : !SymbolsOK Y} e k p fl :
  cpu_ok k -> lock_free LkKmem k -> kmem_inv k fl -> page_ok p -> p ∉ fl ->
  exists k1 k2, kfree p e k = Ok tt e k1 /\ kmem_inv k1 (p :: fl) /\
    kalloc e k1 = Ok p e k2 /\ kmem_inv k2 fl /\ only_mem k k2 /\
    same_except [p] (k_mem k) (k_mem k2).
Proof.
  intros Hc Hl Hk Hp Hn. destruct (kfree_page e k p fl) as (k1 & E1 & O1 & S1 & I1); try done.
  destruct (kalloc_page e k1 p fl) as (k2 & E2 & O2 & S2 & I2);
    [by eapply cpu_ok_only_mem|by eapply lock_free_only_mem|done|].
  exists k1, k2. split_and!; try done; [by eapply only_mem_trans|].
  eapply same_except_mono; [|by eapply same_except_trans]. set_solver.
Qed.

Lemma kfree_kalloc_roundtrip_witness :
  exists k1 k2, kfree DU [] demo = Ok tt [] k1 /\ kmem_inv k1 (DU :: demo_free) /\
    kalloc [] k1 = Ok DU [] k2 /\ kmem_inv k2 demo_free /\ only_mem demo k2 /\
    same_except [DU] (k_mem demo) (k_mem k2).
Proof.
  apply (kfree_kalloc_roundtrip [] demo DU demo_free).
  - apply demo_cpu_ok.
  - demo_lock.
  - apply demo_kmem.
  - split; [reflexivity|]. split; [discriminate|reflexivity].
  - by apply (bool_decide_unpack _).
Defined.

(** Kinit() terminates and leaves a well-formed free list that holds exactly
    the page-aligned addresses of RAM from the end of the kernel to PHYSTOP. *)
Lemma kinit_frees_all_ram `{Y : Symbols} `{OK : !SymbolsOK Y} e k :
  cpu_ok k -> k_freelist k = 0 ->
  exists k' fl, kinit e k = Ok tt e k' /\ kmem_inv k' fl /\ (forall p, p ∈ fl <-> page_ok p).
Proof. apply kinit_ok. Qed.

Lemma kinit_frees_all_ram_witness :
  exists k' fl, kinit [] kernel0 = Ok tt [] k' /\ kmem_inv k' fl /\ (forall p, p ∈ fl <-> page_ok p).
Proof.
  apply (kinit_frees_all_ram [] kernel0); [|reflexivity].
  exists cpu0. split; [reflexivity|]. split; [discriminate|]. split; [discriminate|reflexivity].
Defined.

(** ** Page tables *)

(** C20: mappages() on unmapped addresses maps exactly the requested run: after
    success every page of it has the leaf entry of its frame with the given
    permissions and every other entry is unchanged; when a page-table page
    cannot be allocated it returns -1 with the pool exhausted and a prefix
    mapped, which two free pages for each page of the run rule out.  Pages are conserved between the pool and the table, and no byte
    outside them changes. *)
Theorem mappages_maps_exactly `{Y : Symbols} `{OK : !SymbolsOK Y} e k root t fl va size pa perm :
  vm_inv k root t fl -> 0 <= va -> 0 < size -> va + size <= MAXVA ->
  0 <= pa -> pa mod PGSIZE = 0 -> pa + run_pages va size * PGSIZE < 2 ^ 64 -> 0 <= perm < 1024 ->
  (forall va', vpage va' -> PGROUNDDOWN va <= va' < va + size ->
     Z.land (pte_of (k_mem k) t va') PTE_V = 0) ->
  exists r k', mappages root va size pa perm e k = Ok r e k' /\
    mappages_post k root t fl (PGROUNDDOWN va) (run_pages va size) pa perm r k'.
Proof. apply mappages_ok. Qed.

Lemma mappages_maps_exactly_witness :
  exists r k', mappages DR 4096 4096 DPI UPERM [] demo = Ok r [] k' /\
    mappages_post demo DR demo_table demo_free (PGROUNDDOWN 4096) (run_pages 4096 4096) DPI UPERM r k'.
Proof.
  apply (mappages_maps_exactly [] demo DR demo_table demo_free 4096 4096 DPI UPERM);
    [apply demo_vm_inv|discriminate|reflexivity|discriminate|discriminate|reflexivity|reflexivity
    |split; [discriminate|reflexivity]|].
  intros va Hva [Hlo _]. change (k_mem demo) with demo_mem. rewrite (demo_pte va Hva).
  rewrite decide_False; [reflexivity|]. intros ->. by apply Hlo.
Defined.

(** ** User memory *)

(** C14: uvmalloc() is all or nothing.  It returns the new size with exactly the
    missing pages appended, zeroed and mapped, or 0 with the process's pages as
    before, and then the pool had fewer than three pages for each missing one; in both cases no page is lost between the process, its page table
    and the pool, the old pages keep their contents, and nothing outside
    changes. *)
Theorem uvmalloc_all_or_nothing `{Y : Symbols} `{OK : !SymbolsOK Y} e k root t fl us oldsz newsz :
  uvm k root t fl us -> 0 <= oldsz <= newsz -> newsz <= TRAPFRAME ->
  PGROUNDUP oldsz = vnth 0 (length us) ->
  exists r k', uvmalloc root oldsz newsz e k = Ok r e k' /\ grown k root t fl us newsz r k'.
Proof. apply uvmalloc_grow. Qed.

Lemma uvmalloc_all_or_nothing_witness :
  exists r k', uvmalloc DR 4096 20000 [] demo = Ok r [] k' /\
    grown demo DR demo_table demo_free [DU] 20000 r k'.
Proof.
  apply (uvmalloc_all_or_nothing [] demo DR demo_table demo_free [DU] 4096 20000);
    [apply demo_uvm|split; discriminate|discriminate|reflexivity].
Defined.

(** Uvmcopy(), the copy of fork(), gives the child an address space of its
    own that reads as the parent's: on success the child has as many pages as the
    parent and reads the same byte (or faults) at every address of it; on failure
    it has none, and the pool had fewer than three pages for each page of the
    parent.  In both cases the parent's address space is well formed and
    reads as before, the two share no page with each other or with the pool, and
    no page is lost. *)
Lemma uvmcopy_copies_memory `{Y : Symbols} `{OK : !SymbolsOK Y} e k old t0 us0 new t fl sz :
  uvm k old t0 fl us0 -> uvm k new t fl [] -> spaces_apart us0 t0 [] t fl ->
  PGROUNDUP sz = vnth 0 (length us0) -> 0 <= sz <= TRAPFRAME ->
  exists r k' t' fl' us', uvmcopy old new sz e k = Ok r e k' /\
    (r = 0 /\ length us' = length us0 /\ (forall va, 0 <= va < vnth 0 (length us0) -> uread (k_mem k') t' va = uread (k_mem k) t0 va) \/
     r = -1 /\ us' = [] /\ (length fl < 3 * length us0)%nat) /\
    uvm_upd k new t fl [] k' t' fl' us' /\ uvm k' old t0 fl' us0 /\ spaces_apart us0 t0 us' t' fl' /\
    (forall va, 0 <= va < vnth 0 (length us0) -> uread (k_mem k') t0 va = uread (k_mem k) t0 va).
Proof.
  intros H0 Hn Hap Esz Hsz. destruct (uvmcopy_forks e k old t0 us0 new t fl sz H0 Hn Hap Esz Hsz) as (r & k' & E & t' & fl' & us' & C & Hr).
  exists r, k', t', fl', us'. split_and!; [done| |apply C|apply C|apply C|intros va; by apply (forked_parent old t0 us0 new k t fl k' t' fl' us')].
  destruct Hr as [(-> & El & _)|Hr]; [left|by right]. split_and!; [done|done|]. rewrite <- El. intros va. by apply (forked_reads old t0 us0 new k t fl k' t' fl' us').
Qed.

(** A child of the demonstration process, whose page table uvmcreate() has made. *)
Lemma uvmcopy_copies_memory_witness :
  exists k r k', uvmcreate [] demo = Ok DF1 [] k /\ uvmcopy DR DF1 4096 [] k = Ok r [] k' /\
    (forall va, 0 <= va < 4096 -> uread (k_mem k') demo_table va = uread (k_mem k) demo_table va).
Proof.
  destruct (uvmcreate_space [] demo DR demo_table DF1 [DF2] [DU] demo_uvm) as (k & E & _ & Hp & Hc & Hap).
  destruct (uvmcopy_copies_memory [] k DR demo_table [DU] DF1 (root_only DF1) [DF2] 4096 Hp Hc Hap) as (r & k' & t' & fl' & us' & E' & _ & _ & _ & _ & Hread);
    [reflexivity|split; discriminate|].
  exists k, r, k'. split; [exact E|]. split; [exact E'|]. exact Hread.
Defined.

(** Uvmdealloc() unmaps exactly the pages above the new size, gives each of
    them back to the pool, and leaves the pages below and their contents alone. *)
Lemma uvmdealloc_frees_suffix `{Y : Symbols} `{OK : !SymbolsOK Y} e k root t fl us1 us2 oldsz newsz :
  uvm k root t fl (us1 ++ us2) -> 0 <= newsz < oldsz -> oldsz <= TRAPFRAME ->
  PGROUNDUP oldsz = vnth 0 (length (us1 ++ us2)) -> PGROUNDUP newsz = vnth 0 (length us1) ->
  exists k', uvmdealloc root oldsz newsz e k = Ok newsz e k' /\
    uvm_upd k root t fl (us1 ++ us2) k' t (reverse us2 ++ fl) us1.
Proof. apply uvmdealloc_ok. Qed.

Lemma uvmdealloc_frees_suffix_witness :
  exists k', uvmdealloc DR 4096 0 [] demo = Ok 0 [] k' /\
    uvm_upd demo DR demo_table demo_free ([] ++ [DU]) k' demo_table (reverse [DU] ++ demo_free) [].
Proof.
  apply (uvmdealloc_frees_suffix [] demo DR demo_table demo_free [] [DU] 4096 0);
    [apply demo_uvm|split; [discriminate|reflexivity]|discriminate|reflexivity|reflexivity].
Defined.

(** C22: copyin() returns the bytes the process itself would read at the address:
    all of them with result 0, or, with result -1, those before the first
    address the process cannot read. *)
Theorem copyin_reads_user_bytes `{Y : Symbols} `{OK : !SymbolsOK Y} e k root t fl va len :
  vm_inv k root t fl -> 0 <= va < 2 ^ 64 -> 0 <= len ->
  exists r bs, copyin root va len e k = Ok (r, bs) e k /\ copied_in (k_mem k) t va len r bs.
Proof.
  intros Hv Hva Hlen. unfold copyin. apply (copyin_loop e k root t fl Hv _ va len []); [done|lia].
Qed.

Lemma copyin_reads_user_bytes_witness :
  exists r bs, copyin DR 4090 10 [] demo = Ok (r, bs) [] demo /\
    copied_in (k_mem demo) demo_table 4090 10 r bs.
Proof.
  apply (copyin_reads_user_bytes [] demo DR demo_table demo_free 4090 10);
    [apply demo_vm_inv|split; [discriminate|reflexivity]|discriminate].
Defined.

(** C23: copyinstr() returns a NUL-terminated string of the process of at most
    [max] bytes with result 0, or -1 when there is no NUL within [max] bytes or
    before the first unreadable address. *)
Theorem copyinstr_reads_user_string `{Y : Symbols} `{OK : !SymbolsOK Y} e k root t fl va max :
  vm_inv k root t fl -> 0 <= va < 2 ^ 64 -> 0 <= max ->
  exists r bs, copyinstr root va max e k = Ok (r, bs) e k /\ copied_str (k_mem k) t va max r bs.
Proof.
  intros Hv Hva Hmax. unfold copyinstr. apply (copyinstr_loop e k root t fl Hv _ va max []); [done|lia].
Qed.

Lemma copyinstr_reads_user_string_witness :
  exists r bs, copyinstr DR 0 128 [] demo = Ok (r, bs) [] demo /\
    copied_str (k_mem demo) demo_table 0 128 r bs.
Proof.
  apply (copyinstr_reads_user_string [] demo DR demo_table demo_free 0 128);
    [apply demo_vm_inv|split; [discriminate|reflexivity]|discriminate].
Defined.

(** C21: copyout() makes the process read the copied bytes at the destination and
    nothing else anew: all bytes with result 0, or, with result -1, the prefix
    before the first address the process cannot access. *)
Theorem copyout_writes_user_bytes `{Y : Symbols} `{OK : !SymbolsOK Y} e k root t fl us dst src :
  user_space k root t fl us -> 0 <= dst < 2 ^ 64 ->
  exists r k', copyout root dst src e k = Ok r e k' /\ copyout_post k root t fl us dst src r k'.
Proof. intros Hs Hd. unfold copyout. apply copyout_loop; [done|done|lia]. Qed.

Lemma copyout_writes_user_bytes_witness :
  exists r k', copyout DR 4094 [1; 2; 3] [] demo = Ok r [] k' /\
    copyout_post demo DR demo_table demo_free [DU] 4094 [1; 2; 3] r k'.
Proof.
  apply (copyout_writes_user_bytes [] demo DR demo_table demo_free [DU] 4094 [1; 2; 3]);
    [apply demo_user_space|split; [discriminate|reflexivity]].
Defined.

(** ** string.c *)

(** memmove() is correct for overlapping regions: the destination holds the
    old contents of the source, every other byte is unchanged. *)
Lemma memmove_overlap m dst src n a :
  0 <= n ->
  read8 (memmove m dst src n) a =
  if decide (dst <= a < dst + n) then read8 m (src + (a - dst)) else read8 m a.
Proof. apply read8_memmove. Qed.

Lemma memmove_overlap_witness :
  read8 (memmove (write_bytes ∅ 0 [10; 11; 12; 13]) 1 0 3) 3 = 12.
Proof. rewrite (memmove_overlap (write_bytes ∅ 0 [10; 11; 12; 13]) 1 0 3 3); [reflexivity|discriminate]. Defined.

