(* ===== verification/PropsProc.v ===== *)
(** * Properties: locks, scheduling and the life of a process *)

From S2P Require Import Prelude Machine Kstring Kernel Spinlock Kalloc Vm VmSpec VmMap VmUser VmCopy VmFree Printf Sched SleepWake Proc Sleeplock Bio Log Fs Pipe Console File Trap ProcFs Syscall Exec Sysfile Dispatch ProcSpec ProcFree TrapSpec LogSpec FileSpec VmFork ProcAlloc ProcFork Demo DemoZombie DemoFork.

(** ** Spinlocks *)

(** C18: Mutual exclusion.  In every interleaving of any number of harts that
    execute acquire() and release() of one lock, at most one of them is past
    the atomic swap, the lock word is set exactly while there is one, and
    lk->cpu names the hart in its critical section. *)
Theorem spinlock_mutual_exclusion name n c : rtc lstep (linit name n) c -> linv c.
Proof. apply linv_reachable. Qed.

Lemma spinlock_mutual_exclusion_witness :
  linv (mkLconfig (mkSpinlock 1 "kmem" None) [Swapped; Out]).
Proof.
  apply (spinlock_mutual_exclusion "kmem" 2).
  eapply rtc_l; [apply (step_enter 0); [reflexivity|intros [H _]; by apply H]|].
  eapply rtc_l; [apply (step_swap 0); reflexivity|]. apply rtc_refl.
Defined.

(** ** The scheduler *)

(** The policy, on exact numbers: a process gets a bonus of up to ten for the
    share of its time that it slept, and the smallest result is served first. *)
Definition pbs_nice (p : proc) : Z :=
  if decide (p_run_time p + p_sleep_time p = 0) then 5 else 10 * p_sleep_time p / (p_run_time p + p_sleep_time p).
Definition pbs_priority (p : proc) : Z := Z.max 0 (Z.min 100 (p_priority p - pbs_nice p + 5)).
Definition pbs_before (p q : proc) : Prop :=
  pbs_priority p < pbs_priority q \/ pbs_priority p = pbs_priority q /\
    (p_n_runs p < p_n_runs q \/ p_n_runs p = p_n_runs q /\ p_create_time p < p_create_time q).
(** Slot [i] holds the process to serve: among the runnable ones none comes
    before it, and ties go to the first in the table. *)
Definition pbs_choice (ps : list proc) (i : nat) (p : proc) : Prop :=
  ps !! i = Some p /\ p_state p = RUNNABLE /\
  forall j q, ps !! j = Some q -> p_state q = RUNNABLE -> j <> i -> if decide (j < i)%nat then pbs_before p q else ~ pbs_before q p.
(** Counters that have not come near the ends of their types. *)
Definition counters_ok (p : proc) : Prop :=
  0 <= p_run_time p /\ 0 <= p_sleep_time p /\ p_run_time p + p_sleep_time p < 2 ^ 60 /\ 0 <= p_priority p < 2 ^ 31 - 5.

#[local] Instance counters_ok_dec p : Decision (counters_ok p).
Proof. unfold counters_ok. apply _. Defined.

Lemma dp_pbs p : counters_ok p -> dp p = pbs_priority p.
Proof.
  intros (Hr & Hs & Hb & Hp). assert (nice p = pbs_nice p /\ 0 <= pbs_nice p <= 10) as [En Hn].
  { unfold nice, pbs_nice. rewrite !u64_small by lia. destruct (decide (p_run_time p + p_sleep_time p = 0)); [by rewrite decide_False by lia|].
    rewrite decide_True by lia. rewrite (Z.mul_comm 10).
    assert (0 <= p_sleep_time p * 10 / (p_run_time p + p_sleep_time p) <= 10) as Hq.
    { split; [apply Z.div_pos; lia|]. apply Z.div_le_upper_bound; lia. }
    rewrite i32_small by lia. done. }
  unfold dp, pbs_priority. rewrite En. cbn zeta.
  assert (i32 (u64 (p_priority p - pbs_nice p + 5)) = p_priority p - pbs_nice p + 5) as ->.
  { rewrite i32_u64. apply i32_small. lia. }
  repeat case_decide; lia.
Qed.
Lemma key_pbs p q : counters_ok p -> counters_ok q -> key_lt p q <-> pbs_before p q.
Proof. intros Hp Hq. unfold key_lt, pbs_before. by rewrite !dp_pbs. Qed.
Lemma best_pbs ps i : Forall counters_ok ps -> best_of ps i -> exists p, pbs_choice ps i p.
Proof.
  rewrite Forall_forall. intros HF (p & Hp & Hr & Hall). exists p. split_and!; [done|done|]. intros j q Hj Hq Hne.
  destruct (Hall j q Hj Hq) as [H1 H2]. apply list_elem_of_lookup_2 in Hp, Hj.
  case_decide; [apply key_pbs; auto|]. intros Hb. apply H1, key_pbs; auto.
Qed.

(** C3: One turn of the scheduler either finds no RUNNABLE process and changes
    nothing but the interrupt flag, or switches, holding only its lock, to the
    process the policy serves first (least clamped priority minus the sleep
    bonus plus five, then fewest runs, then oldest, then first in the table); at
    the switch that process is RUNNING from the present tick, its run and sleep
    times are zero, its run count is one higher, it is the process of this hart,
    and nothing else has changed. *)
Theorem scheduler_dispatches_best e k :
  idle_hart k -> length (k_procs k) = NPROC -> (forall i, (i < NPROC)%nat -> lock_free (LkProc i) k) -> Forall counters_ok (k_procs k) ->
  ((forall j q, k_procs k !! j = Some q -> p_state q <> RUNNABLE) /\ scheduler_turn (k_tp k) e k = Ok tt e (enabled k)) \/
  (exists i p, pbs_choice (k_procs k) i p /\
     let p' := set_p_n_runs (u64 (p_n_runs p + 1)) (set_p_sleep_time 0 (set_p_run_time 0 (set_p_start_time (k_ticks k) (set_p_state RUNNING p)))) in
     let s := lock_taken (LkProc i) (enabled k) in
     scheduler_turn (k_tp k) e k =
       (swtch;;; modify (upd_cpu (k_tp k) (set_c_proc None));;; release (LkProc i)) e
         (upd_cpu (k_tp k) (set_c_proc (Some i)) (set_k_procs (<[i := p']> (k_procs s)) s))).
Proof.
  intros Hi Hn Hl HF. destruct (scheduler_turn_ok e k Hi Hn Hl) as [H|(i & Hb & E)]; [by left|right].
  destruct (best_pbs _ _ HF Hb) as [p Hp]. exists i, p. split; [exact Hp|]. cbv zeta. destruct Hp as (Hp & _).
  rewrite E. unfold dispatched, upd_proc. change (k_procs (lock_taken (LkProc i) (enabled k))) with (k_procs k).
  rewrite (alter_insert _ _ _ p Hp). reflexivity.
Qed.

Lemma scheduler_dispatches_best_witness :
  ((forall j q, k_procs demo_idle !! j = Some q -> p_state q <> RUNNABLE) /\ scheduler_turn 0 [] demo_idle = Ok tt [] (enabled demo_idle)) \/
  (exists i p, pbs_choice (k_procs demo_idle) i p).
Proof.
  destruct (scheduler_dispatches_best [] demo_idle) as [H|(i & p & H & _)]; [by eexists|reflexivity| | |left; exact H|right; by exists i, p].
  - intros i Hi. exists "lock"%string. by apply demo_locks_lookup, demo_proc_lock.
  - apply (bool_decide_unpack _). vm_compute. exact I.
Defined.

(** C38: the clock interrupt counts one tick and changes nothing else but the
    process table, where each process is charged by its state: a RUNNING one has
    one more tick of run time and of total run time, a SLEEPING one has one more
    tick of sleep time and becomes RUNNABLE exactly when it sleeps on the clock
    (and is not the interrupted process itself), and any other is unchanged. *)
Theorem clock_tick_accounts e k :
  quiet k -> lock_free LkTicks k ->
  exists ps, clockintr e k = Ok tt e (set_k_procs ps (set_k_ticks (u32 (k_ticks k + 1)) k)) /\ length ps = length (k_procs k) /\
    forall i p, k_procs k !! i = Some p -> ps !! i = Some
      (if decide (p_state p = RUNNING) then set_p_run_time (u64 (p_run_time p + 1)) (set_p_total_run_time (u64 (p_total_run_time p + 1)) p)
       else if decide (p_state p = SLEEPING /\ p_chan p = ChTicks /\ running k <> Some i)
            then set_p_state RUNNABLE (set_p_sleep_time (u64 (p_sleep_time p + 1)) p)
       else if decide (p_state p = SLEEPING) then set_p_sleep_time (u64 (p_sleep_time p + 1)) p
       else p).
Proof.
  intros Hq Hl. eexists. split; [apply (clockintr_ok e k Hq Hl)|]. split; [cbn; by rewrite length_imap, length_fmap|].
  intros i p Hp. cbn. rewrite list_lookup_imap, list_lookup_fmap, Hp. cbn [fmap option_fmap option_map]. f_equal.
  change (running (set_k_procs _ _)) with (running k). unfold tick_one, wake_one.
  destruct (p_state p) eqn:E; cbn; rewrite ?E; repeat case_decide; naive_solver.
Qed.

Lemma clock_tick_accounts_witness :
  exists ps, clockintr [] demo = Ok tt [] (set_k_procs ps (set_k_ticks 1 demo)) /\
    ps !! 3%nat = Some (set_p_state RUNNABLE (set_p_sleep_time 1 (get_proc demo 3))).
Proof.
  destruct (clock_tick_accounts [] demo demo_quiet ltac:(demo_lock)) as (ps & E & _ & H). exists ps. split; [exact E|].
  rewrite (H 3%nat (get_proc demo 3) eq_refl). reflexivity.
Defined.

(** Wakeup() makes RUNNABLE exactly the processes, other than the caller,
    that sleep on the channel, and changes nothing else. *)
Lemma wakeup_exact ch e k :
  quiet k ->
  wakeup ch e k = Ok tt e (set_k_procs
    (imap (fun i p => if decide (Some i = running k) then p else
                      if decide (p_state p = SLEEPING /\ p_chan p = ch) then set_p_state RUNNABLE p else p)
          (k_procs k)) k).
Proof. intros Hq. exact (wakeup_ok ch e k Hq). Qed.

Lemma wakeup_exact_witness :
  wakeup ChTicks [] demo = Ok tt [] (set_k_procs
    (imap (fun i p => if decide (Some i = running demo) then p else
                      if decide (p_state p = SLEEPING /\ p_chan p = ChTicks) then set_p_state RUNNABLE p else p)
          (k_procs demo)) demo).
Proof. apply (wakeup_exact ChTicks [] demo), demo_quiet. Defined.

(** C19: no lost wakeup.  sleep() and wakeup() are sequences of actions.  Any
    number of processes execute them at the same time, in any interleaving of
    these actions: some take the lock, sleep while the condition does not hold,
    and release the lock; others take it, establish the condition and call
    wakeup().  In every state that is reached, a process that sleeps while the
    condition holds is on the list of one that is still going to wake it; and
    when at least one establishes the condition, a state in which no process
    can go on is one in which all of them are done: nobody sleeps for ever and
    there is no deadlock. *)
Theorem sleep_no_lost_wakeup lk ch rs ps c :
  (forall i, lk <> LkProc i) -> length ps = length rs -> rtc (race_step lk ch) (race_init lk ch rs ps) c ->
  (forall e k, sleep ch lk e k = (p <- cur;; for_ (sleep_actions p ch lk) perform) e k) /\
  (forall e k, wakeup ch e k = for_ (seq 0 NPROC) (fun i => o <- myproc;; if decide (Some i <> o) then for_ (wake_actions i ch) perform else skip) e k) /\
  (forall i, asleep_at c i -> sh_cond (c.1) = true -> exists w t, c.2 !! w = Some t /\ Do (WakeOne i ch) ∈ t) /\
  (Wakes ∈ rs -> (forall c', ~ race_step lk ch c c') -> Forall (fun t => t = []) (c.2)).
Proof.
  intros Hlk Hl Hc. split_and!; [apply sleep_runs|apply wakeup_runs| |].
  - intros i Hi Hcond. by eapply no_sleeper_forgotten.
  - intros Hw Hst. by eapply nobody_stuck.
Qed.

(** A process falls asleep, another takes the lock and establishes the
    condition. *)
Lemma sleep_no_lost_wakeup_witness :
  exists c : shared * list (list item), asleep_at c 0 /\ sh_cond (c.1) = true /\ exists w t, c.2 !! w = Some t /\ Do (WakeOne 0 ChTicks) ∈ t.
Proof.
  eassert (rtc (race_step LkTicks ChTicks) (race_init LkTicks ChTicks [Waits; Wakes] [proc0; proc0]) _) as Hc.
  { do 7 (eapply rtc_l; [eapply (race_one _ _ 0); [reflexivity|by constructor]|]; cbn).
    do 2 (eapply rtc_l; [eapply (race_one _ _ 1); [reflexivity|by constructor]|]; cbn). apply rtc_refl. }
  match type of Hc with rtc _ _ ?c => assert (asleep_at c 0) as Ha; [eexists _, _; split; [reflexivity|]; split; reflexivity|exists c] end.
  split; [exact Ha|]. split; [reflexivity|].
  eapply (sleep_no_lost_wakeup LkTicks ChTicks [Waits; Wakes] [proc0; proc0]); [discriminate|reflexivity|exact Hc|exact Ha|reflexivity].
Defined.

(** C37: when a sleeper is resumed, sleep() clears its channel and returns with
    the condition lock held again, whatever the rest of the system did in
    between. *)
Theorem sleep_reacquires ch lk f e k p k1 :
  cpu_ok k -> idle_hart k -> lock_free lk k -> lock_free (LkProc p) k -> lk <> LkProc p ->
  running k = Some p -> (p < length (k_procs k))%nat ->
  resumed p k1 -> sie k1 = sie k -> lock_free lk k1 ->
  f (lock_taken (LkProc p) (asleep p ch k)) = lock_taken (LkProc p) k1 ->
  sleep ch lk (f :: e) (lock_taken lk k) = Ok tt e (lock_taken lk (upd_proc p (set_p_chan ChNull) k1)).
Proof. apply sleep_resumes. Qed.

Lemma sleep_reacquires_witness :
  sleep ChTicks LkTicks [fun _ => lock_taken (LkProc 0) demo] (lock_taken LkTicks demo) =
  Ok tt [] (lock_taken LkTicks (upd_proc 0 (set_p_chan ChNull) demo)).
Proof.
  assert (lock_free (LkProc 0) demo) as H0 by (apply demo_lock_free, demo_proc_lock; by apply Nat.ltb_lt).
  apply (sleep_reacquires ChTicks LkTicks (fun _ => lock_taken (LkProc 0) demo) [] demo 0 demo);
    [apply demo_cpu_ok|apply demo_idle_hart|demo_lock|exact H0|discriminate|reflexivity|by apply Nat.ltb_lt
    |split; [apply demo_cpu_ok|split; [apply demo_idle_hart|exact H0]]|reflexivity|demo_lock|reflexivity].
Defined.

(** Setpriority() stores the new static priority in the first process with
    the pid, resets the times nice is computed from, returns the old priority
    and yields exactly when the new one is smaller; with an unknown pid it
    returns 0 and changes nothing. *)
Lemma setpriority_effect new_priority pid e k :
  quiet k ->
  setpriority new_priority pid e k =
  match list_find (fun p => p_pid p = pid) (k_procs k) with
  | None => Ok 0 e k
  | Some (i, p) =>
      (when (bool_decide (new_priority < i32 (p_priority p))) yield;;; ret (i32 (p_priority p))) e
        (upd_proc i (reprioritised new_priority) k)
  end.
Proof. apply setpriority_ok. Qed.

Lemma setpriority_effect_witness :
  setpriority 70 3 [] demo = Ok 50 [] (upd_proc 2 (reprioritised 70) demo).
Proof. rewrite (setpriority_effect 70 3 [] demo demo_quiet). reflexivity. Defined.

(** ** Memory limits *)

(** C17: sbrk() beyond the limit: when the grown size would exceed max_mem,
    growproc() returns -1, prints its message naming the process and the limit,
    and changes nothing else. *)
Theorem growproc_enforces_limit n e k p :
  cpu_ok k -> lock_free LkPr k -> running k = Some p -> 0 < n ->
  p_max_mem (get_proc k p) < u32 (u32 (p_sz (get_proc k p)) + n) ->
  growproc n e k = Ok (-1) e (sent (limit_text (p_pid (get_proc k p)) (p_max_mem (get_proc k p))) k).
Proof. apply growproc_refuses. Qed.

Lemma growproc_enforces_limit_witness :
  growproc 200000 [] demo = Ok (-1) [] (sent (limit_text 1 131072) demo).
Proof.
  apply (growproc_enforces_limit 200000 [] demo 0); [apply demo_cpu_ok|demo_lock|reflexivity..].
Defined.

Lemma demo_user_proc : user_proc demo 0 demo_table demo_free [DU].
Proof. split; [reflexivity|apply demo_uvm|split; discriminate|reflexivity]. Qed.

(** C16: sbrk() within the limit: growproc() either returns 0 with the size grown
    by exactly [n] and the new pages zeroed and mapped, or -1 with the process
    as before; no page is lost. *)
Theorem growproc_within_limit `{Y : Symbols} `{OK : !SymbolsOK Y} n e k p t fl us :
  user_proc k p t fl us -> 0 < n ->
  p_sz (get_proc k p) + n <= p_max_mem (get_proc k p) -> p_max_mem (get_proc k p) < 2 ^ 32 ->
  exists r k', growproc n e k = Ok r e k' /\
    grow_result k p t fl us (p_sz (get_proc k p) + n) r k'.
Proof. apply growproc_grows. Qed.

Lemma growproc_within_limit_witness :
  exists r k', growproc 5000 [] demo = Ok r [] k' /\
    grow_result demo 0 demo_table demo_free [DU] (4096 + 5000) r k'.
Proof.
  apply (growproc_within_limit 5000 [] demo 0 demo_table demo_free [DU]);
    [apply demo_user_proc|reflexivity|discriminate|reflexivity].
Defined.

(** ** fork() *)

(** C4: fork() makes a copy of the running process or nothing.  On success the
    first unused slot holds a runnable process with the next pid, the caller as
    its parent, the caller's size, trace mask, open files and directory (each
    counted once more), a trapframe equal to the caller's but for a0 = 0, and an
    address space that reads byte for byte as the caller's and shares no page with
    it.  On failure the answer is -1, the slot is unused and every page is back in
    the pool, and this happens only with fewer than six free pages plus three for
    each page of the caller.  Either way the caller's own memory and trapframe are
    unchanged, nothing else of the kernel has changed but the pid counter, every
    lock is free, and no page is lost. *)
Theorem fork_makes_a_copy `{Y : Symbols} `{OK : !SymbolsOK Y} e k p c y d t fl us :
  forkable k p c y d t fl us -> exists r k', fork e k = Ok r e k' /\ fork_post k p c y d t fl us r k'.
Proof. apply fork_ok. Qed.

(** A process with one page, an open file and twelve free pages forks. *)
Lemma fork_makes_a_copy_witness :
  exists k1 k', uvmalloc ZR 0 4096 [] fork_kernel = Ok 4096 [] k1 /\ fork [] (upd_proc 0 (set_p_sz 4096) k1) = Ok 1 [] k' /\
    p_state (get_proc k' 1) = RUNNABLE /\ p_parent (get_proc k' 1) = Some 0%nat.
Proof.
  destruct fork_ready as (k1 & t & fl & us & E & Hfl & Hus & Hpid & HF).
  destruct (fork_makes_a_copy [] _ 0 1 proc0 0 t fl us HF) as (r & k' & Ek & [[-> (tf & root & t' & fl' & us' & m' & f' & M)]|[_ (x & m' & f' & fl' & F)]]).
  - exists k1, k'. change (k_nextpid (upd_proc 0 (set_p_sz 4096) k1)) with (k_nextpid k1) in Ek. rewrite Hpid in Ek. split; [exact E|]. split; [exact Ek|].
    rewrite (fm_state _ _ _ _ _ _ _ _ _ _ _ _ _ _ _ _ M). rewrite with_proc_get; [split; reflexivity|].
    rewrite more_refs_procs, next_pid_procs, (q_len _ (fk_quiet _ _ _ _ _ _ _ _ HF)). by apply Nat.ltb_lt.
  - pose proof (ff_short _ _ _ _ _ _ _ _ _ _ _ F) as Hs. exfalso. rewrite Hus in Hs. apply Nat.lt_nge in Hs. apply Hs. exact Hfl.
Defined.

(** ** wait() and Ctrl-P *)

(** C15: wait() reaps, for any status address.  With a zombie child in the table
    the first one in slot order is taken.  Either wait() returns its pid: its
    slot is free again (UNUSED, no pid, parent, page table, size or trapframe)
    and no other process has changed, both locks are released, every page the
    child had, the trapframe, the user pages and all pages of its page table, is
    back in the pool, each once, and, when the address is not null, the parent
    reads the exit status there, little endian, and otherwise what it read
    before.  Or the status cannot be stored, which needs an address among the
    four that the parent cannot access: wait() returns -1, only the bytes before
    that address are stored, and the child is still there, a zombie with its
    address space. *)
Theorem wait_reaps_zombie `{Y : Symbols} `{OK : !SymbolsOK Y} addr c e k p t fl us tp up :
  quiet k -> lock_free LkWait k -> running k = Some p -> (c < NPROC)%nat -> 0 <= addr < 2 ^ 64 ->
  p_parent (get_proc k c) = Some p -> p_state (get_proc k c) = ZOMBIE ->
  (forall i, (i < c)%nat -> p_parent (get_proc k i) = Some p -> p_state (get_proc k i) <> ZOMBIE) ->
  proc_space k (get_proc k c) t fl us ->
  (addr <> 0 -> parent_space k (p_pagetable (get_proc k p)) (get_proc k c) t fl us tp up) ->
  exists r k', wait addr e k = Ok r e k' /\
    let x := get_proc k c in
    (r = p_pid x /\ exists x' m' f' fl', k' = set_k_procs (<[c := x']> (k_procs k)) (set_k_freelist f' (set_k_mem m' k)) /\ slot_free x' /\
       pool k' fl' /\ NoDup fl' /\ (list_to_set fl' : gset Z) = {[p_trapframe x]} ∪ upages us t fl /\
       (addr = 0 -> same_except (p_trapframe x :: elements (upages us t fl)) (k_mem k) m') /\
       (addr <> 0 -> same_except (up ++ p_trapframe x :: elements (upages us t fl)) (k_mem k) m' /\ status_stored (k_mem k) m' tp addr (p_xstate x) 4)) \/
    (r = -1 /\ addr <> 0 /\ exists m' f', k' = set_k_freelist f' (set_k_mem m' k) /\ proc_space k' x t fl us /\ same_except up (k_mem k) m' /\
       exists n, 0 <= n < 4 /\ status_stored (k_mem k) m' tp addr (p_xstate x) n /\ uread (k_mem k) tp (addr + n) = None).
Proof.
  intros Hq Hw Hr Hc Ha Hp Hz Hf Hs Hpar.
  destruct (wait_loop_reaps addr (fun _ => tt) c e k p t fl us tp up Hq Hw Hr Hc Ha Hp Hz Hf Hs Hpar) as (r & k' & E & Hrest).
  exists r, k'. split; [unfold wait; by rewrite (bind_Ok _ _ _ _ _ _ _ E)|exact Hrest].
Qed.

Lemma wait_reaps_zombie_witness :
  exists k' m', wait 8 [] waiting_kernel = Ok 7 [] k' /\ p_state (get_proc k' 1) = UNUSED /\ k_mem k' = m' /\
    (fun va => uread m' demo_table va) <$> [8; 9; 10; 11] = [Some 3; Some 0; Some 0; Some 0].
Proof.
  destruct (wait_reaps_zombie 8 1 [] waiting_kernel 0 zombie_table demo_free [] demo_table [DU]) as (r & k' & E & Hor);
    [apply waiting_quiet|apply waiting_lock_free; do 2 right; left|reflexivity|by apply Nat.ltb_lt|by split|reflexivity|reflexivity| |apply waiting_child|intros _; apply waiting_parent|].
  - intros i Hi. assert (i = 0%nat) as -> by (destruct i as [|i]; [reflexivity|exfalso; apply Nat.lt_1_r in Hi; discriminate Hi]). discriminate.
  - cbv zeta in Hor. destruct Hor as [(-> & x' & m' & f' & fl' & -> & Hfree & _ & _ & _ & _ & Hst)|(_ & _ & m' & f' & _ & _ & _ & n & Hn & _ & Hnone)].
    + eexists _, m'. split; [exact E|]. split; [exact (proj1 Hfree)|]. split; [reflexivity|].
      destruct (Hst ltac:(discriminate)) as [_ Hs]. cbn [fmap list_fmap]. rewrite !Hs. reflexivity.
    + exfalso. revert Hnone. apply waiting_read. unfold PGSIZE. clear -Hn. lia.
Defined.

(** ** System calls and traps *)

(** C39: every system call of the user library reaches its function.  For each
    of the 24 calls, with its number, name and argument count as user programs
    know them, the dispatcher runs the function that serves it; when that
    returns, its result is in a0, and exactly when the bit of the call is set in
    the process's mask the line "pid: syscall name (arguments) -> result" is
    printed, with the arguments as they were before the call; a call that waits
    or panics is left there. *)
Theorem syscall_dispatches `{Symbols} `{D : BlockDevice} (tx_idle : kernel -> bool) (beside : Z -> Z) e k p c :
  cpu_ok k -> running k = Some p -> c ∈ user_calls tx_idle -> call_num k p = uc_num c ->
  (forall r e' k', uc_serve c e k = Ok r e' k' -> cpu_ok k' -> running k' = Some p -> lock_free LkPr k' ->
     syscall tx_idle beside e k = Ok tt e'
       (if Z.testbit (p_mask (get_proc k' p)) (uc_num c)
        then sent (trace_text (p_pid (get_proc k' p)) (uc_name c) (int_args k p (uc_args c)) r) (with_a0 p r k') else with_a0 p r k')) /\
  (forall w k', uc_serve c e k = Wait w k' -> syscall tx_idle beside e k = Wait w k') /\
  (forall msg, uc_serve c e k = Panic msg -> syscall tx_idle beside e k = Panic msg).
Proof.
  intros Hc Hr Hin Hnum. split; [|by apply (syscall_stops tx_idle beside e k p c)].
  intros r e' k' E Hc' Hr' Hl'. exact (syscall_returns tx_idle beside e k p c r e' k' Hc Hr Hin Hnum E Hc' Hr' Hl').
Qed.

(** getpid() of the process, traced: "1: syscall getpid (\b) -> 1". *)
Definition demo_traced : kernel := upd_proc 0 (set_p_mask (2 ^ 11)) demo.
Lemma demo_traced_cpu : cpu_ok demo_traced.
Proof. exists (set_c_proc (Some 0%nat) cpu0). split; [reflexivity|]. split; [reflexivity|]. split; reflexivity. Qed.
Lemma demo_getpid : sys_getpid [] demo_traced = Ok 1 [] demo_traced.
Proof. unfold sys_getpid. rewrite (bind_Ok _ _ _ _ _ _ _ (cur_ok [] demo_traced 0 demo_traced_cpu eq_refl)). reflexivity. Qed.
Lemma demo_getpid_listed `{BlockDevice} tx : mkCall SYS_getpid "getpid" 0 sys_getpid ∈ user_calls tx.
Proof. unfold user_calls. do 18 right. left. Qed.
Lemma demo_pr_free : lock_free LkPr demo_traced.
Proof. exists "lock"%string. by apply demo_locks_lookup; unfold demo_lock_ids; do 9 right; left. Qed.

Lemma syscall_dispatches_witness :
  @syscall _ sync_disk (fun _ => true) (fun _ => 0) [] demo_traced =
  Ok tt [] (sent (codes "1: syscall getpid (" ++ [8] ++ codes ") -> 1" ++ [10]) (with_a0 0 1 demo_traced)).
Proof.
  destruct (@syscall_dispatches _ sync_disk (fun _ => true) (fun _ => 0) [] demo_traced 0 (mkCall SYS_getpid "getpid" 0 sys_getpid)
    demo_traced_cpu eq_refl (demo_getpid_listed _) eq_refl) as [Hret _].
  exact (Hret 1 [] demo_traced demo_getpid demo_traced_cpu eq_refl demo_pr_free).
Defined.

(** C40: a user program can stop the kernel with an unknown system call number.
    The argument count is read from the table before the number is checked; when
    the word found beside the table is larger than six, the loop that saves
    the arguments ends in panic("argraw"). *)
Theorem syscall_unchecked_number_panics `{Symbols} `{D : BlockDevice} (tx_idle : kernel -> bool)
    (beside : Z -> Z) e k p :
  cpu_ok k -> running k = Some p -> ~ (0 <= call_num k p < NSYSCALLS) -> 6 < beside (call_num k p) ->
  syscall tx_idle beside e k = Panic "argraw".
Proof. apply syscall_beside. Qed.

Lemma syscall_unchecked_number_panics_witness :
  @syscall _ sync_disk (fun _ => true) (fun _ => 7) []
    (upd_mem (fun m => write64 m (DTF + 168) 25) demo) = Panic "argraw".
Proof.
  apply (@syscall_unchecked_number_panics _ sync_disk (fun _ => true) (fun _ => 7) []
           (upd_mem (fun m => write64 m (DTF + 168) 25) demo) 0);
    [apply cpu_ok_upd_mem, demo_cpu_ok|reflexivity| |reflexivity].
  intros [_ Hn]. assert (call_num (upd_mem (fun m => write64 m (DTF + 168) 25) demo) 0 = 25) as E by reflexivity.
  rewrite E in Hn. discriminate Hn.
Defined.

(** ** printf *)

(** printf() sends to the uart exactly the text of its format and arguments,
    under the console lock when locking is on. *)
Lemma printf_prints_text fmt ap text e k :
  cpu_ok k -> lock_free LkPr k -> format fmt ap = Some text -> printf fmt ap e k = Ok tt e (sent text k).
Proof. apply printf_ok. Qed.

Lemma printf_prints_text_witness :
  printf (codes "pid %d at %x") [AInt (-7); AInt 255] [] demo = Ok tt [] (sent (codes "pid -7 at ff") demo).
Proof.
  apply (printf_prints_text (codes "pid %d at %x") [AInt (-7); AInt 255] (codes "pid -7 at ff") [] demo);
    [apply demo_cpu_ok|demo_lock|reflexivity].
Defined.

