(* ===== verification/PropsFs.v ===== *)
(** * Properties: sleep locks, buffer cache, log, file system and pipes *)

From S2P Require Import Prelude Machine Kstring Kernel Spinlock Kalloc Vm VmSpec VmMap VmUser VmCopy Printf Sched Proc Sleeplock Bio Log Fs Pipe Console File FsSpec LogSpec FileSpec Demo.

(** ** Sleep locks *)

(** ** The buffer cache *)

(** brelse() of a buffer no one else uses moves it to the front of the list,
    the place of the most recently used one, and keeps the order of the
    others; with other users it only drops the count.  The list stays a well
    formed ring over all buffers. *)
Lemma brelse_moves_to_front e k p l1 l2 i :
  io_ready k p -> cache_inv k (l1 ++ i :: l2) ->
  sl_locked (b_lock (get_buf k i)) <> 0 -> sl_pid (b_lock (get_buf k i)) = p_pid (get_proc k p) ->
  exists k', brelse i e k = Ok tt e k' /\
    (if decide (u32 (b_refcnt (get_buf k i) - 1) = 0) then cache_inv k' (i :: l1 ++ l2)
     else cache_inv k' (l1 ++ i :: l2)).
Proof.
  intros Hio Hci Hs Hp. assert (i < NBUF)%nat as Hi.
  { apply (ci_elem _ _ _ Hci), elem_of_app. right. left. }
  eexists. split; [by eapply brelse_ok|]. pose proof (cache_inv_freed _ _ i Hci) as Hf.
  case_decide; [by apply cache_inv_move|done].
Qed.

Lemma brelse_moves_to_front_witness :
  exists k', brelse 3 [] (sl_taken (SlBuf 3) 1 (upd_buf 3 claim_refcnt demo)) = Ok tt [] k' /\
    cache_inv k' (3%nat :: reverse (seq 4 26) ++ [2%nat; 1%nat; 0%nat]).
Proof.
  apply (brelse_moves_to_front [] (sl_taken (SlBuf 3) 1 (upd_buf 3 claim_refcnt demo)) 0
           (reverse (seq 4 26)) [2%nat; 1%nat; 0%nat] 3);
    [apply io_ready_sl, io_ready_upd_buf, demo_io_ready|apply cache_inv_claim, demo_cache_inv
    |discriminate|reflexivity].
Defined.

(** ** The log *)

(** Begin_op() admits an operation exactly when no commit is running and ten
    more blocks fit in the log besides what is logged and reserved; it then
    only counts the operation.  Otherwise it goes to sleep on the log with the
    log unchanged. *)
Lemma begin_op_reserves_space k p :
  cpu_ok k -> idle_hart k -> lock_free LkLog k -> lock_free (LkProc p) k -> running k = Some p ->
  (p < length (k_procs k))%nat ->
  (log_admits (k_log k) /\ begin_op [] k = Ok tt [] (upd_log op_begun k) /\
     log_reserved (k_log (upd_log op_begun k)) <= LOGSIZE) \/
  (~ log_admits (k_log k) /\
     begin_op [] k = Wait WSwitch (lock_taken (LkProc p) (asleep p ChLog k))).
Proof.
  intros Hc Hi Hl Hlp Hr Hp.
  destruct (decide (l_committing (k_log k) = 0 /\ log_reserved (k_log k) + MAXOPBLOCKS <= LOGSIZE)) as [Ha|Ha].
  - left. split; [done|]. split; [by apply begin_op_admitted|]. destruct Ha as [_ Ha].
    unfold log_reserved in *. cbn. lia.
  - right. split; [done|]. by apply begin_op_sleeps.
Qed.

Lemma begin_op_reserves_space_witness :
  (log_admits (k_log demo) /\ begin_op [] demo = Ok tt [] (upd_log op_begun demo) /\
     log_reserved (k_log (upd_log op_begun demo)) <= LOGSIZE) \/
  (~ log_admits (k_log demo) /\
     begin_op [] demo = Wait WSwitch (lock_taken (LkProc 0) (asleep 0 ChLog demo))).
Proof.
  apply (begin_op_reserves_space demo 0);
    [apply demo_cpu_ok|apply demo_idle_hart|demo_lock| |reflexivity|by apply Nat.ltb_lt].
  apply demo_lock_free, demo_proc_lock. by apply Nat.ltb_lt.
Defined.

(** log_write() absorbs: a block that the transaction already holds changes
    nothing; a new one takes the next slot of the header and its buffer is
    pinned in the cache. *)
Lemma log_write_absorbs_or_appends b e k :
  log_open k ->
  log_write b e k =
  Ok tt e (if decide (b_blockno (get_buf k b) ∈ logged k) then k
           else upd_log (log_appended (b_blockno (get_buf k b))) (upd_buf b claim_refcnt k)).
Proof. intros Ho. case_decide; [by apply log_write_absorbs|by apply log_write_appends]. Qed.

Lemma demo_log_open : log_open demo.
Proof.
  split; [apply demo_cpu_ok|demo_lock|demo_lock|split; [split; [discriminate|]|]; reflexivity|reflexivity|discriminate].
Qed.

Lemma log_write_absorbs_or_appends_witness :
  log_write 3 [] demo = Ok tt [] (upd_log (log_appended 7) (upd_buf 3 claim_refcnt demo)).
Proof.
  rewrite (log_write_absorbs_or_appends 3 [] demo demo_log_open).
  rewrite decide_False; [reflexivity|]. intros Hin%list_elem_of_singleton. discriminate Hin.
Defined.

(** ** On-disk formats *)

(** An inode written to its slot of an inode block is read back unchanged,
    and the other slots of the block are not touched. *)
Lemma dinode_roundtrip d o x y :
  0 <= o -> o + 64 <= Z.of_nat (length d) -> inode_fits x ->
  load_dinode (store_dinode d o x) o y = with_dinode x y /\
  (forall b, 0 <= b -> b < o \/ o + 64 <= b -> byte_at (store_dinode d o x) b = byte_at d b).
Proof.
  intros Ho Hd Hx. split; [by apply load_store_dinode|]. intros b. by apply store_dinode_frame.
Qed.

Lemma dinode_roundtrip_witness :
  let d := replicate 1024 0 in
  let x := set_i_nlink 2 (set_i_type T_DIR (set_i_size 48 inode0)) in
  load_dinode (store_dinode d 64 x) 64 inode0 = with_dinode x inode0 /\
  (forall b, 0 <= b -> b < 64 \/ 64 + 64 <= b -> byte_at (store_dinode d 64 x) b = byte_at d b).
Proof.
  apply (dinode_roundtrip (replicate 1024 0) 64 (set_i_nlink 2 (set_i_type T_DIR (set_i_size 48 inode0))) inode0);
    [discriminate|discriminate|].
  split_and!; try (discriminate || reflexivity).
  repeat (constructor; [split; [discriminate|reflexivity]|]). constructor.
Defined.

(** skipelem() splits a path: leading slashes, one element without slashes,
    the slashes after it, and the rest, which begins with no slash and is
    shorter, so the walk of namex() over the path terminates; the element is
    stored truncated to DIRSIZ characters.  It reports no element exactly for
    paths of slashes only. *)
Lemma skipelem_splits_path path name :
  match skipelem path name with
  | Some (rest, name') =>
      (length rest < length path)%nat /\
      exists s1 el s2, path = s1 ++ el ++ s2 ++ rest /\ Forall (eq SLASH) s1 /\ Forall (eq SLASH) s2 /\
        el <> [] /\ Forall (fun c => c <> SLASH) el /\ head rest <> Some SLASH /\
        (s2 = [] -> rest = []) /\ name' = store_name el name
  | None => Forall (eq SLASH) path
  end.
Proof.
  destruct (skipelem path name) as [[rest name']|] eqn:E.
  - split; [by eapply skipelem_shorter|by apply skipelem_Some].
  - by apply (skipelem_None path name).
Qed.

(** ** Open files *)

(** ** Pipes *)

(** C27: pipewrite(), for a buffer of any length and any contents of the pipe.
    [bs] are the bytes of the buffer up to its end or to the first address that
    cannot be read, [room] is what is left in the ring.  Without a reader, or
    for a killed process, it returns -1 and changes nothing.  If the bytes fit,
    they are appended in order after what the pipe holds, the readers are woken
    and their number is returned.  Otherwise exactly as many as there is room
    for are appended, nothing that is in the pipe is overwritten, the readers
    are woken and the writer sleeps until there is room; whatever has happened
    meanwhile, once it runs again it goes on as a pipewrite() of the rest of
    the buffer and returns the sum. *)
Theorem pipewrite_appends `{Y : Symbols} `{OK : !SymbolsOK Y} k pr root t fl pi addr n bs :
  writer k pr root t fl pi -> idle_hart k -> (pr < NPROC)%nat -> pipe_inv (get_pipe k pi) ->
  0 <= addr -> addr + n <= 2 ^ 64 -> readable (k_mem k) t addr n bs ->
  let x := get_pipe k pi in
  let room := (Z.to_nat PIPESIZE - length (pipe_bytes x))%nat in
  let ended x' := woken (ChPipeRead pi) (set_k_pipes (<[pi := x']> (k_pipes k)) k) in
  (0 < n -> pi_readopen x = 0 \/ p_killed (get_proc k pr) <> 0 -> forall e, pipewrite pi addr n e k = Ok (-1) e k) /\
  (pi_readopen x <> 0 -> p_killed (get_proc k pr) = 0 ->
   ((length bs < room)%nat \/ Z.of_nat (length bs) = n /\ (length bs <= room)%nat ->
    exists x', appended x x' bs /\ forall e, pipewrite pi addr n e k = Ok (Z.of_nat (length bs)) e (ended x')) /\
   ((room <= length bs)%nat -> Z.of_nat room < n ->
    exists x', appended x x' (take room bs) /\ length (pipe_bytes x') = Z.to_nat PIPESIZE /\
      let ks := asleep pr (ChPipeWrite pi) (ended x') in
      pipewrite pi addr n [] k = Wait WSwitch (lock_taken (LkProc pr) ks) /\
      forall f e k1, f (lock_taken (LkProc pr) ks) = lock_taken (LkProc pr) k1 -> resumed pr k1 -> sie k1 = sie k -> running k1 = Some pr -> lock_free (LkPipe pi) k1 ->
        pipewrite pi addr n (f :: e) k =
        (r <- pipewrite pi (addr + Z.of_nat room) (n - Z.of_nat room);; ret (if decide (r = -1) then -1 else Z.of_nat room + r)) e
          (upd_proc pr (set_p_chan ChNull) k1))).
Proof.
  intros Hw Hi Hpr Hp Ha Han Hu x room ended. pose proof (pv_count _ Hp) as Hc. fold (pipe_count (get_pipe k pi)) in Hc. rewrite pipe_count_length in Hc. fold x in Hc.
  assert (room = Z.to_nat PIPESIZE - length (pipe_bytes x))%nat as Er by reflexivity. clearbody room. pose proof (proj1 (proj2 Hu)) as Hle.
  split; [|intros Hro Hk; split].
  - intros Hn Hor e. exact (pipewrite_refused e k pr pi addr n (wr_quiet _ _ _ _ _ _ Hw) (wr_lock _ _ _ _ _ _ Hw) (wr_running _ _ _ _ _ _ Hw) Hn Hor).
  - intros Hfit. exists (put_all bs x). assert (pipe_count x + Z.of_nat (length bs) <= PIPESIZE) as Hf by (rewrite pipe_count_length; lia).
    split; [by apply put_all_appended|]. intros e. apply (pipewrite_fits e k pr root t fl pi addr n bs Hw Hk Hro Hp Ha Han Hu Hf). fold x. rewrite pipe_count_length. lia.
  - intros H1 H2. set (l := take room bs). assert (length l = room) as El by (unfold l; rewrite length_take; lia).
    assert (appended x (put_all l x) l) as Hap by (apply put_all_appended; [done|rewrite pipe_count_length; lia]). exists (put_all l x). split; [exact Hap|]. destruct Hap as (_ & Hb & _).
    split; [rewrite Hb, length_app; lia|]. rewrite <- El.
    apply (pipewrite_full k pr root t fl pi addr n l Hw Hi); [by rewrite (q_len _ (wr_quiet _ _ _ _ _ _ Hw))|done|done|done| |unfold pipe_room; rewrite El; fold x; rewrite pipe_count_length; lia|lia].
    intros j b Hj. apply (proj1 Hu). unfold l in Hj. by apply lookup_take_Some in Hj as [? _].
Qed.

Definition demo_nearly_full : pipe := mkPipe (replicate 512 7) 0 511 1 1.
Lemma demo_nearly_full_inv : pipe_inv demo_nearly_full /\ pipe_bytes demo_nearly_full = replicate 511 7.
Proof. split; [|reflexivity]. split; [reflexivity|split; [discriminate|reflexivity]|split; [discriminate|reflexivity]|discriminate]. Qed.
Definition demo_crowded : kernel := upd_pipe DPI (fun _ => demo_nearly_full) demo.
Lemma demo_crowded_idle : idle_hart demo_crowded.
Proof. exists (set_c_proc (Some 0%nat) cpu0). split; reflexivity. Qed.
Lemma demo_crowded_readable : readable (k_mem demo_crowded) demo_table 0 3 demo_text.
Proof. change (k_mem demo_crowded) with demo_mem. split; [exact demo_ureads|split; [discriminate|intros H; discriminate H]]. Qed.
Lemma demo_crowded_pipe : get_pipe demo_crowded DPI = demo_nearly_full.
Proof. apply get_pipe_upd. Qed.

(** Room for one byte: three are to be written. *)
Lemma pipewrite_appends_witness :
  exists x', pipe_bytes x' = replicate 511 7 ++ [104] /\
    pipewrite DPI 0 3 [] demo_crowded =
    Wait WSwitch (lock_taken (LkProc 0) (asleep 0 (ChPipeWrite DPI) (woken (ChPipeRead DPI) (set_k_pipes (<[DPI := x']> (k_pipes demo_crowded)) demo_crowded)))).
Proof.
  destruct demo_nearly_full_inv as [Hinv Hb].
  destruct (pipewrite_appends demo_crowded 0 DR demo_table demo_free DPI 0 3 demo_text) as [_ H];
    [apply writer_upd, demo_writer|exact demo_crowded_idle|by apply Nat.ltb_lt|rewrite demo_crowded_pipe; exact Hinv|discriminate|discriminate|exact demo_crowded_readable|].
  rewrite demo_crowded_pipe, Hb in H. destruct H as [_ Hfull]; [discriminate|reflexivity|].
  destruct Hfull as (x' & (_ & Hb' & _) & _ & E & _); [apply Nat.leb_le; reflexivity|reflexivity|]. exists x'. rewrite Hb in Hb'. split; [exact Hb'|exact E].
Defined.

(** C28: piperead(), for a request of any length and any contents of the pipe.
    [want] is the smaller of the request and of what the pipe holds, [acc] how
    many of these the reader's memory takes.  With bytes in the pipe, or
    without a writer, the oldest bytes are at the reader's address in order and
    nothing else of its memory has changed, their number is returned (0 for an
    empty pipe without writer), the rest stays in the pipe and the writers are
    woken; when an address cannot be stored to, the byte meant for it is taken
    from the pipe and lost.  With an empty pipe and a writer a killed process
    gets -1, and another sleeps with nothing changed; whatever has happened
    meanwhile, once it runs again it is a new piperead(). *)
Theorem piperead_takes_front `{Y : Symbols} `{OK : !SymbolsOK Y} e k pr root t fl us pi addr n acc :
  let x := get_pipe k pi in
  let q := pipe_bytes x in
  let want := Nat.min (Z.to_nat n) (length q) in
  reader k pr root t fl us pi -> idle_hart k -> (pr < NPROC)%nat -> pipe_inv x -> bytes_ok q ->
  0 <= n -> 0 <= addr -> addr + n <= 2 ^ 64 -> writable (k_mem k) t addr want acc ->
  (q <> [] \/ pi_writeopen x = 0 ->
   exists x' m fr, dropped x x' (if decide (acc < want)%nat then S acc else acc) /\
     piperead pi addr n e k = Ok (Z.of_nat acc) e (woken (ChPipeWrite pi) (set_k_pipes (<[pi := x']> (k_pipes k)) (set_k_freelist fr (set_k_mem m k)))) /\
     forall va, uread m t va = if decide (addr <= va < addr + Z.of_nat acc) then q !! Z.to_nat (va - addr) else uread (k_mem k) t va) /\
  (q = [] -> pi_writeopen x <> 0 -> p_killed (get_proc k pr) <> 0 -> piperead pi addr n e k = Ok (-1) e k) /\
  (q = [] -> pi_writeopen x <> 0 -> p_killed (get_proc k pr) = 0 ->
     let ks := asleep pr (ChPipeRead pi) k in
     piperead pi addr n [] k = Wait WSwitch (lock_taken (LkProc pr) ks) /\
     forall f k1, f (lock_taken (LkProc pr) ks) = lock_taken (LkProc pr) k1 -> resumed pr k1 -> sie k1 = sie k -> running k1 = Some pr -> lock_free (LkPipe pi) k1 ->
       piperead pi addr n (f :: e) k = piperead pi addr n e (upd_proc pr (set_p_chan ChNull) k1)).
Proof.
  intros x q want Hrd Hi Hpr Hp Hok Hn Ha Han Hw. pose proof Hrd as [Hq Hl Hr _ _ _].
  assert (q = [] -> pi_nread x = pi_nwrite x) as He by (intros E; apply pipe_empty_count; [done|]; rewrite pipe_count_length; fold q; by rewrite E).
  split; [|split].
  - intros Hor. destruct (piperead_takes e k pr root t fl us pi addr n acc Hrd Hp Hok Hn Ha Han Hw Hor) as (m & fr & E & V).
    eexists _, m, fr. split; [|split; [exact E|exact V]]. apply take_all_dropped; [done|]. change (pipe_avail (get_pipe k pi) n) with want. change (pipe_bytes (get_pipe (set_k_freelist fr (set_k_mem m k)) pi)) with q.
    assert (want <= length q)%nat as Hwq by apply Nat.le_min_r. destruct Hw as [Hacc _]. clearbody want. destruct (decide (acc < want)%nat); lia.
  - intros E1 E2 E3. exact (piperead_refused e k pr pi addr n Hq Hl Hr (He E1) E2 E3).
  - intros E1 E2 E3. destruct (piperead_sleeps k pr pi addr n Hq Hi Hl Hr ltac:(by rewrite (q_len _ Hq)) (He E1) E2 E3) as [W R]. split; [exact W|]. intros f k1. exact (R f e k1).
Qed.

Lemma demo_pipe_inv : pipe_inv (get_pipe demo DPI).
Proof. split; [reflexivity|split; [discriminate|reflexivity]|split; [discriminate|reflexivity]|discriminate]. Qed.

(** Ten bytes are asked for, one is there. *)
Lemma piperead_takes_front_witness :
  exists x' m fr, pipe_bytes x' = [] /\
    piperead DPI 100 10 [] demo = Ok 1 [] (woken (ChPipeWrite DPI) (set_k_pipes (<[DPI := x']> (k_pipes demo)) (set_k_freelist fr (set_k_mem m demo)))) /\
    uread m demo_table 100 = Some 65.
Proof.
  destruct (piperead_takes_front [] demo 0 DR demo_table demo_free [DU] DPI 100 10 1) as [H _];
    [apply demo_reader|apply demo_idle_hart|by apply Nat.ltb_lt|apply demo_pipe_inv|repeat constructor; discriminate|discriminate|discriminate|discriminate| |].
  - split; [by apply Nat.leb_le|]. split; [|intros Hlt; exfalso; revert Hlt; apply Nat.lt_irrefl].
    intros j Hj. replace j with 0 by (cbn in Hj; lia). by eexists.
  - destruct H as (x' & m & fr & (_ & Hb & _) & E & V); [left; discriminate|]. exists x', m, fr. split; [exact Hb|]. split; [exact E|]. rewrite V. reflexivity.
Defined.
