(* ===== verification/PropsLog.v ===== *)
(** * Properties: the log and crash recovery *)

From S2P Require Import Prelude Machine Kstring Kernel Spinlock Kalloc Vm Sched Sleeplock Bio BioSpec Log Fs FsSpec LogSpec LogCommit Demo.

(** C26: the buffer cache refines a view of the disk.  bread() returns a buffer
    locked by the caller that holds the block as the view has it, whether the
    block was cached, dirty or only on the disk; no block of the view changes,
    and nothing but the cache and the processes waiting for it. *)
Theorem bread_refines_view {D : BlockDevice} {DOK : BlockDeviceOK D} p dev e k c pin held b :
  bcached p dev k c pin held -> held !! b = None -> bc_room pin held \/ pin b <> 0 ->
  exists i k', bread dev b e k = Ok i e k' /\ bcached p dev k' c pin (<[b := i]> held) /\ io_frame k k' /\
    caches k' dev b i /\ b_data (get_buf k' i) = c b /\ sl_locked (b_lock (get_buf k' i)) <> 0.
Proof.
  intros H Hn Hr. destruct (bread_view p dev e k c pin held H b Hn Hr) as (i & k' & E & H' & F).
  assert (<[b := i]> held !! b = Some i) as Hh by by rewrite lookup_insert_eq.
  destruct (bc_held_at p dev k' c pin _ H' i b Hh) as [_ [B1 _ B3 _ B5]]. rewrite decide_True in B5 by done.
  exists i, k'. split_and!; try done. by destruct B5.
Qed.

Lemma bread_refines_view_witness :
  exists i k', bread (D := sync_disk) 1 50 [] demo_txn = Ok i [] k' /\
    bcached 0 1 k' demo_txn_view (pinned [40]) (<[50 := i]> ∅) /\ io_frame demo_txn k' /\
    caches k' 1 50 i /\ b_data (get_buf k' i) = demo_txn_view 50 /\ sl_locked (b_lock (get_buf k' i)) <> 0.
Proof.
  apply (bread_refines_view (D := sync_disk)); [apply demo_txn_cached|reflexivity|left; apply (pinned_room 2), demo_loggable].
Defined.

(** C1: the last end_op() of a transaction is atomic with respect to crashes.
    It writes the cached contents of every block of the transaction to its home
    location; and if the machine stops after any prefix of the block writes of
    the commit and boots again from the disk that this leaves, initlog()
    returns with the header cleared and either every block outside the log
    has its contents from before the commit, or every such block has the
    contents the transaction gave it. *)
Theorem end_op_crash_atomic {D : BlockDevice} {DOK : BlockDeviceOK D} p dev start bs e k c :
  bcached p dev k c (pinned bs) ∅ -> txn dev start bs (k_log k) -> loggable start bs -> bs <> [] ->
  lock_free LkLog k -> l_committing (k_log k) = 0 -> l_outstanding (k_log k) = 1 ->
  head_n (disk_block k start) = 0 ->
  exists k' ws, end_op e k = Ok tt e k' /\ k_writes k' = k_writes k ++ ws /\
    (forall b, home start b -> disk_block k' b = c b) /\
    forall ws1 ws2 q e' r, ws = ws1 ++ ws2 -> k_disk r = apply_writes ws1 (k_disk k) -> cold_boot q dev start r ->
      exists r', initlog dev e' r = Ok tt e' r' /\ head_n (disk_block r' start) = 0 /\
        ((forall b, home start b -> disk_block r' b = disk_block k b) \/
         (forall b, home start b -> disk_block r' b = c b)).
Proof.
  intros H Htx Hlb Hne Hl Hc Ho Hidle.
  destruct (end_op_last p dev start bs e k c H Htx Hlb Hne Hl Hc Ho) as (k' & E & Ew & Ed & _).
  assert (forall b, b ∉ bs -> c b = disk_block k b) as Hclean.
  { intros b Hb. destruct (bc_clean _ _ _ _ _ _ H b) as [?|[Hx|[? Hx]]]; [done| |by rewrite lookup_empty in Hx].
    unfold pinned in Hx. by rewrite decide_False in Hx. }
  pose proof (bc_len _ _ _ _ _ _ H start) as Hlen. pose proof (tx_blocks _ _ _ _ Htx) as Hbl.
  eexists k', _. split; [exact E|]. split; [exact Ew|]. split.
  - intros b Hb. rewrite Ed. by apply (crash_done start bs (lh_block (k_log k)) c (disk_block k)).
  - intros ws1 ws2 q e' r Ews Er Hcold.
    assert (forall b, disk_block r b = view_writes ws1 (disk_block k) b) as Er'.
    { intros b. change (disk_view (k_disk r) b = view_writes ws1 (disk_view (k_disk k)) b).
      by rewrite Er, disk_view_writes. }
    destruct (crash_atomic start bs _ c (disk_block k) Hlb Hbl Hclean Hlen Hidle ws1 ws2 Ews) as [Hv Hat].
    pose proof (Er' start) as Es. rewrite <- Es in Hv.
    destruct (initlog_ok q dev start e' r Hcold Hv) as (r' & Ei & _ & Hd).
    pose proof (recovered_ext start _ _ Er') as Hx.
    exists r'. split; [done|]. split.
    + rewrite Hd. apply recovered_clear. apply (bc_len _ _ _ _ _ _ (cb_cache _ _ _ _ Hcold)).
    + destruct Hat as [Hat|Hat]; [left|right]; intros b Hb; rewrite Hd, Hx; by apply Hat.
Qed.

Lemma end_op_crash_atomic_witness :
  exists k' ws, end_op (D := sync_disk) [] demo_txn = Ok tt [] k' /\ k_writes k' = k_writes demo_txn ++ ws /\
    (forall b, home 2 b -> disk_block k' b = demo_txn_view b) /\
    forall ws1 ws2 q e' r, ws = ws1 ++ ws2 -> k_disk r = apply_writes ws1 (k_disk demo_txn) -> cold_boot q 1 2 r ->
      exists r', initlog (D := sync_disk) 1 e' r = Ok tt e' r' /\ head_n (disk_block r' 2) = 0 /\
        ((forall b, home 2 b -> disk_block r' b = disk_block demo_txn b) \/
         (forall b, home 2 b -> disk_block r' b = demo_txn_view b)).
Proof.
  apply (end_op_crash_atomic (D := sync_disk) 0 1 2 [40] [] demo_txn demo_txn_view);
    [apply demo_txn_cached|apply demo_txn_txn|apply demo_loggable|discriminate|apply demo_txn_lock|reflexivity|reflexivity|reflexivity].
Defined.

(** C2: recovery is idempotent.  initlog() installs exactly the blocks that the
    on-disk header records and clears the header; and if the machine stops
    again after any prefix of the block writes of recovery, the next
    recovery ends with the same contents of every block outside the log. *)
Theorem recovery_idempotent {D : BlockDevice} {DOK : BlockDeviceOK D} p dev start e k :
  cold_boot p dev start k -> valid_head start (disk_block k start) ->
  let bs := head_list (disk_block k start) in
  exists k' ws, initlog dev e k = Ok tt e k' /\ k_writes k' = k_writes k ++ ws /\
    head_n (disk_block k' start) = 0 /\
    (forall i, 0 <= i < Z.of_nat (length bs) -> disk_block k' (nthZ bs i) = disk_block k (start + i + 1)) /\
    (forall b, home start b -> b ∉ bs -> disk_block k' b = disk_block k b) /\
    forall ws1 ws2 q e' r, ws = ws1 ++ ws2 -> k_disk r = apply_writes ws1 (k_disk k) -> cold_boot q dev start r ->
      exists r', initlog dev e' r = Ok tt e' r' /\ forall b, home start b -> disk_block r' b = disk_block k' b.
Proof.
  intros Hcold Hv bs. pose proof (bc_len _ _ _ _ _ _ (cb_cache _ _ _ _ Hcold) start) as Hlen.
  destruct (initlog_ok p dev start e k Hcold Hv) as (k' & E & Ew & Hd). pose proof Hv as [_ Hlb].
  eexists k', _. split; [exact E|]. split; [exact Ew|]. split_and!.
  - rewrite Hd. by apply recovered_clear.
  - intros i Hi. rewrite Hd. by apply recovered_home.
  - intros b Hb Hn. rewrite Hd. by apply recovered_other.
  - intros ws1 ws2 q e' r Ews Er Hr.
    assert (forall b, disk_block r b = view_writes ws1 (disk_block k) b) as Er'.
    { intros b. change (disk_view (k_disk r) b = view_writes ws1 (disk_view (k_disk k)) b).
      by rewrite Er, disk_view_writes. }
    destruct (recovery_restarts start (disk_block k) ws1 ws2 Hv Hlen Ews) as [Hv' Hsame].
    rewrite <- (Er' start) in Hv'. destruct (initlog_ok q dev start e' r Hr Hv') as (r' & Ei & _ & Hd').
    exists r'. split; [done|]. intros b Hb. rewrite Hd', Hd, (recovered_ext start _ _ Er'). by apply Hsame.
Qed.

Lemma recovery_idempotent_witness :
  let k := demo_boot demo_crash in
  let bs := head_list (disk_block k 2) in
  exists k' ws, initlog (D := sync_disk) 1 [] k = Ok tt [] k' /\ k_writes k' = k_writes k ++ ws /\
    head_n (disk_block k' 2) = 0 /\
    (forall i, 0 <= i < Z.of_nat (length bs) -> disk_block k' (nthZ bs i) = disk_block k (2 + i + 1)) /\
    (forall b, home 2 b -> b ∉ bs -> disk_block k' b = disk_block k b) /\
    forall ws1 ws2 q e' r, ws = ws1 ++ ws2 -> k_disk r = apply_writes ws1 (k_disk k) -> cold_boot q 1 2 r ->
      exists r', initlog (D := sync_disk) 1 e' r = Ok tt e' r' /\ forall b, home 2 b -> disk_block r' b = disk_block k' b.
Proof.
  cbv zeta. apply (recovery_idempotent (D := sync_disk) 0 1 2 []).
  - apply demo_boot_cold. apply demo_crash_len.
  - apply demo_crash_head.
Defined.

(** The log that mkfs makes is one block shorter than what begin_op() hands out:
    with three operations admitted, which reserve LOGSIZE blocks in all, the
    last of those blocks cannot be recorded. *)
Lemma full_reservation_panics b e k :
  cpu_ok k -> lock_free LkLog k -> l_outstanding (k_log k) = 3 -> l_size (k_log k) = LOGSIZE -> lh_n (k_log k) = LOGSIZE - 1 ->
  MAXOPBLOCKS * l_outstanding (k_log k) <= LOGSIZE /\ log_write b e k = Panic "too big a transaction".
Proof.
  intros Hc Hl Ho Hs Hn. split; [rewrite Ho; done|]. apply log_write_full; [done|done|]. right. rewrite Hn, Hs. lia.
Qed.
