(* ===== verification/PropsFile.v ===== *)
(** * Properties: blocks, files and directories *)

From S2P Require Import Prelude Machine Kstring Kernel Spinlock Kalloc Vm Sched Sleeplock Bio BioSpec Log LogSpec LogCommit Fs FsSpec File FsTx FsAlloc FsFile FsGrow FsBmap FsBytes FsWrite FsDir FsTrunc Demo DemoFs.

Section Alloc.
Context `{Symbols} {D : BlockDevice} {DOK : BlockDeviceOK D}.

(** C25: balloc() returns the lowest free block of the disk, cleared, and marks
    it in the bitmap; no other block and no other bit changes; when no block
    is free it panics. *)
Theorem balloc_takes_lowest_free p dev e k c bs held :
  let sb := k_sb k in
  in_txn p dev k c bs held -> geometry sb ->
  (forall x, bitmap_block sb x -> held !! x = None) -> (forall b, 0 <= b < sb_size sb -> block_free c sb b -> data_start sb <= b /\ held !! b = None) ->
  (length bs + size held + 3 <= NBUF)%nat ->
  (exists b k' c', balloc dev e k = Ok b e k' /\ 0 <= b < sb_size sb /\ block_free c sb b /\
     (forall b', 0 <= b' < b -> ~ block_free c sb b') /\
     in_txn p dev k' c' (absorb (absorb bs (BBLOCK b sb)) b) held /\ fs_frame k k' /\
     c' b = replicate (Z.to_nat BSIZE) 0 /\ (forall a, ~ bitmap_block sb a -> a <> b -> c' a = c a) /\
     (forall b', 0 <= b' < sb_size sb -> block_free c' sb b' <-> b' <> b /\ block_free c sb b')) \/
  (balloc dev e k = Panic "balloc: out of blocks" /\ forall b, 0 <= b < sb_size sb -> ~ block_free c sb b).
Proof.
  intros sb Hk G Hbm Hfree Hs.
  destruct (balloc_ok p dev held sb c bs G Hbm (fun b Hb Hf => proj2 (Hfree b Hb Hf)) Hs e k Hk eq_refl) as [(b & k' & E & B1 & B2 & B3 & B4 & B5)|?]; [|by right].
  left. exists b, k', (allocated sb b c). destruct (Hfree b B1 B2) as [Hd _]. split_and!; try done; try lia.
  - apply allocated_self.
  - intros a. apply allocated_other; [done|lia].
  - intros b' Hb'. apply allocated_bitmap; try done. intros x. apply (bc_len _ _ _ _ _ _ (it_cached _ _ _ _ _ _ Hk)).
Qed.
End Alloc.

Lemma balloc_takes_lowest_free_witness :
  (exists b k' c', balloc (D := sync_disk) 1 [] fs_demo = Ok b [] k' /\ 0 <= b < 200 /\ block_free fs_view fs_sb b /\
     (forall b', 0 <= b' < b -> ~ block_free fs_view fs_sb b') /\
     in_txn 0 1 k' c' (absorb (absorb [] (BBLOCK b fs_sb)) b) ∅ /\ fs_frame fs_demo k' /\
     c' b = replicate (Z.to_nat BSIZE) 0 /\ (forall a, ~ bitmap_block fs_sb a -> a <> b -> c' a = fs_view a) /\
     (forall b', 0 <= b' < 200 -> block_free c' fs_sb b' <-> b' <> b /\ block_free fs_view fs_sb b')) \/
  (balloc (D := sync_disk) 1 [] fs_demo = Panic "balloc: out of blocks" /\ forall b, 0 <= b < 200 -> ~ block_free fs_view fs_sb b).
Proof.
  apply (balloc_takes_lowest_free (D := sync_disk) 0 1 [] fs_demo fs_view [] ∅).
  - apply fs_demo_txn.
  - apply fs_geometry.
  - intros x _. apply lookup_empty.
  - intros b Hb Hf. split; [|apply lookup_empty]. by apply fs_bitmap_ok.
  - rewrite map_size_empty. apply Nat.leb_le. reflexivity.
Defined.

Section Files.
Context `{Symbols} {D : BlockDevice} {DOK : BlockDeviceOK D} (p : nat) (dev : Z).

(** C24: readi() refines reading an array of bytes: it returns exactly the bytes
    of the file from the offset, no more than asked and none past the end,
    through direct and indirect blocks, and changes neither the disk nor the
    inode. *)
Theorem readi_returns_file_bytes e k c bs ip x off n :
  get_inode k ip = x -> in_txn p dev k c bs ∅ -> i_dev x = dev -> mapped c x -> (length bs < NBUF)%nat -> 0 <= off < 2 ^ 31 -> 0 <= n < 2 ^ 31 ->
  exists k', readi ip ToLocal off n e k = Ok (read_count x off n, fbytes c x off (read_count x off n)) e k' /\
    in_txn p dev k' c bs ∅ /\ fs_frame k k'.
Proof. apply readi_ok. Qed.

(** C7: writei() refines overwriting an array of bytes: the file is then its
    old contents with the data spliced in at the offset, longer if the data
    reaches past the end; the inode on the disk describes it; the file's
    blocks are still distinct, allocated data blocks; outside the bitmap, the
    inode's block and the file no block changes, and the file gains free
    blocks only.  It panics only when fewer than two blocks are free for
    each block written. *)
Theorem writei_updates_file sb e k c bs ip x off data :
  let n := Z.of_nat (length data) in
  geometry sb -> sb_size sb <= BPB -> wfile p dev sb k c bs ∅ ip x -> mapped c x -> IBLOCK (i_inum x) sb < sb_bmapstart sb ->
  0 <= off <= i_size x -> off + n <= MAXFILE * BSIZE -> Z.of_nat (length bs) + span off n + 8 <= Z.of_nat NBUF ->
  (exists k' c' bs' x', writei ip (FromLocal data) off n e k = Ok n e k' /\
     wfile p dev sb k' c' bs' ∅ ip x' /\ mapped c' x' /\ i_size x' = Z.max (i_size x) (off + n) /\
     fbytes c' x' 0 (i_size x') = splice (fbytes c x 0 (i_size x)) off data /\
     (inode_fits x -> load_dinode (c' (IBLOCK (i_inum x) sb)) (dinode_off (i_inum x)) x' = x') /\
     (forall a, ~ bitmap_block sb a -> a <> IBLOCK (i_inum x) sb -> ~ in_file c' x' a -> c' a = c a) /\
     (forall a, in_file c' x' a -> in_file c x a \/ block_free c sb a) /\ ino_frame ip k k') \/
  writei ip (FromLocal data) off n e k = Panic "balloc: out of blocks" /\ Z.of_nat (length (free_list sb c)) < 2 * span off n.
Proof.
  intros n G Hone Hw Hm Hib Ho Hmax Hroom. destruct (writei_ok p dev sb G Hone e k c bs ip x off data Hw Hm Hib Ho Hmax Hroom) as [(k' & c' & bs' & x' & E & [N1 N2 N3 N4 N5 _ _ N6 N7 N8 N9])|?]; [|by right].
  left. exists k', c', bs', x'. split_and!; try done. apply (f_equal i_size N3).
Qed.

(** C8: writei() to one file leaves every other alone: a well-formed file with
    other blocks keeps its contents, is still well formed and shares no block
    with the written file, and every other inode on the disk is unchanged. *)
Theorem writei_keeps_other_files sb e k c bs ip x off data y :
  let n := Z.of_nat (length data) in
  geometry sb -> sb_size sb <= BPB -> wfile p dev sb k c bs ∅ ip x -> mapped c x -> IBLOCK (i_inum x) sb < sb_bmapstart sb ->
  0 <= off <= i_size x -> off + n <= MAXFILE * BSIZE -> Z.of_nat (length bs) + span off n + 8 <= Z.of_nat NBUF ->
  2 * span off n <= Z.of_nat (length (free_list sb c)) -> 0 <= i_inum x < 2 ^ 31 -> 0 <= sb_inodestart sb < 2 ^ 31 ->
  file_ok sb c y -> mapped c y -> disjoint_files c x y ->
  exists k' c' bs' x', writei ip (FromLocal data) off n e k = Ok n e k' /\ wfile p dev sb k' c' bs' ∅ ip x' /\
    file_ok sb c' y /\ disjoint_files c' x' y /\ fbytes c' y 0 (i_size y) = fbytes c y 0 (i_size y) /\
    forall j z, 0 <= j < 2 ^ 31 -> j <> i_inum x -> IBLOCK j sb < sb_bmapstart sb ->
      load_dinode (c' (IBLOCK j sb)) (dinode_off j) z = load_dinode (c (IBLOCK j sb)) (dinode_off j) z.
Proof.
  intros n G Hone Hw Hm Hib Ho Hmax Hroom Hfl Hi Hs Hy Hmy Hdis.
  destruct (writei_ok p dev sb G Hone e k c bs ip x off data Hw Hm Hib Ho Hmax Hroom) as [(k' & c' & bs' & x' & E & Hwn)|[_ Hlt]]; [|fold n in Hlt; lia].
  destruct (written_other _ _ _ G _ _ _ _ _ _ _ _ _ _ _ Hib Hwn y Hy Hdis Hmy) as (O1 & O2 & O3).
  exists k', c', bs', x'. split_and!; try done; [apply Hwn|]. intros j z Hj Hne Hjb.
  apply (written_dinode _ _ _ G _ _ _ _ _ _ _ _ _ _ _ Hwn); try done. apply (wf_len _ _ _ _ _ _ _ _ _ _ Hw).
Qed.

(** What writei() wrote, readi() returns. *)
Lemma writei_readi_roundtrip sb e k c bs ip x off data :
  let n := Z.of_nat (length data) in
  geometry sb -> sb_size sb <= BPB -> wfile p dev sb k c bs ∅ ip x -> mapped c x -> IBLOCK (i_inum x) sb < sb_bmapstart sb ->
  0 <= off <= i_size x -> off + n <= MAXFILE * BSIZE -> Z.of_nat (length bs) + span off n + 8 <= Z.of_nat NBUF ->
  2 * span off n <= Z.of_nat (length (free_list sb c)) ->
  exists k1 k2, writei ip (FromLocal data) off n e k = Ok n e k1 /\ readi ip ToLocal off n e k1 = Ok (n, data) e k2 /\ fs_frame k1 k2.
Proof.
  intros n G Hone Hw Hm Hib Ho Hmax Hroom Hfl. destruct (writei_ok p dev sb G Hone e k c bs ip x off data Hw Hm Hib Ho Hmax Hroom) as [(k1 & c' & bs' & x' & E & Hwn)|[_ Hlt]]; [|fold n in Hlt; lia].
  pose proof (wn_file _ _ _ _ _ _ _ _ _ _ _ _ _ _ Hwn) as [W1 W2 W3 W4 W5 W6 W7]. pose proof (f_equal i_size (wn_inode _ _ _ _ _ _ _ _ _ _ _ _ _ _ Hwn)) as Es.
  change (i_size x' = Z.max (i_size x) (off + n)) in Es. pose proof (wn_len _ _ _ _ _ _ _ _ _ _ _ _ _ _ Hwn) as Hlen. fold n in Hlen.
  assert (0 <= n) as Hn0 by (unfold n; lia). change (MAXFILE * BSIZE) with 274432 in *. destruct Hm as [Hsz _]. change (MAXFILE * BSIZE) with 274432 in *.
  destruct (readi_ok p dev e k1 c' bs' ip x' off n W4 W1 W5) as (k2 & E2 & H2 & F2); [apply Hwn|lia|lia|lia|].
  assert (read_count x' off n = n) as Er by (unfold read_count; rewrite decide_False by lia; lia). rewrite Er in E2.
  exists k1, k2. split_and!; [done| |done]. rewrite E2. do 2 f_equal. transitivity (map (byte_at data) (seqZ 0 n)); [|apply bytes_of].
  apply map_ext_in. intros i Hi. apply list_elem_of_In, elem_of_seqZ in Hi.
  rewrite (written_fbyte _ _ _ _ _ _ _ _ _ _ _ _ _ _ _ Hwn) by lia. rewrite decide_True by lia. f_equal. lia.
Qed.

(** C13: a chunk as filewrite() cuts them fits the log space that begin_op()
    reserved: however it lies over the blocks of the file and whatever it
    allocates, at most MAXOPBLOCKS blocks are recorded. *)
Theorem write_chunk_fits_reservation sb e k c ip x off data :
  let n := Z.of_nat (length data) in
  geometry sb -> sb_size sb <= BPB -> wfile p dev sb k c [] ∅ ip x -> mapped c x -> IBLOCK (i_inum x) sb < sb_bmapstart sb ->
  0 <= off <= i_size x -> off + n <= MAXFILE * BSIZE -> n <= write_max -> 8 <= Z.of_nat (length (free_list sb c)) ->
  exists k', writei ip (FromLocal data) off n e k = Ok n e k' /\ 0 <= lh_n (k_log k') <= MAXOPBLOCKS.
Proof.
  intros n G Hone Hw Hm Hib Ho Hmax Hn Hfl. change write_max with 3072 in Hn.
  assert (0 <= span off n <= 4) as Hsp. { unfold span. case_decide; [lia|]. rewrite BSIZE_eq. Z.to_euclidean_division_equations. lia. }
  destruct (writei_ok p dev sb G Hone e k c [] ip x off data Hw Hm Hib Ho Hmax) as [(k1 & c' & bs' & x' & E & Hwn)|[_ Hlt]]; [fold n; cbn; unfold NBUF; lia| |fold n in Hlt; lia].
  exists k1. split; [done|]. pose proof (wn_len _ _ _ _ _ _ _ _ _ _ _ _ _ _ Hwn) as Hlen. fold n in Hlen. cbn in Hlen.
  rewrite (it_n _ _ _ _ _ _ (wf_txn _ _ _ _ _ _ _ _ _ (wn_file _ _ _ _ _ _ _ _ _ _ _ _ _ _ Hwn))). unfold MAXOPBLOCKS. lia.
Qed.

(** C9: after dirlink() the name is found: dirlookup() returns the inode it was
    given.  Every other name is found where it was found before, and the
    directory is still well formed. *)
Theorem dirlink_then_dirlookup sb e k c bs dp x name inum :
  geometry sb -> sb_size sb <= BPB -> wfile p dev sb k c bs ∅ dp x -> dir_ok c x -> i_size x + DIRENT_SIZE <= MAXFILE * BSIZE ->
  IBLOCK (i_inum x) sb < sb_bmapstart sb -> Z.of_nat (length bs) + 9 <= Z.of_nat NBUF -> find_entry c x name = None ->
  (2 <= length (free_list sb c))%nat -> Z.of_nat (length name) <= src_base -> u16 inum <> 0 ->
  exists k1 k2 c' bs' x' off, dirlink dp name inum e k = Ok 0 e k1 /\ wfile p dev sb k1 c' bs' ∅ dp x' /\ dir_ok c' x' /\
    dirlookup dp name e k1 = (ip <- iget dev (u16 inum);; ret (Some (ip, off))) e k2 /\ fs_frame k1 k2 /\
    forall name', namecmp name' (link_name name) <> 0 -> find_entry c' x' name' = find_entry c x name'.
Proof.
  intros G Hone Hw Hdir Hsz Hib Hroom Hnone Hfl Hnm Hin.
  destruct (dirlink_ok p dev sb e k c bs dp x name inum G Hone Hw Hdir Hsz Hib Hroom Hnone) as [(k1 & c' & bs' & x' & E & Hwn)|[_ ?]]; [|lia].
  pose proof (wn_file _ _ _ _ _ _ _ _ _ _ _ _ _ _ Hwn) as Hw1. pose proof Hw1 as [W1 W2 W3 W4 W5 W6 W7].
  pose proof (linked_dir _ _ _ _ _ _ _ _ _ _ _ _ _ _ Hdir Hwn) as Hdir'. pose proof (wn_len _ _ _ _ _ _ _ _ _ _ _ _ _ _ Hwn) as Hlen.
  destruct (free_entry_in c x Hdir) as (O1 & O2 & _). rewrite length_link_entry in Hlen. change (Z.of_nat 16) with 16 in Hlen. rewrite span_entry in Hlen by (done || lia).
  destruct (dirlookup_ok p dev c' bs' dp x' W5 Hdir' ltac:(lia) e k1 name W1 W4) as (k2 & E2 & H2 & F2).
  rewrite (linked_found _ _ _ _ _ _ _ _ _ _ _ _ _ _ Hdir Hwn Hnm Hin Hnone) in E2. rewrite (linked_entry _ _ _ _ _ _ _ _ _ _ _ _ _ _ Hdir Hwn) in E2.
  exists k1, k2, c', bs', x', (free_entry c x). split_and!; try done. intros name' Hne. by apply (linked_others _ _ _ _ _ _ _ _ _ _ _ _ _ _ Hdir Hwn).
Qed.

(** C12: itrunc() gives back exactly the blocks of the file: afterwards a block is
    free when it was free or belonged to the file, directly, through the
    indirect block or as the indirect block; the file is empty in memory and on
    the disk; every other well-formed file that shares no block with it keeps
    its blocks and its bytes, every other inode is unchanged, and at most two
    blocks are added to the transaction. *)
Theorem itrunc_frees_file sb e k c bs ip x :
  geometry sb -> sb_size sb <= BPB -> wfile p dev sb k c bs ∅ ip x -> inode_fits x -> IBLOCK (i_inum x) sb < sb_bmapstart sb ->
  (length bs + 5 <= NBUF)%nat -> 0 <= i_inum x < 2 ^ 31 -> 0 <= sb_inodestart sb < 2 ^ 31 ->
  exists k' c' bs', itrunc ip e k = Ok tt e k' /\ wfile p dev sb k' c' bs' ∅ ip (emptied x) /\ (length bs' <= length bs + 2)%nat /\
    (forall b, 0 <= b < sb_size sb -> block_free c' sb b <-> in_file c x b \/ block_free c sb b) /\
    load_dinode (c' (IBLOCK (i_inum x) sb)) (dinode_off (i_inum x)) (emptied x) = emptied x /\
    (forall y, file_ok sb c y -> mapped c y -> disjoint_files c x y ->
       file_ok sb c' y /\ mapped c' y /\ fbytes c' y 0 (i_size y) = fbytes c y 0 (i_size y)) /\
    (forall j z, 0 <= j < 2 ^ 31 -> j <> i_inum x -> IBLOCK j sb < sb_bmapstart sb ->
       load_dinode (c' (IBLOCK j sb)) (dinode_off j) z = load_dinode (c (IBLOCK j sb)) (dinode_off j) z).
Proof.
  intros G Hone Hw Hfits Hib Hroom Hi Hs. destruct (itrunc_ok p dev sb G Hone e ip k c bs x Hw Hroom Hib) as (k' & c' & bs' & E & Ht).
  exists k', c', bs'. split; [exact E|]. split; [apply Ht|]. split; [apply Ht|]. split; [apply Ht|]. split; [|split].
  - rewrite (tr_inode _ _ _ _ _ _ _ _ _ _ _ Ht). destruct (dinode_off_in (i_inum x)). rewrite load_store_dinode; [by destruct x|done|rewrite (wf_len _ _ _ _ _ _ _ _ _ _ Hw), BSIZE_eq; lia|by apply emptied_fits].
  - intros y Hy Hmy Hdis. destruct (kept_file p dev sb G ip k c bs x Hroom k' c' bs' Ht Hib y Hy Hdis) as [K1 K2]. split; [exact K1|by apply K2].
  - intros j z Hj Hne Hjb. by apply (kept_dinode p dev sb G ip k c bs x Hw Hroom k' c' bs' Ht).
Qed.
End Files.

Lemma readi_returns_file_bytes_witness :
  exists k', readi (D := sync_disk) 5 ToLocal 0 100 [] fs_demo = Ok (32, [3; 0; 46] ++ replicate 29 0) [] k' /\
    in_txn 0 1 k' fs_view [] ∅ /\ fs_frame fs_demo k'.
Proof.
  assert (fbytes fs_view fs_inode 0 32 = [3; 0; 46] ++ replicate 29 0) as <- by by vm_compute.
  change 32 with (read_count fs_inode 0 100).
  apply (readi_returns_file_bytes (D := sync_disk) 0 1 [] fs_demo fs_view [] 5 fs_inode 0 100).
  - reflexivity.
  - apply fs_demo_txn.
  - reflexivity.
  - apply fs_dir_ok.
  - apply Nat.ltb_lt. reflexivity.
  - lia.
  - lia.
Defined.

Lemma writei_updates_file_witness :
  (exists k' c' bs' x', writei (D := sync_disk) 5 (FromLocal [7; 8; 9]) 31 3 [] fs_demo = Ok 3 [] k' /\
     wfile 0 1 fs_sb k' c' bs' ∅ 5 x' /\ mapped c' x' /\ i_size x' = 34 /\
     fbytes c' x' 0 (i_size x') = splice (fbytes fs_view fs_inode 0 32) 31 [7; 8; 9] /\
     (inode_fits fs_inode -> load_dinode (c' (IBLOCK 3 fs_sb)) (dinode_off 3) x' = x') /\
     (forall a, ~ bitmap_block fs_sb a -> a <> IBLOCK 3 fs_sb -> ~ in_file c' x' a -> c' a = fs_view a) /\
     (forall a, in_file c' x' a -> in_file fs_view fs_inode a \/ block_free fs_view fs_sb a) /\ ino_frame 5 fs_demo k') \/
  writei (D := sync_disk) 5 (FromLocal [7; 8; 9]) 31 3 [] fs_demo = Panic "balloc: out of blocks" /\ Z.of_nat (length (free_list fs_sb fs_view)) < 2 * span 31 3.
Proof.
  apply (writei_updates_file (D := sync_disk) 0 1 fs_sb [] fs_demo fs_view [] 5 fs_inode 31 [7; 8; 9]).
  - apply fs_geometry.
  - apply Z.leb_le. reflexivity.
  - apply fs_wfile.
  - apply fs_dir_ok.
  - apply fs_iblock.
  - cbn. lia.
  - apply Z.leb_le. reflexivity.
  - apply Z.leb_le. reflexivity.
Defined.

Lemma writei_keeps_other_files_witness :
  exists k' c' bs' x', writei (D := sync_disk) 5 (FromLocal [7; 8; 9]) 31 3 [] fs_demo = Ok 3 [] k' /\ wfile 0 1 fs_sb k' c' bs' ∅ 5 x' /\
    file_ok fs_sb c' fs_other /\ disjoint_files c' x' fs_other /\ fbytes c' fs_other 0 10 = fbytes fs_view fs_other 0 10 /\
    forall j z, 0 <= j < 2 ^ 31 -> j <> 3 -> IBLOCK j fs_sb < 45 ->
      load_dinode (c' (IBLOCK j fs_sb)) (dinode_off j) z = load_dinode (fs_view (IBLOCK j fs_sb)) (dinode_off j) z.
Proof.
  apply (writei_keeps_other_files (D := sync_disk) 0 1 fs_sb [] fs_demo fs_view [] 5 fs_inode 31 [7; 8; 9] fs_other).
  - apply fs_geometry.
  - apply Z.leb_le. reflexivity.
  - apply fs_wfile.
  - apply fs_dir_ok.
  - apply fs_iblock.
  - cbn. lia.
  - apply Z.leb_le. reflexivity.
  - apply Z.leb_le. reflexivity.
  - apply (Z.le_trans _ 8); [apply Z.leb_le; reflexivity|]. apply (inj_le 8), fs_free_len.
  - cbn. lia.
  - cbn. lia.
  - apply one_file_ok. by right.
  - apply one_mapped; [by right|lia].
  - apply fs_disjoint.
Defined.

Lemma writei_readi_roundtrip_witness :
  exists k1 k2, writei (D := sync_disk) 5 (FromLocal [7; 8; 9]) 31 3 [] fs_demo = Ok 3 [] k1 /\
    readi (D := sync_disk) 5 ToLocal 31 3 [] k1 = Ok (3, [7; 8; 9]) [] k2 /\ fs_frame k1 k2.
Proof.
  apply (writei_readi_roundtrip (D := sync_disk) 0 1 fs_sb [] fs_demo fs_view [] 5 fs_inode 31 [7; 8; 9]).
  - apply fs_geometry.
  - apply Z.leb_le. reflexivity.
  - apply fs_wfile.
  - apply fs_dir_ok.
  - apply fs_iblock.
  - cbn. lia.
  - apply Z.leb_le. reflexivity.
  - apply Z.leb_le. reflexivity.
  - apply (Z.le_trans _ 8); [apply Z.leb_le; reflexivity|]. apply (inj_le 8), fs_free_len.
Defined.

Lemma write_chunk_fits_reservation_witness :
  exists k', writei (D := sync_disk) 5 (FromLocal (replicate 3072 1)) 32 3072 [] fs_demo = Ok 3072 [] k' /\ 0 <= lh_n (k_log k') <= MAXOPBLOCKS.
Proof.
  apply (write_chunk_fits_reservation (D := sync_disk) 0 1 fs_sb [] fs_demo fs_view 5 fs_inode 32 (replicate 3072 1)).
  - apply fs_geometry.
  - apply Z.leb_le. reflexivity.
  - apply fs_wfile.
  - apply fs_dir_ok.
  - apply fs_iblock.
  - cbn. lia.
  - apply Z.leb_le. reflexivity.
  - apply Z.leb_le. reflexivity.
  - apply (inj_le 8), fs_free_len.
Defined.

Lemma dirlink_then_dirlookup_witness :
  exists k1 k2 c' bs' x' off, dirlink (D := sync_disk) 5 [97] 4 [] fs_demo = Ok 0 [] k1 /\ wfile 0 1 fs_sb k1 c' bs' ∅ 5 x' /\ dir_ok c' x' /\
    dirlookup (D := sync_disk) 5 [97] [] k1 = (ip <- iget 1 (u16 4);; ret (Some (ip, off))) [] k2 /\ fs_frame k1 k2 /\
    forall name', namecmp name' (link_name [97]) <> 0 -> find_entry c' x' name' = find_entry fs_view fs_inode name'.
Proof.
  apply (dirlink_then_dirlookup (D := sync_disk) 0 1 fs_sb [] fs_demo fs_view [] 5 fs_inode [97] 4).
  - apply fs_geometry.
  - apply Z.leb_le. reflexivity.
  - apply fs_wfile.
  - apply fs_dir_ok.
  - apply Z.leb_le. reflexivity.
  - apply fs_iblock.
  - apply Z.leb_le. reflexivity.
  - apply fs_no_a.
  - apply (Nat.le_trans _ 8); [apply Nat.leb_le; reflexivity|apply fs_free_len].
  - apply Z.leb_le. reflexivity.
  - done.
Defined.

Lemma itrunc_frees_file_witness :
  exists k' c' bs', itrunc (D := sync_disk) 5 [] fs_demo = Ok tt [] k' /\ wfile 0 1 fs_sb k' c' bs' ∅ 5 (emptied fs_inode) /\ (length bs' <= 2)%nat /\
    (forall b, 0 <= b < 200 -> block_free c' fs_sb b <-> in_file fs_view fs_inode b \/ block_free fs_view fs_sb b) /\
    load_dinode (c' (IBLOCK 3 fs_sb)) (dinode_off 3) (emptied fs_inode) = emptied fs_inode /\
    (forall y, file_ok fs_sb fs_view y -> mapped fs_view y -> disjoint_files fs_view fs_inode y ->
       file_ok fs_sb c' y /\ mapped c' y /\ fbytes c' y 0 (i_size y) = fbytes fs_view y 0 (i_size y)) /\
    (forall j z, 0 <= j < 2 ^ 31 -> j <> 3 -> IBLOCK j fs_sb < 45 ->
       load_dinode (c' (IBLOCK j fs_sb)) (dinode_off j) z = load_dinode (fs_view (IBLOCK j fs_sb)) (dinode_off j) z).
Proof.
  apply (itrunc_frees_file (D := sync_disk) 0 1 fs_sb [] fs_demo fs_view [] 5 fs_inode).
  - apply fs_geometry.
  - apply Z.leb_le. reflexivity.
  - apply fs_wfile.
  - unfold inode_fits. apply (bool_decide_unpack _). by vm_compute.
  - apply fs_iblock.
  - apply Nat.leb_le. reflexivity.
  - cbn. lia.
  - cbn. lia.
Defined.
