(* ===== verification/Mkfs.v ===== *)
(** * mkfs/mkfs.c: the initial file system

    The image is the host file fsfd, a list of sectors of BSIZE bytes: a read
    past its end fails, a write past its end extends it with zeros.  Seeks and
    writes on it succeed.  The host is little-endian, so that xint() and
    xshort() return their argument (they build it byte by byte).  die() and a
    failed assert() end the run ([panic]).  A struct dinode is an [inode] of
    which only the on-disk fields are used.

    A source file is its path and what open() and the read() calls return:
    [None] when it cannot be opened, otherwise the non-empty chunks read. *)

From S2P Require Import Prelude Machine Kernel Log Fs.

Definition NINODES : Z := 200.
Definition FSSIZE : Z := 1000.
Definition nbitmap : Z := FSSIZE / (BSIZE * 8) + 1.
Definition ninodeblocks : Z := NINODES / IPB + 1.
Definition nlog : Z := LOGSIZE.
Definition nmeta : Z := 2 + nlog + ninodeblocks + nbitmap.
Definition nblocks : Z := FSSIZE - nmeta.
Definition zeroes : list Z := replicate (Z.to_nat BSIZE) 0.

(** The static variables. *)
Record mkstate := mkMkstate { mk_img : list (list Z); mk_sb : superblock; mk_freeinode : Z; mk_freeblock : Z }.
Definition set_img (v : list (list Z)) (s : mkstate) : mkstate := mkMkstate v (mk_sb s) (mk_freeinode s) (mk_freeblock s).
Definition set_mksb (v : superblock) (s : mkstate) : mkstate := mkMkstate (mk_img s) v (mk_freeinode s) (mk_freeblock s).
Definition set_freeinode (v : Z) (s : mkstate) : mkstate := mkMkstate (mk_img s) (mk_sb s) v (mk_freeblock s).
Definition set_freeblock (v : Z) (s : mkstate) : mkstate := mkMkstate (mk_img s) (mk_sb s) (mk_freeinode s) v.
Definition mkstate0 : mkstate := mkMkstate [] superblock0 1 0.
Local Notation H := (M mkstate).

Definition xshort (x : Z) : Z := get16 [u8 x; u8 (Z.shiftr x 8)] 0.
Definition xint (x : Z) : Z := get32 [u8 x; u8 (Z.shiftr x 8); u8 (Z.shiftr x 16); u8 (Z.shiftr x 24)] 0.

Definition wsect_img (sec : nat) (buf : list Z) (img : list (list Z)) : list (list Z) :=
  if decide (sec < length img)%nat then <[sec := buf]> img else img ++ replicate (sec - length img) zeroes ++ [buf].
Definition wsect (sec : Z) (buf : list Z) : H unit := modify (fun s => set_img (wsect_img (Z.to_nat sec) buf (mk_img s)) s).
Definition rsect (sec : Z) : H (list Z) :=
  o <- gets (fun s => mk_img s !! Z.to_nat sec);;
  match o with Some buf => ret buf | None => panic "read" end.

Definition winode (inum : Z) (ip : inode) : H unit :=
  bn <- gets (fun s => IBLOCK inum (mk_sb s));;
  buf <- rsect bn;;
  wsect bn (store_dinode buf (dinode_off inum) ip).
Definition rinode (inum : Z) : H inode :=
  bn <- gets (fun s => IBLOCK inum (mk_sb s));;
  buf <- rsect bn;;
  ret (load_dinode buf (dinode_off inum) inode0).

Definition ialloc (type : Z) : H Z :=
  inum <- gets mk_freeinode;;
  modify (set_freeinode (u32 (inum + 1)));;;
  winode inum (set_i_size (xint 0) (set_i_nlink (xshort 1) (set_i_type (xshort type) inode0)));;;
  ret inum.

(** buf[i/8] |= 1 << (i%8) for the first [used] bits. *)
Definition bitmap_of (used : Z) : list Z := foldl bit_set zeroes (seqZ 0 used).
Definition balloc (used : Z) : H unit :=
  if decide (used < BSIZE * 8) then
    b <- gets (fun s => sb_bmapstart (mk_sb s));;
    wsect b (bitmap_of used)
  else panic "assert".

(** freeblock++ *)
Definition next_block : H Z := fb <- gets mk_freeblock;; modify (set_freeblock (u32 (fb + 1)));;; ret fb.

(** din.addrs[i], allocated when it is zero. *)
Definition addr_fill (din : inode) (i : Z) : H inode :=
  if decide (xint (addr_of din i) = 0) then fb <- next_block;; ret (set_addr i (xint fb) din) else ret din.

(** The block of the file at index [fbn], and the inode with it. *)
Definition block_at (din : inode) (fbn : Z) : H (inode * Z) :=
  if decide (fbn < NDIRECT) then
    din <- addr_fill din fbn;; ret (din, xint (addr_of din fbn))
  else
    din <- addr_fill din NDIRECT;;
    indirect <- rsect (xint (addr_of din NDIRECT));;
    let j := 4 * (fbn - NDIRECT) in
    indirect <- (if decide (get32 indirect j = 0) then
                   fb <- next_block;;
                   let indirect := put32 indirect j (xint fb) in
                   wsect (xint (addr_of din NDIRECT)) indirect;;;
                   ret indirect
                 else ret indirect);;
    ret (din, xint (get32 indirect j)).

(** One turn of iappend(): the inode, the offset and the bytes that are left. *)
Definition iappend_turn (st : inode * Z * list Z) : H (inode * Z + inode * Z * list Z) :=
  let '(din, off, p) := st in
  if decide (Z.of_nat (length p) > 0) then
    let fbn := off / BSIZE in
    if decide (fbn < MAXFILE) then
      r <- block_at din fbn;;
      let n1 := Z.min (Z.of_nat (length p)) ((fbn + 1) * BSIZE - off) in
      buf <- rsect (snd r);;
      wsect (snd r) (splice buf (off - fbn * BSIZE) (take (Z.to_nat n1) p));;;
      ret (inr (fst r, off + n1, drop (Z.to_nat n1) p))
    else panic "assert"
  else ret (inl (din, off)).

Definition iappend (inum : Z) (p : list Z) : H unit :=
  din <- rinode inum;;
  r <- loop_ (S (length p)) iappend_turn (din, xint (i_size din), p);;
  winode inum (set_i_size (xint (snd r)) (fst r)).

(** ** main() *)
Definition the_sb : superblock :=
  mkSuperblock FSMAGIC (xint FSSIZE) (xint nblocks) (xint NINODES) (xint nlog) (xint 2) (xint (2 + nlog)) (xint (2 + nlog + ninodeblocks)).
(** struct superblock in its block. *)
Definition encode_sb (sb : superblock) : list Z :=
  put32 (put32 (put32 (put32 (put32 (put32 (put32 (put32 zeroes 0 (sb_magic sb)) 4 (sb_size sb)) 8 (sb_nblocks sb)) 12 (sb_ninodes sb))
    16 (sb_nlog sb)) 20 (sb_logstart sb)) 24 (sb_inodestart sb)) 28 (sb_bmapstart sb).

(** strcpy() and strncpy() into the cleared name of a directory entry. *)
Definition entry_name (s : list Z) : list Z := take DIRSIZ s ++ replicate (DIRSIZ - length s) 0.
Definition new_entry (inum : Z) (name : list Z) : list Z := encode_dirent (mkDirent (xshort inum) (entry_name name)).

Record srcfile := mkSrcfile { sf_path : list Z; sf_reads : option (list (list Z)) }.
Definition user_slash : list Z := [117; 115; 101; 114; 47].
Definition shortname (path : list Z) : list Z := if decide (take 5 path = user_slash) then drop 5 path else path.
Definition skip_underscore (s : list Z) : list Z := match s with 95 :: s' => s' | _ => s end.

Definition add_file (rootino : Z) (f : srcfile) : H unit :=
  let name := shortname (sf_path f) in
  if decide (47 ∈ name) then panic "assert" else
  match sf_reads f with
  | None => panic "open"
  | Some chunks =>
      inum <- ialloc T_FILE;;
      iappend rootino (new_entry inum (skip_underscore name));;;
      for_ chunks (iappend inum)
  end.

(** Round the size of the root directory up. *)
Definition fix_root (rootino : Z) : H unit :=
  din <- rinode rootino;;
  winode rootino (set_i_size (xint ((xint (i_size din) / BSIZE + 1) * BSIZE)) din).

Definition main (files : list srcfile) : H unit :=
  modify (set_mksb the_sb);;;
  modify (set_freeblock nmeta);;;
  for_ (seqZ 0 FSSIZE) (fun i => wsect i zeroes);;;
  wsect 1 (encode_sb the_sb);;;
  rootino <- ialloc T_DIR;;
  if decide (rootino = ROOTINO) then
    iappend rootino (new_entry rootino [46]);;;
    iappend rootino (new_entry rootino [46; 46]);;;
    for_ files (add_file rootino);;;
    fix_root rootino;;;
    fb <- gets mk_freeblock;;
    balloc fb
  else panic "assert".
