(* ===== verification/MkfsSpec.v ===== *)
(** * The file system that mkfs makes

    The view of the image has the bitmap that mkfs writes at the end, marking
    the blocks below freeblock, at every moment; with it, taking the next block
    is an allocation as the kernel makes it, and the files of the image are
    well formed in the sense of the kernel's files ([file_ok]).  [image]: what
    the image holds while mkfs adds files. *)

From S2P Require Import Prelude Machine Kernel Bio BioSpec Log LogSpec LogCommit Fs FsSpec FsTx FsAlloc FsFile FsGrow FsBytes Mkfs.

Lemma shiftr_div x n : 0 <= n -> Z.shiftr x n = x / 2 ^ n.
Proof. apply Z.shiftr_div_pow2. Qed.
Lemma get16_bytes a b : get16 [a; b] 0 = a + 2 ^ 8 * b.
Proof. reflexivity. Qed.
Lemma get32_bytes a b c d : get32 [a; b; c; d] 0 = a + 2 ^ 8 * b + 2 ^ 16 * (c + 2 ^ 8 * d).
Proof. reflexivity. Qed.
Lemma xint_id x : 0 <= x < 2 ^ 32 -> xint x = x.
Proof.
  intros Hx. unfold xint. rewrite get32_bytes, !shiftr_div by lia. unfold u8. Z.to_euclidean_division_equations. lia.
Qed.
Lemma xshort_id x : 0 <= x < 2 ^ 16 -> xshort x = x.
Proof.
  intros Hx. unfold xshort. rewrite get16_bytes, shiftr_div by lia. unfold u8. Z.to_euclidean_division_equations. lia.
Qed.
Lemma the_sb_eq : the_sb = mkSuperblock FSMAGIC 1000 954 200 30 2 32 45.
Proof. by vm_compute. Qed.
Lemma the_geometry : geometry the_sb.
Proof. rewrite the_sb_eq. constructor; cbn; lia. Qed.
Lemma the_data_start : data_start the_sb = 46 /\ sb_size the_sb = 1000 /\ sb_bmapstart the_sb = 45 /\ sb_inodestart the_sb = 32.
Proof. by rewrite the_sb_eq. Qed.

(** ** The bitmap *)
Lemma bitmap_of_len n : length (bitmap_of n) = Z.to_nat BSIZE.
Proof.
  unfold bitmap_of. assert (length zeroes = Z.to_nat BSIZE) as E by apply length_replicate. revert E. generalize zeroes.
  induction (seqZ 0 n) as [|i l IH]; intros d E; cbn; [done|]. apply IH. unfold bit_set. by rewrite length_put8.
Qed.
Lemma bitmap_of_next n : 0 <= n -> bitmap_of (n + 1) = bit_set (bitmap_of n) n.
Proof. intros Hn. unfold bitmap_of. rewrite seqZ_app by lia. rewrite foldl_app. rewrite Z.add_0_l. by rewrite (seqZ_cons n 1) by lia. Qed.
Lemma bitmap_of_free n b : 0 <= n <= BPB -> 0 <= b < BPB -> bit_free (bitmap_of n) b <-> n <= b.
Proof.
  intros Hn Hb. destruct Hn as [Hn0 Hn]. revert Hn. pattern n. apply natlike_ind; [| |done].
  - intros _. split; [lia|]. intros _. unfold bit_free. change (bitmap_of 0) with zeros. by rewrite byte_at_zeros, Z.land_0_l.
  - intros m Hm IH Hle. rewrite <- Z.add_1_r, bitmap_of_next by done. rewrite bit_free_set; [rewrite IH by lia; lia|lia|lia|].
    rewrite bitmap_of_len. rewrite BPB_eq in *. unfold BSIZE. Z.to_euclidean_division_equations. lia.
Qed.

(** ** The image *)
(** Block [b] of the device that the image is for. *)
Definition img_block (s : mkstate) (b : Z) : list Z := if decide (0 <= b) then default zeros (mk_img s !! Z.to_nat b) else zeros.
Definition view (s : mkstate) (b : Z) : list Z :=
  if decide (b = 45) then bitmap_of (mk_freeblock s) else if decide (0 <= b) then default zeros (mk_img s !! Z.to_nat b) else zeros.
Record disk_ok (s : mkstate) (c : Z -> list Z) (fb : Z) : Prop := mkDiskOk {
  dk_sb : mk_sb s = the_sb;
  dk_len : length (mk_img s) = 1000%nat;
  dk_view b : c b = view s b;
  dk_blocks b : length (c b) = Z.to_nat BSIZE;
  dk_fb : mk_freeblock s = fb;
  dk_range : 46 <= fb <= 1000;
  dk_zero b : fb <= b < 1000 -> c b = zeros
}.

Lemma dk_at s c fb b : disk_ok s c fb -> 0 <= b < 1000 -> b <> 45 -> mk_img s !! Z.to_nat b = Some (c b).
Proof.
  intros Hd Hb Hn. rewrite (dk_view _ _ _ Hd). unfold view. rewrite decide_False, decide_True by (done || lia).
  destruct (lookup_lt_is_Some_2 (mk_img s) (Z.to_nat b)) as [v ->]; [|done]. rewrite (dk_len _ _ _ Hd). lia.
Qed.
Lemma rsect_ok e s c fb b : disk_ok s c fb -> 0 <= b < 1000 -> b <> 45 -> rsect b e s = Ok (c b) e s.
Proof. intros Hd Hb Hn. unfold rsect. cbn [bind gets]. by rewrite (dk_at s c fb b). Qed.
Lemma wsect_ok e s c fb b d :
  disk_ok s c fb -> 0 <= b < fb -> b <> 45 -> length d = Z.to_nat BSIZE ->
  exists s', wsect b d e s = Ok tt e s' /\ disk_ok s' (fupd b d c) fb /\ mk_freeinode s' = mk_freeinode s.
Proof.
  intros [D1 D2 D3 D4 D5 D6 D7] Hb Hn Hd. eexists. split; [done|]. split; [|done].
  assert (Z.to_nat b < length (mk_img s))%nat as Hlt by lia. constructor; try done.
  - cbn. unfold wsect_img. rewrite decide_True by done. by rewrite length_insert.
  - intros x. unfold fupd, view. cbn. unfold wsect_img. rewrite (decide_True (P := (_ < _)%nat)) by done.
    destruct (decide (x = b)) as [->|Hx].
    + rewrite decide_False, decide_True by (done || lia). by rewrite list_lookup_insert_eq.
    + rewrite D3. unfold view. case_decide; [done|]. case_decide; [|done]. by rewrite list_lookup_insert_ne by lia.
  - intros x. unfold fupd. by case_decide.
  - intros x Hx. rewrite fupd_ne by lia. by apply D7.
Qed.
Lemma next_block_ok e s c fb :
  disk_ok s c fb -> fb < 1000 ->
  exists s', next_block e s = Ok fb e s' /\ disk_ok s' (allocated the_sb fb c) (fb + 1) /\ mk_freeinode s' = mk_freeinode s.
Proof.
  intros [D1 D2 D3 D4 D5 D6 D7] Hlt. eexists. split; [unfold next_block; cbn [bind gets modify ret]; by rewrite D5|]. split; [|done].
  assert (u32 (fb + 1) = fb + 1) as Eu by (apply u32_small; lia). cbn. rewrite Eu.
  destruct the_data_start as (S1 & S2 & S3 & S4). pose proof the_geometry as G.
  assert (BBLOCK fb the_sb = 45) as Eb. { rewrite BBLOCK_eq by (done || lia). rewrite S3, BPB_eq. rewrite Z.div_small by lia. done. }
  assert (fb mod BPB = fb) as Em by (apply Z.mod_small; rewrite BPB_eq; lia).
  assert (forall x, allocated the_sb fb c x = if decide (x = 45) then bitmap_of (fb + 1) else c x) as Ea.
  { intros x. unfold allocated, mark_used, fupd. rewrite Eb, Em. destruct (decide (x = fb)) as [->|Hx].
    - rewrite decide_False by lia. symmetry. apply D7. lia.
    - destruct (decide (x = 45)) as [->|Hx']; [|done].
      rewrite D3. unfold view. rewrite decide_True by done. rewrite D5. by rewrite bitmap_of_next by lia. }
  constructor; cbn; try done.
  - intros x. rewrite Ea. unfold view. cbn. case_decide; [done|]. rewrite D3. unfold view. by rewrite (decide_False (P := x = 45)) by done.
  - intros x. rewrite Ea. case_decide; [apply bitmap_of_len|done].
  - lia.
  - intros x Hx. rewrite Ea. rewrite decide_False by lia. apply D7. lia.
Qed.

(** The bitmap of the view. *)
Lemma disk_free s c fb b : disk_ok s c fb -> 0 <= b < 1000 -> block_free c the_sb b <-> fb <= b.
Proof.
  intros [D1 D2 D3 D4 D5 D6 D7] Hb. destruct the_data_start as (S1 & S2 & S3 & S4). unfold block_free.
  rewrite BBLOCK_eq by (apply the_geometry || lia). rewrite S3, BPB_eq, Z.div_small, Z.mod_small by lia. rewrite D3. unfold view. rewrite decide_True by done. rewrite D5.
  apply bitmap_of_free; rewrite BPB_eq; lia.
Qed.
Lemma disk_bitmap s c fb : disk_ok s c fb -> bitmap_ok c the_sb.
Proof.
  intros Hd b Hb Hf. destruct the_data_start as (S1 & S2 & S3 & S4). rewrite S2 in Hb. apply (disk_free s c fb) in Hf; [|done|done].
  pose proof (dk_range _ _ _ Hd). lia.
Qed.

(** ** The blocks of a file *)
(** The file has exactly its first [nb] blocks. *)
Record exact (c : Z -> list Z) (x : inode) (nb : Z) : Prop := mkExact {
  ex_blocks bn : 0 <= bn < MAXFILE -> faddr c x bn <> 0 <-> bn < nb;
  ex_ind : addr_of x NDIRECT <> 0 <-> NDIRECT < nb
}.
(** The blocks it takes, with the indirect block. *)
Definition blocks_of (nb : Z) : Z := nb + (if decide (NDIRECT < nb) then 1 else 0).
Definition nblocks_of (size : Z) : Z := (size + BSIZE - 1) / BSIZE.

Lemma addr_range c x i : file_ok the_sb c x -> 0 <= addr_of x i < 2 ^ 32.
Proof.
  intros Hf. pose proof (file_addrs the_sb c x the_geometry Hf) as HF. unfold addr_of. rewrite nth_lookup. destruct (i_addrs x !! Z.to_nat i) as [v|] eqn:E; [|done].
  rewrite Forall_lookup in HF. apply (HF _ _ E).
Qed.
Lemma faddr_range c x bn : file_ok the_sb c x -> 0 <= bn < MAXFILE -> 0 <= faddr c x bn < 2 ^ 32.
Proof.
  intros Hf Hb. destruct (decide (faddr c x bn = 0)) as [->|Hn]; [done|]. destruct (fo_own _ _ _ Hf _ (faddr_in c x bn Hb Hn)) as [Hr _].
  destruct the_data_start as (S1 & S2 & _). lia.
Qed.

Section BlockAt.
Context (e : list (mkstate -> mkstate)) (s : mkstate) (c : Z -> list Z) (fb nb : Z) (x : inode).
Context (Hd : disk_ok s c fb) (Hf : file_ok the_sb c x) (Hex : exact c x nb).

Lemma fresh_fb : fb < 1000 -> data_start the_sb <= fb < sb_size the_sb /\ block_free c the_sb fb.
Proof.
  intros Hlt. destruct the_data_start as (S1 & S2 & _). pose proof (dk_range _ _ _ Hd). split; [lia|]. apply (disk_free s c fb fb Hd); lia.
Qed.
(** An address that is filled in. *)
Lemma addr_fill_new i :
  addr_of x i = 0 -> fb < 1000 ->
  exists s', addr_fill x i e s = Ok (set_addr i fb x) e s' /\ disk_ok s' (allocated the_sb fb c) (fb + 1) /\ mk_freeinode s' = mk_freeinode s.
Proof.
  intros Hz Hlt. unfold addr_fill. rewrite Hz. rewrite (decide_True (P := xint 0 = 0)) by done.
  destruct (next_block_ok e s c fb Hd Hlt) as (s' & E & H1 & H2). cbn [bind]. rewrite E. cbn [ret]. exists s'.
  pose proof (dk_range _ _ _ Hd). by rewrite xint_id by lia.
Qed.
Lemma addr_fill_old i : addr_of x i <> 0 -> addr_fill x i e s = Ok x e s.
Proof. intros Hn. unfold addr_fill. rewrite xint_id by by apply (addr_range c). by rewrite decide_False. Qed.

(** A direct block. *)
Lemma block_at_direct fbn :
  0 <= fbn < NDIRECT -> fbn = nb -> fb < 1000 ->
  exists s' c' x', block_at x fbn e s = Ok (x', fb) e s' /\ disk_ok s' c' (fb + 1) /\ mk_freeinode s' = mk_freeinode s /\
    grew the_sb c c' x x' fbn fb /\ exact c' x' (nb + 1).
Proof.
  intros Hb -> Hlt. destruct (fresh_fb Hlt) as [F1 F2]. assert (0 <= nb < MAXFILE) as Hb' by (unfold MAXFILE; rewrite NINDIRECT_eq; lia).
  assert (addr_of x nb = 0) as Hz.
  { destruct (decide (addr_of x nb = 0)) as [|Hn]; [done|]. assert (faddr c x nb <> 0) as Hn' by (unfold faddr; rewrite decide_True; [done|lia]).
    apply (ex_blocks _ _ _ Hex nb Hb') in Hn'. lia. }
  destruct (addr_fill_new nb Hz Hlt) as (s' & E & H1 & H2). pose proof (dk_range _ _ _ Hd).
  exists s', (allocated the_sb fb c), (set_addr nb fb x). split_and!; try done.
  - unfold block_at. rewrite decide_True by lia. cbn [bind]. rewrite E. cbn [bind ret]. rewrite addr_of_set by (apply Hf || lia).
    rewrite decide_True by done. by rewrite xint_id by lia.
  - by apply (grew_direct the_sb c x fb the_geometry Hf F1 F2 (dk_blocks _ _ _ Hd) (disk_bitmap _ _ _ Hd)).
  - constructor.
    + intros bn Hbn. rewrite (faddr_direct the_sb c x fb the_geometry Hf F1 F2) by done. case_decide as Eb; [lia|]. rewrite (ex_blocks _ _ _ Hex) by done. lia.
    + rewrite addr_of_set by (apply Hf || lia). rewrite decide_False by lia. rewrite (ex_ind _ _ _ Hex). lia.
Qed.

(** The part of the search that uses the indirect block. *)
Definition block_tail (din : inode) (fbn : Z) : M mkstate (inode * Z) :=
  indirect <- rsect (xint (addr_of din NDIRECT));;
  let j := 4 * (fbn - NDIRECT) in
  indirect <- (if decide (get32 indirect j = 0) then
                 fb <- next_block;;
                 let indirect := put32 indirect j (xint fb) in
                 wsect (xint (addr_of din NDIRECT)) indirect;;;
                 ret indirect
               else ret indirect);;
  ret (din, xint (get32 indirect j)).
Lemma block_at_indirect din fbn : NDIRECT <= fbn -> block_at din fbn = bind (addr_fill din NDIRECT) (fun din => block_tail din fbn).
Proof. intros Hb. unfold block_at. by rewrite decide_False by lia. Qed.

Lemma own_range a : in_file c x a -> 46 <= a < fb.
Proof.
  intros Ha. destruct (fo_own _ _ _ Hf a Ha) as [Hr Hn]. destruct the_data_start as (S1 & S2 & _). rewrite S1, S2 in Hr.
  split; [lia|]. destruct (decide (fb <= a)) as [Hle|]; [|lia]. destruct Hn. apply (disk_free s c fb a Hd); lia.
Qed.
Lemma block_tail_old fbn :
  NDIRECT <= fbn < MAXFILE -> faddr c x fbn <> 0 -> block_tail x fbn e s = Ok (x, faddr c x fbn) e s.
Proof.
  intros Hb Hn. pose proof (faddr_range c x fbn Hf ltac:(unfold NDIRECT in *; lia)) as Hr. unfold faddr in Hn, Hr |- *. rewrite decide_False in Hn, Hr |- * by lia.
  case_decide as Hi; [done|]. unfold block_tail. rewrite xint_id by by apply (addr_range c). pose proof (own_range _ (ind_in c x Hi)). pose proof (dk_range _ _ _ Hd).
  cbn [bind]. rewrite (rsect_ok e s c fb) by (done || lia). rewrite decide_False by done. cbn [ret]. by rewrite xint_id.
Qed.
Lemma block_tail_new fbn :
  NDIRECT <= fbn < MAXFILE -> addr_of x NDIRECT <> 0 -> faddr c x fbn = 0 -> fb < 1000 ->
  exists s', block_tail x fbn e s = Ok (x, fb) e s' /\ disk_ok s' (with_entry the_sb c x fb fbn) (fb + 1) /\ mk_freeinode s' = mk_freeinode s.
Proof.
  intros Hb Hi Hz Hlt. destruct (fresh_fb Hlt) as [F1 F2]. pose proof (own_range _ (ind_in c x Hi)) as Ho. pose proof (dk_range _ _ _ Hd) as Hr.
  unfold faddr in Hz. rewrite decide_False in Hz by lia. rewrite decide_False in Hz by done. pose proof (dk_blocks _ _ _ Hd (addr_of x NDIRECT)) as Hlen.
  unfold block_tail. rewrite xint_id by by apply (addr_range c). cbn [bind]. rewrite (rsect_ok e s c fb) by (done || lia). rewrite decide_True by done.
  destruct (next_block_ok e s c fb Hd Hlt) as (s1 & E1 & D1 & I1). cbn [bind]. rewrite E1. cbn [bind]. rewrite (xint_id fb) by lia.
  pose proof (allocated_own the_sb c x fb the_geometry Hf F1 F2 _ (ind_in c x Hi)) as Eo.
  destruct (wsect_ok e s1 _ (fb + 1) (addr_of x NDIRECT) (put32 (c (addr_of x NDIRECT)) (4 * (fbn - NDIRECT)) fb) D1) as (s2 & E2 & D2 & I2); [lia|lia|by rewrite length_put32|].
  rewrite E2. cbn [ret]. exists s2. split_and!.
  - rewrite get32_put32 by (unfold inside; rewrite Hlen, BSIZE_eq; unfold MAXFILE in Hb; rewrite NINDIRECT_eq in Hb; lia). rewrite u32_small by lia. by rewrite xint_id by lia.
  - unfold with_entry. by rewrite Eo.
  - by rewrite I2.
Qed.
Lemma exact_entry fbn c' : fbn = nb -> NDIRECT < nb -> grew the_sb c c' x x fbn fb ->
  (forall bn', 0 <= bn' < MAXFILE -> faddr c' x bn' = if decide (bn' = fbn) then fb else faddr c x bn') -> exact c' x (nb + 1).
Proof.
  intros -> Hi Hgw Ha. pose proof (gw_pos _ _ _ _ _ _ _ Hgw). constructor.
  - intros bn Hbn. rewrite Ha by done. case_decide; [lia|]. rewrite (ex_blocks _ _ _ Hex) by done. lia.
  - rewrite (ex_ind _ _ _ Hex). lia.
Qed.

Lemma block_at_old fbn : 0 <= fbn < MAXFILE -> faddr c x fbn <> 0 -> block_at x fbn e s = Ok (x, faddr c x fbn) e s.
Proof.
  intros Hb Hn. destruct (decide (fbn < NDIRECT)) as [Hlt|Hge].
  - unfold block_at. rewrite decide_True by done. unfold faddr in *. rewrite decide_True in Hn |- * by done. cbn [bind]. rewrite addr_fill_old by done.
    by rewrite xint_id by by apply (addr_range c).
  - rewrite block_at_indirect by lia. cbn [bind]. rewrite addr_fill_old; [apply block_tail_old; [lia|done]|].
    unfold faddr in Hn. rewrite decide_False in Hn by done. by case_decide.
Qed.
End BlockAt.

Lemma block_at_ok e s c fb nb x fbn :
  let nb' := Z.max nb (fbn + 1) in let fb' := fb + blocks_of nb' - blocks_of nb in
  disk_ok s c fb -> file_ok the_sb c x -> exact c x nb -> 0 <= fbn < MAXFILE -> fbn <= nb -> fb' <= 1000 ->
  exists s' c' x' b, block_at x fbn e s = Ok (x', b) e s' /\ disk_ok s' c' fb' /\ mk_freeinode s' = mk_freeinode s /\
    grew the_sb c c' x x' fbn b /\ exact c' x' nb'.
Proof.
  intros nb' fb' Hd Hf Hex Hb Hle Hfit. destruct (decide (fbn = nb)) as [Hnb|Hnb].
  2: { assert (nb' = nb) as En by (unfold nb'; lia). assert (faddr c x fbn <> 0) as Hn by (apply (ex_blocks _ _ _ Hex); lia).
    exists s, c, x, (faddr c x fbn). unfold fb'. rewrite En. replace (fb + blocks_of nb - blocks_of nb) with fb by lia.
    split_and!; try done; [by apply (block_at_old e s c fb)|]. apply grew_refl; [done|by apply (disk_bitmap s c fb)|done]. }
  assert (nb' = nb + 1) as En by (unfold nb'; lia). rewrite En in *. unfold blocks_of in fb'. pose proof (dk_blocks _ _ _ Hd) as Hlen. pose proof (disk_bitmap _ _ _ Hd) as Hbm.
  assert (faddr c x fbn = 0) as Hz. { destruct (decide (faddr c x fbn = 0)) as [|Hn]; [done|]. apply (ex_blocks _ _ _ Hex) in Hn; lia. }
  destruct (decide (fbn < NDIRECT)) as [Hlt|Hge].
  { assert (fb' = fb + 1) as -> by (unfold fb'; rewrite !decide_False by lia; lia).
    destruct (block_at_direct e s c fb nb x Hd Hf Hex fbn) as (s' & c' & x' & R); [lia|done|lia|]. by exists s', c', x', fb. }
  rewrite block_at_indirect by lia. destruct (decide (NDIRECT < nb)) as [Hi|Hi].
  - assert (fb' = fb + 1) as E1 by (unfold fb'; rewrite !decide_True by lia; lia). rewrite E1 in *. destruct (fresh_fb s c fb Hd ltac:(lia)) as [F1 F2].
    assert (addr_of x NDIRECT <> 0) as Hind by by apply (ex_ind _ _ _ Hex).
    destruct (block_tail_new e s c fb x Hd Hf fbn) as (s' & E & D' & I'); [lia|done|done|lia|].
    exists s', (with_entry the_sb c x fb fbn), x, fb. cbn [bind]. rewrite (addr_fill_old e s c x Hf) by done.
    pose proof (grew_entry the_sb c x fb the_geometry Hf F1 F2 Hlen Hbm fbn ltac:(lia) Hind Hz) as Hgw. split_and!; try done.
    apply (exact_entry c fb nb x Hex fbn); try done. intros bn' Hb'. apply (faddr_entry the_sb c x fb the_geometry Hf F1 F2 Hlen); [lia|done|done].
  - assert (fb' = fb + 2) as E1 by (unfold fb'; rewrite (decide_True (P := NDIRECT < nb')) by lia; lia). rewrite E1 in *. destruct (fresh_fb s c fb Hd ltac:(lia)) as [F1 F2].
    assert (addr_of x NDIRECT = 0) as Hind. { destruct (decide (addr_of x NDIRECT = 0)) as [|Hn]; [done|]. apply (ex_ind _ _ _ Hex) in Hn. lia. }
    destruct (addr_fill_new e s c fb x Hd NDIRECT Hind ltac:(lia)) as (s1 & Ef & D1 & I1). destruct (indirect_ok the_sb c x fb the_geometry Hf F1 F2 Hlen Hind) as [Hf1 _].
    set (c1 := allocated the_sb fb c) in *. set (x1 := set_addr NDIRECT fb x) in *. pose proof (dk_range _ _ _ Hd).
    assert (addr_of x1 NDIRECT = fb) as Hx1 by (unfold x1; rewrite addr_of_set by (apply Hf || done); by rewrite decide_True).
    pose proof (faddr_indirect the_sb c x fb the_geometry Hf F1) as Efa. fold c1 x1 in Efa. destruct (fresh_fb s1 c1 (fb + 1) D1 ltac:(lia)) as [F3 F4].
    destruct (block_tail_new e s1 c1 (fb + 1) x1 D1 Hf1 fbn) as (s2 & E2 & D2 & I2); [lia|lia|by rewrite Efa|lia|]. replace (fb + 1 + 1) with (fb + 2) in D2 by lia.
    exists s2, (with_entry the_sb c1 x1 (fb + 1) fbn), x1, (fb + 1). cbn [bind]. rewrite Ef.
    pose proof (dk_blocks _ _ _ D1) as Hlen1. assert (faddr c1 x1 fbn = 0) as Hz1 by by rewrite Efa.
    pose proof (grew_entry the_sb c1 x1 (fb + 1) the_geometry Hf1 F3 F4 Hlen1 (disk_bitmap _ _ _ D1) fbn ltac:(lia) ltac:(lia) Hz1) as Hgw.
    split_and!; [done|done|by rewrite I2| |].
    + by apply (grew_indirect the_sb c x fb the_geometry Hf F1 F2 Hlen).
    + constructor; [|rewrite Hx1; lia]. intros bn Hbn. rewrite (faddr_entry the_sb c1 x1 (fb + 1) the_geometry Hf1 F3 F4 Hlen1) by (lia || done).
      case_decide; [lia|]. rewrite Efa by done. rewrite (ex_blocks _ _ _ Hex) by done. lia.
Qed.

(** ** iappend() *)
Lemma blocks_of_mono a b : a <= b -> blocks_of a <= blocks_of b.
Proof. intros Hab. unfold blocks_of. repeat case_decide; lia. Qed.
Lemma size_blocks_mono a b : a <= b -> blocks_of (nblocks_of a) <= blocks_of (nblocks_of b).
Proof. intros Hab. apply blocks_of_mono. unfold nblocks_of. rewrite BSIZE_eq. apply Z.div_le_mono; lia. Qed.

Section Iappend.
Context (fb0 : Z) (c0 : Z -> list Z) (x0 : inode) (off : Z) (data : list Z) (fi : Z).
Notation n := (Z.of_nat (length data)).
Context (Hoff : 0 <= off) (Hmax : off + n <= MAXFILE * BSIZE).
Definition fb_at (tot : Z) : Z := fb0 + blocks_of (nblocks_of (off + tot)) - blocks_of (nblocks_of off).
Context (Hfit : fb_at n <= 1000).

Record appending (s : mkstate) (c : Z -> list Z) (x : inode) (tot : Z) : Prop := mkAppending {
  ap_disk : disk_ok s c (fb_at tot);
  ap_file : file_ok the_sb c x;
  ap_bytes : bytes_at the_sb c0 x0 off data c x tot;
  ap_exact : exact c x (nblocks_of (off + tot));
  ap_tail q : off + tot <= q < nblocks_of (off + tot) * BSIZE -> fbyte c x q = 0;
  ap_inode : mk_freeinode s = fi
}.

Lemma fb_at_mono t t' : 0 <= t <= t' -> fb_at t <= fb_at t'.
Proof.
  intros Ht. unfold fb_at. pose proof (size_blocks_mono (off + t) (off + t') ltac:(lia)). lia.
Qed.

Lemma iappend_turn_ok e s c x tot :
  appending s c x tot -> 0 <= tot < n ->
  exists s' c' x' m, 0 < m <= n - tot /\
    iappend_turn (x, off + tot, drop (Z.to_nat tot) data) e s = Ok (inr (x', off + (tot + m), drop (Z.to_nat (tot + m)) data)) e s' /\
    appending s' c' x' (tot + m).
Proof.
  intros [A1 A2 A3 A4 At A5] Ht. set (fbn := (off + tot) / BSIZE). set (m := Z.min (n - tot) (BSIZE - (off + tot) mod BSIZE)).
  assert (0 < m <= n - tot /\ (off + tot) mod BSIZE + m <= BSIZE /\ 0 <= fbn < MAXFILE /\ fbn <= nblocks_of (off + tot) /\
    Z.max (nblocks_of (off + tot)) (fbn + 1) = nblocks_of (off + (tot + m)) /\ off + tot - fbn * BSIZE = (off + tot) mod BSIZE /\ (fbn + 1) * BSIZE - (off + tot) = BSIZE - (off + tot) mod BSIZE) as (M1 & M2 & M3 & M4 & M5 & M6 & M7).
  { unfold m, fbn, nblocks_of. rewrite BSIZE_eq in *. Z.to_euclidean_division_equations. lia. }
  pose proof (fb_at_mono (tot + m) n ltac:(lia)) as Hmono. assert (fb_at tot + blocks_of (nblocks_of (off + (tot + m))) - blocks_of (nblocks_of (off + tot)) = fb_at (tot + m)) as Efb by (unfold fb_at; lia).
  destruct (block_at_ok e s c (fb_at tot) (nblocks_of (off + tot)) x fbn A1 A2 A4 M3 M4) as (s1 & c1 & x1 & b & E1 & D1 & I1 & Hgw & Hex1); [rewrite M5, Efb; lia|].
  rewrite M5 in Hex1, D1. rewrite Efb in D1. pose proof (gw_file _ _ _ _ _ _ _ Hgw) as Hf1. pose proof (dk_range _ _ _ D1) as Hr1.
  assert (46 <= b < fb_at (tot + m)) as Hb. { apply (own_range s1 c1 _ x1 D1 Hf1). rewrite <- (gw_at _ _ _ _ _ _ _ Hgw). apply faddr_in; [done|]. rewrite (gw_at _ _ _ _ _ _ _ Hgw). apply Hgw. }
  assert (length (drop (Z.to_nat tot) data) = Z.to_nat (n - tot)) as Hdl by (rewrite length_drop; lia).
  unfold iappend_turn. fold fbn. rewrite decide_True by (rewrite Hdl; lia). rewrite (decide_True (P := fbn < MAXFILE)) by lia. cbn [bind]. rewrite E1. cbn [fst snd].
  rewrite (rsect_ok e s1 c1 _ b D1) by lia. rewrite Hdl, Z2Nat.id by lia. rewrite M6, M7. fold m.
  change (take (Z.to_nat m) (drop (Z.to_nat tot) data)) with (slice data tot m).
  assert (length (slice data tot m) = Z.to_nat m) as Hsl by (apply length_slice; lia). pose proof (dk_blocks _ _ _ D1 b) as Hlb.
  destruct (wsect_ok e s1 c1 _ b (splice (c1 b) ((off + tot) mod BSIZE) (slice data tot m)) D1) as (s2 & E2 & D2 & I2); [lia|lia| |].
  { pose proof (Z.mod_pos_bound (off + tot) BSIZE ltac:(done)). rewrite length_splice; rewrite ?Hlb, ?Hsl; lia. }
  rewrite E2. exists s2, (stored c1 x1 fbn (splice (c1 b) ((off + tot) mod BSIZE) (slice data tot m))), x1, m. split; [done|]. split.
  - cbn [ret]. rewrite drop_drop. replace (Z.to_nat tot + Z.to_nat m)%nat with (Z.to_nat (tot + m)) by lia. by replace (off + tot + m) with (off + (tot + m)) by lia.
  - destruct (step_ok the_sb the_geometry off data c c1 x x1 tot m b Hgw) as (Hf2 & _ & _ & _); [done..|]. fold fbn in Hf2.
    constructor; [|done| | | |congruence].
    + unfold stored. by rewrite (gw_at _ _ _ _ _ _ _ Hgw).
    + apply (bytes_step the_sb the_geometry c0 x0 off n data Hoff Hmax eq_refl c c1 x x1); try (done || lia).
    + assert (faddr c1 x1 fbn <> 0) as Hn by (rewrite (gw_at _ _ _ _ _ _ _ Hgw); apply Hgw).
      constructor; [|apply Hex1]. intros bn Hbn. rewrite (stored_faddr the_sb) by done. by apply Hex1.
    + intros q Hq. assert (q / BSIZE = fbn /\ 0 <= q < MAXFILE * BSIZE /\ off + tot <= q) as (Q1 & Q2 & Q3).
      { unfold fbn, nblocks_of in *. rewrite BSIZE_eq in *. clear - Hq Ht M1 M2 M3 Hoff. Z.to_euclidean_division_equations. lia. }
      assert (faddr c1 x1 (q / BSIZE) <> 0) as Hn by (rewrite Q1, (gw_at _ _ _ _ _ _ _ Hgw); apply Hgw).
      rewrite (step_fbyte the_sb off n data Hoff eq_refl c c1 x x1 tot m b Hgw) by (done || lia). rewrite decide_False by lia.
      destruct (decide (faddr c x fbn = 0)) as [Hz|Hz].
      * unfold fbyte. rewrite Q1, (gw_at _ _ _ _ _ _ _ Hgw). rewrite (gw_new _ _ _ _ _ _ _ Hgw Hz). apply byte_at_zeros.
      * rewrite (grew_fbyte _ _ _ _ _ _ _ q Hgw); [|done|by rewrite Q1]. apply At. split; [done|]. apply (ex_blocks _ _ _ A4) in Hz; [|done].
        unfold fbn in *. clear - Q1 Hz Q2. rewrite BSIZE_eq in *. Z.to_euclidean_division_equations. lia.
Qed.

Lemma iappend_loop e fuel : forall s c x tot,
  appending s c x tot -> 0 <= tot <= n -> (Z.to_nat (n - tot) < fuel)%nat ->
  exists s' c' x', loop_ fuel iappend_turn (x, off + tot, drop (Z.to_nat tot) data) e s = Ok (x', off + n) e s' /\ appending s' c' x' n.
Proof.
  induction fuel as [|fuel IH]; intros s c x tot Ha Ht Hfu; [lia|]. cbn [loop_ bind]. destruct (decide (tot = n)) as [->|Hne].
  - unfold iappend_turn at 1. rewrite decide_False by (rewrite length_drop; lia). by exists s, c, x.
  - destruct (iappend_turn_ok e s c x tot Ha ltac:(lia)) as (s1 & c1 & x1 & m & Hm & E1 & H1). rewrite E1.
    apply (IH s1 c1 x1 (tot + m) H1); lia.
Qed.
End Iappend.

(** ** The files of the image *)
Lemma exact_mapped c x : exact c x (nblocks_of (i_size x)) -> 0 <= i_size x <= MAXFILE * BSIZE -> mapped c x.
Proof.
  intros Hex Hs. split; [done|]. intros bn Hb Hlt. apply (ex_blocks _ _ _ Hex).
  - rewrite BSIZE_eq in *. lia.
  - unfold nblocks_of. rewrite BSIZE_eq in *. Z.to_euclidean_division_equations. lia.
Qed.
Lemma exact_ext c c' x x' nb : (forall bn, faddr c' x' bn = faddr c x bn) -> addr_of x' NDIRECT = addr_of x NDIRECT -> exact c x nb -> exact c' x' nb.
Proof. intros E1 E2 [X1 X2]. constructor; [intros bn; rewrite E1; apply X1|by rewrite E2]. Qed.

Record good_file (c : Z -> list Z) (x : inode) : Prop := mkGoodFile {
  gf_ok : file_ok the_sb c x;
  gf_exact : exact c x (nblocks_of (i_size x));
  gf_tail q : i_size x <= q < nblocks_of (i_size x) * BSIZE -> fbyte c x q = 0;
  gf_fits : inode_fits x;
  gf_size : 0 <= i_size x <= MAXFILE * BSIZE
}.
(** The bytes up to the end of the last block are in blocks of the file. *)
Lemma good_block c x q : good_file c x -> 0 <= q < nblocks_of (i_size x) * BSIZE -> 0 <= q < MAXFILE * BSIZE /\ faddr c x (q / BSIZE) <> 0.
Proof.
  intros [F1 F2 F3 F4 F5] Hq. assert (nblocks_of (i_size x) <= MAXFILE) as Hn.
  { unfold nblocks_of. rewrite BSIZE_eq in *. Z.to_euclidean_division_equations. lia. }
  assert (0 <= q < MAXFILE * BSIZE) as Hq' by (rewrite BSIZE_eq in *; lia). split; [done|].
  apply (ex_blocks _ _ _ F2); [by apply block_of_q|]. rewrite BSIZE_eq in *. Z.to_euclidean_division_equations. lia.
Qed.
(** Inode [i + 1] of the image is [xs !! i]. *)
Record image (s : mkstate) (c : Z -> list Z) (xs : list inode) : Prop := mkImage {
  im_disk : disk_ok s c (mk_freeblock s);
  im_count : mk_freeinode s = 1 + Z.of_nat (length xs);
  im_max : (length xs <= 200)%nat;
  im_dinode i x : xs !! i = Some x -> load_dinode (c (IBLOCK (Z.of_nat i + 1) the_sb)) (dinode_off (Z.of_nat i + 1)) inode0 = x;
  im_file i x : xs !! i = Some x -> good_file c x;
  im_disj i j x y : xs !! i = Some x -> xs !! j = Some y -> i <> j -> disjoint_files c x y;
  im_boot b : 1 <= b < 32 -> c b = if decide (b = 1) then encode_sb the_sb else zeros
}.

Lemma iblock_range i : 1 <= i <= 200 -> 32 <= IBLOCK i the_sb < 45.
Proof.
  intros Hi. destruct the_data_start as (_ & _ & _ & S4). unfold IBLOCK. rewrite S4. change IPB with 16. rewrite u32_small; Z.to_euclidean_division_equations; lia.
Qed.
Lemma meta_good c x ib d : good_file c x -> ib < 45 -> good_file (fupd ib d c) x.
Proof.
  intros Hgf Hib. pose proof Hgf as [F1 F2 F3 F4 F5]. destruct the_data_start as (S1 & S2 & S3 & S4). pose proof the_geometry as G. constructor; try done; [apply meta_ok; [done|done|lia]|..].
  - apply (exact_ext c _ x); [|done|done]. intros bn. apply (meta_faddr the_sb); [done|done|lia].
  - intros q Hq. destruct (good_block c x q Hgf) as [Hq1 Hq2]; [lia|]. rewrite (meta_fbyte the_sb); [by apply F3|done|done|lia|done|done].
Qed.
Lemma meta_fbytes c x ib d : good_file c x -> ib < 45 -> fbytes (fupd ib d c) x 0 (i_size x) = fbytes c x 0 (i_size x).
Proof.
  intros Hgf Hib. destruct the_data_start as (S1 & S2 & S3 & S4). pose proof (exact_mapped c x (gf_exact _ _ Hgf) (gf_size _ _ Hgf)) as [Hsz Hm].
  unfold fbytes. apply map_ext_in. intros q Hq. apply list_elem_of_In, elem_of_seqZ in Hq. rewrite Z.add_0_l.
  apply (meta_fbyte the_sb); [apply the_geometry|apply Hgf|lia|lia|]. apply Hm; rewrite BSIZE_eq in *; Z.to_euclidean_division_equations; lia.
Qed.
Lemma meta_disjoint c x y ib d : good_file c x -> good_file c y -> ib < 45 -> disjoint_files c x y -> disjoint_files (fupd ib d c) x y.
Proof.
  intros Hx Hy Hib Hdis a Ha Hb. destruct the_data_start as (S1 & S2 & S3 & S4). pose proof the_geometry as G.
  apply (meta_in the_sb) in Ha; [|done|apply Hx|lia]. apply (meta_in the_sb) in Hb; [|done|apply Hy|lia]. by apply (Hdis a).
Qed.

(** winode() of an inode of the image. *)
Lemma winode_ok e s c fb i x :
  disk_ok s c fb -> 1 <= i <= 200 ->
  let ib := IBLOCK i the_sb in
  exists s', winode i x e s = Ok tt e s' /\ disk_ok s' (fupd ib (store_dinode (c ib) (dinode_off i) x) c) fb /\ mk_freeinode s' = mk_freeinode s.
Proof.
  intros Hd Hi ib. pose proof (iblock_range i Hi) as Hib. fold ib in Hib. pose proof (dk_range _ _ _ Hd). unfold winode. cbn [bind gets]. rewrite (dk_sb _ _ _ Hd). fold ib.
  rewrite (rsect_ok e s c fb) by (done || lia). apply wsect_ok; [done|lia|lia|]. rewrite length_store_dinode. apply (dk_blocks _ _ _ Hd).
Qed.
Lemma rinode_ok e s c xs i x : image s c xs -> xs !! i = Some x -> rinode (Z.of_nat i + 1) e s = Ok x e s.
Proof.
  intros Hm Hi. pose proof (im_disk _ _ _ Hm) as Hd. pose proof (lookup_lt_Some _ _ _ Hi). pose proof (im_max _ _ _ Hm).
  pose proof (iblock_range (Z.of_nat i + 1) ltac:(lia)) as Hib. unfold rinode. cbn [bind gets]. rewrite (dk_sb _ _ _ Hd).
  rewrite (rsect_ok e s c _ _ Hd) by lia. cbn [ret]. by rewrite (im_dinode _ _ _ Hm i x Hi).
Qed.

Lemma disjoint_sym c x y : disjoint_files c x y -> disjoint_files c y x.
Proof. intros Hd a H1 H2. by apply (Hd a). Qed.
Lemma low_block c c1 x x1 b : grown the_sb c x c1 x1 -> file_ok the_sb c1 x1 -> b < 45 -> c1 b = c b.
Proof.
  intros Hg Hf Hb. destruct the_data_start as (S1 & S2 & S3 & S4). apply (gr_frame _ _ _ _ _ Hg).
  - intros (a & Ha & E). rewrite BBLOCK_eq in E by (apply the_geometry || done). rewrite BPB_eq in E. pose proof (Z.div_pos a 8192). lia.
  - intros Hin. destruct (fo_own _ _ _ Hf b Hin). lia.
Qed.
(** Another file when [x] grows. *)
Lemma grown_other c c1 x x1 y :
  grown the_sb c x c1 x1 -> good_file c y -> disjoint_files c x y ->
  good_file c1 y /\ disjoint_files c1 x1 y /\ fbytes c1 y 0 (i_size y) = fbytes c y 0 (i_size y) /\ (forall a, in_file c1 y a <-> in_file c y a).
Proof.
  intros Hg Hgf Hdis. pose proof Hgf as [F1 F2 F3 F4 F5]. destruct (other_file the_sb c c1 x x1 y the_geometry Hg F1 Hdis) as (O1 & O2 & O3 & O4).
  assert (forall q, 0 <= q < nblocks_of (i_size y) * BSIZE -> fbyte c1 y q = fbyte c y q) as Hby.
  { intros q Hq. destruct (good_block c y q Hgf Hq) as [Hq1 Hq2]. unfold fbyte. by rewrite O3, O4 by (done || by apply block_of_q). }
  split_and!; [constructor; try done|done| |by apply (other_in the_sb c c1 x x1 y the_geometry Hg F1 Hdis)].
  - by apply (exact_ext c _ y).
  - intros q Hq. rewrite Hby by lia. by apply F3.
  - unfold fbytes. apply map_ext_in. intros q Hq. apply list_elem_of_In, elem_of_seqZ in Hq. rewrite Z.add_0_l. apply Hby.
    unfold nblocks_of. rewrite BSIZE_eq. Z.to_euclidean_division_equations. lia.
Qed.
Lemma with_dinode_self d o x x1 z :
  load_dinode d o inode0 = x -> set_i_addrs [] x1 = set_i_addrs [] x -> with_dinode (set_i_size z x1) inode0 = set_i_size z x1.
Proof.
  intros <- Em. pose proof (f_equal i_dev Em) as M1. pose proof (f_equal i_inum Em) as M2. pose proof (f_equal i_ref Em) as M3.
  pose proof (f_equal i_lock Em) as M4. pose proof (f_equal i_valid Em) as M5. destruct x1. cbn in *. unfold with_dinode. cbn. by subst.
Qed.

Section Appended.
Context (e : list (mkstate -> mkstate)) (s : mkstate) (c : Z -> list Z) (xs : list inode) (i : nat) (x : inode) (p : list Z).
Notation n := (Z.of_nat (length p)).
Notation off := (i_size x).
Context (Hm : image s c xs) (Hi : xs !! i = Some x) (Hmax : off + n <= MAXFILE * BSIZE).
Context (Hfit : mk_freeblock s + blocks_of (nblocks_of (off + n)) - blocks_of (nblocks_of off) <= 1000).

Lemma appending_start : appending (mk_freeblock s) c x off p (mk_freeinode s) s c x 0.
Proof.
  pose proof (im_file _ _ _ Hm i x Hi) as Hgf. constructor; try done.
  - unfold fb_at. rewrite Z.add_0_r. replace (_ + _ - _) with (mk_freeblock s) by lia. apply Hm.
  - apply Hgf.
  - apply bytes_at_start.
  - rewrite Z.add_0_r. apply Hgf.
  - rewrite Z.add_0_r. apply Hgf.
Qed.

(** What the loop leaves, with the new size. *)
Lemma appended_file s1 c1 x1 :
  appending (mk_freeblock s) c x off p (mk_freeinode s) s1 c1 x1 n ->
  good_file c1 (set_i_size (off + n) x1) /\ fbytes c1 x1 0 (off + n) = fbytes c x 0 off ++ p.
Proof.
  intros [A1 A2 A3 A4 At A5]. pose proof (im_file _ _ _ Hm i x Hi) as Hgf. pose proof (exact_mapped c x (gf_exact _ _ Hgf) (gf_size _ _ Hgf)) as [Hsz Hmp].
  pose proof (gr_meta _ _ _ _ _ (ba_grown _ _ _ _ _ _ _ _ A3)) as Em. split.
  - constructor; [by destruct A2; constructor|by apply (exact_ext c1 _ x1)|exact At| |cbn; lia]. destruct (gf_fits _ _ Hgf) as (T1 & T2 & T3 & T4 & T5 & T6 & T7).
    pose proof (f_equal i_type Em) as M1. pose proof (f_equal i_major Em) as M2. pose proof (f_equal i_minor Em) as M3. pose proof (f_equal i_nlink Em) as M4.
    cbn in M1, M2, M3, M4. unfold inode_fits. cbn. rewrite M1, M2, M3, M4. change (MAXFILE * BSIZE) with 274432 in *.
    split_and!; try (done || lia); [apply A2|exact (file_addrs the_sb c1 x1 the_geometry A2)].
  - pose proof (fbytes_splice c c1 x x1 off p off ltac:(lia)) as Hs. rewrite Z.max_r in Hs by lia. rewrite Hs.
    + unfold splice. rewrite take_ge, drop_ge by (rewrite length_fbytes; lia). by rewrite app_nil_r.
    + intros q Hq. by destruct (ba_new _ _ _ _ _ _ _ _ A3 q Hq).
    + intros q Hq Hout. apply (ba_old _ _ _ _ _ _ _ _ A3); [lia|lia|]. apply Hmp; rewrite BSIZE_eq in *; Z.to_euclidean_division_equations; lia.
Qed.

(** The image after the inode has been written. *)
Lemma appended_image s1 c1 x1 s2 :
  let x' := set_i_size (off + n) x1 in let ib := IBLOCK (Z.of_nat i + 1) the_sb in
  let c2 := fupd ib (store_dinode (c1 ib) (dinode_off (Z.of_nat i + 1)) x') c1 in
  appending (mk_freeblock s) c x off p (mk_freeinode s) s1 c1 x1 n ->
  disk_ok s2 c2 (mk_freeblock s2) -> mk_freeinode s2 = mk_freeinode s -> image s2 c2 (<[i := x']> xs).
Proof.
  intros x' ib c2 Ha Hd2 Hfi. destruct (appended_file s1 c1 x1 Ha) as [Hgf' _]. fold x' in Hgf'. destruct Ha as [A1 A2 A3 A4 At A5].
  pose proof (ba_grown _ _ _ _ _ _ _ _ A3) as Hg. pose proof Hm as [D1 N1 X1 I1 F1 J1 S1].
  pose proof (lookup_lt_Some _ _ _ Hi) as Hlt. pose proof (iblock_range (Z.of_nat i + 1) ltac:(lia)) as Hib. fold ib in Hib.
  assert (forall j y, xs !! j = Some y -> j <> i -> good_file c1 y /\ disjoint_files c1 x1 y /\ (forall a, in_file c1 y a <-> in_file c y a)) as Hoth.
  { intros j y Hj Hne. destruct (grown_other c c1 x x1 y Hg (F1 j y Hj)) as (O1 & O2 & _ & O4); [by apply (J1 i j)|done]. }
  destruct the_data_start as (_ & _ & _ & S4). pose proof (dk_blocks _ _ _ A1) as Hlen. constructor.
  - done.
  - by rewrite length_insert, Hfi.
  - by rewrite length_insert.
  - intros j y. destruct (decide (j = i)) as [->|Hne].
    + rewrite list_lookup_insert_eq by done. intros [= <-]. fold ib. unfold c2. rewrite fupd_eq. destruct (dinode_off_in (Z.of_nat i + 1)).
      rewrite load_store_dinode; [|done|rewrite Hlen, BSIZE_eq; lia|apply Hgf']. apply (with_dinode_self _ _ x x1 _ (I1 i x Hi)). apply Hg.
    + rewrite list_lookup_insert_ne by done. intros Hj. pose proof (lookup_lt_Some _ _ _ Hj). unfold c2, ib. rewrite dinode_other by (lia || apply Hlen).
      rewrite (low_block c c1 x x1) by (done || apply iblock_range; lia). by apply I1.
  - intros j y. destruct (decide (j = i)) as [->|Hne].
    + rewrite list_lookup_insert_eq by done. intros [= <-]. apply meta_good; [done|lia].
    + rewrite list_lookup_insert_ne by done. intros Hj. apply meta_good; [by apply (Hoth j)|lia].
  - assert (forall j y, xs !! j = Some y -> j <> i -> disjoint_files c2 x' y) as Hix.
    { intros j y Hj Hne. apply meta_disjoint; [done|by apply (Hoth j)|lia|]. by apply (Hoth j). }
    intros j k y z Hj Hk Hjk. destruct (decide (j = i)) as [->|Hne].
    + rewrite list_lookup_insert_eq in Hj by done. rewrite list_lookup_insert_ne in Hk by done. simplify_eq. by apply (Hix k).
    + rewrite list_lookup_insert_ne in Hj by done. destruct (decide (k = i)) as [->|Hne'].
      * rewrite list_lookup_insert_eq in Hk by done. simplify_eq. apply disjoint_sym. by apply (Hix j).
      * rewrite list_lookup_insert_ne in Hk by done. destruct (Hoth j y Hj Hne) as (Y1 & _ & Y3). destruct (Hoth k z Hk Hne') as (Z1 & _ & Z3).
        apply meta_disjoint; [done|done|lia|]. intros a Ha%Y3 Hb%Z3. by apply (J1 j k y z Hj Hk Hjk a).
  - intros b Hb. unfold c2. rewrite fupd_ne by lia. rewrite (low_block c c1 x x1) by (done || lia). by apply S1.
Qed.

Lemma iappend_ok :
  exists s' c' x', iappend (Z.of_nat i + 1) p e s = Ok tt e s' /\ image s' c' (<[i := x']> xs) /\
    set_i_addrs [] x' = set_i_addrs [] (set_i_size (off + n) x) /\ fbytes c' x' 0 (off + n) = fbytes c x 0 off ++ p /\
    (forall j y, xs !! j = Some y -> j <> i -> fbytes c' y 0 (i_size y) = fbytes c y 0 (i_size y)) /\
    mk_freeblock s' = mk_freeblock s + blocks_of (nblocks_of (off + n)) - blocks_of (nblocks_of off).
Proof.
  pose proof (im_file _ _ _ Hm i x Hi) as Hgf. pose proof (gf_size _ _ Hgf) as Hsz. pose proof (lookup_lt_Some _ _ _ Hi) as Hlt. pose proof (im_max _ _ _ Hm) as Hx.
  unfold iappend. cbn [bind]. rewrite (rinode_ok e s c xs i x Hm Hi). change (MAXFILE * BSIZE) with 274432 in *. rewrite xint_id by lia.
  destruct (iappend_loop (mk_freeblock s) c x off p (mk_freeinode s) ltac:(lia) Hmax Hfit e (S (length p)) s c x 0 appending_start) as (s1 & c1 & x1 & E1 & Ha); [lia|lia|].
  rewrite Z.add_0_r, drop_0 in E1. rewrite E1. cbn [fst snd]. rewrite xint_id by lia.
  destruct (winode_ok e s1 c1 _ (Z.of_nat i + 1) (set_i_size (off + n) x1) (ap_disk _ _ _ _ _ _ _ _ _ _ Ha)) as (s2 & E2 & D2 & I2); [lia|].
  set (ib := IBLOCK (Z.of_nat i + 1) the_sb) in *. exists s2. eexists _, (set_i_size (off + n) x1). split; [exact E2|].
  pose proof (dk_fb _ _ _ D2) as Efb. pose proof D2 as D2'. rewrite <- Efb in D2'. rewrite (ap_inode _ _ _ _ _ _ _ _ _ _ Ha) in I2.
  pose proof (appended_image s1 c1 x1 s2 Ha D2' I2) as Him. cbn zeta in Him. fold ib in Him. split; [exact Him|].
  destruct (appended_file s1 c1 x1 Ha) as [Hgf' Hby]. pose proof (ba_grown _ _ _ _ _ _ _ _ (ap_bytes _ _ _ _ _ _ _ _ _ _ Ha)) as Hg.
  pose proof (iblock_range (Z.of_nat i + 1) ltac:(lia)) as Hib. fold ib in Hib. split_and!.
  - exact (f_equal (set_i_size (off + n)) (gr_meta _ _ _ _ _ Hg)).
  - rewrite <- Hby. apply (meta_fbytes c1 (set_i_size (off + n) x1) ib _ Hgf'). lia.
  - intros j y Hj Hne. destruct (grown_other c c1 x x1 y Hg (im_file _ _ _ Hm j y Hj)) as (O1 & _ & O3 & _); [by apply (im_disj _ _ _ Hm i j)|].
    rewrite meta_fbytes by (done || lia). done.
  - rewrite Efb. unfold fb_at. done.
Qed.
End Appended.
