(* ===== verification/MkfsMain.v ===== *)
(** * The whole run of mkfs

    ialloc(), the loop over the reads of a source file, the directory entry of a
    file, the cleared image mkfs starts from and the fix of the root's size,
    each as a step of the image. *)

From S2P Require Import Prelude Machine Kernel Bio BioSpec Log LogSpec LogCommit Fs FsSpec FsTx FsAlloc FsFile FsGrow FsBytes Mkfs MkfsSpec.

Definition contents (c : Z -> list Z) (x : inode) : list Z := fbytes c x 0 (i_size x).

(** ** ialloc() *)
Definition fresh (type : Z) : inode := set_i_size 0 (set_i_nlink 1 (set_i_type type inode0)).
Lemma fresh_addr t i : addr_of (fresh t) i = 0.
Proof.
  unfold addr_of. cbn [i_addrs fresh set_i_size set_i_nlink set_i_type inode0]. rewrite nth_lookup. destruct (replicate 13 0 !! _) as [v|] eqn:E; [|done].
  by apply lookup_replicate in E as [-> _].
Qed.
Lemma fresh_faddr c t bn : faddr c (fresh t) bn = 0.
Proof. unfold faddr. rewrite !fresh_addr. case_decide; [done|]. by rewrite decide_True. Qed.
Lemma fresh_in c t a : ~ in_file c (fresh t) a.
Proof. intros [Hn [E|(bn & _ & E)]]; [by rewrite fresh_addr in E|by rewrite fresh_faddr in E]. Qed.
Lemma fresh_good c t : 0 <= t < 2 ^ 15 -> good_file c (fresh t).
Proof.
  intros Ht. constructor.
  - constructor; [done|intros a Ha; by apply fresh_in in Ha|intros bn bn' _ _ _; by rewrite fresh_faddr|intros bn _; by rewrite fresh_addr].
  - constructor; [intros bn Hbn; rewrite fresh_faddr; change (nblocks_of _) with 0; lia|rewrite fresh_addr; change (nblocks_of _) with 0; unfold NDIRECT; lia].
  - cbn. change (nblocks_of 0) with 0. lia.
  - unfold inode_fits. cbn. split_and!; try lia. repeat (constructor; [lia|]). constructor.
  - cbn. change (MAXFILE * BSIZE) with 274432. lia.
Qed.

Lemma ialloc_ok e s c xs t :
  image s c xs -> (length xs < 200)%nat -> 0 <= t < 2 ^ 15 ->
  exists s' c', ialloc t e s = Ok (Z.of_nat (length xs) + 1) e s' /\ image s' c' (xs ++ [fresh t]) /\ mk_freeblock s' = mk_freeblock s /\
    (forall i y, xs !! i = Some y -> contents c' y = contents c y).
Proof.
  intros Hm Hlt Ht. pose proof Hm as [D1 N1 X1 I1 F1 J1 S1]. set (inum := Z.of_nat (length xs) + 1). assert (mk_freeinode s = inum /\ 1 <= inum <= 200) as [En Hin] by (unfold inum; lia).
  unfold ialloc. cbn [bind gets modify]. rewrite En, (u32_small (inum + 1)) by lia. rewrite (xshort_id t), (xshort_id 1), (xint_id 0) by lia. fold (fresh t).
  assert (disk_ok (set_freeinode (inum + 1) s) c (mk_freeblock s)) as D1' by (destruct D1; by constructor).
  destruct (winode_ok e _ c _ inum (fresh t) D1') as (s' & E & D2 & I2); [lia|]. cbn zeta in D2. set (ib := IBLOCK inum the_sb) in *.
  pose proof (iblock_range inum ltac:(lia)) as Hib. fold ib in Hib. rewrite E. cbn [ret]. pose proof (dk_fb _ _ _ D2) as Efb. pose proof D2 as D2'. rewrite <- Efb in D2'.
  pose proof (dk_blocks _ _ _ D1) as Hlen. destruct the_data_start as (_ & _ & _ & S4). pose proof (fresh_good c t Ht) as Hfr.
  exists s', (fupd ib (store_dinode (c ib) (dinode_off inum) (fresh t)) c). split; [done|]. split; [|split; [done|]].
  2: { intros i y Hi. apply meta_fbytes; [by apply (F1 i)|lia]. }
  constructor.
  - exact D2'.
  - rewrite I2, length_app. cbn. lia.
  - rewrite length_app. cbn. lia.
  - intros i x. rewrite lookup_app_Some. intros [Hi|[Hge Hi]].
    + pose proof (lookup_lt_Some _ _ _ Hi). unfold ib. rewrite dinode_other by (lia || apply Hlen). by apply I1.
    + apply list_lookup_singleton_Some in Hi as [Hi <-]. assert (Z.of_nat i + 1 = inum) as -> by lia. fold ib. rewrite fupd_eq.
      destruct (dinode_off_in inum). rewrite load_store_dinode; [done|done|rewrite Hlen, BSIZE_eq; lia|apply Hfr].
  - intros i x. rewrite lookup_app_Some. intros [Hi|[Hge Hi]]; [apply meta_good; [by apply (F1 i)|lia]|].
    apply list_lookup_singleton_Some in Hi as [_ <-]. apply meta_good; [done|lia].
  - intros i j x y Hi Hj Hne. apply lookup_app_Some in Hi as [Hi|[Hge Hi]].
    + apply lookup_app_Some in Hj as [Hj|[Hge Hj]].
      * apply meta_disjoint; [by apply (F1 i)|by apply (F1 j)|lia|by apply (J1 i j)].
      * apply list_lookup_singleton_Some in Hj as [_ <-]. intros a _ Ha. by apply fresh_in in Ha.
    + apply list_lookup_singleton_Some in Hi as [_ <-]. intros a Ha. by apply fresh_in in Ha.
  - intros b Hb. rewrite fupd_ne by lia. by apply S1.
Qed.

(** ** Appending *)
(** [x'] is [x] with more bytes. *)
Definition longer (x x' : inode) (n : Z) : Prop := set_i_addrs [] x' = set_i_addrs [] (set_i_size (i_size x + n) x).
Lemma longer_size x x' n : longer x x' n -> i_size x' = i_size x + n.
Proof. intros E. apply (f_equal i_size) in E. done. Qed.
Lemma longer_trans x1 x2 x3 n m : longer x1 x2 n -> longer x2 x3 m -> longer x1 x3 (n + m).
Proof.
  intros E1 E2. pose proof (longer_size _ _ _ E1) as Es. unfold longer in *. rewrite E2, Es. rewrite Z.add_assoc.
  exact (f_equal (set_i_size (i_size x1 + n + m)) E1).
Qed.
Lemma longer_refl x : longer x x 0.
Proof. unfold longer. rewrite Z.add_0_r. by destruct x. Qed.

Lemma iappend_step e s c xs i x p :
  image s c xs -> xs !! i = Some x -> i_size x + Z.of_nat (length p) <= MAXFILE * BSIZE ->
  mk_freeblock s + blocks_of (nblocks_of (i_size x + Z.of_nat (length p))) - blocks_of (nblocks_of (i_size x)) <= 1000 ->
  exists s' c' x', iappend (Z.of_nat i + 1) p e s = Ok tt e s' /\ image s' c' (<[i := x']> xs) /\ longer x x' (Z.of_nat (length p)) /\
    contents c' x' = contents c x ++ p /\ (forall j y, xs !! j = Some y -> j <> i -> contents c' y = contents c y) /\
    mk_freeblock s' = mk_freeblock s + blocks_of (nblocks_of (i_size x')) - blocks_of (nblocks_of (i_size x)).
Proof.
  intros Hm Hi Hmax Hfit. destruct (iappend_ok e s c xs i x p Hm Hi Hmax Hfit) as (s' & c' & x' & E & H1 & H2 & H3 & H4 & H5).
  exists s', c', x'. pose proof (longer_size x x' _ H2) as Es. split_and!; try done; [|by rewrite Es]. unfold contents. by rewrite Es.
Qed.

Lemma append_chunks e chunks : forall s c xs i x,
  let n := Z.of_nat (length (concat chunks)) in
  image s c xs -> xs !! i = Some x -> i_size x + n <= MAXFILE * BSIZE ->
  mk_freeblock s + blocks_of (nblocks_of (i_size x + n)) - blocks_of (nblocks_of (i_size x)) <= 1000 ->
  exists s' c' x', for_ chunks (iappend (Z.of_nat i + 1)) e s = Ok tt e s' /\ image s' c' (<[i := x']> xs) /\ longer x x' n /\
    contents c' x' = contents c x ++ concat chunks /\ (forall j y, xs !! j = Some y -> j <> i -> contents c' y = contents c y) /\
    mk_freeblock s' = mk_freeblock s + blocks_of (nblocks_of (i_size x')) - blocks_of (nblocks_of (i_size x)).
Proof.
  induction chunks as [|p chunks IH]; intros s c xs i x n Hm Hi Hmax Hfit.
  - exists s, c, x. cbn. rewrite list_insert_id by done. split_and!; try done; [apply longer_refl|by rewrite app_nil_r|lia].
  - assert (n = Z.of_nat (length p) + Z.of_nat (length (concat chunks))) as En by (unfold n; cbn; rewrite length_app; lia). pose proof (lookup_lt_Some _ _ _ Hi) as Hlt.
    pose proof (gf_size _ _ (im_file _ _ _ Hm i x Hi)) as Hsz. pose proof (size_blocks_mono (i_size x + Z.of_nat (length p)) (i_size x + n) ltac:(lia)).
    destruct (iappend_step e s c xs i x p Hm Hi) as (s1 & c1 & x1 & E1 & H1 & L1 & C1 & O1 & B1); [lia|lia|]. pose proof (longer_size _ _ _ L1) as Es1.
    assert (<[i := x1]> xs !! i = Some x1) as Hi1 by by rewrite list_lookup_insert_eq.
    destruct (IH s1 c1 (<[i := x1]> xs) i x1 H1 Hi1) as (s2 & c2 & x2 & E2 & H2 & L2 & C2 & O2 & B2).
    { rewrite Es1. lia. } { rewrite B1, Es1. replace (i_size x + Z.of_nat (length p) + Z.of_nat (length (concat chunks))) with (i_size x + n) by lia. lia. }
    exists s2, c2, x2. cbn [for_ bind]. rewrite E1. rewrite list_insert_insert_eq in H2. split_and!; try done.
    + rewrite En. by apply (longer_trans x x1).
    + rewrite C2, C1. cbn. by rewrite app_assoc.
    + intros j y Hj Hne. rewrite (O2 j y); [by apply (O1 j)|by rewrite list_lookup_insert_ne|done].
    + rewrite B2, B1. lia.
Qed.

(** ** The source files *)
Definition src_data (f : srcfile) : list Z := concat (default [] (sf_reads f)).
Definition src_len (f : srcfile) : Z := Z.of_nat (length (src_data f)).
Definition src_name (f : srcfile) : list Z := skip_underscore (shortname (sf_path f)).
Definition src_ok (f : srcfile) : Prop := 47 ∉ shortname (sf_path f) /\ sf_reads f <> None /\ src_len f <= MAXFILE * BSIZE.
(** The directory entries of the files, the first with inode number [inum]. *)
Fixpoint entries (inum : Z) (files : list srcfile) : list Z :=
  match files with
  | [] => []
  | f :: files' => new_entry inum (src_name f) ++ entries (inum + 1) files'
  end.
(** The blocks the files take. *)
Fixpoint src_blocks (files : list srcfile) : Z :=
  match files with
  | [] => 0
  | f :: files' => blocks_of (nblocks_of (src_len f)) + src_blocks files'
  end.
Lemma length_new_entry inum name : length (new_entry inum name) = 16%nat.
Proof. unfold new_entry, encode_dirent, entry_name. cbn [de_name]. rewrite !length_app, length_take, length_replicate. unfold DIRSIZ. cbn [length]. lia. Qed.
Lemma blocks_nonneg n : 0 <= n -> 0 <= blocks_of (nblocks_of n).
Proof. intros Hn. apply (size_blocks_mono 0 n Hn). Qed.
Lemma src_blocks_nonneg files : 0 <= src_blocks files.
Proof. induction files as [|f files IH]; cbn; [done|]. pose proof (blocks_nonneg (src_len f)). unfold src_len in *. lia. Qed.

Lemma add_file_ok e s c xs root f :
  image s c xs -> xs !! 0%nat = Some root -> (length xs < 200)%nat -> src_ok f -> i_size root + 16 <= MAXFILE * BSIZE ->
  mk_freeblock s + blocks_of (nblocks_of (i_size root + 16)) - blocks_of (nblocks_of (i_size root)) + blocks_of (nblocks_of (src_len f)) <= 1000 ->
  exists s' c' root' y, add_file 1 f e s = Ok tt e s' /\ image s' c' (<[0%nat := root']> xs ++ [y]) /\
    longer root root' 16 /\ contents c' root' = contents c root ++ new_entry (Z.of_nat (length xs) + 1) (src_name f) /\
    longer (fresh T_FILE) y (src_len f) /\ contents c' y = src_data f /\
    (forall j z, xs !! j = Some z -> j <> 0%nat -> contents c' z = contents c z) /\
    mk_freeblock s' = mk_freeblock s + blocks_of (nblocks_of (i_size root + 16)) - blocks_of (nblocks_of (i_size root)) + blocks_of (nblocks_of (src_len f)).
Proof.
  intros Hm Hr Hlt (F1 & F2 & F3) Hrs Hfit. unfold add_file. rewrite decide_False by done. unfold src_len, src_data in *.
  destruct (sf_reads f) as [chunks|]; [|done]. cbn [default from_option id] in *. unfold id in *. pose proof (lookup_lt_Some _ _ _ Hr) as Hl0. pose proof (blocks_nonneg (Z.of_nat (length (concat chunks))) ltac:(lia)) as Hb0.
  destruct (ialloc_ok e s c xs T_FILE Hm Hlt ltac:(done)) as (s1 & c1 & E1 & H1 & B1 & C1). cbn [bind]. rewrite E1. set (xs1 := xs ++ [fresh T_FILE]) in *.
  assert (xs1 !! 0%nat = Some root) as Hr1 by (unfold xs1; by rewrite lookup_app_l). fold (src_name f).
  pose proof (length_new_entry (Z.of_nat (length xs) + 1) (src_name f)) as Hle.
  destruct (iappend_step e s1 c1 xs1 0 root (new_entry (Z.of_nat (length xs) + 1) (src_name f)) H1 Hr1) as (s2 & c2 & root' & E2 & H2 & L2 & C2 & O2 & B2); [rewrite Hle; lia|rewrite Hle, B1; change (Z.of_nat 16) with 16; lia|].
  rewrite Hle in L2. change (Z.of_nat 0 + 1) with 1 in E2. rewrite E2. pose proof (longer_size _ _ _ L2) as Es2. change (Z.of_nat 16) with 16 in *.
  assert (xs1 !! length xs = Some (fresh T_FILE)) as Hn1 by (unfold xs1; by rewrite list_lookup_middle).
  assert (<[0%nat := root']> xs1 !! length xs = Some (fresh T_FILE)) as Hn2 by (rewrite list_lookup_insert_ne by lia; done).
  assert (blocks_of (nblocks_of (i_size (fresh T_FILE))) = 0 /\ i_size (fresh T_FILE) = 0) as [Ez Ez'] by done.
  destruct (append_chunks e chunks s2 c2 _ (length xs) (fresh T_FILE) H2 Hn2) as (s3 & c3 & y & E3 & H3 & L3 & C3 & O3 & B3); [rewrite Ez'; lia|rewrite Ez, Ez', Z.add_0_l, B2, B1, Es2; lia|].
  pose proof (longer_size _ _ _ L3) as Es3. rewrite Ez', Z.add_0_l in Es3. exists s3, c3, root', y. split; [exact E3|].
  assert (<[length xs := y]> (<[0%nat := root']> xs1) = <[0%nat := root']> xs ++ [y]) as Exs.
  { unfold xs1. rewrite insert_app_l by done. rewrite insert_app_r_alt by (rewrite length_insert; lia). rewrite length_insert, Nat.sub_diag. done. }
  rewrite Exs in H3. split_and!; try done.
  - rewrite <- (C1 0%nat root Hr), <- C2. apply (O3 0%nat); [|lia]. apply list_lookup_insert_eq. unfold xs1. rewrite length_app. lia.
  - intros j z Hj Hne. pose proof (lookup_lt_Some _ _ _ Hj). assert (xs1 !! j = Some z) as Hj1 by (unfold xs1; by rewrite lookup_app_l).
    rewrite (O3 j z); [|by rewrite list_lookup_insert_ne|lia]. rewrite (O2 j z Hj1) by done. by apply (C1 j).
  - rewrite B3, B2, B1, Es2, Es3, Ez. lia.
Qed.

Lemma add_files_ok e files : forall s c xs root,
  let nf := Z.of_nat (length files) in
  image s c xs -> xs !! 0%nat = Some root -> (length xs + length files <= 200)%nat -> Forall src_ok files -> i_size root + 16 * nf <= MAXFILE * BSIZE ->
  mk_freeblock s + blocks_of (nblocks_of (i_size root + 16 * nf)) - blocks_of (nblocks_of (i_size root)) + src_blocks files <= 1000 ->
  exists s' c' root' ys, for_ files (add_file 1) e s = Ok tt e s' /\ image s' c' (<[0%nat := root']> xs ++ ys) /\
    longer root root' (16 * nf) /\ contents c' root' = contents c root ++ entries (Z.of_nat (length xs) + 1) files /\
    Forall2 (fun f y => longer (fresh T_FILE) y (src_len f) /\ contents c' y = src_data f) files ys /\
    (forall j z, xs !! j = Some z -> j <> 0%nat -> contents c' z = contents c z).
Proof.
  induction files as [|f files IH]; intros s c xs root nf Hm Hr Hlen Hok Hrs Hfit.
  - exists s, c, root, []. cbn. rewrite list_insert_id, !app_nil_r by done. split_and!; try done. apply longer_refl.
  - apply Forall_cons in Hok as [Hf Hok]. assert (nf = 1 + Z.of_nat (length files)) as En by (unfold nf; cbn [length]; lia). cbn [length] in Hlen. cbn [src_blocks] in Hfit.
    pose proof (src_blocks_nonneg files). pose proof (size_blocks_mono (i_size root + 16) (i_size root + 16 * nf) ltac:(lia)).
    destruct (add_file_ok e s c xs root f Hm Hr) as (s1 & c1 & r1 & y & E1 & H1 & L1 & C1 & Ly & Cy & O1 & B1); [lia|done|lia|lia|].
    pose proof (longer_size _ _ _ L1) as Es1. pose proof (lookup_lt_Some _ _ _ Hr) as Hl0. set (xs1 := <[0%nat := r1]> xs ++ [y]) in *.
    assert (length xs1 = S (length xs)) as Hl1 by (unfold xs1; rewrite length_app, length_insert; cbn; lia).
    assert (xs1 !! 0%nat = Some r1) as Hr1 by (unfold xs1; rewrite lookup_app_l by (rewrite length_insert; lia); by rewrite list_lookup_insert_eq).
    destruct (IH s1 c1 xs1 r1 H1 Hr1) as (s2 & c2 & r2 & ys & E2 & H2 & L2 & C2 & FF & O2); [lia|done|lia| |].
    { rewrite B1, Es1. replace (i_size root + 16 + 16 * Z.of_nat (length files)) with (i_size root + 16 * nf) by lia. lia. }
    exists s2, c2, r2, (y :: ys). cbn [for_ bind]. rewrite E1. split; [exact E2|].
    assert (<[0%nat := r2]> xs1 ++ ys = <[0%nat := r2]> xs ++ y :: ys) as Exs.
    { unfold xs1. rewrite insert_app_l by (rewrite length_insert; lia). rewrite list_insert_insert_eq, <- app_assoc. done. }
    rewrite Exs in H2. split_and!; [done| | | |].
    + rewrite En, Z.mul_add_distr_l. change (16 * 1) with 16. by apply (longer_trans root r1).
    + rewrite C2, C1. cbn [entries]. rewrite <- app_assoc. do 3 f_equal. lia.
    + constructor; [|done]. split; [done|]. rewrite <- Cy. apply (O2 (length xs)); [|lia]. unfold xs1. rewrite lookup_app_r by (rewrite length_insert; lia).
      rewrite length_insert, Nat.sub_diag. done.
    + intros j z Hj Hne. pose proof (lookup_lt_Some _ _ _ Hj). rewrite (O2 j z); [by apply (O1 j)| |done].
      unfold xs1. rewrite lookup_app_l by (rewrite length_insert; lia). by rewrite list_lookup_insert_ne.
Qed.

(** ** The cleared image *)
Lemma clear_img e n : forall s, for_ (seqZ (Z.of_nat (length (mk_img s))) (Z.of_nat n)) (fun i => wsect i zeroes) e s = Ok tt e (set_img (mk_img s ++ replicate n zeroes) s).
Proof.
  induction n as [|n IH]; intros s.
  - cbn. rewrite app_nil_r. by destruct s.
  - rewrite seqZ_cons by lia. cbn [for_ bind]. unfold wsect at 1. cbn [modify]. unfold wsect_img. rewrite Nat2Z.id, decide_False, Nat.sub_diag by lia. cbn [replicate app].
    replace (Z.succ (Z.of_nat (length (mk_img s)))) with (Z.of_nat (length (mk_img (set_img (mk_img s ++ [zeroes]) s)))) by (cbn; rewrite length_app; cbn; lia).
    replace (Z.pred (Z.of_nat (S n))) with (Z.of_nat n) by lia. rewrite IH. cbn. by rewrite <- app_assoc.
Qed.
Definition blank_disk : mkstate := mkMkstate (<[1%nat := encode_sb the_sb]> (replicate 1000 zeroes)) the_sb 1 46.
Lemma encode_sb_len : length (encode_sb the_sb) = Z.to_nat BSIZE.
Proof. unfold encode_sb. rewrite !length_put32. apply length_replicate. Qed.
Lemma image_blank : image blank_disk (view blank_disk) [].
Proof.
  assert (forall b, 0 <= b < 1000 -> b <> 45 -> view blank_disk b = if decide (b = 1) then encode_sb the_sb else zeros) as Hv.
  { intros b Hb Hn. unfold view, blank_disk. rewrite decide_False, decide_True by (done || lia). cbn [mk_img]. case_decide as E.
    - subst. rewrite list_lookup_insert_eq; [done|]. rewrite length_replicate. lia.
    - rewrite list_lookup_insert_ne by lia. by rewrite lookup_replicate_2 by lia. }
  constructor; [|done|cbn; lia|by intros i x ?|by intros i x ?|by intros i j x y ?|intros b Hb; by apply Hv; lia].
  constructor; try done.
  - intros b. unfold view. case_decide; [apply bitmap_of_len|]. case_decide; [|apply length_zeros].
    destruct (decide (b < 1000)) as [Hlt|Hge].
    + pose proof (Hv b ltac:(lia) ltac:(done)) as E. unfold view in E. rewrite decide_False, decide_True in E by done. rewrite E. case_decide; [apply encode_sb_len|apply length_zeros].
    + cbn [mk_img blank_disk]. rewrite lookup_ge_None_2; [apply length_zeros|]. rewrite length_insert, length_replicate. lia.
  - intros b Hb. rewrite Hv by (cbn in Hb; lia). cbn in Hb. by rewrite decide_False by lia.
Qed.

(** ** The size of the root directory *)
Lemma good_resize c x sz :
  good_file c x -> i_size x <= sz -> nblocks_of sz = nblocks_of (i_size x) -> sz <= MAXFILE * BSIZE ->
  good_file c (set_i_size sz x) /\ contents c (set_i_size sz x) = contents c x ++ replicate (Z.to_nat (sz - i_size x)) 0.
Proof.
  intros [F1 F2 F3 F4 F5] Hle Hn Hmax. change (MAXFILE * BSIZE) with 274432 in *. split.
  - constructor; [by destruct F1; constructor| | | |cbn; change (MAXFILE * BSIZE) with 274432; lia].
    + cbn. rewrite Hn. by apply (exact_ext c _ x).
    + cbn. rewrite Hn. intros q Hq. apply F3. lia.
    + destruct F4 as (T1 & T2 & T3 & T4 & T5 & T6 & T7). unfold inode_fits. cbn. split_and!; try (done || lia).
  - unfold contents. cbn [i_size set_i_size]. change (fbytes c (set_i_size sz x) 0 sz) with (fbytes c x 0 sz). replace sz with (i_size x + (sz - i_size x)) at 1 by lia. rewrite fbytes_app by lia. f_equal.
    apply list_eq. intros j. unfold fbytes. rewrite list_lookup_fmap. destruct (decide (j < Z.to_nat (sz - i_size x))%nat) as [Hj|Hj].
    + rewrite lookup_seqZ_lt, lookup_replicate_2 by lia. cbn. f_equal. apply (F3 _). rewrite <- Hn. unfold nblocks_of in *. rewrite BSIZE_eq in *.
      clear - Hj Hle F5. Z.to_euclidean_division_equations. lia.
    + rewrite lookup_seqZ_ge by lia. cbn. symmetry. apply lookup_replicate_None. lia.
Qed.

(** winode() of a changed inode. *)
Lemma winode_image e s c xs i x x2 :
  image s c xs -> xs !! i = Some x -> i_addrs x2 = i_addrs x -> good_file c x2 -> with_dinode x2 inode0 = x2 ->
  exists s' c', winode (Z.of_nat i + 1) x2 e s = Ok tt e s' /\ image s' c' (<[i := x2]> xs) /\ contents c' x2 = contents c x2 /\
    (forall j y, xs !! j = Some y -> j <> i -> contents c' y = contents c y) /\ mk_freeblock s' = mk_freeblock s.
Proof.
  intros Hm Hi Ea Hgf Hwd. pose proof Hm as [D1 N1 X1 I1 F1 J1 S1]. pose proof (lookup_lt_Some _ _ _ Hi) as Hlt.
  destruct (winode_ok e s c _ (Z.of_nat i + 1) x2 D1) as (s' & E & D2 & I2); [lia|]. cbn zeta in D2. set (ib := IBLOCK (Z.of_nat i + 1) the_sb) in *.
  pose proof (iblock_range (Z.of_nat i + 1) ltac:(lia)) as Hib. fold ib in Hib. pose proof (dk_fb _ _ _ D2) as Efb. pose proof (dk_blocks _ _ _ D1) as Hlen.
  destruct the_data_start as (_ & _ & _ & S4). exists s', (fupd ib (store_dinode (c ib) (dinode_off (Z.of_nat i + 1)) x2) c). split; [done|].
  split; [|split_and!; [apply meta_fbytes; [done|lia]|intros j y Hj Hne; apply meta_fbytes; [by apply (F1 j)|lia]|done]].
  assert (forall a, in_file c x2 a <-> in_file c x a) as Hin by (intros a; unfold in_file, faddr, addr_of; by rewrite Ea).
  constructor.
  - by rewrite Efb.
  - by rewrite length_insert, I2.
  - by rewrite length_insert.
  - intros j y Hj. destruct (decide (j = i)) as [->|Hne].
    + rewrite list_lookup_insert_eq in Hj by done. simplify_eq. fold ib. rewrite fupd_eq. destruct (dinode_off_in (Z.of_nat i + 1)).
      rewrite load_store_dinode; [done|done|rewrite Hlen, BSIZE_eq; lia|apply Hgf].
    + rewrite list_lookup_insert_ne in Hj by done. pose proof (lookup_lt_Some _ _ _ Hj). unfold ib. rewrite dinode_other by (lia || apply Hlen). by apply I1.
  - intros j y Hj. apply meta_good; [|lia]. destruct (decide (j = i)) as [->|Hne].
    + rewrite list_lookup_insert_eq in Hj by done. by simplify_eq.
    + rewrite list_lookup_insert_ne in Hj by done. by apply (F1 j).
  - intros j k y z Hj Hk Hjk. assert (forall j y, <[i := x2]> xs !! j = Some y -> exists y', xs !! j = Some y' /\ good_file c y /\ forall a, in_file c y a <-> in_file c y' a) as Hget.
    { intros j' y' Hj'. destruct (decide (j' = i)) as [->|Hne].
      - rewrite list_lookup_insert_eq in Hj' by done. simplify_eq. by exists x.
      - rewrite list_lookup_insert_ne in Hj' by done. exists y'. split_and!; [done|by apply (F1 j')|done]. }
    destruct (Hget j y Hj) as (y' & Y1 & Y2 & Y3). destruct (Hget k z Hk) as (z' & Z1 & Z2 & Z3).
    apply meta_disjoint; [done|done|lia|]. intros a Ha%Y3 Hb%Z3. by apply (J1 j k y' z' Y1 Z1 Hjk a).
  - intros b Hb. rewrite fupd_ne by lia. by apply S1.
Qed.

Lemma start_ok e (f : M mkstate unit) :
  (modify (set_mksb the_sb);;; modify (set_freeblock nmeta);;; for_ (seqZ 0 FSSIZE) (fun i => wsect i zeroes);;; wsect 1 (encode_sb the_sb);;; f) e mkstate0 = f e blank_disk.
Proof.
  cbn [bind modify]. pose proof (clear_img e 1000 (set_freeblock nmeta (set_mksb the_sb mkstate0))) as E. cbn [mk_img set_freeblock set_mksb mkstate0 length] in E.
  change (Z.of_nat 0) with 0 in E. change (Z.of_nat 1000) with FSSIZE in E. rewrite E. unfold wsect. cbn [modify]. do 2 f_equal.
Qed.

Lemma fix_root_ok e s c xs root :
  image s c xs -> xs !! 0%nat = Some root -> i_size root mod BSIZE <> 0 ->
  let sz := (i_size root / BSIZE + 1) * BSIZE in
  exists s' c', fix_root 1 e s = Ok tt e s' /\ image s' c' (<[0%nat := set_i_size sz root]> xs) /\
    contents c' (set_i_size sz root) = contents c root ++ replicate (Z.to_nat (sz - i_size root)) 0 /\
    (forall j y, xs !! j = Some y -> j <> 0%nat -> contents c' y = contents c y) /\ mk_freeblock s' = mk_freeblock s.
Proof.
  intros Hm Hr Hmod sz. pose proof (im_file _ _ _ Hm 0%nat root Hr) as Hgf. pose proof (gf_size _ _ Hgf) as Hsz.
  assert (i_size root <= sz /\ nblocks_of sz = nblocks_of (i_size root) /\ sz <= MAXFILE * BSIZE) as (Z1 & Z2 & Z3).
  { unfold sz, nblocks_of. change MAXFILE with 268 in *. rewrite BSIZE_eq in *. Z.to_euclidean_division_equations. lia. }
  change (MAXFILE * BSIZE) with 274432 in *. destruct (good_resize c root sz Hgf Z1 Z2 Z3) as [Hg2 Hc2].
  unfold fix_root. cbn [bind]. pose proof (rinode_ok e s c xs 0 root Hm Hr) as Er. change (Z.of_nat 0 + 1) with 1 in Er. rewrite Er. rewrite (xint_id (i_size root)) by lia. fold sz. rewrite xint_id by lia.
  destruct (winode_image e s c xs 0 root (set_i_size sz root) Hm Hr eq_refl Hg2) as (s' & c' & E & H' & C' & O' & B').
  { apply (with_dinode_self _ _ root root sz (im_dinode _ _ _ Hm 0%nat root Hr) eq_refl). }
  exists s', c'. split_and!; [exact E|exact H'|by rewrite C'|done|done].
Qed.

(** balloc() completes the image. *)
Lemma balloc_image e s c xs :
  image s c xs -> exists s', balloc (mk_freeblock s) e s = Ok tt e s' /\ length (mk_img s') = 1000%nat /\ forall b, img_block s' b = c b.
Proof.
  intros Hm. pose proof (im_disk _ _ _ Hm) as Hd. pose proof (dk_range _ _ _ Hd) as Hr. pose proof (dk_len _ _ _ Hd) as Hlen. destruct the_data_start as (_ & _ & S3 & _).
  unfold balloc. rewrite decide_True by (rewrite BSIZE_eq; lia). cbn [bind gets]. rewrite (dk_sb _ _ _ Hd), S3. eexists. split; [done|].
  cbn. unfold wsect_img. change (Z.to_nat 45) with 45%nat. rewrite decide_True by lia. split; [by rewrite length_insert|]. intros b. rewrite (dk_view _ _ _ Hd). unfold img_block, view. cbn [mk_img set_img].
  destruct (decide (b = 45)) as [->|Hn].
  - rewrite decide_True by done. change (Z.to_nat 45) with 45%nat. by rewrite list_lookup_insert_eq by lia.
  - case_decide; [|done]. by rewrite list_lookup_insert_ne by lia.
Qed.

(** ** main() *)
Definition root_size (files : list srcfile) : Z := 16 * (2 + Z.of_nat (length files)).
Definition dots : list Z := new_entry 1 [46] ++ new_entry 1 [46; 46].

(** The root directory with its two entries. *)
Definition make_root : M mkstate unit :=
  rootino <- ialloc T_DIR;;
  if decide (rootino = ROOTINO) then iappend rootino (new_entry rootino [46]);;; iappend rootino (new_entry rootino [46; 46]) else panic "assert".

Lemma dots_ok e : exists s c root, make_root e blank_disk = Ok tt e s /\
  image s c [root] /\ longer (fresh T_DIR) root 32 /\ contents c root = dots /\ mk_freeblock s = 47.
Proof.
  destruct (ialloc_ok e blank_disk (view blank_disk) [] T_DIR image_blank ltac:(cbn; lia) ltac:(done)) as (s1 & c1 & E1 & H1 & B1 & _).
  unfold make_root. cbn [bind]. rewrite E1. cbn [length Z.of_nat Z.add app] in *. change (Z.of_nat 0 + 1) with 1. rewrite decide_True by done. cbn [bind].
  assert ([fresh T_DIR] !! 0%nat = Some (fresh T_DIR)) as Hr0 by done. assert (mk_freeblock s1 = 46) as Eb by done.
  pose proof (length_new_entry 1 [46]) as Ln1. pose proof (length_new_entry 1 [46; 46]) as Ln2.
  destruct (iappend_step e s1 c1 [fresh T_DIR] 0 (fresh T_DIR) (new_entry 1 [46]) H1 Hr0) as (s2 & c2 & r2 & E2 & H2 & L2 & C2 & _ & B2); [rewrite Ln1; done|rewrite Ln1, Eb; done|].
  change (Z.of_nat 0 + 1) with 1 in E2. rewrite E2. rewrite Ln1 in L2. pose proof (longer_size _ _ _ L2) as Es2. change (i_size r2 = 16) in Es2. rewrite Es2, Eb in B2.
  change (<[0%nat := r2]> [fresh T_DIR]) with [r2] in H2. change (mk_freeblock s2 = 47) in B2.
  destruct (iappend_step e s2 c2 [r2] 0 r2 (new_entry 1 [46; 46]) H2 eq_refl) as (s3 & c3 & r3 & E3 & H3 & L3 & C3 & _ & B3); [rewrite Ln2, Es2; done|rewrite Ln2, Es2, B2; done|].
  change (Z.of_nat 0 + 1) with 1 in E3. rewrite Ln2 in L3. pose proof (longer_size _ _ _ L3) as Es3. rewrite Es2 in Es3. change (i_size r3 = 32) in Es3. rewrite Es3, Es2, B2 in B3.
  exists s3, c3, r3. split_and!; [exact E3|exact H3|by apply (longer_trans _ r2 _ 16 16)| |done].
  rewrite C3, C2. done.
Qed.

Lemma dots_then e s (f : Z -> M mkstate unit) :
  (rootino <- ialloc T_DIR;; if decide (rootino = ROOTINO) then iappend rootino (new_entry rootino [46]);;; iappend rootino (new_entry rootino [46; 46]);;; f rootino else panic "assert") e s =
  (make_root;;; f ROOTINO) e s.
Proof.
  unfold make_root, bind, panic. destruct (ialloc T_DIR e s) as [i e1 s1| | |]; try done. case_decide as E; [|done]. subst. destruct (iappend ROOTINO (new_entry ROOTINO [46]) e1 s1); done.
Qed.

Lemma main_run e files s1 s2 s3 s4 :
  make_root e blank_disk = Ok tt e s1 -> for_ files (add_file ROOTINO) e s1 = Ok tt e s2 -> fix_root ROOTINO e s2 = Ok tt e s3 ->
  balloc (mk_freeblock s3) e s3 = Ok tt e s4 -> main files e mkstate0 = Ok tt e s4.
Proof.
  intros E1 E2 E3 E4. unfold main. rewrite start_ok, dots_then. rewrite (bind_Ok _ _ _ _ _ _ _ E1), (bind_Ok _ _ _ _ _ _ _ E2), (bind_Ok _ _ _ _ _ _ _ E3).
  rewrite (bind_Ok (gets mk_freeblock) _ (mk_freeblock s3) e s3 e s3 eq_refl). exact E4.
Qed.

Lemma root_blocks n : 0 <= n <= 198 -> blocks_of (nblocks_of (32 + 16 * n)) <= 4 /\ blocks_of (nblocks_of 32) = 1.
Proof. intros Hn. split; [|done]. unfold blocks_of, nblocks_of, NDIRECT. rewrite BSIZE_eq. case_decide; Z.to_euclidean_division_equations; lia. Qed.

Lemma main_ok e files :
  let nf := Z.of_nat (length files) in
  Forall src_ok files -> nf <= 198 -> (2 + nf) mod 64 <> 0 ->
  nmeta + blocks_of (nblocks_of (root_size files)) + src_blocks files <= FSSIZE ->
  exists s s1 c root ys, main files e mkstate0 = Ok tt e s /\ length (mk_img s) = 1000%nat /\ (forall b, img_block s b = c b) /\
    image s1 c (root :: ys) /\ i_type root = T_DIR /\ i_size root = (root_size files / BSIZE + 1) * BSIZE /\
    contents c root = dots ++ entries 2 files ++ replicate (Z.to_nat (i_size root - root_size files)) 0 /\
    Forall2 (fun f y => i_type y = T_FILE /\ i_nlink y = 1 /\ contents c y = src_data f) files ys.
Proof.
  intros nf Hok Hnf Hmod Hfit. unfold root_size in *. fold nf in Hfit |- *. change nmeta with 46 in Hfit. change FSSIZE with 1000 in Hfit.
  destruct (dots_ok e) as (s1 & c1 & r1 & E1 & H1 & L1 & C1 & B1). pose proof (longer_size _ _ _ L1) as Es1. change (i_size r1 = 32) in Es1.
  destruct (root_blocks nf ltac:(lia)) as [Hrb Hrb0]. change (MAXFILE * BSIZE) with 274432 in *.
  destruct (add_files_ok e files s1 c1 [r1] r1 H1 eq_refl) as (s2 & c2 & r2 & ys & E2 & H2 & L2 & C2 & FF & _).
  { cbn. lia. } { done. } { rewrite Es1. fold nf. change (MAXFILE * BSIZE) with 274432. lia. }
  { rewrite B1, Es1. fold nf. rewrite Hrb0. replace (16 * (2 + nf)) with (32 + 16 * nf) in Hfit by lia. lia. }
  change (<[0%nat := r2]> [r1] ++ ys) with (r2 :: ys) in H2. pose proof (longer_size _ _ _ L2) as Es2. rewrite Es1 in Es2. fold nf in Es2.
  assert (i_size r2 = 16 * (2 + nf)) as Es2' by lia.
  destruct (fix_root_ok e s2 c2 (r2 :: ys) r2 H2 eq_refl) as (s3 & c3 & E3 & H3 & C3 & O3 & B3).
  { rewrite Es2', BSIZE_eq. Z.to_euclidean_division_equations. lia. }
  cbn zeta in *. rewrite Es2' in *. set (root := set_i_size ((16 * (2 + nf) / BSIZE + 1) * BSIZE) r2) in *. change (<[0%nat := root]> (r2 :: ys)) with (root :: ys) in H3.
  destruct (balloc_image e s3 c3 (root :: ys) H3) as (s4 & E4 & Hl4 & Hv4).
  exists s4, s3, c3, root, ys. split.
  { exact (main_run e files s1 s2 s3 s4 E1 E2 E3 E4). }
  split; [exact Hl4|]. split; [exact Hv4|]. split; [exact H3|]. split; [|split; [reflexivity|split]].
  - pose proof (f_equal i_type L2) as T2. pose proof (f_equal i_type L1) as T1. cbn in T1, T2. unfold root. cbn. by rewrite T2, T1.
  - rewrite C3, C2, C1. rewrite <- !app_assoc. do 2 f_equal.
  - apply Forall2_same_length_lookup. apply Forall2_same_length_lookup in FF as [Hl FF]. split; [done|]. intros i f y Hf Hy. destruct (FF i f y Hf Hy) as [Ly Cy].
    split; [exact (f_equal i_type Ly)|]. split; [exact (f_equal i_nlink Ly)|]. rewrite <- Cy. by apply (O3 (S i)).
Qed.

(** A root directory that fills its last block: the size that fix_root() writes
    is a block more than the directory has. *)
Lemma fix_root_overshoots e s c xs root :
  image s c xs -> xs !! 0%nat = Some root -> i_size root mod BSIZE = 0 -> i_size root < MAXFILE * BSIZE ->
  let root' := set_i_size (i_size root + BSIZE) root in
  exists s' c', fix_root 1 e s = Ok tt e s' /\ disk_ok s' c' (mk_freeblock s') /\
    load_dinode (c' (IBLOCK 1 the_sb)) (dinode_off 1) inode0 = root' /\ faddr c' root' (i_size root / BSIZE) = 0 /\ ~ mapped c' root'.
Proof.
  intros Hm Hr Hmod Hlt root'. pose proof (im_file _ _ _ Hm 0%nat root Hr) as Hgf. pose proof Hgf as [F1 F2 F3 F4 F5]. pose proof (im_dinode _ _ _ Hm 0%nat root Hr) as Hd0.
  change (MAXFILE * BSIZE) with 274432 in *. pose proof (iblock_range 1 ltac:(lia)) as Hib. pose proof (im_disk _ _ _ Hm) as Hd. pose proof (dk_blocks _ _ _ Hd) as Hlen.
  assert (0 <= i_size root / BSIZE < MAXFILE /\ nblocks_of (i_size root) = i_size root / BSIZE /\ (i_size root / BSIZE + 1) * BSIZE = i_size root + BSIZE) as (Z1 & Z2 & Z3).
  { unfold nblocks_of. change MAXFILE with 268. rewrite BSIZE_eq in *. Z.to_euclidean_division_equations. lia. }
  destruct (winode_ok e s c _ 1 root' Hd) as (s' & E & D' & _); [lia|]. cbn zeta in D'. pose proof (dk_fb _ _ _ D') as Efb.
  exists s'. eexists. split; [|split; [rewrite Efb; exact D'|]].
  { unfold fix_root. cbn [bind]. pose proof (rinode_ok e s c xs 0 root Hm Hr) as Er. change (Z.of_nat 0 + 1) with 1 in Er. rewrite Er. rewrite (xint_id (i_size root)) by lia.
    rewrite Z3, xint_id by (rewrite BSIZE_eq; lia). exact E. }
  assert (inode_fits root') as Hfits.
  { destruct F4 as (T1 & T2 & T3 & T4 & T5 & T6 & T7). unfold inode_fits, root'. cbn. rewrite BSIZE_eq. split_and!; try (done || lia). }
  assert (forall d, faddr (fupd (IBLOCK 1 the_sb) d c) root' (i_size root / BSIZE) = 0) as Hz.
  { intros d. change (faddr (fupd (IBLOCK 1 the_sb) d c) root (i_size root / BSIZE) = 0). destruct the_data_start as (S1 & S2 & S3 & S4).
    rewrite (meta_faddr the_sb c root); [|apply the_geometry|done|lia]. destruct (decide (faddr c root (i_size root / BSIZE) = 0)) as [|Hn]; [done|].
    apply (ex_blocks _ _ _ F2) in Hn; [lia|done]. }
  split_and!; [|apply Hz|].
  - rewrite fupd_eq. destruct (dinode_off_in 1). rewrite load_store_dinode; [|done|rewrite Hlen, BSIZE_eq; lia|done].
    apply (with_dinode_self _ _ root root _ Hd0 eq_refl).
  - intros [_ Hall]. apply (Hall (i_size root / BSIZE)); [lia| |apply Hz]. unfold root'. cbn. rewrite BSIZE_eq in *. Z.to_euclidean_division_equations. lia.
Qed.
