(* ===== verification/MkfsBoot.v ===== *)
(** * The image as the kernel sees it

    The directory of the image holds one entry per source file, which the
    kernel's search finds by name; and fsinit() mounts the image. *)

From S2P Require Import Prelude Machine Kstring Kernel Spinlock Kalloc Vm Sched Sleeplock Bio BioSpec Log LogSpec LogCommit Fs FsSpec FsTx FsAlloc FsFile FsGrow FsBytes FsDir Mkfs MkfsSpec MkfsMain.

(** ** Names *)
Definition name_ok (s : list Z) : Prop := Forall (fun b => 0 < b < 256) s /\ Z.of_nat (length s) <= src_base.

Lemma byte_at_name s i : name_ok s -> 0 <= i < Z.of_nat (length s) -> 0 < byte_at s i < 256.
Proof.
  intros [Hs _] Hi. unfold byte_at. rewrite nth_lookup. destruct (lookup_lt_is_Some_2 s (Z.to_nat i)) as [v E]; [lia|].
  rewrite E. cbn. by apply (Forall_lookup_1 _ _ _ _ Hs E).
Qed.
Lemma byte_at_past s i : Z.of_nat (length s) <= i -> byte_at s i = 0.
Proof. intros Hi. unfold byte_at. rewrite nth_lookup. by rewrite lookup_ge_None_2 by lia. Qed.
Lemma byte_at_entry s i : 0 <= i < 14 -> byte_at (entry_name s) i = byte_at s i.
Proof.
  intros Hi. unfold entry_name, byte_at, DIRSIZ. rewrite !nth_lookup. destruct (decide (Z.to_nat i < length s)%nat) as [Hlt|Hge].
  - rewrite lookup_app_l by (rewrite length_take; lia). by rewrite lookup_take_lt by lia.
  - rewrite lookup_app_r by (rewrite length_take; lia). rewrite (lookup_ge_None_2 s) by lia. rewrite length_take.
    destruct (replicate _ 0 !! _) as [v|] eqn:E; [|done]. by apply lookup_replicate in E as [-> _].
Qed.
Lemma length_entry_name s : length (entry_name s) = 14%nat.
Proof. unfold entry_name, DIRSIZ. rewrite length_app, length_take, length_replicate. lia. Qed.
Lemma byte_at_u8 s i : name_ok s -> 0 <= i -> u8 (byte_at s i) = byte_at s i.
Proof.
  intros Hs Hi. apply u8_small. destruct (decide (i < Z.of_nat (length s))); [pose proof (byte_at_name s i Hs); lia|]. by rewrite byte_at_past by lia.
Qed.

(** namecmp() compares the first DIRSIZ bytes. *)
Lemma namecmp_entry s t : name_ok s -> name_ok t -> namecmp s (entry_name t) = 0 <-> take DIRSIZ s = take DIRSIZ t.
Proof.
  intros Hs Ht. unfold namecmp, strncmp_arr, strncmp. rewrite strncmp_loop_zero. rewrite Nat2Z.id. change (Z.of_nat DIRSIZ) with 14.
  set (m := arrays s (entry_name t)).
  assert (forall i, 0 <= i < 14 -> read8 m (0 + i) = byte_at s i /\ read8 m (src_base + i) = byte_at t i) as Hm.
  { intros i Hi. unfold m. rewrite Z.add_0_l. rewrite read8_dst by (apply Hs || (unfold src_base; lia)). rewrite read8_src by (apply Hs || lia).
    rewrite byte_at_entry by done. split; apply byte_at_u8; (done || lia). }
  split.
  - intros (k & Hk & Heq & Hend). apply list_eq. intros j. destruct (decide (j < 14)%nat) as [Hj|Hj]; [|by rewrite !lookup_take_ge by (unfold DIRSIZ; lia)].
    rewrite !lookup_take_lt by (unfold DIRSIZ; lia).
    assert (forall u, name_ok u -> (Z.of_nat j < k -> byte_at u (Z.of_nat j) <> 0) -> (k < 14 -> byte_at u k = 0) ->
      u !! j = if decide (Z.of_nat j < k) then Some (byte_at u (Z.of_nat j)) else None) as Hu.
    { intros u Hu H1 H2. case_decide as Hjk.
      - unfold byte_at in *. rewrite Nat2Z.id, nth_lookup in *. destruct (u !! j); [done|]. by destruct (H1 Hjk).
      - apply lookup_ge_None. destruct (decide (k < Z.of_nat (length u))) as [Hlt|]; [|lia]. pose proof (byte_at_name u k Hu ltac:(lia)). rewrite H2 in *; lia. }
    assert (Z.of_nat j < k -> byte_at s (Z.of_nat j) <> 0 /\ byte_at s (Z.of_nat j) = byte_at t (Z.of_nat j)) as Hjk.
    { intros Hlt. destruct (Heq (Z.of_nat j)) as [E1 E2]; [lia|]. destruct (Hm (Z.of_nat j)) as [Ha Hb]; [lia|]. by rewrite <- Ha, <- Hb. }
    assert (k < 14 -> byte_at s k = 0 /\ byte_at t k = 0) as Hkz.
    { intros Hlt. destruct (Hend Hlt) as [E1 E2]. destruct (Hm k) as [Ha Hb]; [lia|]. by rewrite <- Ha, <- Hb. }
    rewrite (Hu s), (Hu t); try done; [|intros Hlt; destruct (Hjk Hlt) as [E1 E2]; by rewrite <- E2|apply Hkz|apply Hjk|apply Hkz].
    case_decide as Hlt; [|done]. by destruct (Hjk Hlt) as [_ ->].
  - intros E. assert (forall i, 0 <= i < 14 -> byte_at s i = byte_at t i) as Hb.
    { intros i Hi. unfold byte_at. rewrite !nth_lookup. rewrite <- (lookup_take_lt s DIRSIZ), <- (lookup_take_lt t DIRSIZ), E by (unfold DIRSIZ; lia). done. }
    exists (Z.min 14 (Z.of_nat (length s))). split; [lia|]. split.
    + intros i Hi. destruct (Hm i) as [-> ->]; [lia|]. rewrite <- Hb by lia. split; [|done]. pose proof (byte_at_name s i Hs). lia.
    + intros Hlt. destruct (Hm (Z.min 14 (Z.of_nat (length s)))) as [-> ->]; [lia|]. rewrite <- Hb by lia. by rewrite byte_at_past by lia.
Qed.

(** ** The entries of the root directory *)
Fixpoint listing_from (inum : Z) (files : list srcfile) : list (Z * list Z) :=
  match files with
  | [] => []
  | f :: files' => (inum, src_name f) :: listing_from (inum + 1) files'
  end.
Definition listing (files : list srcfile) : list (Z * list Z) := (1, [46]) :: (1, [46; 46]) :: listing_from 2 files.
Definition entry_bytes (l : list (Z * list Z)) : list Z := concat (map (fun en => new_entry (fst en) (snd en)) l).

Lemma entries_listing inum files : entries inum files = entry_bytes (listing_from inum files).
Proof. revert inum. induction files as [|f files IH]; intros inum; [done|]. cbn [entries listing_from]. unfold entry_bytes in *. cbn [map concat fst snd]. by rewrite IH. Qed.
Lemma listing_bytes files : dots ++ entries 2 files = entry_bytes (listing files).
Proof. unfold dots, listing. rewrite entries_listing. unfold entry_bytes. cbn [map concat fst snd]. by rewrite <- app_assoc. Qed.
Lemma listing_from_lookup files : forall inum i, listing_from inum files !! i = (fun f => (inum + Z.of_nat i, src_name f)) <$> files !! i.
Proof.
  induction files as [|f files IH]; intros inum i; [done|]. destruct i as [|i]; cbn [listing_from lookup list_lookup fmap option_fmap option_map].
  - cbn. by rewrite Z.add_0_r.
  - rewrite IH. destruct (files !! i); [|done]. cbn. do 2 f_equal. lia.
Qed.
Lemma listing_names files : snd <$> listing files = [46] :: [46; 46] :: (src_name <$> files).
Proof. unfold listing. cbn. do 2 f_equal. generalize 2. induction files as [|f files IH]; intros n; cbn; [done|]. by rewrite IH. Qed.
Lemma entry_slice l rest : forall i en, l !! i = Some en -> take 16 (drop (16 * i) (entry_bytes l ++ rest)) = new_entry (fst en) (snd en).
Proof.
  unfold entry_bytes. induction l as [|en' l IH]; intros i en Hi; [done|]. cbn [map concat]. pose proof (length_new_entry (fst en') (snd en')) as Hl. rewrite <- app_assoc. destruct i as [|i].
  - cbn in Hi. simplify_eq. rewrite Nat.mul_0_r, drop_0, take_app_le, take_ge by lia. done.
  - cbn in Hi. replace (16 * S i)%nat with (length (new_entry (fst en') (snd en')) + 16 * i)%nat by lia. rewrite drop_app_add. by apply IH.
Qed.
Lemma decode_new_entry inum name : 0 <= inum < 2 ^ 16 -> decode_dirent (new_entry inum name) = mkDirent inum (entry_name name).
Proof.
  intros Hi. unfold decode_dirent, new_entry, encode_dirent. rewrite xshort_id by done. cbn [de_inum de_name app drop]. f_equal.
  change (u8 inum + 2 ^ 8 * u8 (inum / 2 ^ 8) = inum). unfold u8. Z.to_euclidean_division_equations. lia.
Qed.
Lemma contents_slice c x off n : 0 <= off -> 0 <= n -> off + n <= i_size x -> fbytes c x off n = take (Z.to_nat n) (drop (Z.to_nat off) (contents c x)).
Proof.
  intros Ho Hn Hs. unfold contents. replace (i_size x) with (off + (n + (i_size x - off - n))) by lia. rewrite !fbytes_app by lia. rewrite Z.add_0_l.
  rewrite drop_app_ge, length_fbytes, Nat.sub_diag, drop_0 by (rewrite length_fbytes; lia). by rewrite take_app_le, take_ge by (rewrite length_fbytes; lia).
Qed.

Section Root.
Context (c : Z -> list Z) (root : inode) (files : list srcfile) (rest : list Z).
Context (Hc : contents c root = entry_bytes (listing files) ++ rest) (Hcount : Z.of_nat (length files) <= 198).
Context (Hsz : root_size files <= i_size root).

Lemma listing_len : length (listing files) = (2 + length files)%nat.
Proof. rewrite <- (length_fmap snd), listing_names. cbn. by rewrite length_fmap. Qed.
Lemma listing_inum i en : listing files !! i = Some en -> 0 < fst en < 2 ^ 16.
Proof using Hcount.
  intros Hi. pose proof (lookup_lt_Some _ _ _ Hi) as Hlt. rewrite listing_len in Hlt. unfold listing in Hi. destruct i as [|[|i]]; cbn in Hi; simplify_eq; [cbn; lia|cbn; lia|].
  rewrite listing_from_lookup in Hi. destruct (files !! i); [|done]. cbn in Hi. simplify_eq. cbn [fst]. lia.
Qed.
Lemma root_entry i en : listing files !! i = Some en -> entry_at c root (16 * Z.of_nat i) = mkDirent (fst en) (entry_name (snd en)).
Proof using Hc Hcount Hsz.
  intros Hi. pose proof (lookup_lt_Some _ _ _ Hi) as Hlt. rewrite listing_len in Hlt. unfold entry_at. rewrite contents_slice by (unfold root_size, DIRENT_SIZE in *; lia).
  rewrite Hc. change (Z.to_nat DIRENT_SIZE) with 16%nat. replace (Z.to_nat (16 * Z.of_nat i)) with (16 * i)%nat by lia. rewrite (entry_slice _ _ i en Hi).
  apply decode_new_entry. pose proof (listing_inum i en Hi). lia.
Qed.
(** The kernel's search finds the first entry with the name. *)
Lemma root_finds i en :
  Forall name_ok (snd <$> listing files) -> NoDup (take DIRSIZ <$> (snd <$> listing files)) -> listing files !! i = Some en ->
  find_entry c root (snd en) = Some (16 * Z.of_nat i).
Proof using Hc Hcount Hsz.
  intros Hnames Hnd Hi. unfold find_entry. pose proof (lookup_lt_Some _ _ _ Hi) as Hlt. rewrite listing_len in Hlt.
  assert (forall j en', listing files !! j = Some en' -> name_ok (snd en')) as Hok.
  { intros j en' Hj. apply (Forall_lookup_1 _ _ j _ Hnames). by rewrite list_lookup_fmap, Hj. }
  assert (forall j, (Z.of_nat j < i_size root / DIRENT_SIZE) -> dirent_offs (i_size root) !! j = Some (16 * Z.of_nat j)) as Hoffs.
  { intros j Hj. unfold dirent_offs. rewrite list_lookup_fmap, lookup_seqZ_lt by (unfold DIRENT_SIZE in *; Z.to_euclidean_division_equations; lia). cbn. unfold DIRENT_SIZE. f_equal. lia. }
  assert (Z.of_nat (2 + length files) <= i_size root / DIRENT_SIZE) as Hcnt by (unfold root_size, DIRENT_SIZE in *; Z.to_euclidean_division_equations; lia).
  assert (list_find (entry_is c root (snd en)) (dirent_offs (i_size root)) = Some (i, 16 * Z.of_nat i)) as ->; [|done].
  apply list_find_Some. split_and!.
  - apply Hoffs. lia.
  - unfold entry_is. rewrite (root_entry i en Hi). cbn. pose proof (listing_inum i en Hi). split; [lia|]. apply namecmp_entry; [by apply (Hok i)|by apply (Hok i)|done].
  - intros j y Hj Hji. rewrite Hoffs in Hj by lia. simplify_eq. destruct (lookup_lt_is_Some_2 (listing files) j) as [en' Hj]; [rewrite listing_len; lia|].
    unfold entry_is. rewrite (root_entry j en' Hj). cbn. intros [_ En]. apply namecmp_entry in En; [|by apply (Hok i)|by apply (Hok j)].
    assert (i = j); [|lia]. apply (NoDup_lookup _ i j (take DIRSIZ (snd en)) Hnd); rewrite !list_lookup_fmap; [by rewrite Hi|rewrite Hj; cbn [fmap option_fmap option_map]; by rewrite En].
Qed.
End Root.

(** ** The image that main() leaves *)
(** Arguments for which main() succeeds. *)
Record args_ok (files : list srcfile) : Prop := mkArgsOk {
  ao_src : Forall src_ok files;
  ao_count : Z.of_nat (length files) <= 198;
  ao_root : (2 + Z.of_nat (length files)) mod 64 <> 0;
  ao_fit : nmeta + blocks_of (nblocks_of (root_size files)) + src_blocks files <= FSSIZE
}.
(** Names that the kernel's search tells apart. *)
Definition names_ok (files : list srcfile) : Prop :=
  Forall name_ok (src_name <$> files) /\ NoDup (take DIRSIZ <$> ([46] :: [46; 46] :: (src_name <$> files))).

(** The blocks [c] hold a file system whose inodes, from inode 1 on, are [xs]. *)
Record file_system (c : Z -> list Z) (xs : list inode) : Prop := mkFileSystem {
  fs_super : decode_sb (c 1) = the_sb;
  fs_log : head_n (c (sb_logstart the_sb)) = 0;
  fs_bitmap : bitmap_ok c the_sb;
  fs_inum i x : xs !! i = Some x -> load_dinode (c (IBLOCK (Z.of_nat i + 1) the_sb)) (dinode_off (Z.of_nat i + 1)) inode0 = x;
  fs_file i x : xs !! i = Some x -> file_ok the_sb c x /\ mapped c x;
  fs_apart i j x y : xs !! i = Some x -> xs !! j = Some y -> i <> j -> disjoint_files c x y
}.
Lemma decode_the_sb : decode_sb (encode_sb the_sb) = the_sb.
Proof. by vm_compute. Qed.
Lemma image_file_system s c xs : image s c xs -> file_system c xs.
Proof.
  intros Hm. constructor.
  - rewrite (im_boot _ _ _ Hm 1) by lia. apply decode_the_sb.
  - rewrite the_sb_eq. cbn [sb_logstart]. rewrite (im_boot _ _ _ Hm 2) by lia. by vm_compute.
  - apply (disk_bitmap s c (mk_freeblock s)), Hm.
  - apply Hm.
  - intros i x Hi. destruct (im_file _ _ _ Hm i x Hi) as [F1 F2 _ _ F5]. split; [done|]. by apply exact_mapped.
  - apply Hm.
Qed.

(** ** fsinit() *)
Section Mount.
Context `{Symbols} {D : BlockDevice} {DOK : BlockDeviceOK D} (p : nat) (dev : Z) (e : list (kernel -> kernel)) (k : kernel).
Context (Hk : bcached p dev k (disk_block k) (fun _ => 0) ∅) (Hh : length (lh_block (k_log k)) = Z.to_nat LOGSIZE).

Lemma readsb_ok : exists k', readsb dev e k = Ok tt e k' /\ bcached p dev k' (disk_block k') (fun _ => 0) ∅ /\
  io_frame (set_k_sb (decode_sb (disk_block k 1)) k) k'.
Proof using DOK Hk.
  clear Hh. destruct (bread_view p dev e k _ _ _ Hk 1) as (i & k1 & E1 & H1 & F1); [done|left; exists []; split; [cbn; unfold NBUF; lia|]|].
  { intros b [Hb|[i Hb]]; [done|by rewrite lookup_empty in Hb]. }
  destruct (bc_held_at _ _ _ _ _ _ H1 i 1 (lookup_insert_eq _ _ _)) as [Hi Hbuf].
  assert (b_data (get_buf k1 i) = disk_block k 1) as Ed by apply Hbuf. set (sb := decode_sb (disk_block k 1)).
  assert (bcached p dev (set_k_sb sb k1) (disk_block k) (fun _ => 0) (<[1 := i]> ∅)) as H2 by by apply bcached_set_sb.
  destruct (brelse_view p dev e _ _ _ _ H2 1 i) as (k2 & E2 & H3 & F2); [apply lookup_insert_eq|left; symmetry; apply (frame_block _ _ 1 F1)|].
  exists k2. unfold readsb. rewrite (bind_Ok _ _ _ _ _ _ _ E1). rewrite (bind_Ok (modify _) _ tt e k1 e (set_k_sb sb k1)); [|cbn; by rewrite Ed].
  split; [exact E2|]. assert (io_frame (set_k_sb sb k) k2) as F.
  { transitivity (set_k_sb sb k1); [|exact F2]. exact (f_equal (set_k_sb sb) F1). }
  split; [|exact F]. rewrite delete_insert_id in H3 by done.
  apply (bcached_ext p dev k2 (disk_block k) _ (fun _ => 0) (fun _ => 0)); [|done|done]. intros b. symmetry. exact (frame_block _ _ b F).
Qed.
Lemma fsinit_ok :
  let sb := decode_sb (disk_block k 1) in let start := i32 (sb_logstart sb) in
  sb_magic sb = FSMAGIC -> valid_head start (disk_block k start) ->
  exists k', fsinit dev e k = Ok tt e k' /\ k_sb k' = sb /\ (forall b, disk_block k' b = recovered start (disk_block k) b) /\
    bcached p dev k' (recovered start (disk_block k)) (fun _ => 0) ∅.
Proof using DOK Hk Hh.
  intros sb start Hmag Hv. destruct readsb_ok as (k1 & E1 & H1 & F1). fold sb in F1.
  assert (k_sb k1 = sb) as Es by exact (f_equal k_sb F1). assert (forall b, disk_block k1 b = disk_block k b) as Ed by (intros b; exact (frame_block _ _ b F1)).
  assert (recovered start (disk_block k1) = recovered start (disk_block k)) as Er by (unfold recovered, recover_writes; unfold disk_block; by rewrite (frame_disk _ _ F1)).
  destruct (initlog_view p dev start e k1) as (k2 & E2 & _ & D2 & S2 & H2).
  - constructor; [exact H1|by rewrite Es|]. change (k_log k) with (k_log (set_k_sb sb k)) in Hh. by rewrite (frame_log _ _ F1).
  - by rewrite Ed.
  - exists k2. unfold fsinit. rewrite (bind_Ok _ _ _ _ _ _ _ E1). cbn [bind gets]. rewrite Es. rewrite decide_False by tauto.
    rewrite <- Er. split_and!; [exact E2|by rewrite S2|exact D2|exact H2].
Qed.
Lemma fsinit_bad_magic : sb_magic (decode_sb (disk_block k 1)) <> FSMAGIC -> fsinit dev e k = Panic "invalid file system".
Proof using DOK Hk.
  clear Hh. intros Hmag. destruct readsb_ok as (k1 & E1 & H1 & F1). unfold fsinit. rewrite (bind_Ok _ _ _ _ _ _ _ E1). cbn [bind gets].
  assert (k_sb k1 = decode_sb (disk_block k 1)) as -> by exact (f_equal k_sb F1). by rewrite decide_True.
Qed.
End Mount.

(** Recovery of an empty log. *)
Lemma recovered_empty c start b : c start = zeros -> recovered start c b = c b.
Proof.
  intros Hz. unfold recovered, recover_writes. rewrite view_writes_app, Hz, head_list_nil by by vm_compute. cbn [home_copy map view_writes length Z.of_nat].
  change (fupd start (put32 zeros 0 0) c b = c b). change (put32 zeros 0 0) with zeros. unfold fupd. case_decide as E; [|done]. by subst.
Qed.
Lemma zeros_valid start : valid_head start zeros.
Proof. split; [by vm_compute|]. rewrite head_list_nil by by vm_compute. constructor; [by apply Nat.ltb_lt|constructor|]. intros b Hb. by apply elem_of_nil in Hb. Qed.
