(* ===== verification/PropsMkfs.v ===== *)
(** * Properties: mkfs and the image the kernel boots from *)

From S2P Require Import Prelude Machine Kstring Kernel Bio BioSpec Log LogSpec LogCommit Fs FsSpec FsTx FsAlloc FsFile FsGrow FsDir Mkfs MkfsSpec MkfsMain MkfsBoot Demo.

(** C10: mkfs builds a well-formed file system.  For source files that fit, main()
    succeeds with an image of FSSIZE blocks whose superblock is the one the
    kernel decodes, whose log is empty, whose bitmap marks every block in use,
    and whose inodes are well formed, mapped and share no block.  Inode 1 is
    the root directory, with its own size a whole number of blocks; inode i + 2
    is a file with one link that holds exactly the bytes of the i-th source
    file; and, when the names differ in their first DIRSIZ bytes, the kernel's
    search of the root directory for the name of that source file finds the
    entry with inode number i + 2. *)
Theorem mkfs_builds_file_system e files :
  args_ok files ->
  exists s c root ys, main files e mkstate0 = Ok tt e s /\ length (mk_img s) = Z.to_nat FSSIZE /\ (forall b, img_block s b = c b) /\
    file_system c (root :: ys) /\ dir_ok c root /\
    Forall2 (fun f y => i_type y = T_FILE /\ i_nlink y = 1 /\ contents c y = src_data f) files ys /\
    (names_ok files -> forall i f, files !! i = Some f ->
       exists off, find_entry c root (src_name f) = Some off /\ de_inum (entry_at c root off) = Z.of_nat i + 2).
Proof.
  intros [A1 A2 A3 A4]. destruct (main_ok e files A1 A2 A3 A4) as (s & s1 & c & root & ys & E & Hl & Hv & Hm & T & Sz & C & FF).
  pose proof (image_file_system s1 c _ Hm) as Hfs. assert (root_size files <= i_size root) as Hle.
  { rewrite Sz, BSIZE_eq. pose proof (Z.mod_pos_bound (root_size files) 1024). Z.to_euclidean_division_equations. lia. }
  exists s, c, root, ys. split; [exact E|]. split; [exact Hl|]. split; [exact Hv|]. split; [exact Hfs|]. split; [|split; [exact FF|]].
  - constructor; [done|by apply (fs_file _ _ Hfs 0)|]. rewrite Sz. unfold DIRENT_SIZE. rewrite BSIZE_eq. replace (_ * 1024) with ((root_size files / 1024 + 1) * 64 * 16) by lia. apply Z.mod_mul. lia.
  - intros [N1 N2] i f Hf. assert (listing files !! S (S i) = Some (Z.of_nat i + 2, src_name f)) as Hi.
    { unfold listing. cbn. rewrite listing_from_lookup, Hf. cbn. do 2 f_equal. lia. }
    rewrite app_assoc, listing_bytes in C. exists (16 * Z.of_nat (S (S i))). split.
    + apply (root_finds c root files _ C A2 Hle _ _) in Hi; [done| |by rewrite listing_names]. rewrite listing_names.
      constructor; [split; [repeat constructor; lia|done]|]. constructor; [split; [repeat constructor; lia|done]|done].
    + by rewrite (root_entry c root files _ C A2 Hle _ _ Hi).
Qed.

(** Two source files: user/_a with the text hi, and an empty README. *)
Definition demo_files : list srcfile :=
  [mkSrcfile [117; 115; 101; 114; 47; 95; 97] (Some [[104; 105]]); mkSrcfile [82; 69; 65; 68; 77; 69] (Some [])].
Lemma demo_args : args_ok demo_files.
Proof.
  constructor; [|cbn; lia|done|by vm_compute].
  apply Forall_cons_2; [|apply Forall_cons_2; [|by apply Forall_nil_2]]; (split; [|split; [done|by vm_compute]]); by apply (bool_decide_unpack _); vm_compute.
Qed.
Lemma demo_names : names_ok demo_files.
Proof.
  split; [|by apply (bool_decide_unpack _); vm_compute].
  apply Forall_cons_2; [|apply Forall_cons_2; [|by apply Forall_nil_2]]; (split; [|by vm_compute]); by apply (bool_decide_unpack _); vm_compute.
Qed.

Lemma mkfs_builds_file_system_witness :
  exists s c root ys, main demo_files [] mkstate0 = Ok tt [] s /\ (forall b, img_block s b = c b) /\ file_system c (root :: ys) /\ dir_ok c root /\
    Forall2 (fun f y => i_type y = T_FILE /\ i_nlink y = 1 /\ contents c y = src_data f) demo_files ys /\
    (exists off, find_entry c root [97] = Some off /\ de_inum (entry_at c root off) = 2).
Proof.
  destruct (mkfs_builds_file_system [] demo_files demo_args) as (s & c & root & ys & E & _ & Hv & Hfs & Hd & FF & Hn).
  exists s, c, root, ys. split; [exact E|]. split; [exact Hv|]. split; [exact Hfs|]. split; [exact Hd|]. split; [exact FF|].
  exact (Hn demo_names 0%nat _ eq_refl).
Defined.

(** C11: the kernel mounts the image that mkfs made.  On a machine whose disk is
    the image and whose cache holds nothing else, fsinit() returns: the
    in-memory superblock is the one mkfs wrote, recovery finds an empty log and
    leaves every block of the image as it was, so the disk the kernel goes on
    with holds the file system mkfs built. *)
Theorem mkfs_image_mounts `{Symbols} {D : BlockDevice} {DOK : BlockDeviceOK D} e files s p dev e' k :
  args_ok files -> main files e mkstate0 = Ok tt e s -> (forall b, disk_block k b = img_block s b) ->
  bcached p dev k (disk_block k) (fun _ => 0) ∅ -> length (lh_block (k_log k)) = Z.to_nat LOGSIZE ->
  exists k' c xs, fsinit dev e' k = Ok tt e' k' /\ k_sb k' = the_sb /\ (forall b, disk_block k' b = img_block s b) /\
    bcached p dev k' c (fun _ => 0) ∅ /\ (forall b, c b = img_block s b) /\ length xs = S (length files) /\ file_system c xs.
Proof.
  intros [A1 A2 A3 A4] Em Hd Hk Hh. destruct (main_ok e files A1 A2 A3 A4) as (s0 & s1 & c & root & ys & E & _ & Hv & Hm & _ & _ & _ & FF).
  rewrite E in Em. injection Em as <-. pose proof (image_file_system s1 c _ Hm) as Hfs.
  assert (forall b, disk_block k b = c b) as Hc by (intros b; by rewrite Hd).
  assert (decode_sb (disk_block k 1) = the_sb) as Es by (rewrite Hc; apply Hfs). assert (disk_block k 2 = zeros) as Ez by (rewrite Hc; exact (im_boot _ _ _ Hm 2 ltac:(lia))).
  destruct (fsinit_ok p dev e' k Hk Hh) as (k' & Ef & Sb & Dk & Hk').
  { by rewrite Es. } { rewrite Es. change (i32 (sb_logstart the_sb)) with 2. rewrite Ez. apply zeros_valid. }
  rewrite Es in Sb, Dk, Hk'. change (i32 (sb_logstart the_sb)) with 2 in Dk, Hk'.
  assert (forall b, recovered 2 (disk_block k) b = c b) as Er by (intros b; by rewrite recovered_empty).
  exists k', c, (root :: ys). split; [exact Ef|]. split; [exact Sb|]. split; [intros b; by rewrite Dk, Er, Hv|].
  split; [by apply (bcached_ext p dev k' (recovered 2 (disk_block k)) c (fun _ => 0) (fun _ => 0))|]. split; [intros b; by rewrite Hv|].
  split; [cbn; f_equal; symmetry; exact (Forall2_length _ _ _ FF)|exact Hfs].
Qed.

(** The disk that holds an image. *)
Definition img_disk (s : mkstate) : gmap Z (list Z) := kmap Z.of_nat (map_seq 0 (mk_img s)).
Lemma img_disk_view s b : disk_view (img_disk s) b = img_block s b.
Proof.
  unfold disk_view, img_block, img_disk. case_decide as Hb.
  - rewrite <- (Z2Nat.id b) at 1 by done. rewrite lookup_kmap by apply _. by rewrite lookup_map_seq_0.
  - rewrite (proj2 (lookup_kmap_None _ _ _)); [done|]. intros i ->. lia.
Qed.

Lemma mkfs_image_mounts_witness :
  exists s k' c xs, main demo_files [] mkstate0 = Ok tt [] s /\ fsinit (D := sync_disk) 1 [] (demo_boot (img_disk s)) = Ok tt [] k' /\ k_sb k' = the_sb /\
    (forall b, disk_block k' b = img_block s b) /\ bcached 0 1 k' c (fun _ => 0) ∅ /\ (forall b, c b = img_block s b) /\
    length xs = 3%nat /\ file_system c xs.
Proof.
  pose proof demo_args as [A1 A2 A3 A4]. destruct (main_ok [] demo_files A1 A2 A3 A4) as (s & s1 & c0 & root & ys & E & _ & Hv & Hm & _).
  assert (forall b, length (disk_view (img_disk s) b) = 1024%nat) as Hlen by (intros b; rewrite img_disk_view, Hv; exact (dk_blocks _ _ _ (im_disk _ _ _ Hm) b)).
  destruct (demo_boot_cold (img_disk s) Hlen) as [Hc _ Hh].
  destruct (mkfs_image_mounts (D := sync_disk) [] demo_files s 0 1 [] (demo_boot (img_disk s)) demo_args E (img_disk_view s) Hc Hh) as (k' & c & xs & R).
  exists s, k', c, xs. split; [exact E|exact R].
Defined.
