(* ===== verification/Virtio.v ===== *)
(** * kernel/virtio_disk.c: the disk driver

    The driver shares a descriptor table and two rings with the device.  Its
    state is [vdisk]: the fields of struct disk with the rings in pages[], the
    buffers and the block contents that requests name, and what the device has
    fetched.  Addresses in descriptors name what they point to ([vaddr]).

    The routines run in the monad of the Prelude on [vdisk]; while a process
    sleeps or spins, the environment says what the device, the interrupt
    handler and other processes do.  wakeup() concerns the process table: here
    it records the channel.

    The device itself is a parameter, the relation [dev]; [device_ok] says what
    the virtio specification (2.6, 5.2) promises: it fetches published chains
    in order and completes fetched ones in any order, transferring the data and
    setting the status byte before it puts the chain on the used ring.  Nothing
    is promised when a fetched chain is not a proper block request. *)

From S2P Require Import Prelude Machine Kernel.

(** ** Data (virtio.h and struct disk) *)
Definition NUM : nat := 8.
Definition VRING_DESC_F_NEXT : Z := 1.
Definition VRING_DESC_F_WRITE : Z := 2.
Definition VIRTIO_BLK_T_IN : Z := 0.
Definition VIRTIO_BLK_T_OUT : Z := 1.

Inductive vaddr := ANull | AOps (i : nat) | AData (b : nat) | AStatus (i : nat).
#[export] Instance vaddr_eq_dec : EqDecision vaddr.
Proof. solve_decision. Defined.

Record virtq_desc := mkDesc { d_addr : vaddr; d_len : Z; d_flags : Z; d_next : nat }.
Record virtio_blk_req := mkReq { r_type : Z; r_reserved : Z; r_sector : Z }.
Definition set_d_addr (a : vaddr) (x : virtq_desc) : virtq_desc := mkDesc a (d_len x) (d_flags x) (d_next x).
Definition set_d_len (n : Z) (x : virtq_desc) : virtq_desc := mkDesc (d_addr x) n (d_flags x) (d_next x).
Definition set_d_flags (f : Z) (x : virtq_desc) : virtq_desc := mkDesc (d_addr x) (d_len x) f (d_next x).
Definition set_d_next (n : nat) (x : virtq_desc) : virtq_desc := mkDesc (d_addr x) (d_len x) (d_flags x) n.
Definition set_r_type (t : Z) (x : virtio_blk_req) : virtio_blk_req := mkReq t (r_reserved x) (r_sector x).
Definition set_r_reserved (v : Z) (x : virtio_blk_req) : virtio_blk_req := mkReq (r_type x) v (r_sector x).
Definition set_r_sector (s : Z) (x : virtio_blk_req) : virtio_blk_req := mkReq (r_type x) (r_reserved x) s.
Record vinfo := mkInfo { in_b : option nat; in_status : Z }.

(** What is waited for: a free descriptor, or the end of a transfer. *)
Inductive vchan := ChFree | ChBuf (b : nat).

Record vdisk := mkVdisk {
  vd_desc : list virtq_desc;        (* desc[NUM] *)
  vd_avail_ring : list nat;         (* avail->ring[NUM] *)
  vd_avail_idx : Z;                 (* avail->idx *)
  vd_used_ring : list nat;          (* used->ring[NUM].id *)
  vd_used_end : Z;                  (* used->idx *)
  vd_free : list Z;                 (* free[NUM] *)
  vd_used_idx : Z;                  (* used_idx *)
  vd_info : list vinfo;             (* info[NUM] *)
  vd_ops : list virtio_blk_req;     (* ops[NUM] *)
  vd_lock : Z;                      (* vdisk_lock *)
  vd_regs : list (Z * Z);           (* register writes, latest first *)
  vd_woken : list vchan;            (* calls of wakeup(), latest first *)
  vd_bufs : list buf;               (* the buffers of the cache *)
  vd_sectors : gmap Z (list Z);     (* device: contents, 512-byte sectors *)
  vd_dev_idx : Z;                   (* device: next entry of the avail ring *)
  vd_fetched : list nat             (* device: chains being served *)
}.

Definition upd_desc (i : nat) (f : virtq_desc -> virtq_desc) (d : vdisk) : vdisk :=
  mkVdisk (alter f i (vd_desc d)) (vd_avail_ring d) (vd_avail_idx d) (vd_used_ring d) (vd_used_end d) (vd_free d)
    (vd_used_idx d) (vd_info d) (vd_ops d) (vd_lock d) (vd_regs d) (vd_woken d) (vd_bufs d) (vd_sectors d) (vd_dev_idx d) (vd_fetched d).
Definition set_avail (ring : list nat) (idx : Z) (d : vdisk) : vdisk :=
  mkVdisk (vd_desc d) ring idx (vd_used_ring d) (vd_used_end d) (vd_free d)
    (vd_used_idx d) (vd_info d) (vd_ops d) (vd_lock d) (vd_regs d) (vd_woken d) (vd_bufs d) (vd_sectors d) (vd_dev_idx d) (vd_fetched d).
Definition set_used (ring : list nat) (idx : Z) (d : vdisk) : vdisk :=
  mkVdisk (vd_desc d) (vd_avail_ring d) (vd_avail_idx d) ring idx (vd_free d)
    (vd_used_idx d) (vd_info d) (vd_ops d) (vd_lock d) (vd_regs d) (vd_woken d) (vd_bufs d) (vd_sectors d) (vd_dev_idx d) (vd_fetched d).
Definition set_free (i : nat) (v : Z) (d : vdisk) : vdisk :=
  mkVdisk (vd_desc d) (vd_avail_ring d) (vd_avail_idx d) (vd_used_ring d) (vd_used_end d) (<[i := v]> (vd_free d))
    (vd_used_idx d) (vd_info d) (vd_ops d) (vd_lock d) (vd_regs d) (vd_woken d) (vd_bufs d) (vd_sectors d) (vd_dev_idx d) (vd_fetched d).
Definition set_used_idx (v : Z) (d : vdisk) : vdisk :=
  mkVdisk (vd_desc d) (vd_avail_ring d) (vd_avail_idx d) (vd_used_ring d) (vd_used_end d) (vd_free d)
    v (vd_info d) (vd_ops d) (vd_lock d) (vd_regs d) (vd_woken d) (vd_bufs d) (vd_sectors d) (vd_dev_idx d) (vd_fetched d).
Definition upd_info (i : nat) (f : vinfo -> vinfo) (d : vdisk) : vdisk :=
  mkVdisk (vd_desc d) (vd_avail_ring d) (vd_avail_idx d) (vd_used_ring d) (vd_used_end d) (vd_free d)
    (vd_used_idx d) (alter f i (vd_info d)) (vd_ops d) (vd_lock d) (vd_regs d) (vd_woken d) (vd_bufs d) (vd_sectors d) (vd_dev_idx d) (vd_fetched d).
Definition upd_op (i : nat) (f : virtio_blk_req -> virtio_blk_req) (d : vdisk) : vdisk :=
  mkVdisk (vd_desc d) (vd_avail_ring d) (vd_avail_idx d) (vd_used_ring d) (vd_used_end d) (vd_free d)
    (vd_used_idx d) (vd_info d) (alter f i (vd_ops d)) (vd_lock d) (vd_regs d) (vd_woken d) (vd_bufs d) (vd_sectors d) (vd_dev_idx d) (vd_fetched d).
Definition set_lock (v : Z) (d : vdisk) : vdisk :=
  mkVdisk (vd_desc d) (vd_avail_ring d) (vd_avail_idx d) (vd_used_ring d) (vd_used_end d) (vd_free d)
    (vd_used_idx d) (vd_info d) (vd_ops d) v (vd_regs d) (vd_woken d) (vd_bufs d) (vd_sectors d) (vd_dev_idx d) (vd_fetched d).
Definition write_reg (r v : Z) (d : vdisk) : vdisk :=
  mkVdisk (vd_desc d) (vd_avail_ring d) (vd_avail_idx d) (vd_used_ring d) (vd_used_end d) (vd_free d)
    (vd_used_idx d) (vd_info d) (vd_ops d) (vd_lock d) ((r, v) :: vd_regs d) (vd_woken d) (vd_bufs d) (vd_sectors d) (vd_dev_idx d) (vd_fetched d).
Definition add_woken (c : vchan) (d : vdisk) : vdisk :=
  mkVdisk (vd_desc d) (vd_avail_ring d) (vd_avail_idx d) (vd_used_ring d) (vd_used_end d) (vd_free d)
    (vd_used_idx d) (vd_info d) (vd_ops d) (vd_lock d) (vd_regs d) (c :: vd_woken d) (vd_bufs d) (vd_sectors d) (vd_dev_idx d) (vd_fetched d).
Definition upd_vbuf (b : nat) (f : buf -> buf) (d : vdisk) : vdisk :=
  mkVdisk (vd_desc d) (vd_avail_ring d) (vd_avail_idx d) (vd_used_ring d) (vd_used_end d) (vd_free d)
    (vd_used_idx d) (vd_info d) (vd_ops d) (vd_lock d) (vd_regs d) (vd_woken d) (alter f b (vd_bufs d)) (vd_sectors d) (vd_dev_idx d) (vd_fetched d).
Definition set_device (sectors : gmap Z (list Z)) (idx : Z) (fetched : list nat) (d : vdisk) : vdisk :=
  mkVdisk (vd_desc d) (vd_avail_ring d) (vd_avail_idx d) (vd_used_ring d) (vd_used_end d) (vd_free d)
    (vd_used_idx d) (vd_info d) (vd_ops d) (vd_lock d) (vd_regs d) (vd_woken d) (vd_bufs d) sectors idx fetched.
(** memset(disk.pages, 0, sizeof(disk.pages)) *)
Definition clear_pages (d : vdisk) : vdisk :=
  mkVdisk (replicate NUM (mkDesc ANull 0 0 0)) (replicate NUM 0%nat) 0 (replicate NUM 0%nat) 0 (vd_free d)
    (vd_used_idx d) (vd_info d) (vd_ops d) (vd_lock d) (vd_regs d) (vd_woken d) (vd_bufs d) (vd_sectors d) (vd_dev_idx d) (vd_fetched d).

Definition null_desc : virtq_desc := mkDesc ANull 0 0 0.
Definition get_desc (d : vdisk) (i : nat) : virtq_desc := default null_desc (vd_desc d !! i).
Definition get_info (d : vdisk) (i : nat) : vinfo := default (mkInfo None 0) (vd_info d !! i).
Definition get_op (d : vdisk) (i : nat) : virtio_blk_req := default (mkReq 0 0 0) (vd_ops d !! i).
Definition get_vbuf (d : vdisk) (b : nat) : buf :=
  default (mkBuf 0 0 0 0 (mkSleeplock 0 "" 0) 0 0 0 []) (vd_bufs d !! b).

Abbreviation V := (M vdisk).

(** ** The lock, sleeping and waking *)
Fixpoint vacquire (e : list (vdisk -> vdisk)) (d : vdisk) : out vdisk unit :=
  if decide (vd_lock d = 0) then Ok tt e (set_lock 1 d)
  else match e with
       | [] => Wait WSpin d
       | f :: e' => vacquire e' (f d)
       end.
Definition vrelease : V unit := modify (set_lock 0).
Definition vsleep : V unit := vrelease;;; hand_over;;; vacquire.
Definition vwakeup (c : vchan) : V unit := modify (add_woken c).

(** ** Descriptors *)
Fixpoint first_free (l : list Z) (i : nat) : option nat :=
  match l with
  | [] => None
  | f :: l' => if decide (f <> 0) then Some i else first_free l' (S i)
  end.
Definition alloc_desc : V (option nat) :=
  l <- gets vd_free;;
  match first_free l 0 with
  | Some i => modify (set_free i 0);;; ret (Some i)
  | None => ret None
  end.

Definition free_desc (i : nat) : V unit :=
  if decide (NUM <= i)%nat then panic "free_desc 1" else
  f <- gets (fun d => default 0 (vd_free d !! i));;
  if decide (f <> 0) then panic "free_desc 2" else
  modify (upd_desc i (fun _ => mkDesc ANull 0 0 0));;;
  modify (set_free i 1);;;
  vwakeup ChFree.

(** One turn of free_chain(): the descriptor that follows, if any. *)
Definition free_turn (i : nat) : V (option nat) :=
  x <- gets (fun d => get_desc d i);;
  free_desc i;;;
  ret (if decide (Z.land (d_flags x) VRING_DESC_F_NEXT <> 0) then Some (d_next x) else None).
Fixpoint free_chain (fuel : nat) (i : nat) : V unit :=
  match fuel with
  | O => fun _ _ => NoFuel
  | S fuel' =>
      o <- free_turn i;;
      match o with Some n => free_chain fuel' n | None => skip end
  end.

(** The turns of alloc3_desc() that are left, with what is in idx[]. *)
Fixpoint alloc_descs (n : nat) (idx : list nat) : V (option (list nat)) :=
  match n with
  | O => ret (Some idx)
  | S n' =>
      o <- alloc_desc;;
      match o with
      | Some i => alloc_descs n' (idx ++ [i])
      | None => for_ idx free_desc;;; ret None
      end
  end.
Definition alloc3_desc : V (option (list nat)) := alloc_descs 3 [].

(** ** virtio_disk_rw() *)

(** The loop that waits for three descriptors. *)
Definition alloc_turn (_ : unit) : V (list nat + unit) :=
  o <- alloc3_desc;;
  match o with
  | Some idx => ret (inl idx)
  | None => vsleep;;; ret (inr tt)
  end.

Definition VIRTIO_MMIO_QUEUE_NOTIFY : Z := 80.

(** The stores that format the three descriptors, record the buffer and publish
    the chain, in the order of the source. *)
Definition submit_stores (b : nat) (write sector : Z) (idx0 idx1 idx2 : nat) : list (vdisk -> vdisk) :=
  [upd_op idx0 (set_r_type (if decide (write <> 0) then VIRTIO_BLK_T_OUT else VIRTIO_BLK_T_IN));
   upd_op idx0 (set_r_reserved 0);
   upd_op idx0 (set_r_sector sector);
   upd_desc idx0 (set_d_addr (AOps idx0));
   upd_desc idx0 (set_d_len 16);
   upd_desc idx0 (set_d_flags VRING_DESC_F_NEXT);
   upd_desc idx0 (set_d_next idx1);
   upd_desc idx1 (set_d_addr (AData b));
   upd_desc idx1 (set_d_len BSIZE);
   upd_desc idx1 (set_d_flags (if decide (write <> 0) then 0 else VRING_DESC_F_WRITE));
   upd_desc idx1 (fun x => set_d_flags (Z.lor (d_flags x) VRING_DESC_F_NEXT) x);
   upd_desc idx1 (set_d_next idx2);
   upd_info idx0 (fun x => mkInfo (in_b x) 255);
   upd_desc idx2 (set_d_addr (AStatus idx0));
   upd_desc idx2 (set_d_len 1);
   upd_desc idx2 (set_d_flags VRING_DESC_F_WRITE);
   upd_desc idx2 (set_d_next 0);
   upd_vbuf b (set_b_disk 1);
   upd_info idx0 (fun x => mkInfo (Some b) (in_status x));
   (fun d => set_avail (<[Z.to_nat (vd_avail_idx d mod 8) := idx0]> (vd_avail_ring d)) (vd_avail_idx d) d);
   (fun d => set_avail (vd_avail_ring d) (u16 (vd_avail_idx d + 1)) d);
   write_reg VIRTIO_MMIO_QUEUE_NOTIFY 0].
(** [sector] is computed from the block number of the buffer, which belongs to
    the caller (the source computes it before it takes the lock). *)
Definition submit (b : nat) (write : Z) (idx0 idx1 idx2 : nat) : V unit :=
  blockno <- gets (fun d => b_blockno (get_vbuf d b));;
  for_ (submit_stores b write (u32 (blockno * 2)) idx0 idx1 idx2) modify.

(** One test of [while(b->disk == 1) sleep(b, &disk.vdisk_lock)]. *)
Definition rw_wait_turn (b : nat) (_ : unit) : V (unit + unit) :=
  busy <- gets (fun d => b_disk (get_vbuf d b));;
  if decide (busy = 1) then vsleep;;; ret (inr tt) else ret (inl tt).

(** The end of the request: the buffer is forgotten and the chain freed. *)
Definition finish (idx0 : nat) : V unit :=
  modify (upd_info idx0 (fun x => mkInfo None (in_status x)));;;
  free_chain (S NUM) idx0.

Definition virtio_disk_rw (b : nat) (write : Z) : V unit :=
  vacquire;;;
  idx <- (fun e d => loop_ (S (length e)) alloc_turn tt e d);;
  match idx with
  | [idx0; idx1; idx2] =>
      submit b write idx0 idx1 idx2;;;
      (fun e d => loop_ (S (length e)) (rw_wait_turn b) tt e d);;;
      finish idx0;;;
      vrelease
  | _ => fun _ _ => NoFuel
  end.

(** ** virtio_disk_intr() *)
Definition VIRTIO_MMIO_INTERRUPT_STATUS : Z := 96.
Definition VIRTIO_MMIO_INTERRUPT_ACK : Z := 100.

(** disk.used_idx != disk.used->idx *)
Definition intr_more : V bool := gets (fun d => bool_decide (vd_used_idx d <> vd_used_end d)).
(** The buffer of the request on the used ring; a null [info[id].b] faults in the
    kernel. *)
Definition intr_entry : V nat :=
  i <- gets (fun d => default 0%nat (vd_used_ring d !! Z.to_nat (vd_used_idx d mod 8)));;
  status <- gets (fun d => in_status (get_info d i));;
  if decide (status <> 0) then panic "virtio_disk_intr status" else
  o <- gets (fun d => in_b (get_info d i));;
  match o with
  | None => panic "kerneltrap"
  | Some b => ret b
  end.
(** b->disk = 0, wakeup(b) and disk.used_idx += 1. *)
Definition intr_stores (b : nat) : list (vdisk -> vdisk) :=
  [upd_vbuf b (set_b_disk 0);
   add_woken (ChBuf b);
   (fun d => set_used_idx (u16 (vd_used_idx d + 1)) d)].
Definition intr_turn (_ : unit) : V (unit + unit) :=
  more <- intr_more;;
  if more : bool then
    b <- intr_entry;;
    for_ (intr_stores b) modify;;;
    ret (inr tt)
  else ret (inl tt).
(** [status] is what the interrupt status register reads. *)
Definition virtio_disk_intr (status : Z) : V unit :=
  vacquire;;;
  modify (write_reg VIRTIO_MMIO_INTERRUPT_ACK (Z.land status 3));;;
  (fun e d => loop_ (S (Z.to_nat (u16 (vd_used_end d - vd_used_idx d)))) intr_turn tt e d);;;
  vrelease.

(** ** virtio_disk_init()

    [reg] is what the registers of the device read; [pages] is the physical
    address of disk.pages. *)
Section Init.
Context (reg : Z -> Z) (pages : Z).

Definition VIRTIO_MMIO_MAGIC_VALUE : Z := 0.
Definition VIRTIO_MMIO_VERSION : Z := 4.
Definition VIRTIO_MMIO_DEVICE_ID : Z := 8.
Definition VIRTIO_MMIO_VENDOR_ID : Z := 12.
Definition VIRTIO_MMIO_DEVICE_FEATURES : Z := 16.
Definition VIRTIO_MMIO_DRIVER_FEATURES : Z := 32.
Definition VIRTIO_MMIO_GUEST_PAGE_SIZE : Z := 40.
Definition VIRTIO_MMIO_QUEUE_SEL : Z := 48.
Definition VIRTIO_MMIO_QUEUE_NUM_MAX : Z := 52.
Definition VIRTIO_MMIO_QUEUE_NUM : Z := 56.
Definition VIRTIO_MMIO_QUEUE_PFN : Z := 64.
Definition VIRTIO_MMIO_STATUS : Z := 112.

(** The feature bits the driver does not take. *)
Definition refused_features : list Z := [5; 7; 11; 12; 27; 29; 28].
Definition driver_features (f : Z) : Z := foldl (fun f b => Z.ldiff f (2 ^ b)) f refused_features.

Definition virtio_disk_init : V unit :=
  vrelease;;;
  if decide (reg VIRTIO_MMIO_MAGIC_VALUE <> 1953655158 \/ reg VIRTIO_MMIO_VERSION <> 1 \/
             reg VIRTIO_MMIO_DEVICE_ID <> 2 \/ reg VIRTIO_MMIO_VENDOR_ID <> 1431127377)
  then panic "could not find virtio disk" else
  let status := Z.lor 0 1 in
  modify (write_reg VIRTIO_MMIO_STATUS status);;;
  let status := Z.lor status 2 in
  modify (write_reg VIRTIO_MMIO_STATUS status);;;
  modify (write_reg VIRTIO_MMIO_DRIVER_FEATURES (driver_features (reg VIRTIO_MMIO_DEVICE_FEATURES)));;;
  let status := Z.lor status 8 in
  modify (write_reg VIRTIO_MMIO_STATUS status);;;
  let status := Z.lor status 4 in
  modify (write_reg VIRTIO_MMIO_STATUS status);;;
  modify (write_reg VIRTIO_MMIO_GUEST_PAGE_SIZE PGSIZE);;;
  modify (write_reg VIRTIO_MMIO_QUEUE_SEL 0);;;
  let max := reg VIRTIO_MMIO_QUEUE_NUM_MAX in
  if decide (max = 0) then panic "virtio disk has no queue 0" else
  if decide (max < Z.of_nat NUM) then panic "virtio disk max queue too short" else
  modify (write_reg VIRTIO_MMIO_QUEUE_NUM (Z.of_nat NUM));;;
  modify clear_pages;;;
  modify (write_reg VIRTIO_MMIO_QUEUE_PFN (Z.shiftr pages PGSHIFT));;;
  for_ (seq 0 NUM) (fun i => modify (set_free i 1)).
End Init.
