(* ===== verification/VirtioSpec.v ===== *)
(** * The disk driver and its device: requests and their invariant

    The device ([decode], [fetch], [serve], [device_ok]) and the calls in
    progress: a call is remembered with the data it is to leave in its buffer and
    on the disk.  [vinv] is what holds when nobody is in the driver: the
    descriptor chains of the calls are disjoint and exactly the others are free,
    the rings hold each published or completed chain once, and a call whose
    buffer is no longer owned by the device has transferred its block.  Each
    operation keeps it when it runs alone; VirtioRace.v interleaves their
    single stores with the device. *)

From S2P Require Import Prelude Machine Kernel Virtio.

(** ** The device *)

Definition sector_at (d : vdisk) (s : Z) : list Z := default (replicate 512 0) (vd_sectors d !! s).
Definition block_at (d : vdisk) (s : Z) : list Z := sector_at d s ++ sector_at d (s + 1).

(** The block request a chain describes: direction, sector, buffer, status byte. *)
Definition decode (d : vdisk) (id : nat) : option (bool * Z * nat * nat) :=
  let h := get_desc d id in
  let x := get_desc d (d_next h) in
  let s := get_desc d (d_next x) in
  match d_addr h, d_addr x, d_addr s with
  | AOps o, AData b, AStatus t =>
      if decide (d_len h = 16 /\ d_flags h = VRING_DESC_F_NEXT /\ d_len x = BSIZE /\ d_len s = 1 /\ d_flags s = VRING_DESC_F_WRITE) then
        let op := get_op d o in
        if decide (r_type op = VIRTIO_BLK_T_OUT /\ d_flags x = VRING_DESC_F_NEXT)
        then Some (true, r_sector op, b, t)
        else if decide (r_type op = VIRTIO_BLK_T_IN /\ d_flags x = Z.lor VRING_DESC_F_WRITE VRING_DESC_F_NEXT)
        then Some (false, r_sector op, b, t)
        else None
      else None
  | _, _, _ => None
  end.

Definition fetch (d : vdisk) : vdisk :=
  set_device (vd_sectors d) (u16 (vd_dev_idx d + 1))
    (vd_fetched d ++ [default 0%nat (vd_avail_ring d !! Z.to_nat (vd_dev_idx d mod 8))]) d.

Definition transfer (out : bool) (s : Z) (b : nat) (d : vdisk) : vdisk :=
  if out then
    let data := b_data (get_vbuf d b) in
    set_device (<[s := take 512 data]> (<[s + 1 := drop 512 data]> (vd_sectors d))) (vd_dev_idx d) (vd_fetched d) d
  else upd_vbuf b (set_b_data (block_at d s)) d.
Definition serve (id : nat) (d : vdisk) : vdisk :=
  match decode d id with
  | None => d
  | Some (out, s, b, t) =>
      let d := transfer out s b d in
      let d := upd_info t (fun x => mkInfo (in_b x) 0) d in
      let d := set_used (<[Z.to_nat (vd_used_end d mod 8) := id]> (vd_used_ring d)) (u16 (vd_used_end d + 1)) d in
      set_device (vd_sectors d) (vd_dev_idx d) (filter (fun x => x <> id) (vd_fetched d)) d
  end.

(** What the specification promises of a step of the device. *)
Definition device_ok (dev : vdisk -> vdisk -> Prop) : Prop :=
  forall d d', dev d d' -> (forall id, id ∈ vd_fetched d -> is_Some (decode d id)) ->
    (vd_dev_idx d <> vd_avail_idx d /\ d' = fetch d) \/ (exists id, id ∈ vd_fetched d /\ d' = serve id d).

(** ** Calls in progress *)
Record call := mkCall { c_buf : nat; c_write : Z; c_i : nat; c_j : nat; c_k : nat; c_blk : Z; c_goal : list Z }.
Definition c_idx (c : call) : list nat := [c_i c; c_j c; c_k c].

(** What a call of virtio_disk_rw(b, write) is to achieve: a write leaves the
    buffer's data on the disk, a read the disk's data in the buffer. *)
Definition goal_of (d : vdisk) (b : nat) (write : Z) : list Z :=
  if decide (write <> 0) then b_data (get_vbuf d b) else block_at d (2 * b_blockno (get_vbuf d b)).
(** The caller holds the buffer, whose block no other buffer has. *)
Definition may_start (d : vdisk) (cs : list call) (b : nat) : Prop :=
  (b < length (vd_bufs d))%nat /\ 0 <= b_blockno (get_vbuf d b) < 2 ^ 31 /\
  b ∉ c_buf <$> cs /\ b_blockno (get_vbuf d b) ∉ c_blk <$> cs.

(** ** The free map *)
Definition freemap (l : list Z) (S : list nat) : Prop :=
  length l = NUM /\ forall n, (n < NUM)%nat -> l !! n = Some (if decide (n ∈ S) then 0 else 1).

Lemma freemap_insert l S i : freemap l S -> (i < NUM)%nat -> freemap (<[i := 0]> l) (i :: S).
Proof.
  intros [Hl H] Hi. split; [by rewrite length_insert|]. intros n Hn. destruct (decide (n = i)) as [->|Hne].
  - rewrite list_lookup_insert, decide_True by (split; [done|by rewrite Hl]). rewrite decide_True; [done|left].
  - rewrite list_lookup_insert_ne by done. rewrite H by done. do 2 f_equal. 
    destruct (decide (n ∈ S)), (decide (n ∈ i :: S)); set_solver.
Qed.
Lemma freemap_delete l S i : freemap l (i :: S) -> (i < NUM)%nat -> i ∉ S -> freemap (<[i := 1]> l) S.
Proof.
  intros [Hl H] Hi HS. split; [by rewrite length_insert|]. intros n Hn. destruct (decide (n = i)) as [->|Hne].
  - rewrite list_lookup_insert, decide_True by (split; [done|by rewrite Hl]). rewrite decide_False; done.
  - rewrite list_lookup_insert_ne by done. rewrite H by done.
    destruct (decide (n ∈ S)), (decide (n ∈ i :: S)); set_solver.
Qed.
Lemma freemap_ext l S S' : freemap l S -> (forall n, n ∈ S <-> n ∈ S') -> freemap l S'.
Proof.
  intros [Hl H] HS. split; [done|]. intros n Hn. rewrite H by done.
  destruct (decide (n ∈ S)), (decide (n ∈ S')); naive_solver.
Qed.

Lemma first_free_ok l : forall i,
  match first_free l i with
  | Some n => (i <= n)%nat /\ exists v, l !! (n - i)%nat = Some v /\ v <> 0
  | None => forall v, v ∈ l -> v = 0
  end.
Proof.
  induction l as [|f l IH]; intros i; cbn [first_free]; [by intros v ?%elem_of_nil|]. case_decide as Hf.
  - split; [done|]. rewrite Nat.sub_diag. by exists f.
  - specialize (IH (S i)). destruct (first_free l (S i)) as [n|].
    + destruct IH as [Hle (v & Hv & Hv0)]. split; [lia|]. replace (n - i)%nat with (S (n - S i)) by lia. by exists v.
    + intros v [->|Hv]%elem_of_cons; [lia|by apply IH].
Qed.
Lemma alloc_desc_ok S e d : freemap (vd_free d) S ->
  (exists i, (i < NUM)%nat /\ i ∉ S /\ alloc_desc e d = Ok (Some i) e (set_free i 0 d)) \/
  (alloc_desc e d = Ok None e d).
Proof.
  intros [Hl H]. unfold alloc_desc. cbn [bind gets]. pose proof (first_free_ok (vd_free d) 0) as Hf.
  destruct (first_free (vd_free d) 0) as [n|]; [|by right]. left. destruct Hf as [_ (v & Hv & Hv0)]. rewrite Nat.sub_0_r in Hv.
  assert (n < NUM)%nat as Hn. { rewrite <- Hl. by eapply lookup_lt_Some. }
  exists n. split_and!; [done| |done]. intros HS. rewrite (H n Hn), decide_True in Hv by done. congruence.
Qed.

(** The state with descriptor [i] free again. *)
Definition freed (i : nat) (d : vdisk) : vdisk := add_woken ChFree (set_free i 1 (upd_desc i (fun _ => null_desc) d)).
Lemma free_desc_ok S i e d : freemap (vd_free d) S -> (i < NUM)%nat -> i ∈ S -> free_desc i e d = Ok tt e (freed i d).
Proof.
  intros [Hl H] Hi HS. unfold free_desc. rewrite decide_False by lia. cbn [bind gets].
  rewrite (H i Hi), (decide_True (P := i ∈ S)) by done. cbn [default from_option id]. by rewrite decide_False by lia.
Qed.

(** Everything but the descriptors, the free map and the logs. *)
Definition core (d : vdisk) :=
  (vd_avail_ring d, vd_avail_idx d, vd_used_ring d, vd_used_end d, vd_used_idx d, vd_info d, vd_ops d,
   vd_bufs d, vd_sectors d, vd_dev_idx d, vd_fetched d).
(** [d'] differs from [d] in descriptors outside [S] only. *)
Definition quiet (S : list nat) (d d' : vdisk) : Prop :=
  core d' = core d /\ vd_lock d' = vd_lock d /\ length (vd_desc d') = length (vd_desc d) /\ forall n, n ∈ S -> get_desc d' n = get_desc d n.

Lemma get_desc_upd_ne i f d n : n <> i -> get_desc (upd_desc i f d) n = get_desc d n.
Proof. intros Hn. unfold get_desc. cbn [upd_desc vd_desc]. by rewrite list_lookup_alter_ne. Qed.
Lemma get_desc_upd i f d : (i < length (vd_desc d))%nat -> get_desc (upd_desc i f d) i = f (get_desc d i).
Proof.
  intros Hi. unfold get_desc. cbn [upd_desc vd_desc]. rewrite list_lookup_alter_eq.
  destruct (lookup_lt_is_Some_2 _ _ Hi) as [x ->]. done.
Qed.
Lemma quiet_refl S d : quiet S d d.
Proof. done. Qed.
Lemma quiet_freed S i d d' : quiet S d d' -> i ∉ S -> quiet S d (freed i d').
Proof.
  intros (H1 & H0 & H2 & H3) Hi. split_and!; [done|done| |].
  - cbn [freed add_woken set_free upd_desc vd_desc]. by rewrite length_alter.
  - intros n Hn. rewrite <- H3 by done. apply (get_desc_upd_ne i (fun _ => null_desc) d'). by intros ->.
Qed.
Lemma quiet_set_free S i v d d' : quiet S d d' -> quiet S d (set_free i v d').
Proof. done. Qed.

Lemma alloc3_ok S e d : freemap (vd_free d) S ->
  (exists i j k, (i < NUM)%nat /\ (j < NUM)%nat /\ (k < NUM)%nat /\ NoDup [i; j; k] /\ i ∉ S /\ j ∉ S /\ k ∉ S /\
     alloc3_desc e d = Ok (Some [i; j; k]) e (set_free k 0 (set_free j 0 (set_free i 0 d)))) \/
  (exists d', alloc3_desc e d = Ok None e d' /\ freemap (vd_free d') S /\ quiet S d d').
Proof.
  intros H0. unfold alloc3_desc. cbn [alloc_descs bind].
  destruct (alloc_desc_ok S e d H0) as [(i & Hi & Hi0 & ->)| ->]; cbn [app for_ bind skip ret]; [|right; by exists d].
  assert (freemap (vd_free (set_free i 0 d)) (i :: S)) as H1 by by apply freemap_insert.
  destruct (alloc_desc_ok _ e _ H1) as [(j & Hj & Hj0 & ->)| ->]; cbn [app for_ bind skip ret].
  2: { right. rewrite (free_desc_ok (i :: S)) by (done || left). eexists. split; [done|]. split.
       - by apply freemap_delete.
       - by apply quiet_freed. }
  assert (freemap (vd_free (set_free j 0 (set_free i 0 d))) (j :: i :: S)) as H2 by by apply freemap_insert.
  destruct (alloc_desc_ok _ e _ H2) as [(k & Hk & Hk0 & ->)| ->]; cbn [app for_ bind skip ret].
  - left. exists i, j, k. split_and!; try done; [|set_solver..]. repeat constructor; set_solver.
  - right. assert (freemap (vd_free (set_free j 0 (set_free i 0 d))) (i :: j :: S)) as H2'.
    { apply (freemap_ext _ _ _ H2). set_solver. }
    rewrite (free_desc_ok (i :: j :: S)) by (done || left).
    assert (freemap (vd_free (freed i (set_free j 0 (set_free i 0 d)))) (j :: S)) as H3 by (apply freemap_delete; set_solver).
    cbn [bind]. rewrite (free_desc_ok (j :: S)) by (done || left). eexists. split; [done|]. split.
    + apply freemap_delete; set_solver.
    + apply quiet_freed; [by apply quiet_freed|set_solver].
Qed.

(** ** Rings *)
Definition ring_seg (ring : list nat) (first last : Z) (q : list nat) : Prop :=
  length ring = NUM /\ 0 <= first < 2 ^ 16 /\ last = u16 (first + Z.of_nat (length q)) /\
  forall n x, q !! n = Some x -> ring !! Z.to_nat ((first + Z.of_nat n) mod 8) = Some x.

Lemma u16_mod8 z : u16 z mod 8 = z mod 8.
Proof. unfold u16. symmetry. apply Znumtheory.Zmod_div_mod; [lia..|]. by exists (2 ^ 13). Qed.
Lemma u16_range z : 0 <= u16 z < 2 ^ 16.
Proof. apply Z.mod_pos_bound. lia. Qed.
Lemma u16_add_l a b : u16 (u16 a + b) = u16 (a + b).
Proof. unfold u16. by rewrite Zplus_mod_idemp_l. Qed.
Lemma u16_small z : 0 <= z < 2 ^ 16 -> u16 z = z.
Proof. apply Z.mod_small. Qed.

Lemma ring_seg_nonempty ring first last q : ring_seg ring first last q -> (length q <= NUM)%nat -> first <> last -> q <> [].
Proof. intros (_ & H1 & H2 & _) _ Hne ->. cbn in H2. rewrite Z.add_0_r, u16_small in H2 by done. done. Qed.
Lemma ring_seg_empty ring first last q : ring_seg ring first last q -> (length q <= NUM)%nat -> first = last -> q = [].
Proof.
  intros (_ & H1 & H2 & _) Hq ->. destruct q as [|x q]; [done|]. exfalso. unfold u16, NUM in *. cbn [length] in *.
  Z.to_euclidean_division_equations. lia.
Qed.
Lemma ring_seg_pop ring first last x q : ring_seg ring first last (x :: q) ->
  ring !! Z.to_nat (first mod 8) = Some x /\ ring_seg ring (u16 (first + 1)) last q.
Proof.
  intros (H0 & H1 & H2 & H3). split.
  - specialize (H3 0%nat x eq_refl). by rewrite Z.add_0_r in H3.
  - split_and!; [done|apply u16_range|apply u16_range| |].
    + rewrite u16_add_l, H2. cbn [length]. f_equal. lia.
    + intros n y Hn. specialize (H3 (S n) y Hn). rewrite Z.add_mod, u16_mod8, <- Z.add_mod by lia.
      rewrite <- H3. do 3 f_equal. lia.
Qed.
Lemma ring_seg_push ring first last q x : ring_seg ring first last q -> (length q < NUM)%nat ->
  ring_seg (<[Z.to_nat (last mod 8) := x]> ring) first (u16 (last + 1)) (q ++ [x]).
Proof.
  intros (H0 & H1 & H2 & H3) Hq. split_and!; [by rewrite length_insert|lia|lia| |].
  - rewrite H2, u16_add_l, length_app. cbn [length]. f_equal. lia.
  - intros n y Hn. rewrite H2, u16_mod8. unfold NUM in *.
    assert (n <= length q)%nat as Hle. { apply lookup_lt_Some in Hn. rewrite length_app in Hn. cbn in Hn. lia. }
    destruct (decide (n = length q)) as [->|Hne].
    + rewrite list_lookup_middle in Hn by done. injection Hn as ->. rewrite list_lookup_insert, decide_True; [done|].
      split; [done|]. rewrite H0. Z.to_euclidean_division_equations. lia.
    + rewrite lookup_app_l in Hn by lia. rewrite list_lookup_insert_ne; [by apply H3|].
      apply lookup_lt_Some in Hn. Z.to_euclidean_division_equations. lia.
Qed.

(** ** The invariant *)
Record call_ok (d : vdisk) (c : call) : Prop := mkCallOk {
  co_i : get_desc d (c_i c) = mkDesc (AOps (c_i c)) 16 VRING_DESC_F_NEXT (c_j c);
  co_j : get_desc d (c_j c) = mkDesc (AData (c_buf c)) BSIZE
           (Z.lor (if decide (c_write c <> 0) then 0 else VRING_DESC_F_WRITE) VRING_DESC_F_NEXT) (c_k c);
  co_k : get_desc d (c_k c) = mkDesc (AStatus (c_i c)) 1 VRING_DESC_F_WRITE 0;
  co_op : get_op d (c_i c) = mkReq (if decide (c_write c <> 0) then VIRTIO_BLK_T_OUT else VIRTIO_BLK_T_IN) 0 (2 * c_blk c);
  co_b : in_b (get_info d (c_i c)) = Some (c_buf c);
  co_lt : (c_buf c < length (vd_bufs d))%nat;
  co_blk : b_blockno (get_vbuf d (c_buf c)) = c_blk c
}.
Definition pending (d : vdisk) (c : call) : Prop :=
  b_disk (get_vbuf d (c_buf c)) = 1 /\
  if decide (c_write c <> 0) then b_data (get_vbuf d (c_buf c)) = c_goal c else block_at d (2 * c_blk c) = c_goal c.
Definition served (d : vdisk) (c : call) : Prop :=
  in_status (get_info d (c_i c)) = 0 /\ b_data (get_vbuf d (c_buf c)) = c_goal c /\ block_at d (2 * c_blk c) = c_goal c.
(** Chains on the avail ring or fetched, on the used ring, and seen. *)
Definition phase_ok (d : vdisk) (q1 q3 q4 : list nat) (c : call) : Prop :=
  (c_i c ∈ q1 ++ vd_fetched d -> pending d c) /\
  (c_i c ∈ q3 -> b_disk (get_vbuf d (c_buf c)) = 1 /\ served d c) /\
  (c_i c ∈ q4 -> b_disk (get_vbuf d (c_buf c)) = 0 /\ served d c).

Definition taken (cs : list call) : list nat := concat (c_idx <$> cs).
Record vinv_q (d : vdisk) (cs : list call) (q1 q3 q4 : list nat) : Prop := mkVinv {
  vi_len : length (vd_desc d) = NUM /\ length (vd_info d) = NUM /\ length (vd_ops d) = NUM;
  vi_nodup : NoDup (taken cs);
  vi_range : Forall (fun n => n < NUM)%nat (taken cs);
  vi_free : freemap (vd_free d) (taken cs);
  vi_bufs : NoDup (c_buf <$> cs);
  vi_blks : NoDup (c_blk <$> cs);
  vi_calls : forall c, c ∈ cs -> call_ok d c;
  vi_heads : q1 ++ vd_fetched d ++ q3 ++ q4 ≡ₚ c_i <$> cs;
  vi_avail : ring_seg (vd_avail_ring d) (vd_dev_idx d) (vd_avail_idx d) q1;
  vi_used : ring_seg (vd_used_ring d) (vd_used_idx d) (vd_used_end d) q3;
  vi_phase : forall c, c ∈ cs -> phase_ok d q1 q3 q4 c
}.
Definition vinv (d : vdisk) (cs : list call) : Prop := vd_lock d = 0 /\ exists q1 q3 q4, vinv_q d cs q1 q3 q4.

Lemma NoDup_fmap_eq {A B} (f : A -> B) (l : list A) x y : NoDup (f <$> l) -> x ∈ l -> y ∈ l -> f x = f y -> x = y.
Proof.
  induction l as [|z l IH]; [by intros _ ?%elem_of_nil|]. rewrite fmap_cons, NoDup_cons. intros [H1 H2] Hx Hy E.
  apply elem_of_cons in Hx as [->|Hx]; apply elem_of_cons in Hy as [->|Hy]; [done| | |by apply IH].
  - destruct H1. rewrite E. by apply list_elem_of_fmap_2.
  - destruct H1. rewrite <- E. by apply list_elem_of_fmap_2.
Qed.
Lemma NoDup_concat_eq {A B} (f : A -> list B) (l : list A) x y n :
  NoDup (concat (f <$> l)) -> x ∈ l -> y ∈ l -> n ∈ f x -> n ∈ f y -> x = y.
Proof.
  induction l as [|z l IH]; [by intros _ ?%elem_of_nil|]. cbn [fmap list_fmap concat]. rewrite NoDup_app.
  intros (H1 & H2 & H3) Hx Hy Hnx Hny.
  assert (forall w, w ∈ l -> n ∈ f w -> n ∈ concat (f <$> l)) as Hin.
  { intros w Hw Hn. rewrite list_elem_of_In, in_concat. exists (f w). rewrite <- !list_elem_of_In.
    split; [by apply list_elem_of_fmap_2|done]. }
  apply elem_of_cons in Hx as [->|Hx]; apply elem_of_cons in Hy as [->|Hy]; [done| | |by apply IH].
  - destruct (H2 n Hnx). by apply (Hin y).
  - destruct (H2 n Hny). by apply (Hin x).
Qed.

Lemma taken_in cs c n : c ∈ cs -> n ∈ c_idx c -> n ∈ taken cs.
Proof.
  intros Hc Hn. unfold taken. rewrite list_elem_of_In, in_concat. exists (c_idx c). rewrite <- !list_elem_of_In.
  split; [by apply list_elem_of_fmap_2|done].
Qed.
Lemma heads_NoDup cs : NoDup (taken cs) -> NoDup (c_i <$> cs).
Proof.
  unfold taken. induction cs as [|c cs IH]; [constructor|]. cbn [fmap list_fmap concat c_idx]. rewrite NoDup_app.
  intros (H1 & H2 & H3). apply NoDup_cons. split; [|by apply IH]. intros (c' & E & Hc')%list_elem_of_fmap.
  apply (H2 (c_i c)); [left|]. rewrite E. apply (taken_in cs c'); [done|left].
Qed.
Lemma NoDup_small l : NoDup l -> Forall (fun n => n < NUM)%nat l -> (length l <= NUM)%nat.
Proof.
  intros Hd Hf. transitivity (length (seq 0 NUM)); [|by rewrite length_seq].
  apply submseteq_length, NoDup_submseteq; [done|]. intros n Hn. rewrite Forall_forall in Hf. apply elem_of_seq. specialize (Hf n Hn). lia.
Qed.

(** *** What a call's facts depend on *)
Definition same_call (d d' : vdisk) (c : call) : Prop :=
  (forall n, n ∈ c_idx c -> get_desc d' n = get_desc d n) /\ get_op d' (c_i c) = get_op d (c_i c) /\
  get_info d' (c_i c) = get_info d (c_i c) /\ get_vbuf d' (c_buf c) = get_vbuf d (c_buf c) /\
  length (vd_bufs d') = length (vd_bufs d) /\ block_at d' (2 * c_blk c) = block_at d (2 * c_blk c).
Lemma call_ok_same d d' c : same_call d d' c -> call_ok d c -> call_ok d' c.
Proof.
  intros (H1 & H2 & H3 & H4 & H5 & H6) [G1 G2 G3 G4 G5 G6 G7].
  constructor; rewrite ?H1, ?H2, ?H3, ?H4, ?H5 by (unfold c_idx; set_solver); done.
Qed.
Lemma pending_same d d' c : same_call d d' c -> pending d c -> pending d' c.
Proof. intros (H1 & H2 & H3 & H4 & H5 & H6). unfold pending. by rewrite H4, H6. Qed.
Lemma served_same d d' c : same_call d d' c -> served d c -> served d' c.
Proof. intros (H1 & H2 & H3 & H4 & H5 & H6). unfold served. by rewrite H3, H4, H6. Qed.
Lemma phase_same d d' q1 q3 q4 c : same_call d d' c -> vd_fetched d' = vd_fetched d -> phase_ok d q1 q3 q4 c -> phase_ok d' q1 q3 q4 c.
Proof.
  intros Hs Hf (H1 & H2 & H3). unfold phase_ok. rewrite Hf. pose proof Hs as (_ & _ & _ & Eb & _). rewrite Eb.
  split_and!; intros Hin; [by apply (pending_same d), H1|..].
  - destruct (H2 Hin). split; [done|by apply (served_same d)].
  - destruct (H3 Hin). split; [done|by apply (served_same d)].
Qed.

(** Field access after an update. *)
Lemma get_op_upd_ne i f d n : n <> i -> get_op (upd_op i f d) n = get_op d n.
Proof. intros Hn. unfold get_op. cbn [upd_op vd_ops]. by rewrite list_lookup_alter_ne. Qed.
Lemma get_op_upd i f d : (i < length (vd_ops d))%nat -> get_op (upd_op i f d) i = f (get_op d i).
Proof.
  intros Hi. unfold get_op. cbn [upd_op vd_ops]. rewrite list_lookup_alter_eq.
  destruct (lookup_lt_is_Some_2 _ _ Hi) as [x ->]. done.
Qed.
Lemma get_info_upd_ne i f d n : n <> i -> get_info (upd_info i f d) n = get_info d n.
Proof. intros Hn. unfold get_info. cbn [upd_info vd_info]. by rewrite list_lookup_alter_ne. Qed.
Lemma get_info_upd i f d : (i < length (vd_info d))%nat -> get_info (upd_info i f d) i = f (get_info d i).
Proof.
  intros Hi. unfold get_info. cbn [upd_info vd_info]. rewrite list_lookup_alter_eq.
  destruct (lookup_lt_is_Some_2 _ _ Hi) as [x ->]. done.
Qed.
Lemma get_vbuf_upd_ne i f d n : n <> i -> get_vbuf (upd_vbuf i f d) n = get_vbuf d n.
Proof. intros Hn. unfold get_vbuf. cbn [upd_vbuf vd_bufs]. by rewrite list_lookup_alter_ne. Qed.
Lemma get_vbuf_upd i f d : (i < length (vd_bufs d))%nat -> get_vbuf (upd_vbuf i f d) i = f (get_vbuf d i).
Proof.
  intros Hi. unfold get_vbuf. cbn [upd_vbuf vd_bufs]. rewrite list_lookup_alter_eq.
  destruct (lookup_lt_is_Some_2 _ _ Hi) as [x ->]. done.
Qed.

(** The state in which a request is published. *)
Definition submitted (b : nat) (write : Z) (i j k : nat) (d : vdisk) : vdisk :=
  let d1 := upd_op i (fun _ => mkReq (if decide (write <> 0) then VIRTIO_BLK_T_OUT else VIRTIO_BLK_T_IN) 0 (u32 (b_blockno (get_vbuf d b) * 2))) d in
  let d2 := upd_desc i (fun _ => mkDesc (AOps i) 16 VRING_DESC_F_NEXT j) d1 in
  let d3 := upd_desc j (fun _ => mkDesc (AData b) BSIZE
    (Z.lor (if decide (write <> 0) then 0 else VRING_DESC_F_WRITE) VRING_DESC_F_NEXT) k) d2 in
  let d4 := upd_info i (fun x => mkInfo (in_b x) 255) d3 in
  let d5 := upd_desc k (fun _ => mkDesc (AStatus i) 1 VRING_DESC_F_WRITE 0) d4 in
  let d6 := upd_vbuf b (set_b_disk 1) d5 in
  let d7 := upd_info i (fun x => mkInfo (Some b) (in_status x)) d6 in
  let d8 := set_avail (<[Z.to_nat (vd_avail_idx d mod 8) := i]> (vd_avail_ring d)) (u16 (vd_avail_idx d + 1)) d7 in
  write_reg VIRTIO_MMIO_QUEUE_NOTIFY 0 d8.
Definition run (l : list (vdisk -> vdisk)) (d : vdisk) : vdisk := foldl (fun d w => w d) d l.
Lemma run_app l1 l2 d : run (l1 ++ l2) d = run l2 (run l1 d).
Proof. apply foldl_app. Qed.
Lemma stores_ok l e d : for_ l modify e d = Ok tt e (run l d).
Proof. revert d. induction l as [|w l IH]; intros d; [done|]. cbn [for_ bind modify run foldl]. apply IH. Qed.
Lemma upd_desc_twice i f g d : upd_desc i f (upd_desc i g d) = upd_desc i (fun x => f (g x)) d.
Proof. unfold upd_desc. cbn. by rewrite list_alter_alter_eq. Qed.
Lemma upd_op_twice i f g d : upd_op i f (upd_op i g d) = upd_op i (fun x => f (g x)) d.
Proof. unfold upd_op. cbn. by rewrite list_alter_alter_eq. Qed.
Lemma submit_stores_run b write i j k d :
  run (submit_stores b write (u32 (b_blockno (get_vbuf d b) * 2)) i j k) d = submitted b write i j k d.
Proof. unfold submit_stores, submitted. cbn [run foldl]. rewrite !upd_op_twice, !upd_desc_twice. reflexivity. Qed.
Lemma submit_ok b write i j k e d : submit b write i j k e d = Ok tt e (submitted b write i j k d).
Proof. unfold submit. cbn [bind gets]. by rewrite stores_ok, submit_stores_run. Qed.

Section Submitted.
Context (d : vdisk) (b : nat) (write : Z) (i j k : nat).
Context (Hlen : length (vd_desc d) = NUM /\ length (vd_info d) = NUM /\ length (vd_ops d) = NUM).
Context (Hi : (i < NUM)%nat) (Hj : (j < NUM)%nat) (Hk : (k < NUM)%nat) (Hnd : NoDup [i; j; k]).

Lemma submitted_desc n :
  get_desc (submitted b write i j k d) n =
  if decide (n = i) then mkDesc (AOps i) 16 VRING_DESC_F_NEXT j
  else if decide (n = j) then mkDesc (AData b) BSIZE (Z.lor (if decide (write <> 0) then 0 else VRING_DESC_F_WRITE) VRING_DESC_F_NEXT) k
  else if decide (n = k) then mkDesc (AStatus i) 1 VRING_DESC_F_WRITE 0 else get_desc d n.
Proof.
  destruct Hlen as (H1 & _ & _). rewrite !NoDup_cons in Hnd. unfold get_desc. cbn [submitted write_reg set_avail upd_info upd_vbuf upd_desc upd_op vd_desc].
  rewrite !list_lookup_alter. assert (forall m, (m < NUM)%nat -> exists x, vd_desc d !! m = Some x) as Hx.
  { intros m Hm. apply lookup_lt_is_Some_2. lia. }
  destruct (Hx i Hi) as [xi Ei], (Hx j Hj) as [xj Ej], (Hx k Hk) as [xk Ek].
  repeat case_decide; subst; rewrite ?Ei, ?Ej, ?Ek; try done; set_solver.
Qed.
Lemma submitted_info n : get_info (submitted b write i j k d) n = if decide (n = i) then mkInfo (Some b) 255 else get_info d n.
Proof.
  destruct Hlen as (_ & H1 & _). unfold get_info. cbn [submitted write_reg set_avail upd_info upd_vbuf upd_desc upd_op vd_info].
  rewrite !list_lookup_alter. destruct (lookup_lt_is_Some_2 (vd_info d) i) as [x Ex]; [lia|]. repeat case_decide; subst; rewrite ?Ex; done.
Qed.
Lemma submitted_op n :
  get_op (submitted b write i j k d) n =
  if decide (n = i) then mkReq (if decide (write <> 0) then VIRTIO_BLK_T_OUT else VIRTIO_BLK_T_IN) 0 (u32 (b_blockno (get_vbuf d b) * 2)) else get_op d n.
Proof.
  destruct Hlen as (_ & _ & H1). unfold get_op. cbn [submitted write_reg set_avail upd_info upd_vbuf upd_desc upd_op vd_ops].
  rewrite !list_lookup_alter. destruct (lookup_lt_is_Some_2 (vd_ops d) i) as [x Ex]; [lia|]. repeat case_decide; subst; rewrite ?Ex; done.
Qed.
Lemma submitted_vbuf n : (b < length (vd_bufs d))%nat ->
  get_vbuf (submitted b write i j k d) n = if decide (n = b) then set_b_disk 1 (get_vbuf d b) else get_vbuf d n.
Proof.
  intros Hb. unfold get_vbuf. cbn [submitted write_reg set_avail upd_info upd_vbuf upd_desc upd_op vd_bufs].
  rewrite list_lookup_alter. destruct (lookup_lt_is_Some_2 (vd_bufs d) b) as [x Ex]; [lia|]. repeat case_decide; subst; rewrite ?Ex; done.
Qed.
End Submitted.

Section Inv.
Context (d : vdisk) (cs : list call) (q1 q3 q4 : list nat) (Hv : vinv_q d cs q1 q3 q4).

Lemma inv_idx_eq c c' n : c ∈ cs -> c' ∈ cs -> n ∈ c_idx c -> n ∈ c_idx c' -> c = c'.
Proof. apply (NoDup_concat_eq c_idx). apply Hv. Qed.
Lemma inv_head_eq c c' : c ∈ cs -> c' ∈ cs -> c_i c = c_i c' -> c = c'.
Proof. intros Hc Hc' E. apply (inv_idx_eq c c' (c_i c)); [done|done|left|rewrite E; left]. Qed.
Lemma inv_buf_eq c c' : c ∈ cs -> c' ∈ cs -> c_buf c = c_buf c' -> c = c'.
Proof. apply NoDup_fmap_eq. apply Hv. Qed.
Lemma inv_blk_eq c c' : c ∈ cs -> c' ∈ cs -> c_blk c = c_blk c' -> c = c'.
Proof. apply NoDup_fmap_eq. apply Hv. Qed.
Lemma inv_range c n : c ∈ cs -> n ∈ c_idx c -> (n < NUM)%nat.
Proof. intros Hc Hn. pose proof (vi_range _ _ _ _ _ Hv) as H. rewrite Forall_forall in H. apply H. by apply (taken_in cs c). Qed.
Lemma inv_heads_NoDup : NoDup (q1 ++ vd_fetched d ++ q3 ++ q4).
Proof. rewrite (vi_heads _ _ _ _ _ Hv). apply heads_NoDup, Hv. Qed.
Lemma inv_heads_range : Forall (fun n => n < NUM)%nat (q1 ++ vd_fetched d ++ q3 ++ q4).
Proof.
  rewrite (vi_heads _ _ _ _ _ Hv). apply Forall_forall. intros n (c & -> & Hc)%list_elem_of_fmap.
  apply (inv_range c); [done|left].
Qed.
Lemma inv_heads_len : (length q1 + length (vd_fetched d) + length q3 + length q4 <= NUM)%nat.
Proof. pose proof (NoDup_small _ inv_heads_NoDup inv_heads_range) as H. rewrite !length_app in H. lia. Qed.
Lemma inv_head_call n : n ∈ q1 ++ vd_fetched d ++ q3 ++ q4 -> exists c, c ∈ cs /\ c_i c = n.
Proof. rewrite (vi_heads _ _ _ _ _ Hv). intros (c & -> & Hc)%list_elem_of_fmap. by exists c. Qed.

(** A failed allocation leaves the invariant. *)
Lemma inv_ext d' : core d' = core d -> length (vd_desc d') = length (vd_desc d) ->
  (forall n, n ∈ taken cs -> get_desc d' n = get_desc d n) -> freemap (vd_free d') (taken cs) -> vinv_q d' cs q1 q3 q4.
Proof.
  intros Hc Hl Hd Hf. unfold core in Hc. injection Hc as E1 E2 E3 E4 E5 E6 E7 E9 E10 E11 E12.
  assert (forall c, c ∈ cs -> same_call d d' c) as Hsame.
  { intros c Hin. unfold same_call, get_op, get_info, get_vbuf, block_at, sector_at. rewrite E6, E7, E9, E10.
    split_and!; try done. intros n Hn. apply Hd. by apply (taken_in cs c). }
  destruct Hv as [V1 V3 V4 V5 V6 V7 V8 V9 V10 V11 V12].
  constructor; rewrite ?E1, ?E2, ?E3, ?E4, ?E5, ?E6, ?E7, ?E11, ?E12, ?Hl; try done.
  - intros c Hin. apply (call_ok_same d); [by apply Hsame|by apply V8].
  - intros c Hin. apply (phase_same d); [by apply Hsame|done|by apply V12].
Qed.

(** A request is published. *)
Lemma inv_start b write i j k :
  may_start d cs b -> (i < NUM)%nat -> (j < NUM)%nat -> (k < NUM)%nat -> NoDup [i; j; k] ->
  i ∉ taken cs -> j ∉ taken cs -> k ∉ taken cs ->
  vinv_q (submitted b write i j k (set_free k 0 (set_free j 0 (set_free i 0 d))))
    (mkCall b write i j k (b_blockno (get_vbuf d b)) (goal_of d b write) :: cs) (q1 ++ [i]) q3 q4.
Proof.
  intros (M1 & M2 & M3 & M4) Hi Hj Hk Hnd Ni Nj Nk. set (d1 := set_free k 0 _). set (c0 := mkCall b write i j k _ _).
  pose proof Hv as [V1 V3 V4 V5 V6 V7 V8 V9 V10 V11 V12].
  assert (length (vd_desc d1) = NUM /\ length (vd_info d1) = NUM /\ length (vd_ops d1) = NUM) as L1 by done.
  pose proof (submitted_desc d1 b write i j k L1 Hi Hj Hk Hnd) as Dd. pose proof (submitted_info d1 b write i j k L1 Hi Hj Hk Hnd) as Di.
  pose proof (submitted_op d1 b write i j k L1 Hi Hj Hk Hnd) as Do. pose proof (fun n => submitted_vbuf d1 b write i j k L1 Hi Hj Hk n M1) as Db.
  change (get_vbuf d1 b) with (get_vbuf d b) in *.
  assert (forall c, c ∈ cs -> same_call d (submitted b write i j k d1) c) as Hsame.
  { intros c Hin. assert (forall n, n ∈ c_idx c -> n <> i /\ n <> j /\ n <> k) as Hne.
    { intros n Hn. pose proof (taken_in cs c n Hin Hn). split_and!; by intros ->. }
    assert (c_i c <> i) as Hne0 by (apply Hne; left).
    assert (c_buf c <> b) as Hneb. { intros E. apply M3. rewrite <- E. by apply list_elem_of_fmap_2. }
    split_and!.
    - intros n Hn. destruct (Hne n Hn) as (? & ? & ?). rewrite Dd. by rewrite !decide_False by done.
    - rewrite Do. by rewrite decide_False.
    - rewrite Di. by rewrite decide_False.
    - rewrite Db. by rewrite decide_False.
    - cbn. by rewrite length_alter.
    - done. }
  rewrite !NoDup_cons in Hnd. destruct Hnd as (N1 & N2 & N3 & _).
  assert (j <> i) by (intros ->; apply N1; left). assert (k <> i) by (intros ->; apply N1; right; left).
  assert (k <> j) by (intros ->; apply N2; left).
  constructor.
  - cbn. by rewrite !length_alter.
  - change (NoDup ([i; j; k] ++ taken cs)). apply NoDup_app. split_and!; [rewrite !NoDup_cons; split_and!; try done; constructor| |done].
    intros n [->|[->|[->|[]%elem_of_nil]%elem_of_cons]%elem_of_cons]%elem_of_cons; done.
  - change (Forall (fun n => n < NUM)%nat (i :: j :: k :: taken cs)). by rewrite !Forall_cons.
  - cbn [submitted write_reg set_avail upd_info upd_vbuf upd_desc upd_op vd_free].
    apply (freemap_ext _ (k :: j :: i :: taken cs)); [by repeat apply freemap_insert|].
    change (taken (c0 :: cs)) with (i :: j :: k :: taken cs). intros n. rewrite !elem_of_cons. naive_solver.
  - cbn [fmap list_fmap]. by constructor.
  - cbn [fmap list_fmap]. by constructor.
  - intros c [->|Hin]%elem_of_cons; [|by apply (call_ok_same d); [apply Hsame|apply V8]]. constructor; cbn [c_i c_j c_k c_buf c_write c_blk c0].
    + rewrite Dd. by rewrite decide_True.
    + rewrite Dd. rewrite decide_False by done. by rewrite decide_True.
    + rewrite Dd. rewrite !decide_False by done. by rewrite decide_True.
    + rewrite Do. rewrite decide_True by done. rewrite u32_small by lia. f_equal. lia.
    + rewrite Di. by rewrite decide_True.
    + cbn. by rewrite length_alter.
    + rewrite Db. by rewrite decide_True.
  - cbn [fmap list_fmap c_i c0]. rewrite <- V9. cbn [submitted write_reg set_avail upd_info upd_vbuf upd_desc upd_op vd_fetched set_free d1].
    rewrite <- app_assoc. cbn [app]. by rewrite <- Permutation_middle.
  - apply ring_seg_push; [done|]. pose proof inv_heads_NoDup as Hnd'. pose proof inv_heads_range as Hrg.
    assert (NoDup (i :: q1)) as Hd2.
    { apply NoDup_cons. split; [|by apply NoDup_app in Hnd' as (? & _)]. intros Hin.
      destruct (inv_head_call i) as (c & Hc & E); [rewrite elem_of_app; by left|]. apply Ni. rewrite <- E. apply (taken_in cs c); [done|left]. }
    apply Forall_app in Hrg as [Hrg _]. assert (length (i :: q1) <= NUM)%nat as Hsm by (apply NoDup_small; [done|by constructor]). cbn in Hsm. lia.
  - done.
  - intros c [->|Hin]%elem_of_cons.
    + assert (forall q, q ⊆ q1 ++ vd_fetched d ++ q3 ++ q4 -> i ∉ q) as Hnot.
      { intros q Hq Hin. destruct (inv_head_call i) as (c & Hc & E); [by apply Hq|]. apply Ni. rewrite <- E. apply (taken_in cs c); [done|left]. }
      split_and!; cbn [c_i c0]; [|intros Hq; destruct (Hnot q3); [clear; set_solver|done]|intros Hq; destruct (Hnot q4); [clear; set_solver|done]].
      intros _. unfold pending. cbn [c_buf c_write c_blk c_goal c0]. rewrite Db, decide_True by done. split; [done|].
      unfold goal_of. by case_decide.
    + destruct (V12 c Hin) as (P1 & P2 & P3). pose proof (Hsame c Hin) as Hs. pose proof Hs as (_ & _ & _ & Eb & _).
      assert (c_i c <> i) as Hne. { intros E. apply Ni. rewrite <- E. apply (taken_in cs c); [done|left]. }
      unfold phase_ok. rewrite Eb. split_and!.
      * intros Hq. apply (pending_same d); [done|]. apply P1.
        cbn [submitted write_reg set_avail upd_info upd_vbuf upd_desc upd_op vd_fetched set_free d1] in Hq. clear -Hq Hne. set_solver.
      * intros Hq. destruct (P2 Hq). split; [done|by apply (served_same d)].
      * intros Hq. destruct (P3 Hq). split; [done|by apply (served_same d)].
Qed.

(** *** The device *)
Lemma inv_fetch : vd_dev_idx d <> vd_avail_idx d -> exists q1', vinv_q (fetch d) cs q1' q3 q4.
Proof.
  intros Hne. pose proof Hv as [V1 V3 V4 V5 V6 V7 V8 V9 V10 V11 V12]. pose proof inv_heads_len as Hl.
  destruct q1 as [|x q1']; [by destruct (ring_seg_nonempty _ _ _ _ V10 ltac:(cbn; lia) Hne)|].
  apply ring_seg_pop in V10 as [Hx V10]. assert (vd_fetched (fetch d) = vd_fetched d ++ [x]) as Ef.
  { cbn [fetch set_device vd_fetched]. by rewrite Hx. }
  exists q1'. constructor; rewrite ?Ef; try done.
  - intros c Hc. by apply (call_ok_same d); [|apply V8].
  - rewrite <- V9. rewrite <- !app_assoc. cbn [app]. rewrite (Permutation_middle q1'). apply Permutation_app_head. by rewrite <- Permutation_middle.
  - intros c Hc. destruct (V12 c Hc) as (P1 & P2 & P3). unfold phase_ok. rewrite Ef. split_and!; [|done|done].
    intros Hin. apply P1. clear -Hin. set_solver.
Qed.

Lemma decode_call c : c ∈ cs -> decode d (c_i c) = Some (bool_decide (c_write c <> 0), 2 * c_blk c, c_buf c, c_i c).
Proof.
  intros Hc. destruct (vi_calls _ _ _ _ _ Hv c Hc) as [G1 G2 G3 G4 G5 G6 G7]. unfold decode. rewrite G1. cbn [d_addr d_next].
  rewrite G2. cbn [d_addr d_next]. rewrite G3. cbn [d_addr d_len d_flags]. rewrite G4. cbn [r_type r_sector].
  rewrite decide_True by done. destruct (decide (c_write c <> 0)) as [Hw|Hw].
  - rewrite decide_True by done. by rewrite bool_decide_eq_true_2.
  - rewrite decide_False by (intros [E _]; done). rewrite decide_True by done. by rewrite bool_decide_eq_false_2.
Qed.

(** The state after the transfer of [c] differs at its buffer, block and status. *)
Lemma transfer_block c blk : blk <> c_blk c ->
  block_at (transfer (bool_decide (c_write c <> 0)) (2 * c_blk c) (c_buf c) d) (2 * blk) = block_at d (2 * blk).
Proof.
  intros Hne. unfold transfer. case_bool_decide; [|done]. unfold block_at, sector_at. cbn [set_device vd_sectors].
  by rewrite !lookup_insert_ne by lia.
Qed.
Lemma transfer_done c : c ∈ cs -> pending d c ->
  let d' := transfer (bool_decide (c_write c <> 0)) (2 * c_blk c) (c_buf c) d in
  b_data (get_vbuf d' (c_buf c)) = c_goal c /\ block_at d' (2 * c_blk c) = c_goal c /\
  b_disk (get_vbuf d' (c_buf c)) = 1 /\ b_blockno (get_vbuf d' (c_buf c)) = c_blk c.
Proof.
  intros Hc [Hd Hp]. destruct (vi_calls _ _ _ _ _ Hv c Hc) as [_ _ _ _ _ G6 G7]. cbn zeta. unfold transfer.
  case_bool_decide as Hw; [rewrite decide_True in Hp by done|rewrite decide_False in Hp by lia].
  - split_and!; [done| |done|done]. rewrite <- Hp. unfold block_at, sector_at. cbn [set_device vd_sectors].
    rewrite lookup_insert, decide_True by done. rewrite lookup_insert_ne by lia. rewrite lookup_insert, decide_True by done.
    apply take_drop.
  - rewrite get_vbuf_upd by done. by split_and!.
Qed.
Lemma transfer_frame out s b :
  let d' := transfer out s b d in
  vd_desc d' = vd_desc d /\ vd_info d' = vd_info d /\ vd_ops d' = vd_ops d /\ vd_lock d' = vd_lock d /\ vd_free d' = vd_free d /\
  vd_fetched d' = vd_fetched d /\ vd_avail_ring d' = vd_avail_ring d /\ vd_dev_idx d' = vd_dev_idx d /\ vd_avail_idx d' = vd_avail_idx d /\
  vd_used_ring d' = vd_used_ring d /\ vd_used_idx d' = vd_used_idx d /\ vd_used_end d' = vd_used_end d /\
  length (vd_bufs d') = length (vd_bufs d) /\ forall n, n <> b -> get_vbuf d' n = get_vbuf d n.
Proof.
  unfold transfer. destruct out; [done|]. split_and!; try done; [cbn; by rewrite length_alter|].
  intros n Hn. by apply get_vbuf_upd_ne.
Qed.

Lemma NoDup_mid (x : nat) a l1 l2 r : NoDup (a ++ (l1 ++ x :: l2) ++ r) -> x ∉ a ++ l1 ++ l2 /\ x ∉ r.
Proof.
  assert (a ++ (l1 ++ x :: l2) ++ r ≡ₚ x :: a ++ (l1 ++ l2) ++ r) as ->.
  { rewrite (Permutation_middle a). apply Permutation_app_head. rewrite <- !app_assoc. cbn [app]. by rewrite (Permutation_middle l1). }
  intros [Hx _]%NoDup_cons. set_solver.
Qed.
Lemma filter_one (x : nat) l1 l2 : NoDup (l1 ++ x :: l2) -> filter (fun y => y <> x) (l1 ++ x :: l2) = l1 ++ l2.
Proof.
  intros Hn. rewrite filter_app, filter_cons_False by lia. apply NoDup_app in Hn as (H1 & H2 & H3).
  apply NoDup_cons in H3 as [H3 _].
  assert (forall l : list nat, x ∉ l -> filter (fun y => y <> x) l = l) as Hid.
  { clear. intros l. induction l as [|y l IH]; [done|]. intros Hx. apply not_elem_of_cons in Hx as [Hy Hx]. rewrite filter_cons_True by congruence. f_equal. by apply IH. }
  rewrite !Hid; [done|done|]. intros Hx. destruct (H2 x Hx). left.
Qed.

Lemma inv_serve id : id ∈ vd_fetched d -> vinv_q (serve id d) cs q1 (q3 ++ [id]) q4.
Proof.
  intros Hid. pose proof Hv as [V1 V3 V4 V5 V6 V7 V8 V9 V10 V11 V12]. pose proof inv_heads_NoDup as Hnd.
  destruct (inv_head_call id) as (c & Hc & Eid); [clear -Hid; set_solver|].
  destruct (V12 c Hc) as (P1 & _ & _). specialize (P1 ltac:(rewrite Eid; clear -Hid; set_solver)).
  pose proof (transfer_done c Hc P1) as (T1 & T2 & T3 & T4). pose proof (transfer_frame (bool_decide (c_write c <> 0)) (2 * c_blk c) (c_buf c)) as F.
  unfold serve. rewrite <- Eid, (decode_call c Hc). set (dt := transfer _ _ _ d) in *. cbn zeta in T1, T2, T3, T4, F.
  destruct F as (F1 & F2 & F3 & F4 & F5 & F6 & F7 & F8 & F9 & F10 & F11 & F12 & F13 & F14).
  assert (c_i c < NUM)%nat as Hlt by (apply (inv_range c); [done|left]).
  apply list_elem_of_split in Hid as (l1 & l2 & Ef). rewrite <- Eid in Ef.
  assert (NoDup (l1 ++ c_i c :: l2)) as Hndf. { rewrite <- Ef. apply NoDup_app in Hnd as (_ & _ & Hnd). by apply NoDup_app in Hnd as (? & _). }
  set (d' := set_device _ _ _ _).
  assert (vd_fetched d' = l1 ++ l2) as Ef'. { cbn [d' set_device vd_fetched set_used upd_info]. by rewrite F6, Ef, filter_one. }
  assert (forall c', c' ∈ cs -> c' <> c -> same_call d d' c') as Hsame.
  { intros c' Hc' Hne. assert (c_i c' <> c_i c) by (intros E; apply Hne; by apply inv_head_eq).
    assert (c_buf c' <> c_buf c) by (intros E; apply Hne; by apply inv_buf_eq).
    assert (c_blk c' <> c_blk c) by (intros E; apply Hne; by apply inv_blk_eq).
    split_and!; try done.
    - intros n _. unfold get_desc. cbn [d' set_device set_used upd_info vd_desc]. by rewrite F1.
    - unfold get_op. cbn [d' set_device set_used upd_info vd_ops]. by rewrite F3.
    - change (get_info (upd_info (c_i c) (fun x => mkInfo (in_b x) 0) dt) (c_i c') = get_info d (c_i c')).
      rewrite get_info_upd_ne by done. unfold get_info. by rewrite F2.
    - by apply F14.
    - by apply transfer_block. }
  assert (get_info d' (c_i c) = mkInfo (Some (c_buf c)) 0) as Ei.
  { change (get_info (upd_info (c_i c) (fun x => mkInfo (in_b x) 0) dt) (c_i c) = mkInfo (Some (c_buf c)) 0).
    rewrite get_info_upd by (rewrite F2; lia). unfold get_info. rewrite F2. fold (get_info d (c_i c)). by rewrite (co_b _ _ (V8 c Hc)). }
  constructor; try (cbn [d' set_device set_used upd_info vd_desc vd_info vd_ops vd_lock vd_free vd_avail_ring vd_dev_idx vd_avail_idx];
    rewrite ?length_alter, ?F1, ?F2, ?F3, ?F4, ?F5, ?F7, ?F8, ?F9; done).
  - intros c' Hc'. destruct (decide (c_i c' = c_i c)) as [E|E].
    + rewrite (inv_head_eq c' c Hc' Hc E). destruct (V8 c Hc) as [G1 G2 G3 G4 G5 G6 G7].
      constructor; [unfold get_desc in *; cbn [d' set_device set_used upd_info vd_desc]; rewrite F1; done..|
        unfold get_op in *; cbn [d' set_device set_used upd_info vd_ops]; rewrite F3; done|by rewrite Ei| |done].
      cbn [d' set_device set_used upd_info vd_bufs]. by rewrite F13.
    + apply (call_ok_same d); [apply Hsame; [done|by intros ->]|by apply V8].
  - rewrite Ef', <- V9, Ef, <- !app_assoc. apply Permutation_app_head, Permutation_app_head. cbn [app].
    rewrite (Permutation_app_comm q3). cbn [app]. rewrite <- (Permutation_middle l2). apply perm_skip.
    apply Permutation_app_head. apply Permutation_app_comm.
  - cbn [d' set_device set_used upd_info vd_used_ring vd_used_idx vd_used_end]. rewrite F10, F11, F12.
    apply ring_seg_push; [done|]. pose proof inv_heads_len as Hl. rewrite Ef, length_app in Hl. cbn in Hl. lia.
  - intros c' Hc'. unfold phase_ok. rewrite Ef'. destruct (decide (c_i c' = c_i c)) as [E|E].
    + rewrite (inv_head_eq c' c Hc' Hc E). rewrite Ef in Hnd.
      assert (forall P Q : Prop, (P -> False) -> (P -> Q)) as Habs by tauto.
      split_and!.
      * apply Habs. apply NoDup_mid in Hnd as [Hn1 Hn2]. clear -Hn1 Hn2. set_solver.
      * intros _. change (get_vbuf d' (c_buf c)) with (get_vbuf dt (c_buf c)). split; [done|]. unfold served.
        rewrite Ei. by split_and!.
      * apply Habs. apply NoDup_mid in Hnd as [Hn1 Hn2]. clear -Hn1 Hn2. set_solver.
    + destruct (V12 c' Hc') as (Q1 & Q2 & Q3). assert (same_call d d' c') as Hs by (apply Hsame; [done|by intros ->]).
      pose proof Hs as (_ & _ & _ & Eb & _). rewrite Eb. split_and!.
      * intros Hin. apply (pending_same d); [done|]. apply Q1. rewrite Ef. clear -Hin. set_solver.
      * intros Hin. destruct (Q2 ltac:(clear -Hin E; set_solver)). split; [done|by apply (served_same d)].
      * intros Hin. destruct (Q3 Hin). split; [done|by apply (served_same d)].
Qed.

(** *** The interrupt handler sees one completed request *)
Definition seen (b : nat) (d : vdisk) : vdisk :=
  set_used_idx (u16 (vd_used_idx d + 1)) (add_woken (ChBuf b) (upd_vbuf b (set_b_disk 0) d)).
Lemma inv_seen x q3' : q3 = x :: q3' ->
  exists c, c ∈ cs /\ c_i c = x /\ vinv_q (seen (c_buf c) d) cs q1 q3' (q4 ++ [x]) /\
    forall e, intr_more e d = Ok true e d /\ intr_entry e d = Ok (c_buf c) e d.
Proof.
  intros Eq. pose proof Hv as [V1 V3 V4 V5 V6 V7 V8 V9 V10 V11 V12]. pose proof inv_heads_NoDup as Hnd. pose proof inv_heads_len as Hlen.
  destruct (inv_head_call x) as (c & Hc & Ex); [rewrite Eq; clear; set_solver|]. exists c. split; [done|]. split; [done|].
  destruct (V12 c Hc) as (_ & P2 & _). destruct (P2 ltac:(rewrite Ex, Eq; left)) as [Hd1 Hsv].
  pose proof (co_lt _ _ (V8 c Hc)) as Hlt.
  assert (get_vbuf (seen (c_buf c) d) (c_buf c) = set_b_disk 0 (get_vbuf d (c_buf c))) as Eb by by apply get_vbuf_upd.
  assert (forall c', c' ∈ cs -> c_i c' <> x -> same_call d (seen (c_buf c) d) c') as Hsame.
  { intros c' Hc' Hne. split_and!; try done; [|cbn; by rewrite length_alter].
    apply get_vbuf_upd_ne. intros E. apply Hne. by rewrite (inv_buf_eq c' c Hc' Hc E). }
  split.
  - constructor; try done.
    + intros c' Hc'. destruct (decide (c_i c' = x)) as [E|E]; [|by apply (call_ok_same d); [apply Hsame|apply V8]].
      rewrite (inv_head_eq c' c Hc' Hc ltac:(congruence)). destruct (V8 c Hc) as [G1 G2 G3 G4 G5 G6 G7].
      constructor; try done; [cbn; by rewrite length_alter|by rewrite Eb].
    + rewrite <- V9, Eq. apply Permutation_app_head, Permutation_app_head. cbn [app]. rewrite app_assoc.
      by rewrite <- (Permutation_cons_append (q3' ++ q4)).
    + rewrite Eq in V11. apply ring_seg_pop in V11 as [_ V11]. done.
    + intros c' Hc'. unfold phase_ok. destruct (decide (c_i c' = x)) as [E|E].
      * rewrite (inv_head_eq c' c Hc' Hc ltac:(congruence)), Ex. rewrite Eq in Hnd.
        assert (x ∉ q1 ++ vd_fetched d /\ x ∉ q3') as [N1 N2].
        { rewrite app_assoc in Hnd. rewrite NoDup_app in Hnd. destruct Hnd as (_ & Hd & Hnd). cbn [app] in Hnd.
          apply NoDup_cons in Hnd as [Hn _]. split; [intros Hin; apply (Hd x Hin); left|]. clear -Hn. set_solver. }
        split_and!; [intros Hin; by destruct N1|intros Hin; by destruct N2|]. intros _. split; [by rewrite Eb|].
        destruct Hsv as (S1 & S2 & S3). split_and!; [done|by rewrite Eb|done].
      * destruct (V12 c' Hc') as (Q1 & Q2 & Q3). pose proof (Hsame c' Hc' E) as Hs. pose proof Hs as (_ & _ & _ & Eb' & _). rewrite Eb'.
        split_and!.
        -- intros Hin. apply (pending_same d); [done|by apply Q1].
        -- intros Hin. destruct Q2 as [? ?]; [rewrite Eq; by right|]. split; [done|by apply (served_same d)].
        -- intros Hin. destruct Q3 as [? ?]; [clear -Hin E; set_solver|]. split; [done|by apply (served_same d)].
  - intros e. split.
    + unfold intr_more, gets. rewrite bool_decide_eq_true_2; [done|]. intros E. pose proof (ring_seg_empty _ _ _ _ V11 ltac:(lia) E) as E0. by rewrite E0 in Eq.
    + unfold intr_entry. cbn [bind gets]. rewrite Eq in V11. destruct (ring_seg_pop _ _ _ _ _ V11) as [-> _]. cbn [id default from_option]. rewrite <- Ex.
      destruct Hsv as (S1 & _). rewrite decide_False by lia. cbn [bind gets]. by rewrite (co_b _ _ (V8 c Hc)).
Qed.
Lemma inv_no_more e : q3 = [] -> intr_more e d = Ok false e d.
Proof.
  intros E. unfold intr_more, gets. rewrite bool_decide_eq_false_2; [done|]. intros Hne. apply Hne. destruct (vi_used _ _ _ _ _ Hv) as (_ & H1 & H2 & _).
  rewrite E in H2. cbn in H2. rewrite Z.add_0_r, u16_small in H2 by done. by rewrite H2.
Qed.
End Inv.

Lemma inv_set_lock d cs q1 q3 q4 v : vinv_q d cs q1 q3 q4 -> vinv_q (set_lock v d) cs q1 q3 q4.
Proof. intros Hv. apply (inv_ext d _ _ _ _ Hv); [done|done|done|apply Hv]. Qed.
Lemma inv_write_reg d cs q1 q3 q4 r v : vinv_q d cs q1 q3 q4 -> vinv_q (write_reg r v d) cs q1 q3 q4.
Proof. intros Hv. apply (inv_ext d _ _ _ _ Hv); [done|done|done|apply Hv]. Qed.

Lemma ring_seg_len ring first last q : ring_seg ring first last q -> (length q <= NUM)%nat -> Z.to_nat (u16 (last - first)) = length q.
Proof.
  intros (_ & H1 & -> & _) Hq. replace (u16 (u16 (first + Z.of_nat (length q)) - first)) with (Z.of_nat (length q)); [lia|].
  unfold Z.sub. rewrite u16_add_l. replace (first + Z.of_nat (length q) + - first) with (Z.of_nat (length q)) by lia.
  symmetry. apply u16_small. unfold NUM in Hq. lia.
Qed.

(** *** The end of a call *)
Definition forget (i : nat) (d : vdisk) : vdisk := upd_info i (fun x => mkInfo None (in_status x)) d.
Lemma taken_middle cs1 c cs2 : taken (cs1 ++ c :: cs2) ≡ₚ c_idx c ++ taken (cs1 ++ cs2).
Proof.
  unfold taken. rewrite !fmap_app, fmap_cons, !concat_app. cbn [concat]. rewrite !app_assoc.
  apply Permutation_app_tail, Permutation_app_comm.
Qed.

(** The states while the chain of [c] is freed. *)
Definition freeing0 (c : call) (d : vdisk) : vdisk := forget (c_i c) d.
Definition freeing1 (c : call) (d : vdisk) : vdisk := freed (c_i c) (freeing0 c d).
Definition freeing2 (c : call) (d : vdisk) : vdisk := freed (c_j c) (freeing1 c d).
Definition freeing3 (c : call) (d : vdisk) : vdisk := freed (c_k c) (freeing2 c d).
Lemma free_turns d cs1 c cs2 q1 q3 q4 e :
  vinv_q d (cs1 ++ c :: cs2) q1 q3 q4 ->
  free_turn (c_i c) e (freeing0 c d) = Ok (Some (c_j c)) e (freeing1 c d) /\
  free_turn (c_j c) e (freeing1 c d) = Ok (Some (c_k c)) e (freeing2 c d) /\
  free_turn (c_k c) e (freeing2 c d) = Ok None e (freeing3 c d) /\
  freemap (vd_free (freeing3 c d)) (taken (cs1 ++ cs2)).
Proof.
  intros Hv. assert (c ∈ cs1 ++ c :: cs2) as Hc by (apply elem_of_app; right; left).
  destruct (vi_calls _ _ _ _ _ Hv c Hc) as [G1 G2 G3 G4 G5 G6 G7].
  pose proof (vi_nodup _ _ _ _ _ Hv) as Hnd. rewrite taken_middle in Hnd. apply NoDup_app in Hnd as (Hnd & Hdis & _).
  unfold c_idx in Hnd. rewrite !NoDup_cons in Hnd. destruct Hnd as (N1 & N2 & _ & _).
  assert (c_j c <> c_i c) as Nji by (intros E; apply N1; rewrite E; left).
  assert (c_k c <> c_i c) as Nki by (intros E; apply N1; rewrite E; right; left).
  assert (c_k c <> c_j c) as Nkj by (intros E; apply N2; rewrite E; left).
  assert (forall n, n ∈ c_idx c -> (n < NUM)%nat) as Hlt by (intros n; by apply (inv_range _ _ _ _ _ Hv c)).
  assert (c_i c < NUM)%nat as Li by (apply Hlt; left). assert (c_j c < NUM)%nat as Lj by (apply Hlt; right; left).
  assert (c_k c < NUM)%nat as Lk by (apply Hlt; right; right; left).
  assert (freemap (vd_free (freeing0 c d)) (c_i c :: c_j c :: c_k c :: taken (cs1 ++ cs2))) as F0.
  { apply (freemap_ext _ _ _ (vi_free _ _ _ _ _ Hv)). intros n. by rewrite taken_middle. }
  assert (freemap (vd_free (freeing1 c d)) (c_j c :: c_k c :: taken (cs1 ++ cs2))) as F1.
  { apply freemap_delete; [done|done|]. rewrite !not_elem_of_cons. split_and!; [done|done|]. apply Hdis. left. }
  assert (freemap (vd_free (freeing2 c d)) (c_k c :: taken (cs1 ++ cs2))) as F2.
  { apply freemap_delete; [done|done|]. rewrite not_elem_of_cons. split; [done|]. apply Hdis. right. left. }
  assert (forall a n x, n <> a -> get_desc (freed a x) n = get_desc x n) as Gfr by (intros a n x; apply get_desc_upd_ne).
  split_and!; [..|apply freemap_delete; [done|done|]; apply Hdis; right; right; left].
  - unfold free_turn. cbn [bind gets]. rewrite (free_desc_ok _ _ _ _ F0) by (done || left). cbn [ret].
    change (get_desc (freeing0 c d) (c_i c)) with (get_desc d (c_i c)). rewrite G1. reflexivity.
  - unfold free_turn. cbn [bind gets]. rewrite (free_desc_ok _ _ _ _ F1) by (done || left). cbn [ret].
    assert (get_desc (freeing1 c d) (c_j c) = get_desc d (c_j c)) as -> by exact (Gfr (c_i c) (c_j c) (freeing0 c d) Nji). rewrite G2. cbn [d_flags d_next].
    by rewrite (decide_True (P := Z.land _ _ <> 0)) by by case_decide.
  - unfold free_turn. cbn [bind gets]. rewrite (free_desc_ok _ _ _ _ F2) by (done || left). cbn [ret].
    assert (get_desc (freeing2 c d) (c_k c) = get_desc d (c_k c)) as -> by exact (eq_trans (Gfr (c_j c) (c_k c) (freeing1 c d) Nkj) (Gfr (c_i c) (c_k c) (freeing0 c d) Nki)). rewrite G3. reflexivity.
Qed.
Lemma finish_runs d cs1 c cs2 q1 q3 q4 e :
  vinv_q d (cs1 ++ c :: cs2) q1 q3 q4 -> finish (c_i c) e d = Ok tt e (freeing3 c d) /\ freemap (vd_free (freeing3 c d)) (taken (cs1 ++ cs2)).
Proof.
  intros Hv. destruct (free_turns d cs1 c cs2 q1 q3 q4 e Hv) as (T0 & T1 & T2 & Hf). split; [|done].
  unfold finish. cbn [bind modify]. change (upd_info (c_i c) _ d) with (freeing0 c d). unfold NUM at 1. cbn [free_chain].
  rewrite (bind_Ok _ _ _ _ _ _ _ T0), (bind_Ok _ _ _ _ _ _ _ T1), (bind_Ok _ _ _ _ _ _ _ T2). done.
Qed.

(** A call whose buffer the device has given back is on the list of seen requests. *)
Lemma done_phase d cs q1 q3 q4 c :
  vinv_q d cs q1 q3 q4 -> c ∈ cs -> b_disk (get_vbuf d (c_buf c)) <> 1 -> c_i c ∈ q4 /\ b_disk (get_vbuf d (c_buf c)) = 0 /\ served d c.
Proof.
  intros Hv Hc Hd. destruct (vi_phase _ _ _ _ _ Hv c Hc) as (P1 & P2 & P3).
  assert (c_i c ∈ q1 ++ vd_fetched d ++ q3 ++ q4) as Hin. { rewrite (vi_heads _ _ _ _ _ Hv). by apply list_elem_of_fmap_2. }
  rewrite app_assoc in Hin. apply elem_of_app in Hin as [Hin|Hin]; [by destruct (P1 Hin)|].
  apply elem_of_app in Hin as [Hin|Hin]; [by destruct (P2 Hin)|]. destruct (P3 Hin). done.
Qed.

Lemma freed_inv d cs1 c cs2 q1 q3 q4 :
  vinv_q d (cs1 ++ c :: cs2) q1 q3 q4 -> c_i c ∈ q4 -> exists q4', vinv_q (freeing3 c d) (cs1 ++ cs2) q1 q3 q4'.
Proof.
  intros Hv Hin. apply list_elem_of_split in Hin as (l1 & l2 & Eq).
  destruct (finish_runs _ _ _ _ _ _ _ [] Hv) as [_ Hf]. set (d' := freeing3 c d) in *.
  exists (l1 ++ l2).
  assert (forall c', c' ∈ cs1 ++ cs2 -> c' ∈ cs1 ++ c :: cs2) as Hsub. { intros c'. rewrite !elem_of_app, elem_of_cons. tauto. }
  pose proof (vi_nodup _ _ _ _ _ Hv) as Hnd. rewrite taken_middle in Hnd. apply NoDup_app in Hnd as (_ & Hdis & Hnd).
  assert (forall c', c' ∈ cs1 ++ cs2 -> same_call d d' c') as Hsame.
  { intros c' Hc'. assert (forall n, n ∈ c_idx c' -> n ∉ c_idx c) as Hne.
    { intros n Hn Hn'. apply (Hdis n Hn'). by apply (taken_in _ c'). }
    split_and!; try done.
    - intros n Hn. specialize (Hne n Hn). unfold c_idx in Hne. rewrite !not_elem_of_cons in Hne. destruct Hne as (? & ? & ? & _).
      change (get_desc (upd_desc (c_k c) (fun _ => null_desc) (upd_desc (c_j c) (fun _ => null_desc) (upd_desc (c_i c) (fun _ => null_desc) d))) n = get_desc d n).
      by rewrite !get_desc_upd_ne.
    - apply get_info_upd_ne. intros E. apply (Hne (c_i c')); [left|]. rewrite E. left. }
  destruct Hv as [V1 V3 V4 V5 V6 V7 V8 V9 V10 V11 V12]. constructor; try done.
  - cbn [d' freeing3 freeing2 freeing1 freeing0 freed forget add_woken set_free upd_desc upd_info vd_desc vd_info vd_ops]. by rewrite !length_alter.
  - rewrite taken_middle in V4. by apply Forall_app in V4 as [_ V4].
  - rewrite fmap_app, fmap_cons in V6. rewrite fmap_app. rewrite <- Permutation_middle in V6. by apply NoDup_cons in V6 as [_ V6].
  - rewrite fmap_app, fmap_cons in V7. rewrite fmap_app. rewrite <- Permutation_middle in V7. by apply NoDup_cons in V7 as [_ V7].
  - intros c' Hc'. apply (call_ok_same d); [by apply Hsame|by apply V8, Hsub].
  - rewrite fmap_app, fmap_cons, Eq in V9. rewrite fmap_app. apply (Permutation_cons_inv (a := c_i c)).
    change (vd_fetched d') with (vd_fetched d). rewrite (Permutation_middle (c_i <$> cs1)), <- V9, !app_assoc. apply Permutation_middle.
  - intros c' Hc'. destruct (V12 c' (Hsub c' Hc')) as (P1 & P2 & P3). pose proof (Hsame c' Hc') as Hs. pose proof Hs as (_ & _ & _ & Eb & _).
    unfold phase_ok. rewrite Eb. split_and!.
    + intros Hin. apply (pending_same d); [done|by apply P1].
    + intros Hin. destruct (P2 Hin). split; [done|by apply (served_same d)].
    + intros Hin. destruct P3 as [? ?]; [rewrite Eq; clear -Hin; set_solver|]. split; [done|by apply (served_same d)].
Qed.

Lemma finish_inv d cs1 c cs2 q1 q3 q4 e :
  vinv_q d (cs1 ++ c :: cs2) q1 q3 q4 -> b_disk (get_vbuf d (c_buf c)) <> 1 ->
  exists d' q4', finish (c_i c) e d = Ok tt e d' /\ vinv_q d' (cs1 ++ cs2) q1 q3 q4' /\ vd_lock d' = vd_lock d /\ vd_bufs d' = vd_bufs d /\ vd_sectors d' = vd_sectors d.
Proof.
  intros Hv Hd. assert (c ∈ cs1 ++ c :: cs2) as Hc by (apply elem_of_app; right; left).
  destruct (done_phase _ _ _ _ _ _ Hv Hc Hd) as (Hin & _). destruct (finish_runs _ _ _ _ _ _ _ e Hv) as [-> _].
  destruct (freed_inv d cs1 c cs2 q1 q3 q4 Hv Hin) as [q4' Hv']. by exists (freeing3 c d), q4'.
Qed.

Lemma transfer_lock out s b d : vd_lock (transfer out s b d) = vd_lock d.
Proof. by destruct out. Qed.
Lemma serve_lock id d : vd_lock (serve id d) = vd_lock d.
Proof. unfold serve. destruct (decode d id) as [[[[out s] b] t]|]; [|done]. apply transfer_lock. Qed.

(** The device identifies itself as the legacy block device the driver expects. *)
Record identified (reg : Z -> Z) : Prop := mkIdentified {
  id_magic : reg VIRTIO_MMIO_MAGIC_VALUE = 1953655158;
  id_version : reg VIRTIO_MMIO_VERSION = 1;
  id_device : reg VIRTIO_MMIO_DEVICE_ID = 2;
  id_vendor : reg VIRTIO_MMIO_VENDOR_ID = 1431127377;
  id_queue : Z.of_nat NUM <= reg VIRTIO_MMIO_QUEUE_NUM_MAX
}.
(** The static struct disk and the device before initialisation. *)
Record at_boot (d : vdisk) : Prop := mkAtBoot {
  ab_free : length (vd_free d) = NUM;
  ab_info : length (vd_info d) = NUM;
  ab_ops : length (vd_ops d) = NUM;
  ab_used : vd_used_idx d = 0;
  ab_dev : vd_dev_idx d = 0;
  ab_fetched : vd_fetched d = []
}.

(** The driver after virtio_disk_init(). *)
Lemma init_inv reg pages d : identified reg -> at_boot d ->
  forall e, exists d', virtio_disk_init reg pages e d = Ok tt e d' /\ vinv d' [] /\ vd_bufs d' = vd_bufs d /\ vd_sectors d' = vd_sectors d.
Proof.
  intros [R1 R2 R3 R4 R5] [L1 L2 L3 L4 L5 L6] e. unfold virtio_disk_init. cbn [bind vrelease modify].
  rewrite decide_False by (rewrite R1, R2, R3, R4; tauto). cbn [bind modify].
  rewrite decide_False by (unfold NUM in R5; lia). rewrite decide_False by lia. cbn [bind modify].
  assert (forall d0, for_ (seq 0 NUM) (fun i => modify (set_free i 1)) e d0 =
    Ok tt e (foldl (fun d i => set_free i 1 d) d0 (seq 0 NUM))) as Hfor by done.
  rewrite Hfor. eexists. split; [done|]. cbn [seq NUM foldl]. split; [|done]. split; [done|]. exists [], [], [].
  constructor; try done; cbn; rewrite ?L5, ?L6; try done.
  - constructor.
  - destruct (vd_free d) as [|f0 [|f1 [|f2 [|f3 [|f4 [|f5 [|f6 [|f7 [|]]]]]]]]]; try done. split; [done|].
    intros n Hn. unfold NUM in Hn. do 8 (destruct n as [|n]; [done|]). lia.
  - constructor.
  - constructor.
  - by intros c ?%elem_of_nil.
  - rewrite L4. done.
  - by intros c ?%elem_of_nil.
Qed.
