(* ===== verification/VirtioRace.v ===== *)
(** * The disk driver and its device, store by store

    The device takes no lock: it may fetch or serve a request between any two
    stores of the driver.  [fstep] interleaves it with whoever holds
    vdisk_lock: a process that formats and publishes a request, one store at a
    time; the interrupt handler, with its tests of the used ring, its reads and
    its stores; or a process that frees the chain of its completed request, one
    descriptor at a time.  alloc3_desc() only handles free[] and descriptors of
    no chain, which the device does not look at, and is one step.  Stores take
    effect in the order of the source, as the barriers demand; a completion is
    one step of the device, since the driver looks at nothing of it before
    used->idx has moved.

    [finv] is the invariant.  Between two steps of the holder the state is one in
    which [vinv_q] holds, changed by stores that only concern the holder's own
    request ([private]); what the device does in it is what it does without
    these stores ([run_serve], [run_fetch]). *)

From S2P Require Import Prelude Machine Kernel Virtio VirtioSpec.

(** ** Steps *)
(** Who holds vdisk_lock, and what it is about to do. *)
Inductive holder :=
| Nobody
| Storing (c : call) (todo : list (vdisk -> vdisk))
| Testing
| Reading
| Marking (b : nat) (todo : list (vdisk -> vdisk))
| Freeing (c : call) (n : nat).
Definition dstate : Type := vdisk * list call * holder.

Inductive fstep (dev : vdisk -> vdisk -> Prop) : dstate -> dstate -> Prop :=
| st_start d cs b write i j k d1 d2 c :
    may_start d cs b -> vacquire [] d = Ok tt [] d1 -> alloc3_desc [] d1 = Ok (Some [i; j; k]) [] d2 ->
    c = mkCall b write i j k (b_blockno (get_vbuf d b)) (goal_of d b write) ->
    fstep dev (d, cs, Nobody) (d2, c :: cs, Storing c (submit_stores b write (u32 (b_blockno (get_vbuf d2 b) * 2)) i j k))
| st_full d cs d1 d2 :
    vacquire [] d = Ok tt [] d1 -> alloc3_desc [] d1 = Ok None [] d2 -> fstep dev (d, cs, Nobody) (set_lock 0 d2, cs, Nobody)
| st_store d cs c w l : fstep dev (d, cs, Storing c (w :: l)) (w d, cs, Storing c l)
| st_sleep d cs c : b_disk (get_vbuf d (c_buf c)) = 1 -> fstep dev (d, cs, Storing c []) (set_lock 0 d, cs, Nobody)
| st_intr d cs status d1 :
    vacquire [] d = Ok tt [] d1 -> fstep dev (d, cs, Nobody) (write_reg VIRTIO_MMIO_INTERRUPT_ACK (Z.land status 3) d1, cs, Testing)
| st_more d cs d' : intr_more [] d = Ok true [] d' -> fstep dev (d, cs, Testing) (d', cs, Reading)
| st_none d cs d' : intr_more [] d = Ok false [] d' -> fstep dev (d, cs, Testing) (set_lock 0 d', cs, Nobody)
| st_entry d cs b d' : intr_entry [] d = Ok b [] d' -> fstep dev (d, cs, Reading) (d', cs, Marking b (intr_stores b))
| st_mark d cs b w l : fstep dev (d, cs, Marking b (w :: l)) (w d, cs, Marking b l)
| st_marked d cs b : fstep dev (d, cs, Marking b []) (d, cs, Testing)
| st_finish d cs c d1 :
    c ∈ cs -> vacquire [] d = Ok tt [] d1 -> b_disk (get_vbuf d1 (c_buf c)) <> 1 ->
    fstep dev (d, cs, Nobody) (upd_info (c_i c) (fun x => mkInfo None (in_status x)) d1, cs, Freeing c (c_i c))
| st_next d cs c n n' d' : free_turn n [] d = Ok (Some n') [] d' -> fstep dev (d, cs, Freeing c n) (d', cs, Freeing c n')
| st_last d cs1 c cs2 n d' : free_turn n [] d = Ok None [] d' -> fstep dev (d, cs1 ++ c :: cs2, Freeing c n) (set_lock 0 d', cs1 ++ cs2, Nobody)
| st_device d cs h d' : dev d d' -> fstep dev (d, cs, h) (d', cs, h).

(** ** Stores that concern one request only *)
Inductive private (I : list nat) (i b : nat) : (vdisk -> vdisk) -> Prop :=
| pv_op f : private I i b (upd_op i f)
| pv_desc n f : n ∈ I -> private I i b (upd_desc n f)
| pv_info f : private I i b (upd_info i f)
| pv_vbuf f : private I i b (upd_vbuf b f)
| pv_ring x : private I i b (fun d => set_avail (<[Z.to_nat (vd_avail_idx d mod 8) := x]> (vd_avail_ring d)) (vd_avail_idx d) d)
| pv_free n v : private I i b (set_free n v)
| pv_lock v : private I i b (set_lock v)
| pv_woken ch : private I i b (add_woken ch)
| pv_reg r v : private I i b (write_reg r v).
(** A request they do not concern. *)
Definition apart (I : list nat) (i b : nat) (c : call) : Prop := c_i c <> i /\ (forall n, n ∈ c_idx c -> n ∉ I) /\ c_buf c <> b.

Lemma alter_swap {A} (f g : A -> A) (l : list A) n m : n <> m -> alter f n (alter g m l) = alter g m (alter f n l).
Proof. intros Hn. apply list_eq. intros j. rewrite !list_lookup_alter. repeat case_decide; subst; try done. Qed.

Section Private.
Context (I : list nat) (i b : nat).
Lemma private_keeps w d : private I i b w ->
  vd_fetched (w d) = vd_fetched d /\ vd_dev_idx (w d) = vd_dev_idx d /\ vd_avail_idx (w d) = vd_avail_idx d /\ vd_sectors (w d) = vd_sectors d /\
  length (vd_bufs (w d)) = length (vd_bufs d) /\ forall n, n <> b -> get_vbuf (w d) n = get_vbuf d n.
Proof.
  intros []; split_and!; try done; [cbn; by rewrite length_alter|]. intros n Hn. by apply get_vbuf_upd_ne.
Qed.
Lemma private_call w d c : private I i b w -> apart I i b c -> call_ok d c -> call_ok (w d) c.
Proof.
  intros Hw (Hi & HI & Hb). apply call_ok_same. destruct (private_keeps w d Hw) as (_ & _ & _ & Es & El & Eb).
  assert (block_at (w d) (2 * c_blk c) = block_at d (2 * c_blk c)) as Ek by (unfold block_at, sector_at; by rewrite Es).
  split_and!; [| | |by apply Eb|done|done]; destruct Hw; try done.
  - intros m Hm. apply get_desc_upd_ne. intros ->. by apply (HI n).
  - by apply get_op_upd_ne.
  - by apply get_info_upd_ne.
Qed.
Lemma decode_ok d c : call_ok d c -> decode d (c_i c) = Some (bool_decide (c_write c <> 0), 2 * c_blk c, c_buf c, c_i c).
Proof.
  intros [G1 G2 G3 G4 G5 G6 G7]. unfold decode. rewrite G1. cbn [d_addr d_next].
  rewrite G2. cbn [d_addr d_next]. rewrite G3. cbn [d_addr d_len d_flags]. rewrite G4. cbn [r_type r_sector].
  rewrite decide_True by done. destruct (decide (c_write c <> 0)) as [Hw|Hw].
  - rewrite decide_True by done. by rewrite bool_decide_eq_true_2.
  - rewrite decide_False by (intros [E _]; done). rewrite decide_True by done. by rewrite bool_decide_eq_false_2.
Qed.
Lemma upd_info_comm n m f g d : n <> m -> upd_info n f (upd_info m g d) = upd_info m g (upd_info n f d).
Proof. intros Hn. unfold upd_info. cbn. by rewrite alter_swap. Qed.
Lemma upd_vbuf_comm n m f g d : n <> m -> upd_vbuf n f (upd_vbuf m g d) = upd_vbuf m g (upd_vbuf n f d).
Proof. intros Hn. unfold upd_vbuf. cbn. by rewrite alter_swap. Qed.
Lemma transfer_private w out s n d : private I i b w -> n <> b -> transfer out s n (w d) = w (transfer out s n d).
Proof.
  intros Hw Hn. destruct (private_keeps w d Hw) as (_ & _ & _ & _ & _ & Eb). unfold transfer. rewrite (Eb n Hn).
  destruct Hw; destruct out; try reflexivity. exact (upd_vbuf_comm n b _ f d Hn).
Qed.
Lemma private_serve w d c : private I i b w -> apart I i b c -> call_ok d c -> serve (c_i c) (w d) = w (serve (c_i c) d).
Proof.
  intros Hw Ha Hc. unfold serve. rewrite (decode_ok d c Hc), (decode_ok (w d) c (private_call w d c Hw Ha Hc)). cbv zeta.
  destruct Ha as (Hi & _ & Hb). rewrite (transfer_private w _ _ _ d Hw Hb). set (dt := transfer _ _ _ d).
  destruct Hw; try reflexivity. rewrite (upd_info_comm (c_i c) i) by done. reflexivity.
Qed.
Lemma private_fetch w d : private I i b w -> Z.to_nat (vd_dev_idx d mod 8) <> Z.to_nat (vd_avail_idx d mod 8) -> fetch (w d) = w (fetch d).
Proof. intros Hw Hne. destruct Hw; try reflexivity. unfold fetch. cbn. by rewrite list_lookup_insert_ne by done. Qed.

Lemma run_keeps ws : forall d, Forall (private I i b) ws ->
  vd_fetched (run ws d) = vd_fetched d /\ vd_dev_idx (run ws d) = vd_dev_idx d /\ vd_avail_idx (run ws d) = vd_avail_idx d /\ vd_sectors (run ws d) = vd_sectors d /\
  length (vd_bufs (run ws d)) = length (vd_bufs d) /\ forall n, n <> b -> get_vbuf (run ws d) n = get_vbuf d n.
Proof.
  induction ws as [|w ws IH]; intros d Hp; [done|]. apply Forall_cons in Hp as [Hw Hp].
  change (run (w :: ws) d) with (run ws (w d)). destruct (IH (w d) Hp) as (-> & -> & -> & -> & -> & E).
  destruct (private_keeps w d Hw) as (-> & -> & -> & -> & -> & E'). split_and!; try done. intros n Hn. by rewrite E, E'.
Qed.
Lemma run_call ws c : forall d, Forall (private I i b) ws -> apart I i b c -> call_ok d c -> call_ok (run ws d) c.
Proof. induction ws as [|w ws IH]; intros d Hp Ha Hc; [done|]. apply Forall_cons in Hp as [Hw Hp]. apply IH; [done|done|by apply private_call]. Qed.
Lemma run_serve ws c : forall d, Forall (private I i b) ws -> apart I i b c -> call_ok d c -> serve (c_i c) (run ws d) = run ws (serve (c_i c) d).
Proof.
  induction ws as [|w ws IH]; intros d Hp Ha Hc; [done|]. apply Forall_cons in Hp as [Hw Hp]. change (run (w :: ws) ?x) with (run ws (w x)).
  rewrite IH by (done || by apply private_call). by rewrite private_serve.
Qed.
Lemma run_fetch ws : forall d, Forall (private I i b) ws -> Z.to_nat (vd_dev_idx d mod 8) <> Z.to_nat (vd_avail_idx d mod 8) -> fetch (run ws d) = run ws (fetch d).
Proof.
  induction ws as [|w ws IH]; intros d Hp Hne; [done|]. apply Forall_cons in Hp as [Hw Hp]. change (run (w :: ws) ?x) with (run ws (w x)).
  destruct (private_keeps w d Hw) as (_ & E1 & E2 & _). rewrite IH by (rewrite ?E1, ?E2; done). by rewrite private_fetch.
Qed.
End Private.

(** ** The device between two stores *)
Definition dev_did (d : vdisk) (cs : list call) (d' : vdisk) : Prop :=
  (vd_dev_idx d <> vd_avail_idx d /\ d' = fetch d) \/ (exists c, c ∈ cs /\ c_i c ∈ vd_fetched d /\ d' = serve (c_i c) d).

Lemma slots_differ d cs q1 q3 q4 :
  vinv_q d cs q1 q3 q4 -> (length q1 < NUM)%nat -> vd_dev_idx d <> vd_avail_idx d -> Z.to_nat (vd_dev_idx d mod 8) <> Z.to_nat (vd_avail_idx d mod 8).
Proof.
  intros Hv Hl Hne. pose proof (vi_avail _ _ _ _ _ Hv) as Hs. pose proof (ring_seg_nonempty _ _ _ _ Hs ltac:(lia) Hne) as Hq.
  destruct Hs as (_ & H1 & H2 & _). rewrite H2, u16_mod8. unfold NUM in Hl. assert (0 < length q1)%nat by (destruct q1; [done|cbn; lia]).
  Z.to_euclidean_division_equations. lia.
Qed.
Lemma dev_did_lock d cs d' : dev_did d cs d' -> vd_lock d' = vd_lock d.
Proof. intros [[_ ->]|(c & _ & _ & ->)]; [done|apply serve_lock]. Qed.
Lemma dev_did_inv d cs q1 q3 q4 d' : vinv_q d cs q1 q3 q4 -> dev_did d cs d' -> exists q1' t, vinv_q d' cs q1' (q3 ++ t) q4.
Proof.
  intros Hv [[Hne ->]|(c & Hc & Hin & ->)].
  - destruct (inv_fetch _ _ _ _ _ Hv Hne) as [q1' H]. exists q1', []. by rewrite app_nil_r.
  - exists q1, [c_i c]. by apply inv_serve.
Qed.
(** A buffer and a block that no request is about. *)
Lemma dev_did_frame d cs q1 q3 q4 d' b blk :
  vinv_q d cs q1 q3 q4 -> dev_did d cs d' -> b ∉ c_buf <$> cs ->
  get_vbuf d' b = get_vbuf d b /\ length (vd_bufs d') = length (vd_bufs d) /\ (blk ∉ c_blk <$> cs -> block_at d' (2 * blk) = block_at d (2 * blk)).
Proof.
  intros Hv Hd Hb. destruct Hd as [[_ ->]|(c & Hc & _ & ->)]; [done|]. unfold serve. rewrite (decode_call _ _ _ _ _ Hv c Hc).
  destruct (transfer_frame d (bool_decide (c_write c <> 0)) (2 * c_blk c) (c_buf c)) as (_ & _ & _ & _ & _ & _ & _ & _ & _ & _ & _ & _ & F13 & F14).
  split_and!; [apply F14; intros ->; apply Hb; by apply list_elem_of_fmap_2|done|]. intros Hk.
  apply (transfer_block d c blk). intros ->. apply Hk. by apply list_elem_of_fmap_2.
Qed.
(** What the device does after private stores it does without them. *)
Lemma device_run dev I i b ws dz cs q1 q3 q4 d' :
  device_ok dev -> Forall (private I i b) ws -> vinv_q dz cs q1 q3 q4 -> (length q1 < NUM)%nat ->
  (forall c, c ∈ cs -> c_i c ∈ vd_fetched dz -> apart I i b c) -> dev (run ws dz) d' ->
  exists dz', d' = run ws dz' /\ dev_did dz cs dz' /\ dev_did (run ws dz) cs d'.
Proof.
  intros Hdev Hp Hv Hl Ha Hd. destruct (run_keeps I i b ws dz Hp) as (E1 & E2 & E3 & _).
  assert (forall id, id ∈ vd_fetched dz -> exists c, c ∈ cs /\ c_i c = id) as Hcall.
  { intros id Hid. apply (inv_head_call _ _ _ _ _ Hv). rewrite !elem_of_app. tauto. }
  destruct (Hdev (run ws dz) d' Hd) as [[Hne ->]|(id & Hid & ->)].
  - intros id Hid. rewrite E1 in Hid. destruct (Hcall id Hid) as (c & Hc & <-).
    rewrite (decode_ok (run ws dz) c); [by eexists|]. apply (run_call I i b); [done|by apply Ha|by apply (vi_calls _ _ _ _ _ Hv)].
  - exists (fetch dz). rewrite E2, E3 in Hne. rewrite (run_fetch I i b) by (done || by eapply slots_differ). split_and!; [done|by left|].
    left. rewrite E2, E3. split; [done|]. symmetry. apply (run_fetch I i b); [done|by eapply slots_differ].
  - rewrite E1 in Hid. destruct (Hcall id Hid) as (c & Hc & <-). exists (serve (c_i c) dz).
    rewrite (run_serve I i b) by (done || by apply Ha || by apply (vi_calls _ _ _ _ _ Hv)). split_and!; [done|right; by exists c|].
    right. exists c. rewrite E1. split_and!; [done|done|]. symmetry. apply (run_serve I i b); [done|by apply Ha|by apply (vi_calls _ _ _ _ _ Hv)].
Qed.
Lemma device_here dev d cs q1 q3 q4 d' : device_ok dev -> vinv_q d cs q1 q3 q4 -> dev d d' -> dev_did d cs d'.
Proof.
  intros Hdev Hv Hd. assert (forall id, id ∈ vd_fetched d -> exists c, c ∈ cs /\ c_i c = id) as Hcall.
  { intros id Hid. apply (inv_head_call _ _ _ _ _ Hv). rewrite !elem_of_app. tauto. }
  destruct (Hdev d d' Hd) as [?|(id & Hid & ->)]; [|by left|].
  - intros id Hid. destruct (Hcall id Hid) as (c & Hc & <-). rewrite (decode_call _ _ _ _ _ Hv c Hc). by eexists.
  - right. destruct (Hcall id Hid) as (c & Hc & <-). by exists c.
Qed.

(** ** The invariant *)
Definition alloc_stores (c : call) : list (vdisk -> vdisk) := [set_lock 1; set_free (c_i c) 0; set_free (c_j c) 0; set_free (c_k c) 0].
Definition stores_of (c : call) : list (vdisk -> vdisk) := submit_stores (c_buf c) (c_write c) (u32 (c_blk c * 2)) (c_i c) (c_j c) (c_k c).
(** All but the store to avail->idx and the notification. *)
Definition format_stores (c : call) : list (vdisk -> vdisk) := take 20 (stores_of c).
Definition publish (d : vdisk) : vdisk := set_avail (vd_avail_ring d) (u16 (vd_avail_idx d + 1)) d.
Definition notify : vdisk -> vdisk := write_reg VIRTIO_MMIO_QUEUE_NOTIFY 0.
Lemma stores_split c : stores_of c = format_stores c ++ [publish; notify].
Proof. reflexivity. Qed.
Lemma format_private c : Forall (private (c_idx c) (c_i c) (c_buf c)) (alloc_stores c ++ format_stores c).
Proof.
  assert (c_i c ∈ c_idx c /\ c_j c ∈ c_idx c /\ c_k c ∈ c_idx c) as (H1 & H2 & H3) by (unfold c_idx; set_solver).
  unfold format_stores, stores_of, submit_stores, alloc_stores. cbn [take app].
  repeat (apply Forall_cons_2; [first [apply pv_op|apply pv_info|apply pv_vbuf|apply pv_lock|apply pv_free|apply pv_ring|by apply pv_desc]|]). apply Forall_nil_2.
Qed.

Lemma format_lock c : Forall (fun w => forall d, vd_lock (w d) = vd_lock d) (format_stores c).
Proof. repeat constructor. Qed.

(** The request of [c] is being formatted: without the stores made so far the
    state is one in which the other requests are all there are. *)
Record formatting (d : vdisk) (cs : list call) (c : call) (todo : list (vdisk -> vdisk)) (dz : vdisk) (ws : list (vdisk -> vdisk)) (q1 q3 q4 : list nat) : Prop := {
  fm_inv : vinv_q dz cs q1 q3 q4;
  fm_may : may_start dz cs (c_buf c);
  fm_blk : c_blk c = b_blockno (get_vbuf dz (c_buf c));
  fm_goal : c_goal c = goal_of dz (c_buf c) (c_write c);
  fm_range : Forall (fun n => n < NUM)%nat (c_idx c);
  fm_nodup : NoDup (c_idx c);
  fm_new n : n ∈ c_idx c -> n ∉ taken cs;
  fm_state : d = run (alloc_stores c ++ ws) dz;
  fm_todo : ws ++ todo = format_stores c
}.
(** The chain of [c] is being freed, [n] is next. *)
Definition freeing_at (c : call) (n : nat) (dz d : vdisk) : Prop :=
  n = c_i c /\ d = freeing0 c dz \/ n = c_j c /\ d = freeing1 c dz \/ n = c_k c /\ d = freeing2 c dz.
Definition finv (s : dstate) : Prop :=
  let '(d, cs, h) := s in
  match h with
  | Nobody => vinv d cs
  | Storing c todo => vd_lock d = 1 /\ exists cs0, cs = c :: cs0 /\
      ((exists l dz ws q1 q3 q4, todo = l ++ [publish; notify] /\ formatting d cs0 c l dz ws q1 q3 q4) \/
       (todo = [notify] \/ todo = []) /\ exists q1 q3 q4, vinv_q d cs q1 q3 q4 /\ c_i c ∉ q4)
  | Testing => vd_lock d = 1 /\ exists q1 q3 q4, vinv_q d cs q1 q3 q4
  | Reading => vd_lock d = 1 /\ exists q1 x q3 q4, vinv_q d cs q1 (x :: q3) q4
  | Marking b todo => vd_lock d = 1 /\
      ((todo = [] /\ exists q1 q3 q4, vinv_q d cs q1 q3 q4) \/
       exists dz ws c q1 q3 q4, ws ++ todo = intr_stores b /\ todo <> [] /\ d = run ws dz /\ vinv_q dz cs q1 (c_i c :: q3) q4 /\ c ∈ cs /\ c_buf c = b)
  | Freeing c n => vd_lock d = 1 /\ exists dz cs1 cs2 q1 q3 q4, cs = cs1 ++ c :: cs2 /\ vinv_q dz cs q1 q3 q4 /\ c_i c ∈ q4 /\
      freeing_at c n dz d
  end.

Lemma fresh_head d cs q1 q3 q4 n : vinv_q d cs q1 q3 q4 -> n ∉ taken cs -> n ∉ q1 ++ vd_fetched d ++ q3 ++ q4.
Proof. intros Hv Hn Hin. destruct (inv_head_call _ _ _ _ _ Hv n Hin) as (c & Hc & <-). apply Hn. apply (taken_in cs c); [done|left]. Qed.
Lemma fresh_room d cs q1 q3 q4 n : vinv_q d cs q1 q3 q4 -> (n < NUM)%nat -> n ∉ taken cs -> (length q1 < NUM)%nat.
Proof.
  intros Hv Hn Hf. pose proof (fresh_head _ _ _ _ _ _ Hv Hf) as Hh. pose proof (inv_heads_NoDup _ _ _ _ _ Hv) as Hnd. pose proof (inv_heads_range _ _ _ _ _ Hv) as Hr.
  assert (length (n :: q1 ++ vd_fetched d ++ q3 ++ q4) <= NUM)%nat as Hl by (apply NoDup_small; by constructor). cbn in Hl. rewrite length_app in Hl. lia.
Qed.
Lemma acquired d d1 : vacquire [] d = Ok tt [] d1 -> vd_lock d = 0 /\ d1 = set_lock 1 d.
Proof. cbn. case_decide; [|done]. by intros [= <-]. Qed.

(** *** A request is formatted and published *)
Lemma fmt_start d cs b write i j k d2 :
  vinv d cs -> may_start d cs b -> alloc3_desc [] (set_lock 1 d) = Ok (Some [i; j; k]) [] d2 ->
  let c := mkCall b write i j k (b_blockno (get_vbuf d b)) (goal_of d b write) in
  finv (d2, c :: cs, Storing c (submit_stores b write (u32 (b_blockno (get_vbuf d2 b) * 2)) i j k)).
Proof.
  intros [Hl (q1 & q3 & q4 & Hv)] Hm Ea c.
  destruct (alloc3_ok (taken cs) [] (set_lock 1 d) (vi_free _ _ _ _ _ Hv)) as [(i' & j' & k' & A1 & A2 & A3 & A4 & A5 & A6 & A7 & E)|(d' & E & _)];
    rewrite Ea in E; [|done]. injection E as <- <- <- ->. split; [done|]. exists cs. split; [done|]. left.
  exists (format_stores c), d, [], q1, q3, q4. split; [exact (stores_split c)|].
  constructor; [exact Hv|exact Hm|done|done|unfold c_idx; rewrite !Forall_cons; done|exact A4| |done|done].
  intros n. unfold c_idx. cbn. rewrite !elem_of_cons, elem_of_nil. by intros [->|[->|[->|[]]]].
Qed.
Lemma fmt_store d cs c w l dz ws q1 q3 q4 : formatting d cs c (w :: l) dz ws q1 q3 q4 -> formatting (w d) cs c l dz (ws ++ [w]) q1 q3 q4.
Proof.
  intros [F1 F2 F3 F4 F5 F6 F7 F8 F9]. constructor; [done..| |by rewrite <- app_assoc].
  rewrite app_assoc, run_app, <- F8. done.
Qed.
Lemma fmt_private d cs c l dz ws q1 q3 q4 : formatting d cs c l dz ws q1 q3 q4 -> Forall (private (c_idx c) (c_i c) (c_buf c)) (alloc_stores c ++ ws).
Proof.
  intros F. pose proof (format_private c) as Hp. rewrite <- (fm_todo _ _ _ _ _ _ _ _ _ F), app_assoc in Hp. by apply Forall_app in Hp as [Hp _].
Qed.
Lemma fmt_apart d cs c l dz ws q1 q3 q4 c' : formatting d cs c l dz ws q1 q3 q4 -> c' ∈ cs -> apart (c_idx c) (c_i c) (c_buf c) c'.
Proof.
  intros F Hc. assert (forall n, n ∈ c_idx c' -> n ∉ c_idx c) as Hn.
  { intros n Hn Hin. apply (fm_new _ _ _ _ _ _ _ _ _ F n Hin). by apply (taken_in cs c'). }
  split_and!; [|done|].
  - intros E. apply (Hn (c_i c')); [left|]. rewrite E. left.
  - intros E. destruct (fm_may _ _ _ _ _ _ _ _ _ F) as (_ & _ & Hb & _). apply Hb. rewrite <- E. by apply list_elem_of_fmap_2.
Qed.
Lemma fmt_device dev d cs c l dz ws q1 q3 q4 d' :
  device_ok dev -> formatting d cs c l dz ws q1 q3 q4 -> dev d d' ->
  exists dz' q1' q3', formatting d' cs c l dz' ws q1' q3' q4 /\ dev_did d cs d'.
Proof.
  intros Hdev F Hd. pose proof F as [F1 F2 F3 F4 F5 F6 F7 F8 F9]. rewrite F8 in Hd.
  assert (length q1 < NUM)%nat as Hr. { eapply (fresh_room dz cs q1 q3 q4 (c_i c)); [done|rewrite Forall_forall in F5; apply F5; left|apply F7; left]. }
  destruct (device_run dev _ _ _ _ dz cs q1 q3 q4 d' Hdev (fmt_private _ _ _ _ _ _ _ _ _ F) F1 Hr (fun c' Hc _ => fmt_apart _ _ _ _ _ _ _ _ _ _ F Hc) Hd) as (dz' & Ed & Hdid & Hdid').
  destruct (dev_did_inv _ _ _ _ _ _ F1 Hdid) as (q1' & t & Hv'). exists dz', q1', (q3 ++ t). rewrite F8. split; [|done].
  destruct F2 as (M1 & M2 & M3 & M4). destruct (dev_did_frame _ _ _ _ _ _ (c_buf c) (b_blockno (get_vbuf dz (c_buf c))) F1 Hdid M3) as (E1 & E2 & E3). specialize (E3 M4).
  constructor; try done.
  - unfold may_start. by rewrite E1, E2.
  - by rewrite E1.
  - rewrite F4. unfold goal_of. by rewrite E1, E3.
Qed.
Lemma fmt_publish d cs c dz ws q1 q3 q4 :
  formatting d cs c [] dz ws q1 q3 q4 -> vinv_q (publish d) (c :: cs) (q1 ++ [c_i c]) q3 q4 /\ c_i c ∉ q4.
Proof.
  intros [F1 F2 F3 F4 F5 F6 F7 F8 F9]. split; [|intros Hin; apply (fresh_head _ _ _ _ _ (c_i c) F1); [apply F7; left|rewrite !elem_of_app; tauto]].
  rewrite app_nil_r in F9. subst ws. assert (notify (publish d) = submitted (c_buf c) (c_write c) (c_i c) (c_j c) (c_k c) (run (alloc_stores c) dz)) as E.
  { rewrite <- submit_stores_run. change (b_blockno (get_vbuf (run (alloc_stores c) dz) (c_buf c))) with (b_blockno (get_vbuf dz (c_buf c))). rewrite <- F3.
    fold (stores_of c). rewrite stores_split, run_app. rewrite F8, run_app. reflexivity. }
  assert (vinv_q (notify (publish d)) (c :: cs) (q1 ++ [c_i c]) q3 q4) as Hv.
  { assert (c_i c ∈ c_idx c /\ c_j c ∈ c_idx c /\ c_k c ∈ c_idx c) as (I1 & I2 & I3) by (unfold c_idx; clear; set_solver).
    rewrite E. unfold c_idx in F5. rewrite !Forall_cons in F5. destruct F5 as (L1 & L2 & L3 & _).
    pose proof (inv_start (set_lock 1 dz) cs q1 q3 q4 (inv_set_lock _ _ _ _ _ 1 F1) (c_buf c) (c_write c) (c_i c) (c_j c) (c_k c) F2 L1 L2 L3 F6
      (F7 _ I1) (F7 _ I2) (F7 _ I3)) as Hs.
    change (get_vbuf (set_lock 1 dz) (c_buf c)) with (get_vbuf dz (c_buf c)) in Hs. change (goal_of (set_lock 1 dz) (c_buf c) (c_write c)) with (goal_of dz (c_buf c) (c_write c)) in Hs.
    rewrite <- F3, <- F4 in Hs. by destruct c. }
  apply (inv_ext _ _ _ _ _ Hv); [done|done|done|apply Hv].
Qed.

(** *** A completed request is marked, a chain is freed *)
Lemma busy_apart d cs q1 q3 q4 c c' :
  vinv_q d cs q1 q3 q4 -> c ∈ cs -> c_i c ∈ q3 ++ q4 -> c' ∈ cs -> c_i c' ∈ vd_fetched d -> apart (c_idx c) (c_i c) (c_buf c) c'.
Proof.
  intros Hv Hc Hq Hc' Hf. assert (c' <> c) as Hne.
  { intros ->. pose proof (inv_heads_NoDup _ _ _ _ _ Hv) as Hnd. apply NoDup_app in Hnd as (_ & _ & Hnd). apply NoDup_app in Hnd as (_ & Hd & _). by apply (Hd (c_i c)). }
  split_and!.
  - intros E. apply Hne. by eapply inv_head_eq.
  - intros n Hn Hn'. apply Hne. by eapply inv_idx_eq.
  - intros E. apply Hne. by eapply inv_buf_eq.
Qed.
Lemma busy_room d cs q1 q3 q4 n : vinv_q d cs q1 q3 q4 -> n ∈ q3 ++ q4 -> (length q1 < NUM)%nat.
Proof.
  intros Hv Hn. pose proof (inv_heads_len _ _ _ _ _ Hv) as Hl. assert (0 < length (q3 ++ q4))%nat; [|rewrite length_app in *; lia].
  destruct (q3 ++ q4); [by apply elem_of_nil in Hn|cbn; lia].
Qed.
Lemma busy_device dev ws dz cs q1 q3 q4 c d' :
  device_ok dev -> Forall (private (c_idx c) (c_i c) (c_buf c)) ws -> vinv_q dz cs q1 q3 q4 -> c ∈ cs -> c_i c ∈ q3 ++ q4 -> dev (run ws dz) d' ->
  exists dz' q1' t, d' = run ws dz' /\ vinv_q dz' cs q1' (q3 ++ t) q4 /\ dev_did dz cs dz' /\ dev_did (run ws dz) cs d'.
Proof.
  intros Hdev Hp Hv Hc Hq Hd.
  destruct (device_run dev _ _ _ ws dz cs q1 q3 q4 d' Hdev Hp Hv (busy_room _ _ _ _ _ _ Hv Hq) (fun c' Hc' Hf => busy_apart _ _ _ _ _ _ _ Hv Hc Hq Hc' Hf) Hd) as (dz' & Ed & H1 & H2).
  destruct (dev_did_inv _ _ _ _ _ _ Hv H1) as (q1' & t & Hv'). by exists dz', q1', t.
Qed.

Lemma mark_private c ws todo : ws ++ todo = intr_stores (c_buf c) -> todo <> [] -> Forall (private (c_idx c) (c_i c) (c_buf c)) ws.
Proof.
  intros E Ht. assert (ws `prefix_of` [upd_vbuf (c_buf c) (set_b_disk 0); add_woken (ChBuf (c_buf c))]) as [l El].
  { destruct (exists_last Ht) as (t & w & ->). unfold intr_stores in E. rewrite app_assoc in E. change [?a; ?b; ?x] with ([a; b] ++ [x]) in E. apply app_inj_tail in E as [E _]. by exists t. }
  assert (Forall (private (c_idx c) (c_i c) (c_buf c)) (ws ++ l)) as H by (rewrite <- El; repeat constructor). by apply Forall_app in H as [H _].
Qed.

Definition free_stores (n : nat) : list (vdisk -> vdisk) := [upd_desc n (fun _ => null_desc); set_free n 1; add_woken ChFree].
Lemma freeing_stores c n dz d : freeing_at c n dz d ->
  exists ws, Forall (private (c_idx c) (c_i c) (c_buf c)) ws /\ d = run ws dz /\ forall dz', freeing_at c n dz' (run ws dz').
Proof.
  assert (forall m, m ∈ c_idx c -> Forall (private (c_idx c) (c_i c) (c_buf c)) (free_stores m)) as Hfs.
  { intros m Hm. apply Forall_cons_2; [by apply pv_desc|]. apply Forall_cons_2; [apply pv_free|]. apply Forall_cons_2; [apply pv_woken|apply Forall_nil_2]. }
  set (f := upd_info (c_i c) (fun x => mkInfo None (in_status x))). assert (private (c_idx c) (c_i c) (c_buf c) f) as Hf by apply pv_info.
  intros [[-> ->]|[[-> ->]|[-> ->]]].
  - exists [f]. split_and!; [by constructor|done|]. intros dz'. by left.
  - exists (f :: free_stores (c_i c)). split_and!; [constructor; [done|apply Hfs; left]|done|]. intros dz'. right. by left.
  - exists (f :: free_stores (c_i c) ++ free_stores (c_j c)). split_and!; [constructor; [done|apply Forall_app; split; apply Hfs; [left|right; left]]|done|]. intros dz'. right. by right.
Qed.

(** ** Every step keeps the invariant *)
Section Steps.
Context (dev : vdisk -> vdisk -> Prop) (Hdev : device_ok dev).

Lemma dev_did_more d cs cs' d' : cs ⊆ cs' -> dev_did d cs d' -> dev_did d cs' d'.
Proof. intros Hs [?|(c & Hc & ?)]; [by left|]. right. exists c. split; [by apply Hs|done]. Qed.
Lemma device_inv d cs h d' : finv (d, cs, h) -> dev d d' -> finv (d', cs, h) /\ dev_did d cs d'.
Proof.
  intros Hi Hd. destruct h as [|c todo| | |b todo|c n]; cbn [finv] in Hi |- *.
  - destruct Hi as [Hl (q1 & q3 & q4 & Hv)]. pose proof (device_here dev _ _ _ _ _ _ Hdev Hv Hd) as H. destruct (dev_did_inv _ _ _ _ _ _ Hv H) as (q1' & t & Hv').
    split; [|done]. split; [by rewrite (dev_did_lock _ _ _ H)|by exists q1', (q3 ++ t), q4].
  - destruct Hi as [Hl (cs0 & -> & [(l & dz & ws & q1 & q3 & q4 & -> & F)|(Ht & q1 & q3 & q4 & Hv & Hn)])].
    + destruct (fmt_device dev _ _ _ _ _ _ _ _ _ _ Hdev F Hd) as (dz' & q1' & q3' & F' & H). apply (dev_did_more _ _ (c :: cs0)) in H; [|set_solver].
      split; [|done]. split; [by rewrite (dev_did_lock _ _ _ H)|]. exists cs0. split; [done|]. left. by exists l, dz', ws, q1', q3', q4.
    + pose proof (device_here dev _ _ _ _ _ _ Hdev Hv Hd) as H. destruct (dev_did_inv _ _ _ _ _ _ Hv H) as (q1' & t & Hv').
      split; [|done]. split; [by rewrite (dev_did_lock _ _ _ H)|]. exists cs0. split; [done|]. right. split; [done|]. by exists q1', (q3 ++ t), q4.
  - destruct Hi as [Hl (q1 & q3 & q4 & Hv)]. pose proof (device_here dev _ _ _ _ _ _ Hdev Hv Hd) as H. destruct (dev_did_inv _ _ _ _ _ _ Hv H) as (q1' & t & Hv').
    split; [|done]. split; [by rewrite (dev_did_lock _ _ _ H)|by exists q1', (q3 ++ t), q4].
  - destruct Hi as [Hl (q1 & x & q3 & q4 & Hv)]. pose proof (device_here dev _ _ _ _ _ _ Hdev Hv Hd) as H. destruct (dev_did_inv _ _ _ _ _ _ Hv H) as (q1' & t & Hv').
    split; [|done]. split; [by rewrite (dev_did_lock _ _ _ H)|by exists q1', x, (q3 ++ t), q4].
  - destruct Hi as [Hl [(-> & q1 & q3 & q4 & Hv)|(dz & ws & c & q1 & q3 & q4 & Ew & Ht & -> & Hv & Hc & <-)]].
    + pose proof (device_here dev _ _ _ _ _ _ Hdev Hv Hd) as H. destruct (dev_did_inv _ _ _ _ _ _ Hv H) as (q1' & t & Hv').
      split; [|done]. split; [by rewrite (dev_did_lock _ _ _ H)|]. left. split; [done|by exists q1', (q3 ++ t), q4].
    + destruct (busy_device dev ws dz cs q1 (c_i c :: q3) q4 c d' Hdev (mark_private c ws todo Ew Ht) Hv Hc ltac:(left) Hd) as (dz' & q1' & t & -> & Hv' & _ & H).
      split; [|done]. split; [by rewrite (dev_did_lock _ _ _ H)|]. right. by exists dz', ws, c, q1', (q3 ++ t), q4.
  - destruct Hi as [Hl (dz & cs1 & cs2 & q1 & q3 & q4 & -> & Hv & Hq & Hat)]. destruct (freeing_stores c n dz d Hat) as (ws & Hp & -> & Hat').
    assert (c ∈ cs1 ++ c :: cs2) as Hc by (apply elem_of_app; right; left).
    destruct (busy_device dev ws dz _ q1 q3 q4 c d' Hdev Hp Hv Hc ltac:(apply elem_of_app; by right) Hd) as (dz' & q1' & t & -> & Hv' & _ & H).
    split; [|done]. split; [by rewrite (dev_did_lock _ _ _ H)|]. exists dz', cs1, cs2, q1', (q3 ++ t), q4. split_and!; [done|done|done|apply Hat'].
Qed.

Lemma storing_inv d cs c w l : finv (d, cs, Storing c (w :: l)) -> finv (w d, cs, Storing c l).
Proof.
  intros [Hl (cs0 & -> & [(l' & dz & ws & q1 & q3 & q4 & E & F)|([E|E] & q1 & q3 & q4 & Hv & Hn)])]; [|injection E as -> ->|done].
  - destruct l' as [|w' l'].
    + injection E as -> ->. split; [done|]. exists cs0. split; [done|]. right. split; [by left|]. destruct (fmt_publish _ _ _ _ _ _ _ _ F) as [Hv Hn]. by exists (q1 ++ [c_i c]), q3, q4.
    + injection E as -> ->. pose proof (fmt_store _ _ _ _ _ _ _ _ _ _ F) as F'. split.
      * pose proof (format_lock c) as Hk. rewrite <- (fm_todo _ _ _ _ _ _ _ _ _ F), Forall_app, Forall_cons in Hk. destruct Hk as (_ & Hk & _). by rewrite Hk.
      * exists cs0. split; [done|]. left. by exists l', dz, (ws ++ [w']), q1, q3, q4.
  - split; [done|]. exists cs0. split; [done|]. right. split; [by right|]. exists q1, q3, q4. split; [by apply inv_write_reg|done].
Qed.
Lemma marking_inv d cs b w l : finv (d, cs, Marking b (w :: l)) -> finv (w d, cs, Marking b l).
Proof.
  intros [Hl [(E & _)|(dz & ws & c & q1 & q3 & q4 & Ew & _ & -> & Hv & Hc & <-)]]; [done|].
  assert (vd_lock (w (run ws dz)) = vd_lock (run ws dz)) as Hk.
  { assert (Forall (fun w => forall d, vd_lock (w d) = vd_lock d) (intr_stores (c_buf c))) as HF by repeat constructor. rewrite <- Ew, Forall_app, Forall_cons in HF. by apply HF. }
  split; [by rewrite Hk|]. destruct l as [|w' l].
  - left. split; [done|]. destruct (inv_seen dz cs q1 _ q4 Hv (c_i c) q3 eq_refl) as (c' & Hc' & Ec & Hv' & _). rewrite (inv_head_eq _ _ _ _ _ Hv c' c Hc' Hc Ec) in Hv'.
    exists q1, q3, (q4 ++ [c_i c]). change (w (run ws dz)) with (run [w] (run ws dz)). rewrite <- run_app, Ew. exact Hv'.
  - right. exists dz, (ws ++ [w]), c, q1, q3, q4. split_and!; [by rewrite <- app_assoc|done|by rewrite run_app|done|done|done].
Qed.
Lemma freeing_inv d cs c n o d' :
  finv (d, cs, Freeing c n) -> free_turn n [] d = Ok o [] d' ->
  match o with Some n' => finv (d', cs, Freeing c n') | None => forall cs1 cs2, cs = cs1 ++ c :: cs2 -> finv (set_lock 0 d', cs1 ++ cs2, Nobody) end.
Proof.
  intros [Hl (dz & cs1 & cs2 & q1 & q3 & q4 & -> & Hv & Hq & Hat)] Ef. destruct (free_turns dz cs1 c cs2 q1 q3 q4 [] Hv) as (T0 & T1 & T2 & _).
  destruct Hat as [[-> ->]|[[-> ->]|[-> ->]]].
  - rewrite T0 in Ef. injection Ef as <- <-. split; [done|]. exists dz, cs1, cs2, q1, q3, q4. split_and!; [done|done|done|]. right. by left.
  - rewrite T1 in Ef. injection Ef as <- <-. split; [done|]. exists dz, cs1, cs2, q1, q3, q4. split_and!; [done|done|done|]. right. by right.
  - rewrite T2 in Ef. injection Ef as <- <-. intros cs1' cs2' E. rewrite E in Hv. destruct (freed_inv dz cs1' c cs2' q1 q3 q4 Hv Hq) as [q4' Hv'].
    split; [done|]. exists q1, q3, q4'. by apply inv_set_lock.
Qed.

Lemma fstep_inv s s' : fstep dev s s' -> finv s -> finv s'.
Proof.
  intros Hst Hi. destruct Hst as [d cs b write i j k d1 d2 c Hm Ea Et ->|d cs d1 d2 Ea Et|d cs c w l|d cs c Hb|d cs status d1 Ea|d cs d' E|d cs d' E|d cs b d' E|d cs b w l|d cs b
    |d cs c d1 Hc Ea Hb|d cs c n n' d' E|d cs1 c cs2 n d' E|d cs h d' Hd].
  - apply acquired in Ea as [_ ->]. by apply fmt_start.
  - apply acquired in Ea as [_ ->]. destruct Hi as [Hl (q1 & q3 & q4 & Hv)].
    destruct (alloc3_ok (taken cs) [] (set_lock 1 d) (vi_free _ _ _ _ _ Hv)) as [(? & ? & ? & _ & _ & _ & _ & _ & _ & _ & E)|(d' & E & Hf & Q1 & Q2 & Q3 & Q4)];
      rewrite Et in E; [done|]. injection E as <-. split; [done|]. exists q1, q3, q4. apply inv_set_lock. by apply (inv_ext (set_lock 1 d) _ _ _ _ (inv_set_lock _ _ _ _ _ 1 Hv)).
  - by apply storing_inv.
  - destruct Hi as [Hl (cs0 & -> & [(l & dz & ws & q1 & q3 & q4 & E & _)|(_ & q1 & q3 & q4 & Hv & _)])]; [by destruct l|]. split; [done|]. exists q1, q3, q4. by apply inv_set_lock.
  - apply acquired in Ea as [_ ->]. destruct Hi as [Hl (q1 & q3 & q4 & Hv)]. split; [done|]. exists q1, q3, q4. by apply inv_write_reg, inv_set_lock.
  - destruct Hi as [Hl (q1 & q3 & q4 & Hv)]. destruct q3 as [|x q3]; [rewrite (inv_no_more _ _ _ _ _ Hv [] eq_refl) in E; done|].
    unfold intr_more, gets in E. injection E as _ <-. split; [done|]. by exists q1, x, q3, q4.
  - unfold intr_more, gets in E. injection E as _ <-. destruct Hi as [Hl (q1 & q3 & q4 & Hv)]. split; [done|]. exists q1, q3, q4. by apply inv_set_lock.
  - destruct Hi as [Hl (q1 & x & q3 & q4 & Hv)]. destruct (inv_seen d cs q1 _ q4 Hv x q3 eq_refl) as (c & Hc & <- & _ & Hm). destruct (Hm []) as [_ Em]. rewrite Em in E. injection E as <- <-.
    split; [done|]. right. by exists d, [], c, q1, q3, q4.
  - by apply marking_inv.
  - destruct Hi as [Hl [(_ & Hv)|(dz & ws & c & q1 & q3 & q4 & _ & Ht & _)]]; [|done]. by split.
  - apply acquired in Ea as [_ ->]. destruct Hi as [Hl (q1 & q3 & q4 & Hv)]. split; [done|]. pose proof (list_elem_of_split _ _ Hc) as (cs1 & cs2 & Ecs).
    destruct (done_phase _ _ _ _ _ c Hv Hc Hb) as [Hq _]. exists (set_lock 1 d), cs1, cs2, q1, q3, q4. split_and!; [done|by apply inv_set_lock|done|by left].
  - exact (freeing_inv _ _ _ _ _ _ Hi E).
  - exact (freeing_inv _ _ _ _ _ _ Hi E cs1 cs2 eq_refl).
  - exact (proj1 (device_inv d cs h d' Hi Hd)).
Qed.
Lemma fsteps_inv s s' : rtc (fstep dev) s s' -> finv s -> finv s'.
Proof. induction 1 as [|s1 s2 s3 Hst _ IH]; [done|]. intros Hi. apply IH. by apply (fstep_inv s1). Qed.

(** ** What holds in every state *)
Definition request_of (c : call) : bool * Z * nat * nat := (bool_decide (c_write c <> 0), 2 * c_blk c, c_buf c, c_i c).
Lemma known_fetched I i b ws dz cs q1 q3 q4 id :
  Forall (private I i b) ws -> vinv_q dz cs q1 q3 q4 -> (forall c, c ∈ cs -> c_i c ∈ vd_fetched dz -> apart I i b c) -> id ∈ vd_fetched (run ws dz) ->
  exists c, c ∈ cs /\ c_i c = id /\ decode (run ws dz) id = Some (request_of c).
Proof.
  intros Hp Hv Ha Hid. destruct (run_keeps I i b ws dz Hp) as (E & _). rewrite E in Hid.
  destruct (inv_head_call _ _ _ _ _ Hv id) as (c & Hc & <-); [rewrite !elem_of_app; tauto|]. exists c. split_and!; [done|done|]. apply decode_ok.
  apply (run_call I i b); [done|by apply Ha|by apply (vi_calls _ _ _ _ _ Hv)].
Qed.
Lemma plain_fetched d cs q1 q3 q4 id : vinv_q d cs q1 q3 q4 -> id ∈ vd_fetched d -> exists c, c ∈ cs /\ c_i c = id /\ decode d id = Some (request_of c).
Proof.
  intros Hv Hid. destruct (inv_head_call _ _ _ _ _ Hv id) as (c & Hc & <-); [rewrite !elem_of_app; tauto|].
  exists c. split_and!; [done|done|]. apply decode_ok. by apply (vi_calls _ _ _ _ _ Hv).
Qed.
Lemma fetched_decodes d cs h id : finv (d, cs, h) -> id ∈ vd_fetched d -> exists c, c ∈ cs /\ c_i c = id /\ decode d id = Some (request_of c).
Proof.
  intros Hi Hid. destruct h as [|c todo| | |b todo|c n]; cbn [finv] in Hi.
  - destruct Hi as [Hl (q1 & q3 & q4 & Hv)]. exact (plain_fetched _ _ _ _ _ _ Hv Hid).
  - destruct Hi as [Hl (cs0 & -> & [(l & dz & ws & q1 & q3 & q4 & -> & F)|(Ht & q1 & q3 & q4 & Hv & Hn)])]; [|exact (plain_fetched _ _ _ _ _ _ Hv Hid)].
    rewrite (fm_state _ _ _ _ _ _ _ _ _ F) in Hid |- *.
    destruct (known_fetched _ _ _ _ dz cs0 q1 q3 q4 id (fmt_private _ _ _ _ _ _ _ _ _ F) (fm_inv _ _ _ _ _ _ _ _ _ F)
      (fun c' Hc _ => fmt_apart _ _ _ _ _ _ _ _ _ _ F Hc) Hid) as (c' & Hc' & H). exists c'. split; [by right|done].
  - destruct Hi as [Hl (q1 & q3 & q4 & Hv)]. exact (plain_fetched _ _ _ _ _ _ Hv Hid).
  - destruct Hi as [Hl (q1 & x & q3 & q4 & Hv)]. exact (plain_fetched _ _ _ _ _ _ Hv Hid).
  - destruct Hi as [Hl [(-> & q1 & q3 & q4 & Hv)|(dz & ws & c & q1 & q3 & q4 & Ew & Ht & -> & Hv & Hc & <-)]]; [exact (plain_fetched _ _ _ _ _ _ Hv Hid)|].
    exact (known_fetched _ _ _ _ dz cs q1 _ q4 id (mark_private c ws todo Ew Ht) Hv (fun c' Hc' Hf => busy_apart _ _ _ _ _ _ _ Hv Hc ltac:(left) Hc' Hf) Hid).
  - destruct Hi as [Hl (dz & cs1 & cs2 & q1 & q3 & q4 & -> & Hv & Hq & Hat)]. destruct (freeing_stores c n dz d Hat) as (ws & Hp & -> & _).
    assert (c ∈ cs1 ++ c :: cs2) as Hc by (apply elem_of_app; right; left). assert (c_i c ∈ q3 ++ q4) as Hq' by (apply elem_of_app; by right).
    exact (known_fetched _ _ _ _ dz _ q1 q3 q4 id Hp Hv (fun c' Hc' Hf => busy_apart _ _ _ _ _ _ _ Hv Hc Hq' Hc' Hf) Hid).
Qed.

(** The chains of the calls are disjoint, at every store. *)
Lemma chains_apart d cs h : finv (d, cs, h) -> NoDup (taken cs).
Proof.
  intros Hi. destruct h as [|c todo| | |b todo|c n]; cbn [finv] in Hi.
  - destruct Hi as [_ (q1 & q3 & q4 & Hv)]. apply Hv.
  - destruct Hi as [_ (cs0 & -> & [(l & dz & ws & q1 & q3 & q4 & _ & F)|(_ & q1 & q3 & q4 & Hv & _)])]; [|apply Hv].
    change (NoDup (c_idx c ++ taken cs0)). apply NoDup_app. split_and!; [apply F|intros n; apply (fm_new _ _ _ _ _ _ _ _ _ F)|apply (fm_inv _ _ _ _ _ _ _ _ _ F)].
  - destruct Hi as [_ (q1 & q3 & q4 & Hv)]. apply Hv.
  - destruct Hi as [_ (q1 & x & q3 & q4 & Hv)]. apply Hv.
  - destruct Hi as [_ [(_ & q1 & q3 & q4 & Hv)|(dz & ws & c & q1 & q3 & q4 & _ & _ & _ & Hv & _)]]; apply Hv.
  - destruct Hi as [_ (dz & cs1 & cs2 & q1 & q3 & q4 & _ & Hv & _)]. apply Hv.
Qed.
Lemma lock_held d cs h : finv (d, cs, h) -> vd_lock d = match h with Nobody => 0 | _ => 1 end.
Proof. by destruct h; intros [H _]. Qed.

(** Whoever holds the lock can go on, without the help of the device. *)
Lemma holder_moves d cs h : finv (d, cs, h) -> h <> Nobody -> exists s', fstep (fun _ _ => False) (d, cs, h) s'.
Proof.
  intros Hi Hh. destruct h as [|c todo| | |b todo|c n]; cbn [finv] in Hi; [done|..].
  - destruct todo as [|w l]; [|eexists; apply st_store].
    destruct Hi as [Hl (cs0 & -> & [(l & dz & ws & q1 & q3 & q4 & E & _)|(_ & q1 & q3 & q4 & Hv & Hn)])]; [by destruct l|].
    eexists. apply st_sleep. destruct (decide (b_disk (get_vbuf d (c_buf c)) = 1)) as [E|E]; [done|].
    by destruct (done_phase _ _ _ _ _ c Hv ltac:(left) E).
  - destruct Hi as [Hl (q1 & q3 & q4 & Hv)]. destruct q3 as [|x q3].
    + eexists. apply st_none. exact (inv_no_more _ _ _ _ _ Hv [] eq_refl).
    + destruct (inv_seen d cs q1 _ q4 Hv x q3 eq_refl) as (c & _ & _ & _ & Hm). eexists. apply st_more. exact (proj1 (Hm [])).
  - destruct Hi as [Hl (q1 & x & q3 & q4 & Hv)]. destruct (inv_seen d cs q1 _ q4 Hv x q3 eq_refl) as (c & _ & _ & _ & Hm).
    eexists. apply st_entry. exact (proj2 (Hm [])).
  - destruct todo as [|w l]; eexists; [apply st_marked|apply st_mark].
  - destruct Hi as [Hl (dz & cs1 & cs2 & q1 & q3 & q4 & -> & Hv & Hq & Hat)]. destruct (free_turns dz cs1 c cs2 q1 q3 q4 [] Hv) as (T0 & T1 & T2 & _).
    destruct Hat as [[-> ->]|[[-> ->]|[-> ->]]]; eexists; [apply st_next, T0|apply st_next, T1|apply st_last, T2].
Qed.

(** A buffer in no call and a block no call is about stay as they are. *)
Lemma serve_frame d c b blk :
  decode d (c_i c) = Some (request_of c) -> b <> c_buf c -> blk <> c_blk c ->
  get_vbuf (serve (c_i c) d) b = get_vbuf d b /\ block_at (serve (c_i c) d) (2 * blk) = block_at d (2 * blk) /\ length (vd_bufs (serve (c_i c) d)) = length (vd_bufs d).
Proof.
  intros Ed Hb Hk. unfold serve. rewrite Ed. unfold request_of.
  destruct (transfer_frame d (bool_decide (c_write c <> 0)) (2 * c_blk c) (c_buf c)) as (_ & _ & _ & _ & _ & _ & _ & _ & _ & _ & _ & _ & F13 & F14).
  split_and!; [by apply F14|by apply (transfer_block d c blk)|done].
Qed.
Definition undisturbed (b : nat) (blk : Z) (d d' : vdisk) : Prop :=
  get_vbuf d' b = get_vbuf d b /\ block_at d' (2 * blk) = block_at d (2 * blk) /\ length (vd_bufs d') = length (vd_bufs d).
Lemma undisturbed_same b blk d d' : vd_bufs d' = vd_bufs d -> vd_sectors d' = vd_sectors d -> undisturbed b blk d d'.
Proof. intros E1 E2. unfold undisturbed, get_vbuf, block_at, sector_at. by rewrite E1, E2. Qed.
Lemma private_undisturbed I i n b blk w d : private I i n w -> b <> n -> undisturbed b blk d (w d).
Proof.
  intros Hw Hb. destruct (private_keeps I i n w d Hw) as (_ & _ & _ & Es & El & Eb). split_and!; [by apply Eb| |done].
  unfold block_at, sector_at. by rewrite Es.
Qed.
Lemma store_undisturbed d cs c w l b blk : finv (d, cs, Storing c (w :: l)) -> b ∉ c_buf <$> cs -> undisturbed b blk d (w d).
Proof.
  intros [_ (cs0 & -> & [(l' & dz & ws & q1 & q3 & q4 & E & F)|([E|E] & _)])] Hb; [|injection E as -> ->; by apply undisturbed_same|done].
  destruct l' as [|w' l']; injection E as -> ->; [by apply undisturbed_same|].
  apply (private_undisturbed (c_idx c) (c_i c) (c_buf c)).
  - pose proof (format_private c) as Hp. rewrite <- (fm_todo _ _ _ _ _ _ _ _ _ F), !Forall_app, Forall_cons in Hp. apply Hp.
  - intros ->. apply Hb. left.
Qed.
Lemma mark_undisturbed d cs m w l b blk : finv (d, cs, Marking m (w :: l)) -> b ∉ c_buf <$> cs -> undisturbed b blk d (w d).
Proof.
  intros [_ [(E & _)|(dz & ws & c & q1 & q3 & q4 & Ew & _ & _ & _ & Hc & <-)]] Hb; [done|].
  assert (b <> c_buf c) as Hne by (intros ->; apply Hb; by apply list_elem_of_fmap_2).
  assert (Forall (fun w => undisturbed b blk d (w d)) (intr_stores (c_buf c))) as H.
  { constructor; [|by repeat constructor]. apply (private_undisturbed [] 0 (c_buf c)); [apply pv_vbuf|done]. }
  rewrite <- Ew, Forall_app, Forall_cons in H. apply H.
Qed.
Lemma free_undisturbed d cs c n o d' b blk : finv (d, cs, Freeing c n) -> free_turn n [] d = Ok o [] d' -> undisturbed b blk d d'.
Proof.
  intros [Hl (dz & cs1 & cs2 & q1 & q3 & q4 & -> & Hv & Hq & Hat)] Ef. destruct (free_turns dz cs1 c cs2 q1 q3 q4 [] Hv) as (T0 & T1 & T2 & _).
  destruct Hat as [[-> ->]|[[-> ->]|[-> ->]]]; [rewrite T0 in Ef|rewrite T1 in Ef|rewrite T2 in Ef]; injection Ef as <- <-; by apply undisturbed_same.
Qed.
Lemma device_undisturbed d cs h d' b blk :
  finv (d, cs, h) -> dev d d' -> b ∉ c_buf <$> cs -> blk ∉ c_blk <$> cs -> undisturbed b blk d d'.
Proof.
  intros Hi Hd Hb Hk. destruct (device_inv d cs h d' Hi Hd) as [_ [[_ ->]|(c & Hc & Hf & ->)]]; [by apply undisturbed_same|].
  destruct (fetched_decodes d cs h _ Hi Hf) as (c' & Hc' & <- & Ed). apply serve_frame; [done|..]; intros ->; [apply Hb|apply Hk]; by apply list_elem_of_fmap_2.
Qed.
Lemma step_undisturbed d cs h d' cs' h' b blk :
  finv (d, cs, h) -> fstep dev (d, cs, h) (d', cs', h') -> b ∉ c_buf <$> cs -> blk ∉ c_blk <$> cs -> undisturbed b blk d d'.
Proof.
  intros Hi Hst Hb Hk.
  inversion Hst as [? ? b1 write i j k d1 ? c Hm Ea Et|? ? d1 d2 Ea Et|? ? c w l|? ? c Hbd|? ? status d1 Ea|? ? ? E|? ? d2 E|? ? m ? E|? ? m w l|? ? m
    |? ? c d1 Hc Ea Hbd|? ? c n n' ? E|? cs1 c cs2 n d2 E|? ? ? ? Hd]; subst; try (by apply undisturbed_same).
  - apply acquired in Ea as [_ ->]. destruct Hi as [_ (q1 & q3 & q4 & Hv)].
    destruct (alloc3_ok (taken cs) [] (set_lock 1 d) (vi_free _ _ _ _ _ Hv)) as [(? & ? & ? & _ & _ & _ & _ & _ & _ & _ & E)|(d2 & E & _)];
      rewrite Et in E; [|done]. injection E as _ _ _ ->. by apply undisturbed_same.
  - apply acquired in Ea as [_ ->]. destruct Hi as [_ (q1 & q3 & q4 & Hv)].
    destruct (alloc3_ok (taken cs') [] (set_lock 1 d) (vi_free _ _ _ _ _ Hv)) as [(? & ? & ? & _ & _ & _ & _ & _ & _ & _ & E)|(d3 & E & _ & Q & _)];
      rewrite Et in E; [done|]. injection E as ->. unfold core in Q. injection Q as _ _ _ _ _ _ _ E9 E10 _ _. by apply undisturbed_same.
  - by apply (store_undisturbed d cs' c w l).
  - apply acquired in Ea as [_ ->]. by apply undisturbed_same.
  - unfold intr_more, gets in E. injection E as _ <-. by apply undisturbed_same.
  - unfold intr_more, gets in E. injection E as _ <-. by apply undisturbed_same.
  - destruct Hi as [_ (q1 & x & q3 & q4 & Hv)]. destruct (inv_seen d cs' q1 _ q4 Hv x q3 eq_refl) as (c & _ & _ & _ & Hm). rewrite (proj2 (Hm [])) in E.
    injection E as _ <-. by apply undisturbed_same.
  - by apply (mark_undisturbed d cs' m w l).
  - apply acquired in Ea as [_ ->]. by apply undisturbed_same.
  - exact (free_undisturbed d cs' c n _ _ b blk Hi E).
  - exact (free_undisturbed d _ c n _ _ b blk Hi E).
  - by apply (device_undisturbed d cs' h').
Qed.

(** ** The routines are sequences of steps *)
(** A step that leaves the calls in progress as they are. *)
Definition same_calls (s s' : dstate) : Prop := fstep dev s s' /\ s'.1.2 = s.1.2.
Lemma same_calls_steps s s' : rtc same_calls s s' -> rtc (fstep dev) s s'.
Proof. apply rtc_subrel. by intros ? ? [? _]. Qed.
Lemma store_steps l : forall d cs c, rtc same_calls (d, cs, Storing c l) (run l d, cs, Storing c []).
Proof. induction l as [|w l IH]; intros d cs c; [done|]. apply rtc_l with (w d, cs, Storing c l); [split; [apply st_store|done]|apply IH]. Qed.
Lemma mark_steps l : forall d cs b, rtc same_calls (d, cs, Marking b l) (run l d, cs, Marking b []).
Proof. induction l as [|w l IH]; intros d cs b; [done|]. apply rtc_l with (w d, cs, Marking b l); [split; [apply st_mark|done]|apply IH]. Qed.
Lemma intr_loop_steps cs q1 q3 : forall d q4 fuel e, vinv_q d cs q1 q3 q4 -> (length q3 < fuel)%nat ->
  exists d' q4', loop_ fuel intr_turn tt e d = Ok tt e d' /\ vinv_q d' cs q1 [] q4' /\ rtc same_calls (d, cs, Testing) (d', cs, Testing).
Proof.
  induction q3 as [|x q3 IH]; intros d q4 fuel e Hv Hf; (destruct fuel as [|fuel]; [cbn in Hf; lia|]); cbn [loop_ bind].
  - exists d, q4. split; [|done]. unfold intr_turn. by rewrite (bind_Ok _ _ _ _ _ _ _ (inv_no_more d cs q1 [] q4 Hv e eq_refl)).
  - destruct (inv_seen d cs q1 (x :: q3) q4 Hv x q3 eq_refl) as (c & Hc & _ & Hv' & Hm). destruct (Hm e) as [Hm1 Hm2]. destruct (Hm []) as [Hm3 Hm4].
    assert (intr_turn tt e d = Ok (inr tt) e (run (intr_stores (c_buf c)) d)) as ->.
    { unfold intr_turn. rewrite (bind_Ok _ _ _ _ _ _ _ Hm1), (bind_Ok _ _ _ _ _ _ _ Hm2). by rewrite (bind_Ok _ _ _ _ _ _ _ (stores_ok (intr_stores (c_buf c)) e d)). }
    destruct (IH _ _ fuel e Hv') as (d' & q4' & E & H1 & H2); [cbn in Hf; lia|]. exists d', q4'. split_and!; [exact E|done|].
    eapply rtc_l; [split; [apply (st_more dev d cs d Hm3)|done]|]. eapply rtc_l; [split; [apply (st_entry dev d cs (c_buf c) d Hm4)|done]|].
    etrans; [apply mark_steps|]. eapply rtc_l; [split; [apply st_marked|done]|exact H2].
Qed.
Lemma lock_acquire d : vd_lock d = 0 -> forall e, vacquire e d = Ok tt e (set_lock 1 d).
Proof. intros Hl [|f e]; cbn; by rewrite decide_True. Qed.
Lemma intr_steps d cs status e : vinv d cs ->
  exists d', virtio_disk_intr status e d = Ok tt e d' /\ rtc same_calls (d, cs, Nobody) (d', cs, Nobody).
Proof.
  intros [Hl (q1 & q3 & q4 & Hv)]. unfold virtio_disk_intr. rewrite (bind_Ok _ _ _ _ _ _ _ (lock_acquire d Hl e)). cbn [bind modify].
  set (d1 := write_reg _ _ (set_lock 1 d)). assert (vinv_q d1 cs q1 q3 q4) as Hv1 by by apply inv_write_reg, inv_set_lock.
  change (vd_used_end d1) with (vd_used_end d). change (vd_used_idx d1) with (vd_used_idx d).
  rewrite (ring_seg_len _ _ _ _ (vi_used _ _ _ _ _ Hv)) by (pose proof (inv_heads_len _ _ _ _ _ Hv); lia).
  destruct (intr_loop_steps cs q1 q3 d1 q4 (S (length q3)) e Hv1 ltac:(lia)) as (d2 & q4' & -> & Hv2 & Hs).
  exists (set_lock 0 d2). split; [done|]. eapply rtc_l; [split; [apply (st_intr dev d cs status _ (lock_acquire d Hl []))|done]|].
  etrans; [exact Hs|]. apply rtc_once. split; [apply st_none; exact (inv_no_more _ _ _ _ _ Hv2 [] eq_refl)|done].
Qed.
Lemma start_steps d cs b write e i j k d1 : vinv d cs -> may_start d cs b -> alloc3_desc [] (set_lock 1 d) = Ok (Some [i; j; k]) [] d1 ->
  exists d2, submit b write i j k e d1 = Ok tt e d2 /\
    rtc (fstep dev) (d, cs, Nobody) (set_lock 0 d2, mkCall b write i j k (b_blockno (get_vbuf d b)) (goal_of d b write) :: cs, Nobody).
Proof.
  intros Hi Hm Ea. set (c := mkCall _ _ _ _ _ _ _). pose proof (fmt_start d cs b write i j k d1 Hi Hm Ea) as Hf. cbv zeta in Hf. fold c in Hf.
  exists (submitted b write i j k d1). split; [apply submit_ok|].
  eapply rtc_l; [exact (st_start dev d cs b write i j k _ d1 c Hm (lock_acquire d (proj1 Hi) []) Ea eq_refl)|].
  pose proof (same_calls_steps _ _ (store_steps (submit_stores b write (u32 (b_blockno (get_vbuf d1 b) * 2)) i j k) d1 (c :: cs) c)) as Hs. rewrite submit_stores_run in Hs.
  etrans; [exact Hs|]. apply rtc_once. apply st_sleep. pose proof (fsteps_inv _ _ Hs Hf) as Hf2.
  destruct Hf2 as [_ (cs0 & _ & [(l & _ & _ & _ & _ & _ & E & _)|(_ & q1 & q3 & q4 & Hv & Hn)])]; [by destruct l|].
  destruct (decide (b_disk (get_vbuf (submitted b write i j k d1) (c_buf c)) = 1)) as [E|E]; [done|]. by destruct (done_phase _ _ _ _ _ c Hv ltac:(left) E).
Qed.
Lemma finish_steps d cs1 c cs2 e : vinv d (cs1 ++ c :: cs2) -> b_disk (get_vbuf d (c_buf c)) <> 1 ->
  exists d', finish (c_i c) e (set_lock 1 d) = Ok tt e d' /\ rtc (fstep dev) (d, cs1 ++ c :: cs2, Nobody) (set_lock 0 d', cs1 ++ cs2, Nobody).
Proof.
  intros [Hl (q1 & q3 & q4 & Hv)] Hb. apply (inv_set_lock _ _ _ _ _ 1) in Hv. exists (freeing3 c (set_lock 1 d)).
  split; [exact (proj1 (finish_runs _ _ _ _ _ _ _ e Hv))|]. destruct (free_turns _ _ _ _ _ _ _ [] Hv) as (T0 & T1 & T2 & _).
  assert (c ∈ cs1 ++ c :: cs2) as Hc by (apply elem_of_app; right; left).
  eapply rtc_l; [exact (st_finish dev d _ c _ Hc (lock_acquire d Hl []) Hb)|]. eapply rtc_l; [apply st_next, T0|]. eapply rtc_l; [apply st_next, T1|].
  apply rtc_once. apply st_last, T2.
Qed.
End Steps.
