(* ===== verification/VirtioRw.v ===== *)
(** * virtio_disk_rw() transfers its block

    The routine in the monad, with an environment that at every wait lets the
    device, the interrupt handler and other processes take any steps of
    [fstep], except that nobody else uses the caller's buffer or its block. *)

From S2P Require Import Prelude Machine Kernel Virtio VirtioSpec VirtioRace.

Section Rw.
Context (dev : vdisk -> vdisk -> Prop) (Hdev : device_ok dev) (b : nat) (write : Z).

(** A step of somebody else. *)
Definition calls (s : dstate) : list call := s.1.2.
Definition other (s s' : dstate) : Prop :=
  fstep dev s s' /\ (forall c, c_buf c = b -> c ∈ calls s <-> c ∈ calls s') /\
  (forall c, c ∈ calls s' -> c ∈ calls s \/ c_blk c <> b_blockno (get_vbuf s.1.1 b)).
(** What may happen while the caller sleeps: it has let go of the lock, and when
    it runs again nobody holds it. *)
Definition polite (f : vdisk -> vdisk) : Prop := forall d cs, vinv d cs -> exists cs', rtc other (d, cs, Nobody) (f d, cs', Nobody).

(** Before the call, somebody else's steps change nothing that concerns it. *)
Definition idle (s : dstate) (x : buf) (goal : list Z) : Prop :=
  finv s /\ may_start s.1.1 (calls s) b /\ get_vbuf s.1.1 b = x /\ goal_of s.1.1 b write = goal.
Definition ready (d : vdisk) (cs : list call) (x : buf) (goal : list Z) : Prop := idle (d, cs, Nobody) x goal.
Lemma other_idle s s' x goal : other s s' -> idle s x goal -> idle s' x goal.
Proof.
  destruct s as [[d cs] h], s' as [[d' cs'] h']. intros (Hst & Hc & Hk) (Hi & (M1 & M2 & M3 & M4) & Hx & Hg). unfold calls in *. cbn [fst snd] in *.
  destruct (step_undisturbed dev Hdev d cs h d' cs' h' b (b_blockno (get_vbuf d b)) Hi Hst M3 M4) as (E1 & E2 & E3).
  split_and!; [by apply (fstep_inv dev Hdev (d, cs, h))| |cbn [fst]; by rewrite E1|].
  - unfold may_start, calls. cbn [fst snd]. rewrite E1, E3. split_and!; [done|lia|lia| |].
    + intros (c & E & Hin)%list_elem_of_fmap. apply M3. rewrite E. apply list_elem_of_fmap_2. by apply Hc.
    + intros (c & E & Hin)%list_elem_of_fmap. destruct (Hk c Hin) as [Hin'|Hne]; [|done]. apply M4. rewrite E. by apply list_elem_of_fmap_2.
  - rewrite <- Hg. unfold goal_of. cbn [fst]. by rewrite E1, E2.
Qed.
Lemma others_idle s s' x goal : rtc other s s' -> idle s x goal -> idle s' x goal.
Proof. induction 1 as [|s1 s2 s3 Ho _ IH]; [done|]. intros Hr. apply IH. by apply (other_idle s1). Qed.
(** During the call it stays a call. *)
Lemma others_call s s' c : rtc other s s' -> finv s -> c ∈ calls s -> c_buf c = b -> finv s' /\ c ∈ calls s'.
Proof.
  induction 1 as [|s1 s2 s3 (Hst & Hc & _) _ IH]; [done|]. intros Hi Hin Hb.
  apply IH; [by apply (fstep_inv dev Hdev s1)|by apply Hc|done].
Qed.

(** Sleeping: the lock is free meanwhile and held afterwards. *)
Lemma vsleep_ok e d :
  match e with
  | [] => vsleep e d = Wait WSwitch (set_lock 0 d)
  | f :: e' => vd_lock (f (set_lock 0 d)) = 0 -> vsleep e d = Ok tt e' (set_lock 1 (f (set_lock 0 d)))
  end.
Proof.
  destruct e as [|f e']; [done|]. intros Hl. unfold vsleep. cbn [bind vrelease modify]. unfold hand_over.
  destruct e'; cbn; by rewrite decide_True.
Qed.
Lemma set_lock_lock v w d : set_lock v (set_lock w d) = set_lock v d.
Proof. done. Qed.

(** The state is as good without the descriptors a failed allocation gave back. *)
Lemma ready_quiet d cs d1 x goal :
  ready d cs x goal -> quiet (taken cs) (set_lock 1 d) d1 -> freemap (vd_free d1) (taken cs) -> ready (set_lock 0 d1) cs x goal.
Proof.
  unfold ready, idle, calls. cbn [finv fst snd]. intros (Hi & Hm & Hx & Hg) (Q1 & Q2 & Q3 & Q4) Hf. destruct Hi as [Hl (q1 & q3 & q4 & Hv)].
  unfold core in Q1. cbn in Q1. injection Q1 as E1 E2 E3 E4 E5 E6 E7 E9 E10 E11 E12.
  assert (get_vbuf (set_lock 0 d1) b = get_vbuf d b) as Eb by (unfold get_vbuf; cbn; by rewrite E9).
  split_and!.
  - split; [done|]. exists q1, q3, q4. apply (inv_ext d _ _ _ _ Hv); [|done|done|done]. unfold core. cbn. congruence.
  - destruct Hm as (M1 & M2 & M3 & M4). unfold may_start, calls. cbn [fst snd]. rewrite Eb. cbn. by rewrite E9.
  - cbn [fst]. by rewrite Eb.
  - rewrite <- Hg. unfold goal_of, block_at, sector_at. cbn [fst]. rewrite Eb. cbn. by rewrite E10.
Qed.

Lemma alloc_loop e : forall d cs x goal,
  ready d cs x goal -> Forall polite e ->
  (exists i j k e' d' cs', loop_ (S (length e)) alloc_turn tt e (set_lock 1 d) =
     Ok [i; j; k] e' (set_free k 0 (set_free j 0 (set_free i 0 (set_lock 1 d')))) /\
     ((i < NUM)%nat /\ (j < NUM)%nat /\ (k < NUM)%nat /\ NoDup [i; j; k] /\ i ∉ taken cs' /\ j ∉ taken cs' /\ k ∉ taken cs') /\
     ready d' cs' x goal /\ Forall polite e') \/
  (exists d', loop_ (S (length e)) alloc_turn tt e (set_lock 1 d) = Wait WSwitch d').
Proof.
  induction e as [|f e IH]; intros d cs x goal Hr Hp; pose proof Hr as (Hi & _); pose proof Hi as [Hl (q1 & q3 & q4 & Hv)].
  - cbn [loop_ length bind]. unfold alloc_turn. cbn [bind].
    destruct (alloc3_ok (taken cs) [] (set_lock 1 d) (vi_free _ _ _ _ _ Hv)) as [(i & j & k & A1 & A2 & A3 & A4 & A5 & A6 & A7 & ->)|(d1 & -> & Hf & Hq)].
    + left. by exists i, j, k, [], d, cs.
    + right. cbn [bind]. rewrite (vsleep_ok []). by eexists.
  - cbn [length]. rewrite <- (Nat.add_1_l (S (length e))). cbn [Nat.add]. change (loop_ (S (S (length e))) alloc_turn tt) with
      (bind (alloc_turn tt) (fun o => match o with inl r => ret r | inr y => loop_ (S (length e)) alloc_turn y end)).
    cbn [bind]. unfold alloc_turn at 1 3. cbn [bind].
    destruct (alloc3_ok (taken cs) (f :: e) (set_lock 1 d) (vi_free _ _ _ _ _ Hv)) as [(i & j & k & A1 & A2 & A3 & A4 & A5 & A6 & A7 & ->)|(d1 & -> & Hf & Hq)].
    + left. by exists i, j, k, (f :: e), d, cs.
    + cbn [bind]. apply Forall_cons in Hp as [Hpf Hp]. pose proof (ready_quiet _ _ _ _ _ Hr Hq Hf) as Hr1.
      destruct (Hpf (set_lock 0 d1) cs (proj1 Hr1)) as [cs' Hs]. pose proof (others_idle _ _ _ _ Hs Hr1) as Hr2.
      rewrite (vsleep_ok (f :: e) d1) by apply Hr2. cbn [bind ret]. apply (IH _ cs' x goal Hr2 Hp).
Qed.

Lemma wait_loop e : forall d cs c,
  vinv d cs -> c ∈ cs -> c_buf c = b -> Forall polite e ->
  (exists e' d' cs', loop_ (S (length e)) (rw_wait_turn b) tt e (set_lock 1 d) = Ok tt e' (set_lock 1 d') /\
     vinv d' cs' /\ c ∈ cs' /\ b_disk (get_vbuf d' b) <> 1) \/
  (exists d', loop_ (S (length e)) (rw_wait_turn b) tt e (set_lock 1 d) = Wait WSwitch d').
Proof.
  induction e as [|f e IH]; intros d cs c Hi Hc Hb Hp.
  - cbn [loop_ length bind]. unfold rw_wait_turn. cbn [bind gets]. change (get_vbuf (set_lock 1 d) b) with (get_vbuf d b).
    case_decide as Hd; [right; cbn [bind]; rewrite (vsleep_ok []); by eexists|]. left. by exists [], d, cs.
  - cbn [length]. change (loop_ (S (S (length e))) (rw_wait_turn b) tt) with
      (bind (rw_wait_turn b tt) (fun o => match o with inl r => ret r | inr y => loop_ (S (length e)) (rw_wait_turn b) y end)).
    cbn [bind]. unfold rw_wait_turn at 1 3. cbn [bind gets]. change (get_vbuf (set_lock 1 d) b) with (get_vbuf d b).
    case_decide as Hd; [|left; by exists (f :: e), d, cs]. cbn [bind]. apply Forall_cons in Hp as [Hpf Hp].
    assert (set_lock 0 (set_lock 1 d) = d) as El. { destruct Hi as [Hl _]. rewrite set_lock_lock. destruct d. cbn in Hl. by subst. }
    destruct (Hpf d cs Hi) as [cs' Hs]. destruct (others_call _ _ c Hs Hi Hc Hb) as [Hi' Hc']. unfold calls in Hc'. cbn [finv fst snd] in *.
    rewrite (vsleep_ok (f :: e)) by (rewrite El; apply Hi'). rewrite El. cbn [bind ret]. by apply (IH _ cs').
Qed.

(** The whole routine. *)
Lemma rw_transfers e d cs :
  vinv d cs -> may_start d cs b -> Forall polite e ->
  let blk := b_blockno (get_vbuf d b) in let goal := goal_of d b write in
  (exists e' d' cs', virtio_disk_rw b write e d = Ok tt e' d' /\ vinv d' cs' /\ b ∉ c_buf <$> cs' /\
     b_data (get_vbuf d' b) = goal /\ block_at d' (2 * blk) = goal /\ b_disk (get_vbuf d' b) = 0) \/
  (exists d', virtio_disk_rw b write e d = Wait WSwitch d').
Proof.
  intros Hi Hm Hp. cbn zeta. set (blk := b_blockno (get_vbuf d b)). set (goal := goal_of d b write).
  assert (vacquire e d = Ok tt e (set_lock 1 d)) as Ea by (destruct Hi as [Hl _]; destruct e; cbn; by rewrite decide_True).
  unfold virtio_disk_rw. rewrite (bind_Ok _ _ _ _ _ _ _ Ea).
  destruct (alloc_loop e d cs (get_vbuf d b) goal) as [(i & j & k & e1 & d1 & cs1 & E & (A1 & A2 & A3 & A4 & A5 & A6 & A7) & (Hi1 & Hm1 & Hx1 & Hg1) & Hp1)|(d' & E)];
    [done|done| |right; exists d'; cbn [bind]; by rewrite E].
  cbn [bind]. rewrite E. cbn [bind]. rewrite submit_ok. cbn [bind].
  pose proof Hi1 as [Hl1 (q1 & q3 & q4 & Hv1)]. set (c := mkCall b write i j k (b_blockno (get_vbuf d1 b)) (goal_of d1 b write)).
  set (d2 := submitted b write i j k (set_free k 0 (set_free j 0 (set_free i 0 d1)))).
  change (submitted b write i j k _) with (set_lock 1 d2).
  assert (vinv d2 (c :: cs1)) as Hi2. { split; [done|]. exists (q1 ++ [i]), q3, q4. by apply inv_start. }
  destruct (wait_loop e1 d2 (c :: cs1) c Hi2) as [(e3 & d3 & cs3 & E3 & Hi3 & Hc3 & Hd3)|(d' & E3)]; [left|done|done| |right; exists d'; by rewrite E3].
  rewrite E3. pose proof Hi3 as [Hl3 (p1 & p3 & p4 & Hv3)].
  destruct (done_phase _ _ _ _ _ c Hv3 Hc3 Hd3) as (_ & Hd0 & S1 & S2 & S3). cbn [c_buf c_blk c_goal c] in Hd0, S2, S3.
  apply list_elem_of_split in Hc3 as (l1 & l2 & Ecs). rewrite Ecs in Hv3.
  destruct (finish_inv _ _ _ _ _ _ _ e3 (inv_set_lock _ _ _ _ _ 1 Hv3) Hd3) as (d4 & p4' & E4 & Hv4 & Hl4 & Hb4 & Hs4).
  change (c_i c) with i in E4. rewrite E4. left. exists e3, (set_lock 0 d4), (l1 ++ l2).
  assert (get_vbuf (set_lock 0 d4) b = get_vbuf d3 b) as Eb by (unfold get_vbuf; cbn; by rewrite Hb4).
  split_and!; [done|split; [done|exists p1, p3, p4'; by apply inv_set_lock]| |by rewrite Eb, S2| |by rewrite Eb].
  - pose proof (vi_bufs _ _ _ _ _ Hv3) as Hnd. rewrite fmap_app, fmap_cons, <- Permutation_middle in Hnd. apply NoDup_cons in Hnd as [Hnd _].
    by rewrite fmap_app.
  - unfold blk. rewrite <- Hx1. unfold block_at, sector_at in *. cbn [set_lock vd_sectors]. rewrite Hs4. rewrite <- Hg1. exact S3.
Qed.
End Rw.
