(* ===== verification/PropsDisk.v ===== *)
(** * Properties: the disk driver *)

From S2P Require Import Prelude Machine Kernel Virtio VirtioSpec VirtioRace VirtioRw.

(** C5: the disk driver is safe in every interleaving of its stores with a
    device that takes no lock and completes requests in any order, with any
    number of processes in virtio_disk_rw() and the interrupt handler.  In every
    reachable state, between any two stores of whoever holds vdisk_lock: the
    descriptor chains of the calls in progress are disjoint; each chain the
    device has fetched belongs to a call and describes exactly its request, with
    every descriptor written; the lock is held exactly by the holder, who can
    always go on, without panic.  When nobody holds it, exactly the descriptors
    of no call are free; the handler runs without panic; a new request can be
    submitted as soon as three descriptors are free; and a call whose buffer the
    handler has given back finds the data of its request both in the buffer and
    on the disk and frees its chain without panic; each of these runs is one of
    the sequences of steps considered. *)
Theorem disk_driver_safe dev reg pages z d0 d cs h :
  device_ok dev -> identified reg -> at_boot z -> virtio_disk_init reg pages [] z = Ok tt [] d0 ->
  rtc (fstep dev) (d0, [], Nobody) (d, cs, h) ->
  NoDup (taken cs) /\
  (forall id, id ∈ vd_fetched d ->
     exists c, c ∈ cs /\ c_i c = id /\ decode d id = Some (bool_decide (c_write c <> 0), 2 * c_blk c, c_buf c, c_i c)) /\
  vd_lock d = match h with Nobody => 0 | _ => 1 end /\
  (h <> Nobody -> exists s', fstep (fun _ _ => False) (d, cs, h) s') /\
  (h = Nobody ->
     freemap (vd_free d) (taken cs) /\
     (forall status e, exists d', virtio_disk_intr status e d = Ok tt e d' /\ rtc (fstep dev) (d, cs, Nobody) (d', cs, Nobody)) /\
     (forall b write i j k d1 e, may_start d cs b -> alloc3_desc [] (set_lock 1 d) = Ok (Some [i; j; k]) [] d1 ->
        exists d2, submit b write i j k e d1 = Ok tt e d2 /\
          rtc (fstep dev) (d, cs, Nobody) (set_lock 0 d2, mkCall b write i j k (b_blockno (get_vbuf d b)) (goal_of d b write) :: cs, Nobody)) /\
     (forall cs1 c cs2 e, cs = cs1 ++ c :: cs2 -> b_disk (get_vbuf d (c_buf c)) <> 1 ->
        b_data (get_vbuf d (c_buf c)) = c_goal c /\ block_at d (2 * c_blk c) = c_goal c /\
        exists d', finish (c_i c) e (set_lock 1 d) = Ok tt e d' /\ rtc (fstep dev) (d, cs, Nobody) (set_lock 0 d', cs1 ++ cs2, Nobody))).
Proof.
  intros Hdev Hid Hz E Hr. destruct (init_inv reg pages z Hid Hz []) as (d0' & E' & Hi & _). rewrite E in E'. injection E' as <-.
  apply (fsteps_inv dev Hdev) in Hr; [|exact Hi].
  split_and!; [exact (chains_apart d cs h Hr)|intros id; exact (fetched_decodes d cs h id Hr)|exact (lock_held d cs h Hr)|exact (holder_moves d cs h Hr)|].
  intros ->. pose proof Hr as [_ (q1 & q3 & q4 & Hv)]. split_and!; [apply Hv|..].
  - intros status e. destruct (intr_steps dev d cs status e Hr) as (d' & E1 & Hs). exists d'. split; [done|]. by apply (same_calls_steps dev).
  - intros b write i j k d1 e. by apply (start_steps dev Hdev).
  - intros cs1 c cs2 e -> Hb. destruct (done_phase _ _ _ _ _ c Hv) as (_ & _ & _ & S2 & S3); [apply elem_of_app; right; left|done|].
    split_and!; [done|done|]. by apply (finish_steps dev).
Qed.

(** C6: virtio_disk_rw() transfers its block.  Whatever the device, the handler
    and other processes do at its waits, as long as nobody else uses its buffer
    or block, it never panics and never runs out of turns: it returns with the
    device done with the buffer and the buffer and the disk block both holding
    the requested data (the buffer's for a write, the disk's for a read), or it
    is still asleep when the environment ends. *)
Theorem virtio_disk_rw_transfers dev b write e d cs :
  device_ok dev -> vinv d cs -> may_start d cs b -> Forall (polite dev b) e ->
  let blk := b_blockno (get_vbuf d b) in let goal := goal_of d b write in
  (exists e' d' cs', virtio_disk_rw b write e d = Ok tt e' d' /\ vinv d' cs' /\ b ∉ c_buf <$> cs' /\
     b_data (get_vbuf d' b) = goal /\ block_at d' (2 * blk) = goal /\ b_disk (get_vbuf d' b) = 0) \/
  (exists d', virtio_disk_rw b write e d = Wait WSwitch d').
Proof. intros Hdev. by apply rw_transfers. Qed.

(** ** A device that serves requests one at a time *)
Definition demo_dev (d d' : vdisk) : Prop :=
  (vd_dev_idx d <> vd_avail_idx d /\ d' = fetch d) \/ (exists id, id ∈ vd_fetched d /\ d' = serve id d).
Lemma demo_dev_ok : device_ok demo_dev.
Proof. by intros d d' H _. Qed.

Definition demo_reg (r : Z) : Z :=
  if decide (r = 0) then 1953655158 else if decide (r = 4) then 1 else if decide (r = 8) then 2
  else if decide (r = 12) then 1431127377 else if decide (r = 52) then 1024 else 0.
Definition demo_vbuf (blk : Z) (data : list Z) : buf := mkBuf 0 0 1 blk (mkSleeplock 0 "buffer" 0) 1 0 0 data.
Definition demo_boot : vdisk :=
  mkVdisk [] [] 0 [] 0 (replicate NUM 0) 0 (replicate NUM (mkInfo None 0)) (replicate NUM (mkReq 0 0 0)) 0 [] []
    [demo_vbuf 2 [1; 2; 3]; demo_vbuf 5 []] {[ 10 := [7]; 11 := [8] ]} 0 [].
Definition demo_disk : vdisk := match virtio_disk_init demo_reg 0 [] demo_boot with Ok _ _ d => d | _ => demo_boot end.
Lemma demo_identified : identified demo_reg.
Proof. by constructor. Qed.
Lemma demo_at_boot : at_boot demo_boot.
Proof. by constructor. Qed.
Lemma demo_init : virtio_disk_init demo_reg 0 [] demo_boot = Ok tt [] demo_disk.
Proof. by vm_compute. Qed.
Lemma demo_vinv : vinv demo_disk [].
Proof.
  destruct (init_inv demo_reg 0 demo_boot demo_identified demo_at_boot []) as (d & E & Hi & _).
  rewrite demo_init in E. by injection E as <-.
Qed.

(** The device fetches and serves a request, then the interrupt is handled. *)
Definition demo_fetch (d : vdisk) : vdisk := if decide (vd_dev_idx d = vd_avail_idx d) then d else fetch d.
Definition demo_serve (d : vdisk) : vdisk := match vd_fetched d with id :: _ => serve id d | [] => d end.
Definition demo_intr (d : vdisk) : vdisk := match virtio_disk_intr 1 [] d with Ok _ _ d' => d' | _ => d end.
Definition demo_turn (d : vdisk) : vdisk := demo_intr (demo_serve (demo_fetch d)).

Lemma demo_turn_steps d cs : vinv d cs -> rtc (same_calls demo_dev) (d, cs, Nobody) (demo_turn d, cs, Nobody).
Proof.
  intros Hi. assert (forall d1 d2, vinv d1 cs -> (d1 = d2 \/ demo_dev d1 d2) ->
    rtc (same_calls demo_dev) (d1, cs, Nobody) (d2, cs, Nobody) /\ vinv d2 cs) as Hone.
  { intros d1 d2 H1 [->|Hst]; [done|]. apply (st_device demo_dev d1 cs Nobody) in Hst.
    split; [|exact (fstep_inv _ demo_dev_ok _ _ Hst H1)]. by apply rtc_once. }
  assert (d = demo_fetch d \/ demo_dev d (demo_fetch d)) as F.
  { unfold demo_fetch. case_decide; [by left|]. right. by left. }
  destruct (Hone _ _ Hi F) as [R1 I1]. set (d1 := demo_fetch d) in *.
  assert (d1 = demo_serve d1 \/ demo_dev d1 (demo_serve d1)) as G.
  { unfold demo_serve. destruct (vd_fetched d1) as [|id l] eqn:El; [by left|]. right. right.
    exists id. rewrite El. split; [left|done]. }
  destruct (Hone _ _ I1 G) as [R2 I2]. set (d2 := demo_serve d1) in *.
  destruct (intr_steps demo_dev d2 cs 1 [] I2) as (d3 & E & R3).
  unfold demo_turn, demo_intr. fold d1 d2. rewrite E. etrans; [exact R1|]. etrans; [exact R2|exact R3].
Qed.
Lemma demo_polite b : polite demo_dev b demo_turn.
Proof. intros d cs Hi. exists cs. apply (rtc_subrel (same_calls demo_dev)); [|by apply demo_turn_steps].
  intros s s' [Hst Ec]. unfold other, calls. rewrite Ec. split_and!; [done|done|by left].
Qed.
Lemma demo_start b : (b < 2)%nat -> may_start demo_disk [] b.
Proof.
  intros Hb. assert (b = 0 \/ b = 1)%nat as [-> | ->] by lia;
    (split_and!; [apply (bool_decide_unpack _); by vm_compute|by vm_compute|by vm_compute| |]; by intros ?%elem_of_nil).
Qed.

Lemma virtio_disk_rw_transfers_witness :
  exists d', virtio_disk_rw 1 0 [demo_turn] demo_disk = Ok tt [] d' /\ b_data (get_vbuf d' 1) = [7; 8].
Proof.
  destruct (virtio_disk_rw_transfers demo_dev 1 0 [demo_turn] demo_disk [] demo_dev_ok demo_vinv) as [(e' & d' & cs' & E & _ & _ & Hd & _)|(d' & E)].
  - apply demo_start. lia.
  - constructor; [apply demo_polite|constructor].
  - exists d'. split; [|exact Hd]. vm_compute in E. injection E as <- <-. by vm_compute.
  - vm_compute in E. discriminate E.
Defined.

(** A write of buffer 0, up to the interrupt. *)
Definition demo_taken : vdisk := set_free 2 0 (set_free 1 0 (set_free 0 0 (set_lock 1 demo_disk))).
Definition demo_call : call := mkCall 0 1 0 1 2 (b_blockno (get_vbuf demo_disk 0)) (goal_of demo_disk 0 1).
Definition demo_sent : vdisk := set_lock 0 (submitted 0 1 0 1 2 demo_taken).
Lemma demo_sent_steps : rtc (fstep demo_dev) (demo_disk, [], Nobody) (demo_sent, [demo_call], Nobody).
Proof.
  destruct (start_steps demo_dev demo_dev_ok demo_disk [] 0 1 [] 0 1 2 demo_taken demo_vinv (demo_start 0 ltac:(lia))) as (d2 & E & Hs);
    [by vm_compute|]. rewrite submit_ok in E. injection E as <-. exact Hs.
Qed.
Lemma demo_turned_steps : rtc (fstep demo_dev) (demo_disk, [], Nobody) (demo_turn demo_sent, [demo_call], Nobody).
Proof.
  etrans; [exact demo_sent_steps|]. apply (same_calls_steps demo_dev), demo_turn_steps.
  exact (fsteps_inv demo_dev demo_dev_ok _ _ demo_sent_steps demo_vinv).
Qed.
Lemma disk_driver_safe_witness :
  block_at (demo_turn demo_sent) 4 = [1; 2; 3] /\ exists d', finish 0 [] (set_lock 1 (demo_turn demo_sent)) = Ok tt [] d'.
Proof.
  destruct (disk_driver_safe demo_dev demo_reg 0 demo_boot demo_disk _ _ _ demo_dev_ok demo_identified demo_at_boot demo_init demo_turned_steps)
    as (_ & _ & _ & _ & H). destruct (H eq_refl) as (_ & _ & _ & H').
  destruct (H' [] demo_call [] [] eq_refl) as (_ & Hb & d' & E & _); [by vm_compute|].
  split; [|exists d'; exact E]. assert (c_blk demo_call = 2 /\ c_goal demo_call = [1; 2; 3]) as [E2 E3] by (split; by vm_compute). rewrite E2, E3 in Hb. exact Hb.
Defined.
