(* ===== verification/Ugrep.v ===== *)
(** * user/grep.c

    The pattern matcher on C strings (lists of the bytes before the NUL) and the
    line loop of grep() over its 1024-byte buffer.  [matchhere] recurses on the
    pattern and [matchstar] on the text, so both are structural.  A file
    descriptor is the list of the chunks that successive reads find available;
    a read takes at most the number of bytes it asks for. *)

From S2P Require Import Prelude.

Definition CARET : Z := 94.
Definition DOLLAR : Z := 36.
Definition DOT : Z := 46.
Definition STAR : Z := 42.
Definition NL : Z := 10.

(** matchstar(c, re, text); [here] is matchhere(re, -). *)
Fixpoint matchstar (here : list Z -> bool) (c : Z) (text : list Z) : bool :=
  here text ||
  match text with
  | [] => false
  | t :: text' => if decide (t = c \/ c = DOT) then matchstar here c text' else false
  end.

Fixpoint matchhere (re text : list Z) {struct re} : bool :=
  match re with
  | [] => true
  | c :: re1 =>
      match re1 with
      | s :: re2 =>
          if decide (s = STAR) then matchstar (matchhere re2) c text
          else match text with
               | t :: text' => if decide (c = DOT \/ c = t) then matchhere re1 text' else false
               | [] => false
               end
      | [] =>
          if decide (c = DOLLAR) then bool_decide (text = [])
          else match text with
               | t :: text' => if decide (c = DOT \/ c = t) then matchhere re1 text' else false
               | [] => false
               end
      end
  end.

(** The do-while of match(): the empty suffix is tried too. *)
Fixpoint match_from (re text : list Z) : bool :=
  matchhere re text || match text with [] => false | _ :: text' => match_from re text' end.

Definition re_match (re text : list Z) : bool :=
  match re with
  | c :: re1 => if decide (c = CARET) then matchhere re1 text else match_from re text
  | [] => match_from re text
  end.

(** strchr(s, c) as an index: the first [c] before a NUL. *)
Fixpoint strchr (s : list Z) (c : Z) : option nat :=
  match s with
  | [] => None
  | x :: s' =>
      if decide (x = 0) then None
      else if decide (x = c) then Some O
      else S <$> strchr s' c
  end.

(** The inner loop: what is written to descriptor 1, and the bytes from [p] on
    that are left. *)
Fixpoint grep_lines (fuel : nat) (pattern p : list Z) : list Z * list Z :=
  match fuel with
  | O => ([], p)
  | S fuel' =>
      match strchr p NL with
      | Some q =>
          let '(out, rest) := grep_lines fuel' pattern (drop (S q) p) in
          ((if re_match pattern (take q p) then take (S q) p else []) ++ out, rest)
      | None => ([], p)
      end
  end.

Definition BUFSZ : nat := 1024.

(** read(fd, _, n): the bytes, and what the descriptor will deliver next. *)
Definition read_fd (chunks : list (list Z)) (n : nat) : list Z * list (list Z) :=
  match chunks with
  | [] => ([], [])
  | c :: cs => if decide (length c <= n)%nat then (c, cs) else (take n c, drop n c :: cs)
  end.

(** grep(): [buf] holds the [m] bytes not yet printed or dropped. *)
Fixpoint grep_loop (fuel : nat) (pattern : list Z) (chunks : list (list Z)) (buf out : list Z) : option (list Z) :=
  match fuel with
  | O => None
  | S fuel' =>
      let '(got, chunks') := read_fd chunks (BUFSZ - length buf - 1) in
      if decide (length got = 0%nat) then Some out else
      let buf := buf ++ got in
      let '(o, rest) := grep_lines (length buf) pattern buf in
      grep_loop fuel' pattern chunks' rest (out ++ o)
  end.
Definition grep (fuel : nat) (pattern : list Z) (chunks : list (list Z)) : option (list Z) :=
  grep_loop fuel pattern chunks [] [].

(** ** What a pattern means *)

(** A pattern is a sequence of single characters and starred characters, with
    an optional anchor at either end. *)
Inductive atom := One (c : Z) | Many (c : Z).
Record pattern := mkPattern { bol : bool; atoms : list atom; eol : bool }.

Fixpoint parse_here (re : list Z) : list atom * bool :=
  match re with
  | [] => ([], false)
  | c :: re1 =>
      match re1 with
      | s :: re2 =>
          if decide (s = STAR) then let '(l, e) := parse_here re2 in (Many c :: l, e)
          else let '(l, e) := parse_here re1 in (One c :: l, e)
      | [] => if decide (c = DOLLAR) then ([], true) else ([One c], false)
      end
  end.
Definition parse_pattern (re : list Z) : pattern :=
  let (b, body) := match re with
                   | c :: re1 => if decide (c = CARET) then (true, re1) else (false, re)
                   | [] => (false, re)
                   end in
  mkPattern b (parse_here body).1 (parse_here body).2.

(** A character of the text that [c] stands for. *)
Definition stands (c x : Z) : Prop := c = DOT \/ c = x.
Definition atom_lang (a : atom) (s : list Z) : Prop :=
  match a with
  | One c => exists x, s = [x] /\ stands c x
  | Many c => Forall (stands c) s
  end.
Definition atoms_lang (l : list atom) (s : list Z) : Prop :=
  exists ss, s = concat ss /\ Forall2 atom_lang l ss.

(** Some part of the text is in the language of the pattern, at the ends of the
    text where the pattern is anchored. *)
Definition pattern_matches (p : pattern) (text : list Z) : Prop :=
  exists pre mid post, text = pre ++ mid ++ post /\ atoms_lang (atoms p) mid /\
    (bol p = true -> pre = []) /\ (eol p = true -> post = []).

Lemma atoms_lang_nil s : atoms_lang [] s <-> s = [].
Proof.
  split.
  - intros (ss & -> & H). by apply Forall2_nil_inv_l in H as ->.
  - intros ->. by exists [].
Qed.
Lemma atoms_lang_cons a l s :
  atoms_lang (a :: l) s <-> exists s1 s2, s = s1 ++ s2 /\ atom_lang a s1 /\ atoms_lang l s2.
Proof.
  split.
  - intros (ss & -> & H). apply Forall2_cons_inv_l in H as (s1 & ss' & Ha & Hl & ->).
    exists s1, (concat ss'). split_and!; [done..|]. by exists ss'.
  - intros (s1 & s2 & -> & Ha & ss & -> & Hl). exists (s1 :: ss). split; [done|]. by constructor.
Qed.

(** The pattern matches at the beginning of the text. *)
Definition here_spec (re text : list Z) : Prop :=
  exists mid post, text = mid ++ post /\ atoms_lang (parse_here re).1 mid /\
    ((parse_here re).2 = true -> post = []).

Lemma matchstar_spec here c text :
  matchstar here c text = true <->
  exists s1 s2, text = s1 ++ s2 /\ Forall (stands c) s1 /\ here s2 = true.
Proof.
  induction text as [|t text IH]; cbn; rewrite orb_true_iff.
  - split.
    + intros [H|H]; [|done]. by exists [], [].
    + intros (s1 & s2 & E & _ & H). symmetry in E. apply app_eq_nil in E as [-> ->]. by left.
  - split.
    + intros [H|H]; [by exists [], (t :: text)|]. case_decide as E; [|done].
      apply IH in H as (s1 & s2 & -> & Hs & H). exists (t :: s1), s2. split_and!; [done| |done].
      constructor; [|done]. unfold stands. naive_solver.
    + intros (s1 & s2 & E & Hs & H). destruct s1 as [|x s1]; [left; cbn in E; by subst|right].
      injection E as <- ->. apply Forall_cons in Hs as [Hx Hs].
      rewrite decide_True by (unfold stands in Hx; naive_solver). apply IH. eauto.
Qed.

(** One character and then the rest of the pattern. *)
Lemma here_one c (p : list atom * bool) (rest : list Z -> bool) text :
  (forall t, rest t = true <-> exists mid post, t = mid ++ post /\ atoms_lang p.1 mid /\ (p.2 = true -> post = [])) ->
  match text with
  | t :: text' => if decide (c = DOT \/ c = t) then rest text' else false
  | [] => false
  end = true <->
  exists mid post, text = mid ++ post /\ atoms_lang (One c :: p.1) mid /\ (p.2 = true -> post = []).
Proof.
  intros Hrest. split.
  - destruct text as [|t text]; [done|]. case_decide as E; [|done].
    intros (mid & post & -> & Hm & Hp)%Hrest. exists (t :: mid), post. split_and!; [done| |done].
    apply atoms_lang_cons. exists [t], mid. split_and!; [done| |done]. by exists t.
  - intros (mid & post & -> & Hm & Hp). apply atoms_lang_cons in Hm as (s1 & s2 & -> & (x & -> & Hx) & Hs2).
    cbn. rewrite decide_True by done. apply Hrest. eauto.
Qed.

Lemma matchhere_spec re : forall text, matchhere re text = true <-> here_spec re text.
Proof.
  induction re as [re IH] using (induction_ltof1 _ (@length Z)). unfold ltof in IH. intros text.
  unfold here_spec. destruct re as [|c [|s re2]]; cbn [matchhere parse_here].
  - split; [|done]. intros _. exists [], text. split_and!; [done|by apply atoms_lang_nil|done].
  - destruct (decide (c = DOLLAR)) as [->|Hc]; cbn [fst snd].
    + rewrite bool_decide_eq_true. split.
      * intros ->. exists [], []. split_and!; [done|by apply atoms_lang_nil|done].
      * intros (mid & post & -> & ->%atoms_lang_nil & Hp). by rewrite Hp.
    + apply (here_one c ([], false) (fun _ => true)). intros t. split; [|done]. intros _.
      exists [], t. split_and!; [done|by apply atoms_lang_nil|done].
  - destruct (decide (s = STAR)) as [->|Hs].
    + rewrite matchstar_spec. destruct (parse_here re2) as [l e] eqn:Ep. cbn [fst snd].
      pose proof (IH re2 ltac:(cbn; lia)) as IH2. unfold here_spec in IH2. rewrite Ep in IH2. cbn [fst snd] in IH2. split.
      * intros (s1 & s2 & -> & Hs1 & H2). apply IH2 in H2 as (mid & post & -> & Hm & Hp).
        exists (s1 ++ mid), post. split_and!; [by rewrite app_assoc| |done]. apply atoms_lang_cons. eauto.
      * intros (mid & post & -> & Hm & Hp). apply atoms_lang_cons in Hm as (s1 & s2 & -> & Hs1 & Hs2).
        exists s1, (s2 ++ post). split_and!; [by rewrite app_assoc|done|]. apply IH2. eauto.
    + fold (matchhere (s :: re2)). destruct (parse_here (s :: re2)) as [l e] eqn:Ep. cbn [parse_here] in Ep.
      pose proof (IH (s :: re2) ltac:(cbn; lia)) as IH2. unfold here_spec in IH2. cbn [parse_here] in IH2.
      rewrite Ep in *. cbn [fst snd] in *. exact (here_one c (l, e) (matchhere (s :: re2)) text IH2).
Qed.

Lemma match_from_spec re text :
  match_from re text = true <-> exists pre rest, text = pre ++ rest /\ matchhere re rest = true.
Proof.
  induction text as [|t text IH]; cbn; rewrite orb_true_iff.
  - split.
    + intros [H|H]; [|done]. by exists [], [].
    + intros (pre & rest & E & H). symmetry in E. apply app_eq_nil in E as [-> ->]. by left.
  - split.
    + intros [H|(pre & rest & -> & H)%IH]; [by exists [], (t :: text)|]. by exists (t :: pre), rest.
    + intros (pre & rest & E & H). destruct pre as [|x pre]; [left; cbn in E; by subst|right].
      injection E as <- ->. apply IH. eauto.
Qed.

(** Searching from every position. *)
Lemma match_from_pattern re text :
  match_from re text = true <->
  pattern_matches (mkPattern false (parse_here re).1 (parse_here re).2) text.
Proof.
  rewrite match_from_spec. split.
  - intros (pre & rest & -> & (mid & post & -> & Hm & Hp)%matchhere_spec). by exists pre, mid, post.
  - intros (pre & mid & post & -> & Hm & _ & Hp). exists pre, (mid ++ post). split; [done|].
    apply matchhere_spec. by exists mid, post.
Qed.

Lemma re_match_spec re text : re_match re text = true <-> pattern_matches (parse_pattern re) text.
Proof.
  destruct re as [|c re]; cbn [re_match]; [apply (match_from_pattern [])|].
  unfold parse_pattern. destruct (decide (c = CARET)); [|apply (match_from_pattern (c :: re))].
  rewrite matchhere_spec. split.
  - intros (mid & post & -> & Hm & Hp). by exists [], mid, post.
  - intros (pre & mid & post & -> & Hm & Hb & Hp). cbn in Hb. rewrite (Hb eq_refl). by exists mid, post.
Qed.

(** ** The lines of the input *)

(** The newline-terminated lines of [s], the first of which begins with [cur],
    and the bytes after the last newline. *)
Fixpoint split_lines (cur s : list Z) : list (list Z) * list Z :=
  match s with
  | [] => ([], cur)
  | x :: s' =>
      if decide (x = NL) then let '(ls, r) := split_lines [] s' in (cur :: ls, r)
      else split_lines (cur ++ [x]) s'
  end.
Definition matching (pattern : list Z) (ls : list (list Z)) : list Z :=
  concat (map (fun l => if re_match pattern l then l ++ [NL] else []) ls).

Lemma split_lines_app cur s1 s2 :
  split_lines cur (s1 ++ s2) =
  ((split_lines cur s1).1 ++ (split_lines (split_lines cur s1).2 s2).1,
   (split_lines (split_lines cur s1).2 s2).2).
Proof.
  revert cur. induction s1 as [|x s1 IH]; intros cur; cbn; [by destruct (split_lines cur s2)|].
  case_decide; [|apply IH]. rewrite IH. by destruct (split_lines [] s1) as [ls r].
Qed.

Lemma matching_app pattern l1 l2 : matching pattern (l1 ++ l2) = matching pattern l1 ++ matching pattern l2.
Proof. unfold matching. by rewrite map_app, concat_app. Qed.

Lemma strchr_Some s c i :
  strchr s c = Some i -> exists l r, s = l ++ c :: r /\ length l = i /\ c ∉ l.
Proof.
  revert i. induction s as [|x s IH]; intros i; cbn; [done|]. case_decide; [done|]. case_decide as E.
  - intros [= <-]. subst. exists [], s. split_and!; [done..|]. by intros ?%elem_of_nil.
  - intros (j & Hj & ->)%fmap_Some. destruct (IH j Hj) as (l & r & -> & <- & Hn).
    exists (x :: l), r. split_and!; [done..|]. by apply not_elem_of_cons.
Qed.
Lemma strchr_None s c : 0 ∉ s -> strchr s c = None -> c ∉ s.
Proof.
  induction s as [|x s IH]; cbn; [by intros _ _ ?%elem_of_nil|]. intros [H0 Hn]%not_elem_of_cons.
  rewrite decide_False by done. case_decide; [done|]. intros Hs%fmap_None. apply not_elem_of_cons.
  split; [done|]. by apply IH.
Qed.

Lemma split_lines_none cur s : NL ∉ s -> split_lines cur s = ([], cur ++ s).
Proof.
  revert cur. induction s as [|x s IH]; intros cur; cbn; [by rewrite app_nil_r|].
  intros [Hx Hs]%not_elem_of_cons. rewrite decide_False by done. rewrite IH by done. by rewrite <- app_assoc.
Qed.

Lemma split_lines_line l r :
  NL ∉ l -> split_lines [] (l ++ NL :: r) = (l :: (split_lines [] r).1, (split_lines [] r).2).
Proof.
  intros Hl. rewrite split_lines_app, split_lines_none by done. cbn. by destruct (split_lines [] r).
Qed.

(** The bytes after the last newline. *)
Lemma split_lines_rest cur s : NL ∉ cur -> NL ∉ (split_lines cur s).2.
Proof.
  revert cur. induction s as [|x s IH]; intros cur Hc; cbn; [done|]. case_decide as E.
  - pose proof (IH [] ltac:(by intros ?%elem_of_nil)) as Hr. by destruct (split_lines [] s).
  - apply IH. apply not_elem_of_app. split; [done|]. intros ?%list_elem_of_singleton. congruence.
Qed.
Lemma split_lines_rest_length cur s : (length (split_lines cur s).2 <= length cur + length s)%nat.
Proof.
  revert cur. induction s as [|x s IH]; intros cur; cbn; [lia|]. case_decide.
  - pose proof (IH []) as Hr. destruct (split_lines [] s). cbn in *. lia.
  - pose proof (IH (cur ++ [x])) as Hr. rewrite length_app in Hr. cbn in Hr. lia.
Qed.
Lemma split_lines_sub cur s x : x ∈ (split_lines cur s).2 -> x ∈ cur \/ x ∈ s.
Proof.
  revert cur. induction s as [|y s IH]; intros cur; cbn; [by left|]. case_decide.
  - pose proof (IH []) as Hr. destruct (split_lines [] s). intros [?%elem_of_nil|?]%Hr; [done|]. right. by right.
  - intros [Hin|Hin]%IH; [|right; by right]. apply elem_of_app in Hin as [?| ->%list_elem_of_singleton]; [by left|right; left].
Qed.

Lemma grep_lines_spec fuel pattern p :
  0 ∉ p -> (length p <= fuel)%nat ->
  grep_lines fuel pattern p = (matching pattern (split_lines [] p).1, (split_lines [] p).2).
Proof.
  revert p. induction fuel as [|fuel IH]; intros p H0 Hf; [destruct p; [done|cbn in Hf; lia]|].
  cbn [grep_lines].
  destruct (strchr p NL) as [q|] eqn:Eq.
  - destruct (strchr_Some p NL q Eq) as (l & r & -> & <- & Hl).
    rewrite split_lines_line by done. rewrite length_app in Hf. cbn in Hf.
    apply not_elem_of_app in H0 as [_ [_ H0]%not_elem_of_cons].
    assert (l ++ NL :: r = (l ++ [NL]) ++ r) as El by by rewrite <- app_assoc.
    assert (S (length l) = length (l ++ [NL])) as Hlen by (rewrite length_app; cbn; lia).
    rewrite take_app_length, El, Hlen, drop_app_length, take_app_length.
    by rewrite IH by (done || lia).
  - rewrite split_lines_none; [done|]. by apply strchr_None.
Qed.

(** ** The whole of grep() *)

(** No line is longer than the buffer can hold with its newline and a NUL. *)
Definition short_lines (s : list Z) : Prop :=
  forall s1 s2, s = s1 ++ s2 -> (S (length (split_lines [] s1).2) < BUFSZ)%nat.

Lemma read_fd_some chunks n :
  Forall (fun c => c <> []) chunks -> chunks <> [] -> (0 < n)%nat ->
  let '(got, chunks') := read_fd chunks n in
  got <> [] /\ concat chunks = got ++ concat chunks' /\ Forall (fun c => c <> []) chunks'.
Proof.
  intros Hne Hc Hn. destruct chunks as [|c cs]; [done|]. apply Forall_cons in Hne as [H1 H2]. cbn.
  case_decide as Hl; [done|]. split_and!.
  - intros E%(f_equal length). rewrite length_take in E. cbn in E. lia.
  - cbn. by rewrite app_assoc, take_drop.
  - constructor; [|done]. intros E%(f_equal length). rewrite length_drop in E. cbn in E. lia.
Qed.

Lemma grep_loop_spec pattern fuel : forall seen chunks buf out,
  Forall (fun c => c <> []) chunks -> 0 ∉ seen ++ concat chunks -> short_lines (seen ++ concat chunks) ->
  buf = (split_lines [] seen).2 -> out = matching pattern (split_lines [] seen).1 ->
  0 ∉ buf -> (length (concat chunks) < fuel)%nat ->
  grep_loop fuel pattern chunks buf out = Some (matching pattern (split_lines [] (seen ++ concat chunks)).1).
Proof.
  induction fuel as [|fuel IH]; intros seen chunks buf out Hne H0 Hs Hb Ho Hb0 Hf; [lia|]. cbn [grep_loop].
  destruct chunks as [|c cs]; [cbn [read_fd concat]; by rewrite decide_True, app_nil_r, Ho|].
  pose proof (Hs seen (concat (c :: cs)) eq_refl) as Hroom. rewrite <- Hb in Hroom.
  pose proof (read_fd_some (c :: cs) (BUFSZ - length buf - 1) Hne ltac:(done) ltac:(lia)) as Hr.
  destruct (read_fd (c :: cs) _) as [got cs'] eqn:Er. destruct Hr as (Hg & Ec & Hne').
  rewrite decide_False by (destruct got; [done|cbn; lia]).
  rewrite Ec in *. rewrite app_assoc in *.
  apply not_elem_of_app in H0 as [H0s H0c]. apply not_elem_of_app in H0s as [H0s H0g].
  assert (0 ∉ buf ++ got) as Hbg by (apply not_elem_of_app; done).
  rewrite grep_lines_spec by done.
  assert (NL ∉ buf) as Hnl.
  { rewrite Hb. apply split_lines_rest. by intros ?%elem_of_nil. }
  assert (split_lines [] (buf ++ got) = split_lines buf got) as Ebg.
  { rewrite split_lines_app, split_lines_none by done. cbn. by destruct (split_lines buf got). }
  rewrite Ebg.
  assert (split_lines [] (seen ++ got) = ((split_lines [] seen).1 ++ (split_lines buf got).1, (split_lines buf got).2)) as Esg.
  { rewrite split_lines_app. by rewrite Hb. }
  apply IH.
  - done.
  - apply not_elem_of_app. split; [|done]. apply not_elem_of_app. done.
  - done.
  - by rewrite Esg.
  - rewrite Esg. cbn [fst]. by rewrite matching_app, Ho.
  - intros Hin. apply split_lines_sub in Hin as [Hin|Hin]; done.
  - rewrite length_app in Hf. destruct got; [done|]. cbn in Hf. lia.
Qed.
