(* ===== verification/Ush.v ===== *)
(** * user/sh.c: the command parser

    A pointer into the command line is the suffix of the line that begins there,
    so [es] is the empty suffix and dereferencing it gives NUL.  A word of the
    parsed command is the pair of pointers (q, eq).  The parser's panic() prints
    and exits, so it is a result.  parseline(), parsepipe(), parseexec() and
    parseblock() call each other on ever shorter suffixes; their fuel is spent
    one unit per call, and four units per character are enough.

    In parseexec() the arguments are stored into the execcmd node after
    redirections may have been wrapped around it; the model collects the
    arguments and the redirections and builds the same tree at the end. *)

From S2P Require Import Prelude Machine.

Definition C_TAB : Z := 9.
Definition C_NL : Z := 10.
Definition C_VT : Z := 11.
Definition C_CR : Z := 13.
Definition C_SP : Z := 32.
Definition C_AMP : Z := 38.
Definition C_LP : Z := 40.
Definition C_RP : Z := 41.
Definition C_SEMI : Z := 59.
Definition C_LT : Z := 60.
Definition C_GT : Z := 62.
Definition C_BAR : Z := 124.
(** What gettoken() returns for a word and for [>>]. *)
Definition TOK_WORD : Z := 97.
Definition TOK_APPEND : Z := 43.

Definition whitespace : list Z := [C_SP; C_TAB; C_CR; C_NL; C_VT].
Definition symbols : list Z := [C_LT; C_BAR; C_GT; C_AMP; C_SEMI; C_LP; C_RP].

Definition MAXARGS : nat := 10.
Definition M_RDONLY : Z := 0x000.
Definition M_WRONLY : Z := 0x001.
Definition M_CREATE : Z := 0x200.
Definition M_TRUNC : Z := 0x400.

(** The parsed commands, over the representation [W] of words. *)
Inductive cmd (W : Type) :=
| EXEC (argv : list W)
| REDIR (c : cmd W) (file : W) (mode fd : Z)
| PIPE (left right : cmd W)
| LIST (left right : cmd W)
| BACK (c : cmd W).
Arguments EXEC {W} argv.
Arguments REDIR {W} c file mode fd.
Arguments PIPE {W} left right.
Arguments LIST {W} left right.
Arguments BACK {W} c.

(** A word of the line: from [q] up to [eq]. *)
Abbreviation ptr := (list Z).
Abbreviation word := (list Z * list Z)%type.

(** A parse: a result and the new [*ps], a panic, or no fuel left. *)
Inductive pres (A : Type) := POk (a : A) (s : ptr) | PPanic (msg : string) | PFuel.
Arguments POk {A} a s.
Arguments PPanic {A} msg.
Arguments PFuel {A}.
Definition pbind {A B} (r : pres A) (f : A -> ptr -> pres B) : pres B :=
  match r with POk a s => f a s | PPanic msg => PPanic msg | PFuel => PFuel end.

(** [while(s < es && strchr(whitespace, *s)) s++;] *)
Fixpoint skip_ws (s : ptr) : ptr :=
  match s with
  | c :: s' => if decide (c ∈ whitespace) then skip_ws s' else s
  | [] => []
  end.
(** [while(s < es && !strchr(whitespace, *s) && !strchr(symbols, *s)) s++;] *)
Fixpoint word_end (s : ptr) : ptr :=
  match s with
  | c :: s' => if decide (c ∈ whitespace \/ c ∈ symbols) then s else word_end s'
  | [] => []
  end.

(** The switch of gettoken(): the token and the pointer after it. *)
Definition scan_token (s : ptr) : Z * ptr :=
  match s with
  | [] => (0, s)
  | c :: s1 =>
      if decide (c ∈ [C_BAR; C_LP; C_RP; C_SEMI; C_AMP; C_LT]) then (c, s1)
      else if decide (c = C_GT) then
        match s1 with
        | c2 :: s2 => if decide (c2 = C_GT) then (TOK_APPEND, s2) else (C_GT, s1)
        | [] => (C_GT, s1)
        end
      else (TOK_WORD, word_end s)
  end.
(** gettoken(): the token, the word, and the new [*ps]. *)
Definition gettoken (s : ptr) : Z * word * ptr :=
  let q := skip_ws s in
  let '(ret, eq) := scan_token q in
  (ret, (q, eq), skip_ws eq).

(** peek(): is the next character one of [toks]?  [*ps] moves to it. *)
Definition peek (s : ptr) (toks : list Z) : bool * ptr :=
  let s := skip_ws s in
  (match s with c :: _ => bool_decide (c ∈ toks) | [] => false end, s).

(** redircmd() for the redirections collected by parseredirs(). *)
Abbreviation redir := (word * Z * Z)%type.
Definition redircmd {W} (c : cmd W) (r : W * Z * Z) : cmd W := REDIR c r.1.1 r.1.2 r.2.
Definition wrap {W} (c : cmd W) (rs : list (W * Z * Z)) : cmd W := foldl redircmd c rs.

Fixpoint parseredirs (fuel : nat) (s : ptr) : pres (list redir) :=
  match fuel with
  | O => PFuel
  | S fuel' =>
      let '(more, s) := peek s [C_LT; C_GT] in
      if more : bool then
        let '(tok, _, s) := gettoken s in
        let '(tok2, w, s) := gettoken s in
        if decide (tok2 <> TOK_WORD) then PPanic "missing file for redirection" else
        pbind (parseredirs fuel' s) (fun rs s =>
          POk ((if decide (tok = C_LT) then [(w, M_RDONLY, 0)]
                else if decide (tok = C_GT) then [(w, Z.lor (Z.lor M_WRONLY M_CREATE) M_TRUNC, 1)]
                else if decide (tok = TOK_APPEND) then [(w, Z.lor M_WRONLY M_CREATE, 1)]
                else []) ++ rs) s)
      else POk [] s
  end.

(** The argument loop of parseexec(), with [argv] and the redirections so far. *)
Fixpoint parseargs (fuel : nat) (argv : list word) (rs : list redir) (s : ptr) : pres (cmd word) :=
  match fuel with
  | O => PFuel
  | S fuel' =>
      let '(stop, s) := peek s [C_BAR; C_RP; C_AMP; C_SEMI] in
      if stop : bool then POk (wrap (EXEC argv) rs) s else
      let '(tok, w, s) := gettoken s in
      if decide (tok = 0) then POk (wrap (EXEC argv) rs) s else
      if decide (tok <> TOK_WORD) then PPanic "syntax" else
      let argv := argv ++ [w] in
      if decide (MAXARGS <= length argv)%nat then PPanic "too many args" else
      pbind (parseredirs (S (length s)) s) (fun rs' s => parseargs fuel' argv (rs ++ rs') s)
  end.

(** [while(peek(ps, es, "&"))] of parseline(). *)
Fixpoint parseback (fuel : nat) (c : cmd word) (s : ptr) : pres (cmd word) :=
  match fuel with
  | O => PFuel
  | S fuel' =>
      let '(more, s) := peek s [C_AMP] in
      if more : bool then let '(_, _, s) := gettoken s in parseback fuel' (BACK c) s
      else POk c s
  end.

Fixpoint parseline (fuel : nat) (s : ptr) : pres (cmd word) :=
  match fuel with
  | O => PFuel
  | S fuel' =>
      pbind (parsepipe fuel' s) (fun c s =>
      pbind (parseback (S (length s)) c s) (fun c s =>
      let '(more, s) := peek s [C_SEMI] in
      if more : bool then
        let '(_, _, s) := gettoken s in
        pbind (parseline fuel' s) (fun c2 s => POk (LIST c c2) s)
      else POk c s))
  end
with parsepipe (fuel : nat) (s : ptr) : pres (cmd word) :=
  match fuel with
  | O => PFuel
  | S fuel' =>
      pbind (parseexec fuel' s) (fun c s =>
      let '(more, s) := peek s [C_BAR] in
      if more : bool then
        let '(_, _, s) := gettoken s in
        pbind (parsepipe fuel' s) (fun c2 s => POk (PIPE c c2) s)
      else POk c s)
  end
with parseexec (fuel : nat) (s : ptr) : pres (cmd word) :=
  match fuel with
  | O => PFuel
  | S fuel' =>
      let '(block, s) := peek s [C_LP] in
      if block : bool then parseblock fuel' s else
      pbind (parseredirs (S (length s)) s) (fun rs s => parseargs (S (length s)) [] rs s)
  end
with parseblock (fuel : nat) (s : ptr) : pres (cmd word) :=
  match fuel with
  | O => PFuel
  | S fuel' =>
      let '(open, s) := peek s [C_LP] in
      if negb open then PPanic "parseblock" else
      let '(_, _, s) := gettoken s in
      pbind (parseline fuel' s) (fun c s =>
      let '(closed, s) := peek s [C_RP] in
      if negb closed then PPanic "syntax - missing )" else
      let '(_, _, s) := gettoken s in
      pbind (parseredirs (S (length s)) s) (fun rs s => POk (wrap c rs) s))
  end.

(** nulterminate(): a NUL is stored at the end [eq] of every word; [line] is the
    whole command line with its own NUL. *)
Definition store_nul (line : list Z) (eq : ptr) : list Z := <[(length line - S (length eq))%nat := 0]> line.
Fixpoint nulterminate (c : cmd word) (line : list Z) : list Z :=
  match c with
  | EXEC argv => foldl (fun line w => store_nul line w.2) line argv
  | REDIR c w _ _ => store_nul (nulterminate c line) w.2
  | PIPE l r | LIST l r => nulterminate r (nulterminate l line)
  | BACK c => nulterminate c line
  end.

Definition parse_fuel (s : ptr) : nat := 4 * length s + 4.
(** parsecmd(): the tree and the line after nulterminate(). *)
Definition parsecmd (s : ptr) : pres (cmd word) :=
  pbind (parseline (parse_fuel s) s) (fun c rest =>
    let '(_, rest) := peek rest [] in
    if decide (rest <> []) then PPanic "syntax" else POk c rest).
Definition parsed_line (s : ptr) (c : cmd word) : list Z := nulterminate c (s ++ [0]).

(** ** Pointers only move forward *)

Lemma skip_ws_suffix s : skip_ws s `suffix_of` s.
Proof. induction s as [|c s IH]; cbn; [done|]. case_decide; [by apply suffix_cons_r|done]. Qed.
Lemma word_end_suffix s : word_end s `suffix_of` s.
Proof. induction s as [|c s IH]; cbn; [done|]. case_decide; [done|by apply suffix_cons_r]. Qed.

Lemma skip_ws_idem s : skip_ws (skip_ws s) = skip_ws s.
Proof. induction s as [|c s IH]; cbn; [done|]. case_decide as E; [done|]. cbn. by rewrite decide_False. Qed.

Lemma scan_token_suffix s : (scan_token s).2 `suffix_of` s.
Proof.
  destruct s as [|c s]; cbn; [done|]. case_decide; [by apply suffix_cons_r|]. case_decide.
  - destruct s as [|c2 s]; [by apply suffix_cons_r|].
    case_decide; cbn; [apply suffix_cons_r|]; by apply suffix_cons_r.
  - apply (word_end_suffix (c :: s)).
Qed.

Lemma skip_ws_head s c s' : skip_ws s = c :: s' -> c ∉ whitespace.
Proof. induction s as [|x s IH]; cbn; [done|]. case_decide; [done|]. by intros [= -> ->]. Qed.

(** A token that is not the end of the line takes at least one character. *)
Lemma scan_token_short s :
  (forall c s', s = c :: s' -> c ∉ whitespace) -> (scan_token s).1 <> 0 ->
  (length (scan_token s).2 < length s)%nat.
Proof.
  intros Hws. destruct s as [|c s]; cbn; [done|]. case_decide as H1; [cbn; lia|]. case_decide as H2.
  - destruct s as [|c2 s]; [cbn; lia|]. case_decide; cbn; lia.
  - intros _. cbn. rewrite decide_False.
    + pose proof (suffix_length _ _ (word_end_suffix s)). lia.
    + intros [H|H]; [by apply (Hws c s)|]. apply H1. unfold symbols in H. set_solver.
Qed.

Lemma gettoken_suffix s : (gettoken s).2 `suffix_of` s.
Proof.
  unfold gettoken. destruct (scan_token (skip_ws s)) as [ret eq] eqn:E. cbn.
  pose proof (scan_token_suffix (skip_ws s)) as H. rewrite E in H. cbn in H.
  etrans; [apply skip_ws_suffix|]. etrans; [exact H|apply skip_ws_suffix].
Qed.
Lemma gettoken_le s : (length (gettoken s).2 <= length s)%nat.
Proof. apply suffix_length, gettoken_suffix. Qed.
Lemma gettoken_short s : (gettoken s).1.1 <> 0 -> (length (gettoken s).2 < length s)%nat.
Proof.
  unfold gettoken. destruct (scan_token (skip_ws s)) as [ret eq] eqn:E. cbn. intros Hr.
  pose proof (scan_token_short (skip_ws s)) as H. rewrite E in H. cbn in H.
  pose proof (suffix_length _ _ (skip_ws_suffix s)). pose proof (suffix_length _ _ (skip_ws_suffix eq)).
  specialize (H (fun c s' => skip_ws_head s c s') Hr). lia.
Qed.

(** After peek() has said yes the next token is there. *)
Lemma peek_yes s toks s1 :
  peek s toks = (true, s1) -> exists c s', s1 = c :: s' /\ c ∈ toks /\ s1 = skip_ws s /\ c ∉ whitespace.
Proof.
  unfold peek. destruct (skip_ws s) as [|c s'] eqn:E; [done|]. intros [= H <-]. apply bool_decide_eq_true in H.
  exists c, s'. split_and!; [done..|]. by apply (skip_ws_head s c s').
Qed.
Lemma peek_suffix s toks : (peek s toks).2 `suffix_of` s.
Proof. apply skip_ws_suffix. Qed.

Lemma peek_token s toks s1 :
  peek s toks = (true, s1) -> (length (gettoken s1).2 < length s)%nat.
Proof.
  intros (c & s' & -> & Hc & Hs & Hw)%peek_yes. pose proof (suffix_length _ _ (skip_ws_suffix s)) as Hl.
  rewrite <- Hs in Hl. eapply Nat.lt_le_trans; [|exact Hl]. apply gettoken_short.
  unfold gettoken. cbn [skip_ws]. rewrite decide_False by done. unfold scan_token.
  case_decide as H1; cbn.
  - intros E. subst. revert H1. set_solver.
  - case_decide; [destruct s' as [|c2 s']; [done|]; by case_decide|done].
Qed.

(** ** The parser always returns *)

(** The parse ends, with [*ps] further along the line. *)
Definition pends {A} (s : ptr) (r : pres A) : Prop :=
  match r with POk _ s' => s' `suffix_of` s | PPanic _ => True | PFuel => False end.

Lemma pends_bind {A B} s (r : pres A) (f : A -> ptr -> pres B) :
  pends s r -> (forall a s', r = POk a s' -> s' `suffix_of` s -> pends s' (f a s')) -> pends s (pbind r f).
Proof.
  destruct r as [a s'|msg|]; cbn; [|done..]. intros Hs Hf. specialize (Hf a s' eq_refl Hs).
  destruct (f a s'); cbn in *; [|done..]. by etrans.
Qed.
Lemma pends_weaken {A} s s' (r : pres A) : s' `suffix_of` s -> pends s' r -> pends s r.
Proof. intros Hs. destruct r; cbn; [|done..]. intros H. by etrans. Qed.

Lemma pends_ok {A} s (a : A) : pends s (POk a s).
Proof. unfold pends. reflexivity. Qed.

Ltac pstep :=
  match goal with
  | |- context [peek ?s ?t] =>
      let E := fresh "Ep" in let b := fresh "b" in let s1 := fresh "s" in
      destruct (peek s t) as [b s1] eqn:E; pose proof (peek_suffix s t); rewrite E in *; cbn [snd] in *; destruct b
  | |- context [gettoken ?s] =>
      let E := fresh "Eg" in let tok := fresh "tok" in let w := fresh "w" in let s1 := fresh "s" in
      pose proof (gettoken_suffix s); pose proof (gettoken_short s);
      destruct (gettoken s) as [[tok w] s1] eqn:E; cbn [fst snd] in *
  end.

Lemma parseredirs_ends fuel : forall s, (length s < fuel)%nat -> pends s (parseredirs fuel s).
Proof.
  induction fuel as [|fuel IH]; intros s Hf; [lia|]. cbn [parseredirs]. pstep; [|assumption].
  pose proof (peek_token s _ _ Ep) as Hlt. do 2 pstep. case_decide; [exact I|].
  apply (pends_weaken _ s2); [etrans; [|eassumption]; by etrans|].
  pose proof (suffix_length s2 s1 ltac:(assumption)).
  apply pends_bind; [apply IH; lia|intros; apply pends_ok].
Qed.

Lemma parseargs_ends fuel : forall argv rs s, (length s < fuel)%nat -> pends s (parseargs fuel argv rs s).
Proof.
  induction fuel as [|fuel IH]; intros argv rs s Hf; [lia|]. cbn [parseargs]. pstep; [assumption|]. pstep.
  case_decide as Ht; [cbn; by etrans|]. case_decide; [exact I|]. case_decide; [exact I|].
  pose proof (suffix_length s0 s ltac:(assumption)).
  apply (pends_weaken _ s1); [by etrans|]. apply pends_bind; [apply parseredirs_ends; lia|].
  intros rs' s' _ Hs%suffix_length. apply IH. assert (length s1 < length s0)%nat by auto. lia.
Qed.

Lemma parseback_ends fuel : forall c s, (length s < fuel)%nat -> pends s (parseback fuel c s).
Proof.
  induction fuel as [|fuel IH]; intros c s Hf; [lia|]. cbn [parseback]. pstep; [|assumption].
  pose proof (peek_token s _ _ Ep) as Hlt. pstep.
  apply (pends_weaken _ s1); [by etrans|]. apply IH. lia.
Qed.

Lemma parse_ends fuel :
  (forall s, (4 * length s + 4 <= fuel)%nat -> pends s (parseline fuel s)) /\
  (forall s, (4 * length s + 3 <= fuel)%nat -> pends s (parsepipe fuel s)) /\
  (forall s, (4 * length s + 2 <= fuel)%nat -> pends s (parseexec fuel s)) /\
  (forall s, (4 * length s + 1 <= fuel)%nat -> pends s (parseblock fuel s)).
Proof.
  induction fuel as [|fuel (IHl & IHp & IHe & IHb)]; [split_and!; intros; lia|]. split_and!; intros s Hf.
  - cbn [parseline]. apply pends_bind; [apply IHp; lia|]. intros c s1 _ Hs1%suffix_length.
    apply pends_bind; [apply parseback_ends; lia|]. intros c1 s2 _ Hs2%suffix_length.
    pstep; [|assumption]. pose proof (peek_token s2 _ _ Ep) as Hlt. pstep.
    apply (pends_weaken _ s3); [by etrans|]. apply pends_bind; [apply IHl; lia|intros; apply pends_ok].
  - cbn [parsepipe]. apply pends_bind; [apply IHe; lia|]. intros c s1 _ Hs1%suffix_length.
    pstep; [|assumption]. pose proof (peek_token s1 _ _ Ep) as Hlt. pstep.
    apply (pends_weaken _ s2); [by etrans|]. apply pends_bind; [apply IHp; lia|intros; apply pends_ok].
  - cbn [parseexec]. pstep; pose proof (suffix_length s0 s ltac:(assumption)).
    + apply (pends_weaken _ s0); [done|]. apply IHb. lia.
    + apply (pends_weaken _ s0); [done|]. apply pends_bind; [apply parseredirs_ends; lia|].
      intros rs s1 _ Hs1. apply parseargs_ends. lia.
  - cbn [parseblock]. pstep; [|exact I]. cbn [negb]. pose proof (peek_token s _ _ Ep) as Hlt. pstep.
    apply (pends_weaken _ s1); [by etrans|]. apply pends_bind; [apply IHl; lia|].
    intros c s2 _ Hs2. pstep; [|exact I]. cbn [negb]. pstep.
    apply (pends_weaken _ s4); [by etrans|]. apply pends_bind; [apply parseredirs_ends; lia|intros; apply pends_ok].
Qed.

Lemma parsecmd_ends s : parsecmd s <> PFuel.
Proof.
  unfold parsecmd. pose proof (proj1 (parse_ends (parse_fuel s)) s) as H.
  destruct (parseline (parse_fuel s) s) as [c rest|msg|]; [|done|].
  - cbn. case_decide; done.
  - exfalso. apply H. unfold parse_fuel. lia.
Qed.

(** ** Printing a command *)

Definition show_word (w : list Z) : list Z := C_SP :: w.
Definition show_redir (r : list Z * Z * Z) : list Z :=
  let '(w, mode, fd) := r in
  [C_SP] ++ (if decide (fd = 0) then [C_LT]
             else if decide (mode = Z.lor M_WRONLY M_CREATE) then [C_GT; C_GT] else [C_GT]) ++ w.
Definition paren (b : bool) (s : list Z) : list Z := if b then [C_LP] ++ s ++ [C_RP] else s.

(** [show lvl c]: level 0 is a line, 1 a pipeline with its [&]s, 2 a pipeline, 3
    a single command; parentheses where the command does not fit the level. *)
Fixpoint show (lvl : nat) (c : cmd (list Z)) : list Z :=
  match c with
  | EXEC argv => concat (map show_word argv)
  | REDIR c w mode fd => show 3 c ++ show_redir (w, mode, fd)
  | PIPE l r => paren (bool_decide (2 < lvl)%nat) (show 3 l ++ [C_BAR] ++ show 2 r)
  | LIST l r => paren (bool_decide (0 < lvl)%nat) (show 1 l ++ [C_SEMI] ++ show 0 r)
  | BACK c => paren (bool_decide (1 < lvl)%nat) (show 1 c ++ [C_AMP])
  end.

Definition word_char (c : Z) : Prop := c <> 0 /\ c ∉ whitespace /\ c ∉ symbols.
Definition word_ok (w : list Z) : Prop := w <> [] /\ Forall word_char w.
Definition redir_ok (mode fd : Z) : Prop :=
  (mode, fd) ∈ [(M_RDONLY, 0); (Z.lor (Z.lor M_WRONLY M_CREATE) M_TRUNC, 1); (Z.lor M_WRONLY M_CREATE, 1)].

(** Commands that can be written down: proper words, the three kinds of
    redirection, fewer than MAXARGS arguments. *)
Fixpoint cmd_ok (c : cmd (list Z)) : Prop :=
  match c with
  | EXEC argv => Forall word_ok argv /\ (length argv < MAXARGS)%nat
  | REDIR c w mode fd => cmd_ok c /\ word_ok w /\ redir_ok mode fd
  | PIPE l r | LIST l r => cmd_ok l /\ cmd_ok r
  | BACK c => cmd_ok c
  end.

Fixpoint cmd_map {V W} (f : V -> W) (c : cmd V) : cmd W :=
  match c with
  | EXEC argv => EXEC (map f argv)
  | REDIR c w mode fd => REDIR (cmd_map f c) (f w) mode fd
  | PIPE l r => PIPE (cmd_map f l) (cmd_map f r)
  | LIST l r => LIST (cmd_map f l) (cmd_map f r)
  | BACK c => BACK (cmd_map f c)
  end.
(** The characters of a word of the line. *)
Definition wtext (w : word) : list Z := take (length w.1 - length w.2) w.1.

(** ** Scanning what was printed *)

(** The next character ends a word. *)
Definition delimited (s : ptr) : Prop :=
  match s with c :: _ => c ∈ whitespace \/ c ∈ symbols | [] => True end.

Lemma skip_ws_word w s : word_ok w -> skip_ws (w ++ s) = w ++ s.
Proof.
  intros [Hne Hw]. destruct w as [|c w]; [done|]. apply Forall_cons in Hw as [(_ & Hc & _) _]. cbn.
  by rewrite decide_False.
Qed.
Lemma skip_ws_sp s : skip_ws (C_SP :: s) = skip_ws s.
Proof. cbn. rewrite decide_True; [done|]. unfold whitespace. left. Qed.

Lemma word_end_word w s : Forall word_char w -> delimited s -> word_end (w ++ s) = s.
Proof.
  intros Hw Hs. induction Hw as [|c w (_ & H1 & H2) _ IH]; cbn.
  - destruct s as [|c s]; [done|]. cbn. by rewrite decide_True.
  - rewrite decide_False; [done|]. tauto.
Qed.

Lemma gettoken_word w s : word_ok w -> delimited s ->
  gettoken (w ++ s) = (TOK_WORD, (w ++ s, s), skip_ws s).
Proof.
  intros Hw Hs. unfold gettoken. rewrite skip_ws_word by done. destruct Hw as [Hne Hw].
  assert (scan_token (w ++ s) = (TOK_WORD, s)) as ->; [|done].
  pose proof (word_end_word w s Hw Hs) as E. destruct w as [|c w]; [done|].
  apply Forall_cons in Hw as [(_ & _ & Hc) _]. unfold symbols in Hc.
  cbn [app] in *. unfold scan_token. rewrite decide_False by set_solver. rewrite decide_False by set_solver.
  by rewrite E.
Qed.

Lemma wtext_word w s : wtext (w ++ s, s) = w.
Proof. unfold wtext. cbn. rewrite length_app. replace (length w + length s - length s)%nat with (length w) by lia. apply take_app_length. Qed.

Lemma gettoken_skip s : gettoken (skip_ws s) = gettoken s.
Proof. unfold gettoken. by rewrite skip_ws_idem. Qed.
Lemma peek_skip s toks : peek (skip_ws s) toks = peek s toks.
Proof. unfold peek. by rewrite skip_ws_idem. Qed.

(** A one-character token. *)
Lemma gettoken_char c s :
  c ∈ [C_BAR; C_LP; C_RP; C_SEMI; C_AMP; C_LT] -> exists w, gettoken (c :: s) = (c, w, skip_ws s).
Proof.
  intros Hc. unfold gettoken. cbn [skip_ws]. rewrite decide_False by (unfold whitespace; set_solver).
  unfold scan_token. rewrite decide_True by done. by eexists.
Qed.

Lemma peek_char c s toks : c ∉ whitespace -> peek (c :: s) toks = (bool_decide (c ∈ toks), c :: s).
Proof. intros Hc. unfold peek. cbn [skip_ws]. by rewrite decide_False. Qed.
Lemma peek_word w s toks : word_ok w -> (forall c, c ∈ toks -> c ∈ symbols) -> peek (w ++ s) toks = (false, w ++ s).
Proof.
  intros Hw Ht. unfold peek. rewrite skip_ws_word by done. destruct Hw as [Hne Hw]. destruct w as [|c w]; [done|].
  apply Forall_cons in Hw as [(_ & _ & Hc) _]. cbn. f_equal. apply bool_decide_eq_false. auto.
Qed.

(** What may follow a command of a level. *)
Definition follows (toks : list Z) (s : ptr) : Prop := match skip_ws s with c :: _ => c ∈ toks | [] => True end.
Definition after (lvl : nat) : list Z :=
  match lvl with
  | 0%nat => [C_RP] | 1%nat => [C_RP; C_SEMI] | 2%nat => [C_RP; C_SEMI; C_AMP] | _ => [C_RP; C_SEMI; C_AMP; C_BAR]
  end.

Lemma follows_symbols toks s : (forall c, c ∈ toks -> c ∈ symbols) -> follows toks s -> delimited s.
Proof. unfold follows. destruct s as [|c s]; cbn; [done|]. case_decide; auto. Qed.
Lemma follows_char toks c s : c ∉ whitespace -> follows toks (c :: s) <-> c ∈ toks.
Proof. intros Hc. unfold follows. cbn [skip_ws]. by rewrite decide_False. Qed.
Lemma after_symbols lvl c : c ∈ after lvl -> c ∈ symbols.
Proof. unfold symbols. destruct lvl as [|[|[|lvl]]]; cbn; set_solver. Qed.
Lemma symbols_ws c : c ∈ symbols -> c ∉ whitespace.
Proof. unfold symbols, whitespace. set_solver. Qed.

Lemma skip_ws_sym c s : c ∈ symbols -> skip_ws (c :: s) = c :: s.
Proof. intros Hc%symbols_ws. cbn [skip_ws]. by rewrite decide_False. Qed.
Lemma follows_sym lvl c s : c ∈ after lvl -> follows (after lvl) (c :: s).
Proof. intros Hc. apply follows_char; [|done]. apply symbols_ws. by apply (after_symbols lvl). Qed.
Lemma follows_again toks s : follows toks s -> follows toks (skip_ws s).
Proof. unfold follows. by rewrite skip_ws_idem. Qed.
Lemma follows_peek lvl s toks :
  follows (after lvl) s -> (forall c, c ∈ after lvl -> c ∉ toks) -> peek s toks = (false, skip_ws s).
Proof.
  intros Hf Ht. unfold peek. unfold follows in Hf. f_equal. destruct (skip_ws s) as [|c s1]; [done|]. apply bool_decide_eq_false. auto.
Qed.

(** Every loop begins by skipping blanks. *)
Lemma parseredirs_skip fuel s : parseredirs fuel (skip_ws s) = parseredirs fuel s.
Proof. destruct fuel; cbn [parseredirs]; [done|]. by rewrite peek_skip. Qed.
Lemma parseargs_skip fuel argv rs s : parseargs fuel argv rs (skip_ws s) = parseargs fuel argv rs s.
Proof. destruct fuel; cbn [parseargs]; [done|]. by rewrite peek_skip. Qed.

Definition show_redirs (rs : list (list Z * Z * Z)) : list Z := concat (map show_redir rs).
Definition show_words (ws : list (list Z)) : list Z := concat (map show_word ws).
Definition rtext (r : redir) : list Z * Z * Z := (wtext r.1.1, r.1.2, r.2).
Definition good_redir (r : list Z * Z * Z) : Prop := word_ok r.1.1 /\ redir_ok r.1.2 r.2.

Lemma delimited_redirs rs s : delimited s -> delimited (show_redirs rs ++ s).
Proof. destruct rs as [|[[w m] f] rs]; [done|]. intros _. cbn. left. unfold whitespace. left. Qed.
Lemma delimited_words ws s : delimited s -> delimited (show_words ws ++ s).
Proof. destruct ws as [|w ws]; [done|]. intros _. cbn. left. unfold whitespace. left. Qed.
Lemma follows_delimited lvl s : follows (after lvl) s -> delimited s.
Proof. apply follows_symbols. apply after_symbols. Qed.

(** The operator of a redirection and then its word. *)
Lemma redir_token r s :
  good_redir r -> exists tok w0 c s0,
    skip_ws (show_redir r ++ s) = c :: s0 /\ (c = C_LT \/ c = C_GT) /\
    gettoken (c :: s0) = (tok, w0, r.1.1 ++ s) /\
    (forall w : word, (if decide (tok = C_LT) then [(w, M_RDONLY, 0)]
       else if decide (tok = C_GT) then [(w, Z.lor (Z.lor M_WRONLY M_CREATE) M_TRUNC, 1)]
       else if decide (tok = TOK_APPEND) then [(w, Z.lor M_WRONLY M_CREATE, 1)] else []) = [(w, r.1.2, r.2)]).
Proof.
  destruct r as [[w m] f]. intros [Hw Hr]. cbn [fst snd] in *. unfold redir_ok in Hr.
  rewrite !elem_of_cons, elem_of_nil in Hr. unfold show_redir. cbn [app].
  destruct Hr as [[= -> ->]|[[= -> ->]|[[= -> ->]|[]]]]; rewrite skip_ws_sp; cbn [app].
  - destruct (gettoken_char C_LT (w ++ s)) as [w0 E]; [set_solver|].
    exists C_LT, w0, C_LT, (w ++ s). rewrite skip_ws_word in E by done. split_and!; [done|by left|done|done].
  - exists C_GT, (C_GT :: w ++ s, w ++ s), C_GT, (w ++ s). split_and!; [done|by right| |done].
    unfold gettoken. cbn [skip_ws]. rewrite decide_False by (unfold whitespace; set_solver).
    unfold scan_token. rewrite decide_False by set_solver. rewrite decide_True by done.
    pose proof (skip_ws_word w s Hw) as Es. destruct Hw as [Hne Hall]. destruct w as [|c2 w]; [done|]. cbn [app] in *.
    rewrite decide_False; [by rewrite Es|].
    apply Forall_cons in Hall as [(_ & _ & Hc) _]. unfold symbols in Hc. set_solver.
  - exists TOK_APPEND, (C_GT :: C_GT :: w ++ s, w ++ s), C_GT, (C_GT :: w ++ s). split_and!; [done|by right| |done].
    unfold gettoken. cbn [skip_ws]. rewrite decide_False by (unfold whitespace; set_solver).
    unfold scan_token. rewrite decide_False by set_solver. rewrite !decide_True by done.
    by rewrite skip_ws_word.
Qed.

Lemma parseredirs_show rs : forall fuel s,
  Forall good_redir rs -> delimited s -> peek s [C_LT; C_GT] = (false, skip_ws s) -> (length rs < fuel)%nat ->
  exists rs', parseredirs fuel (show_redirs rs ++ s) = POk rs' (skip_ws s) /\ map rtext rs' = rs.
Proof.
  induction rs as [|r rs IH]; intros fuel s Hrs Hd Hp Hf; (destruct fuel as [|fuel]; [lia|]).
  - exists []. cbn [parseredirs]. change (show_redirs [] ++ s) with s. by rewrite Hp.
  - apply Forall_cons in Hrs as [Hr Hrs].
    change (show_redirs (r :: rs) ++ s) with ((show_redir r ++ show_redirs rs) ++ s). rewrite <- app_assoc.
    destruct (redir_token r (show_redirs rs ++ s) Hr) as (tok & w0 & c & s0 & Es & Hc & Et & Hres).
    cbn [parseredirs]. rewrite <- peek_skip, Es.
    rewrite peek_char by (unfold whitespace; destruct Hc as [-> | ->]; set_solver).
    rewrite bool_decide_eq_true_2 by (destruct Hc as [-> | ->]; set_solver).
    rewrite Et. rewrite gettoken_word by (apply Hr || by apply delimited_redirs).
    rewrite decide_False by (intros H; by apply H).
    rewrite parseredirs_skip. cbn in Hf. destruct (IH fuel s Hrs Hd Hp ltac:(lia)) as (rs' & E & Hm).
    rewrite E. cbn [pbind]. rewrite Hres. eexists. split; [done|]. cbn [map app]. rewrite Hm. f_equal.
    unfold rtext. cbn [fst snd]. rewrite wtext_word. by destruct r as [[? ?] ?].
Qed.

Lemma redirs_length rs s :
  Forall good_redir rs -> (length rs <= length (skip_ws (show_redirs rs ++ s)))%nat.
Proof.
  intros Hrs. assert (forall r, good_redir r -> exists c t, show_redir r = C_SP :: c :: t /\ c ∉ whitespace /\ t <> []) as Hshape.
  { intros [[w m] f] [[Hne _] _]. unfold show_redir, whitespace. cbn [app fst snd] in *.
    repeat case_decide; eexists _, _; (split_and!; [done|set_solver|]); try done; by destruct w. }
  assert (forall rs', Forall good_redir rs' -> (2 * length rs' <= length (show_redirs rs'))%nat) as Hlen.
  { induction 1 as [|r rs' Hr _ IH]; [done|]. destruct (Hshape r Hr) as (c & t & E & _ & Ht).
    unfold show_redirs in *. cbn [map concat length]. rewrite E, length_app. destruct t; [done|]. cbn. lia. }
  destruct rs as [|r rs]; [cbn; lia|]. apply Forall_cons in Hrs as [Hr Hrs].
  destruct (Hshape r Hr) as (c & t & E & Hc & Ht). specialize (Hlen rs Hrs).
  unfold show_redirs in *. cbn [map concat]. rewrite E, <- app_assoc. cbn [app]. rewrite skip_ws_sp.
  cbn [skip_ws]. rewrite decide_False by done. cbn [length]. rewrite !length_app. lia.
Qed.

Lemma peek_after s : follows (after 3) s -> peek s [C_LT; C_GT] = (false, skip_ws s).
Proof.
  intros Hs. apply (follows_peek 3); [done|]. cbn. set_solver.
Qed.

Lemma parseargs_stop fuel argv rs s :
  follows (after 3) s -> (0 < fuel)%nat -> parseargs fuel argv rs s = POk (wrap (EXEC argv) rs) (skip_ws s).
Proof.
  intros Hs Hf. destruct fuel as [|fuel]; [lia|]. cbn [parseargs]. unfold follows in Hs. unfold peek.
  destruct (skip_ws s) as [|c s1]; [done|]. cbn in Hs. by rewrite bool_decide_eq_true_2 by set_solver.
Qed.

Lemma parseargs_show ws : forall fuel argv rs0 rs s,
  Forall word_ok ws -> Forall good_redir rs -> follows (after 3) s ->
  (length argv + length ws < MAXARGS)%nat -> (length ws < fuel)%nat -> ws <> [] \/ rs = [] ->
  exists ws' rs', parseargs fuel argv rs0 (show_words ws ++ show_redirs rs ++ s) =
      POk (wrap (EXEC (argv ++ ws')) (rs0 ++ rs')) (skip_ws s) /\
    map wtext ws' = ws /\ map rtext rs' = rs.
Proof.
  induction ws as [|w ws IH]; intros fuel argv rs0 rs s Hws Hrs Hs Hmax Hf Hor.
  - destruct Hor as [?| ->]; [done|]. exists [], []. rewrite !app_nil_r. split; [|done].
    by apply parseargs_stop.
  - apply Forall_cons in Hws as [Hw Hws]. destruct fuel as [|fuel]; [lia|]. cbn [length] in *.
    remember (show_words ws ++ show_redirs rs ++ s) as tail eqn:Etail.
    assert (show_words (w :: ws) ++ show_redirs rs ++ s = C_SP :: w ++ tail) as -> by (subst tail; cbn; by rewrite <- app_assoc).
    assert (delimited tail) as Hd.
    { subst tail. apply delimited_words, delimited_redirs. by apply (follows_delimited 3). }
    cbn [parseargs]. rewrite <- peek_skip, skip_ws_sp, skip_ws_word by done.
    rewrite peek_word by (done || unfold symbols; set_solver). rewrite gettoken_word by done.
    rewrite decide_False by done. rewrite decide_False by (intros H; by apply H).
    rewrite decide_False by (rewrite length_app; cbn; lia).
    rewrite parseredirs_skip. destruct ws as [|w2 ws].
    + destruct (parseredirs_show rs (S (length (skip_ws tail))) s Hrs (follows_delimited 3 s Hs) (peek_after s Hs)) as (rs' & E & Hm).
      { subst tail. cbn [show_words map concat app]. pose proof (redirs_length rs s Hrs). cbn. lia. }
      change (show_redirs rs ++ s) with (show_words [] ++ show_redirs rs ++ s) in E. rewrite <- Etail in E. rewrite E. cbn [pbind].
      rewrite parseargs_stop by (lia || by apply follows_again). rewrite skip_ws_idem.
      exists [(w ++ tail, tail)], rs'. split_and!; [done| |done]. cbn [map]. by rewrite wtext_word.
    + pose proof (Forall_inv Hws) as Hw2.
      assert (tail = C_SP :: w2 ++ show_words ws ++ show_redirs rs ++ s) as Et by (subst tail; cbn; by rewrite <- app_assoc).
      assert (skip_ws tail = w2 ++ show_words ws ++ show_redirs rs ++ s) as Esk by by rewrite Et, skip_ws_sp, skip_ws_word.
      assert (peek tail [C_LT; C_GT] = (false, skip_ws tail)) as Ep.
      { rewrite <- peek_skip, Esk. apply peek_word; [done|]. unfold symbols. set_solver. }
      cbn [parseredirs]. rewrite Ep. cbn [pbind]. rewrite parseargs_skip, app_nil_r.
      destruct (IH fuel (argv ++ [(w ++ tail, tail)]) rs0 rs s Hws Hrs Hs) as (ws' & rs' & E & Hm1 & Hm2);
        [rewrite length_app; cbn in *; lia|cbn in *; lia|by left|].
      rewrite <- Etail in E.
      exists ((w ++ tail, tail) :: ws'), rs'. split_and!; [etrans; [exact E|]; by rewrite <- app_assoc| |done].
      cbn [map]. by rewrite wtext_word, Hm1.
Qed.

(** ** More fuel changes nothing *)
Definition ple {A} (r r' : pres A) : Prop := r = PFuel \/ r = r'.
Lemma ple_refl {A} (r : pres A) : ple r r.
Proof. by right. Qed.
Lemma ple_bind {A B} (r r' : pres A) (f f' : A -> ptr -> pres B) :
  ple r r' -> (forall a s, ple (f a s) (f' a s)) -> ple (pbind r f) (pbind r' f').
Proof. intros [->|<-] Hf; [by left|]. destruct r; cbn; [apply Hf|by right|by left]. Qed.
#[local] Hint Resolve ple_refl ple_bind : core.

Lemma parse_mono fuel :
  (forall s, ple (parseline fuel s) (parseline (S fuel) s)) /\
  (forall s, ple (parsepipe fuel s) (parsepipe (S fuel) s)) /\
  (forall s, ple (parseexec fuel s) (parseexec (S fuel) s)) /\
  (forall s, ple (parseblock fuel s) (parseblock (S fuel) s)).
Proof.
  induction fuel as [|fuel (IHl & IHp & IHe & IHb)]; [split_and!; intros s; by left|].
  assert (forall n s, parseline (S n) s = pbind (parsepipe n s) (fun c s =>
      pbind (parseback (S (length s)) c s) (fun c s =>
      let '(more, s) := peek s [C_SEMI] in
      if more : bool then
        let '(_, _, s) := gettoken s in pbind (parseline n s) (fun c2 s => POk (LIST c c2) s)
      else POk c s))) as El by done.
  split_and!; intros s.
  - rewrite (El (S fuel)), (El fuel). apply ple_bind; [done|]. intros c s1. apply ple_bind; [done|].
    intros c1 s2. destruct (peek s2 _) as [[] s3]; [|done]. destruct (gettoken s3) as [[? ?] s4]. by apply ple_bind.
  - cbn [parsepipe]. apply ple_bind; [apply IHe|]. intros c s1.
    destruct (peek s1 _) as [[] s3]; [|done]. destruct (gettoken s3) as [[? ?] s4]. apply ple_bind; [apply IHp|done].
  - cbn [parseexec]. destruct (peek s _) as [[] s1]; [apply IHb|done].
  - cbn [parseblock]. destruct (peek s _) as [[] s1]; [|done]. cbn [negb]. destruct (gettoken s1) as [[? ?] s2].
    apply ple_bind; [apply IHl|done].
Qed.

Lemma parseline_mono fuel fuel' s r :
  (fuel <= fuel')%nat -> parseline fuel s = r -> r <> PFuel -> parseline fuel' s = r.
Proof.
  intros Hle Hr Hne. induction Hle as [|fuel' Hle IH]; [done|].
  destruct (proj1 (parse_mono fuel') s) as [E|E]; congruence.
Qed.

(** ** Parsing what was printed *)

Lemma parse_skip fuel s :
  parseexec fuel (skip_ws s) = parseexec fuel s /\ parsepipe fuel (skip_ws s) = parsepipe fuel s /\
  parseline fuel (skip_ws s) = parseline fuel s.
Proof.
  assert (forall f, parseexec f (skip_ws s) = parseexec f s) as He.
  { intros [|f]; cbn [parseexec]; [done|]. by rewrite peek_skip. }
  assert (forall f, parsepipe f (skip_ws s) = parsepipe f s) as Hp.
  { intros [|f]; cbn [parsepipe]; [done|]. by rewrite He. }
  split_and!; [done..|]. destruct fuel as [|f]; cbn [parseline]; [done|]. by rewrite Hp.
Qed.

(** [P] reads [c] at the beginning of the line, given what follows it. *)
Definition reads (P : nat -> ptr -> pres (cmd word)) (lvl : nat) (c : cmd (list Z)) : Prop :=
  forall s, follows (after lvl) s ->
    exists c' n, cmd_map wtext c' = c /\ forall fuel, (n <= fuel)%nat -> P fuel (show lvl c ++ s) = POk c' (skip_ws s).
Definition pipe_back (fuel : nat) (s : ptr) : pres (cmd word) :=
  pbind (parsepipe fuel s) (fun c s => parseback (S (length s)) c s).

Lemma cmd_map_wrap c rs : cmd_map wtext (wrap c rs) = wrap (cmd_map wtext c) (map rtext rs).
Proof.
  revert c. induction rs as [|r rs IH]; intros c; [done|].
  change (wrap c (r :: rs)) with (wrap (redircmd c r) rs). by rewrite IH.
Qed.

Lemma show_wrap c rs : show 3 (wrap c rs) = show 3 c ++ show_redirs rs.
Proof.
  revert c. induction rs as [|[[w m] f] rs IH]; intros c; [by rewrite app_nil_r|].
  cbn [wrap foldl]. fold (wrap (redircmd c (w, m, f)) rs). rewrite IH. cbn [redircmd show fst snd].
  by rewrite <- app_assoc.
Qed.

Lemma words_length ws s : Forall word_ok ws -> (length ws <= length (skip_ws (show_words ws ++ s)))%nat.
Proof.
  assert (forall ws', length ws' <= length (show_words ws'))%nat as Hlen.
  { induction ws' as [|w ws' IH]; [done|]. unfold show_words in *. cbn. rewrite length_app. lia. }
  destruct ws as [|w ws]; [cbn; lia|]. intros [Hw Hws]%Forall_cons. specialize (Hlen ws).
  unfold show_words in *. cbn [map concat]. unfold show_word at 1. rewrite <- app_assoc. cbn [app].
  rewrite skip_ws_sp, skip_ws_word, !length_app by done. destruct Hw as [Hw _]. destruct w; [done|]. cbn in *. lia.
Qed.

Lemma peek_words w ws s toks :
  word_ok w -> (forall c, c ∈ toks -> c ∈ symbols) ->
  peek (show_words (w :: ws) ++ s) toks = (false, skip_ws (show_words (w :: ws) ++ s)).
Proof.
  intros Hw Ht. rewrite <- peek_skip.
  assert (skip_ws (show_words (w :: ws) ++ s) = w ++ show_words ws ++ s) as ->; [|by apply peek_word].
  unfold show_words. cbn [map concat]. unfold show_word at 1. rewrite <- app_assoc. cbn [app].
  by rewrite skip_ws_sp, skip_ws_word.
Qed.

(** A simple command with its redirections. *)
Lemma reads_exec argv rs :
  Forall word_ok argv -> (length argv < MAXARGS)%nat -> Forall good_redir rs -> reads parseexec 3 (wrap (EXEC argv) rs).
Proof.
  intros Hw Hmax Hrs s Hs. rewrite show_wrap. cbn [show]. fold (show_words argv). rewrite <- app_assoc.
  set (line := show_words argv ++ show_redirs rs ++ s).
  assert (peek line [C_LP] = (false, skip_ws line)) as Ep.
  { rewrite <- peek_skip. subst line. destruct argv as [|w argv].
    - cbn [show_words map concat app]. destruct rs as [|r rs].
      + cbn [show_redirs map concat app]. rewrite peek_skip. apply (follows_peek 3); [done|]. cbn. set_solver.
      + apply Forall_inv in Hrs as Hr. unfold show_redirs. cbn [map concat]. rewrite <- app_assoc.
        destruct (redir_token r (concat (map show_redir rs) ++ s) Hr) as (tok & w0 & c & s0 & -> & Hc & _).
        rewrite peek_char by (unfold whitespace; destruct Hc as [-> | ->]; set_solver).
        f_equal. apply bool_decide_eq_false. destruct Hc as [-> | ->]; set_solver.
    - rewrite peek_skip. apply peek_words; [by apply Forall_inv in Hw|]. unfold symbols. set_solver. }
  destruct argv as [|w argv].
  - destruct (parseredirs_show rs (S (length (skip_ws line))) s Hrs (follows_delimited 3 s Hs) (peek_after s Hs)) as (rs' & E & Hm).
    { pose proof (redirs_length rs s Hrs). subst line. cbn [show_words map concat app] in *. lia. }
    exists (wrap (EXEC []) rs'), 1%nat. split; [by rewrite cmd_map_wrap, Hm|]. intros fuel Hf.
    destruct fuel as [|fuel]; [lia|]. cbn [parseexec]. rewrite Ep, parseredirs_skip.
    change line with (show_redirs rs ++ s) at 2. rewrite E. cbn [pbind].
    rewrite parseargs_stop by (lia || by apply follows_again). by rewrite skip_ws_idem.
  - destruct (parseargs_show (w :: argv) (S (length (skip_ws line))) [] [] rs s Hw Hrs Hs) as (ws' & rs' & E & Hm1 & Hm2);
      [done| |by left|].
    { pose proof (words_length (w :: argv) (show_redirs rs ++ s) Hw). fold line in H. lia. }
    exists (wrap (EXEC ws') rs'), 1%nat. split; [by rewrite cmd_map_wrap, Hm2; cbn [cmd_map]; rewrite Hm1|]. intros fuel Hf.
    destruct fuel as [|fuel]; [lia|]. cbn [parseexec]. rewrite Ep, parseredirs_skip. cbn [parseredirs].
    assert (peek line [C_LT; C_GT] = (false, skip_ws line)) as Ep2.
    { apply peek_words; [by apply Forall_inv in Hw|]. unfold symbols. set_solver. }
    rewrite Ep2. cbn [pbind]. rewrite parseargs_skip. exact E.
Qed.

Definition simple (c : cmd (list Z)) : bool := match c with EXEC _ | REDIR _ _ _ _ => true | _ => false end.

Lemma show3_paren c : simple c = false -> show 3 c = [C_LP] ++ show 0 c ++ [C_RP].
Proof. by destruct c. Qed.

(** A command in parentheses with its redirections. *)
Lemma reads_block c rs :
  simple c = false -> reads parseline 0 c -> Forall good_redir rs -> reads parseexec 3 (wrap c rs).
Proof.
  intros Hc Hread Hrs s Hs. rewrite show_wrap, show3_paren by done. rewrite <- !app_assoc. cbn [app].
  set (tail := show_redirs rs ++ s).
  destruct (Hread (C_RP :: tail)) as (c' & n & Hm & Hp); [apply follows_sym; cbn; set_solver|]. rewrite skip_ws_sym in Hp by (unfold symbols; set_solver).
  destruct (parseredirs_show rs (S (length (skip_ws tail))) s Hrs (follows_delimited 3 s Hs) (peek_after s Hs)) as (rs' & E & Hmr).
  { pose proof (redirs_length rs s Hrs). fold tail in H. lia. }
  exists (wrap c' rs'), (S (S n)). split; [by rewrite cmd_map_wrap, Hmr, Hm|]. intros fuel Hf.
  destruct fuel as [|[|fuel]]; [lia..|]. cbn [parseexec].
  assert (forall x, peek (C_LP :: x) [C_LP] = (true, C_LP :: x)) as Epk.
  { intros x. rewrite peek_char by (unfold whitespace; set_solver). by rewrite bool_decide_eq_true_2 by set_solver. }
  rewrite Epk. cbn [parseblock]. rewrite Epk. cbn [negb].
  destruct (gettoken_char C_LP (show 0 c ++ C_RP :: tail)) as [w0 ->]; [set_solver|].
  rewrite (proj2 (proj2 (parse_skip fuel _))), Hp by lia. cbn [pbind].
  rewrite peek_char by (unfold whitespace; set_solver). rewrite bool_decide_eq_true_2 by set_solver. cbn [negb].
  destruct (gettoken_char C_RP tail) as [w1 ->]; [set_solver|].
  rewrite parseredirs_skip. fold tail in E. by rewrite E.
Qed.

(** What may follow a longer command may follow a shorter one. *)
Lemma follows_up lvl lvl' s : (lvl <= lvl')%nat -> follows (after lvl) s -> follows (after lvl') s.
Proof.
  unfold follows. destruct (skip_ws s) as [|c s1]; [done|].
  destruct lvl as [|[|[|lvl]]], lvl' as [|[|[|lvl']]]; cbn; intros; try lia; set_solver.
Qed.

Lemma reads_pipe_one c : show 2 c = show 3 c -> reads parseexec 3 c -> reads parsepipe 2 c.
Proof.
  intros Es H s Hs. destruct (H s) as (c' & n & Hm & Hp); [by apply (follows_up 2); [lia|]|].
  exists c', (S n). split; [done|]. intros fuel Hf. destruct fuel as [|fuel]; [lia|]. cbn [parsepipe].
  rewrite Es, Hp by lia. cbn [pbind]. rewrite (follows_peek 2) by (by apply follows_again) || (cbn; set_solver). by rewrite skip_ws_idem.
Qed.

Lemma reads_pipe l r : reads parseexec 3 l -> reads parsepipe 2 r -> reads parsepipe 2 (PIPE l r).
Proof.
  intros Hl Hr s Hs. destruct (Hr s Hs) as (r' & n2 & Hm2 & Hp2).
  destruct (Hl (C_BAR :: show 2 r ++ s)) as (l' & n1 & Hm1 & Hp1); [apply follows_sym; cbn; set_solver|]. rewrite skip_ws_sym in Hp1 by (unfold symbols; set_solver).
  exists (PIPE l' r'), (S (n1 `max` n2)). split; [cbn; by rewrite Hm1, Hm2|]. intros fuel Hf.
  destruct fuel as [|fuel]; [lia|]. cbn [parsepipe]. change (show 2 (PIPE l r)) with (show 3 l ++ [C_BAR] ++ show 2 r).
  rewrite <- !app_assoc. cbn [app]. rewrite Hp1 by lia. cbn [pbind].
  rewrite peek_char by (unfold whitespace; set_solver). rewrite bool_decide_eq_true_2 by set_solver.
  destruct (gettoken_char C_BAR (show 2 r ++ s)) as [w ->]; [set_solver|].
  rewrite (proj1 (proj2 (parse_skip fuel _))), Hp2 by lia. done.
Qed.

Lemma parseback_skip fuel c s : parseback fuel c (skip_ws s) = parseback fuel c s.
Proof. destruct fuel; cbn [parseback]; [done|]. by rewrite peek_skip. Qed.
Lemma amps_length n s : (n <= length (skip_ws (repeat C_AMP n ++ s)))%nat.
Proof.
  destruct n as [|n]; [lia|]. cbn [repeat app]. rewrite skip_ws_sym by (unfold symbols; set_solver). cbn [length]. rewrite length_app, repeat_length. lia.
Qed.
Lemma parseback_show n : forall fuel c s,
  follows (after 1) s -> (n < fuel)%nat ->
  parseback fuel c (repeat C_AMP n ++ s) = POk (Nat.iter n BACK c) (skip_ws s).
Proof.
  induction n as [|n IH]; intros fuel c s Hs Hf; (destruct fuel as [|fuel]; [lia|]); cbn [parseback repeat app].
  - by rewrite (follows_peek 1) by (done || cbn; set_solver).
  - rewrite peek_char by (unfold whitespace; set_solver). rewrite bool_decide_eq_true_2 by set_solver.
    destruct (gettoken_char C_AMP (repeat C_AMP n ++ s)) as [w ->]; [set_solver|].
    rewrite parseback_skip.
    rewrite IH by (done || lia). f_equal. by rewrite Nat.iter_succ_r.
Qed.

Lemma show_backs n c : show 1 (Nat.iter n BACK c) = show 1 c ++ repeat C_AMP n.
Proof.
  induction n as [|n IH]; [cbn [repeat]; by rewrite app_nil_r|].
  change (show 1 (Nat.iter (S n) BACK c)) with (show 1 (Nat.iter n BACK c) ++ [C_AMP]).
  rewrite IH, <- app_assoc. f_equal. cbn [repeat]. by rewrite repeat_cons.
Qed.
Lemma cmd_map_backs {V W} (f : V -> W) n c : cmd_map f (Nat.iter n BACK c) = Nat.iter n BACK (cmd_map f c).
Proof.
  induction n as [|n IH]; [done|].
  change (BACK (cmd_map f (Nat.iter n BACK c)) = BACK (Nat.iter n BACK (cmd_map f c))). by rewrite IH.
Qed.

Lemma reads_backs n c : show 1 c = show 2 c -> reads parsepipe 2 c -> reads pipe_back 1 (Nat.iter n BACK c).
Proof.
  intros Es H s Hs. rewrite show_backs, Es, <- app_assoc.
  destruct (H (repeat C_AMP n ++ s)) as (c' & m & Hm & Hp).
  { destruct n; [by apply (follows_up 1); [lia|]|]. apply follows_sym. cbn. set_solver. }
  exists (Nat.iter n BACK c'), m. split; [by rewrite cmd_map_backs, Hm|]. intros fuel Hf.
  unfold pipe_back. rewrite Hp by done. cbn [pbind]. rewrite parseback_skip. apply parseback_show; [done|].
  pose proof (amps_length n s). lia.
Qed.

Lemma parseline_eq n s : parseline (S n) s =
  pbind (pipe_back n s) (fun c s =>
    let '(more, s) := peek s [C_SEMI] in
    if more : bool then
      let '(_, _, s) := gettoken s in pbind (parseline n s) (fun c2 s => POk (LIST c c2) s)
    else POk c s).
Proof. cbn [parseline]. unfold pipe_back. by destruct (parsepipe n s). Qed.

Lemma reads_line c : show 0 c = show 1 c -> reads pipe_back 1 c -> reads parseline 0 c.
Proof.
  intros Es H s Hs. destruct (H s) as (c' & n & Hm & Hp); [by apply (follows_up 0); [lia|]|].
  exists c', (S n). split; [done|]. intros fuel Hf. destruct fuel as [|fuel]; [lia|].
  rewrite parseline_eq, Es, Hp by lia. cbn [pbind]. rewrite (follows_peek 0) by (by apply follows_again) || (cbn; set_solver). by rewrite skip_ws_idem.
Qed.

Lemma reads_list l r : reads pipe_back 1 l -> reads parseline 0 r -> reads parseline 0 (LIST l r).
Proof.
  intros Hl Hr s Hs. destruct (Hr s Hs) as (r' & n2 & Hm2 & Hp2).
  destruct (Hl (C_SEMI :: show 0 r ++ s)) as (l' & n1 & Hm1 & Hp1); [apply follows_sym; cbn; set_solver|]. rewrite skip_ws_sym in Hp1 by (unfold symbols; set_solver).
  exists (LIST l' r'), (S (n1 `max` n2)). split; [cbn; by rewrite Hm1, Hm2|]. intros fuel Hf.
  destruct fuel as [|fuel]; [lia|]. rewrite parseline_eq. change (show 0 (LIST l r)) with (show 1 l ++ [C_SEMI] ++ show 0 r).
  rewrite <- !app_assoc. cbn [app]. rewrite Hp1 by lia. cbn [pbind].
  rewrite peek_char by (unfold whitespace; set_solver). rewrite bool_decide_eq_true_2 by set_solver.
  destruct (gettoken_char C_SEMI (show 0 r ++ s)) as [w ->]; [set_solver|].
  rewrite (proj2 (proj2 (parse_skip fuel _))), Hp2 by lia. done.
Qed.

(** Every level reads back what it printed; the statement is generalised to the
    redirections and the ampersands that follow a command. *)
Lemma reads_all c :
  cmd_ok c ->
  (forall rs, Forall good_redir rs -> reads parseexec 3 (wrap c rs)) /\ reads parsepipe 2 c /\
  (forall n, reads pipe_back 1 (Nat.iter n BACK c)) /\ reads parseline 0 c.
Proof.
  induction c as [argv|c IH w m f|l IHl r IHr|l IHl r IHr|c IH]; cbn [cmd_ok].
  - intros [Hw Hmax].
    assert (forall rs, Forall good_redir rs -> reads parseexec 3 (wrap (EXEC argv) rs)) as H3 by (intros; by apply reads_exec).
    assert (reads parsepipe 2 (EXEC argv)) as H2 by (apply reads_pipe_one; [done|apply (H3 []); constructor]).
    assert (forall n, reads pipe_back 1 (Nat.iter n BACK (EXEC argv))) as H1 by (intros; by apply reads_backs).
    split_and!; [done..|]. apply reads_line; [done|apply (H1 O)].
  - intros (Hc & Hw & Hr). destruct (IH Hc) as (IH3 & _).
    assert (forall rs, Forall good_redir rs -> reads parseexec 3 (wrap (REDIR c w m f) rs)) as H3.
    { intros rs Hrs. apply (IH3 ((w, m, f) :: rs)). by constructor. }
    assert (reads parsepipe 2 (REDIR c w m f)) as H2 by (apply reads_pipe_one; [done|apply (H3 []); constructor]).
    assert (forall n, reads pipe_back 1 (Nat.iter n BACK (REDIR c w m f))) as H1 by (intros; by apply reads_backs).
    split_and!; [done..|]. apply reads_line; [done|apply (H1 O)].
  - intros [Hl Hr]. destruct (IHl Hl) as (L3 & _), (IHr Hr) as (_ & R2 & _).
    assert (reads parsepipe 2 (PIPE l r)) as H2 by (apply reads_pipe; [apply (L3 []); constructor|done]).
    assert (forall n, reads pipe_back 1 (Nat.iter n BACK (PIPE l r))) as H1 by (intros; by apply reads_backs).
    assert (reads parseline 0 (PIPE l r)) as H0 by (apply reads_line; [done|apply (H1 O)]).
    split_and!; [|done..]. intros rs Hrs. by apply reads_block.
  - intros [Hl Hr]. destruct (IHl Hl) as (_ & _ & L1 & _), (IHr Hr) as (_ & _ & _ & R0).
    assert (reads parseline 0 (LIST l r)) as H0 by (apply reads_list; [apply (L1 O)|done]).
    assert (forall rs, Forall good_redir rs -> reads parseexec 3 (wrap (LIST l r) rs)) as H3 by (intros; by apply reads_block).
    assert (reads parsepipe 2 (LIST l r)) as H2 by (apply reads_pipe_one; [done|apply (H3 []); constructor]).
    split_and!; [done..| |done]. intros n. by apply reads_backs.
  - intros Hc. destruct (IH Hc) as (_ & _ & C1 & _).
    assert (forall n, reads pipe_back 1 (Nat.iter n BACK (BACK c))) as H1.
    { intros n. rewrite <- Nat.iter_succ_r. apply C1. }
    assert (reads parseline 0 (BACK c)) as H0 by (apply reads_line; [done|apply (H1 O)]).
    assert (forall rs, Forall good_redir rs -> reads parseexec 3 (wrap (BACK c) rs)) as H3 by (intros; by apply reads_block).
    split_and!; [done| |done..]. apply reads_pipe_one; [done|apply (H3 []); constructor].
Qed.

(** A printed command is read back, also when blanks follow it. *)
Lemma parsecmd_blanks c blanks :
  cmd_ok c -> skip_ws blanks = [] -> exists c', parsecmd (show 0 c ++ blanks) = POk c' [] /\ cmd_map wtext c' = c.
Proof.
  intros Hc Hb. destruct (reads_all c Hc) as (_ & _ & _ & H0). destruct (H0 blanks) as (c' & n & Hm & Hp); [unfold follows; by rewrite Hb|].
  set (line := show 0 c ++ blanks) in *. rewrite Hb in Hp. exists c'. split; [|done]. unfold parsecmd.
  pose proof (proj1 (parse_ends (parse_fuel line)) line ltac:(unfold parse_fuel; lia)) as He.
  assert (parseline (parse_fuel line) line = POk c' []) as ->; [|done].
  rewrite <- (Hp (n `max` parse_fuel line)%nat) by lia. symmetry.
  apply (parseline_mono (parse_fuel line)); [lia|done|].
  intros E. by rewrite E in He.
Qed.
Lemma parsecmd_show c :
  cmd_ok c -> exists c', parsecmd (show 0 c) = POk c' [] /\ cmd_map wtext c' = c.
Proof. intros Hc. destruct (parsecmd_blanks c [] Hc eq_refl) as (c' & E & Hm). exists c'. by rewrite app_nil_r in E. Qed.

(** ** The words after nulterminate() *)

Fixpoint words {W} (c : cmd W) : list W :=
  match c with
  | EXEC argv => argv
  | REDIR c w _ _ => words c ++ [w]
  | PIPE l r | LIST l r => words l ++ words r
  | BACK c => words c
  end.

(** A C string: the characters before the first NUL. *)
Fixpoint cstr (l : list Z) : list Z :=
  match l with [] => [] | c :: l' => if decide (c = 0) then [] else c :: cstr l' end.
(** The index of a pointer into the line [s]. *)
Definition index (s p : ptr) : nat := length s - length p.

Lemma nulterminate_words c line :
  nulterminate c line = foldl (fun line w => store_nul line w.2) line (words c).
Proof.
  revert line. induction c as [argv|c IH w m f|l IHl r IHr|l IHl r IHr|c IH]; intros line; cbn; [done| | | |done].
  - by rewrite foldl_app, IH.
  - by rewrite foldl_app, IHl, IHr.
  - by rewrite foldl_app, IHl, IHr.
Qed.

(** A word between two positions of the line: it begins with a character of a
    word and ends before a delimiter. *)
Record word_in (s s' : ptr) (w : word) : Prop := {
  wi_start : w.1 `suffix_of` s;
  wi_word : w.2 `suffix_of` w.1;
  wi_end : s' `suffix_of` w.2;
  wi_first : ~ delimited w.1;
  wi_last : delimited w.2
}.
(** The NUL of [w'] is not stored inside [w]. *)
Definition apart (w w' : word) : Prop := (length w.1 < length w'.2 \/ length w'.2 <= length w.2)%nat.
Definition placed (s s' : ptr) (ws : list word) : Prop :=
  (forall w, w ∈ ws -> word_in s s' w) /\ (forall w w', w ∈ ws -> w' ∈ ws -> apart w w').

Lemma suffix_same_length (s p q : ptr) : p `suffix_of` s -> q `suffix_of` s -> length p = length q -> p = q.
Proof.
  intros [k1 ->] [k2 E] Hl. apply (f_equal reverse) in E. rewrite !reverse_app in E.
  apply app_inj_1 in E as [E _]; [|by rewrite !length_reverse]. by apply (inj reverse) in E.
Qed.

Lemma placed_nil s : placed s s [].
Proof. split; [by intros w ?%elem_of_nil|by intros w w' ?%elem_of_nil]. Qed.

Lemma placed_weaken s0 s s' s1 ws : s `suffix_of` s0 -> s1 `suffix_of` s' -> placed s s' ws -> placed s0 s1 ws.
Proof.
  intros H0 H1 [Hi Ha]. split; [|done]. intros w Hw. destruct (Hi w Hw). constructor; [by etrans|done|by etrans|done|done].
Qed.

Lemma placed_app s s1 s2 ws1 ws2 :
  s1 `suffix_of` s -> s2 `suffix_of` s1 -> placed s s1 ws1 -> placed s1 s2 ws2 -> placed s s2 (ws1 ++ ws2).
Proof.
  intros Hs1 Hs2 [Hi1 Ha1] [Hi2 Ha2]. split.
  - intros w [Hw|Hw]%elem_of_app.
    + destruct (Hi1 w Hw). constructor; [done|done|by etrans|done|done].
    + destruct (Hi2 w Hw). constructor; [by etrans|done|done|done|done].
  - intros w w' [Hw|Hw]%elem_of_app [Hw'|Hw']%elem_of_app; [by apply Ha1| | |by apply Ha2].
    + right. destruct (Hi1 w Hw) as [_ _ E1 _ _], (Hi2 w' Hw') as [B2 W2 _ _ _].
      apply suffix_length in E1, B2, W2. lia.
    + left. destruct (Hi1 w' Hw') as [B1 W1 E1 _ D1], (Hi2 w Hw) as [B2 _ _ F2 _].
      assert (length w.1 <= length w'.2)%nat as Hle by (apply suffix_length in E1, B2; lia).
      destruct (decide (length w.1 = length w'.2)) as [El|]; [|lia].
      assert (w.1 = w'.2) as Ew by (apply (suffix_same_length s); [by etrans|by etrans|done]).
      rewrite Ew in F2. done.
Qed.

Lemma placed_elem s s' ws ws' : (forall w, w ∈ ws' -> w ∈ ws) -> placed s s' ws -> placed s s' ws'.
Proof. intros Hsub [Hi Ha]. split; auto. Qed.

(** A word token. *)
Lemma word_end_delimited s : delimited (word_end s).
Proof. induction s as [|c s IH]; cbn; [done|]. case_decide; [done|]. apply IH. Qed.

Lemma gettoken_placed s w s' : gettoken s = (TOK_WORD, w, s') -> placed s s' [w].
Proof.
  unfold gettoken. destruct (skip_ws s) as [|c q] eqn:Eq; [done|]. unfold scan_token.
  case_decide as H1; [intros [= -> <- <-]; exfalso; revert H1; set_solver|].
  case_decide as H2; [destruct q as [|c2 q]; [done|]; by case_decide|].
  intros [= <- <-]. pose proof (skip_ws_head s c q Eq) as Hws.
  assert (~ (c ∈ whitespace \/ c ∈ symbols)) as Hc by (intros [?|Hx]; [done|]; unfold symbols in Hx; set_solver).
  assert (word_in s (skip_ws (word_end (c :: q))) (c :: q, word_end (c :: q))) as Hin.
  { constructor.
    - cbn [fst]. rewrite <- Eq. apply skip_ws_suffix.
    - apply word_end_suffix.
    - apply skip_ws_suffix.
    - exact Hc.
    - apply word_end_delimited. }
  split; [by intros x ->%list_elem_of_singleton|].
  intros x y ->%list_elem_of_singleton ->%list_elem_of_singleton. by right.
Qed.

Definition rwords (rs : list redir) : list word := map (fun r => r.1.1) rs.
Lemma words_wrap c rs : words (wrap c rs) = words c ++ rwords rs.
Proof.
  revert c. induction rs as [|r rs IH]; intros c; [cbn; by rewrite app_nil_r|].
  change (wrap c (r :: rs)) with (wrap (redircmd c r) rs). rewrite IH. cbn. by rewrite <- app_assoc.
Qed.

Lemma pbind_inv {A B} (r : pres A) (f : A -> ptr -> pres B) b s :
  pbind r f = POk b s -> exists a s1, r = POk a s1 /\ f a s1 = POk b s.
Proof. destruct r; cbn; naive_solver. Qed.

Lemma peek_inv s toks b s1 : peek s toks = (b, s1) -> s1 `suffix_of` s.
Proof. intros E. pose proof (peek_suffix s toks) as H. by rewrite E in H. Qed.
Lemma gettoken_inv s t w s1 : gettoken s = (t, w, s1) -> s1 `suffix_of` s.
Proof. intros E. pose proof (gettoken_suffix s) as H. by rewrite E in H. Qed.

Lemma parseredirs_placed fuel : forall s rs s',
  parseredirs fuel s = POk rs s' -> s' `suffix_of` s /\ placed s s' (rwords rs).
Proof.
  induction fuel as [|fuel IH]; intros s rs s'; cbn [parseredirs]; [done|].
  destruct (peek s _) as [[] s1] eqn:E1; apply peek_inv in E1 as S1.
  2: { intros [= <- <-]. split; [done|]. by apply (placed_weaken s s s); [| |apply placed_nil]. }
  destruct (gettoken s1) as [[t w0] s2] eqn:E2. apply gettoken_inv in E2 as S2.
  destruct (gettoken s2) as [[t2 w] s3] eqn:E3. apply gettoken_inv in E3 as S3.
  case_decide as Ht; [done|]. subst.
  intros (rs1 & s4 & Er & [= <- <-])%pbind_inv. apply IH in Er as [S4 P4].
  assert (s3 `suffix_of` s) as S03 by (etrans; [|done]; by etrans).
  split; [by etrans|]. apply gettoken_placed in E3.
  apply (placed_elem s s4 ([w] ++ rwords rs1)).
  - intros x. unfold rwords. rewrite map_app, !elem_of_app. intros [Hx|Hx]; [left|by right].
    repeat case_decide; cbn in Hx; set_solver.
  - apply (placed_app s s3); [done|done| |done]. apply (placed_weaken s s2 s3 s3); [by etrans|done|done].
Qed.

Lemma parseargs_placed fuel : forall argv rs s c s' s0,
  parseargs fuel argv rs s = POk c s' -> s `suffix_of` s0 -> placed s0 s (argv ++ rwords rs) ->
  s' `suffix_of` s /\ placed s0 s' (words c).
Proof.
  induction fuel as [|fuel IH]; intros argv rs s c s' s0; cbn [parseargs]; [done|].
  destruct (peek s _) as [[] s1] eqn:E1; apply peek_inv in E1 as S1.
  { intros [= <- <-] S0 P. split; [done|]. rewrite words_wrap. by apply (placed_weaken s0 s0 s). }
  destruct (gettoken s1) as [[t w] s2] eqn:E2. apply gettoken_inv in E2 as S2.
  case_decide as H0.
  { intros [= <- <-] S0 P. split; [by etrans|]. rewrite words_wrap. apply (placed_weaken s0 s0 s); [done|by etrans|done]. }
  case_decide as Ht; [done|]. subst. case_decide; [done|].
  intros (rs' & s3 & Er & Ea)%pbind_inv S0 P. apply parseredirs_placed in Er as [S3 P3].
  assert (s2 `suffix_of` s) as S02 by by etrans. assert (s3 `suffix_of` s) as S03 by by etrans.
  apply gettoken_placed in E2.
  assert (placed s s3 ([w] ++ rwords rs')) as Pn.
  { apply (placed_app s s2); [done|done| |done]. by apply (placed_weaken s s1 s2 s2). }
  destruct (IH _ _ _ _ _ s0 Ea) as [S' P']; [by etrans| |split; [by etrans|done]].
  apply (placed_elem s0 s3 ((argv ++ rwords rs) ++ [w] ++ rwords rs')).
  - intros x. unfold rwords. rewrite map_app. rewrite !elem_of_app. tauto.
  - by apply (placed_app s0 s).
Qed.

Lemma parseback_placed fuel : forall c s c' s',
  parseback fuel c s = POk c' s' -> s' `suffix_of` s /\ words c' = words c.
Proof.
  induction fuel as [|fuel IH]; intros c s c' s'; cbn [parseback]; [done|].
  destruct (peek s _) as [[] s1] eqn:E1; apply peek_inv in E1 as S1; [|by intros [= <- <-]].
  destruct (gettoken s1) as [[t w] s2] eqn:E2. apply gettoken_inv in E2 as S2.
  intros [S' ->]%IH. split; [|done]. etrans; [done|]. by etrans.
Qed.

Definition reads_placed (P : ptr -> pres (cmd word)) : Prop :=
  forall s c s', P s = POk c s' -> s' `suffix_of` s /\ placed s s' (words c).

(** One command, a token, and another command. *)
Lemma placed_two s s1 s2 s3 ws1 ws2 :
  s1 `suffix_of` s -> s2 `suffix_of` s1 -> s3 `suffix_of` s2 ->
  placed s s1 ws1 -> placed s2 s3 ws2 -> s3 `suffix_of` s /\ placed s s3 (ws1 ++ ws2).
Proof.
  intros H1 H2 H3 P1 P2. split; [etrans; [done|]; by etrans|].
  apply (placed_app s s2); [by etrans|done| |done]. by apply (placed_weaken s s s1 s2).
Qed.

Lemma parse_placed fuel :
  reads_placed (parseline fuel) /\ reads_placed (parsepipe fuel) /\
  reads_placed (parseexec fuel) /\ reads_placed (parseblock fuel).
Proof.
  induction fuel as [|fuel (IHl & IHp & IHe & IHb)]; [split_and!; by intros s c s'|].
  split_and!; intros s c s'.
  - rewrite parseline_eq. intros (c1 & s1 & E1 & E)%pbind_inv. unfold pipe_back in E1.
    apply pbind_inv in E1 as (c0 & s0 & [S0 P0]%IHp & [S1 W1]%parseback_placed). rewrite <- W1 in P0.
    assert (placed s s1 (words c1)) as P1 by by apply (placed_weaken s s s0 s1).
    assert (s1 `suffix_of` s) as S1' by by etrans.
    destruct (peek s1 _) as [[] s2] eqn:E2; apply peek_inv in E2 as S2.
    + destruct (gettoken s2) as [[t w] s3] eqn:E3. apply gettoken_inv in E3 as S3.
      apply pbind_inv in E as (c2 & s4 & [S4 P4]%IHl & [= <- <-]). by apply (placed_two s s1 s3); [|etrans| | |].
    + injection E as <- <-. split; [by etrans|]. by apply (placed_weaken s s s1 s2).
  - cbn [parsepipe]. intros (c1 & s1 & [S1 P1]%IHe & E)%pbind_inv.
    destruct (peek s1 _) as [[] s2] eqn:E2; apply peek_inv in E2 as S2.
    + destruct (gettoken s2) as [[t w] s3] eqn:E3. apply gettoken_inv in E3 as S3.
      apply pbind_inv in E as (c2 & s4 & [S4 P4]%IHp & [= <- <-]). by apply (placed_two s s1 s3); [|etrans| | |].
    + injection E as <- <-. split; [by etrans|]. by apply (placed_weaken s s s1 s2).
  - cbn [parseexec]. destruct (peek s _) as [[] s1] eqn:E1; apply peek_inv in E1 as S1.
    + intros [S2 P2]%IHb. split; [by etrans|]. by apply (placed_weaken s s1 s' s').
    + intros (rs & s2 & [S2 P2]%parseredirs_placed & E)%pbind_inv.
      destruct (parseargs_placed _ _ _ _ _ _ s1 E S2 P2) as [S3 P3].
      split; [etrans; [done|]; by etrans|]. by apply (placed_weaken s s1 s' s').
  - cbn [parseblock]. destruct (peek s _) as [[] s1] eqn:E1; apply peek_inv in E1 as S1; cbn [negb]; [|done].
    destruct (gettoken s1) as [[t w] s2] eqn:E2. apply gettoken_inv in E2 as S2.
    intros (c1 & s3 & [S3 P3]%IHl & E)%pbind_inv.
    destruct (peek s3 _) as [[] s4] eqn:E4; apply peek_inv in E4 as S4; cbn [negb] in E; [|done].
    destruct (gettoken s4) as [[t2 w2] s5] eqn:E5. apply gettoken_inv in E5 as S5.
    apply pbind_inv in E as (rs & s6 & [S6 P6]%parseredirs_placed & [= <- <-]). rewrite words_wrap.
    assert (s2 `suffix_of` s) as S02 by by etrans.
    apply (placed_two s s3 s5 s6); [by etrans|by etrans|done| |done]. by apply (placed_weaken s s2 s3 s3).
Qed.

Lemma cstr_at t : forall l, 0 ∉ t -> (forall j, (j < length t)%nat -> l !! j = t !! j) -> l !! length t = Some 0 -> cstr l = t.
Proof.
  induction t as [|x t IH]; intros l H0 Hj Hn; destruct l as [|y l]; try done.
  - cbn in *. injection Hn as ->. done.
  - apply not_elem_of_cons in H0 as [Hx H0]. pose proof (Hj O ltac:(cbn; lia)) as [= ->]. cbn.
    rewrite decide_False by congruence. f_equal. apply IH; [done| |done]. intros j Hl. apply (Hj (S j)). cbn. lia.
Qed.

Lemma store_nuls_length ws line : length (foldl (fun line (w : word) => store_nul line w.2) line ws) = length line.
Proof. revert line. induction ws as [|w ws IH]; intros line; cbn; [done|]. rewrite IH. unfold store_nul. apply length_insert. Qed.

Lemma store_nuls_other ws line i :
  (forall w, w ∈ ws -> i <> (length line - S (length w.2))%nat) ->
  foldl (fun line (w : word) => store_nul line w.2) line ws !! i = line !! i.
Proof.
  revert line. induction ws as [|w ws IH]; intros line Hi; cbn; [done|]. rewrite IH.
  - unfold store_nul. apply list_lookup_insert_ne. intros E. apply (Hi w); [left|done].
  - intros w' Hw'. unfold store_nul. rewrite length_insert. apply Hi. by right.
Qed.

Lemma store_nuls_at ws line w :
  w ∈ ws -> (length line - S (length w.2) < length line)%nat ->
  foldl (fun line (w : word) => store_nul line w.2) line ws !! (length line - S (length w.2))%nat = Some 0.
Proof.
  intros Hw Hl. induction ws as [|w' ws IH] using rev_ind; [by apply elem_of_nil in Hw|].
  rewrite foldl_app. cbn [foldl]. unfold store_nul at 1. rewrite store_nuls_length.
  destruct (decide (length w'.2 = length w.2)) as [E|E].
  - rewrite E. apply list_lookup_insert_eq. by rewrite store_nuls_length.
  - apply elem_of_app in Hw as [Hw| ->%list_elem_of_singleton]; [|done].
    destruct (decide ((length line - S (length w'.2))%nat = (length line - S (length w.2))%nat)) as [E2|E2].
    + rewrite E2. apply list_lookup_insert_eq. by rewrite store_nuls_length.
    + rewrite list_lookup_insert_ne by done. by apply IH.
Qed.

(** Every argument and file name the shell goes on to use is the word that was
    typed. *)
Lemma nulterminate_cstr s c rest w :
  parsecmd s = POk c rest -> 0 ∉ s -> w ∈ words c ->
  cstr (drop (index s w.1) (parsed_line s c)) = wtext w.
Proof.
  unfold parsecmd. intros (c0 & r & Ep & E)%pbind_inv H0 Hw.
  assert (c0 = c) as -> by (destruct (peek r []); case_decide; naive_solver). clear E.
  destruct (proj1 (parse_placed _) s c r Ep) as [_ [Hin Hap]].
  destruct (Hin w Hw) as [[k Ek] [t Et] _ _ _]. unfold parsed_line. rewrite nulterminate_words.
  assert (wtext w = t) as Ewt.
  { unfold wtext. rewrite Et, length_app. replace (length t + length w.2 - length w.2)%nat with (length t) by lia. apply take_app_length. }
  assert (index s w.1 = length k) as -> by (unfold index; rewrite Ek, length_app; lia).
  assert (length (s ++ [0%Z]) = length k + length t + S (length w.2))%nat as Hlen.
  { rewrite length_app, Ek, length_app, Et, length_app. cbn. lia. }
  rewrite Ewt. apply cstr_at.
  - intros Ht. apply H0. rewrite Ek, Et. rewrite !elem_of_app. auto.
  - intros j Hj. rewrite lookup_drop, store_nuls_other.
    + rewrite lookup_app_l by (rewrite Ek, length_app, Et, length_app; lia).
      rewrite Ek, lookup_app_r by lia. replace (length k + j - length k)%nat with j by lia.
      rewrite Et. by apply lookup_app_l.
    + intros w' Hw' E. pose proof (suffix_length _ _ (wi_word _ _ _ (Hin w' Hw'))).
      pose proof (suffix_length _ _ (wi_start _ _ _ (Hin w' Hw'))).
      assert (length w.1 = length t + length w.2)%nat by (rewrite Et, length_app; done).
      assert (length (s ++ [0%Z]) = S (length s)) by (rewrite length_app; cbn; lia).
      destruct (Hap w w' Hw Hw') as [Ha|Ha]; lia.
  - rewrite lookup_drop. replace (length k + length t)%nat with (length (s ++ [0%Z]) - S (length w.2))%nat by lia.
    apply store_nuls_at; [done|lia].
Qed.
