(* ===== verification/Ulib.v ===== *)
(** * user/ulib.c: the string routines of the user library

    The routines run on the memory of a process.  Those that stop at a NUL have
    fuel; [None] means that no NUL was met within it, and the lemmas show that
    the length of the string is enough.  gets() reads from the descriptor as a
    list of characters, [None] standing for a failed or empty read. *)

From S2P Require Import Prelude Machine.

(** [while(( *s++ = *t++) != 0);] *)
Fixpoint strcpy (fuel : nat) (m : mem) (s t : Z) : option mem :=
  match fuel with
  | O => None
  | S fuel' =>
      let c := read8 m t in
      let m := write8 m s c in
      if decide (c <> 0) then strcpy fuel' m (s + 1) (t + 1) else Some m
  end.

(** [while( *p && *p == *q) p++, q++;] *)
Fixpoint strcmp (fuel : nat) (m : mem) (p q : Z) : option Z :=
  match fuel with
  | O => None
  | S fuel' =>
      if decide (read8 m p <> 0 /\ read8 m p = read8 m q) then strcmp fuel' m (p + 1) (q + 1)
      else Some (read8 m p - read8 m q)
  end.

Fixpoint strlen_from (fuel : nat) (m : mem) (s n : Z) : option Z :=
  match fuel with
  | O => None
  | S fuel' => if decide (read8 m (s + n) <> 0) then strlen_from fuel' m s (n + 1) else Some (u32 n)
  end.
Definition strlen (fuel : nat) (m : mem) (s : Z) : option Z := strlen_from fuel m s 0.

Fixpoint memset_from (cnt : nat) (m : mem) (dst c i : Z) : mem :=
  match cnt with
  | O => m
  | S cnt' => memset_from cnt' (write8 m (dst + i) c) dst c (i + 1)
  end.
Definition memset (m : mem) (dst c n : Z) : mem := memset_from (Z.to_nat n) m dst c 0.

(** strchr(): 0 when the character is not there. *)
Fixpoint strchr (fuel : nat) (m : mem) (s c : Z) : option Z :=
  match fuel with
  | O => None
  | S fuel' =>
      if decide (read8 m s = 0) then Some 0
      else if decide (read8 m s = u8 c) then Some s
      else strchr fuel' m (s + 1) c
  end.

(** gets(): [i] characters are stored; [input] is what the reads deliver. *)
Fixpoint gets_from (input : list (option Z)) (m : mem) (buf max i : Z) {struct input} : mem * Z * list (option Z) :=
  if decide (i + 1 < max) then
    match input with
    | Some c :: input' =>
        let m := write8 m (buf + i) c in
        if decide (c = 10 \/ c = 13) then (m, i + 1, input')
        else gets_from input' m buf max (i + 1)
    | None :: input' => (m, i, input')
    | [] => (m, i, [])
    end
  else (m, i, input).
Definition gets (input : list (option Z)) (m : mem) (buf max : Z) : mem * list (option Z) :=
  let '(m, i, input) := gets_from input m buf max 0 in (write8 m (buf + i) 0, input).

(** atoi(): the int arithmetic wraps. *)
Fixpoint atoi_from (fuel : nat) (m : mem) (s n : Z) : option Z :=
  match fuel with
  | O => None
  | S fuel' =>
      if decide (48 <= read8 m s <= 57) then atoi_from fuel' m (s + 1) (i32 (n * 10 + read8 m s - 48))
      else Some n
  end.
Definition atoi (fuel : nat) (m : mem) (s : Z) : option Z := atoi_from fuel m s 0.

Fixpoint memmove_fwd (cnt : nat) (m : mem) (dst src : Z) : mem :=
  match cnt with
  | O => m
  | S cnt' => memmove_fwd cnt' (write8 m dst (read8 m src)) (dst + 1) (src + 1)
  end.
Fixpoint memmove_bwd (cnt : nat) (m : mem) (dst src : Z) : mem :=
  match cnt with
  | O => m
  | S cnt' => memmove_bwd cnt' (write8 m (dst - 1) (read8 m (src - 1))) (dst - 1) (src - 1)
  end.
Definition memmove (m : mem) (vdst vsrc n : Z) : mem :=
  if decide (vsrc > vdst) then memmove_fwd (Z.to_nat n) m vdst vsrc
  else memmove_bwd (Z.to_nat n) m (vdst + n) (vsrc + n).
Definition memcpy (m : mem) (dst src n : Z) : mem := memmove m dst src (i32 n).

Fixpoint memcmp_from (cnt : nat) (m : mem) (p1 p2 : Z) : Z :=
  match cnt with
  | O => 0
  | S cnt' => if decide (read8 m p1 <> read8 m p2) then read8 m p1 - read8 m p2 else memcmp_from cnt' m (p1 + 1) (p2 + 1)
  end.
Definition memcmp (m : mem) (s1 s2 n : Z) : Z := memcmp_from (Z.to_nat n) m s1 s2.

(** ** Strings in memory *)

(** The C string [str] lies at [a]. *)
Fixpoint string_at (m : mem) (a : Z) (str : list Z) : Prop :=
  match str with
  | [] => read8 m a = 0
  | c :: str' => read8 m a = c /\ c <> 0 /\ string_at m (a + 1) str'
  end.

Lemma string_at_ext m m' a str :
  (forall i, a <= i <= a + Z.of_nat (length str) -> read8 m' i = read8 m i) -> string_at m a str -> string_at m' a str.
Proof.
  revert a. induction str as [|c str IH]; intros a E; cbn [string_at length] in *.
  - intros H. rewrite E by lia. done.
  - intros (H1 & H2 & H3). rewrite E by lia. split_and!; [done..|]. apply IH; [|done]. intros i Hi. apply E. lia.
Qed.

Lemma strlen_from_ok m s str : forall fuel n,
  string_at m (s + n) str -> (length str < fuel)%nat -> strlen_from fuel m s n = Some (u32 (n + Z.of_nat (length str))).
Proof.
  induction str as [|c str IH]; intros fuel n Hs Hf; (destruct fuel as [|fuel]; [cbn in Hf; lia|]); cbn [strlen_from string_at length] in *.
  - rewrite decide_False by lia. do 2 f_equal. lia.
  - destruct Hs as (H1 & H2 & H3). rewrite decide_True by congruence. rewrite IH; [do 2 f_equal; lia| |lia].
    by rewrite Z.add_assoc.
Qed.

(** The order of strings that strcmp() decides: the difference at the first
    place where they differ, the end of a string counting as NUL. *)
Fixpoint str_diff (p q : list Z) : Z :=
  match p, q with
  | [], [] => 0
  | [], d :: _ => - d
  | c :: _, [] => c
  | c :: p', d :: q' => if decide (c = d) then str_diff p' q' else c - d
  end.

Lemma strcmp_ok m p q : forall fuel a b,
  string_at m a p -> string_at m b q -> (length p < fuel)%nat -> strcmp fuel m a b = Some (str_diff p q).
Proof.
  revert q. induction p as [|c p IH]; intros q fuel a b Hp Hq Hf; (destruct fuel as [|fuel]; [cbn in Hf; lia|]);
    cbn [strcmp string_at length str_diff] in *.
  - rewrite decide_False by tauto. rewrite Hp. destruct q as [|d q]; cbn in Hq; [by rewrite Hq|].
    by destruct Hq as (-> & _).
  - destruct Hp as (H1 & H2 & H3). destruct q as [|d q]; cbn [string_at] in Hq.
    + rewrite decide_False by lia. rewrite H1, Hq. f_equal. lia.
    + destruct Hq as (G1 & G2 & G3). rewrite H1, G1. destruct (decide (c = d)) as [->|Hne].
      * rewrite decide_True by done. apply IH; [done|done|lia].
      * by rewrite decide_False by tauto.
Qed.

Lemma str_diff_zero m a b p q : string_at m a p -> string_at m b q -> str_diff p q = 0 <-> p = q.
Proof.
  revert a b q. induction p as [|c p IH]; intros a b [|d q]; cbn; try done.
  - intros _ (_ & Hd & _). split; [lia|done].
  - intros (_ & Hc & _) _. split; [lia|done].
  - intros (H1 & H2 & H3) (G1 & G2 & G3). destruct (decide (c = d)) as [->|Hne].
    + rewrite (IH (a + 1) (b + 1) q H3 G3). split; [by intros ->|by intros [= ->]].
    + split; [lia|by intros [= ? ?]].
Qed.

(** Copying a string to a place it does not overlap. *)
Lemma strcpy_ok str : forall fuel m s t,
  string_at m t str -> (length str < fuel)%nat ->
  (s + Z.of_nat (length str) < t \/ t + Z.of_nat (length str) < s) ->
  exists m', strcpy fuel m s t = Some m' /\ string_at m' s str /\
    forall a, a < s \/ s + Z.of_nat (length str) < a -> read8 m' a = read8 m a.
Proof.
  induction str as [|c str IH]; intros fuel m s t Hs Hf Hd; (destruct fuel as [|fuel]; [cbn in Hf; lia|]);
    cbn [strcpy string_at length] in *.
  - rewrite decide_False by lia. eexists. split; [done|]. rewrite read8_write8_eq, Hs. split; [done|].
    intros a Ha. apply read8_write8_ne. lia.
  - destruct Hs as (H1 & H2 & H3). rewrite decide_True by congruence.
    destruct (IH fuel (write8 m s (read8 m t)) (s + 1) (t + 1)) as (m' & E & Hs' & Ho); [|lia|lia|].
    { apply (string_at_ext m); [|done]. intros i Hi. apply read8_write8_ne. lia. }
    exists m'. split; [done|]. split_and!; [|done|done|].
    + rewrite Ho by lia. rewrite read8_write8_eq, H1. apply u8_small. pose proof (read8_range m t). lia.
    + intros a Ha. rewrite Ho by lia. apply read8_write8_ne. lia.
Qed.

(** ** atoi *)
Definition is_digit (c : Z) : Prop := 48 <= c <= 57.
(** The value of a run of digits after [n]. *)
Definition decimal (n : Z) (ds : list Z) : Z := foldl (fun n c => n * 10 + (c - 48)) n ds.

Lemma i32_decimal n ds : i32 (decimal (i32 n) ds) = i32 (decimal n ds).
Proof.
  revert n. induction ds as [|c ds IH]; intros n; [apply i32_idemp|].
  change (i32 (decimal (i32 n * 10 + (c - 48)) ds) = i32 (decimal (n * 10 + (c - 48)) ds)).
  rewrite <- (IH (i32 n * 10 + (c - 48))), <- (IH (n * 10 + (c - 48))). f_equal. f_equal.
  unfold i32. pose proof (Z.div_mod (n + 2 ^ 31) (2 ^ 32) ltac:(lia)) as E.
  set (q := (n + 2 ^ 31) / 2 ^ 32) in *. set (r := (n + 2 ^ 31) mod 2 ^ 32) in *.
  replace (n * 10 + (c - 48) + 2 ^ 31) with (((r - 2 ^ 31) * 10 + (c - 48) + 2 ^ 31) + (10 * q) * 2 ^ 32) by lia.
  by rewrite Z.mod_add by lia.
Qed.

Lemma atoi_from_ok m ds rest : forall fuel s n,
  string_at m s (ds ++ rest) -> Forall is_digit ds -> (match rest with c :: _ => ~ is_digit c | [] => True end) ->
  (length ds < fuel)%nat -> atoi_from fuel m s (i32 n) = Some (i32 (decimal n ds)).
Proof.
  induction ds as [|c ds IH]; intros fuel s n Hs Hd Hr Hf; (destruct fuel as [|fuel]; [cbn in Hf; lia|]);
    cbn [atoi_from length app] in *.
  - rewrite decide_False; [done|]. destruct rest as [|c rest]; cbn in Hs; [lia|]. destruct Hs as (-> & _). done.
  - cbn in Hs. destruct Hs as (-> & H2 & H3). apply Forall_cons in Hd as [Hc Hd]. unfold is_digit in Hc.
    rewrite decide_True by lia.
    replace (i32 n * 10 + c - 48) with (decimal (i32 n) [c]) by (cbn; lia). rewrite i32_decimal.
    rewrite IH by (done || lia). done.
Qed.

(** ** memmove *)
Lemma uread8_memmove_fwd cnt : forall m d s a,
  d <= s -> read8 (memmove_fwd cnt m d s) a =
  if decide (d <= a < d + Z.of_nat cnt) then read8 m (s + (a - d)) else read8 m a.
Proof.
  induction cnt as [|cnt IH]; intros m d s a Hds; cbn [memmove_fwd].
  - rewrite decide_False by lia. done.
  - rewrite IH by lia. repeat case_decide; try lia.
    + rewrite read8_write8_ne by lia. f_equal. lia.
    + replace a with d by lia. rewrite read8_write8_eq. replace (s + (d - d)) with s by lia.
      apply u8_small. pose proof (read8_range m s). lia.
    + apply read8_write8_ne. lia.
Qed.
Lemma uread8_memmove_bwd cnt : forall m d s a,
  s <= d -> read8 (memmove_bwd cnt m d s) a =
  if decide (d - Z.of_nat cnt <= a < d) then read8 m (s + (a - d)) else read8 m a.
Proof.
  induction cnt as [|cnt IH]; intros m d s a Hds; cbn [memmove_bwd].
  - rewrite decide_False by lia. done.
  - rewrite IH by lia. repeat case_decide; try lia.
    + rewrite read8_write8_ne by lia. f_equal. lia.
    + replace a with (d - 1) by lia. rewrite read8_write8_eq. replace (s + (d - 1 - d)) with (s - 1) by lia.
      apply u8_small. pose proof (read8_range m (s - 1)). lia.
    + apply read8_write8_ne. lia.
Qed.

(** Every byte of the destination gets the old byte of the source, however the
    two overlap. *)
Lemma uread8_memmove m d s n a :
  0 <= n -> read8 (memmove m d s n) a = if decide (d <= a < d + n) then read8 m (s + (a - d)) else read8 m a.
Proof.
  intros Hn. unfold memmove. case_decide.
  - rewrite uread8_memmove_fwd by lia. by rewrite Z2Nat.id by lia.
  - rewrite uread8_memmove_bwd by lia. rewrite Z2Nat.id by lia.
    replace (d + n - n) with d by lia. replace (s + n + (a - (d + n))) with (s + (a - d)) by lia. done.
Qed.

(** ** gets *)

(** The characters a call of gets() takes: up to [max - 1] of them, up to and
    including the first newline or carriage return. *)
Fixpoint line_of (max : nat) (input : list (option Z)) : list Z :=
  match max, input with
  | S (S max'), Some c :: input' => if decide (c = 10 \/ c = 13) then [c] else c :: line_of (S max') input'
  | _, _ => []
  end.

Lemma gets_from_ok input : forall m buf max i,
  0 <= i < max -> Forall (fun o => match o with Some c => 0 <= c < 256 | None => True end) input ->
  let line := line_of (Z.to_nat (max - i)) input in
  let '(m', i', _) := gets_from input m buf max i in
  i' = i + Z.of_nat (length line) /\ i' < max /\
  read_bytes (length line) m' (buf + i) = line /\
  forall a, a < buf + i \/ buf + i' <= a -> read8 m' a = read8 m a.
Proof.
  induction input as [|o input IH]; intros m buf max i Hi Hin; cbn [gets_from].
  - assert (line_of (Z.to_nat (max - i)) [] = []) as -> by by destruct (Z.to_nat (max - i)) as [|[|?]].
    case_decide; cbn; split_and!; (done || lia).
  - apply Forall_cons in Hin as [Ho Hin]. case_decide as Hlt.
    2: { replace (Z.to_nat (max - i)) with 1%nat by lia. cbn. split_and!; (done || lia). }
    destruct (Z.to_nat (max - i)) as [|[|mx]] eqn:Em; [lia..|]. destruct o as [c|]; [|cbn; split_and!; (done || lia)].
    cbn [line_of]. case_decide as Hc.
    + cbn [length read_bytes]. split_and!; [lia|lia| |].
      * change ([read8 (write8 m (buf + i) c) (buf + i)] = [c]). by rewrite read8_write8_eq, u8_small.
      * intros a Ha. apply read8_write8_ne. lia.
    + specialize (IH (write8 m (buf + i) c) buf max (i + 1) ltac:(lia) Hin).
      assert (Z.to_nat (max - (i + 1)) = S mx) as Em2 by lia. rewrite Em2 in IH. cbn zeta in IH.
      destruct (gets_from input _ buf max (i + 1)) as [[m' i'] rest]. destruct IH as (E1 & E2 & E3 & E4).
      split_and!; [cbn [length]; lia|done| |].
      * change (read8 m' (buf + i) :: read_bytes (length (line_of (S mx) input)) m' (buf + i + 1) = c :: line_of (S mx) input).
        f_equal.
        -- rewrite E4 by lia. rewrite read8_write8_eq. by apply u8_small.
        -- by rewrite <- Z.add_assoc.
      * intros a Ha. rewrite E4 by lia. apply read8_write8_ne. lia.
Qed.

(** gets() stores a line and its NUL within the [max] bytes of the buffer. *)
Lemma gets_ok input m buf max :
  0 < max -> Forall (fun o => match o with Some c => 0 <= c < 256 | None => True end) input ->
  let line := line_of (Z.to_nat max) input in
  let m' := (gets input m buf max).1 in
  Z.of_nat (length line) < max /\ read_bytes (length line) m' buf = line /\
  read8 m' (buf + Z.of_nat (length line)) = 0 /\
  forall a, a < buf \/ buf + max <= a -> read8 m' a = read8 m a.
Proof.
  intros Hm Hin. pose proof (gets_from_ok input m buf max 0 ltac:(lia) Hin) as H. cbn zeta in *.
  replace (max - 0) with max in H by lia. rewrite Z.add_0_r in H. unfold gets.
  destruct (gets_from input m buf max 0) as [[m' i'] rest]. destruct H as (E1 & E2 & E3 & E4).
  rewrite Z.add_0_l in E1. cbn [fst]. split_and!; [lia| | |].
  - rewrite <- E3 at 2. apply read_bytes_ext. intros j Hj. apply read8_write8_ne. lia.
  - by rewrite E1, read8_write8_eq.
  - intros a Ha. rewrite read8_write8_ne by lia. apply E4. lia.
Qed.
