(* ===== verification/Uprintf.v ===== *)
(** * user/printf.c, and the programs that print counts: wc, cat and ls

    putc() writes one byte to a descriptor; what a routine writes is the list of
    pairs (descriptor, byte).  A variadic argument is a register, fetched at the
    width of the conversion, or a string; fetching a string where a number is
    asked for, or one argument too many, has no meaning and stops the model.
    A format is a C string: the bytes before its NUL. *)

From S2P Require Import Prelude Machine.
From Stdlib Require Import Ascii.

Definition chr (c : ascii) : Z := Z.of_nat (nat_of_ascii c).
Fixpoint chrs (s : string) : list Z :=
  match s with
  | EmptyString => []
  | String c s' => chr c :: chrs s'
  end.

Definition writes : Type := list (Z * Z).
Definition putc (fd c : Z) : writes := [(fd, u8 c)].
Definition puts (fd : Z) (l : list Z) : writes := flat_map (putc fd) l.

Definition digits : list Z := chrs "0123456789ABCDEF".
Definition udigit (d : Z) : Z := nth (Z.to_nat d) digits 0.

(** The do-while of printint(): buf[], least significant digit first, which has
    room for 16 characters. *)
Fixpoint uint_buf (room : nat) (x base : Z) : list Z :=
  match room with
  | O => []
  | S room' => udigit (x mod base) :: (if decide (x / base <> 0) then uint_buf room' (x / base) base else [])
  end.
Definition uprintint (fd xx base sgn : Z) : writes :=
  let neg := bool_decide (sgn <> 0 /\ xx < 0) in
  let x := if neg then u32 (- xx) else u32 xx in
  let buf := uint_buf 16 x base ++ (if neg then chrs "-" else []) in
  puts fd (reverse buf).

(** for(i = 0; i < 16; i++, x <<= 4) *)
Fixpoint hexdigits (n : nat) (x : Z) : list Z :=
  match n with
  | O => []
  | S n' => udigit (Z.shiftr x 60) :: hexdigits n' (u64 (Z.shiftl x 4))
  end.
Definition uprintptr (fd x : Z) : writes := putc fd (chr "0") ++ putc fd (chr "x") ++ puts fd (hexdigits 16 x).

Inductive uarg := Word (v : Z) | Text (s : option (list Z)).

(** One conversion: what is written, and the arguments that are left. *)
Definition convert (fd c : Z) (ap : list uarg) : option (writes * list uarg) :=
  if decide (c = chr "d") then match ap with Word v :: ap' => Some (uprintint fd (i32 v) 10 1, ap') | _ => None end
  else if decide (c = chr "l") then match ap with Word v :: ap' => Some (uprintint fd (i32 (u64 v)) 10 0, ap') | _ => None end
  else if decide (c = chr "x") then match ap with Word v :: ap' => Some (uprintint fd (i32 v) 16 0, ap') | _ => None end
  else if decide (c = chr "p") then match ap with Word v :: ap' => Some (uprintptr fd (u64 v), ap') | _ => None end
  else if decide (c = chr "s") then match ap with Text s :: ap' => Some (puts fd (default (chrs "(null)") s), ap') | _ => None end
  else if decide (c = chr "c") then match ap with Word v :: ap' => Some (putc fd (u32 v), ap') | _ => None end
  else if decide (c = chr "%") then Some (putc fd c, ap)
  else Some (putc fd (chr "%") ++ putc fd c, ap).

(** The loop over fmt; [state] is 0 or a per cent sign. *)
Fixpoint vprintf_loop (fd : Z) (fmt : list Z) (state : Z) (ap : list uarg) : option writes :=
  match fmt with
  | [] => Some []
  | b :: fmt' =>
      let c := Z.land b 255 in
      if decide (state = 0) then
        if decide (c = chr "%") then vprintf_loop fd fmt' (chr "%") ap
        else app (putc fd c) <$> vprintf_loop fd fmt' state ap
      else if decide (state = chr "%") then
        r ← convert fd c ap; app (fst r) <$> vprintf_loop fd fmt' 0 (snd r)
      else vprintf_loop fd fmt' state ap
  end.
Definition vprintf (fd : Z) (fmt : list Z) (ap : list uarg) : option writes := vprintf_loop fd fmt 0 ap.
Definition fprintf (fd : Z) (fmt : list Z) (ap : list uarg) : option writes := vprintf fd fmt ap.
Definition uprintf (fmt : list Z) (ap : list uarg) : option writes := vprintf 1 fmt ap.

Example fprintf_demo : fprintf 2 (chrs "%s: %d %x%%%q") [Text (Some (chrs "ls")); Word (-12); Word 255] = Some (puts 2 (chrs "ls: -12 FF%%q")).
Proof. reflexivity. Qed.
Example fprintf_ptr : uprintf (chrs "%p %c%s") [Word 0xBEEF; Word 65; Text None] = Some (puts 1 (chrs "0x000000000000BEEF A(null)")).
Proof. reflexivity. Qed.

(** ** What vprintf() prints *)

Lemma puts_app fd l1 l2 : puts fd (l1 ++ l2) = puts fd l1 ++ puts fd l2.
Proof. unfold puts. apply flat_map_app. Qed.

(** A number as text: a sign and digits. *)
Definition digit_value (c : Z) : Z := if decide (c < 58) then c - 48 else c - 55.
Definition number (base : Z) (l : list Z) : Z := foldl (fun v c => v * base + digit_value c) 0 l.
Definition signed_number (base : Z) (l : list Z) : Z :=
  match l with c :: l' => if decide (c = 45) then - number base l' else number base l | [] => 0 end.
Definition digit_char (c : Z) : Prop := 48 <= c <= 57 \/ 65 <= c <= 70.
#[export] Instance digit_char_dec c : Decision (digit_char c) := or_dec _ _.

Lemma udigit_value d : 0 <= d < 16 -> digit_value (udigit d) = d /\ digit_char (udigit d).
Proof.
  intros Hd. assert (Forall (fun d => digit_value (udigit d) = d /\ digit_char (udigit d)) (seqZ 0 16)) as HF.
  { apply (bool_decide_unpack _). by vm_compute. }
  rewrite Forall_forall in HF. apply HF, elem_of_seqZ. lia.
Qed.
Lemma uint_buf_number room x base :
  2 <= base <= 16 -> 0 <= x < base ^ Z.of_nat room -> number base (reverse (uint_buf room x base)) = x.
Proof.
  intros Hb. revert x. induction room as [|room IH]; intros x Hx.
  - change (Z.of_nat 0) with 0 in Hx. rewrite Z.pow_0_r in Hx. cbn. lia.
  - cbn [uint_buf]. rewrite reverse_cons. unfold number. rewrite foldl_app. cbn [foldl].
    pose proof (Z.mod_pos_bound x base ltac:(lia)). pose proof (Z.div_mod x base ltac:(lia)).
    destruct (udigit_value (x mod base)) as [-> _]; [lia|]. case_decide.
    + change (foldl _ 0 _) with (number base (reverse (uint_buf room (x / base) base))). rewrite Nat2Z.inj_succ, Z.pow_succ_r in Hx by lia.
      rewrite IH; [lia|]. split; [apply Z.div_pos; lia|apply Z.div_lt_upper_bound; lia].
    + cbn. lia.
Qed.
Lemma uint_buf_digits room x base : 2 <= base <= 16 -> Forall digit_char (uint_buf room x base).
Proof.
  intros Hb. revert x. induction room as [|room IH]; intros x; cbn; [constructor|]. pose proof (Z.mod_pos_bound x base).
  constructor; [apply udigit_value; lia|]. case_decide; [apply IH|constructor].
Qed.
Lemma uint_buf_nil room x base : uint_buf (S room) x base <> [].
Proof. done. Qed.

(** The text of printint(). *)
Definition int_chars (xx base sgn : Z) : list Z :=
  let neg := bool_decide (sgn <> 0 /\ xx < 0) in
  (if neg then [45] else []) ++ reverse (uint_buf 16 (if neg then u32 (- xx) else u32 xx) base).
Lemma uprintint_chars fd xx base sgn : uprintint fd xx base sgn = puts fd (int_chars xx base sgn).
Proof. unfold uprintint, int_chars. cbn zeta. rewrite reverse_app. by destruct (bool_decide _). Qed.
(** The text denotes the int, or without a sign the unsigned int. *)
Lemma int_chars_value xx base sgn :
  4 <= base <= 16 -> - 2 ^ 31 <= xx < 2 ^ 31 ->
  signed_number base (int_chars xx base sgn) = if decide (sgn <> 0) then xx else u32 xx.
Proof.
  intros Hb Hx. assert (2 ^ 32 <= base ^ Z.of_nat 16) as Hp.
  { transitivity (4 ^ 16); [done|]. apply Z.pow_le_mono_l. lia. }
  assert (forall x, 0 <= x < 2 ^ 32 -> signed_number base (reverse (uint_buf 16 x base)) = x) as Hpos.
  { intros x Hr. pose proof (uint_buf_number 16 x base ltac:(lia) ltac:(lia)) as En. pose proof (uint_buf_digits 16 x base ltac:(lia)) as Hd.
    apply Forall_reverse in Hd. destruct (reverse (uint_buf 16 x base)) as [|c l] eqn:E; [cbn in En; by subst|].
    cbn [signed_number]. apply Forall_cons in Hd as [Hc _]. rewrite decide_False; [done|]. destruct Hc; lia. }
  unfold int_chars. cbn zeta. destruct (decide (sgn <> 0)) as [Hs|Hs].
  - destruct (decide (xx < 0)) as [Hn|Hn].
    + rewrite bool_decide_eq_true_2 by done. cbn [app signed_number]. rewrite decide_True by done.
      rewrite u32_small by lia. rewrite uint_buf_number by lia. lia.
    + rewrite bool_decide_eq_false_2 by tauto. cbn [app]. rewrite u32_small by lia. apply Hpos. lia.
  - rewrite bool_decide_eq_false_2 by tauto. cbn [app]. apply Hpos. apply u32_range.
Qed.

(** ** Formats *)
(** A format read as literal characters and conversions, and the text it stands
    for; the kinds of arguments are those the conversions ask for. *)
Inductive piece := Lit (c : Z) | Conv (c : Z).
Definition unparse (ps : list piece) : list Z := flat_map (fun p => match p with Lit c => [c] | Conv c => [chr "%"; c] end) ps.
Definition piece_ok (p : piece) : Prop := match p with Lit c => 0 < c < 256 /\ c <> chr "%" | Conv c => 0 < c < 256 end.
#[export] Instance piece_ok_dec p : Decision (piece_ok p).
Proof. destruct p; apply _. Defined.

(** The kind of argument of a conversion. *)
Inductive kind := Decimal (sgn : Z) | Hexadecimal | Pointer | String | Char | Literal.
Definition kind_of (c : Z) : kind :=
  if decide (c = chr "d") then Decimal 1 else if decide (c = chr "l") then Decimal 0 else if decide (c = chr "x") then Hexadecimal
  else if decide (c = chr "p") then Pointer else if decide (c = chr "s") then String else if decide (c = chr "c") then Char else Literal.
Definition conv_text (c : Z) (ap : list uarg) : option (list Z * list uarg) :=
  match kind_of c, ap with
  | Decimal sgn, Word v :: ap' => Some (int_chars (i32 v) 10 sgn, ap')
  | Hexadecimal, Word v :: ap' => Some (int_chars (i32 v) 16 0, ap')
  | Pointer, Word v :: ap' => Some (chrs "0x" ++ hexdigits 16 (u64 v), ap')
  | String, Text s :: ap' => Some (default (chrs "(null)") s, ap')
  | Char, Word v :: ap' => Some ([u8 v], ap')
  | Literal, _ => Some (if decide (c = chr "%") then [c] else [chr "%"; c], ap)
  | _, _ => None
  end.
Fixpoint render (ps : list piece) (ap : list uarg) : option (list Z) :=
  match ps with
  | [] => Some []
  | Lit c :: ps' => cons c <$> render ps' ap
  | Conv c :: ps' => r ← conv_text c ap; app (fst r) <$> render ps' (snd r)
  end.

Lemma u8_u32 v : u8 (u32 v) = u8 v.
Proof. unfold u8, u32. symmetry. apply Znumtheory.Zmod_div_mod; [done|done|]. by exists (2 ^ 24). Qed.
Lemma puts_u8 fd v : putc fd v = puts fd [u8 v].
Proof. unfold puts, putc. cbn. by rewrite u8_idemp. Qed.
Lemma convert_text fd c ap : convert fd c ap = (fun r => (puts fd (fst r), snd r)) <$> conv_text c ap.
Proof.
  unfold convert, conv_text, kind_of.
  do 6 (case_decide; [destruct ap as [|[v|s] ap]; try done; cbn [fmap option_fmap option_map fst snd];
    rewrite ?uprintint_chars, ?i32_u64, ?puts_u8, ?u8_u32; done|]). by case_decide.
Qed.

Lemma vprintf_loop_renders fd ps : forall ap, Forall piece_ok ps -> vprintf_loop fd (unparse ps) 0 ap = puts fd <$> render ps ap.
Proof.
  induction ps as [|[c|c] ps IH]; intros ap Hok; [done| |]; apply Forall_cons in Hok as [Hc Hok]; cbn [unparse flat_map app vprintf_loop render].
  - destruct Hc as [Hr Hp]. assert (Z.land c 255 = c) as -> by (change 255 with (Z.ones 8); rewrite Z.land_ones by lia; apply Z.mod_small; lia).
    rewrite decide_True by done. rewrite decide_False by done. change (flat_map _ ps) with (unparse ps). rewrite IH by done. by destruct (render ps ap).
  - cbn [piece_ok] in Hc. assert (Z.land c 255 = c) as -> by (change 255 with (Z.ones 8); rewrite Z.land_ones by lia; apply Z.mod_small; lia).
    rewrite decide_True by done. rewrite decide_True by done. rewrite decide_False, decide_True by done. rewrite convert_text.
    destruct (conv_text c ap) as [[text ap']|]; [|done]. cbn [fmap option_fmap option_map mbind option_bind fst snd].
    change (flat_map _ ps) with (unparse ps). rewrite IH by done. destruct (render ps ap') as [rest|]; [|done]. cbn. by rewrite puts_app.
Qed.
(** vprintf() writes the text of the format. *)
Lemma vprintf_renders fd ps ap : Forall piece_ok ps -> vprintf fd (unparse ps) ap = puts fd <$> render ps ap.
Proof. apply vprintf_loop_renders. Qed.

(** %l prints a 64-bit argument modulo 2^32. *)
Lemma percent_l_truncates fd v : vprintf fd (unparse [Conv (chr "l")]) [Word (v + 2 ^ 32)] = vprintf fd (unparse [Conv (chr "l")]) [Word v].
Proof.
  rewrite !vprintf_renders by (apply Forall_cons_2; [done|by apply Forall_nil_2]). unfold render, conv_text. change (kind_of (chr "l")) with (Decimal 0).
  assert (i32 (v + 2 ^ 32) = i32 v) as ->; [|done]. unfold i32. replace (v + 2 ^ 32 + 2 ^ 31) with (v + 2 ^ 31 + 1 * 2 ^ 32) by lia. by rewrite Z.mod_add.
Qed.
