(* ===== verification/Uprogs.v ===== *)
(** * user/wc.c, user/cat.c, user/ls.c and the main() of grep

    What successive read() calls on the descriptor return is a list: [Some] of
    the bytes read, [None] for an error; at the end of the list read() returns
    0.  The bytes written are those of Uprintf; an outcome of a program is what
    it wrote with the status it exits with, or [None] as the status when the
    routine returns. *)

From S2P Require Import Prelude Machine Ugrep Uprintf.
From Stdlib Require Import Ascii.

Definition reads : Type := list (option (list Z)).
(** What was written, and exit(). *)
Definition outcome : Type := option (writes * option Z).

(** ** wc *)
Record counts := mkCounts { cn_l : Z; cn_w : Z; cn_c : Z; cn_inword : bool }.
Definition wc_space : list Z := [32; 13; 9; 10; 11].
Definition wc_byte (s : counts) (b : Z) : counts :=
  let c := i32 (cn_c s + 1) in
  let l := if decide (b = 10) then i32 (cn_l s + 1) else cn_l s in
  if decide (b ∈ wc_space) then mkCounts l (cn_w s) c false
  else if cn_inword s then mkCounts l (cn_w s) c true
  else mkCounts l (i32 (cn_w s + 1)) c true.
(** The loop over the reads: the counts, or none after a read error. *)
Fixpoint wc_loop (r : reads) (s : counts) : option counts :=
  match r with
  | [] => Some s
  | None :: _ => None
  | Some buf :: r' => wc_loop r' (foldl wc_byte s buf)
  end.
Definition wc (r : reads) (name : list Z) : outcome :=
  match wc_loop r (mkCounts 0 0 0 false) with
  | None => (fun w => (w, Some 1)) <$> uprintf (chrs "wc: read error" ++ [10]) []
  | Some s => (fun w => (w, None)) <$> uprintf (chrs "%d %d %d %s" ++ [10]) [Word (cn_l s); Word (cn_w s); Word (cn_c s); Text (Some name)]
  end.

(** A word starts at [i]: a byte that is not space, after the start or space. *)
Definition word_start (data : list Z) (i : nat) : Prop :=
  default 32 (data !! i) ∉ wc_space /\ (i = 0%nat \/ default 32 (data !! (i - 1)%nat) ∈ wc_space).
#[export] Instance word_start_dec data i : Decision (word_start data i) := and_dec _ _.
Definition count_words (data : list Z) : Z := Z.of_nat (length (filter (word_start data) (seq 0 (length data)))).
Definition count_lines (data : list Z) : Z := Z.of_nat (length (filter (fun b => b = 10) data)).
(** Is the end of [data] inside a word? *)
Definition ends_inside (data : list Z) : bool := bool_decide (default 32 (last data) ∉ wc_space).

Lemma filter_agree {A} (P Q : A -> Prop) `{!forall x, Decision (P x), !forall x, Decision (Q x)} (l : list A) :
  (forall x, x ∈ l -> P x <-> Q x) -> filter P l = filter Q l.
Proof.
  induction l as [|x l IH]; intros Hl; [done|]. rewrite !filter_cons. rewrite IH by (intros; apply Hl; by right).
  destruct (Hl x) as [H1 H2]; [by left|]. repeat case_decide; tauto.
Qed.
Lemma count_words_snoc data b :
  count_words (data ++ [b]) = count_words data + (if decide (b ∉ wc_space /\ ends_inside data = false) then 1 else 0).
Proof.
  unfold count_words. rewrite length_app, Nat.add_1_r, seq_S, filter_app, length_app, Nat2Z.inj_add. f_equal.
  - do 2 f_equal. apply filter_agree. intros i Hi%elem_of_seq. unfold word_start. rewrite !lookup_app_l by lia. done.
  - cbn [Nat.add]. rewrite filter_cons, filter_nil.
    assert (word_start (data ++ [b]) (length data) <-> b ∉ wc_space /\ ends_inside data = false) as Hw.
    { unfold word_start. rewrite lookup_app_r, Nat.sub_diag by lia. cbn [lookup list_lookup default from_option]. apply and_iff_compat_l.
      unfold ends_inside. rewrite bool_decide_eq_false, last_lookup. destruct data as [|a data]; [cbn; split; [by intros _ []; set_solver|by left]|].
      rewrite lookup_app_l by (cbn; lia). replace (pred (length (a :: data))) with (length (a :: data) - 1)%nat by (cbn; lia).
      split; [intros [?|?]; [done|tauto]|]. intros Hn. right. by apply dec_stable. }
    repeat case_decide; cbn; tauto || done.
Qed.
Lemma count_lines_snoc data b : count_lines (data ++ [b]) = count_lines data + (if decide (b = 10) then 1 else 0).
Proof. unfold count_lines. rewrite filter_app, length_app, Nat2Z.inj_add, filter_cons, filter_nil. by case_decide. Qed.
Lemma counts_le data : 0 <= count_words data <= Z.of_nat (length data) /\ 0 <= count_lines data <= Z.of_nat (length data).
Proof.
  unfold count_words, count_lines. pose proof (length_filter (word_start data) (seq 0 (length data))) as H1. rewrite length_seq in H1.
  pose proof (length_filter (fun b => b = 10) data). lia.
Qed.
Lemma wc_bytes data :
  Z.of_nat (length data) < 2 ^ 31 ->
  foldl wc_byte (mkCounts 0 0 0 false) data = mkCounts (count_lines data) (count_words data) (Z.of_nat (length data)) (ends_inside data).
Proof.
  induction data as [|b data IH] using rev_ind; intros Hl; [done|]. rewrite length_app in *. cbn [length] in *. rewrite foldl_app, IH by lia.
  cbn [foldl]. rewrite count_words_snoc, count_lines_snoc. pose proof (counts_le data). unfold wc_byte. cbn [cn_l cn_w cn_c cn_inword].
  assert (ends_inside (data ++ [b]) = bool_decide (b ∉ wc_space)) as -> by (unfold ends_inside; by rewrite last_snoc).
  rewrite (i32_small (Z.of_nat (length data) + 1)) by lia. rewrite Nat2Z.inj_add. change (Z.of_nat 1) with 1.
  assert ((if decide (b = 10) then i32 (count_lines data + 1) else count_lines data) = count_lines data + (if decide (b = 10) then 1 else 0)) as ->
    by (case_decide; [rewrite i32_small by lia; lia|lia]).
  destruct (decide (b ∈ wc_space)) as [Hs|Hs].
  - rewrite (decide_False (P := _ /\ _)) by tauto. rewrite bool_decide_eq_false_2 by tauto. f_equal. lia.
  - rewrite bool_decide_eq_true_2 by done. destruct (ends_inside data).
    + rewrite (decide_False (P := _ /\ _)) by (intros [_ ?]; discriminate). f_equal. lia.
    + rewrite (decide_True (P := _ /\ _)) by done. rewrite i32_small by lia. done.
Qed.
Lemma wc_loop_concat chunks s : wc_loop (Some <$> chunks) s = Some (foldl wc_byte s (concat chunks)).
Proof. revert s. induction chunks as [|b chunks IH]; intros s; cbn; [done|]. by rewrite IH, foldl_app. Qed.

Definition wc_format : list piece := [Conv (chr "d"); Lit 32; Conv (chr "d"); Lit 32; Conv (chr "d"); Lit 32; Conv (chr "s"); Lit 10].
(** wc() prints the counts of what the descriptor delivers, however it is cut
    into reads. *)
Lemma wc_counts chunks name :
  let data := concat chunks in
  Z.of_nat (length data) < 2 ^ 31 ->
  wc (Some <$> chunks) name =
  Some (puts 1 (int_chars (count_lines data) 10 1 ++ [32] ++ int_chars (count_words data) 10 1 ++ [32] ++
    int_chars (Z.of_nat (length data)) 10 1 ++ [32] ++ name ++ [10]), None).
Proof.
  intros data Hl. unfold wc. rewrite wc_loop_concat, wc_bytes by done. cbn [cn_l cn_w cn_c]. fold data. pose proof (counts_le data).
  change (chrs "%d %d %d %s" ++ [10]) with (unparse wc_format). unfold uprintf. rewrite vprintf_renders by (apply (bool_decide_unpack _); by vm_compute).
  unfold render, wc_format, conv_text. change (kind_of (chr "d")) with (Decimal 1). change (kind_of (chr "s")) with String.
  cbn [mbind option_bind fmap option_fmap option_map fst snd default from_option]. rewrite !i32_small by lia. done.
Qed.
Lemma wc_read_error chunks r name : wc ((Some <$> chunks) ++ None :: r) name = Some (puts 1 (chrs "wc: read error" ++ [10]), Some 1).
Proof.
  unfold wc. assert (forall s, wc_loop ((Some <$> chunks) ++ None :: r) s = None) as ->; [|done].
  induction chunks as [|b chunks IH]; intros s; [done|]. apply IH.
Qed.

(** ** cat *)
(** What write(1, buf, n) returns for each call. *)
Fixpoint cat (r : reads) (wr : list Z) : outcome :=
  match r with
  | [] => Some ([], None)
  | None :: _ => (fun w => (w, Some 1)) <$> fprintf 2 (chrs "cat: read error" ++ [10]) []
  | Some buf :: r' =>
      let n := Z.of_nat (length buf) in
      let m := default n (head wr) in
      let done := puts 1 (take (Z.to_nat m) buf) in
      if decide (m <> n) then (fun w => (done ++ w, Some 1)) <$> fprintf 2 (chrs "cat: write error" ++ [10]) []
      else (fun o => (done ++ fst o, snd o)) <$> cat r' (tail wr)
  end.
Lemma cat_copies chunks : cat (Some <$> chunks) [] = Some (puts 1 (concat chunks), None).
Proof.
  induction chunks as [|b chunks IH]; cbn [fmap list_fmap cat concat]; [done|]. cbn [head default from_option tail]. rewrite decide_False by tauto. rewrite IH.
  cbn. rewrite Nat2Z.id, take_ge by done. by rewrite puts_app.
Qed.

(** ** ls *)
Definition LS_DIRSIZ : nat := 14.
(** The first character after the last slash; the loop walks back from the NUL. *)
Fixpoint after_slash (n : nat) (path : list Z) : list Z :=
  match n with
  | O => if decide (head path = Some 47) then drop 1 path else path
  | S n' => if decide (path !! n = Some 47) then drop (S n) path else after_slash n' path
  end.
Definition fmtname (path : list Z) : list Z :=
  let p := after_slash (length path) path in
  if decide (LS_DIRSIZ <= length p)%nat then p else p ++ replicate (LS_DIRSIZ - length p) 32.
(** The name after the last slash, padded. *)
Lemma after_slash_skip n l : 47 ∉ l -> (n <= length l)%nat -> after_slash n l = l.
Proof.
  intros Hn. induction n as [|n IH]; intros Hl; cbn [after_slash].
  - rewrite decide_False; [done|]. destruct l as [|a l]; [done|]. cbn. intros [= ->]. set_solver.
  - rewrite decide_False; [apply IH; lia|]. intros E. by apply list_elem_of_lookup_2 in E.
Qed.
Lemma after_slash_app dir name : 47 ∉ name -> forall n, (n <= length name)%nat -> after_slash (length dir + n) (dir ++ 47 :: name) = name.
Proof.
  intros Hn n. induction n as [|n IH]; intros Hl.
  - rewrite Nat.add_0_r. assert ((dir ++ 47 :: name) !! length dir = Some 47) as E by (rewrite lookup_app_r, Nat.sub_diag by lia; done).
    assert (drop (S (length dir)) (dir ++ 47 :: name) = name) as Ed by (rewrite drop_app_ge by lia; by replace (S (length dir) - length dir)%nat with 1%nat by lia).
    destruct dir as [|a dir]; [done|]. cbn [length after_slash] in *. by rewrite decide_True.
  - replace (length dir + S n)%nat with (S (length dir + n)) by lia. cbn [after_slash]. rewrite decide_False; [apply IH; lia|].
    rewrite lookup_app_r by lia. replace (S (length dir + n) - length dir)%nat with (S n) by lia. cbn. intros E. by apply list_elem_of_lookup_2 in E.
Qed.
Lemma after_slash_last dir name : 47 ∉ name -> after_slash (length (dir ++ 47 :: name)) (dir ++ 47 :: name) = name.
Proof.
  intros Hn. rewrite length_app. cbn [length]. rewrite Nat.add_succ_r. cbn [after_slash]. rewrite decide_False; [by apply after_slash_app|].
  rewrite lookup_ge_None_2; [done|]. rewrite length_app. cbn. lia.
Qed.
Definition padded (name : list Z) : list Z := name ++ replicate (LS_DIRSIZ - length name) 32.
Lemma fmtname_padded name : fmtname name = padded (after_slash (length name) name).
Proof.
  unfold fmtname, padded. cbn zeta. case_decide as Hl; [|done]. replace (LS_DIRSIZ - _)%nat with 0%nat by lia. by rewrite app_nil_r.
Qed.

(** struct stat, struct dirent. *)
Record ustat := mkUstat { us_type : Z; us_ino : Z; us_size : Z }.
Record udirent := mkUdirent { ud_inum : Z; ud_name : list Z }.
(** What the system calls of ls() answer: open(), fstat(), the entries that
    read() delivers before a short read, and stat() by path. *)
Record ls_answers := mkAnswers { an_open : bool; an_fstat : option ustat; an_entries : list udirent; an_stat : list Z -> option ustat }.
Fixpoint cstring (l : list Z) : list Z := match l with [] => [] | c :: l' => if decide (c = 0) then [] else c :: cstring l' end.
Definition T_DIRECTORY : Z := 1.
Definition T_REGULAR : Z := 2.

Definition ls_line (name : list Z) (st : ustat) : list uarg := [Text (Some name); Word (us_type st); Word (us_ino st); Word (us_size st)].
Definition ls_entry (an : ls_answers) (path : list Z) (de : udirent) : option writes :=
  if decide (ud_inum de = 0) then Some [] else
  let buf := path ++ [47] ++ cstring (take LS_DIRSIZ (ud_name de)) in
  match an_stat an buf with
  | None => uprintf (chrs "ls: cannot stat %s" ++ [10]) [Text (Some buf)]
  | Some st => uprintf (chrs "%s %d %d %d" ++ [10]) (ls_line (fmtname buf) st)
  end.
Fixpoint ls_entries (an : ls_answers) (path : list Z) (des : list udirent) : option writes :=
  match des with
  | [] => Some []
  | de :: des' => w ← ls_entry an path de; app w <$> ls_entries an path des'
  end.
Definition ls (an : ls_answers) (path : list Z) : option writes :=
  if decide (an_open an = false) then fprintf 2 (chrs "ls: cannot open %s" ++ [10]) [Text (Some path)] else
  match an_fstat an with
  | None => fprintf 2 (chrs "ls: cannot stat %s" ++ [10]) [Text (Some path)]
  | Some st =>
      if decide (us_type st = T_REGULAR) then uprintf (chrs "%s %d %d %l" ++ [10]) (ls_line (fmtname path) st)
      else if decide (us_type st = T_DIRECTORY) then
        if decide (Z.of_nat (length path) + 1 + Z.of_nat LS_DIRSIZ + 1 > 512) then uprintf (chrs "ls: path too long" ++ [10]) []
        else ls_entries an path (an_entries an)
      else Some []
  end.

Definition ls_format : list piece := [Conv (chr "s"); Lit 32; Conv (chr "d"); Lit 32; Conv (chr "d"); Lit 32; Conv (chr "d"); Lit 10].
(** A line of the listing: the name of the entry, padded, with the type, the
    inode number and the size. *)
Lemma ls_entry_line an path de st :
  let name := cstring (take LS_DIRSIZ (ud_name de)) in
  ud_inum de <> 0 -> 47 ∉ name -> an_stat an (path ++ 47 :: name) = Some st ->
  ls_entry an path de = Some (puts 1 (padded name ++ [32] ++ int_chars (i32 (us_type st)) 10 1 ++ [32] ++
    int_chars (i32 (us_ino st)) 10 1 ++ [32] ++ int_chars (i32 (us_size st)) 10 1 ++ [10])).
Proof.
  intros name Hi Hn Hs. unfold ls_entry. rewrite decide_False by done. fold name. change (path ++ [47] ++ name) with (path ++ 47 :: name). rewrite Hs.
  rewrite fmtname_padded, after_slash_last by done. change (chrs "%s %d %d %d" ++ [10]) with (unparse ls_format).
  unfold uprintf. rewrite vprintf_renders by (apply (bool_decide_unpack _); by vm_compute).
  unfold render, ls_format, conv_text, ls_line. change (kind_of (chr "d")) with (Decimal 1). change (kind_of (chr "s")) with String. done.
Qed.

(** ** main() of cat, wc, ls and grep *)
(** One file after the other: [body] is what the program does with a file, and
    an exit in it ends the program. *)
Definition and_then (o : outcome) (rest : outcome) : outcome :=
  r ← o; match snd r with Some _ => Some r | None => (fun q => (fst r ++ fst q, snd q)) <$> rest end.
Definition exits (status : Z) (w : option writes) : outcome := (fun w => (w, Some status)) <$> w.

(** What open() gives for a path, if it succeeds: the reads that follow and, for
    cat, what the writes return. *)
Fixpoint cat_files (open : list Z -> option (reads * list Z)) (files : list (list Z)) : outcome :=
  match files with
  | [] => Some ([], Some 0)
  | f :: files' =>
      match open f with
      | None => exits 1 (fprintf 2 (chrs "cat: cannot open %s" ++ [10]) [Text (Some f)])
      | Some (r, wr) => and_then (cat r wr) (cat_files open files')
      end
  end.
Definition cat_main (stdin : reads * list Z) (open : list Z -> option (reads * list Z)) (argv : list (list Z)) : outcome :=
  match tail argv with
  | [] => and_then (cat stdin.1 stdin.2) (Some ([], Some 0))
  | files => cat_files open files
  end.

Fixpoint wc_files (open : list Z -> option reads) (files : list (list Z)) : outcome :=
  match files with
  | [] => Some ([], Some 0)
  | f :: files' =>
      match open f with
      | None => exits 1 (uprintf (chrs "wc: cannot open %s" ++ [10]) [Text (Some f)])
      | Some r => and_then (wc r f) (wc_files open files')
      end
  end.
Definition wc_main (stdin : reads) (open : list Z -> option reads) (argv : list (list Z)) : outcome :=
  match tail argv with
  | [] => and_then (wc stdin []) (Some ([], Some 0))
  | files => wc_files open files
  end.

Fixpoint ls_each (an : list Z -> ls_answers) (paths : list (list Z)) : outcome :=
  match paths with
  | [] => Some ([], Some 0)
  | p :: paths' => and_then ((fun w => (w, None)) <$> ls (an p) p) (ls_each an paths')
  end.
Definition ls_main (an : list Z -> ls_answers) (argv : list (list Z)) : outcome :=
  match tail argv with [] => ls_each an [chrs "."] | paths => ls_each an paths end.

(** grep() on the chunks that its reads return; one turn more than there are
    bytes is enough. *)
Definition grep_fd (pattern : list Z) (chunks : list (list Z)) : outcome :=
  (fun out => (puts 1 out, None)) <$> grep (S (length (concat chunks))) pattern chunks.
Fixpoint grep_files (open : list Z -> option (list (list Z))) (pattern : list Z) (files : list (list Z)) : outcome :=
  match files with
  | [] => Some ([], Some 0)
  | f :: files' =>
      match open f with
      | None => exits 1 (uprintf (chrs "grep: cannot open %s" ++ [10]) [Text (Some f)])
      | Some chunks => and_then (grep_fd pattern chunks) (grep_files open pattern files')
      end
  end.
Definition grep_main (stdin : list (list Z)) (open : list Z -> option (list (list Z))) (argv : list (list Z)) : outcome :=
  match tail argv with
  | [] => exits 1 (fprintf 2 (chrs "usage: grep pattern [file ...]" ++ [10]) [])
  | [pattern] => and_then (grep_fd pattern stdin) (Some ([], Some 0))
  | pattern :: files => grep_files open pattern files
  end.

Lemma and_then_ok w w' st : and_then (Some (w, None)) (Some (w', st)) = Some (w ++ w', st).
Proof. done. Qed.

(** cat copies the files that open in order; at the first that does not, it says
    so and stops with status 1. *)
Lemma cat_files_prefix open data files bad rest :
  (forall f, f ∈ files -> exists chunks, open f = Some (Some <$> chunks, []) /\ concat chunks = data f) -> open bad = None ->
  cat_files open (files ++ bad :: rest) = Some (puts 1 (concat (data <$> files)) ++ puts 2 (chrs "cat: cannot open " ++ bad ++ [10]), Some 1).
Proof.
  intros Hf Hb. induction files as [|f files IH]; cbn [app cat_files].
  - rewrite Hb. change (chrs "cat: cannot open %s" ++ [10]) with (unparse ((Lit <$> chrs "cat: cannot open ") ++ [Conv (chr "s"); Lit 10])).
    unfold fprintf. rewrite vprintf_renders by (apply (bool_decide_unpack _); by vm_compute). done.
  - destruct (Hf f) as (chunks & -> & Hc); [left|]. rewrite cat_copies, IH by (intros g Hg; apply Hf; by right).
    rewrite and_then_ok. cbn [fmap list_fmap concat]. by rewrite Hc, (puts_app 1 (data f)), <- app_assoc.
Qed.
Lemma cat_files_all open data files :
  (forall f, f ∈ files -> exists chunks, open f = Some (Some <$> chunks, []) /\ concat chunks = data f) ->
  cat_files open files = Some (puts 1 (concat (data <$> files)), Some 0).
Proof.
  intros Hf. induction files as [|f files IH]; cbn [cat_files]; [done|].
  destruct (Hf f) as (chunks & -> & Hc); [left|]. rewrite cat_copies, IH by (intros g Hg; apply Hf; by right).
  rewrite and_then_ok. cbn [fmap list_fmap concat]. by rewrite Hc, puts_app.
Qed.
(** grep prints the matching lines of every file in turn. *)
Lemma grep_files_all open data pattern files :
  (forall f, f ∈ files -> exists chunks, open f = Some chunks /\ concat chunks = data f /\ Forall (fun c => c <> []) chunks /\ 0 ∉ data f /\ short_lines (data f)) ->
  grep_files open pattern files = Some (puts 1 (concat ((fun f => matching pattern (split_lines [] (data f)).1) <$> files)), Some 0).
Proof.
  intros Hf. induction files as [|f files IH]; cbn [grep_files]; [done|].
  destruct (Hf f) as (chunks & -> & Hc & Hne & H0 & Hs); [left|]. rewrite IH by (intros g Hg; apply Hf; by right).
  unfold grep_fd, grep. rewrite (grep_loop_spec pattern _ [] chunks [] []); rewrite ?Hc; try done; [|by intros ?%elem_of_nil|lia].
  cbn [app]. rewrite ?Hc. cbn [fmap option_fmap option_map]. rewrite and_then_ok. cbn [fmap list_fmap concat]. by rewrite puts_app.
Qed.
