(* ===== verification/Ucmds.v ===== *)
(** * The small user programs

    kill, ln, mkdir, rm, echo, setpriority, strace, time, init, zombie,
    forktest, stressfs, memtest and schedulertest, as programs that make system
    calls.  A program either has left, or makes a call and goes on with what the
    kernel answers: the value, and the data that a read() or waitx() stores.
    The kernel is an argument of [run]: any function of the calls made so far.
    A forked process goes on as the same program with the answer 0.  Arguments
    are C strings without their NUL; [argv] starts with the program's name. *)

From S2P Require Import Prelude Machine Uprintf.
From Stdlib Require Import Ascii.

(** ** Programs and their runs *)
Inductive call :=
| Write (fd : Z) (bytes : list Z)
| Read (fd n : Z)
| Open (path : list Z) (mode : Z)
| Close (fd : Z)
| Dup (fd : Z)
| Mknod (path : list Z) (major minor : Z)
| Kill (pid : Z)
| Link (old new : list Z)
| Mkdir (path : list Z)
| Unlink (path : list Z)
| Setpriority (priority pid : Z)
| Trace (mask : Z)
| Exec (path : list Z) (argv : list (option (list Z)))
| Fork
| Wait_
| Waitx
| Sleep (n : Z)
| Sbrk (n : Z).
Record answer := mkAnswer { a_ret : Z; a_data : list Z }.

Inductive prog :=
| Exit (status : Z)
| Return (v : Z)
| Call (c : call) (k : answer -> prog)
| Broken
| Running.

Definition history : Type := list (call * answer).
Fixpoint run (os : history -> call -> answer) (past : history) (p : prog) : history * prog :=
  match p with
  | Call c k => let a := os past c in run os (past ++ [(c, a)]) (k a)
  | _ => (past, p)
  end.
Definition calls (h : history) : list call := fst <$> h.

(** fprintf(): one write() per character. *)
Fixpoint put (w : writes) (k : prog) : prog :=
  match w with
  | [] => k
  | (fd, c) :: w' => Call (Write fd [c]) (fun _ => put w' k)
  end.
Definition says (fd : Z) (fmt : list Z) (ap : list uarg) (k : prog) : prog :=
  match fprintf fd fmt ap with Some w => put w k | None => Broken end.
Definition line (s : string) : list Z := chrs s ++ [10].

(** atoi() of ulib.c on a string. *)
Fixpoint atoi_str (s : list Z) (n : Z) : Z :=
  match s with
  | c :: s' => if decide (48 <= c <= 57) then atoi_str s' (i32 (n * 10 + c - 48)) else n
  | [] => n
  end.

(** ** kill, ln, mkdir, rm, echo *)
Fixpoint kill_each (pids : list (list Z)) : prog :=
  match pids with
  | [] => Exit 0
  | s :: pids' => Call (Kill (atoi_str s 0)) (fun _ => kill_each pids')
  end.
Definition kill_main (argv : list (list Z)) : prog :=
  if decide (length argv < 2)%nat then says 2 (line "usage: kill pid...") [] (Exit 1) else kill_each (tail argv).

Definition ln_main (argv : list (list Z)) : prog :=
  match argv with
  | [_; old; new] =>
      Call (Link old new) (fun a =>
        if decide (a_ret a < 0) then says 2 (line "link %s %s: failed") [Text (Some old); Text (Some new)] (Exit 0) else Exit 0)
  | _ => says 2 (line "Usage: ln old new") [] (Exit 1)
  end.

Fixpoint mkdir_each (files : list (list Z)) : prog :=
  match files with
  | [] => Exit 0
  | f :: files' =>
      Call (Mkdir f) (fun a =>
        if decide (a_ret a < 0) then says 2 (line "mkdir: %s failed to create") [Text (Some f)] (Exit 0) else mkdir_each files')
  end.
Definition mkdir_main (argv : list (list Z)) : prog :=
  if decide (length argv < 2)%nat then says 2 (line "Usage: mkdir files...") [] (Exit 1) else mkdir_each (tail argv).

Fixpoint rm_each (files : list (list Z)) : prog :=
  match files with
  | [] => Exit 0
  | f :: files' =>
      Call (Unlink f) (fun a =>
        if decide (a_ret a < 0) then says 2 (line "rm: %s failed to delete") [Text (Some f)] (Exit 0) else rm_each files')
  end.
Definition rm_main (argv : list (list Z)) : prog :=
  if decide (length argv < 2)%nat then says 2 (line "Usage: rm files...") [] (Exit 1) else rm_each (tail argv).

Fixpoint echo_each (args : list (list Z)) : prog :=
  match args with
  | [] => Exit 0
  | s :: args' =>
      Call (Write 1 s) (fun _ =>
        Call (Write 1 (match args' with [] => [10] | _ :: _ => [32] end)) (fun _ => echo_each args'))
  end.
Definition echo_main (argv : list (list Z)) : prog := echo_each (tail argv).

(** ** setpriority *)
Definition check_priority_range (priority : Z) : Z := if decide (priority >= 0 \/ priority <= 100) then 1 else 0.
Definition setpriority_main (argv : list (list Z)) : prog :=
  match argv with
  | _ :: a1 :: a2 :: _ =>
      let priority := atoi_str a1 0 in
      let pid := atoi_str a2 0 in
      if decide (check_priority_range priority = 0) then
        says 2 (line "Incorrect Range !") [] (says 2 (line "Correct Range: [0,100]") [] (Exit 1))
      else Call (Setpriority priority pid) (fun _ => Exit 1)
  | _ => says 2 (line "Incorrect Input !") [] (says 2 (line "Correct usage: setpriority <priority> <pid>") [] (Exit 1))
  end.

(** ** strace *)
Fixpoint is_num (s : list Z) : Z :=
  match s with
  | [] => 1
  | c :: s' => if decide (c < 48 \/ c > 57) then 0 else is_num s'
  end.
(** [nargv] is an uninitialised local array: [junk] is what it holds; a word of
    it is a string or, for [None], the end of the vector. *)
Definition strace_main (at0 : list Z) (junk : list (option (list Z))) (argv : list (list Z)) : prog :=
  let arg1 := match argv with _ :: a :: _ => a | _ => at0 end in
  let check := is_num arg1 in
  if decide ((length argv < 3)%nat \/ check = 0) then
    says 2 (line "Incorrect Input !") [] (says 2 (line "Correct usage: strace <mask> <command>") [] (Exit 1))
  else
    let temp_num := atoi_str arg1 0 in
    Call (Trace temp_num) (fun a =>
      let rest := Call (Exec (default [] (argv !! 2%nat)) ((Some <$> take (MAXARG - 2) (drop 2 argv)) ++ drop (length (take (MAXARG - 2) (drop 2 argv))) junk))
                    (fun _ => Return 0) in
      if decide (a_ret a < 0) then says 2 (line "strace: trace failed") [] rest else rest).

(** ** time and zombie *)
(** waitx() stores the two numbers of its answer through its second and its
    third argument. *)
Definition time_main (argv : list (list Z)) : prog :=
  Call Fork (fun pid =>
    if decide (a_ret pid < 0) then says 1 (line "fork(): failed") [] (Exit 1)
    else if decide (a_ret pid = 0) then
      match tail argv with
      | [] => Call (Sleep 10) (fun _ => Exit 0)
      | a :: args => Call (Exec a (Some <$> a :: args)) (fun _ => says 1 (line "exec(): failed") [] (Exit 1))
      end
    else Call Waitx (fun a =>
      let wtime := nth 0 (a_data a) 0 in
      let rtime := nth 1 (a_data a) 0 in
      says 1 ([10] ++ line "waiting:%d" ++ line "running:%d") [Word wtime; Word rtime] (Exit 0))).
Definition zombie_main : prog :=
  Call Fork (fun pid => if decide (a_ret pid > 0) then Call (Sleep 5) (fun _ => Exit 0) else Exit 0).

(** ** init *)
Definition O_RDWR_ : Z := 2.
Definition CONSOLE_ : Z := 1.
(** for(;;) wait(): until the shell [pid] has exited. *)
Fixpoint init_waits (fuel : nat) (pid : Z) (again : prog) : prog :=
  match fuel with
  | O => Running
  | S fuel' =>
      Call Wait_ (fun wpid =>
        if decide (a_ret wpid = pid) then again
        else if decide (a_ret wpid < 0) then says 1 (line "init: wait returned an error") [] (Exit 1)
        else init_waits fuel' pid again)
  end.
Fixpoint init_shells (fuel : nat) : prog :=
  match fuel with
  | O => Running
  | S fuel' =>
      says 1 (line "init: starting sh") []
      (Call Fork (fun pid =>
        if decide (a_ret pid < 0) then says 1 (line "init: fork failed") [] (Exit 1)
        else if decide (a_ret pid = 0) then
          Call (Exec (chrs "sh") [Some (chrs "sh")]) (fun _ => says 1 (line "init: exec sh failed") [] (Exit 1))
        else init_waits fuel' (a_ret pid) (init_shells fuel')))
  end.
Definition init_main (fuel : nat) : prog :=
  let rest := Call (Dup 0) (fun _ => Call (Dup 0) (fun _ => init_shells fuel)) in
  Call (Open (chrs "console") O_RDWR_) (fun fd =>
    if decide (a_ret fd < 0) then
      Call (Mknod (chrs "console") CONSOLE_ 0) (fun _ => Call (Open (chrs "console") O_RDWR_) (fun _ => rest))
    else rest).

(** ** forktest *)
Definition print (s : list Z) (k : prog) : prog := Call (Write 1 s) (fun _ => k).
Definition NFORKTEST : nat := 1000.
(** for(; n > 0; n--) wait, and one wait too many *)
Fixpoint forktest_waits (n : nat) : prog :=
  match n with
  | O => Call Wait_ (fun a => if decide (a_ret a <> -1) then print (line "wait got too many") (Exit 1) else print (line "fork test OK") (Exit 0))
  | S n' => Call Wait_ (fun a => if decide (a_ret a < 0) then print (line "wait stopped early") (Exit 1) else forktest_waits n')
  end.
Fixpoint forktest_forks (left n : nat) : prog :=
  match left with
  | O => print (line "fork claimed to work N times!") (Exit 1)
  | S left' =>
      Call Fork (fun pid =>
        if decide (a_ret pid < 0) then forktest_waits n
        else if decide (a_ret pid = 0) then Exit 0 else forktest_forks left' (S n))
  end.
Definition forktest_main : prog := print (line "fork test") (forktest_forks NFORKTEST 0).

(** ** stressfs *)
Definition O_CREATE_ : Z := 0x200.
Fixpoint times (n : nat) (c : call) (k : prog) : prog :=
  match n with O => k | S n' => Call c (fun _ => times n' c k) end.
Definition stressfs_files (i : Z) : prog :=
  says 1 (line "write %d") [Word i]
  (let path := chrs "stressfs" ++ [u8 (chr "0" + i)] in
   let data := replicate 512 (chr "a") in
   Call (Open path (Z.lor O_CREATE_ O_RDWR_)) (fun fd =>
     times 20 (Write (a_ret fd) data) (Call (Close (a_ret fd)) (fun _ =>
       says 1 (line "read") [] (Call (Open path 0) (fun fd =>
         times 20 (Read (a_ret fd) 512) (Call (Close (a_ret fd)) (fun _ => Call Wait_ (fun _ => Exit 0))))))))).
Fixpoint stressfs_forks (left : nat) (i : Z) : prog :=
  match left with
  | O => stressfs_files i
  | S left' => Call Fork (fun pid => if decide (a_ret pid > 0) then stressfs_files i else stressfs_forks left' (i + 1))
  end.
Definition stressfs_main : prog := says 1 (line "stressfs starting") [] (stressfs_forks 4 0).

(** ** memtest *)
Definition memtest_denied (what : list Z) (i total : Z) : prog :=
  says 1 what [Word i] (says 1 (line "Memoria total alcanzada: %d bytes") [Word total] (Exit 0)).
Fixpoint memtest_loop (left : nat) (i total : Z) : prog :=
  match left with
  | O => says 1 (line "❗ ERROR CRITICO: el proceso crecio sin limite") [] (Exit 0)
  | S left' =>
      says 1 (line "[Iter %d] Memoria actual: %d bytes") [Word i; Word total]
      (Call (Sbrk 4096) (fun r1 =>
        if decide (a_ret r1 = -1) then memtest_denied (line "❌ ERROR: Memoria denegada al pedir 4096 bytes (4 KB) en iteracion %d") i total else
        let total := u64 (total + 4096) in
        says 1 (line "  ✓ Se asignaron 4096 bytes, total = %d") [Word total]
        (Call (Sbrk 128) (fun r2 =>
          if decide (a_ret r2 = -1) then memtest_denied (line "❌ ERROR: Memoria denegada al pedir 128 bytes en iteracion %d") i total else
          let total := u64 (total + 128) in
          says 1 (line "  ✓ Se asignaron 128 bytes, total = %d") [Word total]
          (Call (Sbrk 1) (fun r3 =>
            if decide (a_ret r3 = -1) then memtest_denied (line "❌ ERROR: Memoria denegada al pedir 1 byte en iteracion %d") i total else
            let total := u64 (total + 1) in
            says 1 (line "  ✓ Se asigno 1 byte, total = %d") [Word total]
            (Call (Sbrk 0) (fun addr =>
              says 1 (line "  ➤ Direccion final del break: %p") [Word (a_ret addr)]
              (says 1 (line "-----------------------------------------------") [] (memtest_loop left' (i + 1) total))))))))))
  end.
Definition memtest_main : prog :=
  says 1 ([10] ++ line "====== Prueba del limite de memoria ======" ++ [10]) [] (memtest_loop (Z.to_nat 200000) 0 0).

(** ** schedulertest *)
Definition NFORK : Z := 10.
Definition IO : Z := 5.
Definition NPROC_ : Z := 64.
(** The arrays tipo[] and prioridad[], by index; what they hold at first, and
    outside their bounds, is arbitrary. *)
Record table := mkTable { t_tipo : Z -> Z; t_prioridad : Z -> Z }.
Definition set_at (f : Z -> Z) (i v : Z) : Z -> Z := fun j => if decide (j = i) then v else f j.
Definition row_format : list Z := line "%3d   %4s   %4d   %5d   %5d   %8d".
Definition rule : list Z := line "-----------------------------------------------------".
Definition sched_end (total_r total_w : Z) : prog :=
  says 1 rule [] (says 1 (line "Promedio rtime: %d") [Word (Z.quot total_r NFORK)]
    (says 1 (line "Promedio wtime: %d") [Word (Z.quot total_w NFORK)]
      (says 1 (line "=====================================================" ++ [10]) [] (Exit 0)))).
(** for (; n > 0; n--); the values of rtime and wtime stay when waitx() fails. *)
Fixpoint sched_report (n : nat) (t : table) (rtime wtime total_r total_w : Z) : prog :=
  match n with
  | O => sched_end total_r total_w
  | S n' =>
      Call Waitx (fun a =>
        let pid := a_ret a in
        let rtime := nth 0 (a_data a) rtime in
        let wtime := nth 1 (a_data a) wtime in
        let turnaround := i32 (rtime + wtime) in
        let total_r := i32 (total_r + rtime) in
        let total_w := i32 (total_w + wtime) in
        says 1 row_format
          [Word pid; Text (Some (if decide (pid < NPROC_ /\ t_tipo t pid <> 0) then chrs "IO" else chrs "CPU"));
           Word (if decide (pid < NPROC_) then t_prioridad t pid else -1); Word rtime; Word wtime; Word turnaround]
          (sched_report n' t rtime wtime total_r total_w))
  end.
Definition sched_table (n : nat) (t : table) (rtime wtime : Z) : prog :=
  says 1 (line "PID   TIPO   PRIO   RTIME   WTIME   TURNAROUND") [] (says 1 rule [] (sched_report n t rtime wtime 0 0)).
(** for (n = 0; n < NFORK; n++); the CPU-bound children count to 10^9
    and exit. *)
Fixpoint sched_forks (left n : nat) (t : table) (rtime wtime : Z) : prog :=
  match left with
  | O => sched_table n t rtime wtime
  | S left' =>
      Call Fork (fun a =>
        let pid := a_ret a in
        if decide (pid < 0) then sched_table n t rtime wtime
        else if decide (pid = 0) then
          if decide (Z.of_nat n < IO) then Call (Sleep 200) (fun _ => Exit 0) else Exit 0
        else
          let t := if decide (pid < NPROC_) then mkTable (set_at (t_tipo t) pid (if decide (Z.of_nat n < IO) then 1 else 0)) (set_at (t_prioridad t) pid (-1)) else t in
          sched_forks left' (S n) t rtime wtime)
  end.
Definition schedulertest_main (junk : table) (rtime wtime : Z) : prog :=
  says 1 ([10] ++ line "===== Test PBS Mejorado =====") []
    (says 1 (line "Creando %d procesos (%d IO-bound, %d CPU-bound)" ++ [10]) [Word NFORK; Word IO; Word (NFORK - IO)]
      (sched_forks (Z.to_nat NFORK) 0 junk rtime wtime)).

(** ** Lemmas on runs *)
Definition write_calls (w : writes) : list call := (fun x => Write (fst x) [snd x]) <$> w.
Lemma run_put os w k : forall past, exists h, run os past (put w k) = run os (past ++ h) k /\ calls h = write_calls w.
Proof.
  induction w as [|[fd c] w IH]; intros past; [exists []; by rewrite app_nil_r|]. cbn [put run].
  destruct (IH (past ++ [(Write fd [c], os past (Write fd [c]))])) as (h & -> & E).
  eexists (_ :: h). rewrite <- app_assoc. split; [done|]. cbn. f_equal. exact E.
Qed.
Lemma run_says os fd fmt ap k w past :
  fprintf fd fmt ap = Some w -> exists h, run os past (says fd fmt ap k) = run os (past ++ h) k /\ calls h = write_calls w.
Proof. intros E. unfold says. rewrite E. apply run_put. Qed.
Lemma calls_app h1 h2 : calls (h1 ++ h2) = calls h1 ++ calls h2.
Proof. apply fmap_app. Qed.

(** kill sends one kill per argument, whatever the kernel answers. *)
Lemma kill_all os args : args <> [] -> forall name,
  let r := run os [] (kill_main (name :: args)) in
  calls r.1 = (fun s => Kill (atoi_str s 0)) <$> args /\ r.2 = Exit 0.
Proof.
  intros Hne name. unfold kill_main. rewrite decide_False by (destruct args; [done|cbn; lia]). cbn [tail].
  change (fmap _ args) with (calls [] ++ ((fun s => Kill (atoi_str s 0)) <$> args)). generalize (@nil (call * answer)) as past. clear Hne.
  induction args as [|s args IH]; intros past; cbn [kill_each run]; [by rewrite app_nil_r|].
  edestruct IH as [E1 E2]. split; [|exact E2]. rewrite E1, calls_app, <- app_assoc. done.
Qed.

(** rm (and mkdir, in the same way) removes the files in order up to the first
    refusal, reports that one, and exits with 0 all the same. *)
Definition refused (os : history -> call -> answer) (past : history) (c : call) : Prop := a_ret (os past c) < 0.
Fixpoint until_refused (os : history -> call -> answer) (past : history) (cs : list call) : list call * bool :=
  match cs with
  | [] => ([], false)
  | c :: cs' =>
      if decide (a_ret (os past c) < 0) then ([c], true)
      else let r := until_refused os (past ++ [(c, os past c)]) cs' in (c :: r.1, r.2)
  end.
Lemma rm_until_refused os name files :
  files <> [] ->
  let r := run os [] (rm_main (name :: files)) in
  let u := until_refused os [] (Unlink <$> files) in
  r.2 = Exit 0 /\ exists told, calls r.1 = u.1 ++ told /\ (u.2 = false -> told = []) /\
    (u.2 = true -> exists f, last u.1 = Some (Unlink f) /\ told = write_calls (puts 2 (chrs "rm: " ++ f ++ line " failed to delete"))).
Proof.
  intros Hne. unfold rm_main. rewrite decide_False by (destruct files; [done|cbn; lia]). cbn [tail]. cbv zeta.
  change (exists told, calls (run os [] (rm_each files)).1 = (until_refused os [] (Unlink <$> files)).1 ++ told /\ _)
    with (exists told, calls (run os [] (rm_each files)).1 = calls [] ++ (until_refused os [] (Unlink <$> files)).1 ++ told /\
      ((until_refused os [] (Unlink <$> files)).2 = false -> told = []) /\
      ((until_refused os [] (Unlink <$> files)).2 = true -> exists f, last (until_refused os [] (Unlink <$> files)).1 = Some (Unlink f) /\
        told = write_calls (puts 2 (chrs "rm: " ++ f ++ line " failed to delete")))).
  generalize (@nil (call * answer)) as past. clear Hne. induction files as [|f files IH]; intros past.
  - cbn. split; [done|]. exists []. by rewrite app_nil_r.
  - cbn [rm_each run fmap list_fmap until_refused]. case_decide as Hr.
    + destruct (run_says os 2 (line "rm: %s failed to delete") [Text (Some f)] (Exit 0) (puts 2 (chrs "rm: " ++ f ++ line " failed to delete"))
        (past ++ [(Unlink f, os past (Unlink f))])) as (h & -> & E).
      { change (line "rm: %s failed to delete") with (unparse ((Lit <$> chrs "rm: ") ++ [Conv (chr "s")] ++ (Lit <$> line " failed to delete"))).
        unfold fprintf. rewrite vprintf_renders by (apply (bool_decide_unpack _); by vm_compute). done. }
      cbn [run fst snd]. split; [done|]. exists (write_calls (puts 2 (chrs "rm: " ++ f ++ line " failed to delete"))).
      rewrite !calls_app, E, <- app_assoc. split_and!; [done|done|]. intros _. by exists f.
    + destruct (IH (past ++ [(Unlink f, os past (Unlink f))])) as (E & told & E1 & E2 & E3). split; [done|]. exists told. cbn [fst snd].
      rewrite E1, calls_app, <- !app_assoc. split_and!; [done|done|]. intros H. destruct (E3 H) as (g & El & ->). exists g. split; [|done].
      destruct (until_refused os _ _).1; [done|exact El].
Qed.

(** echo writes its arguments separated by spaces and ended by a newline. *)
Definition written (cs : list call) : list Z := flat_map (fun c => match c with Write 1 b => b | _ => [] end) cs.
Fixpoint joined (args : list (list Z)) : list Z :=
  match args with [] => [] | [s] => s ++ [10] | s :: args' => s ++ [32] ++ joined args' end.
Lemma echo_joined os name args :
  let r := run os [] (echo_main (name :: args)) in written (calls r.1) = joined args /\ r.2 = Exit 0.
Proof.
  unfold echo_main. cbn [tail]. cbv zeta. change (joined args) with (written (calls []) ++ joined args). generalize (@nil (call * answer)) as past.
  induction args as [|s args IH]; intros past; cbn [echo_each run]; [by rewrite app_nil_r|].
  edestruct IH as [E1 E2]. rewrite E1, E2. split; [|done]. unfold written, calls. rewrite !fmap_app, !flat_map_app. cbn. rewrite !app_nil_r, <- !app_assoc.
  by destruct args.
Qed.

(** The range check of setpriority accepts every priority, and the program
    reports failure (status 1) whatever happens. *)
Lemma range_check_accepts_all priority : check_priority_range priority = 1.
Proof. unfold check_priority_range. rewrite decide_True by lia. done. Qed.
Lemma setpriority_exits_1 os a0 a1 a2 rest :
  run os [] (setpriority_main (a0 :: a1 :: a2 :: rest)) =
  (let c := Setpriority (atoi_str a1 0) (atoi_str a2 0) in ([(c, os [] c)], Exit 1)).
Proof. unfold setpriority_main. by rewrite range_check_accepts_all, decide_False. Qed.

(** strace passes exec() a vector whose end is whatever the array held: with
    [junk] in the word after the command, the command gets one argument more. *)
Example strace_extra_argument :
  (run (fun _ _ => mkAnswer 0 []) [] (strace_main [] [Some (chrs "?"); Some (chrs "junk"); None] [chrs "strace"; chrs "32"; chrs "ls"])).1.*1 =
  [Trace 32; Exec (chrs "ls") [Some (chrs "ls"); Some (chrs "junk"); None]].
Proof. vm_compute. reflexivity. Qed.

(** time prints the first number that waitx() stores as the waiting time and the
    second as the running time; the kernel stores them the other way round. *)
Lemma time_output os name first second d :
  a_ret (os [] Fork) > 0 -> a_data (os [(Fork, os [] Fork)] Waitx) = first :: second :: d ->
  exists h, run os [] (time_main [name]) = (h, Exit 0) /\
    calls h = [Fork; Waitx] ++ write_calls (puts 1 ([10] ++ chrs "waiting:" ++ int_chars (i32 first) 10 1 ++ [10] ++ chrs "running:" ++ int_chars (i32 second) 10 1 ++ [10])).
Proof.
  intros Hp Hd. unfold time_main. cbn [run]. rewrite !decide_False by lia. cbn [run app]. rewrite Hd. cbn [nth].
  assert (fprintf 1 ([10] ++ line "waiting:%d" ++ line "running:%d") [Word first; Word second] =
    Some (puts 1 ([10] ++ chrs "waiting:" ++ int_chars (i32 first) 10 1 ++ [10] ++ chrs "running:" ++ int_chars (i32 second) 10 1 ++ [10]))) as Ew.
  { change ([10] ++ line "waiting:%d" ++ line "running:%d") with
      (unparse ((Lit <$> [10] ++ chrs "waiting:") ++ [Conv (chr "d"); Lit 10] ++ (Lit <$> chrs "running:") ++ [Conv (chr "d"); Lit 10])).
    unfold fprintf. rewrite vprintf_renders by (apply (bool_decide_unpack _); by vm_compute). reflexivity. }
  destruct (run_says os 1 _ _ (Exit 0) _ [(Fork, os [] Fork); (Waitx, os [(Fork, os [] Fork)] Waitx)] Ew) as (h & Er & E).
  eexists. split; [exact Er|]. rewrite calls_app, E. done.
Qed.

(** The rows of schedulertest: printf() has no field widths, so the format is
    written as it stands and none of the numbers appear. *)
Lemma schedulertest_row fd ap : vprintf fd row_format ap = Some (puts fd row_format).
Proof. vm_compute. reflexivity. Qed.

(** init: as long as fork() and wait() do not fail, it goes on for ever, and it
    starts a shell again exactly when wait() has returned the shell's pid. *)
Fixpoint shells (pid : option Z) (h : history) : option nat :=
  match h with
  | [] => Some O
  | (Fork, a) :: h' => match pid with Some _ => None | None => S <$> shells (Some (a_ret a)) h' end
  | (Wait_, a) :: h' => match pid with None => None | Some q => shells (if decide (a_ret a = q) then None else Some q) h' end
  | _ :: h' => shells pid h'
  end.
Lemma shells_writes pid w os : forall past k, exists h, run os past (put w k) = run os (past ++ h) k /\ forall h', shells pid (h ++ h') = shells pid h'.
Proof.
  induction w as [|[fd c] w IH]; intros past k; [exists []; by rewrite app_nil_r|]. cbn [put run].
  destruct (IH (past ++ [(Write fd [c], os past (Write fd [c]))]) k) as (h & -> & E).
  eexists (_ :: h). rewrite <- app_assoc. split; [done|]. intros h'. cbn. apply E.
Qed.
Definition keeps_going (os : history -> call -> answer) : Prop :=
  forall past, a_ret (os past Fork) > 0 /\ a_ret (os past Wait_) >= 0.

Lemma init_supervises os : keeps_going os -> forall fuel past,
  (exists h, run os past (init_shells fuel) = (past ++ h, Running) /\ is_Some (shells None h)) /\
  (forall n pid, exists h, run os past (init_waits n pid (init_shells fuel)) = (past ++ h, Running) /\ is_Some (shells (Some pid) h)).
Proof.
  intros Hos. induction fuel as [|fuel IH].
  - intros past. split; [exists []; rewrite app_nil_r; cbn; eauto|]. intros n pid. revert past. induction n as [|n IHn]; intros past.
    + exists []. rewrite app_nil_r. cbn. eauto.
    + cbn [init_waits run]. destruct (Hos past) as [_ Hw]. case_decide as E.
      * exists [(Wait_, os past Wait_)]. split; [done|]. cbn. eauto.
      * rewrite decide_False by lia. destruct (IHn (past ++ [(Wait_, os past Wait_)])) as (h & -> & Hs).
        exists ((Wait_, os past Wait_) :: h). rewrite <- app_assoc. split; [done|]. cbn [shells]. by rewrite decide_False.
  - assert (forall past, exists h, run os past (init_shells (S fuel)) = (past ++ h, Running) /\ is_Some (shells None h)) as Hsh.
    { intros past. cbn [init_shells]. unfold says.
      destruct (fprintf 1 (line "init: starting sh") []) as [w|] eqn:Ew; [|by vm_compute in Ew].
      edestruct (shells_writes None w os past) as (h0 & -> & E0). cbn [run]. destruct (Hos (past ++ h0)) as [Hf _]. rewrite !decide_False by lia.
      destruct (IH ((past ++ h0) ++ [(Fork, os (past ++ h0) Fork)])) as [_ Hw].
      destruct (Hw fuel (a_ret (os (past ++ h0) Fork))) as (h & -> & Hs).
      exists (h0 ++ (Fork, os (past ++ h0) Fork) :: h). rewrite <- !app_assoc. split; [done|]. rewrite E0. cbn. by apply fmap_is_Some. }
    intros past. split; [apply Hsh|]. intros n pid. revert past. induction n as [|n IHn]; intros past.
    + exists []. rewrite app_nil_r. cbn. eauto.
    + cbn [init_waits run]. destruct (Hos past) as [_ Hw]. case_decide as E.
      * destruct (Hsh (past ++ [(Wait_, os past Wait_)])) as (h & -> & Hs). exists ((Wait_, os past Wait_) :: h). rewrite <- app_assoc. split; [done|].
        cbn [shells]. by rewrite decide_True.
      * rewrite decide_False by lia. destruct (IHn (past ++ [(Wait_, os past Wait_)])) as (h & -> & Hs).
        exists ((Wait_, os past Wait_) :: h). rewrite <- app_assoc. split; [done|]. cbn [shells]. by rewrite decide_False.
Qed.

(** forktest accepts exactly a kernel whose fork() fails before NFORKTEST
    children and whose wait() then returns each child once. *)
Lemma forktest_waits_ok os n : forall past,
  (run os past (forktest_waits n)).2 = Exit 0 ->
  exists h, calls h = replicate (S n) Wait_ /\ (forall i a, snd <$> h !! i = Some a -> (i < n)%nat -> a_ret a >= 0) /\
    (forall a, snd <$> h !! n = Some a -> a_ret a = -1) /\ (run os past (forktest_waits n)).1 = past ++ h ++ [(Write 1 (line "fork test OK"), os (past ++ h) (Write 1 (line "fork test OK")))].
Proof.
  induction n as [|n IH]; intros past; cbn [forktest_waits run].
  - case_decide as E; cbn [print run snd]; [done|]. intros _. exists [(Wait_, os past Wait_)]. split_and!; [done|lia| |by rewrite <- app_assoc].
    intros a [= <-]. lia.
  - case_decide as E; cbn [print run snd]; [done|]. intros H. destruct (IH _ H) as (h & E1 & E2 & E3 & E4).
    exists ((Wait_, os past Wait_) :: h). split_and!; [cbn [calls fmap list_fmap fst replicate]; by f_equal| |done|].
    + intros [|i] a; cbn; [intros [= <-]; lia|]. intros Ha Hi. apply (E2 i); [done|lia].
    + rewrite E4, <- !app_assoc. done.
Qed.
