(* ===== verification/Ushrun.v ===== *)
(** * user/sh.c: running commands

    A process of the shell is the tree of what it does from some point on:
    fork() has two branches, the child and the parent; exec() ends the
    tree with the program that is run and the descriptors it inherits.  The
    table of descriptors of a process is computed on the way: open(), dup() and
    pipe() take the lowest free descriptors, as fdalloc() of the kernel does.
    A process that waits is recorded with its table.  What the system calls
    answer is the record [answers]: every call has a position of its own in the
    tree of processes, and its answer is an arbitrary function of the position
    and the arguments, so the same open() may fail at one place and succeed at
    another.  A pipe is named by the position of its pipe().

    malloc() of the nodes of a command is assumed to succeed, as in the source.

    [plan] is the intended meaning of a command in terms of its three standard
    streams; [runcmd_plan] shows that the juggling of descriptors implements it. *)

From S2P Require Import Prelude Machine Uprintf Ulib Ush.

(** What a descriptor refers to: a pipe is named by the process that made it. *)
Inductive ofile := Console | PipeRead (id : list nat) | PipeWrite (id : list nat) | Opened (name : list Z) (mode : Z).

Abbreviation fdtable := (list (option ofile)).
Definition NOFILES : nat := 16.

Definition fd_alloc (f : ofile) (t : fdtable) : option (Z * fdtable) :=
  match list_find (fun o => o = @None ofile) t with
  | Some (i, _) => Some (Z.of_nat i, <[i := Some f]> t)
  | None => None
  end.
Definition fd_close (fd : Z) (t : fdtable) : fdtable := if decide (0 <= fd) then <[Z.to_nat fd := None]> t else t.
Definition fd_dup (fd : Z) (t : fdtable) : fdtable :=
  match t !! Z.to_nat fd with Some (Some f) => default t (snd <$> fd_alloc f t) | _ => t end.
Definition fd_pipe (id : list nat) (t : fdtable) : option (Z * Z * fdtable) :=
  r0 ← fd_alloc (PipeRead id) t; r1 ← fd_alloc (PipeWrite id) (snd r0); Some (fst r0, fst r1, snd r1).

(** The positions are paths: [0; i] is the [i]th open() of the console, [n + 1] the
    command of line [n], and a path is extended for the parts of a command. *)
Record answers := mkOs {
  os_open : list nat -> list Z -> Z -> bool;
  os_exec : list nat -> list (list Z) -> bool;
  os_fork : list nat -> bool;
  os_pipe : list nat -> bool;
  os_chdir : list nat -> list Z -> bool
}.

(** What a process does. *)
Inductive beh :=
| BExit (status : Z)
| BRun (argv : list (list Z)) (t : fdtable)
| BFork (child parent : beh)
| BWait (t : fdtable) (rest : beh)
| BChdir (path : list Z) (rest : beh)
| BSay (text : writes) (rest : beh)
| BStuck.

(** fprintf(2, fmt, ...) *)
Definition say (fmt : list Z) (ap : list uarg) (rest : beh) : beh :=
  match fprintf 2 fmt ap with Some w => BSay w rest | None => BStuck end.
Definition panic (s : list Z) : beh := say (chrs "%s" ++ [10]) [Text (Some s)] (BExit 1).
Definition fork1 (os : answers) (id : list nat) (child parent : beh) : beh :=
  if os_fork os id then BFork child parent else panic (chrs "fork").
Definition sys_open (os : answers) (id : list nat) (name : list Z) (mode : Z) (t : fdtable) : option (Z * fdtable) :=
  if os_open os id name mode then fd_alloc (Opened name mode) t else None.
Definition sys_pipe (os : answers) (id : list nat) (t : fdtable) : option (Z * Z * fdtable) :=
  if os_pipe os id then fd_pipe id t else None.

Fixpoint runcmd (os : answers) (id : list nat) (c : cmd (list Z)) (t : fdtable) : beh :=
  match c with
  | EXEC argv =>
      match argv with
      | [] => BExit 1
      | a :: _ => if os_exec os id argv then BRun argv t else say (chrs "exec %s failed" ++ [10]) [Text (Some a)] (BExit 0)
      end
  | REDIR c file mode fd =>
      match sys_open os id file mode (fd_close fd t) with
      | None => say (chrs "open %s failed" ++ [10]) [Text (Some file)] (BExit 1)
      | Some (_, t) => runcmd os (id ++ [0%nat]) c t
      end
  | LIST l r => fork1 os (id ++ [0%nat]) (runcmd os (id ++ [0%nat]) l t) (BWait t (runcmd os (id ++ [1%nat]) r t))
  | PIPE l r =>
      match sys_pipe os id t with
      | None => panic (chrs "pipe")
      | Some (p0, p1, t) =>
          let tw := fd_close p1 (fd_close p0 t) in
          fork1 os (id ++ [0%nat]) (runcmd os (id ++ [0%nat]) l (fd_close p1 (fd_close p0 (fd_dup p1 (fd_close 1 t)))))
            (fork1 os (id ++ [1%nat]) (runcmd os (id ++ [1%nat]) r (fd_close p1 (fd_close p0 (fd_dup p0 (fd_close 0 t)))))
              (BWait tw (BWait tw (BExit 0))))
      end
  | BACK c => fork1 os (id ++ [0%nat]) (runcmd os (id ++ [0%nat]) c t) (BExit 0)
  end.

(** The string a pointer into the line points to after nulterminate(). *)
Definition word_string (s : list Z) (c : cmd word) (w : word) : list Z := cstr (drop (index s w.1) (parsed_line s c)).
(** What parsecmd() leaves over when it stops before the end of the line. *)
Definition leftovers (s : list Z) : list Z := match parseline (parse_fuel s) s with POk _ rest => (peek rest []).2 | _ => [] end.
(** runcmd(parsecmd(buf)) in the child. *)
Definition run_line (os : answers) (id : list nat) (s : list Z) (t : fdtable) : beh :=
  match parsecmd s with
  | POk c _ => runcmd os id (cmd_map (word_string s c) c) t
  | PPanic msg =>
      if decide (leftovers s <> []) then say (chrs "leftovers: %s" ++ [10]) [Text (Some (leftovers s))] (panic (chrs msg))
      else panic (chrs msg)
  | PFuel => BStuck
  end.

(** ** The prompt loop *)
Definition NBUFSH : Z := 100.
Definition buf_string (m : mem) (buf : Z) : list Z := cstr (read_bytes (Z.to_nat NBUFSH) m buf).
(** getcmd(): the new memory, the input that is left, and the result. *)
Definition getcmd (input : list (option Z)) (m : mem) (buf : Z) : mem * list (option Z) * Z :=
  let m := memset m buf 0 NBUFSH in
  let '(m, input) := gets input m buf NBUFSH in
  (m, input, if decide (read8 m buf = 0) then -1 else 0).
Definition is_cd (m : mem) (buf : Z) : Prop := read8 m buf = 99 /\ read8 m (buf + 1) = 100 /\ read8 m (buf + 2) = 32.
#[export] Instance is_cd_dec m buf : Decision (is_cd m buf) := and_dec _ _.
Definition prompt : writes := default [] (fprintf 2 (chrs "$ ") []).

(** while(getcmd(buf, sizeof(buf)) >= 0); [n] counts the commands. *)
Fixpoint sh_loop (fuel : nat) (os : answers) (n : nat) (input : list (option Z)) (m : mem) (buf : Z) (t : fdtable) : beh :=
  match fuel with
  | O => BStuck
  | S fuel' =>
      BSay prompt
      (let '(m, input, r) := getcmd input m buf in
       if decide (r < 0) then BExit 0
       else if decide (is_cd m buf) then
         let m := write8 m (buf + Z.of_nat (length (buf_string m buf)) - 1) 0 in
         let path := cstr (read_bytes (Z.to_nat NBUFSH - 3) m (buf + 3)) in
         BChdir path
           (if os_chdir os [n] path then sh_loop fuel' os (S n) input m buf t
            else say (chrs "cannot cd %s" ++ [10]) [Text (Some path)] (sh_loop fuel' os (S n) input m buf t))
       else fork1 os [n] (run_line os [n] (buf_string m buf) t) (BWait t (sh_loop fuel' os (S n) input m buf t)))
  end.

(** while((fd = open("console", O_RDWR)) >= 0); [i] counts the calls. *)
Fixpoint open_consoles (fuel : nat) (os : answers) (i : nat) (t : fdtable) : fdtable :=
  match fuel with
  | O => t
  | S fuel' =>
      match (if os_open os [0%nat; i] (chrs "console") 2 then fd_alloc Console t else None) with
      | None => t
      | Some (fd, t) => if decide (3 <= fd) then fd_close fd t else open_consoles fuel' os (S i) t
      end
  end.
Definition sh_main (os : answers) (input : list (option Z)) (m : mem) (buf : Z) (t : fdtable) : beh :=
  sh_loop (S (length input)) os 1 input m buf (open_consoles (S NOFILES) os 0 t).

(** ** The meaning of a command *)
Record streams := mkStreams { s_in : ofile; s_out : ofile; s_err : ofile }.
(** The table of a process: its three streams and nothing else. *)
Definition table_of (s : streams) : fdtable := [Some (s_in s); Some (s_out s); Some (s_err s)] ++ replicate (NOFILES - 3) None.
Definition with_stream (fd : Z) (f : ofile) (s : streams) : streams :=
  if decide (fd = 0) then mkStreams f (s_out s) (s_err s) else mkStreams (s_in s) f (s_err s).

Fixpoint plan (os : answers) (id : list nat) (c : cmd (list Z)) (s : streams) : beh :=
  match c with
  | EXEC [] => BExit 1
  | EXEC ((a :: _) as argv) => if os_exec os id argv then BRun argv (table_of s) else say (chrs "exec %s failed" ++ [10]) [Text (Some a)] (BExit 0)
  | REDIR c file mode fd =>
      if os_open os id file mode then plan os (id ++ [0%nat]) c (with_stream fd (Opened file mode) s)
      else say (chrs "open %s failed" ++ [10]) [Text (Some file)] (BExit 1)
  | LIST l r => fork1 os (id ++ [0%nat]) (plan os (id ++ [0%nat]) l s) (BWait (table_of s) (plan os (id ++ [1%nat]) r s))
  | PIPE l r =>
      if os_pipe os id then
        fork1 os (id ++ [0%nat]) (plan os (id ++ [0%nat]) l (with_stream 1 (PipeWrite id) s))
          (fork1 os (id ++ [1%nat]) (plan os (id ++ [1%nat]) r (with_stream 0 (PipeRead id) s))
            (BWait (table_of s) (BWait (table_of s) (BExit 0))))
      else panic (chrs "pipe")
  | BACK c => fork1 os (id ++ [0%nat]) (plan os (id ++ [0%nat]) c s) (BExit 0)
  end.

(** The redirections of the parser are of descriptors 0 and 1. *)
Fixpoint redirs_std {W} (c : cmd W) : Prop :=
  match c with
  | EXEC _ => True
  | REDIR c _ _ fd => redirs_std c /\ (fd = 0 \/ fd = 1)
  | PIPE l r | LIST l r => redirs_std l /\ redirs_std r
  | BACK c => redirs_std c
  end.
Lemma open_redir os id file mode fd s :
  fd = 0 \/ fd = 1 ->
  snd <$> sys_open os id file mode (fd_close fd (table_of s)) = if os_open os id file mode then Some (table_of (with_stream fd (Opened file mode) s)) else None.
Proof. unfold sys_open. destruct (os_open os id file mode); [|done]. by intros [-> | ->]. Qed.
Lemma pipe_left p0 p1 t s id : fd_pipe id (table_of s) = Some (p0, p1, t) -> fd_close p1 (fd_close p0 (fd_dup p1 (fd_close 1 t))) = table_of (with_stream 1 (PipeWrite id) s).
Proof. by intros [= <- <- <-]. Qed.
Lemma pipe_right p0 p1 t s id : fd_pipe id (table_of s) = Some (p0, p1, t) -> fd_close p1 (fd_close p0 (fd_dup p0 (fd_close 0 t))) = table_of (with_stream 0 (PipeRead id) s).
Proof. by intros [= <- <- <-]. Qed.

Lemma pipe_parent p0 p1 t s id : fd_pipe id (table_of s) = Some (p0, p1, t) -> fd_close p1 (fd_close p0 t) = table_of s.
Proof. by intros [= <- <- <-]. Qed.

Lemma runcmd_plan os c : forall id s, redirs_std c -> runcmd os id c (table_of s) = plan os id c s.
Proof.
  induction c as [argv|c IH file mode fd|l IHl r IHr|l IHl r IHr|c IH]; intros id s Hc; cbn [runcmd plan redirs_std] in *.
  - destruct argv as [|a argv]; reflexivity.
  - destruct Hc as [Hc Hfd]. pose proof (open_redir os id file mode fd s Hfd) as E. destruct (os_open os id file mode).
    + destruct (sys_open _ _ _ _ _) as [[nfd t]|]; [|done]. cbn in E. injection E as ->. by apply IH.
    + by destruct (sys_open _ _ _ _ _) as [[nfd t]|].
  - unfold sys_pipe. destruct (os_pipe os id); [|done]. destruct (fd_pipe id (table_of s)) as [[[p0 p1] t]|] eqn:E; [|done].
    cbv zeta. rewrite (pipe_left _ _ _ _ _ E), (pipe_right _ _ _ _ _ E), (pipe_parent _ _ _ _ _ E). by rewrite IHl, IHr by apply Hc.
  - by rewrite IHl, IHr by apply Hc.
  - by rewrite IH.
Qed.

(** ** A line that is typed *)
Definition typable (l : list Z) : Prop := Forall (fun c => 0 < c < 256 /\ c <> 10 /\ c <> 13) l /\ (length l < 99)%nat.
Definition typed (l : list Z) : list (option Z) := Some <$> (l ++ [10]).

Lemma line_of_typed l rest : forall max, Forall (fun c => 0 < c < 256 /\ c <> 10 /\ c <> 13) l -> (length l + 1 < max)%nat -> line_of max (typed l ++ rest) = l ++ [10].
Proof.
  unfold typed. induction l as [|c l IH]; intros max Hl Hm; (destruct max as [|[|max]]; [cbn in Hm; lia..|]).
  - done.
  - apply Forall_cons in Hl as [Hc Hl]. cbn [app fmap list_fmap line_of]. rewrite decide_False by lia. f_equal. apply IH; [done|]. cbn in Hm. lia.
Qed.
Lemma gets_typed_rest l rest : forall m buf max i,
  Forall (fun c => 0 < c < 256 /\ c <> 10 /\ c <> 13) l -> i + Z.of_nat (length l) + 1 < max ->
  snd (gets_from (typed l ++ rest) m buf max i) = rest.
Proof.
  unfold typed. induction l as [|c l IH]; intros m buf max i Hl Hm; cbn [app fmap list_fmap gets_from].
  - rewrite decide_True by (cbn in Hm; lia). by rewrite decide_True by (by left).
  - apply Forall_cons in Hl as [Hc Hl]. cbn [length] in Hm. rewrite decide_True by lia. rewrite decide_False by lia. apply IH; [done|lia].
Qed.

(** What getcmd() leaves in the buffer. *)
Lemma getcmd_typed l rest m buf :
  typable l -> Forall (fun o => match o with Some c => 0 <= c < 256 | None => True end) rest ->
  exists m', getcmd (typed l ++ rest) m buf = (m', rest, 0) /\
    (forall j, (j <= length l)%nat -> read8 m' (buf + Z.of_nat j) = default 0 ((l ++ [10]) !! j)) /\
    read8 m' (buf + Z.of_nat (length l) + 1) = 0.
Proof.
  intros [Hl Hn] Hrest. unfold getcmd. set (m0 := memset m buf 0 NBUFSH).
  assert (Forall (fun o => match o with Some c => 0 <= c < 256 | None => True end) (typed l ++ rest)) as Hin.
  { apply Forall_app. split; [|done]. unfold typed. apply Forall_fmap, Forall_app. split; [|apply Forall_cons_2; [cbn; lia|by apply Forall_nil_2]].
    apply (Forall_impl _ _ _ Hl). cbn. lia. }
  pose proof (gets_ok (typed l ++ rest) m0 buf NBUFSH ltac:(done) Hin) as (E1 & E2 & E3 & _). unfold NBUFSH in *. change (Z.to_nat 100) with 100%nat in *.
  rewrite (line_of_typed l rest 100 Hl) in E1, E2, E3 by lia. unfold gets in *.
  pose proof (gets_typed_rest l rest m0 buf 100 0 Hl ltac:(lia)) as Er. destruct (gets_from _ _ _ _ _) as [[m1 i] rest']. cbn [snd fst] in *. subst rest'.
  set (m' := write8 m1 (buf + i) 0) in *. rewrite length_app in *. cbn [length] in *.
  assert (forall j, (j <= length l)%nat -> read8 m' (buf + Z.of_nat j) = default 0 ((l ++ [10]) !! j)) as Hread.
  { intros j Hj. pose proof (lookup_read_bytes (length l + 1) m' buf j ltac:(lia)) as Hlk. rewrite E2 in Hlk. by rewrite Hlk. }
  exists m'. split; [|split; [done|by replace (buf + Z.of_nat (length l) + 1) with (buf + Z.of_nat (length l + 1)) by lia]].
  rewrite decide_False; [done|]. pose proof (Hread 0%nat ltac:(lia)) as H0. rewrite Z.add_0_r in H0. rewrite H0.
  destruct l as [|c l]; [done|]. apply Forall_cons in Hl as [Hc _]. cbn. lia.
Qed.
Lemma getcmd_eof m buf : exists m', getcmd [] m buf = (m', [], -1).
Proof.
  unfold getcmd. set (m0 := memset m buf 0 NBUFSH). pose proof (gets_ok [] m0 buf NBUFSH ltac:(done) (Forall_nil_2 _)) as (_ & _ & E3 & _).
  destruct (gets [] m0 buf NBUFSH) as [m1 i] eqn:E. exists m1. cbn [fst] in E3. change (line_of (Z.to_nat NBUFSH) []) with (@nil Z) in E3. cbn [length Z.of_nat] in E3. rewrite Z.add_0_r in E3.
  rewrite decide_True by done. cbn in E. injection E as <- <-. done.
Qed.
(** The buffer as a C string. *)
Lemma buffer_string l n m buf :
  0 ∉ l -> (length l < n)%nat -> (forall j, (j < length l)%nat -> read8 m (buf + Z.of_nat j) = default 0 (l !! j)) -> read8 m (buf + Z.of_nat (length l)) = 0 ->
  cstr (read_bytes n m buf) = l.
Proof.
  intros H0 Hn Hr Hz. apply cstr_at; [done| |].
  - intros j Hj. rewrite lookup_read_bytes by lia. rewrite Hr by done. by destruct (lookup_lt_is_Some_2 l j Hj) as [v ->].
  - rewrite lookup_read_bytes by lia. by rewrite Hz.
Qed.

(** ** A session *)
Definition cd_line (l : list Z) : Prop := take 3 l = [99; 100; 32].
#[export] Instance cd_line_dec l : Decision (cd_line l) := _.
(** The behaviour of the shell for the lines that are typed. *)
Fixpoint session (os : answers) (n : nat) (lines : list (list Z)) (t : fdtable) : beh :=
  BSay prompt
  match lines with
  | [] => BExit 0
  | l :: lines' =>
      if decide (cd_line l) then
        BChdir (drop 3 l)
          (if os_chdir os [n] (drop 3 l) then session os (S n) lines' t
           else say (chrs "cannot cd %s" ++ [10]) [Text (Some (drop 3 l))] (session os (S n) lines' t))
      else fork1 os [n] (run_line os [n] (l ++ [10]) t) (BWait t (session os (S n) lines' t))
  end.

Lemma line_is_cd l m buf :
  typable l -> (forall j, (j <= length l)%nat -> read8 m (buf + Z.of_nat j) = default 0 ((l ++ [10]) !! j)) ->
  read8 m (buf + Z.of_nat (length l) + 1) = 0 -> is_cd m buf <-> cd_line l.
Proof.
  intros [Hl _] Hr Hz. unfold is_cd, cd_line. pose proof (Hr 0%nat ltac:(lia)) as R0. rewrite Z.add_0_r in R0. rewrite R0.
  destruct l as [|a [|b [|c l]]]; cbn [length] in *.
  - cbn. split; [lia|done].
  - pose proof (Hr 1%nat ltac:(lia)) as R1. change (Z.of_nat 1) with 1 in R1. rewrite R1. cbn. split; [lia|done].
  - pose proof (Hr 1%nat ltac:(lia)) as R1. pose proof (Hr 2%nat ltac:(lia)) as R2. change (Z.of_nat 1) with 1 in R1. change (Z.of_nat 2) with 2 in R2. rewrite R1, R2. cbn. split; [lia|done].
  - pose proof (Hr 1%nat ltac:(lia)) as R1. pose proof (Hr 2%nat ltac:(lia)) as R2. change (Z.of_nat 1) with 1 in R1. change (Z.of_nat 2) with 2 in R2. rewrite R1, R2. cbn.
    split; [by intros (-> & -> & ->)|by intros [= -> -> ->]].
Qed.
Lemma typable_nonzero l : typable l -> 0 ∉ l ++ [10].
Proof.
  intros [Hl _]. rewrite elem_of_app. intros [H0|H0]; [|set_solver]. rewrite Forall_forall in Hl. destruct (Hl 0 H0). lia.
Qed.

Lemma sh_loop_session os buf t lines : forall fuel n m,
  Forall typable lines -> (length lines < fuel)%nat -> sh_loop fuel os n (concat (typed <$> lines)) m buf t = session os n lines t.
Proof.
  induction lines as [|l lines IH]; intros fuel n m Hty Hf; (destruct fuel as [|fuel]; [cbn in Hf; lia|]); cbn [fmap list_fmap concat sh_loop session].
  - destruct (getcmd_eof m buf) as [m' ->]. by rewrite decide_True.
  - apply Forall_cons in Hty as [Hl Hty]. cbn [length] in Hf.
    destruct (getcmd_typed l (concat (typed <$> lines)) m buf Hl) as (m' & -> & Hr & Hz).
    { clear - Hty. induction Hty as [|l lines [Hl _] _ IH]; cbn; [constructor|]. apply Forall_app. split; [|done]. unfold typed. apply Forall_fmap, Forall_app.
      split; [|apply Forall_cons_2; [cbn; lia|by apply Forall_nil_2]]. apply (Forall_impl _ _ _ Hl). cbn. lia. }
    f_equal. rewrite (decide_False (P := 0 < 0)) by lia. pose proof (line_is_cd l m' buf Hl Hr Hz) as Hcd. destruct Hl as [Hl Hn].
    assert (buf_string m' buf = l ++ [10]) as Es.
    { apply buffer_string; [by apply typable_nonzero|rewrite length_app; cbn; unfold NBUFSH; lia| |].
      - intros j Hj. rewrite length_app in Hj. cbn in Hj. apply Hr. lia.
      - rewrite length_app. cbn [length]. by replace (buf + Z.of_nat (length l + 1)) with (buf + Z.of_nat (length l) + 1) by lia. }
    rewrite Es. destruct (decide (cd_line l)) as [Hc|Hc]; [rewrite decide_True by by apply Hcd|rewrite decide_False by (rewrite Hcd; done); by rewrite IH by (done || lia)].
    rewrite length_app. cbn [length]. set (m2 := write8 _ _ 0).
    assert (3 <= length l)%nat as H3. { unfold cd_line in Hc. apply (f_equal length) in Hc. rewrite length_take in Hc. change (length [99; 100; 32]) with 3%nat in Hc. lia. }
    assert (cstr (read_bytes (Z.to_nat NBUFSH - 3) m2 (buf + 3)) = drop 3 l) as ->; [|by rewrite IH by (done || lia)].
    apply buffer_string.
    + intros H0. apply (typable_nonzero l); [done|]. apply elem_of_app. left. by apply (subseteq_drop 3).
    + rewrite length_drop. change (Z.to_nat NBUFSH) with 100%nat. lia.
    + intros j Hj. rewrite length_drop in Hj. unfold m2. rewrite read8_write8_ne by lia. replace (buf + 3 + Z.of_nat j) with (buf + Z.of_nat (3 + j)) by lia.
      rewrite Hr by lia. by rewrite lookup_app_l, lookup_drop by lia.
    + rewrite length_drop. unfold m2. replace (buf + 3 + Z.of_nat (length l - 3)) with (buf + Z.of_nat (length l + 1) - 1) by lia. apply read8_write8_eq.
Qed.

(** ** Printed commands *)
Lemma cmd_map_ext {V W} (f g : V -> W) c : (forall w, w ∈ words c -> f w = g w) -> cmd_map f c = cmd_map g c.
Proof.
  induction c as [argv|c IH w m fd|l IHl r IHr|l IHl r IHr|c IH]; cbn [words cmd_map]; intros H.
  - f_equal. apply map_ext_in. intros w Hw. apply H. by apply list_elem_of_In.
  - rewrite IH by (intros; apply H; set_solver). by rewrite (H w) by set_solver.
  - by rewrite IHl, IHr by (intros; apply H; set_solver).
  - by rewrite IHl, IHr by (intros; apply H; set_solver).
  - by rewrite IH.
Qed.
Lemma cmd_ok_std c : cmd_ok c -> redirs_std c.
Proof.
  induction c as [argv|c IH w m fd|l IHl r IHr|l IHl r IHr|c IH]; cbn [cmd_ok redirs_std]; try tauto.
  intros (Hc & _ & Hr). split; [by apply IH|]. unfold redir_ok in Hr. rewrite !elem_of_cons, elem_of_nil in Hr. naive_solver.
Qed.
Lemma run_line_plan os id c s :
  cmd_ok c -> 0 ∉ show 0 c -> run_line os id (show 0 c ++ [10]) (table_of s) = plan os id c s.
Proof.
  intros Hc H0. destruct (parsecmd_blanks c [10] Hc eq_refl) as (c' & E & Hm). unfold run_line. rewrite E.
  rewrite (cmd_map_ext (word_string (show 0 c ++ [10]) c') wtext).
  - rewrite Hm. apply runcmd_plan. by apply cmd_ok_std.
  - intros w Hw. unfold word_string. apply (nulterminate_cstr _ c' [] w E); [|done]. rewrite elem_of_app. set_solver.
Qed.

(** ** The three descriptors *)
Definition std_table (fs : list ofile) : fdtable := (Some <$> fs) ++ replicate (NOFILES - length fs) None.
(** Every open() of the console up to the fourth descriptor succeeds. *)
Definition console_opens (os : answers) : Prop := forall i, (i < 4)%nat -> os_open os [0%nat; i] (chrs "console") 2 = true.
Lemma open_more os f i t fd t' :
  os_open os [0%nat; i] (chrs "console") 2 = true -> fd_alloc Console t = Some (fd, t') ->
  open_consoles (S f) os i t = if decide (3 <= fd) then fd_close fd t' else open_consoles f os (S i) t'.
Proof. intros Ho Ea. cbn [open_consoles]. by rewrite Ho, Ea. Qed.
Lemma fd_alloc_std f fs : (length fs < NOFILES)%nat -> fd_alloc f (std_table fs) = Some (Z.of_nat (length fs), std_table (fs ++ [f])).
Proof.
  intros Hl. unfold fd_alloc, std_table. rewrite list_find_app_r.
  - replace (NOFILES - length fs)%nat with (S (NOFILES - S (length fs))) by lia. cbn [replicate list_find]. rewrite decide_True by done. cbn.
    rewrite length_fmap. do 2 f_equal. rewrite insert_app_r_alt by (rewrite length_fmap; lia). rewrite length_fmap, Nat.sub_diag. cbn.
    rewrite fmap_app, <- app_assoc, length_app. cbn. do 2 f_equal. unfold NOFILES. f_equal. lia.
  - apply list_find_None. apply Forall_fmap, Forall_true. done.
Qed.
Lemma fd_close_last f fs : fd_close (Z.of_nat (length fs)) (std_table (fs ++ [f])) = std_table fs \/ (NOFILES <= length fs)%nat.
Proof.
  destruct (decide (NOFILES <= length fs)%nat) as [|Hl]; [by right|left]. unfold fd_close, std_table. rewrite decide_True by lia. rewrite Nat2Z.id, fmap_app, <- app_assoc, length_app.
  rewrite insert_app_r_alt by (rewrite length_fmap; lia). rewrite length_fmap, Nat.sub_diag. cbn [fmap list_fmap app insert list_insert length].
  replace (NOFILES - length fs)%nat with (S (NOFILES - (length fs + 1))) by lia. done.
Qed.
(** The shell starts with three open descriptors and no other. *)
Lemma open_consoles_ok os : console_opens os -> forall n fs f i, (length fs + n = 3)%nat -> (i + n < 4)%nat -> (n < f)%nat ->
  open_consoles f os i (std_table fs) = std_table (fs ++ replicate n Console).
Proof.
  intros Ho n. induction n as [|n IH]; intros fs f i Hl Hi Hf; (destruct f as [|f]; [lia|]);
    rewrite (open_more os f i _ _ _ (Ho i ltac:(lia)) (fd_alloc_std Console fs ltac:(unfold NOFILES; lia))).
  - rewrite decide_True by lia. rewrite app_nil_r. destruct (fd_close_last Console fs) as [|Hn]; [done|]. unfold NOFILES in Hn. lia.
  - rewrite decide_False by lia. rewrite IH by (rewrite ?length_app; cbn; lia). by rewrite <- app_assoc.
Qed.

(** ** A session of printed commands *)
Definition std_streams (fs : list ofile) : streams := mkStreams (nth 0 fs Console) (nth 1 fs Console) (nth 2 fs Console).
Fixpoint session_plan (os : answers) (n : nat) (cs : list (cmd (list Z))) (s : streams) : beh :=
  BSay prompt
  match cs with
  | [] => BExit 0
  | c :: cs' => fork1 os [n] (plan os [n] c s) (BWait (table_of s) (session_plan os (S n) cs' s))
  end.
Definition typable_cmd (c : cmd (list Z)) : Prop := cmd_ok c /\ typable (show 0 c) /\ ~ cd_line (show 0 c).

Lemma session_printed os s cs : forall n, Forall typable_cmd cs -> session os n (show 0 <$> cs) (table_of s) = session_plan os n cs s.
Proof.
  induction cs as [|c cs IH]; intros n Hcs; [done|]. apply Forall_cons in Hcs as [(Hc & Hty & Hcd) Hcs]. cbn [fmap list_fmap session session_plan].
  rewrite decide_False by done. rewrite IH by done. rewrite run_line_plan; [done|done|].
  intros H0. apply (typable_nonzero (show 0 c) Hty). apply elem_of_app. by left.
Qed.
Lemma std_consoles fs : (length fs <= 3)%nat -> std_table (fs ++ replicate (3 - length fs) Console) = table_of (std_streams fs).
Proof. intros Hl. destruct fs as [|a [|b [|c [|d fs]]]]; [done..|]. cbn in Hl. lia. Qed.
Lemma typed_length lines : (length lines <= length (concat (typed <$> lines)))%nat.
Proof. induction lines as [|l lines IH]; [done|]. cbn [fmap list_fmap concat length]. rewrite length_app. assert (0 < length (typed l))%nat; [|lia]. unfold typed. rewrite length_fmap, length_app. cbn. lia. Qed.

Lemma sh_main_commands os m buf fs cs :
  console_opens os -> (length fs <= 3)%nat -> Forall typable_cmd cs ->
  sh_main os (concat (typed <$> (show 0 <$> cs))) m buf (std_table fs) = session_plan os 1 cs (std_streams fs).
Proof.
  intros Ho Hl Hcs. unfold sh_main. rewrite (open_consoles_ok os Ho (3 - length fs)) by (unfold NOFILES; lia). rewrite std_consoles by done.
  rewrite sh_loop_session.
  - by apply session_printed.
  - apply Forall_fmap. apply (Forall_impl _ _ _ Hcs). by intros c (_ & Hty & _).
  - pose proof (typed_length (show 0 <$> cs)). lia.
Qed.

(** A cd command that ends with the end of the input and not with a newline
    loses the last character of its argument. *)
Example cd_without_newline os : os_chdir os [0%nat] [97] = true -> sh_loop 2 os 0 (Some <$> [99; 100; 32; 97; 98]) ∅ 0 [] = BSay prompt (BChdir [97] (BSay prompt (BExit 0))).
Proof. intros Hc. vm_compute. vm_compute in Hc. by rewrite Hc. Qed.
