(* ===== verification/Umalloc.v ===== *)
(** * user/umalloc.c: the memory allocator

    The headers of the blocks are kept in a map from addresses; [base] is the
    address of the static header that closes the ring of free blocks and
    [um_brk] the end of the process memory, which sbrk() moves.  Sizes are in
    units of one header.  Each call of sbrk() succeeds or fails as [um_grow]
    says. *)

From S2P Require Import Prelude.

(** union header; 16 bytes *)
Record header := mkHeader { h_ptr : Z; h_size : Z }.
Definition HSIZE : Z := 16.

Record umem := mkUmem {
  um_hdr : gmap Z header;
  um_freep : Z;
  um_brk : Z;
  um_grow : list bool
}.
Definition get_hdr (st : umem) (p : Z) : header := default (mkHeader 0 0) (um_hdr st !! p).
Definition set_hdr (p : Z) (h : header) (st : umem) : umem :=
  mkUmem (<[p := h]> (um_hdr st)) (um_freep st) (um_brk st) (um_grow st).
Definition set_freep (p : Z) (st : umem) : umem := mkUmem (um_hdr st) p (um_brk st) (um_grow st).
Definition nextp (st : umem) (p : Z) : Z := h_ptr (get_hdr st p).
Definition sizep (st : umem) (p : Z) : Z := h_size (get_hdr st p).
Definition set_ptr (p v : Z) (st : umem) : umem := set_hdr p (mkHeader v (sizep st p)) st.
Definition set_size (p v : Z) (st : umem) : umem := set_hdr p (mkHeader (nextp st p) v) st.

(** The search of free(): where the loop stops. *)
Definition free_here (bp p nx : Z) : Prop := (bp > p /\ bp < nx) \/ (p >= nx /\ (bp > p \/ bp < nx)).
#[export] Instance free_here_dec bp p nx : Decision (free_here bp p nx).
Proof. unfold free_here. apply _. Defined.
Fixpoint free_find (fuel : nat) (st : umem) (bp p : Z) : option Z :=
  match fuel with
  | O => None
  | S fuel' => if decide (free_here bp p (nextp st p)) then Some p else free_find fuel' st bp (nextp st p)
  end.

(** The linking of [bp] after [p], joining it with its neighbours. *)
Definition free_link (bp p : Z) (st : umem) : umem :=
  let nx := nextp st p in
  let st :=
    if decide (bp + HSIZE * sizep st bp = nx)
    then set_ptr bp (nextp st nx) (set_size bp (u32 (sizep st bp + sizep st nx)) st)
    else set_ptr bp nx st in
  let st :=
    if decide (p + HSIZE * sizep st p = bp)
    then set_ptr p (nextp st bp) (set_size p (u32 (sizep st p + sizep st bp)) st)
    else set_ptr p bp st in
  set_freep p st.

Definition free (fuel : nat) (ap : Z) (st : umem) : option umem :=
  let bp := ap - HSIZE in
  p ← free_find fuel st bp (um_freep st);
  Some (free_link bp p st).

(** sbrk() returns the old break, or -1. *)
Definition sbrk (n : Z) (st : umem) : Z * umem :=
  match um_grow st with
  | true :: g => (um_brk st, mkUmem (um_hdr st) (um_freep st) (um_brk st + n) g)
  | _ :: g => (-1, mkUmem (um_hdr st) (um_freep st) (um_brk st) g)
  | [] => (-1, st)
  end.

Definition morecore (fuel : nat) (nu : Z) (st : umem) : option (Z * umem) :=
  let nu := if decide (nu < 4096) then 4096 else nu in
  let '(p, st) := sbrk (i32 (nu * HSIZE)) st in
  if decide (p = -1) then Some (0, st) else
  st ← free fuel (p + HSIZE) (set_size p nu st);
  Some (um_freep st, st).

Section Malloc.
Context (base : Z).

(** The loop of malloc() with [prevp] and [p]. *)
Fixpoint malloc_loop (fuel : nat) (nunits prevp p : Z) (st : umem) : option (Z * umem) :=
  match fuel with
  | O => None
  | S fuel' =>
      if decide (sizep st p >= nunits) then
        if decide (sizep st p = nunits) then
          Some (p + HSIZE, set_freep prevp (set_ptr prevp (nextp st p) st))
        else
          let st := set_size p (u32 (sizep st p - nunits)) st in
          let p := p + HSIZE * sizep st p in
          Some (p + HSIZE, set_freep prevp (set_size p nunits st))
      else if decide (p = um_freep st) then
        r ← morecore fuel nunits st;
        let '(p, st) := r in
        if decide (p = 0) then Some (0, st) else malloc_loop fuel' nunits p (nextp st p) st
      else malloc_loop fuel' nunits p (nextp st p) st
  end.

Definition malloc (fuel : nat) (nbytes : Z) (st : umem) : option (Z * umem) :=
  let nunits := u32 ((nbytes + HSIZE - 1) / HSIZE + 1) in
  let st := if decide (um_freep st = 0)
            then set_size base 0 (set_freep base (set_ptr base base st)) else st in
  malloc_loop fuel nunits (um_freep st) (nextp st (um_freep st)) st.
End Malloc.

(** ** The ring of free blocks

    [l] lists the free blocks, header address and size in units, by increasing
    address; with [(base, 0)] in front it is the ring. *)
Definition hd_addr (l : list (Z * Z)) (nx : Z) : Z := match l with [] => nx | b :: _ => b.1 end.
Fixpoint chain (st : umem) (l : list (Z * Z)) (nx : Z) : Prop :=
  match l with
  | [] => True
  | b :: l' => um_hdr st !! b.1 = Some (mkHeader (hd_addr l' nx) b.2) /\ chain st l' nx
  end.
(** [b] ends strictly below [c]. *)
Definition below (b c : Z * Z) : Prop := b.1 + HSIZE * b.2 < c.1.
Definition apart (b c : Z * Z) : Prop := b.1 + HSIZE * b.2 <= c.1 \/ c.1 + HSIZE * c.2 <= b.1.
Definition covers (b : Z * Z) (x : Z) : Prop := b.1 <= x < b.1 + HSIZE * b.2.
Definition covered (l : list (Z * Z)) (x : Z) : Prop := exists b, b ∈ l /\ covers b x.

Lemma hd_addr_app l1 l2 nx : hd_addr (l1 ++ l2) nx = hd_addr l1 (hd_addr l2 nx).
Proof. by destruct l1. Qed.
Lemma chain_app st l1 l2 nx : chain st (l1 ++ l2) nx <-> chain st l1 (hd_addr l2 nx) /\ chain st l2 nx.
Proof. induction l1 as [|b l1 IH]; cbn; [tauto|]. rewrite IH, hd_addr_app. tauto. Qed.
Lemma chain_ext st st' l nx : (forall b, b ∈ l -> um_hdr st' !! b.1 = um_hdr st !! b.1) -> chain st l nx -> chain st' l nx.
Proof.
  induction l as [|b l IH]; intros E; [done|]. intros [H1 H2]. split; [by rewrite E by left|].
  apply IH; [|done]. intros c Hc. apply E. by right.
Qed.
Lemma chain_hdr st l nx b : chain st l nx -> b ∈ l -> exists n, um_hdr st !! b.1 = Some (mkHeader n b.2).
Proof.
  induction l as [|c l IH]; intros Hc Hb; [by apply not_elem_of_nil in Hb|]. destruct Hc as [H1 H2].
  apply elem_of_cons in Hb as [->|Hb]; [by eexists|by apply IH].
Qed.
Lemma hdr_next st p n s : um_hdr st !! p = Some (mkHeader n s) -> nextp st p = n /\ sizep st p = s.
Proof. intros E. unfold nextp, sizep, get_hdr. by rewrite E. Qed.

(** The search goes down the blocks below [bp] and stops at the last. *)
Lemma free_find_low st base bp m p sp post : forall fuel,
  chain st (m ++ (p, sp) :: post) base -> StronglySorted below (m ++ (p, sp) :: post) ->
  Forall (fun b => base <= b.1 < bp /\ 0 <= b.2) (m ++ [(p, sp)]) -> Forall (fun b => bp < b.1) post ->
  (length m < fuel)%nat -> free_find fuel st bp (hd_addr m p) = Some p.
Proof.
  induction m as [|b m IH]; intros fuel Hc Hs Hlo Hhi Hf; (destruct fuel as [|fuel]; [cbn in Hf; lia|]); cbn [hd_addr free_find app length] in *.
  - destruct Hc as [Hh Hc]. cbn in Hh. apply hdr_next in Hh as [-> _]. apply Forall_cons in Hlo as [Hlo _]. cbn in Hlo.
    rewrite decide_True; [done|]. unfold free_here. destruct post as [|c post]; cbn [hd_addr]; [lia|].
    apply Forall_cons in Hhi as [Hhi _]. lia.
  - destruct Hc as [Hh Hc]. apply hdr_next in Hh as [-> _]. apply StronglySorted_cons in Hs as [Hb Hs].
    apply Forall_cons in Hlo as [Hb0 Hlo].
    assert (hd_addr (m ++ (p, sp) :: post) base = hd_addr m p) as -> by by destruct m.
    assert (b.1 < hd_addr m p < bp) as [Hlt Hlt2].
    { destruct m as [|c m]; cbn in *; apply Forall_cons in Hlo as [Hlo _]; apply Forall_cons in Hb as [Hb _];
        unfold below, HSIZE in Hb; cbn in *; lia. }
    rewrite decide_False by (unfold free_here; lia). apply IH; (done || lia).
Qed.
(** From a block above [bp] it goes up to the end of the ring and round. *)
Lemma free_find_high st base bp h : forall fuel,
  chain st h base -> StronglySorted below h -> Forall (fun b => bp < b.1 /\ 0 <= b.2) h -> base < bp ->
  (length h <= fuel)%nat -> free_find fuel st bp (hd_addr h base) = free_find (fuel - length h) st bp base.
Proof.
  induction h as [|b h IH]; intros fuel Hc Hs Hhi Hlt Hf; cbn [hd_addr length] in *; [by rewrite Nat.sub_0_r|].
  destruct fuel as [|fuel]; [lia|]. cbn [free_find]. destruct Hc as [Hh Hc]. apply hdr_next in Hh as [-> _].
  apply StronglySorted_cons in Hs as [Hb Hs]. apply Forall_cons in Hhi as [Hb0 Hhi].
  rewrite decide_False.
  - rewrite IH by (done || lia). done.
  - destruct h as [|c h]; cbn [hd_addr]; unfold free_here; [lia|].
    apply Forall_cons in Hhi as [Hc0 _]. apply Forall_cons in Hb as [Hb _]. unfold below, HSIZE in Hb. lia.
Qed.

(** *** Joining a block with the one above it *)
Definition join (b : Z * Z) (l : list (Z * Z)) : list (Z * Z) :=
  match l with
  | [] => [b]
  | c :: l' => if decide (b.1 + HSIZE * b.2 = c.1) then (b.1, b.2 + c.2) :: l' else b :: l
  end.
Definition join_hdr (a nx : Z) (st : umem) : umem :=
  if decide (a + HSIZE * sizep st a = nx)
  then set_ptr a (nextp st nx) (set_size a (u32 (sizep st a + sizep st nx)) st)
  else set_ptr a nx st.
Lemma free_link_joins bp p st : free_link bp p st = set_freep p (join_hdr p bp (join_hdr bp (nextp st p) st)).
Proof. done. Qed.

Lemma join_hdr_other a nx st x : x <> a -> um_hdr (join_hdr a nx st) !! x = um_hdr st !! x.
Proof. intros Hx. unfold join_hdr. case_decide; cbn; by rewrite !lookup_insert_ne by done. Qed.
Lemma join_hdr_frame a nx st :
  um_freep (join_hdr a nx st) = um_freep st /\ um_brk (join_hdr a nx st) = um_brk st /\ um_grow (join_hdr a nx st) = um_grow st.
Proof. unfold join_hdr. by case_decide. Qed.

Lemma set_ptr_at a v st : um_hdr (set_ptr a v st) !! a = Some (mkHeader v (sizep st a)).
Proof. cbn. by rewrite lookup_insert, decide_True. Qed.
Lemma set_size_at a v st : um_hdr (set_size a v st) !! a = Some (mkHeader (nextp st a) v).
Proof. cbn. by rewrite lookup_insert, decide_True. Qed.
Lemma join_hdr_at a nx st :
  um_hdr (join_hdr a nx st) !! a =
  Some (if decide (a + HSIZE * sizep st a = nx) then mkHeader (nextp st nx) (u32 (sizep st a + sizep st nx))
        else mkHeader nx (sizep st a)).
Proof.
  unfold join_hdr. case_decide; rewrite set_ptr_at; [|done].
  destruct (hdr_next _ _ _ _ (set_size_at a (u32 (sizep st a + sizep st nx)) st)) as [_ ->]. done.
Qed.

Lemma join_hdr_chain st base n a s l :
  chain st l base -> um_hdr st !! a = Some (mkHeader n s) -> Forall (fun b => b.1 <> a) l ->
  (l = [] -> a + HSIZE * s <> base) -> Forall (fun b => 0 <= s + b.2 < 2 ^ 32) l ->
  chain (join_hdr a (hd_addr l base) st) (join (a, s) l) base.
Proof.
  intros Hc Ha Hne Hb Hsz. pose proof (hdr_next _ _ _ _ Ha) as [_ Es].
  assert (forall l', (forall b, b ∈ l' -> b ∈ l) -> chain st l' base -> chain (join_hdr a (hd_addr l base) st) l' base) as Hext.
  { intros l' Hl'. apply chain_ext. intros b Hin. apply join_hdr_other. rewrite Forall_forall in Hne. apply Hne. by apply Hl'. }
  pose proof (join_hdr_at a (hd_addr l base) st) as Hat. rewrite Es in Hat.
  destruct l as [|c l]; cbn [join hd_addr fst snd] in *.
  - split; [|done]. cbn [fst snd]. rewrite Hat. by rewrite decide_False by auto.
  - apply Forall_cons in Hsz as [Hsz _]. pose proof Hc as [Hh Hc']. pose proof (hdr_next _ _ _ _ Hh) as [En Ec].
    rewrite En, Ec, u32_small in Hat by done. case_decide.
    + split; [exact Hat|apply Hext; [by right|done]].
    + split; [exact Hat|by apply Hext].
Qed.

Lemma join_sorted b l :
  Forall (fun c => b.1 + HSIZE * b.2 <= c.1 /\ 0 < c.2) l -> StronglySorted below l -> StronglySorted below (join b l).
Proof.
  intros Hb Hs. destruct l as [|c l]; [repeat constructor|]. cbn [join].
  apply StronglySorted_cons in Hs as [Hc Hs]. apply Forall_cons in Hb as [Hb0 Hb]. unfold below, HSIZE in *. case_decide.
  - apply StronglySorted_cons. split; [|done]. eapply Forall_impl; [exact Hc|]. cbn. lia.
  - apply StronglySorted_cons. split; [|by apply StronglySorted_cons]. apply Forall_cons. split; [lia|].
    eapply Forall_impl; [exact Hc|]. cbn. lia.
Qed.
Lemma covered_cons b l x : covered (b :: l) x <-> covers b x \/ covered l x.
Proof. unfold covered. set_solver. Qed.
Lemma covered_app l1 l2 x : covered (l1 ++ l2) x <-> covered l1 x \/ covered l2 x.
Proof. unfold covered. set_solver. Qed.
Lemma covered_join b l x : 0 <= b.2 -> Forall (fun c => 0 <= c.2) l -> covered (join b l) x <-> covered (b :: l) x.
Proof.
  intros Hb Hl. destruct l as [|c l]; [done|]. cbn [join]. case_decide; [|done].
  apply Forall_cons in Hl as [Hc _]. rewrite !covered_cons. unfold covers, HSIZE in *. cbn. intuition lia.
Qed.

Lemma join_head b l : Forall (fun c => 0 <= c.2) l ->
  exists s' l', join b l = (b.1, s') :: l' /\ b.2 <= s' /\ (length l' <= length l)%nat /\ forall c, c ∈ l' -> c ∈ l.
Proof.
  intros Hl. destruct l as [|c l]; cbn [join].
  - exists b.2, []. destruct b. split_and!; (done || lia).
  - apply Forall_cons in Hl as [Hc _]. case_decide.
    + exists (b.2 + c.2), l. split_and!; cbn; [done|lia|lia|by right].
    + exists b.2, (c :: l). destruct b. split_and!; (done || lia).
Qed.

(** *** The ring, closed by [base] below every block *)
Definition placed (base brk : Z) (b : Z * Z) : Prop := base + HSIZE <= b.1 /\ 0 < b.2 /\ b.1 + HSIZE * b.2 <= brk.
Record ring (base : Z) (st : umem) (l : list (Z * Z)) : Prop := mkRing {
  ring_chain : chain st ((base, 0) :: l) base;
  ring_sorted : StronglySorted below ((base, 0) :: l);
  ring_placed : Forall (placed base (um_brk st)) l;
  ring_freep : exists s, (um_freep st, s) ∈ (base, 0) :: l
}.

(** The place of a block that lies apart from the blocks of the list. *)
Lemma split_at b l : forall x,
  x.1 + HSIZE * x.2 <= b.1 -> StronglySorted below (x :: l) -> Forall (apart b) l -> 0 < b.2 -> Forall (fun c => 0 < c.2) l ->
  exists pre p post, x :: l = pre ++ p :: post /\ Forall (fun c => c.1 + HSIZE * c.2 <= b.1) (pre ++ [p]) /\
    Forall (fun c => b.1 + HSIZE * b.2 <= c.1) post.
Proof.
  induction l as [|y l IH]; intros x Hx Hs Ha Hb Hp.
  - exists [], x, []. split; [done|]. cbn. split; [by constructor|constructor].
  - apply Forall_cons in Ha as [Ha0 Ha]. apply Forall_cons in Hp as [Hp0 Hp]. apply StronglySorted_cons in Hs as [Hxs Hs].
    destruct (decide (y.1 + HSIZE * y.2 <= b.1)) as [Hy|Hy].
    + destruct (IH y Hy Hs Ha Hb Hp) as (pre & p & post & E & H1 & H2). exists (x :: pre), p, post. rewrite E.
      split; [done|]. cbn. split; [by constructor|done].
    + exists [], x, (y :: l). split; [done|]. cbn. split; [by constructor|].
      apply StronglySorted_cons in Hs as [Hys _]. unfold apart, below, HSIZE in *. apply Forall_cons. split; [lia|].
      eapply Forall_impl; [exact Hys|]. cbn. lia.
Qed.

Section Ring.
Context (base : Z) (st : umem) (l : list (Z * Z)) (Hr : ring base st l).

Lemma ring_nonneg : Forall (fun c => base <= c.1 /\ 0 <= c.2) ((base, 0) :: l).
Proof.
  apply Forall_cons. split; [cbn; lia|]. eapply Forall_impl; [apply Hr|]. unfold placed, HSIZE. lia.
Qed.
Lemma ring_pos : Forall (fun c => base < c.1 /\ 0 < c.2) l.
Proof. eapply Forall_impl; [apply Hr|]. unfold placed, HSIZE. lia. Qed.

Lemma ring_split b :
  placed base (um_brk st) b -> Forall (apart b) l ->
  exists pre p post, (base, 0) :: l = pre ++ p :: post /\ Forall (fun c => c.1 + HSIZE * c.2 <= b.1) (pre ++ [p]) /\
    Forall (fun c => b.1 + HSIZE * b.2 <= c.1) post.
Proof.
  intros (H1 & H2 & H3) Ha. apply split_at; [cbn; unfold HSIZE in *; lia|apply Hr|done|done|].
  eapply Forall_impl; [apply ring_pos|]. naive_solver.
Qed.

(** The search of free() ends at the block before [b]. *)
Lemma free_find_ok b pre p post fuel :
  placed base (um_brk st) b -> (base, 0) :: l = pre ++ p :: post ->
  Forall (fun c => c.1 + HSIZE * c.2 <= b.1) (pre ++ [p]) -> Forall (fun c => b.1 + HSIZE * b.2 <= c.1) post ->
  Forall (fun c => c.1 <> b.1) ((base, 0) :: l) ->
  (length l < fuel)%nat -> free_find fuel st b.1 (um_freep st) = Some p.1.
Proof.
  intros (Hb1 & Hb2 & Hb3) E Hlo Hhi Hne Hf. pose proof (ring_chain _ _ _ Hr) as Hc. pose proof (ring_sorted _ _ _ Hr) as Hs.
  pose proof ring_nonneg as Hn. destruct (ring_freep _ _ _ Hr) as [s0 Hfr]. rewrite E in Hc, Hs, Hn, Hfr, Hne.
  apply (f_equal length) in E as El. rewrite length_app in El. cbn [length] in El.
  assert (Forall (fun c => base <= c.1 < b.1 /\ 0 <= c.2) (pre ++ [p])) as Hlo'.
  { apply Forall_app in Hn as [Hn1 Hn2]. apply Forall_app in Hne as [Hne1 Hne2]. apply Forall_cons in Hn2 as [Hn2 _].
    apply Forall_cons in Hne2 as [Hne2 _]. apply Forall_app in Hlo as [Hlo1 Hlo2]. apply Forall_cons in Hlo2 as [Hlo2 _].
    apply Forall_app. split; [|apply Forall_cons; split; [unfold HSIZE in *; lia|done]].
    rewrite Forall_forall in *. intros c Hc'. specialize (Hn1 c Hc'). specialize (Hne1 c Hc'). specialize (Hlo1 c Hc'). unfold HSIZE in *. lia. }
  assert (Forall (fun c => b.1 < c.1) post) as Hhi'. { eapply Forall_impl; [exact Hhi|]. unfold HSIZE. lia. }
  assert (forall m m' fuel', pre = m' ++ m -> (length m < fuel')%nat -> free_find fuel' st b.1 (hd_addr m p.1) = Some p.1) as Hlow.
  { intros m m' fuel' -> Hf'. destruct p as [pa ps]. rewrite <- !app_assoc in *.
    apply (free_find_low st base b.1 m pa ps post); [|..|done|done].
    - apply chain_app in Hc. tauto.
    - by apply StronglySorted_app_1_r in Hs.
    - by apply Forall_app in Hlo' as [_ ?]. }
  apply elem_of_app in Hfr as [Hfr|Hfr].
  - apply list_elem_of_split in Hfr as (m' & m & ->). apply (Hlow ((um_freep st, s0) :: m) m'); [done|]. rewrite length_app in El. cbn in *. lia.
  - apply elem_of_cons in Hfr as [<-|Hfr]; [by apply (Hlow [] pre); [by rewrite app_nil_r|cbn; lia]|].
    apply list_elem_of_split in Hfr as (m' & m & ->). change (um_freep st) with (hd_addr ((um_freep st, s0) :: m) base).
    rewrite length_app in El. cbn [length] in El.
    rewrite free_find_high; [|..|unfold HSIZE in *; lia|cbn; lia].
    + assert (base = hd_addr pre p.1) as ->. { destruct pre as [|c pre]; injection E as E0 _; by rewrite <- E0. }
      apply (Hlow pre []); [done|]. cbn. lia.
    + apply chain_app in Hc as [_ Hc]. destruct Hc as [_ Hc]. by apply chain_app in Hc as [_ Hc].
    + apply StronglySorted_app_1_r in Hs. apply StronglySorted_cons in Hs as [_ Hs]. by apply StronglySorted_app_1_r in Hs.
    + apply Forall_app in Hn as [_ Hn]. apply Forall_cons in Hn as [_ Hn]. apply Forall_app in Hn as [_ Hn].
      apply Forall_app in Hhi' as [_ Hhi']. rewrite Forall_forall in *. intros c Hc'. split; [by apply Hhi'|by apply Hn].
Qed.
End Ring.

Lemma join_placed base brk b l : placed base brk b -> Forall (placed base brk) l -> Forall (placed base brk) (join b l).
Proof.
  intros Hb Hl. destruct l as [|c l]; [by constructor|]. cbn [join]. case_decide; [|by constructor].
  apply Forall_cons in Hl as [Hc Hl]. constructor; [|done]. unfold placed, HSIZE in *. cbn. lia.
Qed.
Lemma join_low a b l : a <= b.1 -> Forall (fun c => a <= c.1) l -> Forall (fun c => a <= c.1) (join b l).
Proof.
  intros Hb Hl. destruct l as [|c l]; [by constructor|]. cbn [join]. case_decide; [|by constructor].
  apply Forall_cons in Hl as [Hc Hl]. by constructor.
Qed.
Lemma Forall_join (P : Z * Z -> Prop) b l : Forall P (join b l) -> forall c, c ∈ join b l -> P c.
Proof. rewrite Forall_forall. auto. Qed.

(** What the insertion of [b] between [p] and [post] makes of the list. *)
Section Insert.
Context (base brk : Z) (l pre post : list (Z * Z)) (p b : Z * Z).
Context (E : (base, 0) :: l = pre ++ p :: post) (Hs : StronglySorted below ((base, 0) :: l)).
Context (Hp : Forall (placed base brk) l) (Hb : placed base brk b).
Context (Hlo : Forall (fun c => c.1 + HSIZE * c.2 <= b.1) (pre ++ [p])) (Hhi : Forall (fun c => b.1 + HSIZE * b.2 <= c.1) post).

Lemma insert_parts :
  Forall (placed base brk) post /\ p.1 + HSIZE * p.2 <= b.1 /\ base <= p.1 /\ 0 <= p.2 /\
  StronglySorted below pre /\ StronglySorted below post /\ Forall (fun c => below c p) pre /\
  ((pre = [] /\ p = (base, 0) /\ post = l) \/ exists pre', pre = (base, 0) :: pre' /\ l = pre' ++ p :: post /\ placed base brk p).
Proof.
  pose proof Hs as Hs'. rewrite E in Hs'.
  apply Forall_app in Hlo as [_ Hlop]. apply Forall_cons in Hlop as [Hlop _].
  assert (StronglySorted below pre) by by apply StronglySorted_app_1_l in Hs'.
  assert (StronglySorted below post). { apply StronglySorted_app_1_r in Hs'. by apply StronglySorted_cons in Hs' as [_ ?]. }
  assert (Forall (fun c => below c p) pre).
  { apply Forall_forall. intros c Hc. apply (StronglySorted_app_1_elem_of below pre (p :: post)); [done|done|by left]. }
  destruct pre as [|x pre']; injection E as E1 E2; subst.
  - split_and!; try done; try (cbn; lia). by left.
  - apply Forall_app in Hp as [_ Hp2]. apply Forall_cons in Hp2 as [Hpp Hp2]. pose proof Hpp as (? & ? & ?). unfold HSIZE in *.
    split_and!; try done; [lia|lia|]. right. by exists pre'.
Qed.

Lemma join_right_facts :
  let right := join b post in
  Forall (placed base brk) right /\ StronglySorted below right /\ Forall (fun c => b.1 <= c.1) right /\
  Forall (fun c => p.1 + HSIZE * p.2 <= c.1 /\ 0 < c.2) right.
Proof.
  destruct insert_parts as (H1 & H2 & H3 & H4 & H5 & H6 & H7 & H8). destruct Hb as (B1 & B2 & B3). cbn zeta.
  assert (Forall (placed base brk) (join b post)) as Hpl by by apply join_placed.
  assert (Forall (fun c => b.1 <= c.1) (join b post)) as Hge.
  { apply join_low; [lia|]. eapply Forall_impl; [exact Hhi|]. unfold HSIZE. cbn. lia. }
  split_and!; [done| |done|].
  - apply join_sorted; [|done]. rewrite Forall_forall in *. intros c Hc. specialize (Hhi c Hc). specialize (H1 c Hc). unfold placed in H1. lia.
  - rewrite Forall_forall in *. intros c Hc. specialize (Hpl c Hc). specialize (Hge c Hc). unfold placed in Hpl. lia.
Qed.

Lemma insert_block :
  exists l', pre ++ join p (join b post) = (base, 0) :: l' /\ StronglySorted below ((base, 0) :: l') /\
    Forall (placed base brk) l' /\ (forall x, covered l' x <-> covered l x \/ covers b x) /\
    (exists c, c ∈ l' /\ b.2 <= c.2) /\ (length l' <= S (length l))%nat.
Proof.
  destruct insert_parts as (H1 & H2 & H3 & H4 & H5 & H6 & H7 & H8). destruct join_right_facts as (R1 & R2 & R3 & R4).
  pose proof Hb as (B1 & B2 & B3).
  assert (Forall (fun c => 0 <= c.2) post) as Hn. { eapply Forall_impl; [exact H1|]. unfold placed. lia. }
  assert (Forall (fun c => 0 <= c.2) (join b post)) as Hn'. { eapply Forall_impl; [exact R1|]. unfold placed. lia. }
  destruct (join_head b post Hn) as (sb & rb & Eb & Gb & Lb & _).
  destruct (join_head p (join b post) Hn') as (sp & rp & Ep & Gp & Lp & Ip).
  assert (StronglySorted below (pre ++ join p (join b post))) as Hsn.
  { apply StronglySorted_app_2; [|done|by apply join_sorted].
    intros c d Hc Hd. rewrite Forall_forall in H7. specialize (H7 c Hc).
    assert (p.1 <= d.1); [|unfold below in *; lia].
    apply (Forall_join (fun c => p.1 <= c.1) p (join b post)); [|done]. apply join_low; [lia|].
    eapply Forall_impl; [exact R4|]. unfold HSIZE. cbn. lia. }
  destruct H8 as [(E1 & E2 & E3)|(pre' & E1 & E2 & Hpp)].
  - assert (join p (join b post) = p :: join b post) as Ej.
    { rewrite Eb, E2. cbn [join fst snd]. rewrite decide_False; [done|]. unfold HSIZE in *. lia. }
    rewrite Ej, E1, E2 in *. cbn [app] in *. exists (join b post). split_and!; [done..| | |].
    + intros x. rewrite covered_join, covered_cons by (lia || done). rewrite E3. tauto.
    + exists (b.1, sb). rewrite Eb. split; [left|done].
    + rewrite Eb, <- E3. cbn. lia.
  - exists (pre' ++ join p (join b post)). rewrite E1, E2 in *. cbn [app] in *.
    apply Forall_app in Hp as [Hp1 Hp2]. split_and!; [done|done| | | |].
    + apply Forall_app. split; [done|]. by apply join_placed.
    + intros x. rewrite !covered_app, covered_join, !covered_cons, covered_join, covered_cons by (lia || done). tauto.
    + rewrite Eb. cbn [join fst snd]. case_decide.
      * exists (p.1, p.2 + sb). split; [|cbn; lia]. apply elem_of_app. right. left.
      * exists (b.1, sb). split; [|done]. apply elem_of_app. right. right. left.
    + rewrite !length_app, Ep. cbn. rewrite Eb in Lp. cbn in Lp. lia.
Qed.
End Insert.

Lemma placed_size base brk b : placed base brk b -> 0 <= base -> brk <= 2 ^ 32 -> 0 < b.2 < 2 ^ 28.
Proof. unfold placed, HSIZE. lia. Qed.
Lemma apart_ne b l : 0 < b.2 -> Forall (apart b) l -> Forall (fun c => 0 < c.2) l -> Forall (fun c => c.1 <> b.1) l.
Proof. rewrite !Forall_forall. intros Hb Ha Hp c Hc E. specialize (Ha c Hc). specialize (Hp c Hc). unfold apart, HSIZE in Ha. lia. Qed.

Section Free.
Context (base : Z) (st : umem) (l : list (Z * Z)) (Hr : ring base st l) (Hbase : 0 <= base) (Hbrk : um_brk st <= 2 ^ 32).

(** The headers after free_link() hold the list with [b] joined in. *)
Lemma free_link_chain b n pre p post :
  (base, 0) :: l = pre ++ p :: post -> placed base (um_brk st) b -> um_hdr st !! b.1 = Some (mkHeader n b.2) ->
  Forall (fun c => c.1 + HSIZE * c.2 <= b.1) (pre ++ [p]) -> Forall (fun c => b.1 + HSIZE * b.2 <= c.1) post ->
  Forall (fun c => c.1 <> b.1) ((base, 0) :: l) ->
  chain (free_link b.1 p.1 st) (pre ++ join p (join b post)) base.
Proof.
  intros E Hb Hh Hlo Hhi Hne. pose proof (ring_chain _ _ _ Hr) as Hc. rewrite E in Hc, Hne.
  apply chain_app in Hc as [Hcp Hc]. cbn [hd_addr] in Hcp. pose proof Hc as [Hhp Hcpost].
  destruct (insert_parts base (um_brk st) l pre post p b E (ring_sorted _ _ _ Hr) (ring_placed _ _ _ Hr) Hlo) as (H1 & H2 & H3 & H4 & _ & _ & H7 & _).
  destruct (join_right_facts base (um_brk st) l pre post p b E (ring_sorted _ _ _ Hr) (ring_placed _ _ _ Hr) Hb Hlo Hhi) as (R1 & _ & R3 & R4).
  pose proof (placed_size _ _ _ Hb Hbase Hbrk) as Sb. pose proof Hb as (B1 & B2 & B3).
  apply Forall_app in Hne as [Ne1 Ne2]. apply Forall_cons in Ne2 as [Ne2 Ne3].
  rewrite free_link_joins. pose proof (hdr_next _ _ _ _ Hhp) as [-> _]. set (st1 := join_hdr b.1 (hd_addr post base) st).
  assert (chain st1 (join b post) base) as Hc1.
  { destruct b as [ba bs]. apply (join_hdr_chain _ _ n); [done|done|done|unfold HSIZE in *; cbn in *; lia|].
    eapply Forall_impl; [exact H1|]. intros c Hc'. pose proof (placed_size _ _ _ Hc' Hbase Hbrk). cbn in *. lia. }
  assert (hd_addr (join b post) base = b.1) as Ehd. { destruct post; cbn [join]; [done|]. by case_decide. }
  assert (um_hdr st1 !! p.1 = Some (mkHeader (hd_addr post base) p.2)) as Hp1.
  { rewrite <- Hhp. apply join_hdr_other. done. }
  assert (forall st2 q, chain st2 q base -> chain (set_freep p.1 st2) q base) as Hset by (intros st2 q; by apply chain_ext).
  assert (forall c, c ∈ pre -> c.1 <> p.1) as Npre.
  { rewrite Forall_forall in H7. intros c Hc' Ec. specialize (H7 c Hc'). unfold below, HSIZE in H7.
    assert (0 <= c.2); [|lia]. pose proof (ring_nonneg _ _ _ Hr) as Hn. rewrite E, Forall_forall in Hn.
    apply (Hn c). apply elem_of_app. by left. }
  rewrite <- Ehd at 1. apply Hset, chain_app. split.
  - assert (hd_addr (join p (join b post)) base = p.1) as ->. { destruct (join b post); cbn [join]; [done|]. by case_decide. }
    apply (chain_ext st); [|done]. intros c Hc'. rewrite Forall_forall in Ne1.
    rewrite join_hdr_other by by apply Npre. apply join_hdr_other. by apply Ne1.
  - destruct p as [pa ps]. apply (join_hdr_chain _ _ (hd_addr post base)); [done|done| | |].
    + eapply Forall_impl; [exact R3|]. unfold HSIZE in *. cbn in *. lia.
    + intros E0. rewrite E0 in Ehd. cbn in Ehd. unfold HSIZE in *. lia.
    + eapply Forall_impl; [exact R1|]. intros c Hc'. pose proof (placed_size _ _ _ Hc' Hbase Hbrk). unfold HSIZE in *. cbn in *. lia.
Qed.

Lemma free_link_frame bp p :
  um_freep (free_link bp p st) = p /\ um_brk (free_link bp p st) = um_brk st /\ um_grow (free_link bp p st) = um_grow st /\
  forall a, a <> bp -> a <> p -> um_hdr (free_link bp p st) !! a = um_hdr st !! a.
Proof.
  rewrite free_link_joins. cbn [set_freep um_freep um_brk um_grow um_hdr].
  destruct (join_hdr_frame p bp (join_hdr bp (nextp st p) st)) as (_ & -> & ->).
  destruct (join_hdr_frame bp (nextp st p) st) as (_ & -> & ->). split_and!; [done..|].
  intros a H1 H2. by rewrite !join_hdr_other by done.
Qed.

(** free() returns the block to the ring: the free space grows by exactly the
    block, and no two free blocks are left side by side. *)
Lemma free_ok b n fuel :
  placed base (um_brk st) b -> um_hdr st !! b.1 = Some (mkHeader n b.2) -> Forall (apart b) l -> (length l < fuel)%nat ->
  exists st' l', free fuel (b.1 + HSIZE) st = Some st' /\ ring base st' l' /\
    um_brk st' = um_brk st /\ um_grow st' = um_grow st /\
    (forall a, a <> b.1 -> Forall (fun c => c.1 <> a) ((base, 0) :: l) -> um_hdr st' !! a = um_hdr st !! a) /\
    (forall x, covered l' x <-> covered l x \/ covers b x) /\
    (exists c, c ∈ l' /\ b.2 <= c.2) /\ (length l' <= S (length l))%nat.
Proof.
  intros Hb Hh Ha Hf. destruct (ring_split _ _ _ Hr b Hb Ha) as (pre & p & post & E & Hlo & Hhi).
  assert (Forall (fun c => c.1 <> b.1) ((base, 0) :: l)) as Hne.
  { destruct Hb as (B1 & B2 & B3). apply Forall_cons. split; [cbn; unfold HSIZE in *; lia|]. apply apart_ne; [done|done|].
    eapply Forall_impl; [apply (ring_pos _ _ _ Hr)|]. naive_solver. }
  destruct (insert_block base (um_brk st) l pre post p b E (ring_sorted _ _ _ Hr) (ring_placed _ _ _ Hr) Hb Hlo Hhi)
    as (l' & El' & I1 & I2 & I3 & I4 & I5).
  destruct (free_link_frame b.1 p.1) as (F1 & F2 & F3 & F4).
  exists (free_link b.1 p.1 st), l'. unfold free. replace (b.1 + HSIZE - HSIZE) with b.1 by lia.
  rewrite (free_find_ok _ _ _ Hr b pre p post) by done. split_and!; try done.
  - constructor; [rewrite <- El'; by apply (free_link_chain b n)|done|by rewrite F2|]. rewrite F1, <- El'.
    assert (exists s r, join p (join b post) = (p.1, s) :: r) as (s & r & ->).
    { destruct (join b post) as [|c q]; cbn [join]; [|case_decide]; destruct p; eauto. }
    exists s. apply elem_of_app. right. left.
  - intros a H1 H2. apply F4; [done|]. rewrite E, Forall_forall in H2. apply not_eq_sym, H2, elem_of_app. right. left.
Qed.
End Free.
