(* ===== verification/UmallocSpec.v ===== *)
(** * user/umalloc.c: correctness of malloc() and free()

    The heap of a process: the ring of free blocks of [Umalloc] together with
    the blocks that are in use, a map from the address of a block's header to
    its size in units.  malloc() hands out a block that is apart from every
    block in use, taken from the free space or from memory sbrk() gave; free()
    gives one back; nothing is lost. *)

From S2P Require Import Prelude Umalloc.

Record uheap (base : Z) (st : umem) (l : list (Z * Z)) (al : gmap Z Z) : Prop := mkUheap {
  uh_base : 0 < base;
  uh_brk : base + HSIZE <= um_brk st <= 2 ^ 32;
  uh_ring : ring base st l;
  uh_live : forall a s, al !! a = Some s ->
    placed base (um_brk st) (a, s) /\ (exists n, um_hdr st !! a = Some (mkHeader n s)) /\ Forall (apart (a, s)) l;
  uh_apart : forall a s b t, al !! a = Some s -> al !! b = Some t -> a <> b -> apart (a, s) (b, t)
}.

Lemma apart_sym b c : apart b c -> apart c b.
Proof. unfold apart. tauto. Qed.
Lemma apart_covers b c : 0 < b.2 -> 0 < c.2 -> (forall x, covers c x -> ~ covers b x) -> apart b c.
Proof.
  unfold apart, covers, HSIZE. intros Hb Hc H.
  destruct (decide (b.1 + 16 * b.2 <= c.1 \/ c.1 + 16 * c.2 <= b.1)) as [?|Hn]; [done|].
  exfalso. apply (H (Z.max b.1 c.1)); lia.
Qed.
(** Blocks are apart from [b] when they do not meet it. *)
Lemma apart_covered b l :
  0 < b.2 -> Forall (fun c => 0 < c.2) l -> Forall (apart b) l <-> forall x, covered l x -> ~ covers b x.
Proof.
  intros Hb Hl. rewrite Forall_forall. unfold covered, covers. split.
  - intros H x (c & Hc & Hx). specialize (H c Hc). unfold apart in H. lia.
  - intros H c Hc. rewrite Forall_forall in Hl. apply apart_covers; [done|by apply Hl|]. intros x Hx. apply H. by exists c.
Qed.

Section Heap.
Context (base : Z) (st : umem) (l : list (Z * Z)) (al : gmap Z Z) (Hh : uheap base st l al).

Lemma uheap_pos : Forall (fun c => 0 < c.2) l.
Proof. eapply Forall_impl; [apply (ring_pos _ _ _ (uh_ring _ _ _ _ Hh))|]. naive_solver. Qed.
Lemma live_ne a s : al !! a = Some s -> Forall (fun c => c.1 <> a) ((base, 0) :: l).
Proof.
  intros Ha. destruct (uh_live _ _ _ _ Hh a s Ha) as ((H1 & H2 & _) & _ & H3). apply Forall_cons.
  split; [cbn in *; unfold HSIZE in *; lia|]. apply (apart_ne (a, s)); [done|done|apply uheap_pos].
Qed.

(** free() of a block in use. *)
Lemma free_heap b s fuel :
  al !! b = Some s -> (length l < fuel)%nat ->
  exists st' l', free fuel (b + HSIZE) st = Some st' /\ uheap base st' l' (delete b al) /\
    um_brk st' = um_brk st /\ um_grow st' = um_grow st /\
    (forall x, covered l' x <-> covered l x \/ covers (b, s) x) /\
    (exists c, c ∈ l' /\ s <= c.2) /\ (length l' <= S (length l))%nat.
Proof.
  intros Hb Hf. destruct Hh as [H0 H1 H2 H3 H4]. destruct (H3 b s Hb) as (Hp & (n & Hn) & Ha).
  destruct (free_ok base st l H2 ltac:(lia) ltac:(lia) (b, s) n fuel Hp Hn Ha Hf)
    as (st' & l' & E & Hr & Eb & Eg & Eh & Hc & Hbig & Hl). cbn [fst snd] in *.
  exists st', l'. split_and!; try done. constructor; [done|by rewrite Eb|done| |].
  - intros a t Hat. apply lookup_delete_Some in Hat as [Hne Hat]. destruct (H3 a t Hat) as (P1 & (n' & P2) & P3).
    rewrite Eb. split_and!; [done|exists n'; rewrite Eh; [done|done|by apply (live_ne a t)]|].
    apply apart_covered; [apply P1| |].
    { eapply Forall_impl; [apply (ring_placed _ _ _ Hr)|]. unfold placed. tauto. }
    intros x. rewrite Hc. intros [Hx|Hx].
    + revert x Hx. apply apart_covered; [apply P1|apply uheap_pos|done].
    + pose proof (H4 a t b s Hat Hb (not_eq_sym Hne)) as Hd. unfold apart, covers in *. cbn in *. lia.
  - intros a t c u Hat Hcu Hne. apply lookup_delete_Some in Hat as [_ Hat]. apply lookup_delete_Some in Hcu as [_ Hcu]. by apply H4.
Qed.
End Heap.

(** ** Taking a block out of the ring *)

Definition take_block (nunits prevp p : Z) (st : umem) : Z * umem :=
  if decide (sizep st p = nunits) then
    (p + HSIZE, set_freep prevp (set_ptr prevp (nextp st p) st))
  else
    let st := set_size p (u32 (sizep st p - nunits)) st in
    let p := p + HSIZE * sizep st p in
    (p + HSIZE, set_freep prevp (set_size p nunits st)).

Lemma set_ptr_ne a v st x : x <> a -> um_hdr (set_ptr a v st) !! x = um_hdr st !! x.
Proof. intros. cbn. by rewrite lookup_insert_ne. Qed.
Lemma set_size_ne a v st x : x <> a -> um_hdr (set_size a v st) !! x = um_hdr st !! x.
Proof. intros. cbn. by rewrite lookup_insert_ne. Qed.
Lemma set_size_next a v st : um_hdr (set_size a v st) !! a = Some (mkHeader (nextp st a) v).
Proof. apply set_size_at. Qed.

Lemma chain_last st st' pre a s nx nx' :
  chain st (pre ++ [(a, s)]) nx -> um_hdr st' !! a = Some (mkHeader nx' s) ->
  (forall c, c ∈ pre -> um_hdr st' !! c.1 = um_hdr st !! c.1) -> chain st' (pre ++ [(a, s)]) nx'.
Proof.
  intros Hc Ha He. apply chain_app in Hc as [Hc _]. apply chain_app. split; [|done].
  apply (chain_ext st); [|done]. intros c Hin. by apply He.
Qed.

Section Take.
Context (base : Z) (st : umem) (l : list (Z * Z)) (al : gmap Z Z) (Hh : uheap base st l al).

(** The block after [prevp] in the ring, when it is not [base]. *)
Lemma pred_split prevp sb p s :
  (prevp, sb) ∈ (base, 0) :: l -> nextp st prevp = p -> (p, s) ∈ l ->
  exists pre q post, (base, 0) :: q = pre ++ [(prevp, sb)] /\ l = q ++ (p, s) :: post.
Proof.
  intros Hb Hn Hp. pose proof (uh_ring _ _ _ _ Hh) as Hr. pose proof (ring_chain _ _ _ Hr) as Hc.
  pose proof (ring_pos _ _ _ Hr) as Hpos. pose proof (ring_sorted _ _ _ Hr) as Hs.
  pose proof Hb as Hb'. apply list_elem_of_split in Hb' as (pre & rest & E). rewrite E in Hc.
  apply chain_app in Hc as [_ Hc]. pose proof Hc as [Hhd Hc']. apply hdr_next in Hhd as [En _].
  cbn [fst snd] in En. rewrite Hn in En. destruct rest as [|c post].
  { cbn in En. subst p. rewrite Forall_forall in Hpos. specialize (Hpos _ Hp). cbn in Hpos. lia. }
  cbn [hd_addr] in En. assert (c = (p, s)) as ->.
  { destruct (chain_hdr _ _ _ c Hc') as [n1 E1]; [left|].
    destruct (chain_hdr _ _ _ (p, s) (ring_chain _ _ _ Hr)) as [n2 E2]; [by right|].
    destruct c as [ca cs]. cbn in *. subst ca. congruence. }
  replace (pre ++ (prevp, sb) :: (p, s) :: post) with ((pre ++ [(prevp, sb)]) ++ (p, s) :: post) in E by by rewrite <- app_assoc.
  destruct (pre ++ [(prevp, sb)]) as [|y q] eqn:Ey; [by destruct pre|]. injection E as <- ->.
  by exists pre, q, post.
Qed.

(** The sorted list with the block [p] shrunk to [s'] units or taken out. *)
Lemma shrink_sorted q p s post rest :
  l = q ++ (p, s) :: post -> (rest = post \/ exists s', rest = (p, s') :: post /\ 0 < s' <= s) ->
  StronglySorted below ((base, 0) :: q ++ rest) /\ Forall (placed base (um_brk st)) (q ++ rest).
Proof.
  intros -> Hrest. pose proof (uh_ring _ _ _ _ Hh) as Hr. pose proof (ring_sorted _ _ _ Hr) as Hs.
  pose proof (ring_placed _ _ _ Hr) as Hp. apply Forall_app in Hp as [Hp1 Hp2]. apply Forall_cons in Hp2 as [Hp2 Hp3].
  rewrite !app_comm_cons in *. apply StronglySorted_app in Hs as (S1 & S2 & S3). apply StronglySorted_cons in S3 as [S3 S4].
  destruct Hrest as [->|(s' & -> & Hs')].
  - split; [|by apply Forall_app]. apply StronglySorted_app_2; [|done|done]. intros x y Hx Hy. apply S1; [done|by right].
  - split.
    + apply StronglySorted_app_2; [|done|].
      * intros x y Hx Hy. apply elem_of_cons in Hy as [->|Hy]; [|apply S1; [done|by right]].
        apply (S1 x (p, s) Hx). left.
      * apply StronglySorted_cons. split; [|done]. eapply Forall_impl; [exact S3|]. unfold below, HSIZE. cbn. lia.
    + apply Forall_app. split; [done|]. constructor; [|done]. unfold placed, HSIZE in *. cbn in *. lia.
Qed.

(** A block cut out of the free space joins the blocks in use. *)
Lemma uheap_take st' l' a nu :
  ring base st' l' -> um_brk st' = um_brk st -> placed base (um_brk st) (a, nu) ->
  (forall x, covered l x <-> covered l' x \/ covers (a, nu) x) -> (forall x, covered l' x -> ~ covers (a, nu) x) ->
  (exists n, um_hdr st' !! a = Some (mkHeader n nu)) -> (forall b t, al !! b = Some t -> um_hdr st' !! b = um_hdr st !! b) ->
  al !! a = None /\ uheap base st' l' (<[a := nu]> al).
Proof.
  intros Hr Eb Hp Hc Hd Ha He. pose proof Hh as [H0 H1 H2 H3 H4].
  assert (Forall (fun c => 0 < c.2) l') as Hpos. { eapply Forall_impl; [apply (ring_placed _ _ _ Hr)|]. unfold placed. tauto. }
  assert (forall b t, al !! b = Some t -> forall x, covered l x -> ~ covers (b, t) x) as Hx.
  { intros b t Hb. destruct (H3 b t Hb) as (P & _ & Q). apply apart_covered; [apply P|apply (uheap_pos _ _ _ _ Hh)|done]. }
  assert (forall b t, al !! b = Some t -> apart (b, t) (a, nu)) as Hap.
  { intros b t Hb. destruct (H3 b t Hb) as (P & _ & _). specialize (Hx b t Hb). destruct P as (_ & P & _), Hp as (_ & Q & _).
    apply apart_covers; [done|done|]. intros x Hcx. apply Hx, Hc. by right. }
  split.
  { destruct (al !! a) as [t|] eqn:E; [|done]. pose proof (Hap a t E) as Hself. destruct (H3 a t E) as ((_ & P & _) & _).
    destruct Hp as (_ & Q & _). unfold apart, HSIZE in Hself. cbn in *. lia. }
  constructor; [done|by rewrite Eb|done| |].
  - rewrite Eb. intros b t Hb. apply lookup_insert_Some in Hb as [[<- <-]|[Hne Hb]].
    + split_and!; [done|done|]. apply apart_covered; [apply Hp|done|done].
    + destruct (H3 b t Hb) as (P & (n & Q) & R). split_and!; [done|exists n; by rewrite (He b t Hb)|].
      apply apart_covered; [apply P|done|]. intros x Hcx. apply (Hx b t Hb), Hc. by left.
  - intros b t c u Hb Hcu Hne. apply lookup_insert_Some in Hb as [[<- <-]|[Hne1 Hb]];
      apply lookup_insert_Some in Hcu as [[<- <-]|[Hne2 Hcu]]; [done|by apply apart_sym, Hap|by apply Hap|by apply H4].
Qed.

(** The blocks of the ring have different addresses. *)
Lemma ring_addr_ne q1 b q2 c : (base, 0) :: l = q1 ++ b :: q2 -> c ∈ q1 \/ c ∈ q2 -> c.1 <> b.1.
Proof.
  intros E Hc. pose proof (uh_ring _ _ _ _ Hh) as Hr. pose proof (ring_sorted _ _ _ Hr) as Hs.
  pose proof (ring_nonneg _ _ _ Hr) as Hn. rewrite E in Hs, Hn. rewrite Forall_forall in Hn.
  apply StronglySorted_app in Hs as (S1 & _ & S3). apply StronglySorted_cons in S3 as [S3 _]. rewrite Forall_forall in S3.
  assert (0 <= b.2). { apply (Hn b). apply elem_of_app. right. left. }
  destruct Hc as [Hc|Hc].
  - assert (0 <= c.2). { apply (Hn c). apply elem_of_app. by left. }
    assert (below c b) as Hb by (apply S1; [done|left]). unfold below, HSIZE in Hb. lia.
  - specialize (S3 c Hc). unfold below, HSIZE in S3. lia.
Qed.

Lemma ring_take_whole pre prevp sb q p s post :
  (base, 0) :: q = pre ++ [(prevp, sb)] -> l = q ++ (p, s) :: post ->
  ring base (set_freep prevp (set_ptr prevp (nextp st p) st)) (q ++ post).
Proof.
  intros Eq El. pose proof (uh_ring _ _ _ _ Hh) as Hr. destruct (shrink_sorted q p s post post El (or_introl eq_refl)) as [S1 S2].
  assert ((base, 0) :: l = pre ++ (prevp, sb) :: (p, s) :: post) as E.
  { rewrite El, app_comm_cons, Eq, <- app_assoc. done. }
  pose proof (ring_chain _ _ _ Hr) as Hc. rewrite E in Hc.
  replace (pre ++ (prevp, sb) :: (p, s) :: post) with ((pre ++ [(prevp, sb)]) ++ (p, s) :: post) in Hc by by rewrite <- app_assoc.
  apply chain_app in Hc as [Hc1 [Hp Hc2]]. apply hdr_next in Hp as [Hp _]. cbn [fst] in Hp.
  assert (um_hdr st !! prevp = Some (mkHeader p sb)) as Hb.
  { apply chain_app in Hc1 as [_ [Hc1 _]]. done. }
  constructor; [|done|done|].
  - rewrite app_comm_cons, Eq. apply chain_app. split.
    + apply (chain_last st _ pre prevp sb p); [done| |].
      * unfold set_freep. cbn [um_hdr]. rewrite set_ptr_at. destruct (hdr_next _ _ _ _ Hb) as [_ ->]. by rewrite Hp.
      * intros c Hc. apply set_ptr_ne. apply (ring_addr_ne pre (prevp, sb) ((p, s) :: post)); [done|by left].
    + apply (chain_ext st); [|done]. intros c Hc. apply set_ptr_ne.
      apply (ring_addr_ne pre (prevp, sb) ((p, s) :: post)); [done|]. right. by right.
  - exists sb. cbn [set_freep um_freep]. rewrite app_comm_cons, Eq, <- app_assoc. apply elem_of_app. right. left.
Qed.

Lemma ring_take_part pre prevp sb q p s post nu :
  (base, 0) :: q = pre ++ [(prevp, sb)] -> l = q ++ (p, s) :: post -> 0 < nu < s ->
  ring base (set_freep prevp (set_size (p + HSIZE * (s - nu)) nu (set_size p (s - nu) st))) (q ++ (p, s - nu) :: post).
Proof.
  intros Eq El Hnu. pose proof (uh_ring _ _ _ _ Hh) as Hr.
  destruct (shrink_sorted q p s post ((p, s - nu) :: post) El) as [S1 S2]. { right. exists (s - nu). split; [done|lia]. }
  assert ((base, 0) :: l = ((base, 0) :: q) ++ (p, s) :: post) as E by by rewrite El.
  pose proof (ring_chain _ _ _ Hr) as Hc. pose proof (ring_sorted _ _ _ Hr) as Hs. pose proof (ring_nonneg _ _ _ Hr) as Hn.
  rewrite E in Hc, Hs, Hn. rewrite Forall_forall in Hn. apply chain_app in Hc as [Hc1 [Hp Hc2]]. cbn [fst snd] in Hp.
  set (t := p + HSIZE * (s - nu)).
  assert (forall c, c ∈ (base, 0) :: q \/ c ∈ post -> c.1 <> t /\ c.1 <> p) as Hne.
  { intros c Hc. split; [|by apply (ring_addr_ne ((base, 0) :: q) (p, s) post)].
    apply StronglySorted_app in Hs as (T1 & _ & T3). apply StronglySorted_cons in T3 as [T3 _]. rewrite Forall_forall in T3.
    destruct Hc as [Hc|Hc].
    - assert (below c (p, s)) as Hb by (apply T1; [done|left]). assert (0 <= c.2) by (apply (Hn c), elem_of_app; by left).
      unfold below, t, HSIZE in *. cbn in *. lia.
    - specialize (T3 c Hc). unfold below, t, HSIZE in *. cbn in *. lia. }
  assert (forall c, c ∈ (base, 0) :: q \/ c ∈ post ->
    um_hdr (set_freep prevp (set_size t nu (set_size p (s - nu) st))) !! c.1 = um_hdr st !! c.1) as Hext.
  { intros c Hc. destruct (Hne c Hc). unfold set_freep. cbn [um_hdr]. by rewrite !set_size_ne by done. }
  constructor; [|done|done|].
  - rewrite app_comm_cons. apply chain_app. split; [|split].
    + apply (chain_ext st); [|done]. intros c Hc. apply Hext. by left.
    + unfold set_freep. cbn [um_hdr fst snd]. rewrite set_size_ne by (unfold t, HSIZE; lia). rewrite set_size_at.
      by destruct (hdr_next _ _ _ _ Hp) as [-> _].
    + apply (chain_ext st); [|done]. intros c Hc. apply Hext. by right.
  - exists sb. cbn [set_freep um_freep]. rewrite app_comm_cons, Eq, <- app_assoc. apply elem_of_app. right. left.
Qed.

(** What the free space is before and after a block is cut out of it. *)
Lemma cut_whole q p s post x :
  l = q ++ (p, s) :: post -> (covered l x <-> covered (q ++ post) x \/ covers (p, s) x) /\ (covered (q ++ post) x -> ~ covers (p, s) x).
Proof.
  intros El. pose proof (ring_sorted _ _ _ (uh_ring _ _ _ _ Hh)) as Hs. rewrite El in *. split.
  - rewrite !covered_app, covered_cons. tauto.
  - rewrite app_comm_cons in Hs. apply StronglySorted_app in Hs as (S1 & _ & S3). apply StronglySorted_cons in S3 as [S3 _].
    rewrite Forall_forall in S3. rewrite covered_app. unfold covered, covers, below in *. cbn [fst snd] in *.
    intros [(c & Hc & Hx)|(c & Hc & Hx)].
    + assert (c.1 + HSIZE * c.2 < p) by (apply (S1 c (p, s)); [by right|left]). lia.
    + specialize (S3 c Hc). lia.
Qed.
Lemma cut_part q p s post nu x :
  l = q ++ (p, s) :: post -> 0 < nu < s ->
  (covered l x <-> covered (q ++ (p, s - nu) :: post) x \/ covers (p + HSIZE * (s - nu), nu) x) /\
  (covered (q ++ (p, s - nu) :: post) x -> ~ covers (p + HSIZE * (s - nu), nu) x).
Proof.
  intros El Hnu. destruct (cut_whole q p s post x El) as [H1 H2]. rewrite H1. rewrite !covered_app, covered_cons in *.
  assert (covers (p, s) x <-> covers (p, s - nu) x \/ covers (p + HSIZE * (s - nu), nu) x) as E.
  { unfold covers, HSIZE. cbn. lia. }
  assert (covers (p, s - nu) x -> ~ covers (p + HSIZE * (s - nu), nu) x). { unfold covers. cbn. lia. }
  tauto.
Qed.

Lemma take_block_ok nu prevp sb p s :
  (prevp, sb) ∈ (base, 0) :: l -> nextp st prevp = p -> (p, s) ∈ l -> 0 < nu <= s ->
  exists a l', (take_block nu prevp p st).1 = a + HSIZE /\ al !! a = None /\
    uheap base (take_block nu prevp p st).2 l' (<[a := nu]> al) /\ um_brk (take_block nu prevp p st).2 = um_brk st /\
    (forall x, covered l x <-> covered l' x \/ covers (a, nu) x) /\ (length l' <= length l)%nat.
Proof.
  intros Hb Hn Hp Hnu. destruct (pred_split prevp sb p s Hb Hn Hp) as (pre & q & post & Eq & El).
  pose proof (uh_ring _ _ _ _ Hh) as Hr. pose proof (ring_placed _ _ _ Hr) as Hpl. rewrite Forall_forall in Hpl. specialize (Hpl _ Hp).
  destruct (chain_hdr _ _ _ (p, s) (ring_chain _ _ _ Hr)) as [nx Ehd]; [by right|]. cbn [fst snd] in Ehd.
  destruct (hdr_next _ _ _ _ Ehd) as [En Es]. unfold take_block. rewrite Es. case_decide as Ecase.
  - clear Es. subst s. exists p, (q ++ post). cbn [fst snd]. split; [done|].
    assert (forall b t, al !! b = Some t -> b <> prevp) as Hne.
    { intros b t Ha ->. pose proof (live_ne _ _ _ _ Hh _ _ Ha) as Hl. rewrite Forall_forall in Hl. by apply (Hl _ Hb). }
    destruct (uheap_take (set_freep prevp (set_ptr prevp (nextp st p) st)) (q ++ post) p nu) as [H1 H2];
      [exact (ring_take_whole pre prevp sb q p nu post Eq El)|done|done|intros x; apply (cut_whole q p nu post x El)|intros x; apply (cut_whole q p nu post x El)|..].
    + exists nx. rewrite <- Ehd. apply set_ptr_ne. intros ->.
      assert ((prevp, nu).1 <> (prevp, sb).1); [|done].
      apply (ring_addr_ne pre (prevp, sb) ((prevp, nu) :: post)); [by rewrite El, app_comm_cons, Eq, <- app_assoc|right; left].
    + intros b t Ha. apply set_ptr_ne. by apply (Hne b t).
    + split_and!; [done|done|done|intros x; apply (cut_whole q p nu post x El)|]. rewrite El, !length_app. cbn. lia.
  - assert (0 < nu < s) as Hlt by lia. pose proof (placed_size _ _ _ Hpl ltac:(pose proof (uh_base _ _ _ _ Hh); lia) (proj2 (uh_brk _ _ _ _ Hh))) as Hsz.
    cbn [fst snd] in Hsz. rewrite u32_small by lia. destruct (hdr_next _ _ _ _ (set_size_at p (s - nu) st)) as [_ ->].
    set (t := p + HSIZE * (s - nu)). exists t, (q ++ (p, s - nu) :: post). cbn [fst snd]. split; [done|].
    destruct (uheap_take (set_freep prevp (set_size t nu (set_size p (s - nu) st))) (q ++ (p, s - nu) :: post) t nu) as [H1 H2];
      [exact (ring_take_part pre prevp sb q p s post nu Eq El Hlt)|done| |intros x; apply (cut_part q p s post nu x El Hlt)|intros x; apply (cut_part q p s post nu x El Hlt)|..].
    + destruct Hpl as (P1 & P2 & P3). unfold placed, t, HSIZE in *. cbn in *. lia.
    + eexists. apply set_size_at.
    + intros b u Ha. destruct (uh_live _ _ _ _ Hh b u Ha) as ((_ & U & _) & _ & Hap). rewrite Forall_forall in Hap. specialize (Hap _ Hp).
      unfold set_freep. cbn [um_hdr]. rewrite !set_size_ne; [done| |]; unfold apart, t, HSIZE in *; cbn in *; lia.
    + split_and!; [done|done|done|intros x; apply (cut_part q p s post nu x El Hlt)|]. rewrite El, !length_app. cbn. lia.
Qed.
End Take.

(** ** morecore() *)
Section Morecore.
Context (base : Z) (st : umem) (l : list (Z * Z)) (al : gmap Z Z) (Hh : uheap base st l al).

(** Memory from sbrk(), with a header on it, is a block in use. *)
Lemma uheap_grow nu g :
  0 < nu -> um_brk st + HSIZE * nu <= 2 ^ 32 ->
  al !! um_brk st = None /\
  uheap base (set_size (um_brk st) nu (mkUmem (um_hdr st) (um_freep st) (um_brk st + HSIZE * nu) g)) l (<[um_brk st := nu]> al).
Proof.
  intros Hnu Hle. pose proof Hh as [H0 H1 H2 H3 H4].
  assert (forall b t, al !! b = Some t -> b + HSIZE * t <= um_brk st /\ b < um_brk st) as Hlow.
  { intros b t Hb. destruct (H3 b t Hb) as ((_ & P & Q) & _). unfold HSIZE in *. cbn in *. lia. }
  pose proof (ring_placed _ _ _ H2) as Hpl.
  split.
  { destruct (al !! um_brk st) as [t|] eqn:E; [|done]. pose proof (Hlow _ _ E). lia. }
  constructor; [done|cbn [set_size set_hdr um_brk]; unfold HSIZE in *; lia| | |].
  - destruct H2 as [R1 R2 R3 R4]. constructor; [|done| |done].
    + apply (chain_ext st); [|done]. intros b Hb. cbn [set_size set_hdr um_hdr]. apply lookup_insert_ne.
      apply elem_of_cons in Hb as [->|Hb]; [cbn; unfold HSIZE in *; lia|]. rewrite Forall_forall in R3.
      specialize (R3 b Hb). unfold placed, HSIZE in R3. lia.
    + eapply Forall_impl; [exact R3|]. cbn [set_size set_hdr um_brk]. unfold placed, HSIZE. lia.
  - cbn [set_size set_hdr um_brk um_hdr]. intros b t Hb. apply lookup_insert_Some in Hb as [[<- <-]|[Hne Hb]].
    + split_and!; [unfold placed, HSIZE in *; cbn; lia|eexists; by rewrite lookup_insert, decide_True|].
      eapply Forall_impl; [exact Hpl|]. unfold placed, apart. cbn. lia.
    + destruct (H3 b t Hb) as (P & (n & Q) & R). split_and!; [unfold placed, HSIZE in *; cbn in *; lia| |done].
      exists n. rewrite lookup_insert_ne; done.
  - intros b t c u Hb Hc Hne. apply lookup_insert_Some in Hb as [[<- <-]|[Hne1 Hb]];
      apply lookup_insert_Some in Hc as [[<- <-]|[Hne2 Hc]]; [done| | |by apply H4].
    + right. by apply Hlow.
    + left. by apply Hlow.
Qed.
Lemma uheap_grow_list g : uheap base (mkUmem (um_hdr st) (um_freep st) (um_brk st) g) l al.
Proof.
  destruct Hh as [H0 H1 [R1 R2 R3 R4] H3 H4]. constructor; [done|done| |done|done].
  constructor; [|done|done|done]. by apply (chain_ext st).
Qed.

Lemma morecore_ok nu fuel :
  0 < nu -> HSIZE * Z.max 4096 nu < 2 ^ 31 -> um_brk st + HSIZE * Z.max 4096 nu <= 2 ^ 32 -> (length l < fuel)%nat ->
  exists r st', morecore fuel nu st = Some (r, st') /\
    ((r = 0 /\ hd false (um_grow st) = false /\ uheap base st' l al /\ um_brk st' = um_brk st) \/
     (r = um_freep st' /\ r <> 0 /\ exists l', uheap base st' l' al /\ (exists c, c ∈ l' /\ nu <= c.2) /\
        (forall x, covered l' x <-> covered l x \/ um_brk st <= x < um_brk st') /\ (length l' <= S (length l))%nat)).
Proof.
  intros Hnu H31 Hle Hf. unfold morecore. set (nu' := if decide (nu < 4096) then 4096 else nu).
  assert (nu' = Z.max 4096 nu) as En by (unfold nu'; case_decide; lia). rewrite <- En in *. clearbody nu'.
  rewrite i32_small by (unfold HSIZE in *; lia). pose proof (uh_brk _ _ _ _ Hh) as Hbrk. pose proof (uh_base _ _ _ _ Hh) as Hb0.
  unfold sbrk. destruct (um_grow st) as [|[] g] eqn:Eg.
  - rewrite decide_True by done. exists 0, st. split; [done|]. left. done.
  - rewrite decide_False by (unfold HSIZE in *; lia). rewrite (Z.mul_comm nu').
    destruct (uheap_grow nu' g ltac:(lia) Hle) as [Hn Hg].
    destruct (free_heap _ _ _ _ Hg (um_brk st) nu' fuel) as (st' & l' & E & Hh' & Eb & _ & Hc & Hbig & Hl);
      [by rewrite lookup_insert, decide_True|done|].
    rewrite E. cbn [mbind option_bind]. exists (um_freep st'), st'. split; [done|]. right. split; [done|].
    rewrite delete_insert_eq, delete_id in Hh' by done. split.
    { destruct (ring_freep _ _ _ (uh_ring _ _ _ _ Hh')) as [s0 Hs0]. pose proof (ring_nonneg _ _ _ (uh_ring _ _ _ _ Hh')) as Hnn.
      rewrite Forall_forall in Hnn. specialize (Hnn _ Hs0). cbn in Hnn. lia. }
    exists l'. split_and!; [done|destruct Hbig as (c & ? & ?); exists c; split; [done|lia]| |done].
    intros x. rewrite Hc, Eb. unfold covers. done.
  - rewrite decide_True by done. eexists 0, _. split; [done|]. left. split_and!; [done|done|apply uheap_grow_list|done].
Qed.
End Morecore.

(** ** malloc() *)
Section Scan.
Context (base : Z) (st : umem) (l : list (Z * Z)) (al : gmap Z Z) (Hh : uheap base st l al).
Context (nu : Z) (Hnu : 0 < nu).

(** The loop has found a block that is large enough. *)
Definition found (r : option (Z * umem)) : Prop :=
  exists b sb a s, (b, sb) ∈ (base, 0) :: l /\ nextp st b = a /\ (a, s) ∈ l /\ nu <= s /\ r = Some (take_block nu b a st).
(** The loop is at [freep] and calls morecore(). *)
Definition grow_step (fuel : nat) : option (Z * umem) :=
  r ← morecore (S fuel) nu st;
  let '(p, st) := r in if decide (p = 0) then Some (0, st) else malloc_loop fuel nu p (nextp st p) st.

Lemma loop_take fuel prevp p :
  sizep st p >= nu -> malloc_loop (S fuel) nu prevp p st = Some (take_block nu prevp p st).
Proof. intros H. cbn [malloc_loop]. rewrite decide_True by done. unfold take_block. by case_decide. Qed.
Lemma ring_size b s : (b, s) ∈ (base, 0) :: l -> sizep st b = s.
Proof.
  intros Hb. destruct (chain_hdr _ _ _ _ (ring_chain _ _ _ (uh_ring _ _ _ _ Hh)) Hb) as [n E]. by apply hdr_next in E as [_ ?].
Qed.
Lemma found_take b sb a s fuel :
  (b, sb) ∈ (base, 0) :: l -> nextp st b = a -> (a, s) ∈ (base, 0) :: l -> nu <= s ->
  found (malloc_loop (S fuel) nu b a st).
Proof.
  intros Hb Hn Ha Hs. exists b, sb, a, s. rewrite loop_take by (rewrite (ring_size _ _ Ha); lia).
  apply elem_of_cons in Ha as [Ha|Ha]; [injection Ha as -> ->; lia|done].
Qed.

Lemma scan todo : forall fuel prevp sb sf,
  (forall c, c ∈ todo -> c ∈ (base, 0) :: l) -> (um_freep st, sf) ∈ (base, 0) :: l -> chain st todo (um_freep st) ->
  Forall (fun c => c.1 <> um_freep st) todo -> (prevp, sb) ∈ (base, 0) :: l ->
  nextp st prevp = hd_addr todo (um_freep st) -> (length todo < fuel)%nat ->
  found (malloc_loop fuel nu prevp (hd_addr todo (um_freep st)) st) \/
  (Forall (fun c => c.2 < nu) todo /\ sf < nu /\ exists fuel', fuel = (length todo + S fuel')%nat /\
     malloc_loop fuel nu prevp (hd_addr todo (um_freep st)) st = grow_step fuel').
Proof.
  induction todo as [|c todo IH]; intros fuel prevp sb sf Hin Hfr Hc Hne Hp Hn Hf; (destruct fuel as [|fuel]; [cbn in Hf; lia|]);
    cbn [hd_addr length] in *.
  - destruct (decide (nu <= sf)) as [Hge|Hlt]; [left; by apply (found_take prevp sb (um_freep st) sf)|].
    right. split_and!; [done|lia|]. exists fuel. split; [done|]. cbn [malloc_loop].
    rewrite decide_False by (rewrite (ring_size _ _ Hfr); lia). by rewrite decide_True.
  - destruct c as [a s]. cbn [fst snd] in *. assert ((a, s) ∈ (base, 0) :: l) as Ha by (apply Hin; left).
    destruct (decide (nu <= s)) as [Hge|Hlt]; [left; by apply (found_take prevp sb a s)|].
    destruct Hc as [Hh1 Hc]. apply Forall_cons in Hne as [Hne0 Hne]. cbn [fst] in *.
    destruct (hdr_next _ _ _ _ Hh1) as [En _].
    assert (malloc_loop (S fuel) nu prevp a st = malloc_loop fuel nu a (hd_addr todo (um_freep st)) st) as ->.
    { cbn [malloc_loop]. rewrite decide_False by (rewrite (ring_size _ _ Ha); lia). rewrite decide_False by done. by rewrite En. }
    destruct (IH fuel a s sf) as [?|(H1 & H2 & f & H3 & H4)]; try done; [|lia|by left|].
    { intros c Hci. apply Hin. by right. }
    right. split_and!; [constructor; [cbn; lia|done]|done|]. exists f. split; [lia|done].
Qed.

(** The blocks in the order of the loop. *)
Lemma ring_tour : exists todo sf,
  (forall c, c ∈ todo -> c ∈ (base, 0) :: l) /\ (um_freep st, sf) ∈ (base, 0) :: l /\ chain st todo (um_freep st) /\
  Forall (fun c => c.1 <> um_freep st) todo /\ nextp st (um_freep st) = hd_addr todo (um_freep st) /\
  length todo = length l /\ forall c, c ∈ l -> c ∈ todo \/ c = (um_freep st, sf).
Proof.
  pose proof (uh_ring _ _ _ _ Hh) as Hr. destruct (ring_freep _ _ _ Hr) as [sf Hf]. pose proof Hf as Hf'.
  apply list_elem_of_split in Hf' as (pre & post & E). pose proof (ring_chain _ _ _ Hr) as Hc. rewrite E in Hc.
  apply chain_app in Hc as [Hc1 [Hh1 Hc2]]. cbn [hd_addr fst snd] in *. destruct (hdr_next _ _ _ _ Hh1) as [En _].
  assert (hd_addr pre (um_freep st) = base) as Ehd. { destruct pre; injection E as E0 _; [done|by rewrite <- E0]. }
  exists (post ++ pre), sf. rewrite E. split_and!.
  - set_solver.
  - set_solver.
  - apply chain_app. by rewrite Ehd.
  - apply Forall_forall. intros c Hc. apply elem_of_app in Hc. apply (ring_addr_ne _ _ _ _ Hh pre (um_freep st, sf) post); [done|tauto].
  - by rewrite hd_addr_app, Ehd.
  - apply (f_equal length) in E. rewrite length_app in *. cbn in E. lia.
  - intros c Hc. assert (c ∈ (base, 0) :: l) as Hc' by by right. rewrite E in Hc'. set_solver.
Qed.

(** The loop from [freep]: a block is found, or none fits and it asks for memory. *)
Lemma scan_ring fuel :
  (length l < fuel)%nat ->
  let r := malloc_loop fuel nu (um_freep st) (nextp st (um_freep st)) st in
  found r \/ (Forall (fun c => c.2 < nu) l /\ exists fuel', fuel = (length l + S fuel')%nat /\ r = grow_step fuel').
Proof.
  intros Hf. destruct ring_tour as (todo & sf & H1 & H2 & H3 & H4 & H5 & H6 & H7). cbn zeta. rewrite H5.
  destruct (scan todo fuel (um_freep st) sf sf) as [?|(G1 & G2 & f & G3 & G4)]; try done; [lia|by left|].
  right. split; [|exists f; by rewrite <- H6]. apply Forall_forall. intros c Hc. rewrite Forall_forall in G1.
  destruct (H7 c Hc) as [Hin| ->]; [by apply G1|done].
Qed.

Lemma found_ok r : found r ->
  exists a st' l', r = Some (a + HSIZE, st') /\ al !! a = None /\ uheap base st' l' (<[a := nu]> al) /\ um_brk st' = um_brk st /\
    (forall x, covered l x <-> covered l' x \/ covers (a, nu) x) /\ (length l' <= length l)%nat.
Proof.
  intros (b & sb & a & s & Hb & Hn & Ha & Hs & ->).
  destruct (take_block_ok _ _ _ _ Hh nu b sb a s Hb Hn Ha ltac:(lia)) as (a' & l' & E & H1 & H2 & H3 & H4 & H5).
  exists a', (take_block nu b a st).2, l'. split_and!; try done. rewrite <- E. by destruct (take_block nu b a st).
Qed.
End Scan.

(** The header units malloc() asks for. *)
Definition units (nbytes : Z) : Z := (nbytes + HSIZE - 1) / HSIZE + 1.
Lemma units_bounds nbytes : 0 <= nbytes -> 1 <= units nbytes /\ nbytes <= HSIZE * (units nbytes - 1) < nbytes + HSIZE.
Proof. unfold units, HSIZE. intros H. Z.to_euclidean_division_equations. lia. Qed.

(** The heap before the first call. *)
Record uheap_init (base : Z) (st : umem) : Prop := mkUinit {
  ui_base : 0 < base; ui_brk : base + HSIZE <= um_brk st <= 2 ^ 32; ui_freep : um_freep st = 0 }.
Definition heap_of (base : Z) (st : umem) (l : list (Z * Z)) (al : gmap Z Z) : Prop :=
  uheap base st l al \/ (uheap_init base st /\ l = [] /\ al = ∅).

Lemma uheap_start base st : uheap_init base st -> uheap base (set_size base 0 (set_freep base (set_ptr base base st))) [] ∅.
Proof.
  intros [H0 H1 H2]. constructor; [done|done| |done|done].
  constructor; [|apply StronglySorted_cons; split; constructor|done|exists 0; left].
  split; [|done]. cbn [fst snd hd_addr]. rewrite set_size_at. unfold nextp, get_hdr. cbn [set_freep um_hdr]. by rewrite set_ptr_at.
Qed.

(** malloc() leaves the process with a heap in which [r] is in use, or fails. *)
Definition malloc_result (base : Z) (st : umem) (l : list (Z * Z)) (al : gmap Z Z) (nu r : Z) (st' : umem) : Prop :=
  (r = 0 /\ uheap base st' l al /\ um_brk st' = um_brk st /\ Forall (fun c => c.2 < nu) l /\ hd false (um_grow st) = false) \/
  (exists l', al !! (r - HSIZE) = None /\ uheap base st' l' (<[r - HSIZE := nu]> al) /\
     forall x, covered l' x \/ covers (r - HSIZE, nu) x <-> covered l x \/ um_brk st <= x < um_brk st').

Lemma malloc_loop_ok base st l al nu fuel :
  uheap base st l al -> 0 < nu -> HSIZE * Z.max 4096 nu < 2 ^ 31 -> um_brk st + HSIZE * Z.max 4096 nu <= 2 ^ 32 ->
  (2 * length l + 3 <= fuel)%nat ->
  exists r st', malloc_loop fuel nu (um_freep st) (nextp st (um_freep st)) st = Some (r, st') /\ malloc_result base st l al nu r st'.
Proof.
  intros Hh Hnu H31 Hle Hf. destruct (scan_ring _ _ _ _ Hh nu Hnu fuel ltac:(lia)) as [Hfd|(Hsmall & f & Ef & ->)].
  - destruct (found_ok _ _ _ _ Hh nu Hnu _ Hfd) as (a & st' & l' & -> & H1 & H2 & H3 & H4 & _).
    exists (a + HSIZE), st'. split; [done|]. right. replace (a + HSIZE - HSIZE) with a by lia. exists l'. split_and!; [done|done|].
    intros x. rewrite H3, H4. intuition lia.
  - unfold grow_step.
    destruct (morecore_ok _ _ _ _ Hh nu (S f) Hnu H31 Hle ltac:(lia)) as (r & st1 & -> & [(-> & H1 & H2 & H3)|(Er & H1 & l1 & H2 & H3 & H4 & H5)]);
      cbn [mbind option_bind].
    + rewrite decide_True by done. exists 0, st1. split; [done|]. left. done.
    + rewrite decide_False by done. rewrite Er.
      destruct (scan_ring _ _ _ _ H2 nu Hnu f ltac:(lia)) as [Hfd|(Hsmall' & _)].
      2: { destruct H3 as (c & Hc & Hge). rewrite Forall_forall in Hsmall'. specialize (Hsmall' c Hc). lia. }
      destruct (found_ok _ _ _ _ H2 nu Hnu _ Hfd) as (a & st' & l' & -> & G1 & G2 & G3 & G4 & _).
      exists (a + HSIZE), st'. split; [done|]. right. replace (a + HSIZE - HSIZE) with a by lia. exists l'. split_and!; [done|done|].
      intros x. rewrite <- G4, H4, G3. done.
Qed.

Lemma malloc_ok base st l al nbytes fuel :
  heap_of base st l al -> 0 <= nbytes < 2 ^ 31 - 32 -> um_brk st + HSIZE * Z.max 4096 (units nbytes) <= 2 ^ 32 ->
  (2 * length l + 3 <= fuel)%nat ->
  exists r st', malloc base fuel nbytes st = Some (r, st') /\ malloc_result base st l al (units nbytes) r st'.
Proof.
  intros Hh Hn Hle Hf. pose proof (units_bounds nbytes ltac:(lia)) as Hu. unfold malloc. fold (units nbytes).
  rewrite u32_small by (unfold HSIZE in *; lia). destruct Hh as [Hh|(Hi & -> & ->)].
  - rewrite decide_False.
    + apply malloc_loop_ok; (done || unfold HSIZE in *; lia).
    + destruct (ring_freep _ _ _ (uh_ring _ _ _ _ Hh)) as [s0 Hs0]. pose proof (ring_nonneg _ _ _ (uh_ring _ _ _ _ Hh)) as Hnn.
      rewrite Forall_forall in Hnn. specialize (Hnn _ Hs0). pose proof (uh_base _ _ _ _ Hh). cbn in Hnn. lia.
  - rewrite decide_True by apply Hi. set (st0 := set_size base 0 _).
    destruct (malloc_loop_ok base st0 [] ∅ (units nbytes) fuel (uheap_start _ _ Hi)) as (r & st' & E & Hres);
      [unfold HSIZE in *; lia|unfold HSIZE in *; lia|exact Hle|exact Hf|].
    exists r, st'. done.
Qed.

(** ** More fuel gives the same result *)
Lemma free_find_mono st bp fuel fuel' : forall p r,
  free_find fuel st bp p = Some r -> (fuel <= fuel')%nat -> free_find fuel' st bp p = Some r.
Proof.
  revert fuel'. induction fuel as [|fuel IH]; intros fuel' p r E Hle; [done|]. destruct fuel' as [|fuel']; [lia|].
  cbn [free_find] in *. case_decide; [done|]. apply IH; [done|lia].
Qed.
Lemma free_mono ap st fuel fuel' r : free fuel ap st = Some r -> (fuel <= fuel')%nat -> free fuel' ap st = Some r.
Proof.
  unfold free. intros E Hle. destruct (free_find fuel st (ap - HSIZE) (um_freep st)) as [p|] eqn:Ef; [|done].
  by rewrite (free_find_mono _ _ _ fuel' _ _ Ef).
Qed.
Lemma morecore_mono nu st fuel fuel' r : morecore fuel nu st = Some r -> (fuel <= fuel')%nat -> morecore fuel' nu st = Some r.
Proof.
  unfold morecore. destruct (sbrk _ st) as [p st1]. case_decide; [done|]. intros E Hle.
  destruct (free fuel _ _) as [st2|] eqn:Ef; [|done]. by rewrite (free_mono _ _ _ fuel' _ Ef).
Qed.
Lemma malloc_loop_mono nu fuel fuel' : forall prevp p st r,
  malloc_loop fuel nu prevp p st = Some r -> (fuel <= fuel')%nat -> malloc_loop fuel' nu prevp p st = Some r.
Proof.
  revert fuel'. induction fuel as [|fuel IH]; intros fuel' prevp p st r E Hle; [done|]. destruct fuel' as [|fuel']; [lia|].
  cbn [malloc_loop] in *. repeat case_decide; try done; [|apply IH; [done|lia]].
  destruct (morecore (S fuel) nu st) as [[p1 st1]|] eqn:Em; [|done]. rewrite (morecore_mono _ _ _ (S fuel') _ Em) by lia.
  cbn [mbind option_bind] in *. case_decide; [done|]. apply IH; [done|lia].
Qed.
Lemma malloc_mono base nbytes st fuel fuel' r :
  malloc base fuel nbytes st = Some r -> (fuel <= fuel')%nat -> malloc base fuel' nbytes st = Some r.
Proof. unfold malloc. intros. by eapply malloc_loop_mono. Qed.

(** ** Programs that use the heap

    A process calls malloc() and free() in any order, free() with a pointer
    that malloc() gave it and that it has not yet freed. *)
Inductive heap_run (base : Z) : umem -> gmap Z Z -> Prop :=
| run_start st : uheap_init base st -> heap_run base st ∅
| run_malloc st al fuel nbytes r st' :
    heap_run base st al -> 0 <= nbytes < 2 ^ 31 - 32 -> um_brk st + HSIZE * Z.max 4096 (units nbytes) <= 2 ^ 32 ->
    malloc base fuel nbytes st = Some (r, st') ->
    heap_run base st' (if decide (r = 0) then al else <[r - HSIZE := units nbytes]> al)
| run_free st al fuel a s st' :
    heap_run base st al -> al !! a = Some s -> free fuel (a + HSIZE) st = Some st' -> heap_run base st' (delete a al).

Lemma heap_run_heap base st al : heap_run base st al -> exists l, heap_of base st l al.
Proof.
  induction 1 as [st Hi|st al fuel nbytes r st' _ [l IH] Hn Hle E|st al fuel a s st' _ [l IH] Ha E].
  - exists []. by right.
  - destruct (malloc_ok base st l al nbytes (Nat.max fuel (2 * length l + 3)) IH Hn Hle ltac:(lia)) as (r' & st'' & E' & Hres).
    rewrite (malloc_mono _ _ _ _ _ _ E) in E' by lia. injection E' as <- <-.
    destruct Hres as [(-> & Hh & _)|(l' & _ & Hh & _)]; [exists l; left; by rewrite decide_True|].
    exists l'. left. rewrite decide_False; [done|]. intros ->.
    destruct (uh_live _ _ _ _ Hh (0 - HSIZE) (units nbytes)) as ((P & _) & _); [by rewrite lookup_insert, decide_True|].
    pose proof (uh_base _ _ _ _ Hh). unfold HSIZE in *. cbn in P. lia.
  - destruct IH as [Hh|(_ & _ & ->)]; [|by rewrite lookup_empty in Ha].
    destruct (free_heap _ _ _ _ Hh a s (Nat.max fuel (S (length l))) Ha ltac:(lia)) as (st'' & l' & E' & Hh' & _).
    rewrite (free_mono _ _ _ _ _ E) in E' by lia. injection E' as <-. exists l'. by left.
Qed.
