(* ===== verification/PropsUser.v ===== *)
(** * Properties: user programs *)

From S2P Require Import Prelude Machine Ugrep Ush Ulib Uprintf Uprogs Ushrun Umalloc UmallocSpec.

(** ** grep *)

(** C33: the recursive matcher decides the language of the pattern: it accepts
    exactly the texts with a part that is a concatenation of one string per
    atom of the pattern (a character, any character, or a run of them for a
    starred one), at the beginning of the text after [^] and at its end before
    a final [$]. *)
Theorem match_decides_pattern re text : re_match re text = true <-> pattern_matches (parse_pattern re) text.
Proof. apply re_match_spec. Qed.

(** C34: however the input is cut into reads, grep() returns and has printed
    exactly the newline-terminated lines that match, in order, provided no line
    is longer than its buffer. *)
Theorem grep_prints_matching_lines pattern chunks :
  Forall (fun c => c <> []) chunks -> 0 ∉ concat chunks -> short_lines (concat chunks) ->
  grep (S (length (concat chunks))) pattern chunks =
  Some (matching pattern (split_lines [] (concat chunks)).1).
Proof.
  intros Hne H0 Hs. unfold grep. rewrite (grep_loop_spec pattern _ [] chunks [] []); try done.
  - by intros ?%elem_of_nil.
  - lia.
Qed.

Definition demo_input : list (list Z) := [[104; 105; 10; 104]; [111; 10; 120; 10]].

Lemma demo_short : short_lines (concat demo_input).
Proof.
  intros s1 s2 E. pose proof (split_lines_rest_length [] s1) as Hr.
  apply (f_equal length) in E. rewrite length_app in E. cbn in E. unfold BUFSZ. cbn in Hr. lia.
Qed.

Lemma grep_prints_matching_lines_witness :
  grep 9 [94; 104] demo_input = Some [104; 105; 10; 104; 111; 10].
Proof.
  refine (eq_trans (grep_prints_matching_lines [94; 104] demo_input _ _ demo_short) _);
    [repeat constructor; discriminate|by vm_compute; set_solver|reflexivity].
Defined.

(** ** The shell's parser *)

(** C35: the parser returns on every command line, with a tree or with one of
    its error messages. *)
Theorem parsecmd_terminates s : parsecmd s <> PFuel.
Proof. apply parsecmd_ends. Qed.

(** C30: printing a command and parsing the text gives the command back, for
    every tree of simple commands, redirections, pipes, lists and background
    jobs whose words are proper words. *)
Theorem parse_print_roundtrip c :
  cmd_ok c -> exists c', parsecmd (show 0 c) = POk c' [] /\ cmd_map wtext c' = c.
Proof. apply parsecmd_show. Qed.

Definition demo_cmd : cmd (list Z) :=
  LIST (BACK (PIPE (REDIR (EXEC [[108; 115]]) [102] 0 0) (EXEC [[119; 99]; [45; 108]])))
       (REDIR (LIST (EXEC [[97]]) (EXEC [])) [111] (Z.lor (Z.lor M_WRONLY M_CREATE) M_TRUNC) 1).

Lemma parse_print_roundtrip_witness :
  exists c', parsecmd (show 0 demo_cmd) = POk c' [] /\ cmd_map wtext c' = demo_cmd.
Proof.
  apply (parse_print_roundtrip demo_cmd). cbn.
  repeat (split || constructor || discriminate || (unfold MAXARGS; lia)); unfold whitespace, symbols, redir_ok; set_solver.
Defined.

(** After nulterminate() every argument and file name of the tree is, as a C
    string, exactly the word that was typed: no NUL lands inside another word. *)
Lemma nulterminate_keeps_words s c rest w :
  parsecmd s = POk c rest -> 0 ∉ s -> w ∈ words c ->
  cstr (drop (index s w.1) (parsed_line s c)) = wtext w.
Proof. apply nulterminate_cstr. Qed.

Lemma nulterminate_keeps_words_witness :
  cstr (drop 3 (parsed_line [97; 62; 32; 98; 59; 99] 
    (LIST (REDIR (EXEC [([97; 62; 32; 98; 59; 99], [62; 32; 98; 59; 99])]) ([98; 59; 99], [59; 99])
             (Z.lor (Z.lor M_WRONLY M_CREATE) M_TRUNC) 1) (EXEC [([99], [])])))) = [98].
Proof.
  apply (nulterminate_keeps_words [97; 62; 32; 98; 59; 99] _ [] ([98; 59; 99], [59; 99]));
    [reflexivity|set_solver|]. cbn. set_solver.
Defined.

(** ** The allocator *)

(** C32: malloc() returns.  Either it fails, because no free block is large
    enough and sbrk() refuses, and the heap is as it was; or the pointer is
    after the header of a block of enough units that was not in use, the heap
    is well formed with that block in use (so it is apart from every block in
    use and from every free block), and the free space together with the block
    is what was free before together with the memory sbrk() added. *)
Theorem malloc_serves_request base st l al nbytes fuel :
  heap_of base st l al -> 0 <= nbytes < 2 ^ 31 - 32 -> um_brk st + HSIZE * Z.max 4096 (units nbytes) <= 2 ^ 32 ->
  (2 * length l + 3 <= fuel)%nat ->
  nbytes <= HSIZE * (units nbytes - 1) /\
  exists r st', malloc base fuel nbytes st = Some (r, st') /\ malloc_result base st l al (units nbytes) r st'.
Proof. intros Hh Hn Hle Hf. split; [apply units_bounds; lia|by apply malloc_ok]. Qed.

Definition demo_heap : umem := mkUmem ∅ 0 8192 [true].
Lemma demo_heap_init : uheap_init 4096 demo_heap.
Proof. constructor; cbn; unfold HSIZE; lia. Qed.

Lemma malloc_serves_request_witness :
  exists st', malloc 4096 3 100 demo_heap = Some (73616, st') /\ malloc_result 4096 demo_heap [] ∅ 8 73616 st'.
Proof.
  destruct (malloc_serves_request 4096 demo_heap [] ∅ 100 3) as (_ & r & st' & E & Hres);
    [right; split_and!; [exact demo_heap_init|reflexivity|reflexivity]|lia|by vm_compute|cbn; lia|].
  exists st'. vm_compute in E. injection E as <- <-. split; [by vm_compute|exact Hres].
Defined.

(** C31: whatever sequence of malloc() and free() calls a process makes, the
    blocks it holds lie above [base] and below the break, are apart from each
    other and carry their sizes in their headers, and a free() of any of them
    returns. *)
Theorem heap_run_keeps_blocks_apart base st al :
  heap_run base st al ->
  (forall a s, al !! a = Some s -> placed base (um_brk st) (a, s) /\ sizep st a = s /\
     exists fuel st', free fuel (a + HSIZE) st = Some st') /\
  (forall a s b t, al !! a = Some s -> al !! b = Some t -> a <> b -> apart (a, s) (b, t)).
Proof.
  intros Hrun. destruct (heap_run_heap _ _ _ Hrun) as [l [Hh|(_ & _ & ->)]]; [|done]. split; [|apply (uh_apart _ _ _ _ Hh)].
  intros a s Ha. destruct (uh_live _ _ _ _ Hh a s Ha) as (P & (n & Q) & _). apply hdr_next in Q as [_ Q]. split_and!; [done|done|].
  destruct (free_heap _ _ _ _ Hh a s (S (length l)) Ha ltac:(lia)) as (st' & l' & E & _). eauto.
Qed.

Definition heap_after (fuel : nat) (nbytes : Z) (st : umem) : umem :=
  match malloc 4096 fuel nbytes st with Some (_, st') => st' | None => st end.
Definition demo_heap1 : umem := heap_after 3 100 demo_heap.
Definition demo_heap2 : umem := heap_after 5 16 demo_heap1.

Lemma demo_heap1_run : heap_run 4096 demo_heap1 {[ 73600 := 8 ]}.
Proof.
  apply (run_malloc 4096 demo_heap ∅ 3 100 73616 demo_heap1 (run_start _ _ demo_heap_init)); [lia|by vm_compute|by vm_compute].
Qed.
Lemma demo_heap2_run : heap_run 4096 demo_heap2 (<[ 73568 := 2 ]> {[ 73600 := 8 ]}).
Proof.
  apply (run_malloc 4096 demo_heap1 _ 5 16 73584 demo_heap2 demo_heap1_run); [lia|by vm_compute|by vm_compute].
Qed.

Lemma heap_run_keeps_blocks_apart_witness : apart (73600, 8) (73568, 2).
Proof.
  apply (heap_run_keeps_blocks_apart 4096 demo_heap2 _ demo_heap2_run); [reflexivity..|discriminate].
Defined.

(** A request near 2^32 bytes: the size passed to sbrk() wraps to 16 bytes, the
    call succeeds, and the block that malloc() returns is labelled with 2^28 + 1
    units of which a single one exists. *)
Lemma malloc_oversized_request :
  exists st', malloc 4096 3 (2 ^ 32 - 15) demo_heap = Some (8208, st') /\ um_brk st' = 8192 + 16 /\ sizep st' 8192 = 2 ^ 28 + 1.
Proof. eexists. split; [by vm_compute|]. split; by vm_compute. Qed.

(** ** The library *)

(** Gets() stores the next line, newline included, cut to [max - 1]
    characters, with a NUL after it, and touches no byte outside the buffer. *)
Lemma gets_stays_in_buffer input m buf max :
  0 < max -> Forall (fun o => match o with Some c => 0 <= c < 256 | None => True end) input ->
  let line := line_of (Z.to_nat max) input in
  let m' := (gets input m buf max).1 in
  Z.of_nat (length line) < max /\ read_bytes (length line) m' buf = line /\
  read8 m' (buf + Z.of_nat (length line)) = 0 /\
  forall a, a < buf \/ buf + max <= a -> read8 m' a = read8 m a.
Proof. apply gets_ok. Qed.

Lemma gets_stays_in_buffer_witness :
  let m' := (gets [Some 108; Some 115; Some 10; Some 120] ∅ 100 4).1 in
  read_bytes 3 m' 100 = [108; 115; 10] /\ read8 m' 103 = 0.
Proof.
  destruct (gets_stays_in_buffer [Some 108; Some 115; Some 10; Some 120] ∅ 100 4) as (_ & H1 & H2 & _); [lia|repeat constructor; lia|].
  split; [exact H1|exact H2].
Defined.

(** ** The shell *)

(** C29: the shell runs the commands that are typed.  For every list of command
    trees typed as text, one per line, and for any answer of each call of
    open(), pipe(), fork() and exec(), the shell prompts, forks a child for each
    line, waits for it and exits at the end of the input; and the processes of a
    line are those of the tree: each program starts with exactly its three
    standard streams open, redirected and connected by pipes as the tree says; a
    process that waits has only its own three streams open, and in particular
    no end of the pipe between the processes it waits for; a list runs its right
    side after the left one has ended, a background command is not waited for. *)
Theorem shell_runs_commands os m buf fs cs :
  console_opens os -> (length fs <= 3)%nat -> Forall typable_cmd cs ->
  sh_main os (concat (typed <$> (show 0 <$> cs))) m buf (std_table fs) = session_plan os 1 cs (std_streams fs).
Proof. apply sh_main_commands. Qed.

(** Everything succeeds but the exec() of the left side of the pipe. *)
Definition demo_os : answers := mkOs (fun _ _ _ => true) (fun id _ => bool_decide (id <> [1; 0]%nat)) (fun _ => true) (fun _ => true) (fun _ _ => true).
(** ls | wc > o *)
Definition demo_pipe : cmd (list Z) := PIPE (EXEC [[108; 115]]) (REDIR (EXEC [[119; 99]]) [111] (Z.lor (Z.lor M_WRONLY M_CREATE) M_TRUNC) 1).
Lemma demo_pipe_typable : typable_cmd demo_pipe.
Proof.
  split; [|split; [split; [apply (bool_decide_unpack _); by vm_compute|by apply Nat.ltb_lt]|by vm_compute]].
  cbn. repeat (split || constructor || discriminate || (unfold MAXARGS; lia)); unfold whitespace, symbols, redir_ok; set_solver.
Qed.
Lemma shell_runs_commands_witness :
  sh_main demo_os (typed [32; 108; 115; 124; 32; 119; 99; 32; 62; 111]) ∅ 4096 (std_table [Console]) =
  BSay prompt (BFork
    (BFork (say (chrs "exec %s failed" ++ [10]) [Text (Some [108; 115])] (BExit 0))
      (BFork (BRun [[119; 99]] (std_table [PipeRead [1%nat]; Opened [111] (Z.lor (Z.lor M_WRONLY M_CREATE) M_TRUNC); Console]))
        (BWait (std_table [Console; Console; Console]) (BWait (std_table [Console; Console; Console]) (BExit 0)))))
    (BWait (std_table [Console; Console; Console]) (BSay prompt (BExit 0)))).
Proof.
  pose proof (shell_runs_commands demo_os ∅ 4096 [Console] [demo_pipe] (fun _ _ => eq_refl)) as E.
  refine (E _ _); [cbn; lia|]. apply Forall_cons_2; [apply demo_pipe_typable|by apply Forall_nil_2].
Defined.
