(* ===== verification/Boot.v ===== *)
(** * kernel/start.c, plic.c, uartinit() and the timer interrupt

    The machine below the kernel: the control registers of one hart, the
    registers the start-up code and timervec use, the program counter, the mode,
    and memory as aligned words, in which the device registers are words too.
    The accessors of riscv.h read and write the control registers; sie and sip
    are views of mie and mip through mideleg, whose writable bits are the three
    supervisor interrupts.  mret, and what the hart does on a timer interrupt,
    are the instructions of the privileged architecture.

    start() leaves the hart in supervisor mode at main() with the timer running;
    from then on every timer interrupt, taken by timervec (kernelvec.S) in
    machine mode, is invisible to the interrupted code except that a supervisor
    software interrupt is pending. *)

From S2P Require Import Prelude Machine.

(** ** The hart *)
Inductive csr := Mhartid | Mstatus | Mepc | Mie | Mip | Mideleg | Medeleg | Mtvec | Mscratch | Satp | Pmpcfg0 | Pmpaddr0.
#[export] Instance csr_eq_dec : EqDecision csr.
Proof. solve_decision. Defined.
Inductive gpr := A0 | A1 | A2 | A3 | Tp.
#[export] Instance gpr_eq_dec : EqDecision gpr.
Proof. solve_decision. Defined.
Record hart := mkHart { h_csr : csr -> Z; h_gpr : gpr -> Z; h_pc : Z; h_mode : Z; h_mem : gmap Z Z }.
Definition MODE_M : Z := 3.
Definition MODE_S : Z := 1.

Definition upd {A} `{EqDecision A} (a : A) (v : Z) (f : A -> Z) : A -> Z := fun b => if decide (b = a) then v else f b.
Definition set_csr (c : csr) (v : Z) (h : hart) : hart := mkHart (upd c v (h_csr h)) (h_gpr h) (h_pc h) (h_mode h) (h_mem h).
Definition set_gpr (r : gpr) (v : Z) (h : hart) : hart := mkHart (h_csr h) (upd r v (h_gpr h)) (h_pc h) (h_mode h) (h_mem h).
Definition set_word (a v : Z) (h : hart) : hart := mkHart (h_csr h) (h_gpr h) (h_pc h) (h_mode h) (<[a := v]> (h_mem h)).
Definition word (h : hart) (a : Z) : Z := default 0 (h_mem h !! a).
Local Notation H := (M hart).

(** ** riscv.h *)
Definition MSTATUS_MPP_MASK : Z := Z.shiftl 3 11.
Definition MSTATUS_MPP_S : Z := Z.shiftl 1 11.
Definition MSTATUS_MIE : Z := Z.shiftl 1 3.
Definition SIE_SEIE : Z := Z.shiftl 1 9.
Definition SIE_STIE : Z := Z.shiftl 1 5.
Definition SIE_SSIE : Z := Z.shiftl 1 1.
Definition MIE_MTIE : Z := Z.shiftl 1 7.
(** The bits of mideleg that can be set. *)
Definition DELEGABLE : Z := 0x222.

Definition r_mhartid : H Z := gets (fun h => h_csr h Mhartid).
Definition r_mstatus : H Z := gets (fun h => h_csr h Mstatus).
Definition w_mstatus (x : Z) : H unit := modify (set_csr Mstatus x).
Definition w_mepc (x : Z) : H unit := modify (set_csr Mepc x).
Definition w_satp (x : Z) : H unit := modify (set_csr Satp x).
Definition w_medeleg (x : Z) : H unit := modify (set_csr Medeleg x).
Definition w_mideleg (x : Z) : H unit := modify (set_csr Mideleg (Z.land x DELEGABLE)).
Definition r_sie : H Z := gets (fun h => Z.land (h_csr h Mie) (h_csr h Mideleg)).
Definition w_sie (x : Z) : H unit :=
  modify (fun h => set_csr Mie (Z.lor (Z.land (h_csr h Mie) (Z.lnot (h_csr h Mideleg))) (Z.land x (h_csr h Mideleg))) h).
Definition r_mie : H Z := gets (fun h => h_csr h Mie).
Definition w_mie (x : Z) : H unit := modify (set_csr Mie x).
Definition w_mtvec (x : Z) : H unit := modify (set_csr Mtvec x).
Definition w_mscratch (x : Z) : H unit := modify (set_csr Mscratch x).
Definition w_pmpcfg0 (x : Z) : H unit := modify (set_csr Pmpcfg0 x).
Definition w_pmpaddr0 (x : Z) : H unit := modify (set_csr Pmpaddr0 x).
Definition w_tp (x : Z) : H unit := modify (set_gpr Tp x).

(** mret: to mepc, in the mode of MPP; MIE from MPIE, MPIE set, MPP cleared. *)
Definition mpp (s : Z) : Z := Z.land (Z.shiftr s 11) 3.
Definition mret_status (s : Z) : Z :=
  let mie := if Z.testbit s 7 then MSTATUS_MIE else 0 in
  Z.lor (Z.lor (Z.land s (Z.lnot (Z.lor MSTATUS_MPP_MASK (Z.lor MSTATUS_MIE (Z.shiftl 1 7))))) mie) (Z.shiftl 1 7).
Definition mret (h : hart) : hart :=
  let s := h_csr h Mstatus in
  let h := set_csr Mstatus (mret_status s) h in mkHart (h_csr h) (h_gpr h) (h_csr h Mepc) (mpp s) (h_mem h).

(** ** start.c *)
Definition CLINT : Z := 0x2000000.
Definition CLINT_MTIMECMP (hartid : Z) : Z := CLINT + 0x4000 + 8 * hartid.
Definition CLINT_MTIME : Z := CLINT + 0xBFF8.
Definition interval : Z := 1000000.

Section Start.
(** The addresses of main(), timervec and timer_scratch[][]. *)
Context (main timervec timer_scratch : Z).
Definition scratch (id i : Z) : Z := timer_scratch + 8 * (5 * id + i).

Definition timerinit : H unit :=
  x <- r_mhartid;;
  let id := i32 x in
  modify (fun h => set_word (CLINT_MTIMECMP id) (u64 (word h CLINT_MTIME + interval)) h);;;
  modify (set_word (scratch id 3) (CLINT_MTIMECMP id));;;
  modify (set_word (scratch id 4) interval);;;
  w_mscratch (scratch id 0);;;
  w_mtvec timervec;;;
  x <- r_mstatus;;
  w_mstatus (Z.lor x MSTATUS_MIE);;;
  y <- r_mie;;
  w_mie (Z.lor y MIE_MTIE).

Definition start : H unit :=
  x <- r_mstatus;;
  w_mstatus (Z.lor (Z.land x (Z.lnot MSTATUS_MPP_MASK)) MSTATUS_MPP_S);;;
  w_mepc main;;;
  w_satp 0;;;
  w_medeleg 0xffff;;;
  w_mideleg 0xffff;;;
  y <- r_sie;;
  w_sie (Z.lor (Z.lor (Z.lor y SIE_SEIE) SIE_STIE) SIE_SSIE);;;
  w_pmpaddr0 0x3fffffffffffff;;;
  w_pmpcfg0 0xf;;;
  timerinit;;;
  z <- r_mhartid;;
  let id := i32 z in
  w_tp (u64 id);;;
  modify mret.

(** ** The timer interrupt *)
(** The hart takes it: to mtvec in machine mode, with interrupts off. *)
Definition trap_status (s mode : Z) : Z :=
  let mpie := if Z.testbit s 3 then Z.shiftl 1 7 else 0 in
  Z.lor (Z.lor (Z.land s (Z.lnot (Z.lor MSTATUS_MPP_MASK (Z.lor MSTATUS_MIE (Z.shiftl 1 7))))) mpie) (Z.shiftl mode 11).
Definition take_timer (h : hart) : hart :=
  let h' := set_csr Mepc (h_pc h) (set_csr Mstatus (trap_status (h_csr h Mstatus) (h_mode h)) h) in
  mkHart (h_csr h') (h_gpr h') (h_csr h' Mtvec) MODE_M (h_mem h').

Definition swap_scratch (h : hart) : hart := set_gpr A0 (h_csr h Mscratch) (set_csr Mscratch (h_gpr h A0) h).
Definition sd (r : gpr) (off : Z) (base : gpr) (h : hart) : hart := set_word (h_gpr h base + off) (h_gpr h r) h.
Definition ld (r : gpr) (off : Z) (base : gpr) (h : hart) : hart := set_gpr r (word h (h_gpr h base + off)) h.
Definition add (rd r1 r2 : gpr) (h : hart) : hart := set_gpr rd (u64 (h_gpr h r1 + h_gpr h r2)) h.
(** csrw sip: only the software interrupt can be written. *)
Definition w_sip (x : Z) (h : hart) : hart :=
  let m := Z.land (h_csr h Mideleg) 2 in set_csr Mip (Z.lor (Z.land (h_csr h Mip) (Z.lnot m)) (Z.land x m)) h.
Definition run_timervec (h : hart) : hart :=
  let h := swap_scratch h in
  let h := sd A3 16 A0 (sd A2 8 A0 (sd A1 0 A0 h)) in
  let h := ld A3 0 A1 (ld A2 32 A0 (ld A1 24 A0 h)) in
  let h := sd A3 0 A1 (add A3 A3 A2 h) in
  let h := w_sip 2 (set_gpr A1 2 h) in
  let h := ld A1 0 A0 (ld A2 8 A0 (ld A3 16 A0 h)) in
  mret (swap_scratch h).
Definition timer_interrupt (h : hart) : hart := run_timervec (take_timer h).
End Start.

(** ** plic.c *)
Definition PLIC_SENABLE (hart : Z) : Z := PLIC + 0x2080 + hart * 0x100.
Definition PLIC_SPRIORITY (hart : Z) : Z := PLIC + 0x201000 + hart * 0x2000.
Definition PLIC_SCLAIM (hart : Z) : Z := PLIC + 0x201004 + hart * 0x2000.
Definition hart_cpuid : H Z := gets (fun h => i32 (h_gpr h Tp)).
Definition plicinit : H unit :=
  modify (set_word (PLIC + UART0_IRQ * 4) 1);;;
  modify (set_word (PLIC + VIRTIO0_IRQ * 4) 1).
Definition plicinithart : H unit :=
  hart <- hart_cpuid;;
  modify (set_word (PLIC_SENABLE hart) (Z.lor (Z.shiftl 1 UART0_IRQ) (Z.shiftl 1 VIRTIO0_IRQ)));;;
  modify (set_word (PLIC_SPRIORITY hart) 0).
Definition plic_claim : H Z :=
  hart <- hart_cpuid;;
  irq <- gets (fun h => word h (PLIC_SCLAIM hart));;
  ret (i32 irq).
Definition plic_complete (irq : Z) : H unit :=
  hart <- hart_cpuid;;
  modify (set_word (PLIC_SCLAIM hart) (u32 irq)).

(** ** Registers after updates *)
Lemma upd_same {A} `{EqDecision A} (a : A) v f : upd a v f a = v.
Proof. unfold upd. by rewrite decide_True. Qed.
Lemma upd_other {A} `{EqDecision A} (a b : A) v f : b <> a -> upd a v f b = f b.
Proof. intros. unfold upd. by rewrite decide_False. Qed.
Lemma word_set a b v h : word (set_word a v h) b = if decide (a = b) then v else word h b.
Proof. unfold word, set_word. cbn [h_mem]. case_decide as E; [subst; by rewrite lookup_insert_eq|by rewrite lookup_insert_ne]. Qed.
Lemma word_set_same a v h : word (set_word a v h) a = v.
Proof. rewrite word_set. by case_decide. Qed.
Lemma word_set_other a b v h : a <> b -> word (set_word a v h) b = word h b.
Proof. intros. rewrite word_set. by case_decide. Qed.
Lemma word_csr c v h a : word (set_csr c v h) a = word h a.
Proof. done. Qed.
Lemma word_gpr r v h a : word (set_gpr r v h) a = word h a.
Proof. done. Qed.

(** ** Bits of mstatus *)
Ltac settle_bits := repeat first [rewrite bool_decide_eq_true_2 by lia | rewrite bool_decide_eq_false_2 by lia].
Lemma const_bit c n i : 0 <= c < 2 ^ n -> 0 <= n <= i -> Z.testbit c i = false.
Proof. intros Hc Hn. exact (proj1 (Z.bounded_iff_bits_nonneg n c ltac:(lia) ltac:(lia)) ltac:(lia) i ltac:(lia)). Qed.
(** The bits that a trap and mret rewrite: MIE, MPIE and the two bits of MPP. *)
Definition trap_bits : Z := Z.lor MSTATUS_MPP_MASK (Z.lor MSTATUS_MIE (Z.shiftl 1 7)).
Lemma trap_bits_spec i : 0 <= i -> Z.testbit trap_bits i = bool_decide (i = 3 \/ i = 7 \/ i = 11 \/ i = 12).
Proof.
  intros Hi. destruct (decide (i < 13)) as [Hlt|Hge].
  - assert (i ∈ seqZ 0 13) as He by (apply elem_of_seqZ; lia). revert i He Hi Hlt.
    cut (Forall (fun i => Z.testbit trap_bits i = bool_decide (i = 3 \/ i = 7 \/ i = 11 \/ i = 12)) (seqZ 0 13)); [rewrite Forall_forall; auto|].
    apply (bool_decide_unpack _). vm_compute. done.
  - rewrite (const_bit trap_bits 13); [|by vm_compute|lia]. rewrite bool_decide_eq_false_2 by lia. done.
Qed.

Lemma trap_status_bit s mode i :
  0 <= mode <= 3 -> 0 <= i ->
  Z.testbit (trap_status s mode) i =
    if decide (i = 3) then false else if decide (i = 7) then Z.testbit s 3
    else if decide (i = 11 \/ i = 12) then Z.testbit mode (i - 11) else Z.testbit s i.
Proof.
  intros Hm Hi. unfold trap_status. fold trap_bits. rewrite !Z.lor_spec, Z.land_spec, Z.lnot_spec, trap_bits_spec, Z.shiftl_spec by lia.
  assert (Z.testbit (if Z.testbit s 3 then Z.shiftl 1 7 else 0) i = (bool_decide (i = 7) && Z.testbit s 3)) as ->.
  { destruct (Z.testbit s 3); [rewrite Z.shiftl_1_l, Z.pow2_bits_eqb by lia|rewrite Z.bits_0]; case_bool_decide; try done; [subst; done|]. apply Z.eqb_neq. lia. }
  destruct (decide (13 <= i)) as [H13|H13].
  - rewrite (const_bit mode 2) by lia. rewrite !bool_decide_eq_false_2 by lia. rewrite !decide_False by lia. cbn [negb andb orb]. by rewrite andb_true_r, !orb_false_r.
  - destruct (decide (i < 11)).
    + rewrite (Z.testbit_neg_r mode) by lia. rewrite orb_false_r. rewrite (decide_False (P := i = 11 \/ i = 12)) by lia.
      repeat case_decide; subst; settle_bits; cbn [negb andb orb]; by rewrite ?andb_false_r, ?andb_true_r, ?orb_false_r.
    + rewrite (decide_True (P := i = 11 \/ i = 12)) by lia. rewrite !decide_False by lia. rewrite bool_decide_eq_true_2, bool_decide_eq_false_2 by lia. cbn [negb andb orb]. by rewrite andb_false_r.
Qed.
Lemma mret_status_bit s i :
  0 <= i ->
  Z.testbit (mret_status s) i =
    if decide (i = 3) then Z.testbit s 7 else if decide (i = 7) then true
    else if decide (i = 11 \/ i = 12) then false else Z.testbit s i.
Proof.
  intros Hi. unfold mret_status. fold trap_bits. rewrite !Z.lor_spec, Z.land_spec, Z.lnot_spec, trap_bits_spec by lia.
  assert (Z.testbit (if Z.testbit s 7 then MSTATUS_MIE else 0) i = (bool_decide (i = 3) && Z.testbit s 7)) as ->.
  { unfold MSTATUS_MIE. destruct (Z.testbit s 7); [rewrite Z.shiftl_1_l, Z.pow2_bits_eqb by lia|rewrite Z.bits_0]; case_bool_decide; try done; [subst; done|]. apply Z.eqb_neq. lia. }
  rewrite Z.shiftl_1_l, Z.pow2_bits_eqb by lia. replace (7 =? i) with (bool_decide (i = 7)) by (case_bool_decide; lia).
  repeat case_decide; subst; settle_bits; cbn [negb andb orb]; rewrite ?andb_false_r, ?andb_true_r, ?orb_false_r, ?orb_true_r; (done || (exfalso; lia)).
Qed.
Lemma mpp_trap s mode : 0 <= mode <= 3 -> mpp (trap_status s mode) = mode.
Proof.
  intros Hm. unfold mpp. apply Z.bits_inj'. intros i Hi. rewrite Z.land_spec, Z.shiftr_spec, trap_status_bit by lia.
  destruct (decide (i < 2)).
  - rewrite !decide_False by lia. rewrite decide_True by lia. replace (i + 11 - 11) with i by lia.
    assert (i = 0 \/ i = 1) as [->| ->] by lia; by rewrite andb_true_r.
  - rewrite (const_bit 3 2 i), (const_bit mode 2 i) by lia. by rewrite andb_false_r.
Qed.
(** What the interrupted code can see of mstatus is as it was. *)
Lemma status_restored s mode i :
  0 <= mode <= 3 -> 0 <= i -> i <> 7 -> i <> 11 -> i <> 12 ->
  Z.testbit (mret_status (trap_status s mode)) i = Z.testbit s i.
Proof.
  intros Hm Hi H7 H11 H12. rewrite mret_status_bit by lia. rewrite !trap_status_bit by lia. repeat case_decide; subst; try done; lia.
Qed.

Lemma sd_eq r off b c g pc m mem a v : g b + off = a -> g r = v -> sd r off b (mkHart c g pc m mem) = mkHart c g pc m (<[a := v]> mem).
Proof. by intros <- <-. Qed.
Lemma ld_eq r off b c g pc m mem a v : g b + off = a -> default 0 (mem !! a) = v -> ld r off b (mkHart c g pc m mem) = mkHart c (upd r v g) pc m mem.
Proof. by intros <- <-. Qed.
Lemma swap_eq c g pc m mem s v : c Mscratch = s -> g A0 = v -> swap_scratch (mkHart c g pc m mem) = mkHart (upd Mscratch v c) (upd A0 s g) pc m mem.
Proof. by intros <- <-. Qed.
Lemma add_eq rd r1 r2 c g pc m mem x y : g r1 = x -> g r2 = y -> add rd r1 r2 (mkHart c g pc m mem) = mkHart c (upd rd (u64 (x + y)) g) pc m mem.
Proof. by intros <- <-. Qed.
Ltac regs := repeat first [rewrite upd_same | rewrite upd_other by discriminate].
(** ** The timer interrupt is invisible *)
Section Timer.
Context (timervec timer_scratch : Z) (Hram : KERNBASE <= timer_scratch).
Local Notation scratch := (scratch timer_scratch).

Definition timer_ready (id : Z) (h : hart) : Prop :=
  h_csr h Mtvec = timervec /\ h_csr h Mscratch = scratch id 0 /\
  word h (scratch id 3) = CLINT_MTIMECMP id /\ word h (scratch id 4) = interval /\ Z.testbit (h_csr h Mideleg) 1 = true.

Lemma sip_bit h i : Z.testbit (h_csr h Mideleg) 1 = true -> 0 <= i ->
  Z.testbit (h_csr (w_sip 2 h) Mip) i = if decide (i = 1) then true else Z.testbit (h_csr h Mip) i.
Proof.
  intros Hd Hi. unfold w_sip, set_csr. cbn [h_csr]. rewrite upd_same, Z.lor_spec, Z.land_spec, Z.lnot_spec by lia. rewrite !Z.land_spec.
  assert (Z.testbit 2 i = bool_decide (i = 1)) as ->.
  { change 2 with (2 ^ 1). rewrite Z.pow2_bits_eqb by lia. case_bool_decide; lia. }
  case_decide; [subst; rewrite Hd; cbn; by rewrite orb_true_r|]. rewrite bool_decide_eq_false_2 by done. by rewrite !andb_false_r, andb_true_r, orb_false_r.
Qed.

(** What timervec leaves in memory: its three save slots and the next tick. *)
Definition ticked (id : Z) (h : hart) : hart :=
  set_word (CLINT_MTIMECMP id) (u64 (word h (CLINT_MTIMECMP id) + interval))
    (set_word (scratch id 2) (h_gpr h A3) (set_word (scratch id 1) (h_gpr h A2) (set_word (scratch id 0) (h_gpr h A1) h))).

Lemma timer_interrupt_effect id h :
  0 <= id < Z.of_nat NCPU -> timer_ready id h -> 0 <= h_mode h <= 3 ->
  let h' := timer_interrupt h in
  h_pc h' = h_pc h /\ h_mode h' = h_mode h /\ (forall r, h_gpr h' r = h_gpr h r) /\ h_mem h' = h_mem (ticked id h) /\
  (forall c, c <> Mip -> c <> Mstatus -> c <> Mepc -> h_csr h' c = h_csr h c) /\
  h_csr h' Mip = h_csr (w_sip 2 h) Mip /\ h_csr h' Mstatus = mret_status (trap_status (h_csr h Mstatus) (h_mode h)).
Proof.
  intros Hid (Ht & Hs & H3 & H4 & Hd) Hm. remember (CLINT_MTIMECMP id) as a eqn:Ea.
  assert (scratch id 0 + 8 = scratch id 1 /\ scratch id 0 + 16 = scratch id 2 /\ scratch id 0 + 24 = scratch id 3 /\ scratch id 0 + 32 = scratch id 4) as (E1 & E2 & E3 & E4)
    by (unfold Boot.scratch; lia).
  assert (a < scratch id 0 /\ scratch id 0 < scratch id 1 < scratch id 2 /\ scratch id 2 < scratch id 3 < scratch id 4) as (L0 & L1 & L2)
    by (rewrite Ea; unfold Boot.scratch, CLINT_MTIMECMP, CLINT, KERNBASE, NCPU in *; lia).
  assert (a + 0 = a) as E0 by lia.
  remember (scratch id 0) as s0 eqn:Es0.
  destruct h as [c g pc m mem]. unfold timer_interrupt, take_timer, ticked, set_csr, set_gpr, set_word, word in *. cbn [h_csr h_gpr h_pc h_mode h_mem] in *.
  unfold run_timervec. cbn zeta.
  rewrite (swap_eq _ _ _ _ _ s0 (g A0)) by (regs; done).
  rewrite (sd_eq A1 0 A0 _ _ _ _ _ s0 (g A1)) by (regs; lia || done).
  rewrite (sd_eq A2 8 A0 _ _ _ _ _ (scratch id 1) (g A2)) by (regs; lia || done).
  rewrite (sd_eq A3 16 A0 _ _ _ _ _ (scratch id 2) (g A3)) by (regs; lia || done).
  rewrite (ld_eq A1 24 A0 _ _ _ _ _ (scratch id 3) a) by (regs; rewrite ?lookup_insert_ne by lia; done).
  rewrite (ld_eq A2 32 A0 _ _ _ _ _ (scratch id 4) interval) by (regs; rewrite ?lookup_insert_ne by lia; done).
  rewrite (ld_eq A3 0 A1 _ _ _ _ _ a (default 0 (mem !! a))) by (regs; rewrite ?lookup_insert_ne by lia; done).
  rewrite (add_eq _ _ _ _ _ _ _ _ (default 0 (mem !! a)) interval) by (regs; done).
  rewrite (sd_eq A3 0 A1 _ _ _ _ _ a (u64 (default 0 (mem !! a) + interval))) by (regs; lia || done).
  unfold w_sip, set_gpr, set_csr. cbn [h_csr h_gpr h_pc h_mode h_mem].
  rewrite (ld_eq A3 16 A0 _ _ _ _ _ (scratch id 2) (g A3)) by (regs; rewrite ?lookup_insert_ne, ?lookup_insert_eq by lia; done).
  rewrite (ld_eq A2 8 A0 _ _ _ _ _ (scratch id 1) (g A2)) by (regs; rewrite ?lookup_insert_ne, ?lookup_insert_eq by lia; done).
  rewrite (ld_eq A1 0 A0 _ _ _ _ _ s0 (g A1)) by (regs; rewrite ?lookup_insert_ne, ?lookup_insert_eq by lia; done || lia).
  rewrite (swap_eq _ _ _ _ _ (g A0) s0) by (regs; done).
  unfold mret, set_csr. cbn [h_csr h_gpr h_pc h_mode h_mem]. regs. rewrite mpp_trap by done. split_and!; [done|done| | | |done|done]; [|by rewrite Ea, Es0|].
  - intros []; regs; done.
  - intros x N1 N2 N3. rewrite upd_other by done. destruct (decide (x = Mscratch)) as [->|]; [by regs|]. by rewrite !upd_other.
Qed.

(** The invariant of the timer, and what one interrupt does: the interrupted
    code goes on where it was, with its registers, its mode, its view of the
    status register and all of memory but the hart's own save area and compare
    register; the next tick is one interval later and a supervisor software
    interrupt is pending. *)
Lemma timer_interrupt_transparent id h :
  0 <= id < Z.of_nat NCPU -> timer_ready id h -> 0 <= h_mode h <= 3 ->
  let h' := timer_interrupt h in
  h_pc h' = h_pc h /\ h_mode h' = h_mode h /\ (forall r, h_gpr h' r = h_gpr h r) /\
  (forall i, 0 <= i -> i <> 7 -> i <> 11 -> i <> 12 -> Z.testbit (h_csr h' Mstatus) i = Z.testbit (h_csr h Mstatus) i) /\
  (forall a, a ∉ [CLINT_MTIMECMP id; scratch id 0; scratch id 1; scratch id 2] -> word h' a = word h a) /\
  word h' (CLINT_MTIMECMP id) = u64 (word h (CLINT_MTIMECMP id) + interval) /\
  (forall i, 0 <= i -> Z.testbit (h_csr h' Mip) i = if decide (i = 1) then true else Z.testbit (h_csr h Mip) i) /\
  timer_ready id h'.
Proof.
  intros Hid Hr Hm. pose proof (timer_interrupt_effect id h Hid Hr Hm) as Heff. cbv zeta in *. revert Heff. generalize (timer_interrupt h) as h'.
  intros h' (Hpc & Hmo & Hg & Hmem & Hc & Hip & Hst).
  assert (forall a, word h' a = word (ticked id h) a) as Hw by (intros; unfold word; by rewrite Hmem).
  assert (forall a, a ∉ [CLINT_MTIMECMP id; scratch id 0; scratch id 1; scratch id 2] -> word h' a = word h a) as Hout.
  { intros a Ha. rewrite Hw. unfold ticked. rewrite !word_set_other; [done|set_solver..]. }
  destruct Hr as (Ht & Hs & H3 & H4 & Hd). split_and!; [done|done|done| |done| | |].
  - intros i Hi N1 N2 N3. rewrite Hst. by apply status_restored.
  - rewrite Hw. unfold ticked. by rewrite word_set_same.
  - intros i Hi. rewrite Hip. by apply sip_bit.
  - assert (forall i, 3 <= i <= 4 -> scratch id i ∉ [CLINT_MTIMECMP id; scratch id 0; scratch id 1; scratch id 2]) as Hn.
    { intros i Hi. unfold Boot.scratch, CLINT_MTIMECMP, CLINT, KERNBASE, NCPU in *. rewrite !not_elem_of_cons. split_and!; [lia..|]. by apply not_elem_of_nil. }
    unfold timer_ready. rewrite !Hout by (apply Hn; lia). rewrite !Hc by done. done.
Qed.
Lemma timer_interrupt_delegation id h :
  0 <= id < Z.of_nat NCPU -> timer_ready id h -> 0 <= h_mode h <= 3 -> h_csr (timer_interrupt h) Mideleg = h_csr h Mideleg.
Proof. intros Hid Hr Hm. destruct (timer_interrupt_effect id h Hid Hr Hm) as (_ & _ & _ & _ & Hc & _). by apply Hc. Qed.
End Timer.

(** ** start() *)
Section Started.
Context (main timervec timer_scratch : Z) (Hram : KERNBASE <= timer_scratch).

Lemma one_bit n i : 0 <= n -> Z.testbit (Z.shiftl 1 n) i = bool_decide (i = n).
Proof. intros Hn. rewrite Z.shiftl_1_l, Z.pow2_bits_eqb by done. case_bool_decide; lia. Qed.
Lemma mpp_start s : mpp (Z.lor (Z.lor (Z.land s (Z.lnot MSTATUS_MPP_MASK)) MSTATUS_MPP_S) MSTATUS_MIE) = MODE_S.
Proof.
  unfold mpp. apply Z.bits_inj'. intros i Hi. unfold MSTATUS_MPP_S, MSTATUS_MIE.
  rewrite Z.land_spec, Z.shiftr_spec, !Z.lor_spec, Z.land_spec, Z.lnot_spec, !one_bit by lia.
  destruct (decide (i < 2)); [|by rewrite (const_bit 3 2 i), (const_bit MODE_S 2 i), andb_false_r by (unfold MODE_S; lia)].
  assert (i = 0 \/ i = 1) as [-> | ->] by lia; settle_bits.
  - cbn [Z.add]. by rewrite orb_true_r.
  - change (Z.testbit MSTATUS_MPP_MASK (1 + 11)) with true. by rewrite andb_false_r.
Qed.
Lemma mie_start m i :
  0 <= i ->
  Z.testbit (Z.lor (Z.lor (Z.land m (Z.lnot (Z.land 65535 DELEGABLE)))
    (Z.land (Z.lor (Z.lor (Z.lor (Z.land m (Z.land 65535 DELEGABLE)) SIE_SEIE) SIE_STIE) SIE_SSIE) (Z.land 65535 DELEGABLE))) MIE_MTIE) i
  = bool_decide (i ∈ [1; 5; 7; 9]) || Z.testbit m i.
Proof.
  intros Hi. change (Z.land 65535 DELEGABLE) with (Z.lor (Z.lor (Z.shiftl 1 1) (Z.shiftl 1 5)) (Z.shiftl 1 9)). unfold SIE_SEIE, SIE_STIE, SIE_SSIE, MIE_MTIE.
  rewrite ?Z.lor_spec, ?Z.land_spec, Z.lnot_spec, ?Z.lor_spec, ?Z.land_spec, ?Z.lor_spec, !one_bit by lia.
  rewrite (bool_decide_ext (i ∈ [1; 5; 7; 9]) (i = 1 \/ i = 5 \/ i = 7 \/ i = 9)) by set_solver.
  destruct (Z.testbit m i); repeat (case_bool_decide; try done); lia.
Qed.

(** A hart that start() has handed to main(). *)
Definition booted (id : Z) (h0 h : hart) : Prop :=
  h_pc h = main /\ h_mode h = MODE_S /\ h_gpr h Tp = id /\ h_csr h Satp = 0 /\
  h_csr h Medeleg = 0xffff /\ h_csr h Mideleg = DELEGABLE /\
  (forall i, 0 <= i -> Z.testbit (h_csr h Mie) i = bool_decide (i ∈ [1; 5; 7; 9]) || Z.testbit (h_csr h0 Mie) i) /\
  h_csr h Pmpaddr0 = 0x3fffffffffffff /\ h_csr h Pmpcfg0 = 0xf /\
  word h (CLINT_MTIMECMP id) = u64 (word h0 CLINT_MTIME + interval) /\
  timer_ready timervec timer_scratch id h.
(** Running the register accesses on a hart in normal form. *)
Lemma write_run {B} (f : hart -> hart) (k : unit -> H B) e h h' : f h = h' -> bind (modify f) k e h = k tt e h'.
Proof. by intros <-. Qed.
Lemma read_run {A B} (f : hart -> A) (k : A -> H B) e h v : f h = v -> bind (gets f) k e h = k v e h.
Proof. by intros <-. Qed.

Definition hart_timed (id : Z) (c : csr -> Z) : csr -> Z :=
  upd Mie (Z.lor (c Mie) MIE_MTIE) (upd Mstatus (Z.lor (c Mstatus) MSTATUS_MIE)
    (upd Mtvec timervec (upd Mscratch (scratch timer_scratch id 0) c))).
Definition mem_timed (id : Z) (mem : gmap Z Z) : gmap Z Z :=
  <[scratch timer_scratch id 4 := interval]> (<[scratch timer_scratch id 3 := CLINT_MTIMECMP id]>
    (<[CLINT_MTIMECMP id := u64 (default 0 (mem !! CLINT_MTIME) + interval)]> mem)).
Lemma timerinit_run id e c g pc m mem :
  i32 (c Mhartid) = id ->
  timerinit timervec timer_scratch e (mkHart c g pc m mem) = Ok tt e (mkHart (hart_timed id c) g pc m (mem_timed id mem)).
Proof.
  intros Hid. unfold timerinit, r_mhartid, r_mstatus, w_mstatus, r_mie, w_mie, w_mtvec, w_mscratch.
  erewrite read_run by reflexivity. cbn [h_csr]. rewrite Hid. cbv zeta.
  do 5 (erewrite write_run by reflexivity). erewrite read_run by reflexivity. erewrite write_run by reflexivity. erewrite read_run by reflexivity.
  unfold modify, set_csr, set_word. cbn [h_csr h_gpr h_pc h_mode h_mem]. regs. done.
Qed.
Lemma start_boots id e h0 :
  0 <= id < Z.of_nat NCPU -> h_csr h0 Mhartid = id ->
  exists h, start main timervec timer_scratch e h0 = Ok tt e h /\ booted id h0 h.
Proof.
  intros Hid Hh. assert (i32 id = id) as Hi by (apply i32_small; unfold NCPU in *; lia). assert (u64 id = id) as Hu by (apply u64_small; unfold NCPU in *; lia).
  destruct h0 as [c g pc m mem]. cbn [h_csr] in Hh.
  unfold start, r_mhartid, r_mstatus, w_mstatus, w_mepc, w_satp, w_medeleg, w_mideleg, r_sie, w_sie, w_pmpcfg0, w_pmpaddr0, w_tp.
  eexists. split.
  - erewrite read_run by reflexivity. do 5 (erewrite write_run by reflexivity). erewrite read_run by reflexivity.
    do 3 (erewrite write_run by reflexivity). unfold set_csr; cbn [h_csr h_gpr h_pc h_mode h_mem]. regs.
    erewrite bind_Ok; [|apply (timerinit_run id); regs; by rewrite Hh].
    erewrite read_run; [|cbn [h_csr]; unfold hart_timed; regs; exact Hh]. cbv zeta. rewrite Hi, Hu.
    unfold modify, bind, set_gpr, mret, set_csr. cbn [h_csr h_gpr h_pc h_mode h_mem]. unfold hart_timed. regs. reflexivity.
  - unfold booted, timer_ready, word. cbn [h_csr h_gpr h_pc h_mode h_mem]. regs.
    assert (CLINT_MTIMECMP id < scratch timer_scratch id 3 < scratch timer_scratch id 4) as [L1 L2] by (unfold scratch, CLINT_MTIMECMP, CLINT, KERNBASE, NCPU in *; lia).
    unfold mem_timed. split_and!; [done|apply mpp_start|done..| |done|done| |done|done| | |done].
    + intros i Hge. by apply mie_start.
    + rewrite !lookup_insert_ne, lookup_insert_eq by lia. done.
    + rewrite lookup_insert_ne, lookup_insert_eq by lia. done.
    + by rewrite lookup_insert_eq.
Qed.
Lemma booted_ready id h0 h : booted id h0 h -> timer_ready timervec timer_scratch id h.
Proof. intros Hb. apply Hb. Qed.
End Started.

(** ** The interrupt controller *)
(** The harts have registers of their own, apart from the priorities that
    plicinit() sets. *)
Lemma plic_registers_apart i j :
  0 <= i < Z.of_nat NCPU -> 0 <= j < Z.of_nat NCPU -> i <> j ->
  NoDup [PLIC + UART0_IRQ * 4; PLIC + VIRTIO0_IRQ * 4; PLIC_SENABLE i; PLIC_SENABLE j; PLIC_SPRIORITY i; PLIC_SPRIORITY j; PLIC_SCLAIM i; PLIC_SCLAIM j].
Proof.
  intros Hi Hj Hn. unfold PLIC_SENABLE, PLIC_SPRIORITY, PLIC_SCLAIM, PLIC, UART0_IRQ, VIRTIO0_IRQ, NCPU in *.
  repeat (apply NoDup_cons_2; [rewrite ?not_elem_of_cons; split_and?; try lia; apply not_elem_of_nil|]). apply NoDup_nil_2.
Qed.
(** Only the interrupts devintr() knows are enabled. *)
Definition plic_enabled (id irq : Z) (h : hart) : bool := Z.testbit (word h (PLIC_SENABLE id)) irq.
Lemma plic_started id e h :
  0 <= id < Z.of_nat NCPU -> h_gpr h Tp = id ->
  exists h', (plicinit;;; plicinithart) e h = Ok tt e h' /\
    (forall irq, 0 <= irq -> plic_enabled id irq h' = bool_decide (irq = UART0_IRQ \/ irq = VIRTIO0_IRQ)) /\
    word h' (PLIC + UART0_IRQ * 4) = 1 /\ word h' (PLIC + VIRTIO0_IRQ * 4) = 1 /\ word h' (PLIC_SPRIORITY id) = 0 /\
    (forall j, 0 <= j < Z.of_nat NCPU -> j <> id -> word h' (PLIC_SENABLE j) = word h (PLIC_SENABLE j) /\ word h' (PLIC_SPRIORITY j) = word h (PLIC_SPRIORITY j)).
Proof.
  intros Hid Htp. assert (i32 id = id) as Hi by (apply i32_small; unfold NCPU in *; lia).
  unfold plicinit, plicinithart, hart_cpuid. eexists. split.
  - rewrite bind_assoc. do 2 (erewrite write_run by reflexivity). erewrite read_run; [|cbn; rewrite Htp; exact Hi].
    erewrite write_run by reflexivity. reflexivity.
  - assert (PLIC + VIRTIO0_IRQ * 4 < PLIC + UART0_IRQ * 4 /\ PLIC + UART0_IRQ * 4 < PLIC_SENABLE id < PLIC_SPRIORITY id) as (L1 & L2)
      by (unfold PLIC_SENABLE, PLIC_SPRIORITY, PLIC, UART0_IRQ, VIRTIO0_IRQ, NCPU in *; lia).
    split_and!; [|by rewrite !word_set_other, word_set_same by lia|by rewrite !word_set_other, word_set_same by lia|by rewrite word_set_same|].
    + intros irq Hq. unfold plic_enabled. rewrite word_set_other, word_set_same by lia. rewrite Z.lor_spec, !one_bit by done.
      repeat (case_bool_decide; try done); lia.
    + intros j Hj Hn. unfold PLIC_SENABLE, PLIC_SPRIORITY, PLIC, UART0_IRQ, VIRTIO0_IRQ, NCPU in *. by rewrite !word_set_other by lia.
Qed.
Lemma u32_i32 z : u32 (i32 z) = u32 z.
Proof. unfold u32, i32. rewrite Zminus_mod_idemp_l. f_equal. lia. Qed.
(** plic_complete() gives back, at this hart's own register, the number that
    plic_claim() read there. *)
Lemma claim_complete id e h :
  0 <= id < Z.of_nat NCPU -> h_gpr h Tp = id -> 0 <= word h (PLIC_SCLAIM id) < 2 ^ 32 ->
  (irq <- plic_claim;; plic_complete irq) e h = Ok tt e (set_word (PLIC_SCLAIM id) (word h (PLIC_SCLAIM id)) h).
Proof.
  intros Hid Htp Hw. assert (i32 id = id) as Hi by (apply i32_small; unfold NCPU in *; lia).
  unfold plic_claim, plic_complete, hart_cpuid, bind, gets, ret, modify. rewrite Htp, Hi.
  by rewrite u32_i32, u32_small.
Qed.

(** ** uartinit(): the registers of the 16550

    While the divisor latch is on, registers 0 and 1 are the two bytes of the
    baud rate divisor; otherwise a write to register 0 sends a byte. *)
Module Uart.
Definition IER : Z := 1.
Definition IER_RX_ENABLE : Z := Z.shiftl 1 0.
Definition IER_TX_ENABLE : Z := Z.shiftl 1 1.
Definition FCR : Z := 2.
Definition FCR_FIFO_ENABLE : Z := Z.shiftl 1 0.
Definition FCR_FIFO_CLEAR : Z := Z.shiftl 3 1.
Definition LCR : Z := 3.
Definition LCR_EIGHT_BITS : Z := Z.shiftl 3 0.
Definition LCR_BAUD_LATCH : Z := Z.shiftl 1 7.

Record regs16550 := mkRegs { u_ier : Z; u_lcr : Z; u_fcr : Z; u_dll : Z; u_dlm : Z; u_sent : list Z }.
Definition WriteReg (reg v : Z) (u : regs16550) : regs16550 :=
  let latch := Z.testbit (u_lcr u) 7 in
  if decide (reg = 0) then
    if latch then mkRegs (u_ier u) (u_lcr u) (u_fcr u) v (u_dlm u) (u_sent u)
    else mkRegs (u_ier u) (u_lcr u) (u_fcr u) (u_dll u) (u_dlm u) (u_sent u ++ [v])
  else if decide (reg = IER) then
    if latch then mkRegs (u_ier u) (u_lcr u) (u_fcr u) (u_dll u) v (u_sent u)
    else mkRegs v (u_lcr u) (u_fcr u) (u_dll u) (u_dlm u) (u_sent u)
  else if decide (reg = FCR) then mkRegs (u_ier u) (u_lcr u) v (u_dll u) (u_dlm u) (u_sent u)
  else if decide (reg = LCR) then mkRegs (u_ier u) v (u_fcr u) (u_dll u) (u_dlm u) (u_sent u)
  else u.
Definition uartinit_regs : M regs16550 unit :=
  modify (WriteReg IER 0x00);;;
  modify (WriteReg LCR LCR_BAUD_LATCH);;;
  modify (WriteReg 0 0x03);;;
  modify (WriteReg 1 0x00);;;
  modify (WriteReg LCR LCR_EIGHT_BITS);;;
  modify (WriteReg FCR (Z.lor FCR_FIFO_ENABLE FCR_FIFO_CLEAR));;;
  modify (WriteReg IER (Z.lor IER_TX_ENABLE IER_RX_ENABLE)).

(** From any state with the latch off (and from any with it on), the uart ends
    with both interrupts on, eight data bits, cleared queues and divisor 3, the
    38.4K of the comment; no byte is sent on the way. *)
Lemma uartinit_ready e u :
  exists u', uartinit_regs e u = Ok tt e u' /\
    u_ier u' = 3 /\ u_lcr u' = 3 /\ u_fcr u' = 7 /\ 256 * u_dlm u' + u_dll u' = 3 /\ u_sent u' = u_sent u.
Proof.
  assert (exists ier dlm, WriteReg IER 0 u = mkRegs ier (u_lcr u) (u_fcr u) (u_dll u) dlm (u_sent u)) as (ier & dlm & E)
    by (unfold WriteReg; rewrite decide_False, decide_True by done; destruct (Z.testbit _ _); eauto).
  exists (mkRegs 3 3 7 3 0 (u_sent u)). split; [|done]. unfold uartinit_regs, bind, modify. by rewrite E.
Qed.
End Uart.
