(* ===== verification/PropsBoot.v ===== *)
(** * Properties: start-up and the timer *)

From S2P Require Import Prelude Machine Boot.

(** The kernel, running in supervisor mode, has left the machine-mode registers
    and the words that timervec reads as they were. *)
Definition machine_kept (timer_scratch id : Z) (h h1 : hart) : Prop :=
  h_csr h1 Mtvec = h_csr h Mtvec /\ h_csr h1 Mscratch = h_csr h Mscratch /\ h_csr h1 Mideleg = h_csr h Mideleg /\
  word h1 (scratch timer_scratch id 3) = word h (scratch timer_scratch id 3) /\
  word h1 (scratch timer_scratch id 4) = word h (scratch timer_scratch id 4).

(** C36: start() hands the hart to main() in supervisor mode, with paging off,
    traps delegated, tp holding the hart's number and the first tick one interval
    away.  From then on, at any point of the kernel or a user program that has
    left the machine-mode registers alone, a timer interrupt returns to the same
    instruction with the same mode, registers, visible status and memory (the
    hart's own save area and compare register apart), schedules the next tick
    one interval later, makes a supervisor software interrupt pending, and
    leaves everything ready for the next one. *)
Theorem timer_interrupts_invisible main timervec timer_scratch id e h0 :
  KERNBASE <= timer_scratch -> 0 <= id < Z.of_nat NCPU -> h_csr h0 Mhartid = id ->
  exists h, start main timervec timer_scratch e h0 = Ok tt e h /\ booted main timervec timer_scratch id h0 h /\
    forall h1, machine_kept timer_scratch id h h1 -> 0 <= h_mode h1 <= 3 ->
      let h2 := timer_interrupt h1 in
      h_pc h2 = h_pc h1 /\ h_mode h2 = h_mode h1 /\ (forall r, h_gpr h2 r = h_gpr h1 r) /\
      (forall i, 0 <= i -> i <> 7 -> i <> 11 -> i <> 12 -> Z.testbit (h_csr h2 Mstatus) i = Z.testbit (h_csr h1 Mstatus) i) /\
      (forall a, a ∉ CLINT_MTIMECMP id :: (scratch timer_scratch id <$> [0; 1; 2]) -> word h2 a = word h1 a) /\
      word h2 (CLINT_MTIMECMP id) = u64 (word h1 (CLINT_MTIMECMP id) + interval) /\
      Z.testbit (h_csr h2 Mip) 1 = true /\ machine_kept timer_scratch id h h2.
Proof.
  intros Hram Hid Hh. destruct (start_boots main timervec timer_scratch Hram id e h0 Hid Hh) as (h & E & Hb).
  exists h. split_and!; [done|done|]. intros h1 (K1 & K2 & K3 & K4 & K5) Hm. destruct (booted_ready _ _ _ _ _ _ Hb) as (T1 & T2 & T3 & T4 & T5).
  assert (timer_ready timervec timer_scratch id h1) as Hr by (unfold timer_ready; rewrite K1, K2, K3, K4, K5; done).
  destruct (timer_interrupt_transparent timervec timer_scratch Hram id h1 Hid Hr Hm) as (P1 & P2 & P3 & P4 & P5 & P6 & P7 & P8).
  cbv zeta. split_and!; [done..| |].
  - rewrite P7 by lia. done.
  - destruct P8 as (Q1 & Q2 & Q3 & Q4 & _). unfold machine_kept. rewrite T1, T2, T3, T4. split_and!; [exact Q1|exact Q2| |exact Q3|exact Q4].
    rewrite <- K3. by apply (timer_interrupt_delegation timervec timer_scratch Hram id).
Qed.

(** Hart 1 at reset, with a running clock. *)
Definition reset_hart : hart := mkHart (upd Mhartid 1 (fun _ => 0)) (fun _ => 7) 0x80000000 MODE_M (<[CLINT_MTIME := 500]> ∅).
Lemma timer_interrupts_invisible_witness :
  exists h, start 0x80001000 0x80002000 0x80009000 [] reset_hart = Ok tt [] h /\
    booted 0x80001000 0x80002000 0x80009000 1 reset_hart h /\ h_pc (timer_interrupt h) = h_pc h /\
    word (timer_interrupt h) (CLINT_MTIMECMP 1) = u64 (word h (CLINT_MTIMECMP 1) + interval).
Proof.
  destruct (timer_interrupts_invisible 0x80001000 0x80002000 0x80009000 1 [] reset_hart) as (h & E & Hb & Ht); [by vm_compute..|].
  assert (h_mode h = 1) as Hm by apply Hb. specialize (Ht h). cbv zeta in Ht. rewrite Hm in Ht.
  exists h. split_and!; [exact E|exact Hb|apply Ht; [|lia]|apply Ht; [|lia]]; unfold machine_kept; split_and!; reflexivity.
Defined.
